(* ===== verification/_CoqProject ===== *)
-Q . S2P
Prelude.v
Rect.v
ByteBuf.v
MstCrc.v
MstMsg.v
MstReply.v
DpAux.v
MstTransport.v
Dsc.v
DscRc.v
Syncmap.v
RbTree.v
DrmMm.v
DrmMmInv.v
DrmMmOps.v
DrmMmSearch.v
DrmMmSpec.v
DrmMmScan.v
Fourcc.v
Gem.v
Framebuffer.v
GemInv.v
GemSystem.v
Modes.v
ModeList.v
ModeUser.v
ModeGen.v
CmdLine.v
CmdLineTotal.v
CmdLineSpec.v
Edid.v
EdidBlocks.v
EdidSpec.v
EdidDdc.v
EdidTiming.v
VmaManager.v
GemMmap.v
GemMmapInv.v
