(* ===== verification/Prelude.v ===== *)
(** * Verification library for the DRM core algorithms

    The repository ports Intel graphics drivers to another kernel and carries with it the
    tree of the Linux Direct Rendering Manager, under
    src/others/drm_extracted/drivers/gpu/drm (abbreviated DRM below) and its headers under
    src/others/drm_extracted/include.  This library models the algorithms of that tree
    that do not depend on a particular device: they parse what a sink or user space sent,
    allocate, count references, or compute what hardware is programmed with.  Each is
    translated function by function, under the name it has in C, with the integer widths,
    early returns and error codes of the code, and proved against a statement of what its
    callers rely on.

    ** The parts and where they are

    - Rect.v: DRM/drm_rect.c.  Intersection, scaled clipping, scale factors, rotation.
    - ByteBuf.v: byte arrays with checked accesses and the arithmetic of packed fields, for
      the codecs that follow.
    - MstCrc.v, MstMsg.v, MstReply.v, MstTransport.v: the sideband channel of
      DRM/display/drm_dp_mst_topology.c.  The CRCs as polynomial remainders; the headers
      and requests, encoded and decoded; the parsers of replies and up requests; and the
      transport, which cuts a message into chunks, writes them to DPCD registers and puts
      together what arrives.  The transport calls the first three and DpAux.v.
    - DpAux.v: DPCD reads and writes of DRM/display/drm_dp_helper.c, with their retries,
      for any hardware behind the callback aux->transfer.  The class [DpcdDevice] is the
      contract of a device for the registers it keeps, among them the mailboxes of the
      sideband channel; the transport is proved against it.
    - Dsc.v, DscRc.v: DRM/display/drm_dsc_helper.c.  The picture parameter set and the
      rate control parameters, from a table row to the 128 bytes sent to the sink.
    - Syncmap.v: DRM/i915/i915_syncmap.c.  A compressed radix tree in a store of nodes.
    - RbTree.v: what users of include/linux/rbtree.h see of a tree.  The class [RbTree] and
      its laws stand for the rebalancing of lib/rbtree.c.
    - DrmMm.v, DrmMmInv.v, DrmMmOps.v, DrmMmSearch.v, DrmMmSpec.v, DrmMmScan.v:
      DRM/drm_mm.c, the range allocator, on top of RbTree.v.  Its state and operations; the
      invariant of its structures; that every operation keeps it; where the search through
      the holes goes; the refinement of a map from nodes to ranges; interval queries and
      eviction scans.
    - Fourcc.v: DRM/drm_fourcc.c, the table of pixel formats and the geometry of planes.
    - Gem.v, Framebuffer.v: DRM/drm_gem.c and DRM/drm_framebuffer.c with
      DRM/drm_gem_framebuffer_helper.c.  Objects, handles, names, framebuffers on them.
    - GemInv.v, GemSystem.v: the reference counts of the former two in a system of users
      that call them in any order.
    - VmaManager.v: DRM/drm_vma_manager.c on top of the range allocator.  The ranges of the
      offset space, the lookup of the object at an offset, the files an object is open to.
    - GemMmap.v, GemMmapInv.v: the device of Gem.v and VmaManager.v together.  Grants that
      follow handles, offsets, and mmap() of a device file.
    - Modes.v, ModeList.v, ModeUser.v, ModeGen.v: DRM/drm_modes.c.  Modes, the merge of
      probed modes, the way to user space and back, and the CVT and GTF timings.
    - CmdLine.v, CmdLineTotal.v, CmdLineSpec.v: the mode lines of the kernel command line,
      parsed by the same file.  The parser; that it stays inside the line; what a line of
      the documented form gives.
    - Edid.v, EdidBlocks.v, EdidSpec.v, EdidDdc.v, EdidTiming.v: DRM/drm_edid.c as far as
      it fetches and checks the blocks of an EDID and makes modes of its detailed timings.
      The functions and the container [drm_edid]; checks as functions of 128 bytes; what a
      read returns; the I2C transfers below it; the walk over the descriptors.  The class
      [BlockReader] is the contract of a block function, which the one for I2C fulfils.

    ** How the code is represented

    An integer of a C type is a [Z]; [u8] to [u64] and [s32] below are the conversions.
    Code that reads outside an array, dereferences NULL or freed memory or divides by zero
    has no result ([None]), so that a theorem which gives it one excludes these.  Error
    codes are the negative numbers the code returns.  Structures are records, memory whose
    sharing matters is a store addressed by locations or identifiers, and a function that
    changes its arguments returns them.  A loop that is not structural has fuel, and a
    theorem says that the fuel given is enough: 400 writes for the 48 bytes of a chunk with
    their retries, 64 reads for the rest of a chunk and 7 chunks of at least 37 bytes for a
    message of 256 (MstTransport.v), one round of a search for every hole of an allocator
    (DrmMm.v), [MAX_BLOCKS] blocks of an EDID, whose number is a byte and one, and a
    [DEPTH] of 17 layers in a syncmap, whose heights are multiples of 4 up to 60.

    ** What the theorems show

    - Codecs: encoding and decoding sideband headers, requests and picture parameter sets
      are inverse to each other (C8, C9, C17, C21); the checks of the sideband channel are
      remainders of polynomials (C7); parsers accept what is laid out as on the wire (C10),
      read outside a message only for the read counts named, and accept only what was
      received (C11, C12); a table row is loaded or rejected as a whole (C18); modes survive
      the way to user space and back (C33); a mode line gives the mode it describes (C37).
    - Displays: an EDID that is read consists of sound blocks, whatever the display sends
      (C38), and is that of the display if its blocks are sound (C39); its timings are read
      inside of it and make the modes that they describe (C40).
    - Transport: a DPCD access is decided by the first complete one of its attempts (C13);
      what the sender splits the receiver puts together, and one request is under way at
      a time (C14 to C16).
    - Data structures against abstract ones: the syncmap is a finite map (C4) that failures
      leave alone (C5) and that is freed without a leak (C6); the range allocator is a map
      from nodes to disjoint ranges (C22 to C24), puts them where the mode says (C25),
      answers overlap queries (C26) and makes room by eviction (C27).
    - Reference counts: every GEM object counts exactly its holders, nothing is leaked or
      touched after it is freed (C30), and errors change nothing (C31).
    - Access: the offset manager is a map of ranges and a count of grants (C35), and a file
      maps an object exactly when it has a handle to it (C36).
    - Arithmetic: rectangles (C1 to C3, C20), rate control (C19), formats (C28), pixels of
      a framebuffer inside its object (C29), generated modes (C34).  Each states the ranges
      for which nothing wraps.
    - Lists: the modes of a connector after a probe (C32).

    The lemmas next to some theorems show inputs for which the code does something else
    than it is meant to; they are the findings of the manifest.

    ** What is not modelled

    - Outside of the sources, and arguments or classes here: memory allocation, the AUX
      hardware, the rebalancing of red-black trees, idr_alloc(), list_sort(), simple_strtol(),
      strnchr(), i2c_transfer(), the hooks of drivers, the unmapping of pages.
    - Locks and threads: operations run one after the other, except that [change_handle_race]
      of GemSystem.v interleaves two.  Counters of references are unbounded.
    - In the modelled files: printing, debugging and tracing; the topology tree, payloads
      and probing work of MST; link training and backlights; prime buffers,
      page faults and LRU lists of GEM; the removal of framebuffers from planes; the television
      modes of drm_modes.c.
    - The rest of DRM (atomic state, the other contents of an EDID, DisplayID, ioctls,
      files, properties, vblanks, ...), the drivers i915, xe and virtio, and everything
      outside of src/others/drm_extracted: the kernel extension NootedBlue and its patches
      of binary drivers, decompiled code, SDK headers and tools. *)

From stdpp Require Import base numbers list option.
From Stdlib Require Import ZArith Lia Bool.
#[local] Open Scope Z_scope.

(** ** Machine integers

    A C integer of [w] bits is a [Z]; the functions below are the conversions
    the compiler inserts at an assignment, an argument or a cast.  The kernel is
    built with -fno-strict-overflow, so signed arithmetic wraps as [s32] does. *)

Definition wrapU (w x : Z) : Z := x mod 2 ^ w.

Definition wrapS (w x : Z) : Z :=
  (x + 2 ^ (w - 1)) mod 2 ^ w - 2 ^ (w - 1).

Abbreviation u8 := (wrapU 8).
Abbreviation u16 := (wrapU 16).
Abbreviation u32 := (wrapU 32).
Abbreviation u64 := (wrapU 64).
Abbreviation s32 := (wrapS 32).

Abbreviation U64_MAX := (2 ^ 64 - 1).

Definition is_u (w x : Z) : Prop := 0 <= x < 2 ^ w.
Definition is_s (w x : Z) : Prop := - 2 ^ (w - 1) <= x < 2 ^ (w - 1).

Abbreviation is_u8 := (is_u 8).
Abbreviation is_u16 := (is_u 16).
Abbreviation is_u32 := (is_u 32).
Abbreviation is_u64 := (is_u 64).
Abbreviation is_s32 := (is_s 32).

(** ** errno values (include/uapi/asm-generic/errno-base.h, errno.h) *)

Abbreviation ENOENT := 2.
Abbreviation ENOMEM := 12.
Abbreviation EACCES := 13.
Abbreviation ENODEV := 19.
Abbreviation EINVAL := 22.
Abbreviation ENOSPC := 28.
Abbreviation ERANGE := 34.

(** ** Macros of include/linux used by several components *)

Definition BIT (n : Z) : Z := Z.shiftl 1 n.

(** [x & m] used as a condition. *)
Definition tst (x m : Z) : bool := negb (Z.land x m =? 0).

Definition b2z (b : bool) : Z := if b then 1 else 0.

(** do_div(n, base): the divisor is converted to uint32_t. *)
Definition DIV_ROUND_DOWN_ULL (ll d : Z) : Z := u64 ll / u32 d.
Definition DIV_ROUND_UP_ULL (ll d : Z) : Z :=
  DIV_ROUND_DOWN_ULL (u64 (ll + d - 1)) d.

(** DIV_ROUND_UP on int operands: C division truncates. *)
Definition DIV_ROUND_UP_int (n d : Z) : Z := s32 (Z.quot (s32 (s32 (n + d) - 1)) d).

(** include/linux/log2.h *)
Definition is_power_of_2 (n : Z) : bool := u64 (n - 1) <? Z.lxor n (u64 (n - 1)).

(** ** Lemmas on the conversions *)

Lemma wrapU_range w x : 0 <= w -> is_u w (wrapU w x).
Proof. intros. apply Z.mod_pos_bound, Z.pow_pos_nonneg; lia. Qed.

Lemma wrapU_small w x : is_u w x -> wrapU w x = x.
Proof. apply Z.mod_small. Qed.

Lemma wrapU_spec w x :
  0 <= w -> exists k, wrapU w x = x + k * 2 ^ w /\ 0 <= wrapU w x < 2 ^ w.
Proof.
  intros Hw. pose proof (Z.pow_pos_nonneg 2 w ltac:(lia) Hw).
  exists (- (x / 2 ^ w)). unfold wrapU.
  pose proof (Z.div_mod x (2 ^ w)). pose proof (Z.mod_pos_bound x (2 ^ w)). lia.
Qed.

Lemma wrapS_spec w x :
  0 < w ->
  exists k, wrapS w x = x + k * 2 ^ w /\ - 2 ^ (w - 1) <= wrapS w x < 2 ^ (w - 1).
Proof.
  intros Hw. unfold wrapS.
  assert (E : 2 ^ w = 2 * 2 ^ (w - 1)).
  { rewrite <- Z.pow_succ_r by lia. f_equal. lia. }
  pose proof (Z.pow_pos_nonneg 2 (w - 1)).
  exists (- ((x + 2 ^ (w - 1)) / 2 ^ w)).
  pose proof (Z.div_mod (x + 2 ^ (w - 1)) (2 ^ w)).
  pose proof (Z.mod_pos_bound (x + 2 ^ (w - 1)) (2 ^ w)). lia.
Qed.

Lemma s32_spec x :
  exists k, s32 x = x + k * 4294967296 /\ -2147483648 <= s32 x < 2147483648.
Proof. exact (wrapS_spec 32 x ltac:(lia)). Qed.

Lemma u32_spec x :
  exists k, u32 x = x + k * 4294967296 /\ 0 <= u32 x < 4294967296.
Proof. exact (wrapU_spec 32 x ltac:(lia)). Qed.

Lemma u64_spec x :
  exists k, u64 x = x + k * 18446744073709551616 /\ 0 <= u64 x < 18446744073709551616.
Proof. exact (wrapU_spec 64 x ltac:(lia)). Qed.

Lemma is_s32_iff x : is_s32 x <-> -2147483648 <= x < 2147483648.
Proof. unfold is_s. change (2 ^ (32 - 1)) with 2147483648. lia. Qed.

Lemma is_u32_iff x : is_u32 x <-> 0 <= x < 4294967296.
Proof. reflexivity. Qed.

Lemma is_u64_iff x : is_u64 x <-> 0 <= x < 18446744073709551616.
Proof. reflexivity. Qed.

(** ** Automation

    [abstract_wraps] names every conversion in the context by its defining
    congruence and range, so that [lia] decides what is left; [wrap_lia] closes
    such a goal.  [bdestr] turns the boolean tests of the code into
    propositions. *)

Ltac abstract_wrap e lem :=
  let k := fresh "k" in
  let Hk := fresh "Hk" in
  let Hr := fresh "Hr" in
  let v := fresh "v" in
  destruct lem as (k & Hk & Hr);
  set (v := e) in *; clearbody v.

Ltac is_ranges :=
  rewrite ?is_s32_iff, ?is_u32_iff, ?is_u64_iff in *.

Ltac abstract_wraps :=
  is_ranges;
  repeat match goal with
  | |- context [wrapS 32 ?x] => abstract_wrap (wrapS 32 x) (s32_spec x)
  | |- context [wrapU 32 ?x] => abstract_wrap (wrapU 32 x) (u32_spec x)
  | |- context [wrapU 64 ?x] => abstract_wrap (wrapU 64 x) (u64_spec x)
  | H : context [wrapS 32 ?x] |- _ => abstract_wrap (wrapS 32 x) (s32_spec x)
  | H : context [wrapU 32 ?x] |- _ => abstract_wrap (wrapU 32 x) (u32_spec x)
  | H : context [wrapU 64 ?x] |- _ => abstract_wrap (wrapU 64 x) (u64_spec x)
  end.

Ltac wrap_lia := abstract_wraps; lia.

Lemma s32_small x : is_s32 x -> s32 x = x.
Proof. intros. wrap_lia. Qed.

Lemma s32_range x : is_s32 (s32 x).
Proof. wrap_lia. Qed.

Lemma u32_small x : is_u32 x -> u32 x = x.
Proof. apply wrapU_small. Qed.

Lemma u64_small x : is_u64 x -> u64 x = x.
Proof. apply wrapU_small. Qed.

Ltac bdestr :=
  repeat match goal with
  | |- context [Z.ltb ?a ?b] => destruct (Z.ltb_spec a b)
  | |- context [Z.leb ?a ?b] => destruct (Z.leb_spec a b)
  | |- context [Z.eqb ?a ?b] => destruct (Z.eqb_spec a b)
  | |- context [Z.gtb ?a ?b] => rewrite (Z.gtb_ltb a b)
  | |- context [Z.geb ?a ?b] => rewrite (Z.geb_leb a b)
  end.

Create HintDb drm discriminated.
#[export] Hint Resolve s32_range wrapU_range : drm.

(** ** Computations that have a result

    [sat m P]: the computation [m] is defined and its result satisfies [P]. *)

Definition sat {A} (m : option A) (P : A -> Prop) : Prop :=
  match m with Some a => P a | None => False end.

Lemma sat_Some {A} (a : A) (P : A -> Prop) : P a -> sat (Some a) P.
Proof. done. Qed.

Lemma sat_bind {A B} (m : option A) (f : A -> option B) (P : A -> Prop) (Q : B -> Prop) :
  sat m P -> (forall a, P a -> sat (f a) Q) -> sat (m ≫= f) Q.
Proof. destruct m; cbn; [|done]. intros H Hf. by apply Hf. Qed.

Lemma sat_mono {A} (m : option A) (P Q : A -> Prop) :
  sat m P -> (forall a, P a -> Q a) -> sat m Q.
Proof. destruct m; cbn; [|done]. auto. Qed.

Lemma sat_exists {A} (m : option A) (P : A -> Prop) :
  sat m P <-> exists a, m = Some a /\ P a.
Proof.
  destruct m; cbn.
  - split; [by eauto|]. by intros (?&[= ->]&?).
  - split; [done|]. by intros (?&?&_).
Qed.

(** ** Ceiling division *)

Lemma div_ceil_bounds n d :
  0 < d -> n <= (n + d - 1) / d * d < n + d.
Proof.
  intros Hd. pose proof (Z.div_mod (n + d - 1) d).
  pose proof (Z.mod_pos_bound (n + d - 1) d). lia.
Qed.

Lemma div_floor_bounds n d : 0 < d -> n - d < n / d * d <= n.
Proof.
  intros Hd. pose proof (Z.div_mod n d). pose proof (Z.mod_pos_bound n d). lia.
Qed.

(** ** Single-bit masks *)

Lemma testbit_BIT i j : 0 <= i -> 0 <= j -> Z.testbit (BIT i) j = (i =? j).
Proof.
  intros. unfold BIT. rewrite Z.shiftl_spec by lia.
  destruct (Z.eqb_spec i j) as [->|].
  - by rewrite Z.sub_diag.
  - destruct (Z.lt_ge_cases j i); [by rewrite Z.testbit_neg_r by lia|].
    replace 1 with (2 ^ 0) by done. by rewrite Z.pow2_bits_false by lia.
Qed.

Lemma tst_BIT x i : 0 <= i -> tst x (BIT i) = Z.testbit x i.
Proof.
  intros. unfold tst. destruct (Z.eqb_spec (Z.land x (BIT i)) 0) as [E|E]; cbn.
  - assert (H' : Z.testbit (Z.land x (BIT i)) i = false) by (rewrite E; apply Z.bits_0).
    rewrite Z.land_spec, testbit_BIT, Z.eqb_refl, andb_true_r in H' by lia. done.
  - destruct (Z.testbit x i) eqn:Hb; [done|]. exfalso. apply E.
    apply Z.bits_inj'. intros j Hj. rewrite Z.land_spec, testbit_BIT, Z.bits_0 by lia.
    destruct (Z.eqb_spec i j) as [->|]; [by rewrite Hb|apply andb_false_r].
Qed.

Lemma lor_BIT_testbit x i j :
  0 <= i -> 0 <= j -> Z.testbit (Z.lor x (BIT i)) j = Z.testbit x j || (i =? j).
Proof. intros. by rewrite Z.lor_spec, testbit_BIT. Qed.

Lemma bound_testbit x w :
  0 <= w -> (0 <= x < 2 ^ w <-> 0 <= x /\ forall j, w <= j -> Z.testbit x j = false).
Proof.
  intros Hw. split.
  - intros Hx. split; [lia|]. intros j Hj.
    destruct (Z.eq_dec x 0) as [->|]; [apply Z.bits_0|].
    apply Z.bits_above_log2; [lia|]. apply Z.log2_lt_pow2; [lia|].
    apply Z.lt_le_trans with (2 ^ w); [lia|]. apply Z.pow_le_mono_r; lia.
  - intros [Hx Hb]. split; [done|].
    destruct (Z.eq_dec x 0) as [->|]; [apply Z.pow_pos_nonneg; lia|].
    apply Z.log2_lt_pow2; [lia|]. destruct (Z.lt_ge_cases (Z.log2 x) w); [done|].
    pose proof (Z.bit_log2 x ltac:(lia)). rewrite Hb in H0 by done. done.
Qed.

Lemma lor_bound x y w : 0 <= w -> 0 <= x < 2 ^ w -> 0 <= y < 2 ^ w -> 0 <= Z.lor x y < 2 ^ w.
Proof.
  intros Hw Hx Hy. apply bound_testbit in Hx as [? Hx], Hy as [? Hy]; [|done..].
  apply bound_testbit; [done|]. split; [by apply Z.lor_nonneg|].
  intros. by rewrite Z.lor_spec, Hx, Hy.
Qed.

Lemma BIT_bound i w : 0 <= i < w -> 0 <= BIT i < 2 ^ w.
Proof.
  intros. unfold BIT. rewrite Z.shiftl_1_l. split; [apply Z.pow_nonneg; lia|].
  apply Z.pow_lt_mono_r; lia.
Qed.
