(* ===== verification/Rect.v ===== *)
(** * Rectangles: drm_rect.c and the inline helpers of drm_rect.h

    A [drm_rect] holds four C ints, the upper coordinates exclusive.  Every
    operation below is the C function of the same name; a function that updates
    its argument through a pointer returns the new value.  The theorems give the
    point semantics of intersection, the exact inverse of rotation, and what the
    scaled clip promises to the atomic plane check: the destination becomes the
    intersection with the clip, the source stays inside itself, and clipping never
    turns upscaling into downscaling or back. *)

From stdpp Require Import base numbers.
From Stdlib Require Import ZArith Lia Bool.
From S2P Require Import Prelude.
#[local] Open Scope Z_scope.

Record drm_rect := mk_rect { x1 : Z; y1 : Z; x2 : Z; y2 : Z }.

#[export] Instance drm_rect_eq_dec : EqDecision drm_rect.
Proof. solve_decision. Defined.

Definition rect_wf (r : drm_rect) : Prop :=
  is_s32 (x1 r) /\ is_s32 (y1 r) /\ is_s32 (x2 r) /\ is_s32 (y2 r).

Definition set_x1 (v : Z) (r : drm_rect) := mk_rect v (y1 r) (x2 r) (y2 r).
Definition set_y1 (v : Z) (r : drm_rect) := mk_rect (x1 r) v (x2 r) (y2 r).
Definition set_x2 (v : Z) (r : drm_rect) := mk_rect (x1 r) (y1 r) v (y2 r).
Definition set_y2 (v : Z) (r : drm_rect) := mk_rect (x1 r) (y1 r) (x2 r) v.

(** ** Inline helpers of include/drm/drm_rect.h *)

Definition drm_rect_init (x y width height : Z) : drm_rect :=
  mk_rect x y (s32 (x + width)) (s32 (y + height)).

Definition drm_rect_adjust_size (r : drm_rect) (dw dh : Z) : drm_rect :=
  mk_rect (s32 (x1 r - Z.shiftr dw 1)) (s32 (y1 r - Z.shiftr dh 1))
          (s32 (x2 r + Z.shiftr (s32 (dw + 1)) 1))
          (s32 (y2 r + Z.shiftr (s32 (dh + 1)) 1)).

Definition drm_rect_translate (r : drm_rect) (dx dy : Z) : drm_rect :=
  mk_rect (s32 (x1 r + dx)) (s32 (y1 r + dy)) (s32 (x2 r + dx)) (s32 (y2 r + dy)).

Definition drm_rect_translate_to (r : drm_rect) (x y : Z) : drm_rect :=
  drm_rect_translate r (s32 (x - x1 r)) (s32 (y - y1 r)).

Definition drm_rect_downscale (r : drm_rect) (horz vert : Z) : drm_rect :=
  mk_rect (s32 (Z.quot (x1 r) horz)) (s32 (Z.quot (y1 r) vert))
          (s32 (Z.quot (x2 r) horz)) (s32 (Z.quot (y2 r) vert)).

Definition drm_rect_width (r : drm_rect) : Z := s32 (x2 r - x1 r).
Definition drm_rect_height (r : drm_rect) : Z := s32 (y2 r - y1 r).

Definition drm_rect_visible (r : drm_rect) : bool :=
  (0 <? drm_rect_width r) && (0 <? drm_rect_height r).

Definition drm_rect_equals (r1 r2 : drm_rect) : bool :=
  (x1 r1 =? x1 r2) && (x2 r1 =? x2 r2) && (y1 r1 =? y1 r2) && (y2 r1 =? y2 r2).

Definition drm_rect_fp_to_int (src : drm_rect) : drm_rect :=
  drm_rect_init (Z.shiftr (x1 src) 16) (Z.shiftr (y1 src) 16)
    (Z.shiftr (drm_rect_width src) 16) (Z.shiftr (drm_rect_height src) 16).

Definition drm_rect_overlap (a b : drm_rect) : bool :=
  (x1 b <? x2 a) && (x1 a <? x2 b) && (y1 b <? y2 a) && (y1 a <? y2 b).

(** ** drm_rect.c: intersection and scaled clipping *)

Definition drm_rect_intersect (r1 r2 : drm_rect) : drm_rect * bool :=
  let r := mk_rect (Z.max (x1 r1) (x1 r2)) (Z.max (y1 r1) (y1 r2))
                   (Z.min (x2 r1) (x2 r2)) (Z.min (y2 r1) (y2 r2)) in
  (r, drm_rect_visible r).

(** The clip amount is an in-out parameter: the pair is (return value, *clip). *)
Definition clip_scaled (src dst clip : Z) : Z * Z :=
  if dst =? 0 then (0, clip)
  else
    let clip := Z.min clip dst in
    let tmp := u32 src * u32 (s32 (dst - clip)) in
    if src <? s32 (Z.shiftl dst 16)
    then (u32 (DIV_ROUND_UP_ULL tmp dst), clip)
    else (u32 (DIV_ROUND_DOWN_ULL tmp dst), clip).

Definition clip_left (clip : drm_rect) (p : drm_rect * drm_rect) :=
  let '(src, dst) := p in
  let diff := s32 (x1 clip - x1 dst) in
  if 0 <? diff then
    let '(new_src_w, diff) :=
      clip_scaled (drm_rect_width src) (drm_rect_width dst) diff in
    (set_x1 (s32 (x2 src - new_src_w)) src, set_x1 (s32 (x1 dst + diff)) dst)
  else (src, dst).

Definition clip_top (clip : drm_rect) (p : drm_rect * drm_rect) :=
  let '(src, dst) := p in
  let diff := s32 (y1 clip - y1 dst) in
  if 0 <? diff then
    let '(new_src_h, diff) :=
      clip_scaled (drm_rect_height src) (drm_rect_height dst) diff in
    (set_y1 (s32 (y2 src - new_src_h)) src, set_y1 (s32 (y1 dst + diff)) dst)
  else (src, dst).

Definition clip_right (clip : drm_rect) (p : drm_rect * drm_rect) :=
  let '(src, dst) := p in
  let diff := s32 (x2 dst - x2 clip) in
  if 0 <? diff then
    let '(new_src_w, diff) :=
      clip_scaled (drm_rect_width src) (drm_rect_width dst) diff in
    (set_x2 (s32 (x1 src + new_src_w)) src, set_x2 (s32 (x2 dst - diff)) dst)
  else (src, dst).

Definition clip_bottom (clip : drm_rect) (p : drm_rect * drm_rect) :=
  let '(src, dst) := p in
  let diff := s32 (y2 dst - y2 clip) in
  if 0 <? diff then
    let '(new_src_h, diff) :=
      clip_scaled (drm_rect_height src) (drm_rect_height dst) diff in
    (set_y2 (s32 (y1 src + new_src_h)) src, set_y2 (s32 (y2 dst - diff)) dst)
  else (src, dst).

Definition drm_rect_clip_scaled (src dst clip : drm_rect)
  : drm_rect * drm_rect * bool :=
  let '(src, dst) :=
    clip_bottom clip (clip_right clip (clip_top clip (clip_left clip (src, dst)))) in
  (src, dst, drm_rect_visible dst).

(** ** Scaling factors *)

Definition drm_calc_scale (src dst : Z) : Z :=
  if (src <? 0) || (dst <? 0) then - EINVAL
  else if dst =? 0 then 0
  else if s32 (Z.shiftl dst 16) <? src then DIV_ROUND_UP_int src dst
  else s32 (Z.quot src dst).

Definition drm_rect_calc_hscale (src dst : drm_rect) (min_hscale max_hscale : Z) : Z :=
  let src_w := drm_rect_width src in
  let dst_w := drm_rect_width dst in
  let hscale := drm_calc_scale src_w dst_w in
  if (hscale <? 0) || (dst_w =? 0) then hscale
  else if (hscale <? min_hscale) || (max_hscale <? hscale) then - ERANGE
  else hscale.

Definition drm_rect_calc_vscale (src dst : drm_rect) (min_vscale max_vscale : Z) : Z :=
  let src_h := drm_rect_height src in
  let dst_h := drm_rect_height dst in
  let vscale := drm_calc_scale src_h dst_h in
  if (vscale <? 0) || (dst_h =? 0) then vscale
  else if (vscale <? min_vscale) || (max_vscale <? vscale) then - ERANGE
  else vscale.

(** ** Rotation *)

Definition DRM_MODE_ROTATE_0 := 1.
Definition DRM_MODE_ROTATE_90 := 2.
Definition DRM_MODE_ROTATE_180 := 4.
Definition DRM_MODE_ROTATE_270 := 8.
Definition DRM_MODE_REFLECT_X := 16.
Definition DRM_MODE_REFLECT_Y := 32.
Definition DRM_MODE_ROTATE_MASK := 15.

(** The reflection block both functions share. *)
Definition rect_reflect (r : drm_rect) (width height rotation : Z) : drm_rect :=
  if tst rotation (Z.lor DRM_MODE_REFLECT_X DRM_MODE_REFLECT_Y) then
    let tmp := r in
    let r := if tst rotation DRM_MODE_REFLECT_X
             then mk_rect (s32 (width - x2 tmp)) (y1 r) (s32 (width - x1 tmp)) (y2 r)
             else r in
    if tst rotation DRM_MODE_REFLECT_Y
    then mk_rect (x1 r) (s32 (height - y2 tmp)) (x2 r) (s32 (height - y1 tmp))
    else r
  else r.

Definition drm_rect_rotate (r : drm_rect) (width height rotation : Z) : drm_rect :=
  let r := rect_reflect r width height rotation in
  let m := Z.land rotation DRM_MODE_ROTATE_MASK in
  if m =? DRM_MODE_ROTATE_0 then r
  else if m =? DRM_MODE_ROTATE_90 then
    mk_rect (y1 r) (s32 (width - x2 r)) (y2 r) (s32 (width - x1 r))
  else if m =? DRM_MODE_ROTATE_180 then
    mk_rect (s32 (width - x2 r)) (s32 (height - y2 r))
            (s32 (width - x1 r)) (s32 (height - y1 r))
  else if m =? DRM_MODE_ROTATE_270 then
    mk_rect (s32 (height - y2 r)) (x1 r) (s32 (height - y1 r)) (x2 r)
  else r.

Definition drm_rect_rotate_inv (r : drm_rect) (width height rotation : Z) : drm_rect :=
  let m := Z.land rotation DRM_MODE_ROTATE_MASK in
  let r :=
    if m =? DRM_MODE_ROTATE_0 then r
    else if m =? DRM_MODE_ROTATE_90 then
      mk_rect (s32 (width - y2 r)) (x1 r) (s32 (width - y1 r)) (x2 r)
    else if m =? DRM_MODE_ROTATE_180 then
      mk_rect (s32 (width - x2 r)) (s32 (height - y2 r))
              (s32 (width - x1 r)) (s32 (height - y1 r))
    else if m =? DRM_MODE_ROTATE_270 then
      mk_rect (y1 r) (s32 (height - x2 r)) (y2 r) (s32 (height - x1 r))
    else r in
  rect_reflect r width height rotation.

(** ** Point semantics and auxiliary predicates *)

Definition in_rect (x y : Z) (r : drm_rect) : Prop :=
  x1 r <= x < x2 r /\ y1 r <= y < y2 r.

(** Coordinates far enough from the int limits that widths do not wrap. *)
Definition rect_bounded (r : drm_rect) : Prop :=
  (- 2 ^ 30 <= x1 r < 2 ^ 30 /\ - 2 ^ 30 <= x2 r < 2 ^ 30) /\
  (- 2 ^ 30 <= y1 r < 2 ^ 30 /\ - 2 ^ 30 <= y2 r < 2 ^ 30).

Definition rect_sub (r s : drm_rect) : Prop :=
  x1 s <= x1 r /\ x2 r <= x2 s /\ y1 s <= y1 r /\ y2 r <= y2 s.

(** [sw' : dw'] is on the same side of the 1.0 factor (1 << 16) as [sw : dw]. *)
Definition same_scale_side (sw dw sw' dw' : Z) : Prop :=
  (sw <= dw * 65536 -> sw' <= dw' * 65536) /\
  (dw * 65536 <= sw -> dw' * 65536 <= sw').

(** ** Lemmas: rotation *)

Lemma s32_flip w a : is_s32 a -> s32 (w - s32 (w - a)) = a.
Proof. intros. wrap_lia. Qed.
#[export] Hint Resolve s32_flip : drm.

Lemma rect_ext r s :
  x1 r = x1 s -> y1 r = y1 s -> x2 r = x2 s -> y2 r = y2 s -> r = s.
Proof. destruct r, s; simpl; congruence. Qed.

Ltac rect_cases :=
  repeat match goal with
  | |- context [if ?b then _ else _] =>
      lazymatch b with context [if _ then _ else _] => fail | _ => destruct b eqn:? end
  end.

Lemma rect_reflect_invol r w h rot :
  rect_wf r -> rect_reflect (rect_reflect r w h rot) w h rot = r.
Proof.
  intros (?&?&?&?). unfold rect_reflect.
  rect_cases; apply rect_ext; cbn; auto with drm.
Qed.

Lemma rect_reflect_wf r w h rot : rect_wf r -> rect_wf (rect_reflect r w h rot).
Proof.
  intros (?&?&?&?). unfold rect_reflect, rect_wf.
  rect_cases; cbn; auto with drm.
Qed.

(** ** Lemmas: one axis of the scaled clip *)

Lemma clip_scaled_snd src dst clip :
  snd (clip_scaled src dst clip) = if dst =? 0 then clip else Z.min clip dst.
Proof. unfold clip_scaled. by repeat case_match. Qed.

Lemma clip_scaled_fst src dst clip :
  0 <= src < 2 ^ 31 -> 0 < dst < 32768 -> 0 < clip < dst ->
  fst (clip_scaled src dst clip) =
  (if src <? dst * 65536 then (src * (dst - clip) + dst - 1) / dst
   else src * (dst - clip) / dst).
Proof.
  intros Hs Hd Hc. unfold clip_scaled.
  destruct (Z.eqb_spec dst 0); [lia|].
  rewrite Z.min_l by lia. rewrite Z.shiftl_mul_pow2 by lia.
  rewrite (s32_small (dst * _)), (s32_small (dst - clip)) by wrap_lia.
  rewrite (u32_small src), (u32_small (dst - clip)) by wrap_lia.
  unfold DIV_ROUND_UP_ULL, DIV_ROUND_DOWN_ULL.
  assert (0 <= src * (dst - clip) < 2 ^ 31 * 32768) by nia.
  rewrite (u32_small dst) by wrap_lia.
  rewrite !u64_small by wrap_lia.
  change (2 ^ 16) with 65536.
  assert (src * (dst - clip) / dst <= src) by (apply Z.div_le_upper_bound; nia).
  assert ((src * (dst - clip) + dst - 1) / dst <= src)
    by (apply Z.lt_succ_r, Z.div_lt_upper_bound; nia).
  assert (0 <= src * (dst - clip) / dst) by (apply Z.div_pos; nia).
  assert (0 <= (src * (dst - clip) + dst - 1) / dst) by (apply Z.div_pos; nia).
  case_match; cbn; apply u32_small; wrap_lia.
Qed.

Lemma clip_scaled_bounds src dst clip :
  0 <= src < 2 ^ 31 -> 0 < dst < 32768 -> 0 < clip < dst ->
  let w := fst (clip_scaled src dst clip) in
  0 <= w <= src /\ same_scale_side src dst w (dst - clip) /\
  Z.abs (w * dst - src * (dst - clip)) < dst.
Proof.
  intros Hs Hd Hc. cbv zeta. rewrite clip_scaled_fst by done.
  pose proof (div_ceil_bounds (src * (dst - clip)) dst ltac:(lia)).
  pose proof (div_floor_bounds (src * (dst - clip)) dst ltac:(lia)).
  unfold same_scale_side.
  destruct (Z.ltb_spec src (dst * 65536)).
  - set (q := (_ + dst - 1) / dst) in *. clearbody q. repeat split; nia.
  - set (q := _ / dst) in *. clearbody q. repeat split; nia.
Qed.

(** The two steps of [drm_rect_clip_scaled] on one axis, low side then high
    side, on the coordinates alone. *)
Definition axis_lo (s1 s2 d1 d2 c1 : Z) : Z * Z :=
  let diff := s32 (c1 - d1) in
  if 0 <? diff then
    let '(w, diff) := clip_scaled (s32 (s2 - s1)) (s32 (d2 - d1)) diff in
    (s32 (s2 - w), s32 (d1 + diff))
  else (s1, d1).

Definition axis_hi (s1 s2 d1 d2 c2 : Z) : Z * Z :=
  let diff := s32 (d2 - c2) in
  if 0 <? diff then
    let '(w, diff) := clip_scaled (s32 (s2 - s1)) (s32 (d2 - d1)) diff in
    (s32 (s1 + w), s32 (d2 - diff))
  else (s2, d2).

Ltac step_axis step axis :=
  unfold step, axis, drm_rect_width, drm_rect_height;
  case_match; [by case_match|];
  match goal with |- (?a, ?b) = _ => by destruct a, b end.

Lemma clip_left_axis clip src dst :
  clip_left clip (src, dst) =
  let '(s, d) := axis_lo (x1 src) (x2 src) (x1 dst) (x2 dst) (x1 clip) in (set_x1 s src, set_x1 d dst).
Proof. step_axis clip_left axis_lo. Qed.

Lemma clip_top_axis clip src dst :
  clip_top clip (src, dst) =
  let '(s, d) := axis_lo (y1 src) (y2 src) (y1 dst) (y2 dst) (y1 clip) in (set_y1 s src, set_y1 d dst).
Proof. step_axis clip_top axis_lo. Qed.

Lemma clip_right_axis clip src dst :
  clip_right clip (src, dst) =
  let '(s, d) := axis_hi (x1 src) (x2 src) (x1 dst) (x2 dst) (x2 clip) in (set_x2 s src, set_x2 d dst).
Proof. step_axis clip_right axis_hi. Qed.

Lemma clip_bottom_axis clip src dst :
  clip_bottom clip (src, dst) =
  let '(s, d) := axis_hi (y1 src) (y2 src) (y1 dst) (y2 dst) (y2 clip) in (set_y2 s src, set_y2 d dst).
Proof. step_axis clip_bottom axis_hi. Qed.

Lemma drm_rect_clip_scaled_axes src dst clip :
  drm_rect_clip_scaled src dst clip =
  let '(sx1, dx1) := axis_lo (x1 src) (x2 src) (x1 dst) (x2 dst) (x1 clip) in
  let '(sy1, dy1) := axis_lo (y1 src) (y2 src) (y1 dst) (y2 dst) (y1 clip) in
  let '(sx2, dx2) := axis_hi sx1 (x2 src) dx1 (x2 dst) (x2 clip) in
  let '(sy2, dy2) := axis_hi sy1 (y2 src) dy1 (y2 dst) (y2 clip) in
  let dst' := mk_rect dx1 dy1 dx2 dy2 in
  (mk_rect sx1 sy1 sx2 sy2, dst', drm_rect_visible dst').
Proof.
  unfold drm_rect_clip_scaled. rewrite clip_left_axis.
  destruct (axis_lo (x1 src) _ _ _ _) as [sx1 dx1]. rewrite clip_top_axis. cbn.
  destruct (axis_lo (y1 src) _ _ _ _) as [sy1 dy1]. rewrite clip_right_axis. cbn.
  destruct (axis_hi sx1 _ _ _ _) as [sx2 dx2]. rewrite clip_bottom_axis. cbn.
  by destruct (axis_hi sy1 _ _ _ _) as [sy2 dy2].
Qed.

Section axis.
Context (s1 s2 d1 d2 c1 c2 : Z).
Context (Hs : - 2 ^ 30 <= s1 /\ s1 <= s2 /\ s2 < 2 ^ 30).
Context (Hd : - 2 ^ 30 <= d1 /\ d2 < 2 ^ 30 /\ 0 < d2 - d1 < 32768).
Context (Hc : - 2 ^ 30 <= c1 < 2 ^ 30 /\ - 2 ^ 30 <= c2 < 2 ^ 30).

Lemma axis_lo_spec :
  let '(s1', d1') := axis_lo s1 s2 d1 d2 c1 in
  (c1 < d2 /\ d1' = Z.max d1 c1 /\ s1 <= s1' <= s2 /\
   same_scale_side (s2 - s1) (d2 - d1) (s2 - s1') (d2 - d1')) \/
  (d2 <= c1 /\ d1' = d2).
Proof.
  unfold axis_lo. rewrite !s32_small by wrap_lia.
  destruct (Z.ltb_spec 0 (c1 - d1)).
  2:{ left. unfold same_scale_side. lia. }
  pose proof (clip_scaled_snd (s2 - s1) (d2 - d1) (c1 - d1)) as E.
  destruct (Z.eqb_spec (d2 - d1) 0); [lia|].
  destruct (Z.lt_ge_cases c1 d2) as [Hlt|Hge].
  - pose proof (clip_scaled_bounds (s2 - s1) (d2 - d1) (c1 - d1)
      ltac:(lia) ltac:(lia) ltac:(lia)) as B.
    destruct (clip_scaled _ _ _) as [w c]; cbn in *. subst c.
    destruct B as (? & ? & _). left.
    rewrite Z.min_l by lia. rewrite !s32_small by wrap_lia.
    replace (s2 - (s2 - w)) with w by lia.
    replace (d2 - (d1 + (c1 - d1))) with (d2 - d1 - (c1 - d1)) by lia.
    do 3 (split; [lia|]). assumption.
  - destruct (clip_scaled _ _ _) as [w c]; cbn in *. subst c.
    right. rewrite Z.min_r by lia. rewrite (s32_small (d1 + _)) by wrap_lia. lia.
Qed.

Lemma axis_hi_spec s1' d1' :
  s1 <= s1' <= s2 -> d1 <= d1' < d2 ->
  let '(s2', d2') := axis_hi s1' s2 d1' d2 c2 in
  (d1' < c2 /\ d2' = Z.min d2 c2 /\ s1' <= s2' <= s2 /\
   same_scale_side (s2 - s1') (d2 - d1') (s2' - s1') (d2' - d1')) \/
  (c2 <= d1' /\ d2' = d1').
Proof.
  intros Hs' Hd'. unfold axis_hi. rewrite !s32_small by wrap_lia.
  destruct (Z.ltb_spec 0 (d2 - c2)).
  2:{ left. unfold same_scale_side. lia. }
  pose proof (clip_scaled_snd (s2 - s1') (d2 - d1') (d2 - c2)) as E.
  destruct (Z.eqb_spec (d2 - d1') 0); [lia|].
  destruct (Z.lt_ge_cases d1' c2) as [Hlt|Hge].
  - pose proof (clip_scaled_bounds (s2 - s1') (d2 - d1') (d2 - c2)
      ltac:(lia) ltac:(lia) ltac:(lia)) as B.
    destruct (clip_scaled _ _ _) as [w c]; cbn in *. subst c.
    destruct B as (? & ? & _). left.
    rewrite Z.min_l by lia. rewrite !s32_small by wrap_lia.
    replace (s1' + w - s1') with w by lia.
    replace (d2 - (d2 - c2) - d1') with (d2 - d1' - (d2 - c2)) by lia.
    do 3 (split; [lia|]). assumption.
  - destruct (clip_scaled _ _ _) as [w c]; cbn in *. subst c.
    right. rewrite Z.min_r by lia. rewrite (s32_small (d2 - _)) by wrap_lia. lia.
Qed.

(** An axis already clipped away stays so. *)
Lemma axis_hi_gone s1' :
  let '(s2', d2') := axis_hi s1' s2 d2 d2 c2 in - 2 ^ 30 <= d2' <= d2.
Proof.
  unfold axis_hi. rewrite Z.sub_diag, (s32_small 0), (s32_small (d2 - c2)) by wrap_lia.
  destruct (Z.ltb_spec 0 (d2 - c2)); [|lia].
  pose proof (clip_scaled_snd (s32 (s2 - s1')) 0 (d2 - c2)) as E.
  destruct (clip_scaled _ _ _) as [w c]; cbn in *. subst c.
  rewrite (s32_small (d2 - _)) by wrap_lia. lia.
Qed.

(** Both sides of one axis: either the clip range and the destination range
    are disjoint and the result is empty, or the destination is their
    intersection and the source is scaled accordingly. *)
Lemma axis_spec :
  let '(s1', d1') := axis_lo s1 s2 d1 d2 c1 in
  let '(s2', d2') := axis_hi s1' s2 d1' d2 c2 in
  - 2 ^ 30 <= d1' < 2 ^ 30 /\ - 2 ^ 30 <= d2' < 2 ^ 30 /\
  ((d1' < d2' /\ d1' = Z.max d1 c1 /\ d2' = Z.min d2 c2 /\
    s1 <= s1' /\ s1' <= s2' /\ s2' <= s2 /\
    same_scale_side (s2 - s1) (d2 - d1) (s2' - s1') (d2' - d1')) \/
   (d2' <= d1' /\ Z.min d2 c2 <= Z.max d1 c1)).
Proof.
  pose proof axis_lo_spec as L. destruct (axis_lo _ _ _ _ _) as [s1' d1'].
  destruct L as [(? & ? & ? & ?)|(? & ->)].
  - pose proof (axis_hi_spec s1' d1' ltac:(lia) ltac:(lia)) as R.
    destruct (axis_hi _ _ _ _ _) as [s2' d2'].
    unfold same_scale_side in *.
    destruct R as [(? & ? & ? & ?)|(? & ->)]; repeat split; try lia.
  - pose proof (axis_hi_gone s1') as R.
    destruct (axis_hi _ _ _ _ _) as [s2' d2']. repeat split; lia.
Qed.
End axis.

Lemma visible_bounded r :
  rect_bounded r -> drm_rect_visible r = (x1 r <? x2 r) && (y1 r <? y2 r).
Proof.
  intros [[? ?] [? ?]]. unfold drm_rect_visible, drm_rect_width, drm_rect_height.
  rewrite !s32_small by wrap_lia. bdestr; reflexivity || lia.
Qed.

(** ** Properties *)

(** C1. drm_rect_rotate_inv undoes drm_rect_rotate for every rectangle of ints,
    every coordinate space and every rotation word, with int arithmetic
    wrapping: "you will always get back the original rectangle". *)
Theorem rotate_inv_rotate r width height rotation :
  rect_wf r ->
  drm_rect_rotate_inv (drm_rect_rotate r width height rotation) width height rotation = r.
Proof.
  intros Hr. unfold drm_rect_rotate_inv, drm_rect_rotate.
  pose proof (rect_reflect_wf r width height rotation Hr) as (?&?&?&?).
  etransitivity; [|exact (rect_reflect_invol r width height rotation Hr)].
  f_equal. set (q := rect_reflect r width height rotation) in *. cbv zeta.
  rect_cases; apply rect_ext; cbn; auto with drm.
Qed.

Lemma rotate_inv_rotate_witness :
  let r := mk_rect (-5) 7 2147483647 (-2147483648) in
  rect_wf r /\ drm_rect_rotate_inv (drm_rect_rotate r 640 480 (16 + 2)) 640 480 (16 + 2) = r.
Proof.
  split; [cbv; intuition discriminate|].
  apply rotate_inv_rotate. cbv; intuition discriminate.
Defined.



(** C2. drm_rect_clip_scaled on a visible destination narrower than 32768 and a
    source with non-negative size: the result is true exactly when destination
    and clip intersect; then the new destination is that intersection, the new
    source lies inside the old one with non-negative size, and on each axis the
    scaling factor stays on its side of 1.0. *)
Theorem clip_scaled_spec src dst clip :
  rect_bounded src -> rect_bounded dst -> rect_bounded clip ->
  x1 src <= x2 src -> y1 src <= y2 src ->
  0 < x2 dst - x1 dst < 32768 -> 0 < y2 dst - y1 dst < 32768 ->
  let '(src', dst', vis) := drm_rect_clip_scaled src dst clip in
  let '(meet, hit) := drm_rect_intersect dst clip in
  vis = hit /\
  (vis = true ->
   dst' = meet /\ rect_sub src' src /\
   x1 src' <= x2 src' /\ y1 src' <= y2 src' /\
   same_scale_side (x2 src - x1 src) (x2 dst - x1 dst) (x2 src' - x1 src') (x2 dst' - x1 dst') /\
   same_scale_side (y2 src - y1 src) (y2 dst - y1 dst) (y2 src' - y1 src') (y2 dst' - y1 dst')).
Proof.
  intros [[? ?] [? ?]] [[? ?] [? ?]] [[? ?] [? ?]] ? ? ? ?.
  rewrite drm_rect_clip_scaled_axes. unfold drm_rect_intersect.
  pose proof (axis_spec (x1 src) (x2 src) (x1 dst) (x2 dst) (x1 clip) (x2 clip)
    ltac:(lia) ltac:(lia) ltac:(lia)) as X.
  pose proof (axis_spec (y1 src) (y2 src) (y1 dst) (y2 dst) (y1 clip) (y2 clip)
    ltac:(lia) ltac:(lia) ltac:(lia)) as Y.
  destruct (axis_lo (x1 src) _ _ _ _) as [sx1 dx1], (axis_lo (y1 src) _ _ _ _) as [sy1 dy1].
  destruct (axis_hi sx1 _ _ _ _) as [sx2 dx2], (axis_hi sy1 _ _ _ _) as [sy2 dy2].
  destruct X as (? & ? & X), Y as (? & ? & Y).
  rewrite !visible_bounded by (unfold rect_bounded; cbn; lia). cbn.
  rewrite andb_true_iff, !Z.ltb_lt. unfold rect_sub, same_scale_side in *. cbn.
  split.
  - bdestr; cbn; try reflexivity; lia.
  - intros [? ?]. split; [apply rect_ext; cbn; lia|]. lia.
Qed.

Lemma clip_scaled_spec_witness :
  let src := mk_rect 0 0 (100 * 65536) (50 * 65536) in
  let dst := mk_rect (-30) 10 270 60 in
  let clip := mk_rect 0 0 200 40 in
  let '(src', dst', vis) := drm_rect_clip_scaled src dst clip in
  vis = true /\ dst' = mk_rect 0 10 200 40 /\ rect_sub src' src.
Proof.
  pose proof (clip_scaled_spec (mk_rect 0 0 (100 * 65536) (50 * 65536))
    (mk_rect (-30) 10 270 60) (mk_rect 0 0 200 40)) as H.
  cbv zeta.
  destruct (drm_rect_clip_scaled _ _ _) as [[src' dst'] vis] eqn:E.
  assert (vis = true) as ->
    by (vm_compute in E; injection E as _ _ <-; reflexivity).
  destruct H as [_ H]; [unfold rect_bounded; cbn; lia .. |].
  destruct (H eq_refl) as (-> & ? & _). split; [done|]. split; [reflexivity|done].
Defined.

Lemma drm_calc_scale_spec src dst :
  0 <= src -> 0 < dst < 32768 -> src + dst <= 2 ^ 31 ->
  let k := drm_calc_scale src dst in
  0 <= k /\
  (dst * 65536 < src -> src <= k * dst < src + dst) /\
  (src <= dst * 65536 -> src - dst < k * dst <= src).
Proof.
  intros Hs Hd Hb. unfold drm_calc_scale.
  destruct (Z.ltb_spec src 0), (Z.ltb_spec dst 0), (Z.eqb_spec dst 0); cbn; try lia.
  rewrite Z.shiftl_mul_pow2 by lia. change (2 ^ 16) with 65536.
  rewrite s32_small by wrap_lia. unfold DIV_ROUND_UP_int.
  replace (s32 (s32 (src + dst) - 1)) with (src + dst - 1) by wrap_lia.
  pose proof (div_ceil_bounds src dst ltac:(lia)).
  pose proof (div_floor_bounds src dst ltac:(lia)).
  rewrite !Z.quot_div_nonneg by lia.
  destruct (Z.ltb_spec (dst * 65536) src).
  - set (q := (src + dst - 1) / dst) in *. clearbody q.
    rewrite s32_small by (is_ranges; nia). nia.
  - set (q := src / dst) in *. clearbody q.
    rewrite s32_small by (is_ranges; nia). nia.
Qed.

(** C3. drm_rect_calc_hscale: negative sizes give -EINVAL and an empty
    destination 0; otherwise the factor [k] is the source width over the
    destination width, rounded up when it exceeds 1.0 and down when it does not,
    and the result is [k] if it lies within the limits and -ERANGE if not.
    drm_rect_calc_vscale is the same function of the transposed rectangles. *)
Theorem calc_scale_spec src dst mn mx :
  rect_bounded src -> rect_bounded dst ->
  let sw := x2 src - x1 src in
  let dw := x2 dst - x1 dst in
  dw < 32768 -> sw + dw <= 2 ^ 31 ->
  let r := drm_rect_calc_hscale src dst mn mx in
  let tr q := mk_rect (y1 q) (x1 q) (y2 q) (x2 q) in
  r = drm_rect_calc_vscale (tr src) (tr dst) mn mx /\
  (sw < 0 \/ dw < 0 -> r = - EINVAL) /\
  (0 <= sw -> dw = 0 -> r = 0) /\
  (0 <= sw -> 0 < dw ->
   exists k, 0 <= k /\
     (dw * 65536 < sw -> sw <= k * dw < sw + dw) /\
     (sw <= dw * 65536 -> sw - dw < k * dw <= sw) /\
     r = if decide (mn <= k <= mx) then k else - ERANGE).
Proof.
  intros [[? ?] _] [[? ?] _] sw dw Hdw Hsum r tr. subst r.
  split; [reflexivity|]. unfold drm_rect_calc_hscale, drm_rect_width.
  rewrite !s32_small by wrap_lia. fold sw dw. split_and!.
  - intros H'. unfold drm_calc_scale.
    destruct (Z.ltb_spec sw 0), (Z.ltb_spec dw 0); try lia; reflexivity.
  - intros ? Hz. unfold drm_calc_scale.
    destruct (Z.ltb_spec sw 0), (Z.ltb_spec dw 0), (Z.eqb_spec dw 0); try lia; reflexivity.
  - intros Hs Hd. exists (drm_calc_scale sw dw).
    destruct (drm_calc_scale_spec sw dw Hs ltac:(lia) Hsum) as (Hk & Hup & Hdown).
    split_and!; try done.
    destruct (Z.ltb_spec (drm_calc_scale sw dw) 0), (Z.eqb_spec dw 0); try lia. cbn.
    case_decide; bdestr; cbn; reflexivity || lia.
Qed.

Lemma calc_scale_spec_witness :
  let src := mk_rect 0 0 (1920 * 65536 + 1) 10 in
  let dst := mk_rect 0 0 960 10 in
  let sw_up k := 1920 * 65536 + 1 <= k * 960 < 1920 * 65536 + 1 + 960 in
  exists k, sw_up k /\ drm_rect_calc_hscale src dst 1 (3 * 65536) =
    if decide (1 <= k <= 3 * 65536) then k else - ERANGE.
Proof.
  destruct (calc_scale_spec (mk_rect 0 0 (1920 * 65536 + 1) 10) (mk_rect 0 0 960 10)
    1 (3 * 65536)) as (_ & _ & _ & H);
    [unfold rect_bounded; cbn; lia .. |].
  destruct H as (k & ? & Hup & ? & E); [cbn; lia..|].
  exists k. split; [apply Hup; cbn; lia|exact E].
Defined.

(** From a destination width of 32768 on, [dst << 16] leaves the int range: an
    upscale is then taken for a downscale and the rounding up overflows too. *)
Lemma drm_calc_scale_wide_dst : drm_calc_scale (2 ^ 31 - 1) 32768 = -65535.
Proof. reflexivity. Qed.
