(* ===== verification/ByteBuf.v ===== *)
(** * Byte buffers and packed bit fields

    C arrays of u8 as lists of [Z] with bounds-checked access: an access outside
    the array is undefined behaviour and has no result ([None]).  A writer is the
    pair of a buffer and the index the encoders of the DRM tree keep in [idx];
    [emits] is the shape they all reduce to.  The second half turns the masks,
    shifts and ors that pack fields into bytes into arithmetic that [lia]
    decides. *)

From stdpp Require Import base numbers list option.
From Stdlib Require Import ZArith Lia Bool.
From S2P Require Import Prelude.
#[local] Open Scope Z_scope.

(** ** Array access *)

Definition blen (b : list Z) : Z := Z.of_nat (length b).

(** [b[i]] as an rvalue. *)
Definition rd (b : list Z) (i : Z) : option Z :=
  if 0 <=? i then b !! Z.to_nat i else None.

(** memcpy(&b[i], bs, n) where [bs] are the n source bytes. *)
Definition wr_range (b : list Z) (i : Z) (bs : list Z) : option (list Z) :=
  if (0 <=? i) && (i + blen bs <=? blen b)
  then Some (take (Z.to_nat i) b ++ bs ++ drop (Z.to_nat i + length bs) b)
  else None.

(** [b[i] = v]. *)
Definition wr (b : list Z) (i v : Z) : option (list Z) := wr_range b i [u8 v].

(** The n bytes at &b[i], the source side of memcpy, kmemdup and import_guid. *)
Definition rd_range (b : list Z) (i n : Z) : option (list Z) :=
  if (0 <=? i) && (0 <=? n) && (i + n <=? blen b)
  then Some (take (Z.to_nat n) (drop (Z.to_nat i) b)) else None.

Definition is_byte (x : Z) : Prop := 0 <= x < 256.

(** ** Writers: the buffer and the running index *)

Abbreviation writer := (list Z * Z)%type.

(** [buf[idx] = v] *)
Definition put (v : Z) (w : writer) : option writer :=
  b ← wr w.1 w.2 v; Some (b, w.2).
(** [buf[idx] |= v] *)
Definition orp (v : Z) (w : writer) : option writer :=
  x ← rd w.1 w.2; b ← wr w.1 w.2 (Z.lor x v); Some (b, w.2).
(** [idx++] *)
Definition inc (w : writer) : option writer := Some (w.1, w.2 + 1).
(** [buf[idx] = v; idx++] *)
Definition emit (v : Z) (w : writer) : option writer := put v w ≫= inc.
(** [memcpy(&buf[idx], bs, n); idx += n] *)
Definition emits (bs : list Z) (w : writer) : option writer :=
  b ← wr_range w.1 w.2 bs; Some (b, w.2 + blen bs).

#[global] Arguments rd : simpl never.
#[global] Arguments rd_range : simpl never.
#[global] Arguments wr : simpl never.
#[global] Arguments wr_range : simpl never.

(** ** Lemmas on array access *)

Lemma blen_app a b : blen (a ++ b) = blen a + blen b.
Proof. unfold blen. rewrite length_app. lia. Qed.

Lemma blen_nonneg b : 0 <= blen b.
Proof. unfold blen. lia. Qed.

Lemma blen_cons a b : blen (a :: b) = 1 + blen b.
Proof. unfold blen. cbn [length]. lia. Qed.

Lemma blen_nil : blen [] = 0.
Proof. done. Qed.

Lemma rd_app_l a b i : 0 <= i < blen a -> rd (a ++ b) i = rd a i.
Proof.
  intros. unfold rd, blen in *. destruct (Z.leb_spec 0 i); [|lia].
  apply lookup_app_l. lia.
Qed.

Lemma rd_app_r a b i : blen a <= i -> rd (a ++ b) i = rd b (i - blen a).
Proof.
  intros. pose proof (blen_nonneg a). unfold rd, blen in *.
  destruct (Z.leb_spec 0 i); [|lia].
  destruct (Z.leb_spec 0 (i - Z.of_nat (length a))); [|lia].
  rewrite lookup_app_r by lia. f_equal. lia.
Qed.

Lemma rd_app_at a x b : rd (a ++ x :: b) (blen a) = Some x.
Proof. by rewrite rd_app_r, Z.sub_diag by lia. Qed.

Lemma rd_Some b i : is_Some (rd b i) <-> 0 <= i < blen b.
Proof.
  unfold rd, blen. destruct (Z.leb_spec 0 i).
  - rewrite lookup_lt_is_Some. lia.
  - split; [by intros [? ?]|lia].
Qed.

Lemma rd_lookup b i : 0 <= i -> rd b i = b !! Z.to_nat i.
Proof. intros. unfold rd. by destruct (Z.leb_spec 0 i); [|lia]. Qed.

Lemma rd_range_app a bs c :
  rd_range (a ++ bs ++ c) (blen a) (blen bs) = Some bs.
Proof.
  unfold rd_range. rewrite !blen_app.
  pose proof (blen_nonneg a). pose proof (blen_nonneg bs). pose proof (blen_nonneg c).
  destruct (Z.leb_spec 0 (blen a)); [|lia].
  destruct (Z.leb_spec 0 (blen bs)); [|lia].
  destruct (Z.leb_spec (blen a + blen bs) (blen a + (blen bs + blen c))); [|lia].
  cbn [andb]. f_equal. unfold blen.
  rewrite !Nat2Z.id, drop_app_length, take_app_length. done.
Qed.

Lemma rd_range_length b i n l : rd_range b i n = Some l -> blen l = n.
Proof.
  unfold rd_range, blen. intros H.
  destruct (Z.leb_spec 0 i), (Z.leb_spec 0 n), (Z.leb_spec (i + n) (Z.of_nat (length b)));
    cbn in H; simplify_eq.
  rewrite length_take, length_drop. lia.
Qed.

Lemma rd_range_Some b i n :
  0 <= i -> 0 <= n -> i + n <= blen b ->
  rd_range b i n = Some (take (Z.to_nat n) (drop (Z.to_nat i) b)).
Proof.
  intros. unfold rd_range. by rewrite !(proj2 (Z.leb_le _ _)) by done.
Qed.

Lemma wr_range_Some b i bs :
  0 <= i -> i + blen bs <= blen b ->
  wr_range b i bs =
  Some (take (Z.to_nat i) b ++ bs ++ drop (Z.to_nat i + length bs) b).
Proof. intros. unfold wr_range. by rewrite !(proj2 (Z.leb_le _ _)) by done. Qed.

Lemma wr_range_None b i bs : blen b < i + blen bs -> wr_range b i bs = None.
Proof.
  intros. unfold wr_range.
  destruct (Z.leb_spec 0 i), (Z.leb_spec (i + blen bs) (blen b)); done || lia.
Qed.

Lemma wr_range_inv b i bs b' :
  wr_range b i bs = Some b' ->
  0 <= i /\ i + blen bs <= blen b /\
  b' = take (Z.to_nat i) b ++ bs ++ drop (Z.to_nat i + length bs) b.
Proof.
  unfold wr_range. intros H.
  destruct (Z.leb_spec 0 i), (Z.leb_spec (i + blen bs) (blen b)); by simplify_eq/=.
Qed.

Lemma wr_range_len b i bs b' : wr_range b i bs = Some b' -> blen b' = blen b.
Proof.
  intros (?&?&->)%wr_range_inv. unfold blen in *.
  rewrite !length_app, length_take, length_drop. lia.
Qed.

Lemma wr_range_app a old c bs :
  length old = length bs -> wr_range (a ++ old ++ c) (blen a) bs = Some (a ++ bs ++ c).
Proof.
  intros E. rewrite wr_range_Some.
  - unfold blen. rewrite Nat2Z.id, take_app_length, <- E, <- drop_drop.
    by rewrite !drop_app_length.
  - apply blen_nonneg.
  - unfold blen. rewrite !length_app. lia.
Qed.

(** ** Lemmas on writers *)

Lemma emit_emits v : forall w, emit v w = emits [u8 v] w.
Proof. intros [b i]. unfold emit, put, emits, wr. cbn. by destruct (wr_range _ _ _). Qed.

Lemma emits_nil b i : 0 <= i <= blen b -> emits [] (b, i) = Some (b, i).
Proof.
  intros. unfold emits. cbn [fst snd]. rewrite wr_range_Some; [|lia|rewrite blen_nil; lia].
  cbn. by rewrite Nat.add_0_r, take_drop, Z.add_0_r.
Qed.

(** Writing at the front of the free part of a buffer. *)
Lemma emits_at a old c bs :
  length old = length bs ->
  emits bs (a ++ old ++ c, blen a) = Some (a ++ bs ++ c, blen (a ++ bs)).
Proof.
  intros E. unfold emits. cbn [fst snd]. rewrite wr_range_app by done. cbn.
  by rewrite blen_app.
Qed.

Lemma emits_split b i bs :
  0 <= i -> i + blen bs <= blen b ->
  exists a old c, b = a ++ old ++ c /\ blen a = i /\ length old = length bs.
Proof.
  intros. unfold blen in *. exists (take (Z.to_nat i) b),
    (take (length bs) (drop (Z.to_nat i) b)), (drop (length bs) (drop (Z.to_nat i) b)).
  rewrite !take_drop, !length_take, length_drop. split; [done|lia].
Qed.

Lemma emits_None bs b i : blen b < i + blen bs -> emits bs (b, i) = None.
Proof. intros. unfold emits. cbn [fst snd]. by rewrite wr_range_None. Qed.

Lemma emits_app bs1 bs2 b i :
  0 <= i -> emits bs1 (b, i) ≫= emits bs2 = emits (bs1 ++ bs2) (b, i).
Proof.
  intros H0. destruct (Z.le_gt_cases (i + blen (bs1 ++ bs2)) (blen b)) as [H1|H1].
  - destruct (emits_split b i (bs1 ++ bs2)) as (a&old&c&->&<-&E); [done..|].
    rewrite (emits_at a old c (bs1 ++ bs2)) by done. rewrite length_app in E.
    rewrite <- (take_drop (length bs1) old), <- (app_assoc _ _ c).
    rewrite (emits_at a (take (length bs1) old)) by (rewrite length_take; lia).
    cbn [mbind option_bind]. rewrite (app_assoc a bs1).
    rewrite (emits_at (a ++ bs1)) by (rewrite length_drop; lia).
    by rewrite <- !app_assoc.
  - rewrite (emits_None (bs1 ++ bs2)) by lia.
    unfold emits at 2. cbn [fst snd]. destruct (wr_range b i bs1) as [b'|] eqn:E; [|done].
    cbn. apply wr_range_len in E. rewrite blen_app in H1.
    apply emits_None. lia.
Qed.

Lemma wr_range_neg b i bs : i < 0 -> wr_range b i bs = None.
Proof. intros. unfold wr_range. by destruct (Z.leb_spec 0 i); [lia|]. Qed.

Lemma put_orp x y w : put x w ≫= orp y = put (Z.lor (u8 x) y) w.
Proof.
  destruct w as [b i]. unfold put. cbn [fst snd].
  destruct (Z.lt_ge_cases i 0); [unfold wr; by rewrite !wr_range_neg|].
  destruct (Z.lt_ge_cases i (blen b)); cycle 1.
  { unfold wr. rewrite !wr_range_None; [done|change (blen [?x]) with 1; unfold blen in *; cbn; lia..]. }
  destruct (emits_split b i [0]) as (a&old&c&->&<-&E);
    [lia|change (blen [0]) with 1; lia|].
  assert (W : forall v old', length old' = 1%nat ->
              wr (a ++ old' ++ c) (blen a) v = Some (a ++ [u8 v] ++ c)).
  { intros v old' E'. exact (wr_range_app a old' c [u8 v] E'). }
  rewrite !W by done. unfold orp. cbn [mbind option_bind fst snd].
  cbn [app]. rewrite rd_app_at. cbn [mbind option_bind].
  change (u8 x :: c) with ([u8 x] ++ c). by rewrite W.
Qed.

Lemma emits_inv bs b i w :
  emits bs (b, i) = Some w ->
  0 <= i /\ i + blen bs <= blen b /\ w.2 = i + blen bs /\ blen w.1 = blen b.
Proof.
  unfold emits. cbn [fst snd]. destruct (wr_range b i bs) eqn:E; [|done].
  cbn. intros [= <-]. cbn. pose proof (wr_range_len _ _ _ _ E).
  apply wr_range_inv in E as (?&?&_). done.
Qed.

(** A piece of an encoder that appends exactly [bs]. *)
Definition writes (m : writer -> option writer) (bs : list Z) : Prop :=
  forall w, 0 <= w.2 <= blen w.1 -> m w = emits bs w.

Lemma writes_emit v : writes (emit v) [u8 v].
Proof. intros w _. apply emit_emits. Qed.

Lemma writes_emits bs : writes (emits bs) bs.
Proof. by intros w _. Qed.

Lemma writes_bind m1 m2 bs1 bs2 :
  writes m1 bs1 -> writes m2 bs2 -> writes (fun w => m1 w ≫= m2) (bs1 ++ bs2).
Proof.
  intros H1 H2 [b i] Hi. cbn [fst snd] in Hi. rewrite H1 by done.
  rewrite <- emits_app by lia.
  destruct (emits bs1 (b, i)) as [w'|] eqn:E; [|done]. cbn.
  apply emits_inv in E as (?&?&E&E'). apply H2. rewrite E, E'. pose proof (blen_nonneg bs1). lia.
Qed.

Lemma writes_run m bs b i :
  writes m bs -> 0 <= i -> i + blen bs <= blen b ->
  m (b, i) = Some (take (Z.to_nat i) b ++ bs ++ drop (Z.to_nat i + length bs) b, i + blen bs).
Proof.
  intros Hm H0 H1. pose proof (blen_nonneg bs). rewrite Hm by (cbn [fst snd]; lia). unfold emits. cbn [fst snd].
  by rewrite wr_range_Some.
Qed.

(** [buf] holds the bytes [bs] from index [i] on. *)
Definition holds (buf : list Z) (i : Z) (bs : list Z) : Prop :=
  exists pre post, buf = pre ++ bs ++ post /\ blen pre = i.

Lemma holds_app buf i bs1 bs2 :
  holds buf i (bs1 ++ bs2) -> holds buf i bs1 /\ holds buf (i + blen bs1) bs2.
Proof.
  intros (pre&post&->&<-). split.
  - exists pre, (bs2 ++ post). by rewrite <- !app_assoc.
  - exists (pre ++ bs1), post. by rewrite <- !app_assoc, blen_app.
Qed.

Lemma holds_range buf i bs : holds buf i bs -> rd_range buf i (blen bs) = Some bs.
Proof. intros (pre&post&->&<-). apply rd_range_app. Qed.

Lemma holds_rd buf i x bs :
  holds buf i (x :: bs) -> rd buf i = Some x /\ holds buf (i + 1) bs.
Proof.
  intros (pre&post&->&<-). split; [apply rd_app_at|].
  exists (pre ++ [x]), post. rewrite <- app_assoc, blen_app. done.
Qed.

Lemma holds_nth buf i bs k x :
  holds buf i bs -> bs !! k = Some x -> rd buf (i + Z.of_nat k) = Some x.
Proof.
  intros (pre&post&->&<-) Hk. pose proof (lookup_lt_Some _ _ _ Hk).
  rewrite rd_app_r by lia. rewrite Z.add_simpl_l, rd_app_l by (unfold blen; lia).
  rewrite rd_lookup by lia. by rewrite Nat2Z.id.
Qed.

Lemma writes_skip : writes (fun w => Some w) [].
Proof. intros [b i] Hi. cbn in Hi. by rewrite emits_nil. Qed.

Lemma writes_eq m bs bs' : writes m bs -> bs = bs' -> writes m bs'.
Proof. by intros H <-. Qed.

Lemma writes_ext m m' bs : (forall w, m w = m' w) -> writes m' bs -> writes m bs.
Proof. intros E H w Hw. rewrite E. by apply H. Qed.

Create HintDb writes discriminated.
#[export] Hint Resolve writes_emit writes_emits writes_bind writes_skip : writes.

(** ** Packed fields as arithmetic *)

Lemma land_mask x k n :
  0 <= k -> 0 <= n -> Z.land x ((2 ^ n - 1) * 2 ^ k) = (x / 2 ^ k) mod 2 ^ n * 2 ^ k.
Proof.
  intros Hk Hn. rewrite <- !Z.shiftl_mul_pow2, <- Z.shiftr_div_pow2, <- Z.land_ones by done.
  rewrite Z.ones_equiv, <- Z.sub_1_r.
  apply Z.bits_inj'. intros j Hj. rewrite Z.land_spec, !Z.shiftl_spec by done.
  destruct (Z.lt_ge_cases j k).
  - rewrite !(Z.testbit_neg_r _ (j - k)) by lia. apply andb_false_r.
  - rewrite Z.land_spec, Z.shiftr_spec by lia. do 2 f_equal. lia.
Qed.

(** Or of two numbers with no bit in common: the low part below 2^k. *)
Lemma lor_disjoint x y k :
  0 <= k -> x mod 2 ^ k = 0 -> 0 <= y < 2 ^ k -> Z.lor x y = x + y.
Proof.
  intros Hk Hx Hy. symmetry. apply Z.add_nocarry_lor. apply Z.bits_inj'. intros j Hj.
  rewrite Z.land_spec, Z.bits_0. destruct (Z.lt_ge_cases j k).
  - assert (E : Z.testbit (x mod 2 ^ k) j = false) by (rewrite Hx; apply Z.bits_0).
    rewrite Z.mod_pow2_bits_low in E by lia. by rewrite E.
  - apply bound_testbit in Hy as [_ Hy]; [|done]. by rewrite (Hy j), andb_false_r.
Qed.

Section masks.
Context (x : Z).

Lemma land_0x1 : Z.land x 1 = x mod 2.
Proof. exact (Z.land_ones x 1 ltac:(lia)). Qed.
Lemma land_0x3 : Z.land x 3 = x mod 4.
Proof. exact (Z.land_ones x 2 ltac:(lia)). Qed.
Lemma land_0x7 : Z.land x 7 = x mod 8.
Proof. exact (Z.land_ones x 3 ltac:(lia)). Qed.
Lemma land_0xf : Z.land x 15 = x mod 16.
Proof. exact (Z.land_ones x 4 ltac:(lia)). Qed.
Lemma land_0x1f : Z.land x 31 = x mod 32.
Proof. exact (Z.land_ones x 5 ltac:(lia)). Qed.
Lemma land_0x3f : Z.land x 63 = x mod 64.
Proof. exact (Z.land_ones x 6 ltac:(lia)). Qed.
Lemma land_0x7f : Z.land x 127 = x mod 128.
Proof. exact (Z.land_ones x 7 ltac:(lia)). Qed.
Lemma land_0xff : Z.land x 255 = x mod 256.
Proof. exact (Z.land_ones x 8 ltac:(lia)). Qed.
Lemma land_0x0c : Z.land x 12 = (x / 4) mod 4 * 4.
Proof. exact (land_mask x 2 2 ltac:(lia) ltac:(lia)). Qed.
Lemma land_0x30 : Z.land x 48 = (x / 16) mod 4 * 16.
Proof. exact (land_mask x 4 2 ltac:(lia) ltac:(lia)). Qed.
Lemma land_0xf0 : Z.land x 240 = (x / 16) mod 16 * 16.
Proof. exact (land_mask x 4 4 ltac:(lia) ltac:(lia)). Qed.
Lemma land_0x80 : Z.land x 128 = (x / 128) mod 2 * 128.
Proof. exact (land_mask x 7 1 ltac:(lia) ltac:(lia)). Qed.
Lemma land_0xc0 : Z.land x 192 = (x / 64) mod 4 * 64.
Proof. exact (land_mask x 6 2 ltac:(lia) ltac:(lia)). Qed.
Lemma land_0xff00 : Z.land x 65280 = (x / 256) mod 256 * 256.
Proof. exact (land_mask x 8 8 ltac:(lia) ltac:(lia)). Qed.
Lemma land_0xf0000 : Z.land x 983040 = (x / 65536) mod 16 * 65536.
Proof. exact (land_mask x 16 4 ltac:(lia) ltac:(lia)). Qed.
Lemma wrap8_mod : u8 x = x mod 256.
Proof. done. Qed.
Lemma wrap16_mod : u16 x = x mod 65536.
Proof. done. Qed.
End masks.

Lemma shiftl_mul x k : 0 <= k -> Z.shiftl x k = x * 2 ^ k.
Proof. apply Z.shiftl_mul_pow2. Qed.
Lemma shiftr_div x k : 0 <= k -> Z.shiftr x k = x / 2 ^ k.
Proof. apply Z.shiftr_div_pow2. Qed.

Ltac pow_consts :=
  repeat match goal with
  | |- context [Z.pow 2 (Zpos ?p)] =>
    let v := eval compute in (Z.pow 2 (Zpos p)) in change (Z.pow 2 (Zpos p)) with v
  end.

(** [lia] with division and remainder by constants. *)
Ltac div_lia := Z.to_euclidean_division_equations; lia.

Ltac lor_step :=
  match goal with
  | |- context [Z.lor ?a ?b] =>
    lazymatch a with context [Z.lor _ _] => fail | _ => idtac end;
    lazymatch b with context [Z.lor _ _] => fail | _ => idtac end;
    first
      [ rewrite (lor_disjoint a b 4) by (pow_consts; div_lia)
      | rewrite (lor_disjoint a b 8) by (pow_consts; div_lia)
      | rewrite (lor_disjoint a b 7) by (pow_consts; div_lia)
      | rewrite (lor_disjoint a b 6) by (pow_consts; div_lia)
      | rewrite (lor_disjoint a b 5) by (pow_consts; div_lia)
      | rewrite (lor_disjoint a b 3) by (pow_consts; div_lia)
      | rewrite (lor_disjoint a b 2) by (pow_consts; div_lia)
      | rewrite (lor_disjoint a b 16) by (pow_consts; div_lia) ]
  end.

Ltac fields :=
  rewrite ?shiftl_mul, ?shiftr_div by lia;
  rewrite ?land_0x1, ?land_0x3, ?land_0x7, ?land_0xf, ?land_0x1f, ?land_0x3f,
    ?land_0x7f, ?land_0xff, ?land_0x0c, ?land_0x30, ?land_0xf0, ?land_0x80, ?land_0xc0, ?land_0xff00,
    ?land_0xf0000, ?wrap8_mod, ?wrap16_mod;
  pow_consts; repeat lor_step.

(** Equality of a packed field and the value it was packed from. *)
Ltac fields_lia := fields; div_lia.

(** A concrete buffer is one of bytes by evaluation. *)
Lemma bytes_checked b : forallb (fun x => (0 <=? x) && (x <? 256)) b = true -> Forall is_byte b.
Proof.
  intros H. apply list.Forall_forall. intros x Hx%list_elem_of_In.
  pose proof (proj1 (forallb_forall _ _) H x Hx) as Hr. cbv beta in Hr. unfold is_byte. lia.
Qed.
