(* ===== verification/MstCrc.v ===== *)
(** * CRCs of the DisplayPort MST sideband channel

    drm_dp_msg_header_crc4 and drm_dp_msg_data_crc4 of
    display/drm_dp_mst_topology.c, bit by bit as the code computes them, and the
    polynomial remainder over GF(2) they are meant to be. *)

From stdpp Require Import base numbers list option.
From Stdlib Require Import ZArith Lia Bool.
From S2P Require Import Prelude ByteBuf.
#[local] Open Scope Z_scope.

(** ** The code *)

Record crc_state := CrcState {
  bitmask : Z;
  bitshift : Z;
  array_index : Z;
  remainder : Z
}.

(** One round of the first loop of drm_dp_msg_header_crc4 (u8 remainder, test
    bit 0x10, polynomial 0x13). *)
Definition header_crc4_step (data : list Z) (st : crc_state) : option crc_state :=
  byte ← rd data (array_index st);
  let remainder := u8 (Z.shiftl (remainder st) 1) in
  let remainder := u8 (Z.lor remainder
                      (Z.shiftr (Z.land byte (bitmask st)) (bitshift st))) in
  let bitmask := Z.shiftr (bitmask st) 1 in
  let bitshift := u8 (bitshift st - 1) in
  let '(bitmask, bitshift, array_index) :=
    if bitmask =? 0 then (128, 7, u8 (array_index st + 1))
    else (bitmask, bitshift, array_index st) in
  let remainder := if Z.land remainder 16 =? 16 then Z.lxor remainder 19 else remainder in
  Some (CrcState bitmask bitshift array_index remainder).

(** The loop, run for [n] bits. *)
Fixpoint header_crc4_loop (data : list Z) (n : nat) (st : crc_state) : option crc_state :=
  match n with
  | O => Some st
  | S n => st ← header_crc4_step data st; header_crc4_loop data n st
  end.

Fixpoint header_crc4_flush (n : nat) (remainder : Z) : Z :=
  match n with
  | O => remainder
  | S n =>
    let remainder := u8 (Z.shiftl remainder 1) in
    header_crc4_flush n
      (if negb (Z.land remainder 16 =? 0) then Z.lxor remainder 19 else remainder)
  end.

Definition drm_dp_msg_header_crc4 (data : list Z) (num_nibbles : Z) : option Z :=
  let number_of_bits := s32 (num_nibbles * 4) in
  st ← header_crc4_loop data (Z.to_nat number_of_bits) (CrcState 128 7 0 0);
  Some (header_crc4_flush 4 (remainder st)).

(** The same for drm_dp_msg_data_crc4 (u16 remainder, test bit 0x100,
    polynomial 0xd5: the carry is left in place and masked at the end). *)
Definition data_crc4_step (data : list Z) (st : crc_state) : option crc_state :=
  byte ← rd data (array_index st);
  let remainder := u16 (Z.shiftl (remainder st) 1) in
  let remainder := u16 (Z.lor remainder
                      (Z.shiftr (Z.land byte (bitmask st)) (bitshift st))) in
  let bitmask := Z.shiftr (bitmask st) 1 in
  let bitshift := u8 (bitshift st - 1) in
  let '(bitmask, bitshift, array_index) :=
    if bitmask =? 0 then (128, 7, u8 (array_index st + 1))
    else (bitmask, bitshift, array_index st) in
  let remainder :=
    if Z.land remainder 256 =? 256 then Z.lxor remainder 213 else remainder in
  Some (CrcState bitmask bitshift array_index remainder).

Fixpoint data_crc4_loop (data : list Z) (n : nat) (st : crc_state) : option crc_state :=
  match n with
  | O => Some st
  | S n => st ← data_crc4_step data st; data_crc4_loop data n st
  end.

Fixpoint data_crc4_flush (n : nat) (remainder : Z) : Z :=
  match n with
  | O => remainder
  | S n =>
    let remainder := u16 (Z.shiftl remainder 1) in
    data_crc4_flush n
      (if negb (Z.land remainder 256 =? 0) then Z.lxor remainder 213 else remainder)
  end.

Definition drm_dp_msg_data_crc4 (data : list Z) (number_of_bytes : Z) : option Z :=
  let number_of_bits := u8 number_of_bytes * 8 in
  st ← data_crc4_loop data (Z.to_nat number_of_bits) (CrcState 128 7 0 0);
  Some (Z.land (data_crc4_flush 8 (remainder st)) 255).

(** ** The specification: remainders of polynomials over GF(2)

    A bit string, most significant bit first, is the polynomial whose
    coefficients it lists; addition is exclusive or. *)

Definition bits_val (l : list bool) : Z := foldl (fun a b => 2 * a + b2z b) 0 l.

(** Product of the polynomial [q] (a bit string) and [p]. *)
Definition clmul (q : list bool) (p : Z) : Z :=
  foldl (fun a b => Z.lxor (2 * a) (if b : bool then p else 0)) 0 q.

(** [r] is the remainder of the message polynomial times x^w divided by the
    polynomial [p] of degree [w]. *)
Definition is_remainder (w : nat) (p : Z) (msg : list bool) (r : Z) : Prop :=
  0 <= r < 2 ^ Z.of_nat w /\
  exists q, bits_val (msg ++ replicate w false) = Z.lxor (clmul q p) r.

Definition byte_bits (x : Z) : list bool :=
  Z.testbit x <$> [7; 6; 5; 4; 3; 2; 1; 0].

(** The bits in transmission order. *)
Definition msg_bits (data : list Z) : list bool := data ≫= byte_bits.

(** [l] and [l'] differ, and only inside a window of [w] consecutive bits. *)
Definition burst (w : nat) (l l' : list bool) : Prop :=
  exists pre m m' post,
    l = pre ++ m ++ post /\ l' = pre ++ m' ++ post /\
    length m = length m' /\ (length m <= w)%nat /\ m <> m'.

(** ** The abstract remainder register *)

Section register.
Context (w : nat) (p : Z).
Context (Hw : (0 < w)%nat) (Hp : 2 ^ Z.of_nat w < p < 2 ^ (Z.of_nat w + 1)).
Context (Hodd : Z.testbit p 0 = true).

Definition rstep (r : Z) (b : bool) : Z :=
  let r' := 2 * r + b2z b in
  if Z.testbit r' (Z.of_nat w) then Z.lxor r' p else r'.

Definition rrun (r : Z) (l : list bool) : Z := foldl rstep r l.

Lemma p_top : Z.testbit p (Z.of_nat w) = true.
Proof.
  rewrite Z.testbit_true by lia. replace (p / 2 ^ Z.of_nat w) with 1; [done|].
  apply Z.div_unique with (p - 2 ^ Z.of_nat w); rewrite ?Z.pow_add_r in * by lia; lia.
Qed.

Lemma p_above j : Z.of_nat w < j -> Z.testbit p j = false.
Proof.
  intros. destruct (proj1 (bound_testbit p (Z.of_nat w + 1) ltac:(lia))) as [_ H'].
  - pose proof (Z.pow_pos_nonneg 2 (Z.of_nat w)). lia.
  - apply H'. lia.
Qed.

Lemma rstep_range r b : 0 <= r < 2 ^ Z.of_nat w -> 0 <= rstep r b < 2 ^ Z.of_nat w.
Proof.
  intros Hr. assert (B : 0 <= 2 * r + b2z b < 2 ^ (Z.of_nat w + 1)).
  { rewrite Z.pow_add_r by lia. destruct b; cbn; lia. }
  apply bound_testbit in B as [B0 B1]; [|lia].
  assert (P0 : 0 <= p) by (pose proof (Z.pow_pos_nonneg 2 (Z.of_nat w)); lia).
  unfold rstep. apply bound_testbit; [lia|].
  destruct (Z.testbit (2 * r + b2z b) (Z.of_nat w)) eqn:E.
  - split; [by apply Z.lxor_nonneg; lia|]. intros j Hj. rewrite Z.lxor_spec.
    destruct (Z.eq_dec j (Z.of_nat w)) as [->|]; [by rewrite E, p_top|].
    by rewrite B1, p_above by lia.
  - split; [done|]. intros j Hj.
    destruct (Z.eq_dec j (Z.of_nat w)) as [->|]; [done|]. apply B1. lia.
Qed.

Lemma rrun_range l : forall r, 0 <= r < 2 ^ Z.of_nat w -> 0 <= rrun r l < 2 ^ Z.of_nat w.
Proof.
  induction l as [|b l IH]; intros r Hr; [done|]. apply (IH (rstep r b)), rstep_range, Hr.
Qed.

Lemma rrun_app r l l' : rrun r (l ++ l') = rrun (rrun r l) l'.
Proof. apply foldl_app. Qed.

Lemma double_testbit x b j :
  0 <= j -> Z.testbit (2 * x + b2z b) j = if j =? 0 then b else Z.testbit x (j - 1).
Proof.
  intros Hj. destruct (Z.eqb_spec j 0) as [->|].
  - destruct b; cbn [b2z]; [apply Z.testbit_odd_0|]. rewrite Z.add_0_r. apply Z.testbit_even_0.
  - replace j with (Z.succ (j - 1)) at 1 by lia.
    destruct b; cbn [b2z]; [apply Z.testbit_odd_succ; lia|].
    rewrite Z.add_0_r. apply Z.testbit_even_succ. lia.
Qed.

Lemma lxor_double x y b c :
  Z.lxor (2 * x + b2z b) (2 * y + b2z c) = 2 * Z.lxor x y + b2z (xorb b c).
Proof.
  apply Z.bits_inj'. intros j Hj. rewrite Z.lxor_spec, !double_testbit by done.
  destruct (j =? 0); [done|]. by rewrite Z.lxor_spec.
Qed.

Lemma lxor_swap a b c d : Z.lxor (Z.lxor a b) (Z.lxor c d) = Z.lxor (Z.lxor a c) (Z.lxor b d).
Proof.
  rewrite !Z.lxor_assoc. f_equal. rewrite <- !Z.lxor_assoc. f_equal. apply Z.lxor_comm.
Qed.

(** The register divides: the bits consumed so far are a multiple of [p] plus
    the register. *)
Lemma rrun_divides l :
  exists q, bits_val l = Z.lxor (clmul q p) (rrun 0 l).
Proof.
  induction l as [|b l IH] using rev_ind; [by exists []|].
  destruct IH as [q Hq]. unfold bits_val, rrun in *. rewrite !foldl_app. cbn [foldl].
  rewrite Hq. generalize (foldl rstep 0 l) as r. intros r.
  assert (E : 2 * Z.lxor (clmul q p) r + b2z b = Z.lxor (2 * clmul q p) (2 * r + b2z b)).
  { pose proof (lxor_double (clmul q p) r false b) as H. cbn [b2z xorb] in H.
    rewrite Z.add_0_r in H. by rewrite H. }
  exists (q ++ [Z.testbit (2 * r + b2z b) (Z.of_nat w)]).
  rewrite E. unfold clmul. rewrite foldl_app. fold (clmul q p). cbn [foldl].
  unfold rstep. cbv zeta. destruct (Z.testbit (2 * r + b2z b) (Z.of_nat w)).
  - by rewrite lxor_swap, Z.lxor_nilpotent, Z.lxor_0_r.
  - by rewrite Z.lxor_0_r.
Qed.

(** It is linear. *)
Lemma rstep_lxor r s b c : rstep (Z.lxor r s) (xorb b c) = Z.lxor (rstep r b) (rstep s c).
Proof.
  unfold rstep. cbv zeta. rewrite <- lxor_double, Z.lxor_spec.
  destruct (Z.testbit (2 * r + _) _), (Z.testbit (2 * s + _) _); cbn [xorb].
  - by rewrite lxor_swap, Z.lxor_nilpotent, Z.lxor_0_r.
  - rewrite !Z.lxor_assoc. f_equal. apply Z.lxor_comm.
  - by rewrite Z.lxor_assoc.
  - done.
Qed.

Lemma rrun_lxor l : forall l' r s, length l = length l' ->
  rrun (Z.lxor r s) (zip_with xorb l l') = Z.lxor (rrun r l) (rrun s l').
Proof.
  induction l as [|b l IH]; intros [|c l'] r s Hl; simplify_eq/=; [done|].
  rewrite <- IH by done. by rewrite rstep_lxor.
Qed.

(** A zero bit does not clear the register. *)
Lemma rstep_false r : rstep r false = 0 -> r = 0.
Proof.
  unfold rstep. cbv zeta. destruct (Z.testbit (2 * r + _) _); cbn [b2z]; rewrite Z.add_0_r; [|lia].
  intros E. assert (H : Z.testbit (Z.lxor (2 * r) p) 0 = false) by (rewrite E; done).
  rewrite Z.lxor_spec, Z.testbit_even_0, Hodd in H. done.
Qed.

Lemma rrun_zeros n : forall r, r <> 0 -> rrun r (replicate n false) <> 0.
Proof.
  induction n as [|n IH]; intros r Hr; [done|]. cbn. apply IH. intros E.
  by apply rstep_false in E.
Qed.

Lemma bits_val_app l l' : bits_val (l ++ l') = foldl (fun a b => 2 * a + b2z b) (bits_val l) l'.
Proof. apply foldl_app. Qed.

Lemma bits_val_range l : 0 <= bits_val l < 2 ^ Z.of_nat (length l).
Proof.
  induction l as [|b l IH] using rev_ind; [done|]. rewrite bits_val_app, length_app.
  cbn [foldl length]. replace (Z.of_nat (length l + 1)) with (Z.of_nat (length l) + 1) by lia.
  rewrite Z.pow_add_r by lia. destruct b; cbn; lia.
Qed.

Lemma bits_val_0 l : bits_val l = 0 -> l = replicate (length l) false.
Proof.
  induction l as [|b l IH] using rev_ind; [done|]. rewrite bits_val_app, length_app.
  cbn [foldl length]. pose proof (bits_val_range l) as Hr. intros E.
  assert (bits_val l = 0 /\ b = false) as [El ->] by (destruct b; cbn in E |- *; lia).
  rewrite (IH El) at 1. by rewrite Nat.add_1_r, replicate_S_end.
Qed.

Lemma rrun_short l : (length l <= w)%nat -> rrun 0 l = bits_val l.
Proof.
  induction l as [|b l IH] using rev_ind; [done|]. rewrite length_app. cbn [length]. intros Hl.
  rewrite rrun_app, bits_val_app, IH by lia. cbn [rrun foldl]. unfold rstep. cbv zeta.
  pose proof (bits_val_range (l ++ [b])) as B. rewrite bits_val_app, length_app in B.
  cbn [foldl length] in B.
  destruct (Z.testbit (2 * bits_val l + b2z b) (Z.of_nat w)) eqn:E; [|done]. exfalso.
  rewrite (proj2 (proj1 (bound_testbit _ _ (Nat2Z.is_nonneg _)) B)) in E; [done|lia].
Qed.

Lemma zip_xorb_same l : zip_with xorb l l = replicate (length l) false.
Proof. induction l; cbn; [done|]. by rewrite xorb_nilpotent, IHl. Qed.

Lemma zip_xorb_zero l : forall l', length l = length l' ->
  zip_with xorb l l' = replicate (length l) false -> l = l'.
Proof.
  induction l as [|b l IH]; intros [|c l'] Hl Hz; try done. cbn in Hz.
  injection Hz as Hb Hz. f_equal; [by apply xorb_eq|]. apply IH; [|done]. by injection Hl.
Qed.

Lemma rrun_0_zeros n : rrun 0 (replicate n false) = 0.
Proof.
  induction n; [done|]. cbn. replace (rstep 0 false) with 0; [done|].
  unfold rstep. cbn. by rewrite Z.bits_0.
Qed.

(** A burst of at most [w] bits changes the remainder. *)
Lemma rrun_burst l l' t :
  burst w l l' -> rrun 0 (l ++ t) <> rrun 0 (l' ++ t).
Proof.
  intros (pre&m&m'&post&->&->&Hm&Hle&Hne) E.
  assert (Z0 : Z.lxor (rrun 0 ((pre ++ m ++ post) ++ t)) (rrun 0 ((pre ++ m' ++ post) ++ t)) = 0).
  { rewrite E. apply Z.lxor_nilpotent. }
  rewrite <- rrun_lxor in Z0 by (rewrite !length_app; lia). cbn [Z.lxor] in Z0.
  rewrite <- !app_assoc in Z0.
  rewrite !zip_with_app in Z0 by done.
  rewrite !zip_xorb_same, !rrun_app, rrun_0_zeros in Z0.
  rewrite rrun_short in Z0 by (rewrite length_zip_with; lia).
  set (z := zip_with xorb m m') in *. destruct (Z.eq_dec (bits_val z) 0) as [Ez|Ez].
  - apply Hne, (zip_xorb_zero m m' Hm). apply bits_val_0 in Ez. fold z. rewrite Ez at 1.
    f_equal. unfold z. rewrite length_zip_with. lia.
  - by apply (rrun_zeros (length t) _ (rrun_zeros (length post) _ Ez)).
Qed.

Lemma rrun_is_remainder l : is_remainder w p l (rrun 0 (l ++ replicate w false)).
Proof.
  split.
  - apply rrun_range. pose proof (Z.pow_pos_nonneg 2 (Z.of_nat w)). lia.
  - apply rrun_divides.
Qed.
End register.

(** ** The code computes the register *)

(** The loop state after [i] bits. *)
Definition crc_at (i : nat) (r : Z) : crc_state :=
  CrcState (2 ^ (7 - Z.of_nat i mod 8)) (7 - Z.of_nat i mod 8) (Z.of_nat i / 8) r.

Lemma length_msg_bits data : length (msg_bits data) = (8 * length data)%nat.
Proof.
  unfold msg_bits. induction data as [|x data IH]; [done|].
  cbn [mbind list_bind]. rewrite length_app, IH. cbn [length byte_bits fmap list_fmap]. lia.
Qed.

Lemma msg_bits_lookup data : forall i,
  msg_bits data !! i =
  (x ← data !! (i / 8)%nat; Some (Z.testbit x (7 - Z.of_nat i mod 8))).
Proof.
  induction data as [|x data IH]; intros i; [done|].
  change (msg_bits (x :: data)) with (byte_bits x ++ msg_bits data).
  destruct (Nat.lt_ge_cases i 8) as [Hi|Hi].
  - rewrite lookup_app_l by done. rewrite Nat.div_small by done.
    do 8 (destruct i as [|i]; [done|]). lia.
  - rewrite lookup_app_r by done. rewrite IH.
    change (length (byte_bits x)) with 8%nat.
    replace (i / 8)%nat with (S ((i - 8) / 8)).
    + cbn [lookup list_lookup]. destruct (data !! ((i - 8) / 8)%nat); [|done]. cbn.
      do 2 f_equal. rewrite Nat2Z.inj_sub by done. div_lia.
    + replace i with (i - 8 + 1 * 8)%nat at 2 by lia. rewrite Nat.div_add by lia. lia.
Qed.

Lemma extract_bit x s :
  0 <= s -> Z.shiftr (Z.land x (2 ^ s)) s = b2z (Z.testbit x s).
Proof.
  intros Hs. apply Z.bits_inj'. intros j Hj.
  rewrite Z.shiftr_spec, Z.land_spec, Z.pow2_bits_eqb by lia.
  destruct (Z.eqb_spec s (j + s)) as [E|E].
  - replace j with 0 by lia. rewrite andb_true_r, Z.add_0_l. by destruct (Z.testbit x s).
  - rewrite andb_false_r. destruct (Z.testbit x s); cbn [b2z]; [|by rewrite Z.bits_0].
    replace 1 with (2 ^ 0) by done. rewrite Z.pow2_bits_false by lia. done.
Qed.

(** The index bookkeeping of one round. *)
Lemma crc_at_succ i :
  (i < 255 * 8)%nat ->
  (if Z.shiftr (2 ^ (7 - Z.of_nat i mod 8)) 1 =? 0 then (128, 7, u8 (Z.of_nat i / 8 + 1))
   else (Z.shiftr (2 ^ (7 - Z.of_nat i mod 8)) 1, u8 (7 - Z.of_nat i mod 8 - 1),
         Z.of_nat i / 8)) =
  (2 ^ (7 - Z.of_nat (S i) mod 8), 7 - Z.of_nat (S i) mod 8, Z.of_nat (S i) / 8).
Proof.
  intros Hi. rewrite Nat2Z.inj_succ, <- Z.add_1_r.
  assert (H : Z.of_nat i mod 8 = 7 \/ exists k, 0 <= k < 7 /\ Z.of_nat i mod 8 = k).
  { pose proof (Z.mod_pos_bound (Z.of_nat i) 8 ltac:(lia)).
    destruct (Z.eq_dec (Z.of_nat i mod 8) 7); [by left|right; eexists; split; [|done]; lia]. }
  destruct H as [E|(k&Hk&E)].
  - rewrite E. replace ((Z.of_nat i + 1) mod 8) with 0 by div_lia.
    replace ((Z.of_nat i + 1) / 8) with (Z.of_nat i / 8 + 1) by div_lia.
    cbn -[wrapU Z.div]. f_equal. rewrite wrapU_small; [done|]. unfold is_u. div_lia.
  - rewrite E. replace ((Z.of_nat i + 1) mod 8) with (k + 1) by div_lia.
    replace ((Z.of_nat i + 1) / 8) with (Z.of_nat i / 8) by div_lia.
    assert (k = 0 \/ k = 1 \/ k = 2 \/ k = 3 \/ k = 4 \/ k = 5 \/ k = 6) as K by lia.
    clear - K. generalize (Z.of_nat i / 8). intros a.
    repeat (destruct K as [->|K]; [reflexivity|]). subst k. reflexivity.
Qed.

(** Decision over an initial range of the integers. *)
Fixpoint all_from (n : nat) (r : Z) (f : Z -> bool) : bool :=
  match n with O => true | S n => f r && all_from n (r + 1) f end.

Lemma Z_range_ind (n : nat) (f : Z -> bool) :
  all_from n 0 f = true -> forall r, 0 <= r < Z.of_nat n -> f r = true.
Proof.
  assert (G : forall n k, all_from n k f = true -> forall r, k <= r < k + Z.of_nat n -> f r = true).
  { clear n. induction n as [|n IH]; intros k H r Hr; [lia|].
    cbn in H. apply andb_prop in H as [Hk H].
    destruct (Z.eq_dec r k) as [->|]; [done|]. apply (IH (k + 1)); [done|lia]. }
  intros H r Hr. apply (G n 0 H). lia.
Qed.

Definition header_reg (r : Z) (b : bool) : Z :=
  let r := u8 (Z.shiftl r 1) in
  let r := u8 (Z.lor r (b2z b)) in
  if Z.land r 16 =? 16 then Z.lxor r 19 else r.

Definition data_reg (r : Z) (b : bool) : Z :=
  let r := u16 (Z.shiftl r 1) in
  let r := u16 (Z.lor r (b2z b)) in
  if Z.land r 256 =? 256 then Z.lxor r 213 else r.

Lemma header_reg_rstep r b : 0 <= r < 16 -> header_reg r b = rstep 4 19 r b.
Proof.
  intros Hr. apply Z.eqb_eq. revert r Hr. apply (Z_range_ind 16). by destruct b.
Qed.

Lemma data_reg_rstep r b :
  0 <= r < 65536 ->
  0 <= data_reg r b < 65536 /\ data_reg r b mod 256 = rstep 8 469 (r mod 256) b.
Proof.
  intros Hr.
  assert (H : (0 <=? data_reg r b) && (data_reg r b <? 65536) &&
    (data_reg r b mod 256 =? rstep 8 469 (r mod 256) b) = true).
  { replace 65536 with (Z.of_nat (Z.to_nat 65536)) in Hr by lia. revert r Hr.
    apply (Z_range_ind (Z.to_nat 65536)). destruct b; vm_compute; reflexivity. }
  lia.
Qed.

Lemma crc_read data i b :
  msg_bits data !! i = Some b ->
  exists byte, rd data (Z.of_nat i / 8) = Some byte /\
    Z.shiftr (Z.land byte (2 ^ (7 - Z.of_nat i mod 8))) (7 - Z.of_nat i mod 8) = b2z b.
Proof.
  rewrite msg_bits_lookup. intros H.
  destruct (data !! (i / 8)%nat) as [byte|] eqn:E; [|done]. cbn in H.
  exists byte. split.
  - rewrite rd_lookup by div_lia.
    by replace (Z.to_nat (Z.of_nat i / 8)) with (i / 8)%nat
      by (rewrite <- (Nat2Z.id (i / 8)), Nat2Z.inj_div; done).
  - rewrite extract_bit; [by injection H as <-|]. div_lia.
Qed.

Lemma header_crc4_step_at data i r b :
  (i < 255 * 8)%nat -> msg_bits data !! i = Some b ->
  header_crc4_step data (crc_at i r) = Some (crc_at (S i) (header_reg r b)).
Proof.
  intros Hi (byte&Hrd&Hx)%crc_read. unfold header_crc4_step, crc_at.
  cbn [array_index bitmask bitshift remainder]. rewrite Hrd. cbn [mbind option_bind].
  cbv zeta. by rewrite Hx, crc_at_succ.
Qed.

Lemma data_crc4_step_at data i r b :
  (i < 255 * 8)%nat -> msg_bits data !! i = Some b ->
  data_crc4_step data (crc_at i r) = Some (crc_at (S i) (data_reg r b)).
Proof.
  intros Hi (byte&Hrd&Hx)%crc_read. unfold data_crc4_step, crc_at.
  cbn [array_index bitmask bitshift remainder]. rewrite Hrd. cbn [mbind option_bind].
  cbv zeta. by rewrite Hx, crc_at_succ.
Qed.

(** The bits from [i] on, one at a time. *)
Lemma bits_from data i n :
  (i + S n <= 8 * length data)%nat ->
  exists b, msg_bits data !! i = Some b /\
    take (S n) (drop i (msg_bits data)) = b :: take n (drop (S i) (msg_bits data)).
Proof.
  intros H. destruct (lookup_lt_is_Some_2 (msg_bits data) i) as [b Hb].
  { rewrite length_msg_bits. lia. }
  exists b. split; [done|]. by rewrite (drop_S _ b i) by done.
Qed.

Lemma header_crc4_loop_at data n : forall i r,
  (i + n <= 8 * length data)%nat -> (i + n <= 255 * 8)%nat -> 0 <= r < 16 ->
  header_crc4_loop data n (crc_at i r) =
  Some (crc_at (i + n) (rrun 4 19 r (take n (drop i (msg_bits data))))).
Proof.
  induction n as [|n IH]; intros i r Hl Hi Hr.
  - cbn. by rewrite Nat.add_0_r, take_0.
  - destruct (bits_from data i n Hl) as (b&Hb&->).
    cbn [header_crc4_loop]. rewrite (header_crc4_step_at data i r b) by (done || lia).
    cbn [mbind option_bind].
    rewrite header_reg_rstep by done. rewrite IH; [|lia..|].
    + by rewrite Nat.add_succ_r.
    + apply (rstep_range 4 19); lia.
Qed.

Lemma data_crc4_loop_at data n : forall i r,
  (i + n <= 8 * length data)%nat -> (i + n <= 255 * 8)%nat -> 0 <= r < 65536 ->
  exists r', data_crc4_loop data n (crc_at i r) = Some (crc_at (i + n) r') /\
    0 <= r' < 65536 /\
    r' mod 256 = rrun 8 469 (r mod 256) (take n (drop i (msg_bits data))).
Proof.
  induction n as [|n IH]; intros i r Hl Hi Hr.
  - exists r. cbn. by rewrite Nat.add_0_r, take_0.
  - destruct (bits_from data i n Hl) as (b&Hb&->).
    cbn [data_crc4_loop]. rewrite (data_crc4_step_at data i r b) by (done || lia).
    cbn [mbind option_bind]. destruct (data_reg_rstep r b Hr) as [Hd Hm].
    destruct (IH (S i) (data_reg r b)) as (r'&->&Hr'&Hrr); [lia..|].
    exists r'. rewrite Nat.add_succ_r. split_and!; [done|lia..|]. by rewrite Hrr, Hm.
Qed.

Lemma header_flush r : 0 <= r < 16 -> header_crc4_flush 4 r = rrun 4 19 r (replicate 4 false).
Proof. intros Hr. apply Z.eqb_eq. revert r Hr. by apply (Z_range_ind 16). Qed.

Lemma data_flush r :
  0 <= r < 65536 ->
  Z.land (data_crc4_flush 8 r) 255 = rrun 8 469 (r mod 256) (replicate 8 false).
Proof.
  intros Hr. replace 65536 with (Z.of_nat (Z.to_nat 65536)) in Hr by lia.
  apply Z.eqb_eq. revert r Hr. apply (Z_range_ind (Z.to_nat 65536)).
  vm_compute. reflexivity.
Qed.

Lemma header_crc4_rrun data n :
  0 <= n -> n * 4 <= 255 * 8 -> n <= 2 * blen data ->
  drm_dp_msg_header_crc4 data n =
  Some (rrun 4 19 0 (take (Z.to_nat (n * 4)) (msg_bits data) ++ replicate 4 false)).
Proof.
  intros H0 H1 H2. unfold drm_dp_msg_header_crc4, blen in *.
  rewrite s32_small by (apply is_s32_iff; lia).
  change (CrcState 128 7 0 0) with (crc_at 0 0).
  rewrite header_crc4_loop_at by lia. cbn [mbind option_bind remainder crc_at].
  rewrite drop_0, rrun_app, header_flush; [done|].
  apply (rrun_range 4 19); lia.
Qed.

Lemma data_crc4_rrun data n :
  0 <= n <= blen data -> n <= 255 ->
  drm_dp_msg_data_crc4 data n =
  Some (rrun 8 469 0 (take (Z.to_nat (n * 8)) (msg_bits data) ++ replicate 8 false)).
Proof.
  intros H0 H1. unfold drm_dp_msg_data_crc4, blen in *.
  rewrite (wrapU_small 8) by (unfold is_u; lia).
  change (CrcState 128 7 0 0) with (crc_at 0 0).
  destruct (data_crc4_loop_at data (Z.to_nat (n * 8)) 0 0) as (r'&->&Hr&Hm); [lia..|].
  cbn [mbind option_bind remainder crc_at]. rewrite data_flush by done.
  by rewrite Hm, drop_0, rrun_app.
Qed.

Lemma header_crc4_remainder data data' n :
  0 <= n <= 2 * blen data -> blen data' = blen data -> n <= 510 ->
  exists crc crc',
    drm_dp_msg_header_crc4 data n = Some crc /\
    drm_dp_msg_header_crc4 data' n = Some crc' /\
    is_remainder 4 19 (take (Z.to_nat (n * 4)) (msg_bits data)) crc /\
    (burst 4 (take (Z.to_nat (n * 4)) (msg_bits data))
             (take (Z.to_nat (n * 4)) (msg_bits data')) -> crc <> crc').
Proof.
  intros H0 Hl H1. do 2 eexists.
  split; [apply header_crc4_rrun; lia|split; [apply header_crc4_rrun; lia|split]].
  - apply rrun_is_remainder; cbn; lia.
  - intros Hb. apply (rrun_burst 4 19); (done || lia).
Qed.

Lemma data_crc4_remainder data data' n :
  0 <= n <= blen data -> blen data' = blen data -> n <= 255 ->
  exists crc crc',
    drm_dp_msg_data_crc4 data n = Some crc /\
    drm_dp_msg_data_crc4 data' n = Some crc' /\
    is_remainder 8 469 (take (Z.to_nat (n * 8)) (msg_bits data)) crc /\
    (burst 8 (take (Z.to_nat (n * 8)) (msg_bits data))
             (take (Z.to_nat (n * 8)) (msg_bits data')) -> crc <> crc').
Proof.
  intros H0 Hl H1. do 2 eexists.
  split; [apply data_crc4_rrun; lia|split; [apply data_crc4_rrun; lia|split]].
  - apply rrun_is_remainder; cbn; lia.
  - intros Hb. apply (rrun_burst 8 469); (done || lia).
Qed.

(** C7.  The header check of [h] nibbles is the remainder of their bits, times x^4,
    divided by x^4 + x + 1, and the data check of [n] bytes that of theirs, times x^8,
    divided by x^8 + x^7 + x^6 + x^4 + x^2 + 1, although the code leaves the carries in
    the register.  Two messages of the same length that differ in a burst of at most four
    bits of the header, or eight bits of the data, have different checks. *)
Theorem crc4_spec data data' h n :
  blen data' = blen data -> 0 <= h <= 2 * blen data -> h <= 510 -> 0 <= n <= blen data -> n <= 255 ->
  (exists crc crc',
    drm_dp_msg_header_crc4 data h = Some crc /\
    drm_dp_msg_header_crc4 data' h = Some crc' /\
    is_remainder 4 19 (take (Z.to_nat (h * 4)) (msg_bits data)) crc /\
    (burst 4 (take (Z.to_nat (h * 4)) (msg_bits data))
             (take (Z.to_nat (h * 4)) (msg_bits data')) -> crc <> crc')) /\
  (exists crc crc',
    drm_dp_msg_data_crc4 data n = Some crc /\
    drm_dp_msg_data_crc4 data' n = Some crc' /\
    is_remainder 8 469 (take (Z.to_nat (n * 8)) (msg_bits data)) crc /\
    (burst 8 (take (Z.to_nat (n * 8)) (msg_bits data))
             (take (Z.to_nat (n * 8)) (msg_bits data')) -> crc <> crc')).
Proof.
  intros Hl H0 H1 H2 H3. split; [by apply header_crc4_remainder|by apply data_crc4_remainder].
Qed.

Lemma crc4_spec_witness :
  blen [24; 1] = blen [16; 1] /\
  exists crc crc' d d',
    (drm_dp_msg_header_crc4 [16; 1] 3 = Some crc /\ drm_dp_msg_header_crc4 [24; 1] 3 = Some crc' /\
     is_remainder 4 19 (take (Z.to_nat (3 * 4)) (msg_bits [16; 1])) crc) /\
    (drm_dp_msg_data_crc4 [16; 1] 2 = Some d /\ drm_dp_msg_data_crc4 [24; 1] 2 = Some d' /\
     is_remainder 8 469 (take (Z.to_nat (2 * 8)) (msg_bits [16; 1])) d).
Proof.
  split; [reflexivity|].
  destruct (crc4_spec [16; 1] [24; 1] 3 2) as [(c & c' & H1 & H2 & H3 & _) (d & d' & H4 & H5 & H6 & _)];
    [reflexivity|unfold blen; cbn; lia|lia|unfold blen; cbn; lia|lia|].
  exists c, c', d, d'. exact (conj (conj H1 (conj H2 H3)) (conj H4 (conj H5 H6))).
Defined.
