(* ===== verification/MstMsg.v ===== *)
(** * Sideband messages of the DisplayPort MST topology manager

    The message types of include/drm/display/drm_dp_mst_helper.h and the header
    and request codecs of display/drm_dp_mst_topology.c.  A union is an inductive
    type with one constructor per member; reading a member that is not the one
    stored has no result, nor has an access outside msg[256]. *)

From stdpp Require Import base numbers list option.
From Stdlib Require Import ZArith Lia Bool.
From S2P Require Import Prelude ByteBuf MstCrc.
#[local] Open Scope Z_scope.

(** ** Constants (include/drm/display/drm_dp.h) *)

Definition DP_GET_MSG_TRANSACTION_VERSION := 0x00.
Definition DP_LINK_ADDRESS := 0x01.
Definition DP_CONNECTION_STATUS_NOTIFY := 0x02.
Definition DP_ENUM_PATH_RESOURCES := 0x10.
Definition DP_ALLOCATE_PAYLOAD := 0x11.
Definition DP_QUERY_PAYLOAD := 0x12.
Definition DP_RESOURCE_STATUS_NOTIFY := 0x13.
Definition DP_CLEAR_PAYLOAD_ID_TABLE := 0x14.
Definition DP_REMOTE_DPCD_READ := 0x20.
Definition DP_REMOTE_DPCD_WRITE := 0x21.
Definition DP_REMOTE_I2C_READ := 0x22.
Definition DP_REMOTE_I2C_WRITE := 0x23.
Definition DP_POWER_UP_PHY := 0x24.
Definition DP_POWER_DOWN_PHY := 0x25.
Definition DP_SINK_EVENT_NOTIFY := 0x30.
Definition DP_QUERY_STREAM_ENC_STATUS := 0x38.

(** ** The header *)

Record drm_dp_sideband_msg_hdr := Hdr {
  lct : Z;
  lcr : Z;
  rad : list Z;          (* u8 rad[8] *)
  broadcast : bool;
  path_msg : bool;
  msg_len : Z;
  somt : bool;
  eomt : bool;
  seqno : bool
}.

Definition hdr_zero : drm_dp_sideband_msg_hdr :=
  Hdr 0 0 (replicate 8 0) false false 0 false false false.

Definition drm_dp_mst_get_ufp_num_at_lct_from_rad (lct : Z) (rad : list Z) : option Z :=
  let idx := Z.quot lct 2 - 1 in
  let shift := if Z.rem lct 2 =? 0 then 4 else 0 in
  if lct =? 1 then Some 0
  else x ← rd rad idx; Some (Z.land (Z.shiftr x shift) 0xf).

Definition drm_dp_calc_sb_hdr_size (hdr : drm_dp_sideband_msg_hdr) : Z :=
  u8 (3 + lct hdr / 2).

(** for (i = 0; i < (hdr->lct / 2); i++) buf[idx++] = hdr->rad[i]; *)
Fixpoint encode_rad (rad : list Z) (i : Z) (n : nat) (w : writer) : option writer :=
  match n with
  | O => Some w
  | S n => x ← rd rad i; w ← emit x w; encode_rad rad (i + 1) n w
  end.

(** The buffer after the call and *len. *)
Definition drm_dp_encode_sideband_msg_hdr (hdr : drm_dp_sideband_msg_hdr) (buf : list Z) :
    option (list Z * Z) :=
  w ← emit (Z.lor (Z.shiftl (Z.land (lct hdr) 0xf) 4) (Z.land (lcr hdr) 0xf)) (buf, 0);
  w ← encode_rad (rad hdr) 0 (Z.to_nat (lct hdr / 2)) w;
  w ← emit (Z.lor (Z.lor (Z.shiftl (b2z (broadcast hdr)) 7)
                         (Z.shiftl (b2z (path_msg hdr)) 6))
                  (Z.land (msg_len hdr) 0x3f)) w;
  '(buf, idx) ← emit (Z.lor (Z.lor (Z.shiftl (b2z (somt hdr)) 7)
                                   (Z.shiftl (b2z (eomt hdr)) 6))
                            (Z.shiftl (b2z (seqno hdr)) 4)) w;
  crc4 ← drm_dp_msg_header_crc4 buf (idx * 2 - 1);
  last ← rd buf (idx - 1);
  buf ← wr buf (idx - 1) (Z.lor last (Z.land crc4 0xf));
  Some (buf, idx).

(** for (i = 0; i < (hdr->lct / 2); i++) hdr->rad[i] = buf[idx++]; *)
Fixpoint decode_rad (buf : list Z) (idx i : Z) (n : nat) (rad : list Z) : option (list Z) :=
  match n with
  | O => Some rad
  | S n =>
    x ← rd buf idx; rad ← wr rad i x; decode_rad buf (u8 (idx + 1)) (i + 1) n rad
  end.

(** The return value, *hdr and *hdrlen. *)
Definition drm_dp_decode_sideband_msg_hdr (hdr : drm_dp_sideband_msg_hdr)
    (buf : list Z) (buflen : Z) (hdrlen : Z) :
    option (bool * drm_dp_sideband_msg_hdr * Z) :=
  b0 ← rd buf 0;
  if b0 =? 0 then Some (false, hdr, hdrlen) else
  let len := u8 (3 + Z.shiftr (Z.land b0 0xf0) 4 / 2) in
  if buflen <? len then Some (false, hdr, hdrlen) else
  crc4 ← drm_dp_msg_header_crc4 buf (len * 2 - 1);
  last ← rd buf (len - 1);
  if negb (Z.land crc4 0xf =? Z.land last 0xf) then Some (false, hdr, hdrlen) else
  let lct := Z.shiftr (Z.land b0 0xf0) 4 in
  let lcr := Z.land b0 0xf in
  rad ← decode_rad buf 1 0 (Z.to_nat (lct / 2)) (rad hdr);
  let idx := 1 + lct / 2 in
  b1 ← rd buf idx;
  let msg_len := Z.land b1 0x3f in
  let hdr := Hdr lct lcr rad (tst (Z.shiftr b1 7) 1) (tst (Z.shiftr b1 6) 1) msg_len
               (somt hdr) (eomt hdr) (seqno hdr) in
  if msg_len <? 1 then Some (false, hdr, hdrlen) else
  let idx := idx + 1 in
  b2 ← rd buf idx;
  Some (true,
        Hdr lct lcr rad (broadcast hdr) (path_msg hdr) msg_len
          (tst (Z.shiftr b2 7) 1) (tst (Z.shiftr b2 6) 1) (tst (Z.shiftr b2 4) 1),
        idx + 1).

(** ** Request bodies *)

Record drm_dp_connection_status_notify := ConnStat {
  cs_guid : list Z;
  cs_port_number : Z;
  legacy_device_plug_status : bool;
  displayport_device_plug_status : bool;
  message_capability_status : bool;
  cs_input_port : bool;
  cs_peer_device_type : Z
}.

Record drm_dp_resource_status_notify := ResourceStat {
  rs_port_number : Z;
  rs_guid : list Z;
  available_pbn : Z
}.

Record drm_dp_query_payload := QueryPayload { qp_port_number : Z; qp_vcpi : Z }.

Record drm_dp_allocate_payload := AllocatePayload {
  ap_port_number : Z;
  number_sdp_streams : Z;
  ap_vcpi : Z;
  pbn : Z;
  sdp_stream_sink : list Z    (* u8 [DRM_DP_MAX_SDP_STREAMS] *)
}.
Definition DRM_DP_MAX_SDP_STREAMS := 16.

Record drm_dp_remote_dpcd_read := DpcdRead {
  dr_port_number : Z;
  dr_dpcd_address : Z;
  dr_num_bytes : Z
}.

(** [bytes] is the memory the pointer designates. *)
Record drm_dp_remote_dpcd_write := DpcdWrite {
  dw_port_number : Z;
  dw_dpcd_address : Z;
  dw_num_bytes : Z;
  dw_bytes : list Z
}.

Record drm_dp_remote_i2c_read_tx := I2cTx {
  i2c_dev_id : Z;
  tx_num_bytes : Z;
  tx_bytes : list Z;
  no_stop_bit : Z;
  i2c_transaction_delay : Z
}.

Record drm_dp_remote_i2c_read := I2cRead {
  num_transactions : Z;
  ir_port_number : Z;
  transactions : list drm_dp_remote_i2c_read_tx;  (* [DP_REMOTE_I2C_READ_MAX_TRANSACTIONS] *)
  read_i2c_device_id : Z;
  num_bytes_read : Z
}.
Definition DP_REMOTE_I2C_READ_MAX_TRANSACTIONS := 4.

Record drm_dp_remote_i2c_write := I2cWrite {
  iw_port_number : Z;
  write_i2c_device_id : Z;
  iw_num_bytes : Z;
  iw_bytes : list Z
}.

Record drm_dp_query_stream_enc_status := EncStatus {
  stream_id : Z;
  client_id : list Z;          (* u8 [7] *)
  stream_event : Z;
  valid_stream_event : bool;
  stream_behavior : Z;
  valid_stream_behavior : Z
}.

(** [Ack_none] is a union no member of which has been written. *)
Inductive ack_req :=
  | Ack_none
  | Ack_conn_stat (x : drm_dp_connection_status_notify)
  | Ack_port_num (port_number : Z)
  | Ack_resource_stat (x : drm_dp_resource_status_notify)
  | Ack_query_payload (x : drm_dp_query_payload)
  | Ack_allocate_payload (x : drm_dp_allocate_payload)
  | Ack_dpcd_read (x : drm_dp_remote_dpcd_read)
  | Ack_dpcd_write (x : drm_dp_remote_dpcd_write)
  | Ack_i2c_read (x : drm_dp_remote_i2c_read)
  | Ack_i2c_write (x : drm_dp_remote_i2c_write)
  | Ack_enc_status (x : drm_dp_query_stream_enc_status).

Record drm_dp_sideband_msg_req_body := ReqBody { req_type : Z; u : ack_req }.

(** ** drm_dp_encode_sideband_req

    The switch is split by case; every case is a writer that starts at idx 1. *)

(** [buf[idx] = v; buf[idx] |= o; idx++] *)
Definition emit_or (v o : Z) (w : writer) : option writer :=
  w ← put v w; w ← orp o w; inc w.

(** for (i = 0; i < number_sdp_streams / 2; i++): two sinks a byte. *)
Fixpoint encode_sinks (sink : list Z) (i : Z) (n : nat) (w : writer) : option writer :=
  match n with
  | O => Some w
  | S n =>
    a ← rd sink (i * 2); b ← rd sink (i * 2 + 1);
    w ← emit (Z.lor (Z.shiftl (Z.land a 0xf) 4) (Z.land b 0xf)) w;
    encode_sinks sink (i + 1) n w
  end.

Definition encode_allocate_payload (a : drm_dp_allocate_payload) (w : writer) : option writer :=
  w ← emit (Z.lor (Z.shiftl (Z.land (ap_port_number a) 0xf) 4)
                  (Z.land (number_sdp_streams a) 0xf)) w;
  w ← emit (Z.land (ap_vcpi a) 0x7f) w;
  w ← emit (Z.shiftr (pbn a) 8) w;
  w ← emit (Z.land (pbn a) 0xff) w;
  w ← encode_sinks (sdp_stream_sink a) 0 (Z.to_nat (number_sdp_streams a / 2)) w;
  if tst (number_sdp_streams a) 1 then
    x ← rd (sdp_stream_sink a) (number_sdp_streams a - 1);
    emit (Z.shiftl (Z.land x 0xf) 4) w
  else Some w.

Definition encode_query_payload (q : drm_dp_query_payload) (w : writer) : option writer :=
  w ← emit (Z.shiftl (Z.land (qp_port_number q) 0xf) 4) w;
  emit (Z.land (qp_vcpi q) 0x7f) w.

(** The address bytes shared by REMOTE_DPCD_READ and REMOTE_DPCD_WRITE. *)
Definition encode_dpcd_address (port addr : Z) (w : writer) : option writer :=
  w ← emit_or (Z.shiftl (Z.land port 0xf) 4)
              (Z.land (Z.shiftr (Z.land addr 0xf0000) 16) 0xf) w;
  w ← emit (Z.shiftr (Z.land addr 0xff00) 8) w;
  emit (Z.land addr 0xff) w.

Definition encode_dpcd_read (r : drm_dp_remote_dpcd_read) (w : writer) : option writer :=
  w ← encode_dpcd_address (dr_port_number r) (dr_dpcd_address r) w;
  emit (dr_num_bytes r) w.

(** memcpy(&buf[idx], bytes, n); idx += n *)
Definition emit_bytes (bytes : list Z) (n : Z) (w : writer) : option writer :=
  bs ← rd_range bytes 0 n; emits bs w.

Definition encode_dpcd_write (r : drm_dp_remote_dpcd_write) (w : writer) : option writer :=
  w ← encode_dpcd_address (dw_port_number r) (dw_dpcd_address r) w;
  w ← emit (dw_num_bytes r) w;
  emit_bytes (dw_bytes r) (dw_num_bytes r) w.

Fixpoint encode_i2c_txs (txs : list drm_dp_remote_i2c_read_tx) (i : nat) (n : nat)
    (w : writer) : option writer :=
  match n with
  | O => Some w
  | S n =>
    t ← txs !! i;
    w ← emit (Z.land (i2c_dev_id t) 0x7f) w;
    w ← emit (tx_num_bytes t) w;
    w ← emit_bytes (tx_bytes t) (tx_num_bytes t) w;
    w ← emit_or (Z.shiftl (Z.land (no_stop_bit t) 1) 4)
                (Z.land (i2c_transaction_delay t) 0xf) w;
    encode_i2c_txs txs (S i) n w
  end.

Definition encode_i2c_read (r : drm_dp_remote_i2c_read) (w : writer) : option writer :=
  w ← emit_or (Z.shiftl (Z.land (ir_port_number r) 0xf) 4)
              (Z.land (num_transactions r) 0x3) w;
  w ← encode_i2c_txs (transactions r) 0 (Z.to_nat (Z.land (num_transactions r) 0x3)) w;
  w ← emit (Z.land (read_i2c_device_id r) 0x7f) w;
  emit (num_bytes_read r) w.

Definition encode_i2c_write (r : drm_dp_remote_i2c_write) (w : writer) : option writer :=
  w ← emit (Z.shiftl (Z.land (iw_port_number r) 0xf) 4) w;
  w ← emit (Z.land (write_i2c_device_id r) 0x7f) w;
  w ← emit (iw_num_bytes r) w;
  emit_bytes (iw_bytes r) (iw_num_bytes r) w.

(** FIELD_PREP(GENMASK(1, 0), v) and FIELD_PREP(GENMASK(4, 3), v). *)
Definition FIELD_PREP_1_0 (v : Z) : Z := Z.land v 3.
Definition FIELD_PREP_4_3 (v : Z) : Z := Z.land (Z.shiftl v 3) 24.

Definition encode_enc_status (msg : drm_dp_query_stream_enc_status) (w : writer) :
    option writer :=
  w ← emit (stream_id msg) w;
  w ← emit_bytes (client_id msg) 7 w;
  w ← put 0 w;
  w ← orp (FIELD_PREP_1_0 (stream_event msg)) w;
  w ← orp (if valid_stream_event msg then BIT 2 else 0) w;
  w ← orp (FIELD_PREP_4_3 (stream_behavior msg)) w;
  w ← orp (if negb (valid_stream_behavior msg =? 0) then BIT 5 else 0) w;
  inc w.

(** The switch on req->req_type. *)
Definition encode_body (req : drm_dp_sideband_msg_req_body) (w : writer) : option writer :=
  let t := req_type req in
  if (t =? DP_ENUM_PATH_RESOURCES) || (t =? DP_POWER_DOWN_PHY) || (t =? DP_POWER_UP_PHY) then
    match u req with
    | Ack_port_num p => emit (Z.shiftl (Z.land p 0xf) 4) w | _ => None end
  else if t =? DP_ALLOCATE_PAYLOAD then
    match u req with Ack_allocate_payload a => encode_allocate_payload a w | _ => None end
  else if t =? DP_QUERY_PAYLOAD then
    match u req with Ack_query_payload q => encode_query_payload q w | _ => None end
  else if t =? DP_REMOTE_DPCD_READ then
    match u req with Ack_dpcd_read r => encode_dpcd_read r w | _ => None end
  else if t =? DP_REMOTE_DPCD_WRITE then
    match u req with Ack_dpcd_write r => encode_dpcd_write r w | _ => None end
  else if t =? DP_REMOTE_I2C_READ then
    match u req with Ack_i2c_read r => encode_i2c_read r w | _ => None end
  else if t =? DP_REMOTE_I2C_WRITE then
    match u req with Ack_i2c_write r => encode_i2c_write r w | _ => None end
  else if t =? DP_QUERY_STREAM_ENC_STATUS then
    match u req with Ack_enc_status r => encode_enc_status r w | _ => None end
  else Some w.

(** ** The message under construction *)

(** struct drm_dp_sideband_msg_tx without the list link [next] and the array
    chunk[48], which no function uses; [dst] is the address of the branch. *)
Record drm_dp_sideband_msg_tx (reply_body : Type) := Tx {
  msg : list Z;        (* u8 msg[256] *)
  cur_offset : Z;
  cur_len : Z;         (* u8 *)
  dst : Z;
  tx_seqno : Z;
  state : Z;
  tx_path_msg : bool;
  reply : reply_body
}.
Arguments Tx {_}.
Arguments msg {_}.
Arguments cur_offset {_}.
Arguments cur_len {_}.
Arguments dst {_}.
Arguments tx_seqno {_}.
Arguments state {_}.
Arguments tx_path_msg {_}.
Arguments reply {_}.

Section tx.
Context {R : Type}.
Implicit Types (raw : drm_dp_sideband_msg_tx R) (req : drm_dp_sideband_msg_req_body).

Definition set_msg raw (m : list Z) (len : Z) : drm_dp_sideband_msg_tx R :=
  Tx m (cur_offset raw) len (dst raw) (tx_seqno raw) (state raw) (tx_path_msg raw) (reply raw).
Definition set_path_msg raw (b : bool) : drm_dp_sideband_msg_tx R :=
  Tx (msg raw) (cur_offset raw) (cur_len raw) (dst raw) (tx_seqno raw) (state raw) b (reply raw).

Definition drm_dp_encode_sideband_req req raw : option (drm_dp_sideband_msg_tx R) :=
  w ← emit (Z.land (req_type req) 0x7f) (msg raw, 0);
  '(buf, idx) ← encode_body req w;
  Some (set_msg raw buf (u8 idx)).

(** struct drm_dp_sideband_msg_reply_body: the encoder reads only the two types. *)
Definition drm_dp_encode_sideband_reply (reply_type req_type : Z) raw :
    option (drm_dp_sideband_msg_tx R) :=
  '(buf, idx) ← emit (Z.lor (Z.shiftl (Z.land reply_type 0x1) 7) (Z.land req_type 0x7f))
                     (msg raw, 0);
  Some (set_msg raw buf (u8 idx)).

(** Appending the data check to a chunk. *)
Definition drm_dp_crc_sideband_chunk_req (msg : list Z) (off len : Z) : option (list Z) :=
  crc4 ← drm_dp_msg_data_crc4 (drop (Z.to_nat off) msg) len;
  wr msg (off + u8 len) crc4.

(** ** The request builders: arguments are converted to the u8 fields *)

Definition build_dpcd_write raw (port_num offset num_bytes : Z) (bytes : list Z) :=
  drm_dp_encode_sideband_req
    (ReqBody DP_REMOTE_DPCD_WRITE (Ack_dpcd_write (DpcdWrite port_num offset num_bytes bytes)))
    raw.

Definition build_link_address raw :=
  drm_dp_encode_sideband_req (ReqBody DP_LINK_ADDRESS Ack_none) raw.

Definition build_clear_payload_id_table raw :=
  raw ← drm_dp_encode_sideband_req (ReqBody DP_CLEAR_PAYLOAD_ID_TABLE Ack_none) raw;
  Some (set_path_msg raw true).

Definition build_enum_path_resources raw (port_num : Z) :=
  raw ← drm_dp_encode_sideband_req
          (ReqBody DP_ENUM_PATH_RESOURCES (Ack_port_num (u8 port_num))) raw;
  Some (set_path_msg raw true).

Definition build_allocate_payload raw (port_num vcpi pbn number_sdp_streams : Z)
    (sink : list Z) :=
  bs ← rd_range sink 0 number_sdp_streams;
  sinks ← wr_range (replicate 16 0) 0 bs;
  raw ← drm_dp_encode_sideband_req
          (ReqBody DP_ALLOCATE_PAYLOAD
             (Ack_allocate_payload
                (AllocatePayload (u8 port_num) number_sdp_streams vcpi pbn sinks))) raw;
  Some (set_path_msg raw true).

Definition build_power_updown_phy raw (port_num : Z) (power_up : bool) :=
  raw ← drm_dp_encode_sideband_req
          (ReqBody (if power_up then DP_POWER_UP_PHY else DP_POWER_DOWN_PHY)
             (Ack_port_num (u8 port_num))) raw;
  Some (set_path_msg raw true).

Definition build_query_stream_enc_status raw (stream_id : Z) (q_id : list Z) :=
  id ← rd_range q_id 0 7;
  drm_dp_encode_sideband_req
    (ReqBody DP_QUERY_STREAM_ENC_STATUS
       (Ack_enc_status (EncStatus stream_id id 0 false 0 0))) raw.

Definition build_dpcd_read raw (port_num offset num_bytes : Z) :=
  drm_dp_encode_sideband_req
    (ReqBody DP_REMOTE_DPCD_READ (Ack_dpcd_read (DpcdRead port_num offset num_bytes))) raw.
End tx.

(** ** drm_dp_decode_sideband_req *)

(** The return value 0 with the body, or -ENOMEM. *)
Inductive decoded := Decoded (body : ack_req) | DecodeENOMEM.

Section decode.
(** Whether the k-th kmemdup of the call succeeds, and whether the pointer
    transactions[k].bytes of the caller's union is NULL on entry. *)
Context (kmemdup_ok tx_null : nat -> bool).

Definition kmemdup (k : nat) (buf : list Z) (idx n : Z) : option (option (list Z)) :=
  if kmemdup_ok k then bs ← rd_range buf idx n; Some (Some bs) else Some None.

(** for (i = 0; i < a->number_sdp_streams; i++) a->sdp_stream_sink[i] = ... *)
Fixpoint decode_sinks (buf : list Z) (idx i : Z) (n : nat) (sink : list Z) : option (list Z) :=
  match n with
  | O => Some sink
  | S n =>
    x ← rd buf (idx + i / 2);
    sink ← wr sink i (Z.land (Z.shiftr x (if Z.rem i 2 =? 0 then 4 else 0)) 0xf);
    decode_sinks buf idx (i + 1) n sink
  end.

(** [sink0] is what sdp_stream_sink held before the call. *)
Definition decode_allocate_payload (buf : list Z) (sink0 : list Z) : option decoded :=
  b1 ← rd buf 1; b2 ← rd buf 2; b3 ← rd buf 3; b4 ← rd buf 4;
  let n := Z.land b1 0xf in
  sink ← decode_sinks buf 5 0 (Z.to_nat n) sink0;
  Some (Decoded (Ack_allocate_payload
    (AllocatePayload (Z.land (Z.shiftr b1 4) 0xf) n (Z.land b2 0x7f)
       (u16 (Z.lor (u16 (Z.shiftl b3 8)) b4)) sink))).

Definition decode_query_payload (buf : list Z) : option decoded :=
  b1 ← rd buf 1; b2 ← rd buf 2;
  Some (Decoded (Ack_query_payload
    (QueryPayload (Z.land (Z.shiftr b1 4) 0xf) (Z.land b2 0x7f)))).

Definition decode_dpcd_address (b1 b2 b3 : Z) : Z :=
  Z.lor (Z.lor (Z.land (Z.shiftl b1 16) 0xf0000) (Z.land (Z.shiftl b2 8) 0xff00))
        (Z.land b3 0xff).

Definition decode_dpcd_read (buf : list Z) : option decoded :=
  b1 ← rd buf 1; b2 ← rd buf 2; b3 ← rd buf 3; b4 ← rd buf 4;
  Some (Decoded (Ack_dpcd_read
    (DpcdRead (Z.land (Z.shiftr b1 4) 0xf) (decode_dpcd_address b1 b2 b3) b4))).

Definition decode_dpcd_write (buf : list Z) : option decoded :=
  b1 ← rd buf 1; b2 ← rd buf 2; b3 ← rd buf 3; b4 ← rd buf 4;
  bytes ← kmemdup 0 buf 5 b4;
  Some match bytes with
  | Some bytes => Decoded (Ack_dpcd_write
      (DpcdWrite (Z.land (Z.shiftr b1 4) 0xf) (decode_dpcd_address b1 b2 b3) b4 bytes))
  | None => DecodeENOMEM
  end.

(** The loop over the transactions: [inl i] when it is left at transactions[i]
    with failed set, else the entries written, transactions[0..n-1], and the
    final idx. *)
Fixpoint decode_i2c_txs (buf : list Z) (idx : Z) (k : nat) (n : nat) :
    option (nat + list drm_dp_remote_i2c_read_tx * Z) :=
  match n with
  | O => Some (inr ([], idx))
  | S n =>
    dev ← rd buf (idx + 1); num ← rd buf (idx + 2);
    bytes ← kmemdup k buf (idx + 3) num;
    match bytes with
    | None => Some (inl k)
    | Some bytes =>
      let idx := idx + 3 + num in
      x ← rd buf idx;
      rest ← decode_i2c_txs buf idx (S k) n;
      Some match rest with
      | inl i => inl i
      | inr (txs, idx) =>
        inr (I2cTx (Z.land dev 0x7f) num bytes (Z.land (Z.shiftr x 5) 0x1) (Z.land x 0xf)
                :: txs, idx)
      end
    end
  end.

(** The clean-up after a failure at transactions[i]: kfree of all [n] pointers.
    Those before i were allocated and that of i is NULL; one after i is what the
    caller's union held, and freeing it is defined for NULL only. *)
Definition free_i2c_txs (i n : nat) : option unit :=
  if forallb tx_null (seq (S i) (n - S i)) then Some tt else None.

Definition decode_i2c_read (buf : list Z) : option decoded :=
  b1 ← rd buf 1;
  let n := Z.land b1 0x3 in
  txs ← decode_i2c_txs buf 1 0 (Z.to_nat n);
  match txs with
  | inl i => free_i2c_txs i (Z.to_nat n) ≫= fun _ => Some DecodeENOMEM
  | inr (txs, idx) =>
    dev ← rd buf (idx + 1); num ← rd buf (idx + 2);
    Some (Decoded (Ack_i2c_read
      (I2cRead n (Z.land (Z.shiftr b1 4) 0xf) txs (Z.land dev 0x7f) num)))
  end.

Definition decode_i2c_write (buf : list Z) : option decoded :=
  b1 ← rd buf 1; b2 ← rd buf 2; b3 ← rd buf 3;
  bytes ← kmemdup 0 buf 4 b3;
  Some match bytes with
  | Some bytes => Decoded (Ack_i2c_write
      (I2cWrite (Z.land (Z.shiftr b1 4) 0xf) (Z.land b2 0x7f) b3 bytes))
  | None => DecodeENOMEM
  end.

(** FIELD_GET(GENMASK(1, 0), x) and FIELD_GET(GENMASK(4, 3), x). *)
Definition FIELD_GET_1_0 (x : Z) : Z := Z.land x 3.
Definition FIELD_GET_4_3 (x : Z) : Z := Z.shiftr (Z.land x 24) 3.

Definition decode_enc_status (buf : list Z) : option decoded :=
  id ← rd buf 1;
  client ← rd_range buf 2 7;
  x ← rd buf 9;
  Some (Decoded (Ack_enc_status
    (EncStatus id client (FIELD_GET_1_0 x) (tst x (BIT 2)) (FIELD_GET_4_3 x)
       (Z.shiftr (Z.land x (BIT 5)) 5)))).

(** [u0] and [sink0]: what the union and its sdp_stream_sink hold on entry. *)
Definition decode_body (t : Z) (buf : list Z) (u0 : ack_req) (sink0 : list Z) : option decoded :=
  if (t =? DP_ENUM_PATH_RESOURCES) || (t =? DP_POWER_DOWN_PHY) || (t =? DP_POWER_UP_PHY) then
    b1 ← rd buf 1; Some (Decoded (Ack_port_num (Z.land (Z.shiftr b1 4) 0xf)))
  else if t =? DP_ALLOCATE_PAYLOAD then decode_allocate_payload buf sink0
  else if t =? DP_QUERY_PAYLOAD then decode_query_payload buf
  else if t =? DP_REMOTE_DPCD_READ then decode_dpcd_read buf
  else if t =? DP_REMOTE_DPCD_WRITE then decode_dpcd_write buf
  else if t =? DP_REMOTE_I2C_READ then decode_i2c_read buf
  else if t =? DP_REMOTE_I2C_WRITE then decode_i2c_write buf
  else if t =? DP_QUERY_STREAM_ENC_STATUS then decode_enc_status buf
  else Some (Decoded u0).

(** The return value and *req, whose union is not specified after -ENOMEM. *)
Definition drm_dp_decode_sideband_req {R} (raw : drm_dp_sideband_msg_tx R)
    (u0 : ack_req) (sink0 : list Z) : option (Z * drm_dp_sideband_msg_req_body) :=
  b0 ← rd (msg raw) 0;
  let t := Z.land b0 0x7f in
  d ← decode_body t (msg raw) u0 sink0;
  Some match d with
  | Decoded body => (0, ReqBody t body)
  | DecodeENOMEM => (- ENOMEM, ReqBody t Ack_none)
  end.
End decode.

(** ** The wire format of a request *)

(** Two sink numbers a byte, the first in the high nibble. *)
Fixpoint wire_sinks (l : list Z) : list Z :=
  match l with
  | a :: b :: l => (16 * a + b) :: wire_sinks l
  | [a] => [16 * a]
  | [] => []
  end.

Definition wire_address (port addr : Z) : list Z :=
  [16 * port + addr / 65536; addr / 256 mod 256; addr mod 256].

Definition wire_tx (t : drm_dp_remote_i2c_read_tx) : list Z :=
  [i2c_dev_id t; tx_num_bytes t] ++ tx_bytes t ++
  [16 * no_stop_bit t + i2c_transaction_delay t].

Definition wire_body (x : ack_req) : list Z :=
  match x with
  | Ack_port_num p => [16 * p]
  | Ack_allocate_payload a =>
    [16 * ap_port_number a + number_sdp_streams a; ap_vcpi a; pbn a / 256; pbn a mod 256] ++
    wire_sinks (take (Z.to_nat (number_sdp_streams a)) (sdp_stream_sink a))
  | Ack_query_payload q => [16 * qp_port_number q; qp_vcpi q]
  | Ack_dpcd_read r =>
    wire_address (dr_port_number r) (dr_dpcd_address r) ++ [dr_num_bytes r]
  | Ack_dpcd_write r =>
    wire_address (dw_port_number r) (dw_dpcd_address r) ++ [dw_num_bytes r] ++ dw_bytes r
  | Ack_i2c_read r =>
    [16 * ir_port_number r + num_transactions r] ++ (transactions r ≫= wire_tx) ++
    [read_i2c_device_id r; num_bytes_read r]
  | Ack_i2c_write r =>
    [16 * iw_port_number r; write_i2c_device_id r; iw_num_bytes r] ++ iw_bytes r
  | Ack_enc_status r =>
    [stream_id r] ++ client_id r ++
    [stream_event r + 4 * b2z (valid_stream_event r) + 8 * stream_behavior r +
     32 * valid_stream_behavior r]
  | _ => []
  end.

Definition wire (req : drm_dp_sideband_msg_req_body) : list Z :=
  req_type req :: wire_body (u req).

(** Fields that fit their place on the wire, and the union member the type
    selects.  [sink0]: the entries of sdp_stream_sink beyond those sent. *)
Definition tx_ok (t : drm_dp_remote_i2c_read_tx) : Prop :=
  0 <= i2c_dev_id t < 128 /\ blen (tx_bytes t) = tx_num_bytes t /\ tx_num_bytes t < 256 /\
  0 <= no_stop_bit t < 2 /\ 0 <= i2c_transaction_delay t < 16.

Definition body_ok (t : Z) (x : ack_req) (sink0 : list Z) : Prop :=
  match x with
  | Ack_port_num p =>
    (t = DP_ENUM_PATH_RESOURCES \/ t = DP_POWER_DOWN_PHY \/ t = DP_POWER_UP_PHY) /\ 0 <= p < 16
  | Ack_allocate_payload a =>
    t = DP_ALLOCATE_PAYLOAD /\ 0 <= ap_port_number a < 16 /\
    0 <= number_sdp_streams a < 16 /\ 0 <= ap_vcpi a < 128 /\ 0 <= pbn a < 65536 /\
    length (sdp_stream_sink a) = 16%nat /\ length sink0 = 16%nat /\
    Forall (fun s => 0 <= s < 16) (sdp_stream_sink a) /\
    drop (Z.to_nat (number_sdp_streams a)) (sdp_stream_sink a) =
    drop (Z.to_nat (number_sdp_streams a)) sink0
  | Ack_query_payload q =>
    t = DP_QUERY_PAYLOAD /\ 0 <= qp_port_number q < 16 /\ 0 <= qp_vcpi q < 128
  | Ack_dpcd_read r =>
    t = DP_REMOTE_DPCD_READ /\ 0 <= dr_port_number r < 16 /\
    0 <= dr_dpcd_address r < 1048576 /\ is_byte (dr_num_bytes r)
  | Ack_dpcd_write r =>
    t = DP_REMOTE_DPCD_WRITE /\ 0 <= dw_port_number r < 16 /\
    0 <= dw_dpcd_address r < 1048576 /\ blen (dw_bytes r) = dw_num_bytes r /\ dw_num_bytes r < 256
  | Ack_i2c_read r =>
    t = DP_REMOTE_I2C_READ /\ 0 <= ir_port_number r < 16 /\
    Z.of_nat (length (transactions r)) = num_transactions r /\ num_transactions r < 4 /\ Forall tx_ok (transactions r) /\
    0 <= read_i2c_device_id r < 128 /\ is_byte (num_bytes_read r)
  | Ack_i2c_write r =>
    t = DP_REMOTE_I2C_WRITE /\ 0 <= iw_port_number r < 16 /\
    0 <= write_i2c_device_id r < 128 /\ blen (iw_bytes r) = iw_num_bytes r /\ iw_num_bytes r < 256
  | Ack_enc_status r =>
    t = DP_QUERY_STREAM_ENC_STATUS /\ is_byte (stream_id r) /\ blen (client_id r) = 7 /\
    0 <= stream_event r < 4 /\ 0 <= stream_behavior r < 4 /\ 0 <= valid_stream_behavior r < 2
  | Ack_none =>
    t = DP_GET_MSG_TRANSACTION_VERSION \/ t = DP_LINK_ADDRESS \/ t = DP_CLEAR_PAYLOAD_ID_TABLE
  | _ => False
  end.

(** What survives the codec: the decoder takes no_stop_bit from a bit the encoder
    never sets. *)
Definition clear_no_stop (t : drm_dp_remote_i2c_read_tx) : drm_dp_remote_i2c_read_tx :=
  I2cTx (i2c_dev_id t) (tx_num_bytes t) (tx_bytes t) 0 (i2c_transaction_delay t).

Definition decoded_body (x : ack_req) : ack_req :=
  match x with
  | Ack_i2c_read r =>
    Ack_i2c_read (I2cRead (num_transactions r) (ir_port_number r)
      (clear_no_stop <$> transactions r) (read_i2c_device_id r) (num_bytes_read r))
  | x => x
  end.

(** ** The encoder writes the wire format *)

Lemma writes_emit_or v o : writes (emit_or v o) [u8 (Z.lor (u8 v) o)].
Proof.
  intros [b i] _. unfold emit_or.
  rewrite <- (emit_emits (Z.lor (u8 v) o) (b, i)). unfold emit. rewrite <- put_orp.
  by destruct (put v (b, i)).
Qed.

Lemma writes_emit_bytes bs n : blen bs = n -> writes (emit_bytes bs n) bs.
Proof.
  intros <- w _. unfold emit_bytes.
  pose proof (rd_range_app [] bs []) as H. rewrite app_nil_l, app_nil_r in H.
  change (blen []) with 0 in H. by rewrite H.
Qed.

Lemma wrap8_wrap8 x : u8 (u8 x) = u8 x.
Proof. unfold wrapU. by rewrite Z.mod_mod. Qed.

#[local] Hint Resolve writes_emit_or writes_emit_bytes : writes.

(** Peel the sequence of writes of an encoder and compare the bytes. *)
Ltac writes_tac :=
  eapply writes_eq; [eauto 12 with writes|cbn [app]].

Ltac bytes_lia := repeat (f_equal; []); repeat f_equal; fields_lia.

Lemma writes_dpcd_address port addr :
  0 <= port < 16 -> 0 <= addr < 1048576 ->
  writes (encode_dpcd_address port addr) (wire_address port addr).
Proof. intros. unfold encode_dpcd_address. writes_tac. unfold wire_address. bytes_lia. Qed.

Lemma wire_sinks_app2 a b l : wire_sinks (a :: b :: l) = (16 * a + b) :: wire_sinks l.
Proof. done. Qed.

(** The pairs from entry 2k on. *)
Lemma writes_sinks sink n : forall k,
  Forall (fun s => 0 <= s < 16) sink -> (2 * (k + n) <= length sink)%nat ->
  writes (encode_sinks sink (Z.of_nat k) n) (wire_sinks (take (2 * n) (drop (2 * k) sink))).
Proof.
  induction n as [|n IH]; intros k Hs Hl.
  { rewrite Nat.mul_0_r, take_0. apply writes_skip. }
  destruct (lookup_lt_is_Some_2 sink (2 * k)) as [a Ha]; [lia|].
  destruct (lookup_lt_is_Some_2 sink (2 * k + 1)) as [b Hb]; [lia|].
  pose proof (Forall_lookup_1 _ _ _ _ Hs Ha) as Ra.
  pose proof (Forall_lookup_1 _ _ _ _ Hs Hb) as Rb. cbn in Ra, Rb.
  rewrite (drop_S _ a) by done. rewrite (drop_S _ b) by (by rewrite <- Nat.add_1_r).
  replace (2 * S n)%nat with (S (S (2 * n))) by lia. rewrite !firstn_cons, wire_sinks_app2.
  eapply writes_ext.
  { intros w. cbn [encode_sinks]. rewrite !rd_lookup by lia.
    replace (Z.to_nat (Z.of_nat k * 2)) with (2 * k)%nat by lia.
    replace (Z.to_nat (Z.of_nat k * 2 + 1)) with (2 * k + 1)%nat by lia.
    rewrite Ha, Hb. cbn [mbind option_bind]. reflexivity. }
  replace (Z.of_nat k + 1) with (Z.of_nat (S k)) by lia.
  eapply writes_eq; [apply writes_bind; [apply writes_emit|apply IH; [done|lia]]|].
  replace (S (S (2 * k))) with (2 * S k)%nat by lia. cbn [app]. f_equal. fields_lia.
Qed.

(** An odd last entry has a byte of its own. *)
Lemma wire_sinks_odd l x : forall k, length l = (2 * k)%nat ->
  wire_sinks (l ++ [x]) = wire_sinks l ++ [16 * x].
Proof.
  intros k. revert l. induction k as [|k IH]; intros l Hl.
  - by apply nil_length_inv in Hl as ->.
  - destruct l as [|a [|b l]]; cbn in Hl; try lia. cbn [app wire_sinks]. rewrite IH by lia. done.
Qed.

Lemma writes_all_sinks sink n :
  0 <= n < 16 -> length sink = 16%nat -> Forall (fun s => 0 <= s < 16) sink ->
  writes (fun w => w ← encode_sinks sink 0 (Z.to_nat (n / 2)) w;
          if tst n 1 then x ← rd sink (n - 1); emit (Z.shiftl (Z.land x 0xf) 4) w
          else Some w)
    (wire_sinks (take (Z.to_nat n) sink)).
Proof.
  intros Hn Hl Hs.
  pose proof (writes_sinks sink (Z.to_nat (n / 2)) 0 Hs ltac:(div_lia)) as W.
  rewrite drop_0 in W. unfold tst. rewrite land_0x1.
  destruct (Z.eqb_spec (n mod 2) 0) as [E|E]; cbn [negb].
  - eapply writes_eq; [eapply writes_bind; [exact W|apply writes_skip]|].
    rewrite app_nil_r. do 2 f_equal. div_lia.
  - destruct (lookup_lt_is_Some_2 sink (Z.to_nat (n - 1))) as [x Hx]; [lia|].
    pose proof (Forall_lookup_1 _ _ _ _ Hs Hx) as Rx. cbn in Rx.
    eapply writes_ext.
    { intros w. rewrite rd_lookup by div_lia. rewrite Hx. reflexivity. }
    eapply writes_eq; [eapply writes_bind; [exact W|apply writes_emit]|].
    replace (Z.to_nat n) with (S (Z.to_nat (n - 1))) by div_lia.
    rewrite (take_S_r _ _ _ Hx), (wire_sinks_odd _ _ (Z.to_nat (n / 2))).
    + f_equal; [do 2 f_equal; div_lia|]. f_equal. fields_lia.
    + rewrite length_take. div_lia.
Qed.

Lemma writes_allocate_payload a sink0 :
  body_ok DP_ALLOCATE_PAYLOAD (Ack_allocate_payload a) sink0 ->
  writes (encode_allocate_payload a) (wire_body (Ack_allocate_payload a)).
Proof.
  intros (_&Hp&Hn&Hv&Hb&Hl&_&Hs&_). pose proof (writes_all_sinks _ _ Hn Hl Hs) as W.
  unfold encode_allocate_payload. writes_tac. cbn [wire_body app]. bytes_lia.
Qed.

Lemma writes_query_payload q sink0 :
  body_ok DP_QUERY_PAYLOAD (Ack_query_payload q) sink0 ->
  writes (encode_query_payload q) (wire_body (Ack_query_payload q)).
Proof.
  intros (_&Hp&Hv). unfold encode_query_payload. writes_tac. cbn [wire_body]. bytes_lia.
Qed.

#[local] Hint Resolve writes_dpcd_address : writes.

Lemma writes_dpcd_read r sink0 :
  body_ok DP_REMOTE_DPCD_READ (Ack_dpcd_read r) sink0 ->
  writes (encode_dpcd_read r) (wire_body (Ack_dpcd_read r)).
Proof.
  intros (_&Hp&Ha&Hn). unfold is_byte in Hn. unfold encode_dpcd_read. writes_tac.
  cbn [wire_body]. f_equal. bytes_lia.
Qed.

Lemma writes_dpcd_write r sink0 :
  body_ok DP_REMOTE_DPCD_WRITE (Ack_dpcd_write r) sink0 ->
  writes (encode_dpcd_write r) (wire_body (Ack_dpcd_write r)).
Proof.
  intros (_&Hp&Ha&Hb&Hn). unfold encode_dpcd_write.
  pose proof (blen_nonneg (dw_bytes r)). writes_tac.
  cbn [wire_body]. f_equal. cbn [app]. f_equal. fields_lia.
Qed.

Lemma writes_i2c_write r sink0 :
  body_ok DP_REMOTE_I2C_WRITE (Ack_i2c_write r) sink0 ->
  writes (encode_i2c_write r) (wire_body (Ack_i2c_write r)).
Proof.
  intros (_&Hp&Ha&Hb&Hn). unfold encode_i2c_write.
  pose proof (blen_nonneg (iw_bytes r)). writes_tac.
  cbn [wire_body app]. do 2 (f_equal; [fields_lia|]). f_equal. fields_lia.
Qed.

Lemma writes_i2c_txs txs n : forall k,
  Forall tx_ok txs -> (k + n <= length txs)%nat ->
  writes (encode_i2c_txs txs k n) (take n (drop k txs) ≫= wire_tx).
Proof.
  induction n as [|n IH]; intros k Hok Hl; [rewrite take_0; apply writes_skip|].
  destruct (lookup_lt_is_Some_2 txs k) as [t Ht]; [lia|].
  destruct (Forall_lookup_1 _ _ _ _ Hok Ht) as (H1&H2&H3&H4&H5).
  pose proof (blen_nonneg (tx_bytes t)).
  rewrite (drop_S _ t) by done. rewrite firstn_cons. cbn [mbind list_bind].
  eapply writes_ext.
  { intros w. cbn [encode_i2c_txs]. rewrite Ht. cbn [mbind option_bind]. reflexivity. }
  specialize (IH (S k) Hok ltac:(lia)).
  eapply writes_eq; [eauto 12 with writes|]. unfold wire_tx. cbn [app].
  rewrite <- app_assoc. cbn [app]. do 2 (f_equal; [fields_lia|]). f_equal.
  f_equal. fields_lia.
Qed.

Lemma writes_i2c_read r sink0 :
  body_ok DP_REMOTE_I2C_READ (Ack_i2c_read r) sink0 ->
  writes (encode_i2c_read r) (wire_body (Ack_i2c_read r)).
Proof.
  intros (_&Hp&Hl&Hn&Hok&Hd&Hb). unfold is_byte in Hb.
  pose proof (writes_i2c_txs (transactions r) (length (transactions r)) 0 Hok ltac:(lia)) as W.
  rewrite drop_0, take_ge in W by lia.
  assert (E : Z.to_nat (Z.land (num_transactions r) 3) = length (transactions r))
    by (rewrite land_0x3; div_lia).
  unfold encode_i2c_read. rewrite E. writes_tac. cbn [wire_body app].
  f_equal; [fields_lia|]. f_equal. bytes_lia.
Qed.

Lemma writes_put_ors v o1 o2 o3 o4 :
  writes (fun w => w ← put v w; w ← orp o1 w; w ← orp o2 w; w ← orp o3 w; w ← orp o4 w; inc w)
    [u8 (Z.lor (u8 (Z.lor (u8 (Z.lor (u8 (Z.lor (u8 v) o1)) o2)) o3)) o4)].
Proof.
  eapply writes_ext; [|apply writes_emit]. intros w. unfold emit.
  rewrite <- !put_orp. destruct (put v w) as [w1|]; [|done]. cbn [mbind option_bind].
  destruct (orp o1 w1) as [w2|]; [|done]. cbn [mbind option_bind].
  destruct (orp o2 w2) as [w3|]; [|done]. cbn [mbind option_bind].
  by destruct (orp o3 w3).
Qed.

Lemma enc_flags e ve b vb :
  0 <= e < 4 -> 0 <= b < 4 -> 0 <= vb < 2 ->
  u8 (Z.lor (u8 (Z.lor (u8 (Z.lor (u8 (Z.lor (u8 0) (FIELD_PREP_1_0 e)))
    (if ve : bool then BIT 2 else 0))) (FIELD_PREP_4_3 b)))
    (if negb (vb =? 0) then BIT 5 else 0)) =
  e + 4 * b2z ve + 8 * b + 32 * vb.
Proof.
  intros He Hb Hvb.
  assert (e = 0 \/ e = 1 \/ e = 2 \/ e = 3) as Ke by lia.
  assert (b = 0 \/ b = 1 \/ b = 2 \/ b = 3) as Kb by lia.
  assert (vb = 0 \/ vb = 1) as Kv by lia.
  destruct Kv as [->| ->], ve; destruct Ke as [->|[->|[->| ->]]], Kb as [->|[->|[->| ->]]];
    reflexivity.
Qed.

Lemma writes_enc_status r sink0 :
  body_ok DP_QUERY_STREAM_ENC_STATUS (Ack_enc_status r) sink0 ->
  writes (encode_enc_status r) (wire_body (Ack_enc_status r)).
Proof.
  intros (_&Hi&Hc&He&Hb&Hv). unfold is_byte in Hi. unfold encode_enc_status.
  eapply writes_eq.
  - apply writes_bind; [apply writes_emit|].
    apply writes_bind; [by apply writes_emit_bytes|apply writes_put_ors].
  - rewrite enc_flags by done. cbn [wire_body app]. f_equal. fields_lia.
Qed.

#[local] Hint Resolve writes_allocate_payload writes_query_payload writes_dpcd_read
  writes_dpcd_write writes_i2c_read writes_i2c_write writes_enc_status : writes.

Lemma writes_body t x sink0 :
  body_ok t x sink0 -> writes (encode_body (ReqBody t x)) (wire_body x).
Proof.
  intros H. destruct x; try done; cbn [body_ok] in H.
  - destruct H as [->|[->| ->]]; apply writes_skip.
  - destruct H as [[->|[->| ->]] Hp]; unfold encode_body; cbn; (writes_tac; cbn [wire_body]; bytes_lia).
  - destruct H as [-> H]. eapply (writes_query_payload _ sink0). by split.
  - destruct H as [-> H]. eapply (writes_allocate_payload _ sink0). by split.
  - destruct H as [-> H]. eapply (writes_dpcd_read _ sink0). by split.
  - destruct H as [-> H]. eapply (writes_dpcd_write _ sink0). by split.
  - destruct H as [-> H]. eapply (writes_i2c_read _ sink0). by split.
  - destruct H as [-> H]. eapply (writes_i2c_write _ sink0). by split.
  - destruct H as [-> H]. eapply (writes_enc_status _ sink0). by split.
Qed.

Lemma body_ok_type t x sink0 : body_ok t x sink0 -> 0 <= t < 128.
Proof.
  destruct x; cbn [body_ok]; intros H; destruct_and?; repeat destruct_or?; subst;
    by vm_compute.
Qed.

(** The encoder on a message with room for the request. *)
Lemma encode_sideband_req_wire {R} (req : drm_dp_sideband_msg_req_body)
    (raw : drm_dp_sideband_msg_tx R) sink0 :
  body_ok (req_type req) (u req) sink0 -> blen (wire req) <= blen (msg raw) ->
  blen (wire req) < 256 ->
  drm_dp_encode_sideband_req req raw =
  Some (set_msg raw (wire req ++ drop (length (wire req)) (msg raw)) (blen (wire req))).
Proof.
  intros Hok Hl Hl'. destruct req as [t x]. cbn [req_type u] in *.
  pose proof (body_ok_type _ _ _ Hok).
  unfold drm_dp_encode_sideband_req. cbn [req_type].
  assert (W : writes (fun w => emit (Z.land t 127) w ≫= encode_body (ReqBody t x))
                (wire (ReqBody t x))).
  { eapply writes_eq; [eapply writes_bind; [apply writes_emit|by eapply writes_body]|].
    unfold wire. cbn [req_type u app]. f_equal. fields_lia. }
  pose proof (writes_run _ _ (msg raw) 0 W ltac:(lia) ltac:(lia)) as E. cbn beta in E.
  destruct (emit _ _) as [w|]; [|done]. cbn [mbind option_bind] in *. rewrite E.
  cbn [mbind option_bind]. rewrite Z.add_0_l, wrapU_small; [done|].
  unfold is_u. pose proof (blen_nonneg (wire (ReqBody t x))). lia.
Qed.

(** ** The decoder reads it back *)

Ltac peel H :=
  let R := fresh "R" in
  apply holds_rd in H as [R H];
  match type of H with
  | holds _ ?i _ => let j := eval compute in i in change i with j in H
  end; rewrite ?R; cbn [mbind option_bind].

Lemma wire_sinks_lookup m : forall l k s,
  (length l <= m)%nat -> Forall (fun s => 0 <= s < 16) l -> l !! k = Some s ->
  exists y, wire_sinks l !! (k / 2)%nat = Some y /\
    Z.land (Z.shiftr y (if Z.rem (Z.of_nat k) 2 =? 0 then 4 else 0)) 15 = s.
Proof.
  induction m as [|m IH]; intros l k s Hm Hs Hk.
  { destruct l; [done|cbn in Hm; lia]. }
  destruct l as [|a [|b l]]; [done| |].
  - destruct k; [|done]. injection Hk as ->. inversion Hs; subst.
    exists (16 * s). split; [done|].
    change (Z.rem (Z.of_nat 0) 2 =? 0) with true. cbv iota. fields_lia.
  - apply Forall_cons_1 in Hs as [Ha Hs]. apply Forall_cons_1 in Hs as [Hb Hs].
    destruct k as [|[|k]].
    + injection Hk as <-. exists (16 * a + b). split; [done|].
      change (Z.rem (Z.of_nat 0) 2 =? 0) with true. cbv iota. fields_lia.
    + injection Hk as <-. exists (16 * a + b). split; [done|].
      change (Z.rem (Z.of_nat 1) 2 =? 0) with false. cbv iota. fields_lia.
    + destruct (IH l k s) as (y&Hy&Hys); [cbn in Hm; lia|done..|].
      exists y. replace (S (S k) / 2)%nat with (S (k / 2)).
      * split; [done|]. rewrite <- Hys. do 2 f_equal.
        replace (Z.rem (Z.of_nat (S (S k))) 2) with (Z.rem (Z.of_nat k) 2); [done|]. div_lia.
      * replace (S (S k)) with (k + 1 * 2)%nat by lia. rewrite Nat.div_add by lia. lia.
Qed.

Lemma wr_splice (a b : list Z) k s :
  length a = length b -> a !! k = Some s -> 0 <= s < 16 ->
  wr (take k a ++ drop k b) (Z.of_nat k) s = Some (take (S k) a ++ drop (S k) b).
Proof.
  intros Hl Hk Hs. pose proof (lookup_lt_Some _ _ _ Hk).
  destruct (lookup_lt_is_Some_2 b k) as [x Hx]; [lia|].
  rewrite (drop_S _ _ _ Hx), (take_S_r _ _ _ Hk). change (x :: drop (S k) b) with ([x] ++ drop (S k) b).
  assert (E : blen (take k a) = Z.of_nat k) by (unfold blen; rewrite length_take; lia).
  unfold wr. rewrite <- E at 1. rewrite wr_range_app by done. rewrite <- app_assoc.
  cbn [app]. do 3 f_equal. apply wrapU_small. unfold is_u. lia.
Qed.

Lemma decode_sinks_wire buf sink sink0 n : forall k,
  length sink = 16%nat -> length sink0 = 16%nat -> (k + n <= 16)%nat ->
  Forall (fun s => 0 <= s < 16) sink ->
  holds buf 5 (wire_sinks (take (k + n) sink)) ->
  decode_sinks buf 5 (Z.of_nat k) n (take k sink ++ drop k sink0) =
  Some (take (k + n) sink ++ drop (k + n) sink0).
Proof.
  induction n as [|n IH]; intros k Hl Hl0 Hk Hs Hh; cbn [decode_sinks].
  { by rewrite Nat.add_0_r. }
  rewrite <- Nat.add_succ_comm in *.
  destruct (lookup_lt_is_Some_2 sink k) as [s Hsk]; [lia|].
  destruct (wire_sinks_lookup 16 (take (S k + n) sink) k s) as (y&Hy&Hys).
  { rewrite length_take. lia. }
  { by apply Forall_take. }
  { by rewrite lookup_take_lt by lia. }
  pose proof (holds_nth _ _ _ _ _ Hh Hy) as Hr.
  rewrite Nat2Z.inj_div in Hr. change (Z.of_nat 2) with 2 in Hr. rewrite Hr.
  cbn [mbind option_bind]. rewrite Hys, wr_splice; [|lia|done|].
  - cbn [mbind option_bind]. replace (Z.of_nat k + 1) with (Z.of_nat (S k)) by lia.
    by apply IH.
  - exact (Forall_lookup_1 _ _ _ _ Hs Hsk).
Qed.

Section decode_wire.
Context (ok null : nat -> bool) (Hok : forall k, ok k = true).

Lemma kmemdup_holds buf k i bs n :
  holds buf i bs -> blen bs = n -> kmemdup ok k buf i n = Some (Some bs).
Proof using Hok.
  intros H <-. unfold kmemdup. rewrite Hok, (holds_range _ _ _ H). done.
Qed.

Lemma decode_allocate_wire buf t a sink0 :
  body_ok t (Ack_allocate_payload a) sink0 ->
  holds buf 0 (t :: wire_body (Ack_allocate_payload a)) ->
  decode_allocate_payload buf sink0 = Some (Decoded (Ack_allocate_payload a)).
Proof using.
  intros (_&Hp&Hn&Hv&Hb&Hl&Hl0&Hs&Hd) H. destruct a as [p n v b sink]; cbn in *.
  unfold decode_allocate_payload. do 5 peel H.
  replace (Z.land (16 * p + n) 15) with n by fields_lia.
  pose proof (decode_sinks_wire buf sink sink0 (Z.to_nat n) 0 Hl Hl0 ltac:(lia) Hs H) as E.
  rewrite take_0, drop_0 in E. cbn [app Nat.add] in E. change (Z.of_nat 0) with 0 in E.
  rewrite E.
  cbn [mbind option_bind]. rewrite <- Hd, take_drop. do 3 f_equal. f_equal; fields_lia.
Qed.

Lemma decode_address_wire p a :
  0 <= p < 16 -> 0 <= a < 1048576 ->
  decode_dpcd_address (16 * p + a / 65536) (a / 256 mod 256) (a mod 256) = a.
Proof using.
  intros. unfold decode_dpcd_address. fields_lia.
Qed.

Lemma port_nibble p r : 0 <= p -> 0 <= r < 16 -> p < 16 ->
  Z.land (Z.shiftr (16 * p + r) 4) 15 = p.
Proof using. intros. fields_lia. Qed.

Lemma decode_query_wire buf t q sink0 :
  body_ok t (Ack_query_payload q) sink0 ->
  holds buf 0 (t :: wire_body (Ack_query_payload q)) ->
  decode_query_payload buf = Some (Decoded (Ack_query_payload q)).
Proof using.
  intros (_&Hp&Hv) H. destruct q; cbn in *. unfold decode_query_payload. do 3 peel H.
  do 3 f_equal. f_equal; fields_lia.
Qed.

Lemma decode_dpcd_read_wire buf t r sink0 :
  body_ok t (Ack_dpcd_read r) sink0 ->
  holds buf 0 (t :: wire_body (Ack_dpcd_read r)) ->
  decode_dpcd_read buf = Some (Decoded (Ack_dpcd_read r)).
Proof using.
  intros (_&Hp&Ha&Hn) H. destruct r as [p a n]; cbn in *. unfold decode_dpcd_read.
  do 5 peel H. rewrite decode_address_wire by done. do 3 f_equal. f_equal; fields_lia.
Qed.

Lemma decode_dpcd_write_wire buf t r sink0 :
  body_ok t (Ack_dpcd_write r) sink0 ->
  holds buf 0 (t :: wire_body (Ack_dpcd_write r)) ->
  decode_dpcd_write ok buf = Some (Decoded (Ack_dpcd_write r)).
Proof using Hok.
  intros (_&Hp&Ha&Hb&Hn) H. destruct r as [p a n bs]; cbn in *. unfold decode_dpcd_write.
  do 5 peel H. rewrite (kmemdup_holds _ _ _ bs) by done. cbn [mbind option_bind].
  rewrite decode_address_wire by done. do 3 f_equal. f_equal; fields_lia.
Qed.

Lemma decode_i2c_write_wire buf t r sink0 :
  body_ok t (Ack_i2c_write r) sink0 ->
  holds buf 0 (t :: wire_body (Ack_i2c_write r)) ->
  decode_i2c_write ok buf = Some (Decoded (Ack_i2c_write r)).
Proof using Hok.
  intros (_&Hp&Ha&Hb&Hn) H. destruct r as [p a n bs]; cbn in *. unfold decode_i2c_write.
  do 4 peel H. rewrite (kmemdup_holds _ _ _ bs) by done. cbn [mbind option_bind].
  do 3 f_equal. f_equal; fields_lia.
Qed.

Lemma decode_i2c_txs_wire buf txs : forall i k tail,
  0 <= i -> Forall tx_ok txs -> holds buf (i + 1) ((txs ≫= wire_tx) ++ tail) ->
  exists j, decode_i2c_txs ok buf i k (length txs) =
      Some (inr (clear_no_stop <$> txs, j)) /\ holds buf (j + 1) tail.
Proof using Hok.
  clear null.
  induction txs as [|t txs IH]; intros i k tail Hi Htx H.
  { exists i. done. }
  apply Forall_cons_1 in Htx as [(H1&H2&H3&H4&H5) Htx].
  cbn [mbind list_bind wire_tx app] in H. rewrite <- !app_assoc in H. cbn [app] in H.
  apply holds_rd in H as [R1 H]. apply holds_rd in H as [R2 H].
  apply holds_app in H as [B H]. apply holds_rd in H as [R3 H].
  replace (i + 1 + 1) with (i + 2) in * by lia. replace (i + 2 + 1) with (i + 3) in * by lia.
  rewrite H2 in *. pose proof (blen_nonneg (tx_bytes t)).
  destruct (IH (i + 3 + tx_num_bytes t) (S k) tail ltac:(lia) Htx H) as (j&E&Hj).
  exists j. split; [|done]. cbn [decode_i2c_txs length]. rewrite R1. cbn [mbind option_bind].
  rewrite R2. cbn [mbind option_bind]. rewrite (kmemdup_holds _ _ _ _ _ B H2).
  cbn [mbind option_bind]. rewrite R3. cbn [mbind option_bind]. rewrite E.
  cbn [mbind option_bind fmap list_fmap]. unfold clear_no_stop at 2.
  do 4 f_equal. f_equal; fields_lia.
Qed.

Lemma decode_i2c_read_wire buf t r sink0 :
  body_ok t (Ack_i2c_read r) sink0 ->
  holds buf 0 (t :: wire_body (Ack_i2c_read r)) ->
  decode_i2c_read ok null buf = Some (Decoded (decoded_body (Ack_i2c_read r))).
Proof using Hok null.
  intros (_&Hp&Hl&Hn&Htx&Hd&Hb) H. destruct r as [n p txs d b]; cbn in *. unfold decode_i2c_read.
  do 2 peel H. replace (Z.land (16 * p + n) 3) with n by fields_lia.
  rewrite <- Hl, Nat2Z.id.
  destruct (decode_i2c_txs_wire buf txs 1 0 _ ltac:(lia) Htx H) as (j&->&H').
  cbn [mbind option_bind]. apply holds_rd in H' as [-> H']. cbn [mbind option_bind].
  replace (j + 1 + 1) with (j + 2) in H' by lia. apply holds_rd in H' as [-> H'].
  cbn [mbind option_bind]. do 3 f_equal. f_equal; fields_lia.
Qed.

Lemma decode_enc_status_wire buf t r sink0 :
  body_ok t (Ack_enc_status r) sink0 ->
  holds buf 0 (t :: wire_body (Ack_enc_status r)) ->
  decode_enc_status buf = Some (Decoded (Ack_enc_status r)).
Proof using.
  intros (_&Hi&Hc&He&Hb&Hv) H. destruct r as [i c e ve b vb]; cbn in *.
  unfold decode_enc_status. do 2 peel H. apply holds_app in H as [B H].
  rewrite Hc in H. apply holds_rd in H as [Rf _]. rewrite <- Hc, (holds_range _ _ _ B).
  cbn [mbind option_bind]. change (2 + 7) with 9 in Rf. rewrite Rf. cbn [mbind option_bind].
  assert (e = 0 \/ e = 1 \/ e = 2 \/ e = 3) as Ke by lia.
  assert (b = 0 \/ b = 1 \/ b = 2 \/ b = 3) as Kb by lia.
  assert (vb = 0 \/ vb = 1) as Kv by lia.
  destruct Kv as [->| ->], ve; destruct Ke as [->|[->|[->| ->]]], Kb as [->|[->|[->| ->]]];
    reflexivity.
Qed.

Lemma decode_body_wire buf t x sink0 :
  body_ok t x sink0 -> holds buf 0 (t :: wire_body x) ->
  decode_body ok null t buf Ack_none sink0 = Some (Decoded (decoded_body x)).
Proof using Hok null.
  intros Hx H. pose proof Hx as Ht. destruct x; try done; cbn [body_ok] in Ht.
  - destruct Ht as [->|[->| ->]]; reflexivity.
  - destruct Ht as [Ht Hp]. cbn [wire_body] in H. do 2 peel H.
    assert (E : Z.land (Z.shiftr (16 * port_number) 4) 15 = port_number) by fields_lia.
    destruct Ht as [->|[->| ->]]; unfold decode_body; cbn; rewrite R0; cbn [mbind option_bind];
      rewrite E; reflexivity.
  - destruct Ht as [-> _]. exact (decode_query_wire buf _ _ sink0 Hx H).
  - destruct Ht as [-> _]. exact (decode_allocate_wire buf _ _ sink0 Hx H).
  - destruct Ht as [-> _]. exact (decode_dpcd_read_wire buf _ _ sink0 Hx H).
  - destruct Ht as [-> _]. exact (decode_dpcd_write_wire buf _ _ sink0 Hx H).
  - destruct Ht as [-> _]. exact (decode_i2c_read_wire buf _ _ sink0 Hx H).
  - destruct Ht as [-> _]. exact (decode_i2c_write_wire buf _ _ sink0 Hx H).
  - destruct Ht as [-> _]. exact (decode_enc_status_wire buf _ _ sink0 Hx H).
Qed.
End decode_wire.

(** ** The header on the wire *)

Definition hdr_size (hdr : drm_dp_sideband_msg_hdr) : Z := 3 + lct hdr / 2.

(** The header bytes before the check: all but the last, and the last. *)
Definition hdr_front (hdr : drm_dp_sideband_msg_hdr) : list Z :=
  [16 * lct hdr + lcr hdr] ++ take (Z.to_nat (lct hdr / 2)) (rad hdr) ++
  [128 * b2z (broadcast hdr) + 64 * b2z (path_msg hdr) + msg_len hdr].

Definition hdr_flags (hdr : drm_dp_sideband_msg_hdr) : Z :=
  128 * b2z (somt hdr) + 64 * b2z (eomt hdr) + 16 * b2z (seqno hdr).

Definition hdr_crc (hdr : drm_dp_sideband_msg_hdr) : Z :=
  rrun 4 19 0 (msg_bits (hdr_front hdr) ++ take 4 (byte_bits (hdr_flags hdr)) ++
               replicate 4 false).

Definition hdr_wire (hdr : drm_dp_sideband_msg_hdr) : list Z :=
  hdr_front hdr ++ [hdr_flags hdr + hdr_crc hdr].

(** A header of a message to a branch at depth [lct] with a body. *)
Definition hdr_ok (hdr : drm_dp_sideband_msg_hdr) : Prop :=
  1 <= lct hdr < 16 /\ 0 <= lcr hdr < 16 /\ length (rad hdr) = 8%nat /\
  Forall is_byte (rad hdr) /\ 1 <= msg_len hdr < 64.

Lemma hdr_crc_range hdr : 0 <= hdr_crc hdr < 16.
Proof. apply (rrun_range 4 19); cbn; lia. Qed.

Lemma hdr_front_len hdr : hdr_ok hdr -> blen (hdr_front hdr) = hdr_size hdr - 1.
Proof.
  intros (H1&_&H2&_). unfold hdr_front, hdr_size. rewrite !blen_app, !blen_cons, blen_nil.
  unfold blen. rewrite length_take. div_lia.
Qed.

Lemma hdr_wire_len hdr : hdr_ok hdr -> blen (hdr_wire hdr) = hdr_size hdr.
Proof.
  intros H. unfold hdr_wire. rewrite blen_app, blen_cons, blen_nil, hdr_front_len by done. lia.
Qed.

Lemma writes_rad r n : forall k,
  Forall is_byte r -> (k + n <= length r)%nat ->
  writes (encode_rad r (Z.of_nat k) n) (take n (drop k r)).
Proof.
  induction n as [|n IH]; intros k Hr Hl; [rewrite take_0; apply writes_skip|].
  destruct (lookup_lt_is_Some_2 r k) as [x Hx]; [lia|].
  pose proof (Forall_lookup_1 _ _ _ _ Hr Hx) as Bx. unfold is_byte in Bx.
  rewrite (drop_S _ x) by done. rewrite firstn_cons.
  eapply writes_ext.
  { intros w. cbn [encode_rad]. rewrite rd_lookup, Nat2Z.id, Hx by lia. reflexivity. }
  replace (Z.of_nat k + 1) with (Z.of_nat (S k)) by lia.
  eapply writes_eq; [apply writes_bind; [apply writes_emit|apply IH; [done|lia]]|].
  cbn [app]. f_equal. by apply wrapU_small.
Qed.

Lemma nibble_bits h c :
  0 <= h < 16 -> 0 <= c < 16 -> take 4 (byte_bits (16 * h + c)) = take 4 (byte_bits (16 * h)).
Proof.
  intros Hh Hc.
  assert (E : forall j d, 0 <= j -> 0 <= d < 16 -> Z.testbit (16 * h + d) (j + 4) = Z.testbit h j).
  { intros j d Hj Hd. rewrite <- Z.div_pow2_bits by lia. f_equal. pow_consts. div_lia. }
  assert (E' : forall j, 0 <= j -> Z.testbit (16 * h) (j + 4) = Z.testbit h j).
  { intros j Hj. rewrite <- (E j 0) by lia. by rewrite Z.add_0_r. }
  unfold byte_bits. cbn [fmap list_fmap take].
  pose proof (E 3 c) as E3. pose proof (E 2 c) as E2. pose proof (E 1 c) as E1.
  pose proof (E 0 c) as E0. pose proof (E' 3) as F3. pose proof (E' 2) as F2.
  pose proof (E' 1) as F1. pose proof (E' 0) as F0.
  change (3 + 4) with 7 in *. change (2 + 4) with 6 in *. change (1 + 4) with 5 in *.
  change (0 + 4) with 4 in *.
  rewrite E3, E2, E1, E0, F3, F2, F1, F0 by lia. done.
Qed.

(** The check of any buffer that starts with the front and the flags. *)
Lemma hdr_crc_of hdr c rest :
  hdr_ok hdr -> 0 <= c < 16 ->
  drm_dp_msg_header_crc4 (hdr_front hdr ++ (hdr_flags hdr + c) :: rest) (hdr_size hdr * 2 - 1) =
  Some (hdr_crc hdr).
Proof.
  intros Hok Hc. pose proof (hdr_front_len _ Hok) as Hf. pose proof Hok as (Hl&_).
  unfold hdr_size in *. rewrite header_crc4_rrun.
  - f_equal. unfold hdr_crc. rewrite app_assoc. f_equal. f_equal.
    unfold msg_bits at 1. rewrite bind_app. fold (msg_bits (hdr_front hdr)).
    rewrite take_app_ge by (rewrite length_msg_bits; unfold blen in Hf; div_lia).
    f_equal. rewrite length_msg_bits.
    replace (Z.to_nat ((( 3 + lct hdr / 2) * 2 - 1) * 4) - 8 * length (hdr_front hdr))%nat
      with 4%nat by (unfold blen in Hf; div_lia).
    cbn [mbind list_bind]. rewrite take_app_le by (unfold byte_bits; rewrite length_fmap; cbn; lia).
    unfold hdr_flags. set (h := 8 * b2z (somt hdr) + 4 * b2z (eomt hdr) + b2z (seqno hdr)).
    assert (0 <= h < 16) by (unfold h; destruct (somt hdr), (eomt hdr), (seqno hdr); cbn; lia).
    replace (128 * b2z (somt hdr) + 64 * b2z (eomt hdr) + 16 * b2z (seqno hdr)) with (16 * h) by lia.
    by apply nibble_bits.
  - div_lia.
  - div_lia.
  - rewrite blen_app, blen_cons. pose proof (blen_nonneg rest). div_lia.
Qed.

Lemma b2z_range b : 0 <= b2z b < 2.
Proof. destruct b; cbn; lia. Qed.

Lemma hdr_front_writes hdr :
  hdr_ok hdr ->
  writes (fun w =>
    w ← emit (Z.lor (Z.shiftl (Z.land (lct hdr) 0xf) 4) (Z.land (lcr hdr) 0xf)) w;
    w ← encode_rad (rad hdr) 0 (Z.to_nat (lct hdr / 2)) w;
    w ← emit (Z.lor (Z.lor (Z.shiftl (b2z (broadcast hdr)) 7)
                           (Z.shiftl (b2z (path_msg hdr)) 6))
                    (Z.land (msg_len hdr) 0x3f)) w;
    emit (Z.lor (Z.lor (Z.shiftl (b2z (somt hdr)) 7) (Z.shiftl (b2z (eomt hdr)) 6))
                (Z.shiftl (b2z (seqno hdr)) 4)) w)
  (hdr_front hdr ++ [hdr_flags hdr]).
Proof.
  intros (H1&H2&H3&H4&H5).
  pose proof (writes_rad (rad hdr) (Z.to_nat (lct hdr / 2)) 0 H4 ltac:(div_lia)) as W.
  rewrite drop_0 in W. writes_tac.
  unfold hdr_front, hdr_flags. rewrite <- !app_assoc. cbn [app].
  pose proof (b2z_range (broadcast hdr)). pose proof (b2z_range (path_msg hdr)).
  pose proof (b2z_range (somt hdr)). pose proof (b2z_range (eomt hdr)).
  pose proof (b2z_range (seqno hdr)).
  f_equal; [fields_lia|]. f_equal. f_equal; [fields_lia|]. f_equal. fields_lia.
Qed.

Lemma encode_hdr_wire hdr buf :
  hdr_ok hdr -> hdr_size hdr <= blen buf ->
  drm_dp_encode_sideband_msg_hdr hdr buf =
  Some (hdr_wire hdr ++ drop (length (hdr_wire hdr)) buf, hdr_size hdr).
Proof.
  intros Hok Hl. pose proof (hdr_front_len _ Hok) as Hf. pose proof (hdr_wire_len _ Hok) as Hw.
  pose proof (hdr_crc_range hdr) as Hc.
  assert (Hff : blen (hdr_front hdr ++ [hdr_flags hdr]) = hdr_size hdr)
    by (rewrite blen_app, blen_cons, blen_nil; lia).
  pose proof (writes_run _ _ buf 0 (hdr_front_writes _ Hok) ltac:(lia) ltac:(lia)) as E.
  cbn beta in E. rewrite Hff, Z.add_0_l in E. change (Z.to_nat 0) with 0%nat in E.
  rewrite take_0, Nat.add_0_l in E. cbn [app] in E.
  unfold drm_dp_encode_sideband_msg_hdr.
  destruct (emit _ (buf, 0)) as [w|]; [|done]. cbn [mbind option_bind] in *.
  destruct (encode_rad _ _ _ w) as [w2|]; [|done]. cbn [mbind option_bind] in *.
  destruct (emit _ w2) as [w3|]; [|done]. cbn [mbind option_bind] in *.
  rewrite E. cbn [mbind option_bind]. rewrite <- app_assoc. cbn [app].
  set (rest := drop _ buf).
  pose proof (hdr_crc_of hdr 0 rest Hok ltac:(lia)) as Ec. rewrite Z.add_0_r in Ec.
  rewrite Ec. cbn [mbind option_bind]. rewrite <- Hf, rd_app_at. cbn [mbind option_bind].
  change (hdr_flags hdr :: rest) with ([hdr_flags hdr] ++ rest).
  unfold wr. rewrite wr_range_app by done. cbn [mbind option_bind].
  unfold hdr_wire at 1. rewrite <- app_assoc. f_equal. f_equal. f_equal.
  assert (L : length (hdr_wire hdr) = length (hdr_front hdr ++ [hdr_flags hdr]))
    by (unfold hdr_wire; rewrite !length_app; done).
  rewrite L. fold rest. f_equal.
  unfold hdr_flags. pose proof (b2z_range (somt hdr)). pose proof (b2z_range (eomt hdr)).
  pose proof (b2z_range (seqno hdr)). f_equal. fields_lia.
Qed.

Lemma decode_rad_wire buf r r0 n : forall k,
  length r = 8%nat -> length r0 = 8%nat -> (k + n <= 8)%nat -> Forall is_byte r ->
  holds buf (1 + Z.of_nat k) (take n (drop k r)) ->
  decode_rad buf (1 + Z.of_nat k) (Z.of_nat k) n (take k r ++ drop k r0) =
  Some (take (k + n) r ++ drop (k + n) r0).
Proof.
  induction n as [|n IH]; intros k Hl Hl0 Hk Hr H; cbn [decode_rad].
  { by rewrite Nat.add_0_r. }
  rewrite <- Nat.add_succ_comm in *.
  destruct (lookup_lt_is_Some_2 r k) as [x Hx]; [lia|].
  pose proof (Forall_lookup_1 _ _ _ _ Hr Hx) as Bx. unfold is_byte in Bx.
  rewrite (drop_S _ x) in H by done. rewrite firstn_cons in H.
  apply holds_rd in H as [-> H]. cbn [mbind option_bind].
  destruct (lookup_lt_is_Some_2 r0 k) as [y Hy]; [lia|].
  rewrite (drop_S r0 y) by done. change (y :: drop (S k) r0) with ([y] ++ drop (S k) r0).
  assert (E : blen (take k r) = Z.of_nat k) by (unfold blen; rewrite length_take; lia).
  assert (W : wr (take k r ++ [y] ++ drop (S k) r0) (Z.of_nat k) x =
              Some (take k r ++ [u8 x] ++ drop (S k) r0))
    by (unfold wr; rewrite <- E; by apply wr_range_app).
  rewrite W. cbn [mbind option_bind].
  rewrite !wrapU_small by (unfold is_u; lia).
  rewrite app_assoc, <- (take_S_r _ _ _ Hx).
  replace (Z.of_nat k + 1) with (Z.of_nat (S k)) by lia.
  replace (1 + Z.of_nat k + 1) with (1 + Z.of_nat (S k)) in * by lia.
  by apply IH.
Qed.

Lemma tst_flag b k r :
  0 <= k -> 0 <= r < 2 ^ k -> tst (Z.shiftr (2 ^ k * b2z b + r) k) 1 = b.
Proof.
  intros Hk Hr. rewrite shiftr_div by done.
  replace ((2 ^ k * b2z b + r) / 2 ^ k) with (b2z b).
  - by destruct b.
  - apply Z.div_unique with r; lia.
Qed.

Lemma tst_odd x : tst x 1 = Z.odd x.
Proof.
  unfold tst. rewrite land_0x1, Zmod_odd. by destruct (Z.odd x).
Qed.

Lemma flag_at q b k r :
  0 <= k -> 0 <= r < 2 ^ k ->
  tst (Z.shiftr (2 ^ (k + 1) * q + (2 ^ k * b2z b + r)) k) 1 = b.
Proof.
  intros Hk Hr. rewrite shiftr_div by done.
  replace ((2 ^ (k + 1) * q + (2 ^ k * b2z b + r)) / 2 ^ k) with (2 * q + b2z b).
  - rewrite tst_odd. destruct b; cbn [b2z].
    + apply Z.odd_odd.
    + rewrite Z.add_0_r. apply Z.odd_even.
  - apply Z.div_unique with r; [lia|]. rewrite Z.pow_add_r by lia. lia.
Qed.

(** Entries of rad[] beyond the depth are left as they were. *)
Lemma decode_hdr_wire hdr hdr0 rest buflen hl :
  hdr_ok hdr -> length (rad hdr0) = 8%nat ->
  drop (Z.to_nat (lct hdr / 2)) (rad hdr) = drop (Z.to_nat (lct hdr / 2)) (rad hdr0) ->
  hdr_size hdr <= buflen ->
  drm_dp_decode_sideband_msg_hdr hdr0 (hdr_wire hdr ++ rest) buflen hl =
  Some (true, hdr, hdr_size hdr).
Proof.
  intros Hok Hl0 Hd Hb. pose proof (hdr_front_len _ Hok) as Hf.
  pose proof (hdr_crc_range hdr) as Hc.
  pose proof (hdr_crc_of hdr (hdr_crc hdr) rest Hok Hc) as Ec.
  pose proof Hok as (H1&H2&H3&H4&H5).
  pose proof (b2z_range (broadcast hdr)) as B1. pose proof (b2z_range (path_msg hdr)) as B2.
  pose proof (b2z_range (somt hdr)) as B3. pose proof (b2z_range (eomt hdr)) as B4.
  pose proof (b2z_range (seqno hdr)) as B5.
  assert (H : holds (hdr_wire hdr ++ rest) 0 (hdr_wire hdr)) by (by exists [], rest).
  assert (Hlast : rd (hdr_wire hdr ++ rest) (hdr_size hdr - 1) =
                  Some (hdr_flags hdr + hdr_crc hdr)).
  { unfold hdr_wire. rewrite <- app_assoc, <- Hf. apply rd_app_at. }
  replace (hdr_front hdr ++ (hdr_flags hdr + hdr_crc hdr) :: rest)
    with (hdr_wire hdr ++ rest) in Ec by (unfold hdr_wire; by rewrite <- app_assoc).
  set (buf := hdr_wire hdr ++ rest) in *. clearbody buf.
  unfold hdr_wire, hdr_front in H. rewrite <- !app_assoc in H. cbn [app] in H.
  apply holds_rd in H as [R0 H]. change (0 + 1) with 1 in H.
  apply holds_app in H as [Hr H].
  assert (Lr : blen (take (Z.to_nat (lct hdr / 2)) (rad hdr)) = lct hdr / 2)
    by (unfold blen; rewrite length_take; div_lia).
  rewrite Lr in H. apply holds_rd in H as [R1 H]. apply holds_rd in H as [R2 _].
  unfold drm_dp_decode_sideband_msg_hdr. rewrite R0. cbn [mbind option_bind].
  destruct (Z.eqb_spec (16 * lct hdr + lcr hdr) 0); [lia|].
  replace (Z.shiftr (Z.land (16 * lct hdr + lcr hdr) 240) 4) with (lct hdr) by fields_lia.
  rewrite (wrapU_small 8) by (unfold is_u; div_lia). fold (hdr_size hdr).
  destruct (Z.ltb_spec buflen (hdr_size hdr)); [lia|].
  rewrite Ec, Hlast. cbn [mbind option_bind].
  replace (Z.land (hdr_crc hdr) 15) with (hdr_crc hdr) by fields_lia.
  replace (Z.land (hdr_flags hdr + hdr_crc hdr) 15) with (hdr_crc hdr)
    by (unfold hdr_flags; fields_lia).
  rewrite Z.eqb_refl. cbn [negb].
  pose proof (decode_rad_wire buf (rad hdr) (rad hdr0) (Z.to_nat (lct hdr / 2)) 0
    H3 Hl0 ltac:(div_lia) H4) as E.
  rewrite drop_0 in E. specialize (E Hr).
  rewrite take_0, drop_0 in E. cbn [app Nat.add] in E. change (1 + Z.of_nat 0) with 1 in E.
  change (Z.of_nat 0) with 0 in E. rewrite E. cbn [mbind option_bind]. rewrite <- Hd, take_drop.
  rewrite R1. cbn [mbind option_bind].
  replace (Z.land _ 63) with (msg_len hdr) by fields_lia.
  destruct (Z.ltb_spec (msg_len hdr) 1); [lia|]. rewrite R2. cbn [mbind option_bind].
  unfold hdr_size. f_equal. f_equal; [|lia]. f_equal.
  destruct hdr as [l c r b pm ml s e q]; cbn [lct lcr rad broadcast path_msg msg_len somt eomt
    seqno] in *. unfold hdr_flags. cbn [somt eomt seqno].
  set (k := hdr_crc _) in *.
  f_equal.
  - fields_lia.
  - etransitivity; [|exact (tst_flag b 7 (64 * b2z pm + ml) ltac:(lia) ltac:(pow_consts; lia))].
    do 2 f_equal; pow_consts; lia.
  - etransitivity; [|exact (flag_at (b2z b) pm 6 ml ltac:(lia) ltac:(pow_consts; lia))].
    do 2 f_equal; pow_consts; lia.
  - etransitivity; [|exact (tst_flag s 7 (64 * b2z e + (16 * b2z q + k)) ltac:(lia) ltac:(pow_consts; lia))].
    do 2 f_equal; pow_consts; lia.
  - etransitivity; [|exact (flag_at (b2z s) e 6 (16 * b2z q + k) ltac:(lia) ltac:(pow_consts; lia))].
    do 2 f_equal; pow_consts; lia.
  - etransitivity; [|exact (flag_at (4 * b2z s + 2 * b2z e) q 4 k ltac:(lia) ltac:(pow_consts; lia))].
    do 2 f_equal; pow_consts; lia.
Qed.

Lemma calc_sb_hdr_size_eq hdr : hdr_ok hdr -> drm_dp_calc_sb_hdr_size hdr = hdr_size hdr.
Proof. intros (H&_). apply wrapU_small. unfold is_u, hdr_size. div_lia. Qed.

Lemma drop_front (a b : list Z) : length (a ++ drop (length a) b) = Nat.max (length a) (length b).
Proof. rewrite length_app, length_drop. lia. Qed.

(** C8.  A header whose fields fit encodes, in any buffer with room for it, to
    the number of bytes drm_dp_calc_sb_hdr_size announces, and decodes from the
    resulting buffer to itself, its check accepted; entries of rad beyond the
    depth keep what the decoder's header held. *)
Theorem sideband_hdr_roundtrip hdr hdr0 buf buflen hl :
  hdr_ok hdr -> length (rad hdr0) = 8%nat ->
  drop (Z.to_nat (lct hdr / 2)) (rad hdr) = drop (Z.to_nat (lct hdr / 2)) (rad hdr0) ->
  drm_dp_calc_sb_hdr_size hdr <= blen buf -> drm_dp_calc_sb_hdr_size hdr <= buflen ->
  exists buf',
    drm_dp_encode_sideband_msg_hdr hdr buf = Some (buf', drm_dp_calc_sb_hdr_size hdr) /\
    length buf' = length buf /\
    drm_dp_decode_sideband_msg_hdr hdr0 buf' buflen hl =
    Some (true, hdr, drm_dp_calc_sb_hdr_size hdr).
Proof.
  intros Hok Hl0 Hd Hb Hbl. rewrite calc_sb_hdr_size_eq in * by done.
  eexists. split; [by apply encode_hdr_wire|]. split.
  - rewrite drop_front. pose proof (hdr_wire_len _ Hok). unfold blen in *. lia.
  - by apply decode_hdr_wire.
Qed.

Definition hdr_example : drm_dp_sideband_msg_hdr :=
  Hdr 4 3 [18; 48; 0; 0; 0; 0; 0; 0] false true 21 true false true.

Lemma hdr_example_ok : hdr_ok hdr_example.
Proof. unfold hdr_ok, is_byte. cbn. repeat split; try lia. repeat constructor; lia. Qed.

Lemma sideband_hdr_roundtrip_witness :
  (hdr_ok hdr_example /\ length (rad hdr_zero) = 8%nat /\
   drop (Z.to_nat (lct hdr_example / 2)) (rad hdr_example) =
   drop (Z.to_nat (lct hdr_example / 2)) (rad hdr_zero)) /\
  exists buf',
    drm_dp_encode_sideband_msg_hdr hdr_example (replicate 48 0) =
      Some (buf', drm_dp_calc_sb_hdr_size hdr_example) /\
    length buf' = length (replicate 48 0) /\
    drm_dp_decode_sideband_msg_hdr hdr_zero buf' 16 0 =
    Some (true, hdr_example, drm_dp_calc_sb_hdr_size hdr_example).
Proof.
  split; [exact (conj hdr_example_ok (conj eq_refl eq_refl))|].
  refine (sideband_hdr_roundtrip hdr_example hdr_zero (replicate 48 0) 16 0
            hdr_example_ok eq_refl eq_refl _ _); vm_compute; discriminate.
Defined.

(** C9.  Every request whose fields fit is encoded, when it is shorter than the
    256-byte message, as its wire format followed by the old contents of the
    buffer, and decodes to itself when the decoder's allocations succeed, except
    that the no_stop_bit of an I2C transaction comes back clear: the decoder
    reads bit 5, the encoder writes bit 4. *)
Theorem sideband_req_roundtrip {R} (ok null : nat -> bool) req
    (raw : drm_dp_sideband_msg_tx R) sink0 :
  (forall k, ok k = true) -> body_ok (req_type req) (u req) sink0 ->
  length (msg raw) = 256%nat -> blen (wire req) < 256 ->
  exists raw',
    drm_dp_encode_sideband_req req raw = Some raw' /\
    msg raw' = wire req ++ drop (length (wire req)) (msg raw) /\
    cur_len raw' = blen (wire req) /\
    drm_dp_decode_sideband_req ok null raw' Ack_none sink0 =
    Some (0, ReqBody (req_type req) (decoded_body (u req))).
Proof.
  intros Hok Hb Hl Hw. eexists. split.
  { apply (encode_sideband_req_wire _ _ sink0); [done|unfold blen in *; lia|done]. }
  split; [done|]. split; [done|].
  pose proof (body_ok_type _ _ _ Hb) as Ht. destruct req as [t x]. cbn [req_type u] in *.
  unfold drm_dp_decode_sideband_req. cbn [set_msg msg]. unfold wire. cbn [req_type u].
  set (rest := drop _ _).
  assert (H : holds ((t :: wire_body x) ++ rest) 0 (t :: wire_body x)) by (by exists [], rest).
  pose proof H as H'. apply holds_rd in H' as [-> _]. cbn [mbind option_bind].
  replace (Z.land t 127) with t by fields_lia.
  rewrite (decode_body_wire ok null Hok _ _ _ sink0) by done. done.
Qed.

Definition req_example : drm_dp_sideband_msg_req_body :=
  ReqBody DP_REMOTE_I2C_READ (Ack_i2c_read
    (I2cRead 2 9 [I2cTx 48 1 [1] 1 0; I2cTx 80 2 [7; 200] 0 3] 80 128)).

Definition tx_example : drm_dp_sideband_msg_tx unit :=
  Tx (replicate 256 0) 0 0 1 0 0 false tt.

Lemma req_example_ok : body_ok (req_type req_example) (u req_example) [].
Proof.
  unfold is_byte. cbn. repeat split; try lia.
  repeat constructor; cbn; try lia; try done.
Qed.

Lemma sideband_req_roundtrip_witness :
  body_ok (req_type req_example) (u req_example) [] /\
  exists raw',
    drm_dp_encode_sideband_req req_example tx_example = Some raw' /\
    msg raw' = wire req_example ++ drop (length (wire req_example)) (msg tx_example) /\
    cur_len raw' = blen (wire req_example) /\
    drm_dp_decode_sideband_req (fun _ => true) (fun _ => false) raw' Ack_none [] =
    Some (0, ReqBody (req_type req_example) (decoded_body (u req_example))).
Proof.
  split; [exact req_example_ok|].
  exact (sideband_req_roundtrip (fun _ => true) (fun _ => false) req_example tx_example []
           (fun _ => eq_refl) req_example_ok eq_refl eq_refl).
Defined.

(** A failed kmemdup of an I2C read with a later transaction: -ENOMEM when the
    caller cleared the later pointer, else kfree of whatever it held. *)
Lemma i2c_enomem_frees_entry_pointer (raw' : drm_dp_sideband_msg_tx unit) :
  drm_dp_encode_sideband_req req_example tx_example = Some raw' ->
  drm_dp_decode_sideband_req (fun _ => false) (fun _ => true) raw' Ack_none [] =
    Some (- ENOMEM, ReqBody DP_REMOTE_I2C_READ Ack_none) /\
  drm_dp_decode_sideband_req (fun _ => false) (fun _ => false) raw' Ack_none [] = None.
Proof. intros E. vm_compute in E. injection E as <-. by split; vm_compute. Qed.
