(* ===== verification/MstReply.v ===== *)
(** * Replies and up requests of the MST sideband channel

    The parsers of display/drm_dp_mst_topology.c that fill a
    drm_dp_sideband_msg_reply_body or the body of an up request from a
    reassembled message.  A parser returns its bool and the union member it
    filled (starting from the zeroes of the memset), or nothing when it reads
    outside msg[256]. *)

From stdpp Require Import base numbers list option.
From Stdlib Require Import ZArith Lia Bool.
From S2P Require Import Prelude ByteBuf MstMsg.
#[local] Open Scope Z_scope.

(** ** Data *)

Record drm_dp_sideband_msg_rx := Rx {
  chunk : list Z;          (* u8 chunk[48] *)
  rxmsg : list Z;          (* u8 msg[256] *)
  curchunk_len : Z;
  curchunk_idx : Z;
  curchunk_hdrlen : Z;
  curlen : Z;
  have_somt : bool;
  have_eomt : bool;
  initial_hdr : drm_dp_sideband_msg_hdr
}.

Definition reset_msg_rx_state : drm_dp_sideband_msg_rx :=
  Rx (replicate 48 0) (replicate 256 0) 0 0 0 0 false false hdr_zero.

Definition DP_SIDEBAND_REPLY_ACK := 0x00.
Definition DP_SIDEBAND_REPLY_NAK := 0x01.

Record drm_dp_nak_reply := NakReply { nak_guid : list Z; reason : Z; nak_data : Z }.

Record drm_dp_link_addr_reply_port := LinkPort {
  input_port : bool;
  peer_device_type : Z;
  port_number : Z;
  mcs : bool;
  ddps : bool;
  lp_legacy_device_plug_status : bool;
  dpcd_revision : Z;
  peer_guid : list Z;
  num_sdp_streams : Z;
  num_sdp_stream_sinks : Z
}.

Definition port_zero : drm_dp_link_addr_reply_port :=
  LinkPort false 0 0 false false false 0 (replicate 16 0) 0 0.

Record drm_dp_link_address_ack_reply := LinkAddr {
  la_guid : list Z;
  nports : Z;
  ports : list drm_dp_link_addr_reply_port     (* [16] *)
}.

Record drm_dp_remote_dpcd_read_ack_reply := DpcdReadAck {
  dra_port_number : Z; dra_num_bytes : Z; dra_bytes : list Z (* u8 [255] *) }.
Record drm_dp_remote_i2c_read_ack_reply := I2cReadAck {
  ira_port_number : Z; ira_num_bytes : Z; ira_bytes : list Z (* u8 [255] *) }.

Record drm_dp_enum_path_resources_ack_reply := PathResources {
  pr_port_number : Z;
  fec_capable : bool;
  full_payload_bw_number : Z;
  avail_payload_bw_number : Z
}.

Record drm_dp_allocate_payload_ack_reply := AllocAck {
  apa_port_number : Z; apa_vcpi : Z; apa_allocated_pbn : Z }.
Record drm_dp_query_payload_ack_reply := QueryAck {
  qpa_port_number : Z; qpa_allocated_pbn : Z }.

Record drm_dp_query_stream_enc_status_ack_reply := EncStatusAck {
  esa_stream_id : Z;
  reply_signed : bool;
  unauthorizable_device_present : bool;
  legacy_device_present : bool;
  query_capable_device_present : bool;
  hdcp_1x_device_present : bool;
  hdcp_2x_device_present : bool;
  auth_completed : bool;
  encryption_enabled : bool;
  repeater_present : bool;
  esa_state : Z
}.

(** The union; [Rep_none] is the zeroed union no parser has touched. *)
Inductive ack_replies :=
  | Rep_none
  | Rep_nak (x : drm_dp_nak_reply)
  | Rep_link_addr (x : drm_dp_link_address_ack_reply)
  | Rep_port_number (port_number : Z)
  | Rep_path_resources (x : drm_dp_enum_path_resources_ack_reply)
  | Rep_allocate_payload (x : drm_dp_allocate_payload_ack_reply)
  | Rep_query_payload (x : drm_dp_query_payload_ack_reply)
  | Rep_remote_dpcd_read_ack (x : drm_dp_remote_dpcd_read_ack_reply)
  | Rep_remote_dpcd_write_ack (port_number : Z)
  | Rep_remote_i2c_read_ack (x : drm_dp_remote_i2c_read_ack_reply)
  | Rep_enc_status (x : drm_dp_query_stream_enc_status_ack_reply).

Record drm_dp_sideband_msg_reply_body := RepBody {
  reply_type : Z; rep_req_type : Z; rep_u : ack_replies }.

(** ** The parsers *)

(** The assignments of one round of the loop over the ports. *)
Definition port_byte1 (x : Z) (p : drm_dp_link_addr_reply_port) : drm_dp_link_addr_reply_port :=
  LinkPort (if tst x 0x80 then true else input_port p)
    (Z.land (Z.shiftr x 4) 0x7) (Z.land x 0xf) (mcs p) (ddps p)
    (lp_legacy_device_plug_status p) (dpcd_revision p) (peer_guid p)
    (num_sdp_streams p) (num_sdp_stream_sinks p).

Definition port_byte2 (x : Z) (p : drm_dp_link_addr_reply_port) : drm_dp_link_addr_reply_port :=
  LinkPort (input_port p) (peer_device_type p) (port_number p)
    (tst (Z.shiftr x 7) 1) (tst (Z.shiftr x 6) 1)
    (if input_port p then lp_legacy_device_plug_status p else tst (Z.shiftr x 5) 1)
    (dpcd_revision p) (peer_guid p) (num_sdp_streams p) (num_sdp_stream_sinks p).

Definition port_revision (x : Z) (p : drm_dp_link_addr_reply_port) : drm_dp_link_addr_reply_port :=
  LinkPort (input_port p) (peer_device_type p) (port_number p) (mcs p) (ddps p)
    (lp_legacy_device_plug_status p) x (peer_guid p) (num_sdp_streams p) (num_sdp_stream_sinks p).

Definition port_guid (g : list Z) (p : drm_dp_link_addr_reply_port) : drm_dp_link_addr_reply_port :=
  LinkPort (input_port p) (peer_device_type p) (port_number p) (mcs p) (ddps p)
    (lp_legacy_device_plug_status p) (dpcd_revision p) g
    (num_sdp_streams p) (num_sdp_stream_sinks p).

Definition port_sdp (x : Z) (p : drm_dp_link_addr_reply_port) : drm_dp_link_addr_reply_port :=
  LinkPort (input_port p) (peer_device_type p) (port_number p) (mcs p) (ddps p)
    (lp_legacy_device_plug_status p) (dpcd_revision p) (peer_guid p)
    (Z.land (Z.shiftr x 4) 0xf) (Z.land x 0xf).


Section parsers.
Context (raw : drm_dp_sideband_msg_rx).

(** raw->msg[i], and import_guid from &raw->msg[i]. *)
Definition rb (i : Z) : option Z := rd (rxmsg raw) i.
Definition import_guid (i : Z) : option (list Z) := rd_range (rxmsg raw) i 16.

(** The test of every [goto fail_len]. *)
Definition too_long (idx : Z) : bool := curlen raw <? idx.

(** One round: the flag, idx and the port. *)
Definition parse_link_port (idx : Z) (p : drm_dp_link_addr_reply_port) :
    option (bool * Z * drm_dp_link_addr_reply_port) :=
  x ← rb idx;
  let p := port_byte1 x p in
  let idx := idx + 1 in
  if too_long idx then Some (false, idx, p) else
  y ← rb idx;
  let p := port_byte2 y p in
  let idx := idx + 1 in
  if too_long idx then Some (false, idx, p) else
  if input_port p then
    (if too_long idx then Some (false, idx, p) else Some (true, idx, p)) else
  z ← rb idx;
  let p := port_revision z p in
  let idx := idx + 1 in
  if too_long idx then Some (false, idx, p) else
  guid ← import_guid idx;
  let p := port_guid guid p in
  let idx := idx + 16 in
  if too_long idx then Some (false, idx, p) else
  s ← rb idx;
  let p := port_sdp s p in
  let idx := idx + 1 in
  if too_long idx then Some (false, idx, p) else Some (true, idx, p).

(** for (i = 0; i < nports; i++), [n] rounds left. *)
Fixpoint parse_link_ports (n i : nat) (idx : Z) (ps : list drm_dp_link_addr_reply_port) :
    option (bool * list drm_dp_link_addr_reply_port) :=
  match n with
  | O => Some (true, ps)
  | S n =>
    p ← ps !! i;
    '(ok, idx, p) ← parse_link_port idx p;
    let ps := <[i := p]> ps in
    if ok : bool then parse_link_ports n (S i) idx ps else Some (false, ps)
  end.

Definition drm_dp_sideband_parse_link_address : option (bool * ack_replies) :=
  guid ← import_guid 1;
  x ← rb 17;
  let nports := Z.land x 0xf in
  let ps := replicate 16 port_zero in
  if too_long 18 then Some (false, Rep_link_addr (LinkAddr guid nports ps)) else
  '(ok, ps) ← parse_link_ports (Z.to_nat nports) 0 18 ps;
  Some (ok, Rep_link_addr (LinkAddr guid nports ps)).

(** memcpy(bytes, &raw->msg[idx], n) into u8 bytes[255]. *)
Definition copy_bytes (idx n : Z) : option (list Z) :=
  bs ← rd_range (rxmsg raw) idx n; wr_range (replicate 255 0) 0 bs.

Definition drm_dp_sideband_parse_remote_dpcd_read : option (bool * ack_replies) :=
  x ← rb 1;
  let port := Z.land x 0xf in
  if too_long 2 then Some (false, Rep_remote_dpcd_read_ack (DpcdReadAck port 0 (replicate 255 0)))
  else
  n ← rb 2;
  if too_long 3 then Some (false, Rep_remote_dpcd_read_ack (DpcdReadAck port n (replicate 255 0)))
  else
  bs ← copy_bytes 3 n;
  Some (true, Rep_remote_dpcd_read_ack (DpcdReadAck port n bs)).

Definition drm_dp_sideband_parse_remote_dpcd_write : option (bool * ack_replies) :=
  x ← rb 1;
  Some (negb (too_long 2), Rep_remote_dpcd_write_ack (Z.land x 0xf)).

Definition drm_dp_sideband_parse_remote_i2c_read_ack : option (bool * ack_replies) :=
  x ← rb 1;
  let port := Z.land x 0xf in
  if too_long 2 then Some (false, Rep_remote_i2c_read_ack (I2cReadAck port 0 (replicate 255 0)))
  else
  n ← rb 2;
  bs ← copy_bytes 3 n;
  Some (true, Rep_remote_i2c_read_ack (I2cReadAck port n bs)).

Definition drm_dp_sideband_parse_enum_path_resources_ack : option (bool * ack_replies) :=
  x ← rb 1;
  let port := Z.land (Z.shiftr x 4) 0xf in
  let fec := tst x 1 in
  if too_long 2 then Some (false, Rep_path_resources (PathResources port fec 0 0)) else
  a ← rb 2; b ← rb 3;
  let full := u16 (Z.lor (Z.shiftl a 8) b) in
  if too_long 4 then Some (false, Rep_path_resources (PathResources port fec full 0)) else
  c ← rb 4; d ← rb 5;
  let avail := u16 (Z.lor (Z.shiftl c 8) d) in
  Some (negb (too_long 6), Rep_path_resources (PathResources port fec full avail)).

Definition drm_dp_sideband_parse_allocate_payload_ack : option (bool * ack_replies) :=
  x ← rb 1;
  let port := Z.land (Z.shiftr x 4) 0xf in
  if too_long 2 then Some (false, Rep_allocate_payload (AllocAck port 0 0)) else
  vcpi ← rb 2;
  if too_long 3 then Some (false, Rep_allocate_payload (AllocAck port vcpi 0)) else
  a ← rb 3; b ← rb 4;
  Some (negb (too_long 5),
        Rep_allocate_payload (AllocAck port vcpi (u16 (Z.lor (Z.shiftl a 8) b)))).

Definition drm_dp_sideband_parse_query_payload_ack : option (bool * ack_replies) :=
  x ← rb 1;
  let port := Z.land (Z.shiftr x 4) 0xf in
  if too_long 2 then Some (false, Rep_query_payload (QueryAck port 0)) else
  a ← rb 2; b ← rb 3;
  Some (negb (too_long 4), Rep_query_payload (QueryAck port (u16 (Z.lor (Z.shiftl a 8) b)))).

Definition drm_dp_sideband_parse_power_updown_phy_ack : option (bool * ack_replies) :=
  x ← rb 1;
  Some (negb (too_long 2), Rep_port_number (Z.land (Z.shiftr x 4) 0xf)).

Definition drm_dp_sideband_parse_query_stream_enc_status : option (bool * ack_replies) :=
  id ← rb 3; b2 ← rb 2; b1 ← rb 1;
  Some (true, Rep_enc_status
    (EncStatusAck id (tst b2 (BIT 0)) (tst b2 (BIT 7)) (tst b2 (BIT 6)) (tst b2 (BIT 5))
       (tst b2 (BIT 4)) (tst b2 (BIT 3)) (tst b1 (BIT 3)) (tst b1 (BIT 4)) (tst b1 (BIT 5))
       (Z.shiftr (Z.land b1 192) 6))).

(** The switch of drm_dp_sideband_parse_reply. *)
Definition parse_ack (t : Z) : option (bool * ack_replies) :=
  if t =? DP_LINK_ADDRESS then drm_dp_sideband_parse_link_address
  else if t =? DP_QUERY_PAYLOAD then drm_dp_sideband_parse_query_payload_ack
  else if t =? DP_REMOTE_DPCD_READ then drm_dp_sideband_parse_remote_dpcd_read
  else if t =? DP_REMOTE_DPCD_WRITE then drm_dp_sideband_parse_remote_dpcd_write
  else if t =? DP_REMOTE_I2C_READ then drm_dp_sideband_parse_remote_i2c_read_ack
  else if t =? DP_REMOTE_I2C_WRITE then Some (true, Rep_none)
  else if t =? DP_ENUM_PATH_RESOURCES then drm_dp_sideband_parse_enum_path_resources_ack
  else if t =? DP_ALLOCATE_PAYLOAD then drm_dp_sideband_parse_allocate_payload_ack
  else if (t =? DP_POWER_DOWN_PHY) || (t =? DP_POWER_UP_PHY) then
    drm_dp_sideband_parse_power_updown_phy_ack
  else if t =? DP_CLEAR_PAYLOAD_ID_TABLE then Some (true, Rep_none)
  else if t =? DP_QUERY_STREAM_ENC_STATUS then drm_dp_sideband_parse_query_stream_enc_status
  else Some (false, Rep_none).

Definition drm_dp_sideband_parse_reply : option (bool * drm_dp_sideband_msg_reply_body) :=
  b0 ← rb 0;
  let reply_type := Z.shiftr (Z.land b0 0x80) 7 in
  let t := Z.land b0 0x7f in
  if reply_type =? DP_SIDEBAND_REPLY_NAK then
    guid ← import_guid 1; reason ← rb 17; data ← rb 18;
    Some (false, RepBody reply_type t (Rep_nak (NakReply guid reason data)))
  else
    '(ok, r) ← parse_ack t;
    Some (ok, RepBody reply_type t r).

(** ** Up requests *)

Definition drm_dp_sideband_parse_connection_status_notify : option (bool * ack_req) :=
  x ← rb 1;
  let port := Z.shiftr (Z.land x 0xf0) 4 in
  if too_long 2 then
    Some (false, Ack_conn_stat (ConnStat (replicate 16 0) port false false false false 0)) else
  guid ← import_guid 2;
  if too_long 18 then
    Some (false, Ack_conn_stat (ConnStat guid port false false false false 0)) else
  y ← rb 18;
  Some (true, Ack_conn_stat
    (ConnStat guid port (tst (Z.shiftr y 6) 1) (tst (Z.shiftr y 5) 1) (tst (Z.shiftr y 4) 1)
       (tst (Z.shiftr y 3) 1) (Z.land y 0x7))).

Definition drm_dp_sideband_parse_resource_status_notify : option (bool * ack_req) :=
  x ← rb 1;
  let port := Z.shiftr (Z.land x 0xf0) 4 in
  if too_long 2 then Some (false, Ack_resource_stat (ResourceStat port (replicate 16 0) 0)) else
  guid ← import_guid 2;
  if too_long 18 then Some (false, Ack_resource_stat (ResourceStat port guid 0)) else
  a ← rb 18; b ← rb 19;
  Some (true, Ack_resource_stat (ResourceStat port guid (u16 (Z.lor (Z.shiftl a 8) b)))).

Definition drm_dp_sideband_parse_req : option (bool * drm_dp_sideband_msg_req_body) :=
  b0 ← rb 0;
  let t := Z.land b0 0x7f in
  '(ok, r) ←
    (if t =? DP_CONNECTION_STATUS_NOTIFY then drm_dp_sideband_parse_connection_status_notify
     else if t =? DP_RESOURCE_STATUS_NOTIFY then drm_dp_sideband_parse_resource_status_notify
     else Some (false, Ack_none));
  Some (ok, ReqBody t r).
End parsers.

(** ** The link-address reply on the wire *)

Definition wire_link_port (p : drm_dp_link_addr_reply_port) : list Z :=
  [128 * b2z (input_port p) + 16 * peer_device_type p + port_number p;
   128 * b2z (mcs p) + 64 * b2z (ddps p) + 32 * b2z (lp_legacy_device_plug_status p)] ++
  if input_port p then []
  else [dpcd_revision p] ++ peer_guid p ++ [16 * num_sdp_streams p + num_sdp_stream_sinks p].

Definition link_port_ok (p : drm_dp_link_addr_reply_port) : Prop :=
  0 <= peer_device_type p < 8 /\ 0 <= port_number p < 16 /\ is_byte (dpcd_revision p) /\
  blen (peer_guid p) = 16 /\ 0 <= num_sdp_streams p < 16 /\ 0 <= num_sdp_stream_sinks p < 16 /\
  (input_port p = true ->
   lp_legacy_device_plug_status p = false /\ dpcd_revision p = 0 /\
   peer_guid p = replicate 16 0 /\ num_sdp_streams p = 0 /\ num_sdp_stream_sinks p = 0).

Definition wire_link_addr (guid : list Z) (ps : list drm_dp_link_addr_reply_port) : list Z :=
  [DP_LINK_ADDRESS] ++ guid ++ [Z.of_nat (length ps)] ++ (ps ≫= wire_link_port).

Lemma tst_lo b k r : 0 <= k -> 0 <= r < 2 ^ k -> tst (2 ^ k * b2z b + r) (2 ^ k) = b.
Proof.
  intros Hk Hr. replace (2 ^ k) with (BIT k) at 2 by (unfold BIT; rewrite Z.shiftl_mul_pow2; lia).
  rewrite tst_BIT by done. rewrite Z.testbit_odd, shiftr_div by done.
  replace ((2 ^ k * b2z b + r) / 2 ^ k) with (b2z b) by (apply Z.div_unique with r; lia).
  by destruct b.
Qed.

Lemma too_long_false raw i : too_long raw i = false <-> i <= curlen raw.
Proof. unfold too_long. destruct (Z.ltb_spec (curlen raw) i); split; (done || lia). Qed.

Section link_addr_parse.
Context (raw : drm_dp_sideband_msg_rx).

Lemma link_port_length p :
  link_port_ok p -> 2 <= blen (wire_link_port p).
Proof.
  intros _. unfold wire_link_port. rewrite blen_app, !blen_cons, blen_nil.
  match goal with |- context [blen (if ?b then ?x else ?y)] =>
    pose proof (blen_nonneg (if b then x else y)) end. lia.
Qed.

Lemma port_bytes_wire inp pdt pn m d l :
  0 <= pdt < 8 -> 0 <= pn < 16 ->
  port_byte2 (128 * b2z m + 64 * b2z d + 32 * b2z l)
    (port_byte1 (128 * b2z inp + 16 * pdt + pn) port_zero) =
  LinkPort inp pdt pn m d (if inp then false else l) 0 (replicate 16 0) 0 0.
Proof.
  intros. pose proof (b2z_range inp). pose proof (b2z_range m).
  pose proof (b2z_range d). pose proof (b2z_range l).
  assert (Ei : tst (128 * b2z inp + 16 * pdt + pn) 128 = inp).
  { rewrite <- Z.add_assoc. apply (tst_lo inp 7 (16 * pdt + pn)); pow_consts; lia. }
  assert (Ei' : (if tst (128 * b2z inp + 16 * pdt + pn) 128 then true
                 else input_port port_zero) = inp) by (rewrite Ei; by destruct inp).
  assert (Em : tst (Z.shiftr (128 * b2z m + 64 * b2z d + 32 * b2z l) 7) 1 = m).
  { rewrite <- Z.add_assoc. apply (tst_flag m 7 (64 * b2z d + 32 * b2z l)); pow_consts; lia. }
  assert (Ed : tst (Z.shiftr (128 * b2z m + 64 * b2z d + 32 * b2z l) 6) 1 = d).
  { rewrite <- Z.add_assoc. apply (flag_at (b2z m) d 6 (32 * b2z l)); pow_consts; lia. }
  assert (El : tst (Z.shiftr (128 * b2z m + 64 * b2z d + 32 * b2z l) 5) 1 = l).
  { replace (128 * b2z m + 64 * b2z d + 32 * b2z l)
      with (2 ^ (5 + 1) * (2 * b2z m + b2z d) + (2 ^ 5 * b2z l + 0)) by (pow_consts; lia).
    apply flag_at; pow_consts; lia. }
  unfold port_byte2, port_byte1. cbn [input_port peer_device_type port_number
    lp_legacy_device_plug_status dpcd_revision peer_guid num_sdp_streams num_sdp_stream_sinks].
  rewrite Ei', Em, Ed, El. cbn. f_equal; fields_lia.
Qed.

Lemma port_sdp_wire st sk p :
  0 <= st < 16 -> 0 <= sk < 16 ->
  port_sdp (16 * st + sk) p =
  LinkPort (input_port p) (peer_device_type p) (port_number p) (mcs p) (ddps p)
    (lp_legacy_device_plug_status p) (dpcd_revision p) (peer_guid p) st sk.
Proof. intros. unfold port_sdp. f_equal; fields_lia. Qed.

Lemma parse_link_port_wire p idx :
  link_port_ok p -> holds (rxmsg raw) idx (wire_link_port p) -> 0 <= idx ->
  idx + blen (wire_link_port p) <= curlen raw ->
  parse_link_port raw idx port_zero = Some (true, idx + blen (wire_link_port p), p).
Proof.
  intros (H1&H2&H3&H4&H5&H6&Hin) H Hi Hl. unfold is_byte in H3.
  remember (blen (wire_link_port p)) as L eqn:EL.
  assert (F0 : forall i, i <= idx + L -> too_long raw i = false)
    by (intros; apply too_long_false; lia).
  destruct p as [inp pdt pn m d l rev guid st sk].
  unfold wire_link_port in *. cbn [input_port peer_device_type port_number mcs ddps
    lp_legacy_device_plug_status dpcd_revision peer_guid num_sdp_streams
    num_sdp_stream_sinks app] in *.
  apply holds_rd in H as [R0 H]. apply holds_rd in H as [R1 H].
  unfold parse_link_port, rb, import_guid. rewrite R0. cbn [mbind option_bind].
  destruct inp.
  - destruct (Hin eq_refl) as (->&->&->&->&->). rewrite !blen_cons, blen_nil in EL.
    rewrite F0 by lia. rewrite R1. cbn [mbind option_bind]. rewrite F0 by lia.
    rewrite port_bytes_wire by done. cbn. do 3 f_equal. lia.
  - rewrite !blen_cons, blen_app, blen_cons, blen_nil, H4 in EL.
    rewrite F0 by lia. rewrite R1. cbn [mbind option_bind]. rewrite F0 by lia.
    rewrite port_bytes_wire by done. cbn [input_port].
    apply holds_rd in H as [R2 H]. rewrite R2. cbn [mbind option_bind].
    rewrite F0 by lia. apply holds_app in H as [Hg H]. rewrite H4 in H.
    apply holds_rd in H as [R3 _]. apply holds_range in Hg. rewrite H4 in Hg.
    rewrite Hg. cbn [mbind option_bind].
    rewrite F0 by lia. rewrite R3. cbn [mbind option_bind]. rewrite F0 by lia.
    rewrite port_sdp_wire by done. cbn. do 3 f_equal. lia.
Qed.

Lemma parse_link_ports_wire ps : forall done n idx,
  Forall link_port_ok ps -> holds (rxmsg raw) idx (ps ≫= wire_link_port) -> 0 <= idx ->
  idx + blen (ps ≫= wire_link_port) <= curlen raw -> (length ps <= n)%nat ->
  parse_link_ports raw (length ps) (length done) idx (done ++ replicate n port_zero) =
  Some (true, done ++ ps ++ replicate (n - length ps) port_zero).
Proof.
  induction ps as [|p ps IH]; intros dn n idx Hok H Hi Hl Hn.
  { cbn. by rewrite Nat.sub_0_r. }
  apply Forall_cons_1 in Hok as [Hp Hok]. cbn [mbind list_bind] in H, Hl.
  apply holds_app in H as [Hw H]. rewrite blen_app in Hl.
  pose proof (blen_nonneg (ps ≫= wire_link_port)). pose proof (blen_nonneg (wire_link_port p)).
  destruct n as [|n]; [cbn in Hn; lia|]. cbn [parse_link_ports length replicate].
  rewrite list_lookup_middle by done. cbn [mbind option_bind].
  rewrite (parse_link_port_wire p) by (done || lia). cbn [mbind option_bind].
  assert (Eins : <[length dn:=p]> (dn ++ port_zero :: replicate n port_zero) =
          (dn ++ [p]) ++ replicate n port_zero).
  { rewrite insert_app_r_alt by lia. rewrite Nat.sub_diag. cbn. by rewrite <- app_assoc. }
  rewrite Eins. replace (S (length dn)) with (length (dn ++ [p])) by (rewrite length_app; cbn; lia).
  cbn in Hn. rewrite IH by (done || lia).
  rewrite <- app_assoc. cbn [app]. do 4 f_equal.
Qed.
End link_addr_parse.

(** C10.  A LINK_ADDRESS acknowledgement laid out as on the wire is accepted and
    parsed to the GUID and ports it describes, the rest of the array zero,
    whatever follows it in the buffer. *)
Theorem link_address_reply_parsed raw guid ps :
  blen guid = 16 -> Forall link_port_ok ps -> (length ps < 16)%nat ->
  holds (rxmsg raw) 0 (wire_link_addr guid ps) -> curlen raw = blen (wire_link_addr guid ps) ->
  drm_dp_sideband_parse_reply raw =
  Some (true, RepBody DP_SIDEBAND_REPLY_ACK DP_LINK_ADDRESS
    (Rep_link_addr (LinkAddr guid (Z.of_nat (length ps))
      (ps ++ replicate (16 - length ps) port_zero)))).
Proof.
  intros Hg Hps Hn H Hlen. unfold wire_link_addr in H, Hlen. cbn [app] in H, Hlen.
  rewrite blen_cons, blen_app, blen_cons, Hg in Hlen.
  apply holds_rd in H as [R0 H]. apply holds_app in H as [Hh H]. rewrite Hg in H.
  apply holds_rd in H as [R1 H]. apply holds_range in Hh. rewrite Hg in Hh.
  change (0 + 1) with 1 in *. change (1 + 16) with 17 in *. change (17 + 1) with 18 in *.
  pose proof (blen_nonneg (ps ≫= wire_link_port)).
  unfold drm_dp_sideband_parse_reply, rb. rewrite R0. cbn [mbind option_bind].
  change (parse_ack raw (Z.land DP_LINK_ADDRESS 127))
    with (drm_dp_sideband_parse_link_address raw).
  change (Z.shiftr (Z.land DP_LINK_ADDRESS 128) 7 =? DP_SIDEBAND_REPLY_NAK) with false.
  unfold drm_dp_sideband_parse_link_address, import_guid, rb. rewrite Hh.
  cbn [mbind option_bind]. rewrite R1. cbn [mbind option_bind].
  replace (Z.land (Z.of_nat (length ps)) 15) with (Z.of_nat (length ps)) by fields_lia.
  rewrite (proj2 (too_long_false raw 18)) by lia. rewrite Nat2Z.id.
  pose proof (parse_link_ports_wire raw ps [] 16 18 Hps H ltac:(lia) ltac:(lia) ltac:(lia)) as E.
  cbn [app length] in E. rewrite E. done.
Qed.

Definition ports_example : list drm_dp_link_addr_reply_port :=
  [LinkPort true 1 0 true true false 0 (replicate 16 0) 0 0;
   LinkPort false 3 1 false true false 18 (replicate 16 7) 1 2].

Definition rx_example : drm_dp_sideband_msg_rx :=
  Rx (replicate 48 0)
     (wire_link_addr (replicate 16 5) ports_example ++ replicate 216 255) 0 0 0 40 true true hdr_zero.

Lemma ports_example_ok : Forall link_port_ok ports_example.
Proof. repeat constructor; cbn; try lia; try done. Qed.

Lemma link_address_reply_parsed_witness :
  (blen (replicate 16 5) = 16 /\ Forall link_port_ok ports_example /\
   holds (rxmsg rx_example) 0 (wire_link_addr (replicate 16 5) ports_example)) /\
  drm_dp_sideband_parse_reply rx_example =
  Some (true, RepBody DP_SIDEBAND_REPLY_ACK DP_LINK_ADDRESS
    (Rep_link_addr (LinkAddr (replicate 16 5) (Z.of_nat (length ports_example))
      (ports_example ++ replicate (16 - length ports_example) port_zero)))).
Proof.
  assert (H : holds (rxmsg rx_example) 0 (wire_link_addr (replicate 16 5) ports_example))
    by (exists [], (replicate 216 255); split; reflexivity).
  split; [exact (conj eq_refl (conj ports_example_ok H))|].
  exact (link_address_reply_parsed rx_example (replicate 16 5) ports_example eq_refl
           ports_example_ok ltac:(cbn; lia) H eq_refl).
Defined.

(** ** Accepted replies are complete *)

(** The same received bytes, different left-overs behind them. *)
Definition same_received (raw raw' : drm_dp_sideband_msg_rx) : Prop :=
  curlen raw' = curlen raw /\
  exists a b b', rxmsg raw = a ++ b /\ rxmsg raw' = a ++ b' /\ blen a = curlen raw.

Lemma rd_prefix a b i : i < blen a -> rd (a ++ b) i = rd a i.
Proof.
  intros H. destruct (Z.lt_ge_cases i 0) as [Hn|Hn]; [|by apply rd_app_l].
  unfold rd. by destruct (Z.leb_spec 0 i); [lia|].
Qed.

Lemma rd_range_prefix a b i n : i + n <= blen a -> rd_range (a ++ b) i n = rd_range a i n.
Proof.
  intros H. unfold rd_range. rewrite blen_app. pose proof (blen_nonneg b).
  destruct (Z.leb_spec 0 i), (Z.leb_spec 0 n); cbn [andb]; [|done..].
  rewrite !(proj2 (Z.leb_le _ _)) by lia. f_equal. unfold blen in *.
  rewrite drop_app_le by lia. rewrite take_app_le by (rewrite length_drop; lia). done.
Qed.

Section complete.
Context (raw raw' : drm_dp_sideband_msg_rx) (Hsame : same_received raw raw').

Lemma rb_same i : i < curlen raw -> rb raw' i = rb raw i.
Proof.
  destruct Hsame as (_&a&b&b'&E&E'&L). intros Hi. unfold rb. rewrite E, E'.
  by rewrite !rd_prefix by lia.
Qed.

Lemma import_guid_same i : i + 16 <= curlen raw -> import_guid raw' i = import_guid raw i.
Proof.
  destruct Hsame as (_&a&b&b'&E&E'&L). intros Hi. unfold import_guid. rewrite E, E'.
  by rewrite !rd_range_prefix by lia.
Qed.

Lemma too_long_same i : too_long raw' i = too_long raw i.
Proof. unfold too_long. by rewrite (proj1 Hsame). Qed.

(** Split a successful parse into its reads and length tests, then replay it. *)
Ltac split_parse H :=
  repeat match type of H with
  | context [rb raw ?i] => destruct (rb raw i) eqn:?; [cbn [mbind option_bind] in H|done]
  | context [import_guid raw ?i] =>
    destruct (import_guid raw i) eqn:?; [cbn [mbind option_bind] in H|done]
  | context [too_long raw ?i] => destruct (too_long raw i) eqn:?; try done; cbn [negb] in H
  end.

Ltac replay :=
  repeat match goal with
  | H : too_long raw ?i = false |- _ => apply too_long_false in H
  end;
  repeat (match goal with
    | |- context [rb raw' ?i] => rewrite (rb_same i) by lia
    | |- context [too_long raw' ?i] =>
      rewrite (too_long_same i), (proj2 (too_long_false raw i)) by lia
    | H : rb raw ?i = Some _ |- context [rb raw ?i] => rewrite H
    end; cbn [mbind option_bind negb]).

Lemma parse_link_port_same idx p idx' p' :
  parse_link_port raw idx p = Some (true, idx', p') ->
  parse_link_port raw' idx p = Some (true, idx', p') /\ idx' <= curlen raw.
Proof.
  unfold parse_link_port. intros H.
  destruct (rb raw idx) as [x|] eqn:E0; [cbn [mbind option_bind] in H|done].
  destruct (too_long raw (idx + 1)) eqn:T1; [done|].
  pose proof (proj1 (too_long_false _ _) T1).
  rewrite (rb_same idx) by lia. rewrite E0. cbn [mbind option_bind]. rewrite too_long_same, T1.
  destruct (rb raw (idx + 1)) as [y|] eqn:E1; [cbn [mbind option_bind] in H|done].
  destruct (too_long raw (idx + 1 + 1)) eqn:T2; [done|].
  pose proof (proj1 (too_long_false _ _) T2).
  rewrite (rb_same (idx + 1)) by lia. rewrite E1. cbn [mbind option_bind]. rewrite too_long_same, T2.
  destruct (input_port (port_byte2 y (port_byte1 x p))) eqn:Einp.
  - cbn in H |- *. injection H as <- <-. split; [done|lia].
  - destruct (rb raw (idx + 1 + 1)) as [z|] eqn:E2; [cbn [mbind option_bind] in H|done].
    destruct (too_long raw (idx + 1 + 1 + 1)) eqn:T3; [done|].
    destruct (import_guid raw (idx + 1 + 1 + 1)) as [g|] eqn:Eg; [cbn [mbind option_bind] in H|done].
    destruct (too_long raw (idx + 1 + 1 + 1 + 16)) eqn:T4; [done|].
    destruct (rb raw (idx + 1 + 1 + 1 + 16)) as [s|] eqn:E4; [cbn [mbind option_bind] in H|done].
    destruct (too_long raw (idx + 1 + 1 + 1 + 16 + 1)) eqn:T5; [done|].
    pose proof (proj1 (too_long_false _ _) T5).
    rewrite (rb_same (idx + 1 + 1)) by lia. rewrite E2. cbn [mbind option_bind]. rewrite too_long_same, T3.
    rewrite import_guid_same by lia. rewrite Eg. cbn [mbind option_bind].
    rewrite too_long_same, T4. rewrite (rb_same (idx + 1 + 1 + 1 + 16)) by lia. rewrite E4. cbn [mbind option_bind].
    rewrite too_long_same, T5. split; [done|]. injection H as <- <-. lia.
Qed.

Lemma parse_link_ports_same n : forall i idx ps ps',
  idx <= curlen raw ->
  parse_link_ports raw n i idx ps = Some (true, ps') ->
  parse_link_ports raw' n i idx ps = Some (true, ps').
Proof.
  induction n as [|n IH]; intros i idx ps ps' Hi H; [done|]. cbn [parse_link_ports] in *.
  destruct (ps !! i) as [p|]; [cbn [mbind option_bind] in *|done].
  destruct (parse_link_port raw idx p) as [[[[] idx'] p']|] eqn:E; [| |done].
  - apply parse_link_port_same in E as [-> Hle]. cbn [mbind option_bind] in *.
    by apply IH.
  - done.
Qed.

Lemma parse_link_address_same r :
  drm_dp_sideband_parse_link_address raw = Some (true, r) ->
  drm_dp_sideband_parse_link_address raw' = Some (true, r) /\ 18 <= curlen raw.
Proof.
  unfold drm_dp_sideband_parse_link_address. intros H.
  destruct (import_guid raw 1) as [g|] eqn:Eg; [cbn [mbind option_bind] in H|done].
  destruct (rb raw 17) as [x|] eqn:Ex; [cbn [mbind option_bind] in H|done].
  destruct (too_long raw 18) eqn:T; [done|]. pose proof (proj1 (too_long_false _ _) T).
  rewrite import_guid_same, Eg by lia. cbn [mbind option_bind].
  rewrite rb_same, Ex by lia. cbn [mbind option_bind]. rewrite too_long_same, T.
  destruct (parse_link_ports raw _ 0 18 _) as [[[] ps]|] eqn:E; [|done..].
  apply parse_link_ports_same in E; [|lia]. by rewrite E.
Qed.

(** The types whose parsers test the length after their last byte. *)
Definition length_checked (t : Z) : bool :=
  (t =? DP_LINK_ADDRESS) || (t =? DP_QUERY_PAYLOAD) || (t =? DP_REMOTE_DPCD_WRITE) ||
  (t =? DP_ENUM_PATH_RESOURCES) || (t =? DP_ALLOCATE_PAYLOAD) ||
  (t =? DP_POWER_DOWN_PHY) || (t =? DP_POWER_UP_PHY).

Lemma parse_ack_same t r :
  length_checked t = true -> parse_ack raw t = Some (true, r) ->
  parse_ack raw' t = Some (true, r) /\ 2 <= curlen raw.
Proof.
  unfold length_checked. rewrite !orb_true_iff, !Z.eqb_eq.
  intros [[[[[[->| ->]| ->]| ->]| ->]| ->]| ->] H; unfold parse_ack in *; cbn in H |- *.
  - apply parse_link_address_same in H as [? ?]. split; [done|lia].
  - unfold drm_dp_sideband_parse_query_payload_ack in *. split_parse H. replay. split; [done|lia].
  - unfold drm_dp_sideband_parse_remote_dpcd_write in *. split_parse H. replay. split; [done|lia].
  - unfold drm_dp_sideband_parse_enum_path_resources_ack in *. split_parse H. replay.
    split; [done|lia].
  - unfold drm_dp_sideband_parse_allocate_payload_ack in *. split_parse H. replay.
    split; [done|lia].
  - unfold drm_dp_sideband_parse_power_updown_phy_ack in *. split_parse H. replay.
    split; [done|lia].
  - unfold drm_dp_sideband_parse_power_updown_phy_ack in *. split_parse H. replay.
    split; [done|lia].
Qed.
End complete.

(** C11.  An acknowledgement of a length-checked type that is accepted was wholly
    received: it parses the same whatever the buffer holds beyond the bytes
    received. *)
Theorem accepted_reply_received raw raw' r :
  same_received raw raw' -> length_checked (rep_req_type r) = true ->
  drm_dp_sideband_parse_reply raw = Some (true, r) ->
  drm_dp_sideband_parse_reply raw' = Some (true, r).
Proof.
  intros Hs Ht H. unfold drm_dp_sideband_parse_reply in *.
  destruct (rb raw 0) as [b0|] eqn:E0; [cbn [mbind option_bind] in H|done].
  destruct (Z.shiftr (Z.land b0 128) 7 =? DP_SIDEBAND_REPLY_NAK) eqn:En.
  { destruct (import_guid raw 1), (rb raw 17), (rb raw 18); done. }
  destruct (parse_ack raw (Z.land b0 127)) as [[ok u]|] eqn:E; [|done].
  cbn [mbind option_bind] in H. injection H as -> <-. cbn [rep_req_type] in Ht.
  destruct (parse_ack_same raw raw' Hs _ _ Ht E) as [E' Hl].
  rewrite (rb_same raw raw' Hs 0) by lia. rewrite E0. cbn [mbind option_bind].
  rewrite En, E'. done.
Qed.

Definition rx_example_dirty : drm_dp_sideband_msg_rx :=
  Rx (replicate 48 0)
     (wire_link_addr (replicate 16 5) ports_example ++ replicate 216 0) 0 0 0 40 true true hdr_zero.

Definition rep_example : drm_dp_sideband_msg_reply_body :=
  RepBody DP_SIDEBAND_REPLY_ACK DP_LINK_ADDRESS
    (Rep_link_addr (LinkAddr (replicate 16 5) 2 (ports_example ++ replicate 14 port_zero))).

Lemma accepted_reply_received_witness :
  (same_received rx_example rx_example_dirty /\
   length_checked (rep_req_type rep_example) = true /\
   drm_dp_sideband_parse_reply rx_example = Some (true, rep_example)) /\
  drm_dp_sideband_parse_reply rx_example_dirty = Some (true, rep_example).
Proof.
  assert (S : same_received rx_example rx_example_dirty).
  { split; [reflexivity|]. exists (wire_link_addr (replicate 16 5) ports_example),
      (replicate 216 255), (replicate 216 0). split; [reflexivity|]. split; reflexivity. }
  assert (E : drm_dp_sideband_parse_reply rx_example = Some (true, rep_example))
    by (vm_compute; reflexivity).
  split; [exact (conj S (conj eq_refl E))|].
  exact (accepted_reply_received rx_example rx_example_dirty rep_example S eq_refl E).
Defined.

(** The parsers without the test accept bytes that were not received. *)
Lemma dpcd_read_reply_stale :
  exists raw raw' r r',
    same_received raw raw' /\ curlen raw = 3 /\ r <> r' /\
    drm_dp_sideband_parse_reply raw = Some (true, r) /\
    drm_dp_sideband_parse_reply raw' = Some (true, r').
Proof.
  exists (Rx [] (([32; 1; 2] ++ replicate 253 0)) 0 0 0 3 true true hdr_zero),
         (Rx [] (([32; 1; 2] ++ replicate 253 1)) 0 0 0 3 true true hdr_zero).
  do 2 eexists. split.
  { split; [reflexivity|]. exists [32; 1; 2], (replicate 253 0), (replicate 253 1).
    split; [reflexivity|]. split; reflexivity. }
  split; [done|]. split; [|split; vm_compute; reflexivity]. vm_compute. congruence.
Qed.

(** A connection status notification without its last byte is accepted. *)
Lemma connection_status_stale :
  exists raw raw' r r',
    same_received raw raw' /\ curlen raw = 18 /\ r <> r' /\
    drm_dp_sideband_parse_req raw = Some (true, r) /\
    drm_dp_sideband_parse_req raw' = Some (true, r').
Proof.
  exists (Rx [] (([2; 16] ++ replicate 16 7) ++ replicate 238 0) 0 0 0 18 true true hdr_zero),
         (Rx [] (([2; 16] ++ replicate 16 7) ++ replicate 238 32) 0 0 0 18 true true hdr_zero).
  do 2 eexists. split.
  { split; [reflexivity|].
    exists ([2; 16] ++ replicate 16 7), (replicate 238 0), (replicate 238 32).
    split; [reflexivity|]. split; reflexivity. }
  split; [done|]. split; [|split; vm_compute; reflexivity]. vm_compute. congruence.
Qed.

(** ** The parsers stay inside the message *)

Section in_bounds.
Context (raw : drm_dp_sideband_msg_rx) (Hlen : length (rxmsg raw) = 256%nat).

Lemma rb_sat i : 0 <= i < 256 -> sat (rb raw i) (fun _ => True).
Proof.
  intros H. destruct (proj2 (rd_Some (rxmsg raw) i)) as [x E]; [unfold blen; lia|].
  unfold rb. by rewrite E.
Qed.

Lemma import_guid_sat i : 0 <= i <= 240 -> sat (import_guid raw i) (fun _ => True).
Proof.
  intros H. unfold import_guid. by rewrite rd_range_Some by (unfold blen; lia).
Qed.

(** The next read or length test of the parser. *)
Ltac read_step :=
  lazymatch goal with
  | |- sat (mbind _ (rb raw ?i)) _ =>
    apply (sat_bind _ _ (fun _ => True)); [apply rb_sat; lia|intros ? _]
  | |- sat (mbind _ (import_guid raw ?i)) _ =>
    apply (sat_bind _ _ (fun _ => True)); [apply import_guid_sat; lia|intros ? _]
  | |- sat (if too_long raw ?i then _ else _) _ =>
    let T := fresh "T" in
    destruct (too_long raw i) eqn:T; [clear T|apply too_long_false in T]
  | |- sat (if ?b then _ else _) _ => destruct b
  | |- sat (Some _) _ => apply sat_Some
  end.
Ltac read_all := repeat (cbv zeta; read_step); try done.

Context (Hcur : 0 <= curlen raw <= 240).

Lemma parse_link_port_sat idx p :
  0 <= idx <= curlen raw ->
  sat (parse_link_port raw idx p) (fun '(ok, idx', _) => ok = true -> 0 <= idx' <= curlen raw).
Proof. intros Hi. unfold parse_link_port. read_all; intros; lia. Qed.

Lemma parse_link_ports_sat n : forall i idx ps,
  0 <= idx <= curlen raw -> (i + n <= length ps)%nat ->
  sat (parse_link_ports raw n i idx ps) (fun _ => True).
Proof.
  induction n as [|n IH]; intros i idx ps Hi Hn; cbn [parse_link_ports]; [done|].
  destruct (lookup_lt_is_Some_2 ps i) as [p ->]; [lia|]. cbn [mbind option_bind].
  eapply sat_bind; [by apply parse_link_port_sat|]. intros [[ok idx'] p'] Hok.
  destruct ok; [|done]. apply IH; [by apply Hok|]. rewrite length_insert. lia.
Qed.

Lemma copy_bytes_sat n : 0 <= n <= 253 -> sat (copy_bytes raw 3 n) (fun _ => True).
Proof.
  intros Hn. unfold copy_bytes. rewrite rd_range_Some by (unfold blen; lia).
  cbn [mbind option_bind]. rewrite wr_range_Some; [done|lia|].
  unfold blen. rewrite length_take, length_drop, length_replicate. lia.
Qed.

(** The reply is an acknowledged remote read that is long enough for the parser
    to copy the bytes its count announces. *)
Definition read_reply (b0 : Z) : bool :=
  negb (Z.shiftr (Z.land b0 0x80) 7 =? DP_SIDEBAND_REPLY_NAK) &&
  ((Z.land b0 0x7f =? DP_REMOTE_DPCD_READ) && (3 <=? curlen raw) ||
   (Z.land b0 0x7f =? DP_REMOTE_I2C_READ) && (2 <=? curlen raw)).

Context (Hbytes : Forall is_byte (rxmsg raw)).

Lemma rb_byte i x : rb raw i = Some x -> 0 <= x < 256.
Proof.
  unfold rb, rd. destruct (0 <=? i); [|done]. intros E.
  exact (Forall_lookup_1 _ _ _ _ Hbytes E).
Qed.

Definition count_fits : Prop := forall n, rb raw 2 = Some n -> n <= 253.

(** The count of a read reply. *)
Lemma count_sat f :
  count_fits ->
  (forall n, 0 <= n <= 253 -> sat (f n) (fun _ : bool * ack_replies => True)) ->
  sat (rb raw 2 ≫= f) (fun _ => True).
Proof.
  intros Hn H. destruct (rb raw 2) as [n|] eqn:E.
  - apply H. split; [by apply rb_byte in E as [? _]|by apply Hn].
  - pose proof (rb_sat 2 ltac:(lia)) as K. by rewrite E in K.
Qed.

Lemma remote_dpcd_read_sat :
  (3 <= curlen raw -> count_fits) ->
  sat (drm_dp_sideband_parse_remote_dpcd_read raw) (fun _ => True).
Proof.
  intros Hn. unfold drm_dp_sideband_parse_remote_dpcd_read. cbv zeta. do 2 read_step; [done|].
  destruct (too_long raw 3) eqn:T3.
  - by read_all.
  - apply too_long_false in T3. apply count_sat; [by apply Hn|]. intros n Hr.
    eapply sat_bind; [by apply copy_bytes_sat|done].
Qed.

Lemma remote_i2c_read_sat :
  (2 <= curlen raw -> count_fits) ->
  sat (drm_dp_sideband_parse_remote_i2c_read_ack raw) (fun _ => True).
Proof.
  intros Hn. unfold drm_dp_sideband_parse_remote_i2c_read_ack. cbv zeta. do 2 read_step; [done|].
  apply count_sat; [by apply Hn|]. intros n Hr. eapply sat_bind; [by apply copy_bytes_sat|done].
Qed.

Lemma parse_ack_sat t :
  (t = DP_REMOTE_DPCD_READ -> 3 <= curlen raw -> count_fits) ->
  (t = DP_REMOTE_I2C_READ -> 2 <= curlen raw -> count_fits) ->
  sat (parse_ack raw t) (fun _ => True).
Proof.
  intros Hd Hi. unfold parse_ack.
  destruct (Z.eqb_spec t DP_REMOTE_DPCD_READ) as [Et|_];
    [subst t; by apply remote_dpcd_read_sat, Hd|clear Hd].
  destruct (Z.eqb_spec t DP_REMOTE_I2C_READ) as [Et|_];
    [subst t; by apply remote_i2c_read_sat, Hi|clear Hi].
  unfold drm_dp_sideband_parse_link_address,
    drm_dp_sideband_parse_query_payload_ack, drm_dp_sideband_parse_remote_dpcd_write,
    drm_dp_sideband_parse_enum_path_resources_ack, drm_dp_sideband_parse_allocate_payload_ack,
    drm_dp_sideband_parse_power_updown_phy_ack, drm_dp_sideband_parse_query_stream_enc_status.
  read_all. eapply sat_bind; [apply parse_link_ports_sat; [lia|]|by intros [? ?]].
  match goal with |- context [Z.land ?x 15] => rewrite (land_0xf x);
    pose proof (Z.mod_pos_bound x 16) end. rewrite length_replicate. lia.
Qed.

Lemma parse_reply_sat :
  (forall b0, rb raw 0 = Some b0 -> read_reply b0 = true -> count_fits) ->
  sat (drm_dp_sideband_parse_reply raw) (fun _ => True).
Proof.
  intros Hn. unfold drm_dp_sideband_parse_reply.
  destruct (rb raw 0) as [b0|] eqn:E0; cycle 1.
  { pose proof (rb_sat 0 ltac:(lia)) as K. by rewrite E0 in K. }
  specialize (Hn b0 eq_refl). unfold read_reply in Hn. cbn [mbind option_bind]. cbv zeta.
  destruct (Z.shiftr (Z.land b0 128) 7 =? DP_SIDEBAND_REPLY_NAK); [by read_all|].
  eapply sat_bind; [|by intros [? ?]]. apply parse_ack_sat; intros Et Hc; apply Hn; rewrite Et.
  - by rewrite (proj2 (Z.leb_le _ _) Hc).
  - by rewrite (proj2 (Z.leb_le _ _) Hc).
Qed.

(** A larger count makes the parser copy from beyond the array. *)
Lemma copy_bytes_out n : 253 < n -> copy_bytes raw 3 n = None.
Proof.
  intros Hn. unfold copy_bytes, rd_range.
  destruct (Z.leb_spec (3 + n) (blen (rxmsg raw))) as [H|H]; [unfold blen in H; lia|].
  by rewrite !andb_false_r.
Qed.

Lemma parse_reply_out b0 n :
  rb raw 0 = Some b0 -> read_reply b0 = true -> rb raw 2 = Some n -> 253 < n ->
  drm_dp_sideband_parse_reply raw = None.
Proof.
  intros E0 Hr E2 Hn. unfold read_reply in Hr. apply andb_true_iff in Hr as [Hnak Hr].
  unfold drm_dp_sideband_parse_reply. rewrite E0. cbn [mbind option_bind]. cbv zeta.
  apply negb_true_iff in Hnak. rewrite Hnak. unfold parse_ack.
  apply orb_true_iff in Hr as [[Et Hc]%andb_true_iff|[Et Hc]%andb_true_iff];
    apply Z.eqb_eq in Et; apply Z.leb_le in Hc; rewrite Et; cbn [Z.eqb Pos.eqb].
  - unfold drm_dp_sideband_parse_remote_dpcd_read. destruct (rb raw 1); [|done].
    cbn [mbind option_bind]. rewrite (proj2 (too_long_false _ _)) by lia. rewrite E2.
    cbn [mbind option_bind]. rewrite (proj2 (too_long_false _ _)) by lia.
    by rewrite copy_bytes_out.
  - unfold drm_dp_sideband_parse_remote_i2c_read_ack. destruct (rb raw 1); [|done].
    cbn [mbind option_bind]. rewrite (proj2 (too_long_false _ _)) by lia. rewrite E2.
    cbn [mbind option_bind]. by rewrite copy_bytes_out.
Qed.

Lemma parse_req_sat : sat (drm_dp_sideband_parse_req raw) (fun _ => True).
Proof.
  unfold drm_dp_sideband_parse_req. read_step. cbv zeta.
  apply (sat_bind _ _ (fun _ => True)); [|by intros [? ?]].
  unfold drm_dp_sideband_parse_connection_status_notify,
    drm_dp_sideband_parse_resource_status_notify. read_all.
Qed.
End in_bounds.

(** C12.  On a message of at most 240 received bytes, whatever they are, the
    request parser touches no memory outside msg[256], and the reply parser does
    exactly when it is given an acknowledged remote DPCD or I2C read (long enough
    to pass its length tests) that announces more than 253 bytes: only these two
    copy a number of bytes the message chooses. *)
Theorem parsers_in_bounds raw :
  length (rxmsg raw) = 256%nat -> Forall is_byte (rxmsg raw) -> 0 <= curlen raw <= 240 ->
  (exists q, drm_dp_sideband_parse_req raw = Some q) /\
  ((exists r, drm_dp_sideband_parse_reply raw = Some r) <->
   (forall b0 n, rd (rxmsg raw) 0 = Some b0 -> read_reply raw b0 = true ->
                 rd (rxmsg raw) 2 = Some n -> n <= 253)).
Proof.
  intros Hl Hb Hc. split; [|split].
  - destruct (proj1 (sat_exists _ _) (parse_req_sat raw Hl)) as (r&E&_). by exists r.
  - intros [r E] b0 n E0 Hr E2. destruct (Z.le_gt_cases n 253) as [|Hn]; [done|].
    by rewrite (parse_reply_out raw Hl b0 n E0 Hr E2 Hn) in E.
  - intros Hn.
    destruct (proj1 (sat_exists _ _) (parse_reply_sat raw Hl Hc Hb
      (fun b0 E0 Hr n E2 => Hn b0 n E0 Hr E2))) as (r&E&_). by exists r.
Qed.

(** A read reply of three bytes that announces 255. *)
Definition rx_long_read : drm_dp_sideband_msg_rx :=
  Rx [] ([DP_REMOTE_DPCD_READ; 1; 255] ++ replicate 253 0) 0 0 0 3 true true hdr_zero.

Lemma parsers_in_bounds_witness :
  ((exists q, drm_dp_sideband_parse_req rx_example = Some q) /\
   (exists r, drm_dp_sideband_parse_reply rx_example = Some r)) /\
  ~ (exists r, drm_dp_sideband_parse_reply rx_long_read = Some r).
Proof.
  split.
  - destruct (parsers_in_bounds rx_example eq_refl (bytes_checked (rxmsg rx_example) eq_refl)
               ltac:(cbn; lia)) as [Q R].
    split; [exact Q|]. apply R. intros b0 n E0 Hr E2. injection E0 as <-. vm_compute in Hr. done.
  - intros R.
    destruct (parsers_in_bounds rx_long_read eq_refl (bytes_checked (rxmsg rx_long_read) eq_refl)
               ltac:(cbn; lia)) as [_ [F _]].
    specialize (F R DP_REMOTE_DPCD_READ 255 eq_refl eq_refl eq_refl). lia.
Defined.

(** Beyond 240 bytes the LINK_ADDRESS parser can import a GUID that ends outside
    the array: eleven ports of 20 bytes, and the next GUID starts at 241. *)
Lemma link_address_overread :
  drm_dp_sideband_parse_reply
    (Rx [] ([1] ++ replicate 16 0 ++ [15] ++ replicate 238 0) 0 0 0 250 true true hdr_zero) = None.
Proof. vm_compute. reflexivity. Qed.
