(* ===== verification/DpAux.v ===== *)
(** * DPCD access over the DisplayPort AUX channel

    drm_dp_dpcd_access, drm_dp_dpcd_read and drm_dp_dpcd_write of
    display/drm_dp_helper.c with the inline wrappers of
    include/drm/display/drm_dp_helper.h, for an AUX channel that is not remote
    (a remote one tunnels through the MST topology manager).  The hardware
    behind the driver's aux->transfer callback is a parameter.  C13 says what the
    accesses do for any hardware; [DpcdDevice] adds what the DisplayPort standard
    promises about the registers a device keeps, for the sideband transport. *)

From stdpp Require Import base numbers list option.
From Stdlib Require Import ZArith Lia Bool.
From S2P Require Import Prelude ByteBuf.
#[local] Open Scope Z_scope.

Abbreviation EIO := 5.
Abbreviation EBUSY := 16.
Abbreviation EPROTO := 71.

Definition DP_AUX_NATIVE_WRITE := 0x8.
Definition DP_AUX_NATIVE_READ := 0x9.
Definition DP_AUX_NATIVE_REPLY_ACK := 0.
Definition DP_AUX_NATIVE_REPLY_MASK := 0x3.
Definition DP_TRAINING_PATTERN_SET := 0x102.

(** The outcome of one transfer: the int it returns, msg->reply and the buffer. *)
Record transfer_result := TransferResult { ret : Z; msg_reply : Z; buffer : list Z }.

(** The callback: hardware state, request, address, buffer. *)
Abbreviation transfer_fn H := (H -> Z -> Z -> list Z -> H * transfer_result).

(** The registers [m] hold [bs] from [off] on. *)
Definition holds_at (m : Z -> Z) (off : Z) (bs : list Z) : Prop :=
  forall k x, bs !! k = Some x -> m (off + Z.of_nat k) = x.

(** The sideband mailboxes: the source writes a request to DOWN_REQ or a reply to
    UP_REP, the sink its own to DOWN_REP and UP_REQ. *)
Abbreviation MAILBOX_FIRST := 0x1000.
Abbreviation MAILBOX_DOWN_REP := 0x1400.
Abbreviation MAILBOX_END := 0x1800.

(** A device: its DPCD registers in a hardware state, and what a transfer does to
    the ones it keeps.  Many registers are not kept: write-to-clear bits, status
    the sink updates on its own, reserved addresses.  [kept req a] says that a
    transfer of the kind [req] changes register [a] by writing it only; the
    standard promises this of the mailboxes, those the sink fills only for reads
    (it leaves a message there until the source clears its ready bit).  A write
    that fails may still have reached part of its range. *)
Class DpcdDevice {H : Type} (transfer : transfer_fn H) := {
  dpcd : H -> Z -> Z;
  kept : Z -> Z -> Prop;
  mailbox_written : forall a,
    MAILBOX_FIRST <= a < MAILBOX_DOWN_REP -> kept DP_AUX_NATIVE_WRITE a;
  mailbox_read : forall a, MAILBOX_FIRST <= a < MAILBOX_END -> kept DP_AUX_NATIVE_READ a;
  write_elsewhere : forall h off buf a,
    kept DP_AUX_NATIVE_WRITE a -> ~ off <= a < off + blen buf ->
    dpcd (transfer h DP_AUX_NATIVE_WRITE off buf).1 a = dpcd h a;
  write_acked : forall h off buf,
    (forall a, off <= a < off + blen buf -> kept DP_AUX_NATIVE_WRITE a) ->
    (transfer h DP_AUX_NATIVE_WRITE off buf).2.(ret) = blen buf ->
    Z.land (transfer h DP_AUX_NATIVE_WRITE off buf).2.(msg_reply) DP_AUX_NATIVE_REPLY_MASK =
      DP_AUX_NATIVE_REPLY_ACK ->
    holds_at (dpcd (transfer h DP_AUX_NATIVE_WRITE off buf).1) off buf;
  read_preserves : forall h off buf a,
    kept DP_AUX_NATIVE_READ a ->
    dpcd (transfer h DP_AUX_NATIVE_READ off buf).1 a = dpcd h a;
  read_acked : forall h off buf,
    (forall a, off <= a < off + blen buf -> kept DP_AUX_NATIVE_READ a) ->
    (transfer h DP_AUX_NATIVE_READ off buf).2.(ret) = blen buf ->
    Z.land (transfer h DP_AUX_NATIVE_READ off buf).2.(msg_reply) DP_AUX_NATIVE_REPLY_MASK =
      DP_AUX_NATIVE_REPLY_ACK ->
    holds_at (dpcd h) off (transfer h DP_AUX_NATIVE_READ off buf).2.(buffer);
  write_buffer : forall h off buf, (transfer h DP_AUX_NATIVE_WRITE off buf).2.(buffer) = buf;
  read_length : forall h off buf,
    length (transfer h DP_AUX_NATIVE_READ off buf).2.(buffer) = length buf
}.

Section aux.
Context {H : Type} (transfer : transfer_fn H).

(** struct drm_dp_aux: the hardware and the flags the access functions read. *)
Record drm_dp_aux := Aux {
  hw : H;
  powered_down : bool;
  dpcd_probe_disabled : bool
}.
Definition set_hw (aux : drm_dp_aux) (h : H) : drm_dp_aux :=
  Aux h (powered_down aux) (dpcd_probe_disabled aux).

(** The body of the retry loop after the transfer: [Some ret] leaves it. *)
Definition access_verdict (r : transfer_result) (size : Z) : bool * Z :=
  if 0 <=? ret r then
    if Z.land (msg_reply r) DP_AUX_NATIVE_REPLY_MASK =? DP_AUX_NATIVE_REPLY_ACK then
      if ret r =? size then (true, ret r) else (false, - EPROTO)
    else (false, - EIO)
  else (false, ret r).

(** for (retry = 0; retry < 32; retry++), [n] attempts left. *)
Fixpoint access_retry (n : nat) (h : H) (req off : Z) (buf : list Z) (err : Z) :
    H * (Z * list Z) :=
  match n with
  | O => (h, (err, buf))
  | S n =>
    let '(h, r) := transfer h req off buf in
    let '(ok, ret) := access_verdict r (blen buf) in
    if ok then (h, (ret, buffer r))
    else access_retry n h req off (buffer r) (if err =? 0 then ret else err)
  end.

(** The int returned and the buffer after the call. *)
Definition drm_dp_dpcd_access (aux : drm_dp_aux) (req off : Z) (buf : list Z) :
    drm_dp_aux * (Z * list Z) :=
  if powered_down aux then (aux, (- EBUSY, buf))
  else let '(h, r) := access_retry 32 (hw aux) req off buf 0 in (set_hw aux h, r).

Definition drm_dp_dpcd_probe (aux : drm_dp_aux) (off : Z) : drm_dp_aux * Z :=
  let '(aux, (ret, _)) := drm_dp_dpcd_access aux DP_AUX_NATIVE_READ off [0] in
  (aux, if ret <? 0 then ret else 0).

Definition drm_dp_dpcd_set_powered (aux : drm_dp_aux) (powered : bool) : drm_dp_aux :=
  Aux (hw aux) (negb powered) (dpcd_probe_disabled aux).

Definition drm_dp_dpcd_set_probe (aux : drm_dp_aux) (enable : bool) : drm_dp_aux :=
  Aux (hw aux) (powered_down aux) (negb enable).

Definition dpcd_access_needs_probe (aux : drm_dp_aux) : bool := negb (dpcd_probe_disabled aux).

Definition drm_dp_dpcd_read (aux : drm_dp_aux) (off : Z) (buf : list Z) :
    drm_dp_aux * (Z * list Z) :=
  let '(aux, probe) :=
    if dpcd_access_needs_probe aux then drm_dp_dpcd_probe aux DP_TRAINING_PATTERN_SET
    else (aux, 0) in
  if probe <? 0 then (aux, (probe, buf))
  else drm_dp_dpcd_access aux DP_AUX_NATIVE_READ off buf.

Definition drm_dp_dpcd_write (aux : drm_dp_aux) (off : Z) (buf : list Z) :
    drm_dp_aux * (Z * list Z) :=
  drm_dp_dpcd_access aux DP_AUX_NATIVE_WRITE off buf.

Definition drm_dp_dpcd_write_data (aux : drm_dp_aux) (off : Z) (buf : list Z) :
    drm_dp_aux * Z :=
  let '(aux, (ret, _)) := drm_dp_dpcd_write aux off buf in
  (aux, if ret <? 0 then ret else if ret <? blen buf then - EPROTO else 0).

(** The fallback of drm_dp_dpcd_read_data: one byte at a time, [n] to go. *)
Fixpoint read_bytewise (aux : drm_dp_aux) (off : Z) (i : nat) (n : nat) (buf : list Z) :
    drm_dp_aux * (Z * list Z) :=
  match n with
  | O => (aux, (0, buf))
  | S n =>
    let '(aux, (ret, b)) := drm_dp_dpcd_read aux (off + Z.of_nat i) (take 1 (drop i buf)) in
    let buf := take i buf ++ b ++ drop (S i) buf in
    if ret <? 0 then (aux, (ret, buf)) else read_bytewise aux off (S i) n buf
  end.

Definition drm_dp_dpcd_read_data (aux : drm_dp_aux) (off : Z) (buf : list Z) :
    drm_dp_aux * (Z * list Z) :=
  let '(aux, (ret, buf)) := drm_dp_dpcd_read aux off buf in
  if 0 <=? ret then (aux, (if ret <? blen buf then - EPROTO else 0, buf))
  else read_bytewise aux off 0 (length buf) buf.

(** ** Which attempt decides an access

    No assumption on what is behind the callback, but that it fills the message
    buffer it is given. *)

Section attempts.
Context (Hbuf : forall h req off buf, length (transfer h req off buf).2.(buffer) = length buf).
Context (req off : Z).

(** The hardware and the buffer after [k] attempts, and the result of attempt [k]. *)
Definition after (k : nat) (s : H * list Z) : H * list Z :=
  Nat.iter k (fun s => let '(h, r) := transfer s.1 req off s.2 in (h, buffer r)) s.
Definition attempt (k : nat) (s : H * list Z) : transfer_result :=
  (transfer (after k s).1 req off (after k s).2).2.

(** Acknowledged, with every byte transferred. *)
Definition complete (r : transfer_result) (size : Z) : Prop :=
  Z.land (msg_reply r) DP_AUX_NATIVE_REPLY_MASK = DP_AUX_NATIVE_REPLY_ACK /\ ret r = size.

Definition error_of (r : transfer_result) : Z :=
  if ret r <? 0 then ret r
  else if Z.land (msg_reply r) DP_AUX_NATIVE_REPLY_MASK =? DP_AUX_NATIVE_REPLY_ACK
  then - EPROTO else - EIO.

(** An access: the channel after it, the int it returns and the buffer. *)
Inductive access_does (aux : drm_dp_aux) (buf : list Z) : drm_dp_aux -> Z -> list Z -> Prop :=
  | access_down :
      powered_down aux = true -> access_does aux buf aux (- EBUSY) buf
  | access_at k :
      powered_down aux = false -> (k < 32)%nat ->
      (forall j, (j < k)%nat -> ~ complete (attempt j (hw aux, buf)) (blen buf)) ->
      complete (attempt k (hw aux, buf)) (blen buf) ->
      access_does aux buf (set_hw aux (after (S k) (hw aux, buf)).1) (blen buf)
        (after (S k) (hw aux, buf)).2
  | access_never :
      powered_down aux = false ->
      (forall j, (j < 32)%nat -> ~ complete (attempt j (hw aux, buf)) (blen buf)) ->
      access_does aux buf (set_hw aux (after 32 (hw aux, buf)).1)
        (error_of (attempt 0 (hw aux, buf))) (after 32 (hw aux, buf)).2.

Lemma after_S k s :
  after (S k) s =
  ((transfer (after k s).1 req off (after k s).2).1, buffer (attempt k s)).
Proof.
  unfold attempt. change (after (S k) s) with
    (let '(h, r) := transfer (after k s).1 req off (after k s).2 in (h, buffer r)).
  by destruct (transfer _ _ _ _).
Qed.

Lemma after_length k s : length (after k s).2 = length s.2.
Proof. induction k as [|k IH]; [done|]. rewrite after_S. cbn [snd]. unfold attempt. by rewrite Hbuf. Qed.

Lemma after_blen k s : blen (after k s).2 = blen s.2.
Proof. unfold blen. by rewrite after_length. Qed.

Lemma access_verdict_complete r size :
  0 <= size -> complete r size -> access_verdict r size = (true, size).
Proof.
  intros Hs [Ha Hr]. unfold access_verdict. rewrite Ha, Hr, !Z.eqb_refl.
  by destruct (Z.leb_spec 0 size); [|lia].
Qed.

Lemma access_verdict_incomplete r size :
  ~ complete r size -> access_verdict r size = (false, error_of r) /\ error_of r < 0.
Proof.
  unfold complete, access_verdict, error_of. intros Hc.
  destruct (Z.ltb_spec (ret r) 0), (Z.leb_spec 0 (ret r)); try lia; [done|].
  destruct (Z.eqb_spec (Z.land (msg_reply r) DP_AUX_NATIVE_REPLY_MASK) DP_AUX_NATIVE_REPLY_ACK);
    [|done].
  destruct (Z.eqb_spec (ret r) size); [by destruct Hc|done].
Qed.

(** One turn of the loop, at the [k]-th attempt. *)
Lemma access_retry_turn n k s err :
  access_retry (S n) (after k s).1 req off (after k s).2 err =
  let '(ok, ret) := access_verdict (attempt k s) (blen s.2) in
  if ok then ((after (S k) s).1, (ret, (after (S k) s).2))
  else access_retry n (after (S k) s).1 req off (after (S k) s).2 (if err =? 0 then ret else err).
Proof.
  rewrite after_S. cbn [access_retry fst snd]. rewrite after_blen. unfold attempt.
  destruct (transfer _ _ _ _) as [h r]. cbn [fst snd]. by destruct (access_verdict r _) as [[] ?].
Qed.

(** Attempts that do not complete are passed over, and the first error is kept. *)
Lemma access_retry_skip k s : forall n,
  (forall j, (j < k)%nat -> ~ complete (attempt j s) (blen s.2)) ->
  access_retry (k + n) s.1 req off s.2 0 =
  access_retry n (after k s).1 req off (after k s).2
    (if decide (k = O) then 0 else error_of (attempt 0 s)).
Proof.
  induction k as [|k IH]; intros n Hc; [done|].
  replace (S k + n)%nat with (k + S n)%nat by lia. rewrite IH by (intros; apply Hc; lia).
  rewrite access_retry_turn.
  destruct (access_verdict_incomplete (attempt k s) (blen s.2)) as [-> _]; [apply Hc; lia|].
  rewrite (decide_False (P := S k = O)) by done. destruct (decide (k = O)) as [->|Hk]; [done|].
  destruct (access_verdict_incomplete (attempt 0 s) (blen s.2)) as [_ Hneg]; [apply Hc; lia|].
  by destruct (Z.eqb_spec (error_of (attempt 0 s)) 0); [lia|].
Qed.

Lemma access_does_run aux buf aux' ret buf' :
  access_does aux buf aux' ret buf' ->
  drm_dp_dpcd_access aux req off buf = (aux', (ret, buf')).
Proof.
  unfold drm_dp_dpcd_access. intros [Hd|k Hd Hk Hc Hok|Hd Hc]; rewrite Hd; [done|..].
  - replace 32%nat with (k + S (31 - k))%nat by lia.
    rewrite (access_retry_skip k (hw aux, buf)) by done. rewrite access_retry_turn. cbn [snd].
    by rewrite access_verdict_complete by (done || apply blen_nonneg).
  - pose proof (access_retry_skip 32 (hw aux, buf) 0 Hc) as R.
    change (32 + 0)%nat with 32%nat in R. cbn [fst snd] in R. by rewrite R.
Qed.

Lemma complete_dec r size : Decision (complete r size).
Proof. unfold complete. apply _. Qed.

(** The first attempt below [n] that completes, or none does. *)
Lemma first_complete s n :
  (exists k, (k < n)%nat /\ complete (attempt k s) (blen s.2) /\
     forall j, (j < k)%nat -> ~ complete (attempt j s) (blen s.2)) \/
  (forall j, (j < n)%nat -> ~ complete (attempt j s) (blen s.2)).
Proof.
  induction n as [|n [(k&Hk&Hc&Hj)|IH]]; [right; lia|left; exists k; split; [lia|done]|].
  destruct (complete_dec (attempt n s) (blen s.2)) as [Hc|Hc]; [left; exists n; split; [lia|done]|].
  right. intros j Hj. destruct (decide (j = n)) as [->|]; [done|]. apply IH. lia.
Qed.

Lemma access_iff aux buf aux' ret buf' :
  drm_dp_dpcd_access aux req off buf = (aux', (ret, buf')) <->
  access_does aux buf aux' ret buf'.
Proof.
  split; [|apply access_does_run]. intros E.
  assert (D : exists a r b, access_does aux buf a r b).
  { destruct (powered_down aux) eqn:Hd; [by do 3 eexists; apply access_down|].
    destruct (first_complete (hw aux, buf) 32) as [(k&Hk&Hc&Hj)|Hj];
      do 3 eexists; [by apply (access_at _ _ k)|by apply access_never]. }
  destruct D as (a&r&b&D). pose proof (access_does_run _ _ _ _ _ D) as E'.
  rewrite E in E'. by injection E' as -> -> ->.
Qed.
End attempts.

(** ** Reads: the probe, the bulk read and the fallback *)

Section reading.
Context (Hbuf : forall h req off buf, length (transfer h req off buf).2.(buffer) = length buf).

Abbreviation reads := (access_does DP_AUX_NATIVE_READ).

(** drm_dp_dpcd_read: unless the probe is disabled it comes first, and the read
    is not tried when it fails. *)
Inductive read_does (aux : drm_dp_aux) (off : Z) (buf : list Z) :
    drm_dp_aux -> Z -> list Z -> Prop :=
  | read_plain aux' ret buf' :
      dpcd_probe_disabled aux = true -> reads off aux buf aux' ret buf' ->
      read_does aux off buf aux' ret buf'
  | read_probed aux1 p b aux' ret buf' :
      dpcd_probe_disabled aux = false -> reads DP_TRAINING_PATTERN_SET aux [0] aux1 p b ->
      0 <= p -> reads off aux1 buf aux' ret buf' -> read_does aux off buf aux' ret buf'
  | read_probe_fails aux' p b :
      dpcd_probe_disabled aux = false -> reads DP_TRAINING_PATTERN_SET aux [0] aux' p b ->
      p < 0 -> read_does aux off buf aux' p buf.

(** Bytes [i], [i+1], ... of the buffer, one read each, up to the first failure. *)
Inductive bytes_read (off : Z) : nat -> drm_dp_aux -> list Z -> drm_dp_aux -> Z -> list Z -> Prop :=
  | bytes_end i aux buf : (length buf <= i)%nat -> bytes_read off i aux buf aux 0 buf
  | bytes_fail i aux buf x aux' ret y :
      buf !! i = Some x -> read_does aux (off + Z.of_nat i) [x] aux' ret [y] -> ret < 0 ->
      bytes_read off i aux buf aux' ret (<[i := y]> buf)
  | bytes_more i aux buf x aux1 r y aux' ret buf' :
      buf !! i = Some x -> read_does aux (off + Z.of_nat i) [x] aux1 r [y] -> 0 <= r ->
      bytes_read off (S i) aux1 (<[i := y]> buf) aux' ret buf' ->
      bytes_read off i aux buf aux' ret buf'.

Inductive read_data_does (aux : drm_dp_aux) (off : Z) (buf : list Z) :
    drm_dp_aux -> Z -> list Z -> Prop :=
  | read_bulk aux' r buf' :
      read_does aux off buf aux' r buf' -> 0 <= r -> read_data_does aux off buf aux' 0 buf'
  | read_each aux1 r buf1 aux' ret buf' :
      read_does aux off buf aux1 r buf1 -> r < 0 -> bytes_read off 0 aux1 buf1 aux' ret buf' ->
      read_data_does aux off buf aux' ret buf'.

Lemma access_does_ret req off aux buf aux' ret buf' :
  access_does req off aux buf aux' ret buf' ->
  length buf' = length buf /\ (ret = blen buf \/ ret < 0).
Proof using Hbuf.
  intros [Hd|k Hd Hk Hc Hok|Hd Hc]; [split; [done|by right]|..];
    (split; [by rewrite after_length|]).
  - by left.
  - right. apply (access_verdict_incomplete _ (blen buf)). apply Hc. lia.
Qed.

Lemma read_does_ret aux off buf aux' ret buf' :
  read_does aux off buf aux' ret buf' ->
  length buf' = length buf /\ (ret = blen buf \/ ret < 0).
Proof using Hbuf.
  intros [a r b _ R|a p b a' r b' _ _ _ R|a p b _ _ Hp];
    [by apply access_does_ret in R..|split; [done|by right]].
Qed.

Lemma read_iff aux off buf aux' ret buf' :
  drm_dp_dpcd_read aux off buf = (aux', (ret, buf')) <-> read_does aux off buf aux' ret buf'.
Proof using Hbuf.
  unfold drm_dp_dpcd_read, drm_dp_dpcd_probe, dpcd_access_needs_probe. split.
  - destruct (dpcd_probe_disabled aux) eqn:Hp; cbn [negb].
    { intros E. apply read_plain; [done|]. by apply access_iff. }
    destruct (drm_dp_dpcd_access aux _ DP_TRAINING_PATTERN_SET [0]) as [a1 [p b]] eqn:E1.
    apply (access_iff Hbuf) in E1. destruct (Z.ltb_spec p 0).
    + destruct (Z.ltb_spec p 0); [|lia]. intros [= <- <- <-]. by apply (read_probe_fails _ _ _ _ _ b).
    + intros E. apply (access_iff Hbuf) in E. by apply (read_probed _ _ _ a1 p b).
  - intros [a r b Hp R|a p b a' r b' Hp R1 Hr R2|a p b Hp R Hr]; rewrite Hp; cbn [negb];
      [by apply access_iff|..]; apply (access_iff Hbuf) in R || apply (access_iff Hbuf) in R1.
    + rewrite R1. destruct (Z.ltb_spec p 0); [lia|]. by apply access_iff.
    + rewrite R. destruct (Z.ltb_spec p 0); [|lia]. by destruct (Z.ltb_spec p 0); [|lia].
Qed.

Lemma read_bytewise_iff off n : forall i aux buf aux' ret buf',
  (i + n = length buf)%nat ->
  read_bytewise aux off i n buf = (aux', (ret, buf')) <-> bytes_read off i aux buf aux' ret buf'.
Proof using Hbuf.
  induction n as [|n IH]; intros i aux buf aux' ret buf' Hn; cbn [read_bytewise].
  { split; [intros [= <- <- <-]; apply bytes_end; lia|].
    intros D. destruct D as [|? ? ? ? ? ? ? Hx|? ? ? ? ? ? ? ? ? ? Hx]; [done|..];
      apply lookup_lt_Some in Hx; lia. }
  destruct (lookup_lt_is_Some_2 buf i) as [x Hx]; [lia|].
  rewrite (drop_S buf x i) by done. change (take 1 (x :: drop (S i) buf)) with [x].
  destruct (drm_dp_dpcd_read aux (off + Z.of_nat i) [x]) as [a1 [r b]] eqn:Er. apply read_iff in Er.
  destruct (read_does_ret _ _ _ _ _ _ Er) as [Hl _]. destruct b as [|y [|]]; try done.
  cbn [app]. rewrite <- (insert_take_drop buf i y) by lia.
  assert (Hsame : forall x' a2 r2 y2, buf !! i = Some x' ->
    read_does aux (off + Z.of_nat i) [x'] a2 r2 [y2] -> a2 = a1 /\ r2 = r /\ y2 = y).
  { intros x' a2 r2 y2 Hx' D. rewrite Hx in Hx'. injection Hx' as <-.
    apply read_iff in Er, D. rewrite Er in D. by injection D as -> -> ->. }
  split.
  - destruct (Z.ltb_spec r 0).
    + intros [= <- <- <-]. by apply (bytes_fail _ _ _ _ x).
    + intros E. apply IH in E; [|rewrite length_insert; lia]. by apply (bytes_more _ _ _ _ x a1 r y).
  - intros D. destruct D as [i aux buf Hi|i aux buf x' a2 r2 y2 Hx' D Hr|
      i aux buf x' a2 r2 y2 a3 r3 b3 Hx' D Hr D2]; [lia|..];
      destruct (Hsame _ _ _ _ Hx' D) as (->&->&->).
    + by destruct (Z.ltb_spec r 0); [|lia].
    + destruct (Z.ltb_spec r 0); [lia|]. apply IH; [rewrite length_insert; lia|done].
Qed.

Lemma read_data_iff aux off buf aux' ret buf' :
  drm_dp_dpcd_read_data aux off buf = (aux', (ret, buf')) <->
  read_data_does aux off buf aux' ret buf'.
Proof using Hbuf.
  unfold drm_dp_dpcd_read_data. destruct (drm_dp_dpcd_read aux off buf) as [a1 [r b]] eqn:Er.
  pose proof Er as D. apply read_iff in D. destruct (read_does_ret _ _ _ _ _ _ D) as [Hl Hr].
  assert (Hbl : blen b = blen buf) by (unfold blen; lia).
  assert (Hsame : forall a2 r2 b2, read_does aux off buf a2 r2 b2 -> a2 = a1 /\ r2 = r /\ b2 = b).
  { intros a2 r2 b2 D2. apply read_iff in D2. rewrite Er in D2. by injection D2 as -> -> ->. }
  destruct (Z.leb_spec 0 r).
  - destruct Hr as [->|]; [|lia]. rewrite Hbl, Z.ltb_irrefl. split.
    + intros [= <- <- <-]. by apply (read_bulk _ _ _ _ (blen buf)).
    + intros [a r2 b2 D2 Hr2|a r2 b2 a3 r3 b3 D2 Hr2 _];
        apply Hsame in D2 as (->&->&->); [done|lia].
  - rewrite (read_bytewise_iff off _ 0) by done. split.
    + intros D2. by apply (read_each _ _ _ a1 r b).
    + intros [a r2 b2 D2 Hr2|a r2 b2 a3 r3 b3 D2 Hr2 D3];
        apply Hsame in D2 as (->&->&->); [lia|done].
Qed.

(** The outcome of a write: 0, or the error of the access. *)
Definition write_data_does (aux : drm_dp_aux) (off : Z) (buf : list Z) (aux' : drm_dp_aux)
    (ret : Z) : Prop :=
  exists r b, access_does DP_AUX_NATIVE_WRITE off aux buf aux' r b /\ ret = Z.min r 0.

Lemma write_data_iff aux off buf aux' ret :
  drm_dp_dpcd_write_data aux off buf = (aux', ret) <-> write_data_does aux off buf aux' ret.
Proof using Hbuf.
  unfold drm_dp_dpcd_write_data, drm_dp_dpcd_write, write_data_does.
  destruct (drm_dp_dpcd_access aux _ off buf) as [a1 [r b]] eqn:E.
  pose proof E as D. apply (access_iff Hbuf) in D.
  destruct (access_does_ret _ _ _ _ _ _ _ D) as [_ Hr]. pose proof (blen_nonneg buf).
  assert (Hret : (if r <? 0 then r else if r <? blen buf then - EPROTO else 0) = Z.min r 0)
    by (bdestr; lia). rewrite Hret. split.
  - intros [= <- <-]. by exists r, b.
  - intros (r2&b2&D2&->). apply (access_iff Hbuf) in D2. rewrite E in D2. by injection D2 as -> -> ->.
Qed.
End reading.


(** ** What the accesses do to the registers a device keeps *)

Context `{!DpcdDevice transfer}.

Abbreviation reg aux := (dpcd (hw aux)).

(** The device keeps the [n] registers from [off] on. *)
Definition range_kept (req off n : Z) : Prop := forall a, off <= a < off + n -> kept req a.

Lemma access_verdict_ok r size ret :
  access_verdict r size = (true, ret) ->
  ret = size /\ DpAux.ret r = size /\
  Z.land (msg_reply r) DP_AUX_NATIVE_REPLY_MASK = DP_AUX_NATIVE_REPLY_ACK.
Proof.
  unfold access_verdict. bdestr; intros [= <-]; split_and!; done || lia.
Qed.

Lemma access_verdict_fail r size ret :
  access_verdict r size = (false, ret) -> ret < 0.
Proof. unfold access_verdict. bdestr; intros [= <-]; lia. Qed.

Lemma access_retry_write n : forall h off buf err h' ret buf',
  err <= 0 ->
  access_retry n h DP_AUX_NATIVE_WRITE off buf err = (h', (ret, buf')) ->
  buf' = buf /\
  (forall a, kept DP_AUX_NATIVE_WRITE a -> ~ off <= a < off + blen buf -> dpcd h' a = dpcd h a) /\
  ((ret = blen buf /\
    (range_kept DP_AUX_NATIVE_WRITE off (blen buf) -> holds_at (dpcd h') off buf)) \/
   ret < 0 \/ (n = O /\ ret = err)).
Proof.
  induction n as [|n IH]; intros h off buf err h' ret buf' Hneg E; cbn [access_retry] in E.
  { injection E as <- <- <-. split; [done|]. split; [done|]. by right; right. }
  pose proof (write_buffer h off buf) as Hb. pose proof (write_elsewhere h off buf) as He.
  pose proof (write_acked h off buf) as Ha.
  destruct (transfer h DP_AUX_NATIVE_WRITE off buf) as [h1 r]. cbn in Hb, He, Ha.
  destruct (access_verdict r (blen buf)) as [[] rt] eqn:Ev.
  - injection E as <- <- <-. apply access_verdict_ok in Ev as (->&Hr&Hm).
    split; [done|]. split; [done|]. left. auto.
  - apply access_verdict_fail in Ev. rewrite Hb in E.
    apply IH in E as (->&He'&Hd); [|destruct (Z.eqb_spec err 0); lia].
    split; [done|]. split; [intros a Hk Hr; by rewrite He', He|].
    destruct Hd as [Hd|[Hd|[_ Hd]]]; [by left|by right; left|]. right; left.
    destruct (Z.eqb_spec err 0); lia.
Qed.

Lemma access_retry_read n : forall h off buf err h' ret buf',
  err <= 0 ->
  access_retry n h DP_AUX_NATIVE_READ off buf err = (h', (ret, buf')) ->
  length buf' = length buf /\
  (forall a, kept DP_AUX_NATIVE_READ a -> dpcd h' a = dpcd h a) /\
  ((ret = blen buf /\
    (range_kept DP_AUX_NATIVE_READ off (blen buf) -> holds_at (dpcd h) off buf')) \/
   ret < 0 \/ (n = O /\ ret = err)).
Proof.
  induction n as [|n IH]; intros h off buf err h' ret buf' Hneg E; cbn [access_retry] in E.
  { injection E as <- <- <-. split; [done|]. split; [done|]. by right; right. }
  pose proof (read_length h off buf) as Hb. pose proof (read_preserves h off buf) as He.
  pose proof (read_acked h off buf) as Ha.
  destruct (transfer h DP_AUX_NATIVE_READ off buf) as [h1 r]. cbn in Hb, He, Ha.
  destruct (access_verdict r (blen buf)) as [[] rt] eqn:Ev.
  - injection E as <- <- <-. apply access_verdict_ok in Ev as (->&Hr&Hm).
    split; [done|]. split; [done|]. left. auto.
  - apply access_verdict_fail in Ev.
    assert (Hbl : blen (buffer r) = blen buf) by (unfold blen; lia).
    apply IH in E as (El&He'&Hd); [|destruct (Z.eqb_spec err 0); lia]. rewrite Hbl in Hd.
    split; [lia|]. split; [intros a Hk; by rewrite He', He|].
    destruct Hd as [[Hd Hh]|[Hd|[_ Hd]]]; [left|by right; left|right; left].
    + split; [done|]. intros Hk k x Hx. rewrite <- He; [by apply Hh|].
      apply Hk. pose proof (lookup_lt_Some _ _ _ Hx). unfold blen. lia.
    + destruct (Z.eqb_spec err 0); lia.
Qed.

Lemma access_write aux off buf aux' ret buf' :
  drm_dp_dpcd_access aux DP_AUX_NATIVE_WRITE off buf = (aux', (ret, buf')) ->
  aux' = set_hw aux (hw aux') /\ buf' = buf /\
  (forall a, kept DP_AUX_NATIVE_WRITE a -> ~ off <= a < off + blen buf ->
             reg aux' a = reg aux a) /\
  ((ret = blen buf /\
    (range_kept DP_AUX_NATIVE_WRITE off (blen buf) -> holds_at (reg aux') off buf)) \/ ret < 0).
Proof.
  unfold drm_dp_dpcd_access. destruct (powered_down aux).
  { intros [= <- <- <-]. split; [by destruct aux|]. split; [done|]. split; [done|].
    right. lia. }
  destruct (access_retry 32 _ _ _ _ _) as [h [r b]] eqn:E. intros [= <- <- <-]. cbn.
  apply access_retry_write in E as (->&He&Hd); [|lia].
  split; [done|]. split; [done|]. split; [done|].
  destruct Hd as [?|[?|[? ?]]]; [by left|by right|done].
Qed.

Lemma access_read aux off buf aux' ret buf' :
  drm_dp_dpcd_access aux DP_AUX_NATIVE_READ off buf = (aux', (ret, buf')) ->
  aux' = set_hw aux (hw aux') /\ length buf' = length buf /\
  (forall a, kept DP_AUX_NATIVE_READ a -> reg aux' a = reg aux a) /\
  ((ret = blen buf /\
    (range_kept DP_AUX_NATIVE_READ off (blen buf) -> holds_at (reg aux) off buf')) \/ ret < 0).
Proof.
  unfold drm_dp_dpcd_access. destruct (powered_down aux).
  { intros [= <- <- <-]. split; [by destruct aux|]. split; [done|]. split; [done|].
    right. lia. }
  destruct (access_retry 32 _ _ _ _ _) as [h [r b]] eqn:E. intros [= <- <- <-]. cbn.
  apply access_retry_read in E as (Hl&He&Hd); [|lia].
  split; [done|]. split; [done|]. split; [done|].
  destruct Hd as [?|[?|[? ?]]]; [by left|by right|done].
Qed.

(** The registers read are those before the read: they are all kept. *)
Lemma holds_at_kept off n m m' bs :
  range_kept DP_AUX_NATIVE_READ off n -> blen bs <= n ->
  (forall a, kept DP_AUX_NATIVE_READ a -> m' a = m a) ->
  holds_at m' off bs -> holds_at m off bs.
Proof.
  intros Hk Hn He Hh k x Hx. rewrite <- He; [by apply Hh|]. apply Hk.
  pose proof (lookup_lt_Some _ _ _ Hx). unfold blen in *. lia.
Qed.

Lemma dpcd_read aux off buf aux' ret buf' :
  range_kept DP_AUX_NATIVE_READ off (blen buf) ->
  drm_dp_dpcd_read aux off buf = (aux', (ret, buf')) ->
  aux' = set_hw aux (hw aux') /\ length buf' = length buf /\
  (forall a, kept DP_AUX_NATIVE_READ a -> reg aux' a = reg aux a) /\
  ((ret = blen buf /\ holds_at (reg aux) off buf') \/ ret < 0).
Proof.
  intros Hk. unfold drm_dp_dpcd_read, drm_dp_dpcd_probe. intros E.
  destruct (dpcd_access_needs_probe aux); cycle 1.
  { cbn in E. apply access_read in E as (?&?&?&[[? Hh]|?]); split_and!; try done;
      [left; auto|by right]. }
  destruct (drm_dp_dpcd_access aux DP_AUX_NATIVE_READ DP_TRAINING_PATTERN_SET [0])
    as [aux1 [r1 b1]] eqn:E1.
  apply access_read in E1 as (F1&_&H1&_).
  destruct ((if r1 <? 0 then r1 else 0) <? 0) eqn:Hp.
  - injection E as <- <- <-. split; [done|]. split; [done|]. split; [done|].
    right. lia.
  - apply access_read in E as (F2&Hl&H2&Hd). split.
    { rewrite F2, F1. done. }
    split; [done|]. split; [intros a Ha; by rewrite H2, H1|].
    destruct Hd as [[? Hh]|?]; [left|by right]. split; [done|].
    apply (holds_at_kept off (blen buf) _ (reg aux1)); try done; [unfold blen; lia|by apply Hh].
Qed.

Lemma dpcd_write_spec aux off buf aux' ret :
  range_kept DP_AUX_NATIVE_WRITE off (blen buf) ->
  drm_dp_dpcd_write_data aux off buf = (aux', ret) ->
  aux' = set_hw aux (hw aux') /\
  (forall a, kept DP_AUX_NATIVE_WRITE a -> ~ off <= a < off + blen buf ->
             reg aux' a = reg aux a) /\
  (ret = 0 /\ holds_at (reg aux') off buf \/ ret < 0).
Proof.
  intros Hk. unfold drm_dp_dpcd_write_data, drm_dp_dpcd_write. intros E.
  destruct (drm_dp_dpcd_access _ _ _ _) as [aux1 [r b]] eqn:Ea. injection E as <- <-.
  apply access_write in Ea as (F&_&He&Hd). split; [done|]. split; [done|].
  pose proof (blen_nonneg buf). destruct Hd as [[-> Hh]|Hr].
  - left. specialize (Hh Hk). bdestr; (lia || done).
  - right. bdestr; lia.
Qed.

Lemma read_bytewise_spec n : forall aux off i buf aux' ret buf',
  range_kept DP_AUX_NATIVE_READ off (blen buf) ->
  (i + n = length buf)%nat -> holds_at (reg aux) off (take i buf) ->
  read_bytewise aux off i n buf = (aux', (ret, buf')) ->
  aux' = set_hw aux (hw aux') /\ length buf' = length buf /\
  (forall a, kept DP_AUX_NATIVE_READ a -> reg aux' a = reg aux a) /\
  (ret = 0 /\ holds_at (reg aux) off buf' \/ ret < 0).
Proof.
  induction n as [|n IH]; intros aux off i buf aux' ret buf' Hk Hn Hh E; cbn [read_bytewise] in E.
  { injection E as <- <- <-. split; [by destruct aux|]. split; [done|]. split; [done|].
    left. split; [done|]. by rewrite take_ge in Hh by lia. }
  destruct (drm_dp_dpcd_read aux _ _) as [aux1 [r b]] eqn:Er.
  apply dpcd_read in Er as (F1&Hl&He&Hd);
    [|intros a Ha; apply Hk; unfold blen in *; rewrite length_take, length_drop in Ha; lia].
  assert (Hl1 : length b = 1%nat) by (rewrite Hl, length_take, length_drop; lia).
  assert (Hl' : length (take i buf ++ b ++ drop (S i) buf) = length buf)
    by (rewrite !length_app, length_take, length_drop; lia).
  destruct (Z.ltb_spec r 0).
  - injection E as <- <- <-. split; [done|]. split; [done|]. split; [done|]. by right.
  - apply IH in E as (F2&Hl2&He2&Hd2); [|unfold blen; by rewrite Hl'|lia|].
    + split; [rewrite F2, F1; done|]. split; [lia|]. split; [intros a Ha; by rewrite He2, He|].
      destruct Hd2 as [[-> Hh2]|?]; [left|by right]. split; [done|].
      apply (holds_at_kept off (blen buf) _ (reg aux1)); try done. unfold blen. lia.
    + destruct Hd as [[_ Hb]|?]; [|lia].
      replace (S i) with (i + 1)%nat by lia.
      rewrite take_app_ge, length_take by (rewrite length_take; lia).
      replace (i + 1 - i `min` length buf)%nat with (length b) by lia.
      rewrite take_app_length. intros k x Hx.
      pose proof (lookup_lt_Some _ _ _ Hx) as Hlt. rewrite length_app, length_take in Hlt.
      rewrite He by (apply Hk; unfold blen; lia).
      destruct (Nat.lt_ge_cases k i).
      * apply Hh. rewrite lookup_app_l in Hx by (rewrite length_take; lia). done.
      * rewrite lookup_app_r in Hx by (rewrite length_take; lia).
        rewrite length_take in Hx. specialize (Hb _ _ Hx).
        rewrite <- Hb. f_equal. lia.
Qed.

Lemma dpcd_read_spec aux off buf aux' ret buf' :
  range_kept DP_AUX_NATIVE_READ off (blen buf) ->
  drm_dp_dpcd_read_data aux off buf = (aux', (ret, buf')) ->
  aux' = set_hw aux (hw aux') /\ length buf' = length buf /\
  (forall a, kept DP_AUX_NATIVE_READ a -> reg aux' a = reg aux a) /\
  (ret = 0 /\ holds_at (reg aux) off buf' \/ ret < 0).
Proof.
  intros Hk. unfold drm_dp_dpcd_read_data. intros E.
  destruct (drm_dp_dpcd_read aux off buf) as [aux1 [r b]] eqn:Er.
  apply dpcd_read in Er as (F&Hl&He&Hd); [|done].
  assert (Hbl : blen b = blen buf) by (unfold blen; lia).
  destruct (Z.leb_spec 0 r).
  - injection E as <- <- <-. split; [done|]. split; [done|]. split; [done|].
    destruct Hd as [[-> Hh]|?]; [|lia]. left. rewrite Hbl. bdestr; (lia || done).
  - apply read_bytewise_spec in E as (F2&Hl2&He2&Hd2); [|by rewrite Hbl|lia|by intros k x ?].
    split; [rewrite F2, F; done|]. split; [lia|]. split; [intros a Ha; by rewrite He2, He|].
    destruct Hd2 as [[-> Hh2]|?]; [left|by right]. split; [done|].
    apply (holds_at_kept off (blen buf) _ (reg aux1)); try done. unfold blen. lia.
Qed.
End aux.
Arguments drm_dp_aux : clear implicits.

(** ** A device to run the code on

    Registers as a function; the first [n] transfers are answered with a NACK
    after writing nothing. *)

Definition regs_write (m : Z -> Z) (off : Z) (bs : list Z) : Z -> Z := fun a =>
  if (off <=? a) && (a <? off + blen bs) then default 0 (bs !! Z.to_nat (a - off)) else m a.

Definition regs_read (m : Z -> Z) (off : Z) (n : nat) : list Z :=
  (fun k => m (off + Z.of_nat k)) <$> seq 0 n.

Definition flaky_transfer (h : nat * (Z -> Z)) (req off : Z) (buf : list Z) :
    (nat * (Z -> Z)) * transfer_result :=
  match h.1 with
  | S n => ((n, h.2), TransferResult 0 1 buf)
  | O =>
    if req =? DP_AUX_NATIVE_WRITE
    then ((O, regs_write h.2 off buf), TransferResult (blen buf) DP_AUX_NATIVE_REPLY_ACK buf)
    else (h, TransferResult (blen buf) DP_AUX_NATIVE_REPLY_ACK
               (regs_read h.2 off (length buf)))
  end.

Lemma regs_write_holds m off bs : holds_at (regs_write m off bs) off bs.
Proof.
  intros k x Hk. pose proof (lookup_lt_Some _ _ _ Hk). unfold regs_write, blen.
  destruct (Z.leb_spec off (off + Z.of_nat k)); [|lia].
  destruct (Z.ltb_spec (off + Z.of_nat k) (off + Z.of_nat (length bs))); [|lia]. cbn [andb].
  by replace (Z.to_nat (off + Z.of_nat k - off)) with k by lia; rewrite Hk.
Qed.

#[export] Instance flaky_device : DpcdDevice flaky_transfer.
Proof.
  refine {| dpcd := fun h => h.2; kept := fun _ _ => True |}; unfold flaky_transfer;
    try (intros; exact I).
  - intros [[|n] m] off buf a _ Ha; cbn; [|done]. unfold regs_write.
    destruct (Z.leb_spec off a), (Z.ltb_spec a (off + blen buf)); (done || lia).
  - intros [[|n] m] off buf _ Hr Hm; cbn in *; [apply regs_write_holds|done].
  - by intros [[|n] m] off buf a _.
  - intros [[|n] m] off buf _ Hr Hm k x Hk; cbn in *; [|done].
    unfold regs_read in Hk. rewrite list_lookup_fmap in Hk.
    destruct (seq 0 (length buf) !! k) as [j|] eqn:E; [|done].
    apply lookup_seq in E as [-> _]. by injection Hk.
  - by intros [[|n] m] off buf.
  - intros [[|n] m] off buf; cbn; [|done]. unfold regs_read.
    by rewrite length_fmap, length_seq.
Defined.

Definition aux_example : drm_dp_aux (nat * (Z -> Z)) := Aux (2%nat, fun a => a mod 251) false true.

(** The same device with more refusals than one access makes attempts. *)
Definition aux_refusing : drm_dp_aux (nat * (Z -> Z)) := Aux (40%nat, fun a => a mod 251) false true.

Lemma flaky_buffer h req off buf :
  length (buffer (flaky_transfer h req off buf).2) = length buf.
Proof.
  destruct h as [[|n] m]; [|done]. unfold flaky_transfer. cbn.
  destruct (req =? DP_AUX_NATIVE_WRITE); [done|]. unfold regs_read. cbn.
  by rewrite length_fmap, length_seq.
Qed.

