(* ===== verification/MstTransport.v ===== *)
(** * Transport of the MST sideband channel

    Sending and receiving messages in display/drm_dp_mst_topology.c: the AUX
    writes of a chunk, the chunking of a transmit message, the reassembly of a
    received one, the queue of down requests and the lookup of the branch device
    a reply comes from. *)

From stdpp Require Import base numbers list option gmap.
From Stdlib Require Import ZArith Lia Bool.
From S2P Require Import Prelude ByteBuf MstCrc MstMsg MstReply DpAux.
#[local] Open Scope Z_scope.

Definition DP_SIDEBAND_MSG_DOWN_REQ_BASE := 0x1000.
Definition DP_SIDEBAND_MSG_UP_REP_BASE := 0x1200.
Definition DP_SIDEBAND_MSG_DOWN_REP_BASE := 0x1400.
Definition DP_SIDEBAND_MSG_UP_REQ_BASE := 0x1600.

Definition DRM_DP_SIDEBAND_TX_QUEUED := 0.
Definition DRM_DP_SIDEBAND_TX_START_SEND := 1.
Definition DRM_DP_SIDEBAND_TX_SENT := 2.
Definition DRM_DP_SIDEBAND_TX_RX := 3.
Definition DRM_DP_SIDEBAND_TX_TIMEOUT := 4.

(** ** State *)

(** The part of struct drm_dp_mst_port and struct drm_dp_mst_branch the lookup
    reads; branches live in a store and are named by address. *)
Record drm_dp_mst_port := Port { port_num : Z; mstb : option Z }.

Record drm_dp_mst_branch := Branch {
  br_rad : list Z;
  br_lct : Z;
  br_ports : list drm_dp_mst_port;
  topology_kref : Z
}.

Abbreviation txmsg := (drm_dp_sideband_msg_tx drm_dp_sideband_msg_reply_body).

(** The fields of struct drm_dp_mst_topology_mgr that the functions below read or
    write, with the messages and branches its lists point to. *)
Record drm_dp_mst_topology_mgr (H : Type) := Mgr {
  aux : drm_dp_aux H;
  max_dpcd_transaction_bytes : Z;
  down_rep_recv : drm_dp_sideband_msg_rx;
  up_req_recv : drm_dp_sideband_msg_rx;
  tx_msg_downq : list Z;                       (* addresses of messages *)
  txmsgs : gmap Z txmsg;
  branches : gmap Z drm_dp_mst_branch;
  mst_primary : option Z
}.
Arguments Mgr {_}.
Arguments aux {_}.
Arguments max_dpcd_transaction_bytes {_}.
Arguments down_rep_recv {_}.
Arguments up_req_recv {_}.
Arguments tx_msg_downq {_}.
Arguments txmsgs {_}.
Arguments branches {_}.
Arguments mst_primary {_}.

Section transport.
Context {H : Type} (transfer : transfer_fn H).
Abbreviation aux_t := (drm_dp_aux H).
Abbreviation mgr_t := (drm_dp_mst_topology_mgr H).

Definition set_aux (m : mgr_t) (a : aux_t) : mgr_t :=
  Mgr a (max_dpcd_transaction_bytes m) (down_rep_recv m) (up_req_recv m) (tx_msg_downq m)
    (txmsgs m) (branches m) (mst_primary m).
Definition set_queue (m : mgr_t) (q : list Z) : mgr_t :=
  Mgr (aux m) (max_dpcd_transaction_bytes m) (down_rep_recv m) (up_req_recv m) q
    (txmsgs m) (branches m) (mst_primary m).
Definition set_tx (m : mgr_t) (p : Z) (t : txmsg) : mgr_t :=
  Mgr (aux m) (max_dpcd_transaction_bytes m) (down_rep_recv m) (up_req_recv m) (tx_msg_downq m)
    (<[p := t]> (txmsgs m)) (branches m) (mst_primary m).
Definition set_branches (m : mgr_t) (b : gmap Z drm_dp_mst_branch) : mgr_t :=
  Mgr (aux m) (max_dpcd_transaction_bytes m) (down_rep_recv m) (up_req_recv m) (tx_msg_downq m)
    (txmsgs m) b (mst_primary m).
Definition recv (m : mgr_t) (up : bool) : drm_dp_sideband_msg_rx :=
  if up then up_req_recv m else down_rep_recv m.
Definition set_recv (m : mgr_t) (up : bool) (r : drm_dp_sideband_msg_rx) : mgr_t :=
  if up
  then Mgr (aux m) (max_dpcd_transaction_bytes m) (down_rep_recv m) r (tx_msg_downq m)
         (txmsgs m) (branches m) (mst_primary m)
  else Mgr (aux m) (max_dpcd_transaction_bytes m) r (up_req_recv m) (tx_msg_downq m)
         (txmsgs m) (branches m) (mst_primary m).

Definition set_state (t : txmsg) (s : Z) : txmsg :=
  Tx (msg t) (cur_offset t) (cur_len t) (dst t) (tx_seqno t) s (tx_path_msg t) (reply t).
Definition set_offset (t : txmsg) (o : Z) : txmsg :=
  Tx (msg t) o (cur_len t) (dst t) (tx_seqno t) (state t) (tx_path_msg t) (reply t).
Definition set_reply (t : txmsg) (r : drm_dp_sideband_msg_reply_body) : txmsg :=
  Tx (msg t) (cur_offset t) (cur_len t) (dst t) (tx_seqno t) (state t) (tx_path_msg t) r.

(** ** Sending *)

(** The do-while loop of drm_dp_send_sideband_msg; [goto retry] restarts it. *)
Fixpoint send_loop (fuel : nat) (max : Z) (a : aux_t) (regbase : Z) (msg : list Z)
    (offset total retries : Z) : option (aux_t * Z) :=
  match fuel with
  | O => None
  | S fuel =>
    let tosend := Z.min (Z.min max 16) total in
    bs ← rd_range msg offset tosend;
    let '(a, ret) := drm_dp_dpcd_write_data transfer a (regbase + offset) bs in
    if (ret =? - EIO) && (retries <? 5) then
      send_loop fuel max a regbase msg 0 (blen msg) (retries + 1)
    else if ret <? 0 then Some (a, - EIO)
    else
      let offset := offset + tosend in
      let total := total - tosend in
      if 0 <? total then send_loop fuel max a regbase msg offset total retries
      else Some (a, 0)
  end.

(** [msg] are the len bytes to send. *)
Definition drm_dp_send_sideband_msg (fuel : nat) (max : Z) (a : aux_t) (up : bool)
    (msg : list Z) : option (aux_t * Z) :=
  let regbase := if up then DP_SIDEBAND_MSG_UP_REP_BASE else DP_SIDEBAND_MSG_DOWN_REQ_BASE in
  send_loop fuel max a regbase msg 0 (blen msg) 0.

Definition set_hdr_from_dst_qlock (hdr : drm_dp_sideband_msg_hdr) (t : txmsg)
    (mstb : drm_dp_mst_branch) : option drm_dp_sideband_msg_hdr :=
  b0 ← rd (msg t) 0;
  let req_type := Z.land b0 0x7f in
  let bc := (req_type =? DP_CONNECTION_STATUS_NOTIFY) ||
            (req_type =? DP_RESOURCE_STATUS_NOTIFY) ||
            (req_type =? DP_CLEAR_PAYLOAD_ID_TABLE) in
  let lct := if bc then 1 else br_lct mstb in
  let lcr := if bc then 6 else u8 (br_lct mstb - 1) in
  src ← rd_range (br_rad mstb) 0 (lct / 2);
  rad ← wr_range (rad hdr) 0 src;
  Some (Hdr lct lcr rad bc (tx_path_msg t) (msg_len hdr) (somt hdr) (eomt hdr) (seqno hdr)).

(** Bytes of drm_dp_send_sideband_msg's buffer at most; five retries. *)
Definition send_fuel : nat := 400.

(** The new AUX and message, and the return value; [chunk0] is the uninitialised
    u8 chunk[48]. *)
Definition process_single_tx_qlock (chunk0 : list Z) (max : Z) (a : aux_t) (t : txmsg)
    (mstb : drm_dp_mst_branch) (up : bool) : option (aux_t * txmsg * Z) :=
  if state t =? DRM_DP_SIDEBAND_TX_SENT then Some (a, t, 0) else
  let t := if state t =? DRM_DP_SIDEBAND_TX_QUEUED
           then set_state t DRM_DP_SIDEBAND_TX_START_SEND else t in
  hdr ← set_hdr_from_dst_qlock hdr_zero t mstb;
  let len := cur_len t - cur_offset t in
  let space := 48 - 1 - drm_dp_calc_sb_hdr_size hdr in
  let tosend := Z.min len space in
  let hdr := Hdr (lct hdr) (lcr hdr) (rad hdr) (broadcast hdr) (path_msg hdr) (u8 (tosend + 1))
               (len =? cur_len t) (len <=? space) (seqno hdr) in
  '(chunk, idx) ← drm_dp_encode_sideband_msg_hdr hdr chunk0;
  bs ← rd_range (msg t) (cur_offset t) tosend;
  chunk ← wr_range chunk idx bs;
  chunk ← drm_dp_crc_sideband_chunk_req chunk idx tosend;
  let idx := idx + (tosend + 1) in
  out ← rd_range chunk 0 idx;
  '(a, ret) ← drm_dp_send_sideband_msg send_fuel max a up out;
  if negb (ret =? 0) then Some (a, t, ret) else
  let t := set_offset t (u8 (cur_offset t + tosend)) in
  if cur_offset t =? cur_len t then Some (a, set_state t DRM_DP_SIDEBAND_TX_SENT, 1)
  else Some (a, t, 0).

(** ** The queue of down requests *)

Definition process_single_down_tx_qlock (chunk0 : list Z) (m : mgr_t) : option mgr_t :=
  match tx_msg_downq m with
  | [] => Some m
  | p :: q =>
    t ← txmsgs m !! p;
    b ← branches m !! dst t;
    '(a, t, ret) ← process_single_tx_qlock chunk0 (max_dpcd_transaction_bytes m) (aux m) t b false;
    let m := set_tx (set_aux m a) p t in
    if ret <? 0 then
      Some (set_tx (set_queue m q) p (set_state t DRM_DP_SIDEBAND_TX_TIMEOUT))
    else Some m
  end.

Definition drm_dp_queue_down_tx (chunk0 : list Z) (m : mgr_t) (p : Z) : option mgr_t :=
  let m := set_queue m (tx_msg_downq m ++ [p]) in
  match tx_msg_downq m with
  | [_] => process_single_down_tx_qlock chunk0 m
  | _ => Some m
  end.

(** drm_dp_tx_work, what drm_dp_mst_kick_tx schedules. *)
Definition drm_dp_tx_work (chunk0 : list Z) (m : mgr_t) : option mgr_t :=
  match tx_msg_downq m with
  | [] => Some m
  | _ => process_single_down_tx_qlock chunk0 m
  end.

(** drm_dp_mst_hpd_irq_send_new_request: whether the work is kicked. *)
Definition hpd_irq_kick (m : mgr_t) : option bool :=
  match tx_msg_downq m with
  | [] => Some false
  | p :: _ =>
    t ← txmsgs m !! p;
    Some (negb ((state t =? DRM_DP_SIDEBAND_TX_START_SEND) || (state t =? DRM_DP_SIDEBAND_TX_SENT)))
  end.

Definition check_txmsg_state (t : txmsg) : bool :=
  (state t =? DRM_DP_SIDEBAND_TX_RX) || (state t =? DRM_DP_SIDEBAND_TX_TIMEOUT).

(** list_del of a message that is on the queue. *)
Definition list_del (p : Z) (q : list Z) : list Z := filter (fun x => x <> p) q.

(** The end of drm_dp_mst_wait_tx_reply, after the wait: [woken] is ret > 0.
    The result is the negative error, or 0 for a positive ret. *)
Definition wait_tx_reply_done (m : mgr_t) (p : Z) (woken : bool) : option (mgr_t * Z) :=
  t ← txmsgs m !! p;
  if woken then
    Some (m, if state t =? DRM_DP_SIDEBAND_TX_TIMEOUT then - EIO else 0)
  else
    if (state t =? DRM_DP_SIDEBAND_TX_QUEUED) || (state t =? DRM_DP_SIDEBAND_TX_START_SEND) ||
       (state t =? DRM_DP_SIDEBAND_TX_SENT)
    then Some (set_queue m (list_del p (tx_msg_downq m)), - EIO)
    else Some (m, - EIO).

(** ** Branch devices *)

(** list_for_each_entry over the ports of one branch: the port with the number,
    or no port. *)
Definition find_port (n : Z) (ps : list drm_dp_mst_port) : option drm_dp_mst_port :=
  List.find (fun p => port_num p =? n) ps.

(** for (i = 1; i < lct; i++): [Some (Some b)] the branch reached, [Some None] a
    port without a branch.  A number no port has leaves mstb where it is. *)
Fixpoint branch_walk (bs : gmap Z drm_dp_mst_branch) (rad : list Z) (i : Z) (n : nat) (b : Z) :
    option (option Z) :=
  match n with
  | O => Some (Some b)
  | S n =>
    num ← drm_dp_mst_get_ufp_num_at_lct_from_rad (u8 (i + 1)) rad;
    br ← bs !! b;
    match find_port num (br_ports br) with
    | Some (Port _ None) => Some None
    | Some (Port _ (Some b)) => branch_walk bs rad (i + 1) n b
    | None => branch_walk bs rad (i + 1) n b
    end
  end.

(** kref_get_unless_zero. *)
Definition drm_dp_mst_topology_try_get_mstb (bs : gmap Z drm_dp_mst_branch) (b : Z) :
    option (gmap Z drm_dp_mst_branch * bool) :=
  br ← bs !! b;
  Some (if topology_kref br =? 0 then (bs, false)
        else (<[b := Branch (br_rad br) (br_lct br) (br_ports br) (topology_kref br + 1)]> bs, true)).

Definition drm_dp_get_mst_branch_device (m : mgr_t) (lct : Z) (rad : list Z) :
    option (mgr_t * option Z) :=
  match mst_primary m with
  | None => Some (m, None)
  | Some b =>
    r ← branch_walk (branches m) rad 1 (Z.to_nat (lct - 1)) b;
    match r with
    | None => Some (m, None)
    | Some b =>
      '(bs, ok) ← drm_dp_mst_topology_try_get_mstb (branches m) b;
      Some (set_branches m bs, if ok : bool then Some b else None)
    end
  end.

(** drm_dp_mst_topology_put_mstb, without the release at zero. *)
Definition drm_dp_mst_topology_put_mstb (m : mgr_t) (b : Z) : option mgr_t :=
  br ← branches m !! b;
  Some (set_branches m
    (<[b := Branch (br_rad br) (br_lct br) (br_ports br) (topology_kref br - 1)]> (branches m))).

(** ** Receiving *)

Definition drm_dp_sideband_msg_set_header (r : drm_dp_sideband_msg_rx)
    (hdr : drm_dp_sideband_msg_hdr) (hdrlen : Z) : bool * drm_dp_sideband_msg_rx :=
  if negb (somt hdr) && negb (have_somt r) then (false, r) else
  let r := Rx (chunk r) (rxmsg r) (msg_len hdr) 0 hdrlen (curlen r) (have_somt r)
             (have_eomt r) (initial_hdr r) in
  if somt hdr && have_somt r then (false, r) else
  (true,
   Rx (chunk r) (rxmsg r) (curchunk_len r) (curchunk_idx r) (curchunk_hdrlen r) (curlen r)
      (if somt hdr then true else have_somt r) (if eomt hdr then true else have_eomt r)
      (if somt hdr then hdr else initial_hdr r)).

(** [replybuf] are the replybuflen bytes copied.  A wrong CRC is only logged. *)
Definition drm_dp_sideband_append_payload (r : drm_dp_sideband_msg_rx) (replybuf : list Z) :
    option (bool * drm_dp_sideband_msg_rx) :=
  c ← wr_range (chunk r) (curchunk_idx r) replybuf;
  let idx := u8 (curchunk_idx r + blen replybuf) in
  if curchunk_len r <=? idx then
    crc4 ← drm_dp_msg_data_crc4 c (curchunk_len r - 1);
    last ← rd c (curchunk_len r - 1);
    bs ← rd_range c 0 (curchunk_len r - 1);
    m ← wr_range (rxmsg r) (curlen r) bs;
    Some (true, Rx c m (curchunk_len r) idx (curchunk_hdrlen r)
                  (u8 (curlen r + (curchunk_len r - 1))) (have_somt r) (have_eomt r)
                  (initial_hdr r))
  else
    Some (true, Rx c (rxmsg r) (curchunk_len r) idx (curchunk_hdrlen r) (curlen r)
                  (have_somt r) (have_eomt r) (initial_hdr r)).

(** while (replylen > 0): the rest of the chunk, a block at a time. *)
Fixpoint recv_rest (fuel : nat) (max : Z) (a : aux_t) (basereg : Z)
    (r : drm_dp_sideband_msg_rx) (replylen curreply : Z) (replyblock : list Z) :
    option (bool * aux_t * drm_dp_sideband_msg_rx) :=
  if replylen <=? 0 then Some (true, a, r) else
  match fuel with
  | O => None
  | S fuel =>
    let len := Z.min (Z.min replylen max) 16 in
    dest ← rd_range replyblock 0 len;
    let '(a, (ret, blk)) := drm_dp_dpcd_read_data transfer a (basereg + curreply) dest in
    replyblock ← wr_range replyblock 0 blk;
    if ret <? 0 then Some (false, a, r) else
    '(ok, r) ← drm_dp_sideband_append_payload r blk;
    if negb ok then Some (false, a, r) else
    recv_rest fuel max a basereg r (replylen - len) (curreply + len) replyblock
  end.

(** u8 replyblock[32] and struct drm_dp_sideband_msg_hdr hdr are uninitialised
    locals: [blk0] and [hdr0]. *)
Definition drm_dp_get_one_sb_msg (blk0 : list Z) (hdr0 : drm_dp_sideband_msg_hdr)
    (m : mgr_t) (up : bool) : option (bool * mgr_t * option Z) :=
  let basereg := if up then DP_SIDEBAND_MSG_UP_REQ_BASE else DP_SIDEBAND_MSG_DOWN_REP_BASE in
  let max := max_dpcd_transaction_bytes m in
  let len := Z.min max 16 in
  dest ← rd_range blk0 0 len;
  let '(a, (ret, blk)) := drm_dp_dpcd_read_data transfer (aux m) basereg dest in
  replyblock ← wr_range blk0 0 blk;
  let m := set_aux m a in
  if ret <? 0 then Some (false, m, None) else
  '(ok, hdr, hdrlen) ← drm_dp_decode_sideband_msg_hdr hdr0 replyblock len 0;
  if negb ok then Some (false, m, None) else
  '(m, mstb) ← (if up then Some (m, None) else drm_dp_get_mst_branch_device m (lct hdr) (rad hdr));
  if negb up && bool_decide (mstb = None) then Some (false, m, None) else
  let '(ok, r) := drm_dp_sideband_msg_set_header (recv m up) hdr hdrlen in
  let m := set_recv m up r in
  if negb ok then Some (false, m, mstb) else
  let replylen := Z.min (curchunk_len r) (u8 (len - hdrlen)) in
  bs ← rd_range replyblock hdrlen replylen;
  '(ok, r) ← drm_dp_sideband_append_payload r bs;
  let m := set_recv m up r in
  if negb ok then Some (false, m, mstb) else
  '(ok, a, r) ← recv_rest 64 max (aux m) basereg r (curchunk_len r + curchunk_hdrlen r - len)
                  len replyblock;
  Some (ok, set_recv (set_aux m a) up r, mstb).

Definition verify_rx_request_type (t : txmsg) (r : drm_dp_sideband_msg_rx) : option bool :=
  a ← rd (msg t) 0; b ← rd (rxmsg r) 0;
  Some (Z.land a 0x7f =? Z.land b 0x7f).

(** [out_clear_reply] and [out] of drm_dp_mst_handle_down_rep. *)
Definition down_rep_out (m : mgr_t) (mstb : option Z) : option mgr_t :=
  match mstb with None => Some m | Some b => drm_dp_mst_topology_put_mstb m b end.
Definition down_rep_clear (m : mgr_t) (mstb : option Z) : option mgr_t :=
  down_rep_out (set_recv m false reset_msg_rx_state) mstb.

Definition drm_dp_mst_handle_down_rep (blk0 : list Z) (hdr0 : drm_dp_sideband_msg_hdr)
    (m : mgr_t) : option mgr_t :=
  '(ok, m, mstb) ← drm_dp_get_one_sb_msg blk0 hdr0 m false;
  if negb ok then down_rep_clear m mstb else
  let r := down_rep_recv m in
  if negb (have_eomt r) then down_rep_out m mstb else
  match tx_msg_downq m with
  | [] => down_rep_clear m mstb
  | p :: q =>
    t ← txmsgs m !! p;
    if negb (bool_decide (Some (dst t) = mstb)) then down_rep_clear m mstb else
    same ← verify_rx_request_type t r;
    if negb same then down_rep_clear m mstb else
    '(_, rep) ← drm_dp_sideband_parse_reply r;
    let t := set_state (set_reply t rep) DRM_DP_SIDEBAND_TX_RX in
    down_rep_clear (set_queue (set_tx m p t) q) mstb
  end.

(** ** Sending a chunk *)

Context `{!DpcdDevice transfer}.
Abbreviation reg a := (dpcd (hw a)).

Lemma holds_at_app m off bs1 bs2 :
  holds_at m off bs1 -> holds_at m (off + blen bs1) bs2 -> holds_at m off (bs1 ++ bs2).
Proof.
  intros H1 H2 k x Hk. destruct (Nat.lt_ge_cases k (length bs1)).
  - apply H1. by rewrite lookup_app_l in Hk.
  - rewrite lookup_app_r in Hk by done. rewrite <- (H2 _ _ Hk). unfold blen. f_equal. lia.
Qed.

Lemma holds_at_ext m m' off bs :
  (forall a, off <= a < off + blen bs -> m' a = m a) -> holds_at m off bs -> holds_at m' off bs.
Proof.
  intros He Hh k x Hk. rewrite <- (Hh k x Hk). apply He.
  apply lookup_lt_Some in Hk. unfold blen. lia.
Qed.

Lemma take_drop_blen (l : list Z) off n :
  0 <= off -> 0 <= n -> off + n <= blen l ->
  blen (take (Z.to_nat n) (drop (Z.to_nat off) l)) = n /\
  take (Z.to_nat off) l ++ take (Z.to_nat n) (drop (Z.to_nat off) l) = take (Z.to_nat (off + n)) l.
Proof.
  intros. unfold blen in *. split; [rewrite length_take, length_drop; lia|].
  rewrite take_take_drop. f_equal. lia.
Qed.

Lemma send_loop_spec msg regbase max :
  1 <= max -> range_kept transfer DP_AUX_NATIVE_WRITE regbase (blen msg) ->
  forall fuel a offset total retries,
  0 <= offset -> 0 <= total -> offset + total = blen msg -> 0 <= retries <= 5 ->
  (5 - retries) * (blen msg + 1) + total + 1 <= Z.of_nat fuel ->
  holds_at (reg a) regbase (take (Z.to_nat offset) msg) ->
  sat (send_loop fuel max a regbase msg offset total retries) (fun '(a', r) =>
    (forall x, kept DP_AUX_NATIVE_WRITE x -> ~ regbase <= x < regbase + blen msg ->
               reg a' x = reg a x) /\
    (r = 0 /\ holds_at (reg a') regbase msg \/ r = - EIO)).
Proof.
  intros Hmax Hkept. induction fuel as [|fuel IH]; intros a offset total retries H0 H1 H2 Hr Hf Hh.
  { pose proof (blen_nonneg msg). nia. }
  cbn [send_loop]. set (tosend := Z.min (Z.min max 16) total).
  assert (Ht : 0 <= tosend <= total) by lia.
  destruct (take_drop_blen msg offset tosend) as [Hb Htk]; [lia..|].
  rewrite rd_range_Some by lia. cbn [mbind option_bind].
  set (bs := take (Z.to_nat tosend) (drop (Z.to_nat offset) msg)) in *.
  destruct (drm_dp_dpcd_write_data transfer a (regbase + offset) bs) as [a1 r1] eqn:Ew.
  assert (Hbs : range_kept transfer DP_AUX_NATIVE_WRITE (regbase + offset) (blen bs))
    by (intros x Hx; apply Hkept; lia).
  destruct (dpcd_write_spec transfer _ _ _ _ _ Hbs Ew) as (_&He&Hd). rewrite Hb in He.
  assert (Hout : forall x, kept DP_AUX_NATIVE_WRITE x -> ~ regbase <= x < regbase + blen msg ->
                           reg a1 x = reg a x) by (intros x Hk Hx; apply He; [done|lia]).
  destruct ((r1 =? - EIO) && (retries <? 5)) eqn:Eretry.
  { apply andb_true_iff in Eretry as [E1 E2]. pose proof (blen_nonneg msg).
    eapply sat_mono; [apply IH; [lia|done|lia|lia|nia|by intros k x ?]|].
    intros [a' r'] [Ho Hres]. split; [|done]. intros x Hk Hx. by rewrite Ho, Hout. }
  destruct (Z.ltb_spec r1 0).
  { cbn. split; [done|]. by right. }
  destruct Hd as [[-> Hw]|?]; [|lia].
  assert (Hpre : holds_at (reg a1) regbase (take (Z.to_nat (offset + tosend)) msg)).
  { rewrite <- Htk. apply holds_at_app.
    - eapply holds_at_ext; [|exact Hh]. intros x Hx.
      unfold blen in *. rewrite length_take in Hx. apply He; [apply Hkept|]; lia.
    - replace (blen (take (Z.to_nat offset) msg)) with offset; [done|].
      unfold blen in *. rewrite length_take. lia. }
  destruct (Z.ltb_spec 0 (total - tosend)).
  - eapply sat_mono; [apply IH; [lia..|done]|].
    intros [a' r'] [Ho Hres]. split; [|done]. intros x Hk Hx. by rewrite Ho, Hout.
  - cbn. split; [done|]. left. split; [done|].
    rewrite take_ge in Hpre by (unfold blen in *; lia). done.
Qed.

Lemma send_spec max a up msg :
  1 <= max -> blen msg <= 48 ->
  sat (drm_dp_send_sideband_msg send_fuel max a up msg) (fun '(a', r) =>
    let base := if up then DP_SIDEBAND_MSG_UP_REP_BASE else DP_SIDEBAND_MSG_DOWN_REQ_BASE in
    (forall x, kept DP_AUX_NATIVE_WRITE x -> ~ base <= x < base + blen msg ->
               reg a' x = reg a x) /\
    (r = 0 /\ holds_at (reg a') base msg \/ r = - EIO)).
Proof.
  intros Hm Hl. unfold drm_dp_send_sideband_msg. pose proof (blen_nonneg msg).
  eapply sat_mono; [apply send_loop_spec; try done; try lia|].
  - intros x Hx. apply mailbox_written. revert Hx. unfold DP_SIDEBAND_MSG_UP_REP_BASE,
      DP_SIDEBAND_MSG_DOWN_REQ_BASE. destruct up; lia.
  - unfold send_fuel. lia.
  - intros [a' r] Hs. exact Hs.
Qed.

(** ** One chunk of a message *)

Definition data_crc (payload : list Z) : Z :=
  rrun 8 469 0 (msg_bits payload ++ replicate 8 false).

(** A chunk on the wire. *)
Definition wire_chunk (hdr : drm_dp_sideband_msg_hdr) (payload : list Z) : list Z :=
  hdr_wire hdr ++ payload ++ [data_crc payload].

Definition branch_ok (b : drm_dp_mst_branch) : Prop :=
  1 <= br_lct b < 16 /\ length (br_rad b) = 8%nat /\ Forall is_byte (br_rad b).

(** A message with something left to send. *)
Definition tx_pending (t : txmsg) : Prop :=
  length (msg t) = 256%nat /\ Forall is_byte (msg t) /\
  0 <= cur_offset t < cur_len t /\ cur_len t < 256 /\
  (state t = DRM_DP_SIDEBAND_TX_QUEUED \/ state t = DRM_DP_SIDEBAND_TX_START_SEND).

Definition is_broadcast (t : txmsg) : bool :=
  let r := Z.land (default 0 (msg t !! 0%nat)) 0x7f in
  (r =? DP_CONNECTION_STATUS_NOTIFY) || (r =? DP_RESOURCE_STATUS_NOTIFY) ||
  (r =? DP_CLEAR_PAYLOAD_ID_TABLE).

(** Depth and address in the headers of a message. *)
Definition tx_lct (t : txmsg) (b : drm_dp_mst_branch) : Z :=
  if is_broadcast t then 1 else br_lct b.
Definition tx_lcr (t : txmsg) (b : drm_dp_mst_branch) : Z :=
  if is_broadcast t then 6 else br_lct b - 1.
Definition tx_rad (t : txmsg) (b : drm_dp_mst_branch) : list Z :=
  let n := Z.to_nat (tx_lct t b / 2) in take n (br_rad b) ++ replicate (8 - n) 0.

(** Room for the body of a chunk. *)
Definition tx_space (t : txmsg) (b : drm_dp_mst_branch) : Z := 47 - (3 + tx_lct t b / 2).
Definition tx_tosend (t : txmsg) (b : drm_dp_mst_branch) : Z :=
  Z.min (cur_len t - cur_offset t) (tx_space t b).
Definition tx_payload (t : txmsg) (b : drm_dp_mst_branch) : list Z :=
  take (Z.to_nat (tx_tosend t b)) (drop (Z.to_nat (cur_offset t)) (msg t)).
Definition tx_hdr (t : txmsg) (b : drm_dp_mst_branch) : drm_dp_sideband_msg_hdr :=
  Hdr (tx_lct t b) (tx_lcr t b) (tx_rad t b) (is_broadcast t) (tx_path_msg t)
    (tx_tosend t b + 1) (cur_offset t =? 0) (cur_len t - cur_offset t <=? tx_space t b) false.
Definition tx_chunk (t : txmsg) (b : drm_dp_mst_branch) : list Z :=
  wire_chunk (tx_hdr t b) (tx_payload t b).

Lemma tx_lct_range t b : branch_ok b -> 1 <= tx_lct t b < 16.
Proof. intros (?&_). unfold tx_lct. destruct (is_broadcast t); lia. Qed.

Lemma tx_space_range t b : branch_ok b -> 37 <= tx_space t b <= 44.
Proof. intros Hb. pose proof (tx_lct_range t b Hb). unfold tx_space. div_lia. Qed.

Lemma tx_tosend_range t b :
  branch_ok b -> tx_pending t -> 1 <= tx_tosend t b <= 44 /\ cur_offset t + tx_tosend t b <= cur_len t.
Proof.
  intros Hb (_&_&?&?&_). pose proof (tx_space_range t b Hb). unfold tx_tosend. lia.
Qed.

Lemma tx_payload_len t b :
  branch_ok b -> tx_pending t -> blen (tx_payload t b) = tx_tosend t b.
Proof.
  intros Hb Ht. pose proof (tx_tosend_range t b Hb Ht). destruct Ht as (?&_&?&?&_).
  apply take_drop_blen; unfold blen; lia.
Qed.

Lemma tx_hdr_ok t b : branch_ok b -> tx_pending t -> hdr_ok (tx_hdr t b).
Proof.
  intros Hb Ht. pose proof (tx_lct_range t b Hb). pose proof (tx_tosend_range t b Hb Ht).
  destruct Hb as (?&Hl&Hr). unfold hdr_ok, tx_hdr. cbn [lct lcr rad msg_len].
  split; [done|]. split; [unfold tx_lcr; destruct (is_broadcast t); lia|].
  split; [unfold tx_rad; rewrite length_app, length_take, length_replicate; div_lia|].
  split; [|lia]. apply Forall_app. split; [by apply Forall_take|].
  apply Forall_replicate. unfold is_byte. lia.
Qed.

Lemma set_hdr_eq t b :
  branch_ok b -> tx_pending t ->
  set_hdr_from_dst_qlock hdr_zero t b =
  Some (Hdr (tx_lct t b) (tx_lcr t b) (tx_rad t b) (is_broadcast t) (tx_path_msg t) 0
          false false false).
Proof.
  intros Hb (Hl&_&_). pose proof (tx_lct_range t b Hb) as Hr. destruct Hb as (H1&H2&_).
  unfold set_hdr_from_dst_qlock.
  destruct (lookup_lt_is_Some_2 (msg t) 0) as [x Hx]; [lia|].
  rewrite rd_lookup by lia. change (Z.to_nat 0) with 0%nat. rewrite Hx.
  cbn [mbind option_bind].
  assert (Eb : (Z.land x 127 =? DP_CONNECTION_STATUS_NOTIFY)
    || (Z.land x 127 =? DP_RESOURCE_STATUS_NOTIFY)
    || (Z.land x 127 =? DP_CLEAR_PAYLOAD_ID_TABLE) = is_broadcast t)
    by (unfold is_broadcast; by rewrite Hx).
  rewrite Eb. fold (tx_lct t b).
  rewrite rd_range_Some by (unfold blen; div_lia). cbn [mbind option_bind]. rewrite drop_0.
  set (n := Z.to_nat (tx_lct t b / 2)).
  assert (Hn : (n <= 7)%nat) by (unfold n; div_lia).
  assert (Htk : length (take n (br_rad b)) = n) by (rewrite length_take; lia).
  rewrite wr_range_Some; [|lia|].
  - cbn [mbind option_bind]. rewrite take_0. cbn [app]. rewrite Htk.
    cbn [rad hdr_zero msg_len somt eomt seqno]. change (Z.to_nat 0 + n)%nat with n.
    rewrite drop_replicate. f_equal. f_equal.
    unfold tx_lcr. destruct (is_broadcast t); [done|]. apply wrapU_small. unfold is_u. lia.
  - unfold blen. rewrite Htk. cbn. lia.
Qed.

Lemma data_crc_of payload rest :
  blen payload <= 255 ->
  drm_dp_msg_data_crc4 (payload ++ rest) (blen payload) = Some (data_crc payload).
Proof.
  intros Hl. pose proof (blen_nonneg payload). pose proof (blen_nonneg rest).
  rewrite data_crc4_rrun by (rewrite ?blen_app; lia). unfold data_crc. f_equal. f_equal. f_equal.
  unfold msg_bits at 1. rewrite bind_app. fold (msg_bits payload).
  replace (Z.to_nat (blen payload * 8)) with (length (msg_bits payload))
    by (rewrite length_msg_bits; unfold blen; lia).
  apply take_app_length.
Qed.

Lemma data_crc_range payload : 0 <= data_crc payload < 256.
Proof. apply (rrun_range 8 469); cbn; lia. Qed.

(** The chunk the code assembles in its 48 bytes. *)
Lemma assemble_chunk t b chunk0 :
  branch_ok b -> tx_pending t -> length chunk0 = 48%nat ->
  exists c,
    ('(chunk, idx) ← drm_dp_encode_sideband_msg_hdr (tx_hdr t b) chunk0;
     bs ← rd_range (msg t) (cur_offset t) (tx_tosend t b);
     chunk ← wr_range chunk idx bs;
     chunk ← drm_dp_crc_sideband_chunk_req chunk idx (tx_tosend t b);
     rd_range chunk 0 (idx + (tx_tosend t b + 1))) = Some c /\
    c = tx_chunk t b /\ blen c <= 48.
Proof.
  intros Hb Ht Hc. pose proof (tx_hdr_ok t b Hb Ht) as Hh.
  pose proof (hdr_wire_len _ Hh) as Hw. pose proof (tx_tosend_range t b Hb Ht) as Hs.
  pose proof (tx_payload_len t b Hb Ht) as Hp. pose proof (tx_space_range t b Hb) as Hsp.
  assert (Hsz : hdr_size (tx_hdr t b) = 47 - tx_space t b)
    by (unfold hdr_size, tx_space; cbn [tx_hdr lct]; lia).
  assert (Hroom : hdr_size (tx_hdr t b) + tx_tosend t b + 1 <= 48) by (unfold tx_tosend; lia).
  rewrite encode_hdr_wire by (done || unfold blen; lia). cbn [mbind option_bind].
  destruct Ht as (Hm&_&Ho&Hcl&_).
  rewrite rd_range_Some by (unfold blen; lia). cbn [mbind option_bind].
  fold (tx_payload t b). set (P := tx_payload t b) in *. set (W := hdr_wire (tx_hdr t b)) in *.
  set (D := drop (length W) chunk0).
  assert (HD : blen D = 48 - blen W) by (unfold D, blen; rewrite length_drop; unfold blen in *; lia).
  rewrite <- (take_drop (length P) D). rewrite <- Hw.
  rewrite wr_range_app by (rewrite length_take; unfold blen in *; lia).
  cbn [mbind option_bind]. set (E := drop (length P) D).
  assert (HE : 1 <= blen E) by (unfold E, blen in *; rewrite length_drop; unfold blen in *; lia).
  unfold drm_dp_crc_sideband_chunk_req.
  rewrite drop_app_length' by (unfold blen; lia).
  rewrite <- Hp. rewrite data_crc_of by lia. cbn [mbind option_bind].
  rewrite (wrapU_small 8) by (unfold is_u; lia).
  destruct E as [|e E']; [unfold blen in HE; cbn in HE; lia|].
  change (e :: E') with ([e] ++ E'). rewrite (app_assoc W P).
  rewrite <- blen_app. unfold wr. rewrite wr_range_app by done. cbn [mbind option_bind].
  rewrite (wrapU_small 8) by apply data_crc_range.
  rewrite <- app_assoc. unfold tx_chunk, wire_chunk. fold P. fold W.
  assert (Hl : blen W + (blen P + 1) = blen (W ++ P ++ [data_crc P]))
    by (rewrite !blen_app, blen_cons, blen_nil; lia).
  rewrite Hl. eexists. split; [|split; [reflexivity|rewrite <- Hl; lia]].
  pose proof (rd_range_app [] (W ++ P ++ [data_crc P]) E') as R.
  cbn [app] in R. rewrite <- !app_assoc in R. exact R.
Qed.

(** The message after its chunk has gone out. *)
Definition tx_advanced (t : txmsg) (b : drm_dp_mst_branch) : txmsg :=
  let o := cur_offset t + tx_tosend t b in
  Tx (msg t) o (cur_len t) (dst t) (tx_seqno t)
    (if o =? cur_len t then DRM_DP_SIDEBAND_TX_SENT else DRM_DP_SIDEBAND_TX_START_SEND)
    (tx_path_msg t) (reply t).

Lemma set_state_START t :
  state t = DRM_DP_SIDEBAND_TX_QUEUED \/ state t = DRM_DP_SIDEBAND_TX_START_SEND ->
  (if state t =? DRM_DP_SIDEBAND_TX_QUEUED then set_state t DRM_DP_SIDEBAND_TX_START_SEND
   else t) = set_state t DRM_DP_SIDEBAND_TX_START_SEND.
Proof. intros [E|E]; rewrite E; cbn; [done|]. unfold set_state. rewrite <- E. by destruct t. Qed.

Lemma process_single_aux chunk0 max a t b up :
  branch_ok b -> tx_pending t -> length chunk0 = 48%nat -> 1 <= max ->
  sat (process_single_tx_qlock chunk0 max a t b up) (fun '(a', t', r) =>
    let base := if up then DP_SIDEBAND_MSG_UP_REP_BASE else DP_SIDEBAND_MSG_DOWN_REQ_BASE in
    (forall x, kept DP_AUX_NATIVE_WRITE x -> ~ base <= x < base + 48 -> reg a' x = reg a x) /\
    ((t' = tx_advanced t b /\ holds_at (reg a') base (tx_chunk t b) /\
      r = if cur_offset t + tx_tosend t b =? cur_len t then 1 else 0) \/
     (t' = set_state t DRM_DP_SIDEBAND_TX_START_SEND /\ r = - EIO))).
Proof.
  intros Hb Ht Hc Hmax. pose proof (tx_tosend_range t b Hb Ht) as Hs.
  pose proof (tx_space_range t b Hb) as Hsp.
  pose proof Ht as (Hm&Hby&Ho&Hcl&Hst). unfold process_single_tx_qlock.
  pose proof (fun m => send_spec max a up m Hmax) as Hsend. revert Hsend.
  generalize (drm_dp_send_sideband_msg send_fuel max a up) as send. intros send Hsend.
  destruct (Z.eqb_spec (state t) DRM_DP_SIDEBAND_TX_SENT) as [E|_];
    [rewrite E in Hst; by destruct Hst|].
  rewrite set_state_START by done. set (t1 := set_state t DRM_DP_SIDEBAND_TX_START_SEND).
  assert (Ht1 : tx_pending t1) by exact (conj Hm (conj Hby (conj Ho (conj Hcl (or_intror eq_refl))))).
  rewrite (set_hdr_eq t1 b Hb Ht1). cbn [mbind option_bind lct lcr rad broadcast path_msg seqno].
  change (tx_lct t1 b) with (tx_lct t b). change (tx_lcr t1 b) with (tx_lcr t b).
  change (tx_rad t1 b) with (tx_rad t b). change (is_broadcast t1) with (is_broadcast t).
  change (msg t1) with (msg t). change (cur_len t1) with (cur_len t).
  change (cur_offset t1) with (cur_offset t). change (tx_path_msg t1) with (tx_path_msg t).
  assert (Ehs : drm_dp_calc_sb_hdr_size (Hdr (tx_lct t b) (tx_lcr t b) (tx_rad t b)
      (is_broadcast t) (tx_path_msg t) 0 false false false) = 47 - tx_space t b).
  { unfold drm_dp_calc_sb_hdr_size, tx_space. cbn [lct].
    pose proof (tx_lct_range t b Hb).
    transitivity (3 + tx_lct t b / 2); [apply wrapU_small; unfold is_u; div_lia|lia]. }
  rewrite Ehs. replace (48 - 1 - (47 - tx_space t b)) with (tx_space t b) by lia.
  fold (tx_tosend t b). rewrite (wrapU_small 8 (tx_tosend t b + 1)) by (unfold is_u; lia).
  replace (cur_len t - cur_offset t =? cur_len t) with (cur_offset t =? 0)
    by (bdestr; (done || lia)).
  fold (tx_hdr t b).
  destruct (assemble_chunk t b chunk0 Hb Ht Hc) as (c&Ec&->&Hlc). revert Ec.
  destruct (drm_dp_encode_sideband_msg_hdr _ _) as [[ck idx]|]; [|done]. cbn [mbind option_bind].
  destruct (rd_range _ _ _) as [bs|]; [|done]. cbn [mbind option_bind].
  destruct (wr_range ck idx bs) as [ck2|]; [|done]. cbn [mbind option_bind].
  destruct (drm_dp_crc_sideband_chunk_req _ _ _) as [ck3|]; [|done]. cbn [mbind option_bind].
  intros ->. cbn [mbind option_bind].
  eapply sat_bind; [by apply Hsend|]. intros [a' r]. cbv zeta.
  set (base := if up then _ else _). intros [Hout Hres].
  assert (Hout' : forall x, kept DP_AUX_NATIVE_WRITE x -> ~ base <= x < base + 48 ->
                            reg a' x = reg a x) by (intros x Hk Hx; apply Hout; [done|lia]).
  destruct Hres as [[-> Hh]| ->].
  - cbn [Z.eqb negb set_offset cur_offset cur_len].
    rewrite (wrapU_small 8) by (unfold is_u; lia). change (cur_offset t1) with (cur_offset t).
    change (cur_len t1) with (cur_len t). unfold tx_advanced.
    destruct (cur_offset t + tx_tosend t b =? cur_len t);
      (apply sat_Some; split; [done|left; by split_and!]).
  - cbn. split; [done|]. right. done.
Qed.

(** ** Receiving a chunk *)

(** The receiver after a whole chunk. *)
Definition rx_advanced (r : drm_dp_sideband_msg_rx) (hdr : drm_dp_sideband_msg_hdr)
    (payload : list Z) (c : list Z) : drm_dp_sideband_msg_rx :=
  Rx c (take (Z.to_nat (curlen r)) (rxmsg r) ++ payload ++
        drop (Z.to_nat (curlen r) + length payload) (rxmsg r))
    (blen payload + 1) (blen payload + 1) (hdr_size hdr) (curlen r + blen payload)
    (if somt hdr then true else have_somt r) (if eomt hdr then true else have_eomt r)
    (if somt hdr then hdr else initial_hdr r).

(** While the chunk comes in: [k] of its payload and check bytes [p]. *)
Definition rx_partial (r : drm_dp_sideband_msg_rx) (hdr : drm_dp_sideband_msg_hdr)
    (p : list Z) (k : Z) : drm_dp_sideband_msg_rx :=
  Rx (take (Z.to_nat k) p ++ drop (Z.to_nat k) (chunk r)) (rxmsg r) (blen p) k (hdr_size hdr)
    (curlen r) (if somt hdr then true else have_somt r) (if eomt hdr then true else have_eomt r)
    (if somt hdr then hdr else initial_hdr r).

Lemma wr_splice_range (p c : list Z) k n :
  0 <= k -> 0 <= n -> k + n <= blen p -> blen p <= blen c ->
  wr_range (take (Z.to_nat k) p ++ drop (Z.to_nat k) c) k
    (take (Z.to_nat n) (drop (Z.to_nat k) p)) =
  Some (take (Z.to_nat (k + n)) p ++ drop (Z.to_nat (k + n)) c).
Proof.
  intros Hk Hn Hl Hc. destruct (take_drop_blen p k n Hk Hn Hl) as [Hb Ht].
  set (bs := take (Z.to_nat n) (drop (Z.to_nat k) p)) in *.
  assert (E : blen (take (Z.to_nat k) p) = k) by (unfold blen in *; rewrite length_take; lia).
  assert (Hlen : length (take (Z.to_nat n) (drop (Z.to_nat k) c)) = length bs)
    by (unfold bs, blen in *; rewrite !length_take, !length_drop; lia).
  pose proof (wr_range_app (take (Z.to_nat k) p) _ (drop (Z.to_nat n) (drop (Z.to_nat k) c))
    bs Hlen) as W.
  rewrite E, take_drop in W. rewrite W, app_assoc, Ht, drop_drop. do 3 f_equal. lia.
Qed.

Definition rx_ok (r : drm_dp_sideband_msg_rx) (payload : list Z) : Prop :=
  length (chunk r) = 48%nat /\ length (rxmsg r) = 256%nat /\ 0 <= curlen r /\
  curlen r + blen payload < 256 /\ blen payload < 48.

Lemma append_partial r hdr payload k n :
  let p := payload ++ [data_crc payload] in
  rx_ok r payload -> 0 <= k -> 0 <= n -> k + n <= blen p ->
  sat (drm_dp_sideband_append_payload (rx_partial r hdr p k)
         (take (Z.to_nat n) (drop (Z.to_nat k) p))) (fun '(ok, r') =>
    ok = true /\
    if k + n <? blen p then r' = rx_partial r hdr p (k + n)
    else exists c, r' = rx_advanced r hdr payload c /\ length c = 48%nat).
Proof.
  intros p (Hc&Hm&H0&H1&H2) Hk Hn Hl.
  assert (Hp : blen p = blen payload + 1) by (unfold p; rewrite blen_app, blen_cons, blen_nil; lia).
  destruct (take_drop_blen p k n Hk Hn Hl) as [Hb _].
  pose proof (blen_nonneg payload).
  unfold drm_dp_sideband_append_payload, rx_partial.
  cbn [chunk curchunk_idx curchunk_len rxmsg curlen curchunk_hdrlen have_somt have_eomt initial_hdr].
  rewrite wr_splice_range by (unfold blen in *; lia). cbn [mbind option_bind].
  rewrite Hb, (wrapU_small 8) by (unfold is_u; lia).
  destruct (Z.ltb_spec (k + n) (blen p)).
  - destruct (Z.leb_spec (blen p) (k + n)); [lia|]. cbn. done.
  - destruct (Z.leb_spec (blen p) (k + n)); [|lia].
    replace (k + n) with (blen p) by lia.
    rewrite take_ge by (unfold blen; lia). rewrite Hp.
    replace (blen payload + 1 - 1) with (blen payload) by lia.
    set (rest := drop (Z.to_nat (blen payload + 1)) (chunk r)).
    unfold p. rewrite <- app_assoc.
    rewrite data_crc_of by lia. cbn [mbind option_bind app]. rewrite rd_app_at.
    cbn [mbind option_bind].
    pose proof (rd_range_app [] payload ([data_crc payload] ++ rest)) as R. cbn [app] in R.
    change (blen []) with 0 in R. rewrite R. cbn [mbind option_bind].
    rewrite wr_range_Some by (unfold blen in *; lia). cbn [mbind option_bind].
    rewrite (wrapU_small 8) by (unfold is_u; lia). apply sat_Some. split; [done|].
    eexists. split; [reflexivity|]. rewrite length_app. cbn [length]. unfold rest.
    rewrite length_drop. unfold blen in *. lia.
Qed.

Lemma holds_at_take m off bs1 bs2 n :
  holds_at m off bs1 -> holds_at m off bs2 -> 0 <= n <= blen bs1 -> n <= blen bs2 ->
  take (Z.to_nat n) bs1 = take (Z.to_nat n) bs2.
Proof.
  intros H1 H2 Hn1 Hn2. apply list_eq. intros k. unfold blen in *.
  destruct (Nat.lt_ge_cases k (Z.to_nat n)).
  - rewrite !lookup_take_lt by done.
    destruct (lookup_lt_is_Some_2 bs1 k) as [x Hx]; [lia|].
    destruct (lookup_lt_is_Some_2 bs2 k) as [y Hy]; [lia|].
    rewrite Hx, Hy. f_equal. rewrite <- (H1 _ _ Hx). by apply H2.
  - rewrite !lookup_ge_None_2; [done|rewrite length_take; lia..].
Qed.

Lemma holds_at_drop m off bs n :
  0 <= n <= blen bs -> holds_at m off bs -> holds_at m (off + n) (drop (Z.to_nat n) bs).
Proof.
  intros Hn Hh k x Hk. rewrite lookup_drop in Hk. rewrite <- (Hh _ _ Hk).
  f_equal. lia.
Qed.

Lemma take_full (l : list Z) : take (Z.to_nat (blen l)) l = l.
Proof. apply take_ge. unfold blen. lia. Qed.

Section recv.
Context (max basereg : Z) (Hmax : 1 <= max).
Context (r : drm_dp_sideband_msg_rx) (hdr : drm_dp_sideband_msg_hdr) (payload : list Z).
Let p := payload ++ [data_crc payload].

Lemma recv_rest_done fuel a r0 replylen curreply blk :
  replylen <= 0 -> recv_rest fuel max a basereg r0 replylen curreply blk = Some (true, a, r0).
Proof. intros. destruct fuel; cbn [recv_rest]; by destruct (Z.leb_spec replylen 0); [|lia]. Qed.

Lemma recv_rest_spec fuel : forall a k blk,
  rx_ok r payload -> 0 <= k < blen p -> blen p - k <= Z.of_nat fuel -> length blk = 32%nat ->
  range_kept transfer DP_AUX_NATIVE_READ (basereg + hdr_size hdr) (blen p) ->
  holds_at (reg a) (basereg + hdr_size hdr) p ->
  sat (recv_rest fuel max a basereg (rx_partial r hdr p k) (blen p - k) (hdr_size hdr + k) blk)
    (fun '(ok, a', r') => ok = true ->
      exists c, r' = rx_advanced r hdr payload c /\ length c = 48%nat).
Proof.
  induction fuel as [|fuel IH]; intros a k blk Hr Hk Hf Hblk Hkept Hh; [lia|].
  cbn [recv_rest]. destruct (Z.leb_spec (blen p - k) 0); [lia|].
  set (len := Z.min (Z.min (blen p - k) max) 16).
  rewrite rd_range_Some by (unfold blen; lia). cbn [mbind option_bind]. rewrite drop_0.
  set (dest := take (Z.to_nat len) blk).
  assert (Hd : blen dest = len) by (unfold dest, blen; rewrite length_take; lia).
  destruct (drm_dp_dpcd_read_data transfer a (basereg + (hdr_size hdr + k)) dest)
    as [a1 [ret b1]] eqn:Er.
  assert (Hkd : range_kept transfer DP_AUX_NATIVE_READ (basereg + (hdr_size hdr + k)) (blen dest))
    by (intros x Hx; apply Hkept; lia).
  destruct (dpcd_read_spec transfer _ _ _ _ _ _ Hkd Er) as (_&Hl&Hreg&Hd1).
  assert (Hb1 : blen b1 = len) by (unfold blen in *; lia).
  rewrite wr_range_Some by (unfold blen in *; lia). cbn [mbind option_bind].
  destruct (Z.ltb_spec ret 0); [by cbn|].
  destruct Hd1 as [[-> Hh1]|?]; [|lia].
  assert (Eb : b1 = take (Z.to_nat len) (drop (Z.to_nat k) p)).
  { rewrite <- (take_full b1), Hb1.
    apply (holds_at_take (reg a) (basereg + (hdr_size hdr + k))); [done| |lia|].
    - replace (basereg + (hdr_size hdr + k)) with (basereg + hdr_size hdr + k) by lia.
      apply holds_at_drop; [lia|done].
    - unfold blen in *. rewrite length_drop. lia. }
  rewrite Eb. eapply sat_bind; [apply append_partial; [done|lia..|fold p; lia]|].
  intros [ok r'] [-> Hr']. cbn [negb]. fold p in Hr'.
  destruct (Z.ltb_spec (k + len) (blen p)).
  - rewrite Hr'. replace (blen p - k - len) with (blen p - (k + len)) by lia.
    replace (hdr_size hdr + k + len) with (hdr_size hdr + (k + len)) by lia.
    apply IH; [done|lia|lia| |done|].
    + rewrite !length_app, length_drop, length_take. unfold blen in *.
      rewrite <- Eb. lia.
    + eapply holds_at_ext; [|exact Hh]. intros x Hx. by apply Hreg, Hkept.
  - rewrite recv_rest_done by lia. apply sat_Some. done.
Qed.
End recv.

(** A header as decoded over an uninitialised one. *)
Definition over_hdr (hdr hdr0 : drm_dp_sideband_msg_hdr) : drm_dp_sideband_msg_hdr :=
  Hdr (lct hdr) (lcr hdr)
    (take (Z.to_nat (lct hdr / 2)) (rad hdr) ++ drop (Z.to_nat (lct hdr / 2)) (rad hdr0))
    (broadcast hdr) (path_msg hdr) (msg_len hdr) (somt hdr) (eomt hdr) (seqno hdr).

Lemma over_hdr_ok hdr hdr0 :
  hdr_ok hdr -> length (rad hdr0) = 8%nat -> Forall is_byte (rad hdr0) ->
  hdr_ok (over_hdr hdr hdr0) /\ hdr_wire (over_hdr hdr hdr0) = hdr_wire hdr /\
  drop (Z.to_nat (lct hdr / 2)) (rad (over_hdr hdr hdr0)) =
  drop (Z.to_nat (lct hdr / 2)) (rad hdr0).
Proof.
  intros (H1&H2&H3&H4&H5) Hl Hb. set (n := Z.to_nat (lct hdr / 2)).
  assert (Hn : length (take n (rad hdr)) = n) by (rewrite length_take; unfold n; div_lia).
  split; [|split].
  - unfold hdr_ok, over_hdr. cbn. fold n. split_and!; try done; try lia.
    + rewrite length_app, Hn, length_drop. unfold n. div_lia.
    + apply Forall_app. split; [by apply Forall_take|by apply Forall_drop].
  - assert (Ef : hdr_front (over_hdr hdr hdr0) = hdr_front hdr).
    { unfold hdr_front, over_hdr. cbn. fold n. do 2 f_equal.
      rewrite take_app_le by lia. by rewrite take_take, Nat.min_id. }
    unfold hdr_wire, hdr_crc. rewrite Ef. done.
  - unfold over_hdr. cbn. fold n. by rewrite drop_app_length' by lia.
Qed.

Lemma set_header_partial r hdr payload :
  msg_len hdr = blen payload + 1 -> somt hdr = negb (have_somt r) ->
  drm_dp_sideband_msg_set_header r hdr (hdr_size hdr) =
  (true, rx_partial r hdr (payload ++ [data_crc payload]) 0).
Proof.
  intros Hm Hs. unfold drm_dp_sideband_msg_set_header, rx_partial.
  assert (Hp : blen (payload ++ [data_crc payload]) = msg_len hdr)
    by (rewrite blen_app, blen_cons, blen_nil; lia).
  rewrite Hs, Hp. cbn. by destruct (have_somt r).
Qed.

(** What the lookup of the sending branch may do to the manager. *)
Definition lookup_ok (m : mgr_t) (up : bool) (hdr : drm_dp_sideband_msg_hdr) : Prop :=
  up = true \/
  forall a, sat (drm_dp_get_mst_branch_device (set_aux m a) (lct hdr) (rad hdr)) (fun '(m', _) =>
    aux m' = a /\ recv m' false = recv m false /\
    max_dpcd_transaction_bytes m' = max_dpcd_transaction_bytes m).

(** The first block of a chunk in the 32-byte block buffer. *)
Lemma first_block m a off hdr p blk0 blk L :
  hdr_ok hdr -> m = dpcd (hw a) -> blen blk = L -> length blk0 = 32%nat ->
  hdr_size hdr <= L <= 16 -> 1 <= blen p ->
  holds_at m off (hdr_wire hdr ++ p) -> holds_at m off blk ->
  let replyblock := take (Z.to_nat 0) blk0 ++ blk ++ drop (Z.to_nat 0 + length blk) blk0 in
  (exists rest, replyblock = hdr_wire hdr ++ rest) /\
  rd_range replyblock (hdr_size hdr) (Z.min (blen p) (L - hdr_size hdr)) =
    Some (take (Z.to_nat (Z.min (blen p) (L - hdr_size hdr))) p).
Proof.
  intros Hok _ Hb Hblk HL Hp Hw Hh. cbv zeta. rewrite take_0. cbn [app].
  pose proof (hdr_wire_len _ Hok) as Hlw. pose proof (blen_nonneg (hdr_wire hdr)) as Hnn.
  set (n := Z.min (blen p) (L - hdr_size hdr)).
  assert (E : take (Z.to_nat (hdr_size hdr + n)) blk =
              hdr_wire hdr ++ take (Z.to_nat n) p).
  { rewrite (holds_at_take m off blk (hdr_wire hdr ++ p)); try done; [|lia|rewrite blen_app; lia].
    rewrite take_app_ge by (unfold blen in *; lia). f_equal. f_equal. unfold blen in *. lia. }
  rewrite <- (take_drop (Z.to_nat (hdr_size hdr + n)) blk), E.
  set (tl := drop (Z.to_nat (hdr_size hdr + n)) blk).
  rewrite <- !app_assoc. split; [by eexists|].
  assert (Hn : blen (take (Z.to_nat n) p) = n)
    by (unfold blen in *; rewrite length_take; lia).
  pose proof (fun c => rd_range_app (hdr_wire hdr) (take (Z.to_nat n) p) c) as R.
  rewrite Hlw, Hn in R. apply R.
Qed.

Lemma get_one_spec blk0 hdr0 m (up : bool) hdr payload :
  let base := if up then DP_SIDEBAND_MSG_UP_REQ_BASE else DP_SIDEBAND_MSG_DOWN_REP_BASE in
  hdr_ok hdr -> msg_len hdr = blen payload + 1 -> rx_ok (recv m up) payload ->
  length blk0 = 32%nat -> length (rad hdr0) = 8%nat -> Forall is_byte (rad hdr0) ->
  10 <= max_dpcd_transaction_bytes m -> somt hdr = negb (have_somt (recv m up)) ->
  lookup_ok m up (over_hdr hdr hdr0) ->
  holds_at (reg (aux m)) base (wire_chunk hdr payload) ->
  sat (drm_dp_get_one_sb_msg blk0 hdr0 m up) (fun '(ok, m', _) => ok = true ->
    max_dpcd_transaction_bytes m' = max_dpcd_transaction_bytes m /\
    exists c, recv m' up = rx_advanced (recv m up) (over_hdr hdr hdr0) payload c /\
      length c = 48%nat).
Proof.
  intros base Hok Hml Hr Hblk Hl0 Hb0 Hmax Hs Hlook Hh.
  destruct (over_hdr_ok hdr hdr0 Hok Hl0 Hb0) as (Hok'&Hw'&Hd').
  set (hdr' := over_hdr hdr hdr0) in *. unfold drm_dp_get_one_sb_msg. fold base.
  set (L := Z.min (max_dpcd_transaction_bytes m) 16).
  assert (HL : 10 <= L <= 16) by lia.
  assert (Hsz : 3 <= hdr_size hdr' <= 10) by (destruct Hok' as (?&_); unfold hdr_size; div_lia).
  rewrite rd_range_Some by (unfold blen; lia). cbn [mbind option_bind]. rewrite drop_0.
  set (dest := take (Z.to_nat L) blk0).
  destruct (drm_dp_dpcd_read_data transfer (aux m) base dest) as [a1 [ret blk]] eqn:Er.
  assert (Hbase : forall n, n <= 512 -> range_kept transfer DP_AUX_NATIVE_READ base n).
  { intros n Hn x Hx. apply mailbox_read. revert Hx. unfold base, DP_SIDEBAND_MSG_UP_REQ_BASE,
      DP_SIDEBAND_MSG_DOWN_REP_BASE. destruct up; lia. }
  assert (Hkd : range_kept transfer DP_AUX_NATIVE_READ base (blen dest))
    by (apply Hbase; unfold blen, dest; rewrite length_take; lia).
  destruct (dpcd_read_spec transfer _ _ _ _ _ _ Hkd Er) as (_&Hl&Hreg&Hd1).
  assert (Hb1 : blen blk = L)
    by (unfold blen, dest in *; rewrite Hl, length_take; lia).
  rewrite wr_range_Some by (unfold blen in *; lia). cbn [mbind option_bind].
  destruct (Z.ltb_spec ret 0); [by cbn|]. destruct Hd1 as [[-> Hh1]|?]; [|lia].
  unfold wire_chunk in Hh. rewrite <- Hw' in Hh.
  set (p := payload ++ [data_crc payload]) in *.
  assert (Hp : blen p = blen payload + 1)
    by (unfold p; rewrite blen_app, blen_cons, blen_nil; lia).
  pose proof (blen_nonneg payload).
  destruct (first_block _ (aux m) base hdr' p blk0 blk L Hok' eq_refl Hb1 Hblk
    ltac:(lia) ltac:(lia) Hh Hh1) as [[rest Erest] Erd].
  cbv zeta in Erd. rewrite Erest in *.
  rewrite (decode_hdr_wire hdr' hdr0 rest L 0) by (done || lia). cbn [mbind option_bind negb].
  eapply (sat_bind _ _ (fun '(m', _) => aux m' = a1 /\ recv m' up = recv m up /\
    max_dpcd_transaction_bytes m' = max_dpcd_transaction_bytes m)).
  { destruct up; [by cbn|]. destruct Hlook as [?|Hlook]; [done|]. apply (Hlook a1). }
  intros [m' mb] (Ha&Hrm&Hmx). destruct (negb up && _); [by cbn|].
  rewrite Hrm, (set_header_partial _ hdr' payload) by done. fold p. cbn [negb].
  assert (Hset : forall x, recv (set_recv m' up x) up = x) by (intros; by destruct up).
  assert (Haux : forall x, aux (set_recv m' up x) = a1) by (intros; by destruct up).
  cbn [curchunk_len rx_partial].
  replace (u8 (L - hdr_size hdr')) with (L - hdr_size hdr')
    by (symmetry; apply wrapU_small; unfold is_u; lia).
  rewrite Erd. cbn [mbind option_bind]. set (n := Z.min (blen p) (L - hdr_size hdr')).
  pose proof (append_partial (recv m up) hdr' payload 0 n Hr ltac:(lia) ltac:(lia)
    ltac:(fold p; lia)) as Happ.
  fold p in Happ. rewrite drop_0 in Happ.
  eapply sat_bind; [exact Happ|]. intros [ok r'] [-> Hr']. cbn [negb].
  rewrite Z.add_0_l in Hr'.
  assert (Haux2 : forall x y, aux (set_recv (set_recv m' up x) up y) = a1)
    by (intros; by destruct up).
  rewrite Haux2.
  eapply (sat_bind _ _ (fun '(ok, _, r'') => ok = true ->
    exists c, r'' = rx_advanced (recv m up) hdr' payload c /\ length c = 48%nat)).
  - destruct (Z.ltb_spec n (blen p)).
    + rewrite Hr'. cbn [curchunk_len curchunk_hdrlen rx_partial].
      assert (n = L - hdr_size hdr') by lia.
      replace (blen p + hdr_size hdr' - L) with (blen p - n) by lia.
      replace L with (hdr_size hdr' + n) at 1 by lia.
      apply recv_rest_spec; fold p; try done; try lia.
      * destruct Hr as (_&_&_&_&?). lia.
      * rewrite <- Erest, take_0. cbn [app]. rewrite length_app, length_drop. unfold blen in *. lia.
      * intros x Hx. apply (Hbase 512); [lia|]. destruct Hr as (_&_&_&_&?). lia.
      * assert (Hext : holds_at (reg (aux m)) (base + hdr_size hdr') p);
          [|eapply holds_at_ext; [|exact Hext]; intros x Hx; apply Hreg, (Hbase 512); [lia|];
            destruct Hr as (_&_&_&_&?); lia].
        intros k x Hk. pose proof (hdr_wire_len _ Hok') as E.
        replace p with (drop (Z.to_nat (blen (hdr_wire hdr'))) (hdr_wire hdr' ++ p)) in Hk
          by (unfold blen; by rewrite Nat2Z.id, drop_app_length).
        rewrite <- E. refine (holds_at_drop _ _ _ _ _ Hh k x Hk).
        rewrite blen_app. pose proof (blen_nonneg (hdr_wire hdr')). lia.
    + destruct Hr' as (c&->&Hc). cbn [curchunk_len curchunk_hdrlen rx_advanced].
      rewrite recv_rest_done by lia. apply sat_Some. intros _. by exists c.
  - intros [[ok a2] r2] Hfin. cbn. intros ->. destruct (Hfin eq_refl) as (c&->&Hc).
    split; [by destruct up|]. exists c. split; [|done]. by destruct up.
Qed.


End transport.

(** ** The life of a down request *)

Section queue.
Context {H : Type} (transfer : transfer_fn H).
Abbreviation mgr_t := (drm_dp_mst_topology_mgr H).

(** What can happen to the manager: a request is allocated, queued, worked on,
    answered, waited for, freed. *)
Inductive mgr_step : mgr_t -> mgr_t -> Prop :=
  | step_new m p t :
      txmsgs m !! p = None -> state t = DRM_DP_SIDEBAND_TX_QUEUED -> cur_offset t = 0 ->
      mgr_step m (set_tx m p t)
  | step_queue chunk0 m p t m' :
      txmsgs m !! p = Some t -> p ∉ tx_msg_downq m ->
      state t = DRM_DP_SIDEBAND_TX_QUEUED -> cur_offset t = 0 ->
      drm_dp_queue_down_tx transfer chunk0 m p = Some m' -> mgr_step m m'
  | step_work chunk0 m m' :
      drm_dp_tx_work transfer chunk0 m = Some m' -> mgr_step m m'
  | step_down_rep blk0 hdr0 m m' :
      drm_dp_mst_handle_down_rep transfer blk0 hdr0 m = Some m' -> mgr_step m m'
  | step_wait m p woken m' r :
      wait_tx_reply_done m p woken = Some (m', r) -> mgr_step m m'.

(** The states of the queue: the head may be in flight, the rest waits. *)
Definition in_flight (s : Z) : Prop :=
  s = DRM_DP_SIDEBAND_TX_QUEUED \/ s = DRM_DP_SIDEBAND_TX_START_SEND \/ s = DRM_DP_SIDEBAND_TX_SENT.

Definition waiting (m : mgr_t) (p : Z) : Prop :=
  exists t, txmsgs m !! p = Some t /\ state t = DRM_DP_SIDEBAND_TX_QUEUED /\ cur_offset t = 0.

Definition queue_ok (m : mgr_t) : Prop :=
  NoDup (tx_msg_downq m) /\
  match tx_msg_downq m with
  | [] => True
  | p :: q =>
    (exists t, txmsgs m !! p = Some t /\ in_flight (state t)) /\ Forall (waiting m) q
  end.

Lemma process_single_state chunk0 max a t b up a' t' r :
  in_flight (state t) ->
  process_single_tx_qlock transfer chunk0 max a t b up = Some (a', t', r) ->
  in_flight (state t').
Proof.
  intros Hs E. unfold process_single_tx_qlock in E. revert E.
  generalize (drm_dp_send_sideband_msg transfer send_fuel max a up) as send. intros send E.
  destruct (Z.eqb_spec (state t) DRM_DP_SIDEBAND_TX_SENT); [by injection E as <- <- <-|].
  rewrite set_state_START in E by (destruct Hs as [?|[?|?]]; [by left|by right|done]).
  destruct (set_hdr_from_dst_qlock _ _ _) as [hdr|]; [cbn [mbind option_bind] in E|done].
  destruct (drm_dp_encode_sideband_msg_hdr _ _) as [[c i]|]; [cbn [mbind option_bind] in E|done].
  destruct (rd_range _ _ _); [cbn [mbind option_bind] in E|done].
  destruct (wr_range _ _ _); [cbn [mbind option_bind] in E|done].
  destruct (drm_dp_crc_sideband_chunk_req _ _ _); [cbn [mbind option_bind] in E|done].
  destruct (rd_range _ _ _); [cbn [mbind option_bind] in E|done].
  destruct (send _) as [[a1 r1]|]; [cbn [mbind option_bind] in E|done].
  destruct (negb (r1 =? 0)); [injection E as <- <- <-; by right; left|].
  destruct (_ =? _); injection E as <- <- <-; [by right; right|by right; left].
Qed.

Lemma waiting_set_tx m p t q : p <> q -> waiting m q -> waiting (set_tx m p t) q.
Proof.
  intros Hne (t'&E&?). exists t'. split; [|done]. cbn. by rewrite lookup_insert_ne.
Qed.

Lemma queue_ok_rest m p q : queue_ok m -> tx_msg_downq m = p :: q -> queue_ok (set_queue m q).
Proof.
  intros [Hn Hq] E. rewrite E in *. apply NoDup_cons in Hn as [_ Hn].
  destruct Hq as [_ Hq]. split; [done|]. cbn. destruct q as [|p' q]; [done|].
  apply Forall_cons_1 in Hq as [(t&?&?&?) Hq]. split; [|done]. exists t. split; [done|by left].
Qed.

(** A message off the queue may change. *)
Lemma queue_ok_off m p t : p ∉ tx_msg_downq m -> queue_ok m -> queue_ok (set_tx m p t).
Proof.
  intros Hp [Hn Hq]. split; [done|]. cbn. destruct (tx_msg_downq m) as [|p' q]; [done|].
  apply not_elem_of_cons in Hp as [Hne Hp]. destruct Hq as [(t'&Ht&?) Hq]. split.
  - exists t'. by rewrite lookup_insert_ne.
  - rewrite Forall_forall in *. intros x Hx. apply waiting_set_tx; [by intros ->|by apply Hq].
Qed.

(** Nothing else of the manager matters. *)
Lemma queue_ok_ext m m' :
  tx_msg_downq m' = tx_msg_downq m -> txmsgs m' = txmsgs m -> queue_ok m -> queue_ok m'.
Proof.
  intros E1 E2. unfold queue_ok, waiting. by rewrite E1, E2.
Qed.

Lemma down_tx_queue_ok chunk0 m m' :
  queue_ok m -> process_single_down_tx_qlock transfer chunk0 m = Some m' -> queue_ok m'.
Proof.
  intros Hm E. unfold process_single_down_tx_qlock in E.
  destruct (tx_msg_downq m) as [|p q] eqn:Eq; [by injection E as <-|].
  pose proof Hm as [Hn Hq]. rewrite Eq in Hn, Hq. destruct Hq as [(t&Ht&Hs) Hq].
  rewrite Ht in E. cbn [mbind option_bind] in E.
  destruct (branches m !! dst t) as [b|]; [cbn [mbind option_bind] in E|done].
  destruct (process_single_tx_qlock _ _ _ _ _ _ _) as [[[a' t'] r]|] eqn:Ep;
    [cbn [mbind option_bind] in E|done].
  apply process_single_state in Ep; [|done].
  apply NoDup_cons in Hn as [Hp Hn].
  destruct (r <? 0); injection E as <-.
  - apply queue_ok_off; [done|].
    apply (queue_ok_ext (set_tx (set_queue m q) p t')); [done..|].
    apply queue_ok_off; [done|]. by apply (queue_ok_rest m p).
  - split; [cbn; rewrite Eq; by constructor|]. cbn. rewrite Eq. split.
    + exists t'. by rewrite lookup_insert_eq.
    + rewrite Forall_forall in *. intros x Hx.
      apply (waiting_set_tx (set_aux m a')); [by intros ->|]. by apply Hq.
Qed.

Lemma get_mst_branch_device_queue (m m' : mgr_t) l rad r :
  drm_dp_get_mst_branch_device m l rad = Some (m', r) ->
  tx_msg_downq m' = tx_msg_downq m /\ txmsgs m' = txmsgs m.
Proof.
  unfold drm_dp_get_mst_branch_device. intros E.
  destruct (mst_primary m) as [b|]; [|by injection E as <- <-].
  destruct (branch_walk _ _ _ _ _) as [[b'|]|]; [cbn [mbind option_bind] in E| |done].
  - destruct (drm_dp_mst_topology_try_get_mstb _ _) as [[bs ok]|]; [|done].
    by injection E as <- <-.
  - by injection E as <- <-.
Qed.

Lemma set_recv_queue m up (r : drm_dp_sideband_msg_rx) :
  tx_msg_downq (set_recv m up r : mgr_t) = tx_msg_downq m /\
  txmsgs (set_recv m up r : mgr_t) = txmsgs m.
Proof. by destruct up. Qed.

Lemma get_one_queue blk0 hdr0 m up ok m' b :
  drm_dp_get_one_sb_msg transfer blk0 hdr0 m up = Some (ok, m', b) ->
  tx_msg_downq m' = tx_msg_downq m /\ txmsgs m' = txmsgs m.
Proof.
  unfold drm_dp_get_one_sb_msg. generalize (recv_rest transfer 64) as rest. intros rest E.
  destruct (rd_range _ _ _); [cbn [mbind option_bind] in E|done].
  destruct (drm_dp_dpcd_read_data _ _ _ _) as [a [r bl]].
  destruct (wr_range _ _ _); [cbn [mbind option_bind] in E|done].
  destruct (r <? 0); [by injection E as <- <- <-|].
  destruct (drm_dp_decode_sideband_msg_hdr _ _ _ _) as [[[ok1 hdr] hl]|];
    [cbn [mbind option_bind] in E|done].
  destruct ok1; cbn [negb] in E; [|by injection E as <- <- <-].
  destruct (if up then Some _ else _) as [[m1 mb]|] eqn:El; [cbn [mbind option_bind] in E|done].
  assert (H1 : tx_msg_downq m1 = tx_msg_downq m /\ txmsgs m1 = txmsgs m).
  { destruct up; [by injection El as <- <-|].
    by apply get_mst_branch_device_queue in El as [? ?]. }
  destruct (negb up && _); [by injection E as <- <- <-|].
  destruct (drm_dp_sideband_msg_set_header _ _ _) as [ok2 r2].
  pose proof (set_recv_queue m1 up r2) as H2.
  destruct ok2; cbn [negb] in E; [|injection E as <- <- <-; by destruct H1 as [<- <-]].
  destruct (rd_range _ _ _); [cbn [mbind option_bind] in E|done].
  destruct (drm_dp_sideband_append_payload _ _) as [[ok3 r3]|]; [cbn [mbind option_bind] in E|done].
  pose proof (set_recv_queue (set_recv m1 up r2) up r3) as H3.
  destruct ok3; cbn [negb] in E; [|injection E as <- <- <-; destruct H1, H2, H3; split; congruence].
  destruct (rest _ _ _ _ _ _ _) as [[[ok4 a4] r4]|]; [cbn [mbind option_bind] in E|done].
  injection E as <- <- <-.
  destruct (set_recv_queue (set_aux (set_recv (set_recv m1 up r2) up r3) a4) up r4) as [-> ->].
  cbn. destruct H1, H2, H3. split; congruence.
Qed.

Lemma down_rep_clear_queue (m m' : mgr_t) b :
  down_rep_clear m b = Some m' ->
  tx_msg_downq m' = tx_msg_downq m /\ txmsgs m' = txmsgs m.
Proof.
  unfold down_rep_clear, down_rep_out, drm_dp_mst_topology_put_mstb. intros E.
  destruct b as [b|]; [|by injection E as <-].
  destruct (branches _ !! b); [|done]. by injection E as <-.
Qed.

Lemma down_rep_queue_ok blk0 hdr0 m m' :
  queue_ok m -> drm_dp_mst_handle_down_rep transfer blk0 hdr0 m = Some m' -> queue_ok m'.
Proof.
  intros Hm E. unfold drm_dp_mst_handle_down_rep in E.
  destruct (drm_dp_get_one_sb_msg _ _ _ _ _) as [[[ok m1] b]|] eqn:Eg;
    [cbn [mbind option_bind] in E|done].
  apply get_one_queue in Eg as [Q1 T1].
  assert (Hclear : forall m2, queue_ok m2 -> down_rep_clear m2 b = Some m' -> queue_ok m').
  { intros m2 H2 Ec. apply down_rep_clear_queue in Ec as [? ?]. by apply (queue_ok_ext m2). }
  assert (Hm1 : queue_ok m1) by (by apply (queue_ok_ext m)).
  destruct ok; cbn [negb] in E; [|by apply (Hclear m1)].
  destruct (have_eomt _); cbn [negb] in E; cycle 1.
  { unfold down_rep_out, drm_dp_mst_topology_put_mstb in E.
    destruct b as [b|]; [|by injection E as <-].
    destruct (branches m1 !! b); [|done]. injection E as <-. by apply (queue_ok_ext m1). }
  destruct (tx_msg_downq m1) as [|p q] eqn:Eq; [by apply (Hclear m1)|].
  destruct (txmsgs m1 !! p) as [t|] eqn:Et; [cbn [mbind option_bind] in E|done].
  destruct (bool_decide _); cbn [negb] in E; [|by apply (Hclear m1)].
  destruct (verify_rx_request_type _ _) as [[]|]; cbn [mbind option_bind negb] in E;
    [|by apply (Hclear m1)|done].
  destruct (drm_dp_sideband_parse_reply _) as [[ok2 rep]|]; [cbn [mbind option_bind] in E|done].
  apply Hclear in E; [done|].
  pose proof Hm1 as [Hn _]. rewrite Eq in Hn. apply NoDup_cons in Hn as [Hp _].
  apply (queue_ok_ext (set_tx (set_queue m1 q) p
    (set_state (set_reply t rep) DRM_DP_SIDEBAND_TX_RX))); [done..|].
  apply queue_ok_off; [done|]. by apply (queue_ok_rest m1 p).
Qed.

Lemma list_del_waiting m p q :
  Forall (waiting m) q -> Forall (waiting m) (list_del p q).
Proof.
  rewrite !Forall_forall. intros Hq x Hx. apply list_elem_of_filter in Hx as [_ Hx]. by apply Hq.
Qed.

Lemma wait_queue_ok m p woken m' r :
  queue_ok m -> wait_tx_reply_done m p woken = Some (m', r) -> queue_ok m'.
Proof.
  intros Hm E. unfold wait_tx_reply_done in E.
  destruct (txmsgs m !! p) as [t|]; [cbn [mbind option_bind] in E|done].
  destruct woken; [by injection E as <- <-|].
  destruct (_ || _); [|by injection E as <- <-]. injection E as <- <-.
  destruct Hm as [Hn Hq]. unfold queue_ok. cbn [tx_msg_downq set_queue].
  split; [by apply NoDup_filter|]. destruct (tx_msg_downq m) as [|h q] eqn:Eq; [done|].
  destruct Hq as [Hh Hq]. unfold list_del. rewrite filter_cons.
  destruct (decide (h <> p)).
  - split; [done|]. by apply list_del_waiting.
  - apply (list_del_waiting m p) in Hq. unfold list_del in Hq.
    destruct (filter (fun x => x <> p) q) as [|h' q']; [done|].
    apply Forall_cons_1 in Hq as [(t'&?&?&?) Hq]. split; [|done].
    exists t'. split; [done|by left].
Qed.

Lemma queue_down_ok chunk0 m p t m' :
  queue_ok m -> txmsgs m !! p = Some t -> p ∉ tx_msg_downq m ->
  state t = DRM_DP_SIDEBAND_TX_QUEUED -> cur_offset t = 0 ->
  drm_dp_queue_down_tx transfer chunk0 m p = Some m' -> queue_ok m'.
Proof.
  intros [Hn Hq] Ht Hp Hs H0 E.
  assert (Hm : queue_ok (set_queue m (tx_msg_downq m ++ [p]))).
  { split; cbn [tx_msg_downq set_queue].
    - apply NoDup_app. split; [done|]. split; [|apply NoDup_singleton].
      intros x Hx Hx'. apply list_elem_of_singleton in Hx' as ->. done.
    - destruct (tx_msg_downq m) as [|h q]; cbn [app].
      + split; [|done]. exists t. split; [done|by left].
      + destruct Hq as [Hh Hq]. split; [done|]. apply Forall_app. split; [done|].
        apply Forall_singleton. by exists t. }
  unfold drm_dp_queue_down_tx in E. cbn [tx_msg_downq set_queue] in E.
  destruct (tx_msg_downq m ++ [p]) as [|h [|h' q]]; [by injection E as <-| |by injection E as <-].
  by apply down_tx_queue_ok in E.
Qed.

(** C16.  Whatever sequence of requests, transmissions, replies (also late,
    unexpected or garbled ones), timeouts and failures a manager with an empty
    queue goes through, its queue holds each request once, its head is QUEUED,
    START_SEND or SENT, and every request behind the head is still QUEUED with
    nothing sent: one transaction at a time is in flight. *)
Theorem one_request_in_flight m m' :
  tx_msg_downq m = [] -> rtc mgr_step m m' -> queue_ok m'.
Proof.
  intros E Hr. assert (Hm : queue_ok m) by (split; rewrite E; [constructor|done]).
  clear E. induction Hr as [|m m1 m2 Hstep _ IH]; [done|]. apply IH. clear IH.
  destruct Hstep as [m p t Hp|chunk0 m p t m1 Ht Hp Hs H0 E|chunk0 m m1 E|blk0 hdr0 m m1 E
    |m p woken m1 r E].
  - apply queue_ok_off; [|done]. destruct Hm as [_ Hq]. intros Hin.
    destruct (tx_msg_downq m) as [|h q]; [by apply elem_of_nil in Hin|].
    destruct Hq as [(t'&?&_) Hq]. apply elem_of_cons in Hin as [->|Hin]; [congruence|].
    rewrite Forall_forall in Hq. destruct (Hq p Hin) as (?&?&_). congruence.
  - by apply (queue_down_ok chunk0 m p t).
  - unfold drm_dp_tx_work in E. apply (down_tx_queue_ok chunk0 m); [done|].
    unfold process_single_down_tx_qlock in *. by destruct (tx_msg_downq m).
  - by apply (down_rep_queue_ok blk0 hdr0 m).
  - by apply (wait_queue_ok m p woken m1 r).
Qed.
End queue.

(** ** A message from one end to the other *)

Section delivery.
Context {Hs Hr : Type} (Ts : transfer_fn Hs) (Tr : transfer_fn Hr).
Context `{!DpcdDevice Ts, !DpcdDevice Tr}.
(** The link: it shows the receiver the sideband registers the sender wrote. *)
Context (link : Hs -> Hr -> Hr).

(** Send a chunk, let the receiver read it, until the message is SENT.  The flag
    is false when either side reports a failure. *)
Fixpoint deliver (n : nat) (chunk0 blk0 : list Z) (hdr0 : drm_dp_sideband_msg_hdr) (max : Z)
    (a : drm_dp_aux Hs) (t : txmsg) (b : drm_dp_mst_branch) (m : drm_dp_mst_topology_mgr Hr) :
    option (bool * txmsg * drm_dp_mst_topology_mgr Hr) :=
  match n with
  | O => None
  | S n =>
    '(a, t, r) ← process_single_tx_qlock Ts chunk0 max a t b false;
    if r <? 0 then Some (false, t, m) else
    let m := set_aux m (set_hw (aux m) (link (hw a) (hw (aux m)))) in
    '(ok, m, _) ← drm_dp_get_one_sb_msg Tr blk0 hdr0 m true;
    if negb ok then Some (false, t, m) else
    if r =? 1 then Some (true, t, m) else deliver n chunk0 blk0 hdr0 max a t b m
  end.

Context (Hlink : forall hs hr i, 0 <= i < 48 ->
  dpcd (link hs hr) (DP_SIDEBAND_MSG_UP_REQ_BASE + i) =
  dpcd hs (DP_SIDEBAND_MSG_DOWN_REQ_BASE + i)).

(** The receiver holds what has been sent so far. *)
Definition rx_in_step (t : txmsg) (r : drm_dp_sideband_msg_rx) : Prop :=
  length (chunk r) = 48%nat /\ length (rxmsg r) = 256%nat /\ curlen r = cur_offset t /\
  take (Z.to_nat (cur_offset t)) (rxmsg r) = take (Z.to_nat (cur_offset t)) (msg t) /\
  have_somt r = negb (cur_offset t =? 0).

Lemma rx_in_step_advanced t b r c hdr :
  branch_ok b -> tx_pending t -> rx_in_step t r -> length c = 48%nat ->
  somt hdr = (cur_offset t =? 0) ->
  rx_in_step (tx_advanced t b) (rx_advanced r hdr (tx_payload t b) c).
Proof.
  intros Hb Ht (Hc&Hm&Hl&Htk&Hso) Hc' Hsm. pose proof (tx_tosend_range t b Hb Ht).
  pose proof (tx_payload_len t b Hb Ht) as Hp. destruct Ht as (Hm'&_&Ho&Hcl&_).
  unfold rx_in_step, rx_advanced. cbn [chunk rxmsg curlen have_somt tx_advanced cur_offset msg].
  rewrite Hl, Htk, Hp.
  destruct (take_drop_blen (msg t) (cur_offset t) (tx_tosend t b)) as [_ Htt];
    [lia..|unfold blen; lia|]. fold (tx_payload t b) in Htt.
  assert (Hlen : length (take (Z.to_nat (cur_offset t + tx_tosend t b)) (msg t)) =
          Z.to_nat (cur_offset t + tx_tosend t b)) by (rewrite length_take; lia).
  split; [done|]. split; [|split; [done|split]].
  - rewrite !length_app, length_drop, length_take. unfold blen in Hp. lia.
  - rewrite app_assoc, Htt. rewrite take_app_le by lia. by rewrite take_take, Nat.min_id.
  - rewrite Hsm, Hso. destruct (Z.eqb_spec (cur_offset t) 0), (Z.eqb_spec (cur_offset t + tx_tosend t b) 0);
      (done || lia).
Qed.

Lemma tx_advanced_pending t b :
  branch_ok b -> tx_pending t -> cur_offset t + tx_tosend t b <> cur_len t ->
  tx_pending (tx_advanced t b).
Proof.
  intros Hb Ht Hne. pose proof (tx_tosend_range t b Hb Ht).
  destruct Ht as (H1&H2&H3&H4&_). unfold tx_pending, tx_advanced.
  cbn [msg cur_offset cur_len state]. split; [done|]. split; [done|]. split; [lia|].
  split; [done|]. right. by destruct (Z.eqb_spec (cur_offset t + tx_tosend t b) (cur_len t)).
Qed.

Lemma deliver_sat n : forall chunk0 blk0 hdr0 max a t b m,
  branch_ok b -> tx_pending t -> length chunk0 = 48%nat -> length blk0 = 32%nat ->
  length (rad hdr0) = 8%nat -> Forall is_byte (rad hdr0) ->
  1 <= max -> 10 <= max_dpcd_transaction_bytes m ->
  rx_in_step t (up_req_recv m) -> cur_len t - cur_offset t <= 37 * Z.of_nat n ->
  sat (deliver n chunk0 blk0 hdr0 max a t b m) (fun '(ok, t', m') => ok = true ->
    state t' = DRM_DP_SIDEBAND_TX_SENT /\ have_eomt (up_req_recv m') = true /\
    curlen (up_req_recv m') = cur_len t /\
    take (Z.to_nat (cur_len t)) (rxmsg (up_req_recv m')) = take (Z.to_nat (cur_len t)) (msg t)).
Proof.
  induction n as [|n IH]; intros chunk0 blk0 hdr0 max a t b m Hb Ht Hc Hblk Hl0 Hb0 Hmax Hmaxr Hrx Hn.
  { destruct Ht as (_&_&?&_). lia. }
  cbn [deliver]. eapply sat_bind; [by apply process_single_aux|]. intros [[a' t'] r].
  cbv zeta. intros [_ Hres]. pose proof (tx_tosend_range t b Hb Ht) as Hts.
  destruct Hres as [(->&Hh&->)|[-> ->]]; [|by cbn].
  destruct (Z.ltb_spec (if cur_offset t + tx_tosend t b =? cur_len t then 1 else 0) 0) as [?|_].
  { by destruct (_ =? _). }
  set (m1 := set_aux m (set_hw (aux m) (link (hw a') (hw (aux m))))).
  assert (Hh1 : holds_at (dpcd (hw (aux m1))) DP_SIDEBAND_MSG_UP_REQ_BASE
                  (wire_chunk (tx_hdr t b) (tx_payload t b))).
  { intros k x Hk. cbn [m1 aux set_aux set_hw hw]. pose proof (lookup_lt_Some _ _ _ Hk) as Hlt.
    destruct (assemble_chunk t b chunk0 Hb Ht Hc) as (c&_&->&Hcl).
    unfold tx_chunk, blen in Hcl. rewrite Hlink by lia. by apply Hh. }
  pose proof Hrx as (Hr1&Hr2&Hr3&_&Hr5).
  assert (Hrok : rx_ok (recv m1 true) (tx_payload t b)).
  { unfold rx_ok. cbn [recv m1 set_aux up_req_recv].
    rewrite Hr3, (tx_payload_len t b Hb Ht). destruct Ht as (_&_&?&?&_).
    split_and!; (done || lia). }
  eapply sat_bind.
  { apply (get_one_spec Tr blk0 hdr0 m1 true (tx_hdr t b) (tx_payload t b));
      [by apply tx_hdr_ok| |done..| |by left|done].
    - cbn [tx_hdr msg_len]. by rewrite tx_payload_len.
    - cbn [tx_hdr somt recv m1 set_aux up_req_recv]. rewrite Hr5. by rewrite negb_involutive. }
  intros [[ok m2] mb] Hok. destruct ok; cbn [negb]; [|by cbn].
  destruct (Hok eq_refl) as (Hmx&c&Er&Hcc). cbn [recv m1 set_aux up_req_recv] in Er.
  assert (Hstep : rx_in_step (tx_advanced t b) (up_req_recv m2)).
  { rewrite Er. by apply rx_in_step_advanced. }
  destruct (Z.eqb_spec (cur_offset t + tx_tosend t b) (cur_len t)) as [E|E].
  - cbn. intros _. destruct Hstep as (_&_&Hcur&Htk&_).
    cbn [tx_advanced cur_offset msg state] in *. rewrite E in *. rewrite Z.eqb_refl.
    split; [done|]. split; [|done]. rewrite Er. cbn [rx_advanced have_eomt over_hdr eomt tx_hdr].
    by destruct (Z.leb_spec (cur_len t - cur_offset t) (tx_space t b)); [|unfold tx_tosend in E; lia].
  - cbn [Z.eqb]. pose proof (tx_space_range t b Hb).
    change (cur_len t) with (cur_len (tx_advanced t b)).
    change (msg t) with (msg (tx_advanced t b)).
    apply IH; try done.
    + by apply tx_advanced_pending.
    + by rewrite Hmx.
    + cbn [tx_advanced cur_len cur_offset]. unfold tx_tosend in *. lia.
Qed.

End delivery.

(** Two devices whose first transfers fail, and a message of three chunks. *)
Definition link_example (hs hr : nat * (Z -> Z)) : nat * (Z -> Z) :=
  (hr.1, regs_write hr.2 DP_SIDEBAND_MSG_UP_REQ_BASE
           (regs_read hs.2 DP_SIDEBAND_MSG_DOWN_REQ_BASE 48)).

Lemma regs_read_at m off n i :
  (i < n)%nat -> regs_read m off n !! i = Some (m (off + Z.of_nat i)).
Proof.
  intros Hi. unfold regs_read. rewrite list_lookup_fmap.
  assert (E : seq 0 n !! i = Some i) by (apply lookup_seq; lia). by rewrite E.
Qed.

Lemma link_example_ok hs hr i :
  0 <= i < 48 ->
  dpcd (link_example hs hr) (DP_SIDEBAND_MSG_UP_REQ_BASE + i) =
  dpcd hs (DP_SIDEBAND_MSG_DOWN_REQ_BASE + i).
Proof.
  intros Hi. rewrite <- (Z2Nat.id i) by lia.
  apply (regs_write_holds (hr.2) DP_SIDEBAND_MSG_UP_REQ_BASE). by apply regs_read_at; lia.
Qed.

Definition branch_example : drm_dp_mst_branch := Branch [18; 48; 0; 0; 0; 0; 0; 0] 4 [] 1.

Definition long_tx_example : txmsg :=
  Tx ([33; 16; 1; 2; 95] ++ (Z.of_nat <$> seq 1 95) ++ replicate 156 0) 0 100 1 0
    DRM_DP_SIDEBAND_TX_QUEUED false (RepBody 0 0 Rep_none).

Definition mgr_example : drm_dp_mst_topology_mgr (nat * (Z -> Z)) :=
  Mgr (Aux (1%nat, fun _ => 0) false true) 16 reset_msg_rx_state reset_msg_rx_state [] ∅ ∅ None.

Lemma long_tx_example_pending : tx_pending long_tx_example.
Proof.
  split; [reflexivity|]. split.
  - apply (Forall_impl (fun x => bool_decide (0 <= x < 256))).
    + vm_compute. repeat constructor.
    + intros x H. unfold is_byte. by apply bool_decide_unpack in H.
  - split; [cbn; lia|]. split; [cbn; lia|by left].
Qed.

Lemma branch_example_ok : branch_ok branch_example.
Proof.
  split; [cbn; lia|]. split; [reflexivity|]. unfold is_byte. repeat constructor; cbn; lia.
Qed.

Lemma deliver_example_ok :
  option_map (fun r => r.1.1)
    (deliver flaky_transfer flaky_transfer link_example 7 (replicate 48 170) (replicate 32 85)
      hdr_zero 16 (aux mgr_example) long_tx_example branch_example mgr_example) = Some true.
Proof. vm_compute. reflexivity. Qed.



(** Two requests queued on an idle manager: the first goes out, the second waits. *)
Definition mgr_two : drm_dp_mst_topology_mgr (nat * (Z -> Z)) :=
  Mgr (Aux (0%nat, fun _ => 0) false true) 16 reset_msg_rx_state reset_msg_rx_state []
    {[ 10 := long_tx_example; 11 := long_tx_example ]} {[ 1 := branch_example ]} (Some 1).

Lemma queue_two_checks :
  match drm_dp_queue_down_tx flaky_transfer (replicate 48 0) mgr_two 10 with
  | None => False
  | Some m1 => tx_msg_downq m1 = [10] /\ txmsgs m1 !! 11 = Some long_tx_example
  end.
Proof. vm_compute. split; reflexivity. Qed.

Lemma one_request_in_flight_witness :
  exists m1 m2,
    drm_dp_queue_down_tx flaky_transfer (replicate 48 0) mgr_two 10 = Some m1 /\
    drm_dp_queue_down_tx flaky_transfer (replicate 48 0) m1 11 = Some m2 /\
    tx_msg_downq m2 = [10; 11] /\ queue_ok m2.
Proof.
  pose proof queue_two_checks as Hc.
  destruct (drm_dp_queue_down_tx flaky_transfer (replicate 48 0) mgr_two 10) as [m1|] eqn:E1;
    [|destruct Hc].
  destruct Hc as [Hq Ht].
  assert (E2 : drm_dp_queue_down_tx flaky_transfer (replicate 48 0) m1 11 =
               Some (set_queue m1 [10; 11])).
  { unfold drm_dp_queue_down_tx. cbn [tx_msg_downq set_queue]. rewrite Hq. reflexivity. }
  exists m1, (set_queue m1 [10; 11]). split; [reflexivity|]. split; [exact E2|].
  split; [reflexivity|]. apply (one_request_in_flight flaky_transfer mgr_two); [reflexivity|].
  eapply rtc_l; [|eapply rtc_l; [|apply rtc_refl]].
  - apply (step_queue _ (replicate 48 0) mgr_two 10 long_tx_example m1);
      [reflexivity|apply not_elem_of_nil|reflexivity|reflexivity|exact E1].
  - apply (step_queue _ (replicate 48 0) m1 11 long_tx_example _ Ht);
      [|reflexivity|reflexivity|exact E2].
    rewrite Hq. intros H. apply list_elem_of_singleton in H. discriminate.
Defined.

(** What is left of a long request is sent by nobody: after the first chunk the
    request is START_SEND, and the interrupt handler kicks the work only for a
    request that is not. *)
Lemma second_chunk_not_kicked {H : Type} (m : drm_dp_mst_topology_mgr H) p q t :
  tx_msg_downq m = p :: q -> txmsgs m !! p = Some t ->
  state t = DRM_DP_SIDEBAND_TX_START_SEND -> hpd_irq_kick m = Some false.
Proof. intros Hq Ht Hs. unfold hpd_irq_kick. rewrite Hq, Ht. cbn. by rewrite Hs. Qed.
