(* ===== verification/Dsc.v ===== *)
(** * Display Stream Compression helpers

    display/drm_dsc_helper.c over the types of include/drm/display/drm_dsc.h: the
    rate-control tables and the functions that fill a DSC configuration, and the
    packing of a configuration into the 128-byte picture parameter set sent to
    the sink.  The host is little endian. *)

From stdpp Require Import base numbers list option.
From Stdlib Require Import ZArith Lia Bool.
From S2P Require Import Prelude ByteBuf.
#[local] Open Scope Z_scope.

(** ** Constants *)

Definition DSC_NUM_BUF_RANGES := 15.
Definition DSC_MUX_WORD_SIZE_8_10_BPC := 48.
Definition DSC_MUX_WORD_SIZE_12_BPC := 64.
Definition DSC_RC_PIXELS_PER_GROUP := 3.
Definition DSC_SCALE_DECREMENT_INTERVAL_MAX := 4095.
Definition DSC_RANGE_BPG_OFFSET_MASK := 0x3f.
Definition DSC_RC_MODEL_SIZE_CONST := 8192.
Definition DSC_RC_EDGE_FACTOR_CONST := 6.
Definition DSC_RC_TGT_OFFSET_HI_CONST := 3.
Definition DSC_RC_TGT_OFFSET_LO_CONST := 3.
Definition DSC_PPS_VERSION_MAJOR_SHIFT := 4.
Definition DSC_PPS_BPC_SHIFT := 4.
Definition DSC_PPS_MSB_SHIFT := 8.
Definition DSC_PPS_LSB_MASK := Z.shiftl 0xFF 0.
Definition DSC_PPS_BPP_HIGH_MASK := Z.shiftl 0x3 8.
Definition DSC_PPS_VBR_EN_SHIFT := 2.
Definition DSC_PPS_SIMPLE422_SHIFT := 3.
Definition DSC_PPS_CONVERT_RGB_SHIFT := 4.
Definition DSC_PPS_BLOCK_PRED_EN_SHIFT := 5.
Definition DSC_PPS_INIT_XMIT_DELAY_HIGH_MASK := Z.shiftl 0x3 8.
Definition DSC_PPS_SCALE_DEC_INT_HIGH_MASK := Z.shiftl 0xF 8.
Definition DSC_PPS_RC_TGT_OFFSET_HI_SHIFT := 4.
Definition DSC_PPS_RC_RANGE_MINQP_SHIFT := 11.
Definition DSC_PPS_RC_RANGE_MAXQP_SHIFT := 6.
Definition DSC_PPS_NATIVE_420_SHIFT := 1.

(** ** The configuration *)

Record drm_dsc_rc_range_parameters := RcRange {
  range_min_qp : Z;
  range_max_qp : Z;
  range_bpg_offset : Z
}.

Record drm_dsc_config := Cfg {
  line_buf_depth : Z;   (* u8 *)
  bits_per_component : Z;   (* u8 *)
  convert_rgb : bool;
  slice_count : Z;   (* u8 *)
  slice_width : Z;   (* u16 *)
  slice_height : Z;   (* u16 *)
  simple_422 : bool;
  pic_width : Z;   (* u16 *)
  pic_height : Z;   (* u16 *)
  rc_tgt_offset_high : Z;   (* u8 *)
  rc_tgt_offset_low : Z;   (* u8 *)
  bits_per_pixel : Z;   (* u16 *)
  rc_edge_factor : Z;   (* u8 *)
  rc_quant_incr_limit1 : Z;   (* u8 *)
  rc_quant_incr_limit0 : Z;   (* u8 *)
  initial_xmit_delay : Z;   (* u16 *)
  initial_dec_delay : Z;   (* u16 *)
  block_pred_enable : bool;
  first_line_bpg_offset : Z;   (* u8 *)
  initial_offset : Z;   (* u16 *)
  rc_buf_thresh : list Z;
  rc_range_params : list drm_dsc_rc_range_parameters;
  rc_model_size : Z;   (* u16 *)
  flatness_min_qp : Z;   (* u8 *)
  flatness_max_qp : Z;   (* u8 *)
  initial_scale_value : Z;   (* u8 *)
  scale_decrement_interval : Z;   (* u16 *)
  scale_increment_interval : Z;   (* u16 *)
  nfl_bpg_offset : Z;   (* u16 *)
  slice_bpg_offset : Z;   (* u16 *)
  final_offset : Z;   (* u16 *)
  vbr_enable : bool;
  mux_word_size : Z;   (* u8 *)
  slice_chunk_size : Z;   (* u16 *)
  rc_bits : Z;   (* u16 *)
  dsc_version_minor : Z;   (* u8 *)
  dsc_version_major : Z;   (* u8 *)
  native_422 : bool;
  native_420 : bool;
  second_line_bpg_offset : Z;   (* u8 *)
  nsl_bpg_offset : Z;   (* u16 *)
  second_line_offset_adj : Z   (* u16 *)
}.

(** ** Field assignments *)

Definition set_rc_model_size (v : Z) (c : drm_dsc_config) : drm_dsc_config :=
  Cfg
    (line_buf_depth c) (bits_per_component c) (convert_rgb c) (slice_count c)
    (slice_width c) (slice_height c) (simple_422 c) (pic_width c) (pic_height c)
    (rc_tgt_offset_high c) (rc_tgt_offset_low c) (bits_per_pixel c) (rc_edge_factor c)
    (rc_quant_incr_limit1 c) (rc_quant_incr_limit0 c) (initial_xmit_delay c)
    (initial_dec_delay c) (block_pred_enable c) (first_line_bpg_offset c)
    (initial_offset c) (rc_buf_thresh c) (rc_range_params c) v (flatness_min_qp c)
    (flatness_max_qp c) (initial_scale_value c) (scale_decrement_interval c)
    (scale_increment_interval c) (nfl_bpg_offset c) (slice_bpg_offset c) (final_offset c)
    (vbr_enable c) (mux_word_size c) (slice_chunk_size c) (rc_bits c) (dsc_version_minor c)
    (dsc_version_major c) (native_422 c) (native_420 c) (second_line_bpg_offset c)
    (nsl_bpg_offset c) (second_line_offset_adj c).
Definition set_rc_edge_factor (v : Z) (c : drm_dsc_config) : drm_dsc_config :=
  Cfg
    (line_buf_depth c) (bits_per_component c) (convert_rgb c) (slice_count c)
    (slice_width c) (slice_height c) (simple_422 c) (pic_width c) (pic_height c)
    (rc_tgt_offset_high c) (rc_tgt_offset_low c) (bits_per_pixel c) v
    (rc_quant_incr_limit1 c) (rc_quant_incr_limit0 c) (initial_xmit_delay c)
    (initial_dec_delay c) (block_pred_enable c) (first_line_bpg_offset c)
    (initial_offset c) (rc_buf_thresh c) (rc_range_params c) (rc_model_size c)
    (flatness_min_qp c) (flatness_max_qp c) (initial_scale_value c)
    (scale_decrement_interval c) (scale_increment_interval c) (nfl_bpg_offset c)
    (slice_bpg_offset c) (final_offset c) (vbr_enable c) (mux_word_size c)
    (slice_chunk_size c) (rc_bits c) (dsc_version_minor c) (dsc_version_major c)
    (native_422 c) (native_420 c) (second_line_bpg_offset c) (nsl_bpg_offset c)
    (second_line_offset_adj c).
Definition set_rc_tgt_offset_high (v : Z) (c : drm_dsc_config) : drm_dsc_config :=
  Cfg
    (line_buf_depth c) (bits_per_component c) (convert_rgb c) (slice_count c)
    (slice_width c) (slice_height c) (simple_422 c) (pic_width c) (pic_height c) v
    (rc_tgt_offset_low c) (bits_per_pixel c) (rc_edge_factor c) (rc_quant_incr_limit1 c)
    (rc_quant_incr_limit0 c) (initial_xmit_delay c) (initial_dec_delay c)
    (block_pred_enable c) (first_line_bpg_offset c) (initial_offset c) (rc_buf_thresh c)
    (rc_range_params c) (rc_model_size c) (flatness_min_qp c) (flatness_max_qp c)
    (initial_scale_value c) (scale_decrement_interval c) (scale_increment_interval c)
    (nfl_bpg_offset c) (slice_bpg_offset c) (final_offset c) (vbr_enable c)
    (mux_word_size c) (slice_chunk_size c) (rc_bits c) (dsc_version_minor c)
    (dsc_version_major c) (native_422 c) (native_420 c) (second_line_bpg_offset c)
    (nsl_bpg_offset c) (second_line_offset_adj c).
Definition set_rc_tgt_offset_low (v : Z) (c : drm_dsc_config) : drm_dsc_config :=
  Cfg
    (line_buf_depth c) (bits_per_component c) (convert_rgb c) (slice_count c)
    (slice_width c) (slice_height c) (simple_422 c) (pic_width c) (pic_height c)
    (rc_tgt_offset_high c) v (bits_per_pixel c) (rc_edge_factor c) (rc_quant_incr_limit1 c)
    (rc_quant_incr_limit0 c) (initial_xmit_delay c) (initial_dec_delay c)
    (block_pred_enable c) (first_line_bpg_offset c) (initial_offset c) (rc_buf_thresh c)
    (rc_range_params c) (rc_model_size c) (flatness_min_qp c) (flatness_max_qp c)
    (initial_scale_value c) (scale_decrement_interval c) (scale_increment_interval c)
    (nfl_bpg_offset c) (slice_bpg_offset c) (final_offset c) (vbr_enable c)
    (mux_word_size c) (slice_chunk_size c) (rc_bits c) (dsc_version_minor c)
    (dsc_version_major c) (native_422 c) (native_420 c) (second_line_bpg_offset c)
    (nsl_bpg_offset c) (second_line_offset_adj c).
Definition set_mux_word_size (v : Z) (c : drm_dsc_config) : drm_dsc_config :=
  Cfg
    (line_buf_depth c) (bits_per_component c) (convert_rgb c) (slice_count c)
    (slice_width c) (slice_height c) (simple_422 c) (pic_width c) (pic_height c)
    (rc_tgt_offset_high c) (rc_tgt_offset_low c) (bits_per_pixel c) (rc_edge_factor c)
    (rc_quant_incr_limit1 c) (rc_quant_incr_limit0 c) (initial_xmit_delay c)
    (initial_dec_delay c) (block_pred_enable c) (first_line_bpg_offset c)
    (initial_offset c) (rc_buf_thresh c) (rc_range_params c) (rc_model_size c)
    (flatness_min_qp c) (flatness_max_qp c) (initial_scale_value c)
    (scale_decrement_interval c) (scale_increment_interval c) (nfl_bpg_offset c)
    (slice_bpg_offset c) (final_offset c) (vbr_enable c) v (slice_chunk_size c) (rc_bits c)
    (dsc_version_minor c) (dsc_version_major c) (native_422 c) (native_420 c)
    (second_line_bpg_offset c) (nsl_bpg_offset c) (second_line_offset_adj c).
Definition set_rc_buf_thresh (v : list Z) (c : drm_dsc_config) : drm_dsc_config :=
  Cfg
    (line_buf_depth c) (bits_per_component c) (convert_rgb c) (slice_count c)
    (slice_width c) (slice_height c) (simple_422 c) (pic_width c) (pic_height c)
    (rc_tgt_offset_high c) (rc_tgt_offset_low c) (bits_per_pixel c) (rc_edge_factor c)
    (rc_quant_incr_limit1 c) (rc_quant_incr_limit0 c) (initial_xmit_delay c)
    (initial_dec_delay c) (block_pred_enable c) (first_line_bpg_offset c)
    (initial_offset c) v (rc_range_params c) (rc_model_size c) (flatness_min_qp c)
    (flatness_max_qp c) (initial_scale_value c) (scale_decrement_interval c)
    (scale_increment_interval c) (nfl_bpg_offset c) (slice_bpg_offset c) (final_offset c)
    (vbr_enable c) (mux_word_size c) (slice_chunk_size c) (rc_bits c) (dsc_version_minor c)
    (dsc_version_major c) (native_422 c) (native_420 c) (second_line_bpg_offset c)
    (nsl_bpg_offset c) (second_line_offset_adj c).
Definition set_first_line_bpg_offset (v : Z) (c : drm_dsc_config) : drm_dsc_config :=
  Cfg
    (line_buf_depth c) (bits_per_component c) (convert_rgb c) (slice_count c)
    (slice_width c) (slice_height c) (simple_422 c) (pic_width c) (pic_height c)
    (rc_tgt_offset_high c) (rc_tgt_offset_low c) (bits_per_pixel c) (rc_edge_factor c)
    (rc_quant_incr_limit1 c) (rc_quant_incr_limit0 c) (initial_xmit_delay c)
    (initial_dec_delay c) (block_pred_enable c) v (initial_offset c) (rc_buf_thresh c)
    (rc_range_params c) (rc_model_size c) (flatness_min_qp c) (flatness_max_qp c)
    (initial_scale_value c) (scale_decrement_interval c) (scale_increment_interval c)
    (nfl_bpg_offset c) (slice_bpg_offset c) (final_offset c) (vbr_enable c)
    (mux_word_size c) (slice_chunk_size c) (rc_bits c) (dsc_version_minor c)
    (dsc_version_major c) (native_422 c) (native_420 c) (second_line_bpg_offset c)
    (nsl_bpg_offset c) (second_line_offset_adj c).
Definition set_initial_xmit_delay (v : Z) (c : drm_dsc_config) : drm_dsc_config :=
  Cfg
    (line_buf_depth c) (bits_per_component c) (convert_rgb c) (slice_count c)
    (slice_width c) (slice_height c) (simple_422 c) (pic_width c) (pic_height c)
    (rc_tgt_offset_high c) (rc_tgt_offset_low c) (bits_per_pixel c) (rc_edge_factor c)
    (rc_quant_incr_limit1 c) (rc_quant_incr_limit0 c) v (initial_dec_delay c)
    (block_pred_enable c) (first_line_bpg_offset c) (initial_offset c) (rc_buf_thresh c)
    (rc_range_params c) (rc_model_size c) (flatness_min_qp c) (flatness_max_qp c)
    (initial_scale_value c) (scale_decrement_interval c) (scale_increment_interval c)
    (nfl_bpg_offset c) (slice_bpg_offset c) (final_offset c) (vbr_enable c)
    (mux_word_size c) (slice_chunk_size c) (rc_bits c) (dsc_version_minor c)
    (dsc_version_major c) (native_422 c) (native_420 c) (second_line_bpg_offset c)
    (nsl_bpg_offset c) (second_line_offset_adj c).
Definition set_initial_offset (v : Z) (c : drm_dsc_config) : drm_dsc_config :=
  Cfg
    (line_buf_depth c) (bits_per_component c) (convert_rgb c) (slice_count c)
    (slice_width c) (slice_height c) (simple_422 c) (pic_width c) (pic_height c)
    (rc_tgt_offset_high c) (rc_tgt_offset_low c) (bits_per_pixel c) (rc_edge_factor c)
    (rc_quant_incr_limit1 c) (rc_quant_incr_limit0 c) (initial_xmit_delay c)
    (initial_dec_delay c) (block_pred_enable c) (first_line_bpg_offset c) v
    (rc_buf_thresh c) (rc_range_params c) (rc_model_size c) (flatness_min_qp c)
    (flatness_max_qp c) (initial_scale_value c) (scale_decrement_interval c)
    (scale_increment_interval c) (nfl_bpg_offset c) (slice_bpg_offset c) (final_offset c)
    (vbr_enable c) (mux_word_size c) (slice_chunk_size c) (rc_bits c) (dsc_version_minor c)
    (dsc_version_major c) (native_422 c) (native_420 c) (second_line_bpg_offset c)
    (nsl_bpg_offset c) (second_line_offset_adj c).
Definition set_flatness_min_qp (v : Z) (c : drm_dsc_config) : drm_dsc_config :=
  Cfg
    (line_buf_depth c) (bits_per_component c) (convert_rgb c) (slice_count c)
    (slice_width c) (slice_height c) (simple_422 c) (pic_width c) (pic_height c)
    (rc_tgt_offset_high c) (rc_tgt_offset_low c) (bits_per_pixel c) (rc_edge_factor c)
    (rc_quant_incr_limit1 c) (rc_quant_incr_limit0 c) (initial_xmit_delay c)
    (initial_dec_delay c) (block_pred_enable c) (first_line_bpg_offset c)
    (initial_offset c) (rc_buf_thresh c) (rc_range_params c) (rc_model_size c) v
    (flatness_max_qp c) (initial_scale_value c) (scale_decrement_interval c)
    (scale_increment_interval c) (nfl_bpg_offset c) (slice_bpg_offset c) (final_offset c)
    (vbr_enable c) (mux_word_size c) (slice_chunk_size c) (rc_bits c) (dsc_version_minor c)
    (dsc_version_major c) (native_422 c) (native_420 c) (second_line_bpg_offset c)
    (nsl_bpg_offset c) (second_line_offset_adj c).
Definition set_flatness_max_qp (v : Z) (c : drm_dsc_config) : drm_dsc_config :=
  Cfg
    (line_buf_depth c) (bits_per_component c) (convert_rgb c) (slice_count c)
    (slice_width c) (slice_height c) (simple_422 c) (pic_width c) (pic_height c)
    (rc_tgt_offset_high c) (rc_tgt_offset_low c) (bits_per_pixel c) (rc_edge_factor c)
    (rc_quant_incr_limit1 c) (rc_quant_incr_limit0 c) (initial_xmit_delay c)
    (initial_dec_delay c) (block_pred_enable c) (first_line_bpg_offset c)
    (initial_offset c) (rc_buf_thresh c) (rc_range_params c) (rc_model_size c)
    (flatness_min_qp c) v (initial_scale_value c) (scale_decrement_interval c)
    (scale_increment_interval c) (nfl_bpg_offset c) (slice_bpg_offset c) (final_offset c)
    (vbr_enable c) (mux_word_size c) (slice_chunk_size c) (rc_bits c) (dsc_version_minor c)
    (dsc_version_major c) (native_422 c) (native_420 c) (second_line_bpg_offset c)
    (nsl_bpg_offset c) (second_line_offset_adj c).
Definition set_rc_quant_incr_limit0 (v : Z) (c : drm_dsc_config) : drm_dsc_config :=
  Cfg
    (line_buf_depth c) (bits_per_component c) (convert_rgb c) (slice_count c)
    (slice_width c) (slice_height c) (simple_422 c) (pic_width c) (pic_height c)
    (rc_tgt_offset_high c) (rc_tgt_offset_low c) (bits_per_pixel c) (rc_edge_factor c)
    (rc_quant_incr_limit1 c) v (initial_xmit_delay c) (initial_dec_delay c)
    (block_pred_enable c) (first_line_bpg_offset c) (initial_offset c) (rc_buf_thresh c)
    (rc_range_params c) (rc_model_size c) (flatness_min_qp c) (flatness_max_qp c)
    (initial_scale_value c) (scale_decrement_interval c) (scale_increment_interval c)
    (nfl_bpg_offset c) (slice_bpg_offset c) (final_offset c) (vbr_enable c)
    (mux_word_size c) (slice_chunk_size c) (rc_bits c) (dsc_version_minor c)
    (dsc_version_major c) (native_422 c) (native_420 c) (second_line_bpg_offset c)
    (nsl_bpg_offset c) (second_line_offset_adj c).
Definition set_rc_quant_incr_limit1 (v : Z) (c : drm_dsc_config) : drm_dsc_config :=
  Cfg
    (line_buf_depth c) (bits_per_component c) (convert_rgb c) (slice_count c)
    (slice_width c) (slice_height c) (simple_422 c) (pic_width c) (pic_height c)
    (rc_tgt_offset_high c) (rc_tgt_offset_low c) (bits_per_pixel c) (rc_edge_factor c) v
    (rc_quant_incr_limit0 c) (initial_xmit_delay c) (initial_dec_delay c)
    (block_pred_enable c) (first_line_bpg_offset c) (initial_offset c) (rc_buf_thresh c)
    (rc_range_params c) (rc_model_size c) (flatness_min_qp c) (flatness_max_qp c)
    (initial_scale_value c) (scale_decrement_interval c) (scale_increment_interval c)
    (nfl_bpg_offset c) (slice_bpg_offset c) (final_offset c) (vbr_enable c)
    (mux_word_size c) (slice_chunk_size c) (rc_bits c) (dsc_version_minor c)
    (dsc_version_major c) (native_422 c) (native_420 c) (second_line_bpg_offset c)
    (nsl_bpg_offset c) (second_line_offset_adj c).
Definition set_rc_range_params (v : list drm_dsc_rc_range_parameters) (c : drm_dsc_config) : drm_dsc_config :=
  Cfg
    (line_buf_depth c) (bits_per_component c) (convert_rgb c) (slice_count c)
    (slice_width c) (slice_height c) (simple_422 c) (pic_width c) (pic_height c)
    (rc_tgt_offset_high c) (rc_tgt_offset_low c) (bits_per_pixel c) (rc_edge_factor c)
    (rc_quant_incr_limit1 c) (rc_quant_incr_limit0 c) (initial_xmit_delay c)
    (initial_dec_delay c) (block_pred_enable c) (first_line_bpg_offset c)
    (initial_offset c) (rc_buf_thresh c) v (rc_model_size c) (flatness_min_qp c)
    (flatness_max_qp c) (initial_scale_value c) (scale_decrement_interval c)
    (scale_increment_interval c) (nfl_bpg_offset c) (slice_bpg_offset c) (final_offset c)
    (vbr_enable c) (mux_word_size c) (slice_chunk_size c) (rc_bits c) (dsc_version_minor c)
    (dsc_version_major c) (native_422 c) (native_420 c) (second_line_bpg_offset c)
    (nsl_bpg_offset c) (second_line_offset_adj c).
Definition set_slice_chunk_size (v : Z) (c : drm_dsc_config) : drm_dsc_config :=
  Cfg
    (line_buf_depth c) (bits_per_component c) (convert_rgb c) (slice_count c)
    (slice_width c) (slice_height c) (simple_422 c) (pic_width c) (pic_height c)
    (rc_tgt_offset_high c) (rc_tgt_offset_low c) (bits_per_pixel c) (rc_edge_factor c)
    (rc_quant_incr_limit1 c) (rc_quant_incr_limit0 c) (initial_xmit_delay c)
    (initial_dec_delay c) (block_pred_enable c) (first_line_bpg_offset c)
    (initial_offset c) (rc_buf_thresh c) (rc_range_params c) (rc_model_size c)
    (flatness_min_qp c) (flatness_max_qp c) (initial_scale_value c)
    (scale_decrement_interval c) (scale_increment_interval c) (nfl_bpg_offset c)
    (slice_bpg_offset c) (final_offset c) (vbr_enable c) (mux_word_size c) v (rc_bits c)
    (dsc_version_minor c) (dsc_version_major c) (native_422 c) (native_420 c)
    (second_line_bpg_offset c) (nsl_bpg_offset c) (second_line_offset_adj c).
Definition set_initial_scale_value (v : Z) (c : drm_dsc_config) : drm_dsc_config :=
  Cfg
    (line_buf_depth c) (bits_per_component c) (convert_rgb c) (slice_count c)
    (slice_width c) (slice_height c) (simple_422 c) (pic_width c) (pic_height c)
    (rc_tgt_offset_high c) (rc_tgt_offset_low c) (bits_per_pixel c) (rc_edge_factor c)
    (rc_quant_incr_limit1 c) (rc_quant_incr_limit0 c) (initial_xmit_delay c)
    (initial_dec_delay c) (block_pred_enable c) (first_line_bpg_offset c)
    (initial_offset c) (rc_buf_thresh c) (rc_range_params c) (rc_model_size c)
    (flatness_min_qp c) (flatness_max_qp c) v (scale_decrement_interval c)
    (scale_increment_interval c) (nfl_bpg_offset c) (slice_bpg_offset c) (final_offset c)
    (vbr_enable c) (mux_word_size c) (slice_chunk_size c) (rc_bits c) (dsc_version_minor c)
    (dsc_version_major c) (native_422 c) (native_420 c) (second_line_bpg_offset c)
    (nsl_bpg_offset c) (second_line_offset_adj c).
Definition set_scale_decrement_interval (v : Z) (c : drm_dsc_config) : drm_dsc_config :=
  Cfg
    (line_buf_depth c) (bits_per_component c) (convert_rgb c) (slice_count c)
    (slice_width c) (slice_height c) (simple_422 c) (pic_width c) (pic_height c)
    (rc_tgt_offset_high c) (rc_tgt_offset_low c) (bits_per_pixel c) (rc_edge_factor c)
    (rc_quant_incr_limit1 c) (rc_quant_incr_limit0 c) (initial_xmit_delay c)
    (initial_dec_delay c) (block_pred_enable c) (first_line_bpg_offset c)
    (initial_offset c) (rc_buf_thresh c) (rc_range_params c) (rc_model_size c)
    (flatness_min_qp c) (flatness_max_qp c) (initial_scale_value c) v
    (scale_increment_interval c) (nfl_bpg_offset c) (slice_bpg_offset c) (final_offset c)
    (vbr_enable c) (mux_word_size c) (slice_chunk_size c) (rc_bits c) (dsc_version_minor c)
    (dsc_version_major c) (native_422 c) (native_420 c) (second_line_bpg_offset c)
    (nsl_bpg_offset c) (second_line_offset_adj c).
Definition set_final_offset (v : Z) (c : drm_dsc_config) : drm_dsc_config :=
  Cfg
    (line_buf_depth c) (bits_per_component c) (convert_rgb c) (slice_count c)
    (slice_width c) (slice_height c) (simple_422 c) (pic_width c) (pic_height c)
    (rc_tgt_offset_high c) (rc_tgt_offset_low c) (bits_per_pixel c) (rc_edge_factor c)
    (rc_quant_incr_limit1 c) (rc_quant_incr_limit0 c) (initial_xmit_delay c)
    (initial_dec_delay c) (block_pred_enable c) (first_line_bpg_offset c)
    (initial_offset c) (rc_buf_thresh c) (rc_range_params c) (rc_model_size c)
    (flatness_min_qp c) (flatness_max_qp c) (initial_scale_value c)
    (scale_decrement_interval c) (scale_increment_interval c) (nfl_bpg_offset c)
    (slice_bpg_offset c) v (vbr_enable c) (mux_word_size c) (slice_chunk_size c)
    (rc_bits c) (dsc_version_minor c) (dsc_version_major c) (native_422 c) (native_420 c)
    (second_line_bpg_offset c) (nsl_bpg_offset c) (second_line_offset_adj c).
Definition set_nfl_bpg_offset (v : Z) (c : drm_dsc_config) : drm_dsc_config :=
  Cfg
    (line_buf_depth c) (bits_per_component c) (convert_rgb c) (slice_count c)
    (slice_width c) (slice_height c) (simple_422 c) (pic_width c) (pic_height c)
    (rc_tgt_offset_high c) (rc_tgt_offset_low c) (bits_per_pixel c) (rc_edge_factor c)
    (rc_quant_incr_limit1 c) (rc_quant_incr_limit0 c) (initial_xmit_delay c)
    (initial_dec_delay c) (block_pred_enable c) (first_line_bpg_offset c)
    (initial_offset c) (rc_buf_thresh c) (rc_range_params c) (rc_model_size c)
    (flatness_min_qp c) (flatness_max_qp c) (initial_scale_value c)
    (scale_decrement_interval c) (scale_increment_interval c) v (slice_bpg_offset c)
    (final_offset c) (vbr_enable c) (mux_word_size c) (slice_chunk_size c) (rc_bits c)
    (dsc_version_minor c) (dsc_version_major c) (native_422 c) (native_420 c)
    (second_line_bpg_offset c) (nsl_bpg_offset c) (second_line_offset_adj c).
Definition set_slice_bpg_offset (v : Z) (c : drm_dsc_config) : drm_dsc_config :=
  Cfg
    (line_buf_depth c) (bits_per_component c) (convert_rgb c) (slice_count c)
    (slice_width c) (slice_height c) (simple_422 c) (pic_width c) (pic_height c)
    (rc_tgt_offset_high c) (rc_tgt_offset_low c) (bits_per_pixel c) (rc_edge_factor c)
    (rc_quant_incr_limit1 c) (rc_quant_incr_limit0 c) (initial_xmit_delay c)
    (initial_dec_delay c) (block_pred_enable c) (first_line_bpg_offset c)
    (initial_offset c) (rc_buf_thresh c) (rc_range_params c) (rc_model_size c)
    (flatness_min_qp c) (flatness_max_qp c) (initial_scale_value c)
    (scale_decrement_interval c) (scale_increment_interval c) (nfl_bpg_offset c) v
    (final_offset c) (vbr_enable c) (mux_word_size c) (slice_chunk_size c) (rc_bits c)
    (dsc_version_minor c) (dsc_version_major c) (native_422 c) (native_420 c)
    (second_line_bpg_offset c) (nsl_bpg_offset c) (second_line_offset_adj c).
Definition set_scale_increment_interval (v : Z) (c : drm_dsc_config) : drm_dsc_config :=
  Cfg
    (line_buf_depth c) (bits_per_component c) (convert_rgb c) (slice_count c)
    (slice_width c) (slice_height c) (simple_422 c) (pic_width c) (pic_height c)
    (rc_tgt_offset_high c) (rc_tgt_offset_low c) (bits_per_pixel c) (rc_edge_factor c)
    (rc_quant_incr_limit1 c) (rc_quant_incr_limit0 c) (initial_xmit_delay c)
    (initial_dec_delay c) (block_pred_enable c) (first_line_bpg_offset c)
    (initial_offset c) (rc_buf_thresh c) (rc_range_params c) (rc_model_size c)
    (flatness_min_qp c) (flatness_max_qp c) (initial_scale_value c)
    (scale_decrement_interval c) v (nfl_bpg_offset c) (slice_bpg_offset c) (final_offset c)
    (vbr_enable c) (mux_word_size c) (slice_chunk_size c) (rc_bits c) (dsc_version_minor c)
    (dsc_version_major c) (native_422 c) (native_420 c) (second_line_bpg_offset c)
    (nsl_bpg_offset c) (second_line_offset_adj c).
Definition set_rc_bits (v : Z) (c : drm_dsc_config) : drm_dsc_config :=
  Cfg
    (line_buf_depth c) (bits_per_component c) (convert_rgb c) (slice_count c)
    (slice_width c) (slice_height c) (simple_422 c) (pic_width c) (pic_height c)
    (rc_tgt_offset_high c) (rc_tgt_offset_low c) (bits_per_pixel c) (rc_edge_factor c)
    (rc_quant_incr_limit1 c) (rc_quant_incr_limit0 c) (initial_xmit_delay c)
    (initial_dec_delay c) (block_pred_enable c) (first_line_bpg_offset c)
    (initial_offset c) (rc_buf_thresh c) (rc_range_params c) (rc_model_size c)
    (flatness_min_qp c) (flatness_max_qp c) (initial_scale_value c)
    (scale_decrement_interval c) (scale_increment_interval c) (nfl_bpg_offset c)
    (slice_bpg_offset c) (final_offset c) (vbr_enable c) (mux_word_size c)
    (slice_chunk_size c) v (dsc_version_minor c) (dsc_version_major c) (native_422 c)
    (native_420 c) (second_line_bpg_offset c) (nsl_bpg_offset c) (second_line_offset_adj c).
Definition set_initial_dec_delay (v : Z) (c : drm_dsc_config) : drm_dsc_config :=
  Cfg
    (line_buf_depth c) (bits_per_component c) (convert_rgb c) (slice_count c)
    (slice_width c) (slice_height c) (simple_422 c) (pic_width c) (pic_height c)
    (rc_tgt_offset_high c) (rc_tgt_offset_low c) (bits_per_pixel c) (rc_edge_factor c)
    (rc_quant_incr_limit1 c) (rc_quant_incr_limit0 c) (initial_xmit_delay c) v
    (block_pred_enable c) (first_line_bpg_offset c) (initial_offset c) (rc_buf_thresh c)
    (rc_range_params c) (rc_model_size c) (flatness_min_qp c) (flatness_max_qp c)
    (initial_scale_value c) (scale_decrement_interval c) (scale_increment_interval c)
    (nfl_bpg_offset c) (slice_bpg_offset c) (final_offset c) (vbr_enable c)
    (mux_word_size c) (slice_chunk_size c) (rc_bits c) (dsc_version_minor c)
    (dsc_version_major c) (native_422 c) (native_420 c) (second_line_bpg_offset c)
    (nsl_bpg_offset c) (second_line_offset_adj c).

(** ** Rate-control tables *)

Record rc_parameters := RcParams {
  rcp_initial_xmit_delay : Z;
  rcp_first_line_bpg_offset : Z;
  rcp_initial_offset : Z;
  rcp_flatness_min_qp : Z;
  rcp_flatness_max_qp : Z;
  rcp_rc_quant_incr_limit0 : Z;
  rcp_rc_quant_incr_limit1 : Z;
  rcp_rc_range_params : list drm_dsc_rc_range_parameters
}.

Record rc_parameters_data := RcData { bpp : Z; bpc : Z; params : rc_parameters }.

(** The u8 bpp of a row is assigned this. *)
Definition DSC_BPP (bpp : Z) : Z := u8 (Z.shiftl bpp 4).

(** The initialiser of a u8 triple. *)
Definition mk (min_qp max_qp offset : Z) : drm_dsc_rc_range_parameters :=
  RcRange (u8 min_qp) (u8 max_qp) (u8 offset).

(** The rows of each table up to its terminating empty row. *)
Definition rc_parameters_pre_scr : list rc_parameters_data :=
  [RcData (DSC_BPP 6) 8 (RcParams 683 15 6144 3 13 11 11 [
     mk 0 2 0; mk 1 4 (-2); mk 3 6 (-2); mk 4 6 (-4); mk 5 7 (-6); mk 5 7 (-6);
     mk 6 7 (-6); mk 6 8 (-8); mk 7 9 (-8); mk 8 10 (-10); mk 9 11 (-10); mk 10 12 (-12);
     mk 10 13 (-12); mk 12 14 (-12); mk 15 15 (-12)]);
   RcData (DSC_BPP 8) 8 (RcParams 512 12 6144 3 12 11 11 [
     mk 0 4 2; mk 0 4 0; mk 1 5 0; mk 1 6 (-2); mk 3 7 (-4); mk 3 7 (-6); mk 3 7 (-8);
     mk 3 8 (-8); mk 3 9 (-8); mk 3 10 (-10); mk 5 11 (-10); mk 5 12 (-12); mk 5 13 (-12);
     mk 7 13 (-12); mk 13 15 (-12)]);
   RcData (DSC_BPP 8) 10 (RcParams 512 12 6144 7 16 15 15 [
     mk 0 4 2; mk 4 8 0; mk 5 9 0; mk 5 10 (-2); mk 7 11 (-4); mk 7 11 (-6); mk 7 11 (-8);
     mk 7 12 (-8); mk 7 13 (-8); mk 7 14 (-10); mk 9 15 (-10); mk 9 16 (-12);
     mk 9 17 (-12); mk 11 17 (-12); mk 17 19 (-12)]);
   RcData (DSC_BPP 8) 12 (RcParams 512 12 6144 11 20 19 19 [
     mk 0 12 2; mk 4 12 0; mk 9 13 0; mk 9 14 (-2); mk 11 15 (-4); mk 11 15 (-6);
     mk 11 15 (-8); mk 11 16 (-8); mk 11 17 (-8); mk 11 18 (-10); mk 13 19 (-10);
     mk 13 20 (-12); mk 13 21 (-12); mk 15 21 (-12); mk 21 23 (-12)]);
   RcData (DSC_BPP 10) 8 (RcParams 410 12 5632 3 12 11 11 [
     mk 0 3 2; mk 0 4 0; mk 1 5 0; mk 2 6 (-2); mk 3 7 (-4); mk 3 7 (-6); mk 3 7 (-8);
     mk 3 8 (-8); mk 3 9 (-8); mk 3 9 (-10); mk 5 10 (-10); mk 5 11 (-10); mk 5 12 (-12);
     mk 7 13 (-12); mk 13 15 (-12)]);
   RcData (DSC_BPP 10) 10 (RcParams 410 12 5632 7 16 15 15 [
     mk 0 7 2; mk 4 8 0; mk 5 9 0; mk 6 10 (-2); mk 7 11 (-4); mk 7 11 (-6); mk 7 11 (-8);
     mk 7 12 (-8); mk 7 13 (-8); mk 7 13 (-10); mk 9 14 (-10); mk 9 15 (-10);
     mk 9 16 (-12); mk 11 17 (-12); mk 17 19 (-12)]);
   RcData (DSC_BPP 10) 12 (RcParams 410 12 5632 11 20 19 19 [
     mk 0 11 2; mk 4 12 0; mk 9 13 0; mk 10 14 (-2); mk 11 15 (-4); mk 11 15 (-6);
     mk 11 15 (-8); mk 11 16 (-8); mk 11 17 (-8); mk 11 17 (-10); mk 13 18 (-10);
     mk 13 19 (-10); mk 13 20 (-12); mk 15 21 (-12); mk 21 23 (-12)]);
   RcData (DSC_BPP 12) 8 (RcParams 341 15 2048 3 12 11 11 [
     mk 0 2 2; mk 0 4 0; mk 1 5 0; mk 1 6 (-2); mk 3 7 (-4); mk 3 7 (-6); mk 3 7 (-8);
     mk 3 8 (-8); mk 3 9 (-8); mk 3 10 (-10); mk 5 11 (-10); mk 5 12 (-12); mk 5 13 (-12);
     mk 7 13 (-12); mk 13 15 (-12)]);
   RcData (DSC_BPP 12) 10 (RcParams 341 15 2048 7 16 15 15 [
     mk 0 2 2; mk 2 5 0; mk 3 7 0; mk 4 8 (-2); mk 6 9 (-4); mk 7 10 (-6); mk 7 11 (-8);
     mk 7 12 (-8); mk 7 13 (-8); mk 7 14 (-10); mk 9 15 (-10); mk 9 16 (-12);
     mk 9 17 (-12); mk 11 17 (-12); mk 17 19 (-12)]);
   RcData (DSC_BPP 12) 12 (RcParams 341 15 2048 11 20 19 19 [
     mk 0 6 2; mk 4 9 0; mk 7 11 0; mk 8 12 (-2); mk 10 13 (-4); mk 11 14 (-6);
     mk 11 15 (-8); mk 11 16 (-8); mk 11 17 (-8); mk 11 18 (-10); mk 13 19 (-10);
     mk 13 20 (-12); mk 13 21 (-12); mk 15 21 (-12); mk 21 23 (-12)]);
   RcData (DSC_BPP 15) 8 (RcParams 273 15 2048 3 12 11 11 [
     mk 0 0 10; mk 0 1 8; mk 0 1 6; mk 0 2 4; mk 1 2 2; mk 1 3 0; mk 1 4 (-2); mk 2 4 (-4);
     mk 3 4 (-6); mk 3 5 (-8); mk 4 6 (-10); mk 5 7 (-10); mk 5 8 (-12); mk 7 13 (-12);
     mk 13 15 (-12)]);
   RcData (DSC_BPP 15) 10 (RcParams 273 15 2048 7 16 15 15 [
     mk 0 2 10; mk 2 5 8; mk 3 5 6; mk 4 6 4; mk 5 6 2; mk 5 7 0; mk 5 8 (-2); mk 6 8 (-4);
     mk 7 8 (-6); mk 7 9 (-8); mk 8 10 (-10); mk 9 11 (-10); mk 9 12 (-12); mk 11 17 (-12);
     mk 17 19 (-12)]);
   RcData (DSC_BPP 15) 12 (RcParams 273 15 2048 11 20 19 19 [
     mk 0 4 10; mk 2 7 8; mk 4 9 6; mk 6 11 4; mk 9 11 2; mk 9 11 0; mk 9 12 (-2);
     mk 10 12 (-4); mk 11 12 (-6); mk 11 13 (-8); mk 12 14 (-10); mk 13 15 (-10);
     mk 13 16 (-12); mk 15 21 (-12); mk 21 23 (-12)])].

Definition rc_parameters_1_2_444 : list rc_parameters_data :=
  [RcData (DSC_BPP 6) 8 (RcParams 768 15 6144 3 13 11 11 [
     mk 0 4 0; mk 1 6 (-2); mk 3 8 (-2); mk 4 8 (-4); mk 5 9 (-6); mk 5 9 (-6);
     mk 6 9 (-6); mk 6 10 (-8); mk 7 11 (-8); mk 8 12 (-10); mk 9 12 (-10); mk 10 12 (-12);
     mk 10 12 (-12); mk 11 12 (-12); mk 13 14 (-12)]);
   RcData (DSC_BPP 6) 10 (RcParams 768 15 6144 7 17 15 15 [
     mk 0 8 0; mk 3 10 (-2); mk 7 12 (-2); mk 8 12 (-4); mk 9 13 (-6); mk 9 13 (-6);
     mk 10 13 (-6); mk 10 14 (-8); mk 11 15 (-8); mk 12 16 (-10); mk 13 16 (-10);
     mk 14 16 (-12); mk 14 16 (-12); mk 15 16 (-12); mk 17 18 (-12)]);
   RcData (DSC_BPP 6) 12 (RcParams 768 15 6144 11 21 19 19 [
     mk 0 12 0; mk 5 14 (-2); mk 11 16 (-2); mk 12 16 (-4); mk 13 17 (-6); mk 13 17 (-6);
     mk 14 17 (-6); mk 14 18 (-8); mk 15 19 (-8); mk 16 20 (-10); mk 17 20 (-10);
     mk 18 20 (-12); mk 18 20 (-12); mk 19 20 (-12); mk 21 22 (-12)]);
   RcData (DSC_BPP 6) 14 (RcParams 768 15 6144 15 25 23 23 [
     mk 0 16 0; mk 7 18 (-2); mk 15 20 (-2); mk 16 20 (-4); mk 17 21 (-6); mk 17 21 (-6);
     mk 18 21 (-6); mk 18 22 (-8); mk 19 23 (-8); mk 20 24 (-10); mk 21 24 (-10);
     mk 22 24 (-12); mk 22 24 (-12); mk 23 24 (-12); mk 25 26 (-12)]);
   RcData (DSC_BPP 6) 16 (RcParams 768 15 6144 19 29 27 27 [
     mk 0 20 0; mk 9 22 (-2); mk 19 24 (-2); mk 20 24 (-4); mk 21 25 (-6); mk 21 25 (-6);
     mk 22 25 (-6); mk 22 26 (-8); mk 23 27 (-8); mk 24 28 (-10); mk 25 28 (-10);
     mk 26 28 (-12); mk 26 28 (-12); mk 27 28 (-12); mk 29 30 (-12)]);
   RcData (DSC_BPP 8) 8 (RcParams 512 12 6144 3 12 11 11 [
     mk 0 4 2; mk 0 4 0; mk 1 5 0; mk 1 6 (-2); mk 3 7 (-4); mk 3 7 (-6); mk 3 7 (-8);
     mk 3 8 (-8); mk 3 9 (-8); mk 3 10 (-10); mk 5 10 (-10); mk 5 11 (-12); mk 5 11 (-12);
     mk 9 12 (-12); mk 12 13 (-12)]);
   RcData (DSC_BPP 8) 10 (RcParams 512 12 6144 7 16 15 15 [
     mk 0 8 2; mk 4 8 0; mk 5 9 0; mk 5 10 (-2); mk 7 11 (-4); mk 7 11 (-6); mk 7 11 (-8);
     mk 7 12 (-8); mk 7 13 (-8); mk 7 14 (-10); mk 9 14 (-10); mk 9 15 (-12);
     mk 9 15 (-12); mk 13 16 (-12); mk 16 17 (-12)]);
   RcData (DSC_BPP 8) 12 (RcParams 512 12 6144 11 20 19 19 [
     mk 0 12 2; mk 4 12 0; mk 9 13 0; mk 9 14 (-2); mk 11 15 (-4); mk 11 15 (-6);
     mk 11 15 (-8); mk 11 16 (-8); mk 11 17 (-8); mk 11 18 (-10); mk 13 18 (-10);
     mk 13 19 (-12); mk 13 19 (-12); mk 17 20 (-12); mk 20 21 (-12)]);
   RcData (DSC_BPP 8) 14 (RcParams 512 12 6144 15 24 23 23 [
     mk 0 12 2; mk 5 13 0; mk 11 15 0; mk 12 17 (-2); mk 15 19 (-4); mk 15 19 (-6);
     mk 15 19 (-8); mk 15 20 (-8); mk 15 21 (-8); mk 15 22 (-10); mk 17 22 (-10);
     mk 17 23 (-12); mk 17 23 (-12); mk 21 24 (-12); mk 24 25 (-12)]);
   RcData (DSC_BPP 8) 16 (RcParams 512 12 6144 19 28 27 27 [
     mk 0 12 2; mk 6 14 0; mk 13 17 0; mk 15 20 (-2); mk 19 23 (-4); mk 19 23 (-6);
     mk 19 23 (-8); mk 19 24 (-8); mk 19 25 (-8); mk 19 26 (-10); mk 21 26 (-10);
     mk 21 27 (-12); mk 21 27 (-12); mk 25 28 (-12); mk 28 29 (-12)]);
   RcData (DSC_BPP 10) 8 (RcParams 410 15 5632 3 12 11 11 [
     mk 0 3 2; mk 0 4 0; mk 1 5 0; mk 2 6 (-2); mk 3 7 (-4); mk 3 7 (-6); mk 3 7 (-8);
     mk 3 8 (-8); mk 3 9 (-8); mk 3 9 (-10); mk 5 10 (-10); mk 5 10 (-10); mk 5 11 (-12);
     mk 7 11 (-12); mk 11 12 (-12)]);
   RcData (DSC_BPP 10) 10 (RcParams 410 15 5632 7 16 15 15 [
     mk 0 7 2; mk 4 8 0; mk 5 9 0; mk 6 10 (-2); mk 7 11 (-4); mk 7 11 (-6); mk 7 11 (-8);
     mk 7 12 (-8); mk 7 13 (-8); mk 7 13 (-10); mk 9 14 (-10); mk 9 14 (-10);
     mk 9 15 (-12); mk 11 15 (-12); mk 15 16 (-12)]);
   RcData (DSC_BPP 10) 12 (RcParams 410 15 5632 11 20 19 19 [
     mk 0 11 2; mk 4 12 0; mk 9 13 0; mk 10 14 (-2); mk 11 15 (-4); mk 11 15 (-6);
     mk 11 15 (-8); mk 11 16 (-8); mk 11 17 (-8); mk 11 17 (-10); mk 13 18 (-10);
     mk 13 18 (-10); mk 13 19 (-12); mk 15 19 (-12); mk 19 20 (-12)]);
   RcData (DSC_BPP 10) 14 (RcParams 410 15 5632 15 24 23 23 [
     mk 0 11 2; mk 5 13 0; mk 11 15 0; mk 13 18 (-2); mk 15 19 (-4); mk 15 19 (-6);
     mk 15 19 (-8); mk 15 20 (-8); mk 15 21 (-8); mk 15 21 (-10); mk 17 22 (-10);
     mk 17 22 (-10); mk 17 23 (-12); mk 19 23 (-12); mk 23 24 (-12)]);
   RcData (DSC_BPP 10) 16 (RcParams 410 15 5632 19 28 27 27 [
     mk 0 11 2; mk 6 14 0; mk 13 17 0; mk 16 20 (-2); mk 19 23 (-4); mk 19 23 (-6);
     mk 19 23 (-8); mk 19 24 (-8); mk 19 25 (-8); mk 19 25 (-10); mk 21 26 (-10);
     mk 21 26 (-10); mk 21 27 (-12); mk 23 27 (-12); mk 27 28 (-12)]);
   RcData (DSC_BPP 12) 8 (RcParams 341 15 2048 3 12 11 11 [
     mk 0 2 2; mk 0 4 0; mk 1 5 0; mk 1 6 (-2); mk 3 7 (-4); mk 3 7 (-6); mk 3 7 (-8);
     mk 3 8 (-8); mk 3 8 (-8); mk 3 9 (-10); mk 5 9 (-10); mk 5 9 (-12); mk 5 9 (-12);
     mk 7 10 (-12); mk 10 11 (-12)]);
   RcData (DSC_BPP 12) 10 (RcParams 341 15 2048 7 16 15 15 [
     mk 0 2 2; mk 2 5 0; mk 3 7 0; mk 4 8 (-2); mk 6 9 (-4); mk 7 10 (-6); mk 7 11 (-8);
     mk 7 12 (-8); mk 7 12 (-8); mk 7 13 (-10); mk 9 13 (-10); mk 9 13 (-12);
     mk 9 13 (-12); mk 11 14 (-12); mk 14 15 (-12)]);
   RcData (DSC_BPP 12) 12 (RcParams 341 15 2048 11 20 19 19 [
     mk 0 6 2; mk 4 9 0; mk 7 11 0; mk 8 12 (-2); mk 10 13 (-4); mk 11 14 (-6);
     mk 11 15 (-8); mk 11 16 (-8); mk 11 16 (-8); mk 11 17 (-10); mk 13 17 (-10);
     mk 13 17 (-12); mk 13 17 (-12); mk 15 18 (-12); mk 18 19 (-12)]);
   RcData (DSC_BPP 12) 14 (RcParams 341 15 2048 15 24 23 23 [
     mk 0 6 2; mk 7 10 0; mk 9 13 0; mk 11 16 (-2); mk 14 17 (-4); mk 15 18 (-6);
     mk 15 19 (-8); mk 15 20 (-8); mk 15 20 (-8); mk 15 21 (-10); mk 17 21 (-10);
     mk 17 21 (-12); mk 17 21 (-12); mk 19 22 (-12); mk 22 23 (-12)]);
   RcData (DSC_BPP 12) 16 (RcParams 341 15 2048 19 28 27 27 [
     mk 0 6 2; mk 6 11 0; mk 11 15 0; mk 14 18 (-2); mk 18 21 (-4); mk 19 22 (-6);
     mk 19 23 (-8); mk 19 24 (-8); mk 19 24 (-8); mk 19 25 (-10); mk 21 25 (-10);
     mk 21 25 (-12); mk 21 25 (-12); mk 23 26 (-12); mk 26 27 (-12)]);
   RcData (DSC_BPP 15) 8 (RcParams 273 15 2048 3 12 11 11 [
     mk 0 0 10; mk 0 1 8; mk 0 1 6; mk 0 2 4; mk 1 2 2; mk 1 3 0; mk 1 3 (-2); mk 2 4 (-4);
     mk 2 5 (-6); mk 3 5 (-8); mk 4 6 (-10); mk 4 7 (-10); mk 5 7 (-12); mk 7 8 (-12);
     mk 8 9 (-12)]);
   RcData (DSC_BPP 15) 10 (RcParams 273 15 2048 7 16 15 15 [
     mk 0 2 10; mk 2 5 8; mk 3 5 6; mk 4 6 4; mk 5 6 2; mk 5 7 0; mk 5 7 (-2); mk 6 8 (-4);
     mk 6 9 (-6); mk 7 9 (-8); mk 8 10 (-10); mk 8 11 (-10); mk 9 11 (-12); mk 11 12 (-12);
     mk 12 13 (-12)]);
   RcData (DSC_BPP 15) 12 (RcParams 273 15 2048 11 20 19 19 [
     mk 0 4 10; mk 2 7 8; mk 4 9 6; mk 6 11 4; mk 9 11 2; mk 9 11 0; mk 9 12 (-2);
     mk 10 12 (-4); mk 11 13 (-6); mk 11 13 (-8); mk 12 14 (-10); mk 13 15 (-10);
     mk 13 15 (-12); mk 15 16 (-12); mk 16 17 (-12)]);
   RcData (DSC_BPP 15) 14 (RcParams 273 15 2048 15 24 23 23 [
     mk 0 4 10; mk 3 8 8; mk 6 11 6; mk 9 14 4; mk 13 15 2; mk 13 15 0; mk 13 16 (-2);
     mk 14 16 (-4); mk 15 17 (-6); mk 15 17 (-8); mk 16 18 (-10); mk 17 19 (-10);
     mk 17 19 (-12); mk 19 20 (-12); mk 20 21 (-12)]);
   RcData (DSC_BPP 15) 16 (RcParams 273 15 2048 19 28 27 27 [
     mk 0 4 10; mk 4 9 8; mk 8 13 6; mk 12 17 4; mk 17 19 2; mk 17 20 0; mk 17 20 (-2);
     mk 18 20 (-4); mk 19 21 (-6); mk 19 21 (-8); mk 20 22 (-10); mk 21 23 (-10);
     mk 21 23 (-12); mk 23 24 (-12); mk 24 25 (-12)])].

Definition rc_parameters_1_2_422 : list rc_parameters_data :=
  [RcData (DSC_BPP 6) 8 (RcParams 512 15 6144 3 12 11 11 [
     mk 0 4 2; mk 0 4 0; mk 1 5 0; mk 1 6 (-2); mk 3 7 (-4); mk 3 7 (-6); mk 3 7 (-8);
     mk 3 8 (-8); mk 3 9 (-8); mk 3 10 (-10); mk 5 10 (-10); mk 5 11 (-12); mk 5 11 (-12);
     mk 9 12 (-12); mk 12 13 (-12)]);
   RcData (DSC_BPP 6) 10 (RcParams 512 15 6144 7 16 15 15 [
     mk 0 8 2; mk 4 8 0; mk 5 9 0; mk 5 10 (-2); mk 7 11 (-4); mk 7 11 (-6); mk 7 11 (-8);
     mk 7 12 (-8); mk 7 13 (-8); mk 7 14 (-10); mk 9 14 (-10); mk 9 15 (-12);
     mk 9 15 (-12); mk 13 16 (-12); mk 16 17 (-12)]);
   RcData (DSC_BPP 6) 12 (RcParams 512 15 6144 11 20 19 19 [
     mk 0 12 2; mk 4 12 0; mk 9 13 0; mk 9 14 (-2); mk 11 15 (-4); mk 11 15 (-6);
     mk 11 15 (-8); mk 11 16 (-8); mk 11 17 (-8); mk 11 18 (-10); mk 13 18 (-10);
     mk 13 19 (-12); mk 13 19 (-12); mk 17 20 (-12); mk 20 21 (-12)]);
   RcData (DSC_BPP 6) 14 (RcParams 512 15 6144 15 24 23 23 [
     mk 0 12 2; mk 5 13 0; mk 11 15 0; mk 12 17 (-2); mk 15 19 (-4); mk 15 19 (-6);
     mk 15 19 (-8); mk 15 20 (-8); mk 15 21 (-8); mk 15 22 (-10); mk 17 22 (-10);
     mk 17 23 (-12); mk 17 23 (-12); mk 21 24 (-12); mk 24 25 (-12)]);
   RcData (DSC_BPP 6) 16 (RcParams 512 15 6144 19 28 27 27 [
     mk 0 12 2; mk 6 14 0; mk 13 17 0; mk 15 20 (-2); mk 19 23 (-4); mk 19 23 (-6);
     mk 19 23 (-8); mk 19 24 (-8); mk 19 25 (-8); mk 19 26 (-10); mk 21 26 (-10);
     mk 21 27 (-12); mk 21 27 (-12); mk 25 28 (-12); mk 28 29 (-12)]);
   RcData (DSC_BPP 7) 8 (RcParams 410 15 5632 3 12 11 11 [
     mk 0 3 2; mk 0 4 0; mk 1 5 0; mk 2 6 (-2); mk 3 7 (-4); mk 3 7 (-6); mk 3 7 (-8);
     mk 3 8 (-8); mk 3 9 (-8); mk 3 9 (-10); mk 5 10 (-10); mk 5 10 (-10); mk 5 11 (-12);
     mk 7 11 (-12); mk 11 12 (-12)]);
   RcData (DSC_BPP 7) 10 (RcParams 410 15 5632 7 16 15 15 [
     mk 0 7 2; mk 4 8 0; mk 5 9 0; mk 6 10 (-2); mk 7 11 (-4); mk 7 11 (-6); mk 7 11 (-8);
     mk 7 12 (-8); mk 7 13 (-8); mk 7 13 (-10); mk 9 14 (-10); mk 9 14 (-10);
     mk 9 15 (-12); mk 11 15 (-12); mk 15 16 (-12)]);
   RcData (DSC_BPP 7) 12 (RcParams 410 15 5632 11 20 19 19 [
     mk 0 11 2; mk 4 12 0; mk 9 13 0; mk 10 14 (-2); mk 11 15 (-4); mk 11 15 (-6);
     mk 11 15 (-8); mk 11 16 (-8); mk 11 17 (-8); mk 11 17 (-10); mk 13 18 (-10);
     mk 13 18 (-10); mk 13 19 (-12); mk 15 19 (-12); mk 19 20 (-12)]);
   RcData (DSC_BPP 7) 14 (RcParams 410 15 5632 15 24 23 23 [
     mk 0 11 2; mk 5 13 0; mk 11 15 0; mk 13 18 (-2); mk 15 19 (-4); mk 15 19 (-6);
     mk 15 19 (-8); mk 15 20 (-8); mk 15 21 (-8); mk 15 21 (-10); mk 17 22 (-10);
     mk 17 22 (-10); mk 17 23 (-12); mk 19 23 (-12); mk 23 24 (-12)]);
   RcData (DSC_BPP 7) 16 (RcParams 410 15 5632 19 28 27 27 [
     mk 0 11 2; mk 6 14 0; mk 13 17 0; mk 16 20 (-2); mk 19 23 (-4); mk 19 23 (-6);
     mk 19 23 (-8); mk 19 24 (-8); mk 19 25 (-8); mk 19 25 (-10); mk 21 26 (-10);
     mk 21 26 (-10); mk 21 27 (-12); mk 23 27 (-12); mk 27 28 (-12)]);
   RcData (DSC_BPP 8) 8 (RcParams 341 15 2048 3 12 11 11 [
     mk 0 2 2; mk 0 4 0; mk 1 5 0; mk 1 6 (-2); mk 3 7 (-4); mk 3 7 (-6); mk 3 7 (-8);
     mk 3 8 (-8); mk 3 8 (-8); mk 3 9 (-10); mk 5 9 (-10); mk 5 9 (-12); mk 5 9 (-12);
     mk 7 10 (-12); mk 10 11 (-12)]);
   RcData (DSC_BPP 8) 10 (RcParams 341 15 2048 7 16 15 15 [
     mk 0 2 2; mk 2 5 0; mk 3 7 0; mk 4 8 (-2); mk 6 9 (-4); mk 7 10 (-6); mk 7 11 (-8);
     mk 7 12 (-8); mk 7 12 (-8); mk 7 13 (-10); mk 9 13 (-10); mk 9 13 (-12);
     mk 9 13 (-12); mk 11 14 (-12); mk 14 15 (-12)]);
   RcData (DSC_BPP 8) 12 (RcParams 341 15 2048 11 20 19 19 [
     mk 0 6 2; mk 4 9 0; mk 7 11 0; mk 8 12 (-2); mk 10 13 (-4); mk 11 14 (-6);
     mk 11 15 (-8); mk 11 16 (-8); mk 11 16 (-8); mk 11 17 (-10); mk 13 17 (-10);
     mk 13 17 (-12); mk 13 17 (-12); mk 15 18 (-12); mk 18 19 (-12)]);
   RcData (DSC_BPP 8) 14 (RcParams 341 15 2048 15 24 23 23 [
     mk 0 6 2; mk 7 10 0; mk 9 13 0; mk 11 16 (-2); mk 14 17 (-4); mk 15 18 (-6);
     mk 15 19 (-8); mk 15 20 (-8); mk 15 20 (-8); mk 15 21 (-10); mk 17 21 (-10);
     mk 17 21 (-12); mk 17 21 (-12); mk 19 22 (-12); mk 22 23 (-12)]);
   RcData (DSC_BPP 8) 16 (RcParams 341 15 2048 19 28 27 27 [
     mk 0 6 2; mk 6 11 0; mk 11 15 0; mk 14 18 (-2); mk 18 21 (-4); mk 19 22 (-6);
     mk 19 23 (-8); mk 19 24 (-8); mk 19 24 (-8); mk 19 25 (-10); mk 21 25 (-10);
     mk 21 25 (-12); mk 21 25 (-12); mk 23 26 (-12); mk 26 27 (-12)]);
   RcData (DSC_BPP 10) 8 (RcParams 273 15 2048 3 12 11 11 [
     mk 0 0 10; mk 0 1 8; mk 0 1 6; mk 0 2 4; mk 1 2 2; mk 1 3 0; mk 1 3 (-2); mk 2 4 (-4);
     mk 2 5 (-6); mk 3 5 (-8); mk 4 6 (-10); mk 4 7 (-10); mk 5 7 (-12); mk 7 8 (-12);
     mk 8 9 (-12)]);
   RcData (DSC_BPP 10) 10 (RcParams 273 15 2048 7 16 15 15 [
     mk 0 2 10; mk 2 5 8; mk 3 5 6; mk 4 6 4; mk 5 6 2; mk 5 7 0; mk 5 7 (-2); mk 6 8 (-4);
     mk 6 9 (-6); mk 7 9 (-8); mk 8 10 (-10); mk 8 11 (-10); mk 9 11 (-12); mk 11 12 (-12);
     mk 12 13 (-12)]);
   RcData (DSC_BPP 10) 12 (RcParams 273 15 2048 11 20 19 19 [
     mk 0 4 10; mk 2 7 8; mk 4 9 6; mk 6 11 4; mk 9 11 2; mk 9 11 0; mk 9 12 (-2);
     mk 10 12 (-4); mk 11 13 (-6); mk 11 13 (-8); mk 12 14 (-10); mk 13 15 (-10);
     mk 13 15 (-12); mk 15 16 (-12); mk 16 17 (-12)]);
   RcData (DSC_BPP 10) 14 (RcParams 273 15 2048 15 24 23 23 [
     mk 0 4 10; mk 3 8 8; mk 6 11 6; mk 9 14 4; mk 13 15 2; mk 13 15 0; mk 13 16 (-2);
     mk 14 16 (-4); mk 15 17 (-6); mk 15 17 (-8); mk 16 18 (-10); mk 17 19 (-10);
     mk 17 19 (-12); mk 19 20 (-12); mk 20 21 (-12)]);
   RcData (DSC_BPP 10) 16 (RcParams 273 15 2048 19 28 27 27 [
     mk 0 4 10; mk 4 9 8; mk 8 13 6; mk 12 17 4; mk 17 19 2; mk 17 20 0; mk 17 20 (-2);
     mk 18 20 (-4); mk 19 21 (-6); mk 19 21 (-8); mk 20 22 (-10); mk 21 23 (-10);
     mk 21 23 (-12); mk 23 24 (-12); mk 24 25 (-12)])].

Definition rc_parameters_1_2_420 : list rc_parameters_data :=
  [RcData (DSC_BPP 4) 8 (RcParams 512 12 6144 3 12 11 11 [
     mk 0 4 2; mk 0 4 0; mk 1 5 0; mk 1 6 (-2); mk 3 7 (-4); mk 3 7 (-6); mk 3 7 (-8);
     mk 3 8 (-8); mk 3 9 (-8); mk 3 10 (-10); mk 5 10 (-10); mk 5 11 (-12); mk 5 11 (-12);
     mk 9 12 (-12); mk 12 13 (-12)]);
   RcData (DSC_BPP 4) 10 (RcParams 512 12 6144 7 16 15 15 [
     mk 0 8 2; mk 4 8 0; mk 5 9 0; mk 5 10 (-2); mk 7 11 (-4); mk 7 11 (-6); mk 7 11 (-8);
     mk 7 12 (-8); mk 7 13 (-8); mk 7 14 (-10); mk 9 14 (-10); mk 9 15 (-12);
     mk 9 15 (-12); mk 13 16 (-12); mk 16 17 (-12)]);
   RcData (DSC_BPP 4) 12 (RcParams 512 12 6144 11 20 19 19 [
     mk 0 12 2; mk 4 12 0; mk 9 13 0; mk 9 14 (-2); mk 11 15 (-4); mk 11 15 (-6);
     mk 11 15 (-8); mk 11 16 (-8); mk 11 17 (-8); mk 11 18 (-10); mk 13 18 (-10);
     mk 13 19 (-12); mk 13 19 (-12); mk 17 20 (-12); mk 20 21 (-12)]);
   RcData (DSC_BPP 4) 14 (RcParams 512 12 6144 15 24 23 23 [
     mk 0 12 2; mk 5 13 0; mk 11 15 0; mk 12 17 (-2); mk 15 19 (-4); mk 15 19 (-6);
     mk 15 19 (-8); mk 15 20 (-8); mk 15 21 (-8); mk 15 22 (-10); mk 17 22 (-10);
     mk 17 23 (-12); mk 17 23 (-12); mk 21 24 (-12); mk 24 25 (-12)]);
   RcData (DSC_BPP 4) 16 (RcParams 512 12 6144 19 28 27 27 [
     mk 0 12 2; mk 6 14 0; mk 13 17 0; mk 15 20 (-2); mk 19 23 (-4); mk 19 23 (-6);
     mk 19 23 (-8); mk 19 24 (-8); mk 19 25 (-8); mk 19 26 (-10); mk 21 26 (-10);
     mk 21 27 (-12); mk 21 27 (-12); mk 25 28 (-12); mk 28 29 (-12)]);
   RcData (DSC_BPP 5) 8 (RcParams 410 15 5632 3 12 11 11 [
     mk 0 3 2; mk 0 4 0; mk 1 5 0; mk 2 6 (-2); mk 3 7 (-4); mk 3 7 (-6); mk 3 7 (-8);
     mk 3 8 (-8); mk 3 9 (-8); mk 3 9 (-10); mk 5 10 (-10); mk 5 10 (-10); mk 5 11 (-12);
     mk 7 11 (-12); mk 11 12 (-12)]);
   RcData (DSC_BPP 5) 10 (RcParams 410 15 5632 7 16 15 15 [
     mk 0 7 2; mk 4 8 0; mk 5 9 0; mk 6 10 (-2); mk 7 11 (-4); mk 7 11 (-6); mk 7 11 (-8);
     mk 7 12 (-8); mk 7 13 (-8); mk 7 13 (-10); mk 9 14 (-10); mk 9 14 (-10);
     mk 9 15 (-12); mk 11 15 (-12); mk 15 16 (-12)]);
   RcData (DSC_BPP 5) 12 (RcParams 410 15 5632 11 20 19 19 [
     mk 0 11 2; mk 4 12 0; mk 9 13 0; mk 10 14 (-2); mk 11 15 (-4); mk 11 15 (-6);
     mk 11 15 (-8); mk 11 16 (-8); mk 11 17 (-8); mk 11 17 (-10); mk 13 18 (-10);
     mk 13 18 (-10); mk 13 19 (-12); mk 15 19 (-12); mk 19 20 (-12)]);
   RcData (DSC_BPP 5) 14 (RcParams 410 15 5632 15 24 23 23 [
     mk 0 11 2; mk 5 13 0; mk 11 15 0; mk 13 18 (-2); mk 15 19 (-4); mk 15 19 (-6);
     mk 15 19 (-8); mk 15 20 (-8); mk 15 21 (-8); mk 15 21 (-10); mk 17 22 (-10);
     mk 17 22 (-10); mk 17 23 (-12); mk 19 23 (-12); mk 23 24 (-12)]);
   RcData (DSC_BPP 5) 16 (RcParams 410 15 5632 19 28 27 27 [
     mk 0 11 2; mk 6 14 0; mk 13 17 0; mk 16 20 (-2); mk 19 23 (-4); mk 19 23 (-6);
     mk 19 23 (-8); mk 19 24 (-8); mk 19 25 (-8); mk 19 25 (-10); mk 21 26 (-10);
     mk 21 26 (-10); mk 21 27 (-12); mk 23 27 (-12); mk 27 28 (-12)]);
   RcData (DSC_BPP 6) 8 (RcParams 341 15 2048 3 12 11 11 [
     mk 0 2 2; mk 0 4 0; mk 1 5 0; mk 1 6 (-2); mk 3 7 (-4); mk 3 7 (-6); mk 3 7 (-8);
     mk 3 8 (-8); mk 3 8 (-8); mk 3 9 (-10); mk 5 9 (-10); mk 5 9 (-12); mk 5 9 (-12);
     mk 7 10 (-12); mk 10 12 (-12)]);
   RcData (DSC_BPP 6) 10 (RcParams 341 15 2048 7 16 15 15 [
     mk 0 2 2; mk 2 5 0; mk 3 7 0; mk 4 8 (-2); mk 6 9 (-4); mk 7 10 (-6); mk 7 11 (-8);
     mk 7 12 (-8); mk 7 12 (-8); mk 7 13 (-10); mk 9 13 (-10); mk 9 13 (-12);
     mk 9 13 (-12); mk 11 14 (-12); mk 14 15 (-12)]);
   RcData (DSC_BPP 6) 12 (RcParams 341 15 2048 11 20 19 19 [
     mk 0 6 2; mk 4 9 0; mk 7 11 0; mk 8 12 (-2); mk 10 13 (-4); mk 11 14 (-6);
     mk 11 15 (-8); mk 11 16 (-8); mk 11 16 (-8); mk 11 17 (-10); mk 13 17 (-10);
     mk 13 17 (-12); mk 13 17 (-12); mk 15 18 (-12); mk 18 19 (-12)]);
   RcData (DSC_BPP 6) 14 (RcParams 341 15 2048 15 24 23 23 [
     mk 0 6 2; mk 7 10 0; mk 9 13 0; mk 11 16 (-2); mk 14 17 (-4); mk 15 18 (-6);
     mk 15 19 (-8); mk 15 20 (-8); mk 15 20 (-8); mk 15 21 (-10); mk 17 21 (-10);
     mk 17 21 (-12); mk 17 21 (-12); mk 19 22 (-12); mk 22 23 (-12)]);
   RcData (DSC_BPP 6) 16 (RcParams 341 15 2048 19 28 27 27 [
     mk 0 6 2; mk 6 11 0; mk 11 15 0; mk 14 18 (-2); mk 18 21 (-4); mk 19 22 (-6);
     mk 19 23 (-8); mk 19 24 (-8); mk 19 24 (-8); mk 19 25 (-10); mk 21 25 (-10);
     mk 21 25 (-12); mk 21 25 (-12); mk 23 26 (-12); mk 26 27 (-12)]);
   RcData (DSC_BPP 8) 8 (RcParams 256 15 2048 3 12 11 11 [
     mk 0 0 10; mk 0 1 8; mk 0 1 6; mk 0 2 4; mk 1 2 2; mk 1 3 0; mk 1 3 (-2); mk 2 4 (-4);
     mk 2 5 (-6); mk 3 5 (-8); mk 4 6 (-10); mk 4 7 (-10); mk 5 7 (-12); mk 7 8 (-12);
     mk 8 9 (-12)]);
   RcData (DSC_BPP 8) 10 (RcParams 256 15 2048 7 16 15 15 [
     mk 0 2 10; mk 2 5 8; mk 3 5 6; mk 4 6 4; mk 5 6 2; mk 5 7 0; mk 5 7 (-2); mk 6 8 (-4);
     mk 6 9 (-6); mk 7 9 (-8); mk 8 10 (-10); mk 8 11 (-10); mk 9 11 (-12); mk 11 12 (-12);
     mk 12 13 (-12)]);
   RcData (DSC_BPP 8) 12 (RcParams 256 15 2048 11 20 19 19 [
     mk 0 4 10; mk 2 7 8; mk 4 9 6; mk 6 11 4; mk 9 11 2; mk 9 11 0; mk 9 12 (-2);
     mk 10 12 (-4); mk 11 13 (-6); mk 11 13 (-8); mk 12 14 (-10); mk 13 15 (-10);
     mk 13 15 (-12); mk 15 16 (-12); mk 16 17 (-12)]);
   RcData (DSC_BPP 8) 14 (RcParams 256 15 2048 15 24 23 23 [
     mk 0 4 10; mk 3 8 8; mk 6 11 6; mk 9 14 4; mk 13 15 2; mk 13 15 0; mk 13 16 (-2);
     mk 14 16 (-4); mk 15 17 (-6); mk 15 17 (-8); mk 16 18 (-10); mk 17 19 (-10);
     mk 17 19 (-12); mk 19 20 (-12); mk 20 21 (-12)]);
   RcData (DSC_BPP 8) 16 (RcParams 256 15 2048 19 28 27 27 [
     mk 0 4 10; mk 4 9 8; mk 8 13 6; mk 12 17 4; mk 17 19 2; mk 17 20 0; mk 17 20 (-2);
     mk 18 20 (-4); mk 19 21 (-6); mk 19 21 (-8); mk 20 22 (-10); mk 21 23 (-10);
     mk 21 23 (-12); mk 23 24 (-12); mk 24 25 (-12)])].


(** ** The SDP header and the rate buffer size *)

Definition DP_SDP_PPS := 0x10.
Definition DP_SDP_PPS_HEADER_PAYLOAD_BYTES_MINUS_1 := 0x7F.

Record dp_sdp_header := SdpHeader { HB0 : Z; HB1 : Z; HB2 : Z; HB3 : Z }.

Definition drm_dsc_dp_pps_header_init : dp_sdp_header :=
  SdpHeader 0 DP_SDP_PPS DP_SDP_PPS_HEADER_PAYLOAD_BYTES_MINUS_1 0.

(** Both arguments are u8. *)
Definition drm_dsc_dp_rc_buffer_size (rc_buffer_block_size rc_buffer_size : Z) : Z :=
  let size := s32 (1024 * (rc_buffer_size + 1)) in
  match rc_buffer_block_size with
  | 0x0 => s32 (1 * size)
  | 0x1 => s32 (4 * size)
  | 0x2 => s32 (16 * size)
  | 0x3 => s32 (64 * size)
  | _ => 0
  end.

(** ** The picture parameter set

    The packed structure; a __be16 member holds the value the host sees there,
    that is the byte-swapped one. *)

Record drm_dsc_picture_parameter_set := Pps {
  p_dsc_version : Z;
  p_pps_identifier : Z;
  p_pps_reserved : Z;
  p_pps_3 : Z;
  p_pps_4 : Z;
  p_bits_per_pixel_low : Z;
  p_pic_height : Z;                    (* __be16 *)
  p_pic_width : Z;                     (* __be16 *)
  p_slice_height : Z;                  (* __be16 *)
  p_slice_width : Z;                   (* __be16 *)
  p_chunk_size : Z;                    (* __be16 *)
  p_initial_xmit_delay_high : Z;
  p_initial_xmit_delay_low : Z;
  p_initial_dec_delay : Z;             (* __be16 *)
  p_pps20_reserved : Z;
  p_initial_scale_value : Z;
  p_scale_increment_interval : Z;      (* __be16 *)
  p_scale_decrement_interval_high : Z;
  p_scale_decrement_interval_low : Z;
  p_pps26_reserved : Z;
  p_first_line_bpg_offset : Z;
  p_nfl_bpg_offset : Z;                (* __be16 *)
  p_slice_bpg_offset : Z;              (* __be16 *)
  p_initial_offset : Z;                (* __be16 *)
  p_final_offset : Z;                  (* __be16 *)
  p_flatness_min_qp : Z;
  p_flatness_max_qp : Z;
  p_rc_model_size : Z;                 (* __be16 *)
  p_rc_edge_factor : Z;
  p_rc_quant_incr_limit0 : Z;
  p_rc_quant_incr_limit1 : Z;
  p_rc_tgt_offset : Z;
  p_rc_buf_thresh : list Z;
  p_rc_range_parameters : list Z;      (* __be16 *)
  p_native_422_420 : Z;
  p_second_line_bpg_offset : Z;
  p_nsl_bpg_offset : Z;                (* __be16 *)
  p_second_line_offset_adj : Z;        (* __be16 *)
  p_pps_long_94_reserved : list Z;     (* the eight u32 *)
  p_pps_short_126_reserved : Z         (* __be16 *)
}.

(** A little-endian host: cpu_to_be16 swaps the bytes of its u16 argument. *)
Definition cpu_to_be16 (x : Z) : Z :=
  Z.lor (Z.shiftr (Z.land (u16 x) 0xff00) 8) (Z.shiftl (Z.land (u16 x) 0x00ff) 8).

(** The members of a little-endian host as bytes of memory. *)
Definition le16 (x : Z) : list Z := [x mod 256; (x / 256) mod 256].
Definition le32 (x : Z) : list Z := le16 (x mod 65536) ++ le16 ((x / 65536) mod 65536).

Definition pps_bytes (p : drm_dsc_picture_parameter_set) : list Z :=
  [p_dsc_version p; p_pps_identifier p; p_pps_reserved p; p_pps_3 p; p_pps_4 p;
   p_bits_per_pixel_low p]
  ++ le16 (p_pic_height p) ++ le16 (p_pic_width p)
  ++ le16 (p_slice_height p) ++ le16 (p_slice_width p) ++ le16 (p_chunk_size p)
  ++ [p_initial_xmit_delay_high p; p_initial_xmit_delay_low p]
  ++ le16 (p_initial_dec_delay p)
  ++ [p_pps20_reserved p; p_initial_scale_value p]
  ++ le16 (p_scale_increment_interval p)
  ++ [p_scale_decrement_interval_high p; p_scale_decrement_interval_low p;
      p_pps26_reserved p; p_first_line_bpg_offset p]
  ++ le16 (p_nfl_bpg_offset p) ++ le16 (p_slice_bpg_offset p)
  ++ le16 (p_initial_offset p) ++ le16 (p_final_offset p)
  ++ [p_flatness_min_qp p; p_flatness_max_qp p]
  ++ le16 (p_rc_model_size p)
  ++ [p_rc_edge_factor p; p_rc_quant_incr_limit0 p; p_rc_quant_incr_limit1 p;
      p_rc_tgt_offset p]
  ++ p_rc_buf_thresh p
  ++ flat_map le16 (p_rc_range_parameters p)
  ++ [p_native_422_420 p; p_second_line_bpg_offset p]
  ++ le16 (p_nsl_bpg_offset p) ++ le16 (p_second_line_offset_adj p)
  ++ flat_map le32 (p_pps_long_94_reserved p)
  ++ le16 (p_pps_short_126_reserved p).

Definition pack_range (r : drm_dsc_rc_range_parameters) : Z :=
  cpu_to_be16
    (Z.lor (Z.lor (Z.shiftl (range_min_qp r) DSC_PPS_RC_RANGE_MINQP_SHIFT)
                  (Z.shiftl (range_max_qp r) DSC_PPS_RC_RANGE_MAXQP_SHIFT))
           (range_bpg_offset r)).

(** The two loops read a[0] to a[n-1] of fixed-size arrays. *)
Definition read_array {A} (a : list A) (n : Z) : option (list A) :=
  mapM (fun i => a !! i) (seq 0 (Z.to_nat n)).

(** memset to 0, then one assignment per member. *)
Definition drm_dsc_pps_payload_pack (dsc_cfg : drm_dsc_config)
    : option drm_dsc_picture_parameter_set :=
  thresh ← read_array (rc_buf_thresh dsc_cfg) (DSC_NUM_BUF_RANGES - 1);
  ranges ← read_array (rc_range_params dsc_cfg) DSC_NUM_BUF_RANGES;
  Some {|
    p_dsc_version :=
      u8 (Z.lor (dsc_version_minor dsc_cfg)
            (Z.shiftl (dsc_version_major dsc_cfg) DSC_PPS_VERSION_MAJOR_SHIFT));
    p_pps_identifier := 0;
    p_pps_reserved := 0;
    p_pps_3 :=
      u8 (Z.lor (line_buf_depth dsc_cfg)
            (Z.shiftl (bits_per_component dsc_cfg) DSC_PPS_BPC_SHIFT));
    p_pps_4 :=
      u8 (Z.lor (Z.lor (Z.lor (Z.lor
            (Z.shiftr (Z.land (bits_per_pixel dsc_cfg) DSC_PPS_BPP_HIGH_MASK)
               DSC_PPS_MSB_SHIFT)
            (Z.shiftl (b2z (vbr_enable dsc_cfg)) DSC_PPS_VBR_EN_SHIFT))
            (Z.shiftl (b2z (simple_422 dsc_cfg)) DSC_PPS_SIMPLE422_SHIFT))
            (Z.shiftl (b2z (convert_rgb dsc_cfg)) DSC_PPS_CONVERT_RGB_SHIFT))
            (Z.shiftl (b2z (block_pred_enable dsc_cfg)) DSC_PPS_BLOCK_PRED_EN_SHIFT));
    p_bits_per_pixel_low := u8 (Z.land (bits_per_pixel dsc_cfg) DSC_PPS_LSB_MASK);
    p_pic_height := cpu_to_be16 (pic_height dsc_cfg);
    p_pic_width := cpu_to_be16 (pic_width dsc_cfg);
    p_slice_height := cpu_to_be16 (slice_height dsc_cfg);
    p_slice_width := cpu_to_be16 (slice_width dsc_cfg);
    p_chunk_size := cpu_to_be16 (slice_chunk_size dsc_cfg);
    p_initial_xmit_delay_high :=
      u8 (Z.shiftr (Z.land (initial_xmit_delay dsc_cfg) DSC_PPS_INIT_XMIT_DELAY_HIGH_MASK)
            DSC_PPS_MSB_SHIFT);
    p_initial_xmit_delay_low := u8 (Z.land (initial_xmit_delay dsc_cfg) DSC_PPS_LSB_MASK);
    p_initial_dec_delay := cpu_to_be16 (initial_dec_delay dsc_cfg);
    p_pps20_reserved := 0;
    p_initial_scale_value := u8 (initial_scale_value dsc_cfg);
    p_scale_increment_interval := cpu_to_be16 (scale_increment_interval dsc_cfg);
    p_scale_decrement_interval_high :=
      u8 (Z.shiftr (Z.land (scale_decrement_interval dsc_cfg)
                      DSC_PPS_SCALE_DEC_INT_HIGH_MASK) DSC_PPS_MSB_SHIFT);
    p_scale_decrement_interval_low :=
      u8 (Z.land (scale_decrement_interval dsc_cfg) DSC_PPS_LSB_MASK);
    p_pps26_reserved := 0;
    p_first_line_bpg_offset := u8 (first_line_bpg_offset dsc_cfg);
    p_nfl_bpg_offset := cpu_to_be16 (nfl_bpg_offset dsc_cfg);
    p_slice_bpg_offset := cpu_to_be16 (slice_bpg_offset dsc_cfg);
    p_initial_offset := cpu_to_be16 (initial_offset dsc_cfg);
    p_final_offset := cpu_to_be16 (final_offset dsc_cfg);
    p_flatness_min_qp := u8 (flatness_min_qp dsc_cfg);
    p_flatness_max_qp := u8 (flatness_max_qp dsc_cfg);
    p_rc_model_size := cpu_to_be16 (rc_model_size dsc_cfg);
    p_rc_edge_factor := DSC_RC_EDGE_FACTOR_CONST;
    p_rc_quant_incr_limit0 := u8 (rc_quant_incr_limit0 dsc_cfg);
    p_rc_quant_incr_limit1 := u8 (rc_quant_incr_limit1 dsc_cfg);
    p_rc_tgt_offset :=
      u8 (Z.lor DSC_RC_TGT_OFFSET_LO_CONST
            (Z.shiftl DSC_RC_TGT_OFFSET_HI_CONST DSC_PPS_RC_TGT_OFFSET_HI_SHIFT));
    p_rc_buf_thresh := map u8 thresh;
    p_rc_range_parameters := map pack_range ranges;
    p_native_422_420 :=
      u8 (Z.lor (b2z (native_422 dsc_cfg))
            (Z.shiftl (b2z (native_420 dsc_cfg)) DSC_PPS_NATIVE_420_SHIFT));
    p_second_line_bpg_offset := u8 (second_line_bpg_offset dsc_cfg);
    p_nsl_bpg_offset := cpu_to_be16 (nsl_bpg_offset dsc_cfg);
    p_second_line_offset_adj := cpu_to_be16 (second_line_offset_adj dsc_cfg);
    p_pps_long_94_reserved := repeat 0 8;
    p_pps_short_126_reserved := 0
  |}.

(** ** The reader of a picture parameter set

    The sink's side, from the table in the comments of drm_dsc.h: field by field
    the bits of the 128 bytes.  The fields a PPS does not carry are 0. *)

Definition at_ (b : list Z) (i : nat) : Z := nth i b 0.
Definition be16_at (b : list Z) (i : nat) : Z := at_ b i * 256 + at_ b (S i).
Definition bit_at (b : list Z) (i : nat) (k : Z) : bool := (at_ b i / 2 ^ k) mod 2 =? 1.

Definition pps_range (v : Z) : drm_dsc_rc_range_parameters :=
  RcRange (v / 2 ^ 11) ((v / 2 ^ 6) mod 2 ^ 5) (v mod 2 ^ 6).

Definition pps_read (b : list Z) : drm_dsc_config := {|
  line_buf_depth := at_ b 3 mod 16;
  bits_per_component := if at_ b 3 / 16 =? 0 then 16 else at_ b 3 / 16;
  convert_rgb := bit_at b 4 4;
  slice_count := 0;
  slice_width := be16_at b 12;
  slice_height := be16_at b 10;
  simple_422 := bit_at b 4 3;
  pic_width := be16_at b 8;
  pic_height := be16_at b 6;
  rc_tgt_offset_high := at_ b 43 / 16;
  rc_tgt_offset_low := at_ b 43 mod 16;
  bits_per_pixel := at_ b 4 mod 4 * 256 + at_ b 5;
  rc_edge_factor := at_ b 40;
  rc_quant_incr_limit1 := at_ b 42;
  rc_quant_incr_limit0 := at_ b 41;
  initial_xmit_delay := at_ b 16 mod 4 * 256 + at_ b 17;
  initial_dec_delay := be16_at b 18;
  block_pred_enable := bit_at b 4 5;
  first_line_bpg_offset := at_ b 27;
  initial_offset := be16_at b 32;
  rc_buf_thresh := map (at_ b) (seq 44 14);
  rc_range_params := map (fun i => pps_range (be16_at b (58 + 2 * i))) (seq 0 15);
  rc_model_size := be16_at b 38;
  flatness_min_qp := at_ b 36;
  flatness_max_qp := at_ b 37;
  initial_scale_value := at_ b 21;
  scale_decrement_interval := at_ b 24 mod 16 * 256 + at_ b 25;
  scale_increment_interval := be16_at b 22;
  nfl_bpg_offset := be16_at b 28;
  slice_bpg_offset := be16_at b 30;
  final_offset := be16_at b 34;
  vbr_enable := bit_at b 4 2;
  mux_word_size := 0;
  slice_chunk_size := be16_at b 14;
  rc_bits := 0;
  dsc_version_minor := at_ b 0 mod 16;
  dsc_version_major := at_ b 0 / 16;
  native_422 := bit_at b 88 0;
  native_420 := bit_at b 88 1;
  second_line_bpg_offset := at_ b 89;
  nsl_bpg_offset := be16_at b 90;
  second_line_offset_adj := be16_at b 92
|}.

(** What the sink can know of a configuration. *)
Definition pps_view (c : drm_dsc_config) : drm_dsc_config := {|
  line_buf_depth := line_buf_depth c;
  bits_per_component := bits_per_component c;
  convert_rgb := convert_rgb c;
  slice_count := 0;
  slice_width := slice_width c;
  slice_height := slice_height c;
  simple_422 := simple_422 c;
  pic_width := pic_width c;
  pic_height := pic_height c;
  rc_tgt_offset_high := DSC_RC_TGT_OFFSET_HI_CONST;
  rc_tgt_offset_low := DSC_RC_TGT_OFFSET_LO_CONST;
  bits_per_pixel := bits_per_pixel c;
  rc_edge_factor := DSC_RC_EDGE_FACTOR_CONST;
  rc_quant_incr_limit1 := rc_quant_incr_limit1 c;
  rc_quant_incr_limit0 := rc_quant_incr_limit0 c;
  initial_xmit_delay := initial_xmit_delay c;
  initial_dec_delay := initial_dec_delay c;
  block_pred_enable := block_pred_enable c;
  first_line_bpg_offset := first_line_bpg_offset c;
  initial_offset := initial_offset c;
  rc_buf_thresh := rc_buf_thresh c;
  rc_range_params := rc_range_params c;
  rc_model_size := rc_model_size c;
  flatness_min_qp := flatness_min_qp c;
  flatness_max_qp := flatness_max_qp c;
  initial_scale_value := initial_scale_value c;
  scale_decrement_interval := scale_decrement_interval c;
  scale_increment_interval := scale_increment_interval c;
  nfl_bpg_offset := nfl_bpg_offset c;
  slice_bpg_offset := slice_bpg_offset c;
  final_offset := final_offset c;
  vbr_enable := vbr_enable c;
  mux_word_size := 0;
  slice_chunk_size := slice_chunk_size c;
  rc_bits := 0;
  dsc_version_minor := dsc_version_minor c;
  dsc_version_major := dsc_version_major c;
  native_422 := native_422 c;
  native_420 := native_420 c;
  second_line_bpg_offset := second_line_bpg_offset c;
  nsl_bpg_offset := nsl_bpg_offset c;
  second_line_offset_adj := second_line_offset_adj c
|}.

(** A rate-control range whose members fit their places in a PPS. *)
Record range_fits (r : drm_dsc_rc_range_parameters) : Prop := {
  fit_min_qp : 0 <= range_min_qp r < 32;
  fit_max_qp : 0 <= range_max_qp r < 32;
  fit_bpg_offset : 0 <= range_bpg_offset r < 64
}.

(** The ranges of the C types of the members. *)
Record cfg_typed (c : drm_dsc_config) : Prop := {
  ty_u16 : Forall is_u16
    [slice_width c; slice_height c; pic_width c; pic_height c; bits_per_pixel c;
     initial_xmit_delay c; initial_dec_delay c; initial_offset c; rc_model_size c;
     scale_decrement_interval c; scale_increment_interval c; nfl_bpg_offset c;
     slice_bpg_offset c; final_offset c; slice_chunk_size c; rc_bits c;
     nsl_bpg_offset c; second_line_offset_adj c];
  ty_u8 : Forall is_u8
    [line_buf_depth c; bits_per_component c; slice_count c; rc_tgt_offset_high c;
     rc_tgt_offset_low c; rc_edge_factor c; rc_quant_incr_limit1 c;
     rc_quant_incr_limit0 c; first_line_bpg_offset c; flatness_min_qp c;
     flatness_max_qp c; initial_scale_value c; mux_word_size c; dsc_version_minor c;
     dsc_version_major c; second_line_bpg_offset c];
  ty_thresh : Forall is_u16 (rc_buf_thresh c);
  ty_thresh_len : length (rc_buf_thresh c) = 14%nat;
  ty_ranges : Forall (fun r => is_u8 (range_min_qp r) /\ is_u8 (range_max_qp r)
                               /\ is_u8 (range_bpg_offset r)) (rc_range_params c);
  ty_ranges_len : length (rc_range_params c) = 15%nat
}.

(** The members narrower in the PPS than in the configuration fit. *)
Record pps_fits (c : drm_dsc_config) : Prop := {
  fit_typed : cfg_typed c;
  fit_versions : dsc_version_minor c < 16 /\ dsc_version_major c < 16;
  fit_depth : line_buf_depth c < 16 /\ 0 < bits_per_component c <= 16;
  fit_bpp : bits_per_pixel c < 2 ^ 10;
  fit_xmit : initial_xmit_delay c < 2 ^ 10;
  fit_dec : scale_decrement_interval c < 2 ^ 12;
  fit_thresh : Forall is_u8 (rc_buf_thresh c);
  fit_ranges : Forall range_fits (rc_range_params c)
}.

(** ** Lemmas on the packing *)

Lemma read_array_full {A} (a : list A) n :
  length a = Z.to_nat n -> read_array a n = Some a.
Proof.
  unfold read_array. intros <-. apply mapM_Some_2, Forall2_same_length_lookup.
  split; [apply length_seq|]. intros i x y [-> _]%lookup_seq Hy. exact Hy.
Qed.

Lemma cpu_to_be16_swap x : is_u16 x -> cpu_to_be16 x = x / 256 + x mod 256 * 256.
Proof.
  intros Hx. unfold cpu_to_be16. rewrite (wrapU_small 16 x Hx).
  unfold is_u in Hx. change (2 ^ 16) with 65536 in Hx.
  rewrite land_0xff00, land_0xff, shiftr_div, shiftl_mul by lia. pow_consts.
  rewrite Z.lor_comm, (lor_disjoint _ _ 8); pow_consts; div_lia.
Qed.

Lemma le16_be16 x : is_u16 x -> le16 (cpu_to_be16 x) = [x / 256; x mod 256].
Proof.
  intros Hx. rewrite cpu_to_be16_swap by done.
  unfold is_u in Hx. change (2 ^ 16) with 65536 in Hx.
  unfold le16. f_equal; [|f_equal]; div_lia.
Qed.

Lemma be16_le x : x / 256 * 256 + x mod 256 = x.
Proof. div_lia. Qed.

Definition range_word (r : drm_dsc_rc_range_parameters) : Z :=
  range_min_qp r * 2048 + range_max_qp r * 64 + range_bpg_offset r.

Lemma le16_pack_range r :
  range_fits r -> le16 (pack_range r) = [range_word r / 256; range_word r mod 256].
Proof.
  intros [? ? ?]. unfold pack_range, DSC_PPS_RC_RANGE_MINQP_SHIFT,
    DSC_PPS_RC_RANGE_MAXQP_SHIFT. rewrite !shiftl_mul by lia. pow_consts.
  rewrite (lor_disjoint (range_min_qp r * _) _ 11) by (pow_consts; div_lia).
  rewrite (lor_disjoint _ _ 6) by (pow_consts; div_lia).
  fold (range_word r). apply le16_be16. unfold is_u, range_word. pow_consts. lia.
Qed.

Lemma pps_range_word r : range_fits r -> pps_range (range_word r) = r.
Proof.
  intros [? ? ?]. destruct r as [a b o]. cbn in *.
  unfold pps_range, range_word. cbn. pow_consts. f_equal; div_lia.
Qed.

Lemma flat_map_ranges rs :
  Forall range_fits rs ->
  flat_map le16 (map pack_range rs) =
  flat_map (fun r => [range_word r / 256; range_word r mod 256]) rs.
Proof.
  induction 1; [done|]. cbn [map flat_map]. rewrite le16_pack_range by done. congruence.
Qed.

Lemma map_u8_small l : Forall is_u8 l -> map u8 l = l.
Proof. induction 1 as [|x l H _ IH]; [done|]. cbn. by rewrite IH, wrapU_small. Qed.

Lemma high_bits x m k n :
  m = Z.shiftl (2 ^ n - 1) 8 -> k = 8 -> 0 <= n <= 8 -> 0 <= x < 2 ^ (n + 8) ->
  Z.shiftr (Z.land x m) k = x / 256 /\ 0 <= x / 256 < 2 ^ n.
Proof.
  intros -> -> Hn Hx. rewrite shiftr_div, shiftl_mul, land_mask by lia.
  rewrite Z.div_mul by (pow_consts; lia).
  rewrite Z.pow_add_r in Hx by lia. pow_consts.
  assert (0 <= x / 256 < 2 ^ n) by (split; [div_lia|apply Z.div_lt_upper_bound; lia]).
  by rewrite Z.mod_small.
Qed.

Lemma low_bits x : u8 (Z.land x DSC_PPS_LSB_MASK) = x mod 256.
Proof.
  change DSC_PPS_LSB_MASK with 255. rewrite land_0xff. apply Z.mod_small, Z.mod_pos_bound. lia.
Qed.

Lemma pps_4_bits h v s r b :
  0 <= h < 4 ->
  Z.lor (Z.lor (Z.lor (Z.lor h (Z.shiftl (b2z v) DSC_PPS_VBR_EN_SHIFT))
     (Z.shiftl (b2z s) DSC_PPS_SIMPLE422_SHIFT)) (Z.shiftl (b2z r) DSC_PPS_CONVERT_RGB_SHIFT))
     (Z.shiftl (b2z b) DSC_PPS_BLOCK_PRED_EN_SHIFT)
  = h + 4 * b2z v + 8 * b2z s + 16 * b2z r + 32 * b2z b.
Proof.
  intros Hh. assert (h = 0 \/ h = 1 \/ h = 2 \/ h = 3) as [-> | [-> | [-> | ->]]] by lia;
    by destruct v, s, r, b.
Qed.

Lemma nibbles l h s : s = 4 -> 0 <= l < 16 -> u8 (Z.lor l (Z.shiftl h s)) = (l + 16 * h) mod 256.
Proof.
  intros -> Hl. rewrite shiftl_mul by lia. rewrite Z.lor_comm.
  rewrite (lor_disjoint _ _ 4) by (pow_consts; div_lia). unfold wrapU. pow_consts. f_equal. lia.
Qed.

(** The bytes of a packed configuration, in arithmetic. *)
Definition wide (x : Z) : list Z := [x / 256; x mod 256].

Definition pps_wire (c : drm_dsc_config) : list Z :=
  [(dsc_version_minor c + 16 * dsc_version_major c) mod 256; 0; 0;
   (line_buf_depth c + 16 * bits_per_component c) mod 256;
   bits_per_pixel c / 256 + 4 * b2z (vbr_enable c) + 8 * b2z (simple_422 c)
     + 16 * b2z (convert_rgb c) + 32 * b2z (block_pred_enable c);
   bits_per_pixel c mod 256]
  ++ wide (pic_height c) ++ wide (pic_width c) ++ wide (slice_height c)
  ++ wide (slice_width c) ++ wide (slice_chunk_size c) ++ wide (initial_xmit_delay c)
  ++ wide (initial_dec_delay c) ++ [0; initial_scale_value c]
  ++ wide (scale_increment_interval c) ++ wide (scale_decrement_interval c)
  ++ [0; first_line_bpg_offset c] ++ wide (nfl_bpg_offset c) ++ wide (slice_bpg_offset c)
  ++ wide (initial_offset c) ++ wide (final_offset c)
  ++ [flatness_min_qp c; flatness_max_qp c] ++ wide (rc_model_size c)
  ++ [6; rc_quant_incr_limit0 c; rc_quant_incr_limit1 c; 51]
  ++ rc_buf_thresh c ++ flat_map (fun r => wide (range_word r)) (rc_range_params c)
  ++ [b2z (native_422 c) + 2 * b2z (native_420 c); second_line_bpg_offset c]
  ++ wide (nsl_bpg_offset c) ++ wide (second_line_offset_adj c) ++ repeat 0 34.

(** The typing hypotheses of a configuration, one by one. *)
Ltac fits_hyps H :=
  let T := fresh "T" in
  destruct H as [T [? ?] [? ?] ? ? ? ? ?]; destruct T;
  repeat match goal with
  | F : Forall _ (_ :: _) |- _ =>
    let F' := fresh "F" in apply Forall_cons_1 in F; destruct F as [? F']
  end.

Ltac fits := first [reflexivity | unfold is_u in *; pow_consts; lia].

Lemma packed_bytes c :
  pps_fits c ->
  exists p, drm_dsc_pps_payload_pack c = Some p /\ pps_bytes p = pps_wire c.
Proof.
  intros H. fits_hyps H. unfold drm_dsc_pps_payload_pack.
  rewrite !read_array_full by assumption. cbn [mbind option_bind].
  eexists. split; [reflexivity|]. unfold pps_bytes. cbn [p_dsc_version p_pps_identifier
    p_pps_reserved p_pps_3 p_pps_4 p_bits_per_pixel_low p_pic_height p_pic_width
    p_slice_height p_slice_width p_chunk_size p_initial_xmit_delay_high
    p_initial_xmit_delay_low p_initial_dec_delay p_pps20_reserved p_initial_scale_value
    p_scale_increment_interval p_scale_decrement_interval_high
    p_scale_decrement_interval_low p_pps26_reserved p_first_line_bpg_offset
    p_nfl_bpg_offset p_slice_bpg_offset p_initial_offset p_final_offset p_flatness_min_qp
    p_flatness_max_qp p_rc_model_size p_rc_edge_factor p_rc_quant_incr_limit0
    p_rc_quant_incr_limit1 p_rc_tgt_offset p_rc_buf_thresh p_rc_range_parameters
    p_native_422_420 p_second_line_bpg_offset p_nsl_bpg_offset p_second_line_offset_adj
    p_pps_long_94_reserved p_pps_short_126_reserved].
  rewrite !le16_be16 by assumption. rewrite flat_map_ranges by assumption. rewrite map_u8_small by assumption. rewrite !low_bits.
  rewrite !nibbles by first [reflexivity | unfold is_u in *; lia].
  destruct (high_bits (bits_per_pixel c) DSC_PPS_BPP_HIGH_MASK DSC_PPS_MSB_SHIFT 2)
    as [-> ?]; [fits..|].
  destruct (high_bits (initial_xmit_delay c) DSC_PPS_INIT_XMIT_DELAY_HIGH_MASK
    DSC_PPS_MSB_SHIFT 2) as [-> ?]; [fits..|].
  destruct (high_bits (scale_decrement_interval c) DSC_PPS_SCALE_DEC_INT_HIGH_MASK
    DSC_PPS_MSB_SHIFT 4) as [-> ?]; [fits..|].
  rewrite pps_4_bits by fits.
  rewrite (wrapU_small 8 (_ + 32 * _)), !(wrapU_small 8 (_ / 256)),
    (wrapU_small 8 (initial_scale_value c)), (wrapU_small 8 (first_line_bpg_offset c)),
    (wrapU_small 8 (flatness_min_qp c)), (wrapU_small 8 (flatness_max_qp c)),
    (wrapU_small 8 (rc_quant_incr_limit0 c)), (wrapU_small 8 (rc_quant_incr_limit1 c)),
    (wrapU_small 8 (second_line_bpg_offset c))
    by first [assumption | unfold is_u; pow_consts; unfold b2z; repeat case_match; lia].
  destruct (native_422 c) eqn:E1, (native_420 c) eqn:E2; unfold pps_wire, wide;
    by rewrite E1, E2.
Qed.

(** The members of byte 4. *)
Lemma pps_4_read h v s r b :
  0 <= h < 4 ->
  let x := h + 4 * b2z v + 8 * b2z s + 16 * b2z r + 32 * b2z b in
  x mod 4 = h /\ ((x / 2 ^ 2) mod 2 =? 1) = v /\ ((x / 2 ^ 3) mod 2 =? 1) = s
  /\ ((x / 2 ^ 4) mod 2 =? 1) = r /\ ((x / 2 ^ 5) mod 2 =? 1) = b.
Proof.
  intros Hh. assert (h = 0 \/ h = 1 \/ h = 2 \/ h = 3) as [-> | [-> | [-> | ->]]] by lia;
    by destruct v, s, r, b.
Qed.

(** The two halves of byte 3: 16 bits per component is written as 0. *)
Lemma pps_3_read d bpc :
  0 <= d < 16 -> 0 < bpc <= 16 ->
  let x := (d + 16 * bpc) mod 256 in
  x mod 16 = d /\ (if x / 16 =? 0 then 16 else x / 16) = bpc.
Proof. intros ? ? x. subst x. bdestr; div_lia. Qed.

Lemma nibbles_read l h :
  0 <= l < 16 -> 0 <= h < 16 ->
  ((l + 16 * h) mod 256) mod 16 = l /\ (l + 16 * h) mod 256 / 16 = h.
Proof. intros. div_lia. Qed.

Lemma pps_read_wire c : pps_fits c -> pps_read (pps_wire c) = pps_view c.
Proof.
  intros H. fits_hyps H. unfold pps_view.
  remember (rc_buf_thresh c) as th eqn:Eth. remember (rc_range_params c) as rr eqn:Err.
  unfold pps_wire. rewrite <- Eth, <- Err. clear Eth Err.
  do 14 (destruct th as [|? th]; [discriminate|]). destruct th; [|discriminate].
  do 15 (destruct rr as [|? rr]; [discriminate|]). destruct rr; [|discriminate].
  unfold pps_read, be16_at, bit_at, at_, wide.
  cbn [app flat_map repeat nth seq map Nat.add Nat.mul].
  rewrite !be16_le.
  destruct (pps_4_read (bits_per_pixel c / 256) (vbr_enable c) (simple_422 c)
    (convert_rgb c) (block_pred_enable c)) as (E0 & E2 & E3 & E4 & E5).
  { unfold is_u in *. pow_consts. div_lia. }
  destruct (pps_3_read (line_buf_depth c) (bits_per_component c)) as [L0 L1]; [fits..|].
  destruct (nibbles_read (dsc_version_minor c) (dsc_version_major c)) as [V0 V1]; [fits..|].
  repeat match goal with F : Forall _ (_ :: _) |- _ =>
    let F' := fresh "F" in apply Forall_cons_1 in F; destruct F as [? F'] end.
  rewrite !pps_range_word by assumption. rewrite E0.
  f_equal; try first [assumption | reflexivity | unfold is_u in *; pow_consts; div_lia].
  all: by destruct (native_422 c), (native_420 c).
Qed.

Lemma wide_bytes x : is_u16 x -> Forall is_byte (wide x).
Proof.
  unfold is_u. pow_consts. intros. repeat constructor; unfold is_byte; div_lia.
Qed.

Lemma ranges_wire rs :
  Forall range_fits rs ->
  let bs := flat_map (fun r => wide (range_word r)) rs in
  blen bs = 2 * Z.of_nat (length rs) /\ Forall is_byte bs.
Proof.
  induction 1 as [|r rs [? ? ?] _ [IHl IHb]]; [done|]. cbn [flat_map]. split.
  - rewrite blen_app, IHl. change (blen (wide _)) with 2. cbn [length]. lia.
  - apply Forall_app_2; [|done]. apply wide_bytes. unfold is_u, range_word. pow_consts. lia.
Qed.

Lemma pps_wire_bytes c : pps_fits c -> blen (pps_wire c) = 128 /\ Forall is_byte (pps_wire c).
Proof.
  intros H. fits_hyps H. destruct (ranges_wire (rc_range_params c)) as [Hl Hb]; [done|].
  split.
  - unfold pps_wire. rewrite !blen_app, Hl. unfold wide, blen. cbn [length repeat]. lia.
  - unfold pps_wire. repeat apply Forall_app_2; try assumption;
      try (apply wide_bytes; assumption).
    all: repeat constructor; unfold is_byte; try (apply Z.mod_pos_bound; lia);
      unfold is_u in *; unfold b2z; repeat case_match; div_lia.
Qed.

(** C17. drm_dsc_pps_payload_pack writes a picture parameter set a sink reads
    back as the configuration it was given: the structure occupies 128 bytes, and
    reading the fields of the DSC table from those bytes (multi-byte ones big
    endian) gives every transmitted member of the configuration, with the edge
    factor and the target offsets at the constants of the specification, for
    every configuration whose members fit their places. *)
Theorem pps_payload_roundtrip c :
  pps_fits c ->
  exists p, drm_dsc_pps_payload_pack c = Some p
    /\ blen (pps_bytes p) = 128 /\ Forall is_byte (pps_bytes p)
    /\ pps_read (pps_bytes p) = pps_view c.
Proof.
  intros H. destruct (packed_bytes c H) as (p & E & Eb). exists p. rewrite Eb.
  destruct (pps_wire_bytes c H). split; [done|]. split; [done|]. split; [done|].
  by apply pps_read_wire.
Qed.

(** A 4K picture in four slices at 8 bits per pixel, as a driver leaves it. *)
Definition sample_cfg : drm_dsc_config :=
  Cfg 9 8 true 4 960 540 false 3840 2160 0 0 128 0 11 11 512 0 true 12 6144
    (repeat 0 14) (repeat (RcRange 0 0 0) 15) 8192 3 12 32 0 0 0 0 0 false 48 0 0 1 1
    false false 0 0 0.

Lemma sample_fits : pps_fits sample_cfg.
Proof.
  repeat constructor; cbn; lia.
Qed.

Lemma pps_payload_roundtrip_witness :
  exists p, drm_dsc_pps_payload_pack sample_cfg = Some p
    /\ blen (pps_bytes p) = 128 /\ Forall is_byte (pps_bytes p)
    /\ pps_read (pps_bytes p) = pps_view sample_cfg.
Proof. exact (pps_payload_roundtrip sample_cfg sample_fits). Defined.
