(* ===== verification/DscRc.v ===== *)
(** * Display Stream Compression rate control

    display/drm_dsc_helper.c, from the constants a driver starts with
    (drm_dsc_set_const_params, drm_dsc_set_rc_buf_thresh, drm_dsc_setup_rc_params)
    to the computed parameters (drm_dsc_compute_rc_parameters).  unsigned long is
    64 bits; a division by zero, which traps, has no result.  The theorems state
    the exact formulas of the DSC specification and the ranges for which the fixed
    widths of the code compute them. *)

From stdpp Require Import base numbers list option.
From Stdlib Require Import ZArith Lia Bool.
From S2P Require Import Prelude ByteBuf Dsc.
#[local] Open Scope Z_scope.

(** ** Constant parameters *)

Definition drm_dsc_set_const_params (vdsc_cfg : drm_dsc_config) : drm_dsc_config :=
  let c := if rc_model_size vdsc_cfg =? 0
           then set_rc_model_size DSC_RC_MODEL_SIZE_CONST vdsc_cfg else vdsc_cfg in
  let c := set_rc_edge_factor DSC_RC_EDGE_FACTOR_CONST c in
  let c := set_rc_tgt_offset_high DSC_RC_TGT_OFFSET_HI_CONST c in
  let c := set_rc_tgt_offset_low DSC_RC_TGT_OFFSET_LO_CONST c in
  if bits_per_component c <=? 10
  then set_mux_word_size DSC_MUX_WORD_SIZE_8_10_BPC c
  else set_mux_word_size DSC_MUX_WORD_SIZE_12_BPC c.

Definition drm_dsc_rc_buf_thresh : list Z :=
  [896; 1792; 2688; 3584; 4480; 5376; 6272; 6720; 7168; 7616; 7744; 7872; 8000; 8064].

(** The loop assigns every element of the array of DSC_NUM_BUF_RANGES - 1. *)
Definition drm_dsc_set_rc_buf_thresh (vdsc_cfg : drm_dsc_config) : drm_dsc_config :=
  let c := set_rc_buf_thresh (map (fun t => Z.shiftr t 6) drm_dsc_rc_buf_thresh) vdsc_cfg in
  if bits_per_pixel c =? Z.shiftl 6 4
  then set_rc_buf_thresh (<[12%nat := Z.shiftr 7936 6]>
         (<[13%nat := Z.shiftr 8000 6]> (rc_buf_thresh c))) c
  else c.

(** ** The parameter tables *)

(** The loop stops at the sentinel row with bpp = 0, the end of the list here. *)
Fixpoint get_rc_params (rc_parameters_ : list rc_parameters_data)
    (dsc_bpp bits_per_component_ : Z) : option rc_parameters :=
  match rc_parameters_ with
  | [] => None
  | d :: rest =>
    if (bpp d =? dsc_bpp) && (bpc d =? bits_per_component_) then Some (params d)
    else get_rc_params rest dsc_bpp bits_per_component_
  end.

(** An enum drm_dsc_params_type can hold any int; the switch covers 0 to 3. *)
Definition params_table (type : Z) : option (list rc_parameters_data) :=
  match type with
  | 0 => Some rc_parameters_1_2_444
  | 1 => Some rc_parameters_pre_scr
  | 2 => Some rc_parameters_1_2_422
  | 3 => Some rc_parameters_1_2_420
  | _ => None
  end.

Definition mask_range (r : drm_dsc_rc_range_parameters) : drm_dsc_rc_range_parameters :=
  RcRange (range_min_qp r) (range_max_qp r)
    (Z.land (range_bpg_offset r) DSC_RANGE_BPG_OFFSET_MASK).

(** The assignments once a row is found; every array element is assigned. *)
Definition store_rc_params (rc_params : rc_parameters) (c : drm_dsc_config) : drm_dsc_config :=
  let c := set_first_line_bpg_offset (rcp_first_line_bpg_offset rc_params) c in
  let c := set_initial_xmit_delay (rcp_initial_xmit_delay rc_params) c in
  let c := set_initial_offset (rcp_initial_offset rc_params) c in
  let c := set_flatness_min_qp (rcp_flatness_min_qp rc_params) c in
  let c := set_flatness_max_qp (rcp_flatness_max_qp rc_params) c in
  let c := set_rc_quant_incr_limit0 (rcp_rc_quant_incr_limit0 rc_params) c in
  let c := set_rc_quant_incr_limit1 (rcp_rc_quant_incr_limit1 rc_params) c in
  set_rc_range_params (map mask_range (rcp_rc_range_params rc_params)) c.

Definition drm_dsc_setup_rc_params (vdsc_cfg : drm_dsc_config) (type : Z)
    : Z * drm_dsc_config :=
  if (bits_per_pixel vdsc_cfg =? 0) || (bits_per_component vdsc_cfg =? 0)
  then (- EINVAL, vdsc_cfg)
  else
    match params_table type with
    | None => (- EINVAL, vdsc_cfg)
    | Some data =>
      match get_rc_params data (bits_per_pixel vdsc_cfg) (bits_per_component vdsc_cfg) with
      | None => (- EINVAL, vdsc_cfg)
      | Some rc_params => (0, store_rc_params rc_params vdsc_cfg)
      end
    end.

(** ** The computed parameters *)

(** DIV_ROUND_UP on unsigned long operands. *)
Definition DIV_ROUND_UP_ul (n d : Z) : option Z :=
  if d =? 0 then None else Some (u64 (u64 (n + d) - 1) / d).

(** The slice width that is coded, an int. *)
Definition coded_width (c : drm_dsc_config) : Z :=
  if native_420 c || native_422 c then Z.quot (slice_width c) 2 else slice_width c.

Definition compute_chunk_size (c : drm_dsc_config) : drm_dsc_config :=
  set_slice_chunk_size
    (u16 (DIV_ROUND_UP_int (s32 (coded_width c * bits_per_pixel c)) (8 * 16))) c.

Definition extra_mux_bits (c : drm_dsc_config) : Z :=
  let mux := mux_word_size c in
  let bpc := bits_per_component c in
  u64 (s32
    (if convert_rgb c then 3 * (mux + (4 * bpc + 4) - 2)
     else if native_422 c then 4 * mux + (4 * bpc + 4) + 3 * (4 * bpc) - 2
     else 3 * mux + (4 * bpc + 4) + 2 * (4 * bpc) - 2)).

(** The while loop; [n] is num_extra_mux_bits. *)
Fixpoint align_mux_bits (n : nat) (slice_bits mux : Z) : option Z :=
  match n with
  | O => Some 0
  | S n' =>
    if mux =? 0 then None
    else if u64 (slice_bits - Z.of_nat n) mod mux =? 0 then Some (Z.of_nat n)
    else align_mux_bits n' slice_bits mux
  end.

(** initial_scale_value and scale_decrement_interval. *)
Definition compute_scale (groups_per_line : Z) (c : drm_dsc_config) : drm_dsc_config :=
  let c := if groups_per_line <? u64 (initial_scale_value c - 8)
           then set_initial_scale_value (u8 (groups_per_line + 8)) c else c in
  if 8 <? initial_scale_value c
  then set_scale_decrement_interval (u16 (groups_per_line / (initial_scale_value c - 8))) c
  else set_scale_decrement_interval DSC_SCALE_DECREMENT_INTERVAL_MAX c.

Definition compute_final_offset (num_extra_mux_bits : Z) (c : drm_dsc_config) : drm_dsc_config :=
  set_final_offset
    (u16 (u64 (s32 (rc_model_size c
                    - Z.quot (s32 (s32 (initial_xmit_delay c * bits_per_pixel c) + 8)) 16)
               + num_extra_mux_bits))) c.

Definition compute_nfl (c : drm_dsc_config) : drm_dsc_config :=
  if 1 <? slice_height c
  then set_nfl_bpg_offset
         (u16 (DIV_ROUND_UP_int (Z.shiftl (first_line_bpg_offset c) 11) (slice_height c - 1))) c
  else set_nfl_bpg_offset 0 c.

Definition compute_slice_bpg (num_extra_mux_bits groups_total : Z) (c : drm_dsc_config)
    : option drm_dsc_config :=
  v ← DIV_ROUND_UP_ul
        (u64 (Z.shiftl (u64 (rc_model_size c - initial_offset c + num_extra_mux_bits)) 11))
        groups_total;
  Some (set_slice_bpg_offset (u16 v) c).

Definition compute_scale_increment (final_scale : Z) (c : drm_dsc_config)
    : option drm_dsc_config :=
  if 9 <? final_scale then
    let d := u64 ((nfl_bpg_offset c + slice_bpg_offset c) * (final_scale - 9)) in
    if d =? 0 then None
    else Some (set_scale_increment_interval (u16 (final_offset c * Z.shiftl 1 11 / d)) c)
  else Some (set_scale_increment_interval 0 c).

Definition compute_delay (groups_per_line : Z) (c : drm_dsc_config) : option drm_dsc_config :=
  let rbs_min :=
    u64 (s32 (rc_model_size c - initial_offset c
              + DIV_ROUND_UP_int (s32 (initial_xmit_delay c * bits_per_pixel c)) 16)
         + groups_per_line * first_line_bpg_offset c) in
  hrd_delay ← DIV_ROUND_UP_ul (u64 (rbs_min * 16)) (bits_per_pixel c);
  let c := set_rc_bits (u16 (u64 (hrd_delay * bits_per_pixel c) / 16)) c in
  Some (set_initial_dec_delay (u16 (u64 (hrd_delay - initial_xmit_delay c))) c).

Definition drm_dsc_compute_rc_parameters (vdsc_cfg : drm_dsc_config)
    : option (Z * drm_dsc_config) :=
  let groups_per_line :=
    u64 (DIV_ROUND_UP_int (coded_width vdsc_cfg) DSC_RC_PIXELS_PER_GROUP) in
  let c := compute_chunk_size vdsc_cfg in
  let slice_bits := u64 (s32 (s32 (8 * slice_chunk_size c) * slice_height c)) in
  num_extra_mux_bits ←
    align_mux_bits (Z.to_nat (extra_mux_bits c)) slice_bits (mux_word_size c);
  let c := compute_scale groups_per_line c in
  let c := compute_final_offset num_extra_mux_bits c in
  if rc_model_size c <=? final_offset c then Some (- ERANGE, c)
  else
    let final_scale := Z.quot (rc_model_size c * 8) (rc_model_size c - final_offset c) in
    let c := compute_nfl c in
    let groups_total := u64 (groups_per_line * slice_height c) in
    c ← compute_slice_bpg num_extra_mux_bits groups_total c;
    c ← compute_scale_increment final_scale c;
    c ← compute_delay groups_per_line c;
    Some (0, c).

(** ** Derived values *)

Definition drm_dsc_get_bpp_int (vdsc_cfg : drm_dsc_config) : Z :=
  Z.shiftr (bits_per_pixel vdsc_cfg) 4.

Definition drm_dsc_initial_scale_value (dsc : drm_dsc_config) : option Z :=
  let d := rc_model_size dsc - initial_offset dsc in
  if d =? 0 then None else Some (u8 (Z.quot (8 * rc_model_size dsc) d)).

(** A shift by a negative count has no result. *)
Definition drm_dsc_flatness_det_thresh (dsc : drm_dsc_config) : option Z :=
  let k := bits_per_component dsc - 8 in
  if (k <? 0) || (31 <? k) then None else Some (u32 (s32 (Z.shiftl 2 k))).

(** ** The tables *)

(** Two's complement in eight and in six bits. *)
Definition sext8 (v : Z) : Z := if v <? 128 then v else v - 256.
Definition sext6 (v : Z) : Z := if v <? 32 then v else v - 64.

Definition between (lo x hi : Z) : bool := (lo <=? x) && (x <? hi).

Definition range_ok (r : drm_dsc_rc_range_parameters) : bool :=
  between 0 (range_min_qp r) 32 && between 0 (range_max_qp r) 32
  && (range_min_qp r <=? range_max_qp r)
  && between 0 (Z.land (range_bpg_offset r) DSC_RANGE_BPG_OFFSET_MASK) 64
  && (sext6 (Z.land (range_bpg_offset r) DSC_RANGE_BPG_OFFSET_MASK)
      =? sext8 (range_bpg_offset r)).

Definition row_ok (d : rc_parameters_data) : bool :=
  let p := params d in
  between 1 (bpp d) 256 && between 1 (bpc d) 17
  && between 0 (rcp_initial_xmit_delay p) (2 ^ 10)
  && between 0 (rcp_first_line_bpg_offset p) 32
  && between 0 (rcp_initial_offset p) (8192 + 1)
  && between 0 (rcp_flatness_min_qp p) 32 && between 0 (rcp_flatness_max_qp p) 32
  && between 0 (rcp_rc_quant_incr_limit0 p) 32 && between 0 (rcp_rc_quant_incr_limit1 p) 32
  && Nat.eqb (length (rcp_rc_range_params p)) 15
  && forallb range_ok (rcp_rc_range_params p).

Fixpoint distinct_keys (l : list rc_parameters_data) : bool :=
  match l with
  | [] => true
  | d :: rest =>
    forallb (fun e => negb ((bpp e =? bpp d) && (bpc e =? bpc d))) rest && distinct_keys rest
  end.

Lemma tables_ok type data :
  params_table type = Some data -> forallb row_ok data = true /\ distinct_keys data = true.
Proof.
  unfold params_table. intros H. destruct type as [|[[]|[]|]|]; simplify_eq;
    split; vm_compute; reflexivity.
Qed.

Lemma get_rc_params_found data b k p :
  get_rc_params data b k = Some p ->
  exists d, In d data /\ bpp d = b /\ bpc d = k /\ params d = p.
Proof.
  induction data as [|d rest IH]; cbn; [done|].
  destruct (Z.eqb_spec (bpp d) b), (Z.eqb_spec (bpc d) k); cbn;
    [intros [= <-]; exists d; by auto|..];
    intros (x&?&?&?&?)%IH; exists x; by auto.
Qed.

Lemma get_rc_params_none data b k :
  get_rc_params data b k = None ->
  forall d, In d data -> ~ (bpp d = b /\ bpc d = k).
Proof.
  induction data as [|d rest IH]; cbn; [by auto|].
  destruct (Z.eqb_spec (bpp d) b), (Z.eqb_spec (bpc d) k); cbn; [done|..];
    intros H x [<-|Hx]; try tauto; by apply (IH H).
Qed.

Lemma distinct_keys_eq data d e :
  distinct_keys data = true -> In d data -> In e data ->
  bpp d = bpp e -> bpc d = bpc e -> d = e.
Proof.
  intros H Hd He Eb Ec. induction data as [|x rest IH]; [done|]. cbn in H.
  apply andb_prop in H as [Hx Hr]. rewrite forallb_forall in Hx.
  assert (N : forall y, In y rest -> ~ (bpp y = bpp x /\ bpc y = bpc x)).
  { intros y Hy [E1 E2]. specialize (Hx y Hy). by rewrite E1, E2, !Z.eqb_refl in Hx. }
  destruct Hd as [<-|Hd], He as [<-|He]; [done| | |by apply IH].
  - exfalso. by apply (N e).
  - exfalso. by apply (N d).
Qed.

(** What a loaded row leaves in the configuration. *)
Record rc_loaded (p : rc_parameters) (c : drm_dsc_config) : Prop := {
  ld_first_line : first_line_bpg_offset c = rcp_first_line_bpg_offset p;
  ld_xmit : initial_xmit_delay c = rcp_initial_xmit_delay p;
  ld_offset : initial_offset c = rcp_initial_offset p;
  ld_flatness_min : flatness_min_qp c = rcp_flatness_min_qp p;
  ld_flatness_max : flatness_max_qp c = rcp_flatness_max_qp p;
  ld_limit0 : rc_quant_incr_limit0 c = rcp_rc_quant_incr_limit0 p;
  ld_limit1 : rc_quant_incr_limit1 c = rcp_rc_quant_incr_limit1 p;
  ld_ranges : Forall2 (fun r t =>
      range_min_qp r = range_min_qp t /\ range_max_qp r = range_max_qp t
      /\ sext6 (range_bpg_offset r) = sext8 (range_bpg_offset t))
    (rc_range_params c) (rcp_rc_range_params p);
  ld_fits : Forall range_fits (rc_range_params c);
  ld_ranges_len : length (rc_range_params c) = 15%nat;
  ld_bounds : 0 <= initial_xmit_delay c < 2 ^ 10 /\ 0 <= first_line_bpg_offset c < 32
    /\ 0 <= initial_offset c <= 8192 /\ Forall (fun q => 0 <= q < 32)
      [flatness_min_qp c; flatness_max_qp c; rc_quant_incr_limit0 c; rc_quant_incr_limit1 c]
}.

(** A configuration without the members of a table row. *)
Definition without_rc (c : drm_dsc_config) : drm_dsc_config :=
  store_rc_params (RcParams 0 0 0 0 0 0 0 []) c.

Lemma between_iff lo x hi : between lo x hi = true <-> lo <= x < hi.
Proof. unfold between. rewrite andb_true_iff, Z.leb_le, Z.ltb_lt. done. Qed.

Lemma range_ok_spec r :
  range_ok r = true ->
  range_fits (mask_range r) /\
  sext6 (range_bpg_offset (mask_range r)) = sext8 (range_bpg_offset r).
Proof.
  unfold range_ok. rewrite !andb_true_iff, !between_iff, Z.eqb_eq.
  intros [[[[? ?] ?] ?] ?]. split; [by constructor|done].
Qed.

Lemma store_loaded d c : row_ok d = true -> rc_loaded (params d) (store_rc_params (params d) c).
Proof.
  unfold row_ok. rewrite !andb_true_iff, !between_iff, Nat.eqb_eq, forallb_forall.
  intros [[[[[[[[[[? ?] ?] ?] ?] ?] ?] ?] ?] Hlen] Hr].
  assert (F : Forall (fun r => range_ok r = true) (rcp_rc_range_params (params d))).
  { apply List.Forall_forall. exact Hr. }
  constructor; try reflexivity; cbn [store_rc_params rc_range_params set_rc_range_params].
  - clear Hr Hlen. induction F as [|r l Hr _ IH]; cbn [map]; constructor; [|done].
    by destruct (range_ok_spec r Hr).
  - apply Forall_map. eapply Forall_impl; [|exact F]. intros r Hr'. by destruct (range_ok_spec r Hr').
  - by rewrite length_map.
  - cbn. repeat constructor; lia.
Qed.

Lemma setup_code c type :
  let '(r, c') := drm_dsc_setup_rc_params c type in
  (r = 0 /\ exists data row,
     params_table type = Some data /\ In row data
     /\ (bpp row = bits_per_pixel c /\ bpc row = bits_per_component c)
     /\ (forall row', In row' data -> bpp row' = bpp row -> bpc row' = bpc row -> row' = row)
     /\ rc_loaded (params row) c' /\ without_rc c' = without_rc c)
  \/ (r = - EINVAL /\ c' = c /\
      (bits_per_pixel c = 0 \/ bits_per_component c = 0
       \/ ~ 0 <= type <= 3
       \/ exists data, params_table type = Some data /\
            forall row, In row data ->
              ~ (bpp row = bits_per_pixel c /\ bpc row = bits_per_component c))).
Proof.
  unfold drm_dsc_setup_rc_params.
  destruct (Z.eqb_spec (bits_per_pixel c) 0), (Z.eqb_spec (bits_per_component c) 0); cbn [orb];
    try (right; by auto).
  destruct (params_table type) as [data|] eqn:Et.
  - destruct (tables_ok _ _ Et) as [Hok Hk]. rewrite forallb_forall in Hok.
    destruct (get_rc_params data _ _) as [p|] eqn:Eg.
    + left. split; [done|]. apply get_rc_params_found in Eg as (d & Hd & Eb & Ec & <-).
      exists data, d.
      exact (conj eq_refl (conj Hd (conj (conj Eb Ec) (conj
        (fun row' Hr' E1 E2 => distinct_keys_eq data row' d Hk Hr' Hd E1 E2)
        (conj (store_loaded d c (Hok d Hd)) eq_refl))))).
    + right. repeat split. do 3 right. exists data. split; [done|].
      by apply get_rc_params_none.
  - right. repeat split. do 2 right. left. intros Ht.
    assert (type = 0 \/ type = 1 \/ type = 2 \/ type = 3) as [-> | [-> | [-> | ->]]] by lia; done.
Qed.

(** C18. drm_dsc_setup_rc_params either loads the one row of the table of the
    requested mode that has the configuration's bits per pixel and per
    component, or returns -EINVAL and leaves the configuration alone, which it
    does exactly when a rate is 0, the mode is unknown or no row matches.  A loaded
    row keeps its quantisation parameters, each range offset reads back as the
    signed offset of the table from its 6-bit place, every member fits its
    place in the picture parameter set, and no other member changes. *)
Theorem setup_rc_params_spec c type :
  let '(r, c') := drm_dsc_setup_rc_params c type in
  (r = 0 /\ exists data row,
     params_table type = Some data /\ In row data
     /\ (bpp row = bits_per_pixel c /\ bpc row = bits_per_component c)
     /\ (forall row', In row' data -> bpp row' = bpp row -> bpc row' = bpc row -> row' = row)
     /\ rc_loaded (params row) c' /\ without_rc c' = without_rc c)
  \/ (r = - EINVAL /\ c' = c /\
      (bits_per_pixel c = 0 \/ bits_per_component c = 0
       \/ ~ 0 <= type <= 3
       \/ exists data, params_table type = Some data /\
            forall row, In row data ->
              ~ (bpp row = bits_per_pixel c /\ bpc row = bits_per_component c))).
Proof. exact (setup_code c type). Qed.

(** ** The computed parameters, exactly

    The formulas of the specification over unbounded integers, and the ranges of
    the inputs for which the code computes them. *)

Definition cdiv (n d : Z) : Z := (n + d - 1) / d.

Definition groups (c : drm_dsc_config) : Z := cdiv (coded_width c) 3.
Definition chunk (c : drm_dsc_config) : Z := cdiv (coded_width c * bits_per_pixel c) 128.

Definition mux_overhead (c : drm_dsc_config) : Z :=
  if convert_rgb c then 3 * (mux_word_size c + (4 * bits_per_component c + 4) - 2)
  else if native_422 c then 4 * mux_word_size c + (4 * bits_per_component c + 4)
         + 3 * (4 * bits_per_component c) - 2
  else 3 * mux_word_size c + (4 * bits_per_component c + 4)
         + 2 * (4 * bits_per_component c) - 2.

Definition min_rate_buffer (c : drm_dsc_config) : Z :=
  rc_model_size c - initial_offset c + cdiv (initial_xmit_delay c * bits_per_pixel c) 16
  + groups c * first_line_bpg_offset c.

(** The largest number of extra bits up to the overhead that fills a slice to a
    whole number of mux words, or none. *)
Record mux_aligned (c : drm_dsc_config) (mb : Z) : Prop := {
  mx_range : 0 <= mb <= mux_overhead c;
  mx_divides : mb = 0 \/ (8 * chunk c * slice_height c - mb) mod mux_word_size c = 0;
  mx_largest : forall n, mb < n <= mux_overhead c ->
    (8 * chunk c * slice_height c - n) mod mux_word_size c <> 0
}.

Record rc_inputs (c : drm_dsc_config) : Prop := {
  in_typed : cfg_typed c;
  in_mux : 0 < mux_word_size c;
  in_bpp : 16 <= bits_per_pixel c < 2 ^ 10;
  in_xmit : initial_xmit_delay c < 2 ^ 10;
  in_scale : 8 <= initial_scale_value c;
  in_first_line : first_line_bpg_offset c < 32;
  in_model : initial_offset c < rc_model_size c < 2 ^ 15;
  in_width : 1 <= coded_width c /\ coded_width c * bits_per_pixel c <= 128 * 65535;
  in_height : 0 < slice_height c;
  in_slice : mux_overhead c <= 8 * chunk c * slice_height c < 2 ^ 31;
  in_groups : 1300 <= groups c * slice_height c;
  in_buffer : min_rate_buffer c <= 65536 - 64
}.

Lemma cdiv_bounds n d : 0 < d -> n <= cdiv n d * d < n + d.
Proof. apply div_ceil_bounds. Qed.

Lemma cdiv_nonneg n d : 0 <= n -> 0 < d -> 0 <= cdiv n d.
Proof. intros. apply Z.div_pos; lia. Qed.

(** [n <= k * d] bounds the quotient. *)
Lemma cdiv_le n d k : 0 < d -> n <= k * d -> cdiv n d <= k.
Proof. intros ? Hn. pose proof (cdiv_bounds n d). nia. Qed.

Lemma cdiv_pos n d : 0 < n -> 0 < d -> 1 <= cdiv n d.
Proof. intros. pose proof (cdiv_bounds n d). nia. Qed.

Lemma DIV_ROUND_UP_int_cdiv n d :
  0 <= n -> 0 < d -> n + d < 2 ^ 31 -> DIV_ROUND_UP_int n d = cdiv n d.
Proof.
  intros. pose proof (cdiv_nonneg n d). pose proof (cdiv_bounds n d). unfold DIV_ROUND_UP_int.
  rewrite (s32_small (n + d)), (s32_small (n + d - 1)) by (unfold is_s; pow_consts; lia).
  rewrite Z.quot_div_nonneg by lia. apply s32_small. unfold is_s. pow_consts.
  unfold cdiv in *. nia.
Qed.

Lemma DIV_ROUND_UP_ul_cdiv n d :
  0 <= n -> 0 < d -> n + d < 2 ^ 64 -> DIV_ROUND_UP_ul n d = Some (cdiv n d).
Proof.
  intros. unfold DIV_ROUND_UP_ul. destruct (Z.eqb_spec d 0); [lia|].
  by rewrite (u64_small (n + d)), (u64_small (n + d - 1)) by (unfold is_u; lia).
Qed.

(** The while loop stops at the first multiple, or at 0. *)
Lemma align_mux_bits_spec n sb mux :
  0 < mux -> Z.of_nat n <= sb < 2 ^ 64 ->
  exists mb, align_mux_bits n sb mux = Some mb /\ 0 <= mb <= Z.of_nat n
    /\ (mb = 0 \/ (sb - mb) mod mux = 0)
    /\ forall k, mb < k <= Z.of_nat n -> (sb - k) mod mux <> 0.
Proof.
  intros Hm. induction n as [|n IH]; intros Hsb; cbn [align_mux_bits].
  { exists 0. split; [done|]. split; [lia|]. split; [by left|]. lia. }
  destruct (Z.eqb_spec mux 0); [lia|].
  rewrite u64_small by (unfold is_u; lia).
  destruct (Z.eqb_spec ((sb - Z.of_nat (S n)) mod mux) 0) as [E|E].
  - exists (Z.of_nat (S n)). split; [done|]. split; [lia|]. split; [by right|]. lia.
  - destruct IH as (mb & -> & ? & ? & Hk); [lia|]. exists mb.
    split; [done|]. split; [lia|]. split; [done|]. intros k Hk'.
    destruct (Z.eq_dec k (Z.of_nat (S n))) as [->|]; [done|]. apply Hk. lia.
Qed.

Definition scale_value (c : drm_dsc_config) : Z :=
  Z.min (initial_scale_value c) (groups c + 8).
Definition scale_decrement (c : drm_dsc_config) : Z :=
  if scale_value c =? 8 then 4095 else groups c / (scale_value c - 8).
Definition final_offset_value (c : drm_dsc_config) (mb : Z) : Z :=
  rc_model_size c - (initial_xmit_delay c * bits_per_pixel c + 8) / 16 + mb.
Definition final_scale_value (c : drm_dsc_config) (mb : Z) : Z :=
  rc_model_size c * 8 / (rc_model_size c - final_offset_value c mb).
Definition nfl_bpg (c : drm_dsc_config) : Z :=
  if 1 <? slice_height c then cdiv (first_line_bpg_offset c * 2048) (slice_height c - 1) else 0.
Definition slice_bpg (c : drm_dsc_config) (mb : Z) : Z :=
  cdiv ((rc_model_size c - initial_offset c + mb) * 2048) (groups c * slice_height c).
(** The only member that can exceed its 16 bits within the ranges; it is cut. *)
Definition scale_increment (c : drm_dsc_config) (mb : Z) : Z :=
  if 9 <? final_scale_value c mb
  then u16 (final_offset_value c mb * 2048
            / ((nfl_bpg c + slice_bpg c mb) * (final_scale_value c mb - 9)))
  else 0.
Definition hrd_delay (c : drm_dsc_config) : Z := cdiv (min_rate_buffer c * 16) (bits_per_pixel c).

(** The members written before the range check, and all of them. *)
Definition dsc_partial (c : drm_dsc_config) (mb : Z) : drm_dsc_config :=
  set_final_offset (u16 (final_offset_value c mb))
    (set_scale_decrement_interval (scale_decrement c)
      (set_initial_scale_value (scale_value c) (set_slice_chunk_size (chunk c) c))).

Definition dsc_computed (c : drm_dsc_config) (mb : Z) : drm_dsc_config :=
  set_initial_dec_delay (hrd_delay c - initial_xmit_delay c)
    (set_rc_bits (hrd_delay c * bits_per_pixel c / 16)
      (set_scale_increment_interval (scale_increment c mb)
        (set_slice_bpg_offset (slice_bpg c mb)
          (set_nfl_bpg_offset (nfl_bpg c) (dsc_partial c mb))))).

Section compute.
Context (c : drm_dsc_config) (H : rc_inputs c).

Lemma in_ranges :
  is_u16 (slice_width c) /\ is_u16 (slice_height c) /\ is_u16 (rc_model_size c)
  /\ is_u16 (initial_offset c) /\ is_u16 (initial_xmit_delay c)
  /\ is_u8 (bits_per_component c) /\ is_u8 (mux_word_size c)
  /\ is_u8 (initial_scale_value c) /\ is_u8 (first_line_bpg_offset c).
Proof.
  destruct H as [T _ _ _ _ _ _ _ _ _ _ _]. destruct T as [T16 T8 _ _ _ _].
  repeat match goal with F : Forall _ (_ :: _) |- _ =>
    let F' := fresh "F" in apply Forall_cons_1 in F; destruct F as [? F'] end.
  repeat (split; [assumption|]). assumption.
Qed.

Ltac ranges :=
  destruct in_ranges as (R1 & R2 & R3 & R4 & R5 & R6 & R7 & R8 & R9);
  destruct H as [_ I1 I2 I3 I4 I5 I6 [I7 I8] I9 I10 I11 I12];
  unfold is_u in R1, R2, R3, R4, R5, R6, R7, R8, R9;
  change (2 ^ 16) with 65536 in *; change (2 ^ 8) with 256 in *;
  change (2 ^ 10) with 1024 in *; change (2 ^ 15) with 32768 in *;
  change (2 ^ 31) with 2147483648 in *.

Ltac wr := unfold is_s, is_u; pow_consts; nia.

Lemma coded_width_bound : coded_width c <= slice_width c.
Proof.
  ranges. unfold coded_width. destruct (native_420 c || native_422 c); [|lia].
  rewrite Z.quot_div_nonneg by lia. div_lia.
Qed.

Lemma groups_bound : 1 <= groups c <= 21846.
Proof.
  pose proof coded_width_bound. ranges. unfold groups. split.
  - apply (cdiv_pos (coded_width c) 3); lia.
  - apply cdiv_le; lia.
Qed.

Lemma groups_code : u64 (DIV_ROUND_UP_int (coded_width c) DSC_RC_PIXELS_PER_GROUP) = groups c.
Proof.
  pose proof coded_width_bound. pose proof groups_bound. ranges.
  unfold DSC_RC_PIXELS_PER_GROUP. rewrite DIV_ROUND_UP_int_cdiv by (pow_consts; lia).
  apply u64_small. fold (groups c). unfold is_u. pow_consts. lia.
Qed.

Lemma chunk_bound : 1 <= chunk c <= 65535.
Proof.
  ranges. unfold chunk. split; [apply (cdiv_pos _ 128); nia|apply cdiv_le; lia].
Qed.

Lemma chunk_code : compute_chunk_size c = set_slice_chunk_size (chunk c) c.
Proof.
  pose proof chunk_bound. ranges. unfold compute_chunk_size. f_equal.
  rewrite s32_small by wr. change (8 * 16) with 128.
  rewrite DIV_ROUND_UP_int_cdiv by (pow_consts; nia).
  apply wrapU_small. fold (chunk c). unfold is_u. pow_consts. lia.
Qed.

Lemma overhead_bound : 0 <= mux_overhead c <= 5102.
Proof. ranges. unfold mux_overhead. repeat case_match; lia. Qed.

Lemma overhead_code : extra_mux_bits c = mux_overhead c.
Proof.
  pose proof overhead_bound. unfold extra_mux_bits. fold (mux_overhead c).
  rewrite s32_small, u64_small by wr. done.
Qed.

Lemma slice_bits_code :
  u64 (s32 (s32 (8 * chunk c) * slice_height c)) = 8 * chunk c * slice_height c.
Proof.
  pose proof chunk_bound. ranges.
  rewrite (s32_small (8 * chunk c)), s32_small, u64_small by wr. done.
Qed.

Lemma align_code :
  exists mb, align_mux_bits (Z.to_nat (mux_overhead c)) (8 * chunk c * slice_height c)
               (mux_word_size c) = Some mb /\ mux_aligned c mb.
Proof.
  pose proof overhead_bound. ranges.
  destruct (align_mux_bits_spec (Z.to_nat (mux_overhead c)) (8 * chunk c * slice_height c)
    (mux_word_size c)) as (mb & E & ? & ? & Hk); [lia|pow_consts; lia|].
  rewrite Z2Nat.id in * by lia. exists mb. split; [done|]. by constructor.
Qed.

Lemma scale_code : compute_scale (groups c) (set_slice_chunk_size (chunk c) c)
  = set_scale_decrement_interval (scale_decrement c)
      (set_initial_scale_value (scale_value c) (set_slice_chunk_size (chunk c) c)).
Proof.
  pose proof groups_bound. ranges. unfold compute_scale, scale_decrement.
  cbn [initial_scale_value set_slice_chunk_size]. fold (set_slice_chunk_size (chunk c) c).
  rewrite u64_small by wr.
  assert (E : (if groups c <? initial_scale_value c - 8
     then set_initial_scale_value (u8 (groups c + 8)) (set_slice_chunk_size (chunk c) c)
     else set_slice_chunk_size (chunk c) c)
   = set_initial_scale_value (scale_value c) (set_slice_chunk_size (chunk c) c)).
  { unfold scale_value. destruct (Z.ltb_spec (groups c) (initial_scale_value c - 8)).
    - rewrite wrapU_small by wr. by rewrite Z.min_r by lia.
    - by rewrite Z.min_l by lia. }
  rewrite E. change (initial_scale_value (set_initial_scale_value ?v _)) with v.
  assert (8 <= scale_value c) by (unfold scale_value; lia).
  destruct (Z.ltb_spec 8 (scale_value c)), (Z.eqb_spec (scale_value c) 8); try lia; [|done].
  f_equal. apply wrapU_small. unfold is_u. pow_consts. split; [apply Z.div_pos; lia|].
  apply Z.div_lt_upper_bound; nia.
Qed.

Context (mb : Z) (Hmb : mux_aligned c mb).

Lemma mb_bound : 0 <= mb <= 5102.
Proof. pose proof overhead_bound. destruct Hmb. lia. Qed.

Lemma u16_u64 x : u16 (u64 x) = u16 x.
Proof.
  unfold wrapU. apply Z.mod_mod_divide. exists (2 ^ 48). reflexivity.
Qed.

Lemma xmit_bits_bound : 0 <= initial_xmit_delay c * bits_per_pixel c <= 1046529.
Proof. ranges. nia. Qed.

Lemma final_offset_code x :
  rc_model_size x = rc_model_size c -> initial_xmit_delay x = initial_xmit_delay c ->
  bits_per_pixel x = bits_per_pixel c ->
  compute_final_offset mb x = set_final_offset (u16 (final_offset_value c mb)) x.
Proof.
  intros E1 E2 E3. pose proof xmit_bits_bound as Hb. pose proof mb_bound. ranges.
  unfold compute_final_offset. rewrite E1, E2, E3. f_equal. rewrite u16_u64.
  set (b := initial_xmit_delay c * bits_per_pixel c) in *.
  rewrite (s32_small b), (s32_small (b + 8)) by wr.
  rewrite Z.quot_div_nonneg by lia. unfold final_offset_value. fold b.
  rewrite s32_small; [done|]. unfold is_s. pow_consts. div_lia.
Qed.

(** The range check of the code is the one on unbounded integers. *)
Lemma final_offset_check :
  (rc_model_size c <=? u16 (final_offset_value c mb))
  = negb (between 0 (final_offset_value c mb) (rc_model_size c)).
Proof.
  pose proof xmit_bits_bound as Hb. pose proof mb_bound. ranges.
  unfold final_offset_value. set (b := initial_xmit_delay c * bits_per_pixel c) in *.
  set (q := (b + 8) / 16). assert (0 <= q <= 65408) by (subst q; div_lia). clearbody q.
  unfold between. bdestr; cbn; unfold wrapU in *; pow_consts; try done; exfalso.
  all: revert H0; pow_consts; intros; div_lia.
Qed.

Hypothesis (Hfo : 0 <= final_offset_value c mb < rc_model_size c).

Lemma final_offset_u16 : u16 (final_offset_value c mb) = final_offset_value c mb.
Proof. ranges. apply wrapU_small. wr. Qed.

Lemma nfl_bound : 0 <= nfl_bpg c <= 63488.
Proof.
  ranges. unfold nfl_bpg. destruct (Z.ltb_spec 1 (slice_height c)); [|lia].
  split; [apply cdiv_nonneg; lia|apply cdiv_le; nia].
Qed.

Lemma nfl_code x :
  slice_height x = slice_height c -> first_line_bpg_offset x = first_line_bpg_offset c ->
  compute_nfl x = set_nfl_bpg_offset (nfl_bpg c) x.
Proof.
  intros E1 E2. pose proof nfl_bound as Hn. ranges. unfold compute_nfl, nfl_bpg in *.
  rewrite E1, E2. destruct (Z.ltb_spec 1 (slice_height c)); [|done].
  f_equal. rewrite shiftl_mul by lia. change (2 ^ 11) with 2048.
  rewrite DIV_ROUND_UP_int_cdiv by (pow_consts; lia). apply wrapU_small. wr.
Qed.

Lemma groups_total_code : u64 (groups c * slice_height c) = groups c * slice_height c.
Proof. pose proof groups_bound. ranges. apply u64_small. wr. Qed.

Lemma slice_bpg_bound : 1 <= slice_bpg c mb <= 65535.
Proof.
  pose proof mb_bound. ranges. unfold slice_bpg.
  split; [apply cdiv_pos; lia|apply cdiv_le; nia].
Qed.

Lemma slice_bpg_code x :
  rc_model_size x = rc_model_size c -> initial_offset x = initial_offset c ->
  compute_slice_bpg mb (groups c * slice_height c) x
  = Some (set_slice_bpg_offset (slice_bpg c mb) x).
Proof.
  intros E1 E2. pose proof slice_bpg_bound. pose proof mb_bound. pose proof groups_bound. ranges.
  unfold compute_slice_bpg. rewrite E1, E2, shiftl_mul by lia. change (2 ^ 11) with 2048.
  rewrite (u64_small (rc_model_size c - _ + _)), u64_small by wr.
  rewrite DIV_ROUND_UP_ul_cdiv by (pow_consts; nia). cbn. fold (slice_bpg c mb).
  rewrite wrapU_small by wr. done.
Qed.

Lemma final_scale_code :
  Z.quot (rc_model_size c * 8) (rc_model_size c - final_offset_value c mb)
  = final_scale_value c mb /\ 8 <= final_scale_value c mb <= 262136.
Proof.
  ranges. unfold final_scale_value. rewrite Z.quot_div_nonneg by lia. split; [done|].
  split; [apply Z.div_le_lower_bound; nia|apply Z.div_le_upper_bound; nia].
Qed.

Lemma scale_increment_code x :
  nfl_bpg_offset x = nfl_bpg c -> slice_bpg_offset x = slice_bpg c mb ->
  final_offset x = final_offset_value c mb ->
  compute_scale_increment (final_scale_value c mb) x
  = Some (set_scale_increment_interval (scale_increment c mb) x).
Proof.
  intros E1 E2 E3. pose proof nfl_bound. pose proof slice_bpg_bound.
  destruct final_scale_code as [_ ?].
  unfold compute_scale_increment, scale_increment. rewrite E1, E2, E3.
  destruct (Z.ltb_spec 9 (final_scale_value c mb)); [|done].
  rewrite u64_small by wr. destruct (Z.eqb_spec ((nfl_bpg c + slice_bpg c mb)
    * (final_scale_value c mb - 9)) 0); [nia|].
  by change (Z.shiftl 1 11) with 2048.
Qed.

Lemma min_rate_buffer_bound :
  initial_xmit_delay c * bits_per_pixel c < 16 * min_rate_buffer c.
Proof.
  pose proof groups_bound. ranges. unfold min_rate_buffer.
  pose proof (cdiv_bounds (initial_xmit_delay c * bits_per_pixel c) 16). nia.
Qed.

Lemma delay_code x :
  rc_model_size x = rc_model_size c -> initial_offset x = initial_offset c ->
  initial_xmit_delay x = initial_xmit_delay c -> bits_per_pixel x = bits_per_pixel c ->
  first_line_bpg_offset x = first_line_bpg_offset c ->
  compute_delay (groups c) x
  = Some (set_initial_dec_delay (hrd_delay c - initial_xmit_delay c)
            (set_rc_bits (hrd_delay c * bits_per_pixel c / 16) x)).
Proof.
  intros E1 E2 E3 E4 E5. pose proof xmit_bits_bound. pose proof groups_bound.
  pose proof min_rate_buffer_bound. ranges.
  unfold compute_delay. cbn [rc_model_size initial_offset initial_xmit_delay bits_per_pixel
    first_line_bpg_offset set_rc_bits]. rewrite E1, E2, E3, E4, E5.
  rewrite (s32_small (initial_xmit_delay c * _)) by wr.
  rewrite DIV_ROUND_UP_int_cdiv by (pow_consts; lia).
  set (q := cdiv (initial_xmit_delay c * bits_per_pixel c) 16) in *.
  assert (0 <= q <= 65409) by (subst q; split; [apply cdiv_nonneg|apply cdiv_le]; lia).
  assert (0 <= groups c * first_line_bpg_offset c <= 21846 * 31) by nia.
  rewrite s32_small by (apply is_s32_iff; lia). rewrite (u64_small (_ - _ + _ + _)) by (apply is_u64_iff; lia).
  change (rc_model_size c - initial_offset c + q + groups c * first_line_bpg_offset c)
    with (min_rate_buffer c).
  rewrite (u64_small (min_rate_buffer c * 16)) by (apply is_u64_iff; lia).
  rewrite DIV_ROUND_UP_ul_cdiv by (change (2 ^ 64) with 18446744073709551616; lia). fold (hrd_delay c). cbn [mbind option_bind].
  pose proof (cdiv_bounds (min_rate_buffer c * 16) (bits_per_pixel c)) as Hh.
  fold (hrd_delay c) in Hh.
  assert (Hd : initial_xmit_delay c < hrd_delay c < 65536).
  { split; apply (Z.mul_lt_mono_pos_r (bits_per_pixel c)); [lia..| |]; lia. }
  assert (0 <= hrd_delay c * bits_per_pixel c < 16 * 65536) by lia.
  rewrite (u64_small (hrd_delay c * _)), (u64_small (hrd_delay c - _)) by (unfold is_u; pow_consts; lia).
  rewrite (wrapU_small 16 (hrd_delay c - _)) by (unfold is_u; pow_consts; lia).
  rewrite (wrapU_small 16 (_ / 16)); [done|]. clear - H5. unfold is_u. pow_consts. div_lia.
Qed.

(** The members compute reads, and a configuration that agrees on them. *)
Record same_inputs (x : drm_dsc_config) : Prop := {
  si_model : rc_model_size x = rc_model_size c;
  si_offset : initial_offset x = initial_offset c;
  si_xmit : initial_xmit_delay x = initial_xmit_delay c;
  si_bpp : bits_per_pixel x = bits_per_pixel c;
  si_line : first_line_bpg_offset x = first_line_bpg_offset c;
  si_height : slice_height x = slice_height c
}.

(** After the range check. *)
Lemma tail_code x :
  same_inputs x -> final_offset x = final_offset_value c mb ->
  (x2 ← compute_slice_bpg mb (u64 (groups c * slice_height (compute_nfl x))) (compute_nfl x);
   x3 ← compute_scale_increment
          (Z.quot (rc_model_size x * 8) (rc_model_size x - final_offset x)) x2;
   x4 ← compute_delay (groups c) x3;
   Some (0, x4))
  = Some (0, set_initial_dec_delay (hrd_delay c - initial_xmit_delay c)
      (set_rc_bits (hrd_delay c * bits_per_pixel c / 16)
        (set_scale_increment_interval (scale_increment c mb)
          (set_slice_bpg_offset (slice_bpg c mb) (set_nfl_bpg_offset (nfl_bpg c) x))))).
Proof.
  intros [E1 E2 E3 E4 E5 E6] E7. rewrite E7, E1. destruct final_scale_code as [-> _].
  rewrite (nfl_code x) by done. set (x1 := set_nfl_bpg_offset (nfl_bpg c) x).
  assert (Eh : slice_height x1 = slice_height c) by done.
  rewrite Eh, groups_total_code, (slice_bpg_code x1) by done. cbn [mbind option_bind].
  rewrite scale_increment_code by done. cbn [mbind option_bind].
  by rewrite delay_code.
Qed.
End compute.

Lemma partial_inputs c mb : same_inputs c (dsc_partial c mb).
Proof. by constructor. Qed.

Lemma compute_code c :
  rc_inputs c ->
  exists mb, mux_aligned c mb /\
    drm_dsc_compute_rc_parameters c
    = Some (if between 0 (final_offset_value c mb) (rc_model_size c)
            then (0, dsc_computed c mb) else (- ERANGE, dsc_partial c mb)).
Proof.
  intros H. destruct (align_code c H) as (mb & Ea & Hmb). exists mb. split; [done|].
  unfold drm_dsc_compute_rc_parameters.
  rewrite (groups_code c H), (chunk_code c H).
  change (extra_mux_bits (set_slice_chunk_size _ c)) with (extra_mux_bits c).
  rewrite (overhead_code c H).
  change (slice_chunk_size (set_slice_chunk_size ?v _)) with v.
  change (slice_height (set_slice_chunk_size _ c)) with (slice_height c).
  change (mux_word_size (set_slice_chunk_size _ c)) with (mux_word_size c).
  rewrite (slice_bits_code c H), Ea. cbn [mbind option_bind].
  rewrite (scale_code c H), (final_offset_code c H mb Hmb) by reflexivity.
  fold (dsc_partial c mb).
  change (rc_model_size (dsc_partial c mb)) with (rc_model_size c).
  change (final_offset (dsc_partial c mb)) with (u16 (final_offset_value c mb)).
  rewrite (final_offset_check c H mb Hmb).
  destruct (between 0 _ _) eqn:Hfo; cbn [negb]; [|reflexivity]. apply between_iff in Hfo.
  exact (tail_code c H mb Hmb Hfo (dsc_partial c mb) (partial_inputs c mb)
           (final_offset_u16 c H mb Hfo)).
Qed.

(** C19. Within the ranges of [rc_inputs], drm_dsc_compute_rc_parameters always
    returns, and writes exactly the values of the DSC formulas over unbounded
    integers: the chunk size is the number of bytes that hold a line of a slice,
    the extra mux bits are the largest number that fills the slice to whole mux
    words, -ERANGE is returned exactly when the final offset is not inside the rate
    model, and no member but the nine results changes.  The scale increment
    interval alone is cut to its 16 bits. *)
Theorem compute_rc_parameters_spec c :
  rc_inputs c ->
  exists mb, mux_aligned c mb /\
    drm_dsc_compute_rc_parameters c
    = Some (if between 0 (final_offset_value c mb) (rc_model_size c)
            then (0, dsc_computed c mb) else (- ERANGE, dsc_partial c mb)).
Proof. exact (compute_code c). Qed.

(** ** Types are preserved, and a configured stream fits its PPS *)

Ltac typed_lists :=
  repeat match goal with
  | F : Forall _ (_ :: _) |- _ =>
    let F' := fresh "F" in apply Forall_cons_1 in F; destruct F as [? F']
  end;
  repeat (apply List.Forall_cons;
          [first [assumption | apply wrapU_range; lia | unfold is_u; lia]|]);
  try apply List.Forall_nil.

(** A store of a value of the member's type. *)
Ltac typed_store T := destruct T as [? ? ? ? ? ?]; split; cbn; try assumption; typed_lists.

Lemma typed_const c : cfg_typed c -> cfg_typed (drm_dsc_set_const_params c).
Proof.
  intros T. unfold drm_dsc_set_const_params, DSC_RC_MODEL_SIZE_CONST, DSC_RC_EDGE_FACTOR_CONST,
    DSC_RC_TGT_OFFSET_HI_CONST, DSC_RC_TGT_OFFSET_LO_CONST, DSC_MUX_WORD_SIZE_8_10_BPC,
    DSC_MUX_WORD_SIZE_12_BPC.
  destruct (rc_model_size c =? 0), (_ <=? 10); typed_store T.
Qed.

Lemma thresh_stored c :
  let t := rc_buf_thresh (drm_dsc_set_rc_buf_thresh c) in
  Forall is_u8 t /\ length t = 14%nat.
Proof.
  unfold drm_dsc_set_rc_buf_thresh.
  destruct (_ =? _); (split; [|reflexivity]); vm_compute; repeat constructor; discriminate.
Qed.

Lemma u8_u16 x : is_u8 x -> is_u16 x.
Proof. unfold is_u. pow_consts. lia. Qed.

Lemma typed_thresh c : cfg_typed c -> cfg_typed (drm_dsc_set_rc_buf_thresh c).
Proof.
  intros T. destruct (thresh_stored c) as [Ht Hl].
  assert (Ht' : Forall is_u16 (rc_buf_thresh (drm_dsc_set_rc_buf_thresh c))).
  { eapply Forall_impl; [|exact Ht]. apply u8_u16. }
  revert Ht' Hl. unfold drm_dsc_set_rc_buf_thresh.
  destruct (_ =? _); intros Ht' Hl; destruct T; split; first [assumption | exact Ht' | exact Hl].
Qed.

Lemma range_fits_u8 r :
  range_fits r -> is_u8 (range_min_qp r) /\ is_u8 (range_max_qp r) /\ is_u8 (range_bpg_offset r).
Proof. intros [? ? ?]. unfold is_u. pow_consts. lia. Qed.

Lemma typed_loaded p q c :
  cfg_typed c -> rc_loaded q (store_rc_params p c) -> cfg_typed (store_rc_params p c).
Proof.
  intros T L. destruct L as [_ _ _ _ _ _ _ _ Hf Hl (B1 & B2 & B3 & B4)].
  assert (Hf' : Forall (fun r => is_u8 (range_min_qp r) /\ is_u8 (range_max_qp r)
    /\ is_u8 (range_bpg_offset r)) (rc_range_params (store_rc_params p c))).
  { eapply Forall_impl; [exact range_fits_u8|exact Hf]. }
  cbn in B1, B2, B3, B4, Hf', Hl.
  repeat match goal with F : Forall _ (_ :: _) |- _ =>
    let F' := fresh "F" in apply Forall_cons_1 in F; destruct F as [? F'] end.
  typed_store T.
Qed.

Lemma typed_setup c type : cfg_typed c -> cfg_typed (drm_dsc_setup_rc_params c type).2.
Proof.
  intros T. pose proof (setup_code c type) as S.
  destruct (drm_dsc_setup_rc_params c type) as [r c'] eqn:E. cbn.
  destruct S as [(_ & data & row & _ & _ & _ & _ & L & _)|(_ & -> & _)]; [|done].
  unfold drm_dsc_setup_rc_params in E. repeat case_match; simplify_eq; try done.
  by apply (typed_loaded _ (params row)).
Qed.

Section typed_stores.
Context (v : Z) (c : drm_dsc_config).

Lemma typed_slice_chunk_size : is_u16 v -> cfg_typed c -> cfg_typed (set_slice_chunk_size v c).
Proof. intros Hv T. typed_store T. Qed.
Lemma typed_initial_scale_value : is_u8 v -> cfg_typed c -> cfg_typed (set_initial_scale_value v c).
Proof. intros Hv T. typed_store T. Qed.
Lemma typed_scale_decrement_interval : is_u16 v -> cfg_typed c -> cfg_typed (set_scale_decrement_interval v c).
Proof. intros Hv T. typed_store T. Qed.
Lemma typed_final_offset : is_u16 v -> cfg_typed c -> cfg_typed (set_final_offset v c).
Proof. intros Hv T. typed_store T. Qed.
Lemma typed_nfl_bpg_offset : is_u16 v -> cfg_typed c -> cfg_typed (set_nfl_bpg_offset v c).
Proof. intros Hv T. typed_store T. Qed.
Lemma typed_slice_bpg_offset : is_u16 v -> cfg_typed c -> cfg_typed (set_slice_bpg_offset v c).
Proof. intros Hv T. typed_store T. Qed.
Lemma typed_scale_increment_interval : is_u16 v -> cfg_typed c -> cfg_typed (set_scale_increment_interval v c).
Proof. intros Hv T. typed_store T. Qed.
Lemma typed_rc_bits : is_u16 v -> cfg_typed c -> cfg_typed (set_rc_bits v c).
Proof. intros Hv T. typed_store T. Qed.
Lemma typed_initial_dec_delay : is_u16 v -> cfg_typed c -> cfg_typed (set_initial_dec_delay v c).
Proof. intros Hv T. typed_store T. Qed.
End typed_stores.

Lemma u16_typed x : is_u16 (u16 x).
Proof. apply wrapU_range. lia. Qed.

Lemma u8_typed x : is_u8 (u8 x).
Proof. apply wrapU_range. lia. Qed.

Lemma small_typed x : 0 <= x < 65536 -> is_u16 x.
Proof. done. Qed.

Create HintDb typed discriminated.
#[export] Hint Resolve typed_slice_chunk_size typed_initial_scale_value typed_scale_decrement_interval
  typed_final_offset typed_nfl_bpg_offset typed_slice_bpg_offset
  typed_scale_increment_interval typed_rc_bits typed_initial_dec_delay
  u16_typed u8_typed : typed.

Lemma typed_compute c r c' :
  cfg_typed c -> drm_dsc_compute_rc_parameters c = Some (r, c') -> cfg_typed c'.
Proof.
  intros T. unfold drm_dsc_compute_rc_parameters.
  generalize (u64 (DIV_ROUND_UP_int (coded_width c) DSC_RC_PIXELS_PER_GROUP)). intros g.
  assert (T1 : cfg_typed (compute_chunk_size c)) by (unfold compute_chunk_size; auto with typed).
  revert T1. generalize (compute_chunk_size c). clear c T. intros c T.
  destruct (align_mux_bits _ _ _) as [mb|]; [|done]. cbn [mbind option_bind].
  assert (T1 : cfg_typed (compute_scale g c)).
  { unfold compute_scale, DSC_SCALE_DECREMENT_INTERVAL_MAX.
    assert (is_u16 4095) by (apply small_typed; lia). destruct (_ <? u64 _), (8 <? _); auto with typed. }
  revert T1. generalize (compute_scale g c). clear c T. intros c T.
  assert (T1 : cfg_typed (compute_final_offset mb c)) by (unfold compute_final_offset; auto with typed).
  revert T1. generalize (compute_final_offset mb c). clear c T. intros c T.
  destruct (_ <=? _); [by intros [= <- <-]|].
  generalize (Z.quot (rc_model_size c * 8) (rc_model_size c - final_offset c)). intros fs.
  assert (T1 : cfg_typed (compute_nfl c)).
  { unfold compute_nfl. assert (is_u16 0) by (apply small_typed; lia).
    destruct (_ <? _); auto with typed. }
  revert T1. generalize (compute_nfl c). clear c T. intros c T.
  unfold compute_slice_bpg, compute_scale_increment, compute_delay.
  assert (is_u16 0) by (apply small_typed; lia).
  intros E. apply bind_Some in E as (c1 & (v1 & _ & [= <-])%bind_Some & E).
  apply bind_Some in E as (c2 & E2 & E).
  assert (T2 : cfg_typed c2) by (repeat case_match; simplify_eq; auto with typed).
  apply bind_Some in E as (c3 & (h & _ & [= <-])%bind_Some & [= <- <-]).
  auto 6 with typed.
Qed.

(** What a driver runs before it computes the rate control parameters. *)
Abbreviation configured c type :=
  (drm_dsc_setup_rc_params (drm_dsc_set_rc_buf_thresh (drm_dsc_set_const_params c)) type).

(** Neither of the first two steps touches these. *)
Lemma configured_keeps c :
  let x := drm_dsc_set_rc_buf_thresh (drm_dsc_set_const_params c) in
  dsc_version_minor x = dsc_version_minor c /\ dsc_version_major x = dsc_version_major c
  /\ line_buf_depth x = line_buf_depth c /\ groups x = groups c.
Proof.
  unfold drm_dsc_set_rc_buf_thresh, drm_dsc_set_const_params. by repeat case_match.
Qed.

(** What loading a row leaves for the packing. *)
Lemma loaded_fits x c data row type :
  params_table type = Some data -> In row data -> rc_loaded (params row) c ->
  bpp row = bits_per_pixel x /\ bpc row = bits_per_component x ->
  without_rc c = without_rc x ->
  dsc_version_minor c = dsc_version_minor x /\ dsc_version_major c = dsc_version_major x
  /\ line_buf_depth c = line_buf_depth x /\ rc_buf_thresh c = rc_buf_thresh x
  /\ 0 < bits_per_component c <= 16 /\ bits_per_pixel c < 256
  /\ initial_xmit_delay c < 2 ^ 10 /\ Forall range_fits (rc_range_params c).
Proof.
  intros Et Hin L [Eb Ec] W. destruct (tables_ok _ _ Et) as [Hok _].
  rewrite forallb_forall in Hok. specialize (Hok row Hin). unfold row_ok in Hok.
  rewrite !andb_true_iff, !between_iff in Hok.
  assert (bits_per_component c = bits_per_component x) by exact (f_equal bits_per_component W).
  assert (bits_per_pixel c = bits_per_pixel x) by exact (f_equal bits_per_pixel W).
  destruct L as [_ _ _ _ _ _ _ _ Hf _ (B1 & _)].
  split; [exact (f_equal dsc_version_minor W)|].
  split; [exact (f_equal dsc_version_major W)|].
  split; [exact (f_equal line_buf_depth W)|].
  split; [exact (f_equal rc_buf_thresh W)|].
  split; [lia|]. split; [lia|]. split; [lia|done].
Qed.

(** What the packing reads of a configuration and the computation leaves alone. *)
Definition packed_inputs (c : drm_dsc_config) :=
  (dsc_version_minor c, dsc_version_major c, line_buf_depth c, bits_per_component c,
   bits_per_pixel c, initial_xmit_delay c, rc_buf_thresh c, rc_range_params c).

Lemma compute_keeps c r c' :
  drm_dsc_compute_rc_parameters c = Some (r, c') ->
  packed_inputs c' = packed_inputs c /\
  scale_decrement_interval c' = scale_decrement_interval
    (compute_scale (u64 (DIV_ROUND_UP_int (coded_width c) DSC_RC_PIXELS_PER_GROUP))
       (compute_chunk_size c)).
Proof.
  unfold drm_dsc_compute_rc_parameters.
  generalize (u64 (DIV_ROUND_UP_int (coded_width c) DSC_RC_PIXELS_PER_GROUP)). intros g.
  destruct (align_mux_bits _ _ _) as [mb|]; [|done]. cbn [mbind option_bind].
  assert (Ek : packed_inputs (compute_final_offset mb (compute_scale g (compute_chunk_size c)))
               = packed_inputs c) by (unfold compute_scale; by destruct (_ <? u64 _), (8 <? _)).
  assert (Ed : scale_decrement_interval
                 (compute_final_offset mb (compute_scale g (compute_chunk_size c)))
               = scale_decrement_interval (compute_scale g (compute_chunk_size c))) by done.
  revert Ek Ed. generalize (scale_decrement_interval (compute_scale g (compute_chunk_size c))).
  generalize (compute_final_offset mb (compute_scale g (compute_chunk_size c))).
  intros x d Ek Ed. destruct (_ <=? _); [by intros [= <- <-]|].
  generalize (Z.quot (rc_model_size x * 8) (rc_model_size x - final_offset x)). intros fs.
  assert (Ek' : packed_inputs (compute_nfl x) = packed_inputs c)
    by (rewrite <- Ek; unfold compute_nfl; by destruct (_ <? _)).
  assert (Ed' : scale_decrement_interval (compute_nfl x) = d)
    by (rewrite <- Ed; unfold compute_nfl; by destruct (_ <? _)).
  revert Ek' Ed'. generalize (compute_nfl x). clear x Ek Ed. intros x <- <-.
  unfold compute_slice_bpg, compute_scale_increment, compute_delay.
  intros E. apply bind_Some in E as (c1 & (v1 & _ & [= <-])%bind_Some & E).
  apply bind_Some in E as (c2 & E2 & E).
  apply bind_Some in E as (c3 & (h & _ & [= <-])%bind_Some & [= <- <-]).
  repeat case_match; simplify_eq; done.
Qed.

(** The scale decrement interval fits its 12 bits when a line has at most 4095
    groups, whatever the configuration. *)
Lemma scale_decrement_small c :
  cfg_typed c -> groups c <= 4095 ->
  scale_decrement_interval
    (compute_scale (u64 (DIV_ROUND_UP_int (coded_width c) DSC_RC_PIXELS_PER_GROUP))
       (compute_chunk_size c)) < 2 ^ 12.
Proof.
  intros T Hg.
  assert (Hw : 0 <= coded_width c < 65536).
  { destruct T as [T16 _ _ _ _ _]. apply Forall_cons_1 in T16 as [Hw _]. unfold is_u in Hw.
    change (2 ^ 16) with 65536 in Hw. unfold coded_width.
    destruct (native_420 c || native_422 c); [|lia]. rewrite Z.quot_div_nonneg by lia. div_lia. }
  unfold DSC_RC_PIXELS_PER_GROUP. rewrite DIV_ROUND_UP_int_cdiv by (pow_consts; lia).
  fold (groups c). assert (0 <= groups c) by (apply cdiv_nonneg; lia).
  rewrite u64_small by (unfold is_u; pow_consts; lia).
  unfold compute_scale. generalize (compute_chunk_size c). intros x.
  set (y := if groups c <? u64 _ then _ else _). clearbody y.
  destruct (Z.ltb_spec 8 (initial_scale_value y)); [|done].
  cbn [scale_decrement_interval set_scale_decrement_interval]. change (2 ^ 12) with 4096.
  assert (groups c / (initial_scale_value y - 8) <= groups c) by (apply Z.div_le_upper_bound; nia).
  assert (0 <= groups c / (initial_scale_value y - 8)) by (apply Z.div_pos; lia).
  rewrite wrapU_small by (unfold is_u; pow_consts; lia). lia.
Qed.

(** The computation keeps a configuration packable. *)
Lemma computed_fits c r c' :
  cfg_typed c -> drm_dsc_compute_rc_parameters c = Some (r, c') -> groups c <= 4095 ->
  dsc_version_minor c < 16 -> dsc_version_major c < 16 -> line_buf_depth c < 16 ->
  0 < bits_per_component c <= 16 -> bits_per_pixel c < 256 -> initial_xmit_delay c < 2 ^ 10 ->
  Forall is_u8 (rc_buf_thresh c) -> Forall range_fits (rc_range_params c) ->
  pps_fits c'.
Proof.
  intros T E Hg V1 V2 V3 B1 B2 B3 Th Hr. destruct (compute_keeps c r c' E) as [K Kd].
  injection K as E1 E2 E3 E4 E5 E6 E7 E8.
  split; [by eapply typed_compute|..]; rewrite ?E1, ?E2, ?E3, ?E4, ?E5, ?E6, ?E7, ?E8;
    try done; [pow_consts; lia|]. rewrite Kd. by apply scale_decrement_small.
Qed.

(** What the first steps leave. *)
Lemma configured_fits c type c1 :
  dsc_version_minor c < 16 -> dsc_version_major c < 16 -> line_buf_depth c < 16 ->
  configured c type = (0, c1) ->
  dsc_version_minor c1 < 16 /\ dsc_version_major c1 < 16 /\ line_buf_depth c1 < 16
  /\ 0 < bits_per_component c1 <= 16 /\ bits_per_pixel c1 < 256
  /\ initial_xmit_delay c1 < 2 ^ 10
  /\ Forall is_u8 (rc_buf_thresh c1) /\ Forall range_fits (rc_range_params c1)
  /\ groups c1 = groups c.
Proof.
  intros V1 V2 V3 Es. destruct (configured_keeps c) as (K1 & K2 & K3 & K4).
  destruct (thresh_stored (drm_dsc_set_const_params c)) as [Th _].
  revert K1 K2 K3 K4 Th Es.
  generalize (drm_dsc_set_rc_buf_thresh (drm_dsc_set_const_params c)). intros x K1 K2 K3 K4 Th Es.
  pose proof (setup_code x type) as S. rewrite Es in S.
  destruct S as [(_ & data & row & Et & Hin & Hk & _ & L & W)|(? & _)]; [|lia].
  destruct (loaded_fits _ _ _ _ _ Et Hin L Hk W) as (W1 & W2 & W3 & W4 & B1 & B2 & B3 & B4).
  assert (W5 : groups c1 = groups x) by exact (f_equal groups W).
  rewrite W1, W2, W3, W4, W5, K1, K2, K3, K4. split_and!; (done || lia).
Qed.

(** C21. A typed configuration whose versions and line buffer depth fit four bits and
    whose slices are at most 4095 groups wide (12285 pixels), and that a driver
    runs through the constants, the thresholds and a parameter row successfully
    and then through the computation, whatever it returns, is one whose picture
    parameter set the sink reads back exactly.  No other condition is needed:
    the rows and the computation keep every other member inside its field. *)
Theorem configured_pps_roundtrip c type c1 r c2 :
  cfg_typed c ->
  dsc_version_minor c < 16 -> dsc_version_major c < 16 -> line_buf_depth c < 16 ->
  groups c <= 4095 ->
  configured c type = (0, c1) ->
  drm_dsc_compute_rc_parameters c1 = Some (r, c2) ->
  exists p, drm_dsc_pps_payload_pack c2 = Some p /\ pps_read (pps_bytes p) = pps_view c2.
Proof.
  intros T V1 V2 V3 Hg Es Ec.
  destruct (configured_fits c type c1 V1 V2 V3 Es) as (?&?&?&?&?&?&?&?&Eg).
  assert (T1 : cfg_typed c1).
  { pose proof (typed_setup _ type (typed_thresh _ (typed_const _ T))) as T1. by rewrite Es in T1. }
  assert (F : pps_fits c2) by (apply (computed_fits c1 r c2); (done || lia)).
  destruct (packed_bytes _ F) as (p & Ep & Eb). exists p. split; [done|].
  rewrite Eb. by apply pps_read_wire.
Qed.

(** The sample stream of Dsc.v: 8 bits per component at 8 bits per pixel. *)
Definition sample_in : drm_dsc_config := (configured (set_initial_scale_value 32 sample_cfg) 0).2.
Definition sample_out : drm_dsc_config :=
  default sample_in (snd <$> drm_dsc_compute_rc_parameters sample_in).

Lemma sample_typed : cfg_typed (set_initial_scale_value 32 sample_cfg).
Proof. repeat constructor; cbn; lia. Qed.

Lemma sample_inputs : rc_inputs sample_in.
Proof.
  split; [|vm_compute; repeat split; first [reflexivity | discriminate]..].
  apply typed_setup, typed_thresh, typed_const, sample_typed.
Qed.

Lemma setup_rc_params_example :
  (configured sample_cfg 0).1 = 0 /\ (configured sample_cfg 4).1 = - EINVAL.
Proof. vm_compute. split; reflexivity. Qed.

Lemma compute_rc_parameters_spec_witness :
  exists mb, mux_aligned sample_in mb /\
    drm_dsc_compute_rc_parameters sample_in
    = Some (if between 0 (final_offset_value sample_in mb) (rc_model_size sample_in)
            then (0, dsc_computed sample_in mb) else (- ERANGE, dsc_partial sample_in mb)).
Proof. exact (compute_rc_parameters_spec sample_in sample_inputs). Defined.

Lemma configured_pps_roundtrip_witness :
  exists p, drm_dsc_pps_payload_pack sample_out = Some p
    /\ pps_read (pps_bytes p) = pps_view sample_out.
Proof.
  apply (configured_pps_roundtrip (set_initial_scale_value 32 sample_cfg) 0 sample_in 0).
  - exact sample_typed.
  - done.
  - done.
  - done.
  - vm_compute. done.
  - vm_compute. reflexivity.
  - vm_compute. reflexivity.
Defined.
