(* ===== verification/Syncmap.v ===== *)
(** * i915_syncmap.c: the radix tree of synchronisation points

    A timeline remembers, per fence context id (u64), the last seqno (u32) it has
    waited upon.  The C structure is a compressed 16-way radix tree whose nodes
    point to their parent, reached through a pointer to the most recently used
    leaf.  The model keeps that shape: a store of nodes addressed by locations,
    parent and child pointers, the bitmap, and [root] as the cached leaf.  A
    dereference of a location outside the store, or of the wrong member of the
    union, is [None].  kmalloc/kzalloc are external: [kmalloc] picks a location
    outside the store or fails, [uninit] is the content of the memory it returns. *)

From stdpp Require Import base numbers gmap list option fin_maps.
From Stdlib Require Import ZArith Lia Bool.
From S2P Require Import Prelude.
#[local] Open Scope Z_scope.

Abbreviation loc := positive.

(** ** Data *)

Definition KSYNCMAP : Z := 16.
Definition SHIFT : Z := Z.log2 KSYNCMAP.
Definition MASK : Z := KSYNCMAP - 1.

(** The union of struct i915_syncmap: seqnos in a leaf, children in a branch. *)
Inductive slots :=
| Seqno (s : list Z)
| Child (c : list (option loc)).

Record i915_syncmap := mk_node {
  prefix : Z;
  height : Z;
  bitmap : Z;
  parent : option loc;
  data : slots
}.

Definition set_parent (p : option loc) (n : i915_syncmap) : i915_syncmap :=
  mk_node (prefix n) (height n) (bitmap n) p (data n).

Abbreviation store := (gmap loc i915_syncmap).

(** ** Accessors *)

Definition __sync_seqno (p : i915_syncmap) : option (list Z) :=
  match data p with Seqno s => Some s | Child _ => None end.

Definition __sync_child (p : i915_syncmap) : option (list (option loc)) :=
  match data p with Seqno _ => None | Child c => Some c end.

Definition __sync_branch_idx (p : i915_syncmap) (id : Z) : Z :=
  Z.land (Z.shiftr id (height p)) MASK.

Definition __sync_leaf_idx (id : Z) : Z := Z.land id MASK.

Definition __sync_branch_prefix (p : i915_syncmap) (id : Z) : Z :=
  Z.shiftr (Z.shiftr id (height p)) SHIFT.

Definition __sync_leaf_prefix (id : Z) : Z := Z.shiftr id SHIFT.

Definition seqno_later (a b : Z) : bool := 0 <=? s32 (u32 (a - b)).

(** ** i915_syncmap_is_later

    The loops climb or descend the tree, whose heights are the multiples of 4
    from 0 to 60: [DEPTH] iterations are always enough. *)

Definition DEPTH : nat := 17.
Arguments DEPTH : simpl never.

(** do { p = p->parent; if (!p) return false; if (prefix matches) break; } *)
Fixpoint is_later_climb (fuel : nat) (st : store) (l : loc) (id : Z) : option (option loc) :=
  match fuel with
  | O => None
  | S fuel =>
      n ← st !! l;
      match parent n with
      | None => Some None
      | Some p =>
          pn ← st !! p;
          if __sync_branch_prefix pn id =? prefix pn then Some (Some p)
          else is_later_climb fuel st p id
      end
  end.

Fixpoint is_later_descend (fuel : nat) (st : store) (l : loc) (id : Z) : option (option loc) :=
  match fuel with
  | O => None
  | S fuel =>
      n ← st !! l;
      if height n =? 0 then Some (Some l)
      else
        kids ← __sync_child n;
        next ← kids !! Z.to_nat (__sync_branch_idx n id);
        match next with
        | None => Some None
        | Some c =>
            cn ← st !! c;
            if negb (__sync_branch_prefix cn id =? prefix cn) then Some None
            else is_later_descend fuel st c id
        end
  end.

(** found: *)
Definition is_later_found (st : store) (l : loc) (id seqno : Z) : option bool :=
  p ← st !! l;
  let idx := __sync_leaf_idx id in
  if negb (tst (bitmap p) (BIT idx)) then Some false
  else
    s ← __sync_seqno p;
    a ← s !! Z.to_nat idx;
    Some (seqno_later a seqno).

(** The result is the answer and the new value of [*root]. *)
Definition i915_syncmap_is_later (st : store) (root : option loc) (id seqno : Z)
  : option (bool * option loc) :=
  match root with
  | None => Some (false, None)
  | Some l =>
      p ← st !! l;
      if __sync_leaf_prefix id =? prefix p then
        b ← is_later_found st l id seqno; Some (b, root)
      else
        up ← is_later_climb DEPTH st l id;
        match up with
        | None => Some (false, root)
        | Some a =>
            down ← is_later_descend DEPTH st a id;
            match down with
            | None => Some (false, root)
            | Some leaf => b ← is_later_found st leaf id seqno; Some (b, Some leaf)
            end
        end
  end.

(** ** i915_syncmap_set *)

Definition __sync_set_seqno (p : i915_syncmap) (id seqno : Z) : option i915_syncmap :=
  let idx := __sync_leaf_idx id in
  s ← __sync_seqno p;
  Some (mk_node (prefix p) (height p) (Z.lor (bitmap p) (BIT idx)) (parent p)
          (Seqno (<[Z.to_nat idx := seqno]> s))).

Definition __sync_set_child (p : i915_syncmap) (idx : Z) (child : loc) : option i915_syncmap :=
  kids ← __sync_child p;
  Some (mk_node (prefix p) (height p) (Z.lor (bitmap p) (BIT idx)) (parent p)
          (Child (<[Z.to_nat idx := Some child]> kids))).

Definition fls64 (x : Z) : Z := if x =? 0 then 0 else Z.log2 x + 1.

(** round_up(x, y) for y a power of two, on 32-bit unsigned operands. *)
Definition round_up (x y : Z) : Z := u32 (Z.lor (u32 (x - 1)) (y - 1) + 1).

Section alloc.
Context (kmalloc : store -> option loc) (uninit : store -> list Z).

Definition __sync_alloc_leaf (st : store) (par : option loc) (id : Z)
  : option (loc * i915_syncmap) :=
  p ← kmalloc st;
  Some (p, mk_node (__sync_leaf_prefix id) 0 0 par (Seqno (uninit st))).

(** do { if (!p->parent) break; p = p->parent; if (prefix matches) break; } *)
Fixpoint set_climb (fuel : nat) (st : store) (l : loc) (id : Z) : option loc :=
  match fuel with
  | O => None
  | S fuel =>
      n ← st !! l;
      match parent n with
      | None => Some l
      | Some p =>
          pn ← st !! p;
          if __sync_branch_prefix pn id =? prefix pn then Some p
          else set_climb fuel st p id
      end
  end.

(** Insert a join [next] above the current layer [l]. *)
Definition insert_join (st : store) (l : loc) (p : i915_syncmap) (next : loc) (id : Z)
  : option store :=
  let above := round_up (fls64 (Z.lxor (__sync_branch_prefix p id) (prefix p))) SHIFT in
  let h := u32 (above + height p) in
  let join := mk_node (Z.shiftr (Z.shiftr id h) SHIFT) h 0 None
                (Child (replicate (Z.to_nat KSYNCMAP) None)) in
  st ← match parent p with
       | None => Some st
       | Some pl =>
           pn ← st !! pl;
           kids ← __sync_child pn;
           Some (<[pl := mk_node (prefix pn) (height pn) (bitmap pn) (parent pn)
                   (Child (<[Z.to_nat (__sync_branch_idx pn id) := Some next]> kids))]> st)
       end;
  let join := set_parent (parent p) join in
  join ← __sync_set_child join (Z.land (Z.shiftr (prefix p) (above - SHIFT)) MASK) l;
  Some (<[l := set_parent (Some next) p]> (<[next := join]> st)).

(** Descend into the next layer; [inl leaf] leaves the loop with a new leaf,
    [inr (Some c)] continues with [c], [inr None] is -ENOMEM. *)
Definition set_step (st : store) (l : loc) (id : Z)
  : option (store * (loc + option loc)) :=
  p ← st !! l;
  let idx := __sync_branch_idx p id in
  kids ← __sync_child p;
  next ← kids !! Z.to_nat idx;
  match next with
  | Some c => Some (st, inr (Some c))
  | None =>
      match __sync_alloc_leaf st (Some l) id with
      | None => Some (st, inr None)
      | Some (c, leaf) =>
          p' ← __sync_set_child p idx c;
          Some (<[l := p']> (<[c := leaf]> st), inl c)
      end
  end.

(** The do-while loop of __sync_set; the inner [None] is -ENOMEM. *)
Fixpoint set_descend (fuel : nat) (st : store) (l : loc) (id : Z)
  : option (store * option loc) :=
  match fuel with
  | O => None
  | S fuel =>
      let continue (st : store) (l : loc) :=
        '(st, r) ← set_step st l id;
        match r with
        | inl leaf => Some (st, Some leaf)
        | inr (Some c) => set_descend fuel st c id
        | inr None => Some (st, None)
        end in
      p ← st !! l;
      if negb (__sync_branch_prefix p id =? prefix p) then
        match kmalloc st with
        | None => Some (st, None)
        | Some next => st ← insert_join st l p next id; continue st next
        end
      else if height p =? 0 then Some (st, Some l)
      else continue st l
  end.

(** The result is the new store, the new [*root] and the return value. *)
Definition __sync_set (st : store) (root : option loc) (id seqno : Z)
  : option (store * option loc * Z) :=
  '(st, found) ←
    match root with
    | None =>
        match __sync_alloc_leaf st None id with
        | None => Some (st, None)
        | Some (l, leaf) => Some (<[l := leaf]> st, Some l)
        end
    | Some l => a ← set_climb DEPTH st l id; set_descend DEPTH st a id
    end;
  match found with
  | None => Some (st, root, - ENOMEM)
  | Some l =>
      p ← st !! l;
      p ← __sync_set_seqno p id seqno;
      Some (<[l := p]> st, Some l, 0)
  end.

Definition i915_syncmap_set (st : store) (root : option loc) (id seqno : Z)
  : option (store * option loc * Z) :=
  match root with
  | Some l =>
      p ← st !! l;
      if __sync_leaf_prefix id =? prefix p then
        p ← __sync_set_seqno p id seqno;
        Some (<[l := p]> st, root, 0)
      else __sync_set st root id seqno
  | None => __sync_set st root id seqno
  end.

End alloc.

(** ** i915_syncmap_free *)

Definition ffs (x : Z) : Z :=
  match find (fun i => Z.testbit x (Z.of_nat i)) (seq 0 32) with
  | Some i => Z.of_nat i + 1
  | None => 0
  end.

Definition kfree (st : store) (l : loc) : option store :=
  _ ← st !! l; Some (delete l st).

(** while ((i = ffs(p->bitmap))) { p->bitmap &= ~0u << i; free child i - 1 }: at
    most 16 iterations, [rec] being the recursive call. *)
Fixpoint free_children (rec : store -> loc -> option store) (l : loc) (k : nat) (st : store)
  : option store :=
  match k with
  | O => None
  | S k =>
      p ← st !! l;
      let i := ffs (bitmap p) in
      if i =? 0 then Some st
      else
        let p := mk_node (prefix p) (height p)
                   (Z.land (bitmap p) (u32 (Z.shiftl (-1) i))) (parent p) (data p) in
        let st := <[l := p]> st in
        kids ← __sync_child p;
        slot ← kids !! Z.to_nat (i - 1);
        c ← slot;
        st ← rec st c;
        free_children rec l k st
  end.

(** [fuel] bounds the recursion depth. *)
Fixpoint __sync_free (fuel : nat) (st : store) (l : loc) : option store :=
  match fuel with
  | O => None
  | S fuel =>
      p ← st !! l;
      st ← (if height p =? 0 then Some st
            else free_children (__sync_free fuel) l 17 st);
      kfree st l
  end.

Fixpoint free_climb (fuel : nat) (st : store) (l : loc) : option loc :=
  match fuel with
  | O => None
  | S fuel =>
      p ← st !! l;
      match parent p with None => Some l | Some q => free_climb fuel st q end
  end.

Definition i915_syncmap_free (st : store) (root : option loc) : option (store * option loc) :=
  match root with
  | None => Some (st, None)
  | Some l =>
      top ← free_climb DEPTH st l;
      st ← __sync_free DEPTH st top;
      Some (st, None)
  end.

(** ** The abstract map and the invariant *)

(** The slot of node [c] inside its parent of height [h]. *)
Definition slot_of (h : Z) (c : i915_syncmap) : Z :=
  Z.land (Z.shiftr (prefix c) (h - height c - SHIFT)) MASK.

Definition is_child (st : store) (pl : loc) (l : loc) : Prop :=
  exists pn n kids, st !! pl = Some pn /\ st !! l = Some n /\ data pn = Child kids /\
    parent n = Some pl /\ height n < height pn /\
    prefix pn = Z.shiftr (prefix n) (height pn - height n) /\
    kids !! Z.to_nat (slot_of (height pn) n) = Some (Some l).

Record node_wf (st : store) (l : loc) (n : i915_syncmap) : Prop := {
  wf_height : exists k, 0 <= k <= 15 /\ height n = 4 * k;
  wf_prefix : 0 <= prefix n < 2 ^ (60 - height n);
  wf_bitmap : 0 <= bitmap n < 2 ^ 16;
  wf_parent : forall pl, parent n = Some pl -> is_child st pl l;
  wf_data : match data n with
            | Seqno s => height n = 0 /\ length s = 16%nat
            | Child kids =>
                0 < height n /\ length kids = 16%nat /\
                forall i : nat, (i < 16)%nat ->
                  match kids !! i with
                  | Some (Some c) =>
                      Z.testbit (bitmap n) (Z.of_nat i) = true /\
                      exists cn, st !! c = Some cn /\ parent cn = Some l /\
                                 i = Z.to_nat (slot_of (height n) cn)
                  | _ => Z.testbit (bitmap n) (Z.of_nat i) = false
                  end
            end
}.

Definition covers (n : i915_syncmap) (id : Z) : Prop :=
  __sync_branch_prefix n id = prefix n.

(** The seqno a leaf of the store records for [id]. *)
Definition leaf_value (st : store) (id s : Z) : Prop :=
  exists l n ss, st !! l = Some n /\ data n = Seqno ss /\
    prefix n = __sync_leaf_prefix id /\
    Z.testbit (bitmap n) (__sync_leaf_idx id) = true /\
    ss !! Z.to_nat (__sync_leaf_idx id) = Some s.

Record store_wf (st : store) (root top : loc) : Prop := {
  sw_nodes : forall l n, st !! l = Some n -> node_wf st l n;
  sw_root : exists n, st !! root = Some n /\ height n = 0;
  sw_top : exists n, st !! top = Some n /\ parent n = None;
  sw_top_unique : forall l n, st !! l = Some n -> parent n = None -> l = top
}.

(** [syncmap_rep st root m]: the tree reached from [root] represents the map [m]
    from ids to seqnos. *)
Definition syncmap_rep (st : store) (root : option loc) (m : gmap Z Z) : Prop :=
  match root with
  | None => st = ∅ /\ m = ∅
  | Some r => (exists top, store_wf st r top) /\
              forall id s, is_u64 id -> (m !! id = Some s <-> leaf_value st id s)
  end.

(** ** Arithmetic of prefixes *)

Lemma shift_split a h1 h2 : 0 <= h1 -> 0 <= h2 -> Z.shiftr (Z.shiftr a h1) h2 = Z.shiftr a (h1 + h2).
Proof. intros. apply Z.shiftr_shiftr. lia. Qed.

Lemma covers_eq n id :
  0 <= height n -> (covers n id <-> Z.shiftr id (height n + 4) = prefix n).
Proof. intros. unfold covers, __sync_branch_prefix. rewrite shift_split; done || lia. Qed.

Lemma height_mult n st l : node_wf st l n -> exists k, 0 <= k <= 15 /\ height n = 4 * k.
Proof. apply wf_height. Qed.

Lemma branch_idx_range n id : 0 <= __sync_branch_idx n id < 16.
Proof.
  unfold __sync_branch_idx. change MASK with (Z.ones 4). rewrite Z.land_ones by lia.
  apply Z.mod_pos_bound. lia.
Qed.

Lemma slot_of_range h n : 0 <= slot_of h n < 16.
Proof.
  unfold slot_of. change MASK with (Z.ones 4). rewrite Z.land_ones by lia.
  apply Z.mod_pos_bound. lia.
Qed.

Lemma leaf_idx_range id : 0 <= __sync_leaf_idx id < 16.
Proof.
  unfold __sync_leaf_idx. change MASK with (Z.ones 4). rewrite Z.land_ones by lia.
  apply Z.mod_pos_bound. lia.
Qed.

(** If a node covers [id], its slot in a higher parent is the index of [id]. *)
Lemma covers_slot n id h :
  0 <= height n -> height n + 4 <= h -> covers n id ->
  slot_of h n = Z.land (Z.shiftr id h) MASK.
Proof.
  intros H1 H2 H. apply covers_eq in H; [|done]. unfold slot_of. rewrite <- H.
  rewrite Z.shiftr_shiftr by (unfold SHIFT; cbn; lia). do 2 f_equal.
  change SHIFT with 4. lia.
Qed.

Lemma covers_parent p n id :
  0 <= height n -> height n < height p ->
  prefix p = Z.shiftr (prefix n) (height p - height n) -> covers n id -> covers p id.
Proof.
  intros H1 H2 H3 H. apply covers_eq in H; [|done]. apply covers_eq; [lia|].
  rewrite H3, <- H, Z.shiftr_shiftr by lia. f_equal. lia.
Qed.

(** Two ids (or prefixes) that agree above bit [h] and at the nibble below. *)
Lemma shiftr_eq_lxor a b k :
  0 <= a -> 0 <= b -> 0 <= k ->
  (Z.shiftr a k = Z.shiftr b k <-> Z.lxor a b < 2 ^ k).
Proof.
  intros Ha Hb Hk.
  assert (0 <= Z.lxor a b) by (apply Z.lxor_nonneg; lia).
  rewrite <- (Z.lxor_eq_0_iff (Z.shiftr a k)), <- Z.shiftr_lxor, Z.shiftr_div_pow2 by lia.
  rewrite Z.div_small_iff by lia. lia.
Qed.

Lemma nibble_eq a b k :
  0 <= a -> 0 <= b -> 0 <= k -> Z.shiftr a (k + 4) = Z.shiftr b (k + 4) ->
  Z.land (Z.shiftr a k) MASK = Z.land (Z.shiftr b k) MASK ->
  Z.shiftr a k = Z.shiftr b k.
Proof.
  intros Ha Hb Hk H1 H2. change MASK with (Z.ones 4) in H2.
  rewrite !Z.land_ones in H2 by lia.
  rewrite <- !(shift_split _ k 4) in H1 by lia.
  rewrite !(Z.shiftr_div_pow2 _ 4) in H1 by lia.
  rewrite (Z.div_mod (Z.shiftr a k) (2 ^ 4)), (Z.div_mod (Z.shiftr b k) (2 ^ 4)) by lia.
  congruence.
Qed.

Lemma round_up_4 f : 0 < f <= 64 -> exists k, round_up f SHIFT = 4 * k /\ 4 * (k - 1) < f <= 4 * k.
Proof.
  intros Hf.
  assert (Hall : Forall (fun f => round_up f SHIFT = 4 * ((f + 3) / 4)) (seqZ 1 64)).
  { apply (bool_decide_unpack _). vm_compute. exact I. }
  rewrite Forall_forall in Hall. rewrite Hall by (apply elem_of_seqZ; lia).
  exists ((f + 3) / 4). pose proof (Z.div_mod (f + 3) 4). pose proof (Z.mod_pos_bound (f + 3) 4). lia.
Qed.

(** The height at which two different prefixes diverge. *)
Definition diverge (a b : Z) : Z := round_up (fls64 (Z.lxor a b)) SHIFT.

Lemma diverge_spec a b w :
  0 <= a < 2 ^ w -> 0 <= b < 2 ^ w -> a <> b -> 0 <= w <= 64 -> (exists k, w = 4 * k) ->
  exists k, diverge a b = 4 * k /\ 4 <= 4 * k <= w /\
    Z.shiftr a (4 * k) = Z.shiftr b (4 * k) /\
    Z.land (Z.shiftr a (4 * k - 4)) MASK <> Z.land (Z.shiftr b (4 * k - 4)) MASK.
Proof.
  intros Ha Hb Hab Hw [kw Hkw]. unfold diverge, fls64.
  assert (Hx0 : 0 <= Z.lxor a b) by (apply Z.lxor_nonneg; lia).
  assert (Hxn : Z.lxor a b <> 0) by (intros ?%Z.lxor_eq; done).
  destruct (Z.eqb_spec (Z.lxor a b) 0); [done|].
  assert (Hxw : Z.lxor a b < 2 ^ w).
  { apply shiftr_eq_lxor; try lia. rewrite !Z.shiftr_div_pow2, !Z.div_small by lia. done. }
  pose proof (Z.log2_nonneg (Z.lxor a b)).
  assert (Z.log2 (Z.lxor a b) < w) by (apply Z.log2_lt_pow2; lia).
  destruct (round_up_4 (Z.log2 (Z.lxor a b) + 1) ltac:(lia)) as (k & -> & Hk).
  exists k. split_and!; try lia.
  - apply shiftr_eq_lxor; try lia. apply Z.log2_lt_pow2; lia.
  - intros Heq. apply nibble_eq in Heq; try lia.
    + apply shiftr_eq_lxor in Heq; try lia. apply Z.log2_lt_pow2 in Heq; lia.
    + replace (4 * k - 4 + 4) with (4 * k) by lia.
      apply shiftr_eq_lxor; try lia. apply Z.log2_lt_pow2; lia.
Qed.

(** ** Paths: the nodes covering an id form one descending chain *)

Inductive dpath (st : store) (id : Z) : loc -> loc -> Prop :=
| dp_refl l : dpath st id l l
| dp_step l n kids c cn l' :
    st !! l = Some n -> data n = Child kids ->
    kids !! Z.to_nat (__sync_branch_idx n id) = Some (Some c) ->
    st !! c = Some cn -> covers cn id ->
    dpath st id c l' -> dpath st id l l'.

Lemma dpath_trans st id a b c : dpath st id a b -> dpath st id b c -> dpath st id a c.
Proof. induction 1; eauto using dpath. Qed.

Lemma dpath_linear st id a x y :
  dpath st id a x -> dpath st id a y -> dpath st id x y \/ dpath st id y x.
Proof.
  induction 1 as [|a n kids c cn x Ha Hd Hk Hc Hcov Hp IH]; [by left|].
  intros Hy. inversion Hy as [|? n' kids' c' cn' ? Ha' Hd' Hk' Hc' Hcov' Hp']; subst.
  - right. econstructor; eauto.
  - assert (n' = n) as -> by congruence. assert (kids' = kids) as -> by congruence.
    assert (c' = c) as -> by congruence. auto.
Qed.

Section chains.
Context (st : store) (root top : loc) (Hwf : store_wf st root top).

Lemma node_height_le l n : st !! l = Some n -> 0 <= height n <= 60.
Proof. intros H. destruct (wf_height _ _ _ (sw_nodes _ _ _ Hwf _ _ H)) as (k & ? & ->). lia. Qed.

Lemma heights_apart l n l' n' :
  st !! l = Some n -> st !! l' = Some n' -> height n < height n' -> height n + 4 <= height n'.
Proof.
  intros H H'.
  destruct (wf_height _ _ _ (sw_nodes _ _ _ Hwf _ _ H)) as (k & ? & ->).
  destruct (wf_height _ _ _ (sw_nodes _ _ _ Hwf _ _ H')) as (k' & ? & ->). lia.
Qed.

Lemma leaf_data l n : st !! l = Some n -> height n = 0 ->
  exists s, data n = Seqno s /\ length s = 16%nat.
Proof.
  intros H Hh. pose proof (wf_data _ _ _ (sw_nodes _ _ _ Hwf _ _ H)) as D.
  destruct (data n); [destruct D; eauto|lia].
Qed.

Lemma branch_data l n : st !! l = Some n -> height n <> 0 ->
  exists kids, data n = Child kids /\ length kids = 16%nat.
Proof.
  intros H Hh. pose proof (wf_data _ _ _ (sw_nodes _ _ _ Hwf _ _ H)) as D.
  destruct (data n); [lia|destruct D as (? & ? & ?); eauto].
Qed.

Lemma child_node l n kids (i : nat) c :
  st !! l = Some n -> data n = Child kids -> kids !! i = Some (Some c) ->
  exists cn, st !! c = Some cn /\ parent cn = Some l /\ height cn < height n /\
    prefix n = Z.shiftr (prefix cn) (height n - height cn) /\
    i = Z.to_nat (slot_of (height n) cn).
Proof.
  intros H Hd Hk. pose proof (wf_data _ _ _ (sw_nodes _ _ _ Hwf _ _ H)) as D.
  rewrite Hd in D. destruct D as (_ & Hlen & D).
  assert (i < 16)%nat by (rewrite <- Hlen; by eapply lookup_lt_Some).
  specialize (D i ltac:(lia)). rewrite Hk in D. destruct D as (_ & cn & Hc & Hp & Hi).
  destruct (wf_parent _ _ _ (sw_nodes _ _ _ Hwf _ _ Hc) _ Hp)
    as (pn & cn' & kids' & ? & ? & ? & ? & ? & ? & ?). simplify_eq.
  eauto 10.
Qed.

Lemma dpath_top l n id : st !! l = Some n -> covers n id -> dpath st id top l.
Proof.
  remember (Z.to_nat (60 - height n)) as d eqn:Hd. revert l n Hd.
  induction d as [d IH] using lt_wf_ind. intros l n -> Hl Hcov.
  pose proof (node_height_le _ _ Hl).
  destruct (parent n) as [pl|] eqn:Hp.
  - destruct (wf_parent _ _ _ (sw_nodes _ _ _ Hwf _ _ Hl) _ Hp)
      as (pn & n' & kids & Hpl & Hl' & Hk & _ & Hlt & Hpre & Hslot). simplify_eq.
    pose proof (node_height_le _ _ Hpl).
    pose proof (heights_apart _ _ _ _ Hl Hpl Hlt).
    eapply dpath_trans; [eapply (IH (Z.to_nat (60 - height pn))); [lia|done|done|]|].
    { eapply covers_parent; eauto. lia. }
    apply (dp_step _ _ pl pn kids l n); [done|done| |done|done|constructor].
    rewrite (covers_slot n id) in Hslot by (done || lia). done.
  - rewrite (sw_top_unique _ _ _ Hwf _ _ Hl Hp). constructor.
Qed.

Lemma top_covers l n id : st !! l = Some n -> covers n id ->
  exists tn, st !! top = Some tn /\ covers tn id.
Proof.
  remember (Z.to_nat (60 - height n)) as d eqn:Hd. revert l n Hd.
  induction d as [d IH] using lt_wf_ind. intros l n -> Hl Hcov.
  destruct (parent n) as [pl|] eqn:Hp.
  - destruct (wf_parent _ _ _ (sw_nodes _ _ _ Hwf _ _ Hl) _ Hp)
      as (pn & n' & kids & Hpl & Hl' & _ & _ & Hlt & Hpre & _). simplify_eq.
    pose proof (node_height_le _ _ Hl). pose proof (node_height_le _ _ Hpl).
    apply (IH (Z.to_nat (60 - height pn)) ltac:(lia) pl pn); try done.
    eapply covers_parent; eauto. lia.
  - rewrite <- (sw_top_unique _ _ _ Hwf _ _ Hl Hp). eauto.
Qed.

Lemma dpath_leaf l n id x : st !! l = Some n -> height n = 0 -> dpath st id l x -> x = l.
Proof.
  intros Hl Hh Hd. destruct (leaf_data _ _ Hl Hh) as (s & Hs & _).
  inversion Hd; [done|]. congruence.
Qed.

(** A leaf covering [id] lies below every node covering [id]. *)
Lemma leaf_below l n x xn id :
  st !! l = Some n -> covers n id -> st !! x = Some xn -> height xn = 0 -> covers xn id ->
  dpath st id l x.
Proof.
  intros Hl Hc Hx Hh Hcx.
  destruct (dpath_linear st id top l x) as [?|Hd]; eauto using dpath_top.
  apply (dpath_leaf x xn) in Hd; try done. subst. constructor.
Qed.

Lemma leaf_unique x xn y yn id :
  st !! x = Some xn -> height xn = 0 -> covers xn id ->
  st !! y = Some yn -> height yn = 0 -> covers yn id -> x = y.
Proof.
  intros Hx Hhx Hcx Hy Hhy Hcy. symmetry. eapply (dpath_leaf x xn id); [done|done|].
  eapply leaf_below; eauto.
Qed.

Lemma leaf_covers n id : height n = 0 -> (covers n id <-> __sync_leaf_prefix id = prefix n).
Proof. intros Hh. unfold covers, __sync_branch_prefix. by rewrite Hh, Z.shiftr_0_r. Qed.

(** What the store records for an id covered by a given leaf. *)
Lemma leaf_value_at l n ss id s :
  st !! l = Some n -> data n = Seqno ss -> covers n id ->
  (leaf_value st id s <->
   Z.testbit (bitmap n) (__sync_leaf_idx id) = true /\
   ss !! Z.to_nat (__sync_leaf_idx id) = Some s).
Proof.
  intros Hl Hd Hc.
  assert (Hh : height n = 0).
  { pose proof (wf_data _ _ _ (sw_nodes _ _ _ Hwf _ _ Hl)) as D. rewrite Hd in D. lia. }
  split.
  - intros (l' & n' & ss' & Hl' & Hd' & Hp' & Hb' & Hs').
    assert (Hh' : height n' = 0).
    { pose proof (wf_data _ _ _ (sw_nodes _ _ _ Hwf _ _ Hl')) as D. rewrite Hd' in D. lia. }
    assert (l' = l) as ->.
    { eapply leaf_unique; eauto. by apply leaf_covers. }
    rewrite Hl in Hl'. simplify_eq. rewrite Hd in Hd'. by simplify_eq.
  - intros [Hb Hs]. exists l, n, ss. split_and!; try done. symmetry. by apply leaf_covers.
Qed.

Lemma no_leaf_no_value id :
  (forall x xn, st !! x = Some xn -> height xn = 0 -> ~ covers xn id) ->
  forall s, ~ leaf_value st id s.
Proof.
  intros Hno s (l & n & ss & Hl & Hd & Hp & _).
  assert (Hh : height n = 0).
  { pose proof (wf_data _ _ _ (sw_nodes _ _ _ Hwf _ _ Hl)) as D. rewrite Hd in D. lia. }
  eapply Hno; eauto. by apply leaf_covers.
Qed.
End chains.

(** ** The loops of is_later *)

Section is_later.
Context (st : store) (root top : loc) (Hwf : store_wf st root top).

Lemma is_later_climb_spec fuel l n id :
  st !! l = Some n -> ~ covers n id -> 60 - height n < 4 * Z.of_nat fuel ->
  exists r, is_later_climb fuel st l id = Some r /\
    match r with
    | Some p => exists pn, st !! p = Some pn /\ covers pn id
    | None => exists tn, st !! top = Some tn /\ ~ covers tn id
    end.
Proof.
  revert l n. induction fuel as [|fuel IH]; intros l n Hl Hnc Hf.
  { pose proof (node_height_le _ _ _ Hwf _ _ Hl). lia. }
  cbn [is_later_climb]. rewrite Hl. cbn.
  destruct (parent n) as [p|] eqn:Hp.
  - destruct (wf_parent _ _ _ (sw_nodes _ _ _ Hwf _ _ Hl) _ Hp)
      as (pn & n' & kids & Hpl & Hl' & _ & _ & Hlt & _). simplify_eq.
    rewrite Hpl. cbn. pose proof (heights_apart _ _ _ Hwf _ _ _ _ Hl Hpl Hlt).
    destruct (Z.eqb_spec (__sync_branch_prefix pn id) (prefix pn)) as [E|E].
    + exists (Some p). eauto.
    + apply (IH p pn); try done. lia.
  - exists None. split; [done|]. exists n.
    rewrite <- (sw_top_unique _ _ _ Hwf _ _ Hl Hp). done.
Qed.

Lemma is_later_descend_spec fuel l n id :
  st !! l = Some n -> covers n id -> height n < 4 * Z.of_nat fuel ->
  exists r, is_later_descend fuel st l id = Some r /\
    match r with
    | Some leaf => exists ln, st !! leaf = Some ln /\ height ln = 0 /\ covers ln id
    | None => forall x xn, st !! x = Some xn -> height xn = 0 -> ~ covers xn id
    end.
Proof.
  revert l n. induction fuel as [|fuel IH]; intros l n Hl Hc Hf.
  { pose proof (node_height_le _ _ _ Hwf _ _ Hl). lia. }
  cbn [is_later_descend]. rewrite Hl. cbn.
  destruct (Z.eqb_spec (height n) 0) as [Hh|Hh].
  { exists (Some l). eauto. }
  destruct (branch_data _ _ _ Hwf _ _ Hl Hh) as (kids & Hd & Hlen).
  unfold __sync_child. rewrite Hd. cbn.
  pose proof (branch_idx_range n id).
  destruct (lookup_lt_is_Some_2 kids (Z.to_nat (__sync_branch_idx n id)) ltac:(lia)) as [next Hk].
  rewrite Hk. cbn.
  assert (Hbelow : forall x xn, st !! x = Some xn -> height xn = 0 -> covers xn id ->
    exists c cn, next = Some c /\ st !! c = Some cn /\ covers cn id).
  { intros x xn Hx Hxh Hxc.
    pose proof (leaf_below _ _ _ Hwf _ _ _ _ _ Hl Hc Hx Hxh Hxc) as Hp.
    inversion Hp as [|? n' kids' c cn ? Hl' Hd' Hk' Hcn Hcc]; subst; [congruence|].
    exists c, cn. assert (n' = n) as -> by congruence.
    assert (kids' = kids) as -> by congruence. split; [congruence|done]. }
  destruct next as [c|].
  - destruct (child_node _ _ _ Hwf _ _ _ _ _ Hl Hd Hk) as (cn & Hcn & _ & Hlt & _).
    rewrite Hcn. cbn.
    destruct (Z.eqb_spec (__sync_branch_prefix cn id) (prefix cn)) as [E|E]; cbn.
    + pose proof (heights_apart _ _ _ Hwf _ _ _ _ Hcn Hl Hlt).
      apply (IH c cn); try done. lia.
    + exists None. split; [done|]. intros x xn Hx Hxh Hxc.
      destruct (Hbelow _ _ Hx Hxh Hxc) as (? & ? & ? & ? & ?). by simplify_eq.
  - exists None. split; [done|]. intros x xn Hx Hxh Hxc.
    destruct (Hbelow _ _ Hx Hxh Hxc) as (? & ? & ? & _). done.
Qed.

Lemma is_later_found_spec l n id seqno :
  st !! l = Some n -> height n = 0 -> covers n id ->
  exists b, is_later_found st l id seqno = Some b /\
    (forall s, leaf_value st id s -> b = seqno_later s seqno) /\
    ((forall s, ~ leaf_value st id s) -> b = false).
Proof.
  intros Hl Hh Hc. destruct (leaf_data _ _ _ Hwf _ _ Hl Hh) as (ss & Hd & Hlen).
  unfold is_later_found. rewrite Hl. cbn.
  pose proof (leaf_idx_range id). rewrite tst_BIT by lia.
  pose proof (fun s => leaf_value_at _ _ _ Hwf _ _ _ _ s Hl Hd Hc) as V.
  destruct (Z.testbit (bitmap n) (__sync_leaf_idx id)) eqn:Hb; cbn.
  - unfold __sync_seqno. rewrite Hd. cbn.
    destruct (lookup_lt_is_Some_2 ss (Z.to_nat (__sync_leaf_idx id)) ltac:(lia)) as [a Ha].
    rewrite Ha. cbn. eexists. split; [done|]. split.
    + intros s Hs%V. destruct Hs. by simplify_eq.
    + intros Hno. exfalso. apply (Hno a), V. done.
  - eexists. split; [done|]. split; [|done]. intros s Hs%V. destruct Hs. done.
Qed.

(** Moving the cached root to another leaf keeps the invariant. *)
Lemma store_wf_root l n : st !! l = Some n -> height n = 0 -> store_wf st l top.
Proof. intros. destruct Hwf. split; eauto. Qed.

Lemma is_later_value id seqno n :
  st !! root = Some n ->
  exists b root', i915_syncmap_is_later st (Some root) id seqno = Some (b, Some root') /\
    store_wf st root' top /\
    (forall s, leaf_value st id s -> b = seqno_later s seqno) /\
    ((forall s, ~ leaf_value st id s) -> b = false).
Proof.
  intros Hr. destruct (sw_root _ _ _ Hwf) as (n' & Hr' & Hh). simplify_eq.
  unfold i915_syncmap_is_later. rewrite Hr. cbn.
  destruct (Z.eqb_spec (__sync_leaf_prefix id) (prefix n)) as [E|E].
  { destruct (is_later_found_spec root n id seqno Hr Hh) as (b & -> & Hb).
    { by apply leaf_covers. }
    cbn. eauto 10. }
  assert (Hnc : ~ covers n id) by (rewrite leaf_covers; done).
  destruct (is_later_climb_spec DEPTH root n id Hr Hnc ltac:(rewrite Hh; unfold DEPTH; lia))
    as (up & -> & Hup).
  cbn. destruct up as [a|].
  - destruct Hup as (an & Ha & Hac).
    pose proof (node_height_le _ _ _ Hwf _ _ Ha).
    destruct (is_later_descend_spec DEPTH a an id Ha Hac ltac:(unfold DEPTH; lia))
      as (down & -> & Hdown).
    cbn. destruct down as [leaf|].
    + destruct Hdown as (ln & Hln & Hlh & Hlc).
      destruct (is_later_found_spec leaf ln id seqno Hln Hlh Hlc) as (b & -> & Hb).
      cbn. eauto 10 using store_wf_root.
    + exists false, root. split_and!; try done.
      intros s Hs. exfalso. by eapply no_leaf_no_value.
  - destruct Hup as (tn & Ht & Htc). exists false, root. split_and!; try done.
    intros s Hs. exfalso. revert Hs. eapply no_leaf_no_value; [done|].
    intros x xn Hx _ Hxc. destruct (top_covers _ _ _ Hwf _ _ _ Hx Hxc) as (? & ? & ?).
    by simplify_eq.
Qed.
End is_later.

(** ** Transfer of the invariant across a store update *)

Definition same_pos (n n' : i915_syncmap) : Prop :=
  prefix n' = prefix n /\ height n' = height n /\ parent n' = parent n.

Lemma is_child_transfer st st' pl x :
  is_child st pl x ->
  (forall pn kids i, st !! pl = Some pn -> data pn = Child kids -> kids !! i = Some (Some x) ->
    exists pn' kids', st' !! pl = Some pn' /\ height pn' = height pn /\
      prefix pn' = prefix pn /\ data pn' = Child kids' /\ kids' !! i = Some (Some x)) ->
  (forall n, st !! x = Some n -> exists n', st' !! x = Some n' /\ same_pos n n') ->
  is_child st' pl x.
Proof.
  intros (pn & n & kids & Hpl & Hx & Hd & Hp & Hlt & Hpre & Hslot) HP HX.
  destruct (HP _ _ _ Hpl Hd Hslot) as (pn' & kids' & Hpl' & Hh & Hpp & Hd' & Hk').
  destruct (HX _ Hx) as (n' & Hx' & Hnp & Hnh & Hnpar).
  exists pn', n', kids'. unfold slot_of in *. rewrite Hnp, Hnh, Hh, Hpp, Hnpar. auto 10.
Qed.

Lemma node_wf_transfer st st' x xn :
  node_wf st x xn ->
  (forall pl, parent xn = Some pl -> is_child st pl x -> is_child st' pl x) ->
  (forall c cn, st !! c = Some cn -> parent cn = Some x ->
    exists cn', st' !! c = Some cn' /\ same_pos cn cn') ->
  node_wf st' x xn.
Proof.
  intros [Hh Hp Hb Hpar Hd] HP HC. split; auto.
  destruct (data xn) as [|kids]; [done|]. destruct Hd as (? & ? & Hk). split_and!; try done.
  intros i Hi. specialize (Hk i Hi). destruct (kids !! i) as [[c|]|]; try done.
  destruct Hk as (? & cn & Hc & Hcp & ->). split; [done|].
  destruct (HC _ _ Hc Hcp) as (cn' & Hc' & E1 & E2 & E3).
  exists cn'. unfold slot_of. rewrite E1, E2, E3. done.
Qed.

(** ** Recording a seqno in a leaf *)

Section set_seqno.
Context (st : store) (root top : loc) (Hwf : store_wf st root top).
Context (l : loc) (n : i915_syncmap) (ss : list Z) (id seqno : Z).
Context (Hl : st !! l = Some n) (Hd : data n = Seqno ss) (Hc : covers n id).

Let n' := mk_node (prefix n) (height n) (Z.lor (bitmap n) (BIT (__sync_leaf_idx id))) (parent n)
            (Seqno (<[Z.to_nat (__sync_leaf_idx id) := seqno]> ss)).
Let st' := <[l := n']> st.

Lemma set_seqno_facts : height n = 0 /\ length ss = 16%nat.
Proof.
  pose proof (wf_data _ _ _ (sw_nodes _ _ _ Hwf _ _ Hl)) as D. by rewrite Hd in D.
Qed.

Lemma set_seqno_lookup x xn : st !! x = Some xn -> exists xn', st' !! x = Some xn' /\ same_pos xn xn'.
Proof.
  intros Hx. unfold st'. rewrite lookup_insert. case_decide as E; [|by exists xn].
  subst. simplify_eq. by exists n'.
Qed.

Lemma set_seqno_wf : store_wf st' l top.
Proof.
  destruct set_seqno_facts as [Hh Hlen]. pose proof (leaf_idx_range id).
  assert (Hpar : forall pl x, is_child st pl x -> is_child st' pl x).
  { intros pl x Hch. apply (is_child_transfer st); [done| |by apply set_seqno_lookup].
    intros pn kids i Hpl Hk Hi. exists pn, kids. split_and!; try done.
    unfold st'. rewrite lookup_insert_ne; [done|]. intros ->. congruence. }
  split.
  - intros x xn Hx. unfold st' in Hx. apply lookup_insert_Some in Hx as [[-> <-]|[Hne Hx]].
    + destruct (sw_nodes _ _ _ Hwf _ _ Hl) as [Hh' Hp Hb Hpar' _].
      split; cbn; auto.
      * apply lor_bound; [lia|done|]. by apply BIT_bound.
      * rewrite length_insert. done.
    + apply (node_wf_transfer st); eauto using sw_nodes.
      intros c cn Hcn _. by apply set_seqno_lookup.
  - exists n'. unfold st'. by rewrite lookup_insert_eq.
  - destruct (sw_top _ _ _ Hwf) as (tn & Ht & Htp).
    destruct (set_seqno_lookup _ _ Ht) as (tn' & Ht' & _ & _ & E). exists tn'. by rewrite E.
  - intros x xn Hx Hp. unfold st' in Hx.
    apply lookup_insert_Some in Hx as [[-> <-]|[Hne Hx]]; by eapply (sw_top_unique _ _ _ Hwf).
Qed.

Lemma set_seqno_value id' s :
  leaf_value st' id' s <-> if decide (id' = id) then s = seqno else leaf_value st id' s.
Proof.
  destruct set_seqno_facts as [Hh Hlen].
  pose proof (leaf_idx_range id). pose proof (leaf_idx_range id').
  assert (Hl' : st' !! l = Some n') by apply lookup_insert_eq.
  assert (Hlc : __sync_leaf_prefix id = prefix n) by (by apply leaf_covers).
  destruct (decide (__sync_leaf_prefix id' = prefix n)) as [E|E].
  - assert (Hc' : covers n id') by (by apply leaf_covers).
    rewrite (leaf_value_at _ _ _ set_seqno_wf l n' _ id' s Hl' eq_refl) by done.
    pose proof (leaf_value_at _ _ _ Hwf l n ss id' s Hl Hd Hc') as V. cbn.
    rewrite lor_BIT_testbit by lia.
    assert (Hid : __sync_leaf_idx id' = __sync_leaf_idx id <-> id' = id).
    { split; [|by intros ->]. intros Ei. rewrite <- Hlc in E.
      unfold __sync_leaf_idx, __sync_leaf_prefix in *. change MASK with (Z.ones 4) in Ei.
      rewrite !Z.land_ones in Ei by lia. rewrite !Z.shiftr_div_pow2 in E by done.
      change SHIFT with 4 in E.
      rewrite (Z.div_mod id' (2 ^ 4)), (Z.div_mod id (2 ^ 4)) by lia. congruence. }
    case_decide as Ed.
    + subst id'. rewrite Z.eqb_refl, orb_true_r, list_lookup_insert_eq by lia.
      split; [intros [_ ?]; congruence|by intros ->].
    + destruct (Z.eqb_spec (__sync_leaf_idx id) (__sync_leaf_idx id')) as [Ei|Ei].
      { symmetry in Ei. apply Hid in Ei. done. }
      rewrite orb_false_r, list_lookup_insert_ne by lia. by rewrite V.
  - rewrite decide_False by (intros ->; done).
    split; intros (x & xn & xs & Hx & Hxd & Hxp & Hxb & Hxs).
    + unfold st' in Hx. apply lookup_insert_Some in Hx as [[-> <-]|[Hne Hx]].
      * cbn in Hxp. congruence.
      * exists x, xn, xs. done.
    + exists x, xn, xs. split_and!; try done. unfold st'.
      rewrite lookup_insert_ne; [done|]. intros ->. congruence.
Qed.
End set_seqno.

(** ** Adding an empty leaf below a branch *)

Section new_leaf.
Context (st : store) (root top : loc) (Hwf : store_wf st root top).
Context (l c : loc) (n : i915_syncmap) (kids : list (option loc)) (id : Z) (ss0 : list Z).
Context (Hl : st !! l = Some n) (Hd : data n = Child kids) (Hcov : covers n id).
Context (Hnone : kids !! Z.to_nat (__sync_branch_idx n id) = Some None).
Context (Hfresh : st !! c = None) (Hlen0 : length ss0 = 16%nat) (Hid : is_u64 id).

Let leaf := mk_node (__sync_leaf_prefix id) 0 0 (Some l) (Seqno ss0).
Let p' := mk_node (prefix n) (height n) (Z.lor (bitmap n) (BIT (__sync_branch_idx n id)))
            (parent n) (Child (<[Z.to_nat (__sync_branch_idx n id) := Some c]> kids)).
Let st' := <[l := p']> (<[c := leaf]> st).

Lemma new_leaf_ne : l <> c.
Proof. congruence. Qed.

Lemma new_leaf_lookup x xn : st !! x = Some xn -> exists xn', st' !! x = Some xn' /\ same_pos xn xn'.
Proof.
  intros Hx. unfold st'. rewrite lookup_insert. case_decide as E.
  - subst. simplify_eq. by exists p'.
  - rewrite lookup_insert_ne by congruence. by exists xn.
Qed.

Lemma new_leaf_inv x xn : st' !! x = Some xn ->
  (x = l /\ xn = p') \/ (x = c /\ xn = leaf) \/ (x <> l /\ x <> c /\ st !! x = Some xn).
Proof.
  intros Hx. unfold st' in Hx. apply lookup_insert_Some in Hx as [[-> <-]|[? Hx]]; [by left|].
  apply lookup_insert_Some in Hx as [[-> <-]|[? Hx]]; auto 10.
Qed.

Lemma new_leaf_branch : 0 < height n <= 60 /\ 4 <= height n /\ length kids = 16%nat.
Proof.
  pose proof (wf_data _ _ _ (sw_nodes _ _ _ Hwf _ _ Hl)) as D. rewrite Hd in D.
  destruct (wf_height _ _ _ (sw_nodes _ _ _ Hwf _ _ Hl)) as (k & ? & ?). lia.
Qed.

Lemma new_leaf_covers : covers leaf id.
Proof. by apply leaf_covers. Qed.

Lemma new_leaf_slot : slot_of (height n) leaf = __sync_branch_idx n id.
Proof.
  destruct new_leaf_branch as (? & ? & ?).
  rewrite (covers_slot leaf id); [done|cbn; lia|cbn; lia|apply new_leaf_covers].
Qed.

Lemma new_leaf_child : is_child st' l c.
Proof.
  destruct new_leaf_branch as (? & ? & ?). pose proof (branch_idx_range n id).
  exists p', leaf, (<[Z.to_nat (__sync_branch_idx n id) := Some c]> kids).
  unfold st'. rewrite lookup_insert_eq, lookup_insert_ne, lookup_insert_eq by apply new_leaf_ne.
  split_and!; try done; cbn; try lia.
  - apply covers_eq in Hcov; [|lia]. rewrite <- Hcov. unfold __sync_leaf_prefix.
    rewrite shift_split by (unfold SHIFT; cbn; lia). f_equal. change SHIFT with 4. lia.
  - change (slot_of (height n) leaf) with (slot_of (height n) leaf).
    rewrite new_leaf_slot. apply list_lookup_insert_eq. lia.
Qed.

Lemma new_leaf_keeps pl x : is_child st pl x -> is_child st' pl x.
Proof.
  intros Hch. apply (is_child_transfer st); [done| |by apply new_leaf_lookup].
  intros pn ks i Hpl Hk Hi. destruct (decide (pl = l)) as [->|Hne].
  - simplify_eq. exists p', (<[Z.to_nat (__sync_branch_idx n id) := Some c]> kids).
    unfold st'. rewrite lookup_insert_eq. split_and!; try done.
    rewrite list_lookup_insert_ne; [congruence|]. intros <-. congruence.
  - exists pn, ks. unfold st'. rewrite !lookup_insert_ne by congruence. done.
Qed.

Lemma new_leaf_wf : store_wf st' root top.
Proof.
  destruct new_leaf_branch as (? & ? & Hlen). pose proof (branch_idx_range n id).
  split.
  - intros x xn [[-> ->]|[[-> ->]|(Hxl & Hxc & Hx)]]%new_leaf_inv.
    + destruct (sw_nodes _ _ _ Hwf _ _ Hl) as [Hh Hp Hb Hpar D]. rewrite Hd in D.
      destruct D as (? & _ & D). split; cbn; auto using new_leaf_keeps.
      * apply lor_bound; [lia|done|]. apply BIT_bound. lia.
      * rewrite length_insert. split_and!; try done. intros i Hi. specialize (D i Hi).
        rewrite lor_BIT_testbit by lia. rewrite list_lookup_insert by lia.
        destruct (decide (Z.to_nat (__sync_branch_idx n id) = i)) as [<-|Hne].
        -- rewrite decide_True by lia. split.
           { rewrite Z2Nat.id, Z.eqb_refl by lia. apply orb_true_r. }
           exists leaf. unfold st'. rewrite lookup_insert_ne, lookup_insert_eq by apply new_leaf_ne.
           split_and!; try done. by rewrite new_leaf_slot.
        -- rewrite decide_False by tauto.
           destruct (Z.eqb_spec (__sync_branch_idx n id) (Z.of_nat i)); [lia|].
           rewrite orb_false_r. destruct (kids !! i) as [[x|]|]; try done.
           destruct D as (? & cn & Hcn & Hcp & Hi'). split; [done|].
           destruct (new_leaf_lookup _ _ Hcn) as (cn' & Hcn' & E1 & E2 & E3).
           exists cn'. unfold slot_of. rewrite E1, E2, E3. done.
    + split; cbn; try lia.
      * exists 0. lia.
      * unfold __sync_leaf_prefix. rewrite Z.shiftr_div_pow2 by done. change (2 ^ SHIFT) with 16.
        unfold is_u in Hid. pose proof (div_floor_bounds id 16). lia.
      * intros pl [= <-]. apply new_leaf_child.
    + apply (node_wf_transfer st); eauto using sw_nodes, new_leaf_keeps.
      intros y yn Hy _. by apply new_leaf_lookup.
  - destruct (sw_root _ _ _ Hwf) as (rn & Hr & Hrh).
    destruct (new_leaf_lookup _ _ Hr) as (rn' & Hr' & _ & E & _). exists rn'. by rewrite E.
  - destruct (sw_top _ _ _ Hwf) as (tn & Ht & Htp).
    destruct (new_leaf_lookup _ _ Ht) as (tn' & Ht' & _ & _ & E). exists tn'. by rewrite E.
  - intros x xn [[-> ->]|[[-> ->]|(Hxl & Hxc & Hx)]]%new_leaf_inv Hp; [|done|].
    + by eapply (sw_top_unique _ _ _ Hwf).
    + by eapply (sw_top_unique _ _ _ Hwf).
Qed.

Lemma new_leaf_value id' s : leaf_value st' id' s <-> leaf_value st id' s.
Proof.
  split; intros (x & xn & xs & Hx & Hxd & Hxp & Hxb & Hxs).
  - apply new_leaf_inv in Hx as [[-> ->]|[[-> ->]|(Hxl & Hxc & Hx)]]; [done| |].
    + cbn in Hxb. by rewrite Z.bits_0 in Hxb.
    + by exists x, xn, xs.
  - exists x, xn, xs. split_and!; try done. unfold st'.
    rewrite !lookup_insert_ne by congruence. done.
Qed.
End new_leaf.

(** ** Inserting a join above a layer that does not cover the id *)

Section join.
Context (st : store) (root top : loc) (Hwf : store_wf st root top).
Context (l nx : loc) (n : i915_syncmap) (id : Z).
Context (Hl : st !! l = Some n) (Hnc : ~ covers n id) (Hfresh : st !! nx = None).
Context (Hid : is_u64 id).
Context (Hpre : forall pl pn, parent n = Some pl -> st !! pl = Some pn ->
                  covers pn id /\ slot_of (height pn) n = __sync_branch_idx pn id).

Let a := __sync_branch_prefix n id.
Let above := diverge a (prefix n).
Let h' := height n + above.
Let oidx := Z.land (Z.shiftr (prefix n) (above - SHIFT)) MASK.
Let join := mk_node (Z.shiftr (Z.shiftr id h') SHIFT) h' (BIT oidx) (parent n)
              (Child (<[Z.to_nat oidx := Some l]> (replicate 16 None))).
Let upd pn kids := mk_node (prefix pn) (height pn) (bitmap pn) (parent pn)
              (Child (<[Z.to_nat (__sync_branch_idx pn id) := Some nx]> kids)).
Let st1 := match parent n with
           | None => st
           | Some pl =>
               match st !! pl with
               | Some pn => match data pn with Child kids => <[pl := upd pn kids]> st | _ => st end
               | None => st
               end
           end.
Let st' := <[l := set_parent (Some nx) n]> (<[nx := join]> st1).

Lemma join_arith :
  a = Z.shiftr id (height n + 4) /\ 0 <= a < 2 ^ (60 - height n) /\ 0 <= height n /\
  (exists k, height n = 4 * k) /\
  exists k, above = 4 * k /\ 4 <= 4 * k <= 60 - height n /\
    Z.shiftr a (4 * k) = Z.shiftr (prefix n) (4 * k) /\
    Z.land (Z.shiftr a (4 * k - 4)) MASK <> oidx.
Proof.
  destruct (sw_nodes _ _ _ Hwf _ _ Hl) as [(k & ? & Hh) Hp _ _ _].
  assert (Ha : a = Z.shiftr id (height n + 4))
    by (unfold a, __sync_branch_prefix; rewrite shift_split by (done || lia); done).
  assert (0 <= a < 2 ^ (60 - height n)).
  { unfold is_u in Hid. rewrite Ha. split; [apply Z.shiftr_nonneg; lia|].
    rewrite Z.shiftr_div_pow2 by lia.
    apply Z.div_lt_upper_bound; [apply Z.pow_pos_nonneg; lia|]. rewrite <- Z.pow_add_r by lia.
    replace (height n + 4 + (60 - height n)) with 64 by lia. lia. }
  split_and!; [done|lia|lia|lia|by exists k|].
  assert (Hne : a <> prefix n) by (intros E; apply Hnc, covers_eq; [lia|]; congruence).
  destruct (diverge_spec a (prefix n) (60 - height n)) as (j & Hj & Hr & E & Enib);
    try done; [lia|exists (15 - k); lia|].
  exists j. split_and!; try done; try lia. unfold oidx, above. by rewrite Hj.
Qed.

Lemma join_height : 4 <= above /\ h' <= 60 /\ (exists k, h' = 4 * k) /\ height n + 4 <= h'.
Proof.
  destruct join_arith as (_ & _ & ? & (j & ?) & k & ? & ? & _). unfold h'.
  split_and!; try lia. exists (j + k). lia.
Qed.

Lemma join_covers : covers join id.
Proof. unfold covers, __sync_branch_prefix. reflexivity. Qed.

Lemma join_prefix : prefix join = Z.shiftr (prefix n) (h' - height n).
Proof.
  destruct join_arith as (Ha & _ & ? & _ & k & Hk & ? & E & _). cbn.
  unfold h'. rewrite Hk. replace (height n + 4 * k - height n) with (4 * k) by lia.
  rewrite <- E, Ha. rewrite !Z.shiftr_shiftr by (unfold SHIFT; cbn; lia).
  f_equal. change SHIFT with 4. lia.
Qed.

Lemma join_slot : slot_of h' n = oidx.
Proof. unfold slot_of, oidx. do 2 f_equal. unfold h'. lia. Qed.

Lemma join_idx : __sync_branch_idx join id <> oidx.
Proof.
  destruct join_arith as (Ha & _ & ? & _ & k & Hk & ? & _ & E).
  unfold __sync_branch_idx. intros Eq. apply E. rewrite <- Eq. f_equal.
  rewrite Ha, Z.shiftr_shiftr by lia. f_equal. cbn. unfold h'. lia.
Qed.

(** The parent of the layer, if any, is higher than the join. *)
Lemma join_parent pl pn : parent n = Some pl -> st !! pl = Some pn ->
  exists kids, data pn = Child kids /\ pl <> l /\ pl <> nx /\ h' < height pn /\
    length kids = 16%nat /\
    kids !! Z.to_nat (__sync_branch_idx pn id) = Some (Some l) /\
    slot_of (height pn) join = __sync_branch_idx pn id /\
    prefix pn = Z.shiftr (prefix join) (height pn - h').
Proof.
  intros Hp Hpl. destruct (Hpre _ _ Hp Hpl) as [Hcov Hslot].
  destruct (wf_parent _ _ _ (sw_nodes _ _ _ Hwf _ _ Hl) _ Hp)
    as (pn' & n' & kids & ? & ? & Hd & _ & Hlt & Hpp & Hk). simplify_eq.
  pose proof (heights_apart _ _ _ Hwf _ _ _ _ Hl Hpl Hlt) as Hap.
  destruct (branch_data _ _ _ Hwf _ _ Hpl ltac:(pose proof (node_height_le _ _ _ Hwf _ _ Hl); lia))
    as (kids' & Hd' & Hlen). assert (kids' = kids) as -> by congruence.
  assert (Hh : h' < height pn).
  { destruct join_arith as (Ha & ? & ? & (j & ?) & k & Hk4 & ? & Esh & Enib).
    destruct (sw_nodes _ _ _ Hwf _ _ Hpl) as [(kp & ? & Hhp) _ _ _ _].
    destruct (sw_nodes _ _ _ Hwf _ _ Hl) as [_ Hpn _ _ _].
    assert (Heq : Z.shiftr a (height pn - height n - 4)
                  = Z.shiftr (prefix n) (height pn - height n - 4)).
    { apply nibble_eq; try lia.
      - apply covers_eq in Hcov; [|lia]. rewrite Hpp in Hcov.
        replace (height pn - height n - 4 + 4) with (height pn - height n) by lia.
        rewrite <- Hcov, Ha, Z.shiftr_shiftr by lia. f_equal. lia.
      - unfold slot_of, __sync_branch_idx in Hslot. change SHIFT with 4 in Hslot.
        rewrite Hslot, Ha, Z.shiftr_shiftr by lia. do 2 f_equal. lia. }
    destruct (Z.lt_ge_cases h' (height pn)) as [?|Hge]; [done|]. exfalso.
    apply Enib. unfold oidx. rewrite Hk4. change SHIFT with 4. unfold h' in Hge.
    assert (E' : forall x, Z.shiftr x (4 * k - 4)
      = Z.shiftr (Z.shiftr x (height pn - height n - 4)) (4 * k - (height pn - height n)))
      by (intros; rewrite Z.shiftr_shiftr by lia; f_equal; lia).
    by rewrite !E', Heq. }
  pose proof join_height as (? & ? & (kj & ?) & ?).
  pose proof (node_height_le _ _ _ Hwf _ _ Hl).
  destruct (wf_height _ _ _ (sw_nodes _ _ _ Hwf _ _ Hpl)) as (kp & ? & ?).
  exists kids. split_and!; try done.
  - intros ->. simplify_eq. lia.
  - congruence.
  - by rewrite <- Hslot.
  - apply covers_slot; change (height join) with h'; [lia|lia|apply join_covers].
  - apply covers_eq in Hcov; [|lia]. pose proof join_covers as Hj.
    apply covers_eq in Hj; change (height join) with h' in *; [|lia]. rewrite <- Hj, <- Hcov.
    rewrite Z.shiftr_shiftr by lia. f_equal. lia.
Qed.
Lemma join_ne : l <> nx.
Proof. congruence. Qed.

Lemma join_lookup_l : st' !! l = Some (set_parent (Some nx) n).
Proof. apply lookup_insert_eq. Qed.

Lemma join_lookup_nx : st' !! nx = Some join.
Proof. unfold st'. rewrite lookup_insert_ne by apply join_ne. apply lookup_insert_eq. Qed.

Lemma join_lookup_parent pl pn kids :
  parent n = Some pl -> st !! pl = Some pn -> data pn = Child kids ->
  st' !! pl = Some (upd pn kids).
Proof.
  intros Hp Hpl Hd. destruct (join_parent _ _ Hp Hpl) as (kids' & _ & ? & ? & _).
  unfold st'. rewrite !lookup_insert_ne by done. unfold st1. rewrite Hp, Hpl, Hd.
  apply lookup_insert_eq.
Qed.

Lemma join_lookup_other x :
  x <> l -> x <> nx -> parent n <> Some x -> st' !! x = st !! x.
Proof.
  intros ? ? Hp. unfold st'. rewrite !lookup_insert_ne by done. unfold st1.
  repeat (case_match; try done). apply lookup_insert_ne. congruence.
Qed.

Lemma join_inv x xn : st' !! x = Some xn ->
  (x = l /\ xn = set_parent (Some nx) n) \/ (x = nx /\ xn = join) \/
  (exists pn kids, parent n = Some x /\ st !! x = Some pn /\ data pn = Child kids /\
     xn = upd pn kids) \/
  (x <> l /\ x <> nx /\ parent n <> Some x /\ st !! x = Some xn).
Proof.
  intros Hx. destruct (decide (x = l)) as [->|?].
  { rewrite join_lookup_l in Hx. by left; simplify_eq. }
  destruct (decide (x = nx)) as [->|?].
  { rewrite join_lookup_nx in Hx. right; left; by simplify_eq. }
  destruct (decide (parent n = Some x)) as [Hp|Hp].
  - destruct (wf_parent _ _ _ (sw_nodes _ _ _ Hwf _ _ Hl) _ Hp) as (pn & _ & kids & Hpl & _ & Hd & _).
    rewrite (join_lookup_parent x pn kids) in Hx by done. right; right; left.
    exists pn, kids. by simplify_eq.
  - rewrite join_lookup_other in Hx by done. by do 3 right.
Qed.

(** Every node but the displaced layer keeps its position. *)
Lemma join_lookup x xn : x <> l -> st !! x = Some xn ->
  exists xn', st' !! x = Some xn' /\ same_pos xn xn'.
Proof.
  intros Hne Hx. destruct (decide (parent n = Some x)) as [Hp|Hp].
  - destruct (join_parent _ _ Hp Hx) as (kids & Hd & _).
    rewrite (join_lookup_parent x xn kids) by done. by exists (upd xn kids).
  - rewrite join_lookup_other by congruence. by exists xn.
Qed.

Lemma join_keeps pl x : x <> l -> is_child st pl x -> is_child st' pl x.
Proof.
  intros Hne Hch. apply (is_child_transfer st); [done| |by intros ?; apply join_lookup].
  intros pn ks i Hpl Hk Hi. destruct (decide (pl = l)) as [->|Hpl'].
  { simplify_eq. exists (set_parent (Some nx) n), ks. rewrite join_lookup_l. done. }
  destruct (decide (parent n = Some pl)) as [Hp|Hp].
  - destruct (join_parent _ _ Hp Hpl) as (kids & Hd & _ & _ & _ & _ & Hkl & _).
    assert (kids = ks) as -> by congruence.
    exists (upd pn ks), (<[Z.to_nat (__sync_branch_idx pn id) := Some nx]> ks).
    rewrite (join_lookup_parent pl pn ks) by done. split_and!; try done.
    rewrite list_lookup_insert_ne; [done|]. intros <-. congruence.
  - exists pn, ks. rewrite join_lookup_other by congruence. done.
Qed.

Lemma join_child_l : is_child st' nx l.
Proof.
  pose proof join_height as (? & ? & _ & ?).
  exists join, (set_parent (Some nx) n), (<[Z.to_nat oidx := Some l]> (replicate 16 None)).
  rewrite join_lookup_l, join_lookup_nx. split_and!; try done.
  - change (height n < h'). lia.
  - apply join_prefix.
  - change (slot_of (height join) (set_parent (Some nx) n)) with (slot_of h' n).
    rewrite join_slot. apply list_lookup_insert_eq. rewrite length_replicate.
    pose proof (slot_of_range h' n) as R. rewrite join_slot in R. lia.
Qed.

Lemma join_child_nx pl : parent n = Some pl -> is_child st' pl nx.
Proof.
  intros Hp.
  destruct (wf_parent _ _ _ (sw_nodes _ _ _ Hwf _ _ Hl) _ Hp) as (pn & _ & _ & Hpl & _).
  destruct (join_parent _ _ Hp Hpl) as (kids & Hd & ? & ? & Hlt & Hlen & Hkl & Hslot & Hpp).
  exists (upd pn kids), join, (<[Z.to_nat (__sync_branch_idx pn id) := Some nx]> kids).
  rewrite join_lookup_nx, (join_lookup_parent pl pn kids) by done. split_and!; try done.
  change (height (upd pn kids)) with (height pn). rewrite Hslot.
  apply list_lookup_insert_eq. pose proof (branch_idx_range pn id). lia.
Qed.
Lemma join_nx_wf : node_wf st' nx join.
Proof.
  pose proof join_height as (? & ? & (kj & ?) & ?).
  pose proof (node_height_le _ _ _ Hwf _ _ Hl).
  pose proof (slot_of_range h' n) as R. rewrite join_slot in R.
  split.
  - exists kj. change (height join) with h'. lia.
  - change (0 <= Z.shiftr (Z.shiftr id h') 4 < 2 ^ (60 - h')).
    rewrite shift_split by lia. unfold is_u in Hid.
    split; [apply Z.shiftr_nonneg; lia|]. rewrite Z.shiftr_div_pow2 by lia.
    apply Z.div_lt_upper_bound; [apply Z.pow_pos_nonneg; lia|].
    rewrite <- Z.pow_add_r by lia. replace (h' + 4 + (60 - h')) with 64 by lia. lia.
  - by apply BIT_bound.
  - apply join_child_nx.
  - change (0 < h' /\ length (<[Z.to_nat oidx := Some l]> (replicate 16 (@None loc))) = 16%nat /\
      forall i : nat, (i < 16)%nat ->
        match <[Z.to_nat oidx := Some l]> (replicate 16 None) !! i with
        | Some (Some c) => Z.testbit (BIT oidx) (Z.of_nat i) = true /\
            exists cn, st' !! c = Some cn /\ parent cn = Some nx /\ i = Z.to_nat (slot_of h' cn)
        | _ => Z.testbit (BIT oidx) (Z.of_nat i) = false
        end).
    rewrite length_insert, length_replicate. split_and!; [lia|done|]. intros i Hi.
    rewrite testbit_BIT by lia. rewrite list_lookup_insert, length_replicate.
    destruct (decide (Z.to_nat oidx = i)) as [<-|Hne].
    + rewrite decide_True by lia. split; [apply Z.eqb_eq; lia|].
      exists (set_parent (Some nx) n). rewrite join_lookup_l. split_and!; try done.
      change (slot_of h' (set_parent (Some nx) n)) with (slot_of h' n). by rewrite join_slot.
    + rewrite decide_False by tauto. rewrite lookup_replicate_2 by done.
      apply Z.eqb_neq. lia.
Qed.

Lemma join_parent_wf pl pn kids :
  parent n = Some pl -> st !! pl = Some pn -> data pn = Child kids ->
  node_wf st' pl (upd pn kids).
Proof.
  intros Hp Hpl Hd.
  destruct (join_parent _ _ Hp Hpl) as (kids' & Hd' & Hnl & Hnx & Hlt & Hlen & Hkl & Hslot & _).
  assert (kids' = kids) as -> by congruence.
  destruct (sw_nodes _ _ _ Hwf _ _ Hpl) as [Hh Hpre' Hb Hpar D]. rewrite Hd in D.
  destruct D as (? & _ & D). pose proof (branch_idx_range pn id).
  split; cbn [upd prefix height bitmap parent data]; auto using join_keeps.
  rewrite length_insert. split_and!; [done|done|]. intros i Hi. specialize (D i Hi).
  rewrite list_lookup_insert.
  destruct (decide (Z.to_nat (__sync_branch_idx pn id) = i)) as [<-|Hne].
  - rewrite decide_True by lia. rewrite Hkl in D. destruct D as [? _]. split; [done|].
    exists join. rewrite join_lookup_nx. split_and!; try done.
    change (height (upd pn kids)) with (height pn). by rewrite Hslot.
  - rewrite decide_False by tauto. destruct (kids !! i) as [[c|]|] eqn:Hki; try done.
    destruct D as (? & cn & Hc & Hcp & Hi'). split; [done|].
    destruct (decide (c = l)) as [->|Hcl].
    { exfalso. simplify_eq. destruct (Hpre _ _ Hp Hpl) as [_ E]. apply Hne. by rewrite E. }
    destruct (join_lookup _ _ Hcl Hc) as (cn' & Hc' & E1 & E2 & E3).
    exists cn'. unfold slot_of. rewrite E1, E2, E3. done.
Qed.

Lemma join_l_wf : node_wf st' l (set_parent (Some nx) n).
Proof.
  destruct (sw_nodes _ _ _ Hwf _ _ Hl) as [Hh Hpre' Hb Hpar D].
  split; cbn; auto.
  - intros pl [= <-]. apply join_child_l.
  - destruct (data n) as [|kids] eqn:Hdn; [done|]. destruct D as (? & ? & D). split_and!; try done.
    intros i Hi. specialize (D i Hi). destruct (kids !! i) as [[c|]|] eqn:Hki; try done.
    destruct D as (? & cn & Hc & Hcp & ->). split; [done|].
    destruct (child_node _ _ _ Hwf _ _ _ _ _ Hl Hdn Hki) as (cn' & Hc' & _ & Hlt & _).
    simplify_eq.
    assert (Hcl : c <> l) by (intros ->; simplify_eq; lia).
    destruct (join_lookup _ _ Hcl Hc) as (cn' & Hc'' & E1 & E2 & E3).
    exists cn'. unfold slot_of. cbn. rewrite E1, E2, E3. done.
Qed.

Lemma join_wf : exists top', store_wf st' root top'.
Proof.
  exists (if decide (l = top) then nx else top). split.
  - intros x xn [[-> ->]|[[-> ->]|[(pn & kids & ? & ? & ? & ->)|(Hxl & Hxn & Hxp & Hx)]]]%join_inv.
    + apply join_l_wf.
    + apply join_nx_wf.
    + by apply join_parent_wf.
    + apply (node_wf_transfer st); [by apply (sw_nodes _ _ _ Hwf)|by auto using join_keeps|].
      intros c cn Hc Hcp. apply join_lookup; [|done]. intros ->. congruence.
  - destruct (sw_root _ _ _ Hwf) as (rn & Hr & Hrh). destruct (decide (root = l)) as [->|Hne].
    + exists (set_parent (Some nx) n). rewrite join_lookup_l. split; [done|].
      cbn. congruence.
    + destruct (join_lookup _ _ Hne Hr) as (rn' & ? & _ & E & _). exists rn'. by rewrite E.
  - destruct (sw_top _ _ _ Hwf) as (tn & Ht & Htp). case_decide as E.
    + exists join. rewrite join_lookup_nx. split; [done|]. cbn. congruence.
    + destruct (join_lookup top tn) as (tn' & Ht' & _ & _ & E'); [congruence|done|].
      exists tn'. by rewrite E'.
  - assert (Hu : forall x xn, st !! x = Some xn -> parent xn = None -> x = top)
      by apply (sw_top_unique _ _ _ Hwf).
    intros x xn [[-> ->]|[[-> ->]|[(pn & kids & ? & Hpl & ? & ->)|(Hxl & Hxn & Hxp & Hx)]]]%join_inv Hp.
    + done.
    + cbn in Hp. by rewrite decide_True by eauto.
    + cbn in Hp. rewrite decide_False; [by eauto|].
      intros ->. destruct (sw_top _ _ _ Hwf) as (tn & Ht & Htp). congruence.
    + rewrite decide_False; [by eauto|]. intros ->. apply Hxl. by eauto.
Qed.

Lemma join_value id' s : leaf_value st' id' s <-> leaf_value st id' s.
Proof.
  split; intros (x & xn & xs & Hx & Hxd & Hxp & Hxb & Hxs).
  - apply join_inv in Hx
      as [[-> ->]|[[-> ->]|[(pn & kids & ? & ? & ? & ->)|(Hxl & Hxn & Hxp' & Hx)]]]; try done.
    + by exists l, n, xs.
    + by exists x, xn, xs.
  - destruct (decide (x = l)) as [->|Hne].
    + simplify_eq. exists l, (set_parent (Some nx) n), xs. by rewrite join_lookup_l.
    + exists x, xn, xs. rewrite join_lookup_other; [done|done|congruence|].
      intros Hp. destruct (join_parent _ _ Hp Hx) as (kids & Hd & _). congruence.
Qed.

(** The slot of [id] in the join is free. *)
Lemma join_free_slot :
  exists kids, data join = Child kids /\ kids !! Z.to_nat (__sync_branch_idx join id) = Some None.
Proof.
  exists (<[Z.to_nat oidx := Some l]> (replicate 16 None)). split; [done|].
  pose proof (branch_idx_range join id). pose proof join_idx.
  pose proof (slot_of_range h' n) as R. rewrite join_slot in R.
  rewrite list_lookup_insert_ne by lia. apply lookup_replicate_2. lia.
Qed.

Lemma insert_join_eq : insert_join st l n nx id = Some st'.
Proof.
  pose proof join_height as (? & ? & _ & ?).
  destruct join_arith as (_ & _ & Hh0 & _).
  assert (Eh : u32 (diverge a (prefix n) + height n) = h').
  { unfold h', above. rewrite u32_small; [lia|]. fold above. is_ranges. lia. }
  unfold insert_join. fold (diverge (__sync_branch_prefix n id) (prefix n)). fold a.
  rewrite Eh. fold above. fold oidx.
  assert (E1 : (match parent n with
     | Some pl => pn ← st !! pl; kids ← __sync_child pn;
         Some (<[pl := mk_node (prefix pn) (height pn) (bitmap pn) (parent pn)
                   (Child (<[Z.to_nat (__sync_branch_idx pn id) := Some nx]> kids))]> st)
     | None => Some st end) = Some st1).
  { unfold st1. destruct (parent n) as [pl|] eqn:Hp; [|done].
    destruct (wf_parent _ _ _ (sw_nodes _ _ _ Hwf _ _ Hl) _ Hp) as (pn & _ & kids & Hpl & _ & Hd & _).
    rewrite Hpl. unfold __sync_child. cbn. by rewrite Hd. }
  rewrite E1. cbn. done.
Qed.
End join.

(** ** The loops of __sync_set *)

Lemma set_climb_spec st root top (Hwf : store_wf st root top) fuel l n id :
  st !! l = Some n -> ~ covers n id -> 60 - height n < 4 * Z.of_nat fuel ->
  exists a an, set_climb fuel st l id = Some a /\ st !! a = Some an /\
    (covers an id \/ parent an = None).
Proof.
  revert l n. induction fuel as [|fuel IH]; intros l n Hl Hnc Hf.
  { pose proof (node_height_le _ _ _ Hwf _ _ Hl). lia. }
  cbn [set_climb]. rewrite Hl. cbn. destruct (parent n) as [p|] eqn:Hp; [|by eauto 10].
  destruct (wf_parent _ _ _ (sw_nodes _ _ _ Hwf _ _ Hl) _ Hp)
    as (pn & n' & kids & Hpl & Hl' & _ & _ & Hlt & _). simplify_eq.
  rewrite Hpl. cbn. pose proof (heights_apart _ _ _ Hwf _ _ _ _ Hl Hpl Hlt).
  destruct (Z.eqb_spec (__sync_branch_prefix pn id) (prefix pn)) as [E|E]; [by eauto 10|].
  apply (IH p pn); try done. lia.
Qed.

Section set.
Context (kmalloc : store -> option loc) (uninit : store -> list Z).
Context (Hfresh : forall st l, kmalloc st = Some l -> st !! l = None).
Context (Huninit : forall st, length (uninit st) = 16%nat).

(** The outcome of the descent: the same values, and a leaf covering the id
    unless memory ran out. *)
Definition descent_ok (st : store) (root : loc) (id : Z) (r : option (store * option loc)) : Prop :=
  exists st' found top', r = Some (st', found) /\ store_wf st' root top' /\
    (forall id' s, leaf_value st' id' s <-> leaf_value st id' s) /\
    match found with
    | Some leaf => exists ln, st' !! leaf = Some ln /\ height ln = 0 /\ covers ln id
    | None => exists st0, kmalloc st0 = None
    end.

Lemma set_step_free st root top l n kids id (Hwf : store_wf st root top) :
  is_u64 id -> st !! l = Some n -> covers n id -> data n = Child kids ->
  kids !! Z.to_nat (__sync_branch_idx n id) = Some None ->
  exists st' r, set_step kmalloc uninit st l id = Some (st', r) /\ store_wf st' root top /\
    (forall id' s, leaf_value st' id' s <-> leaf_value st id' s) /\
    ((exists c cn, r = inl c /\ st' !! c = Some cn /\ height cn = 0 /\ covers cn id) \/
     (r = inr None /\ exists st0, kmalloc st0 = None)).
Proof.
  intros Hid Hl Hcov Hd Hk. unfold set_step. rewrite Hl. cbn.
  unfold __sync_child. rewrite Hd. cbn. rewrite Hk. cbn.
  unfold __sync_alloc_leaf. destruct (kmalloc st) as [c|] eqn:Hm; cbn.
  - pose proof (Hfresh _ _ Hm) as Hc. pose proof (Huninit st).
    unfold __sync_set_child, __sync_child. rewrite Hd. cbn.
    eexists _, _. split; [done|]. split; [by apply new_leaf_wf|].
    split; [intros; by apply (new_leaf_value st)|]. left. eexists _, _. split; [done|].
    rewrite lookup_insert_ne, lookup_insert_eq by congruence. split; [done|].
    split; [done|]. by apply (new_leaf_covers l).
  - exists st, (inr None). split_and!; try done. right. eauto.
Qed.

Lemma set_descend_spec fuel st root top l n id (Hwf : store_wf st root top) :
  is_u64 id -> st !! l = Some n -> height n < 4 * Z.of_nat fuel ->
  (forall pl pn, parent n = Some pl -> st !! pl = Some pn ->
     covers pn id /\ slot_of (height pn) n = __sync_branch_idx pn id) ->
  descent_ok st root id (set_descend kmalloc uninit fuel st l id).
Proof.
  intros Hid. revert l n. induction fuel as [|fuel IH]; intros l n Hl Hf Hpre.
  { pose proof (node_height_le _ _ _ Hwf _ _ Hl). lia. }
  cbn [set_descend]. rewrite Hl. cbn.
  destruct (Z.eqb_spec (__sync_branch_prefix n id) (prefix n)) as [E|E]; cbn.
  - destruct (Z.eqb_spec (height n) 0) as [Hh|Hh].
    { exists st, (Some l), top. split_and!; try done. by exists n. }
    destruct (branch_data _ _ _ Hwf _ _ Hl Hh) as (kids & Hd & Hlen).
    pose proof (branch_idx_range n id).
    destruct (lookup_lt_is_Some_2 kids (Z.to_nat (__sync_branch_idx n id)) ltac:(lia))
      as [[c|] Hk].
    + unfold set_step. rewrite Hl. cbn. unfold __sync_child. rewrite Hd. cbn. rewrite Hk. cbn.
      destruct (child_node _ _ _ Hwf _ _ _ _ _ Hl Hd Hk) as (cn & Hcn & Hcp & Hlt & _ & Hi).
      pose proof (heights_apart _ _ _ Hwf _ _ _ _ Hcn Hl Hlt).
      apply (IH c cn); [done|lia|]. intros pl pn Hp Hpl.
      assert (pl = l) as -> by congruence. assert (pn = n) as -> by congruence.
      split; [done|]. pose proof (slot_of_range (height n) cn). lia.
    + destruct (set_step_free st root top l n kids id Hwf Hid Hl E Hd Hk)
        as (st' & r & -> & Hwf' & Hv & [(c & cn & -> & ? & ? & ?)|(-> & ?)]); cbn.
      * exists st', (Some c), top. split_and!; try done. by exists cn.
      * by exists st', None, top.
  - destruct (kmalloc st) as [nx|] eqn:Hm; [|by exists st, None, top; eauto].
    pose proof (Hfresh _ _ Hm) as Hnx.
    rewrite (insert_join_eq st root top Hwf l nx n id Hl E Hid Hpre). cbn [mbind option_bind].
    destruct (join_wf st root top Hwf l nx n id Hl E Hnx Hid Hpre) as (top' & Hwf').
    destruct (join_free_slot st root top Hwf l n id Hl E Hid) as (kids & Hd & Hk).
    pose proof (join_value st root top Hwf l nx n id Hl E Hnx Hid Hpre) as Hv.
    destruct (set_step_free _ _ _ nx _ kids id Hwf' Hid (join_lookup_nx st l nx n id Hl Hnx)
      (join_covers l n id) Hd Hk)
      as (st' & r & -> & Hwf'' & Hv' & [(c & cn & -> & ? & ? & ?)|(-> & ?)]); cbn.
    + exists st', (Some c), top'. split_and!; try done; [intros; by rewrite Hv', Hv|]. by exists cn.
    + exists st', None, top'. split_and!; try done. intros; by rewrite Hv', Hv.
Qed.

(** Recording the seqno once the leaf is found. *)
Lemma set_found st root top l n id seqno (m : gmap Z Z) (Hwf : store_wf st root top) :
  st !! l = Some n -> height n = 0 -> covers n id -> is_u64 id ->
  (forall id s, is_u64 id -> (m !! id = Some s <-> leaf_value st id s)) ->
  exists p', __sync_set_seqno n id seqno = Some p' /\
    syncmap_rep (<[l := p']> st) (Some l) (<[id := seqno]> m).
Proof.
  intros Hl Hh Hc Hid Hm. destruct (leaf_data _ _ _ Hwf _ _ Hl Hh) as (ss & Hd & _).
  unfold __sync_set_seqno, __sync_seqno. rewrite Hd. cbn. eexists. split; [done|].
  split.
  - exists top. by eapply set_seqno_wf.
  - intros id' s Hid'. rewrite (set_seqno_value st root top Hwf l n ss id seqno Hl Hd Hc).
    rewrite lookup_insert. destruct (decide (id' = id)) as [->|Hne].
    + rewrite decide_True by done. split; congruence.
    + rewrite decide_False by congruence. by apply Hm.
Qed.

Lemma new_tree_wf id l :
  is_u64 id -> let leaf := mk_node (__sync_leaf_prefix id) 0 0 None (Seqno (uninit ∅)) in
  store_wf {[l := leaf]} l l /\ forall id' s, ~ leaf_value {[l := leaf]} id' s.
Proof.
  intros Hid leaf. split.
  - split.
    + intros x xn [<- <-]%lookup_singleton_Some. split; cbn; try done; try lia.
      * exists 0. lia.
      * change (0 <= Z.shiftr id 4 < 2 ^ 60). rewrite Z.shiftr_div_pow2 by lia.
        unfold is_u in Hid. pose proof (div_floor_bounds id (2 ^ 4)). lia.
    + exists leaf. by rewrite lookup_singleton_eq.
    + exists leaf. by rewrite lookup_singleton_eq.
    + by intros x xn [<- <-]%lookup_singleton_Some.
  - intros id' s (x & xn & xs & [<- <-]%lookup_singleton_Some & _ & _ & Hb & _).
    cbn in Hb. by rewrite Z.bits_0 in Hb.
Qed.
Lemma sync_set_spec st root id seqno (m : gmap Z Z) :
  is_u64 id -> syncmap_rep st root m ->
  (forall l n, root = Some l -> st !! l = Some n -> ~ covers n id) ->
  exists st' root' ret, __sync_set kmalloc uninit st root id seqno = Some (st', root', ret) /\
    ((ret = 0 /\ syncmap_rep st' root' (<[id := seqno]> m)) \/
     (ret = - ENOMEM /\ (exists st0, kmalloc st0 = None) /\
      root' = root /\ syncmap_rep st' root m)).
Proof.
  intros Hid Hrep Hnc. unfold __sync_set. destruct root as [l|].
  - destruct Hrep as [(top & Hwf) Hm].
    destruct (sw_root _ _ _ Hwf) as (n & Hl & Hh). specialize (Hnc _ _ eq_refl Hl).
    destruct (set_climb_spec _ _ _ Hwf DEPTH l n id Hl Hnc ltac:(rewrite Hh; unfold DEPTH; lia))
      as (a & an & -> & Ha & Hor). cbn.
    pose proof (node_height_le _ _ _ Hwf _ _ Ha).
    destruct (set_descend_spec DEPTH st l top a an id Hwf Hid Ha ltac:(unfold DEPTH; lia))
      as (st' & found & top' & -> & Hwf' & Hv & Hf).
    { intros pl pn Hp Hpl. destruct Hor as [Hc|Hc]; [|congruence].
      destruct (wf_parent _ _ _ (sw_nodes _ _ _ Hwf _ _ Ha) _ Hp)
        as (pn' & an' & _ & ? & ? & _ & _ & Hlt & Hpp & _). simplify_eq.
      pose proof (heights_apart _ _ _ Hwf _ _ _ _ Ha Hpl Hlt).
      split; [eapply covers_parent; eauto; lia|]. apply covers_slot; [lia|done|done]. }
    cbn. destruct found as [leaf|].
    + destruct Hf as (ln & Hln & Hlh & Hlc). rewrite Hln. cbn.
      destruct (set_found st' l top' leaf ln id seqno m Hwf' Hln Hlh Hlc Hid) as (p' & -> & Hr).
      { intros. rewrite Hv. by apply Hm. }
      cbn. eexists _, _, _. split; [done|]. by left.
    + eexists _, _, _. split; [done|]. right. split_and!; try done.
      { by exists top'. }
      intros. rewrite Hv. by apply Hm.
  - destruct Hrep as [-> ->]. unfold __sync_alloc_leaf.
    destruct (kmalloc ∅) as [l|] eqn:Hk; cbn.
    2:{ eexists _, _, _. split; [done|]. right. split_and!; try done. by exists ∅. }
    destruct (new_tree_wf id l Hid) as [Hwf Hno].
    rewrite insert_empty, lookup_singleton_eq. cbn [mbind option_bind].
    set (leaf := mk_node _ 0 0 None _) in *.
    assert (Hc : covers leaf id) by (by apply leaf_covers).
    assert (Hm : forall id' s, is_u64 id' -> ((∅ : gmap Z Z) !! id' = Some s <->
      leaf_value {[l := leaf]} id' s)).
    { intros id' s _. rewrite lookup_empty. split; [done|]. intros Hs. by destruct (Hno id' s). }
    destruct (set_found {[l := leaf]} l l l leaf id seqno ∅ Hwf (lookup_singleton_eq _ _)
      eq_refl Hc Hid Hm) as (p' & E & Hr).
    rewrite E. cbn. eexists _, _, _. split; [done|]. by left.
Qed.

Lemma set_spec st root id seqno (m : gmap Z Z) :
  is_u64 id -> syncmap_rep st root m ->
  exists st' root' ret, i915_syncmap_set kmalloc uninit st root id seqno = Some (st', root', ret) /\
    ((ret = 0 /\ syncmap_rep st' root' (<[id := seqno]> m)) \/
     (ret = - ENOMEM /\ (exists st0, kmalloc st0 = None) /\
      root' = root /\ syncmap_rep st' root m)).
Proof.
  intros Hid Hrep. unfold i915_syncmap_set. destruct root as [l|].
  - destruct Hrep as [(top & Hwf) Hm]. destruct (sw_root _ _ _ Hwf) as (n & Hl & Hh).
    rewrite Hl. cbn [mbind option_bind]. destruct (Z.eqb_spec (__sync_leaf_prefix id) (prefix n)) as [E|E].
    + apply leaf_covers in E; [|done].
      destruct (set_found st l top l n id seqno m Hwf Hl Hh E Hid Hm) as (p' & -> & Hr).
      cbn. eexists _, _, _. split; [done|]. by left.
    + apply sync_set_spec; [done|by split; eauto|].
      intros ? n' [= <-] Hn'. assert (n' = n) as -> by congruence. by rewrite leaf_covers.
  - by apply sync_set_spec.
Qed.
End set.

(** ** Freeing the tree *)

Lemma ffs_spec x t :
  0 <= x < 2 ^ 16 -> 0 <= t -> (forall j, 0 <= j < t -> Z.testbit x j = false) ->
  (ffs x = 0 /\ forall j, 0 <= j -> Z.testbit x j = false) \/
  (exists j, ffs x = j + 1 /\ t <= j < 16 /\ Z.testbit x j = true /\
     forall k, 0 <= k < j -> Z.testbit x k = false).
Proof.
  intros Hx Ht Hlow. unfold ffs.
  assert (Hhigh : forall j, 16 <= j -> Z.testbit x j = false)
    by (apply bound_testbit; lia).
  destruct (find _ _) as [i|] eqn:Ef.
  - right. apply find_some in Ef as Es. destruct Es as [_ Hb]. exists (Z.of_nat i).
    split_and!; try done.
    + destruct (Z.lt_ge_cases (Z.of_nat i) t) as [?|?]; [|done]. rewrite Hlow in Hb by lia. done.
    + destruct (Z.lt_ge_cases (Z.of_nat i) 16) as [?|?]; [done|]. rewrite Hhigh in Hb by lia. done.
    + intros k Hk. destruct (Z.testbit x k) eqn:Hbk; [|done]. exfalso.
      assert (Hgen : forall n s, find (fun i => Z.testbit x (Z.of_nat i)) (seq s n) = Some i ->
        forall k : nat, (s <= k)%nat -> Z.testbit x (Z.of_nat k) = true -> (i <= k)%nat).
      { clear. induction n as [|n IH]; intros s Hf k Hs Hk; [done|]. cbn in Hf.
        destruct (Z.testbit x (Z.of_nat s)) eqn:Hbs; [simplify_eq; lia|].
        destruct (decide (k = s)) as [->|]; [congruence|]. eapply IH; eauto. lia. }
      specialize (Hgen 32%nat 0%nat Ef (Z.to_nat k) ltac:(lia)).
      rewrite Z2Nat.id in Hgen by lia. specialize (Hgen Hbk). lia.
  - left. split; [done|]. intros j Hj. destruct (Z.lt_ge_cases j 16); [|by apply Hhigh].
    eapply find_none in Ef; [|apply in_seq with (n := Z.to_nat j)]; [|lia].
    by rewrite Z2Nat.id in Ef by lia.
Qed.

(** [x] lies in the subtree of [l], following parent pointers. *)
Inductive below (st : store) (l : loc) : loc -> Prop :=
| below_refl n : st !! l = Some n -> below st l l
| below_step x n p : st !! x = Some n -> parent n = Some p -> below st l p -> below st l x.

Section free.
Context (st0 : store) (root top : loc) (Hwf : store_wf st0 root top).

Lemma below_node l x : below st0 l x -> exists n, st0 !! x = Some n.
Proof. destruct 1; eauto. Qed.

Lemma below_trans a b c : below st0 a b -> below st0 b c -> below st0 a c.
Proof. intros Hab Hbc. induction Hbc; eauto using below. Qed.

Lemma below_height l ln x xn :
  st0 !! l = Some ln -> below st0 l x -> st0 !! x = Some xn -> x = l \/ height xn < height ln.
Proof.
  intros Hl Hb. revert xn. induction Hb as [n|x n p Hx Hp Hb IH]; intros xn Hxn; [by left|].
  right. assert (n = xn) as -> by congruence.
  destruct (wf_parent _ _ _ (sw_nodes _ _ _ Hwf _ _ Hxn) _ Hp)
    as (pn & n' & _ & Hpn & ? & _ & _ & Hlt & _). simplify_eq.
  destruct (IH _ Hpn) as [->|?]; [assert (pn = ln) as -> by congruence; lia|lia].
Qed.

(** A node below [l] other than [l] is below one child of [l]. *)
Lemma below_child l ln kids x :
  st0 !! l = Some ln -> data ln = Child kids -> below st0 l x -> x <> l ->
  exists (i : nat) c, kids !! i = Some (Some c) /\ below st0 c x.
Proof.
  intros Hl Hd Hb. induction Hb as [n|x n p Hx Hp Hb IH]; intros Hne; [done|].
  destruct (decide (p = l)) as [->|Hpl].
  - destruct (wf_parent _ _ _ (sw_nodes _ _ _ Hwf _ _ Hx) _ Hp)
      as (pn & n' & ks & Hpn & ? & Hdk & _ & _ & _ & Hk).
    assert (pn = ln) as -> by congruence. assert (ks = kids) as -> by congruence.
    eexists _, x. split; [exact Hk|]. by eapply below_refl.
  - destruct (IH Hpl) as (i & c & ? & ?). exists i, c. split; [done|]. by eapply below_step.
Qed.

Lemma child_below l ln kids (i : nat) c :
  st0 !! l = Some ln -> data ln = Child kids -> kids !! i = Some (Some c) -> below st0 l c.
Proof.
  intros Hl Hd Hk. destruct (child_node _ _ _ Hwf _ _ _ _ _ Hl Hd Hk) as (cn & Hc & Hp & _).
  eapply below_step; [done|done|]. by eapply below_refl.
Qed.

Lemma below_linear a b x : below st0 a x -> below st0 b x -> below st0 a b \/ below st0 b a.
Proof.
  intros Ha. induction Ha as [n Hn|x n p Hx Hp Ha IH]; intros Hb; [by right|].
  inversion Hb as [|? n' p' Hx' Hp' Hb']; subst.
  - left. eauto using below.
  - assert (n' = n) as -> by congruence. assert (p' = p) as -> by congruence. auto.
Qed.

(** Subtrees of different children are disjoint. *)
Lemma siblings_disjoint l ln kids (i j : nat) c d x :
  st0 !! l = Some ln -> data ln = Child kids ->
  kids !! i = Some (Some c) -> kids !! j = Some (Some d) -> i <> j ->
  below st0 c x -> ~ below st0 d x.
Proof.
  intros Hl Hd Hc Hd' Hij Hcx Hdx.
  assert (Hgen : forall (i j : nat) c d, kids !! i = Some (Some c) -> kids !! j = Some (Some d) ->
    i <> j -> ~ below st0 c d).
  { clear -Hwf Hl Hd. intros i j c d Hc Hd' Hij Hb.
    destruct (child_node _ _ _ Hwf _ _ _ _ _ Hl Hd Hc) as (cn & Hcn & Hcp & Hclt & _ & Hi).
    destruct (child_node _ _ _ Hwf _ _ _ _ _ Hl Hd Hd') as (dn & Hdn & Hdp & Hdlt & _ & Hj).
    inversion Hb as [|? n p Hx Hp Hb']; subst; [congruence|].
    assert (n = dn) as -> by congruence. assert (p = l) as -> by congruence.
    destruct (below_height _ _ _ _ Hcn Hb' Hl) as [->|?]; [|lia]. simplify_eq. lia. }
  destruct (below_linear _ _ _ Hcx Hdx); [by eapply (Hgen i j)|by eapply (Hgen j i)].
Qed.

Lemma top_above x n : st0 !! x = Some n -> below st0 top x.
Proof.
  remember (Z.to_nat (60 - height n)) as d eqn:Hd. revert x n Hd.
  induction d as [d IH] using lt_wf_ind. intros x n -> Hx.
  destruct (parent n) as [p|] eqn:Hp.
  - destruct (wf_parent _ _ _ (sw_nodes _ _ _ Hwf _ _ Hx) _ Hp)
      as (pn & n' & _ & Hpn & ? & _ & _ & Hlt & _). simplify_eq.
    pose proof (node_height_le _ _ _ Hwf _ _ Hx). pose proof (node_height_le _ _ _ Hwf _ _ Hpn).
    eapply below_step; [done|done|]. eapply (IH (Z.to_nat (60 - height pn))); [lia|done|done].
  - rewrite <- (sw_top_unique _ _ _ Hwf _ _ Hx Hp). by econstructor.
Qed.

Lemma free_climb_spec fuel l n :
  st0 !! l = Some n -> 60 - height n < 4 * Z.of_nat fuel -> free_climb fuel st0 l = Some top.
Proof.
  revert l n. induction fuel as [|fuel IH]; intros l n Hl Hf.
  { pose proof (node_height_le _ _ _ Hwf _ _ Hl). lia. }
  cbn. rewrite Hl. cbn. destruct (parent n) as [p|] eqn:Hp.
  - destruct (wf_parent _ _ _ (sw_nodes _ _ _ Hwf _ _ Hl) _ Hp)
      as (pn & n' & kids & Hpl & Hl' & _ & _ & Hlt & _). simplify_eq.
    pose proof (heights_apart _ _ _ Hwf _ _ _ _ Hl Hpl Hlt). eapply IH; eauto. lia.
  - by rewrite (sw_top_unique _ _ _ Hwf _ _ Hl Hp).
Qed.

Definition agree (st : store) (l : loc) : Prop := forall x, below st0 l x -> st !! x = st0 !! x.

Definition removed (st st' : store) (l : loc) : Prop :=
  forall x, (below st0 l x -> st' !! x = None) /\ (~ below st0 l x -> st' !! x = st !! x).

Lemma clear_bits x i j :
  0 <= x < 2 ^ 16 -> 0 <= i <= 16 -> 0 <= j ->
  Z.testbit (Z.land x (u32 (Z.shiftl (-1) i))) j = Z.testbit x j && (i <=? j).
Proof.
  intros Hx Hi Hj. rewrite Z.land_spec. unfold wrapU.
  destruct (Z.lt_ge_cases j 32).
  - rewrite Z.mod_pow2_bits_low, Z.shiftl_spec by lia. f_equal.
    destruct (Z.leb_spec i j).
    + change (-1) with (Z.lnot 0). by rewrite Z.lnot_spec, Z.bits_0 by lia.
    + by rewrite Z.testbit_neg_r by lia.
  - rewrite Z.mod_pow2_bits_high by lia. rewrite andb_false_r.
    apply bound_testbit in Hx as [_ Hx]; [|lia]. by rewrite Hx by lia.
Qed.

Section children.
Context (rec : store -> loc -> option store) (l : loc) (ln : i915_syncmap) (kids : list (option loc)).
Context (Hl : st0 !! l = Some ln) (Hd : data ln = Child kids).
Context (Hrec : forall (i : nat) c st, kids !! i = Some (Some c) -> agree st c ->
                  exists st', rec st c = Some st' /\ removed st st' c).

(** The state of the loop when the bits below [t] have been handled. *)
Record loop_inv (st : store) (t : Z) (stk : store) : Prop := {
  li_t : 0 <= t;
  li_l : exists bm, stk !! l = Some (mk_node (prefix ln) (height ln) bm (parent ln) (data ln)) /\
           0 <= bm < 2 ^ 16 /\
           forall j, 0 <= j -> Z.testbit bm j = (t <=? j) && Z.testbit (bitmap ln) j;
  li_done : forall (i : nat) c x, kids !! i = Some (Some c) -> Z.of_nat i < t ->
              below st0 c x -> stk !! x = None;
  li_todo : forall (i : nat) c, kids !! i = Some (Some c) -> t <= Z.of_nat i -> agree stk c;
  li_other : forall x, ~ below st0 l x -> stk !! x = st !! x
}.

Lemma below_child_ne (i : nat) c x : kids !! i = Some (Some c) -> below st0 c x -> x <> l.
Proof.
  intros Hk Hb ->. destruct (child_node _ _ _ Hwf _ _ _ _ _ Hl Hd Hk) as (cn & Hc & _ & Hlt & _).
  destruct (below_height _ _ _ _ Hc Hb Hl) as [->|?]; [|lia].
  assert (cn = ln) as -> by congruence. lia.
Qed.

Lemma loop_step st t stk bm j :
  loop_inv st t stk ->
  stk !! l = Some (mk_node (prefix ln) (height ln) bm (parent ln) (data ln)) ->
  0 <= bm < 2 ^ 16 -> t <= j < 16 ->
  (forall i, 0 <= i -> Z.testbit bm i = (t <=? i) && Z.testbit (bitmap ln) i) ->
  Z.testbit bm j = true -> (forall i, 0 <= i < j -> Z.testbit bm i = false) ->
  exists c stk', kids !! Z.to_nat j = Some (Some c) /\
    rec (<[l := mk_node (prefix ln) (height ln) (Z.land bm (u32 (Z.shiftl (-1) (j + 1))))
           (parent ln) (data ln)]> stk) c = Some stk' /\
    loop_inv st (j + 1) stk'.
Proof.
  intros [Ht _ Hdone Htodo Hother] Hstk Hbm Hj Hbits Hbj Hlow.
  pose proof (wf_data _ _ _ (sw_nodes _ _ _ Hwf _ _ Hl)) as D. rewrite Hd in D.
  destruct D as (_ & Hlen & D).
  assert (Hset : forall i : nat, (i < 16)%nat -> (exists c, kids !! i = Some (Some c)) <->
                   Z.testbit (bitmap ln) (Z.of_nat i) = true).
  { intros i Hi. specialize (D i Hi). destruct (kids !! i) as [[c|]|].
    - destruct D as [D _]. rewrite D. by split; eauto.
    - rewrite D. split; [by intros (? & ?)|done].
    - rewrite D. split; [by intros (? & ?)|done]. }
  rewrite Hbits in Hbj by lia. apply andb_true_iff in Hbj as [_ Hbj].
  destruct (proj2 (Hset (Z.to_nat j) ltac:(lia)) ltac:(by rewrite Z2Nat.id by lia)) as [c Hc].
  set (p := mk_node _ _ (Z.land _ _) _ _).
  assert (Hkeep : forall (i : nat) d x, kids !! i = Some (Some d) -> below st0 d x ->
    <[l := p]> stk !! x = stk !! x).
  { intros i d x Hi Hb. apply lookup_insert_ne. intros <-. by eapply below_child_ne. }
  destruct (Hrec (Z.to_nat j) c (<[l := p]> stk) Hc) as (stk' & Hr & Hrm).
  { intros x Hb. rewrite (Hkeep _ _ _ Hc Hb). exact (Htodo _ c Hc ltac:(lia) x Hb). }
  exists c, stk'. split_and!; [done|done|].
  assert (Hsame : forall x, ~ below st0 c x -> x <> l -> stk' !! x = stk !! x).
  { intros x Hb Hne. rewrite (proj2 (Hrm x) Hb). by apply lookup_insert_ne. }
  split; [lia| | | |].
  - exists (Z.land bm (u32 (Z.shiftl (-1) (j + 1)))).
    rewrite (proj2 (Hrm l)); [|intros Hb; by eapply (below_child_ne _ c)].
    split; [apply lookup_insert_eq|]. split.
    + apply bound_testbit; [lia|]. split; [apply Z.land_nonneg; lia|].
      intros i Hi. rewrite clear_bits by lia.
      apply bound_testbit in Hbm as [_ Hbm]; [|lia]. by rewrite Hbm.
    + intros i Hi. rewrite clear_bits, Hbits by lia.
      destruct (Z.leb_spec (j + 1) i) as [H1|H1]; cbn.
      * destruct (Z.leb_spec t i); [|lia]. cbn. apply andb_true_r.
      * apply andb_false_r.
  - intros i d x Hi Hlt Hb. destruct (decide (i = Z.to_nat j)) as [->|Hne].
    + apply Hrm. assert (d = c) as -> by congruence. done.
    + rewrite Hsame; [|by eapply siblings_disjoint|by eapply below_child_ne].
      destruct (Z.lt_ge_cases (Z.of_nat i) t) as [?|Hge]; [by eapply Hdone|].
      exfalso. assert (Hi' : (i < 16)%nat) by (rewrite <- Hlen; by eapply lookup_lt_Some).
      assert (Hb' : Z.testbit (bitmap ln) (Z.of_nat i) = true) by (apply Hset; eauto).
      specialize (Hlow (Z.of_nat i) ltac:(lia)). rewrite Hbits, Hb' in Hlow by lia.
      destruct (Z.leb_spec t (Z.of_nat i)); [done|lia].
  - intros i d Hi Hge x Hb. rewrite Hsame.
    + exact (Htodo i d Hi ltac:(lia) x Hb).
    + eapply siblings_disjoint; [done|done|exact Hi|exact Hc|lia|done].
    + by eapply below_child_ne.
  - intros x Hb. rewrite Hsame; [by apply Hother| |].
    + intros Hcx. apply Hb. eapply below_trans; [|done]. by eapply child_below.
    + intros ->. apply Hb. by eapply below_refl.
Qed.

Lemma free_children_spec st k : forall t stk,
  loop_inv st t stk -> 16 - t < Z.of_nat k -> t <= 16 ->
  exists st' n, free_children rec l k stk = Some st' /\ st' !! l = Some n /\
    forall x, x <> l -> (below st0 l x -> st' !! x = None) /\
                        (~ below st0 l x -> st' !! x = st !! x).
Proof.
  induction k as [|k IH]; intros t stk Hinv Hk Ht16; [lia|].
  destruct (li_l _ _ _ Hinv) as (bm & Hstk & Hbm & Hbits).
  cbn [free_children]. rewrite Hstk. cbn [mbind option_bind].
  cbn [prefix height bitmap parent data].
  destruct (ffs_spec bm t Hbm (li_t _ _ _ Hinv)) as [[-> Hz]|(j & -> & Hj & Hbj & Hlow)].
  { intros j Hj. rewrite Hbits by lia. destruct (Z.leb_spec t j); [lia|done]. }
  - cbn. eexists stk, _. split_and!; [done|done|]. intros x Hne. split.
    + intros Hb. destruct (below_child _ _ _ _ Hl Hd Hb Hne) as (i & c & Hc & Hcx).
      apply (li_done _ _ _ Hinv i c x); [done| |done].
      pose proof (wf_data _ _ _ (sw_nodes _ _ _ Hwf _ _ Hl)) as D. rewrite Hd in D.
      destruct D as (_ & Hlen & D).
      assert (Hi : (i < 16)%nat) by (rewrite <- Hlen; by eapply lookup_lt_Some).
      specialize (D i Hi). rewrite Hc in D. destruct D as [D _].
      specialize (Hz (Z.of_nat i) ltac:(lia)). rewrite Hbits, D in Hz by lia.
      destruct (Z.leb_spec t (Z.of_nat i)); [done|lia].
    + apply (li_other _ _ _ Hinv).
  - destruct (Z.eqb_spec (j + 1) 0); [pose proof (li_t _ _ _ Hinv); lia|].
    destruct (loop_step st t stk bm j Hinv Hstk Hbm Hj Hbits Hbj Hlow)
      as (c & stk' & Hc & Hr & Hinv').
    unfold __sync_child. cbn [data]. rewrite Hd. cbn [mbind option_bind].
    replace (j + 1 - 1) with j by lia. rewrite Hc. cbn [mbind option_bind].
    rewrite Hd in Hr. rewrite Hr. cbn [mbind option_bind]. apply (IH (j + 1)); [done|lia|lia].
Qed.
End children.

Lemma sync_free_spec fuel : forall l ln st,
  st0 !! l = Some ln -> height ln < 4 * Z.of_nat fuel -> agree st l ->
  exists st', __sync_free fuel st l = Some st' /\ removed st st' l.
Proof.
  induction fuel as [|fuel IH]; intros l ln st Hl Hf Hag.
  { pose proof (node_height_le _ _ _ Hwf _ _ Hl). lia. }
  cbn [__sync_free]. rewrite (Hag l) by (by eapply below_refl). rewrite Hl.
  cbn [mbind option_bind].
  assert (Hfin : forall stk n, stk !! l = Some n ->
    (forall x, x <> l -> (below st0 l x -> stk !! x = None) /\
                         (~ below st0 l x -> stk !! x = st !! x)) ->
    exists st', kfree stk l = Some st' /\ removed st st' l).
  { intros stk n Hn Hx. unfold kfree. rewrite Hn. cbn. eexists. split; [done|].
    intros x. rewrite lookup_delete. case_decide as E; [|by apply Hx].
    subst. split; [done|]. intros []. by eapply below_refl. }
  destruct (Z.eqb_spec (height ln) 0) as [Hh|Hh].
  - cbn. apply (Hfin st ln); [rewrite (Hag l) by (by eapply below_refl); done|].
    intros x Hne. split; [|done]. intros Hb. destruct (below_node _ _ Hb) as [xn Hx].
    destruct (below_height _ _ _ _ Hl Hb Hx) as [?|?]; [done|].
    pose proof (node_height_le _ _ _ Hwf _ _ Hx). lia.
  - destruct (branch_data _ _ _ Hwf _ _ Hl Hh) as (kids & Hd & _).
    destruct (free_children_spec (__sync_free fuel) l ln kids Hl Hd) with (st := st) (k := 17%nat)
      (t := 0) (stk := st) as (st' & n & -> & Hn & Hx); [| |lia|lia|].
    + intros i c stk Hc Hagc.
      destruct (child_node _ _ _ Hwf _ _ _ _ _ Hl Hd Hc) as (cn & Hcn & _ & Hlt & _).
      pose proof (heights_apart _ _ _ Hwf _ _ _ _ Hcn Hl Hlt). apply (IH c cn); [done|lia|done].
    + split; [lia| | | |done].
      * exists (bitmap ln). split_and!.
        -- rewrite (Hag l) by (by eapply below_refl). rewrite Hl. by destruct ln.
        -- apply (wf_bitmap _ _ _ (sw_nodes _ _ _ Hwf _ _ Hl)).
        -- apply (wf_bitmap _ _ _ (sw_nodes _ _ _ Hwf _ _ Hl)).
        -- intros j Hj. by destruct (Z.leb_spec 0 j); [|lia].
      * intros. lia.
      * intros i c Hc _ x Hb. apply Hag. eapply below_trans; [|done]. by eapply child_below.
    + cbn. by eapply Hfin.
Qed.

Lemma free_spec : i915_syncmap_free st0 (Some root) = Some (∅, None).
Proof.
  destruct (sw_root _ _ _ Hwf) as (n & Hr & Hh). destruct (sw_top _ _ _ Hwf) as (tn & Ht & _).
  unfold i915_syncmap_free.
  rewrite (free_climb_spec DEPTH root n Hr) by (rewrite Hh; unfold DEPTH; lia).
  cbn [mbind option_bind]. pose proof (node_height_le _ _ _ Hwf _ _ Ht).
  destruct (sync_free_spec DEPTH top tn st0 Ht) as (st' & -> & Hrm); [unfold DEPTH; lia|done|].
  cbn. do 2 f_equal. apply map_eq. intros x. rewrite lookup_empty.
  destruct (st0 !! x) as [xn|] eqn:Hx.
  - apply Hrm. by eapply top_above.
  - rewrite (proj2 (Hrm x)); [done|]. intros Hb. destruct (below_node _ _ Hb). congruence.
Qed.
End free.

(** ** Refinement of the map specification *)

Lemma is_later_rep st root id seqno (m : gmap Z Z) :
  is_u64 id -> syncmap_rep st root m ->
  exists root', i915_syncmap_is_later st root id seqno =
      Some (match m !! id with Some s => seqno_later s seqno | None => false end, root') /\
    syncmap_rep st root' m.
Proof.
  intros Hid Hrep. destruct root as [r|].
  - destruct Hrep as [(top & Hwf) Hm]. destruct (sw_root _ _ _ Hwf) as (n & Hr & Hh).
    destruct (is_later_value st r top Hwf id seqno n Hr) as (b & r' & -> & Hwf' & Hs & Hn).
    exists (Some r'). split; [|by split; eauto]. do 2 f_equal.
    destruct (m !! id) as [s|] eqn:E; [by apply Hs, Hm|].
    apply Hn. intros s Hv. apply Hm in Hv; congruence.
  - destruct Hrep as [-> ->]. by exists None.
Qed.

Inductive op :=
| OpSet (id seqno : Z)
| OpIsLater (id seqno : Z).

Definition op_ok (o : op) : Prop :=
  match o with OpSet id seqno | OpIsLater id seqno => is_u64 id /\ is_u32 seqno end.

Section trace.
Context (kmalloc : store -> option loc) (uninit : store -> list Z).

(** One call on the C data structure; the answer is the int or bool returned. *)
Definition run_op (s : store * option loc) (o : op) : option (store * option loc * Z) :=
  match o with
  | OpSet id seqno => i915_syncmap_set kmalloc uninit s.1 s.2 id seqno
  | OpIsLater id seqno =>
      '(b, root) ← i915_syncmap_is_later s.1 s.2 id seqno; Some (s.1, root, b2z b)
  end.

Fixpoint run_ops (s : store * option loc) (ops : list op)
  : option (store * option loc * list Z) :=
  match ops with
  | [] => Some (s, [])
  | o :: ops =>
      '(s, a) ← run_op s o;
      '(s, answers) ← run_ops s ops;
      Some (s, a :: answers)
  end.

(** The specification: a finite map from ids to seqnos.  A set either records
    the seqno and returns 0, or, when an allocation failed, changes nothing. *)
Inductive spec_op (m : gmap Z Z) : op -> Z -> gmap Z Z -> Prop :=
| spec_set id seqno : spec_op m (OpSet id seqno) 0 (<[id := seqno]> m)
| spec_set_fail id seqno st0 : kmalloc st0 = None -> spec_op m (OpSet id seqno) (- ENOMEM) m
| spec_is_later id seqno :
    spec_op m (OpIsLater id seqno)
      (b2z (match m !! id with Some s => seqno_later s seqno | None => false end)) m.

Inductive spec_ops : gmap Z Z -> list op -> list Z -> gmap Z Z -> Prop :=
| spec_nil m : spec_ops m [] [] m
| spec_cons m o a m' ops answers m'' :
    spec_op m o a m' -> spec_ops m' ops answers m'' ->
    spec_ops m (o :: ops) (a :: answers) m''.

Context (Hfresh : forall st l, kmalloc st = Some l -> st !! l = None).
Context (Huninit : forall st, length (uninit st) = 16%nat).

Lemma run_op_refines s o m :
  op_ok o -> syncmap_rep s.1 s.2 m ->
  exists s' a m', run_op s o = Some (s', a) /\ spec_op m o a m' /\ syncmap_rep s'.1 s'.2 m'.
Proof.
  intros Ho Hrep. destruct o as [id seqno|id seqno]; destruct Ho as [Hid _]; cbn.
  - destruct (set_spec kmalloc uninit Hfresh Huninit _ _ id seqno m Hid Hrep)
      as (st' & root' & ret & -> & [[-> Hr]|(-> & (st0 & Hk) & -> & Hr)]).
    + eexists (_, _), _, _. split; [done|]. split; [constructor|done].
    + eexists (_, _), _, _. split; [done|]. split; [by eapply spec_set_fail|done].
  - destruct (is_later_rep _ _ id seqno m Hid Hrep) as (root' & -> & Hr). cbn.
    eexists (_, _), _, _. split; [done|]. split; [constructor|done].
Qed.

Lemma run_ops_refines ops : forall s m,
  Forall op_ok ops -> syncmap_rep s.1 s.2 m ->
  exists s' answers m', run_ops s ops = Some (s', answers) /\
    spec_ops m ops answers m' /\ syncmap_rep s'.1 s'.2 m'.
Proof.
  induction ops as [|o ops IH]; intros s m Hops Hrep.
  - exists s, [], m. split; [done|]. split; [constructor|done].
  - apply Forall_cons in Hops as [Ho Hops].
    destruct (run_op_refines s o m Ho Hrep) as (s1 & a & m1 & E1 & Hs1 & Hr1).
    destruct (IH s1 m1 Hops Hr1) as (s2 & answers & m2 & E2 & Hs2 & Hr2).
    exists s2, (a :: answers), m2. cbn. rewrite E1. cbn. rewrite E2. cbn.
    split; [done|]. split; [by econstructor|done].
Qed.

(** C4. Every sequence of i915_syncmap_set and i915_syncmap_is_later calls on an
    initialised syncmap runs without an invalid access or an unbounded loop, and
    its answers are those of a finite map from ids to seqnos, for every
    allocator: the cached leaf, the parent pointers and the joins are invisible. *)
Theorem syncmap_trace ops :
  Forall op_ok ops ->
  exists s answers m, run_ops (∅, None) ops = Some (s, answers) /\
    spec_ops ∅ ops answers m /\ syncmap_rep s.1 s.2 m.
Proof. intros Hops. by apply run_ops_refines. Qed.

(** C5. A failing i915_syncmap_set (-ENOMEM, with or without a join already
    inserted) leaves the root unchanged, and every later query is answered as
    before the call. *)
Theorem set_failure_harmless ops s answers id seqno st' root' ret id' seqno' b root1 :
  Forall op_ok ops -> run_ops (∅, None) ops = Some (s, answers) ->
  is_u64 id -> is_u64 id' ->
  i915_syncmap_set kmalloc uninit s.1 s.2 id seqno = Some (st', root', ret) -> ret <> 0 ->
  i915_syncmap_is_later s.1 s.2 id' seqno' = Some (b, root1) ->
  ret = - ENOMEM /\ root' = s.2 /\
  exists root2, i915_syncmap_is_later st' root' id' seqno' = Some (b, root2).
Proof.
  intros Hops Hrun Hid Hid' Hset Hret Hq.
  destruct (run_ops_refines ops (∅, None) ∅ Hops) as (s0 & a0 & m & E & _ & Hrep); [done|].
  rewrite Hrun in E. injection E as <- <-.
  destruct (set_spec kmalloc uninit Hfresh Huninit _ _ id seqno m Hid Hrep)
    as (st1 & r1 & ret1 & E1 & H1). rewrite Hset in E1. injection E1 as <- <- <-.
  destruct H1 as [[? _]|(-> & _ & -> & Hrep')]; [done|].
  destruct (is_later_rep _ _ id' seqno' m Hid' Hrep) as (q1 & E1 & _).
  destruct (is_later_rep _ _ id' seqno' m Hid' Hrep') as (q2 & E2 & _).
  rewrite Hq in E1. injection E1 as -> _. eauto.
Qed.

(** C6. i915_syncmap_free on any reachable syncmap frees every node exactly
    once: it never touches a freed node, leaves no node allocated and resets
    the root. *)
Theorem free_releases_all ops s answers :
  Forall op_ok ops -> run_ops (∅, None) ops = Some (s, answers) ->
  i915_syncmap_free s.1 s.2 = Some (∅, None).
Proof.
  intros Hops Hrun.
  destruct (run_ops_refines ops (∅, None) ∅ Hops) as (s0 & a0 & m & E & _ & Hrep); [done|].
  rewrite Hrun in E. injection E as <- <-. destruct s as [st [r|]]; cbn in *.
  - destruct Hrep as [(top & Hwf) _]. by eapply free_spec.
  - by destruct Hrep as [-> _].
Qed.
End trace.

(** Concrete allocators for the witnesses: one that never fails, and one that
    fails once two nodes are allocated. *)
Definition kmalloc_fresh (st : store) : option loc := Some (fresh (dom st)).
Definition kmalloc_two (st : store) : option loc :=
  if (size st <? 2)%nat then Some (fresh (dom st)) else None.
Definition uninit_junk (st : store) : list Z := replicate 16 57005.

Lemma kmalloc_fresh_ok st l : kmalloc_fresh st = Some l -> st !! l = None.
Proof. intros [= <-]. apply not_elem_of_dom, is_fresh. Qed.

Lemma kmalloc_two_ok st l : kmalloc_two st = Some l -> st !! l = None.
Proof.
  unfold kmalloc_two. case_match; [|done]. intros [= <-]. apply not_elem_of_dom, is_fresh.
Qed.

(** The example in the comment at the head of the C file. *)
Definition sample_ops : list op :=
  map (fun x => OpSet x (u32 x))
    [0; 1; 2; 0x10; 0x11; 0x200; 0x201; 0x500000; 0x500001; 0x503000; 0x503001;
     Z.shiftl 0xE 60]
  ++ [OpIsLater 0x503000 0x503000; OpIsLater 0x503000 0x503001; OpIsLater 0x20 0].

Ltac solve_ops_ok := repeat (apply Forall_cons; split; [by vm_compute|]); by apply Forall_nil.

Lemma sample_ops_ok : Forall op_ok sample_ops.
Proof. solve_ops_ok. Qed.

Lemma syncmap_trace_witness :
  exists s answers m,
    run_ops kmalloc_fresh uninit_junk (∅, None) sample_ops = Some (s, answers) /\
    spec_ops kmalloc_fresh ∅ sample_ops answers m /\ syncmap_rep s.1 s.2 m.
Proof.
  exact (syncmap_trace kmalloc_fresh uninit_junk kmalloc_fresh_ok (fun _ => eq_refl)
    sample_ops sample_ops_ok).
Defined.

Lemma free_releases_all_witness :
  match run_ops kmalloc_fresh uninit_junk (∅, None) sample_ops with
  | Some (s, _) => i915_syncmap_free s.1 s.2 = Some (∅, None)
  | None => False
  end.
Proof.
  destruct (run_ops kmalloc_fresh uninit_junk (∅, None) sample_ops) as [[s answers]|] eqn:E.
  - exact (free_releases_all kmalloc_fresh uninit_junk kmalloc_fresh_ok (fun _ => eq_refl)
      sample_ops s answers sample_ops_ok E).
  - vm_compute in E. discriminate E.
Defined.

(** With two nodes only, the second set gets its join but not its leaf. *)
Lemma set_failure_harmless_witness :
  match run_ops kmalloc_two uninit_junk (∅, None) [OpSet 7 1; OpSet 8 5] with
  | Some (s, _) =>
      match i915_syncmap_set kmalloc_two uninit_junk s.1 s.2 0x10 3 with
      | Some (st', root', ret) =>
          ret = - ENOMEM /\ root' = s.2 /\
          exists root2, i915_syncmap_is_later st' root' 8 4 = Some (true, root2)
      | None => False
      end
  | None => False
  end.
Proof.
  destruct (run_ops kmalloc_two uninit_junk (∅, None) [OpSet 7 1; OpSet 8 5])
    as [[s answers]|] eqn:E; [|vm_compute in E; discriminate E].
  destruct (i915_syncmap_set kmalloc_two uninit_junk s.1 s.2 0x10 3)
    as [[[st' root'] ret]|] eqn:E1.
  2:{ vm_compute in E. injection E as <- _. vm_compute in E1. discriminate E1. }
  eapply (set_failure_harmless kmalloc_two uninit_junk kmalloc_two_ok (fun _ => eq_refl)
    [OpSet 7 1; OpSet 8 5] s answers 0x10 3 st' root' ret 8 4 true s.2);
    [solve_ops_ok|exact E|by vm_compute|by vm_compute|exact E1| |].
  - vm_compute in E. injection E as <- _. vm_compute in E1. injection E1 as _ _ <-. discriminate.
  - vm_compute in E. injection E as <- _. reflexivity.
Defined.
