(* ===== verification/RbTree.v ===== *)
(** * Red-black trees as their users see them

    include/linux/rbtree.h and rbtree_augmented.h.  A user of the trees walks the
    links itself, to search and to find where to link a new node, and leaves the
    colours to rb_insert_color, rb_erase and their augmented variants, which are in
    lib/rbtree.c, outside the sources: they are the operations of the class
    [RbTree], with what the callers rely on as the laws of [RbTreeLaws].  A
    tree is the shape of its links over node identifiers; the augmented values
    (a maximum over the subtree) are a map kept beside it, as they are members of the
    linked structures. *)

From stdpp Require Import base numbers list option gmap sorting.
From Stdlib Require Import ZArith Lia Bool.
From S2P Require Import Prelude.
#[local] Open Scope Z_scope.

(** ** Shapes and positions *)

Inductive tree := Leaf | Node (rb_left : tree) (x : Z) (rb_right : tree).

Fixpoint inorder (t : tree) : list Z :=
  match t with Leaf => [] | Node l x r => inorder l ++ x :: inorder r end.

(** The way from a node to the root: the parents, innermost first. *)
Inductive frame := InLeft (parent : Z) (right : tree) | InRight (left : tree) (parent : Z).

Fixpoint plug (p : list frame) (t : tree) : tree :=
  match p with
  | [] => t
  | InLeft x r :: p => plug p (Node t x r)
  | InRight l x :: p => plug p (Node l x t)
  end.

(** The position of a node, which a pointer to it gives directly. *)
Fixpoint locate (i : Z) (t : tree) (p : list frame) : option (list frame * tree) :=
  match t with
  | Leaf => None
  | Node l x r =>
    if x =? i then Some (p, t)
    else match locate i l (InLeft x r :: p) with
         | Some s => Some s
         | None => locate i r (InRight l x :: p)
         end
  end.

(** rb_link_node at the end of a descent that goes left at [x] when [goes_left x]. *)
Fixpoint link (goes_left : Z -> bool) (i : Z) (t : tree) : tree :=
  match t with
  | Leaf => Node Leaf i Leaf
  | Node l x r => if goes_left x then Node (link goes_left i l) x r
                  else Node l x (link goes_left i r)
  end.

(** The descent never went right. *)
Fixpoint only_left (goes_left : Z -> bool) (t : tree) : bool :=
  match t with Leaf => true | Node l x r => goes_left x && only_left goes_left l end.

(** The same descent raising the augmented value of every node it passes to [v]. *)
Fixpoint raise_path (goes_left : Z -> bool) (v : Z) (c : gmap Z Z) (t : tree) : gmap Z Z :=
  match t with
  | Leaf => c
  | Node l x r =>
    let c := if c !!! x <? v then <[x := v]> c else c in
    if goes_left x then raise_path goes_left v c l else raise_path goes_left v c r
  end.

(** ** Cached trees *)

Record rb_root_cached := Cached { rb_root : tree; rb_leftmost : option Z }.

(** ** The augmented maximum *)

Fixpoint tmax (val : Z -> Z) (t : tree) : Z :=
  match t with
  | Leaf => 0
  | Node l x r => Z.max (val x) (Z.max (tmax val l) (tmax val r))
  end.

Fixpoint aug_ok (val : Z -> Z) (c : gmap Z Z) (t : tree) : Prop :=
  match t with
  | Leaf => True
  | Node l x r => c !!! x = tmax val t /\ aug_ok val c l /\ aug_ok val c r
  end.

(** ** The operations of lib/rbtree.c *)

Class RbTree := {
  rb_insert_color : Z -> tree -> tree;
  rb_erase : Z -> tree -> tree;
  rb_insert_augmented : (Z -> Z) -> Z -> gmap Z Z * tree -> gmap Z Z * tree;
  rb_erase_augmented : (Z -> Z) -> Z -> gmap Z Z * tree -> gmap Z Z * tree;
  rb_next : Z -> tree -> option Z;
  rb_prev : Z -> tree -> option Z
}.

(** Rebalancing keeps the order of the nodes and the augmented values, erasing
    takes one node out, and the neighbours are those of the order. *)
Class RbTreeLaws `{RbTree} : Prop := {
  insert_color_inorder i t : inorder (rb_insert_color i t) = inorder t;
  erase_inorder i t a b :
    NoDup (inorder t) -> inorder t = a ++ i :: b -> inorder (rb_erase i t) = a ++ b;
  next_inorder i t a b :
    NoDup (inorder t) -> inorder t = a ++ i :: b -> rb_next i t = head b;
  prev_inorder i t a b :
    NoDup (inorder t) -> inorder t = a ++ i :: b -> rb_prev i t = last a;
  insert_augmented_ok val i c t :
    aug_ok val c t ->
    let '(c', t') := rb_insert_augmented val i (c, t) in
    inorder t' = inorder t /\ aug_ok val c' t';
  erase_augmented_ok val i c t a b :
    NoDup (inorder t) -> inorder t = a ++ i :: b -> aug_ok val c t ->
    let '(c', t') := rb_erase_augmented val i (c, t) in
    inorder t' = a ++ b /\ aug_ok val c' t'
}.

Section cached.
Context `{RbTree}.

Definition rb_insert_color_cached (i : Z) (root : rb_root_cached) (leftmost : bool)
    : rb_root_cached :=
  Cached (rb_insert_color i (rb_root root)) (if leftmost then Some i else rb_leftmost root).

Definition is_leftmost (i : Z) (root : rb_root_cached) : bool :=
  match rb_leftmost root with Some j => j =? i | None => false end.

Definition rb_erase_cached (i : Z) (root : rb_root_cached) : rb_root_cached :=
  Cached (rb_erase i (rb_root root))
    (if is_leftmost i root then rb_next i (rb_root root) else rb_leftmost root).

Definition rb_insert_augmented_cached (val : Z -> Z) (i : Z)
    (s : gmap Z Z * rb_root_cached) (newleft : bool) : gmap Z Z * rb_root_cached :=
  let '(c, t) := rb_insert_augmented val i (s.1, rb_root s.2) in
  (c, Cached t (if newleft then Some i else rb_leftmost s.2)).

Definition rb_erase_augmented_cached (val : Z -> Z) (i : Z)
    (s : gmap Z Z * rb_root_cached) : gmap Z Z * rb_root_cached :=
  let leftmost := if is_leftmost i s.2 then rb_next i (rb_root s.2) else rb_leftmost s.2 in
  let '(c, t) := rb_erase_augmented val i (s.1, rb_root s.2) in
  (c, Cached t leftmost).
End cached.

(** ** Lemmas on shapes *)

Fixpoint before (p : list frame) : list Z :=
  match p with
  | [] => []
  | InLeft _ _ :: p => before p
  | InRight l x :: p => before p ++ inorder l ++ [x]
  end.

Fixpoint after (p : list frame) : list Z :=
  match p with
  | [] => []
  | InLeft x r :: p => x :: inorder r ++ after p
  | InRight _ _ :: p => after p
  end.

Lemma inorder_plug p t : inorder (plug p t) = before p ++ inorder t ++ after p.
Proof.
  revert t. induction p as [|[x r|l x] p IH]; intros t; cbn.
  - by rewrite app_nil_r.
  - rewrite IH. cbn. by rewrite <- !app_assoc.
  - rewrite IH. cbn. by rewrite <- !app_assoc.
Qed.

Lemma locate_plug i t : forall p q s,
  locate i t p = Some (q, s) -> plug q s = plug p t /\ exists l r, s = Node l i r.
Proof.
  induction t as [|l IHl x r IHr]; intros p q s H; cbn in H; [done|].
  destruct (Z.eqb_spec x i) as [->|].
  - simplify_eq. split; [done|]. by eexists _, _.
  - destruct (locate i l _) eqn:El; simplify_eq.
    + by apply IHl in El.
    + by apply IHr in H.
Qed.

Lemma locate_in i t : forall p, In i (inorder t) -> exists q s, locate i t p = Some (q, s).
Proof.
  induction t as [|l IHl x r IHr]; intros p H; cbn in *; [done|].
  destruct (Z.eqb_spec x i); [by eexists _, _|].
  apply in_app_or in H as [H|[?|H]]; [|done|].
  - destruct (IHl (InLeft x r :: p) H) as (q & s & ->). by eexists _, _.
  - destruct (locate i l _) as [[q s]|]; [by eexists _, _|]. by apply IHr.
Qed.

(** The position of a node of the tree, with what is before and after it. *)
Lemma locate_spec i t :
  In i (inorder t) ->
  exists p l r, locate i t [] = Some (p, Node l i r)
    /\ inorder t = (before p ++ inorder l) ++ i :: inorder r ++ after p.
Proof.
  intros H. destruct (locate_in i t [] H) as (p & s & E).
  destruct (locate_plug _ _ _ _ _ E) as (Hp & l & r & ->). exists p, l, r. split; [done|].
  cbn in Hp. rewrite <- Hp, inorder_plug. cbn. by rewrite <- !app_assoc.
Qed.

Lemma split_at_node {A} (x : A) L R a b :
  L ++ x :: R = a ++ b ->
  (exists k, L = a ++ k /\ b = k ++ x :: R) \/ (exists k, a = L ++ x :: k /\ R = k ++ b).
Proof.
  revert a. induction L as [|y L IH]; intros [|z a] E; cbn in *; simplify_eq.
  - left. by exists [].
  - right. by exists a.
  - left. by exists (z :: L) || (eexists; split; reflexivity).
  - destruct (IH a) as [(k & -> & ->)|(k & -> & ->)]; [done|left|right]; by exists k.
Qed.

Lemma Forall_at {A} (P : A -> Prop) a x b : Forall P (a ++ x :: b) -> P x.
Proof. intros H. apply Forall_app in H as [_ H]. by inversion H. Qed.

(** Where a descent links a node: the order splits at the turn. *)
Lemma link_inorder gl i t : forall a b,
  inorder t = a ++ b -> Forall (fun x => gl x = false) a -> Forall (fun x => gl x = true) b ->
  inorder (link gl i t) = a ++ i :: b.
Proof.
  induction t as [|l IHl x r IHr]; intros a b E Ha Hb; cbn in *.
  { symmetry in E. by apply app_nil in E as [-> ->]. }
  apply split_at_node in E as [(k & E1 & ->)|(k & -> & E2)].
  - rewrite (Forall_at _ _ _ _ Hb). apply Forall_app in Hb as [Hb _]. cbn.
    rewrite (IHl a k E1 Ha Hb). by rewrite <- app_assoc.
  - rewrite (Forall_at _ _ _ _ Ha). apply Forall_app in Ha as [_ Ha]. inversion Ha; subst. cbn.
    rewrite (IHr k b) by done. by rewrite <- app_assoc.
Qed.

Lemma only_left_spec gl t :
  forall a b, inorder t = a ++ b -> Forall (fun x => gl x = false) a ->
  Forall (fun x => gl x = true) b -> only_left gl t = bool_decide (a = []).
Proof.
  induction t as [|l IHl x r IHr]; intros a b E Ha Hb; cbn in *.
  { symmetry in E. by apply app_nil in E as [-> ->]. }
  apply split_at_node in E as [(k & E1 & ->)|(k & -> & E2)].
  - rewrite (Forall_at _ _ _ _ Hb). apply Forall_app in Hb as [Hb _]. by apply (IHl a k).
  - rewrite (Forall_at _ _ _ _ Ha). cbn. symmetry. apply bool_decide_eq_false.
    by destruct (inorder l).
Qed.

(** ** Lemmas on the augmented values *)

Lemma tmax_ext val val' t :
  (forall x, In x (inorder t) -> val x = val' x) -> tmax val t = tmax val' t.
Proof.
  induction t as [|l IHl x r IHr]; intros H; cbn in *; [done|].
  rewrite (H x) by (apply in_app_iff; cbn; tauto).
  rewrite IHl, IHr; [done|..]; intros; apply H, in_app_iff; cbn; tauto.
Qed.

Lemma aug_ok_ext val val' c c' t :
  (forall x, In x (inorder t) -> val x = val' x /\ c !!! x = c' !!! x) ->
  aug_ok val c t -> aug_ok val' c' t.
Proof.
  induction t as [|l IHl x r IHr]; intros H; cbn in *; [done|]. intros (Hx & Hl & Hr).
  assert (Hin : forall y, In y (inorder l) \/ y = x \/ In y (inorder r) ->
    val y = val' y /\ c !!! y = c' !!! y).
  { intros y Hy. apply H, in_app_iff. cbn. intuition congruence. }
  destruct (Hin x) as [Ev Ec]; [tauto|]. rewrite <- Ec, <- Ev, Hx.
  rewrite <- !(tmax_ext val val') by (intros; apply Hin; tauto).
  split; [done|]. split; [apply IHl|apply IHr]; try done; intros; apply Hin; tauto.
Qed.

Lemma tmax_nonneg val t : 0 <= tmax val t.
Proof. induction t; cbn; lia. Qed.

Lemma tmax_In val t x : In x (inorder t) -> val x <= tmax val t.
Proof.
  induction t as [|l IHl y r IHr]; cbn; [done|]. rewrite in_app_iff. cbn.
  intros [H|[->|H]]; [apply IHl in H|..]; [lia|lia|apply IHr in H; lia].
Qed.

Lemma tmax_link val gl i t : 0 <= val i -> tmax val (link gl i t) = Z.max (val i) (tmax val t).
Proof.
  intros H. induction t as [|l IHl x r IHr]; cbn; [lia|]. destruct (gl x); cbn; lia.
Qed.

Lemma raise_path_other gl v t y : forall c,
  ~ In y (inorder t) -> raise_path gl v c t !!! y = c !!! y.
Proof.
  induction t as [|l IHl x r IHr]; intros c H; cbn in *; [done|].
  rewrite in_app_iff in H. cbn in H.
  assert (E : (if c !!! x <? v then <[x:=v]> c else c) !!! y = c !!! y).
  { destruct (_ <? _); [|done]. apply lookup_total_insert_ne. naive_solver. }
  destruct (gl x); [rewrite IHl|rewrite IHr]; tauto.
Qed.

(** Linking a node below a raised path keeps the maxima. *)
Lemma link_aug_ok val gl i t : forall c,
  NoDup (inorder t) -> ~ In i (inorder t) -> 0 <= val i -> c !!! i = val i ->
  aug_ok val c t -> aug_ok val (raise_path gl (val i) c t) (link gl i t).
Proof.
  induction t as [|l IHl x r IHr]; intros c Hn Hi Hv Hc Hok; cbn in *; [by repeat split; lia|].
  destruct Hok as (Hx & Hl & Hr). rewrite in_app_iff in Hi. cbn in Hi.
  apply NoDup_app in Hn as (Nl & Hd & Nxr). apply NoDup_cons in Nxr as [Nx Nr].
  set (c1 := if c !!! x <? val i then <[x:=val i]> c else c).
  assert (E1 : c1 !!! x = Z.max (val i) (c !!! x)).
  { unfold c1. destruct (Z.ltb_spec (c !!! x) (val i)); [rewrite lookup_total_insert_eq|]; lia. }
  assert (Eo : forall y, y <> x -> c1 !!! y = c !!! y).
  { intros y Hy. unfold c1. destruct (_ <? _); [|done]. by rewrite lookup_total_insert_ne. }
  assert (Hxl : ~ In x (inorder l)).
  { intros Hxl. apply list_elem_of_In in Hxl. apply (Hd x Hxl). by left. }
  assert (Hxr : ~ In x (inorder r)) by (intros ?; by apply Nx, list_elem_of_In).
  assert (Hl1 : aug_ok val c1 l).
  { eapply aug_ok_ext; [|exact Hl]. intros y Hy. rewrite Eo; [done|]. by intros ->. }
  assert (Hr1 : aug_ok val c1 r).
  { eapply aug_ok_ext; [|exact Hr]. intros y Hy. rewrite Eo; [done|]. by intros ->. }
  assert (Hlr : forall y, In y (inorder l) -> ~ In y (inorder r)).
  { intros y Hy1 Hy2. apply list_elem_of_In in Hy1. apply (Hd y Hy1). right.
    by apply list_elem_of_In. }
  destruct (gl x); cbn; rewrite raise_path_other by tauto; rewrite E1, tmax_link by done;
    (split; [lia|]); split.
  - apply IHl; try done; [tauto|]. by rewrite Eo by naive_solver.
  - eapply aug_ok_ext; [|exact Hr1]. intros y Hy. split; [done|].
    symmetry. apply raise_path_other. intros Hy'. by apply (Hlr y).
  - eapply aug_ok_ext; [|exact Hl1]. intros y Hy. split; [done|].
    symmetry. apply raise_path_other. by apply Hlr.
  - apply IHr; try done; [tauto|]. by rewrite Eo by naive_solver.
Qed.

(** ** A tree that is never rebalanced

    The simplest implementation of the operations; it shows the laws can hold. *)

Module Plain.

Fixpoint join (l r : tree) : tree :=
  match l with Leaf => r | Node l1 x r1 => Node l1 x (join r1 r) end.

Fixpoint erase (i : Z) (t : tree) : tree :=
  match t with
  | Leaf => Leaf
  | Node l x r => if x =? i then join l r else Node (erase i l) x (erase i r)
  end.

Fixpoint recompute (val : Z -> Z) (c : gmap Z Z) (t : tree) : gmap Z Z :=
  match t with
  | Leaf => c
  | Node l x r => <[x := tmax val t]> (recompute val (recompute val c l) r)
  end.

Fixpoint next_of (i : Z) (l : list Z) : option Z :=
  match l with [] => None | x :: l => if x =? i then head l else next_of i l end.

#[export] Instance plain_tree : RbTree := {|
  rb_insert_color _ t := t;
  rb_erase := erase;
  rb_insert_augmented _ _ s := s;
  rb_erase_augmented val i s :=
    let t := erase i s.2 in (recompute val s.1 t, t);
  rb_next i t := next_of i (inorder t);
  rb_prev i t := next_of i (reverse (inorder t))
|}.

Lemma inorder_join l r : inorder (join l r) = inorder l ++ inorder r.
Proof. induction l; cbn; [done|]. rewrite IHl2. by rewrite <- app_assoc. Qed.

Lemma erase_absent i t : ~ In i (inorder t) -> erase i t = t.
Proof.
  induction t as [|l IHl x r IHr]; cbn; [done|]. rewrite in_app_iff. cbn. intros H.
  destruct (Z.eqb_spec x i); [naive_solver|]. by rewrite IHl, IHr by tauto.
Qed.

Lemma erase_split i t : forall a b,
  NoDup (inorder t) -> inorder t = a ++ i :: b -> inorder (erase i t) = a ++ b.
Proof.
  induction t as [|l IHl x r IHr]; intros a b Hn E; cbn in *; [by destruct a|].
  apply NoDup_app in Hn as (Nl & Hd & Nxr). apply NoDup_cons in Nxr as [Nx Nr].
  apply split_at_node in E as [(k & E1 & E2)|(k & -> & E2)].
  - destruct k as [|y k]; cbn in E2; injection E2 as <- ->.
    + rewrite Z.eqb_refl, inorder_join, E1. by rewrite app_nil_r.
    + assert (Hi : i ∈ inorder l) by (rewrite E1; set_solver).
      destruct (Z.eqb_spec x i) as [->|]; [by destruct (Hd i Hi); left|]. cbn.
      rewrite (IHl _ _ Nl E1), erase_absent.
      * by rewrite <- app_assoc.
      * intros Hr. apply (Hd i Hi). right. by apply list_elem_of_In.
  - assert (Hi : i ∈ inorder r) by (rewrite E2; set_solver).
    destruct (Z.eqb_spec x i) as [->|]; [done|]. cbn.
    rewrite (IHr _ _ Nr E2), erase_absent; [by rewrite <- app_assoc|].
    intros Hl. apply list_elem_of_In in Hl. apply (Hd i Hl). by right.
Qed.

Lemma next_of_split i l : forall a b,
  NoDup l -> l = a ++ i :: b -> next_of i l = head b.
Proof.
  induction l as [|x l IH]; intros a b Hn E; cbn; [by destruct a|].
  apply NoDup_cons in Hn as [Hx Hn]. destruct a as [|y a]; simplify_eq/=.
  - by rewrite Z.eqb_refl.
  - destruct (Z.eqb_spec y i) as [->|]; [|by apply (IH a b)].
    exfalso. apply Hx. set_solver.
Qed.

Lemma recompute_other val t y : forall c,
  ~ In y (inorder t) -> recompute val c t !!! y = c !!! y.
Proof.
  induction t as [|l IHl x r IHr]; intros c H; cbn in *; [done|].
  rewrite in_app_iff in H. cbn in H. rewrite lookup_total_insert_ne by naive_solver.
  rewrite IHr, IHl; tauto.
Qed.

Lemma recompute_ok val t : forall c, NoDup (inorder t) -> aug_ok val (recompute val c t) t.
Proof.
  induction t as [|l IHl x r IHr]; intros c Hn; cbn in *; [done|].
  apply NoDup_app in Hn as (Nl & Hd & Nxr). apply NoDup_cons in Nxr as [Nx Nr].
  rewrite lookup_total_insert_eq. split; [done|].
  assert (Hxl : forall y, In y (inorder l) -> y <> x /\ ~ In y (inorder r)).
  { intros y Hy. apply list_elem_of_In in Hy. specialize (Hd y Hy). split.
    - intros ->. apply Hd. by left.
    - intros Hr. apply Hd. right. by apply list_elem_of_In. }
  split.
  - eapply aug_ok_ext; [|apply (IHl c Nl)]. intros y Hy. destruct (Hxl y Hy).
    split; [done|]. rewrite lookup_total_insert_ne by congruence.
    symmetry. by apply recompute_other.
  - eapply aug_ok_ext; [|apply (IHr (recompute val c l) Nr)]. intros y Hy. split; [done|].
    rewrite lookup_total_insert_ne; [done|]. intros ->. by apply Nx, list_elem_of_In.
Qed.

#[export] Instance plain_laws : RbTreeLaws.
Proof.
  split; cbn.
  - done.
  - intros. by apply erase_split.
  - intros. by apply (next_of_split i _ a b).
  - intros i t a b Hn E. rewrite E in Hn. rewrite E.
    rewrite (next_of_split i _ (reverse b) (reverse a)).
    + by rewrite head_reverse.
    + by rewrite reverse_Permutation.
    + by rewrite reverse_app, reverse_cons, <- app_assoc.
  - done.
  - intros val i c t a b Hn E _. split; [by apply erase_split|]. apply recompute_ok.
    rewrite (erase_split i t a b) by done. rewrite E in Hn.
    apply NoDup_app in Hn as (Na & Hd & Nb). apply NoDup_cons in Nb as [_ Nb].
    apply NoDup_app. split; [done|]. split; [|done]. set_solver.
Qed.

End Plain.

(** ** Augmented values along the way to the root *)

Fixpoint path_ok (val : Z -> Z) (c : gmap Z Z) (p : list frame) (below : Z) : Prop :=
  match p with
  | [] => True
  | InLeft x s :: p | InRight s x :: p =>
    c !!! x = Z.max (val x) (Z.max below (tmax val s)) /\ aug_ok val c s
    /\ path_ok val c p (c !!! x)
  end.

Lemma aug_plug val c p : forall t,
  aug_ok val c (plug p t) <-> aug_ok val c t /\ path_ok val c p (tmax val t).
Proof.
  induction p as [|[x s|s x] p IH]; intros t; cbn; [tauto|..]; rewrite IH; cbn;
    rewrite ?(Z.max_comm (tmax val s) (tmax val t)); split.
  - intros ((E & Ht & Hs) & Hp). by rewrite E.
  - intros (Ht & E & Hs & Hp). by rewrite E in *.
  - intros ((E & Hs & Ht) & Hp). by rewrite E.
  - intros (Ht & E & Hs & Hp). by rewrite E in *.
Qed.

Lemma path_ok_ext val c c' p : forall below,
  (forall x, x ∈ before p ++ after p -> c' !!! x = c !!! x) ->
  path_ok val c p below -> path_ok val c' p below.
Proof.
  induction p as [|[x s|s x] p IH]; intros below E; cbn in *; [done|..];
    intros (Ex & Hs & Hp).
  - rewrite (E x) by set_solver. split; [done|]. split.
    + eapply aug_ok_ext; [|exact Hs]. intros y Hy. apply list_elem_of_In in Hy.
      split; [done|]. symmetry. apply E. set_solver.
    + apply IH; [|done]. intros y Hy. apply E. set_solver.
  - rewrite (E x) by set_solver. split; [done|]. split.
    + eapply aug_ok_ext; [|exact Hs]. intros y Hy. apply list_elem_of_In in Hy.
      split; [done|]. symmetry. apply E. set_solver.
    + apply IH; [|done]. intros y Hy. apply E. set_solver.
Qed.
