(* ===== verification/DrmMm.v ===== *)
(** * The range allocator

    drm_mm.c and include/drm/drm_mm.h: nodes handed in by drivers, the list of
    allocated nodes in address order with the allocator's own node as its head, the
    holes that follow nodes in a stack, a tree by size and an augmented tree by
    address, and the interval tree of the nodes.  A node is an identifier; node 0 is
    mm->head_node.  The lists of linux/list.h are lists of identifiers in order; what
    __list_del_entry leaves in the links of a node that was taken out during a scan is
    its [saved_link].  The augmented members of the nodes are the maps
    [subtree_last] and [subtree_max_hole].  The checks of CONFIG_DRM_DEBUG_MM and
    the printing functions are not modelled. *)

From stdpp Require Import base numbers list option gmap.
From Stdlib Require Import ZArith Lia Bool.
From S2P Require Import Prelude RbTree.
#[local] Open Scope Z_scope.

(** ** The structures *)

Record drm_mm_node := MmNode {
  color : Z;               (* unsigned long *)
  start : Z;               (* u64 *)
  size : Z;                (* u64 *)
  hole_size : Z;           (* u64 *)
  allocated : bool;        (* DRM_MM_NODE_ALLOCATED_BIT *)
  scanned : bool;          (* DRM_MM_NODE_SCANNED_BIT *)
  saved_link : Z * Z       (* node_list.prev, node_list.next once taken out *)
}.

(** A node cleared to 0. *)
#[export] Instance drm_mm_node_inhabited : Inhabited drm_mm_node :=
  populate (MmNode 0 0 0 0 false false (0, 0)).

Record drm_mm := Mm {
  nodes : gmap Z drm_mm_node;
  node_list : list Z;
  hole_stack : list Z;
  interval_tree : rb_root_cached;
  holes_size : rb_root_cached;
  holes_addr : tree;
  subtree_last : gmap Z Z;
  subtree_max_hole : gmap Z Z;
  scan_active : Z
}.

Record drm_mm_scan := Scan {
  sc_size : Z;
  sc_alignment : Z;
  sc_remainder_mask : Z;
  sc_range_start : Z;
  sc_range_end : Z;
  sc_hit_start : Z;
  sc_hit_end : Z;
  sc_color : Z;
  sc_mode : Z
}.

Definition DRM_MM_INSERT_BEST := 0.
Definition DRM_MM_INSERT_LOW := 1.
Definition DRM_MM_INSERT_HIGH := 2.
Definition DRM_MM_INSERT_EVICT := 3.
Definition DRM_MM_INSERT_ONCE := BIT 31.
Definition DRM_MM_INSERT_HIGHEST := Z.lor DRM_MM_INSERT_HIGH DRM_MM_INSERT_ONCE.
Definition DRM_MM_INSERT_LOWEST := Z.lor DRM_MM_INSERT_LOW DRM_MM_INSERT_ONCE.

Definition node (m : drm_mm) (i : Z) : drm_mm_node := nodes m !!! i.

(** Assignments to members of a node. *)
Definition with_hole (h : Z) (n : drm_mm_node) : drm_mm_node :=
  MmNode (color n) (start n) (size n) h (allocated n) (scanned n) (saved_link n).
Definition with_allocated (b : bool) (n : drm_mm_node) : drm_mm_node :=
  MmNode (color n) (start n) (size n) (hole_size n) b (scanned n) (saved_link n).
Definition with_place (s z c : Z) (n : drm_mm_node) : drm_mm_node :=
  MmNode c s z (hole_size n) (allocated n) (scanned n) (saved_link n).
Definition with_scanned (b : bool) (l : Z * Z) (n : drm_mm_node) : drm_mm_node :=
  MmNode (color n) (start n) (size n) (hole_size n) (allocated n) b l.

Definition upd (f : drm_mm_node -> drm_mm_node) (i : Z) (m : drm_mm) : drm_mm :=
  Mm (<[i := f (node m i)]> (nodes m)) (node_list m) (hole_stack m) (interval_tree m)
    (holes_size m) (holes_addr m) (subtree_last m) (subtree_max_hole m) (scan_active m).
Definition set_list (l : list Z) (m : drm_mm) : drm_mm :=
  Mm (nodes m) l (hole_stack m) (interval_tree m) (holes_size m) (holes_addr m)
    (subtree_last m) (subtree_max_hole m) (scan_active m).
Definition set_stack (l : list Z) (m : drm_mm) : drm_mm :=
  Mm (nodes m) (node_list m) l (interval_tree m) (holes_size m) (holes_addr m)
    (subtree_last m) (subtree_max_hole m) (scan_active m).
Definition set_interval (s : gmap Z Z * rb_root_cached) (m : drm_mm) : drm_mm :=
  Mm (nodes m) (node_list m) (hole_stack m) s.2 (holes_size m) (holes_addr m) s.1
    (subtree_max_hole m) (scan_active m).
Definition set_by_size (t : rb_root_cached) (m : drm_mm) : drm_mm :=
  Mm (nodes m) (node_list m) (hole_stack m) (interval_tree m) t (holes_addr m)
    (subtree_last m) (subtree_max_hole m) (scan_active m).
Definition set_by_addr (s : gmap Z Z * tree) (m : drm_mm) : drm_mm :=
  Mm (nodes m) (node_list m) (hole_stack m) (interval_tree m) (holes_size m) s.2
    (subtree_last m) s.1 (scan_active m).
Definition set_scan_active (k : Z) (m : drm_mm) : drm_mm :=
  Mm (nodes m) (node_list m) (hole_stack m) (interval_tree m) (holes_size m) (holes_addr m)
    (subtree_last m) (subtree_max_hole m) k.

(** ** The node list *)

Fixpoint succ_of (i : Z) (l : list Z) : option Z :=
  match l with [] => None | x :: l => if x =? i then Some (default 0 (head l)) else succ_of i l end.
Fixpoint pred_of (p i : Z) (l : list Z) : option Z :=
  match l with [] => None | x :: l => if x =? i then Some p else pred_of x i l end.

(** list_next_entry and list_prev_entry; the list is circular through the head. *)
Definition list_next (m : drm_mm) (i : Z) : Z :=
  match succ_of i (0 :: node_list m) with Some j => j | None => (saved_link (node m i)).2 end.
Definition list_prev (m : drm_mm) (i : Z) : Z :=
  if i =? 0 then default 0 (last (node_list m))
  else match pred_of 0 i (node_list m) with
       | Some j => j | None => (saved_link (node m i)).1 end.

(** list_add after an element of the list; linking after one that is not in the list
    corrupts it and has no result. *)
Fixpoint add_after (h i : Z) (l : list Z) : option (list Z) :=
  match l with
  | [] => None
  | x :: l => if x =? h then Some (x :: i :: l) else (fun k => x :: k) <$> add_after h i l
  end.
Definition list_add (i h : Z) (m : drm_mm) : option drm_mm :=
  if h =? 0 then Some (set_list (i :: node_list m) m)
  else l ← add_after h i (node_list m); Some (set_list l m).

Definition remove_id (i : Z) (l : list Z) : list Z := filter (fun j => j <> i) l.
Definition list_del (i : Z) (m : drm_mm) : drm_mm := set_list (remove_id i (node_list m)) m.

(** ** Accessors *)

Definition drm_mm_node_allocated (m : drm_mm) (i : Z) : bool := allocated (node m i).
Definition drm_mm_hole_follows (m : drm_mm) (i : Z) : bool := negb (hole_size (node m i) =? 0).
Definition hole_node_start (m : drm_mm) (i : Z) : Z := u64 (start (node m i) + size (node m i)).
Definition hole_node_end (m : drm_mm) (i : Z) : Z := start (node m (list_next m i)).
Definition LAST (m : drm_mm) (i : Z) : Z := u64 (start (node m i) + size (node m i) - 1).
Definition HOLE_SIZE (m : drm_mm) (i : Z) : Z := hole_size (node m i).
Definition drm_mm_clean (m : drm_mm) : bool :=
  match node_list m with [] => true | _ => false end.

Section drm_mm.
Context `{RbTree}.

(** ** The interval tree *)

(** The walk from the hole node to the root. *)
Fixpoint raise_parents (v : Z) (c : gmap Z Z) (path : list frame) : gmap Z Z :=
  match path with
  | [] => c
  | InLeft x _ :: path | InRight _ x :: path =>
    if v <=? c !!! x then c else raise_parents v (<[x := v]> c) path
  end.

Definition drm_mm_interval_tree_add_node (hole_node i : Z) (m : drm_mm) : option drm_mm :=
  let last := LAST m i in
  let c := <[i := last]> (subtree_last m) in
  let gl x := start (node m i) <? start (node m x) in
  let root := rb_root (interval_tree m) in
  '(c, t, leftmost) ←
    (if drm_mm_node_allocated m hole_node then
       '(p, s) ← locate hole_node root [];
       match s with
       | Leaf => None
       | Node l x r =>
         let c := if last <=? c !!! x then c else raise_parents last (<[x := last]> c) p in
         Some (raise_path gl last c r, plug p (Node l x (link gl i r)), false)
       end
     else Some (raise_path gl last c root, link gl i root, only_left gl root));
  Some (set_interval
          (rb_insert_augmented_cached (LAST m) i (c, Cached t (rb_leftmost (interval_tree m)))
             leftmost) m).

Definition drm_mm_interval_tree_remove (i : Z) (m : drm_mm) : drm_mm :=
  set_interval
    (rb_erase_augmented_cached (LAST m) i (subtree_last m, interval_tree m)) m.

(** ITPREFIX_subtree_search of interval_tree_generic.h; following a null right link has
    no result, [Some None] is the NULL it returns. *)
Fixpoint subtree_search (m : drm_mm) (first last : Z) (t : tree) : option (option Z) :=
  match t with
  | Leaf => None
  | Node l x r =>
    let here :=
      if start (node m x) <=? last then
        if first <=? LAST m x then Some (Some x) else subtree_search m first last r
      else Some None in
    match l with
    | Node _ y _ =>
      if first <=? subtree_last m !!! y then subtree_search m first last l else here
    | Leaf => here
    end
  end.

Definition drm_mm_interval_tree_iter_first (m : drm_mm) (first last : Z) : option (option Z) :=
  match rb_root (interval_tree m) with
  | Leaf => Some None
  | Node _ x _ as t =>
    if subtree_last m !!! x <? first then Some None
    else lm ← rb_leftmost (interval_tree m);
         if last <? start (node m lm) then Some None else subtree_search m first last t
  end.

Definition drm_mm_interval_first (m : drm_mm) (first last : Z) : option Z :=
  default 0 <$> drm_mm_interval_tree_iter_first m first last.

(** ** The holes *)

Definition insert_hole_size (i : Z) (m : drm_mm) : drm_mm :=
  let t := rb_root (holes_size m) in
  let gl x := HOLE_SIZE m x <? HOLE_SIZE m i in
  set_by_size
    (rb_insert_color_cached i (Cached (link gl i t) (rb_leftmost (holes_size m)))
       (only_left gl t)) m.

Definition insert_hole_addr (i : Z) (m : drm_mm) : drm_mm :=
  let t := holes_addr m in
  let gl x := hole_node_start m i <? hole_node_start m x in
  let c := raise_path gl (subtree_max_hole m !!! i) (subtree_max_hole m) t in
  set_by_addr (rb_insert_augmented (HOLE_SIZE m) i (c, link gl i t)) m.

(** node->hole_size and node->subtree_max_hole. *)
Definition set_hole (i h : Z) (m : drm_mm) : drm_mm :=
  let m := upd (with_hole h) i m in
  set_by_addr (<[i := h]> (subtree_max_hole m), holes_addr m) m.

Definition add_hole (i : Z) (m : drm_mm) : drm_mm :=
  let m := set_hole i (u64 (hole_node_end m i - hole_node_start m i)) m in
  let m := insert_hole_addr i (insert_hole_size i m) in
  set_stack (i :: hole_stack m) m.

Definition rm_hole (i : Z) (m : drm_mm) : drm_mm :=
  let m := set_stack (remove_id i (hole_stack m)) m in
  let m := set_by_size (rb_erase_cached i (holes_size m)) m in
  let m := set_by_addr (rb_erase_augmented (HOLE_SIZE m) i (subtree_max_hole m, holes_addr m)) m in
  set_hole i 0 m.

(** ** Searching for a hole *)

Fixpoint best_in (m : drm_mm) (size : Z) (t : tree) (best : option Z) : option Z :=
  match t with
  | Leaf => best
  | Node l x r =>
    if size <=? HOLE_SIZE m x then best_in m size r (Some x) else best_in m size l best
  end.

(** The do-while loop reads the root first. *)
Definition best_hole (m : drm_mm) (size : Z) : option (option Z) :=
  match rb_root (holes_size m) with
  | Leaf => None
  | t => Some (best_in m size t None)
  end.

Definition usable_hole_addr (m : drm_mm) (t : tree) (size : Z) : bool :=
  match t with Leaf => false | Node _ x _ => size <=? subtree_max_hole m !!! x end.

Fixpoint find_addr_in (m : drm_mm) (addr size : Z) (t : tree) (found : option Z) : option Z :=
  match t with
  | Leaf => found
  | Node l x r =>
    if negb (usable_hole_addr m t size) then found
    else
      let hole_start := hole_node_start m x in
      if addr <? hole_start then find_addr_in m addr size l (Some x)
      else if u64 (hole_start + HOLE_SIZE m x) <? addr then find_addr_in m addr size r (Some x)
      else Some x
  end.

Definition find_hole_addr (m : drm_mm) (addr size : Z) : option Z :=
  find_addr_in m addr size (holes_addr m) None.

Definition first_hole (m : drm_mm) (first last size mode : Z) : option (option Z) :=
  if mode =? DRM_MM_INSERT_LOW then Some (find_hole_addr m first size)
  else if mode =? DRM_MM_INSERT_HIGH then Some (find_hole_addr m last size)
  else if mode =? DRM_MM_INSERT_EVICT then Some (head (hole_stack m))
  else best_hole m size.

(** DECLARE_NEXT_HOLE_ADDR: down the second links while they are usable, or up. *)
Fixpoint leftmost_usable (m : drm_mm) (size : Z) (t : tree) (x : Z) : Z :=
  match t with
  | Leaf => x
  | Node l y _ => if usable_hole_addr m l size then leftmost_usable m size l y else y
  end.
Fixpoint rightmost_usable (m : drm_mm) (size : Z) (t : tree) (x : Z) : Z :=
  match t with
  | Leaf => x
  | Node _ y r => if usable_hole_addr m r size then rightmost_usable m size r y else y
  end.

Fixpoint climb_right (path : list frame) : option Z :=
  match path with
  | [] => None | InLeft x _ :: _ => Some x | InRight _ _ :: path => climb_right path
  end.
Fixpoint climb_left (path : list frame) : option Z :=
  match path with
  | [] => None | InRight _ x :: _ => Some x | InLeft _ _ :: path => climb_left path
  end.

Definition next_hole_low_addr (m : drm_mm) (entry size : Z) : option (option Z) :=
  '(p, s) ← locate entry (holes_addr m) [];
  match s with
  | Leaf => None
  | Node l x r =>
    Some (if usable_hole_addr m r size then Some (leftmost_usable m size r x) else climb_right p)
  end.

Definition next_hole_high_addr (m : drm_mm) (entry size : Z) : option (option Z) :=
  '(p, s) ← locate entry (holes_addr m) [];
  match s with
  | Leaf => None
  | Node l x r =>
    Some (if usable_hole_addr m l size then Some (rightmost_usable m size l x) else climb_left p)
  end.

Fixpoint stack_next (i : Z) (l : list Z) : option Z :=
  match l with [] => None | x :: l => if x =? i then head l else stack_next i l end.

Definition next_hole (m : drm_mm) (i size mode : Z) : option (option Z) :=
  if mode =? DRM_MM_INSERT_LOW then next_hole_low_addr m i size
  else if mode =? DRM_MM_INSERT_HIGH then next_hole_high_addr m i size
  else if mode =? DRM_MM_INSERT_EVICT then Some (stack_next i (hole_stack m))
  else Some (rb_prev i (rb_root (holes_size m))).

(** ** Inserting and removing *)

(** mm->color_adjust: the hole, the color and the bounds to adjust. *)
Context (color_adjust : option (drm_mm -> Z -> Z -> Z * Z -> Z * Z)).

Definition adjust (m : drm_mm) (hole c : Z) (b : Z * Z) : Z * Z :=
  match color_adjust with Some f => f m hole c b | None => b end.

(** Where a node goes between [lo] and [hi], the adjusted bounds of a hole cut to the
    range: shared by the search and the scan. *)
Definition align_in (mode size alignment remainder_mask lo hi : Z) : option Z :=
  if (hi <=? lo) || (u64 (hi - lo) <? size) then None
  else
    let adj_start := if mode =? DRM_MM_INSERT_HIGH then u64 (hi - size) else lo in
    if alignment =? 0 then Some adj_start
    else
      let rem := if remainder_mask =? 0 then adj_start mod alignment
                 else Z.land adj_start remainder_mask in
      if rem =? 0 then Some adj_start
      else
        let adj_start := u64 (adj_start - rem) in
        let adj_start := if mode =? DRM_MM_INSERT_HIGH then adj_start
                         else u64 (adj_start + alignment) in
        if (adj_start <? lo) || (u64 (hi - adj_start) <? size) then None
        else if (hi <=? adj_start) || (u64 (hi - adj_start) <? size) then None
        else Some adj_start.

(** The tail shared by both ways in: link the node after the hole's node and split
    the hole. *)
Definition occupy (hole i hole_start hole_end first last : Z) (m : drm_mm) : option drm_mm :=
  m ← list_add i hole (upd (with_allocated true) i m);
  m ← drm_mm_interval_tree_add_node hole i m;
  let m := upd (with_hole 0) i m in
  let m := rm_hole hole m in
  let m := if hole_start <? first then add_hole hole m else m in
  Some (if last <? hole_end then add_hole i m else m).

Definition drm_mm_reserve_node (i : Z) (m : drm_mm) : option (Z * drm_mm) :=
  let first := start (node m i) in
  let last := u64 (first + size (node m i)) in
  if last <=? first then Some (- ENOSPC, m)
  else
    match find_hole_addr m first 0 with
    | None => Some (- ENOSPC, m)
    | Some hole =>
      let hole_start := hole_node_start m hole in
      let hole_end := u64 (hole_start + HOLE_SIZE m hole) in
      let '(adj_start, adj_end) := adjust m hole (color (node m i)) (hole_start, hole_end) in
      if (first <? adj_start) || (adj_end <? last) then Some (- ENOSPC, m)
      else m ← occupy hole i hole_start hole_end first last m; Some (0, m)
    end.

Definition sz_or_zero (m : drm_mm) (i : option Z) : Z :=
  match i with Some i => HOLE_SIZE m i | None => 0 end.

(** The parameters of a search that do not change while it runs. *)
Record request := Req {
  rq_size : Z; rq_alignment : Z; rq_color : Z; rq_start : Z; rq_end : Z; rq_mode : Z;
  rq_mask : Z; rq_once : bool
}.

Definition fit (q : request) (m : drm_mm) (hole : Z) : option Z :=
  let hole_start := hole_node_start m hole in
  let '(col_start, col_end) :=
    adjust m hole (rq_color q) (hole_start, u64 (hole_start + HOLE_SIZE m hole)) in
  align_in (rq_mode q) (rq_size q) (rq_alignment q) (rq_mask q)
    (Z.max col_start (rq_start q)) (Z.min col_end (rq_end q)).

(** The for loop; [fuel] bounds its rounds. *)
Fixpoint search (fuel : nat) (q : request) (m : drm_mm) (hole : option Z)
    : option (option (Z * Z)) :=
  match fuel, hole with
  | O, _ => None
  | _, None => Some None
  | S fuel, Some h =>
    let hole_start := hole_node_start m h in
    let hole_end := u64 (hole_start + HOLE_SIZE m h) in
    if ((rq_mode q =? DRM_MM_INSERT_LOW) && (rq_end q <=? hole_start))
       || ((rq_mode q =? DRM_MM_INSERT_HIGH) && (hole_end <=? rq_start q))
    then Some None
    else
      match fit q m h with
      | Some a => Some (Some (h, a))
      | None =>
        if rq_once q then Some None
        else hole ← next_hole m h (rq_size q) (rq_mode q); search fuel q m hole
      end
  end.

Definition mk_request (size alignment color range_start range_end mode : Z) : request :=
  let alignment := if alignment <=? 1 then 0 else alignment in
  Req size alignment color range_start range_end
    (Z.land mode (2 ^ 31 - 1)) (if is_power_of_2 alignment then alignment - 1 else 0)
    (tst mode DRM_MM_INSERT_ONCE).

Definition drm_mm_insert_node_in_range (i size alignment color range_start range_end mode : Z)
    (m : drm_mm) : option (Z * drm_mm) :=
  if (size =? 0) || (u64 (range_end - range_start) <? size) then Some (- ENOSPC, m)
  else if sz_or_zero m (rb_leftmost (holes_size m)) <? size then Some (- ENOSPC, m)
  else
    let q := mk_request size alignment color range_start range_end mode in
    first ← first_hole m range_start range_end size (rq_mode q);
    found ← search (S (length (hole_stack m))) q m first;
    match found with
    | None => Some (- ENOSPC, m)
    | Some (hole, adj_start) =>
      let hole_start := hole_node_start m hole in
      let hole_end := u64 (hole_start + HOLE_SIZE m hole) in
      let m := upd (with_place adj_start size color) i m in
      m ← occupy hole i hole_start hole_end adj_start (u64 (adj_start + size)) m;
      Some (0, m)
    end.

Definition drm_mm_insert_node_generic (i size alignment color mode : Z) (m : drm_mm) :=
  drm_mm_insert_node_in_range i size alignment color 0 U64_MAX mode m.
Definition drm_mm_insert_node (i size : Z) (m : drm_mm) :=
  drm_mm_insert_node_generic i size 0 0 0 m.

Definition drm_mm_remove_node (i : Z) (m : drm_mm) : drm_mm :=
  let prev_node := list_prev m i in
  let m := if drm_mm_hole_follows m i then rm_hole i m else m in
  let m := drm_mm_interval_tree_remove i m in
  let m := list_del i m in
  let m := if drm_mm_hole_follows m prev_node then rm_hole prev_node m else m in
  let m := add_hole prev_node m in
  upd (with_allocated false) i m.

(** The driver's structure is cleared to 0 before. *)
Definition drm_mm_init (first sz : Z) : drm_mm :=
  add_hole 0
    (Mm {[ 0 := MmNode 0 (u64 (first + sz)) (u64 (- sz)) 0 false false (0, 0) ]}
       [] [] (Cached Leaf None) (Cached Leaf None) Leaf ∅ ∅ 0).

(** ** Eviction scans *)

Definition drm_mm_scan_init_with_range (size alignment color first last mode : Z) : drm_mm_scan :=
  let alignment := if alignment <=? 1 then 0 else alignment in
  Scan size alignment (if is_power_of_2 alignment then alignment - 1 else 0)
    first last U64_MAX 0 color mode.
Definition drm_mm_scan_init (size alignment color mode : Z) : drm_mm_scan :=
  drm_mm_scan_init_with_range size alignment color 0 U64_MAX mode.

Definition set_hit (first last : Z) (s : drm_mm_scan) : drm_mm_scan :=
  Scan (sc_size s) (sc_alignment s) (sc_remainder_mask s) (sc_range_start s) (sc_range_end s)
    first last (sc_color s) (sc_mode s).

Definition drm_mm_scan_add_block (s : drm_mm_scan) (i : Z) (m : drm_mm)
    : bool * drm_mm_scan * drm_mm :=
  let m := set_scan_active (u64 (scan_active m + 1)) m in
  let hole := list_prev m i in
  let m := upd (with_scanned true (hole, list_next m i)) i m in
  let m := list_del i m in
  let hole_start := hole_node_start m hole in
  let hole_end := hole_node_end m hole in
  let '(col_start, col_end) := adjust m hole (sc_color s) (hole_start, hole_end) in
  match align_in (sc_mode s) (sc_size s) (sc_alignment s) (sc_remainder_mask s)
          (Z.max col_start (sc_range_start s)) (Z.min col_end (sc_range_end s)) with
  | None => (false, s, m)
  | Some adj_start => (true, set_hit adj_start (u64 (adj_start + sc_size s)) s, m)
  end.

Definition drm_mm_scan_remove_block (s : drm_mm_scan) (i : Z) (m : drm_mm)
    : option (bool * drm_mm) :=
  let prev_node := list_prev m i in
  let m := upd (with_scanned false (0, 0)) i m in
  let m := set_scan_active (u64 (scan_active m - 1)) m in
  m ← list_add i prev_node m;
  Some ((sc_hit_start s <? u64 (start (node m i) + size (node m i)))
        && (start (node m i) <? sc_hit_end s), m).

(** The first hole of the stack that holds the target. *)
Fixpoint target_hole (s : drm_mm_scan) (m : drm_mm) (l : list Z) : option Z :=
  match l with
  | [] => None
  | h :: l =>
    let hole_start := hole_node_start m h in
    if (hole_start <=? sc_hit_start s) && (sc_hit_end s <=? u64 (hole_start + HOLE_SIZE m h))
    then Some h else target_hole s m l
  end.

Definition drm_mm_scan_color_evict (s : drm_mm_scan) (m : drm_mm) : option Z :=
  match color_adjust with
  | None => None
  | Some f =>
    hole ← target_hole s m (hole_stack m);
    let hole_start := hole_node_start m hole in
    let '(hole_start, hole_end) :=
      f m hole (sc_color s) (hole_start, u64 (hole_start + HOLE_SIZE m hole)) in
    if sc_hit_start s <? hole_start then Some hole
    else if hole_end <? sc_hit_end s then Some (list_next m hole)
    else None
  end.
End drm_mm.
