(* ===== verification/DrmMmInv.v ===== *)
(** * The range allocator: its invariant

    The structures of an allocator agree: the holes in the stack, in the tree by size
    and in the tree by address are the gaps between consecutive nodes of the node
    list, and the interval tree holds exactly the nodes.  Each operation on one
    structure is specified here for any order of the identifiers it inserts at or
    removes from; the operations of the allocator compose them. *)

From stdpp Require Import base numbers list option gmap sorting.
From Stdlib Require Import ZArith Lia Bool.
From S2P Require Import Prelude RbTree DrmMm.
#[local] Open Scope Z_scope.

(** ** Members of nodes after updates *)

Lemma node_upd f i m j : node (upd f i m) j = if decide (j = i) then f (node m i) else node m j.
Proof.
  unfold node, upd. cbn [nodes]. case_decide; subst.
  - apply lookup_total_insert_eq.
  - by apply lookup_total_insert_ne.
Qed.

(** ** Sorted lists *)

Lemma StronglySorted_ext {A} (R R' : A -> A -> Prop) l :
  (forall i j, i ∈ l -> j ∈ l -> R i j -> R' i j) -> StronglySorted R l -> StronglySorted R' l.
Proof.
  intros HR. induction 1 as [|x l _ IH Hx]; constructor.
  - apply IH. intros i j Hi Hj. apply HR; by right.
  - rewrite Forall_forall in Hx |- *. intros y Hy. apply HR; [by left|by right|by apply Hx].
Qed.

Lemma StronglySorted_insert {A} (R : A -> A -> Prop) a x b :
  StronglySorted R (a ++ b) -> Forall (fun y => R y x) a -> Forall (R x) b ->
  StronglySorted R (a ++ x :: b).
Proof.
  rewrite !StronglySorted_app, StronglySorted_cons, !Forall_forall. intros (H1 & H2 & H3) Ha Hb.
  split; [|done]. intros y z Hy [->|Hz]%elem_of_cons; [by apply Ha|by apply H1].
Qed.

Lemma StronglySorted_delete {A} (R : A -> A -> Prop) a x b :
  StronglySorted R (a ++ x :: b) -> StronglySorted R (a ++ b).
Proof.
  rewrite !StronglySorted_app, StronglySorted_cons. intros (H1 & H2 & _ & H3).
  split; [|done]. intros y z Hy Hz. apply H1; [done|by right].
Qed.

(** A test that stays true once it is true splits a list in two. *)
Lemma monotone_split {A} (p : A -> bool) l :
  StronglySorted (fun i j => p i = true -> p j = true) l ->
  exists a b, l = a ++ b /\ Forall (fun x => p x = false) a /\ Forall (fun x => p x = true) b.
Proof.
  induction 1 as [|x l Hs (a & b & -> & Ha & Hb) Hx]; [by exists [], []|].
  destruct (p x) eqn:Ep.
  - exists [], (x :: a ++ b). split; [done|]. split; [done|]. constructor; [done|].
    eapply Forall_impl; [exact Hx|auto].
  - exists (x :: a), b. split; [done|]. split; [by constructor|done].
Qed.

Lemma NoDup_insert {A} (a : list A) x b : NoDup (a ++ b) -> x ∉ a ++ b -> NoDup (a ++ x :: b).
Proof. intros Hn Hx. rewrite <- Permutation_middle. by constructor. Qed.

Lemma NoDup_split_unique {A} (x : A) a b a' b' :
  a ++ x :: b = a' ++ x :: b' -> NoDup (a ++ x :: b) -> a = a' /\ b = b'.
Proof.
  revert a'. induction a as [|y a IH]; intros [|z a'] E Hn; cbn in *; injection E.
  - by intros ->.
  - intros -> ->. apply NoDup_cons in Hn as [Hx _]. set_solver.
  - intros _ ->. apply NoDup_cons in Hn as [Hx _]. set_solver.
  - intros E' ->. apply NoDup_cons in Hn as [_ Hn]. by destruct (IH a' E' Hn) as [-> ->].
Qed.

Lemma NoDup_delete {A} (a : list A) x b : NoDup (a ++ x :: b) -> NoDup (a ++ b) /\ x ∉ a ++ b.
Proof. rewrite <- Permutation_middle. intros [? ?]%NoDup_cons. done. Qed.

Section inv.
Context `{RbTree} `{!RbTreeLaws}.

Abbreviation hns := hole_node_start.

(** ** The hole structures *)

Record holes_ok (m : drm_mm) (hs : list Z) : Prop := {
  ho_nodup : NoDup hs;
  ho_stack : hole_stack m ≡ₚ hs;
  ho_addr : inorder (holes_addr m) = hs;
  ho_aug : aug_ok (HOLE_SIZE m) (subtree_max_hole m) (holes_addr m);
  ho_size : inorder (rb_root (holes_size m)) ≡ₚ hs;
  ho_size_sorted :
    StronglySorted (fun i j => HOLE_SIZE m j <= HOLE_SIZE m i) (inorder (rb_root (holes_size m)));
  ho_left : rb_leftmost (holes_size m) = head (inorder (rb_root (holes_size m)));
  ho_pos : Forall (fun i => 0 < HOLE_SIZE m i) hs;
  ho_sorted : StronglySorted (fun i j => hns m i < hns m j) hs
}.

(** The structures depend on the members of their own nodes only. *)
Lemma holes_ok_ext m m' hs :
  hole_stack m' = hole_stack m -> holes_addr m' = holes_addr m ->
  subtree_max_hole m' = subtree_max_hole m -> holes_size m' = holes_size m ->
  (forall i, In i hs -> HOLE_SIZE m' i = HOLE_SIZE m i /\ hns m' i = hns m i) ->
  holes_ok m hs -> holes_ok m' hs.
Proof.
  intros E1 E2 E3 E4 E5 [N1 P1 A1 G1 P2 S1 L1 O1 S2].
  assert (E6 : forall i, i ∈ hs -> HOLE_SIZE m' i = HOLE_SIZE m i /\ hns m' i = hns m i).
  { intros i Hi. by apply E5, list_elem_of_In. }
  split; rewrite ?E1, ?E2, ?E3, ?E4; try done.
  - eapply aug_ok_ext; [|exact G1]. rewrite A1. intros i Hi. split; [|done].
    symmetry. by apply E5.
  - eapply StronglySorted_ext; [|exact S1]. intros i j Hi Hj Hij.
    rewrite P2 in Hi, Hj. destruct (E6 i Hi) as [-> _]. by destruct (E6 j Hj) as [-> _].
  - rewrite Forall_forall in O1 |- *. intros i Hi. destruct (E6 i Hi) as [-> _]. by apply O1.
  - eapply StronglySorted_ext; [|exact S2]. intros i j Hi Hj Hij.
    destruct (E6 i Hi) as [_ ->]. by destruct (E6 j Hj) as [_ ->].
Qed.


Lemma remove_id_absent (i : Z) l : i ∉ l -> remove_id i l = l.
Proof.
  unfold remove_id. induction l as [|x l IH]; intros Hi; [done|].
  rewrite not_elem_of_cons in Hi. destruct Hi. rewrite filter_cons_True by done. by rewrite IH.
Qed.

Lemma remove_id_at (i : Z) a b : i ∉ a ++ b -> remove_id i (a ++ i :: b) = a ++ b.
Proof.
  rewrite not_elem_of_app. intros [Ha Hb]. unfold remove_id.
  rewrite filter_app, filter_cons_False by naive_solver. fold (remove_id i a) (remove_id i b).
  by rewrite !remove_id_absent.
Qed.

Lemma remove_id_perm (i : Z) l k :
  NoDup l -> l ≡ₚ i :: k -> remove_id i l ≡ₚ k.
Proof.
  intros Hn Hl. unfold remove_id. rewrite Hl in Hn |- *. apply NoDup_cons in Hn as [Hi _].
  rewrite filter_cons_False by naive_solver. fold (remove_id i k). by rewrite remove_id_absent.
Qed.

Lemma holes_in_by_size m hs i :
  holes_ok m hs -> i ∈ hs ->
  exists a b, inorder (rb_root (holes_size m)) = a ++ i :: b
    /\ NoDup (inorder (rb_root (holes_size m))).
Proof.
  intros [] Hi. rewrite <- ho_size0 in Hi. apply list_elem_of_split in Hi as (a & b & E).
  exists a, b. split; [done|]. by rewrite ho_size0.
Qed.

(** ** Removing a hole *)

Lemma rm_hole_fields i m :
  node_list (rm_hole i m) = node_list m /\ interval_tree (rm_hole i m) = interval_tree m
  /\ subtree_last (rm_hole i m) = subtree_last m /\ scan_active (rm_hole i m) = scan_active m.
Proof.
  unfold rm_hole, set_hole, set_by_addr, upd. cbn. done.
Qed.

Lemma rm_hole_node i m j :
  node (rm_hole i m) j = if decide (j = i) then with_hole 0 (node m i) else node m j.
Proof. exact (node_upd (with_hole 0) i m j). Qed.

Lemma rm_hole_ok i m a b : holes_ok m (a ++ i :: b) -> holes_ok (rm_hole i m) (a ++ b).
Proof.
  intros Hok. destruct (holes_in_by_size m _ i Hok) as (sa & sb & Es & Ns); [set_solver|].
  destruct Hok as [N1 P1 A1 G1 P2 S1 L1 O1 S2].
  apply NoDup_delete in N1 as [N1 Ni]. rewrite not_elem_of_app in Ni. destruct Ni as [Na Nb].
  assert (Hne : forall j, j ∈ a ++ b -> HOLE_SIZE (rm_hole i m) j = HOLE_SIZE m j
                                   /\ hns (rm_hole i m) j = hns m j).
  { intros j Hj. unfold HOLE_SIZE, hole_node_start. rewrite rm_hole_node.
    case_decide; [set_solver|done]. }
  pose proof (erase_augmented_ok (HOLE_SIZE m) i (subtree_max_hole m) (holes_addr m) a b) as Ea.
  rewrite A1 in Ea. specialize (Ea ltac:(by apply NoDup_insert; [|set_solver]) eq_refl G1).
  assert (Er : inorder (rb_erase i (rb_root (holes_size m))) = sa ++ sb)
    by (by apply erase_inorder).
  assert (Pr : sa ++ sb ≡ₚ a ++ b).
  { rewrite Es in P2. rewrite <- !Permutation_middle in P2. by apply Permutation_cons_inv in P2. }
  unfold rm_hole in *. cbn [hole_stack holes_addr subtree_max_hole holes_size set_stack set_by_size
    set_by_addr set_hole upd rb_root rb_leftmost rb_erase_cached] in *.
  destruct (rb_erase_augmented _ i (subtree_max_hole m, holes_addr m)) as [c t] eqn:E.
  destruct Ea as [Et Gt].
  assert (HF : Forall (fun j => HOLE_SIZE m j = HOLE_SIZE m j) (a ++ b)) by (by apply Forall_true).
  split.
  - exact N1.
  - apply remove_id_perm; rewrite P1; [|by rewrite <- Permutation_middle].
    apply NoDup_insert; set_solver.
  - exact Et.
  - eapply aug_ok_ext; [|exact Gt]. cbn [set_hole set_by_addr holes_addr upd subtree_max_hole snd].
    rewrite Et. intros j Hj. apply list_elem_of_In in Hj. split; [by destruct (Hne j Hj)|].
    symmetry. apply lookup_total_insert_ne. set_solver.
  - cbn. by rewrite Er.
  - cbn [holes_size set_hole set_by_addr upd set_by_size rb_erase_cached rb_root]. rewrite Er.
    rewrite Es in S1. apply StronglySorted_delete in S1. eapply StronglySorted_ext; [|exact S1].
    intros x y Hx Hy. rewrite Pr in Hx, Hy.
    destruct (Hne x Hx) as [-> _]. by destruct (Hne y Hy) as [-> _].
  - cbn [holes_size set_hole set_by_addr upd set_by_size rb_erase_cached rb_root rb_leftmost].
    rewrite Er. unfold is_leftmost. rewrite L1, Es. rewrite Es in Ns.
    destruct sa as [|x sa]; cbn.
    + rewrite Z.eqb_refl. rewrite (next_inorder i _ [] sb) by (by rewrite Es). done.
    + destruct (Z.eqb_spec x i) as [->|]; [|done]. exfalso.
      apply NoDup_cons in Ns as [Ns _]. set_solver.
  - rewrite Forall_forall in O1 |- *. intros j Hj. destruct (Hne j Hj) as [-> _].
    apply O1. set_solver.
  - apply StronglySorted_delete in S2. eapply StronglySorted_ext; [|exact S2].
    intros x y Hx Hy. destruct (Hne x Hx) as [_ ->]. by destruct (Hne y Hy) as [_ ->].
Qed.

(** ** Adding a hole *)

Lemma add_hole_fields i m :
  node_list (add_hole i m) = node_list m /\ interval_tree (add_hole i m) = interval_tree m
  /\ subtree_last (add_hole i m) = subtree_last m /\ scan_active (add_hole i m) = scan_active m.
Proof. done. Qed.

Lemma add_hole_node i m j :
  node (add_hole i m) j
  = if decide (j = i) then with_hole (u64 (hole_node_end m i - hns m i)) (node m i) else node m j.
Proof. exact (node_upd (with_hole _) i m j). Qed.

Lemma add_hole_ok i m a b :
  holes_ok m (a ++ b) -> i ∉ a ++ b ->
  0 < u64 (hole_node_end m i - hns m i) ->
  Forall (fun j => hns m j < hns m i) a -> Forall (fun j => hns m i < hns m j) b ->
  holes_ok (add_hole i m) (a ++ i :: b).
Proof.
  intros [N1 P1 A1 G1 P2 S1 L1 O1 S2] Hi Hpos Ha Hb.
  set (h := u64 (hole_node_end m i - hns m i)) in *.
  set (m1 := set_hole i h m).
  assert (Hnode : forall j, node m1 j = if decide (j = i) then with_hole h (node m i) else node m j)
    by (intros j; exact (node_upd (with_hole h) i m j)).
  assert (Hhns : forall j, hns m1 j = hns m j).
  { intros j. unfold hole_node_start. rewrite Hnode. by case_decide; subst. }
  assert (Hsz : forall j, HOLE_SIZE m1 j = if decide (j = i) then h else HOLE_SIZE m j).
  { intros j. unfold HOLE_SIZE. rewrite Hnode. by case_decide. }
  assert (Hne : forall j, j ∈ a ++ b -> HOLE_SIZE m1 j = HOLE_SIZE m j).
  { intros j Hj. rewrite Hsz. case_decide; [set_solver|done]. }
  assert (Hii : HOLE_SIZE m1 i = h) by (rewrite Hsz; by case_decide).
  assert (Hc : subtree_max_hole m1 !!! i = h) by apply lookup_total_insert_eq.
  (* the tree by size *)
  destruct (monotone_split (fun x => HOLE_SIZE m1 x <? HOLE_SIZE m1 i)
    (inorder (rb_root (holes_size m)))) as (sa & sb & Es & Hsa & Hsb).
  { eapply StronglySorted_ext; [|exact S1]. intros x y Hx Hy. cbn beta.
    rewrite P2 in Hx, Hy. rewrite (Hne x), (Hne y), !Z.ltb_lt by done. lia. }
  assert (Ls : inorder (link (fun x => HOLE_SIZE m1 x <? HOLE_SIZE m1 i) i (rb_root (holes_size m)))
    = sa ++ i :: sb) by (by apply link_inorder).
  assert (Lf := only_left_spec (fun x => HOLE_SIZE m1 x <? HOLE_SIZE m1 i)
    (rb_root (holes_size m)) sa sb Es Hsa Hsb).
  (* the tree by address *)
  set (gl := fun x => hns m1 i <? hns m1 x).
  assert (La : inorder (link gl i (holes_addr m)) = a ++ i :: b).
  { apply link_inorder; [done|..]; (eapply Forall_impl; [first [exact Ha|exact Hb]|]);
      intros x Hx; cbn beta in *; unfold gl; rewrite !Hhns; [apply Z.ltb_ge|apply Z.ltb_lt]; lia. }
  assert (Ga : aug_ok (HOLE_SIZE m1) (raise_path gl h (subtree_max_hole m1) (holes_addr m))
    (link gl i (holes_addr m))).
  { rewrite <- Hii. apply link_aug_ok; rewrite ?A1, ?Hii; [done|by rewrite <- list_elem_of_In|lia|done|].
    eapply aug_ok_ext; [|exact G1]. rewrite A1. intros x Hx. apply list_elem_of_In in Hx.
    split; [by rewrite Hne|]. symmetry. apply lookup_total_insert_ne. set_solver. }
  pose proof (insert_augmented_ok (HOLE_SIZE m1) i
    (raise_path gl h (subtree_max_hole m1) (holes_addr m)) (link gl i (holes_addr m)) Ga) as Ei.
  unfold add_hole. fold h. fold m1. unfold insert_hole_addr, insert_hole_size.
  cbn [holes_size holes_addr subtree_max_hole set_by_size].
  change (subtree_max_hole (set_hole i h m)) with (subtree_max_hole m1). rewrite Hc.
  change (HOLE_SIZE (set_by_size _ m1)) with (HOLE_SIZE m1).
  change (fun x => hns (set_by_size ?t m1) i <? hns (set_by_size ?t m1) x) with gl.
  destruct (rb_insert_augmented _ i _) as [c t] eqn:Et. destruct Ei as [Et1 Et2].
  change (rb_root (holes_size m1)) with (rb_root (holes_size m)). rewrite Lf.
  assert (Pm : a ++ i :: b ≡ₚ i :: (a ++ b)) by (by rewrite <- Permutation_middle).
  match goal with |- holes_ok ?m' _ => set (m2 := m') end.
  assert (E1 : forall j, HOLE_SIZE m2 j = HOLE_SIZE m1 j) by done.
  assert (E2 : forall j, hns m2 j = hns m j) by (intros j; exact (Hhns j)).
  assert (Ir : inorder (rb_root (holes_size m2)) = sa ++ i :: sb).
  { cbn [holes_size rb_root m2 set_stack set_by_addr set_by_size rb_insert_color_cached].
    by rewrite insert_color_inorder. }
  split.
  - by apply NoDup_insert.
  - rewrite Pm, <- P1. done.
  - exact (eq_trans Et1 La).
  - exact Et2.
  - rewrite Ir, Pm, <- P2, Es. by rewrite <- Permutation_middle.
  - rewrite Ir. rewrite Es in S1, P2. apply StronglySorted_insert.
    + eapply StronglySorted_ext; [|exact S1]. intros x y Hx Hy. rewrite !E1.
      rewrite P2 in Hx, Hy. by rewrite !Hne.
    + eapply Forall_impl; [exact Hsa|]. intros x Hx. rewrite !E1. by apply Z.ltb_ge in Hx.
    + eapply Forall_impl; [exact Hsb|]. intros x Hx. rewrite !E1. apply Z.ltb_lt in Hx. lia.
  - rewrite Ir. cbn [holes_size m2 set_stack set_by_addr set_by_size rb_insert_color_cached
      rb_leftmost]. change (rb_leftmost (holes_size m1)) with (rb_leftmost (holes_size m)).
    rewrite L1, Es. by destruct sa.
  - rewrite Forall_forall in O1 |- *. intros j Hj. rewrite E1. rewrite Pm in Hj.
    apply elem_of_cons in Hj as [->|Hj]; [lia|]. rewrite Hne by done. by apply O1.
  - apply StronglySorted_insert.
    + eapply StronglySorted_ext; [|exact S2]. intros x y _ _. by rewrite !E2.
    + eapply Forall_impl; [exact Ha|]. intros x Hx. by rewrite !E2.
    + eapply Forall_impl; [exact Hb|]. intros x Hx. by rewrite !E2.
Qed.

(** ** The interval tree *)

Record nodes_ok (m : drm_mm) (l : list Z) : Prop := {
  no_nodup : NoDup l;
  no_inorder : inorder (rb_root (interval_tree m)) = l;
  no_aug : aug_ok (LAST m) (subtree_last m) (rb_root (interval_tree m));
  no_left : rb_leftmost (interval_tree m) = head l;
  no_sorted : StronglySorted (fun i j => start (node m i) < start (node m j)) l
}.

Lemma nodes_ok_ext m m' l :
  interval_tree m' = interval_tree m -> subtree_last m' = subtree_last m ->
  (forall i, In i l -> start (node m' i) = start (node m i) /\ LAST m' i = LAST m i) ->
  nodes_ok m l -> nodes_ok m' l.
Proof.
  intros E1 E2 E3 [N1 I1 A1 L1 S1]. split; rewrite ?E1, ?E2; try done.
  - eapply aug_ok_ext; [|exact A1]. rewrite I1. intros i Hi. split; [|done].
    symmetry. by apply E3.
  - eapply StronglySorted_ext; [|exact S1]. intros i j Hi Hj.
    destruct (E3 i) as [-> _]; [by apply list_elem_of_In|].
    destruct (E3 j) as [-> _]; [by apply list_elem_of_In|]. done.
Qed.

Lemma interval_remove_ok i m a b :
  nodes_ok m (a ++ i :: b) -> nodes_ok (drm_mm_interval_tree_remove i m) (a ++ b).
Proof.
  intros [N1 I1 A1 L1 S1]. unfold drm_mm_interval_tree_remove, rb_erase_augmented_cached.
  cbn [fst snd].
  pose proof (erase_augmented_ok (LAST m) i (subtree_last m) (rb_root (interval_tree m)) a b)
    as Ea. rewrite I1 in Ea. specialize (Ea N1 eq_refl A1).
  destruct (rb_erase_augmented _ i _) as [c t] eqn:E. destruct Ea as [Et At].
  split; cbn [interval_tree set_interval snd rb_root rb_leftmost subtree_last fst].
  - by apply NoDup_delete in N1 as [? _].
  - exact Et.
  - exact At.
  - unfold is_leftmost. rewrite L1. destruct a as [|x a]; cbn.
    + rewrite Z.eqb_refl. rewrite (next_inorder i _ [] b) by (by rewrite I1). done.
    + destruct (Z.eqb_spec x i) as [->|]; [|done]. exfalso.
      cbn in N1. apply NoDup_cons in N1 as [N1 _]. set_solver.
  - by apply StronglySorted_delete in S1.
Qed.

Lemma raise_parents_other v p y : forall c,
  y ∉ before p ++ after p -> raise_parents v c p !!! y = c !!! y.
Proof.
  induction p as [|[x s|s x] p IH]; intros c Hy; cbn in *; [done|..];
    (destruct (_ <=? _); [done|]); rewrite IH by set_solver;
    apply lookup_total_insert_ne; set_solver.
Qed.

(** The walk to the root accounts for a value [v] added below. *)
Lemma raise_parents_ok val v p : forall c m,
  NoDup (before p ++ after p) -> path_ok val c p m ->
  path_ok val (raise_parents v c p) p (Z.max m v).
Proof.
  assert (Step : forall x s p c m,
    (forall c m, NoDup (before p ++ after p) -> path_ok val c p m ->
       path_ok val (raise_parents v c p) p (Z.max m v)) ->
    NoDup (before p ++ after p) -> x ∉ before p ++ after p -> x ∉ inorder s ->
    (forall y, y ∈ inorder s -> y ∉ before p ++ after p) ->
    c !!! x = Z.max (val x) (Z.max m (tmax val s)) -> aug_ok val c s -> path_ok val c p (c !!! x) ->
    let c' := if v <=? c !!! x then c else raise_parents v (<[x:=v]> c) p in
    c' !!! x = Z.max (val x) (Z.max (Z.max m v) (tmax val s)) /\ aug_ok val c' s
    /\ path_ok val c' p (c' !!! x)).
  { intros x s q c m IH Hn Hx Hxs Hs E Hok Hp. cbn zeta.
    destruct (Z.leb_spec v (c !!! x)); [split; [lia|done]|].
    assert (Ex : raise_parents v (<[x:=v]> c) q !!! x = v).
    { rewrite raise_parents_other by done. apply lookup_total_insert_eq. }
    rewrite Ex. split; [lia|]. split.
    - eapply aug_ok_ext; [|exact Hok]. intros y Hy. apply list_elem_of_In in Hy.
      split; [done|]. rewrite raise_parents_other by auto.
      symmetry. apply lookup_total_insert_ne. by intros ->.
    - pose proof (IH (<[x:=v]> c) (c !!! x) Hn) as G. rewrite Z.max_r in G by lia. apply G.
      eapply path_ok_ext; [|exact Hp]. intros y Hy. apply lookup_total_insert_ne. by intros ->. }
  induction p as [|[x s|s x] p IH]; intros c m Hn; cbn in *; [done|..].
  - intros (E & Hok & Hp). rewrite <- Permutation_middle in Hn.
    apply NoDup_cons in Hn as [Hx Hn]. rewrite (app_assoc (before p)), (Permutation_app_comm (before p)),
      <- app_assoc in Hn. apply NoDup_app in Hn as (Ns & Hd & Hn).
    apply Step; try done; set_solver.
  - intros (E & Hok & Hp). rewrite <- !app_assoc in Hn. cbn in Hn.
    rewrite (app_assoc (before p)), (Permutation_app_comm (before p)) in Hn.
    rewrite <- app_assoc in Hn. apply NoDup_app in Hn as (Ns & Hd & Hn).
    rewrite <- Permutation_middle in Hn. apply NoDup_cons in Hn as [Hx Hn].
    apply Step; try done; set_solver.
Qed.

(** Linking a node right after an allocated one. *)
Lemma interval_link_ok val i h l r p c gl :
  let t := plug p (Node l h r) in
  NoDup (inorder t) -> i ∉ inorder t -> 0 <= val i -> c !!! i = val i -> aug_ok val c t ->
  let c1 := raise_parents (val i) c (InRight l h :: p) in
  aug_ok val (raise_path gl (val i) c1 r) (plug p (Node l h (link gl i r))).
Proof.
  intros t Hn Hi Hv Hc Hok c1. subst t.
  change (plug p (Node l h r)) with (plug (InRight l h :: p) r) in *.
  change (plug p (Node l h (link gl i r))) with (plug (InRight l h :: p) (link gl i r)).
  set (q := InRight l h :: p) in *. clearbody q.
  rewrite inorder_plug in Hn, Hi. rewrite (Permutation_app_comm (before q)) in Hn.
  rewrite <- app_assoc in Hn. apply NoDup_app in Hn as (Nr & Hd & Nq).
  rewrite (Permutation_app_comm (after q)) in Nq.
  apply aug_plug in Hok as [Hr Hq]. apply aug_plug.
  assert (Ec : forall y, y ∈ inorder r \/ y = i -> c1 !!! y = c !!! y).
  { intros y Hy. apply raise_parents_other. set_solver. }
  split.
  - apply link_aug_ok; [done|rewrite <- list_elem_of_In; set_solver|done|by rewrite Ec by auto|].
    eapply aug_ok_ext; [|exact Hr]. intros y Hy. apply list_elem_of_In in Hy.
    split; [done|]. symmetry. apply Ec. by left.
  - rewrite tmax_link, Z.max_comm by done. eapply path_ok_ext; [|by apply raise_parents_ok].
    intros y Hy. apply raise_path_other. rewrite <- list_elem_of_In. set_solver.
Qed.

Lemma LAST_nonneg m i : 0 <= LAST m i.
Proof. unfold LAST. apply wrapU_range. lia. Qed.

(** The rebalancing after a link. *)
Lemma interval_finish i m c t leftmost a b :
  NoDup (a ++ b) -> i ∉ a ++ b ->
  inorder t = a ++ i :: b -> aug_ok (LAST m) c t -> leftmost = bool_decide (a = []) ->
  rb_leftmost (interval_tree m) = head (a ++ b) ->
  StronglySorted (fun i j => start (node m i) < start (node m j)) (a ++ i :: b) ->
  nodes_ok (set_interval (rb_insert_augmented_cached (LAST m) i
    (c, Cached t (rb_leftmost (interval_tree m))) leftmost) m) (a ++ i :: b).
Proof.
  intros Hn Hi Et At -> El Hs. unfold rb_insert_augmented_cached. cbn [fst snd rb_root rb_leftmost].
  pose proof (insert_augmented_ok (LAST m) i c t At) as Ei.
  destruct (rb_insert_augmented _ i _) as [c' t']. destruct Ei as [Et' At'].
  split; cbn [interval_tree set_interval snd rb_root rb_leftmost subtree_last fst].
  - by apply NoDup_insert.
  - by rewrite Et'.
  - exact At'.
  - rewrite El. by destruct a.
  - exact Hs.
Qed.

Lemma interval_add_ok hole i m a b :
  nodes_ok m (a ++ b) -> i ∉ a ++ b ->
  (if drm_mm_node_allocated m hole then exists a', a = a' ++ [hole] else a = []) ->
  Forall (fun j => start (node m j) < start (node m i)) a ->
  Forall (fun j => start (node m i) < start (node m j)) b ->
  exists s, drm_mm_interval_tree_add_node hole i m = Some (set_interval s m)
    /\ nodes_ok (set_interval s m) (a ++ i :: b).
Proof.
  intros [N1 I1 A1 L1 S1] Hi Hh Ha Hb.
  set (gl := fun x => start (node m i) <? start (node m x)).
  assert (Hs : StronglySorted (fun i j => start (node m i) < start (node m j)) (a ++ i :: b))
    by (by apply StronglySorted_insert).
  assert (Gb : Forall (fun x => gl x = true) b).
  { eapply Forall_impl; [exact Hb|]. intros x Hx. by apply Z.ltb_lt. }
  set (c0 := <[i := LAST m i]> (subtree_last m)).
  assert (A0 : aug_ok (LAST m) c0 (rb_root (interval_tree m))).
  { eapply aug_ok_ext; [|exact A1]. rewrite I1. intros x Hx. apply list_elem_of_In in Hx.
    split; [done|]. symmetry. apply lookup_total_insert_ne. set_solver. }
  assert (C0 : c0 !!! i = LAST m i) by apply lookup_total_insert_eq.
  unfold drm_mm_interval_tree_add_node. fold c0 gl.
  destruct (drm_mm_node_allocated m hole).
  - destruct Hh as [a' ->].
    destruct (locate_spec hole (rb_root (interval_tree m))) as (p & l & r & E & Ei).
    { rewrite I1. apply list_elem_of_In. set_solver. }
    rewrite E. cbn [mbind option_bind].
    destruct (locate_plug _ _ _ _ _ E) as [Ep _]. cbn in Ep.
    assert (Es : before p ++ inorder l = a' /\ inorder r ++ after p = b).
    { rewrite I1, <- app_assoc in Ei. rewrite <- app_assoc in N1. cbn in Ei, N1.
      destruct (NoDup_split_unique hole _ _ _ _ Ei N1) as [-> ->]. done. }
    destruct Es as [E1 E2].
    change (if LAST m i <=? c0 !!! hole then c0
            else raise_parents (LAST m i) (<[hole := LAST m i]> c0) p)
      with (raise_parents (LAST m i) c0 (InRight l hole :: p)).
    eexists. split; [reflexivity|]. apply interval_finish; try done.
    + change (plug p (Node l hole (link gl i r))) with (plug (InRight l hole :: p) (link gl i r)).
      rewrite inorder_plug. cbn [before after].
      rewrite <- E2 in Gb. apply Forall_app in Gb as [Gr _].
      rewrite (link_inorder gl i r [] (inorder r)) by done.
      rewrite <- E1, <- E2, <- !app_assoc. done.
    + apply interval_link_ok; rewrite ?Ep; try done; [by rewrite I1|by rewrite I1|apply LAST_nonneg].
    + symmetry. apply bool_decide_eq_false. by destruct a'.
  - subst a. cbn [mbind option_bind]. eexists. split; [reflexivity|].
    apply interval_finish; try done.
    + by apply link_inorder.
    + apply (link_aug_ok (LAST m)); rewrite ?I1; try done; [|apply LAST_nonneg].
      by rewrite <- list_elem_of_In.
    + by apply (only_left_spec gl _ [] b).
Qed.
End inv.
