(* ===== verification/DrmMmOps.v ===== *)
(** * The range allocator: its operations keep the invariant

    [mm_inv S E m]: the nodes of [m] tile the range from [S] to [E] with the holes
    between them, and every structure of the allocator says so.  Initialising an
    allocator establishes it; occupying a part of a hole and removing a node keep it. *)

From stdpp Require Import base numbers list option gmap sorting.
From Stdlib Require Import ZArith Lia Bool.
From S2P Require Import Prelude RbTree DrmMm DrmMmInv.
#[local] Open Scope Z_scope.

Abbreviation hns := hole_node_start.

(** The circular list, from the head on. *)
Definition ring (m : drm_mm) : list Z := 0 :: node_list m.

(** Where the node after a part of the ring starts; [E] is where the head does. *)
Definition nxt (m : drm_mm) (E : Z) (b : list Z) : Z :=
  match b with [] => E | j :: _ => start (node m j) end.

(** Each hole is the gap to the next node. *)
Fixpoint tiles (m : drm_mm) (E : Z) (ids : list Z) : Prop :=
  match ids with
  | [] => True
  | i :: rest =>
    hns m i <= nxt m E rest /\ HOLE_SIZE m i = nxt m E rest - hns m i /\ tiles m E rest
  end.

Record node_in (E : Z) (n : drm_mm_node) : Prop := {
  in_size : 0 < size n;
  in_start : 0 <= start n;
  in_end : start n + size n <= E;
  in_alloc : allocated n = true
}.

(** The identifiers of the holes in address order. *)
Definition holes (m : drm_mm) : list Z := filter (fun i => 0 < HOLE_SIZE m i) (ring m).

Record mm_inv (S E : Z) (m : drm_mm) : Prop := {
  iv_bounds : 0 <= S < E /\ E < 2 ^ 64;
  iv_head : start (node m 0) = E /\ hns m 0 = S /\ allocated (node m 0) = false;
  iv_zero : 0 ∉ node_list m;
  iv_node : Forall (fun i => node_in E (node m i)) (node_list m);
  iv_tiles : tiles m E (ring m);
  iv_holes : holes_ok m (holes m);
  iv_nodes : nodes_ok m (node_list m)
}.

(** ** Lists *)

Lemma succ_of_split i l a b :
  NoDup l -> l = a ++ i :: b -> succ_of i l = Some (default 0 (head b)).
Proof.
  revert a. induction l as [|x l IH]; intros a Hn E; [by destruct a|]. cbn.
  apply NoDup_cons in Hn as [Hx Hn]. destruct a as [|y a]; injection E as -> E.
  - by rewrite Z.eqb_refl, E.
  - destruct (Z.eqb_spec y i) as [->|]; [set_solver|]. by apply (IH a).
Qed.

Lemma pred_of_split p i l a b :
  NoDup (p :: l) -> p :: l = a ++ i :: b -> i <> p ->
  exists a' q, a = a' ++ [q] /\ pred_of p i l = Some q.
Proof.
  revert p a. induction l as [|x l IH]; intros p a Hn E Hi.
  { by destruct a as [|? [|]]; simplify_eq/=. }
  destruct a as [|y a]; [by injection E|]. injection E as <- E. cbn.
  destruct (Z.eqb_spec x i) as [->|].
  - exists [], p. split; [|done]. destruct a as [|z a]; [done|]. exfalso.
    injection E as -> E. apply NoDup_cons in Hn as [_ Hn]. apply NoDup_cons in Hn as [Hn _].
    set_solver.
  - apply NoDup_cons in Hn as [_ Hn]. destruct (IH x a Hn E) as (a' & q & -> & ->); [done|].
    by exists (p :: a'), q.
Qed.

Lemma add_after_split h i l a b :
  h ∉ a -> l = a ++ h :: b -> add_after h i l = Some (a ++ h :: i :: b).
Proof.
  intros Ha ->. induction a as [|x a IH]; cbn.
  - by rewrite Z.eqb_refl.
  - destruct (Z.eqb_spec x h) as [->|]; [set_solver|]. rewrite IH by set_solver. done.
Qed.

Lemma list_next_split m i a b :
  NoDup (ring m) -> ring m = a ++ i :: b -> list_next m i = default 0 (head b).
Proof. intros Hn E. unfold list_next. fold (ring m). by rewrite (succ_of_split i (ring m) a b). Qed.

Lemma list_prev_split m p i a b :
  NoDup (ring m) -> ring m = a ++ p :: i :: b -> list_prev m i = p.
Proof.
  intros Hn E. assert (Hi : i <> 0).
  { intros ->. rewrite E in Hn. unfold ring in E. destruct a as [|y a]; injection E as <- E.
    - apply NoDup_cons in Hn as [Hn _]. set_solver.
    - cbn in Hn. apply NoDup_cons in Hn as [Hn _]. set_solver. }
  unfold list_prev. destruct (Z.eqb_spec i 0); [done|].
  destruct (pred_of_split 0 i (node_list m) (a ++ [p]) b Hn) as (a' & q & Eq & ->); [|done|].
  { fold (ring m). by rewrite E, <- app_assoc. }
  by apply app_inj_tail in Eq as [_ ->].
Qed.

Lemma list_add_split i h m a b :
  NoDup (ring m) -> ring m = a ++ h :: b ->
  exists l, list_add i h m = Some (set_list l m) /\ 0 :: l = a ++ h :: i :: b.
Proof.
  intros Hn E. unfold list_add. rewrite E in Hn. apply NoDup_app in Hn as (_ & Hd & _).
  assert (Ha : h ∉ a) by (intros Ha; apply (Hd h Ha); by left).
  unfold ring in E. destruct (Z.eqb_spec h 0) as [->|Hh].
  - destruct a as [|x a]; [|injection E as <- E; set_solver]. injection E as E.
    exists (i :: node_list m). by rewrite E.
  - destruct a as [|x a]; [by injection E|]. injection E as <- E.
    rewrite (add_after_split h i _ a b) by (done || set_solver).
    by exists (a ++ h :: i :: b).
Qed.

(** ** Tiling *)

Lemma tiles_app m E a b : tiles m E (a ++ b) <-> tiles m (nxt m E b) a /\ tiles m E b.
Proof.
  induction a as [|x a IH]; cbn; [tauto|]. rewrite IH.
  replace (nxt m E (a ++ b)) with (nxt m (nxt m E b) a) by (by destruct a). tauto.
Qed.

Lemma tiles_ext m m' E l :
  (forall i, i ∈ l -> start (node m' i) = start (node m i) /\ hns m' i = hns m i
                      /\ HOLE_SIZE m' i = HOLE_SIZE m i) ->
  tiles m E l -> tiles m' E l.
Proof.
  induction l as [|x l IH]; intros Hx; cbn; [done|]. intros (H1 & H2 & H3).
  destruct (Hx x) as (_ & -> & ->); [by left|].
  replace (nxt m' E l) with (nxt m E l).
  - split; [done|]. split; [done|]. apply IH; [|done]. intros i Hi. apply Hx. by right.
  - destruct l as [|y l]; [done|]. cbn. destruct (Hx y) as (-> & _); [|done]. right. by left.
Qed.

Lemma hns_node E m i : node_in E (node m i) -> E < 2 ^ 64 -> hns m i = start (node m i) + size (node m i).
Proof. intros [] HE. unfold hole_node_start. apply u64_small. unfold is_u. lia. Qed.

(** The ring is in order of the ends of its nodes. *)
Lemma hns_sorted m E x l :
  E < 2 ^ 64 -> Forall (fun i => node_in E (node m i)) l -> tiles m E (x :: l) ->
  StronglySorted (fun i j => hns m i < hns m j) (x :: l).
Proof.
  intros HE. revert x. induction l as [|y l IH]; intros x Hl Ht; [by repeat constructor|].
  apply Forall_cons_1 in Hl as [Hy Hl]. cbn [tiles nxt] in Ht. destruct Ht as (H1 & H2 & Ht).
  assert (Hs := IH y Hl Ht). constructor; [done|].
  assert (Hxy : hns m x < hns m y) by (rewrite (hns_node E m y) by done; destruct Hy; lia).
  constructor; [done|]. apply StronglySorted_cons in Hs as [Hs _].
  eapply Forall_impl; [exact Hs|]. cbn. lia.
Qed.

(** Nodes are in order and disjoint. *)
Lemma tiles_between m E x l i :
  E < 2 ^ 64 -> Forall (fun i => node_in E (node m i)) l -> tiles m E (x :: l) -> i ∈ l ->
  hns m x + HOLE_SIZE m x <= start (node m i).
Proof.
  intros HE. revert x. induction l as [|y l IH]; intros x Hl Ht Hi; [by apply not_elem_of_nil in Hi|].
  apply Forall_cons_1 in Hl as [Hy Hl]. cbn [tiles nxt] in Ht. destruct Ht as (H1 & H2 & Ht).
  apply elem_of_cons in Hi as [->|Hi]; [lia|]. specialize (IH y Hl Ht Hi).
  assert (0 <= HOLE_SIZE m y) by (cbn in Ht; lia).
  rewrite (hns_node E m y) in IH by done. destruct Hy. lia.
Qed.

(** ** Filtering the ring *)

Definition holes_of (m : drm_mm) (l : list Z) : list Z := filter (fun i => 0 < HOLE_SIZE m i) l.

Lemma holes_of_ext m m' l :
  (forall i, i ∈ l -> HOLE_SIZE m' i = HOLE_SIZE m i) -> holes_of m' l = holes_of m l.
Proof.
  unfold holes_of. induction l as [|x l IH]; intros Hl; [done|].
  rewrite !filter_cons, (Hl x) by (by left). rewrite IH; [done|].
  intros i Hi. apply Hl. by right.
Qed.

Lemma holes_of_app m a b : holes_of m (a ++ b) = holes_of m a ++ holes_of m b.
Proof. apply filter_app. Qed.

Lemma holes_of_cons m i l :
  holes_of m (i :: l) = (if 0 <? HOLE_SIZE m i then [i] else []) ++ holes_of m l.
Proof.
  unfold holes_of. rewrite filter_cons.
  case_decide; destruct (Z.ltb_spec 0 (HOLE_SIZE m i)); done || lia.
Qed.

Lemma elem_of_holes m l i : i ∈ holes_of m l -> i ∈ l.
Proof. unfold holes_of. rewrite list_elem_of_filter. tauto. Qed.

Lemma Forall_holes (P : Z -> Prop) m l : Forall P l -> Forall P (holes_of m l).
Proof.
  rewrite !Forall_forall. intros Hl i Hi. by apply Hl, (elem_of_holes m).
Qed.

Section ops.
Context `{RbTree} `{!RbTreeLaws}.

(** What no operation on the structures changes of a node. *)
Definition same_place (n n' : drm_mm_node) : Prop :=
  color n' = color n /\ start n' = start n /\ size n' = size n /\ allocated n' = allocated n
  /\ scanned n' = scanned n.

Lemma same_place_hns m m' i : same_place (node m i) (node m' i) -> hns m' i = hns m i.
Proof. intros (_ & Es & Ez & _). unfold hole_node_start. by rewrite Es, Ez. Qed.

(** Adding the hole after a node when there is one. *)
Lemma add_hole_if cond i m a b :
  holes_ok m (a ++ b) -> i ∉ a ++ b -> HOLE_SIZE m i = 0 ->
  0 <= hole_node_end m i - hns m i < 2 ^ 64 -> cond = (hns m i <? hole_node_end m i) ->
  Forall (fun j => hns m j < hns m i) a -> Forall (fun j => hns m i < hns m j) b ->
  let m' := if cond then add_hole i m else m in
  holes_ok m' (a ++ (if cond then [i] else []) ++ b)
  /\ HOLE_SIZE m' i = hole_node_end m i - hns m i
  /\ (forall j, j <> i -> node m' j = node m j) /\ same_place (node m i) (node m' i)
  /\ node_list m' = node_list m /\ interval_tree m' = interval_tree m
  /\ subtree_last m' = subtree_last m.
Proof.
  intros Hok Hi Hz Hg -> Ha Hb. cbn zeta.
  destruct (Z.ltb_spec (hns m i) (hole_node_end m i)) as [Hlt|Hge].
  - assert (Eu : u64 (hole_node_end m i - hns m i) = hole_node_end m i - hns m i)
      by (by apply u64_small).
    split; [apply add_hole_ok; try done; rewrite Eu; lia|].
    split; [unfold HOLE_SIZE; rewrite add_hole_node; case_decide; [exact Eu|done]|].
    split; [intros j Hj; rewrite add_hole_node; by case_decide|].
    split; [rewrite add_hole_node; case_decide; [done|done]|]. done.
  - split; [done|]. split; [lia|]. split; [done|]. split; [by repeat split|]. done.
Qed.

Lemma inv_ring_nodup S E m : mm_inv S E m -> NoDup (ring m).
Proof. intros []. constructor; [done|]. by destruct iv_nodes0. Qed.

Lemma inv_sorted S E m :
  mm_inv S E m -> StronglySorted (fun i j => hns m i < hns m j) (ring m).
Proof. intros [[_ ?] ? ? ? ? _ _]. by apply (hns_sorted m E 0 (node_list m)). Qed.

(** What the invariant says at a place of the ring. *)
Lemma inv_at S E m a h b :
  mm_inv S E m -> ring m = a ++ h :: b ->
  hns m h + HOLE_SIZE m h = nxt m E b /\ 0 <= HOLE_SIZE m h
  /\ S <= hns m h /\ nxt m E b <= E
  /\ tiles m (start (node m h)) a /\ tiles m E b.
Proof.
  intros I Er. assert (Ht := iv_tiles S E m I). rewrite Er, tiles_app in Ht.
  destruct Ht as [Ha Hb]. cbn [tiles nxt] in Ha, Hb. destruct Hb as (H1 & H2 & Hb).
  split; [lia|]. split; [lia|].
  assert (Hs := inv_sorted S E m I). rewrite Er in Hs.
  destruct I as [? (Eh & EH & _) ? In_ ? _ _]. split.
  - unfold ring in Er. destruct a as [|x a]; injection Er as Ex Er.
    + subst. lia.
    + subst x. cbn in Hs. apply StronglySorted_cons in Hs as [Hs _].
      rewrite Forall_forall in Hs. specialize (Hs h ltac:(set_solver)). lia.
  - split; [|split; [exact Ha|exact Hb]]. destruct b as [|j b]; [done|]. cbn.
    rewrite Forall_forall in In_. destruct (In_ j) as [? ? ? _]; [|lia].
    unfold ring in Er. destruct a as [|x a]; injection Er as Ex Er; rewrite Er; set_solver.
Qed.

(** Sorted conditions for a node between two parts of the ring. *)
Lemma around S E m a h b :
  mm_inv S E m -> ring m = a ++ h :: b ->
  Forall (fun j => hns m j < hns m h) (holes_of m a)
  /\ Forall (fun j => hns m h < hns m j) (holes_of m b)
  /\ Forall (fun j => nxt m E b < hns m j) (holes_of m b).
Proof.
  intros I Er. assert (Hs := inv_sorted S E m I). rewrite Er in Hs.
  apply StronglySorted_app in Hs as (H1 & _ & H2). apply StronglySorted_cons in H2 as [H2 H3].
  split; [|split].
  - apply Forall_holes, Forall_forall. intros j Hj. apply H1; [done|by left].
  - by apply Forall_holes.
  - destruct (inv_at S E m a h b I Er) as (_ & _ & _ & _ & _ & _).
    destruct I as [[_ HE] _ _ In_ _ _ _].
    apply Forall_holes, Forall_forall. intros j Hj. destruct b as [|x b]; [set_solver|]. cbn.
    assert (Hx : x ∈ node_list m).
    { unfold ring in Er. destruct a; injection Er as _ Er; rewrite Er; set_solver. }
    rewrite Forall_forall in In_. assert (Nx := In_ x Hx). assert (Ex := hns_node E m x Nx HE).
    destruct Nx. apply elem_of_cons in Hj as [->|Hj]; [lia|].
    apply StronglySorted_cons in H3 as [H3 _]. rewrite Forall_forall in H3. specialize (H3 j Hj). lia.
Qed.

Lemma in_l {A} (x : A) (a b : list A) : x ∈ a -> x ∈ a ++ b.
Proof. intros. apply elem_of_app. by left. Qed.
Lemma in_r {A} (x : A) (a b : list A) : x ∈ b -> x ∈ a ++ b.
Proof. intros. apply elem_of_app. by right. Qed.
Lemma in_at {A} (x : A) (a b : list A) : x ∈ a ++ x :: b.
Proof. apply in_r. by left. Qed.
Lemma in_skip {A} (x y : A) (a b : list A) : x ∈ a ++ b -> x ∈ a ++ y :: b.
Proof. rewrite !elem_of_app, elem_of_cons. tauto. Qed.
Lemma not_in {A} (x y : A) (l : list A) : x ∈ l -> y ∉ l -> x <> y.
Proof. by intros ? ? ->. Qed.

Section occupy.
Context (S E : Z) (m : drm_mm) (a b : list Z) (h i first last : Z).
Context (I : mm_inv S E m) (Er : ring m = a ++ h :: b) (Hi : i ∉ ring m).
Context (Hfirst : start (node m i) = first) (Hlast : first + size (node m i) = last).
Context (Hlt : first < last) (Hlo : hns m h <= first) (Hhi : last <= nxt m E b).
Context (Hhole : 0 < HOLE_SIZE m h).

(** The state after the links, before the holes are split. *)
Lemma occupy_linked :
  exists m3, (m' ← list_add i h (upd (with_allocated true) i m);
              m' ← drm_mm_interval_tree_add_node h i m';
              Some (upd (with_hole 0) i m')) = Some m3
  /\ ring m3 = a ++ h :: i :: b /\ nodes_ok m3 (node_list m3)
  /\ node m3 i = with_hole 0 (with_allocated true (node m i))
  /\ (forall j, j <> i -> node m3 j = node m j)
  /\ hole_stack m3 = hole_stack m /\ holes_addr m3 = holes_addr m
  /\ subtree_max_hole m3 = subtree_max_hole m /\ holes_size m3 = holes_size m.
Proof.
  set (m0 := upd (with_allocated true) i m).
  assert (N0 : forall j, node m0 j = if decide (j = i) then with_allocated true (node m i) else node m j)
    by (intros j; apply node_upd).
  destruct (list_add_split i h m0 a b) as (l & El & Il);
    [exact (inv_ring_nodup S E m I)|exact Er|].
  rewrite El. cbn [mbind option_bind]. set (m1 := set_list l m0).
  assert (Hi0 : i <> 0) by (intros ->; apply Hi; by left).
  assert (Nm : forall j, node m1 j = node m0 j) by done.
  assert (Hl0 : exists ia, node_list m = ia ++ b /\ l = ia ++ i :: b
    /\ (if drm_mm_node_allocated m1 h then exists a', ia = a' ++ [h] else ia = [])
    /\ Forall (fun j => start (node m j) < first) ia).
  { pose proof (inv_sorted S E m I) as Hs. destruct I as [[_ HE] (_ & _ & A0) Z0 In_ _ _ _].
    unfold drm_mm_node_allocated. rewrite Nm, N0.
    unfold ring in Er. destruct a as [|x a0]; [injection Er as <- Er'|injection Er as <- Er'].
    - injection Il as ->. exists []. case_decide; [done|]. by rewrite A0.
    - injection Il as ->. exists (a0 ++ [h]). rewrite <- !app_assoc. split; [done|]. split; [done|].
      rewrite Forall_forall in In_.
      case_decide; [subst; exfalso; apply Hi; unfold ring; rewrite Er'; set_solver|].
      assert (Ah : allocated (node m h) = true) by (apply In_; rewrite Er'; set_solver).
      rewrite Ah. split; [by exists a0|]. apply Forall_forall. intros j Hj.
      assert (Nj : node_in E (node m j)) by (apply In_; rewrite Er'; set_solver).
      assert (hns m j <= hns m h).
      { apply elem_of_app in Hj as [Hj|Hj%list_elem_of_singleton]; [|subst; lia].
        unfold ring in Hs. rewrite Er' in Hs.
        change (0 :: a0 ++ h :: b) with ((0 :: a0) ++ h :: b) in Hs.
        apply Z.lt_le_incl.
        exact (StronglySorted_app_1_elem_of _ _ _ j h Hs ltac:(set_solver) ltac:(by left)). }
      rewrite (hns_node E m j Nj HE) in *. destruct Nj. lia. }
  destruct Hl0 as (ia & E1 & -> & Hh & Hia).
  assert (Hb : Forall (fun j => first < start (node m j)) b).
  { pose proof (no_sorted _ _ (iv_nodes _ _ _ I)) as Hs. rewrite E1 in Hs.
    apply StronglySorted_app in Hs as (_ & _ & Hs). apply Forall_forall. intros j Hj.
    destruct b as [|x b']; [set_solver|]. cbn in Hhi. apply StronglySorted_cons in Hs as [Hs _].
    apply elem_of_cons in Hj as [->|Hj]; [lia|]. rewrite Forall_forall in Hs.
    specialize (Hs j Hj). cbn in Hs. lia. }
  assert (Hne : forall j, j ∈ ia ++ b -> j <> i).
  { intros j Hj ->. apply Hi. unfold ring. rewrite E1. by right. }
  assert (Hok1 : nodes_ok m1 (ia ++ b)).
  { rewrite <- E1. apply (nodes_ok_ext m m1); [done..| |exact (iv_nodes _ _ _ I)].
    rewrite E1. intros j Hj%list_elem_of_In. unfold LAST. rewrite Nm, N0.
    case_decide; [by destruct (Hne j)|done]. }
  destruct (interval_add_ok h i m1 ia b) as (s & Es & Hok2).
  - exact Hok1.
  - intros Hj. by apply (Hne i).
  - exact Hh.
  - rewrite Forall_forall in Hia |- *. intros j Hj. rewrite !Nm, !N0.
    rewrite decide_False by (apply Hne; set_solver). rewrite decide_True by done. cbn.
    specialize (Hia j Hj). lia.
  - rewrite Forall_forall in Hb |- *. intros j Hj. rewrite !Nm, !N0.
    rewrite decide_True by done. rewrite decide_False by (apply Hne; set_solver). cbn.
    specialize (Hb j Hj). lia.
  - rewrite Es. cbn [mbind option_bind]. set (m2 := set_interval s m1) in *.
    exists (upd (with_hole 0) i m2). split; [done|].
    assert (Nu : forall j, node (upd (with_hole 0) i m2) j
      = if decide (j = i) then with_hole 0 (node m2 i) else node m2 j) by (intros j; apply node_upd).
    assert (N2 : forall j, node m2 j = node m0 j) by done.
    split; [exact Il|]. split; [|split; [|split]].
    + apply (nodes_ok_ext m2); [done..| |exact Hok2]. intros j _. unfold LAST. rewrite Nu, !N2.
      case_decide; [by subst|done].
    + rewrite Nu, !N2, !N0. by repeat case_decide.
    + intros j Hj. rewrite Nu, !N2, !N0. by repeat case_decide.
    + done.
Qed.

(** Splitting the hole. *)
Lemma occupy_split m3 :
  ring m3 = a ++ h :: i :: b -> nodes_ok m3 (node_list m3) ->
  node m3 i = with_hole 0 (with_allocated true (node m i)) ->
  (forall j, j <> i -> node m3 j = node m j) ->
  hole_stack m3 = hole_stack m -> holes_addr m3 = holes_addr m ->
  subtree_max_hole m3 = subtree_max_hole m -> holes_size m3 = holes_size m ->
  let m4 := rm_hole h m3 in
  let m5 := if hns m h <? first then add_hole h m4 else m4 in
  let m6 := if last <? nxt m E b then add_hole i m5 else m5 in
  mm_inv S E m6 /\ ring m6 = a ++ h :: i :: b
  /\ same_place (with_allocated true (node m i)) (node m6 i)
  /\ (forall j, j <> i -> same_place (node m j) (node m6 j)).
Proof.
  intros R3 O3 Ni Nj Q1 Q2 Q3 Q4 m4 m5 m6.
  assert (Hn : NoDup (a ++ h :: i :: b)).
  { pose proof (inv_ring_nodup S E m I) as Hn. rewrite Er in *.
    change (a ++ h :: i :: b) with (a ++ [h] ++ i :: b). rewrite app_assoc.
    apply NoDup_insert; rewrite <- app_assoc; done. }
  destruct (inv_at S E m a h b I Er) as (Hend & _ & HS & HE & Hta & Htb).
  destruct (around S E m a h b I Er) as (Fa & Fb & Fn).
  assert (Hhi' : h <> i) by (intros ->; apply Hi; rewrite Er; set_solver).
  assert (Hia : i ∉ a ++ b) by (intros Hx; apply Hi; rewrite Er; set_solver).
  assert (Hha : h ∉ a ++ b).
  { pose proof (inv_ring_nodup S E m I) as Hd. rewrite Er in Hd. by apply NoDup_delete in Hd as [_ ?]. }
  (* rm_hole *)
  assert (H3 : holes_ok m3 (holes_of m a ++ h :: holes_of m b)).
  { apply (holes_ok_ext m m3); try done.
    - intros j Hj%list_elem_of_In. unfold HOLE_SIZE, hole_node_start. rewrite !Nj; [done|].
      intros ->. apply Hia. apply elem_of_app in Hj as [Hj|Hj].
      + apply elem_of_holes in Hj. set_solver.
      + apply elem_of_cons in Hj as [?|Hj]; [congruence|]. apply elem_of_holes in Hj. set_solver.
    - pose proof (iv_holes _ _ _ I) as Ho. unfold holes in Ho. fold (holes_of m (ring m)) in Ho.
      rewrite Er, holes_of_app, holes_of_cons in Ho.
      by rewrite (proj2 (Z.ltb_lt _ _) Hhole) in Ho. }
  assert (H4 := rm_hole_ok h m3 _ _ H3). fold m4 in H4.
  assert (N4 : forall j, node m4 j = if decide (j = h) then with_hole 0 (node m3 h) else node m3 j)
    by (intros j; apply rm_hole_node).
  assert (P4 : forall j, same_place (node m3 j) (node m4 j)).
  { intros j. rewrite N4. case_decide; [by subst|by repeat split]. }
  assert (R4 : ring m4 = a ++ h :: i :: b) by done.
  (* add_hole h *)
  assert (En4 : hole_node_end m4 h = first).
  { unfold hole_node_end. rewrite (list_next_split m4 h a (i :: b)) by (by rewrite R4).
    change (default 0 (head (i :: b))) with i.
    rewrite N4, decide_False, Ni by done. exact Hfirst. }
  assert (Es4 : forall j, j <> i -> hns m4 j = hns m j).
  { intros j Hj. rewrite (same_place_hns m3) by apply P4. unfold hole_node_start. by rewrite Nj. }
  assert (Ez4 : HOLE_SIZE m4 h = 0) by (unfold HOLE_SIZE; rewrite N4; by case_decide).
  assert (Hfa : holes_of m a = holes_of m4 a /\ holes_of m b = holes_of m4 b).
  { split; symmetry; apply holes_of_ext; intros j Hj; unfold HOLE_SIZE;
      rewrite N4, decide_False, Nj by set_solver; done. }
  destruct (add_hole_if (hns m h <? first) h m4 (holes_of m a) (holes_of m b))
    as (H5 & Z5 & N5 & P5 & L5 & T5 & S5).
  - exact H4.
  - intros Hx. apply Hha. apply elem_of_app in Hx as [Hx|Hx]; apply elem_of_holes in Hx; set_solver.
  - exact Ez4.
  - rewrite En4, Es4 by done. destruct (iv_bounds _ _ _ I). lia.
  - by rewrite En4, Es4.
  - rewrite Forall_forall in Fa |- *. intros j Hj. specialize (Fa j Hj).
    apply elem_of_holes in Hj. rewrite (Es4 h), (Es4 j) by (done || set_solver). done.
  - rewrite Forall_forall in Fb |- *. intros j Hj. specialize (Fb j Hj).
    apply elem_of_holes in Hj. rewrite (Es4 h), (Es4 j) by (done || set_solver). done.
  - fold m5 in H5, Z5, N5, P5, L5, T5, S5. rewrite En4, Es4 in Z5 by done.
    destruct (iv_bounds _ _ _ I) as [[HS0 HSE] HE64].
    assert (Hi0 : i <> 0) by (intros ->; apply Hi; by left).
    assert (P35 : forall j, same_place (node m3 j) (node m5 j)).
    { intros j. destruct (decide (j = h)) as [->|Hj].
      - destruct (P4 h) as (c1 & c2 & c3 & c4 & c5), P5 as (d1 & d2 & d3 & d4 & d5).
        repeat split; congruence.
      - rewrite N5 by done. apply P4. }
    assert (Pj5 : forall j, j <> i -> same_place (node m j) (node m5 j)).
    { intros j Hj. rewrite <- (Nj j) by done. apply P35. }
    assert (R5 : ring m5 = a ++ h :: i :: b) by (unfold ring in *; by rewrite L5).
    assert (Si5 : start (node m5 i) = first /\ size (node m5 i) = size (node m i)).
    { destruct (P35 i) as (_ & -> & -> & _). rewrite Ni. done. }
    assert (Hns5 : hns m5 i = last).
    { unfold hole_node_start. destruct Si5 as [-> ->]. rewrite Hlast. apply u64_small.
      unfold is_u. unfold hole_node_start in Hlo. pose proof (wrapU_range 64 (start (node m h) + size (node m h))).
      unfold is_u in *. lia. }
    assert (En5 : hole_node_end m5 i = nxt m E b).
    { unfold hole_node_end. rewrite (list_next_split m5 i (a ++ [h]) b).
      - destruct b as [|x b'].
        + destruct (Pj5 0) as (_ & Ex & _); [done|]. destruct (iv_head _ _ _ I) as [E0 _].
          exact (eq_trans Ex E0).
        + destruct (Pj5 x) as (_ & Ex & _); [set_solver|]. exact Ex.
      - by rewrite R5.
      - by rewrite R5, <- app_assoc. }
    assert (Ns5 : forall j, j <> i -> hns m5 j = hns m j).
    { intros j Hj. by apply same_place_hns, Pj5. }
    assert (Zi5 : HOLE_SIZE m5 i = 0).
    { unfold HOLE_SIZE. rewrite N5, N4, decide_False, Ni by done. done. }
    rewrite app_assoc in H5.
    destruct (add_hole_if (last <? nxt m E b) i m5
      (holes_of m a ++ (if hns m h <? first then [h] else [])) (holes_of m b))
      as (H6 & Z6 & N6 & P6 & L6 & T6 & S6).
    + exact H5.
    + intros Hx. rewrite !elem_of_app in Hx. destruct Hx as [[Hx|Hx]|Hx].
      * apply elem_of_holes in Hx. set_solver.
      * destruct (_ <? _); set_solver.
      * apply elem_of_holes in Hx. set_solver.
    + exact Zi5.
    + rewrite En5, Hns5. lia.
    + by rewrite En5, Hns5.
    + rewrite Hns5. apply Forall_app. split.
      * rewrite Forall_forall in Fa |- *. intros j Hj. specialize (Fa j Hj).
        apply elem_of_holes in Hj. rewrite Ns5 by set_solver. lia.
      * destruct (_ <? _); [|constructor]. constructor; [|constructor]. rewrite Ns5 by done. lia.
    + rewrite Hns5. rewrite Forall_forall in Fn |- *. intros j Hj. specialize (Fn j Hj).
      apply elem_of_holes in Hj. rewrite Ns5 by set_solver. lia.
    + fold m6 in H6, Z6, N6, P6, L6, T6, S6. rewrite En5, Hns5 in Z6.
      assert (P56 : forall j, same_place (node m5 j) (node m6 j)).
      { intros j. destruct (decide (j = i)) as [->|Hj]; [done|]. rewrite N6 by done. by repeat split. }
      assert (R6 : ring m6 = a ++ h :: i :: b) by (unfold ring in *; by rewrite L6).
      assert (Pi6 : same_place (with_allocated true (node m i)) (node m6 i)).
      { destruct (P35 i) as (c1&c2&c3&c4&c5), (P56 i) as (d1&d2&d3&d4&d5). rewrite Ni in *.
        repeat split; cbn in *; congruence. }
      assert (Pj6 : forall j, j <> i -> same_place (node m j) (node m6 j)).
      { intros j Hj. destruct (Pj5 j Hj) as (c1&c2&c3&c4&c5), (P56 j) as (d1&d2&d3&d4&d5).
        repeat split; congruence. }
      split; [|done].
      assert (Hns6 : forall j, j <> i -> hns m6 j = hns m j)
        by (intros j Hj; by apply same_place_hns, Pj6).
      assert (Hns6i : hns m6 i = last) by (rewrite <- Hns5; by apply same_place_hns).
      assert (Zj : forall j, j ∈ a ++ b -> HOLE_SIZE m6 j = HOLE_SIZE m j).
      { intros j Hj. assert (j <> i) by set_solver. assert (j <> h) by set_solver.
        unfold HOLE_SIZE. by rewrite N6, N5, N4, decide_False, Nj. }
      assert (Zh : HOLE_SIZE m6 h = first - hns m h) by (rewrite <- Z5; unfold HOLE_SIZE; by rewrite N6).
      assert (Ext : forall j, j ∈ a ++ b -> start (node m6 j) = start (node m j)
        /\ hns m6 j = hns m j /\ HOLE_SIZE m6 j = HOLE_SIZE m j).
      { intros j Hj. assert (j <> i) by set_solver.
        split; [by destruct (Pj6 j) as (_ & -> & _)|]. split; [by apply Hns6|by apply Zj]. }
      assert (En6 : nxt m6 E b = nxt m E b).
      { destruct b as [|x b']; [done|]. cbn. apply Ext, in_at. }
      assert (Hlist : forall j, j ∈ node_list m6 -> j = i \/ j ∈ node_list m).
      { intros j Hj. assert (Hr : j ∈ ring m6) by by right. rewrite R6 in Hr.
        destruct (decide (j = i)); [by left|right].
        assert (Hr' : j ∈ ring m) by (rewrite Er; set_solver).
        apply elem_of_cons in Hr' as [->|?]; [|done]. exfalso.
        assert (Hd : NoDup (ring m6)) by (by rewrite R6). by apply NoDup_cons in Hd as [? _]. }
      split.
      * done.
      * destruct (iv_head _ _ _ I) as (h1 & h2 & h3). destruct (Pj6 0) as (_ & e1 & _ & e2 & _); [done|].
        rewrite e1, e2, Hns6 by done. done.
      * assert (Hd : NoDup (ring m6)) by (by rewrite R6). by apply NoDup_cons in Hd as [? _].
      * rewrite Forall_forall. intros j Hj. destruct (Hlist j Hj) as [->|Hj'].
        -- destruct Pi6 as (_ & e1 & e2 & e3 & _). cbn in e1, e2, e3.
           split; rewrite ?e1, ?e2, ?e3; try done; rewrite ?Hfirst; lia.
        -- assert (j <> i) by (intros ->; apply Hi; by right).
           destruct (Pj6 j) as (_ & e1 & e2 & e3 & _); [done|].
           pose proof (iv_node _ _ _ I) as Hn'. rewrite Forall_forall in Hn'.
           destruct (Hn' j Hj'). split; rewrite ?e1, ?e2, ?e3; done.
      * rewrite R6. apply tiles_app. cbn [tiles nxt]. rewrite Zh, Z6, Hns6i, Hns6, En6 by done.
        destruct Pi6 as (_ & e1 & _). cbn in e1. rewrite e1, Hfirst.
        destruct (Pj6 h) as (_ & e2 & _); [done|]. rewrite e2.
        split; [|split; [done|split; [lia|split; [done|split; [lia|]]]]].
        -- apply (tiles_ext m); [|exact Hta]. intros j Hj. by apply Ext, in_l.
        -- apply (tiles_ext m); [|exact Htb]. intros j Hj. by apply Ext, in_r.
      * unfold holes. fold (holes_of m6 (ring m6)). rewrite R6, holes_of_app, !holes_of_cons.
        rewrite Zh, Z6. replace (0 <? first - hns m h) with (hns m h <? first) by (bdestr; done || lia).
        replace (0 <? nxt m E b - last) with (last <? nxt m E b) by (bdestr; done || lia).
        rewrite (holes_of_ext m m6 a), (holes_of_ext m m6 b); [|intros; by apply Zj, in_r|intros; by apply Zj, in_l].
        rewrite app_assoc. exact H6.
      * rewrite L6, L5. apply (nodes_ok_ext m3).
        -- by rewrite T6, T5.
        -- by rewrite S6, S5.
        -- intros j _. destruct (P35 j) as (_&c2&c3&_), (P56 j) as (_&d2&d3&_).
           unfold LAST. rewrite d2, d3, c2, c3. done.
        -- exact O3.
Qed.
End occupy.

(** Taking a part of a hole for a node. *)
Lemma occupy_ok S E m a b h i first last :
  mm_inv S E m -> ring m = a ++ h :: b -> i ∉ ring m ->
  start (node m i) = first -> first + size (node m i) = last -> first < last ->
  hns m h <= first -> last <= nxt m E b ->
  exists m', occupy h i (hns m h) (nxt m E b) first last m = Some m'
    /\ mm_inv S E m' /\ ring m' = a ++ h :: i :: b
    /\ same_place (with_allocated true (node m i)) (node m' i)
    /\ (forall j, j <> i -> same_place (node m j) (node m' j)).
Proof.
  intros I Er Hi Hf Hl Hlt Hlo Hhi.
  assert (Hh : 0 < HOLE_SIZE m h) by (destruct (inv_at S E m a h b I Er); lia).
  destruct (occupy_linked S E m a b h i first last I Er Hi Hf Hl Hlt Hlo Hhi Hh)
    as (m3 & E3 & R3 & O3 & Ni & Nj & Q1 & Q2 & Q3 & Q4).
  assert (Ho : occupy h i (hns m h) (nxt m E b) first last m
    = m' ← Some m3;
      (let m4 := rm_hole h m' in
       let m5 := if hns m h <? first then add_hole h m4 else m4 in
       Some (if last <? nxt m E b then add_hole i m5 else m5))).
  { rewrite <- E3. unfold occupy. destruct (list_add _ _ _) as [x|]; [|done]. cbn [mbind option_bind].
    by destruct (drm_mm_interval_tree_add_node h i x). }
  rewrite Ho. cbn [mbind option_bind]. eexists. split; [reflexivity|].
  by apply (occupy_split S E m a b h i first last I Er Hi Hf Hl Hlt Hlo Hhi Hh m3).
Qed.

(** ** Removing *)

Lemma rm_hole_if i m a b :
  HOLE_SIZE m i = 0 \/ 0 < HOLE_SIZE m i ->
  holes_ok m (a ++ (if 0 <? HOLE_SIZE m i then [i] else []) ++ b) ->
  let m' := if drm_mm_hole_follows m i then rm_hole i m else m in
  holes_ok m' (a ++ b) /\ HOLE_SIZE m' i = 0 /\ (forall j, j <> i -> node m' j = node m j)
  /\ same_place (node m i) (node m' i) /\ node_list m' = node_list m
  /\ interval_tree m' = interval_tree m /\ subtree_last m' = subtree_last m.
Proof.
  intros Hz Hok. unfold drm_mm_hole_follows. fold (HOLE_SIZE m i). cbn zeta.
  destruct Hz as [Hz|Hz].
  - rewrite Hz in *. cbn in *. split; [done|]. by repeat split.
  - destruct (Z.ltb_spec 0 (HOLE_SIZE m i)); [|lia].
    destruct (Z.eqb_spec (HOLE_SIZE m i) 0); [lia|]. cbn [negb].
    split; [by apply rm_hole_ok|]. unfold HOLE_SIZE. rewrite !rm_hole_node.
    split; [by case_decide|]. split; [intros j Hj; rewrite rm_hole_node; by case_decide|].
    split; [case_decide; [by repeat split|done]|]. done.
Qed.

Section remove.
Context (S E : Z) (m : drm_mm) (a b : list Z) (p i : Z).
Context (I : mm_inv S E m) (Er : ring m = a ++ p :: i :: b).

Lemma remove_holes :
  holes m = holes_of m a ++ (if 0 <? HOLE_SIZE m p then [p] else [])
            ++ (if 0 <? HOLE_SIZE m i then [i] else []) ++ holes_of m b.
Proof.
  unfold holes. fold (holes_of m (ring m)). by rewrite Er, holes_of_app, !holes_of_cons.
Qed.

Lemma ring_facts :
  NoDup (a ++ p :: i :: b) /\ p <> i /\ p ∉ a ++ b /\ i ∉ a ++ b /\ i <> 0
  /\ node_in E (node m i) /\ 0 <= HOLE_SIZE m i /\ 0 <= HOLE_SIZE m p.
Proof.
  pose proof (inv_ring_nodup S E m I) as Hn. rewrite Er in Hn.
  assert (Hn2 := Hn). apply NoDup_delete in Hn2 as [Hn2 Hp].
  change (a ++ p :: i :: b) with (a ++ [p] ++ i :: b) in Hn. rewrite app_assoc in Hn.
  assert (Hn3 := Hn). apply NoDup_delete in Hn3 as [_ Hi]. rewrite <- app_assoc in Hn. cbn in Hn.
  split; [done|]. split; [set_solver|]. split; [set_solver|]. split; [set_solver|].
  assert (Hi0 : i ∈ node_list m).
  { unfold ring in Er. destruct a as [|x a0]; injection Er as <- Er'; rewrite Er'; set_solver. }
  split; [intros ->; by apply (iv_zero _ _ _ I)|].
  split; [pose proof (iv_node _ _ _ I) as HF; rewrite Forall_forall in HF; by apply HF|].
  destruct (inv_at S E m a p (i :: b) I Er) as (_ & ? & _).
  destruct (inv_at S E m (a ++ [p]) i b I) as (_ & ? & _); [by rewrite <- app_assoc|]. done.
Qed.

Lemma remove_ok :
  let m' := drm_mm_remove_node i m in
  mm_inv S E m' /\ ring m' = a ++ p :: b
  /\ same_place (with_allocated false (node m i)) (node m' i)
  /\ (forall j, j <> i -> same_place (node m j) (node m' j)).
Proof.
  destruct ring_facts as (Hn & Hpi & Hp & Hi & Hi0 & Nin & Zi & Zp).
  destruct (inv_at S E m a p (i :: b) I Er) as (Hep & _ & HSp & _ & Hta & _).
  destruct (inv_at S E m (a ++ [p]) i b I) as (Hei & _ & _ & HbE & _ & Htb);
    [by rewrite <- app_assoc|].
  destruct (iv_bounds _ _ _ I) as [[HS0 HSE] HE64].
  assert (Hlen : hns m p < nxt m E b).
  { cbn [nxt] in Hep. rewrite (hns_node E m i Nin HE64) in Hei. destruct Nin. lia. }
  unfold drm_mm_remove_node.
  rewrite (list_prev_split m p i a b (inv_ring_nodup S E m I) Er).
  set (m1 := if drm_mm_hole_follows m i then rm_hole i m else m).
  destruct (rm_hole_if i m (holes_of m a ++ (if 0 <? HOLE_SIZE m p then [p] else [])) (holes_of m b))
    as (H1 & Z1 & N1 & P1 & L1 & T1 & S1).
  { lia. }
  { rewrite <- app_assoc, <- remove_holes. exact (iv_holes _ _ _ I). }
  fold m1 in H1, Z1, N1, P1, L1, T1, S1.
  assert (Hia : exists ia, node_list m = ia ++ i :: b /\ 0 :: ia ++ b = a ++ p :: b).
  { unfold ring in Er. destruct a as [|x a0]; injection Er as <- Er'.
    - by exists [].
    - exists (a0 ++ [p]). rewrite <- !app_assoc. done. }
  destruct Hia as (ia & El & Ra).
  assert (Pall1 : forall j, same_place (node m j) (node m1 j)).
  { intros j. destruct (decide (j = i)) as [->|]; [done|]. rewrite N1 by done. by repeat split. }
  assert (O1 : nodes_ok m1 (ia ++ i :: b)).
  { rewrite <- El. apply (nodes_ok_ext m); [done|done| |exact (iv_nodes _ _ _ I)].
    intros j _. destruct (Pall1 j) as (_ & e1 & e2 & _). unfold LAST. by rewrite e1, e2. }
  set (m2 := drm_mm_interval_tree_remove i m1).
  assert (O2 : nodes_ok m2 (ia ++ b)) by (by apply interval_remove_ok).
  assert (N2 : forall j, node m2 j = node m1 j)
    by (intros j; unfold m2, drm_mm_interval_tree_remove; by destruct (rb_erase_augmented_cached _ _ _)).
  assert (F2 : hole_stack m2 = hole_stack m1 /\ holes_addr m2 = holes_addr m1
    /\ subtree_max_hole m2 = subtree_max_hole m1 /\ holes_size m2 = holes_size m1
    /\ node_list m2 = node_list m1) by done.
  destruct F2 as (F21 & F22 & F23 & F24 & F25).
  set (m3 := list_del i m2).
  assert (L3 : node_list m3 = ia ++ b).
  { unfold m3, list_del. cbn [node_list set_list]. rewrite F25, L1, El. apply remove_id_at.
    pose proof (no_nodup _ _ O1) as Hd. by apply NoDup_delete in Hd as [_ ?]. }
  assert (N3 : forall j, node m3 j = node m1 j) by (intros j; exact (N2 j)).
  assert (H3 : holes_ok m3 (holes_of m a ++ (if 0 <? HOLE_SIZE m p then [p] else []) ++ holes_of m b)).
  { apply (holes_ok_ext m1); [done..| |by rewrite app_assoc].
    intros j _. unfold HOLE_SIZE, hole_node_start. by rewrite N3. }
  assert (Zp3 : HOLE_SIZE m3 p = HOLE_SIZE m p) by (unfold HOLE_SIZE; by rewrite N3, N1).
  set (m4 := if drm_mm_hole_follows m3 p then rm_hole p m3 else m3).
  destruct (rm_hole_if p m3 (holes_of m a) (holes_of m b)) as (H4 & Z4 & N4 & P4 & L4 & T4 & S4).
  { lia. }
  { by rewrite Zp3. }
  fold m4 in H4, Z4, N4, P4, L4, T4, S4.
  assert (Pall4 : forall j, same_place (node m j) (node m4 j)).
  { intros j. destruct (Pall1 j) as (c1&c2&c3&c4&c5). destruct (decide (j = p)) as [->|].
    - destruct P4 as (d1&d2&d3&d4&d5). rewrite N3 in *. repeat split; congruence.
    - rewrite N4, N3 by done. done. }
  assert (R4 : ring m4 = a ++ p :: b) by (unfold ring; by rewrite L4, L3).
  assert (Rn : NoDup (ring m4)).
  { rewrite R4. change (a ++ p :: i :: b) with (a ++ [p] ++ i :: b) in Hn. rewrite app_assoc in Hn.
    apply NoDup_delete in Hn as [Hn _]. by rewrite <- app_assoc in Hn. }
  assert (En4 : hole_node_end m4 p = nxt m E b).
  { unfold hole_node_end. rewrite (list_next_split m4 p a b Rn R4). destruct b as [|x b'].
    - destruct (Pall4 0) as (_ & Ex & _). destruct (iv_head _ _ _ I) as [E0 _].
      exact (eq_trans Ex E0).
    - destruct (Pall4 x) as (_ & Ex & _). exact Ex. }
  assert (Ns4 : forall j, hns m4 j = hns m j) by (intros j; by apply same_place_hns).
  set (m5 := add_hole p m4).
  destruct (around S E m a p (i :: b) I Er) as (Fa & Fb & _).
  assert (Eu : u64 (hole_node_end m4 p - hns m4 p) = nxt m E b - hns m p).
  { rewrite En4, Ns4. apply u64_small. unfold is_u. lia. }
  assert (Hb' : Forall (fun j => hns m p < hns m j) (holes_of m b)).
  { rewrite holes_of_cons in Fb. by apply Forall_app in Fb as [_ ?]. }
  assert (H5 : holes_ok m5 (holes_of m a ++ p :: holes_of m b)).
  { apply add_hole_ok.
    - exact H4.
    - intros Hx. apply Hp. apply elem_of_app in Hx as [Hx|Hx]; apply elem_of_holes in Hx; [by apply in_l|by apply in_r].
    - rewrite Eu. lia.
    - eapply Forall_impl; [exact Fa|]. intros j Hj. by rewrite !Ns4.
    - eapply Forall_impl; [exact Hb'|]. intros j Hj. by rewrite !Ns4. }
  assert (N5 : forall j, node m5 j = if decide (j = p) then with_hole (nxt m E b - hns m p) (node m4 p)
                                     else node m4 j).
  { intros j. unfold m5. rewrite add_hole_node, Eu. done. }
  set (m6 := upd (with_allocated false) i m5).
  assert (N6 : forall j, node m6 j = if decide (j = i) then with_allocated false (node m5 i) else node m5 j)
    by (intros j; apply node_upd).
  assert (Pj : forall j, j <> i -> same_place (node m j) (node m6 j)).
  { intros j Hj. rewrite N6, decide_False, N5 by done. destruct (Pall4 j) as (c1&c2&c3&c4&c5).
    case_decide; [subst; by repeat split|done]. }
  assert (Pi : same_place (with_allocated false (node m i)) (node m6 i)).
  { rewrite N6, decide_True, N5, decide_False by done. destruct (Pall4 i) as (c1&c2&c3&c4&c5).
    repeat split; cbn; congruence. }
  assert (R6 : ring m6 = a ++ p :: b) by exact R4.
  split; [|done].
  assert (Ns6 : forall j, j <> i -> hns m6 j = hns m j)
    by (intros j Hj; by apply same_place_hns, Pj).
  assert (Zj : forall j, j ∈ a ++ b -> HOLE_SIZE m6 j = HOLE_SIZE m j).
  { intros j Hj. assert (j <> i) by exact (not_in j i _ Hj Hi). assert (j <> p) by exact (not_in j p _ Hj Hp).
    unfold HOLE_SIZE. by rewrite N6, decide_False, N5, decide_False, N4, N3, N1. }
  assert (Zp6 : HOLE_SIZE m6 p = nxt m E b - hns m p).
  { unfold HOLE_SIZE. by rewrite N6, decide_False, N5, decide_True. }
  assert (Ext : forall j, j ∈ a ++ b -> start (node m6 j) = start (node m j)
    /\ hns m6 j = hns m j /\ HOLE_SIZE m6 j = HOLE_SIZE m j).
  { intros j Hj. assert (j <> i) by exact (not_in j i _ Hj Hi).
    split; [by destruct (Pj j) as (_ & -> & _)|]. split; [by apply Ns6|by apply Zj]. }
  assert (En6 : nxt m6 E b = nxt m E b).
  { destruct b as [|x b']; [done|]. cbn. apply Ext, in_at. }
  assert (L6 : node_list m6 = ia ++ b) by (change (node_list m6) with (node_list m4); by rewrite L4).
  split.
  - done.
  - destruct (iv_head _ _ _ I) as (h1 & h2 & h3). destruct (Pj 0) as (_ & e1 & _ & e2 & _); [done|].
    rewrite e1, e2, Ns6 by done. done.
  - assert (Hd : NoDup (ring m6)) by exact Rn. by apply NoDup_cons in Hd as [? _].
  - pose proof (iv_node _ _ _ I) as HF. rewrite El in HF. rewrite L6. rewrite Forall_forall in HF |- *.
    intros j Hj. assert (Hj' : j <> i).
    { intros ->. pose proof (no_nodup _ _ O1) as Hd. apply NoDup_delete in Hd as [_ Hd]. done. }
    destruct (HF j) as [s1 s2 s3 s4]; [by apply in_skip|]. destruct (Pj j Hj') as (_ & e1 & e2 & e3 & _).
    split; rewrite ?e1, ?e2, ?e3; done.
  - rewrite R6. apply tiles_app. cbn [tiles nxt]. rewrite Zp6, Ns6, En6 by done.
    destruct (Pj p) as (_ & e2 & _); [done|]. rewrite e2.
    split; [|split; [lia|split; [done|]]].
    + apply (tiles_ext m); [|exact Hta]. intros j Hj. by apply Ext, in_l.
    + apply (tiles_ext m); [|exact Htb]. intros j Hj. by apply Ext, in_r.
  - unfold holes. fold (holes_of m6 (ring m6)). rewrite R6, holes_of_app, holes_of_cons, Zp6.
    destruct (Z.ltb_spec 0 (nxt m E b - hns m p)); [|lia].
    rewrite (holes_of_ext m m6 a), (holes_of_ext m m6 b); [|intros; by apply Zj, in_r|intros; by apply Zj, in_l].
    apply (holes_ok_ext m5); [done..| |exact H5]. intros j _. unfold HOLE_SIZE, hole_node_start.
    rewrite N6. case_decide; [by subst|done].
  - rewrite L6. apply (nodes_ok_ext m2).
    + change (interval_tree m6) with (interval_tree m4). by rewrite T4.
    + change (subtree_last m6) with (subtree_last m4). by rewrite S4.
    + intros j _. unfold LAST. rewrite N2.
      assert (e : start (node m6 j) = start (node m j) /\ size (node m6 j) = size (node m j)).
      { destruct (decide (j = i)) as [->|Hj].
        - destruct Pi as (_ & e1 & e2 & _). cbn in *. done.
        - by destruct (Pj j Hj) as (_ & e1 & e2 & _). }
      destruct e as [e1 e2]. destruct (Pall1 j) as (_ & c2 & c3 & _). rewrite e1, e2, c2, c3. done.
    + exact O2.
Qed.
End remove.

(** ** A fresh allocator *)

Lemma init_ok S z :
  0 <= S -> 0 < z -> S + z < 2 ^ 64 -> mm_inv S (S + z) (drm_mm_init S z).
Proof.
  intros HS Hz HE. unfold drm_mm_init.
  match goal with |- mm_inv _ _ (add_hole 0 ?x) => set (m := x) end.
  assert (N0 : node m 0 = MmNode 0 (S + z) (u64 (- z)) 0 false false (0, 0)).
  { unfold node, m. cbn [nodes]. rewrite lookup_total_insert_eq || rewrite lookup_total_singleton.
    by rewrite (u64_small (S + z)) by (unfold is_u; lia). }
  assert (Hh : hns m 0 = S).
  { unfold hole_node_start. rewrite N0. cbn [start size].
    destruct (u64_spec (- z)) as (k & -> & _). unfold wrapU.
    replace (S + z + (- z + k * 18446744073709551616)) with (S + k * 2 ^ 64) by lia.
    rewrite Z.mod_add by lia. apply Z.mod_small. lia. }
  assert (He : hole_node_end m 0 = S + z) by (change (start (node m 0) = S + z); by rewrite N0).
  assert (Eu : u64 (hole_node_end m 0 - hns m 0) = z).
  { rewrite He, Hh, u64_small by (unfold is_u; lia). lia. }
  assert (Hn0 : holes_ok m []) by (split; cbn; try done; constructor).
  assert (Hn1 : holes_ok (add_hole 0 m) [0]).
  { apply (add_hole_ok 0 m [] []); [done|set_solver|lia|constructor|constructor]. }
  assert (N1 : node (add_hole 0 m) 0 = MmNode 0 (S + z) (u64 (- z)) z false false (0, 0)).
  { rewrite add_hole_node. case_decide; [|done]. rewrite Eu, N0. done. }
  assert (Hh1 : hns (add_hole 0 m) 0 = S).
  { rewrite <- Hh. unfold hole_node_start. by rewrite N1, N0. }
  assert (Hz1 : HOLE_SIZE (add_hole 0 m) 0 = z) by (unfold HOLE_SIZE; by rewrite N1).
  split.
  - lia.
  - rewrite Hh1, N1. done.
  - cbn. set_solver.
  - constructor.
  - cbn [tiles ring node_list]. change (node_list (add_hole 0 m)) with (@nil Z). cbn [tiles nxt].
    rewrite Hh1, Hz1. split; [lia|]. split; [lia|done].
  - unfold holes. fold (holes_of (add_hole 0 m) (ring (add_hole 0 m))).
    change (ring (add_hole 0 m)) with [0]. rewrite holes_of_cons, Hz1.
    destruct (Z.ltb_spec 0 z); [done|lia].
  - split; cbn; try done; constructor.
Qed.
End ops.
