(* ===== verification/DrmMmSearch.v ===== *)
(** * The range allocator: where a node goes

    The arithmetic of an aligned place inside the bounds of a hole, the orders in which
    the modes of an insertion visit the holes, and what the search through them finds. *)

From stdpp Require Import base numbers list option gmap sorting.
From Stdlib Require Import ZArith Lia Bool.
From S2P Require Import Prelude RbTree DrmMm DrmMmInv DrmMmOps.
#[local] Open Scope Z_scope.

(** ** Alignment *)

Definition aligned (al a : Z) : Prop := al = 0 \/ a mod al = 0.

(** The mask drm_mm keeps beside an alignment. *)
Definition mask_ok (al mask : Z) : Prop :=
  mask = 0 \/ exists k, 0 <= k /\ al = 2 ^ k /\ mask = al - 1.

Lemma is_power_of_2_spec n :
  is_u64 n -> is_power_of_2 n = true -> exists k, 0 <= k /\ n = 2 ^ k.
Proof.
  intros Hn. unfold is_power_of_2. destruct (Z.eq_dec n 0) as [->|H0]; [done|].
  rewrite u64_small by (unfold is_u in *; lia). intros Hlt%Z.ltb_lt. unfold is_u in Hn.
  assert (Hk := Z.log2_nonneg n). exists (Z.log2 n). split; [done|].
  destruct (Z.log2_spec n ltac:(lia)) as [H1 H2].
  destruct (Z.eq_dec n (2 ^ Z.log2 n)) as [|Hne]; [done|]. exfalso.
  assert (Hl : Z.log2 (n - 1) = Z.log2 n) by (apply Z.log2_unique; lia).
  assert (0 < 2 ^ Z.log2 n) by lia.
  (* the bits from the highest one on cancel *)
  assert (Hx : Z.lxor n (n - 1) = Z.lxor n (n - 1) mod 2 ^ Z.log2 n).
  { apply Z.bits_inj'. intros i Hi. destruct (Z.lt_ge_cases i (Z.log2 n)) as [Hil|Hil].
    - by rewrite Z.mod_pow2_bits_low.
    - rewrite Z.mod_pow2_bits_high by lia. rewrite Z.lxor_spec.
      destruct (Z.eq_dec i (Z.log2 n)) as [->|Hik].
      + rewrite Z.bit_log2 by lia. rewrite <- Hl at 1. by rewrite Z.bit_log2 by lia.
      + by rewrite !Z.bits_above_log2 by lia. }
  pose proof (Z.mod_pos_bound (Z.lxor n (n - 1)) (2 ^ Z.log2 n) ltac:(lia)). lia.
Qed.

Lemma mask_of al : is_u64 al -> mask_ok al (if is_power_of_2 al then al - 1 else 0).
Proof.
  intros Hal. destruct (is_power_of_2 al) eqn:E; [|by left].
  destruct (is_power_of_2_spec al Hal E) as (k & ? & ?). right. by exists k.
Qed.

Lemma rem_of al mask a : 0 < al -> mask_ok al mask ->
  (if mask =? 0 then a mod al else Z.land a mask) = a mod al.
Proof.
  intros Hal [->|(k & Hk & -> & ->)]; [done|].
  destruct (Z.eqb_spec (2 ^ k - 1) 0) as [|]; [done|].
  replace (2 ^ k - 1) with (Z.ones k) by (rewrite Z.ones_equiv; lia).
  by rewrite Z.land_ones.
Qed.

(** Rounding to a multiple. *)
Lemma round_down al x a :
  0 < al -> a <= x -> a mod al = 0 -> a <= x - x mod al.
Proof.
  intros Hal Hx Ha. apply Z.mod_divide in Ha as [k ->]; [|lia].
  pose proof (Z.div_mod x al ltac:(lia)). assert (k <= x / al) by (apply Z.div_le_lower_bound; lia).
  nia.
Qed.

Lemma round_up al x a :
  0 < al -> x <= a -> a mod al = 0 -> x mod al <> 0 -> x - x mod al + al <= a.
Proof.
  intros Hal Hx Ha Hr. apply Z.mod_divide in Ha as [k ->]; [|lia].
  pose proof (Z.div_mod x al ltac:(lia)). assert (x / al < k); [|nia].
  apply Z.div_lt_upper_bound; [lia|]. pose proof (Z.mod_pos_bound x al ltac:(lia)).
  assert (x <> al * k); [|lia]. intros ->. apply Hr. rewrite Z.mul_comm. by apply Z.mod_mul; lia.
Qed.

Lemma sub_mod_aligned al x : 0 < al -> (x - x mod al) mod al = 0.
Proof. intros. rewrite Zminus_mod_idemp_r, Z.sub_diag. apply Z.mod_0_l. lia. Qed.

(** A place in the bounds. *)
Record placed (size al lo hi a : Z) : Prop := {
  pl_lo : lo <= a;
  pl_hi : a + size <= hi;
  pl_aligned : aligned al a
}.

Section align.
Context (mode size al mask lo hi : Z).
Context (Hlo : 0 <= lo) (Hhi : hi < 2 ^ 64) (Hsize : 0 < size) (Hal : 0 <= al < 2 ^ 64).
Context (Hmask : mask_ok al mask).

Abbreviation best a := (if mode =? DRM_MM_INSERT_HIGH then forall a', placed size al lo hi a' -> a' <= a
                     else forall a', placed size al lo hi a' -> a <= a').

(** The place is in the bounds, aligned, and the lowest such place, or the highest one in
    the top-down mode; none is found only when there is none. *)
Lemma align_in_spec :
  match align_in mode size al mask lo hi with
  | Some a => placed size al lo hi a /\ best a
  | None => forall a, ~ placed size al lo hi a
  end.
Proof.
  unfold align_in. destruct (Z.leb_spec hi lo) as [Hle|Hlt]; cbn [orb].
  { intros a [? ? _]. lia. }
  rewrite (u64_small (hi - lo)) by (unfold is_u; lia).
  destruct (Z.ltb_spec (hi - lo) size) as [Hs|Hs]; [intros a [? ? _]; lia|].
  set (high := mode =? DRM_MM_INSERT_HIGH).
  set (adj := if high then u64 (hi - size) else lo).
  assert (Ea : adj = if high then hi - size else lo).
  { unfold adj. destruct high; [|done]. apply u64_small. unfold is_u. lia. }
  assert (Ha : lo <= adj /\ adj + size <= hi) by (rewrite Ea; destruct high; lia).
  assert (Hb : forall P : Z -> Prop, (forall a', P a' -> lo <= a' /\ a' + size <= hi) ->
    if high then forall a', P a' -> a' <= adj else forall a', P a' -> adj <= a').
  { intros P HP. rewrite Ea. destruct high; intros a' [? ?]%HP; lia. }
  assert (Hp : forall a', placed size al lo hi a' -> lo <= a' /\ a' + size <= hi)
    by (intros a' [? ? _]; lia).
  clearbody adj. destruct (Z.eqb_spec al 0) as [Hal0|Hal0].
  { split; [split; try lia; by left|]. by apply Hb. }
  rewrite rem_of by (done || lia).
  pose proof (Z.mod_pos_bound adj al ltac:(lia)) as Hr.
  destruct (Z.eqb_spec (adj mod al) 0) as [Hr0|Hr0].
  { split; [split; try lia; by right|]. by apply Hb. }
  assert (adj mod al <= adj) by (apply Z.mod_le; lia).
  rewrite (u64_small (adj - adj mod al)) by (unfold is_u; lia).
  set (x := adj - adj mod al) in *.
  assert (Hx : x mod al = 0) by (apply sub_mod_aligned; lia).
  destruct high eqn:Eh; unfold high in Eh.
  - (* rounded down *)
    rewrite (u64_small (hi - x)) by (unfold is_u; lia).
    destruct (Z.ltb_spec x lo); cbn [orb].
    { intros a [? ? [?|Hd]]; [lia|]. pose proof (round_down al adj a ltac:(lia) ltac:(lia) Hd). lia. }
    destruct (Z.ltb_spec (hi - x) size); [lia|]. destruct (Z.leb_spec hi x); [lia|]. cbn [orb].
    split; [split; try lia; by right|]. intros a [? ? [?|Hd]]; [lia|].
    apply round_down; lia.
  - (* rounded up *)
    assert (Hup : forall a, placed size al lo hi a -> x + al <= a).
    { intros a [? ? [?|Hd]]; [lia|]. apply round_up; lia. }
    destruct (Z.lt_ge_cases (x + al) (2 ^ 64)) as [Hf|Hf].
    + rewrite (u64_small (x + al)) by (unfold is_u; lia).
      destruct (Z.ltb_spec (x + al) lo); [lia|]. cbn [orb].
      destruct (Z.leb_spec hi (x + al)); cbn [orb].
      { assert (forall a, ~ placed size al lo hi a).
        { intros a Hpa. pose proof (Hup a Hpa). destruct Hpa. lia. }
        by destruct (_ <? _). }
      rewrite (u64_small (hi - (x + al))) by (unfold is_u; lia).
      destruct (Z.ltb_spec (hi - (x + al)) size).
      * intros a Hpa. pose proof (Hup a Hpa). destruct Hpa. lia.
      * split; [|done]. split; [lia|lia|]. right.
        replace (x + al) with (x + 1 * al) by lia. rewrite Z.mod_add; lia.
    + assert (Ew : u64 (x + al) = x + al - 2 ^ 64).
      { rewrite <- (u64_small (x + al - 2 ^ 64)) by (unfold is_u; lia). unfold wrapU.
        replace (x + al - 2 ^ 64) with (x + al + (-1) * 2 ^ 64) by lia.
        by rewrite Z.mod_add by lia. }
      rewrite Ew. destruct (Z.ltb_spec (x + al - 2 ^ 64) lo); [|lia]. cbn [orb].
      intros a Hpa. pose proof (Hup a Hpa). destruct Hpa. lia.
Qed.
End align.

(** ** The holes of a consistent allocator *)

Abbreviation hend m h := (hns m h + HOLE_SIZE m h).

Lemma elem_of_ring_split (i : Z) (l : list Z) : i ∈ l -> exists a b, l = a ++ i :: b.
Proof. apply list_elem_of_split. Qed.

Section consistent.
Context `{RbTree} `{!RbTreeLaws}.

(** The bounds of a hole need no wrap-around. *)
Lemma hole_bounds S E m h :
  mm_inv S E m -> h ∈ ring m ->
  S <= hns m h /\ 0 <= HOLE_SIZE m h /\ hend m h <= E /\ u64 (hend m h) = hend m h.
Proof.
  intros I Hh. destruct (elem_of_ring_split _ _ Hh) as (a & b & Er).
  destruct (inv_at S E m a h b I Er) as (H1 & H2 & H3 & H4 & _).
  destruct (iv_bounds _ _ _ I) as [[? ?] ?].
  split; [done|]. split; [done|]. split; [lia|]. apply u64_small. unfold is_u. lia.
Qed.

Lemma gap_sorted S E m : mm_inv S E m -> StronglySorted (fun i j => hend m i < hns m j) (ring m).
Proof.
  intros I. destruct (iv_bounds _ _ _ I) as [_ HE]. pose proof (iv_tiles _ _ _ I) as Ht.
  pose proof (iv_node _ _ _ I) as Hn. unfold ring in *. revert Ht Hn. generalize 0 as x.
  induction (node_list m) as [|y l IH]; intros x Ht Hn; [by repeat constructor|].
  assert (Hy := Hn). apply Forall_cons_1 in Hy as [Hy Hl]. assert (Hty := Ht).
  cbn [tiles] in Hty. destruct Hty as (_ & _ & Hty). constructor; [by apply IH|].
  apply Forall_forall. intros j Hj.
  assert (Hb := tiles_between m E x (y :: l) j HE Hn Ht Hj).
  rewrite Forall_forall in Hn. rewrite (hns_node E m j (Hn j Hj) HE). destruct (Hn j Hj). lia.
Qed.

Lemma StronglySorted_filter {A} (R : A -> A -> Prop) (P : A -> Prop) `{!forall x, Decision (P x)} l :
  StronglySorted R l -> StronglySorted R (filter P l).
Proof.
  induction 1 as [|x l Hs IH Hx]; [constructor|]. rewrite filter_cons.
  case_decide; [|done]. constructor; [done|]. rewrite Forall_forall in Hx |- *.
  intros y [_ Hy]%list_elem_of_filter. by apply Hx.
Qed.

Lemma holes_gap_sorted S E m : mm_inv S E m -> StronglySorted (fun i j => hend m i < hns m j) (holes m).
Proof. intros I. by apply StronglySorted_filter, (gap_sorted S E). Qed.

Lemma holes_ring m h : h ∈ holes m -> h ∈ ring m.
Proof. apply (elem_of_holes m). Qed.
End consistent.

(** ** Walks of the tree by address *)

Abbreviation small m size := (fun h => HOLE_SIZE m h < size).

Section walks.
Context (m : drm_mm).

Lemma unusable_small size t :
  aug_ok (HOLE_SIZE m) (subtree_max_hole m) t -> usable_hole_addr m t size = false ->
  Forall (small m size) (inorder t).
Proof.
  destruct t as [|l x r]; [constructor|]. intros (Hc & _ & _). unfold usable_hole_addr.
  rewrite Hc. intros Hs%Z.leb_gt. apply Forall_forall. intros y Hy%list_elem_of_In.
  pose proof (tmax_In (HOLE_SIZE m) _ _ Hy). lia.
Qed.

Lemma leftmost_usable_spec size t : forall x,
  t <> Leaf -> aug_ok (HOLE_SIZE m) (subtree_max_hole m) t ->
  exists a b, inorder t = a ++ leftmost_usable m size t x :: b /\ Forall (small m size) a.
Proof.
  induction t as [|l IHl y r _]; intros x Ht Hok; [done|]. cbn [leftmost_usable inorder].
  destruct (usable_hole_addr m l size) eqn:Eu.
  - assert (l <> Leaf) by (by destruct l).
    destruct (IHl y) as (a & b & -> & Ha); [done|by destruct Hok as (_ & ? & _)|].
    exists a, (b ++ y :: inorder r). by rewrite <- app_assoc.
  - exists (inorder l), (inorder r). split; [done|]. apply unusable_small; [|done].
    by destruct Hok as (_ & ? & _).
Qed.

Lemma rightmost_usable_spec size t : forall x,
  t <> Leaf -> aug_ok (HOLE_SIZE m) (subtree_max_hole m) t ->
  exists a b, inorder t = a ++ rightmost_usable m size t x :: b /\ Forall (small m size) b.
Proof.
  induction t as [|l _ y r IHr]; intros x Ht Hok; [done|]. cbn [rightmost_usable inorder].
  destruct (usable_hole_addr m r size) eqn:Eu.
  - assert (r <> Leaf) by (by destruct r).
    destruct (IHr y) as (a & b & -> & Ha); [done|by destruct Hok as (_ & _ & ?)|].
    exists (inorder l ++ y :: a), b. by rewrite <- app_assoc.
  - exists (inorder l), (inorder r). split; [done|]. apply unusable_small; [|done].
    by destruct Hok as (_ & _ & ?).
Qed.

Lemma climb_right_after p : climb_right p = head (after p).
Proof. induction p as [|[x r|l x] p IH]; cbn; done. Qed.

Lemma climb_left_before p : climb_left p = last (before p).
Proof.
  induction p as [|[x r|l x] p IH]; cbn; [done|done|]. rewrite app_assoc. by rewrite last_snoc.
Qed.

Lemma aug_sub val c p t : aug_ok val c (plug p t) -> aug_ok val c t.
Proof. intros H. by apply aug_plug in H as [? _]. Qed.

(** The walk by address ends at a hole that contains the address or next to it; the holes
    it leaves on either side are away from the address or too small. *)
Lemma find_addr_spec addr size t : forall found,
  aug_ok (HOLE_SIZE m) (subtree_max_hole m) t ->
  StronglySorted (fun i j => hend m i < hns m j) (inorder t) ->
  Forall (fun h => 0 <= HOLE_SIZE m h /\ u64 (hend m h) = hend m h) (inorder t) ->
  let r := find_addr_in m addr size t found in
  (r = found /\ Forall (small m size) (inorder t))
  \/ exists a h b, r = Some h /\ inorder t = a ++ h :: b
     /\ Forall (fun j => HOLE_SIZE m j < size \/ hend m j < addr) a
     /\ Forall (fun j => HOLE_SIZE m j < size \/ addr < hns m j) b.
Proof.
  induction t as [|l IHl x r IHr]; intros found Hok Hs Hw; [by left|]. cbn [find_addr_in].
  destruct (usable_hole_addr m (Node l x r) size) eqn:Eu; cbn [negb];
    [right|left; split; [done|by apply unusable_small]].
  destruct Hok as (_ & Hl & Hr). cbn [inorder] in *.
  apply StronglySorted_app in Hs as (Hlx & Hsl & Hs). apply StronglySorted_cons in Hs as [Hxr Hsr].
  apply Forall_app in Hw as [Hwl Hw]. apply Forall_cons_1 in Hw as [[Hx0 Hxw] Hwr].
  assert (Bl : Forall (fun j => hend m j < hns m x) (inorder l)).
  { apply Forall_forall. intros j Hj. apply Hlx; [done|by left]. }
  rewrite Hxw. destruct (Z.ltb_spec addr (hns m x)); [|destruct (Z.ltb_spec (hend m x) addr)].
  - assert (Br : Forall (fun j => HOLE_SIZE m j < size \/ addr < hns m j) (inorder r)).
    { eapply Forall_impl; [exact Hxr|]. cbn. lia. }
    destruct (IHl (Some x) Hl Hsl Hwl) as [[-> Hsm]|(a & h & b & -> & -> & Ha & Hb)].
    + exists (inorder l), x, (inorder r). split; [done|]. split; [done|]. split; [|done].
      eapply Forall_impl; [exact Hsm|]. cbn. tauto.
    + exists a, h, (b ++ x :: inorder r). split; [done|]. split; [by rewrite <- app_assoc|].
      split; [done|]. apply Forall_app. split; [done|]. constructor; [by right|done].
  - assert (Bl' : Forall (fun j => HOLE_SIZE m j < size \/ hend m j < addr) (inorder l)).
    { eapply Forall_impl; [exact Bl|]. cbn. lia. }
    destruct (IHr (Some x) Hr Hsr Hwr) as [[-> Hsm]|(a & h & b & -> & -> & Ha & Hb)].
    + exists (inorder l), x, (inorder r). split; [done|]. split; [done|]. split; [done|].
      eapply Forall_impl; [exact Hsm|]. cbn. tauto.
    + exists (inorder l ++ x :: a), h, b. split; [done|]. split; [by rewrite <- app_assoc|].
      split; [|done]. apply Forall_app. split; [done|]. constructor; [by right|done].
  - exists (inorder l), x, (inorder r). split; [done|]. split; [done|]. split.
    + eapply Forall_impl; [exact Bl|]. cbn. lia.
    + eapply Forall_impl; [exact Hxr|]. cbn. lia.
Qed.

(** The smallest hole of at least a size, in a tree that is in order of falling sizes. *)
Lemma best_in_spec size t : forall best,
  StronglySorted (fun i j => HOLE_SIZE m j <= HOLE_SIZE m i) (inorder t) ->
  exists a b, inorder t = a ++ b /\ Forall (fun h => size <= HOLE_SIZE m h) a
    /\ Forall (small m size) b
    /\ best_in m size t best = match last a with Some h => Some h | None => best end.
Proof.
  induction t as [|l IHl x r IHr]; intros best Hs; [by exists [], []|]. cbn [best_in inorder] in *.
  apply StronglySorted_app in Hs as (Hlx & Hsl & Hs). apply StronglySorted_cons in Hs as [Hxr Hsr].
  destruct (Z.leb_spec size (HOLE_SIZE m x)) as [Hx|Hx].
  - destruct (IHr (Some x) Hsr) as (a & b & -> & Ha & Hb & ->).
    exists (inorder l ++ x :: a), b. split; [by rewrite <- app_assoc|]. split; [|split; [done|]].
    + apply Forall_app. split; [|by constructor]. apply Forall_forall. intros j Hj.
      specialize (Hlx j x Hj ltac:(by left)). lia.
    + rewrite last_app, last_cons. by destruct (last a).
  - destruct (IHl best Hsl) as (a & b & -> & Ha & Hb & ->).
    exists a, (b ++ x :: inorder r). split; [by rewrite <- app_assoc|]. split; [done|].
    split; [|done]. apply Forall_app. split; [done|]. constructor; [done|].
    eapply Forall_impl; [exact Hxr|]. cbn. lia.
Qed.
End walks.

(** ** The search *)

Section search.
Context `{RbTree} `{!RbTreeLaws} (color_adjust : option (drm_mm -> Z -> Z -> Z * Z -> Z * Z)).

(** A driver's callback restricts the hole it is given. *)
Definition adjust_shrinks : Prop :=
  forall m hole c lo hi,
    lo <= (adjust color_adjust m hole c (lo, hi)).1 /\ (adjust color_adjust m hole c (lo, hi)).2 <= hi.

(** The order in which a mode visits the holes. *)
Definition order (m : drm_mm) (mode : Z) : list Z :=
  if mode =? DRM_MM_INSERT_LOW then holes m
  else if mode =? DRM_MM_INSERT_HIGH then reverse (holes m)
  else if mode =? DRM_MM_INSERT_EVICT then hole_stack m
  else reverse (inorder (rb_root (holes_size m))).

Lemma order_perm S E m mode : mm_inv S E m -> order m mode ≡ₚ holes m.
Proof.
  intros I. destruct (iv_holes _ _ _ I) as [_ P1 _ _ P2 _ _ _ _]. unfold order.
  repeat case_match; [done|apply reverse_Permutation|done|by rewrite reverse_Permutation].
Qed.

Lemma order_nodup S E m mode : mm_inv S E m -> NoDup (order m mode).
Proof.
  intros I. rewrite (order_perm S E m mode I). by destruct (iv_holes _ _ _ I).
Qed.

(** The next hole is the next one of the order that is not too small. *)
Lemma next_hole_spec S E m mode size a h b :
  mm_inv S E m -> order m mode = a ++ h :: b ->
  exists skipped rest, next_hole m h size mode = Some (head rest)
    /\ b = skipped ++ rest /\ Forall (small m size) skipped.
Proof.
  intros I Eo. pose proof (order_nodup S E m mode I) as Hn. rewrite Eo in Hn.
  destruct (iv_holes _ _ _ I) as [Hnd _ Ad Au Hps _ _ _ _]. revert Eo. unfold order, next_hole.
  destruct (mode =? DRM_MM_INSERT_LOW); [|destruct (mode =? DRM_MM_INSERT_HIGH);
    [|destruct (mode =? DRM_MM_INSERT_EVICT)]]; intros Eo.
  - unfold next_hole_low_addr. destruct (locate_spec h (holes_addr m)) as (p & l & r & El & Et).
    { rewrite Ad, Eo. apply list_elem_of_In. set_solver. }
    destruct (locate_plug _ _ _ _ _ El) as [Ep _]. cbn [plug] in Ep. rewrite <- Ep in Au.
    apply aug_sub in Au as (_ & _ & Hr).
    rewrite Ad, Eo in Et. destruct (NoDup_split_unique h _ _ _ _ Et Hn) as [_ Eb].
    rewrite El. cbn [mbind option_bind].
    destruct (usable_hole_addr m r size) eqn:Eu.
    + destruct (leftmost_usable_spec m size r h) as (a' & b' & Er & Ha'); [by destruct r|done|].
      exists a', (leftmost_usable m size r h :: b' ++ after p). split; [done|].
      split; [|done]. by rewrite Eb, Er, <- app_assoc.
    + exists (inorder r), (after p). rewrite climb_right_after. split; [done|].
      split; [done|]. by apply unusable_small.
  - unfold next_hole_high_addr. destruct (locate_spec h (holes_addr m)) as (p & l & r & El & Et).
    { rewrite Ad, <- (reverse_involutive (holes m)), Eo. apply list_elem_of_In.
      rewrite elem_of_reverse. set_solver. }
    destruct (locate_plug _ _ _ _ _ El) as [Ep _]. cbn [plug] in Ep. rewrite <- Ep in Au.
    apply aug_sub in Au as (_ & Hl & _).
    assert (Eh : holes m = reverse b ++ h :: reverse a).
    { rewrite <- (reverse_involutive (holes m)), Eo, reverse_app, reverse_cons, <- app_assoc. done. }
    rewrite Ad, Eh in Et. rewrite Eh in Hnd.
    destruct (NoDup_split_unique h _ _ _ _ Et Hnd) as [Eb _].
    rewrite El. cbn [mbind option_bind]. rewrite <- (reverse_involutive b), Eb, reverse_app.
    destruct (usable_hole_addr m l size) eqn:Eu.
    + destruct (rightmost_usable_spec m size l h) as (a' & b' & Er & Ha'); [by destruct l|done|].
      exists (reverse b'), (rightmost_usable m size l h :: reverse a' ++ reverse (before p)).
      split; [done|]. split; [|by apply Forall_reverse].
      by rewrite Er, reverse_app, reverse_cons, <- !app_assoc.
    + exists (reverse (inorder l)), (reverse (before p)).
      rewrite climb_left_before, head_reverse. split; [done|].
      split; [done|]. apply Forall_reverse. by apply unusable_small.
  - exists [], b. split; [|done]. f_equal. rewrite Eo. clear Eo. induction a as [|y a IH]; cbn.
    + by rewrite Z.eqb_refl.
    + cbn in Hn. apply NoDup_cons in Hn as [Hy Hn]. destruct (Z.eqb_spec y h); [set_solver|].
      by apply IH.
  - exists [], b. split; [|done]. f_equal.
    assert (Ei : inorder (rb_root (holes_size m)) = reverse b ++ h :: reverse a).
    { rewrite <- (reverse_involutive (inorder _)), Eo, reverse_app, reverse_cons, <- app_assoc. done. }
    rewrite (prev_inorder h _ (reverse b) (reverse a)); [|by rewrite Hps|done].
    by rewrite last_reverse.
Qed.

(** The first hole leaves out those that are too small or, where the order is by
    address, beyond the near bound of the range. *)
Lemma first_hole_spec S E m mode size lo hi :
  mm_inv S E m -> (rb_root (holes_size m) <> Leaf) ->
  exists skipped rest, first_hole m lo hi size mode = Some (head rest)
    /\ order m mode = skipped ++ rest
    /\ Forall (fun h => HOLE_SIZE m h < size \/ hend m h < lo \/ hi < hns m h) skipped.
Proof.
  intros I Hne. destruct (iv_holes _ _ _ I) as [Hnd _ Ad Au Hps Hs _ _ _].
  assert (Hgap := holes_gap_sorted S E m I). rewrite <- Ad in Hgap.
  assert (Hw : Forall (fun h => 0 <= HOLE_SIZE m h /\ u64 (hend m h) = hend m h)
    (inorder (holes_addr m))).
  { rewrite Ad. apply Forall_forall. intros h Hh%holes_ring.
    destruct (hole_bounds S E m h I Hh) as (_ & ? & _ & ?). done. }
  unfold order, first_hole, find_hole_addr.
  destruct (mode =? DRM_MM_INSERT_LOW); [|destruct (mode =? DRM_MM_INSERT_HIGH);
    [|destruct (mode =? DRM_MM_INSERT_EVICT)]].
  - destruct (find_addr_spec m lo size (holes_addr m) None Au Hgap Hw)
      as [[-> Hsm]|(a & h & b & -> & Et & Ha & _)]; rewrite Ad in *.
    + exists (holes m), []. split; [done|]. split; [by rewrite app_nil_r|].
      eapply Forall_impl; [exact Hsm|]. cbn. tauto.
    + exists a, (h :: b). split; [done|]. split; [done|]. eapply Forall_impl; [exact Ha|]. cbn. tauto.
  - destruct (find_addr_spec m hi size (holes_addr m) None Au Hgap Hw)
      as [[-> Hsm]|(a & h & b & -> & Et & _ & Hb)]; rewrite Ad in *.
    + exists (reverse (holes m)), []. split; [done|]. split; [by rewrite app_nil_r|].
      apply Forall_reverse. eapply Forall_impl; [exact Hsm|]. cbn. tauto.
    + exists (reverse b), (h :: reverse a). split; [done|].
      split; [by rewrite Et, reverse_app, reverse_cons, <- app_assoc|].
      apply Forall_reverse. eapply Forall_impl; [exact Hb|]. cbn. tauto.
  - by exists [], (hole_stack m).
  - unfold best_hole. destruct (best_in_spec m size (rb_root (holes_size m)) None Hs)
      as (a & b & Et & _ & Hb & Ebi).
    exists (reverse b), (reverse a). rewrite head_reverse. split; [|split].
    + replace (last a) with (best_in m size (rb_root (holes_size m)) None)
        by (rewrite Ebi; by destruct (last a)). by destruct (rb_root (holes_size m)).
    + by rewrite Et, reverse_app.
    + apply Forall_reverse. eapply Forall_impl; [exact Hb|]. cbn. tauto.
Qed.
(** The arguments the allocator accepts. *)
Record request_ok (q : request) : Prop := {
  ro_size : 0 < rq_size q;
  ro_align : 0 <= rq_alignment q < 2 ^ 64;
  ro_mask : mask_ok (rq_alignment q) (rq_mask q);
  ro_start : 0 <= rq_start q;
  ro_end : rq_end q < 2 ^ 64
}.

(** The part of a hole a node may take. *)
Definition bounds (q : request) (m : drm_mm) (h : Z) : Z * Z :=
  let b := adjust color_adjust m h (rq_color q) (hns m h, hend m h) in
  (Z.max b.1 (rq_start q), Z.min b.2 (rq_end q)).

Abbreviation placed_in q m h :=
  (placed (rq_size q) (rq_alignment q) (bounds q m h).1 (bounds q m h).2).

Section run.
Context (S E : Z) (m : drm_mm) (q : request) (I : mm_inv S E m) (Hq : request_ok q).
Context (Hshrink : adjust_shrinks).

Lemma bounds_within h : h ∈ ring m ->
  0 <= (bounds q m h).1 /\ (bounds q m h).2 < 2 ^ 64
  /\ hns m h <= (bounds q m h).1 /\ rq_start q <= (bounds q m h).1
  /\ (bounds q m h).2 <= hend m h /\ (bounds q m h).2 <= rq_end q.
Proof.
  intros Hh. unfold bounds. cbn [fst snd].
  pose proof (Hshrink m h (rq_color q) (hns m h) (hend m h)). destruct Hq. lia.
Qed.

Lemma fit_spec h : h ∈ ring m ->
  match fit color_adjust q m h with
  | Some a =>
    placed_in q m h a
    /\ (if rq_mode q =? DRM_MM_INSERT_HIGH then forall a', placed_in q m h a' -> a' <= a
        else forall a', placed_in q m h a' -> a <= a')
  | None => forall a, ~ placed_in q m h a
  end.
Proof.
  intros Hh. destruct (bounds_within h Hh) as (H1 & H2 & _).
  destruct (hole_bounds S E m h I Hh) as (_ & _ & _ & Hu).
  assert (Ef : fit color_adjust q m h = align_in (rq_mode q) (rq_size q) (rq_alignment q) (rq_mask q)
    (bounds q m h).1 (bounds q m h).2).
  { unfold fit, bounds. rewrite Hu. by destruct (adjust _ _ _ _ _). }
  rewrite Ef. destruct Hq. apply align_in_spec; done || lia.
Qed.

Lemma fit_none h : h ∈ ring m ->
  HOLE_SIZE m h < rq_size q \/ hend m h <= rq_start q \/ rq_end q <= hns m h ->
  fit color_adjust q m h = None.
Proof.
  intros Hh Hs. pose proof (fit_spec h Hh) as Hf. destruct (fit color_adjust q m h) as [a|]; [|done].
  destruct Hf as [[? ? _] _]. pose proof (bounds_within h Hh). destruct Hq. lia.
Qed.

(** The search through the rest of the order always ends: with the first hole that has
    room, or with none when a hole is tried once only or no hole has room. *)
Lemma search_spec fuel : forall done rest,
  order m (rq_mode q) = done ++ rest -> (length rest < fuel)%nat ->
  exists r, search color_adjust fuel q m (head rest) = Some r /\
  match r with
  | Some (h, a) => exists pre post, rest = pre ++ h :: post /\ fit color_adjust q m h = Some a
                   /\ Forall (fun j => fit color_adjust q m j = None) pre
  | None => rq_once q = true \/ Forall (fun j => fit color_adjust q m j = None) rest
  end.
Proof.
  assert (Hring : forall l r, order m (rq_mode q) = l ++ r -> Forall (fun h => h ∈ ring m) r).
  { intros l r Eo. apply Forall_forall. intros h Hh. apply holes_ring.
    rewrite <- (order_perm S E m (rq_mode q) I), Eo. set_solver. }
  induction fuel as [|fuel IH]; intros dn rest Eo Hf; [lia|].
  destruct rest as [|h b]; cbn [head search]; [exists None; by split; [|right]|].
  assert (Hr := Hring _ _ Eo). assert (Hr' := Hr). apply Forall_cons_1 in Hr as [Hh Hb].
  destruct (hole_bounds S E m h I Hh) as (_ & Hz & _ & Hu). rewrite Hu.
  match goal with |- context [if ?c then Some None else _] => destruct c eqn:Ec end.
  - exists None. split; [done|]. right. apply orb_prop in Ec.
    pose proof (holes_gap_sorted S E m I) as Hg. unfold order in Eo.
    destruct Ec as [[Em Hle%Z.leb_le]%andb_prop|[Em Hle%Z.leb_le]%andb_prop].
    + rewrite Em in Eo. rewrite Eo in Hg. apply StronglySorted_app in Hg as (_ & _ & Hg).
      apply StronglySorted_cons in Hg as [Hg _]. rewrite Forall_forall in Hr', Hg.
      apply Forall_forall. intros j Hj. apply fit_none; [by apply Hr'|]. right; right.
      apply elem_of_cons in Hj as [->|Hj]; [done|]. specialize (Hg j Hj). lia.
    + destruct (rq_mode q =? DRM_MM_INSERT_LOW) eqn:El.
      { apply Z.eqb_eq in Em, El. rewrite Em in El. discriminate El. }
      rewrite Em in Eo.
      assert (Eh : holes m = reverse b ++ h :: reverse dn).
      { rewrite <- (reverse_involutive (holes m)), Eo, reverse_app, reverse_cons, <- app_assoc. done. }
      rewrite Eh in Hg. apply StronglySorted_app in Hg as (Hg & _ & _).
      rewrite Forall_forall in Hr', Hb.
      apply Forall_forall. intros j Hj. apply fit_none; [by apply Hr'|]. right; left.
      apply elem_of_cons in Hj as [->|Hj]; [done|].
      specialize (Hg j h ltac:(by apply elem_of_reverse) ltac:(by left)). lia.
  - clear Ec. destruct (fit color_adjust q m h) as [a|] eqn:Ef.
    { exists (Some (h, a)). split; [done|]. exists [], b. by repeat split. }
    destruct (rq_once q) eqn:Eonce; [exists None; split; [done|by left]|].
    destruct (next_hole_spec S E m (rq_mode q) (rq_size q) dn h b I Eo)
      as (sk & rest & -> & -> & Hsk).
    cbn [mbind option_bind].
    destruct (IH (dn ++ h :: sk) rest) as (r & -> & Hr2).
    { by rewrite Eo, <- app_assoc. }
    { cbn in Hf. rewrite length_app in Hf. lia. }
    assert (Hn : Forall (fun j => fit color_adjust q m j = None) (h :: sk)).
    { constructor; [done|]. apply Forall_app in Hb as [Hb _]. rewrite Forall_forall in Hb, Hsk.
      apply Forall_forall. intros j Hj. apply fit_none; [by apply Hb|]. left. by apply Hsk. }
    exists r. split; [done|]. destruct r as [[j a]|].
    + destruct Hr2 as (pre & post & -> & Ej & Hp). exists (h :: sk ++ pre), post.
      split; [by cbn; rewrite <- app_assoc|]. split; [done|].
      rewrite app_comm_cons. by apply Forall_app.
    + destruct Hr2 as [Hr2|Hr2]; [done|]. right.
      rewrite app_comm_cons. by apply Forall_app.
Qed.

(** The same from the first hole. *)
Lemma find_spec :
  rb_root (holes_size m) <> Leaf ->
  exists first r,
    first_hole m (rq_start q) (rq_end q) (rq_size q) (rq_mode q) = Some first
    /\ search color_adjust (Datatypes.S (length (hole_stack m))) q m first = Some r /\
  match r with
  | Some (h, a) =>
    exists pre post, order m (rq_mode q) = pre ++ h :: post /\ fit color_adjust q m h = Some a
                   /\ Forall (fun j => fit color_adjust q m j = None) pre
  | None => rq_once q = true \/ Forall (fun j => fit color_adjust q m j = None) (order m (rq_mode q))
  end.
Proof.
  intros Hne.
  destruct (first_hole_spec S E m (rq_mode q) (rq_size q) (rq_start q) (rq_end q) I Hne)
    as (sk & rest & Ef & Eo & Hsk).
  assert (Hl : length (order m (rq_mode q)) = length (hole_stack m)).
  { apply Permutation_length. rewrite (order_perm S E m _ I).
    symmetry. exact (ho_stack _ _ (iv_holes _ _ _ I)). }
  destruct (search_spec (Datatypes.S (length (hole_stack m))) sk rest Eo) as (r & Es & Hr).
  { rewrite <- Hl, Eo, length_app. lia. }
  assert (Hn : Forall (fun j => fit color_adjust q m j = None) sk).
  { rewrite Forall_forall in Hsk |- *. intros j Hj. apply fit_none.
    - apply holes_ring. eapply elem_of_Permutation_proper.
      { symmetry. exact (order_perm S E m (rq_mode q) I). }
      rewrite Eo. set_solver.
    - specialize (Hsk j Hj). lia. }
  exists (head rest), r. split; [done|]. split; [done|]. rewrite Eo. destruct r as [[h a]|].
  - destruct Hr as (pre & post & -> & Efit & Hp). exists (sk ++ pre), post.
    split; [by rewrite <- app_assoc|]. split; [done|]. by apply Forall_app.
  - destruct Hr as [Hr|Hr]; [by left|right]. by apply Forall_app.
Qed.
End run.
End search.
