(* ===== verification/DrmMmSpec.v ===== *)
(** * The range allocator: what its users are promised

    A map from nodes to disjoint ranges is the specification of an allocator; every
    operation of drm_mm.c refines one of its steps.  The file also states where each mode
    of an insertion puts a node. *)

From stdpp Require Import base numbers list option gmap sorting.
From Stdlib Require Import ZArith Lia Bool.
From S2P Require Import Prelude RbTree DrmMm DrmMmInv DrmMmOps DrmMmSearch.
#[local] Open Scope Z_scope.

(** ** The specification *)

Abbreviation ranges := (gmap Z (Z * Z)).

(** The range of [z] from [s] is inside the allocator's and meets no node. *)
Definition available (S E : Z) (A : ranges) (s z : Z) : Prop :=
  S <= s /\ 0 < z /\ s + z <= E
  /\ map_Forall (fun _ p => s + z <= p.1 \/ p.1 + p.2 <= s) A.

Inductive command :=
  | Reserve (i s z c : Z)
  | Insert (i size alignment color range_start range_end mode : Z)
  | Remove (i : Z).

Inductive spec_step (S E : Z) (A : ranges) : command -> Z -> ranges -> Prop :=
  | spec_reserve i s z c :
    available S E A s z -> spec_step S E A (Reserve i s z c) 0 (<[i := (s, z)]> A)
  | spec_reserve_busy i s z c :
    ~ available S E A s z -> spec_step S E A (Reserve i s z c) (- ENOSPC) A
  | spec_insert i z al c lo hi mode s :
    placed z (if al <=? 1 then 0 else al) lo hi s -> available S E A s z ->
    spec_step S E A (Insert i z al c lo hi mode) 0 (<[i := (s, z)]> A)
  | spec_insert_full i z al c lo hi mode :
    tst mode DRM_MM_INSERT_ONCE = true
    \/ (forall s, placed z (if al <=? 1 then 0 else al) lo hi s -> ~ available S E A s z) ->
    spec_step S E A (Insert i z al c lo hi mode) (- ENOSPC) A
  | spec_remove i : spec_step S E A (Remove i) 0 (delete i A).

(** ** The implementation *)

Definition abs (m : drm_mm) : ranges :=
  list_to_map ((fun i => (i, (start (node m i), size (node m i)))) <$> node_list m).

(** What a caller must respect: a node goes in once, and comes out only when it is in. *)
Definition legal (m : drm_mm) (c : command) : Prop :=
  match c with
  | Reserve i s z _ => i ∉ ring m /\ is_u64 s /\ is_u64 z
  | Insert i z al _ lo hi _ =>
    i ∉ ring m /\ is_u64 z /\ is_u64 al /\ 0 <= lo <= hi /\ hi < 2 ^ 64
  | Remove i => i ∈ node_list m
  end.

Lemma abs_lookup m i :
  abs m !! i = if decide (i ∈ node_list m) then Some (start (node m i), size (node m i)) else None.
Proof.
  unfold abs. induction (node_list m) as [|x l IH].
  - rewrite decide_False by set_solver. apply lookup_empty.
  - rewrite fmap_cons, list_to_map_cons. destruct (decide (i = x)) as [->|Hne].
    + rewrite lookup_insert_eq, decide_True by set_solver. done.
    + rewrite lookup_insert_ne, IH by done. apply decide_ext. set_solver.
Qed.

Section spec.
Context `{RbTree} `{!RbTreeLaws} (color_adjust : option (drm_mm -> Z -> Z -> Z * Z -> Z * Z)).

Definition exec (c : command) (m : drm_mm) : option (Z * drm_mm) :=
  match c with
  | Reserve i s z c => drm_mm_reserve_node color_adjust i (upd (with_place s z c) i m)
  | Insert i z al c lo hi mode => drm_mm_insert_node_in_range color_adjust i z al c lo hi mode m
  | Remove i => Some (0, drm_mm_remove_node i m)
  end.

(** Availability is room inside one hole. *)
Lemma available_hole S E m s z :
  mm_inv S E m ->
  available S E (abs m) s z <->
  0 < z /\ exists h, h ∈ holes m /\ hns m h <= s /\ s + z <= hend m h.
Proof.
  intros I. destruct (iv_bounds _ _ _ I) as [[HS HSE] HE].
  assert (Hav : map_Forall (fun _ p => s + z <= p.1 \/ p.1 + p.2 <= s) (abs m)
    <-> forall j, j ∈ node_list m ->
      s + z <= start (node m j) \/ start (node m j) + size (node m j) <= s).
  { split.
    - intros Ha j Hj. apply (Ha j (start (node m j), size (node m j))).
      rewrite abs_lookup. by case_decide.
    - intros Ha j p Ep. rewrite abs_lookup in Ep. case_decide; [|done]. injection Ep as <-.
      by apply Ha. }
  pose proof (iv_node _ _ _ I) as Hn. rewrite Forall_forall in Hn.
  unfold available. rewrite Hav. split.
  - intros (Hs & Hz & He & Hd). split; [done|].
    destruct (monotone_split (fun j => s <? hns m j) (ring m)) as (a & b & Er & Ha & Hb).
    { eapply StronglySorted_ext; [|exact (inv_sorted S E m I)]. intros i j _ _.
      rewrite !Z.ltb_lt. lia. }
    destruct a as [|h a' _] using rev_ind.
    { unfold ring in Er. cbn in Er. subst b. apply Forall_cons_1 in Hb as [Hb%Z.ltb_lt _].
      destruct (iv_head _ _ _ I) as (_ & Eh & _). lia. }
    rewrite <- app_assoc in Er. cbn in Er.
    destruct (inv_at S E m a' h b I Er) as (E1 & E2 & E3 & E4 & _).
    apply Forall_app in Ha as [_ Ha]. apply Forall_cons_1 in Ha as [Ha%Z.ltb_ge _].
    assert (Hl : s + z <= nxt m E b).
    { destruct b as [|j b]; [done|]. cbn. apply Forall_cons_1 in Hb as [Hb%Z.ltb_lt _].
      assert (Hj : j ∈ node_list m).
      { unfold ring in Er. destruct a'; injection Er as _ Er; rewrite Er; set_solver. }
      rewrite (hns_node E m j (Hn j Hj) HE) in Hb. destruct (Hd j Hj); lia. }
    exists h. split; [|lia]. unfold holes. apply list_elem_of_filter.
    split; [lia|]. rewrite Er. set_solver.
  - intros (Hz & h & Hh & H1 & H2). apply holes_ring in Hh.
    destruct (hole_bounds S E m h I Hh) as (B1 & B2 & B3 & _).
    split; [lia|]. split; [lia|]. split; [lia|]. intros j Hj.
    destruct (elem_of_ring_split _ _ Hh) as (a & b & Er).
    assert (Hjr : j ∈ ring m) by (by right).
    rewrite <- (hns_node E m j (Hn j Hj) HE).
    pose proof (inv_sorted S E m I) as Hs. rewrite Er in Hjr, Hs.
    apply StronglySorted_app in Hs as (Hs & _ & _).
    apply elem_of_app in Hjr as [Hja|[->|Hjb]%elem_of_cons].
    + right. specialize (Hs j h Hja ltac:(by left)). lia.
    + right. done.
    + left. pose proof (iv_tiles _ _ _ I) as Ht. rewrite Er, tiles_app in Ht. destruct Ht as [_ Ht].
      assert (Hb : forall y, y ∈ b -> y ∈ node_list m).
      { intros y Hy. unfold ring in Er. destruct a; injection Er as _ Er; rewrite Er; set_solver. }
      pose proof (tiles_between m E h b j HE) as Hb'. rewrite Forall_forall in Hb'.
      specialize (Hb' ltac:(intros; by apply Hn, Hb) Ht Hjb). lia.
Qed.

(** Nodes outside of the allocator may change. *)
Lemma inv_upd_other S E m f i : mm_inv S E m -> i ∉ ring m -> mm_inv S E (upd f i m).
Proof.
  intros I Hi. assert (Hn : forall j, j ∈ ring m -> node (upd f i m) j = node m j).
  { intros j Hj. rewrite node_upd. case_decide; [by subst|done]. }
  assert (Hh : forall j, j ∈ ring m -> HOLE_SIZE (upd f i m) j = HOLE_SIZE m j /\
    hns (upd f i m) j = hns m j).
  { intros j Hj. unfold HOLE_SIZE, hole_node_start. by rewrite Hn. }
  assert (Hz : 0 ∈ ring m) by (by left).
  destruct I as [? Ihd ? Ind It Ih Inn]. split; try done.
  - destruct (Hh 0 Hz) as [_ ->]. by rewrite (Hn 0 Hz).
  - rewrite Forall_forall in Ind |- *. intros j Hj. rewrite Hn by (by right). by apply Ind.
  - apply (tiles_ext m); [|exact It]. intros j Hj. destruct (Hh j Hj). by rewrite (Hn j Hj).
  - assert (Eh : holes (upd f i m) = holes m).
    { apply (holes_of_ext m (upd f i m) (ring m)). intros j Hj. by apply Hh. }
    rewrite Eh. eapply (holes_ok_ext m); [..|exact Ih]; try done.
    intros j Hj. apply Hh, holes_ring. by apply list_elem_of_In.
  - eapply (nodes_ok_ext m); [..|exact Inn]; try done.
    intros j Hj. unfold LAST. rewrite Hn; [done|]. right. by apply list_elem_of_In.
Qed.
Lemma in_node_list S E m j : mm_inv S E m -> j ∈ node_list m <-> j ∈ ring m /\ j <> 0.
Proof. intros I. pose proof (iv_zero _ _ _ I). unfold ring. set_solver. Qed.

Lemma abs_insert S E m m' i s z a h b :
  mm_inv S E m -> mm_inv S E m' -> i <> 0 -> ring m = a ++ h :: b -> ring m' = a ++ h :: i :: b ->
  start (node m' i) = s -> size (node m' i) = z ->
  (forall j, j <> i -> same_place (node m j) (node m' j)) ->
  abs m' = <[i := (s, z)]> (abs m).
Proof.
  intros I I' Hi Er Er' Es Ez Hn. apply map_eq. intros j. rewrite abs_lookup.
  assert (Hin : j ∈ node_list m' <-> j = i \/ j ∈ node_list m).
  { rewrite !(in_node_list S E) by done. rewrite Er, Er'. set_solver. }
  destruct (decide (j = i)) as [->|Hji].
  - rewrite lookup_insert_eq, decide_True by tauto. by rewrite Es, Ez.
  - rewrite lookup_insert_ne, abs_lookup by done.
    destruct (Hn j Hji) as (_ & -> & -> & _). apply decide_ext. tauto.
Qed.

(** Taking the range of a node inside a hole. *)
Lemma take_place S E m i s z h :
  mm_inv S E m -> i ∉ ring m -> h ∈ ring m -> start (node m i) = s -> size (node m i) = z ->
  0 < z -> hns m h <= s -> s + z <= hend m h ->
  exists m', occupy h i (hns m h) (hend m h) s (s + z) m = Some m' /\ mm_inv S E m'
    /\ abs m' = <[i := (s, z)]> (abs m)
    /\ (forall j, j <> i -> same_place (node m j) (node m' j)).
Proof.
  intros I Hi Hh Es Ez Hz H1 H2. destruct (elem_of_ring_split _ _ Hh) as (a & b & Er).
  destruct (inv_at S E m a h b I Er) as (En & _). rewrite En in H2 |- *.
  destruct (occupy_ok S E m a b h i s (s + z) I Er Hi) as (m' & Eo & I' & Er' & Hp & Hn);
    [done|lia|lia|done|done|].
  exists m'. split; [done|]. split; [done|]. split; [|done]. destruct Hp as (_ & Es' & Ez' & _).
  assert (i <> 0) by (intros ->; apply Hi; by left).
  apply (abs_insert S E m m' i s z a h b); try done; [by rewrite Es'|by rewrite Ez'].
Qed.

Context (Hshrink : adjust_shrinks color_adjust).

Lemma reserve_code S E m i s z :
  mm_inv S E m -> i ∉ ring m -> start (node m i) = s -> size (node m i) = z ->
  is_u64 s -> is_u64 z ->
  exists r m', drm_mm_reserve_node color_adjust i m = Some (r, m') /\ mm_inv S E m'
  /\ (r = 0 /\ available S E (abs m) s z /\ abs m' = <[i := (s, z)]> (abs m)
      \/ r = - ENOSPC /\ m' = m /\ (color_adjust = None -> ~ available S E (abs m) s z)).
Proof.
  intros I Hi Es Ez Hs Hz. destruct (iv_bounds _ _ _ I) as [[HS HSE] HE].
  unfold drm_mm_reserve_node. rewrite Es, Ez. destruct (u64_spec (s + z)) as (k & Ek & Hk).
  unfold is_u in Hs, Hz.
  destruct (Z.leb_spec (u64 (s + z)) s) as [Hle|Hlt].
  { exists (- ENOSPC), m. split; [done|]. split; [done|]. right. split; [done|]. split; [done|].
    intros _ (? & ? & ? & _). rewrite u64_small in Hle by (unfold is_u; lia). lia. }
  assert (Eu : u64 (s + z) = s + z) by lia. rewrite Eu in *.
  destruct (iv_holes _ _ _ I) as [_ _ Ad Au _ _ _ Hpos _].
  assert (Hgap := holes_gap_sorted S E m I).
  assert (Hw : Forall (fun h => 0 <= HOLE_SIZE m h /\ u64 (hend m h) = hend m h)
    (inorder (holes_addr m))).
  { rewrite Ad. apply Forall_forall. intros h Hh%holes_ring.
    destruct (hole_bounds S E m h I Hh) as (_ & ? & _ & ?). done. }
  unfold find_hole_addr. assert (Hgap' := Hgap). rewrite <- Ad in Hgap'. rewrite Forall_forall in Hpos.
  destruct (find_addr_spec m s 0 (holes_addr m) None Au Hgap' Hw)
    as [[-> Hsm]|(a & h & b & -> & Et & Ha & Hb)].
  { exists (- ENOSPC), m. split; [done|]. split; [done|]. right. split; [done|]. split; [done|].
    intros _ [_ (h & Hh & _)]%available_hole; [|done]. rewrite Ad, Forall_forall in Hsm.
    specialize (Hsm h Hh). specialize (Hpos h Hh). cbn in Hsm. lia. }
  rewrite Ad in Et. assert (Hh : h ∈ ring m) by (apply holes_ring; rewrite Et; set_solver).
  destruct (hole_bounds S E m h I Hh) as (_ & _ & _ & Hu). rewrite Hu.
  pose proof (Hshrink m h (color (node m i)) (hns m h) (hend m h)) as Hadj.
  destruct (adjust color_adjust m h (color (node m i)) (hns m h, hend m h)) as [lo hi] eqn:Ead.
  cbn [fst snd] in Hadj.
  destruct (Z.ltb_spec s lo); [|destruct (Z.ltb_spec hi (s + z))]; cbn [orb].
  3: { destruct (take_place S E m i s z h I Hi Hh Es Ez) as (m' & -> & I' & Eabs & _); [lia..|].
    exists 0, m'. split; [done|]. split; [done|]. left. split; [done|]. split; [|done].
    apply available_hole; [done|]. split; [lia|]. exists h. split; [rewrite Et; set_solver|lia]. }
  all: exists (- ENOSPC), m; split; [done|]; split; [done|]; right; split; [done|]; split; [done|];
    intros Hnone [_ (j & Hj & J1 & J2)]%available_hole; [|done];
    rewrite Hnone in Ead; injection Ead as <- <-;
    (assert (Hjh : j = h); [|subst j; lia]);
    assert (Hj' := Hj); rewrite Et in Hj; specialize (Hpos j Hj');
    rewrite Forall_forall in Ha, Hb;
    (apply elem_of_app in Hj as [Hj|[->|Hj]%elem_of_cons];
      [specialize (Ha j Hj)|done|specialize (Hb j Hj)]; lia).
Qed.
(** The place an insertion chose: the first hole of its mode's order that has room. *)
Definition chosen (q : request) (m : drm_mm) (h a : Z) : Prop :=
  h ∈ holes m /\ fit color_adjust q m h = Some a
  /\ exists pre post, order m (rq_mode q) = pre ++ h :: post
       /\ Forall (fun j => fit color_adjust q m j = None) pre.

Lemma mk_request_ok z al c lo hi mode :
  0 < z -> is_u64 al -> 0 <= lo -> hi < 2 ^ 64 -> request_ok (mk_request z al c lo hi mode).
Proof.
  intros Hz Hal Hlo Hhi. unfold is_u in Hal. split; cbn; try done.
  - destruct (al <=? 1); lia.
  - apply mask_of. unfold is_u. destruct (al <=? 1); lia.
Qed.

Lemma insert_code S E m i z al c lo hi mode :
  mm_inv S E m -> i ∉ ring m -> is_u64 z -> is_u64 al -> 0 <= lo <= hi -> hi < 2 ^ 64 ->
  let q := mk_request z al c lo hi mode in
  exists r m', drm_mm_insert_node_in_range color_adjust i z al c lo hi mode m = Some (r, m')
  /\ mm_inv S E m'
  /\ (r = 0 /\ 0 < z /\ (exists h a, chosen q m h a /\ abs m' = <[i := (a, z)]> (abs m)
         /\ start (node m' i) = a)
         /\ (forall j, j <> i -> same_place (node m j) (node m' j))
      \/ r = - ENOSPC /\ m' = m
         /\ (tst mode DRM_MM_INSERT_ONCE = true \/ z = 0
             \/ forall h a, h ∈ holes m -> ~ placed z (rq_alignment q)
                  (bounds color_adjust q m h).1 (bounds color_adjust q m h).2 a)).
Proof.
  intros I Hi Hz Hal Hlo Hhi q. unfold drm_mm_insert_node_in_range. unfold is_u in Hz.
  rewrite (u64_small (hi - lo)) by (unfold is_u; lia).
  destruct (Z.eqb_spec z 0) as [->|Hz0]; cbn [orb].
  { exists (- ENOSPC), m. split; [done|]. split; [done|]. right. tauto. }
  assert (Hq : request_ok q) by (apply mk_request_ok; done || lia).
  assert (Hw := fun h Hh => bounds_within color_adjust m q Hq Hshrink h (holes_ring m h Hh)).
  destruct (Z.ltb_spec (hi - lo) z) as [Hlt|Hle].
  { exists (- ENOSPC), m. split; [done|]. split; [done|]. right. split; [done|]. split; [done|].
    right; right. intros h a Hh [? ? _]. specialize (Hw h Hh).
    change (rq_start q) with lo in Hw. change (rq_end q) with hi in Hw. lia. }
  destruct (iv_holes _ _ _ I) as [_ _ _ _ Hps Hss Hleft _ _].
  destruct (Z.ltb_spec (sz_or_zero m (rb_leftmost (holes_size m))) z) as [Hl|Hl].
  { exists (- ENOSPC), m. split; [done|]. split; [done|]. right. split; [done|]. split; [done|].
    right; right. intros h a Hh [? ? _]. specialize (Hw h Hh). rewrite <- Hps in Hh.
    rewrite Hleft in Hl. destruct (inorder (rb_root (holes_size m))) as [|x l]; [set_solver|].
    cbn [head sz_or_zero] in Hl. apply StronglySorted_cons in Hss as [Hx _].
    apply elem_of_cons in Hh as [->|Hh]; [lia|]. rewrite Forall_forall in Hx.
    specialize (Hx h Hh). lia. }
  assert (Hne : rb_root (holes_size m) <> Leaf).
  { intros Hleaf. rewrite Hleft, Hleaf in Hl. cbn in Hl. lia. }
  destruct (find_spec color_adjust S E m q I Hq Hshrink Hne) as (first & r & Ef & Es & Hr).
  cbn zeta. fold q. change (first_hole m lo hi z (rq_mode q) = Some first) in Ef.
  rewrite Ef. cbn [mbind option_bind]. rewrite Es.
  cbn [mbind option_bind]. assert (Hp := order_perm S E m (rq_mode q) I).
  destruct r as [[h a]|].
  - destruct Hr as (pre & post & Eo & Efit & Hpre).
    assert (Hh : h ∈ holes m) by (rewrite <- Hp, Eo; set_solver).
    assert (Hhr := holes_ring m h Hh).
    pose proof (fit_spec color_adjust S E m q I Hq Hshrink h Hhr) as Hf. rewrite Efit in Hf.
    destruct Hf as [[Ha1 Ha2 _] _]. destruct (Hw h Hh) as (_ & _ & W1 & _ & W2 & _).
    cbn [rq_size q mk_request] in Ha2.
    destruct (hole_bounds S E m h I Hhr) as (B1 & _ & B2 & Hu). rewrite Hu.
    destruct (iv_bounds _ _ _ I) as [[HS HSE] HE].
    rewrite (u64_small (a + z)) by (unfold is_u; lia).
    set (m0 := upd (with_place a z c) i m).
    assert (Hih : h <> i) by (intros ->; done).
    assert (N0 : node m0 i = with_place a z c (node m i)) by (unfold m0; rewrite node_upd; by case_decide).
    assert (Nh : node m0 h = node m h) by (unfold m0; rewrite node_upd; by case_decide).
    assert (Eh : hns m0 h = hns m h /\ HOLE_SIZE m0 h = HOLE_SIZE m h).
    { unfold hole_node_start, HOLE_SIZE. by rewrite Nh. }
    destruct Eh as [Eh1 Eh2].
    assert (I0 : mm_inv S E m0) by (by apply inv_upd_other).
    destruct (take_place S E m0 i a z h I0 Hi Hhr) as (m' & Eo' & I' & Eabs & Hsame);
      [by rewrite N0|by rewrite N0|lia|lia|lia|].
    rewrite Eh1, Eh2 in Eo'. rewrite Eo'. cbn [mbind option_bind].
    exists 0, m'. split; [done|]. split; [done|]. left. split; [done|]. split; [lia|].
    split; [exists h, a; split; [|split]|].
    + split; [done|]. split; [done|]. by exists pre, post.
    + rewrite Eabs. f_equal. apply map_eq. intros j. rewrite !abs_lookup.
      change (node_list m0) with (node_list m). destruct (decide (j ∈ node_list m)); [|done].
      unfold m0. rewrite node_upd. case_decide; [|done]. subst. exfalso. apply Hi. by right.
    + assert (Hl' : abs m' !! i = Some (a, z)) by (rewrite Eabs; apply lookup_insert_eq).
      rewrite abs_lookup in Hl'. destruct (decide _); [|done]. by injection Hl'.
    + intros j Hj. specialize (Hsame j Hj). unfold m0 in Hsame.
      rewrite node_upd, decide_False in Hsame by done. exact Hsame.
  - exists (- ENOSPC), m. split; [done|]. split; [done|]. right. split; [done|]. split; [done|].
    destruct Hr as [Hr|Hr]; [by left|]. right; right. intros h a Hh.
    rewrite Forall_forall in Hr. rewrite <- Hp in Hh. specialize (Hr h Hh). rewrite Hp in Hh.
    pose proof (fit_spec color_adjust S E m q I Hq Hshrink h (holes_ring m h Hh)) as Hf.
    rewrite Hr in Hf. apply Hf.
Qed.

Lemma remove_code S E m i :
  mm_inv S E m -> i ∈ node_list m ->
  mm_inv S E (drm_mm_remove_node i m) /\ abs (drm_mm_remove_node i m) = delete i (abs m)
  /\ (forall j, j <> i -> same_place (node m j) (node (drm_mm_remove_node i m) j)).
Proof.
  intros I Hi. destruct (elem_of_ring_split i (ring m)) as (a & b & Er); [by right|].
  assert (Hi0 : i <> 0) by (by apply (in_node_list S E m i I) in Hi as [_ ?]).
  destruct a as [|p a _] using rev_ind; [by injection Er as ? _|].
  rewrite <- app_assoc in Er. cbn in Er.
  destruct (remove_ok S E m a b p i I Er) as (I' & Er' & _ & Hn).
  destruct (ring_facts S E m a b p i I Er) as (Hnd & Hpi & Hp & Hia & _).
  split; [done|]. split; [|done]. apply map_eq. intros j. rewrite abs_lookup.
  destruct (decide (j = i)) as [->|Hj].
  - rewrite lookup_delete_eq, decide_False; [done|]. rewrite (in_node_list S E) by done.
    rewrite Er'. set_solver.
  - rewrite lookup_delete_ne, abs_lookup by done. destruct (Hn j Hj) as (_ & -> & -> & _).
    apply decide_ext. rewrite !(in_node_list S E) by done. rewrite Er, Er'. set_solver.
Qed.
(** One command, whatever the driver's callback restricts. *)
Lemma exec_code S E m c :
  mm_inv S E m -> legal m c -> exists r m', exec c m = Some (r, m') /\ mm_inv S E m'.
Proof.
  intros I Hc. destruct c as [i s z c|i z al c lo hi mode|i]; cbn [exec legal] in *.
  - destruct Hc as (Hi & Hs & Hz).
    destruct (reserve_code S E (upd (with_place s z c) i m) i s z) as (r & m' & Er & I' & _);
      try done; [by apply inv_upd_other| | |by exists r, m'];
      rewrite node_upd; by case_decide.
  - destruct Hc as (Hi & Hz & Hal & Hlo & Hhi).
    destruct (insert_code S E m i z al c lo hi mode I Hi Hz Hal Hlo Hhi) as (r & m' & Er & I' & _).
    by exists r, m'.
  - exists 0, (drm_mm_remove_node i m). split; [done|]. by apply remove_code.
Qed.

(** The states of an allocator of the range from [S] to [E]: a fresh one, the result of a
    command, and what the driver makes of nodes that are not in it. *)
Inductive reach (S E : Z) : drm_mm -> Prop :=
  | reach_init : 0 <= S -> S < E -> E < 2 ^ 64 -> reach S E (drm_mm_init S (E - S))
  | reach_exec m c r m' : reach S E m -> legal m c -> exec c m = Some (r, m') -> reach S E m'
  | reach_driver m f i : reach S E m -> i ∉ ring m -> reach S E (upd f i m).

Lemma reach_mm_inv S E m : reach S E m -> mm_inv S E m.
Proof.
  induction 1 as [H1 H2 H3|m c r m' _ IH Hc Ec|m f i _ IH Hi].
  - replace E with (S + (E - S)) at 1 by lia. apply init_ok; lia.
  - destruct (exec_code S E m c IH Hc) as (r' & m2 & E2 & I2). rewrite E2 in Ec. by injection Ec as _ <-.
  - by apply inv_upd_other.
Qed.
End spec.

(** Without a callback a place in a free range is a place in the bounds of a hole. *)
Lemma available_place `{RbTree} `{!RbTreeLaws} S E m z al c lo hi mode a :
  mm_inv S E m -> placed z (if al <=? 1 then 0 else al) lo hi a -> available S E (abs m) a z ->
  let q := mk_request z al c lo hi mode in
  exists h, h ∈ holes m /\ hns m h <= a /\ a + z <= hend m h
    /\ placed z (rq_alignment q) (bounds None q m h).1 (bounds None q m h).2 a.
Proof.
  intros I [P1 P2 P3] Ha. apply available_hole in Ha as (Hz & h & Hh & H1 & H2); [|done].
  exists h. split; [done|]. split; [done|]. split; [done|].
  split; [|..|exact P3]; unfold bounds; cbn [adjust fst snd rq_start rq_end mk_request]; lia.
Qed.

Lemma none_shrinks : adjust_shrinks None.
Proof. intros m h c lo hi. cbn. lia. Qed.

Section theorems.
Context `{RbTree} `{!RbTreeLaws}.

(** C22. Without a driver callback every operation of the range allocator, on any state
    that satisfies its invariant, returns, keeps the invariant and takes a step of the
    specification, a map from nodes to disjoint ranges: a reservation succeeds exactly when
    the range is inside the allocator and free; an insertion, in any mode, puts the node at
    an aligned free place inside the range it was given and fails only when there is none
    or it was told to try one hole; a removal frees the range of its node; and a failure
    changes nothing. *)
Theorem exec_refines S E m c :
  mm_inv S E m -> legal m c ->
  exists r m', exec None c m = Some (r, m') /\ mm_inv S E m'
    /\ spec_step S E (abs m) c r (abs m').
Proof.
  intros I Hc. destruct c as [i s z c|i z al c lo hi mode|i]; cbn [exec legal] in *.
  - destruct Hc as (Hi & Hs & Hz). set (m0 := upd (with_place s z c) i m).
    assert (I0 : mm_inv S E m0) by (by apply inv_upd_other).
    assert (N0 : node m0 i = with_place s z c (node m i)).
    { unfold m0. rewrite node_upd. by case_decide. }
    assert (E0 : abs m0 = abs m).
    { apply map_eq. intros j. rewrite !abs_lookup. change (node_list m0) with (node_list m).
      destruct (decide (j ∈ node_list m)); [|done]. unfold m0. rewrite node_upd.
      case_decide; [|done]. subst. exfalso. apply Hi. by right. }
    destruct (reserve_code None none_shrinks S E m0 i s z) as (r & m' & Er & I' & Hr);
      [done|done|by rewrite N0|by rewrite N0|done|done|].
    exists r, m'. split; [done|]. split; [done|]. rewrite E0 in Hr.
    destruct Hr as [(-> & Ha & ->)|(-> & -> & Ha)]; [by constructor|].
    rewrite E0. constructor. by apply Ha.
  - destruct Hc as (Hi & Hz & Hal & Hlo & Hhi).
    destruct (insert_code None none_shrinks S E m i z al c lo hi mode I Hi Hz Hal Hlo Hhi)
      as (r & m' & Er & I' & Hr).
    exists r, m'. split; [done|]. split; [done|].
    destruct Hr as [(-> & Hz' & (h & a & (Hh & Ef & _) & -> & _) & _)|(-> & -> & Hf)].
    + assert (Hq : request_ok (mk_request z al c lo hi mode)) by (apply mk_request_ok; done || lia).
      pose proof (fit_spec None S E m _ I Hq none_shrinks h (holes_ring m h Hh)) as Hfit.
      rewrite Ef in Hfit. destruct Hfit as [[Ha1 Ha2 Ha3] _].
      cbn [bounds adjust fst snd rq_start rq_end rq_size mk_request] in *.
      constructor; [split; [lia|lia|done]|]. apply available_hole; [done|].
      split; [done|]. exists h. split; [done|lia].
    + constructor. destruct Hf as [Hf|[->|Hf]]; [by left| |]; right.
      * intros s _ (_ & ? & _). lia.
      * intros s Hs Ha.
        destruct (available_place S E m z al c lo hi mode s I Hs Ha) as (h & Hh & _ & _ & Hp).
        by apply (Hf h s).
  - exists 0, (drm_mm_remove_node i m). split; [done|].
    destruct (remove_code None none_shrinks S E m i I Hc) as (I' & -> & _). split; [done|constructor].
Qed.

(** C23. Every state of an allocator that its operations and the driver's writes to nodes
    outside of it lead to, with any callback that only restricts holes, satisfies the
    invariant: the nodes are disjoint, in address order and inside the range, each hole is
    exactly the gap that follows its node, the gaps that are not empty are the holes of the
    stack and of both trees, the trees are sorted, their cached first nodes and augmented
    maxima are right. *)
Theorem reachable_inv color_adjust S E m :
  adjust_shrinks color_adjust -> reach color_adjust S E m -> mm_inv S E m.
Proof. intros Hs Hr. by apply (reach_mm_inv color_adjust Hs). Qed.

(** C24. No legal operation gets stuck or runs forever in a reachable state: the searches
    of every insertion mode end within a round per hole of the stack. *)
Theorem exec_returns color_adjust S E m c :
  adjust_shrinks color_adjust -> reach color_adjust S E m -> legal m c ->
  exists r m', exec color_adjust c m = Some (r, m') /\ (r = 0 \/ r = - ENOSPC).
Proof.
  intros Hs I%reach_mm_inv Hc; [|done].
  destruct c as [i s z c|i z al c lo hi mode|i]; cbn [exec legal] in *.
  - destruct Hc as (Hi & Hs' & Hz).
    destruct (reserve_code color_adjust Hs S E (upd (with_place s z c) i m) i s z)
      as (r & m' & Er & _ & Hr); try done; [by apply inv_upd_other| | |].
    1, 2: rewrite node_upd; by case_decide.
    exists r, m'. split; [done|]. tauto.
  - destruct Hc as (Hi & Hz & Hal & Hlo & Hhi).
    destruct (insert_code color_adjust Hs S E m i z al c lo hi mode I Hi Hz Hal Hlo Hhi)
      as (r & m' & Er & _ & Hr).
    exists r, m'. split; [done|]. tauto.
  - exists 0, (drm_mm_remove_node i m). split; [done|by left].
Qed.

(** Where a directed insertion puts the node. *)
Lemma insert_extreme S E m i z al c lo hi mode m' a :
  mm_inv S E m -> legal m (Insert i z al c lo hi mode) ->
  drm_mm_insert_node_in_range None i z al c lo hi mode m = Some (0, m') ->
  placed z (if al <=? 1 then 0 else al) lo hi a -> available S E (abs m) a z ->
  (mode = DRM_MM_INSERT_LOW \/ mode = DRM_MM_INSERT_LOWEST -> start (node m' i) <= a)
  /\ (mode = DRM_MM_INSERT_HIGH \/ mode = DRM_MM_INSERT_HIGHEST -> a <= start (node m' i)).
Proof.
  intros I (Hi & Hz & Hal & Hlo & Hhi) Ei Hp Ha.
  destruct (insert_code None none_shrinks S E m i z al c lo hi mode I Hi Hz Hal Hlo Hhi)
    as (r & m2 & Er & _ & Hr). rewrite Er in Ei. injection Ei as -> ->.
  destruct Hr as [(_ & Hz' & (h & s & (Hh & Ef & pre & post & Eo & Hpre) & _ & Es) & _)|(? & _)]; [|done].
  rewrite Es.
  destruct (available_place S E m z al c lo hi mode a I Hp Ha) as (j & Hj & J1 & J2 & Hpj).
  assert (Hq : request_ok (mk_request z al c lo hi mode)) by (apply mk_request_ok; done || lia).
  set (q := mk_request z al c lo hi mode) in *.
  pose proof (fun x Hx => fit_spec None S E m q I Hq none_shrinks x (holes_ring m x Hx)) as Hfit.
  assert (Hfj := Hfit j Hj). assert (Hfh := Hfit h Hh). rewrite Ef in Hfh.
  destruct Hfh as [[F1 F2 _] Fbest]. cbn [rq_size q mk_request] in F2.
  destruct (bounds_within None m q Hq none_shrinks h (holes_ring m h Hh))
    as (_ & _ & W1 & _ & W2 & _).
  assert (Hjpre : j ∉ pre).
  { intros Hjp. rewrite Forall_forall in Hpre. rewrite (Hpre j Hjp) in Hfj. by apply (Hfj a). }
  pose proof (holes_gap_sorted S E m I) as Hg.
  assert (Hj' : j = h \/ j ∈ post).
  { assert (j ∈ order m (rq_mode q)) by (by rewrite (order_perm S E m (rq_mode q) I)).
    rewrite Eo in *. set_solver. }
  split; intros Hm.
  - assert (Em : rq_mode q = DRM_MM_INSERT_LOW) by (by destruct Hm as [-> | ->]).
    rewrite Em in Eo, Fbest. change (holes m = pre ++ h :: post) in Eo.
    destruct Hj' as [->|Hj']; [by apply Fbest|]. rewrite Eo in Hg.
    apply StronglySorted_app in Hg as (_ & _ & [Hg _]%StronglySorted_cons).
    rewrite Forall_forall in Hg. specialize (Hg j Hj'). lia.
  - assert (Em : rq_mode q = DRM_MM_INSERT_HIGH) by (by destruct Hm as [-> | ->]).
    rewrite Em in Eo, Fbest. change (reverse (holes m) = pre ++ h :: post) in Eo.
    destruct Hj' as [->|Hj']; [by apply Fbest|].
    assert (Eh : holes m = reverse post ++ h :: reverse pre).
    { rewrite <- (reverse_involutive (holes m)), Eo, reverse_app, reverse_cons, <- app_assoc. done. }
    rewrite Eh in Hg. apply StronglySorted_app in Hg as (Hg & _ & _).
    specialize (Hg j h ltac:(by apply elem_of_reverse) ltac:(by left)). lia.
Qed.

(** Which hole the default mode takes. *)
Lemma insert_best_fit S E m i z al c lo hi m' a h :
  mm_inv S E m -> legal m (Insert i z al c lo hi DRM_MM_INSERT_BEST) ->
  drm_mm_insert_node_in_range None i z al c lo hi DRM_MM_INSERT_BEST m = Some (0, m') ->
  placed z (if al <=? 1 then 0 else al) lo hi a ->
  h ∈ holes m -> hns m h <= a -> a + z <= hend m h ->
  exists h', h' ∈ holes m /\ hns m h' <= start (node m' i)
    /\ start (node m' i) + z <= hend m h' /\ HOLE_SIZE m h' <= HOLE_SIZE m h.
Proof.
  intros I (Hi & Hz & Hal & Hlo & Hhi) Ei Hp Hj J1 J2.
  destruct (insert_code None none_shrinks S E m i z al c lo hi DRM_MM_INSERT_BEST I Hi Hz Hal Hlo Hhi)
    as (r & m2 & Er & _ & Hr). rewrite Er in Ei. injection Ei as -> ->.
  destruct Hr as [(_ & Hz' & (h' & s & (Hh & Ef & pre & post & Eo & Hpre) & _ & Es) & _)|(? & _)]; [|done].
  rewrite Es. exists h'.
  assert (Hq : request_ok (mk_request z al c lo hi DRM_MM_INSERT_BEST))
    by (apply mk_request_ok; done || lia).
  set (q := mk_request z al c lo hi DRM_MM_INSERT_BEST) in *.
  pose proof (fun x Hx => fit_spec None S E m q I Hq none_shrinks x (holes_ring m x Hx)) as Hfit.
  assert (Hfj := Hfit h Hj). assert (Hfh := Hfit h' Hh). rewrite Ef in Hfh.
  destruct Hfh as [[F1 F2 _] _]. cbn [rq_size q mk_request] in F2.
  destruct (bounds_within None m q Hq none_shrinks h' (holes_ring m h' Hh))
    as (_ & _ & W1 & _ & W2 & _).
  split; [done|]. split; [lia|]. split; [lia|].
  assert (Hjpre : h ∉ pre).
  { intros Hjp. rewrite Forall_forall in Hpre. rewrite (Hpre h Hjp) in Hfj. apply (Hfj a).
    destruct Hp as [P1 P2 P3].
    change (bounds None q m h) with (Z.max (hns m h) lo, Z.min (hend m h) hi).
    split; [cbn [fst]; lia|cbn [snd]; change (rq_size q) with z; lia|exact P3]. }
  assert (Ho : order m (rq_mode q) = reverse (inorder (rb_root (holes_size m)))) by done.
  assert (Hj' : h = h' \/ h ∈ post).
  { assert (h ∈ order m (rq_mode q)) by (by rewrite (order_perm S E m (rq_mode q) I)).
    rewrite Eo in *. set_solver. }
  destruct Hj' as [->|Hj']; [done|].
  pose proof (ho_size_sorted _ _ (iv_holes _ _ _ I)) as Hs.
  assert (Et : inorder (rb_root (holes_size m)) = reverse post ++ h' :: reverse pre).
  { rewrite <- (reverse_involutive (inorder _)), <- Ho, Eo, reverse_app, reverse_cons, <- app_assoc.
    done. }
  rewrite Et in Hs. apply StronglySorted_app in Hs as (Hs & _ & _).
  exact (Hs h h' ltac:(by apply elem_of_reverse) ltac:(by left)).
Qed.

(** C25. A bottom-up insertion that succeeds gives its node the lowest aligned place of
    the range that is free, a top-down one the highest, and one in the default mode takes a
    hole no larger than any hole with room for the node. *)
Theorem insert_placement S E m i z al c lo hi mode m' a :
  mm_inv S E m -> legal m (Insert i z al c lo hi mode) ->
  drm_mm_insert_node_in_range None i z al c lo hi mode m = Some (0, m') ->
  placed z (if al <=? 1 then 0 else al) lo hi a ->
  (available S E (abs m) a z ->
   (mode = DRM_MM_INSERT_LOW \/ mode = DRM_MM_INSERT_LOWEST -> start (node m' i) <= a)
   /\ (mode = DRM_MM_INSERT_HIGH \/ mode = DRM_MM_INSERT_HIGHEST -> a <= start (node m' i)))
  /\ (mode = DRM_MM_INSERT_BEST -> forall h, h ∈ holes m -> hns m h <= a -> a + z <= hend m h ->
      exists h', h' ∈ holes m /\ hns m h' <= start (node m' i)
        /\ start (node m' i) + z <= hend m h' /\ HOLE_SIZE m h' <= HOLE_SIZE m h).
Proof.
  intros I Hleg Ei Hp. split; [by apply (insert_extreme S E m i z al c lo hi mode)|].
  intros -> h. by apply (insert_best_fit S E m i z al c lo hi).
Qed.
End theorems.

(** ** At concrete states *)

Module Sample.
Import Plain.

(** A callback that keeps a page free of neighbours of another color. *)
Definition guard (m : drm_mm) (hole c : Z) (b : Z * Z) : Z * Z :=
  if color (node m hole) =? c then b else (b.1 + 4096, b.2 - 4096).

Lemma guard_shrinks : adjust_shrinks (Some guard).
Proof. intros m h c lo hi. cbn. unfold guard. destruct (_ =? _); cbn; lia. Qed.

Definition fresh : drm_mm := drm_mm_init 4096 65536.
Definition first_step : command := Insert 1 4096 8192 7 0 (2 ^ 40) DRM_MM_INSERT_HIGH.
Definition after (ca : option (drm_mm -> Z -> Z -> Z * Z -> Z * Z)) (c : command) (m : drm_mm) : drm_mm :=
  match exec ca c m with Some (_, m') => m' | None => m end.
Definition guarded : drm_mm := after (Some guard) first_step fresh.
Definition one : drm_mm := after None first_step fresh.

Lemma fresh_inv : mm_inv 4096 69632 fresh.
Proof. apply (init_ok 4096 65536); lia. Qed.

Lemma first_legal : legal fresh first_step.
Proof.
  split; [intros [?|?%not_elem_of_nil]%elem_of_cons; done|]. unfold is_u. lia.
Qed.

Lemma guarded_step : exec (Some guard) first_step fresh = Some (0, guarded).
Proof. vm_compute. reflexivity. Qed.

Lemma one_step : exec None first_step fresh = Some (0, one).
Proof. vm_compute. reflexivity. Qed.

Lemma one_inv : mm_inv 4096 69632 one.
Proof.
  destruct (exec_code None none_shrinks _ _ _ _ fresh_inv first_legal) as (r & m' & E & I).
  rewrite one_step in E. injection E as E2 E3. by rewrite E3.
Qed.

Lemma one_available : available 4096 69632 (abs one) 8192 4096.
Proof.
  apply available_hole; [exact one_inv|]. split; [lia|]. exists 0.
  split; [|vm_compute; split; discriminate]. apply list_elem_of_filter. split; [done|by left].
Qed.
End Sample.

Import Plain.

Lemma exec_refines_witness :
  mm_inv 4096 69632 Sample.one /\ legal Sample.one (Remove 1) /\
  exists r m', exec None (Remove 1) Sample.one = Some (r, m') /\
    mm_inv 4096 69632 m' /\ spec_step 4096 69632 (abs Sample.one) (Remove 1) r (abs m').
Proof.
  assert (Hl : legal Sample.one (Remove 1)) by (vm_compute; left).
  split; [exact Sample.one_inv|]. split; [exact Hl|].
  exact (exec_refines 4096 69632 Sample.one (Remove 1) Sample.one_inv Hl).
Defined.

Lemma guarded_reach :
  reach (Some Sample.guard) 4096 69632 Sample.guarded.
Proof.
  apply (reach_exec _ _ _ Sample.fresh Sample.first_step 0); [|exact Sample.first_legal|
    exact Sample.guarded_step]. by apply (reach_init _ 4096 69632).
Qed.

Lemma reachable_inv_witness :
  adjust_shrinks (Some Sample.guard) /\
  reach (Some Sample.guard) 4096 69632 Sample.guarded /\
  mm_inv 4096 69632 Sample.guarded.
Proof.
  split; [exact Sample.guard_shrinks|]. split; [exact guarded_reach|].
  exact (reachable_inv (Some Sample.guard) 4096 69632 Sample.guarded Sample.guard_shrinks guarded_reach).
Defined.

Lemma exec_returns_witness :
  reach (Some Sample.guard) 4096 69632 Sample.guarded /\
  legal Sample.guarded (Remove 1) /\
  exists r m', exec (Some Sample.guard) (Remove 1) Sample.guarded = Some (r, m')
    /\ (r = 0 \/ r = - ENOSPC).
Proof.
  assert (Hl : legal Sample.guarded (Remove 1)) by (vm_compute; left).
  split; [exact guarded_reach|]. split; [exact Hl|].
  exact (exec_returns (Some Sample.guard) 4096 69632 Sample.guarded (Remove 1)
    Sample.guard_shrinks guarded_reach Hl).
Defined.

Definition second_step (mode : Z) : command := Insert 2 4096 4096 7 0 (2 ^ 40) mode.

Lemma second_legal mode : legal Sample.one (second_step mode).
Proof.
  split; [|unfold is_u; lia]. change (ring Sample.one) with [0; 1].
  intros [?|[?|?%not_elem_of_nil]%elem_of_cons]%elem_of_cons; done.
Qed.

Lemma place_8192 : placed 4096 4096 0 (2 ^ 40) 8192.
Proof. split; [lia|lia|by right]. Qed.

Lemma insert_placement_witness :
  exists m' m2 h', drm_mm_insert_node_in_range None 2 4096 4096 7 0 (2 ^ 40)
               DRM_MM_INSERT_LOW Sample.one = Some (0, m')
  /\ placed 4096 4096 0 (2 ^ 40) 8192 /\ available 4096 69632 (abs Sample.one) 8192 4096
  /\ start (node m' 2) <= 8192
  /\ drm_mm_insert_node_in_range None 2 4096 4096 7 0 (2 ^ 40) DRM_MM_INSERT_BEST Sample.one = Some (0, m2)
  /\ h' ∈ holes Sample.one /\ hns Sample.one h' <= start (node m2 2)
  /\ start (node m2 2) + 4096 <= hend Sample.one h'
  /\ HOLE_SIZE Sample.one h' <= HOLE_SIZE Sample.one 0.
Proof.
  assert (E : forall mode, mode = DRM_MM_INSERT_LOW \/ mode = DRM_MM_INSERT_BEST ->
    drm_mm_insert_node_in_range None 2 4096 4096 7 0 (2 ^ 40) mode Sample.one
    = Some (0, Sample.after None (second_step mode) Sample.one))
    by (intros mode [-> | ->]; vm_compute; reflexivity).
  assert (Hh : 0 ∈ holes Sample.one) by (apply list_elem_of_filter; split; [done|by left]).
  pose proof (fun mode Em => insert_placement 4096 69632 Sample.one 2 4096 4096 7 0 (2 ^ 40) mode _ 8192
    Sample.one_inv (second_legal mode) (E mode Em) place_8192) as HP.
  destruct (HP DRM_MM_INSERT_LOW (or_introl eq_refl)) as [HL _].
  destruct (HP DRM_MM_INSERT_BEST (or_intror eq_refl)) as [_ HB].
  destruct (HB eq_refl 0 Hh) as (h' & H1 & H2 & H3 & H4); [vm_compute; discriminate|vm_compute; discriminate|].
  exists (Sample.after None (second_step DRM_MM_INSERT_LOW) Sample.one),
    (Sample.after None (second_step DRM_MM_INSERT_BEST) Sample.one), h'.
  split; [exact (E _ (or_introl eq_refl))|]. split; [exact place_8192|]. split; [exact Sample.one_available|].
  split; [apply HL; [exact Sample.one_available|left; reflexivity]|].
  exact (conj (E _ (or_intror eq_refl)) (conj H1 (conj H2 (conj H3 H4)))).
Defined.
