(* ===== verification/DrmMmScan.v ===== *)
(** * The range allocator: overlap queries and eviction scans

    The interval tree answers with the first node that meets a range.  An eviction scan
    takes nodes out of the list one at a time until the gap they leave has room, puts
    them back in the opposite order, and tells which of them to evict. *)

From stdpp Require Import base numbers list option gmap sorting.
From Stdlib Require Import ZArith Lia Bool.
From S2P Require Import Prelude RbTree DrmMm DrmMmInv DrmMmOps DrmMmSearch DrmMmSpec.
#[local] Open Scope Z_scope.

(** ** Overlap queries *)

Lemma tmax_attained val t :
  t <> Leaf -> (forall x, 0 <= val x) -> exists y, y ∈ inorder t /\ val y = tmax val t.
Proof.
  induction t as [|l IHl x r IHr]; intros Ht Hv; [done|]. cbn [tmax inorder].
  assert (Hsub : forall s, (s <> Leaf -> (forall x, 0 <= val x) ->
    exists y, y ∈ inorder s /\ val y = tmax val s) ->
    tmax val s <= val x \/ exists y, y ∈ inorder s /\ val y = tmax val s).
  { intros s IHs. destruct s; [left; cbn; apply Hv|right; by apply IHs]. }
  destruct (Hsub l IHl) as [Hl|(yl & Yl & El)], (Hsub r IHr) as [Hr|(yr & Yr & Er)].
  - exists x. split; [set_solver|]. lia.
  - destruct (Z.le_gt_cases (tmax val r) (val x)); [exists x|exists yr];
      (split; [set_solver|lia]).
  - destruct (Z.le_gt_cases (tmax val l) (val x)); [exists x|exists yl];
      (split; [set_solver|lia]).
  - destruct (Z.le_gt_cases (tmax val r) (val x)), (Z.le_gt_cases (tmax val l) (val x)),
      (Z.le_gt_cases (tmax val r) (tmax val l));
      first [exists x; split; [set_solver|lia]|exists yl; split; [set_solver|lia]
            |exists yr; split; [set_solver|lia]].
Qed.

(** The nodes that meet the closed range from [first] to [last]. *)
Definition meets (m : drm_mm) (first last : Z) (l : list Z) : list Z :=
  filter (fun i => start (node m i) <= last /\ first <= LAST m i) l.

Lemma meets_nil m first last l :
  (forall i, i ∈ l -> last < start (node m i) \/ LAST m i < first) -> meets m first last l = [].
Proof.
  intros Hl. unfold meets. induction l as [|x l IH]; [done|]. rewrite filter_cons.
  case_decide as Hx; [destruct (Hl x ltac:(by left)); lia|]. apply IH. intros i Hi. apply Hl. by right.
Qed.

Lemma subtree_search_spec m first last t :
  aug_ok (LAST m) (subtree_last m) t -> t <> Leaf -> first <= tmax (LAST m) t ->
  StronglySorted (fun i j => start (node m i) < start (node m j)) (inorder t) ->
  subtree_search m first last t = Some (head (meets m first last (inorder t))).
Proof.
  induction t as [|l IHl x r IHr]; intros Hok Ht Hm Hs; [done|].
  destruct Hok as (_ & Hl & Hr). cbn [inorder tmax] in *.
  apply StronglySorted_app in Hs as (Hlx & Hsl & Hs). apply StronglySorted_cons in Hs as [Hxr Hsr].
  rewrite Forall_forall in Hxr.
  assert (Here : tmax (LAST m) l < first \/ l = Leaf ->
    (if start (node m x) <=? last then if first <=? LAST m x then Some (Some x)
       else subtree_search m first last r else Some None)
    = Some (head (meets m first last (inorder l ++ x :: inorder r)))).
  { intros Hsm. unfold meets. rewrite filter_app. fold (meets m first last (inorder l)).
    rewrite (meets_nil m first last (inorder l)).
    2: { intros i Hi. right. destruct Hsm as [Hsm| ->]; [|by apply not_elem_of_nil in Hi].
         apply list_elem_of_In in Hi. pose proof (tmax_In (LAST m) l i Hi). lia. }
    cbn [app]. rewrite filter_cons.
    destruct (Z.leb_spec (start (node m x)) last); [destruct (Z.leb_spec first (LAST m x))|].
    - case_decide as Hx; [done|]. tauto.
    - case_decide as Hx; [lia|]. assert (Hfr : first <= tmax (LAST m) r).
      { pose proof (tmax_nonneg (LAST m) r). destruct Hsm as [Hsm| ->]; cbn in *; lia. }
      apply IHr; try done. intros ->. cbn in *. pose proof (LAST_nonneg m x). lia.
    - case_decide as Hx; [lia|]. fold (meets m first last (inorder r)).
      rewrite meets_nil; [done|]. intros i Hi. left. specialize (Hxr i Hi). lia. }
  cbn [subtree_search]. destruct l as [|ll y lr] eqn:El; [apply Here; by right|]. rewrite <- El in *.
  assert (Hc : subtree_last m !!! y = tmax (LAST m) l) by (rewrite El in Hl |- *; by destruct Hl).
  rewrite Hc. destruct (Z.leb_spec first (tmax (LAST m) l)) as [Hf|Hf]; [|apply Here; by left].
  assert (Hne : l <> Leaf) by (by rewrite El).
  rewrite (IHl Hl Hne Hf Hsl). unfold meets at 2. rewrite filter_app.
  fold (meets m first last (inorder l)).
  destruct (meets m first last (inorder l)) as [|j k] eqn:Em; [|done]. cbn [app head].
  destruct (tmax_attained (LAST m) l Hne (LAST_nonneg m)) as (w & Hw & Ew).
  assert (Hwl : last < start (node m w)).
  { destruct (Z.le_gt_cases (start (node m w)) last); [|done].
    assert (Hin : w ∈ meets m first last (inorder l)).
    { apply list_elem_of_filter. split; [lia|done]. }
    rewrite Em in Hin. by apply not_elem_of_nil in Hin. }
  fold (meets m first last (x :: inorder r)). rewrite meets_nil; [done|].
  intros i Hi. left. specialize (Hlx w i Hw Hi). lia.
Qed.

(** ** What a scan leaves of the allocator *)

(** Only the list, the flags and the counter of the scan differ. *)
Record light (m ms : drm_mm) : Prop := {
  lg_node j : start (node ms j) = start (node m j) /\ size (node ms j) = size (node m j)
    /\ hole_size (node ms j) = hole_size (node m j) /\ allocated (node ms j) = allocated (node m j)
    /\ color (node ms j) = color (node m j);
  lg_stack : hole_stack ms = hole_stack m;
  lg_interval : interval_tree ms = interval_tree m;
  lg_size : holes_size ms = holes_size m;
  lg_addr : holes_addr ms = holes_addr m;
  lg_last : subtree_last ms = subtree_last m;
  lg_max : subtree_max_hole ms = subtree_max_hole m
}.

Lemma light_hns m ms j : light m ms -> hns ms j = hns m j.
Proof. intros L. unfold hole_node_start. by destruct (lg_node _ _ L j) as (-> & -> & _). Qed.

Lemma light_inv S E m ms :
  light m ms -> node_list ms = node_list m -> mm_inv S E m -> mm_inv S E ms /\ abs ms = abs m.
Proof.
  intros L Hl I. pose proof (lg_node _ _ L) as Ln. pose proof (fun j => light_hns m ms j L) as Lh.
  assert (Lz : forall j, HOLE_SIZE ms j = HOLE_SIZE m j).
  { intros j. unfold HOLE_SIZE. by destruct (Ln j) as (_ & _ & -> & _). }
  assert (Er : ring ms = ring m) by (unfold ring; by rewrite Hl). split.
  - destruct I as [Ib Ihd Iz Ind It Ih Inn]. split; rewrite ?Hl; try done.
    + destruct (Ln 0) as (-> & _ & _ & -> & _). by rewrite Lh.
    + rewrite Forall_forall in Ind |- *. intros j Hj. destruct (Ind j Hj) as [s1 s2 s3 s4].
      destruct (Ln j) as (e1 & e2 & _ & e3 & _). split; rewrite ?e1, ?e2, ?e3; done.
    + rewrite Er. apply (tiles_ext m); [|done]. intros j _. destruct (Ln j) as (-> & _). by rewrite Lh.
    + unfold holes. rewrite Er. fold (holes_of ms (ring m)). rewrite (holes_of_ext m) by done.
      apply (holes_ok_ext m); [apply L..| |done]. intros j _. by rewrite Lh.
    + apply (nodes_ok_ext m); [apply L..| |done]. intros j _. unfold LAST.
      by destruct (Ln j) as (-> & -> & _).
  - apply map_eq. intros j. rewrite !abs_lookup, Hl.
    by destruct (Ln j) as (-> & -> & _).
Qed.

Lemma pred_of_absent p i l : i ∉ l -> pred_of p i l = None.
Proof.
  revert p. induction l as [|x l IH]; intros p Hi; [done|]. cbn.
  destruct (Z.eqb_spec x i) as [->|]; [set_solver|]. apply IH. set_solver.
Qed.

(** The nodes taken out, the last one first, and the state they leave. *)
Inductive scan_state (m : drm_mm) : list Z -> drm_mm -> Prop :=
  | scan_none ms : light m ms -> node_list ms = node_list m -> scan_state m [] ms
  | scan_one i picked before ms :
    scan_state m picked before -> i ∈ node_list before -> light m ms ->
    node_list ms = remove_id i (node_list before) ->
    (saved_link (node ms i)).1 = list_prev before i ->
    (forall j, j ∈ picked -> saved_link (node ms j) = saved_link (node before j)) ->
    scan_state m (i :: picked) ms.

Lemma scan_state_light m picked ms : scan_state m picked ms -> light m ms.
Proof. by destruct 1. Qed.

(** Only the links of the nodes taken out matter. *)
Lemma scan_state_ext m picked ms ms' :
  scan_state m picked ms -> light m ms' -> node_list ms' = node_list ms ->
  (forall j, j ∈ picked -> saved_link (node ms' j) = saved_link (node ms j)) ->
  scan_state m picked ms'.
Proof.
  intros Hs L El Hj. destruct Hs as [ms _ En|i picked before ms Hb Hi _ En Ei Ep].
  - constructor; [done|]. by rewrite El.
  - apply (scan_one m i picked before); try done.
    + by rewrite El.
    + by rewrite Hj by (by left).
    + intros j Hjp. rewrite Hj by (by right). by apply Ep.
Qed.

(** Every node is in the list or taken out, never both. *)
Lemma scan_state_nodes m picked ms :
  scan_state m picked ms ->
  forall j, j ∈ node_list m <-> j ∈ node_list ms \/ j ∈ picked.
Proof.
  induction 1 as [ms _ ->|i picked before ms _ IH Hi _ -> _ _]; intros j; [set_solver|].
  rewrite IH. unfold remove_id. rewrite list_elem_of_filter. destruct (decide (j = i)); set_solver.
Qed.

Lemma scan_state_sorted (R : Z -> Z -> Prop) m picked ms :
  scan_state m picked ms -> StronglySorted R (ring m) -> StronglySorted R (ring ms).
Proof.
  unfold ring. induction 1 as [ms _ ->|i picked before ms _ IH _ _ -> _ _]; intros Hs; [done|].
  specialize (IH Hs). apply StronglySorted_cons in IH as [I1 I2]. constructor.
  - by apply StronglySorted_filter.
  - rewrite Forall_forall in I1 |- *. intros x [_ Hx]%list_elem_of_filter. by apply I1.
Qed.

Section scan.
Context `{RbTree} `{!RbTreeLaws}.

(** The order of the ring: a node ends before those after it start. *)
Lemma ring_order S E m : mm_inv S E m ->
  StronglySorted (fun i j => hns m i <= start (node m j) /\ hns m i < hns m j) (ring m).
Proof.
  intros I. destruct (iv_bounds _ _ _ I) as [_ HE]. pose proof (iv_tiles _ _ _ I) as Ht.
  pose proof (iv_node _ _ _ I) as Hn. unfold ring in *. revert Ht Hn. generalize 0 as x.
  induction (node_list m) as [|y l IH]; intros x Ht Hn; [by repeat constructor|].
  assert (Hl := Hn). apply Forall_cons_1 in Hl as [_ Hl].
  assert (Hty := Ht). cbn [tiles] in Hty. destruct Hty as (H1 & H2 & Hty).
  constructor; [by apply IH|]. apply Forall_forall. intros j Hj.
  pose proof (tiles_between m E x (y :: l) j HE Hn Ht Hj). rewrite Forall_forall in Hn.
  rewrite (hns_node E m j (Hn j Hj) HE). destruct (Hn j Hj). lia.
Qed.

Lemma sorted_nodup m l : StronglySorted (fun i j => hns m i < hns m j) l -> NoDup l.
Proof.
  induction 1 as [|x l _ IH Hx]; constructor; [|done]. intros Hin. rewrite Forall_forall in Hx.
  specialize (Hx x Hin). lia.
Qed.

Lemma scan_state_nodup S E m picked ms : mm_inv S E m -> scan_state m picked ms -> NoDup (ring ms).
Proof.
  intros I Hs. apply (sorted_nodup m).
  exact (scan_state_sorted _ m picked ms Hs (inv_sorted S E m I)).
Qed.

(** The place of a node in the list. *)
Lemma node_place ms i :
  NoDup (ring ms) -> i ∈ node_list ms ->
  exists a h b, ring ms = a ++ h :: i :: b /\ 0 :: remove_id i (node_list ms) = a ++ h :: b
    /\ list_prev ms i = h /\ i <> 0.
Proof.
  intros Hn Hi. destruct (elem_of_ring_split i (ring ms)) as (a & b & Er); [by right|].
  assert (Hi0 : i <> 0) by (intros ->; unfold ring in Hn; by apply NoDup_cons in Hn as [? _]).
  destruct a as [|h a _] using rev_ind; [unfold ring in Er; injection Er as Er _; congruence|].
  rewrite <- app_assoc in Er. cbn in Er. exists a, h, b. split; [done|].
  split; [|split; [by apply (list_prev_split ms h i a b)|done]].
  assert (Hr : remove_id i (ring ms) = a ++ h :: b).
  { rewrite Er in Hn |- *. change (a ++ h :: i :: b) with (a ++ [h] ++ i :: b) in *.
    rewrite app_assoc in *. apply NoDup_delete in Hn as [_ Hni]. rewrite remove_id_at by done.
    by rewrite <- app_assoc. }
  unfold ring, remove_id in Hr. rewrite filter_cons in Hr. case_decide; [done|]. congruence.
Qed.

(** The state after the links of a scanned node are taken. *)
Definition scanned_out (i : Z) (ms : drm_mm) : drm_mm :=
  list_del i (upd (with_scanned true (list_prev ms i, list_next ms i)) i
                (set_scan_active (u64 (scan_active ms + 1)) ms)).

Lemma light_upd m ms b l i : light m ms -> light m (upd (with_scanned b l) i ms).
Proof.
  intros [Ln]. split; try done. intros j. rewrite node_upd. case_decide; [subst|]; apply Ln.
Qed.

Lemma scanned_out_state m picked ms i :
  scan_state m picked ms -> i ∈ node_list ms -> i ∉ picked ->
  scan_state m (i :: picked) (scanned_out i ms).
Proof.
  intros Hs Hi Hp. apply (scan_one m i picked ms); try done.
  - destruct (light_upd m (set_scan_active (u64 (scan_active ms + 1)) ms) true
      (list_prev ms i, list_next ms i) i) as [Ln]; [|by split].
    by destruct (scan_state_light _ _ _ Hs).
  - change (node (scanned_out i ms) i) with
      (node (upd (with_scanned true (list_prev ms i, list_next ms i)) i ms) i).
    rewrite node_upd. by case_decide.
  - intros j Hj. change (node (scanned_out i ms) j) with
      (node (upd (with_scanned true (list_prev ms i, list_next ms i)) i ms) j).
    rewrite node_upd. case_decide; [by subst|done].
Qed.

(** Adding a node to a scan: there is room for the request between the nodes that
    are left on either side, or the scan goes on. *)
Lemma scan_add_spec S E m picked ms i sz al lo hi hit_start hit_end c mode :
  mm_inv S E m -> scan_state m picked ms -> i ∈ node_list ms -> i ∉ picked ->
  0 < sz -> is_u64 al -> 0 <= lo -> hi < 2 ^ 64 ->
  let al' := if al <=? 1 then 0 else al in
  let s := Scan sz al' (if is_power_of_2 al' then al' - 1 else 0) lo hi hit_start hit_end c mode in
  let ms' := scanned_out i ms in
  exists a h b, ring ms' = a ++ h :: b /\
  ((exists adj, drm_mm_scan_add_block None s i ms = (true, set_hit adj (adj + sz) s, ms')
      /\ placed sz al' (Z.max (hns m h) lo) (Z.min (nxt m E b) hi) adj)
   \/ drm_mm_scan_add_block None s i ms = (false, s, ms')).
Proof.
  intros I Hs Hi Hp Hsz Hal Hlo Hhi al' s ms'.
  destruct (node_place ms i (scan_state_nodup S E m picked ms I Hs) Hi)
    as (a & h & b & Er & Er' & Eprev & Hi0).
  assert (Hs' := scanned_out_state m picked ms i Hs Hi Hp).
  assert (L := scan_state_light _ _ _ Hs'). fold ms' in L, Hs'.
  assert (Er2 : ring ms' = a ++ h :: b) by exact Er'.
  assert (Eend : hole_node_end ms' h = nxt m E b).
  { unfold hole_node_end.
    rewrite (list_next_split ms' h a b (scan_state_nodup S E m _ ms' I Hs') Er2).
    destruct (lg_node _ _ L (default 0 (head b))) as (-> & _). destruct b; [|done].
    by destruct (iv_head _ _ _ I). }
  destruct (iv_bounds _ _ _ I) as [[HS HSE] HE].
  assert (Hh : h ∈ ring m).
  { assert (Hr : h ∈ ring ms') by (rewrite Er2; set_solver). unfold ring in Hr |- *.
    apply elem_of_cons in Hr as [->|Hr]; [by left|]. right.
    apply (scan_state_nodes _ _ _ Hs'). by left. }
  destruct (hole_bounds S E m h I Hh) as (B1 & _ & _).
  assert (Bn : nxt m E b <= E).
  { destruct b as [|j b]; [done|]. cbn. assert (Hj : j ∈ node_list m).
    { apply (scan_state_nodes _ _ _ Hs'). left. assert (Hr : j ∈ ring ms') by (rewrite Er2; set_solver).
      unfold ring in Hr. apply elem_of_cons in Hr as [->|Hr]; [|done].
      pose proof (scan_state_nodup S E m _ ms' I Hs') as Hn. rewrite Er2 in Hn.
      unfold ring in Er2. destruct a as [|x a]; injection Er2 as Ex _.
      - subst h. apply NoDup_cons in Hn as [Hn _]. set_solver.
      - subst x. cbn in Hn. apply NoDup_cons in Hn as [Hn _]. set_solver. }
    pose proof (iv_node _ _ _ I) as Hn. rewrite Forall_forall in Hn. destruct (Hn j Hj). lia. }
  exists a, h, b. split; [done|].
  assert (Ead : drm_mm_scan_add_block None s i ms =
    match align_in mode sz al' (sc_remainder_mask s) (Z.max (hns m h) lo) (Z.min (nxt m E b) hi) with
    | None => (false, s, ms')
    | Some adj => (true, set_hit adj (u64 (adj + sz)) s, ms')
    end).
  { rewrite <- Eend, <- (light_hns m ms' h L). unfold drm_mm_scan_add_block.
    change (list_prev (set_scan_active ?k ms) i) with (list_prev ms i).
    change (list_next (set_scan_active ?k ms) i) with (list_next ms i).
    rewrite Eprev. unfold ms', scanned_out. rewrite Eprev. reflexivity. }
  unfold is_u in Hal.
  pose proof (align_in_spec mode sz al' (sc_remainder_mask s) (Z.max (hns m h) lo)
    (Z.min (nxt m E b) hi) ltac:(lia) ltac:(lia) Hsz ltac:(unfold al'; destruct (al <=? 1); lia)
    ltac:(apply mask_of; unfold al', is_u; destruct (al <=? 1); lia)) as Hsp.
  rewrite Ead. destruct (align_in _ _ _ _ _ _) as [adj|]; [left|by right].
  destruct Hsp as [Hpl _]. exists adj. split; [|done]. rewrite u64_small; [done|].
  destruct Hpl. unfold is_u. lia.
Qed.

(** Putting the last node of a scan back. *)
Lemma scan_remove_spec S E m s i picked ms :
  mm_inv S E m -> scan_state m (i :: picked) ms ->
  exists ms', drm_mm_scan_remove_block s i ms
    = Some ((sc_hit_start s <? hns m i) && (start (node m i) <? sc_hit_end s), ms')
  /\ scan_state m picked ms'.
Proof.
  intros I Hs. assert (L := scan_state_light _ _ _ Hs).
  inversion Hs as [|? ? before ? Hb Hi _ En Ei Ep]; subst.
  destruct (node_place before i (scan_state_nodup S E m picked before I Hb) Hi)
    as (a & h & b & Er & Er' & Eprev & Hi0).
  assert (Erm : ring ms = a ++ h :: b) by (unfold ring; by rewrite En).
  assert (Hnot : i ∉ node_list ms).
  { rewrite En. unfold remove_id. rewrite list_elem_of_filter. tauto. }
  assert (Epm : list_prev ms i = h).
  { unfold list_prev. destruct (Z.eqb_spec i 0); [done|]. by rewrite pred_of_absent, Ei. }
  set (m1 := set_scan_active (u64 (scan_active ms - 1)) (upd (with_scanned false (0, 0)) i ms)).
  destruct (list_add_split i h m1 a b) as (l & Ea & El); [|exact Erm|].
  { exact (scan_state_nodup S E m _ ms I Hs). }
  exists (set_list l m1). split.
  - unfold drm_mm_scan_remove_block. rewrite Epm.
    change (set_scan_active _ (upd (with_scanned false (0, 0)) i ms)) with m1. rewrite Ea.
    cbn [mbind option_bind].
    assert (N : start (node (set_list l m1) i) = start (node m i)
      /\ size (node (set_list l m1) i) = size (node m i)).
    { change (node (set_list l m1) i) with (node (upd (with_scanned false (0, 0)) i ms) i).
      rewrite node_upd. case_decide; [|done]. by destruct (lg_node _ _ L i) as (e1 & e2 & _). }
    destruct N as [-> ->]. done.
  - assert (L1 : light m (set_list l m1)).
    { destruct (light_upd m ms false (0, 0) i L) as [Ln]. by split. }
    apply (scan_state_ext m picked before); [done|done| |].
    + change (node_list (set_list l m1)) with l. unfold ring in Er. rewrite <- El in Er.
      by injection Er.
    + intros j Hj. change (node (set_list l m1) j) with (node (upd (with_scanned false (0, 0)) i ms) j).
      rewrite node_upd. case_decide as Hji; [|by apply Ep]. subst j. exfalso.
      (* a node that is in the list has not been taken out *)
      clear - Hb Hi Hj. induction Hb as [|j picked b0 ms Hb IH Hjb _ En _ _]; [set_solver|].
      rewrite En in Hi. unfold remove_id in Hi. apply list_elem_of_filter in Hi as [? ?].
      apply elem_of_cons in Hj as [->|Hj]; [done|by apply IH].
Qed.
(** C26. The first node that meets a range is found, in any state that satisfies the
    invariant: the lowest one in address order, or the head of the list when none does. *)
Theorem interval_first_spec S E m first last :
  mm_inv S E m ->
  drm_mm_interval_first m first last
  = Some (default 0 (head (filter
      (fun i => start (node m i) <= last /\ first < start (node m i) + size (node m i))
      (node_list m)))).
Proof.
  intros I. destruct (iv_nodes _ _ _ I) as [_ In_ Au Lf Hs].
  assert (Ef : filter (fun i => start (node m i) <= last /\ first < start (node m i) + size (node m i))
      (node_list m) = meets m first last (node_list m)).
  { destruct (iv_bounds _ _ _ I) as [_ HE]. unfold meets. generalize (iv_node _ _ _ I).
    clear - HE. induction 1 as [|x l Hx _ IH]; [done|]. rewrite !filter_cons.
    assert (Ex : LAST m x = start (node m x) + size (node m x) - 1).
    { unfold LAST. apply u64_small. destruct Hx. unfold is_u. lia. }
    rewrite Ex, IH. repeat case_decide; first [done|lia]. }
  rewrite Ef. unfold drm_mm_interval_first, drm_mm_interval_tree_iter_first.
  destruct (rb_root (interval_tree m)) as [|l x r] eqn:Et; [by rewrite <- In_|].
  rewrite <- Et in *.
  assert (Hc : subtree_last m !!! x = tmax (LAST m) (rb_root (interval_tree m))).
  { rewrite Et in Au |- *. by destruct Au. }
  rewrite Hc. destruct (Z.ltb_spec (tmax (LAST m) (rb_root (interval_tree m))) first) as [Hm|Hm].
  { rewrite meets_nil; [done|]. intros i Hi. right. rewrite <- In_ in Hi.
    apply list_elem_of_In in Hi. pose proof (tmax_In (LAST m) _ i Hi). lia. }
  rewrite Lf. rewrite <- In_ in Hs |- *.
  destruct (inorder (rb_root (interval_tree m))) as [|lm k] eqn:El; [rewrite Et in El; cbn in El; by destruct (inorder l)|].
  cbn [head mbind option_bind]. rewrite <- El in *.
  destruct (Z.ltb_spec last (start (node m lm))) as [Hl|Hl].
  { rewrite meets_nil; [done|]. intros i Hi. left. rewrite El in Hi, Hs.
    apply StronglySorted_cons in Hs as [Hs _]. rewrite Forall_forall in Hs.
    apply elem_of_cons in Hi as [->|Hi]; [done|]. specialize (Hs i Hi). lia. }
  rewrite subtree_search_spec; [done|done|by rewrite Et|lia|done].
Qed.
(** ** A driver's scan

    The roster described in drm_mm.c: add candidates until one makes room, put all of
    them back in the opposite order, evict those that are in the way. *)

Fixpoint pick (s : drm_mm_scan) (cands picked : list Z) (m : drm_mm)
    : bool * drm_mm_scan * list Z * drm_mm :=
  match cands with
  | [] => (false, s, picked, m)
  | i :: cands =>
    let '(hit, s, m) := drm_mm_scan_add_block None s i m in
    if hit then (true, s, i :: picked, m) else pick s cands (i :: picked) m
  end.

Fixpoint unwind (s : drm_mm_scan) (picked : list Z) (m : drm_mm) : option (list Z * drm_mm) :=
  match picked with
  | [] => Some ([], m)
  | i :: picked =>
    '(evict, m) ← drm_mm_scan_remove_block s i m;
    '(l, m) ← unwind s picked m;
    Some (if evict : bool then i :: l else l, m)
  end.

Definition evict_all (l : list Z) (m : drm_mm) : drm_mm :=
  fold_left (fun m i => drm_mm_remove_node i m) l m.

Definition in_the_way (s : drm_mm_scan) (m : drm_mm) (i : Z) : bool :=
  (sc_hit_start s <? hns m i) && (start (node m i) <? sc_hit_end s).

Lemma unwind_spec S E m s picked : forall ms,
  mm_inv S E m -> scan_state m picked ms ->
  exists mu, unwind s picked ms = Some (filter (fun i => in_the_way s m i = true) picked, mu)
    /\ scan_state m [] mu.
Proof.
  induction picked as [|i picked IH]; intros ms I Hs; [by exists ms|].
  destruct (scan_remove_spec S E m s i picked ms I Hs) as (m1 & Er & Hs1).
  destruct (IH m1 I Hs1) as (mu & Eu & Hu). exists mu. split; [|done].
  cbn [unwind]. rewrite Er. cbn [mbind option_bind]. rewrite Eu. cbn [mbind option_bind].
  fold (in_the_way s m i). rewrite filter_cons. case_decide as Hw.
  - by rewrite Hw.
  - by destruct (in_the_way s m i).
Qed.

Lemma pick_spec S E m sz al lo hi hs he c mode cands : forall picked ms,
  mm_inv S E m -> scan_state m picked ms -> NoDup cands ->
  (forall i, i ∈ cands -> i ∈ node_list m /\ i ∉ picked) ->
  0 < sz -> is_u64 al -> 0 <= lo -> hi < 2 ^ 64 ->
  let al' := if al <=? 1 then 0 else al in
  let s := Scan sz al' (if is_power_of_2 al' then al' - 1 else 0) lo hi hs he c mode in
  let '(hit, s', picked', ms') := pick s cands picked ms in
  scan_state m picked' ms' /\
  (hit = true -> exists a h b adj, ring ms' = a ++ h :: b /\ s' = set_hit adj (adj + sz) s
     /\ placed sz al' (Z.max (hns m h) lo) (Z.min (nxt m E b) hi) adj).
Proof.
  induction cands as [|i cands IH]; intros picked ms I Hs Hn Hc Hsz Hal Hlo Hhi al' s; cbn [pick];
    [by split|].
  apply NoDup_cons in Hn as [Hi Hn]. destruct (Hc i ltac:(by left)) as [Him Hip].
  assert (Hims : i ∈ node_list ms) by (apply (scan_state_nodes _ _ _ Hs) in Him as [?|?]; done).
  destruct (scan_add_spec S E m picked ms i sz al lo hi hs he c mode I Hs Hims Hip Hsz Hal Hlo Hhi)
    as (a & h & b & Er & [(adj & Ea & Hp)|Ea]); fold al' s in Ea; rewrite Ea.
  - split; [by apply scanned_out_state|]. intros _. by exists a, h, b, adj.
  - apply (IH (i :: picked) (scanned_out i ms)); try done; [by apply scanned_out_state|].
    intros j Hj. destruct (Hc j ltac:(by right)) as [? ?]. split; [done|]. set_solver.
Qed.

Lemma evict_all_spec S E l : forall m,
  mm_inv S E m -> NoDup l -> (forall i, i ∈ l -> i ∈ node_list m) ->
  mm_inv S E (evict_all l m) /\ forall j, abs (evict_all l m) !! j = if decide (j ∈ l) then None else abs m !! j.
Proof.
  induction l as [|i l IH]; intros m I Hn Hl; [by split|]. cbn [evict_all fold_left].
  apply NoDup_cons in Hn as [Hi Hn].
  destruct (remove_code None none_shrinks S E m i I ltac:(apply Hl; by left)) as (I1 & E1 & _).
  destruct (IH (drm_mm_remove_node i m) I1 Hn) as [I2 E2].
  { intros j Hj. assert (Ha : is_Some (abs (drm_mm_remove_node i m) !! j)).
    { rewrite E1, lookup_delete_ne by (intros ->; done). rewrite abs_lookup, decide_True; [done|].
      apply Hl. by right. }
    rewrite abs_lookup in Ha. destruct (decide (j ∈ node_list (drm_mm_remove_node i m))); [done|].
    by destruct Ha. }
  split; [done|]. intros j. fold (evict_all l (drm_mm_remove_node i m)). rewrite E2, E1.
  destruct (decide (j = i)) as [->|Hj].
  - rewrite lookup_delete_eq, (decide_True (P := i ∈ i :: l)) by (by left). by case_decide.
  - rewrite lookup_delete_ne by done. apply decide_ext. set_solver.
Qed.

(** The hit range is free once the nodes in the way are gone. *)
Lemma hit_available S E m picked ms a h b adj sz al lo hi s :
  mm_inv S E m -> scan_state m picked ms -> ring ms = a ++ h :: b -> 0 < sz ->
  placed sz al (Z.max (hns m h) lo) (Z.min (nxt m E b) hi) adj ->
  sc_hit_start s = adj -> sc_hit_end s = adj + sz ->
  forall A, (forall j p, A !! j = Some p ->
    abs m !! j = Some p /\ ~ (j ∈ picked /\ in_the_way s m j = true)) ->
  available S E A adj sz.
Proof.
  intros I Hs Er Hsz [P1 P2 _] E1 E2 A HA. destruct (iv_bounds _ _ _ I) as [[HS HSE] HE].
  pose proof (scan_state_nodes _ _ _ Hs) as Hns. pose proof (iv_node _ _ _ I) as Hn.
  rewrite Forall_forall in Hn.
  pose proof (scan_state_sorted _ m picked ms Hs (ring_order S E m I)) as Ho. rewrite Er in Ho.
  assert (Hrm : forall x, x ∈ ring ms -> x = 0 \/ x ∈ node_list m).
  { intros x [->|Hx]%elem_of_cons; [by left|right]. apply Hns. by left. }
  assert (Hh : h ∈ ring m).
  { destruct (Hrm h) as [->|?]; [rewrite Er; set_solver|by left|by right]. }
  destruct (hole_bounds S E m h I Hh) as (B1 & _).
  apply StronglySorted_app in Ho as (Hab & _ & [Hhb Hb]%StronglySorted_cons).
  assert (Hbm : forall x, x ∈ b -> x ∈ node_list m).
  { intros x Hx. destruct (Hrm x) as [->|?]; [rewrite Er; set_solver| |done].
    rewrite Forall_forall in Hhb. destruct (Hhb 0 Hx) as [_ H2].
    destruct (iv_head _ _ _ I) as (_ & H3 & _). lia. }
  assert (Hnx : nxt m E b <= E).
  { destruct b as [|x b']; [done|]. cbn. destruct (Hn x); [apply Hbm; by left|lia]. }
  split; [lia|]. split; [done|]. split; [lia|]. intros j p Hj. destruct (HA j p Hj) as [Hm Hw].
  rewrite abs_lookup in Hm. destruct (decide (j ∈ node_list m)) as [Hjm|]; [|done].
  injection Hm as <-. cbn [fst snd]. rewrite <- (hns_node E m j (Hn j Hjm) HE).
  apply Hns in Hjm as [Hj1|Hj1].
  - (* a node left in the list *)
    assert (Hjr : j ∈ a ++ h :: b) by (rewrite <- Er; by right).
    apply elem_of_app in Hjr as [Hja|[->|Hjb]%elem_of_cons].
    + right. destruct (Hab j h Hja ltac:(by left)) as [_ ?]. lia.
    + right. lia.
    + left. destruct b as [|x b']; [set_solver|]. cbn [nxt] in P2.
      apply elem_of_cons in Hjb as [->|Hjb]; [lia|].
      apply StronglySorted_cons in Hb as [Hb _]. rewrite Forall_forall in Hb.
      destruct (Hb j Hjb) as [Hxj _]. pose proof (Hn x (Hbm x ltac:(by left))) as Nx.
      rewrite (hns_node E m x Nx HE) in Hxj. destruct Nx. lia.
  - (* a node taken out that is not in the way *)
    destruct (in_the_way s m j) eqn:Ew; [tauto|]. unfold in_the_way in Ew. rewrite E1, E2 in Ew.
    apply andb_false_iff in Ew as [Ew%Z.ltb_ge|Ew%Z.ltb_ge]; [right|left]; lia.
Qed.

(** C27. An eviction scan over candidates of the allocator, each in it once, can always be
    unwound in the opposite order, and leaves the allocator as it was, its nodes, list,
    holes and trees included; and once a candidate has made room, evicting the nodes the
    unwinding reports makes an insertion of the same size, alignment and range succeed, in
    every mode that tries all holes. *)
Theorem scan_makes_room S E m cands i sz al c lo hi mode mode' :
  mm_inv S E m -> NoDup cands -> (forall j, j ∈ cands -> j ∈ node_list m) -> i ∉ ring m ->
  0 < sz < 2 ^ 64 -> is_u64 al -> 0 <= lo <= hi -> hi < 2 ^ 64 ->
  tst mode' DRM_MM_INSERT_ONCE = false ->
  let '(hit, s, picked, ms) :=
    pick (drm_mm_scan_init_with_range sz al c lo hi mode) cands [] m in
  exists l mu, unwind s picked ms = Some (l, mu)
  /\ light m mu /\ node_list mu = node_list m /\ mm_inv S E mu
  /\ (hit = true ->
      exists m', drm_mm_insert_node_in_range None i sz al c lo hi mode' (evict_all l mu) = Some (0, m')).
Proof.
  intros I Hnd Hc Hi Hsz Hal Hlo Hhi Hm. unfold drm_mm_scan_init_with_range.
  assert (H1 : scan_state m [] m) by (apply scan_none; [by repeat split|done]).
  pose proof (pick_spec S E m sz al lo hi U64_MAX 0 c mode cands [] m I H1 Hnd
    ltac:(intros j Hj; split; [by apply Hc|set_solver]) ltac:(lia) Hal ltac:(lia) Hhi) as Hp.
  cbv zeta in Hp |- *. destruct (pick _ cands [] m) as [[[hit s] picked] ms].
  destruct Hp as [Hs Hhit].
  destruct (unwind_spec S E m s picked ms I Hs) as (mu & Eu & Hu).
  exists (filter (fun i => in_the_way s m i = true) picked), mu. split; [done|].
  assert (Lu : light m mu) by (by destruct Hu). 
  assert (Enl : node_list mu = node_list m) by (inversion Hu; done).
  split; [done|]. split; [done|]. destruct (light_inv S E m mu Lu Enl I) as [Iu Eabs].
  split; [done|]. intros ->. destruct (Hhit eq_refl) as (a & h & b & adj & Er & -> & Hpl).
  set (s' := set_hit _ _ _) in *.
  set (l := filter (fun i => in_the_way s' m i = true) picked).
  assert (Hpk : NoDup picked /\ forall j, j ∈ picked -> j ∈ node_list m).
  { split; [|intros j Hj; apply (scan_state_nodes _ _ _ Hs); by right].
    clear - Hs. induction Hs as [|j picked b0 ms Hb IH Hjb _ _ _ _]; [constructor|].
    constructor; [|done]. clear - Hb Hjb. intros Hj.
    induction Hb as [|k picked b0 ms Hb IH Hkb _ En _ _]; [set_solver|].
    rewrite En in Hjb. unfold remove_id in Hjb. apply list_elem_of_filter in Hjb as [? ?].
    apply elem_of_cons in Hj as [->|Hj]; [done|by apply IH]. }
  destruct Hpk as [Hpn Hpm].
  destruct (evict_all_spec S E l mu Iu) as [Ie Ee]; [by apply NoDup_filter| |].
  { intros j [_ Hj]%list_elem_of_filter. rewrite Enl. by apply Hpm. }
  assert (Hav : available S E (abs (evict_all l mu)) adj sz).
  { apply (hit_available S E m picked ms a h b adj sz (if al <=? 1 then 0 else al) lo hi s'); try done; [lia|].
    intros j p Hj. rewrite Ee in Hj. destruct (decide (j ∈ l)) as [|Hjl]; [done|].
    rewrite Eabs in Hj. split; [done|]. intros [Hjp Hw]. apply Hjl. apply list_elem_of_filter. done. }
  assert (Hie : i ∉ ring (evict_all l mu)).
  { unfold ring. intros [->|Hin]%elem_of_cons; [apply Hi; by left|]. apply Hi. right.
    assert (Hs1 : is_Some (abs (evict_all l mu) !! i)) by (rewrite abs_lookup, decide_True; done).
    rewrite Ee, Eabs, abs_lookup in Hs1. repeat case_decide; try done; by destruct Hs1. }
  destruct (insert_code None none_shrinks S E (evict_all l mu) i sz al c lo hi mode' Ie Hie)
    as (r & m' & Ei & _ & Hr); [unfold is_u; lia|done|done|done|].
  destruct Hr as [(-> & _)|(_ & _ & [Hf|[Hf|Hf]])]; [by exists m'|congruence|lia|]. exfalso.
  destruct (available_place S E (evict_all l mu) sz al c lo hi mode' adj Ie) as (k & Hk & _ & _ & Hpk);
    [destruct Hpl; split; [lia|lia|done]|done|]. by apply (Hf k adj).
Qed.

End scan.

Import Plain.

Lemma interval_first_spec_witness :
  mm_inv 4096 69632 Sample.one /\
  drm_mm_interval_first Sample.one 60000 65536
  = Some (default 0 (head (filter
      (fun i => start (node Sample.one i) <= 65536
                /\ 60000 < start (node Sample.one i) + size (node Sample.one i))
      (node_list Sample.one)))).
Proof.
  split; [exact Sample.one_inv|]. exact (interval_first_spec 4096 69632 Sample.one 60000 65536 Sample.one_inv).
Defined.

(** The only node is in the way of a request for the whole range. *)
Lemma scan_makes_room_witness :
  exists s picked ms l mu,
    pick (drm_mm_scan_init_with_range 65536 0 0 0 (2 ^ 40) DRM_MM_INSERT_EVICT) [1] [] Sample.one
      = (true, s, picked, ms)
    /\ unwind s picked ms = Some (l, mu) /\ mm_inv 4096 69632 mu
    /\ exists m', drm_mm_insert_node_in_range None 2 65536 0 0 0 (2 ^ 40) DRM_MM_INSERT_EVICT
                    (evict_all l mu) = Some (0, m').
Proof.
  assert (H1 : NoDup [1]) by (apply NoDup_singleton).
  assert (H2 : forall j, j ∈ [1] -> j ∈ node_list Sample.one).
  { intros j ->%list_elem_of_singleton. vm_compute. left. }
  assert (H3 : 2 ∉ ring Sample.one).
  { change (ring Sample.one) with [0; 1].
    intros [?|[?|?%not_elem_of_nil]%elem_of_cons]%elem_of_cons; done. }
  assert (H4 : 0 < 65536 < 2 ^ 64) by lia.
  assert (H5 : is_u64 0) by (unfold is_u; lia).
  pose proof (scan_makes_room 4096 69632 Sample.one [1] 2 65536 0 0 0 (2 ^ 40) DRM_MM_INSERT_EVICT
    DRM_MM_INSERT_EVICT Sample.one_inv H1 H2 H3 H4 H5 ltac:(lia) ltac:(lia) eq_refl) as Hs.
  assert (Eh : (pick (drm_mm_scan_init_with_range 65536 0 0 0 (2 ^ 40) DRM_MM_INSERT_EVICT) [1] []
    Sample.one).1.1.1 = true) by (vm_compute; reflexivity).
  destruct (pick _ _ _ _) as [[[hit s] picked] ms]. cbn [fst] in Eh. subst hit.
  destruct Hs as (l & mu & E1 & _ & _ & I & H6).
  exists s, picked, ms, l, mu. split; [reflexivity|]. split; [exact E1|]. split; [exact I|].
  apply H6. reflexivity.
Defined.
