(* ===== verification/Fourcc.v ===== *)
(** * Pixel formats

    drm_fourcc.c and include/drm/drm_fourcc.h: the table of formats, the lookup in it,
    the legacy names by bits per pixel and depth, and the geometry of the planes: blocks,
    bits per pixel, minimum pitch and subsampled dimensions.  The machine is little
    endian, so the rows under __BIG_ENDIAN are left out and the host formats are the
    little endian ones. *)

From Stdlib Require Import ZArith Lia Bool Ascii.
From stdpp Require Import base numbers list option gmap.
From S2P Require Import Prelude.
#[local] Open Scope Z_scope.

(** ** Format codes *)

Definition fourcc_code (a b c d : ascii) : Z :=
  let byte x := Z.of_N (N_of_ascii x) in
  Z.lor (Z.lor (Z.lor (byte a) (u32 (Z.shiftl (byte b) 8))) (u32 (Z.shiftl (byte c) 16)))
    (u32 (Z.shiftl (byte d) 24)).

#[local] Open Scope char_scope.
#[local] Open Scope Z_scope.

Definition DRM_FORMAT_INVALID := 0.
Definition DRM_FORMAT_C1 := fourcc_code "C" "1" " " " ".
Definition DRM_FORMAT_C2 := fourcc_code "C" "2" " " " ".
Definition DRM_FORMAT_C4 := fourcc_code "C" "4" " " " ".
Definition DRM_FORMAT_C8 := fourcc_code "C" "8" " " " ".
Definition DRM_FORMAT_D1 := fourcc_code "D" "1" " " " ".
Definition DRM_FORMAT_D2 := fourcc_code "D" "2" " " " ".
Definition DRM_FORMAT_D4 := fourcc_code "D" "4" " " " ".
Definition DRM_FORMAT_D8 := fourcc_code "D" "8" " " " ".
Definition DRM_FORMAT_R1 := fourcc_code "R" "1" " " " ".
Definition DRM_FORMAT_R2 := fourcc_code "R" "2" " " " ".
Definition DRM_FORMAT_R4 := fourcc_code "R" "4" " " " ".
Definition DRM_FORMAT_R8 := fourcc_code "R" "8" " " " ".
Definition DRM_FORMAT_R10 := fourcc_code "R" "1" "0" " ".
Definition DRM_FORMAT_R12 := fourcc_code "R" "1" "2" " ".
Definition DRM_FORMAT_RGB332 := fourcc_code "R" "G" "B" "8".
Definition DRM_FORMAT_BGR233 := fourcc_code "B" "G" "R" "8".
Definition DRM_FORMAT_XRGB4444 := fourcc_code "X" "R" "1" "2".
Definition DRM_FORMAT_XBGR4444 := fourcc_code "X" "B" "1" "2".
Definition DRM_FORMAT_RGBX4444 := fourcc_code "R" "X" "1" "2".
Definition DRM_FORMAT_BGRX4444 := fourcc_code "B" "X" "1" "2".
Definition DRM_FORMAT_ARGB4444 := fourcc_code "A" "R" "1" "2".
Definition DRM_FORMAT_ABGR4444 := fourcc_code "A" "B" "1" "2".
Definition DRM_FORMAT_RGBA4444 := fourcc_code "R" "A" "1" "2".
Definition DRM_FORMAT_BGRA4444 := fourcc_code "B" "A" "1" "2".
Definition DRM_FORMAT_XRGB1555 := fourcc_code "X" "R" "1" "5".
Definition DRM_FORMAT_XBGR1555 := fourcc_code "X" "B" "1" "5".
Definition DRM_FORMAT_RGBX5551 := fourcc_code "R" "X" "1" "5".
Definition DRM_FORMAT_BGRX5551 := fourcc_code "B" "X" "1" "5".
Definition DRM_FORMAT_ARGB1555 := fourcc_code "A" "R" "1" "5".
Definition DRM_FORMAT_ABGR1555 := fourcc_code "A" "B" "1" "5".
Definition DRM_FORMAT_RGBA5551 := fourcc_code "R" "A" "1" "5".
Definition DRM_FORMAT_BGRA5551 := fourcc_code "B" "A" "1" "5".
Definition DRM_FORMAT_RGB565 := fourcc_code "R" "G" "1" "6".
Definition DRM_FORMAT_BGR565 := fourcc_code "B" "G" "1" "6".
Definition DRM_FORMAT_RGB888 := fourcc_code "R" "G" "2" "4".
Definition DRM_FORMAT_BGR888 := fourcc_code "B" "G" "2" "4".
Definition DRM_FORMAT_XRGB8888 := fourcc_code "X" "R" "2" "4".
Definition DRM_FORMAT_XBGR8888 := fourcc_code "X" "B" "2" "4".
Definition DRM_FORMAT_RGBX8888 := fourcc_code "R" "X" "2" "4".
Definition DRM_FORMAT_BGRX8888 := fourcc_code "B" "X" "2" "4".
Definition DRM_FORMAT_RGB565_A8 := fourcc_code "R" "5" "A" "8".
Definition DRM_FORMAT_BGR565_A8 := fourcc_code "B" "5" "A" "8".
Definition DRM_FORMAT_XRGB2101010 := fourcc_code "X" "R" "3" "0".
Definition DRM_FORMAT_XBGR2101010 := fourcc_code "X" "B" "3" "0".
Definition DRM_FORMAT_RGBX1010102 := fourcc_code "R" "X" "3" "0".
Definition DRM_FORMAT_BGRX1010102 := fourcc_code "B" "X" "3" "0".
Definition DRM_FORMAT_ARGB2101010 := fourcc_code "A" "R" "3" "0".
Definition DRM_FORMAT_ABGR2101010 := fourcc_code "A" "B" "3" "0".
Definition DRM_FORMAT_RGBA1010102 := fourcc_code "R" "A" "3" "0".
Definition DRM_FORMAT_BGRA1010102 := fourcc_code "B" "A" "3" "0".
Definition DRM_FORMAT_RGB161616 := fourcc_code "R" "G" "4" "8".
Definition DRM_FORMAT_BGR161616 := fourcc_code "B" "G" "4" "8".
Definition DRM_FORMAT_ARGB8888 := fourcc_code "A" "R" "2" "4".
Definition DRM_FORMAT_ABGR8888 := fourcc_code "A" "B" "2" "4".
Definition DRM_FORMAT_RGBA8888 := fourcc_code "R" "A" "2" "4".
Definition DRM_FORMAT_BGRA8888 := fourcc_code "B" "A" "2" "4".
Definition DRM_FORMAT_XRGB16161616F := fourcc_code "X" "R" "4" "H".
Definition DRM_FORMAT_XBGR16161616F := fourcc_code "X" "B" "4" "H".
Definition DRM_FORMAT_ARGB16161616F := fourcc_code "A" "R" "4" "H".
Definition DRM_FORMAT_ABGR16161616F := fourcc_code "A" "B" "4" "H".
Definition DRM_FORMAT_AXBXGXRX106106106106 := fourcc_code "A" "B" "1" "0".
Definition DRM_FORMAT_XRGB16161616 := fourcc_code "X" "R" "4" "8".
Definition DRM_FORMAT_XBGR16161616 := fourcc_code "X" "B" "4" "8".
Definition DRM_FORMAT_ARGB16161616 := fourcc_code "A" "R" "4" "8".
Definition DRM_FORMAT_ABGR16161616 := fourcc_code "A" "B" "4" "8".
Definition DRM_FORMAT_RGB888_A8 := fourcc_code "R" "8" "A" "8".
Definition DRM_FORMAT_BGR888_A8 := fourcc_code "B" "8" "A" "8".
Definition DRM_FORMAT_XRGB8888_A8 := fourcc_code "X" "R" "A" "8".
Definition DRM_FORMAT_XBGR8888_A8 := fourcc_code "X" "B" "A" "8".
Definition DRM_FORMAT_RGBX8888_A8 := fourcc_code "R" "X" "A" "8".
Definition DRM_FORMAT_BGRX8888_A8 := fourcc_code "B" "X" "A" "8".
Definition DRM_FORMAT_YUV410 := fourcc_code "Y" "U" "V" "9".
Definition DRM_FORMAT_YVU410 := fourcc_code "Y" "V" "U" "9".
Definition DRM_FORMAT_YUV411 := fourcc_code "Y" "U" "1" "1".
Definition DRM_FORMAT_YVU411 := fourcc_code "Y" "V" "1" "1".
Definition DRM_FORMAT_YUV420 := fourcc_code "Y" "U" "1" "2".
Definition DRM_FORMAT_YVU420 := fourcc_code "Y" "V" "1" "2".
Definition DRM_FORMAT_YUV422 := fourcc_code "Y" "U" "1" "6".
Definition DRM_FORMAT_YVU422 := fourcc_code "Y" "V" "1" "6".
Definition DRM_FORMAT_YUV444 := fourcc_code "Y" "U" "2" "4".
Definition DRM_FORMAT_YVU444 := fourcc_code "Y" "V" "2" "4".
Definition DRM_FORMAT_NV12 := fourcc_code "N" "V" "1" "2".
Definition DRM_FORMAT_NV21 := fourcc_code "N" "V" "2" "1".
Definition DRM_FORMAT_NV16 := fourcc_code "N" "V" "1" "6".
Definition DRM_FORMAT_NV61 := fourcc_code "N" "V" "6" "1".
Definition DRM_FORMAT_NV24 := fourcc_code "N" "V" "2" "4".
Definition DRM_FORMAT_NV42 := fourcc_code "N" "V" "4" "2".
Definition DRM_FORMAT_YUYV := fourcc_code "Y" "U" "Y" "V".
Definition DRM_FORMAT_YVYU := fourcc_code "Y" "V" "Y" "U".
Definition DRM_FORMAT_UYVY := fourcc_code "U" "Y" "V" "Y".
Definition DRM_FORMAT_VYUY := fourcc_code "V" "Y" "U" "Y".
Definition DRM_FORMAT_XYUV8888 := fourcc_code "X" "Y" "U" "V".
Definition DRM_FORMAT_VUY888 := fourcc_code "V" "U" "2" "4".
Definition DRM_FORMAT_AYUV := fourcc_code "A" "Y" "U" "V".
Definition DRM_FORMAT_Y210 := fourcc_code "Y" "2" "1" "0".
Definition DRM_FORMAT_Y212 := fourcc_code "Y" "2" "1" "2".
Definition DRM_FORMAT_Y216 := fourcc_code "Y" "2" "1" "6".
Definition DRM_FORMAT_Y410 := fourcc_code "Y" "4" "1" "0".
Definition DRM_FORMAT_Y412 := fourcc_code "Y" "4" "1" "2".
Definition DRM_FORMAT_Y416 := fourcc_code "Y" "4" "1" "6".
Definition DRM_FORMAT_XVYU2101010 := fourcc_code "X" "V" "3" "0".
Definition DRM_FORMAT_XVYU12_16161616 := fourcc_code "X" "V" "3" "6".
Definition DRM_FORMAT_XVYU16161616 := fourcc_code "X" "V" "4" "8".
Definition DRM_FORMAT_Y0L0 := fourcc_code "Y" "0" "L" "0".
Definition DRM_FORMAT_X0L0 := fourcc_code "X" "0" "L" "0".
Definition DRM_FORMAT_Y0L2 := fourcc_code "Y" "0" "L" "2".
Definition DRM_FORMAT_X0L2 := fourcc_code "X" "0" "L" "2".
Definition DRM_FORMAT_P010 := fourcc_code "P" "0" "1" "0".
Definition DRM_FORMAT_P012 := fourcc_code "P" "0" "1" "2".
Definition DRM_FORMAT_P016 := fourcc_code "P" "0" "1" "6".
Definition DRM_FORMAT_P210 := fourcc_code "P" "2" "1" "0".
Definition DRM_FORMAT_VUY101010 := fourcc_code "V" "U" "3" "0".
Definition DRM_FORMAT_YUV420_8BIT := fourcc_code "Y" "U" "0" "8".
Definition DRM_FORMAT_YUV420_10BIT := fourcc_code "Y" "U" "1" "0".
Definition DRM_FORMAT_NV15 := fourcc_code "N" "V" "1" "5".
Definition DRM_FORMAT_NV20 := fourcc_code "N" "V" "2" "0".
Definition DRM_FORMAT_NV30 := fourcc_code "N" "V" "3" "0".
Definition DRM_FORMAT_Q410 := fourcc_code "Q" "4" "1" "0".
Definition DRM_FORMAT_Q401 := fourcc_code "Q" "4" "0" "1".
Definition DRM_FORMAT_P030 := fourcc_code "P" "0" "3" "0".
Definition DRM_FORMAT_S010 := fourcc_code "S" "0" "1" "0".
Definition DRM_FORMAT_S210 := fourcc_code "S" "2" "1" "0".
Definition DRM_FORMAT_S410 := fourcc_code "S" "4" "1" "0".
Definition DRM_FORMAT_S012 := fourcc_code "S" "0" "1" "2".
Definition DRM_FORMAT_S212 := fourcc_code "S" "2" "1" "2".
Definition DRM_FORMAT_S412 := fourcc_code "S" "4" "1" "2".
Definition DRM_FORMAT_S016 := fourcc_code "S" "0" "1" "6".
Definition DRM_FORMAT_S216 := fourcc_code "S" "2" "1" "6".
Definition DRM_FORMAT_S416 := fourcc_code "S" "4" "1" "6".

(** ** The table *)

Record drm_format_info := FormatInfo {
  format : Z;                  (* u32 *)
  depth : Z;                   (* u8 *)
  num_planes : Z;              (* u8 *)
  char_per_block : list Z;     (* u8[4], also named cpp *)
  block_w : list Z;            (* u8[4] *)
  block_h : list Z;            (* u8[4] *)
  hsub : Z;                    (* u8 *)
  vsub : Z;                    (* u8 *)
  has_alpha : bool;
  is_yuv : bool;
  is_color_indexed : bool
}.

(** An array that is not initialised. *)
Abbreviation z4 := [0; 0; 0; 0].

Definition formats : list drm_format_info := [
  FormatInfo DRM_FORMAT_C1 1 1 [1; 0; 0; 0] [8; 0; 0; 0] [1; 0; 0; 0] 1 1 false false true;
  FormatInfo DRM_FORMAT_C2 2 1 [1; 0; 0; 0] [4; 0; 0; 0] [1; 0; 0; 0] 1 1 false false true;
  FormatInfo DRM_FORMAT_C4 4 1 [1; 0; 0; 0] [2; 0; 0; 0] [1; 0; 0; 0] 1 1 false false true;
  FormatInfo DRM_FORMAT_C8 8 1 [1; 0; 0; 0] z4 z4 1 1 false false true;
  FormatInfo DRM_FORMAT_D1 1 1 [1; 0; 0; 0] [8; 0; 0; 0] [1; 0; 0; 0] 1 1 false false false;
  FormatInfo DRM_FORMAT_D2 2 1 [1; 0; 0; 0] [4; 0; 0; 0] [1; 0; 0; 0] 1 1 false false false;
  FormatInfo DRM_FORMAT_D4 4 1 [1; 0; 0; 0] [2; 0; 0; 0] [1; 0; 0; 0] 1 1 false false false;
  FormatInfo DRM_FORMAT_D8 8 1 [1; 0; 0; 0] z4 z4 1 1 false false false;
  FormatInfo DRM_FORMAT_R1 1 1 [1; 0; 0; 0] [8; 0; 0; 0] [1; 0; 0; 0] 1 1 false false false;
  FormatInfo DRM_FORMAT_R2 2 1 [1; 0; 0; 0] [4; 0; 0; 0] [1; 0; 0; 0] 1 1 false false false;
  FormatInfo DRM_FORMAT_R4 4 1 [1; 0; 0; 0] [2; 0; 0; 0] [1; 0; 0; 0] 1 1 false false false;
  FormatInfo DRM_FORMAT_R8 8 1 [1; 0; 0; 0] z4 z4 1 1 false false false;
  FormatInfo DRM_FORMAT_R10 10 1 [2; 0; 0; 0] z4 z4 1 1 false false false;
  FormatInfo DRM_FORMAT_R12 12 1 [2; 0; 0; 0] z4 z4 1 1 false false false;
  FormatInfo DRM_FORMAT_RGB332 8 1 [1; 0; 0; 0] z4 z4 1 1 false false false;
  FormatInfo DRM_FORMAT_BGR233 8 1 [1; 0; 0; 0] z4 z4 1 1 false false false;
  FormatInfo DRM_FORMAT_XRGB4444 0 1 [2; 0; 0; 0] z4 z4 1 1 false false false;
  FormatInfo DRM_FORMAT_XBGR4444 0 1 [2; 0; 0; 0] z4 z4 1 1 false false false;
  FormatInfo DRM_FORMAT_RGBX4444 0 1 [2; 0; 0; 0] z4 z4 1 1 false false false;
  FormatInfo DRM_FORMAT_BGRX4444 0 1 [2; 0; 0; 0] z4 z4 1 1 false false false;
  FormatInfo DRM_FORMAT_ARGB4444 0 1 [2; 0; 0; 0] z4 z4 1 1 true false false;
  FormatInfo DRM_FORMAT_ABGR4444 0 1 [2; 0; 0; 0] z4 z4 1 1 true false false;
  FormatInfo DRM_FORMAT_RGBA4444 0 1 [2; 0; 0; 0] z4 z4 1 1 true false false;
  FormatInfo DRM_FORMAT_BGRA4444 0 1 [2; 0; 0; 0] z4 z4 1 1 true false false;
  FormatInfo DRM_FORMAT_XRGB1555 15 1 [2; 0; 0; 0] z4 z4 1 1 false false false;
  FormatInfo DRM_FORMAT_XBGR1555 15 1 [2; 0; 0; 0] z4 z4 1 1 false false false;
  FormatInfo DRM_FORMAT_RGBX5551 15 1 [2; 0; 0; 0] z4 z4 1 1 false false false;
  FormatInfo DRM_FORMAT_BGRX5551 15 1 [2; 0; 0; 0] z4 z4 1 1 false false false;
  FormatInfo DRM_FORMAT_ARGB1555 15 1 [2; 0; 0; 0] z4 z4 1 1 true false false;
  FormatInfo DRM_FORMAT_ABGR1555 15 1 [2; 0; 0; 0] z4 z4 1 1 true false false;
  FormatInfo DRM_FORMAT_RGBA5551 15 1 [2; 0; 0; 0] z4 z4 1 1 true false false;
  FormatInfo DRM_FORMAT_BGRA5551 15 1 [2; 0; 0; 0] z4 z4 1 1 true false false;
  FormatInfo DRM_FORMAT_RGB565 16 1 [2; 0; 0; 0] z4 z4 1 1 false false false;
  FormatInfo DRM_FORMAT_BGR565 16 1 [2; 0; 0; 0] z4 z4 1 1 false false false;
  FormatInfo DRM_FORMAT_RGB888 24 1 [3; 0; 0; 0] z4 z4 1 1 false false false;
  FormatInfo DRM_FORMAT_BGR888 24 1 [3; 0; 0; 0] z4 z4 1 1 false false false;
  FormatInfo DRM_FORMAT_XRGB8888 24 1 [4; 0; 0; 0] z4 z4 1 1 false false false;
  FormatInfo DRM_FORMAT_XBGR8888 24 1 [4; 0; 0; 0] z4 z4 1 1 false false false;
  FormatInfo DRM_FORMAT_RGBX8888 24 1 [4; 0; 0; 0] z4 z4 1 1 false false false;
  FormatInfo DRM_FORMAT_BGRX8888 24 1 [4; 0; 0; 0] z4 z4 1 1 false false false;
  FormatInfo DRM_FORMAT_RGB565_A8 24 2 [2; 1; 0; 0] z4 z4 1 1 true false false;
  FormatInfo DRM_FORMAT_BGR565_A8 24 2 [2; 1; 0; 0] z4 z4 1 1 true false false;
  FormatInfo DRM_FORMAT_XRGB2101010 30 1 [4; 0; 0; 0] z4 z4 1 1 false false false;
  FormatInfo DRM_FORMAT_XBGR2101010 30 1 [4; 0; 0; 0] z4 z4 1 1 false false false;
  FormatInfo DRM_FORMAT_RGBX1010102 30 1 [4; 0; 0; 0] z4 z4 1 1 false false false;
  FormatInfo DRM_FORMAT_BGRX1010102 30 1 [4; 0; 0; 0] z4 z4 1 1 false false false;
  FormatInfo DRM_FORMAT_ARGB2101010 30 1 [4; 0; 0; 0] z4 z4 1 1 true false false;
  FormatInfo DRM_FORMAT_ABGR2101010 30 1 [4; 0; 0; 0] z4 z4 1 1 true false false;
  FormatInfo DRM_FORMAT_RGBA1010102 30 1 [4; 0; 0; 0] z4 z4 1 1 true false false;
  FormatInfo DRM_FORMAT_BGRA1010102 30 1 [4; 0; 0; 0] z4 z4 1 1 true false false;
  FormatInfo DRM_FORMAT_RGB161616 0 1 [6; 0; 0; 0] [1; 0; 0; 0] [1; 0; 0; 0] 1 1 false false false;
  FormatInfo DRM_FORMAT_BGR161616 0 1 [6; 0; 0; 0] [1; 0; 0; 0] [1; 0; 0; 0] 1 1 false false false;
  FormatInfo DRM_FORMAT_ARGB8888 32 1 [4; 0; 0; 0] z4 z4 1 1 true false false;
  FormatInfo DRM_FORMAT_ABGR8888 32 1 [4; 0; 0; 0] z4 z4 1 1 true false false;
  FormatInfo DRM_FORMAT_RGBA8888 32 1 [4; 0; 0; 0] z4 z4 1 1 true false false;
  FormatInfo DRM_FORMAT_BGRA8888 32 1 [4; 0; 0; 0] z4 z4 1 1 true false false;
  FormatInfo DRM_FORMAT_XRGB16161616F 0 1 [8; 0; 0; 0] z4 z4 1 1 false false false;
  FormatInfo DRM_FORMAT_XBGR16161616F 0 1 [8; 0; 0; 0] z4 z4 1 1 false false false;
  FormatInfo DRM_FORMAT_ARGB16161616F 0 1 [8; 0; 0; 0] z4 z4 1 1 true false false;
  FormatInfo DRM_FORMAT_ABGR16161616F 0 1 [8; 0; 0; 0] z4 z4 1 1 true false false;
  FormatInfo DRM_FORMAT_AXBXGXRX106106106106 0 1 [8; 0; 0; 0] z4 z4 1 1 true false false;
  FormatInfo DRM_FORMAT_XRGB16161616 0 1 [8; 0; 0; 0] z4 z4 1 1 false false false;
  FormatInfo DRM_FORMAT_XBGR16161616 0 1 [8; 0; 0; 0] z4 z4 1 1 false false false;
  FormatInfo DRM_FORMAT_ARGB16161616 0 1 [8; 0; 0; 0] z4 z4 1 1 true false false;
  FormatInfo DRM_FORMAT_ABGR16161616 0 1 [8; 0; 0; 0] z4 z4 1 1 true false false;
  FormatInfo DRM_FORMAT_RGB888_A8 32 2 [3; 1; 0; 0] z4 z4 1 1 true false false;
  FormatInfo DRM_FORMAT_BGR888_A8 32 2 [3; 1; 0; 0] z4 z4 1 1 true false false;
  FormatInfo DRM_FORMAT_XRGB8888_A8 32 2 [4; 1; 0; 0] z4 z4 1 1 true false false;
  FormatInfo DRM_FORMAT_XBGR8888_A8 32 2 [4; 1; 0; 0] z4 z4 1 1 true false false;
  FormatInfo DRM_FORMAT_RGBX8888_A8 32 2 [4; 1; 0; 0] z4 z4 1 1 true false false;
  FormatInfo DRM_FORMAT_BGRX8888_A8 32 2 [4; 1; 0; 0] z4 z4 1 1 true false false;
  FormatInfo DRM_FORMAT_YUV410 0 3 [1; 1; 1; 0] z4 z4 4 4 false true false;
  FormatInfo DRM_FORMAT_YVU410 0 3 [1; 1; 1; 0] z4 z4 4 4 false true false;
  FormatInfo DRM_FORMAT_YUV411 0 3 [1; 1; 1; 0] z4 z4 4 1 false true false;
  FormatInfo DRM_FORMAT_YVU411 0 3 [1; 1; 1; 0] z4 z4 4 1 false true false;
  FormatInfo DRM_FORMAT_YUV420 0 3 [1; 1; 1; 0] z4 z4 2 2 false true false;
  FormatInfo DRM_FORMAT_YVU420 0 3 [1; 1; 1; 0] z4 z4 2 2 false true false;
  FormatInfo DRM_FORMAT_YUV422 0 3 [1; 1; 1; 0] z4 z4 2 1 false true false;
  FormatInfo DRM_FORMAT_YVU422 0 3 [1; 1; 1; 0] z4 z4 2 1 false true false;
  FormatInfo DRM_FORMAT_YUV444 0 3 [1; 1; 1; 0] z4 z4 1 1 false true false;
  FormatInfo DRM_FORMAT_YVU444 0 3 [1; 1; 1; 0] z4 z4 1 1 false true false;
  FormatInfo DRM_FORMAT_NV12 0 2 [1; 2; 0; 0] z4 z4 2 2 false true false;
  FormatInfo DRM_FORMAT_NV21 0 2 [1; 2; 0; 0] z4 z4 2 2 false true false;
  FormatInfo DRM_FORMAT_NV16 0 2 [1; 2; 0; 0] z4 z4 2 1 false true false;
  FormatInfo DRM_FORMAT_NV61 0 2 [1; 2; 0; 0] z4 z4 2 1 false true false;
  FormatInfo DRM_FORMAT_NV24 0 2 [1; 2; 0; 0] z4 z4 1 1 false true false;
  FormatInfo DRM_FORMAT_NV42 0 2 [1; 2; 0; 0] z4 z4 1 1 false true false;
  FormatInfo DRM_FORMAT_YUYV 0 1 [2; 0; 0; 0] z4 z4 2 1 false true false;
  FormatInfo DRM_FORMAT_YVYU 0 1 [2; 0; 0; 0] z4 z4 2 1 false true false;
  FormatInfo DRM_FORMAT_UYVY 0 1 [2; 0; 0; 0] z4 z4 2 1 false true false;
  FormatInfo DRM_FORMAT_VYUY 0 1 [2; 0; 0; 0] z4 z4 2 1 false true false;
  FormatInfo DRM_FORMAT_XYUV8888 0 1 [4; 0; 0; 0] z4 z4 1 1 false true false;
  FormatInfo DRM_FORMAT_VUY888 0 1 [3; 0; 0; 0] z4 z4 1 1 false true false;
  FormatInfo DRM_FORMAT_AYUV 0 1 [4; 0; 0; 0] z4 z4 1 1 true true false;
  FormatInfo DRM_FORMAT_Y210 0 1 [4; 0; 0; 0] z4 z4 2 1 false true false;
  FormatInfo DRM_FORMAT_Y212 0 1 [4; 0; 0; 0] z4 z4 2 1 false true false;
  FormatInfo DRM_FORMAT_Y216 0 1 [4; 0; 0; 0] z4 z4 2 1 false true false;
  FormatInfo DRM_FORMAT_Y410 0 1 [4; 0; 0; 0] z4 z4 1 1 true true false;
  FormatInfo DRM_FORMAT_Y412 0 1 [8; 0; 0; 0] z4 z4 1 1 true true false;
  FormatInfo DRM_FORMAT_Y416 0 1 [8; 0; 0; 0] z4 z4 1 1 true true false;
  FormatInfo DRM_FORMAT_XVYU2101010 0 1 [4; 0; 0; 0] z4 z4 1 1 false true false;
  FormatInfo DRM_FORMAT_XVYU12_16161616 0 1 [8; 0; 0; 0] z4 z4 1 1 false true false;
  FormatInfo DRM_FORMAT_XVYU16161616 0 1 [8; 0; 0; 0] z4 z4 1 1 false true false;
  FormatInfo DRM_FORMAT_Y0L0 0 1 [8; 0; 0; 0] [2; 0; 0; 0] [2; 0; 0; 0] 2 2 true true false;
  FormatInfo DRM_FORMAT_X0L0 0 1 [8; 0; 0; 0] [2; 0; 0; 0] [2; 0; 0; 0] 2 2 false true false;
  FormatInfo DRM_FORMAT_Y0L2 0 1 [8; 0; 0; 0] [2; 0; 0; 0] [2; 0; 0; 0] 2 2 true true false;
  FormatInfo DRM_FORMAT_X0L2 0 1 [8; 0; 0; 0] [2; 0; 0; 0] [2; 0; 0; 0] 2 2 false true false;
  FormatInfo DRM_FORMAT_P010 0 2 [2; 4; 0; 0] [1; 1; 0; 0] [1; 1; 0; 0] 2 2 false true false;
  FormatInfo DRM_FORMAT_P012 0 2 [2; 4; 0; 0] [1; 1; 0; 0] [1; 1; 0; 0] 2 2 false true false;
  FormatInfo DRM_FORMAT_P016 0 2 [2; 4; 0; 0] [1; 1; 0; 0] [1; 1; 0; 0] 2 2 false true false;
  FormatInfo DRM_FORMAT_P210 0 2 [2; 4; 0; 0] [1; 1; 0; 0] [1; 1; 0; 0] 2 1 false true false;
  FormatInfo DRM_FORMAT_VUY101010 0 1 [0; 0; 0; 0] z4 z4 1 1 false true false;
  FormatInfo DRM_FORMAT_YUV420_8BIT 0 1 [0; 0; 0; 0] z4 z4 2 2 false true false;
  FormatInfo DRM_FORMAT_YUV420_10BIT 0 1 [0; 0; 0; 0] z4 z4 2 2 false true false;
  FormatInfo DRM_FORMAT_NV15 0 2 [5; 5; 0; 0] [4; 2; 0; 0] [1; 1; 0; 0] 2 2 false true false;
  FormatInfo DRM_FORMAT_NV20 0 2 [5; 5; 0; 0] [4; 2; 0; 0] [1; 1; 0; 0] 2 1 false true false;
  FormatInfo DRM_FORMAT_NV30 0 2 [5; 5; 0; 0] [4; 2; 0; 0] [1; 1; 0; 0] 1 1 false true false;
  FormatInfo DRM_FORMAT_Q410 0 3 [2; 2; 2; 0] [1; 1; 1; 0] [1; 1; 1; 0] 1 1 false true false;
  FormatInfo DRM_FORMAT_Q401 0 3 [2; 2; 2; 0] [1; 1; 1; 0] [1; 1; 1; 0] 1 1 false true false;
  FormatInfo DRM_FORMAT_P030 0 2 [4; 8; 0; 0] [3; 3; 0; 0] [1; 1; 0; 0] 2 2 false true false;
  FormatInfo DRM_FORMAT_S010 0 3 [2; 2; 2; 0] [1; 1; 1; 0] [1; 1; 1; 0] 2 2 false true false;
  FormatInfo DRM_FORMAT_S210 0 3 [2; 2; 2; 0] [1; 1; 1; 0] [1; 1; 1; 0] 2 1 false true false;
  FormatInfo DRM_FORMAT_S410 0 3 [2; 2; 2; 0] [1; 1; 1; 0] [1; 1; 1; 0] 1 1 false true false;
  FormatInfo DRM_FORMAT_S012 0 3 [2; 2; 2; 0] [1; 1; 1; 0] [1; 1; 1; 0] 2 2 false true false;
  FormatInfo DRM_FORMAT_S212 0 3 [2; 2; 2; 0] [1; 1; 1; 0] [1; 1; 1; 0] 2 1 false true false;
  FormatInfo DRM_FORMAT_S412 0 3 [2; 2; 2; 0] [1; 1; 1; 0] [1; 1; 1; 0] 1 1 false true false;
  FormatInfo DRM_FORMAT_S016 0 3 [2; 2; 2; 0] [1; 1; 1; 0] [1; 1; 1; 0] 2 2 false true false;
  FormatInfo DRM_FORMAT_S216 0 3 [2; 2; 2; 0] [1; 1; 1; 0] [1; 1; 1; 0] 2 1 false true false;
  FormatInfo DRM_FORMAT_S416 0 3 [2; 2; 2; 0] [1; 1; 1; 0] [1; 1; 1; 0] 1 1 false true false
].

Fixpoint find_format (l : list drm_format_info) (fmt : Z) : option drm_format_info :=
  match l with
  | [] => None
  | info :: l => if format info =? fmt then Some info else find_format l fmt
  end.

Definition __drm_format_info (fmt : Z) : option drm_format_info := find_format formats fmt.

(** drm_format_info() warns about a missing format. *)
Definition drm_format_info_of (fmt : Z) : option drm_format_info := __drm_format_info fmt.

(** The driver's get_format_info hook, if there is one. *)
Definition drm_get_format_info (get_format_info : option (Z -> Z -> option drm_format_info))
    (pixel_format modifier : Z) : option drm_format_info :=
  match match get_format_info with Some f => f pixel_format modifier | None => None end with
  | Some info => Some info
  | None => drm_format_info_of pixel_format
  end.

(** ** Legacy names *)

Definition drm_mode_legacy_fb_format (bpp depth : Z) : Z :=
  if bpp =? 1 then if depth =? 1 then DRM_FORMAT_C1 else DRM_FORMAT_INVALID
  else if bpp =? 2 then if depth =? 2 then DRM_FORMAT_C2 else DRM_FORMAT_INVALID
  else if bpp =? 4 then if depth =? 4 then DRM_FORMAT_C4 else DRM_FORMAT_INVALID
  else if bpp =? 8 then if depth =? 8 then DRM_FORMAT_C8 else DRM_FORMAT_INVALID
  else if bpp =? 16 then
    if depth =? 15 then DRM_FORMAT_XRGB1555
    else if depth =? 16 then DRM_FORMAT_RGB565 else DRM_FORMAT_INVALID
  else if bpp =? 24 then if depth =? 24 then DRM_FORMAT_RGB888 else DRM_FORMAT_INVALID
  else if bpp =? 32 then
    if depth =? 24 then DRM_FORMAT_XRGB8888
    else if depth =? 30 then DRM_FORMAT_XRGB2101010
    else if depth =? 32 then DRM_FORMAT_ARGB8888 else DRM_FORMAT_INVALID
  else DRM_FORMAT_INVALID.

Definition DRM_FORMAT_HOST_XRGB1555 := DRM_FORMAT_XRGB1555.
Definition DRM_FORMAT_HOST_RGB565 := DRM_FORMAT_RGB565.
Definition DRM_FORMAT_HOST_XRGB8888 := DRM_FORMAT_XRGB8888.
Definition DRM_FORMAT_HOST_ARGB8888 := DRM_FORMAT_ARGB8888.

(** The quirks of mode_config. *)
Record quirks := Quirks {
  quirk_addfb_prefer_host_byte_order : bool;
  quirk_addfb_prefer_xbgr_30bpp : bool
}.

Definition drm_driver_legacy_fb_format (dev : quirks) (bpp depth : Z) : Z :=
  let fmt := drm_mode_legacy_fb_format bpp depth in
  let fmt :=
    if quirk_addfb_prefer_host_byte_order dev then
      let fmt := if fmt =? DRM_FORMAT_XRGB8888 then DRM_FORMAT_HOST_XRGB8888 else fmt in
      let fmt := if fmt =? DRM_FORMAT_ARGB8888 then DRM_FORMAT_HOST_ARGB8888 else fmt in
      let fmt := if fmt =? DRM_FORMAT_RGB565 then DRM_FORMAT_HOST_RGB565 else fmt in
      if fmt =? DRM_FORMAT_XRGB1555 then DRM_FORMAT_HOST_XRGB1555 else fmt
    else fmt in
  if quirk_addfb_prefer_xbgr_30bpp dev && (fmt =? DRM_FORMAT_XRGB2101010)
  then DRM_FORMAT_XBGR2101010 else fmt.

Definition drm_driver_color_mode_format (dev : quirks) (color_mode : Z) : Z :=
  if color_mode =? 15 then drm_driver_legacy_fb_format dev 16 15
  else if color_mode =? 32 then drm_driver_legacy_fb_format dev 32 24
  else drm_driver_legacy_fb_format dev color_mode color_mode.

(** ** Geometry *)

Definition at_plane (l : list Z) (plane : Z) : Z := nth (Z.to_nat plane) l 0.

(** The guard every function starts with; a missing format is None. *)
Definition no_plane (info : drm_format_info) (plane : Z) : bool :=
  (plane <? 0) || (num_planes info <=? plane).

Definition drm_format_info_block_width (info : drm_format_info) (plane : Z) : Z :=
  if no_plane info plane then 0
  else if at_plane (block_w info) plane =? 0 then 1 else at_plane (block_w info) plane.

Definition drm_format_info_block_height (info : drm_format_info) (plane : Z) : Z :=
  if no_plane info plane then 0
  else if at_plane (block_h info) plane =? 0 then 1 else at_plane (block_h info) plane.

Definition drm_format_info_bpp (info : drm_format_info) (plane : Z) : Z :=
  if no_plane info plane then 0
  else at_plane (char_per_block info) plane * 8
       / u32 (drm_format_info_block_width info plane * drm_format_info_block_height info plane).

Definition drm_format_info_min_pitch (info : drm_format_info) (plane buffer_width : Z) : Z :=
  if no_plane info plane then 0
  else DIV_ROUND_UP_ULL (u64 (buffer_width * at_plane (char_per_block info) plane))
         (u32 (drm_format_info_block_width info plane * drm_format_info_block_height info plane)).

(** The dimension helpers do not test for negative planes. *)
Definition drm_format_info_plane_width (info : drm_format_info) (width plane : Z) : Z :=
  if num_planes info <=? plane then 0
  else if plane =? 0 then width else DIV_ROUND_UP_int width (hsub info).

Definition drm_format_info_plane_height (info : drm_format_info) (height plane : Z) : Z :=
  if num_planes info <=? plane then 0
  else if plane =? 0 then height else DIV_ROUND_UP_int height (vsub info).

Definition drm_format_info_is_yuv_packed (info : drm_format_info) : bool :=
  is_yuv info && (num_planes info =? 1).
Definition drm_format_info_is_yuv_semiplanar (info : drm_format_info) : bool :=
  is_yuv info && (num_planes info =? 2).
Definition drm_format_info_is_yuv_planar (info : drm_format_info) : bool :=
  is_yuv info && (num_planes info =? 3).
Definition yuv_sampling (h v : Z) (info : drm_format_info) : bool :=
  is_yuv info && (hsub info =? h) && (vsub info =? v).
Definition drm_format_info_is_yuv_sampling_410 := yuv_sampling 4 4.
Definition drm_format_info_is_yuv_sampling_411 := yuv_sampling 4 1.
Definition drm_format_info_is_yuv_sampling_420 := yuv_sampling 2 2.
Definition drm_format_info_is_yuv_sampling_422 := yuv_sampling 2 1.
Definition drm_format_info_is_yuv_sampling_444 := yuv_sampling 1 1.

(** ** What the table says *)

Definition is_factor (x : Z) : bool := (x =? 1) || (x =? 2) || (x =? 4).

(** A row whose planes are few and whose numbers fit their fields; a plane without a
    block size has no linear layout. *)
Definition row_ok (info : drm_format_info) : bool :=
  (1 <=? num_planes info) && (num_planes info <=? 3)
  && is_factor (hsub info) && is_factor (vsub info)
  && forallb (fun l : list Z => (length l =? 4)%nat && forallb (fun x => (0 <=? x) && (x <=? 8)) l)
       [char_per_block info; block_w info; block_h info].

Record info_ok (info : drm_format_info) : Prop := {
  io_planes : 1 <= num_planes info <= 4;
  io_hsub : 1 <= hsub info <= 255;
  io_vsub : 1 <= vsub info <= 255;
  io_cpb i : 0 <= at_plane (char_per_block info) i <= 255;
  io_block_w i : 0 <= at_plane (block_w info) i <= 255;
  io_block_h i : 0 <= at_plane (block_h info) i <= 255
}.

Lemma at_plane_bounds l i :
  forallb (fun x => (0 <=? x) && (x <=? 8)) l = true -> 0 <= at_plane l i <= 8.
Proof.
  intros Hl. unfold at_plane. destruct (nth_in_or_default (Z.to_nat i) l 0) as [Hin| ->]; [|lia].
  rewrite forallb_forall in Hl. specialize (Hl _ Hin). lia.
Qed.

Lemma row_ok_info info : row_ok info = true -> info_ok info.
Proof.
  unfold row_ok, is_factor. cbn [forallb]. rewrite !andb_true_iff, !orb_true_iff, !Z.eqb_eq, !Z.leb_le.
  intros ((((H1 & H2) & H3) & H4) & (_ & H5) & (_ & H6) & (_ & H7) & _).
  split; try lia; intros i; [pose proof (at_plane_bounds _ i H5)|pose proof (at_plane_bounds _ i H6)
    |pose proof (at_plane_bounds _ i H7)]; lia.
Qed.

Lemma rows_ok : forallb row_ok formats = true.
Proof. vm_compute. reflexivity. Qed.

Lemma formats_nodup : NoDup (format <$> formats).
Proof. apply (bool_decide_unpack _). vm_compute. exact I. Qed.

Lemma find_format_in l fmt info :
  find_format l fmt = Some info -> info ∈ l /\ format info = fmt.
Proof.
  induction l as [|x l IH]; cbn; [done|]. destruct (Z.eqb_spec (format x) fmt) as [E|E].
  - intros [= <-]. split; [left|done].
  - intros H%IH. destruct H. split; [by right|done].
Qed.

Lemma in_find_format l info :
  NoDup (format <$> l) -> info ∈ l -> find_format l (format info) = Some info.
Proof.
  induction l as [|x l IH]; intros Hn Hi; [by apply not_elem_of_nil in Hi|]. cbn.
  rewrite fmap_cons in Hn. apply NoDup_cons in Hn as [Hx Hn].
  apply elem_of_cons in Hi as [->|Hi]; [by rewrite Z.eqb_refl|].
  destruct (Z.eqb_spec (format x) (format info)) as [E|E]; [|by apply IH].
  exfalso. apply Hx. rewrite E. by apply list_elem_of_fmap_2.
Qed.

(** The lookup finds exactly the rows. *)
Lemma format_lookup fmt info :
  __drm_format_info fmt = Some info <-> info ∈ formats /\ format info = fmt.
Proof.
  split; [apply find_format_in|]. intros [Hi <-]. apply in_find_format; [exact formats_nodup|done].
Qed.

Lemma format_info_ok fmt info : __drm_format_info fmt = Some info -> info_ok info.
Proof.
  intros [Hi _]%format_lookup. apply row_ok_info.
  assert (Hr := rows_ok). rewrite forallb_forall in Hr. apply Hr. by apply list_elem_of_In.
Qed.

(** C28. A name the legacy conversion gives for a depth and a number of bits per pixel,
    whatever the quirks of the device, is in the table of formats, as a single plane of
    that depth and exactly that many bits per pixel, without subsampling; every other
    pair is named invalid, and the invalid name is not in the table. *)
Theorem legacy_fb_format_spec dev bpp d :
  let fmt := drm_driver_legacy_fb_format dev bpp d in
  (fmt <> DRM_FORMAT_INVALID ->
   exists info, __drm_format_info fmt = Some info /\ depth info = d
     /\ drm_format_info_bpp info 0 = bpp /\ num_planes info = 1
     /\ hsub info = 1 /\ vsub info = 1 /\ is_yuv info = false)
  /\ (fmt = DRM_FORMAT_INVALID <-> (bpp, d) ∉
       [(1, 1); (2, 2); (4, 4); (8, 8); (16, 15); (16, 16); (24, 24); (32, 24); (32, 30); (32, 32)])
  /\ __drm_format_info DRM_FORMAT_INVALID = None.
Proof.
  cbn zeta. unfold drm_driver_legacy_fb_format, drm_mode_legacy_fb_format.
  destruct dev as [q1 q2].
  repeat match goal with
  | |- context [Z.eqb ?a ?b] =>
    lazymatch a with bpp => destruct (Z.eqb_spec a b); [subst bpp|]
                | d => destruct (Z.eqb_spec a b); [subst d|] end
  end.
  all: split; [|split; [|vm_compute; reflexivity]].
  all: destruct q1, q2.
  all: try (intros Hf; exfalso; apply Hf; reflexivity).
  all: try (intros _; eexists; split; [vm_compute; reflexivity|]; vm_compute; tauto).
  all: rewrite !not_elem_of_cons; split;
    first [intros Hf; discriminate Hf
          |intros _; repeat split; try (apply not_elem_of_nil); congruence
          |intros Hf; exfalso; revert Hf; intuition congruence
          |intros _; reflexivity].
Qed.
