(* ===== verification/Gem.v ===== *)
(** * GEM objects, handles and names

    The object life cycle of drm_gem.c: reference counts, the handles of open files, the
    global names of flink, and the framebuffers of drm_framebuffer.c and
    drm_gem_framebuffer_helper.c that keep objects alive.  Objects and files are
    identifiers; an object is in [objs] until its last reference is put, and touching it
    afterwards has no result.  The handle tables of all files are one map from file and
    handle; an entry can be the NULL that reserves an id.  idr_alloc() is lib/idr.c,
    outside of the sources.  Counters are unbounded.  The grants and offsets of
    mmap are in GemMmap.v; prime buffers are left out: the objects are neither exported
    nor imported. *)

From stdpp Require Import base numbers list option gmap.
From Stdlib Require Import ZArith Lia Bool.
From S2P Require Import Prelude.
#[local] Open Scope Z_scope.

Record drm_gem_object := GemObj {
  obj_size : Z;        (* size_t *)
  refcount : Z;        (* struct kref *)
  handle_count : Z;    (* unsigned int *)
  obj_name : Z         (* int, 0 without a name *)
}.

Record gem := Gem {
  objs : gmap Z drm_gem_object;
  object_name_idr : gmap Z Z;
  object_idr : gmap (Z * Z) (option Z)
}.

Definition set_obj (o : Z) (b : drm_gem_object) (g : gem) : gem :=
  Gem (<[o := b]> (objs g)) (object_name_idr g) (object_idr g).
Definition del_obj (o : Z) (g : gem) : gem :=
  Gem (delete o (objs g)) (object_name_idr g) (object_idr g).
Definition set_names (n : gmap Z Z) (g : gem) : gem := Gem (objs g) n (object_idr g).
Definition set_idr (t : gmap (Z * Z) (option Z)) (g : gem) : gem :=
  Gem (objs g) (object_name_idr g) t.

Definition with_refcount (k : Z) (b : drm_gem_object) : drm_gem_object :=
  GemObj (obj_size b) k (handle_count b) (obj_name b).
Definition with_handle_count (k : Z) (b : drm_gem_object) : drm_gem_object :=
  GemObj (obj_size b) (refcount b) k (obj_name b).
Definition with_name (n : Z) (b : drm_gem_object) : drm_gem_object :=
  GemObj (obj_size b) (refcount b) (handle_count b) n.

(** ** References *)

(** The initial reference is the caller's. *)
Definition drm_gem_private_object_init (o size : Z) (g : gem) : gem :=
  set_obj o (GemObj size 1 0 0) g.

Definition drm_gem_object_get (o : Z) (g : gem) : option gem :=
  b ← objs g !! o; Some (set_obj o (with_refcount (refcount b + 1) b) g).

(** kref_put() frees the object with the last reference. *)
Definition drm_gem_object_put (o : Z) (g : gem) : option gem :=
  b ← objs g !! o;
  if refcount b =? 1 then Some (del_obj o g)
  else Some (set_obj o (with_refcount (refcount b - 1) b) g).

Definition drm_gem_object_handle_get (o : Z) (g : gem) : option gem :=
  b ← objs g !! o;
  let g := set_obj o (with_handle_count (handle_count b + 1) b) g in
  if handle_count b =? 0 then drm_gem_object_get o g else Some g.

Definition drm_gem_object_handle_get_if_exists_unlocked (o : Z) (g : gem) : option (bool * gem) :=
  b ← objs g !! o;
  if handle_count b =? 0 then Some (false, g)
  else g ← drm_gem_object_handle_get o g; Some (true, g).

Definition drm_gem_object_handle_free (o : Z) (g : gem) : option gem :=
  b ← objs g !! o;
  Some (if obj_name b =? 0 then g
        else set_obj o (with_name 0 b) (set_names (delete (obj_name b) (object_name_idr g)) g)).

Definition drm_gem_object_handle_put_unlocked (o : Z) (g : gem) : option gem :=
  b ← objs g !! o;
  if handle_count b =? 0 then Some g
  else
    let g := set_obj o (with_handle_count (handle_count b - 1) b) g in
    if handle_count b - 1 =? 0 then
      g ← drm_gem_object_handle_free o g;
      drm_gem_object_put o g
    else Some g.

(** ** Handles *)

Definition drm_gem_object_release_handle (o : Z) (g : gem) : option gem :=
  drm_gem_object_handle_put_unlocked o g.

(** The first critical section of drm_gem_handle_delete() takes the object out of its
    entry, the second frees the id. *)
Definition drm_gem_handle_delete (file handle : Z) (g : gem) : option (Z * gem) :=
  match object_idr g !! (file, handle) with
  | None | Some None => Some (- EINVAL, g)
  | Some (Some o) =>
    let g := set_idr (<[(file, handle) := None]> (object_idr g)) g in
    g ← drm_gem_object_release_handle o g;
    Some (0, set_idr (delete (file, handle) (object_idr g)) g)
  end.

Definition idr_find (file handle : Z) (g : gem) : option Z := mjoin (object_idr g !! (file, handle)).

(** One handle of objects_lookup(). *)
Definition drm_gem_object_lookup (file handle : Z) (g : gem) : option (option Z * gem) :=
  match idr_find file handle g with
  | None => Some (None, g)
  | Some o => g ← drm_gem_object_get o g; Some (Some o, g)
  end.

Section gem.
(** The id idr_alloc() takes from the ids that are not in use, or an error. *)
Context (idr_alloc : (Z -> bool) -> Z -> Z -> Z).

Definition used (file : Z) (g : gem) (handle : Z) : bool :=
  match object_idr g !! (file, handle) with Some _ => true | None => false end.

(** [allow] and [open] are the results of drm_vma_node_allow() and of the driver's open
    hook, 0 without one. *)
Definition drm_gem_handle_create_tail (file o allow open : Z) (g : gem) : option (Z * Z * gem) :=
  g ← drm_gem_object_handle_get o g;
  let ret := idr_alloc (used file g) 1 0 in
  if ret <? 0 then g ← drm_gem_object_handle_put_unlocked o g; Some (ret, 0, g)
  else
    let handle := ret in
    let g := set_idr (<[(file, handle) := None]> (object_idr g)) g in
    let ret := if allow =? 0 then open else allow in
    if ret =? 0 then
      Some (0, handle, set_idr (<[(file, handle) := Some o]> (object_idr g)) g)
    else
      let g := set_idr (delete (file, handle) (object_idr g)) g in
      g ← drm_gem_object_handle_put_unlocked o g;
      Some (ret, 0, g).

Definition drm_gem_handle_create (file o allow open : Z) (g : gem) : option (Z * Z * gem) :=
  drm_gem_handle_create_tail file o allow open g.

Definition drm_gem_close_ioctl (file handle : Z) (g : gem) : option (Z * gem) :=
  drm_gem_handle_delete file handle g.

(** ** Names *)

Definition name_used (g : gem) (n : Z) : bool :=
  match object_name_idr g !! n with Some _ => true | None => false end.

Definition drm_gem_flink_ioctl (file handle : Z) (g : gem) : option (Z * Z * gem) :=
  '(obj, g) ← drm_gem_object_lookup file handle g;
  match obj with
  | None => Some (- ENOENT, 0, g)
  | Some o =>
    b ← objs g !! o;
    let '(ret, g) :=
      if handle_count b =? 0 then (- ENOENT, g)
      else if obj_name b =? 0 then
        let ret := idr_alloc (name_used g) 1 0 in
        if ret <? 0 then (ret, g)
        else (0, set_obj o (with_name ret b) (set_names (<[ret := o]> (object_name_idr g)) g))
      else (0, g) in
    b ← objs g !! o;
    let n := if ret =? 0 then obj_name b else 0 in
    g ← drm_gem_object_put o g;
    Some (ret, n, g)
  end.

Definition drm_gem_open_ioctl (file name allow open : Z) (g : gem) : option (Z * Z * gem) :=
  match object_name_idr g !! name with
  | None => Some (- ENOENT, 0, g)
  | Some o =>
    g ← drm_gem_object_get o g;
    '(ret, handle, g) ← drm_gem_handle_create_tail file o allow open g;
    g ← drm_gem_object_put o g;
    Some (ret, if ret =? 0 then handle else 0, g)
  end.

(** ** Changing a handle *)

(** Its critical sections: reserve the new id for the object, then free the old one. *)
Definition change_handle_alloc (file o new : Z) (g : gem) : Z * gem :=
  let ret := idr_alloc (used file g) new (s32 (new + 1)) in
  if ret <? 0 then (ret, g)
  else (0, set_idr (<[(file, ret) := Some o]> (object_idr g)) g).

Definition change_handle_remove (file handle : Z) (g : gem) : gem :=
  set_idr (delete (file, handle) (object_idr g)) g.

Definition drm_gem_change_handle_ioctl (file handle new : Z) (g : gem) : option (Z * gem) :=
  if 2 ^ 31 - 1 <? new then Some (- EINVAL, g)
  else
    '(obj, g) ← drm_gem_object_lookup file handle g;
    match obj with
    | None => Some (- ENOENT, g)
    | Some o =>
      let '(ret, g) :=
        if handle =? new then (0, g)
        else
          let '(ret, g) := change_handle_alloc file o new g in
          if ret <? 0 then (ret, g) else (0, change_handle_remove file handle g) in
      g ← drm_gem_object_put o g;
      Some (ret, g)
    end.

(** ** Closing a file *)

(** idr_for_each(): every entry of the file. *)
Definition handles_of (file : Z) (g : gem) : list ((Z * Z) * option Z) :=
  filter (fun p => p.1.1 = file) (map_to_list (object_idr g)).

Fixpoint release_handles (l : list ((Z * Z) * option Z)) (g : gem) : option gem :=
  match l with
  | [] => Some g
  | (_, None) :: _ => None
  | (_, Some o) :: l => g ← drm_gem_object_release_handle o g; release_handles l g
  end.

Definition drm_gem_release (file : Z) (g : gem) : option gem :=
  let l := handles_of file g in
  g ← release_handles l g;
  Some (set_idr (filter (fun p => p.1.1 <> file) (object_idr g)) g).
End gem.
