(* ===== verification/Framebuffer.v ===== *)
(** * Framebuffers

    The checks of framebuffer requests in drm_framebuffer.c, and the framebuffers backed
    by GEM objects of drm_gem_framebuffer_helper.c with the size check of their objects
    and the references they take.  Arrays of a request have four elements.  The results
    of memory allocation, of drm_any_plane_has_format() and of the registration of the
    mode object are arguments. *)

From stdpp Require Import base numbers list option gmap.
From Stdlib Require Import ZArith Lia Bool.
From S2P Require Import Prelude Fourcc Gem.
#[local] Open Scope Z_scope.

Abbreviation EOPNOTSUPP := 95.
Abbreviation UINT_MAX := (2 ^ 32 - 1).

Record drm_mode_fb_cmd2 := FbCmd {
  r_width : Z;                (* __u32 *)
  r_height : Z;               (* __u32 *)
  r_pixel_format : Z;         (* __u32 *)
  r_flags : Z;                (* __u32 *)
  r_handles : list Z;         (* __u32[4] *)
  r_pitches : list Z;         (* __u32[4] *)
  r_offsets : list Z;         (* __u32[4] *)
  r_modifier : list Z         (* __u64[4] *)
}.

Definition DRM_MODE_FB_INTERLACED := BIT 0.
Definition DRM_MODE_FB_MODIFIERS := BIT 1.
Definition DRM_FORMAT_MOD_LINEAR := 0.
Definition DRM_FORMAT_MOD_SAMSUNG_64_32_TILE := Z.lor (Z.shiftl 4 56) 1.

(** ** Checking a request *)

Definition modifiers (r : drm_mode_fb_cmd2) : bool := tst (r_flags r) DRM_MODE_FB_MODIFIERS.

Definition check_plane (info : drm_format_info) (r : drm_mode_fb_cmd2) (i : Z) : Z :=
  let width := u32 (drm_format_info_plane_width info (s32 (r_width r)) i) in
  let height := u32 (drm_format_info_plane_height info (s32 (r_height r)) i) in
  let block_size := at_plane (char_per_block info) i in
  let min_pitch := drm_format_info_min_pitch info i width in
  let modifier := at_plane (r_modifier r) i in
  let pitch := at_plane (r_pitches r) i in
  if (block_size =? 0) && (modifier =? DRM_FORMAT_MOD_LINEAR) then - EINVAL
  else if at_plane (r_handles r) i =? 0 then - EINVAL
  else if UINT_MAX <? min_pitch then - ERANGE
  else if UINT_MAX <? u64 (height * pitch + at_plane (r_offsets r) i) then - ERANGE
  else if negb (block_size =? 0) && (pitch <? min_pitch) then - EINVAL
  else if negb (modifier =? 0) && negb (modifiers r) then - EINVAL
  else if modifiers r && negb (modifier =? at_plane (r_modifier r) 0) then - EINVAL
  else if modifier =? DRM_FORMAT_MOD_SAMSUNG_64_32_TILE then
    if negb (r_pixel_format r =? DRM_FORMAT_NV12) || negb (width mod 128 =? 0)
       || negb (height mod 32 =? 0) || negb (pitch mod 128 =? 0)
    then - EINVAL else 0
  else 0.

Definition check_unused_plane (r : drm_mode_fb_cmd2) (i : Z) : Z :=
  if negb (at_plane (r_modifier r) i =? 0) then - EINVAL
  else if negb (modifiers r) then 0
  else if negb (at_plane (r_handles r) i =? 0) then - EINVAL
  else if negb (at_plane (r_pitches r) i =? 0) then - EINVAL
  else if negb (at_plane (r_offsets r) i =? 0) then - EINVAL
  else 0.

(** The first error of the loops. *)
Fixpoint first_error (check : Z -> Z) (l : list Z) : Z :=
  match l with
  | [] => 0
  | i :: l => if check i =? 0 then first_error check l else check i
  end.

Definition framebuffer_check (info : drm_format_info) (r : drm_mode_fb_cmd2) : Z :=
  if r_width r =? 0 then - EINVAL
  else if r_height r =? 0 then - EINVAL
  else
    let ret := first_error (check_plane info r) (seqZ 0 (num_planes info)) in
    if ret =? 0
    then first_error (check_unused_plane r) (seqZ (num_planes info) (4 - num_planes info))
    else ret.

Definition drm_framebuffer_check_src_coords (src_x src_y src_w src_h fb_w fb_h : Z) : Z :=
  let fb_width := u32 (Z.shiftl fb_w 16) in
  let fb_height := u32 (Z.shiftl fb_h 16) in
  if (fb_width <? src_w) || (u32 (fb_width - src_w) <? src_x)
     || (fb_height <? src_h) || (u32 (fb_height - src_h) <? src_y)
  then - ENOSPC else 0.

(** ** Creating a framebuffer *)

Record mode_config := ModeConfig {
  min_width : Z; max_width : Z; min_height : Z; max_height : Z;  (* unsigned int *)
  fb_modifiers_not_supported : bool;
  get_format_info : option (Z -> Z -> option drm_format_info);
  fb_quirks : quirks
}.

(** The checks, then the driver's hook; the hook returns an error or a framebuffer. *)
Definition drm_internal_framebuffer_create {A} (config : mode_config)
    (fb_create : drm_format_info -> drm_mode_fb_cmd2 -> gem -> option ((Z + A) * gem))
    (r : drm_mode_fb_cmd2) (g : gem) : option ((Z + A) * gem) :=
  if negb (Z.land (r_flags r) (u32 (Z.lnot (Z.lor DRM_MODE_FB_INTERLACED DRM_MODE_FB_MODIFIERS))) =? 0)
  then Some (inl (- EINVAL), g)
  else if (r_width r <? min_width config) || (max_width config <? r_width r)
  then Some (inl (- EINVAL), g)
  else if (r_height r <? min_height config) || (max_height config <? r_height r)
  then Some (inl (- EINVAL), g)
  else if modifiers r && fb_modifiers_not_supported config then Some (inl (- EINVAL), g)
  else
    match __drm_format_info (r_pixel_format r) with
    | None => Some (inl (- EINVAL), g)
    | Some _ =>
      info ← drm_get_format_info (get_format_info config) (r_pixel_format r)
               (at_plane (r_modifier r) 0);
      let ret := framebuffer_check info r in
      if ret =? 0 then fb_create info r g else Some (inl ret, g)
    end.

(** ** Framebuffers on GEM objects *)

(** The objects of the planes, and whether the framebuffer holds their handles
    (DRM_FRAMEBUFFER_HAS_HANDLE_REF). *)
Record drm_framebuffer := Fb {
  fb_format : drm_format_info;
  fb_width : Z; fb_height : Z;
  fb_pitches : list Z; fb_offsets : list Z;
  fb_modifier : Z; fb_flags : Z;
  fb_obj : list (Z * bool)
}.

Definition drm_helper_mode_fill_fb_struct (info : drm_format_info) (r : drm_mode_fb_cmd2)
    (o : list (Z * bool)) : drm_framebuffer :=
  Fb info (r_width r) (r_height r) (r_pitches r) (r_offsets r) (at_plane (r_modifier r) 0)
    (r_flags r) o.

Fixpoint take_handle_refs (l : list Z) (g : gem) : option (list (Z * bool) * gem) :=
  match l with
  | [] => Some ([], g)
  | o :: l =>
    '(exists_, g) ← drm_gem_object_handle_get_if_exists_unlocked o g;
    '(refs, g) ← take_handle_refs l g;
    Some ((o, exists_) :: refs, g)
  end.

Fixpoint put_handle_refs (l : list (Z * bool)) (g : gem) : option gem :=
  match l with
  | [] => Some g
  | (o, true) :: l => g ← drm_gem_object_handle_put_unlocked o g; put_handle_refs l g
  | (_, false) :: l => put_handle_refs l g
  end.

(** [add] is the result of __drm_mode_object_add(). *)
Definition drm_framebuffer_init (l : list Z) (add : Z) (g : gem)
    : option (Z * list (Z * bool) * gem) :=
  '(refs, g) ← take_handle_refs l g;
  if add =? 0 then Some (0, refs, g)
  else g ← put_handle_refs refs g; Some (add, (fun p => (p.1, false)) <$> refs, g).

Fixpoint put_objs (l : list Z) (g : gem) : option gem :=
  match l with [] => Some g | o :: l => g ← drm_gem_object_put o g; put_objs l g end.

Definition gem_min_size (info : drm_format_info) (r : drm_mode_fb_cmd2) (i : Z) : Z :=
  let width := if i =? 0 then r_width r else r_width r / hsub info in
  let height := if i =? 0 then r_height r else r_height r / vsub info in
  u32 (u64 (u64 (u32 (u32 (height - 1) * at_plane (r_pitches r) i)
                 + drm_format_info_min_pitch info i width)
            + at_plane (r_offsets r) i)).

(** The objects of the planes in turn, the last one first; on an error those looked up
    before are put again. *)
Fixpoint lookup_planes (file : Z) (info : drm_format_info) (r : drm_mode_fb_cmd2)
    (planes found : list Z) (g : gem) : option ((Z + list Z) * gem) :=
  match planes with
  | [] => Some (inr found, g)
  | i :: planes =>
    '(o, g) ← drm_gem_object_lookup file (at_plane (r_handles r) i) g;
    match o with
    | None => g ← put_objs found g; Some (inl (- ENOENT), g)
    | Some o =>
      b ← objs g !! o;
      if obj_size b <? gem_min_size info r i then
        g ← drm_gem_object_put o g;
        g ← put_objs found g;
        Some (inl (- EINVAL), g)
      else lookup_planes file info r planes (o :: found) g
    end
  end.

(** [has_format] is the result of the check an atomic driver makes first. *)
Definition drm_gem_fb_init_with_funcs (file : Z) (has_format : bool) (add : Z)
    (info : drm_format_info) (r : drm_mode_fb_cmd2) (g : gem)
    : option ((Z + drm_framebuffer) * gem) :=
  if negb has_format then Some (inl (- EINVAL), g)
  else
    '(found, g) ← lookup_planes file info r (seqZ 0 (num_planes info)) [] g;
    match found with
    | inl ret => Some (inl ret, g)
    | inr found =>
      '(ret, refs, g) ← drm_framebuffer_init (reverse found) add g;
      if ret =? 0 then Some (inr (drm_helper_mode_fill_fb_struct info r refs), g)
      else g ← put_objs found g; Some (inl ret, g)
    end.

Definition drm_gem_fb_create_with_funcs (file : Z) (alloc has_format : bool) (add : Z)
    (info : drm_format_info) (r : drm_mode_fb_cmd2) (g : gem)
    : option ((Z + drm_framebuffer) * gem) :=
  if negb alloc then Some (inl (- ENOMEM), g)
  else drm_gem_fb_init_with_funcs file has_format add info r g.

Definition drm_framebuffer_cleanup (fb : drm_framebuffer) (g : gem) : option gem :=
  put_handle_refs (fb_obj fb) g.

Definition drm_gem_fb_destroy (fb : drm_framebuffer) (g : gem) : option gem :=
  g ← put_objs (fb_obj fb).*1 g;
  drm_framebuffer_cleanup fb g.

(** ** The ioctls *)

Definition drm_mode_addfb2 (config : mode_config) (modeset : bool) (file : Z)
    (alloc has_format : bool) (add : Z) (r : drm_mode_fb_cmd2) (g : gem)
    : option ((Z + drm_framebuffer) * gem) :=
  if negb modeset then Some (inl (- EOPNOTSUPP), g)
  else drm_internal_framebuffer_create config
         (drm_gem_fb_create_with_funcs file alloc has_format add) r g.

Record drm_mode_fb_cmd := OldFbCmd {
  or_width : Z; or_height : Z; or_pitch : Z; or_bpp : Z; or_depth : Z; or_handle : Z
}.

Definition drm_mode_addfb (config : mode_config) (modeset : bool) (file : Z)
    (alloc has_format : bool) (add : Z) (r : drm_mode_fb_cmd) (g : gem)
    : option ((Z + drm_framebuffer) * gem) :=
  if negb modeset then Some (inl (- EOPNOTSUPP), g)
  else
    let fmt := drm_driver_legacy_fb_format (fb_quirks config) (or_bpp r) (or_depth r) in
    if fmt =? DRM_FORMAT_INVALID then Some (inl (- EINVAL), g)
    else drm_mode_addfb2 config modeset file alloc has_format add
           (FbCmd (or_width r) (or_height r) fmt 0 [or_handle r; 0; 0; 0]
              [or_pitch r; 0; 0; 0] z4 z4) g.

(** ** Framebuffers stay inside their objects *)

(** The sizes of a plane in blocks. *)
Definition sub_w (info : drm_format_info) (i : Z) : Z := if i =? 0 then 1 else hsub info.
Definition sub_h (info : drm_format_info) (i : Z) : Z := if i =? 0 then 1 else vsub info.

(** Where the block of a pixel of a plane starts; a row of blocks takes one pitch for
    each of its lines. *)
Definition block_address (info : drm_format_info) (r : drm_mode_fb_cmd2) (i x y : Z) : Z :=
  let bw := drm_format_info_block_width info i in
  let bh := drm_format_info_block_height info i in
  at_plane (r_offsets r) i + y / bh * bh * at_plane (r_pitches r) i
  + x / bw * at_plane (char_per_block info) i.

(** The whole block of the pixel is inside the plane.  For formats whose blocks are
    single pixels this is x below the width and y below the height of the plane. *)
Definition block_inside (info : drm_format_info) (r : drm_mode_fb_cmd2) (i x y : Z) : Prop :=
  let bw := drm_format_info_block_width info i in
  let bh := drm_format_info_block_height info i in
  0 <= x /\ (x / bw + 1) * bw <= r_width r / sub_w info i
  /\ 0 <= y /\ (y / bh + 1) * bh <= r_height r / sub_h info i.

(** Requests whose fields have their C types. *)
Record request_typed (r : drm_mode_fb_cmd2) : Prop := {
  rt_width : is_u32 (r_width r);
  rt_height : is_u32 (r_height r);
  rt_pitches i : is_u32 (at_plane (r_pitches r) i);
  rt_offsets i : is_u32 (at_plane (r_offsets r) i)
}.

Lemma block_bounds info i : info_ok info -> 0 <= i < num_planes info ->
  1 <= drm_format_info_block_width info i <= 255 /\ 1 <= drm_format_info_block_height info i <= 255.
Proof.
  intros [_ _ _ _ Hw Hh] Hi. specialize (Hw i). specialize (Hh i).
  unfold drm_format_info_block_width, drm_format_info_block_height, no_plane.
  bdestr; cbn [orb]; lia.
Qed.

(** The dimension that is checked, rounded up, against the one rounded down. *)
Lemma plane_dim n d : 0 <= n < 2 ^ 30 -> 1 <= d <= 255 ->
  0 <= n / d <= u32 (DIV_ROUND_UP_int n d) /\ u32 (DIV_ROUND_UP_int n d) < 2 ^ 30.
Proof.
  intros Hn Hd. unfold DIV_ROUND_UP_int.
  rewrite (s32_small (n + d)), (s32_small (n + d - 1)) by (apply is_s32_iff; lia).
  rewrite Z.quot_div_nonneg by lia.
  assert (Hq : n / d <= (n + d - 1) / d < 2 ^ 30).
  { split; [apply Z.div_le_mono; lia|]. apply Z.div_lt_upper_bound; [lia|]. nia. }
  assert (0 <= n / d) by (apply Z.div_pos; lia).
  rewrite s32_small by (apply is_s32_iff; lia). rewrite u32_small by (unfold is_u; lia). lia.
Qed.

Section plane.
Context (info : drm_format_info) (r : drm_mode_fb_cmd2) (i : Z).
Context (Hinfo : info_ok info) (Hr : request_typed r) (Hi : 0 <= i < num_planes info).
Context (Hmaxw : r_width r < 2 ^ 30) (Hmaxh : r_height r < 2 ^ 30).

Lemma plane_dims :
  let w := r_width r / sub_w info i in
  let h := r_height r / sub_h info i in
  let wc := u32 (drm_format_info_plane_width info (s32 (r_width r)) i) in
  let hc := u32 (drm_format_info_plane_height info (s32 (r_height r)) i) in
  0 <= w <= wc /\ wc < 2 ^ 30 /\ 0 <= h <= hc /\ hc < 2 ^ 30
  /\ (if i =? 0 then r_width r else r_width r / hsub info) = w
  /\ (if i =? 0 then r_height r else r_height r / vsub info) = h.
Proof.
  cbn zeta. destruct Hr as [[Hw _] [Hh _] _ _]. destruct Hinfo as [_ Hs Vs _ _ _].
  unfold drm_format_info_plane_width, drm_format_info_plane_height, sub_w, sub_h in *.
  rewrite !(s32_small (r_width r)), !(s32_small (r_height r)) by (apply is_s32_iff; lia).
  destruct (Z.leb_spec (num_planes info) i); [lia|]. destruct (Z.eqb_spec i 0) as [Ei|Ei].
  - rewrite !Z.div_1_r, !wrapU_small by (unfold is_u; lia). lia.
  - destruct (plane_dim (r_width r) (hsub info)) as [? ?]; [lia..|].
    destruct (plane_dim (r_height r) (vsub info)) as [? ?]; [lia..|].
    repeat (split; [done|]). done.
Qed.

Lemma min_pitch_bound w :
  0 <= w < 2 ^ 30 ->
  let bw := drm_format_info_block_width info i in
  let bh := drm_format_info_block_height info i in
  let mp := drm_format_info_min_pitch info i w in
  0 <= mp < 2 ^ 39 /\ w * at_plane (char_per_block info) i <= mp * (bw * bh)
  /\ mp = (w * at_plane (char_per_block info) i + bw * bh - 1) / (bw * bh).
Proof.
  intros Hw. cbn zeta. destruct (block_bounds info i Hinfo Hi) as [Bw Bh].
  pose proof (io_cpb info Hinfo i) as Hc. unfold drm_format_info_min_pitch, no_plane.
  destruct (Z.ltb_spec i 0); [lia|]. destruct (Z.leb_spec (num_planes info) i); [lia|]. cbn [orb].
  set (d := drm_format_info_block_width info i * drm_format_info_block_height info i).
  assert (Hd : 1 <= d <= 65025) by (unfold d; nia).
  set (n := w * at_plane (char_per_block info) i) in *.
  assert (Hn : 0 <= n < 2 ^ 38) by (unfold n; nia).
  unfold DIV_ROUND_UP_ULL, DIV_ROUND_DOWN_ULL.
  rewrite (u32_small d) by (unfold is_u; lia). rewrite (u64_small n) by (unfold is_u; lia).
  rewrite (u64_small (n + d - 1)) by (unfold is_u; lia).
  rewrite (u64_small (n + d - 1)) by (unfold is_u; lia).
  rewrite (u32_small d) by (unfold is_u; lia).
  pose proof (div_ceil_bounds n d ltac:(lia)) as Hb. split; [|split; [nia|done]].
  split; [apply Z.div_pos; lia|]. apply Z.div_lt_upper_bound; lia.
Qed.

Lemma min_pitch_mono w w' :
  0 <= w <= w' -> w' < 2 ^ 30 ->
  drm_format_info_min_pitch info i w <= drm_format_info_min_pitch info i w'.
Proof.
  intros Hw Hw'. destruct (min_pitch_bound w) as (_ & _ & ->); [lia|].
  destruct (min_pitch_bound w') as (_ & _ & ->); [lia|].
  destruct (block_bounds info i Hinfo Hi) as [Bw Bh]. pose proof (io_cpb info Hinfo i) as Hc.
  apply Z.div_le_mono; [nia|]. nia.
Qed.

Lemma min_pitch_zero w :
  0 <= w < 2 ^ 30 -> at_plane (char_per_block info) i = 0 -> drm_format_info_min_pitch info i w = 0.
Proof.
  intros Hw Hz. destruct (min_pitch_bound w) as (_ & _ & ->); [lia|].
  destruct (block_bounds info i Hinfo Hi) as [Bw Bh]. rewrite Hz, Z.mul_0_r.
  apply Z.div_small. nia.
Qed.

(** What the checks of the request leave of the size of the plane, with its dimensions
    rounded down: nothing wraps. *)
Lemma plane_checked :
  let w := r_width r / sub_w info i in
  let h := r_height r / sub_h info i in
  let p := at_plane (r_pitches r) i in
  let mp := drm_format_info_min_pitch info i w in
  check_plane info r i = 0 -> 1 <= h ->
  mp <= p /\ gem_min_size info r i = (h - 1) * p + mp + at_plane (r_offsets r) i.
Proof.
  intros w h p mp Hc Hh. destruct plane_dims as (Bw & Bwc & Bh & Bhc & Ew & Eh).
  fold w in Bw, Ew. fold h in Bh, Eh.
  unfold check_plane in Hc. unfold gem_min_size. rewrite Ew, Eh.
  set (wc := u32 (drm_format_info_plane_width info (s32 (r_width r)) i)) in *.
  set (hc := u32 (drm_format_info_plane_height info (s32 (r_height r)) i)) in *.
  destruct (min_pitch_bound w) as (Bmp & _); [lia|]. fold mp in Bmp.
  pose proof (min_pitch_mono w wc Bw Bwc) as Hmono. fold mp in Hmono.
  pose proof (min_pitch_zero wc ltac:(lia)) as Hz.
  pose proof (rt_pitches r Hr i) as Hp. pose proof (rt_offsets r Hr i) as Ho.
  unfold is_u in Hp, Ho. fold p in Hp. fold p in Hc |- *. fold mp.
  set (off := at_plane (r_offsets r) i) in *. set (cpb := at_plane (char_per_block info) i) in *.
  set (mpc := drm_format_info_min_pitch info i wc) in *. clearbody w h p mp wc hc off cpb mpc.
  destruct ((cpb =? 0) && _); [discriminate Hc|]. destruct (at_plane (r_handles r) i =? 0); [discriminate Hc|].
  destruct (Z.ltb_spec UINT_MAX mpc); [discriminate Hc|].
  rewrite u64_small in Hc by (unfold is_u; nia).
  destruct (Z.ltb_spec UINT_MAX (hc * p + off)) as [|Hsz]; [discriminate Hc|].
  assert (Hpitch : mp <= p).
  { destruct (Z.eqb_spec cpb 0) as [E|E]; [rewrite Hz in Hmono by done; lia|].
    destruct (Z.ltb_spec p mpc); [discriminate Hc|lia]. }
  clear Hc. split; [done|]. unfold UINT_MAX in Hsz. assert (h * p <= hc * p) by nia.
  rewrite (u32_small (h - 1)) by (unfold is_u; lia).
  rewrite (u32_small ((h - 1) * p)) by (unfold is_u; nia).
  rewrite (u64_small ((h - 1) * p + mp)) by (unfold is_u; nia).
  rewrite (u64_small ((h - 1) * p + mp + off)) by (unfold is_u; nia).
  rewrite u32_small by (unfold is_u; nia). done.
Qed.

(** What a plane that passes the checks of the request and of the object's size holds. *)
Lemma plane_fits size x y :
  check_plane info r i = 0 -> gem_min_size info r i <= size -> block_inside info r i x y ->
  0 <= block_address info r i x y
  /\ block_address info r i x y + at_plane (char_per_block info) i <= size.
Proof.
  intros Hc Hs (Hx & Hxw & Hy & Hyh).
  destruct (block_bounds info i Hinfo Hi) as [Bbw Bbh].
  pose proof (rt_pitches r Hr i) as Hp. pose proof (rt_offsets r Hr i) as Ho. unfold is_u in Hp, Ho.
  pose proof (io_cpb info Hinfo i) as Hcpb.
  assert (Hqx : 0 <= x / drm_format_info_block_width info i) by (apply Z.div_pos; lia).
  assert (Hqy : 0 <= y / drm_format_info_block_height info i) by (apply Z.div_pos; lia).
  destruct plane_checked as [Hpitch Hsize]; [done|nia|]. rewrite Hsize in Hs.
  destruct plane_dims as (Bw & Bwc & _).
  destruct (min_pitch_bound (r_width r / sub_w info i)) as (Bmp & Hmp & _); [lia|].
  clear Hc Hsize Bwc. unfold block_address. revert Hpitch Hs Hmp Hxw Hyh Hqx Hqy Bmp Bw.
  generalize (drm_format_info_min_pitch info i (r_width r / sub_w info i)). intros mp.
  generalize (x / drm_format_info_block_width info i). intros qx.
  generalize (y / drm_format_info_block_height info i). intros qy.
  set (w := r_width r / sub_w info i). set (h := r_height r / sub_h info i).
  set (p := at_plane (r_pitches r) i) in *. set (off := at_plane (r_offsets r) i) in *.
  set (cpb := at_plane (char_per_block info) i) in *.
  set (bw := drm_format_info_block_width info i) in *.
  set (bh := drm_format_info_block_height info i) in *. clearbody w h p off cpb bw bh.
  intros. split; [nia|].
  assert (H0 : (qx + 1) * bw * cpb <= w * cpb) by nia.
  assert (H1 : (qx + 1) * cpb <= mp * bh) by nia.
  assert (H3 : qy * bh * p <= (h - bh) * p) by nia.
  assert (H4 : (bh - 1) * mp <= (bh - 1) * p) by nia. nia.
Qed.
End plane.

Lemma first_error_zero check l : first_error check l = 0 -> forall i, i ∈ l -> check i = 0.
Proof.
  induction l as [|j l IH]; cbn; intros H i Hi; [by apply not_elem_of_nil in Hi|].
  destruct (Z.eqb_spec (check j) 0) as [E|E]; [|done].
  apply elem_of_cons in Hi as [->|Hi]; [done|by apply IH].
Qed.

(** Sizes never change. *)
Definition same_sizes (g g' : gem) : Prop :=
  forall o b', objs g' !! o = Some b' -> exists b, objs g !! o = Some b /\ obj_size b = obj_size b'.

Lemma get_same_sizes o g g' : drm_gem_object_get o g = Some g' -> same_sizes g g'.
Proof.
  unfold drm_gem_object_get. destruct (objs g !! o) as [b|] eqn:E; [|done]. intros [= <-] j b'.
  cbn [set_obj objs]. destruct (decide (j = o)) as [->|].
  - rewrite lookup_insert_eq. intros [= <-]. by exists b.
  - rewrite lookup_insert_ne by done. intros Hj. by exists b'.
Qed.

Lemma lookup_same_sizes file h g o g' : drm_gem_object_lookup file h g = Some (o, g') -> same_sizes g g'.
Proof.
  unfold drm_gem_object_lookup. destruct (idr_find file h g) as [j|].
  - destruct (drm_gem_object_get j g) as [g1|] eqn:E; [|done]. intros [= _ <-]. by apply (get_same_sizes j).
  - intros [= _ <-] k b' Hk. by exists b'.
Qed.

Lemma lookup_planes_sizes file info r planes : forall found g l g',
  lookup_planes file info r planes found g = Some (inr l, g') ->
  exists os, l = reverse os ++ found /\ Forall2 (fun i o =>
    exists b, objs g !! o = Some b /\ gem_min_size info r i <= obj_size b) planes os.
Proof.
  induction planes as [|i planes IH]; intros found g l g' E; cbn [lookup_planes] in E.
  { injection E as <- <-. by exists []. }
  destruct (drm_gem_object_lookup file _ g) as [[[o|] g1]|] eqn:El; [..|done]; cbn [mbind option_bind] in E.
  2: { destruct (put_objs found g1); done. }
  assert (Hs := lookup_same_sizes _ _ _ _ _ El).
  destruct (objs g1 !! o) as [b|] eqn:Eb; [|done]. cbn [mbind option_bind] in E.
  destruct (Z.ltb_spec (obj_size b) (gem_min_size info r i)) as [Hlt|Hle].
  { destruct (drm_gem_object_put o g1) as [g2|]; [|done]. cbn [mbind option_bind] in E.
    destruct (put_objs found g2); done. }
  destruct (IH (o :: found) g1 l g' E) as (os & -> & Hos). exists (o :: os).
  split; [by rewrite reverse_cons, <- app_assoc|]. constructor.
  - destruct (Hs o b Eb) as (b0 & Eb0 & Hb0). exists b0. split; [done|lia].
  - eapply Forall2_impl; [exact Hos|]. intros j o' (b' & E' & H').
    destruct (Hs o' b' E') as (b0 & Eb0 & Hb0). exists b0. split; [done|lia].
Qed.

Lemma take_handle_refs_objs l : forall g refs g', take_handle_refs l g = Some (refs, g') -> refs.*1 = l.
Proof.
  induction l as [|o l IH]; intros g refs g' E; cbn [take_handle_refs] in E; [by injection E as <- <-|].
  destruct (drm_gem_object_handle_get_if_exists_unlocked o g) as [[e g1]|]; [|done]. cbn [mbind option_bind] in E.
  destruct (take_handle_refs l g1) as [[rs g2]|] eqn:Et; [|done]. injection E as <- <-.
  cbn. f_equal. by apply (IH g1 rs g2).
Qed.

(** What an accepted request went through. *)
Lemma addfb2_checks config modeset file alloc has_format add r g fb g' :
  drm_mode_addfb2 config modeset file alloc has_format add r g = Some (inr fb, g') ->
  let info := fb_format fb in
  r_width r <= max_width config /\ r_height r <= max_height config
  /\ drm_get_format_info (get_format_info config) (r_pixel_format r) (at_plane (r_modifier r) 0) = Some info
  /\ framebuffer_check info r = 0
  /\ Forall2 (fun i o => exists b, objs g !! o = Some b /\ gem_min_size info r i <= obj_size b)
       (seqZ 0 (num_planes info)) (fb_obj fb).*1.
Proof.
  unfold drm_mode_addfb2, drm_internal_framebuffer_create. destruct modeset; [cbn [negb]|done].
  destruct (negb (Z.land _ _ =? 0)); [done|].
  destruct ((r_width r <? _) || _) eqn:Ew; [done|]. destruct ((r_height r <? _) || _) eqn:Eh; [done|].
  apply orb_false_iff in Ew as [_ Ew%Z.ltb_ge]. apply orb_false_iff in Eh as [_ Eh%Z.ltb_ge].
  destruct (modifiers r && _); [done|].
  destruct (__drm_format_info (r_pixel_format r)); [|done].
  destruct (drm_get_format_info _ _ _) as [info|] eqn:Ei; [|done]. cbn [mbind option_bind].
  destruct (Z.eqb_spec (framebuffer_check info r) 0) as [Ec|]; [|done].
  unfold drm_gem_fb_create_with_funcs, drm_gem_fb_init_with_funcs.
  destruct alloc; [cbn [negb]|done]. destruct has_format; [cbn [negb]|done].
  destruct (lookup_planes file info r _ [] g) as [[[ret|found] g1]|] eqn:El; [done| |done].
  cbn [mbind option_bind]. unfold drm_framebuffer_init.
  destruct (take_handle_refs (reverse found) g1) as [[refs g2]|] eqn:Et; [|done]. cbn [mbind option_bind].
  destruct (add =? 0) eqn:Ea; cbn [mbind option_bind].
  - intros [= <- <-]. cbn zeta. cbn [fb_format fb_obj drm_helper_mode_fill_fb_struct].
    do 4 (split; [done|]). rewrite (take_handle_refs_objs _ _ _ _ Et).
    destruct (lookup_planes_sizes _ _ _ _ _ _ _ _ El) as (os & -> & Hos).
    by rewrite app_nil_r, reverse_involutive.
  - destruct (put_handle_refs refs g2) as [g3|]; [|done]. cbn [mbind option_bind]. rewrite Ea.
    by destruct (put_objs found g3).
Qed.

(** C29. In a framebuffer that drm_mode_addfb2() accepted, of a driver whose limits on
    width and height are below 2^30, every whole block (for most formats every
    sample) of every plane lies inside the GEM object of that plane, whatever the
    pitches, offsets and dimensions of the request: no sum in the checks wraps around.
    The dimensions of a subsampled plane are those of the framebuffer divided by the
    factors and rounded down; the row or column of samples rounded away at odd sizes
    is not covered by the check of the object's size ([odd_height_unchecked]).  A
    get_format_info hook of the driver is assumed to give sane formats ([info_ok], which
    holds of the whole format table). *)
Theorem framebuffer_in_bounds config modeset file alloc has_format add r g fb g' i x y :
  (forall f fmt m info, get_format_info config = Some f -> f fmt m = Some info -> info_ok info) ->
  max_width config < 2 ^ 30 -> max_height config < 2 ^ 30 -> request_typed r ->
  drm_mode_addfb2 config modeset file alloc has_format add r g = Some (inr fb, g') ->
  0 <= i < num_planes (fb_format fb) -> block_inside (fb_format fb) r i x y ->
  exists o ref b, fb_obj fb !! Z.to_nat i = Some (o, ref) /\ objs g !! o = Some b
    /\ 0 <= block_address (fb_format fb) r i x y
    /\ block_address (fb_format fb) r i x y + at_plane (char_per_block (fb_format fb)) i <= obj_size b.
Proof.
  intros Hdrv Hmw Hmh Hr Ha Hi Hxy.
  destruct (addfb2_checks _ _ _ _ _ _ _ _ _ _ Ha) as (Hw & Hh & Ei & Ec & Ho). set (info := fb_format fb) in *.
  assert (Hinfo : info_ok info).
  { unfold drm_get_format_info in Ei. destruct (get_format_info config) as [f|] eqn:Ef.
    - destruct (f _ _) as [info'|] eqn:Eff; [|by apply (format_info_ok (r_pixel_format r))].
      injection Ei as ->. by apply (Hdrv f _ _ _ eq_refl Eff).
    - by apply (format_info_ok (r_pixel_format r)). }
  assert (Hpl : check_plane info r i = 0).
  { unfold framebuffer_check in Ec. destruct (r_width r =? 0); [done|].
    destruct (r_height r =? 0); [done|].
    destruct (Z.eqb_spec (first_error (check_plane info r) (seqZ 0 (num_planes info))) 0) as [E|E]; [|done].
    apply (first_error_zero _ _ E). apply elem_of_seqZ. lia. }
  assert (Hli : seqZ 0 (num_planes info) !! Z.to_nat i = Some i).
  { apply lookup_seqZ. lia. }
  destruct (Forall2_lookup_l _ _ _ _ _ Ho Hli) as (o & Hlo & b & Eb & Hb).
  rewrite list_lookup_fmap in Hlo. destruct (fb_obj fb !! Z.to_nat i) as [[o' ref]|] eqn:El; [|done].
  injection Hlo as ->. exists o, ref, b. split; [done|]. split; [done|].
  by apply (plane_fits info r i Hinfo Hr Hi ltac:(lia) ltac:(lia) (obj_size b) x y).
Qed.

(** The coordinates of a plane update are inside the framebuffer, in 16.16 fixed point;
    dimensions of 65536 and more lose their high bits in the shift. *)
Lemma check_src_coords_spec x y w h fb_w fb_h :
  is_u32 x -> is_u32 y -> is_u32 w -> is_u32 h -> 0 <= fb_w < 2 ^ 16 -> 0 <= fb_h < 2 ^ 16 ->
  drm_framebuffer_check_src_coords x y w h fb_w fb_h = 0
  <-> x + w <= fb_w * 65536 /\ y + h <= fb_h * 65536.
Proof.
  unfold is_u. intros Hx Hy Hw Hh Hfw Hfh. unfold drm_framebuffer_check_src_coords.
  rewrite !Z.shiftl_mul_pow2 by lia. change (2 ^ 16) with 65536 in *.
  rewrite (u32_small (fb_w * 65536)), (u32_small (fb_h * 65536)) by (unfold is_u; lia).
  destruct (Z.ltb_spec (fb_w * 65536) w); cbn [orb]; [split; [done|lia]|].
  rewrite (u32_small (fb_w * 65536 - w)) by (unfold is_u; lia).
  destruct (Z.ltb_spec (fb_w * 65536 - w) x); cbn [orb]; [split; [done|lia]|].
  destruct (Z.ltb_spec (fb_h * 65536) h); cbn [orb]; [split; [done|lia]|].
  rewrite (u32_small (fb_h * 65536 - h)) by (unfold is_u; lia).
  destruct (Z.ltb_spec (fb_h * 65536 - h) y); [split; [done|lia]|]. split; [lia|done].
Qed.

(** ** At concrete requests *)

Module FbSample.
Definition config : mode_config := ModeConfig 0 16384 0 16384 false None (Quirks false false).

(** One object of [size] bytes with handle 1 in file 0. *)
Definition store (size : Z) : gem :=
  Gem {[ 7 := GemObj size 1 1 0 ]} ∅ {[ (0, 1) := Some 7 ]}.

Definition nv12 (width height pitch offset : Z) : drm_mode_fb_cmd2 :=
  FbCmd width height DRM_FORMAT_NV12 0 [1; 1; 0; 0] [pitch; pitch; 0; 0] [0; offset; 0; 0] z4.

Definition create (size : Z) (r : drm_mode_fb_cmd2) : option ((Z + drm_framebuffer) * gem) :=
  drm_mode_addfb2 config true 0 true true 0 r (store size).

Definition nv12_info : drm_format_info :=
  FormatInfo DRM_FORMAT_NV12 0 2 [1; 2; 0; 0] z4 z4 2 2 false true false.

Definition fb (r : drm_mode_fb_cmd2) : drm_framebuffer :=
  drm_helper_mode_fill_fb_struct nv12_info r [(7, true); (7, true)].

Lemma at4_bounds (p : Z -> Prop) a b c d i :
  p a -> p b -> p c -> p d -> p 0 -> p (at_plane [a; b; c; d] i).
Proof.
  intros Ha Hb Hc Hd H0. unfold at_plane. destruct (Z.to_nat i) as [|[|[|[|[|n]]]]]; done.
Qed.

Lemma nv12_typed w h p o :
  is_u32 w -> is_u32 h -> is_u32 p -> is_u32 o -> request_typed (nv12 w h p o).
Proof.
  intros Hw Hh Hp Ho. assert (is_u32 0) by (unfold is_u; lia).
  split; [done..| |]; intros i; by apply (at4_bounds is_u32).
Qed.
End FbSample.

(** An NV12 framebuffer of odd size: 33x31, its second plane 16x15 samples. *)
Lemma framebuffer_in_bounds_witness :
  exists g', FbSample.create 3000 (FbSample.nv12 33 31 64 2048)
      = Some (inr (FbSample.fb (FbSample.nv12 33 31 64 2048)), g')
  /\ exists o ref b, fb_obj (FbSample.fb (FbSample.nv12 33 31 64 2048)) !! 1%nat = Some (o, ref)
    /\ objs (FbSample.store 3000) !! o = Some b
    /\ 0 <= block_address FbSample.nv12_info (FbSample.nv12 33 31 64 2048) 1 15 14
    /\ block_address FbSample.nv12_info (FbSample.nv12 33 31 64 2048) 1 15 14
       + at_plane (char_per_block FbSample.nv12_info) 1 <= obj_size b.
Proof.
  assert (E : exists g', FbSample.create 3000 (FbSample.nv12 33 31 64 2048)
      = Some (inr (FbSample.fb (FbSample.nv12 33 31 64 2048)), g')).
  { eexists. vm_compute. reflexivity. }
  destruct E as [g' E]. exists g'. split; [exact E|].
  apply (framebuffer_in_bounds FbSample.config true 0 true true 0 (FbSample.nv12 33 31 64 2048)
    (FbSample.store 3000) (FbSample.fb (FbSample.nv12 33 31 64 2048)) g' 1 15 14).
  - discriminate.
  - reflexivity.
  - reflexivity.
  - apply FbSample.nv12_typed; split; (discriminate || reflexivity).
  - exact E.
  - vm_compute; split; [discriminate|reflexivity].
  - vm_compute. repeat split; discriminate.
Defined.

(** The samples rounded away are not checked: framebuffer_check() rounds the height of a subsampled plane
    up, drm_gem_fb_init_with_funcs() rounds it down, and of a height of 1 it subtracts 1
    from 0.  The second plane of this framebuffer starts where its object ends. *)
Lemma odd_height_unchecked :
  (exists g', FbSample.create 4096 (FbSample.nv12 2 1 4096 4096)
      = Some (inr (FbSample.fb (FbSample.nv12 2 1 4096 4096)), g'))
  /\ check_plane FbSample.nv12_info (FbSample.nv12 2 1 4096 4096) 1 = 0
  /\ u32 (drm_format_info_plane_height FbSample.nv12_info 1 1) = 1
  /\ block_address FbSample.nv12_info (FbSample.nv12 2 1 4096 4096) 1 0 0 = 4096.
Proof. split; [eexists|]; vm_compute; [reflexivity|tauto]. Qed.
