(* ===== verification/GemInv.v ===== *)
(** * GEM objects: the reference counts are exact

    [balanced g hs rs]: in the store [g] the handle references are the list [hs] and the
    other references the list [rs], and nothing else.  The basic operations move objects
    in and out of the lists; in a reachable system the lists are the handles of all
    files, the references callers hold and those of the framebuffers. *)

From Stdlib Require Import ZArith Lia Bool.
From stdpp Require Import base numbers list option gmap.
From S2P Require Import Prelude Fourcc Gem Framebuffer.
#[local] Open Scope Z_scope.

(** ** Counting *)

Definition cnt {A} `{EqDecision A} (o : A) (l : list A) : Z :=
  Z.of_nat (length (filter (fun x => x = o) l)).

Section cnt.
Context {A} `{EqDecision A}.
Implicit Types (o x : A) (l : list A).

Lemma cnt_nil o : cnt o [] = 0.
Proof. done. Qed.

Lemma cnt_cons o x l : cnt o (x :: l) = (if decide (x = o) then 1 else 0) + cnt o l.
Proof. unfold cnt. rewrite filter_cons. case_decide; cbn; lia. Qed.

Lemma cnt_cons_eq o l : cnt o (o :: l) = 1 + cnt o l.
Proof. by rewrite cnt_cons, decide_True. Qed.

Lemma cnt_cons_ne j o l : j <> o -> cnt j (o :: l) = cnt j l.
Proof. intros. rewrite cnt_cons, decide_False by done. done. Qed.

Lemma cnt_app o a b : cnt o (a ++ b) = cnt o a + cnt o b.
Proof. unfold cnt. rewrite filter_app, length_app. lia. Qed.

Lemma cnt_nonneg o l : 0 <= cnt o l.
Proof. unfold cnt. lia. Qed.

#[export] Instance cnt_proper o : Proper ((≡ₚ) ==> (=)) (cnt o).
Proof. intros a b Hab. unfold cnt. by rewrite Hab. Qed.

Lemma cnt_pos o l : 0 < cnt o l <-> o ∈ l.
Proof.
  induction l as [|x l IH]; [rewrite cnt_nil; split; [lia|by intros ?%not_elem_of_nil]|].
  rewrite cnt_cons, elem_of_cons. pose proof (cnt_nonneg o l). case_decide; [|rewrite <- IH]; naive_solver lia.
Qed.

Lemma cnt_zero_iff l : (forall o, cnt o l = 0) -> l = [].
Proof.
  destruct l as [|x l]; [done|]. intros Hx. specialize (Hx x). rewrite cnt_cons, decide_True in Hx by done.
  pose proof (cnt_nonneg x l). lia.
Qed.
End cnt.

(** ** The balance *)

Definition alive (o : Z) (g : gem) : Prop := is_Some (objs g !! o).

Record object_ok (g : gem) (hs rs : list Z) (o : Z) (b : drm_gem_object) : Prop := {
  oo_handles : handle_count b = cnt o hs;
  oo_refs : refcount b = (if decide (o ∈ hs) then 1 else 0) + cnt o rs;
  oo_live : 0 < refcount b;
  oo_name : obj_name b <> 0 -> object_name_idr g !! obj_name b = Some o /\ o ∈ hs
}.

Record balanced (g : gem) (hs rs : list Z) : Prop := {
  ba_obj o b : objs g !! o = Some b -> object_ok g hs rs o b;
  ba_held o : o ∈ hs ++ rs -> alive o g;
  ba_names n o : object_name_idr g !! n = Some o ->
    n <> 0 /\ exists b, objs g !! o = Some b /\ obj_name b = n
}.

Lemma balanced_perm g hs hs' rs rs' :
  hs ≡ₚ hs' -> rs ≡ₚ rs' -> balanced g hs rs -> balanced g hs' rs'.
Proof.
  intros Hh Hr [B1 B2 B3]. split; [|intros o; rewrite <- Hh, <- Hr; apply B2|exact B3].
  intros o b Hb. destruct (B1 o b Hb) as [E1 E2 E3 E4]. split.
  - by rewrite <- Hh.
  - rewrite E2, Hr. f_equal. apply decide_ext. by rewrite Hh.
  - done.
  - intros Hn. rewrite <- Hh. by apply E4.
Qed.

#[export] Instance balanced_proper g : Proper ((≡ₚ) ==> (≡ₚ) ==> iff) (balanced g).
Proof.
  intros a a' Ha b b' Hb. split; apply balanced_perm; by symmetry || done.
Qed.

(** The handle table does not matter. *)
Lemma balanced_set_idr g t hs rs : balanced g hs rs -> balanced (set_idr t g) hs rs.
Proof. intros [B1 B2 B3]. split; [|done|done]. intros o b Hb. by destruct (B1 o b Hb). Qed.

(** Replacing one object. *)
Lemma balanced_set g hs rs hs' rs' o b :
  balanced g hs rs -> object_ok g hs' rs' o b ->
  (forall j, j <> o -> cnt j hs' = cnt j hs /\ cnt j rs' = cnt j rs) ->
  (forall b0, objs g !! o = Some b0 -> obj_name b = obj_name b0) -> alive o g ->
  balanced (set_obj o b g) hs' rs'.
Proof.
  intros [B1 B2 B3] Hb Hj Hn [b0 E0].
  assert (Hin : forall j, j <> o -> (j ∈ hs' <-> j ∈ hs) /\ (j ∈ rs' <-> j ∈ rs)).
  { intros j Hne. destruct (Hj j Hne) as [E1 E2]. rewrite <- !cnt_pos, E1, E2. done. }
  split.
  - intros j bj. cbn [set_obj objs object_name_idr]. destruct (decide (j = o)) as [->|Hne].
    + rewrite lookup_insert_eq. intros [= <-]. by destruct Hb.
    + rewrite lookup_insert_ne by done. intros Ej. destruct (B1 j bj Ej) as [E1 E2 E3 E4].
      destruct (Hj j Hne) as [C1 C2], (Hin j Hne) as [I1 _]. split.
      * by rewrite C1.
      * rewrite E2, C2. f_equal. apply decide_ext. by rewrite I1.
      * done.
      * intros Hnm. destruct (E4 Hnm). by rewrite I1.
  - intros j Hjin. unfold alive. cbn [set_obj objs]. destruct (decide (j = o)) as [->|Hne].
    + rewrite lookup_insert_eq. by exists b.
    + rewrite lookup_insert_ne by done. apply B2. destruct (Hin j Hne) as [I1 I2].
      rewrite elem_of_app in *. tauto.
  - intros n j Hnj. cbn [set_obj objs object_name_idr] in *. destruct (B3 n j Hnj) as [H0 (bj & Ej & En)].
    split; [done|]. destruct (decide (j = o)) as [->|Hne].
    + exists b. rewrite lookup_insert_eq. split; [done|]. rewrite (Hn bj Ej). done.
    + exists bj. by rewrite lookup_insert_ne by done.
Qed.

(** What the operations leave of the tables. *)
Definition same_idr (g g' : gem) : Prop := object_idr g' = object_idr g.

(** ** The basic operations *)

Lemma get_ok g hs rs o :
  balanced g hs rs -> alive o g ->
  exists g', drm_gem_object_get o g = Some g' /\ balanced g' hs (o :: rs) /\ same_idr g g'.
Proof.
  intros B [b E]. unfold drm_gem_object_get. rewrite E. cbn [mbind option_bind].
  eexists. split; [done|]. split; [|done]. destruct (ba_obj _ _ _ B o b E) as [E1 E2 E3 E4].
  apply (balanced_set g hs rs); [done| | |by intros b0 [= <-]%(eq_trans (eq_sym E))|by exists b].
  - split; cbn [with_refcount handle_count refcount obj_name]; try done; [|lia].
    rewrite cnt_cons_eq. lia.
  - intros j Hj. by rewrite cnt_cons_ne.
Qed.

Lemma put_ok g hs rs o :
  balanced g hs (o :: rs) ->
  exists g', drm_gem_object_put o g = Some g' /\ balanced g' hs rs /\ same_idr g g'.
Proof.
  intros B. assert (Ha : alive o g) by (apply (ba_held _ _ _ B), elem_of_app; right; by left).
  destruct Ha as [b E]. unfold drm_gem_object_put. rewrite E. cbn [mbind option_bind].
  destruct (ba_obj _ _ _ B o b E) as [E1 E2 E3 E4]. rewrite cnt_cons_eq in E2.
  assert (Hoj : forall j, j <> o -> cnt j (o :: rs) = cnt j rs).
  { intros j Hj. by apply cnt_cons_ne. }
  destruct (Z.eqb_spec (refcount b) 1) as [H1|H1]; eexists; (split; [done|]); (split; [|done]).
  - (* the last reference: no handle and no other holder *)
    pose proof (cnt_nonneg o rs). assert (Hh : o ∉ hs) by (intros Hh; rewrite decide_True in E2 by done; lia).
    rewrite decide_False in E2 by done. assert (Hr : o ∉ rs) by (rewrite <- cnt_pos; lia).
    destruct B as [B1 B2 B3]. split.
    + intros j bj. cbn [del_obj objs object_name_idr]. intros Ej.
      destruct (decide (j = o)) as [->|Hne]; [by rewrite lookup_delete_eq in Ej|].
      rewrite lookup_delete_ne in Ej by done. destruct (B1 j bj Ej) as [C1 C2 C3 C4].
      split; try done. by rewrite C2, Hoj.
    + intros j Hj. assert (j <> o) by (intros ->; apply elem_of_app in Hj; tauto).
      unfold alive. cbn [del_obj objs]. rewrite lookup_delete_ne by done. apply B2. set_solver.
    + intros n j Hn. destruct (B3 n j Hn) as [Hn0 (bj & Ej & Enj)]. split; [done|].
      exists bj. split; [|done]. cbn [del_obj objs]. rewrite lookup_delete_ne; [done|]. intros <-.
      rewrite E in Ej. injection Ej as <-. rewrite <- Enj in Hn0. by destruct (E4 Hn0).
  - pose proof (cnt_nonneg o rs). apply (balanced_set g hs (o :: rs)); [done| | |by intros b0 [= <-]%(eq_trans (eq_sym E))|by exists b].
    + split; cbn [with_refcount handle_count refcount obj_name]; try done; lia.
    + intros j Hj. split; [done|]. by rewrite Hoj.
Qed.

Lemma handle_get_ok g hs rs o :
  balanced g hs rs -> alive o g ->
  exists g', drm_gem_object_handle_get o g = Some g' /\ balanced g' (o :: hs) rs /\ same_idr g g'.
Proof.
  intros B [b E]. unfold drm_gem_object_handle_get. rewrite E. cbn [mbind option_bind].
  destruct (ba_obj _ _ _ B o b E) as [E1 E2 E3 E4]. pose proof (cnt_nonneg o hs).
  assert (Hoj : forall j, j <> o -> cnt j (o :: hs) = cnt j hs).
  { intros j Hj. by apply cnt_cons_ne. }
  assert (Eo : cnt o (o :: hs) = 1 + cnt o hs) by apply cnt_cons_eq.
  destruct (Z.eqb_spec (handle_count b) 0) as [H0|H0].
  - assert (Hn : o ∉ hs) by (rewrite <- cnt_pos; lia). rewrite decide_False in E2 by done.
    unfold drm_gem_object_get. cbn [set_obj objs]. rewrite lookup_insert_eq. cbn [mbind option_bind].
    eexists. split; [done|]. split; [|done].
    unfold set_obj at 1. cbn [set_obj objs object_name_idr object_idr]. rewrite insert_insert_eq.
    change (balanced (set_obj o (with_refcount (refcount b + 1) (with_handle_count (handle_count b + 1) b)) g)
      (o :: hs) rs).
    apply (balanced_set g hs rs); [done| | |by intros b0 [= <-]%(eq_trans (eq_sym E))|by exists b].
    + split; cbn [with_refcount with_handle_count handle_count refcount obj_name]; [lia| |lia|].
      * rewrite decide_True by (by left). lia.
      * intros Hnm. destruct (E4 Hnm). split; [done|by right].
    + intros j Hj. by rewrite Hoj.
  - eexists. split; [done|]. split; [|done].
    assert (Hn : o ∈ hs) by (rewrite <- cnt_pos; lia). rewrite decide_True in E2 by done.
    apply (balanced_set g hs rs); [done| | |by intros b0 [= <-]%(eq_trans (eq_sym E))|by exists b].
    + split; cbn [with_handle_count handle_count refcount obj_name]; [lia| |lia|].
      * rewrite decide_True by (by left). lia.
      * intros Hnm. destruct (E4 Hnm). split; [done|by right].
    + intros j Hj. by rewrite Hoj.
Qed.

(** Taking the name away. *)
Lemma unname_ok g hs rs o b :
  balanced g hs rs -> objs g !! o = Some b -> obj_name b <> 0 ->
  balanced (set_obj o (with_name 0 b) (set_names (delete (obj_name b) (object_name_idr g)) g)) hs rs.
Proof.
  intros B E Hn. destruct B as [B1 B2 B3]. destruct (B1 o b E) as [E1 E2 E3 E4].
  destruct (E4 Hn) as [Eno Ho]. split.
  - intros j bj. cbn [set_obj set_names objs object_name_idr]. destruct (decide (j = o)) as [->|Hne].
    + rewrite lookup_insert_eq. intros [= <-]. by split.
    + rewrite lookup_insert_ne by done. intros Ej. destruct (B1 j bj Ej) as [C1 C2 C3 C4].
      split; [done..|]. intros Hnm. destruct (C4 Hnm) as [Cn Cj]. split; [|done].
      cbn [set_obj set_names object_name_idr]. rewrite lookup_delete_ne; [done|]. intros Heq. rewrite <- Heq, Eno in Cn. congruence.
  - intros j Hj. unfold alive. cbn [set_obj set_names objs]. destruct (decide (j = o)) as [->|Hne].
    + rewrite lookup_insert_eq. by eexists.
    + rewrite lookup_insert_ne by done. by apply B2.
  - intros n j. cbn [set_obj set_names objs object_name_idr].
    destruct (decide (n = obj_name b)) as [->|Hnn]; [by rewrite lookup_delete_eq|].
    rewrite lookup_delete_ne by done. intros Hj. destruct (B3 n j Hj) as [H0 (bj & Ej & Enj)].
    split; [done|]. exists bj. split; [|done]. rewrite lookup_insert_ne; [done|].
    intros <-. rewrite E in Ej. congruence.
Qed.

Lemma handle_put_ok g hs rs o :
  balanced g (o :: hs) rs ->
  exists g', drm_gem_object_handle_put_unlocked o g = Some g' /\ balanced g' hs rs /\ same_idr g g'.
Proof.
  intros B. assert (Ha : alive o g) by (apply (ba_held _ _ _ B), elem_of_app; left; by left).
  destruct Ha as [b E]. unfold drm_gem_object_handle_put_unlocked. rewrite E. cbn [mbind option_bind].
  destruct (ba_obj _ _ _ B o b E) as [E1 E2 E3 E4]. rewrite cnt_cons_eq in E1.
  rewrite decide_True in E2 by (by left). pose proof (cnt_nonneg o hs). pose proof (cnt_nonneg o rs).
  assert (Hoj : forall j, j <> o -> cnt j hs = cnt j (o :: hs) /\ cnt j rs = cnt j rs).
  { intros j Hj. by rewrite cnt_cons_ne. }
  destruct (Z.eqb_spec (handle_count b) 0); [lia|].
  set (b1 := with_handle_count (handle_count b - 1) b).
  destruct (Z.eqb_spec (handle_count b - 1) 0) as [H1|H1].
  - assert (Hno : o ∉ hs) by (rewrite <- cnt_pos; lia).
    (* its reference becomes one of the caller's *)
    assert (Hok : forall g' nm, (nm <> 0 -> False) -> object_ok g' hs (o :: rs) o (with_name nm b1)).
    { intros g' nm Hnm. split; cbn [with_name b1 with_handle_count handle_count refcount obj_name]; [lia| |lia|tauto].
      rewrite decide_False by done. rewrite cnt_cons_eq. lia. }
    assert (Hoj' : forall j, j <> o -> cnt j hs = cnt j (o :: hs) /\ cnt j (o :: rs) = cnt j rs).
    { intros j Hj. rewrite !cnt_cons_ne by done. done. }
    assert (Hfree : exists g2, drm_gem_object_handle_free o (set_obj o b1 g) = Some g2
      /\ balanced g2 hs (o :: rs) /\ same_idr g g2).
    { unfold drm_gem_object_handle_free. cbn [set_obj objs]. rewrite lookup_insert_eq. cbn [mbind option_bind].
      change (obj_name b1) with (obj_name b). destruct (Z.eqb_spec (obj_name b) 0) as [Hz|Hz].
      - eexists. split; [done|]. split; [|done]. change (balanced (set_obj o b1 g) hs (o :: rs)).
        replace b1 with (with_name (obj_name b1) b1) by (by destruct b).
        apply (balanced_set g (o :: hs) rs); [done|apply Hok; change (obj_name b1) with (obj_name b); by rewrite Hz|done| |by exists b].
        by intros b0 [= <-]%(eq_trans (eq_sym E)).
      - eexists. split; [done|]. split; [|done].
        pose proof (unname_ok g (o :: hs) rs o b B E Hz) as BU.
        match goal with |- balanced ?x _ _ =>
          replace x with (set_obj o (with_name 0 b1)
            (set_obj o (with_name 0 b) (set_names (delete (obj_name b) (object_name_idr g)) g)))
            by (unfold set_obj, set_names; cbn [objs object_name_idr object_idr];
                by rewrite !insert_insert_eq) end.
        apply (balanced_set _ (o :: hs) rs _ _ _ _ BU); [by apply Hok|done| |].
        + intros b0. cbn [set_obj objs]. rewrite lookup_insert_eq. by intros [= <-].
        + unfold alive. cbn [set_obj objs]. rewrite lookup_insert_eq. by eexists. }
    destruct Hfree as (g2 & -> & B2 & S2). cbn [mbind option_bind].
    destruct (put_ok g2 hs rs o B2) as (g' & -> & B' & S'). exists g'.
    split; [done|]. split; [done|]. unfold same_idr in *. congruence.
  - assert (Hin : o ∈ hs) by (rewrite <- cnt_pos; lia).
    eexists. split; [done|]. split; [|done].
    apply (balanced_set g (o :: hs) rs); [done| |done|by intros b0 [= <-]%(eq_trans (eq_sym E))|by exists b].
    split; cbn [b1 with_handle_count handle_count refcount obj_name]; [lia| |lia|].
    + rewrite decide_True by done. lia.
    + intros Hnm. by destruct (E4 Hnm).
Qed.

Lemma get_if_exists_ok g hs rs o :
  balanced g hs rs -> alive o g ->
  exists (e : bool) g', drm_gem_object_handle_get_if_exists_unlocked o g = Some (e, g')
    /\ balanced g' (if e then o :: hs else hs) rs /\ same_idr g g' /\ (e = false -> g' = g).
Proof.
  intros B [b E]. unfold drm_gem_object_handle_get_if_exists_unlocked. rewrite E. cbn [mbind option_bind].
  destruct (handle_count b =? 0); [by exists false, g|].
  destruct (handle_get_ok g hs rs o B) as (g' & -> & B' & S'); [by exists b|].
  exists true, g'. done.
Qed.

(** ** The handle tables *)

Abbreviation idr := (gmap (Z * Z) (option Z)).

(** The objects the handles name. *)
Definition named (l : list ((Z * Z) * option Z)) : list Z := omap snd l.
Definition hlist (t : idr) : list Z := named (map_to_list t).

(** Between two calls no id is reserved without an object. *)
Definition no_null (t : idr) : Prop := forall k, t !! k <> Some None.

Lemma hlist_insert t k v :
  t !! k = None -> hlist (<[k := v]> t) ≡ₚ (match v with Some o => [o] | None => [] end) ++ hlist t.
Proof.
  intros Hk. unfold hlist, named. rewrite map_to_list_insert by done. cbn. by destruct v.
Qed.

Lemma hlist_take t k v :
  t !! k = Some v -> hlist t ≡ₚ (match v with Some o => [o] | None => [] end) ++ hlist (delete k t).
Proof.
  intros Hk. rewrite <- (insert_delete_id t k v Hk) at 1. apply hlist_insert, lookup_delete_eq.
Qed.

Lemma no_null_insert t k o : no_null t -> no_null (<[k := Some o]> t).
Proof. intros H j. destruct (decide (j = k)) as [->|]; [by rewrite lookup_insert_eq|by rewrite lookup_insert_ne]. Qed.

Lemma no_null_delete t k : no_null t -> no_null (delete k t).
Proof. intros H j. destruct (decide (j = k)) as [->|]; [by rewrite lookup_delete_eq|by rewrite lookup_delete_ne]. Qed.

(** The handles of one file and those of the others. *)
Lemma hlist_file t file :
  hlist t ≡ₚ named (filter (fun p => p.1.1 = file) (map_to_list t))
             ++ hlist (filter (fun p => p.1.1 <> file) t).
Proof.
  unfold hlist, named. rewrite map_filter_alt, map_to_list_to_map.
  - rewrite <- omap_app. apply omap_Permutation. symmetry.
    apply (filter_app_complement (fun p : (Z * Z) * option Z => p.1.1 = file)).
  - apply (sublist_NoDup _ (map_to_list t).*1); [apply NoDup_fst_map_to_list|].
    apply fmap_sublist, sublist_filter.
Qed.

Lemma no_null_filter (P : (Z * Z) * option Z -> Prop) `{!forall x, Decision (P x)} t :
  no_null t -> no_null (filter P t).
Proof. intros Hn k [Hk _]%map_lookup_filter_Some. by apply (Hn k). Qed.

(** A store whose handles are those of its tables and [hx] more. *)
Record store_ok (g : gem) (hx rs : list Z) : Prop := {
  so_balanced : balanced g (hlist (object_idr g) ++ hx) rs;
  so_no_null : no_null (object_idr g)
}.

Lemma store_perm g hx hx' rs rs' :
  hx ≡ₚ hx' -> rs ≡ₚ rs' -> store_ok g hx rs -> store_ok g hx' rs'.
Proof. intros Hh Hr [B N]. split; [by rewrite <- Hh, <- Hr|done]. Qed.

#[export] Instance store_proper g : Proper ((≡ₚ) ==> (≡ₚ) ==> iff) (store_ok g).
Proof. intros a a' Ha b b' Hb. split; apply store_perm; by symmetry || done. Qed.

Section ops.
Context (idr_alloc : (Z -> bool) -> Z -> Z -> Z).
(** An id that idr_alloc() returns is in the range and was not in use. *)
Hypothesis idr_alloc_fresh : forall used s e,
  0 <= idr_alloc used s e -> s <= idr_alloc used s e /\ used (idr_alloc used s e) = false.

Lemma used_false file g h : used file g h = false -> object_idr g !! (file, h) = None.
Proof. unfold used. by destruct (object_idr g !! (file, h)). Qed.

Lemma entry_alive g hx rs file h o :
  store_ok g hx rs -> object_idr g !! (file, h) = Some (Some o) -> alive o g.
Proof.
  intros [B _] E. apply (ba_held _ _ _ B). rewrite (hlist_take _ _ _ E). cbn. by left.
Qed.

Lemma lookup_ok g hx rs file h :
  store_ok g hx rs ->
  exists o g', drm_gem_object_lookup file h g = Some (o, g') /\ same_idr g g'
    /\ match o with
       | Some o => object_idr g !! (file, h) = Some (Some o) /\ store_ok g' hx (o :: rs)
       | None => object_idr g !! (file, h) = None /\ g' = g
       end.
Proof.
  intros SO. unfold drm_gem_object_lookup, idr_find.
  destruct (object_idr g !! (file, h)) as [[o|]|] eqn:E; cbn [mjoin option_join].
  - destruct (get_ok g _ rs o (so_balanced _ _ _ SO)) as (g' & -> & B' & S'); [by apply (entry_alive g hx rs file h)|].
    cbn [mbind option_bind]. exists (Some o), g'. split; [done|]. split; [done|]. split; [done|].
    unfold same_idr in S'. split; rewrite S'; [done|by destruct SO].
  - by destruct (so_no_null _ _ _ SO (file, h)).
  - by exists None, g.
Qed.

Lemma store_put_ok g hx rs o :
  store_ok g hx (o :: rs) ->
  exists g', drm_gem_object_put o g = Some g' /\ store_ok g' hx rs /\ same_idr g g'.
Proof.
  intros [B N]. destruct (put_ok g _ rs o B) as (g' & -> & B' & S'). exists g'.
  split; [done|]. split; [|done]. unfold same_idr in S'. split; by rewrite S'.
Qed.

Lemma store_get_ok g hx rs o :
  store_ok g hx rs -> alive o g ->
  exists g', drm_gem_object_get o g = Some g' /\ store_ok g' hx (o :: rs) /\ same_idr g g'.
Proof.
  intros [B N] Ha. destruct (get_ok g _ rs o B Ha) as (g' & -> & B' & S'). exists g'.
  split; [done|]. split; [|done]. unfold same_idr in S'. split; by rewrite S'.
Qed.

Lemma store_handle_put_ok g hx rs o :
  store_ok g (o :: hx) rs ->
  exists g', drm_gem_object_handle_put_unlocked o g = Some g' /\ store_ok g' hx rs /\ same_idr g g'.
Proof.
  intros [B N]. rewrite <- Permutation_middle in B.
  destruct (handle_put_ok g _ rs o B) as (g' & -> & B' & S'). exists g'.
  split; [done|]. split; [|done]. unfold same_idr in S'. split; by rewrite S'.
Qed.

Lemma store_handle_get_ok g hx rs o :
  store_ok g hx rs -> alive o g ->
  exists g', drm_gem_object_handle_get o g = Some g' /\ store_ok g' (o :: hx) rs /\ same_idr g g'.
Proof.
  intros [B N] Ha. destruct (handle_get_ok g _ rs o B Ha) as (g' & -> & B' & S'). exists g'.
  split; [done|]. split; [|done]. unfold same_idr in S'. split; rewrite S'; [|done].
  by rewrite <- Permutation_middle.
Qed.

(** A fresh entry for an object whose handle reference is already taken. *)
Lemma store_insert g hx rs k o :
  store_ok g (o :: hx) rs -> object_idr g !! k = None ->
  store_ok (set_idr (<[k := Some o]> (object_idr g)) g) hx rs.
Proof.
  intros [B N] Hk. split; [|by apply no_null_insert]. apply balanced_set_idr. cbn [set_idr object_idr].
  rewrite (hlist_insert _ _ _ Hk). cbn [app]. by rewrite Permutation_middle.
Qed.

Lemma create_tail_ok g hx rs file o allow open :
  store_ok g hx rs -> alive o g ->
  exists ret h g', drm_gem_handle_create_tail idr_alloc file o allow open g = Some (ret, h, g')
    /\ store_ok g' hx rs.
Proof.
  intros SO Ha. unfold drm_gem_handle_create_tail.
  destruct (store_handle_get_ok g hx rs o SO Ha) as (g1 & -> & SO1 & S1). cbn [mbind option_bind].
  set (r := idr_alloc (used file g1) 1 0).
  destruct (store_handle_put_ok g1 hx rs o SO1) as (g2 & Ep & SO2 & S2).
  destruct (Z.ltb_spec r 0) as [Hr|Hr].
  { rewrite Ep. cbn [mbind option_bind]. by exists r, 0, g2. }
  destruct (idr_alloc_fresh (used file g1) 1 0 Hr) as [_ Hk%used_false]. fold r in Hk.
  cbn [set_idr object_idr]. rewrite insert_insert_eq.
  destruct ((if allow =? 0 then open else allow) =? 0).
  - eexists _, _, _. split; [reflexivity|].
    exact (store_insert g1 hx rs (file, r) o SO1 Hk).
  - rewrite delete_insert_id by done.
    match goal with |- context [drm_gem_object_handle_put_unlocked o ?x] =>
      replace x with g1 by (by destruct g1) end.
    rewrite Ep. cbn [mbind option_bind]. eexists _, _, _. split; [reflexivity|done].
Qed.

Lemma delete_ok g hx rs file h :
  store_ok g hx rs ->
  exists ret g', drm_gem_handle_delete file h g = Some (ret, g') /\ store_ok g' hx rs
    /\ (ret = 0 -> is_Some (object_idr g !! (file, h))
                   /\ object_idr g' = delete (file, h) (object_idr g)).
Proof.
  intros SO. unfold drm_gem_handle_delete.
  destruct (object_idr g !! (file, h)) as [[o|]|] eqn:E.
  - set (g1 := set_idr (<[(file, h) := None]> (object_idr g)) g).
    assert (B1 : balanced g1 (o :: hlist (delete (file, h) (object_idr g)) ++ hx) rs).
    { apply balanced_set_idr. change (o :: hlist (delete (file, h) (object_idr g)) ++ hx) with
        (([o] ++ hlist (delete (file, h) (object_idr g))) ++ hx).
      rewrite <- (hlist_take _ _ _ E : hlist (object_idr g) ≡ₚ [o] ++ _). apply SO. }
    unfold drm_gem_object_release_handle.
    destruct (handle_put_ok g1 _ rs o B1) as (g2 & -> & B2 & S2). cbn [mbind option_bind].
    eexists _, _. split; [reflexivity|].
    assert (Et : delete (file, h) (object_idr g2) = delete (file, h) (object_idr g)).
    { rewrite S2. cbn [g1 set_idr object_idr]. apply delete_insert_eq. }
    split; [|intros _; split; [by eexists|done]]. split; cbn [set_idr object_idr]; rewrite Et.
    + by apply balanced_set_idr.
    + apply no_null_delete, SO.
  - by destruct (so_no_null _ _ _ SO (file, h)).
  - exists (- EINVAL), g. split; [done|]. split; [done|]. discriminate.
Qed.
Lemma naming_ok g hs rs o b n :
  balanced g hs rs -> objs g !! o = Some b -> handle_count b <> 0 -> obj_name b = 0 ->
  object_name_idr g !! n = None -> n <> 0 ->
  balanced (set_obj o (with_name n b) (set_names (<[n := o]> (object_name_idr g)) g)) hs rs.
Proof.
  intros [B1 B2 B3] E Hh Hn0 Hn Hnz. destruct (B1 o b E) as [E1 E2 E3 E4].
  assert (Ho : o ∈ hs) by (rewrite <- cnt_pos; pose proof (cnt_nonneg o hs); lia). split.
  - intros j bj. cbn [set_obj set_names objs object_name_idr]. destruct (decide (j = o)) as [->|Hne].
    + rewrite lookup_insert_eq. intros [= <-]. split; [done..|]. intros _.
      cbn [set_obj set_names object_name_idr with_name obj_name]. by rewrite lookup_insert_eq.
    + rewrite lookup_insert_ne by done. intros Ej. destruct (B1 j bj Ej) as [C1 C2 C3 C4].
      split; [done..|]. intros Hnm. destruct (C4 Hnm) as [Cn Cj]. split; [|done].
      cbn [set_obj set_names object_name_idr]. rewrite lookup_insert_ne; [done|]. intros ->. congruence.
  - intros j Hj. unfold alive. cbn [set_obj set_names objs]. destruct (decide (j = o)) as [->|Hne].
    + rewrite lookup_insert_eq. by eexists.
    + rewrite lookup_insert_ne by done. by apply B2.
  - intros k j. cbn [set_obj set_names objs object_name_idr]. destruct (decide (k = n)) as [->|Hk].
    + rewrite lookup_insert_eq. intros [= <-]. split; [done|]. exists (with_name n b).
      by rewrite lookup_insert_eq.
    + rewrite lookup_insert_ne by done. intros Hj. destruct (B3 k j Hj) as [H0 (bj & Ej & Enj)].
      split; [done|]. exists bj. split; [|done]. rewrite lookup_insert_ne; [done|].
      intros <-. rewrite E in Ej. congruence.
Qed.

Lemma flink_ok g hx rs file h :
  store_ok g hx rs ->
  exists ret n g', drm_gem_flink_ioctl idr_alloc file h g = Some (ret, n, g') /\ store_ok g' hx rs.
Proof.
  intros SO. unfold drm_gem_flink_ioctl.
  destruct (lookup_ok g hx rs file h SO) as (o & g1 & -> & S1 & Ho). cbn [mbind option_bind].
  destruct o as [o|]; [|destruct Ho as [_ ->]; by exists (- ENOENT), 0, g].
  destruct Ho as [He SO1].
  assert (Ha : alive o g1) by (apply (ba_held _ _ _ (so_balanced _ _ _ SO1)), elem_of_app; right; by left).
  destruct Ha as [b E]. rewrite E. cbn [mbind option_bind].
  match goal with |- context [let '(_, _) := ?x in _] => set (named_g := x) end.
  assert (H2 : store_ok named_g.2 hx (o :: rs)).
  { unfold named_g. destruct (Z.eqb_spec (handle_count b) 0) as [|Hh]; [done|].
    destruct (Z.eqb_spec (obj_name b) 0) as [Hn|]; [|done].
    destruct (Z.ltb_spec (idr_alloc (name_used g1) 1 0) 0) as [|Hr]; [done|]. cbn [snd].
    destruct (idr_alloc_fresh (name_used g1) 1 0 Hr) as [Hr1 Hu].
    split; [|exact (so_no_null _ _ _ SO1)]. apply naming_ok; try done; [apply SO1| |lia].
    unfold name_used in Hu. by destruct (object_name_idr g1 !! _). }
  destruct named_g as [ret g2]. cbn [snd] in H2.
  assert (Ha2 : alive o g2) by (apply (ba_held _ _ _ (so_balanced _ _ _ H2)), elem_of_app; right; by left).
  destruct Ha2 as [b2 E2]. rewrite E2. cbn [mbind option_bind].
  destruct (store_put_ok g2 hx rs o H2) as (g3 & -> & SO3 & _). cbn [mbind option_bind].
  by eexists _, _, _.
Qed.

Lemma open_ok g hx rs file name allow open :
  store_ok g hx rs ->
  exists ret h g', drm_gem_open_ioctl idr_alloc file name allow open g = Some (ret, h, g')
    /\ store_ok g' hx rs.
Proof.
  intros SO. unfold drm_gem_open_ioctl.
  destruct (object_name_idr g !! name) as [o|] eqn:E; [|by exists (- ENOENT), 0, g].
  assert (Ha : alive o g).
  { destruct (ba_names _ _ _ (so_balanced _ _ _ SO) name o E) as [_ (b & Eb & _)]. by exists b. }
  destruct (store_get_ok g hx rs o SO Ha) as (g1 & -> & SO1 & _). cbn [mbind option_bind].
  assert (Ha1 : alive o g1) by (apply (ba_held _ _ _ (so_balanced _ _ _ SO1)), elem_of_app; right; by left).
  destruct (create_tail_ok g1 hx (o :: rs) file o allow open SO1 Ha1) as (ret & h & g2 & -> & SO2).
  cbn [mbind option_bind].
  destruct (store_put_ok g2 hx rs o SO2) as (g3 & -> & SO3 & _). cbn [mbind option_bind].
  by eexists _, _, _.
Qed.

Lemma change_handle_ok g hx rs file h new :
  store_ok g hx rs ->
  exists ret g', drm_gem_change_handle_ioctl idr_alloc file h new g = Some (ret, g')
    /\ store_ok g' hx rs.
Proof.
  intros SO. unfold drm_gem_change_handle_ioctl.
  destruct (2 ^ 31 - 1 <? new); [by exists (- EINVAL), g|].
  destruct (lookup_ok g hx rs file h SO) as (o & g1 & -> & S1 & Ho). cbn [mbind option_bind].
  destruct o as [o|]; [|destruct Ho as [_ ->]; by exists (- ENOENT), g].
  destruct Ho as [He SO1].
  match goal with |- context [let '(_, _) := ?x in _] => set (changed := x) end.
  assert (H2 : store_ok changed.2 hx (o :: rs)).
  { unfold changed. destruct (h =? new); [done|]. unfold change_handle_alloc, change_handle_remove.
    set (r := idr_alloc (used file g1) new (s32 (new + 1))).
    destruct (Z.ltb_spec r 0) as [Hr|Hr]; [by destruct (Z.ltb_spec r 0); [|lia]|].
    destruct (idr_alloc_fresh (used file g1) new (s32 (new + 1)) Hr) as [_ Hk%used_false]. fold r in Hk.
    cbn [Z.ltb Z.compare snd]. set (t := object_idr g1) in *.
    assert (Et : t !! (file, h) = Some (Some o)) by (unfold t; by rewrite S1).
    assert (Hne : (file, h) <> (file, r)) by (intros [= Hhr]; rewrite <- Hhr in Hk; congruence).
    split; cbn [set_idr object_idr].
    - apply balanced_set_idr, balanced_set_idr.
      assert (Hp : hlist (delete (file, h) (<[(file, r) := Some o]> t)) ≡ₚ hlist t).
      { apply (Permutation_cons_inv (a := o)). symmetry.
        rewrite <- (hlist_insert t (file, r) (Some o) Hk : _ ≡ₚ o :: hlist t).
        apply (hlist_take _ (file, h) (Some o)). by rewrite lookup_insert_ne. }
      rewrite Hp. apply SO1.
    - apply no_null_delete, no_null_insert, SO1. }
  destruct changed as [ret g2]. cbn [snd] in H2.
  destruct (store_put_ok g2 hx rs o H2) as (g3 & -> & SO3 & _). cbn [mbind option_bind].
  by eexists _, _.
Qed.

Lemma release_handles_ok l : forall g hs rs,
  Forall (fun p => p.2 <> None) l -> balanced g (named l ++ hs) rs ->
  exists g', release_handles l g = Some g' /\ balanced g' hs rs /\ same_idr g g'.
Proof.
  induction l as [|[k [o|]] l IH]; intros g hs rs Hl B; cbn [release_handles named omap list_omap snd] in *.
  - by exists g.
  - apply Forall_cons_1 in Hl as [_ Hl]. unfold drm_gem_object_release_handle.
    destruct (handle_put_ok g (named l ++ hs) rs o B) as (g1 & -> & B1 & S1). cbn [mbind option_bind].
    destruct (IH g1 hs rs Hl B1) as (g2 & -> & B2 & S2). exists g2.
    split; [done|]. split; [done|]. unfold same_idr in *. congruence.
  - by apply Forall_cons_1 in Hl as [? _].
Qed.

(** Closing a file puts its handle references and no others. *)
Lemma release_ok g hx rs file :
  store_ok g hx rs ->
  exists g', drm_gem_release file g = Some g' /\ store_ok g' hx rs
    /\ object_idr g' = filter (fun p => p.1.1 <> file) (object_idr g).
Proof.
  intros [B N]. unfold drm_gem_release, handles_of.
  set (l := filter (fun p => p.1.1 = file) (map_to_list (object_idr g))).
  assert (Hl : Forall (fun p => p.2 <> None) l).
  { apply Forall_forall. intros [k v] [_ Hk%elem_of_map_to_list]%list_elem_of_filter. cbn.
    intros ->. by apply (N k). }
  rewrite (hlist_file (object_idr g) file), <- app_assoc in B.
  destruct (release_handles_ok l g _ rs Hl B) as (g1 & -> & B1 & S1). cbn [mbind option_bind].
  unfold same_idr in S1. rewrite S1. eexists. split; [reflexivity|]. split; [|done].
  split; [by apply balanced_set_idr|by apply no_null_filter].
Qed.

(** ** Framebuffers *)

(** The objects whose handle references a framebuffer holds. *)
Definition flagged (l : list (Z * bool)) : list Z :=
  omap (fun p : Z * bool => if p.2 then Some p.1 else None) l.

Lemma put_objs_ok l : forall g hx rs,
  store_ok g hx (l ++ rs) ->
  exists g', put_objs l g = Some g' /\ store_ok g' hx rs /\ same_idr g g'.
Proof.
  induction l as [|o l IH]; intros g hx rs SO; cbn [put_objs]; [by exists g|].
  destruct (store_put_ok g hx (l ++ rs) o SO) as (g1 & -> & SO1 & S1). cbn [mbind option_bind].
  destruct (IH g1 hx rs SO1) as (g2 & -> & SO2 & S2). exists g2.
  split; [done|]. split; [done|]. unfold same_idr in *. congruence.
Qed.

Lemma put_handle_refs_ok l : forall g hx rs,
  store_ok g (flagged l ++ hx) rs ->
  exists g', put_handle_refs l g = Some g' /\ store_ok g' hx rs /\ same_idr g g'.
Proof.
  induction l as [|[o [|]] l IH]; intros g hx rs SO; cbn [put_handle_refs]; [by exists g| |by apply IH].
  destruct (store_handle_put_ok g (flagged l ++ hx) rs o SO) as (g1 & -> & SO1 & S1). cbn [mbind option_bind].
  destruct (IH g1 hx rs SO1) as (g2 & -> & SO2 & S2). exists g2.
  split; [done|]. split; [done|]. unfold same_idr in *. congruence.
Qed.

Lemma take_handle_refs_ok l : forall g hx rs,
  store_ok g hx rs -> Forall (fun o => o ∈ rs) l ->
  exists refs g', take_handle_refs l g = Some (refs, g') /\ refs.*1 = l
    /\ store_ok g' (flagged refs ++ hx) rs /\ same_idr g g'.
Proof.
  induction l as [|o l IH]; intros g hx rs SO Hl; cbn [take_handle_refs]; [by exists [], g|].
  apply Forall_cons_1 in Hl as [Ho Hl].
  assert (Ha : alive o g) by (apply (ba_held _ _ _ (so_balanced _ _ _ SO)), elem_of_app; by right).
  destruct (get_if_exists_ok g _ rs o (so_balanced _ _ _ SO) Ha) as (e & g1 & -> & B1 & S1 & _).
  cbn [mbind option_bind]. unfold same_idr in S1.
  assert (SO1 : store_ok g1 ((if e then [o] else []) ++ hx) rs).
  { split; rewrite S1; [|apply SO]. destruct e; [|done]. cbn [app]. by rewrite <- Permutation_middle. }
  destruct (IH g1 _ rs SO1 Hl) as (refs & g2 & -> & <- & SO2 & S2). cbn [mbind option_bind].
  exists ((o, e) :: refs), g2. split; [done|]. split; [done|].
  split; [|unfold same_idr in *; congruence].
  eapply store_perm; [|reflexivity|exact SO2]. destruct e; cbn; [|done]. by rewrite <- Permutation_middle.
Qed.

(** The looked up objects are held; after an error nothing is. *)
Lemma lookup_planes_ok file info r planes : forall g hx rs found,
  store_ok g hx (found ++ rs) ->
  exists res g', lookup_planes file info r planes found g = Some (res, g') /\ same_idr g g'
    /\ match res with
       | inl e => e < 0 /\ store_ok g' hx rs
       | inr l => store_ok g' hx (l ++ rs)
       end.
Proof.
  induction planes as [|i planes IH]; intros g hx rs found SO; cbn [lookup_planes].
  { by exists (inr found), g. }
  destruct (lookup_ok g hx (found ++ rs) file (at_plane (r_handles r) i) SO) as (o & g1 & -> & S1 & Ho).
  cbn [mbind option_bind]. destruct o as [o|].
  - destruct Ho as [_ SO1].
    assert (Ha : alive o g1) by (apply (ba_held _ _ _ (so_balanced _ _ _ SO1)), elem_of_app; right; by left).
    destruct Ha as [b E]. rewrite E. cbn [mbind option_bind].
    destruct (obj_size b <? gem_min_size info r i).
    + destruct (store_put_ok g1 hx (found ++ rs) o SO1) as (g2 & -> & SO2 & S2). cbn [mbind option_bind].
      destruct (put_objs_ok found g2 hx rs SO2) as (g3 & -> & SO3 & S3). cbn [mbind option_bind].
      eexists _, g3. split; [done|]. split; [unfold same_idr in *; congruence|done].
    + destruct (IH g1 hx rs (o :: found) SO1) as (res & g2 & E2 & S2 & Hres).
      exists res, g2. split; [done|]. split; [unfold same_idr in *; congruence|done].
  - destruct Ho as [_ ->]. destruct (put_objs_ok found g hx rs SO) as (g2 & -> & SO2 & S2).
    cbn [mbind option_bind]. by exists (inl (- ENOENT)), g2.
Qed.

Lemma addfb2_ok config modeset file alloc has_format add r g hx rs :
  store_ok g hx rs ->
  exists res g', drm_mode_addfb2 config modeset file alloc has_format add r g = Some (res, g')
    /\ same_idr g g'
    /\ match res with
       | inl e => store_ok g' hx rs
       | inr fb => store_ok g' (flagged (fb_obj fb) ++ hx) ((fb_obj fb).*1 ++ rs)
       end.
Proof.
  intros SO. unfold drm_mode_addfb2, drm_internal_framebuffer_create. destruct modeset; cbn [negb]; [|by eexists _, g].
  repeat match goal with
  | |- context [if ?c then Some (inl _, _) else _] => destruct c; [by eexists _, g|]
  end.
  destruct (__drm_format_info (r_pixel_format r)) as [i0|] eqn:E0; [|by eexists _, g].
  assert (Hi : exists info, drm_get_format_info (get_format_info config) (r_pixel_format r)
                              (at_plane (r_modifier r) 0) = Some info).
  { unfold drm_get_format_info, drm_format_info_of. rewrite E0.
    destruct (get_format_info config) as [f|]; [destruct (f _ _)|]; by eexists. }
  destruct Hi as [info ->]. cbn [mbind option_bind].
  destruct (framebuffer_check info r =? 0); [|by eexists _, g].
  unfold drm_gem_fb_create_with_funcs, drm_gem_fb_init_with_funcs.
  destruct alloc; cbn [negb]; [|by eexists _, g]. destruct has_format; cbn [negb]; [|by eexists _, g].
  destruct (lookup_planes_ok file info r (seqZ 0 (num_planes info)) g hx rs [] SO)
    as (res & g1 & -> & S1 & Hres). cbn [mbind option_bind].
  destruct res as [e|found]; [destruct Hres; by exists (inl e), g1|].
  unfold drm_framebuffer_init.
  assert (Hf : Forall (fun o => o ∈ found ++ rs) (reverse found)).
  { apply Forall_forall. intros o Ho. rewrite elem_of_app. left. by rewrite <- (reverse_Permutation found). }
  destruct (take_handle_refs_ok (reverse found) g1 hx (found ++ rs) Hres Hf)
    as (refs & g2 & -> & Erefs & SO2 & S2). cbn [mbind option_bind].
  destruct (add =? 0) eqn:Ea; cbn [mbind option_bind].
  - eexists _, g2. split; [done|]. split; [unfold same_idr in *; congruence|].
    cbn [fb_obj drm_helper_mode_fill_fb_struct]. rewrite Erefs.
    eapply store_perm; [reflexivity| |exact SO2]. by rewrite reverse_Permutation.
  - destruct (put_handle_refs_ok refs g2 hx _ SO2) as (g3 & -> & SO3 & S3). cbn [mbind option_bind]. rewrite Ea.
    destruct (put_objs_ok found g3 hx rs SO3) as (g4 & -> & SO4 & S4). cbn [mbind option_bind].
    eexists _, g4. split; [done|]. split; [unfold same_idr in *; congruence|done].
Qed.

Lemma fb_destroy_ok fb g hx rs :
  store_ok g (flagged (fb_obj fb) ++ hx) ((fb_obj fb).*1 ++ rs) ->
  exists g', drm_gem_fb_destroy fb g = Some g' /\ store_ok g' hx rs.
Proof.
  intros SO. unfold drm_gem_fb_destroy, drm_framebuffer_cleanup.
  destruct (put_objs_ok _ g _ rs SO) as (g1 & -> & SO1 & _). cbn [mbind option_bind].
  destruct (put_handle_refs_ok _ g1 hx rs SO1) as (g2 & -> & SO2 & _). by exists g2.
Qed.
End ops.
