(* ===== verification/GemSystem.v ===== *)
(** * The GEM objects of a device in use

    The system of Gem.v and Framebuffer.v: a store, the references its users hold and
    the framebuffers they made, driven by the calls of the users in any order.  Every
    call runs to its end before the next; [change_handle_race] at the end cuts two of
    them into their critical sections. *)

From Stdlib Require Import ZArith Lia Bool.
From stdpp Require Import base numbers list option gmap.
From S2P Require Import Prelude Fourcc Gem Framebuffer GemInv.
#[local] Open Scope Z_scope.

Record sys := Sys {
  s_gem : gem;
  s_held : list Z;                 (* references the callers hold *)
  s_fbs : list drm_framebuffer
}.

Inductive event :=
| ENew (o size : Z)
| ELookup (file handle : Z)
| EPut (n : nat)
| ECreate (file : Z) (n : nat) (allow open : Z)
| EDelete (file handle : Z)
| EFlink (file handle : Z)
| EOpen (file name allow open : Z)
| EChange (file handle new : Z)
| ERelease (file : Z)
| EAddFb (config : mode_config) (modeset : bool) (file : Z) (alloc has_format : bool) (add : Z)
    (r : drm_mode_fb_cmd2)
| EDestroyFb (n : nat).

(** What a caller must see to: a new object is not one of the store, and what it puts,
    names or destroys is its own. *)
Definition enabled (e : event) (s : sys) : Prop :=
  match e with
  | ENew o _ => objs (s_gem s) !! o = None
  | EPut n | ECreate _ n _ _ => is_Some (s_held s !! n)
  | EDestroyFb n => is_Some (s_fbs s !! n)
  | _ => True
  end.

Definition set_gem (g : gem) (s : sys) : sys := Sys g (s_held s) (s_fbs s).

Section system.
Context (idr_alloc : (Z -> bool) -> Z -> Z -> Z).

(** The code a call returns and the state after it; no result when a freed object is
    touched. *)
Definition exec (e : event) (s : sys) : option (Z * sys) :=
  match e with
  | ENew o size =>
    Some (0, Sys (drm_gem_private_object_init o size (s_gem s)) (o :: s_held s) (s_fbs s))
  | ELookup file h =>
    '(o, g) ← drm_gem_object_lookup file h (s_gem s);
    Some (match o with
          | Some o => (0, Sys g (o :: s_held s) (s_fbs s))
          | None => (- ENOENT, set_gem g s)
          end)
  | EPut n =>
    o ← s_held s !! n;
    g ← drm_gem_object_put o (s_gem s);
    Some (0, Sys g (delete n (s_held s)) (s_fbs s))
  | ECreate file n allow open =>
    o ← s_held s !! n;
    '(ret, _, g) ← drm_gem_handle_create idr_alloc file o allow open (s_gem s);
    Some (ret, set_gem g s)
  | EDelete file h =>
    '(ret, g) ← drm_gem_close_ioctl file h (s_gem s); Some (ret, set_gem g s)
  | EFlink file h =>
    '(ret, _, g) ← drm_gem_flink_ioctl idr_alloc file h (s_gem s); Some (ret, set_gem g s)
  | EOpen file name allow open =>
    '(ret, _, g) ← drm_gem_open_ioctl idr_alloc file name allow open (s_gem s);
    Some (ret, set_gem g s)
  | EChange file h new =>
    '(ret, g) ← drm_gem_change_handle_ioctl idr_alloc file h new (s_gem s);
    Some (ret, set_gem g s)
  | ERelease file => g ← drm_gem_release file (s_gem s); Some (0, set_gem g s)
  | EAddFb config modeset file alloc has_format add r =>
    '(res, g) ← drm_mode_addfb2 config modeset file alloc has_format add r (s_gem s);
    Some (match res with
          | inl ret => (ret, set_gem g s)
          | inr fb => (0, Sys g (s_held s) (fb :: s_fbs s))
          end)
  | EDestroyFb n =>
    fb ← s_fbs s !! n;
    g ← drm_gem_fb_destroy fb (s_gem s);
    Some (0, Sys g (s_held s) (delete n (s_fbs s)))
  end.

Definition init_sys : sys := Sys (Gem ∅ ∅ ∅) [] [].

Inductive reachable : sys -> Prop :=
| reach_init : reachable init_sys
| reach_step s e ret s' :
    reachable s -> enabled e s -> exec e s = Some (ret, s') -> reachable s'.

(** ** The references of a state *)

Definition fb_handles (fbs : list drm_framebuffer) : list Z := mjoin ((fun fb => flagged (fb_obj fb)) <$> fbs).
Definition fb_refs (fbs : list drm_framebuffer) : list Z := mjoin ((fun fb => (fb_obj fb).*1) <$> fbs).

(** Every handle, and every plane of a framebuffer that was made from one, is a handle
    reference; every held object and every plane of a framebuffer a reference. *)
Definition handle_refs (s : sys) : list Z := hlist (object_idr (s_gem s)) ++ fb_handles (s_fbs s).
Definition other_refs (s : sys) : list Z := s_held s ++ fb_refs (s_fbs s).

Definition sys_ok (s : sys) : Prop := store_ok (s_gem s) (fb_handles (s_fbs s)) (other_refs s).

Hypothesis idr_alloc_fresh : forall used s e,
  0 <= idr_alloc used s e -> s <= idr_alloc used s e /\ used (idr_alloc used s e) = false.

Lemma init_sys_ok : sys_ok init_sys.
Proof. repeat split; try done. cbn. by intros o ?%not_elem_of_nil. Qed.

Lemma fb_handles_take fbs n fb :
  fbs !! n = Some fb -> fb_handles fbs ≡ₚ flagged (fb_obj fb) ++ fb_handles (delete n fbs).
Proof. intros E. unfold fb_handles. by rewrite (delete_Permutation fbs n fb E) at 1. Qed.

Lemma fb_refs_take fbs n fb :
  fbs !! n = Some fb -> fb_refs fbs ≡ₚ (fb_obj fb).*1 ++ fb_refs (delete n fbs).
Proof. intros E. unfold fb_refs. by rewrite (delete_Permutation fbs n fb E) at 1. Qed.

(** A new object, with the reference of its creator. *)
Lemma new_ok g hx rs o size :
  store_ok g hx rs -> objs g !! o = None ->
  store_ok (drm_gem_private_object_init o size g) hx (o :: rs).
Proof.
  intros [[B1 B2 B3] N] E. split; [|done]. unfold drm_gem_private_object_init.
  assert (Hn : o ∉ (hlist (object_idr g) ++ hx) ++ rs).
  { intros Ho. destruct (B2 o Ho) as [b Eb]. congruence. }
  rewrite elem_of_app in Hn. apply Decidable.not_or in Hn as [Hh Hr].
  assert (Z0 : forall l, o ∉ l -> cnt o l = 0).
  { intros l Hl. rewrite <- cnt_pos in Hl. pose proof (cnt_nonneg o l). lia. }
  cbn [set_obj object_idr]. split.
  - intros j b. cbn [set_obj objs]. destruct (decide (j = o)) as [->|Hne].
    + rewrite lookup_insert_eq. intros [= <-]. split; cbn; [by rewrite Z0|rewrite decide_False by done|lia|done].
      rewrite cnt_cons_eq, Z0 by done. lia.
    + rewrite lookup_insert_ne by done. intros Ej. destruct (B1 j b Ej) as [C1 C2 C3 C4].
      split; try done. by rewrite cnt_cons_ne.
  - intros j. rewrite <- Permutation_middle, elem_of_cons. unfold alive. cbn [set_obj objs].
    destruct (decide (j = o)) as [->|Hne]; [rewrite lookup_insert_eq; eauto|].
    rewrite lookup_insert_ne by done. intros [?|Hj]; [done|by apply B2].
  - intros n j. cbn [set_obj object_name_idr objs]. intros En. destruct (B3 n j En) as [Hn (b & Eb & Hb)].
    split; [done|]. exists b. rewrite lookup_insert_ne by congruence. done.
Qed.

(** Every call that its caller may make returns and keeps the references exact. *)
Lemma exec_ok e s : sys_ok s -> enabled e s -> exists ret s', exec e s = Some (ret, s') /\ sys_ok s'.
Proof.
  destruct s as [g held fbs]. unfold sys_ok, other_refs. cbn [s_gem s_held s_fbs].
  intros SO En. destruct e as [o size|file h|n|file n allow op|file h|file h|file name allow op|file h new|file
    |config modeset file alloc has_format add r|n]; cbn [exec enabled s_gem s_held s_fbs] in *.
  - eexists _, _. split; [done|]. by apply new_ok.
  - destruct (lookup_ok g _ _ file h SO) as (o & g' & -> & _ & Ho). cbn [mbind option_bind].
    eexists _, _. split; [apply f_equal, surjective_pairing|].
    destruct o as [o|]; [by destruct Ho|by destruct Ho as [_ ->]].
  - destruct En as [o Eo]. rewrite Eo. cbn [mbind option_bind].
    rewrite (delete_Permutation held n o Eo : held ≡ₚ _) in SO.
    destruct (store_put_ok g _ _ o SO) as (g' & -> & SO' & _). by eexists _, _.
  - destruct En as [o Eo]. rewrite Eo. cbn [mbind option_bind].
    assert (Ha : alive o g).
    { apply (ba_held _ _ _ (so_balanced _ _ _ SO)). rewrite !elem_of_app. right. left.
      by apply list_elem_of_lookup_2 in Eo. }
    unfold drm_gem_handle_create.
    destruct (create_tail_ok idr_alloc idr_alloc_fresh g _ _ file o allow op SO Ha)
      as (ret & h & g' & -> & SO'). by eexists _, _.
  - unfold drm_gem_close_ioctl. destruct (delete_ok g _ _ file h SO) as (ret & g' & -> & SO' & _). by eexists _, _.
  - destruct (flink_ok idr_alloc idr_alloc_fresh g _ _ file h SO) as (ret & nm & g' & -> & SO'). by eexists _, _.
  - destruct (open_ok idr_alloc idr_alloc_fresh g _ _ file name allow op SO) as (ret & h & g' & -> & SO').
    by eexists _, _.
  - destruct (change_handle_ok idr_alloc idr_alloc_fresh g _ _ file h new SO) as (ret & g' & -> & SO').
    by eexists _, _.
  - destruct (release_ok g _ _ file SO) as (g' & -> & SO' & _). by eexists _, _.
  - destruct (addfb2_ok config modeset file alloc has_format add r g _ _ SO) as (res & g' & -> & _ & Hres).
    cbn [mbind option_bind]. eexists _, _. split; [apply f_equal, surjective_pairing|].
    destruct res as [ret|fb]; [done|]. cbn [snd s_gem s_held s_fbs fb_handles fb_refs fmap list_fmap mjoin list_join].
    rewrite (Permutation_app_swap_app held). exact Hres.
  - destruct En as [fb Ef]. rewrite Ef. cbn [mbind option_bind].
    rewrite (fb_handles_take fbs n fb Ef), (fb_refs_take fbs n fb Ef), (Permutation_app_swap_app held) in SO.
    destruct (fb_destroy_ok fb g _ _ SO) as (g' & -> & SO'). by eexists _, _.
Qed.

Lemma reachable_ok s : reachable s -> sys_ok s.
Proof.
  induction 1 as [|s e ret s' Hr IH Hen Hex]; [exact init_sys_ok|].
  destruct (exec_ok e s IH Hen) as (ret1 & s1 & E1 & Hok). rewrite Hex in E1. by injection E1 as _ <-.
Qed.

(** ** Undoing *)

Lemma set_obj_set g o b b' : set_obj o b (set_obj o b' g) = set_obj o b g.
Proof. unfold set_obj. cbn. by rewrite insert_insert_eq. Qed.

Lemma objs_set_obj g o b : objs (set_obj o b g) !! o = Some b.
Proof. apply lookup_insert_eq. Qed.

Lemma set_obj_same g o b : objs g !! o = Some b -> set_obj o b g = g.
Proof. intros E. destruct g. unfold set_obj. cbn in *. by rewrite insert_id. Qed.

(** Two values of an object's fields that are equal by arithmetic. *)
Ltac same_obj b :=
  destruct b; unfold with_refcount, with_handle_count, with_name; cbn in *; f_equal; lia.

Lemma put_get g g1 o : (forall b, objs g !! o = Some b -> refcount b <> 0) ->
  drm_gem_object_get o g = Some g1 -> drm_gem_object_put o g1 = Some g.
Proof.
  unfold drm_gem_object_get, drm_gem_object_put. destruct (objs g !! o) as [b|] eqn:E; [|done].
  intros Hb [= <-]. cbn [set_obj objs]. rewrite lookup_insert_eq. cbn [mbind option_bind with_refcount refcount].
  specialize (Hb b eq_refl). destruct (Z.eqb_spec (refcount b + 1) 1); [lia|].
  f_equal. etransitivity; [apply set_obj_set|]. apply set_obj_same. rewrite E. f_equal. same_obj b.
Qed.

Lemma ok_live g hx rs o b : store_ok g hx rs -> objs g !! o = Some b ->
  refcount b <> 0 /\ (handle_count b = 0 -> obj_name b = 0) /\ 0 <= handle_count b.
Proof.
  intros [B _] E. destruct (ba_obj _ _ _ B o b E) as [E1 E2 E3 E4].
  split; [lia|]. rewrite E1. split; [|apply cnt_nonneg]. intros H0.
  destruct (Z.eq_dec (obj_name b) 0) as [|Hn]; [done|]. destruct (E4 Hn) as [_ Hin%cnt_pos]. lia.
Qed.

Lemma handle_put_get g hx rs g1 o : store_ok g hx rs ->
  drm_gem_object_handle_get o g = Some g1 -> drm_gem_object_handle_put_unlocked o g1 = Some g.
Proof.
  intros SO. unfold drm_gem_object_handle_get. destruct (objs g !! o) as [b|] eqn:E; [|done].
  destruct (ok_live g hx rs o b SO E) as (Hr & Hn & Hh). cbn [mbind option_bind].
  unfold drm_gem_object_handle_put_unlocked.
  destruct (Z.eqb_spec (handle_count b) 0) as [H0|H0].
  - unfold drm_gem_object_get. rewrite objs_set_obj. cbn [mbind option_bind].
    intros [= <-]. rewrite set_obj_set, objs_set_obj.
    cbn [mbind option_bind with_refcount with_handle_count handle_count refcount].
    rewrite H0. change (0 + 1 =? 0) with false. change (0 + 1 - 1 =? 0) with true. cbn match.
    rewrite set_obj_set. unfold drm_gem_object_handle_free. rewrite objs_set_obj.
    cbn [mbind option_bind with_refcount with_handle_count obj_name]. rewrite (Hn H0).
    change (0 =? 0) with true. cbn match. unfold drm_gem_object_put. rewrite objs_set_obj.
    cbn [mbind option_bind with_refcount with_handle_count refcount].
    destruct (Z.eqb_spec (refcount b + 1) 1); [lia|]. f_equal.
    etransitivity; [apply set_obj_set|]. apply set_obj_same. rewrite E. f_equal. same_obj b.
  - intros [= <-]. cbn [set_obj objs]. rewrite lookup_insert_eq.
    cbn [mbind option_bind with_handle_count handle_count].
    destruct (Z.eqb_spec (handle_count b + 1) 0); [lia|].
    destruct (Z.eqb_spec (handle_count b + 1 - 1) 0); [lia|]. f_equal.
    etransitivity; [apply set_obj_set|]. apply set_obj_same. rewrite E. f_equal. same_obj b.
Qed.

Lemma lookup_undo g hx rs file h o g1 : store_ok g hx rs ->
  drm_gem_object_lookup file h g = Some (o, g1) ->
  match o with Some o => drm_gem_object_put o g1 = Some g | None => g1 = g end.
Proof.
  intros SO. unfold drm_gem_object_lookup. destruct (idr_find file h g) as [j|]; [|by intros [= <- <-]].
  destruct (drm_gem_object_get j g) as [g'|] eqn:Eg; [|done]. intros [= <- <-].
  apply (put_get g); [|done]. intros b E. by apply (ok_live g hx rs j b SO).
Qed.

(** A handle that is not created leaves nothing behind. *)
Lemma create_tail_undo g hx rs file o allow open ret h g' : store_ok g hx rs ->
  drm_gem_handle_create_tail idr_alloc file o allow open g = Some (ret, h, g') -> ret <> 0 -> g' = g.
Proof.
  intros SO. unfold drm_gem_handle_create_tail.
  destruct (drm_gem_object_handle_get o g) as [g1|] eqn:Eg; [|done]. cbn [mbind option_bind].
  pose proof (handle_put_get g hx rs g1 o SO Eg) as Ep.
  destruct (Z.ltb_spec (idr_alloc (used file g1) 1 0) 0) as [Hr|Hr].
  { rewrite Ep. cbn [mbind option_bind]. by intros [= _ _ <-]. }
  destruct (idr_alloc_fresh (used file g1) 1 0 Hr) as [_ Hk%used_false].
  cbn [set_idr object_idr]. destruct (Z.eqb_spec (if allow =? 0 then open else allow) 0) as [E0|_].
  { by intros [= <- _ _] ?. }
  rewrite delete_insert_id by done.
  match goal with |- context [drm_gem_object_handle_put_unlocked o ?x] =>
    replace x with g1 by (by destruct g1) end.
  rewrite Ep. cbn [mbind option_bind]. by intros [= _ _ <-].
Qed.

Lemma delete_undo file h g ret g' :
  drm_gem_handle_delete file h g = Some (ret, g') -> ret <> 0 -> g' = g.
Proof.
  unfold drm_gem_handle_delete. destruct (object_idr g !! (file, h)) as [[o|]|]; [|by intros [= _ <-]..].
  destruct (drm_gem_object_release_handle _ _) as [g1|]; [|done]. by intros [= <- _] ?.
Qed.

Lemma lookup_planes_undo file info r planes : forall g hx rs found g0 res g',
  store_ok g hx rs -> put_objs found g = Some g0 ->
  lookup_planes file info r planes found g = Some (res, g') ->
  match res with inl _ => g' = g0 | inr l => put_objs l g' = Some g0 end.
Proof.
  induction planes as [|i planes IH]; intros g hx rs found g0 res g' SO E0; cbn [lookup_planes].
  { by intros [= <- <-]. }
  destruct (lookup_ok g hx rs file (at_plane (r_handles r) i) SO) as (o & g1 & El & _ & Ho).
  pose proof (lookup_undo g hx rs file _ o g1 SO El) as Eu. rewrite El. cbn [mbind option_bind].
  destruct o as [o|].
  - destruct Ho as [_ SO1]. destruct (objs g1 !! o) as [b|]; [|done]. cbn [mbind option_bind].
    destruct (obj_size b <? gem_min_size info r i).
    + rewrite Eu. cbn [mbind option_bind]. rewrite E0. cbn [mbind option_bind]. by intros [= <- <-].
    + apply (IH g1 hx (o :: rs)); [done|]. cbn [put_objs]. by rewrite Eu.
  - subst g1. rewrite E0. cbn [mbind option_bind]. by intros [= <- <-].
Qed.

(** The store with one more handle of every object of a list. *)
Definition bump (l : list Z) (g : gem) : gem :=
  Gem (map_imap (fun o b => Some (with_handle_count (handle_count b + cnt o l) b)) (objs g))
    (object_name_idr g) (object_idr g).

Lemma bump_lookup l g o : objs (bump l g) !! o = (fun b => with_handle_count (handle_count b + cnt o l) b) <$> objs g !! o.
Proof. cbn. rewrite map_lookup_imap. by destruct (objs g !! o). Qed.

Lemma gem_eq g g' : (forall o, objs g !! o = objs g' !! o) ->
  object_name_idr g = object_name_idr g' -> object_idr g = object_idr g' -> g = g'.
Proof. destruct g, g'. cbn. intros Ho%map_eq -> ->. by rewrite Ho. Qed.

Lemma bump_nil g : bump [] g = g.
Proof.
  apply gem_eq; [|done..]. intros o. rewrite bump_lookup, cnt_nil.
  destruct (objs g !! o) as [b|]; [|done]. cbn. f_equal. same_obj b.
Qed.

Lemma bump_cons g o b k l : objs g !! o = Some b -> k = handle_count b + cnt o l ->
  bump l g = set_obj o (with_handle_count k b) (bump (o :: l) g)
  /\ bump (o :: l) g = bump l (set_obj o (with_handle_count (handle_count b + 1) b) g).
Proof.
  intros E ->. split; apply gem_eq; try done; intros j;
    destruct (decide (j = o)) as [->|Hne].
  - rewrite bump_lookup, objs_set_obj, E. done.
  - cbn [set_obj objs]. rewrite lookup_insert_ne by done. by rewrite !bump_lookup, cnt_cons_ne.
  - rewrite !bump_lookup, objs_set_obj, E, cnt_cons_eq. cbn. f_equal. same_obj b.
  - rewrite !bump_lookup, cnt_cons_ne by done. cbn [set_obj objs]. by rewrite lookup_insert_ne.
Qed.

Definition has_handle (g : gem) (o : Z) : Prop := exists b, objs g !! o = Some b /\ 1 <= handle_count b.

Lemma take_handle_refs_bump l : forall g refs g',
  (forall o b, objs g !! o = Some b -> 0 <= handle_count b) ->
  take_handle_refs l g = Some (refs, g') ->
  g' = bump (flagged refs) g /\ Forall (has_handle g) (flagged refs).
Proof.
  induction l as [|o l IH]; intros g refs g' Hpos; cbn [take_handle_refs].
  { intros [= <- <-]. by rewrite bump_nil. }
  unfold drm_gem_object_handle_get_if_exists_unlocked. destruct (objs g !! o) as [b|] eqn:E; [|done].
  cbn [mbind option_bind]. destruct (Z.eqb_spec (handle_count b) 0) as [H0|H0].
  - cbn [mbind option_bind]. destruct (take_handle_refs l g) as [[rs g2]|] eqn:Et; [|done]. intros [= <- <-].
    exact (IH g rs g2 Hpos Et).
  - unfold drm_gem_object_handle_get. rewrite E. cbn [mbind option_bind].
    destruct (Z.eqb_spec (handle_count b) 0); [done|]. cbn [mbind option_bind].
    set (g1 := set_obj o _ g). pose proof (Hpos o b E).
    destruct (take_handle_refs l g1) as [[rs g2]|] eqn:Et; [|done]. intros [= <- <-].
    assert (Hlk : forall j bj, objs g1 !! j = Some bj -> j = o \/ objs g !! j = Some bj).
    { intros j bj. destruct (decide (j = o)); [by left|]. cbn [g1 set_obj objs].
      rewrite lookup_insert_ne by done. by right. }
    destruct (IH g1 rs g2) as [-> Hf]; [|done|].
    { intros j bj Hj. destruct (Hlk j bj Hj) as [->|Hj']; [|by apply (Hpos j)].
      unfold g1 in Hj. rewrite objs_set_obj in Hj. injection Hj as <-. cbn. lia. }
    change (flagged ((o, true) :: rs)) with (o :: flagged rs). split.
    + symmetry. by apply (bump_cons g o b (handle_count b + cnt o (flagged rs))).
    + constructor; [exists b; split; [done|lia]|]. eapply Forall_impl; [exact Hf|].
      intros j (bj & Hj & Hc). destruct (Hlk j bj Hj) as [->|Hj']; [exists b; split; [done|lia]|by exists bj].
Qed.

Lemma put_handle_refs_bump refs : forall g,
  Forall (has_handle g) (flagged refs) -> put_handle_refs refs (bump (flagged refs) g) = Some g.
Proof.
  induction refs as [|[o [|]] refs IH]; intros g Hf; cbn [put_handle_refs].
  - by rewrite bump_nil.
  - change (flagged ((o, true) :: refs)) with (o :: flagged refs) in *.
    apply Forall_cons_1 in Hf as [(b & E & Hc) Hf].
    unfold drm_gem_object_handle_put_unlocked. rewrite bump_lookup, E.
    cbn [fmap option_fmap option_map mbind option_bind with_handle_count handle_count].
    rewrite cnt_cons_eq. pose proof (cnt_nonneg o (flagged refs)).
    destruct (Z.eqb_spec (handle_count b + (1 + cnt o (flagged refs))) 0); [lia|].
    destruct (Z.eqb_spec (handle_count b + (1 + cnt o (flagged refs)) - 1) 0); [lia|].
    cbn [mbind option_bind].
    match goal with |- context [set_obj o (with_handle_count ?k _) _] =>
      destruct (bump_cons g o b k (flagged refs) E ltac:(lia)) as [Eb _] end.
    match goal with |- put_handle_refs refs ?x = _ => replace x with (bump (flagged refs) g) end.
    by apply IH.
  - by apply IH.
Qed.

Lemma flink_undo g hx rs file h ret n g' : store_ok g hx rs ->
  drm_gem_flink_ioctl idr_alloc file h g = Some (ret, n, g') -> ret <> 0 -> g' = g.
Proof.
  intros SO. unfold drm_gem_flink_ioctl.
  destruct (drm_gem_object_lookup file h g) as [[o g1]|] eqn:El; [|done]. cbn [mbind option_bind].
  pose proof (lookup_undo g hx rs file h o g1 SO El) as Eu.
  destruct o as [o|]; [|subst g1; by intros [= _ _ <-]].
  destruct (objs g1 !! o) as [b|] eqn:Eb; [|done]. cbn [mbind option_bind].
  match goal with |- context [let '(_, _) := ?x in _] => set (named_g := x) end.
  assert (Hn : named_g.1 = 0 \/ named_g.2 = g1).
  { unfold named_g. destruct (handle_count b =? 0); [by right|]. destruct (obj_name b =? 0); [|by left].
    destruct (_ <? 0); [by right|by left]. }
  destruct named_g as [r g2]. cbn [fst snd] in Hn. destruct (objs g2 !! o) as [b2|]; [|done].
  cbn [mbind option_bind]. destruct (drm_gem_object_put o g2) as [g3|] eqn:Ep; [|done].
  cbn [mbind option_bind]. intros [= <- _ <-] Hr. destruct Hn as [| ->]; [done|]. congruence.
Qed.

Lemma open_undo g hx rs file name allow open ret h g' : store_ok g hx rs ->
  drm_gem_open_ioctl idr_alloc file name allow open g = Some (ret, h, g') -> ret <> 0 -> g' = g.
Proof.
  intros SO. unfold drm_gem_open_ioctl. destruct (object_name_idr g !! name) as [o|]; [|by intros [= _ _ <-]].
  destruct (drm_gem_object_get o g) as [g1|] eqn:Eg; [|done]. cbn [mbind option_bind].
  assert (Ha : alive o g) by (unfold drm_gem_object_get in Eg; unfold alive; by destruct (objs g !! o)).
  destruct (store_get_ok g hx rs o SO Ha) as (g1' & Eg' & SO1 & _). assert (g1' = g1) as -> by congruence.
  destruct (drm_gem_handle_create_tail idr_alloc file o allow open g1) as [[[r k] g2]|] eqn:Ec; [|done].
  cbn [mbind option_bind]. destruct (drm_gem_object_put o g2) as [g3|] eqn:Ep; [|done].
  intros [= <- _ <-] Hr. rewrite (create_tail_undo _ _ _ _ _ _ _ _ _ _ SO1 Ec Hr) in Ep.
  assert (Eu : drm_gem_object_put o g1 = Some g).
  { apply (put_get g); [|done]. intros b E. by apply (ok_live g hx rs o b SO). }
  congruence.
Qed.

Lemma change_handle_undo g hx rs file h new ret g' : store_ok g hx rs ->
  drm_gem_change_handle_ioctl idr_alloc file h new g = Some (ret, g') -> ret <> 0 -> g' = g.
Proof.
  intros SO. unfold drm_gem_change_handle_ioctl. destruct (_ <? new); [by intros [= _ <-]|].
  destruct (drm_gem_object_lookup file h g) as [[o g1]|] eqn:El; [|done]. cbn [mbind option_bind].
  pose proof (lookup_undo g hx rs file h o g1 SO El) as Eu.
  destruct o as [o|]; [|subst g1; by intros [= _ <-]].
  match goal with |- context [let '(_, _) := ?x in _] => set (changed := x) end.
  assert (Hn : changed.1 = 0 \/ changed.2 = g1).
  { unfold changed. destruct (h =? new); [by left|]. unfold change_handle_alloc.
    destruct (Z.ltb_spec (idr_alloc (used file g1) new (s32 (new + 1))) 0) as [Hr|]; [|by left].
    apply Z.ltb_lt in Hr. rewrite Hr. by right. }
  destruct changed as [r g2]. cbn [fst snd] in Hn.
  destruct (drm_gem_object_put o g2) as [g3|] eqn:Ep; [|done].
  cbn [mbind option_bind]. intros [= <- <-] Hr. destruct Hn as [| ->]; [done|]. congruence.
Qed.

Lemma addfb2_undo config modeset file alloc has_format add r g hx rs ret g' :
  store_ok g hx rs ->
  drm_mode_addfb2 config modeset file alloc has_format add r g = Some (inl ret, g') -> g' = g.
Proof.
  intros SO. unfold drm_mode_addfb2, drm_internal_framebuffer_create. destruct modeset; cbn [negb]; [|by intros [= _ <-]].
  repeat match goal with
  | |- (if ?c then Some (inl _, _) else _) = _ -> _ => destruct c; [by intros [= _ <-]|]
  end.
  destruct (__drm_format_info (r_pixel_format r)) as [i0|]; [|by intros [= _ <-]].
  destruct (drm_get_format_info _ _ _) as [info|]; [|done]. cbn [mbind option_bind].
  destruct (framebuffer_check info r =? 0); [|by intros [= _ <-]].
  unfold drm_gem_fb_create_with_funcs, drm_gem_fb_init_with_funcs.
  destruct alloc; cbn [negb]; [|by intros [= _ <-]]. destruct has_format; cbn [negb]; [|by intros [= _ <-]].
  destruct (lookup_planes_ok file info r (seqZ 0 (num_planes info)) g hx rs [] SO)
    as (res & g1 & El & _ & Hres).
  pose proof (lookup_planes_undo file info r _ g hx rs [] g res g1 SO eq_refl El) as Hu.
  rewrite El. cbn [mbind option_bind]. destruct res as [e|found]; [by intros [= _ <-]|].
  unfold drm_framebuffer_init.
  destruct (take_handle_refs (reverse found) g1) as [[refs g2]|] eqn:Et; [|done]. cbn [mbind option_bind].
  destruct (take_handle_refs_bump (reverse found) g1 refs g2) as [-> Hf]; [|done|].
  { intros o b E. by apply (ok_live g1 hx (found ++ rs) o b Hres). }
  destruct (add =? 0) eqn:Ea; cbn [mbind option_bind]; [by cbn|].
  rewrite (put_handle_refs_bump refs g1 Hf). cbn [mbind option_bind]. rewrite Ea, Hu.
  cbn [mbind option_bind]. by intros [= _ <-].
Qed.

(** C30. Whatever the calls of the users and their errors, every object counts exactly the
    handles and framebuffer planes that name it, and its references are those its callers
    and framebuffers hold, with one more for all handles together; an object is in memory
    exactly as long as any of these is left, names belong to objects with handles, and no
    call touches an object that was freed. *)
Theorem references_exact s :
  reachable s ->
  (forall o b, objs (s_gem s) !! o = Some b ->
     handle_count b = cnt o (handle_refs s)
     /\ refcount b = (if decide (o ∈ handle_refs s) then 1 else 0) + cnt o (other_refs s))
  /\ (forall o, is_Some (objs (s_gem s) !! o) <-> o ∈ handle_refs s ++ other_refs s)
  /\ (forall n o, object_name_idr (s_gem s) !! n = Some o
       <-> n <> 0 /\ exists b, objs (s_gem s) !! o = Some b /\ obj_name b = n)
  /\ (forall n o, object_name_idr (s_gem s) !! n = Some o -> o ∈ handle_refs s)
  /\ forall e, enabled e s -> is_Some (exec e s).
Proof.
  intros Hr%reachable_ok. pose proof Hr as [B N]. fold (handle_refs s) in B.
  destruct B as [B1 B2 B3]. split; [|split; [|split; [|split]]].
  - intros o b E. by destruct (B1 o b E) as [-> -> _ _].
  - intros o. split; [|apply B2]. intros [b E]. destruct (B1 o b E) as [E1 E2 E3 _].
    rewrite elem_of_app. destruct (decide (o ∈ handle_refs s)) as [|_]; [by left|].
    right. apply cnt_pos. lia.
  - intros n o. split; [apply B3|]. intros (Hn & b & E & <-). by apply (oo_name _ _ _ _ _ (B1 o b E)).
  - intros n o E. destruct (B3 n o E) as (Hn & b & Eb & <-). by apply (oo_name _ _ _ _ _ (B1 o b Eb)).
  - intros e He. destruct (exec_ok e s Hr He) as (ret & s' & -> & _). by eexists.
Qed.

(** C31. A call that returns an error leaves objects, counts, names, handles and
    framebuffers exactly as they were, however far it got before the error. *)
Theorem errors_change_nothing s e ret s' :
  reachable s -> exec e s = Some (ret, s') -> ret <> 0 -> s' = s.
Proof.
  intros Hr%reachable_ok. unfold sys_ok in Hr. destruct s as [g held fbs]. cbn [s_gem s_held s_fbs] in Hr.
  destruct e as [o size|file h|n|file n allow op|file h|file h|file name allow op|file h new|file
    |config modeset file alloc has_format add r|n]; cbn [exec s_gem s_held s_fbs].
  - by intros [= <- _].
  - destruct (drm_gem_object_lookup file h g) as [[o g']|] eqn:E; [|done]. cbn [mbind option_bind].
    pose proof (lookup_undo _ _ _ _ _ _ _ Hr E) as Hu. destruct o as [o|]; [by intros [= <- _]|]. subst g'.
    by intros [= _ <-].
  - destruct (held !! n); [|done]. cbn [mbind option_bind]. destruct (drm_gem_object_put _ g); [|done].
    by intros [= <- _].
  - destruct (held !! n) as [o|]; [|done]. cbn [mbind option_bind]. unfold drm_gem_handle_create.
    destruct (drm_gem_handle_create_tail _ _ _ _ _ g) as [[[r h] g']|] eqn:E; [|done]. intros [= <- <-] Hret.
    by rewrite (create_tail_undo _ _ _ _ _ _ _ _ _ _ Hr E Hret).
  - unfold drm_gem_close_ioctl. destruct (drm_gem_handle_delete file h g) as [[r g']|] eqn:E; [|done].
    intros [= <- <-] Hret. by rewrite (delete_undo _ _ _ _ _ E Hret).
  - destruct (drm_gem_flink_ioctl _ _ _ g) as [[[r n] g']|] eqn:E; [|done]. intros [= <- <-] Hret.
    by rewrite (flink_undo _ _ _ _ _ _ _ _ Hr E Hret).
  - destruct (drm_gem_open_ioctl _ _ _ _ _ g) as [[[r n] g']|] eqn:E; [|done]. intros [= <- <-] Hret.
    by rewrite (open_undo _ _ _ _ _ _ _ _ _ _ Hr E Hret).
  - destruct (drm_gem_change_handle_ioctl _ _ _ _ g) as [[r g']|] eqn:E; [|done]. intros [= <- <-] Hret.
    by rewrite (change_handle_undo _ _ _ _ _ _ _ _ Hr E Hret).
  - destruct (drm_gem_release file g); [|done]. by intros [= <- _].
  - destruct (drm_mode_addfb2 _ _ _ _ _ _ _ g) as [[[r1|fb] g']|] eqn:E; [| |done]; [|by intros [= <- _]].
    intros [= <- <-] _. by rewrite (addfb2_undo _ _ _ _ _ _ _ _ _ _ _ _ Hr E).
  - destruct (fbs !! n); [|done]. cbn [mbind option_bind]. destruct (drm_gem_fb_destroy _ g); [|done].
    by intros [= <- _].
Qed.
End system.

(** ** At concrete calls *)

Module GemSample.
(** The lowest of 64 ids from the start that is in the range and not in use. *)
Definition lowest (used : Z -> bool) (s e : Z) : Z :=
  match find (fun i => ((e <=? 0) || (i <? e)) && negb (used i)) (seqZ s 64) with
  | Some i => i
  | None => - ENOSPC
  end.

Lemma lowest_fresh used s e : 0 <= lowest used s e -> s <= lowest used s e /\ used (lowest used s e) = false.
Proof.
  unfold lowest. destruct (find _ _) as [i|] eqn:E; [|lia].
  apply find_some in E as [Hi%list_elem_of_In%elem_of_seqZ Hu%andb_true_iff]. intros _.
  split; [lia|]. by destruct Hu as [_ ?%negb_true_iff].
Qed.

Fixpoint run (l : list event) (s : sys) : option sys :=
  match l with [] => Some s | e :: l => '(_, s) ← exec lowest e s; run l s end.

Fixpoint all_enabled (l : list event) (s : sys) : Prop :=
  match l with
  | [] => True
  | e :: l => enabled e s /\ match exec lowest e s with Some (_, s) => all_enabled l s | None => False end
  end.

Lemma run_reachable l : forall s s', reachable lowest s -> all_enabled l s -> run l s = Some s' -> reachable lowest s'.
Proof.
  induction l as [|e l IH]; intros s s' Hr; cbn [all_enabled run]; [by intros _ [= <-]|]. intros [He Hl].
  destruct (exec lowest e s) as [[ret s1]|] eqn:E; [|done]. cbn [mbind option_bind]. apply IH; [|done].
  by apply (reach_step lowest s e ret).
Qed.

(** An object of 3072 bytes, its handle and its name, and a framebuffer on it that
    outlives the handle. *)
Definition history : list event :=
  [ENew 7 3072; ECreate 0 0 0 0; EPut 0; EFlink 0 1; EOpen 1 1 0 0;
   EAddFb FbSample.config true 0 true true 0 (FbSample.nv12 64 32 64 2048);
   EDelete 0 1; ERelease 1].

Definition final : sys :=
  Sys (Gem {[ 7 := GemObj 3072 3 2 1 ]} {[ 1 := 7 ]} ∅) []
    [FbSample.fb (FbSample.nv12 64 32 64 2048)].

Lemma history_run : run history init_sys = Some final.
Proof. vm_compute. reflexivity. Qed.

Lemma final_reachable : reachable lowest final.
Proof.
  refine (run_reachable history init_sys final (reach_init _) _ history_run).
  vm_compute. repeat split; by eexists.
Qed.
End GemSample.

Lemma references_exact_witness :
  reachable GemSample.lowest GemSample.final
  /\ is_Some (objs (s_gem GemSample.final) !! 7)
  /\ is_Some (exec GemSample.lowest (EDestroyFb 0) GemSample.final).
Proof.
  split; [exact GemSample.final_reachable|].
  destruct (references_exact GemSample.lowest GemSample.lowest_fresh GemSample.final
    GemSample.final_reachable) as (_ & Hal & _ & _ & Hex).
  split; [by eexists|]. apply Hex. by eexists.
Defined.

(** The driver refuses the handle of an object that is opened by its name. *)
Lemma errors_change_nothing_witness :
  exists s', exec GemSample.lowest (EOpen 2 1 0 (- 13)) GemSample.final = Some (- 13, s')
  /\ s' = GemSample.final.
Proof.
  eexists. split; [vm_compute; reflexivity|].
  apply (errors_change_nothing GemSample.lowest GemSample.lowest_fresh GemSample.final (EOpen 2 1 0 (- 13)) (- 13)).
  - exact GemSample.final_reachable.
  - vm_compute. reflexivity.
  - discriminate.
Defined.

(** Two callers in drm_gem_change_handle_ioctl() and drm_gem_handle_delete(), on the same
    handle of the same file: between the critical section that reserves the new id and
    the one that frees the old id, the other caller deletes the old handle and puts its
    reference.  The new handle then names an object that is freed when the first caller
    puts its own; looking it up touches freed memory. *)
Definition race (g : gem) : option gem :=
  '(obj, g) ← drm_gem_object_lookup 0 1 g;
  o ← obj;
  let '(_, g) := change_handle_alloc GemSample.lowest 0 o 5 g in
  '(_, g) ← drm_gem_handle_delete 0 1 g;
  drm_gem_object_put o (change_handle_remove 0 1 g).

Lemma change_handle_race :
  exists s g, reachable GemSample.lowest s /\ race (s_gem s) = Some g
    /\ object_idr g !! (0, 5) = Some (Some 7) /\ objs g !! 7 = None
    /\ drm_gem_object_lookup 0 5 g = None.
Proof.
  destruct (GemSample.run [ENew 7 4096; ECreate 0 0 0 0; EPut 0] init_sys) as [s|] eqn:E; [|discriminate E].
  exists s. destruct (race (s_gem s)) as [g|] eqn:Eg.
  - exists g. split.
    + apply (GemSample.run_reachable [ENew 7 4096; ECreate 0 0 0 0; EPut 0] init_sys s (reach_init _)); [|exact E].
      vm_compute. repeat split; by eexists.
    + revert E Eg. vm_compute. intros [= <-] [= <-]. by vm_compute.
  - revert E Eg. vm_compute. intros [= <-]. discriminate.
Qed.
