(* ===== verification/Modes.v ===== *)
(** * Display modes

    struct drm_display_mode of include/drm/drm_modes.h and the operations of drm_modes.c
    on it: the refresh rate, the timings a CRTC is programmed with, comparison,
    validation, the merge of probed modes into the list of a connector, and the
    conversion to and from the modes of user space.  A status is an enumeration; the two
    lists of a connector are lists of modes, without the list heads. *)

From Stdlib Require Import ZArith Lia Bool String.
From stdpp Require Import base numbers list option strings pretty.
From S2P Require Import Prelude.
#[local] Open Scope Z_scope.

(** ** Flags *)

Definition DRM_DISPLAY_MODE_LEN := 32%nat.

Definition DRM_MODE_TYPE_PREFERRED := BIT 3.
Definition DRM_MODE_TYPE_USERDEF := BIT 5.
Definition DRM_MODE_TYPE_DRIVER := BIT 6.
Definition DRM_MODE_TYPE_ALL :=
  Z.lor (Z.lor DRM_MODE_TYPE_PREFERRED DRM_MODE_TYPE_USERDEF) DRM_MODE_TYPE_DRIVER.

Definition DRM_MODE_FLAG_PHSYNC := BIT 0.
Definition DRM_MODE_FLAG_NHSYNC := BIT 1.
Definition DRM_MODE_FLAG_PVSYNC := BIT 2.
Definition DRM_MODE_FLAG_NVSYNC := BIT 3.
Definition DRM_MODE_FLAG_INTERLACE := BIT 4.
Definition DRM_MODE_FLAG_DBLSCAN := BIT 5.
Definition DRM_MODE_FLAG_CSYNC := BIT 6.
Definition DRM_MODE_FLAG_PCSYNC := BIT 7.
Definition DRM_MODE_FLAG_NCSYNC := BIT 8.
Definition DRM_MODE_FLAG_HSKEW := BIT 9.
Definition DRM_MODE_FLAG_DBLCLK := BIT 12.
Definition DRM_MODE_FLAG_CLKDIV2 := BIT 13.
Definition DRM_MODE_FLAG_3D_MASK := Z.shiftl 0x1f 14.
Definition DRM_MODE_FLAG_3D_FRAME_PACKING := Z.shiftl 1 14.
Definition DRM_MODE_FLAG_3D_SIDE_BY_SIDE_HALF := Z.shiftl 8 14.
Definition DRM_MODE_FLAG_3D_MAX := DRM_MODE_FLAG_3D_SIDE_BY_SIDE_HALF.
Definition DRM_MODE_FLAG_PIC_AR_MASK := Z.shiftl 0x0f 19.
Definition DRM_MODE_FLAG_PIC_AR_NONE := Z.shiftl 0 19.
Definition DRM_MODE_FLAG_PIC_AR_4_3 := Z.shiftl 1 19.
Definition DRM_MODE_FLAG_PIC_AR_16_9 := Z.shiftl 2 19.
Definition DRM_MODE_FLAG_PIC_AR_64_27 := Z.shiftl 3 19.
Definition DRM_MODE_FLAG_PIC_AR_256_135 := Z.shiftl 4 19.

Definition DRM_MODE_FLAG_ALL :=
  fold_right Z.lor 0
    [DRM_MODE_FLAG_PHSYNC; DRM_MODE_FLAG_NHSYNC; DRM_MODE_FLAG_PVSYNC; DRM_MODE_FLAG_NVSYNC;
     DRM_MODE_FLAG_INTERLACE; DRM_MODE_FLAG_DBLSCAN; DRM_MODE_FLAG_CSYNC; DRM_MODE_FLAG_PCSYNC;
     DRM_MODE_FLAG_NCSYNC; DRM_MODE_FLAG_HSKEW; DRM_MODE_FLAG_DBLCLK; DRM_MODE_FLAG_CLKDIV2;
     DRM_MODE_FLAG_3D_MASK].

Definition HDMI_PICTURE_ASPECT_NONE := 0.
Definition HDMI_PICTURE_ASPECT_4_3 := 1.
Definition HDMI_PICTURE_ASPECT_16_9 := 2.
Definition HDMI_PICTURE_ASPECT_64_27 := 3.
Definition HDMI_PICTURE_ASPECT_256_135 := 4.

Definition CRTC_INTERLACE_HALVE_V := BIT 0.
Definition CRTC_STEREO_DOUBLE := BIT 1.
Definition CRTC_NO_DBLSCAN := BIT 2.
Definition CRTC_NO_VSCAN := BIT 3.
Definition CRTC_STEREO_DOUBLE_ONLY :=
  Z.lor (Z.lor CRTC_STEREO_DOUBLE CRTC_NO_DBLSCAN) CRTC_NO_VSCAN.

Definition DRM_MODE_MATCH_TIMINGS := BIT 0.
Definition DRM_MODE_MATCH_CLOCK := BIT 1.
Definition DRM_MODE_MATCH_FLAGS := BIT 2.
Definition DRM_MODE_MATCH_3D_FLAGS := BIT 3.
Definition DRM_MODE_MATCH_ASPECT_RATIO := BIT 4.

(** ** Modes *)

Inductive drm_mode_status :=
| MODE_STALE | MODE_BAD | MODE_ERROR
| MODE_OK | MODE_HSYNC | MODE_VSYNC | MODE_H_ILLEGAL | MODE_V_ILLEGAL | MODE_BAD_WIDTH
| MODE_NOMODE | MODE_NO_INTERLACE | MODE_NO_DBLESCAN | MODE_NO_VSCAN | MODE_MEM
| MODE_VIRTUAL_X | MODE_VIRTUAL_Y | MODE_MEM_VIRT | MODE_NOCLOCK | MODE_CLOCK_HIGH
| MODE_CLOCK_LOW | MODE_CLOCK_RANGE | MODE_BAD_HVALUE | MODE_BAD_VVALUE | MODE_BAD_VSCAN
| MODE_HSYNC_NARROW | MODE_HSYNC_WIDE | MODE_HBLANK_NARROW | MODE_HBLANK_WIDE
| MODE_VSYNC_NARROW | MODE_VSYNC_WIDE | MODE_VBLANK_NARROW | MODE_VBLANK_WIDE | MODE_PANEL
| MODE_INTERLACE_WIDTH | MODE_ONE_WIDTH | MODE_ONE_HEIGHT | MODE_ONE_SIZE | MODE_NO_REDUCED
| MODE_NO_STEREO | MODE_NO_420.

#[export] Instance drm_mode_status_dec : EqDecision drm_mode_status.
Proof. solve_decision. Defined.

(** The members crtc_clock to crtc_vtotal. *)
Record crtc_timings := CrtcTimings {
  crtc_clock : Z;             (* int *)
  crtc_hdisplay : Z;          (* u16, as all that follow *)
  crtc_hblank_start : Z;
  crtc_hblank_end : Z;
  crtc_hsync_start : Z;
  crtc_hsync_end : Z;
  crtc_htotal : Z;
  crtc_hskew : Z;
  crtc_vdisplay : Z;
  crtc_vblank_start : Z;
  crtc_vblank_end : Z;
  crtc_vsync_start : Z;
  crtc_vsync_end : Z;
  crtc_vtotal : Z
}.

Record drm_display_mode := Mode {
  clock : Z;                  (* int, in kHz *)
  hdisplay : Z;               (* u16, as all down to vscan *)
  hsync_start : Z;
  hsync_end : Z;
  htotal : Z;
  hskew : Z;
  vdisplay : Z;
  vsync_start : Z;
  vsync_end : Z;
  vtotal : Z;
  vscan : Z;
  flags : Z;                  (* u32 *)
  crtc : crtc_timings;
  width_mm : Z;               (* u16 *)
  height_mm : Z;              (* u16 *)
  type : Z;                   (* u8 *)
  expose_to_userspace : bool;
  name : string;              (* char[DRM_DISPLAY_MODE_LEN] *)
  status : drm_mode_status;
  picture_aspect_ratio : Z    (* enum hdmi_picture_aspect *)
}.

Definition with_flags (f : Z) (m : drm_display_mode) : drm_display_mode :=
  Mode (clock m) (hdisplay m) (hsync_start m) (hsync_end m) (htotal m) (hskew m) (vdisplay m)
    (vsync_start m) (vsync_end m) (vtotal m) (vscan m) f (crtc m) (width_mm m) (height_mm m)
    (type m) (expose_to_userspace m) (name m) (status m) (picture_aspect_ratio m).
Definition with_type (t : Z) (m : drm_display_mode) : drm_display_mode :=
  Mode (clock m) (hdisplay m) (hsync_start m) (hsync_end m) (htotal m) (hskew m) (vdisplay m)
    (vsync_start m) (vsync_end m) (vtotal m) (vscan m) (flags m) (crtc m) (width_mm m)
    (height_mm m) t (expose_to_userspace m) (name m) (status m) (picture_aspect_ratio m).
Definition with_crtc (c : crtc_timings) (m : drm_display_mode) : drm_display_mode :=
  Mode (clock m) (hdisplay m) (hsync_start m) (hsync_end m) (htotal m) (hskew m) (vdisplay m)
    (vsync_start m) (vsync_end m) (vtotal m) (vscan m) (flags m) c (width_mm m) (height_mm m)
    (type m) (expose_to_userspace m) (name m) (status m) (picture_aspect_ratio m).
Definition with_mode_name (n : string) (m : drm_display_mode) : drm_display_mode :=
  Mode (clock m) (hdisplay m) (hsync_start m) (hsync_end m) (htotal m) (hskew m) (vdisplay m)
    (vsync_start m) (vsync_end m) (vtotal m) (vscan m) (flags m) (crtc m) (width_mm m)
    (height_mm m) (type m) (expose_to_userspace m) n (status m) (picture_aspect_ratio m).
Definition with_status (s : drm_mode_status) (m : drm_display_mode) : drm_display_mode :=
  Mode (clock m) (hdisplay m) (hsync_start m) (hsync_end m) (htotal m) (hskew m) (vdisplay m)
    (vsync_start m) (vsync_end m) (vtotal m) (vscan m) (flags m) (crtc m) (width_mm m)
    (height_mm m) (type m) (expose_to_userspace m) (name m) s (picture_aspect_ratio m).
Definition with_aspect (a : Z) (m : drm_display_mode) : drm_display_mode :=
  Mode (clock m) (hdisplay m) (hsync_start m) (hsync_end m) (htotal m) (hskew m) (vdisplay m)
    (vsync_start m) (vsync_end m) (vtotal m) (vscan m) (flags m) (crtc m) (width_mm m)
    (height_mm m) (type m) (expose_to_userspace m) (name m) (status m) a.

(** The zeroed mode of drm_mode_create(). *)
Definition no_crtc : crtc_timings := CrtcTimings 0 0 0 0 0 0 0 0 0 0 0 0 0 0.
Definition drm_mode_create : drm_display_mode :=
  Mode 0 0 0 0 0 0 0 0 0 0 0 0 no_crtc 0 0 0 false EmptyString MODE_OK 0.

(** ** Refresh rate and name *)

(** check_mul_overflow() into an unsigned int. *)
Definition mul_u32 (a b : Z) : option Z :=
  if (0 <=? a * b) && (a * b <? 2 ^ 32) then Some (a * b) else None.

(** do_div() divides by a nonzero 32-bit number. *)
Definition DIV_ROUND_CLOSEST_ULL (x d : Z) : Z := u64 (x + d / 2) / u32 d.

Definition drm_mode_vrefresh (m : drm_display_mode) : Z :=
  if (htotal m =? 0) || (vtotal m =? 0) then 0
  else
    let num := if tst (flags m) DRM_MODE_FLAG_INTERLACE then 2 else 1 in
    let den := if tst (flags m) DRM_MODE_FLAG_DBLSCAN then 2 else 1 in
    let den := if 1 <? vscan m then u32 (den * vscan m) else den in
    match mul_u32 (clock m) num with
    | None => 0
    | Some num =>
      match mul_u32 (s32 (htotal m * vtotal m)) den with
      | None => 0
      | Some den => s32 (DIV_ROUND_CLOSEST_ULL (num * 1000) den)
      end
    end.

(** The destination takes what fits of the source and its NUL. *)
Definition strscpy (s : string) : string := substring 0 (DRM_DISPLAY_MODE_LEN - 1) s.

Definition drm_mode_set_name (m : drm_display_mode) : drm_display_mode :=
  with_mode_name (strscpy (pretty (hdisplay m) +:+ "x" +:+ pretty (vdisplay m)
    +:+ (if tst (flags m) DRM_MODE_FLAG_INTERLACE then "i" else ""))%string) m.

(** ** The timings of the CRTC *)

Definition map_v (f : Z -> Z) (c : crtc_timings) : crtc_timings :=
  CrtcTimings (crtc_clock c) (crtc_hdisplay c) (crtc_hblank_start c) (crtc_hblank_end c)
    (crtc_hsync_start c) (crtc_hsync_end c) (crtc_htotal c) (crtc_hskew c)
    (u16 (f (crtc_vdisplay c))) (crtc_vblank_start c) (crtc_vblank_end c)
    (u16 (f (crtc_vsync_start c))) (u16 (f (crtc_vsync_end c))) (u16 (f (crtc_vtotal c))).
Definition with_crtc_clock (k : Z) (c : crtc_timings) : crtc_timings :=
  CrtcTimings k (crtc_hdisplay c) (crtc_hblank_start c) (crtc_hblank_end c)
    (crtc_hsync_start c) (crtc_hsync_end c) (crtc_htotal c) (crtc_hskew c)
    (crtc_vdisplay c) (crtc_vblank_start c) (crtc_vblank_end c)
    (crtc_vsync_start c) (crtc_vsync_end c) (crtc_vtotal c).
Definition with_blank (c : crtc_timings) : crtc_timings :=
  CrtcTimings (crtc_clock c) (crtc_hdisplay c)
    (Z.min (crtc_hsync_start c) (crtc_hdisplay c)) (Z.max (crtc_hsync_end c) (crtc_htotal c))
    (crtc_hsync_start c) (crtc_hsync_end c) (crtc_htotal c) (crtc_hskew c)
    (crtc_vdisplay c)
    (Z.min (crtc_vsync_start c) (crtc_vdisplay c)) (Z.max (crtc_vsync_end c) (crtc_vtotal c))
    (crtc_vsync_start c) (crtc_vsync_end c) (crtc_vtotal c).

Definition drm_mode_set_crtcinfo (p : drm_display_mode) (adjust_flags : Z) : drm_display_mode :=
  let b := crtc p in
  let c := CrtcTimings (clock p) (hdisplay p) (crtc_hblank_start b) (crtc_hblank_end b)
    (hsync_start p) (hsync_end p) (htotal p) (hskew p)
    (vdisplay p) (crtc_vblank_start b) (crtc_vblank_end b)
    (vsync_start p) (vsync_end p) (vtotal p) in
  let c := if tst (flags p) DRM_MODE_FLAG_INTERLACE then
             if tst adjust_flags CRTC_INTERLACE_HALVE_V then map_v (fun v => v / 2) c else c
           else c in
  let c := if negb (tst adjust_flags CRTC_NO_DBLSCAN) then
             if tst (flags p) DRM_MODE_FLAG_DBLSCAN then map_v (fun v => v * 2) c else c
           else c in
  let c := if negb (tst adjust_flags CRTC_NO_VSCAN) then
             if 1 <? vscan p then map_v (fun v => v * vscan p) c else c
           else c in
  let c := if tst adjust_flags CRTC_STEREO_DOUBLE then
             if Z.land (flags p) DRM_MODE_FLAG_3D_MASK =? DRM_MODE_FLAG_3D_FRAME_PACKING then
               let t := crtc_vtotal c in
               with_crtc_clock (s32 (crtc_clock c * 2)) (map_v (fun v => v + t) c)
             else c
           else c in
  with_crtc (with_blank c) p.

(** A copy keeps the list head, which is not part of the model. *)
Definition drm_mode_copy (src : drm_display_mode) : drm_display_mode := src.
Definition drm_mode_init (src : drm_display_mode) : drm_display_mode := drm_mode_copy src.

Definition drm_mode_get_hv_timing (m : drm_display_mode) : Z * Z :=
  let adjusted := drm_mode_set_crtcinfo (drm_mode_init m) CRTC_STEREO_DOUBLE_ONLY in
  (crtc_hdisplay (crtc adjusted), crtc_vdisplay (crtc adjusted)).

(** ** Comparing *)

Definition drm_mode_match_timings (a b : drm_display_mode) : bool :=
  (hdisplay a =? hdisplay b) && (hsync_start a =? hsync_start b) && (hsync_end a =? hsync_end b)
  && (htotal a =? htotal b) && (hskew a =? hskew b) && (vdisplay a =? vdisplay b)
  && (vsync_start a =? vsync_start b) && (vsync_end a =? vsync_end b)
  && (vtotal a =? vtotal b) && (vscan a =? vscan b).

(** The divisor is converted to unsigned long. *)
Definition KHZ2PICOS (a : Z) : Z := 1000000000 / u64 a.

Definition drm_mode_match_clock (a b : drm_display_mode) : bool :=
  if negb (clock a =? 0) && negb (clock b =? 0)
  then KHZ2PICOS (clock a) =? KHZ2PICOS (clock b)
  else clock a =? clock b.

Definition drm_mode_match_flags (a b : drm_display_mode) : bool :=
  Z.land (flags a) (u32 (Z.lnot DRM_MODE_FLAG_3D_MASK))
  =? Z.land (flags b) (u32 (Z.lnot DRM_MODE_FLAG_3D_MASK)).

Definition drm_mode_match_3d_flags (a b : drm_display_mode) : bool :=
  Z.land (flags a) DRM_MODE_FLAG_3D_MASK =? Z.land (flags b) DRM_MODE_FLAG_3D_MASK.

Definition drm_mode_match_aspect_ratio (a b : drm_display_mode) : bool :=
  picture_aspect_ratio a =? picture_aspect_ratio b.

Definition drm_mode_match (mode1 mode2 : option drm_display_mode) (match_flags : Z) : bool :=
  match mode1, mode2 with
  | None, None => true
  | Some a, Some b =>
    if tst match_flags DRM_MODE_MATCH_TIMINGS && negb (drm_mode_match_timings a b) then false
    else if tst match_flags DRM_MODE_MATCH_CLOCK && negb (drm_mode_match_clock a b) then false
    else if tst match_flags DRM_MODE_MATCH_FLAGS && negb (drm_mode_match_flags a b) then false
    else if tst match_flags DRM_MODE_MATCH_3D_FLAGS && negb (drm_mode_match_3d_flags a b) then false
    else if tst match_flags DRM_MODE_MATCH_ASPECT_RATIO && negb (drm_mode_match_aspect_ratio a b)
    then false
    else true
  | _, _ => false
  end.

Definition drm_mode_equal (a b : drm_display_mode) : bool :=
  drm_mode_match (Some a) (Some b)
    (fold_right Z.lor 0 [DRM_MODE_MATCH_TIMINGS; DRM_MODE_MATCH_CLOCK; DRM_MODE_MATCH_FLAGS;
                         DRM_MODE_MATCH_3D_FLAGS; DRM_MODE_MATCH_ASPECT_RATIO]).
Definition drm_mode_equal_no_clocks (a b : drm_display_mode) : bool :=
  drm_mode_match (Some a) (Some b)
    (fold_right Z.lor 0 [DRM_MODE_MATCH_TIMINGS; DRM_MODE_MATCH_FLAGS; DRM_MODE_MATCH_3D_FLAGS]).
Definition drm_mode_equal_no_clocks_no_stereo (a b : drm_display_mode) : bool :=
  drm_mode_match (Some a) (Some b) (fold_right Z.lor 0 [DRM_MODE_MATCH_TIMINGS; DRM_MODE_MATCH_FLAGS]).

(** Negative when the first mode is better; the products are int products. *)
Definition drm_mode_compare (a b : drm_display_mode) : Z :=
  let diff := b2z (tst (type b) DRM_MODE_TYPE_PREFERRED) - b2z (tst (type a) DRM_MODE_TYPE_PREFERRED) in
  if negb (diff =? 0) then diff
  else
    let diff := s32 (s32 (hdisplay b * vdisplay b) - s32 (hdisplay a * vdisplay a)) in
    if negb (diff =? 0) then diff
    else
      let diff := s32 (drm_mode_vrefresh b - drm_mode_vrefresh a) in
      if negb (diff =? 0) then diff
      else s32 (clock b - clock a).

(** list_sort() of lib/list_sort.c is outside of the sources. *)
Definition drm_mode_sort
    (list_sort : (drm_display_mode -> drm_display_mode -> Z) -> list drm_display_mode -> list drm_display_mode)
    (mode_list : list drm_display_mode) : list drm_display_mode :=
  list_sort drm_mode_compare mode_list.

(** ** Validation *)

Definition drm_mode_validate_basic (m : drm_display_mode) : drm_mode_status :=
  if tst (type m) (Z.lnot DRM_MODE_TYPE_ALL) then MODE_BAD
  else if tst (flags m) (u32 (Z.lnot DRM_MODE_FLAG_ALL)) then MODE_BAD
  else if DRM_MODE_FLAG_3D_MAX <? Z.land (flags m) DRM_MODE_FLAG_3D_MASK then MODE_BAD
  else if clock m =? 0 then MODE_CLOCK_LOW
  else if (hdisplay m =? 0) || (hsync_start m <? hdisplay m) || (hsync_end m <? hsync_start m)
          || (htotal m <? hsync_end m) then MODE_H_ILLEGAL
  else if (vdisplay m =? 0) || (vsync_start m <? vdisplay m) || (vsync_end m <? vsync_start m)
          || (vtotal m <? vsync_end m) then MODE_V_ILLEGAL
  else MODE_OK.

(** The driver's mode_valid hook, if there is one. *)
Definition drm_mode_validate_driver (mode_valid : option (drm_display_mode -> drm_mode_status))
    (m : drm_display_mode) : drm_mode_status :=
  let status := drm_mode_validate_basic m in
  if decide (status = MODE_OK) then
    match mode_valid with Some valid => valid m | None => MODE_OK end
  else status.

Definition drm_mode_validate_size (m : drm_display_mode) (maxX maxY : Z) : drm_mode_status :=
  if (0 <? maxX) && (maxX <? hdisplay m) then MODE_VIRTUAL_X
  else if (0 <? maxY) && (maxY <? vdisplay m) then MODE_VIRTUAL_Y
  else MODE_OK.

(** [vic] is the result of drm_match_cea_mode() of drm_edid.c, the maps those of the
    display information. *)
Definition drm_mode_is_420_only (y420_vdb_modes : Z) (vic : Z) : bool := Z.testbit y420_vdb_modes vic.
Definition drm_mode_is_420_also (y420_cmdb_modes : Z) (vic : Z) : bool := Z.testbit y420_cmdb_modes vic.
Definition drm_mode_is_420 (y420_vdb_modes y420_cmdb_modes vic : Z) : bool :=
  drm_mode_is_420_only y420_vdb_modes vic || drm_mode_is_420_also y420_cmdb_modes vic.
Definition drm_mode_validate_ycbcr420 (ycbcr_420_allowed : bool) (y420_vdb_modes vic : Z)
    : drm_mode_status :=
  if negb ycbcr_420_allowed && drm_mode_is_420_only y420_vdb_modes vic then MODE_NO_420
  else MODE_OK.

(** The modes that are kept. *)
Fixpoint drm_mode_prune_invalid (mode_list : list drm_display_mode) : list drm_display_mode :=
  match mode_list with
  | [] => []
  | m :: l =>
    if decide (status m = MODE_OK) then m :: drm_mode_prune_invalid l else drm_mode_prune_invalid l
  end.

Definition drm_set_preferred_mode (probed_modes : list drm_display_mode) (hpref vpref : Z)
    : list drm_display_mode :=
  map (fun m => if (hdisplay m =? hpref) && (vdisplay m =? vpref)
                then with_type (u8 (Z.lor (type m) DRM_MODE_TYPE_PREFERRED)) m else m) probed_modes.

(** ** The modes of a connector *)

Definition drm_mode_probed_add (probed_modes : list drm_display_mode) (m : drm_display_mode) :=
  (probed_modes ++ [m])%list.

(** A probed mode meets the mode of the list that it equals. *)
Definition merge_probed (mode pmode : drm_display_mode) : drm_display_mode :=
  if decide (status mode = MODE_STALE) then drm_mode_copy pmode
  else if negb (tst (type mode) DRM_MODE_TYPE_PREFERRED) && tst (type pmode) DRM_MODE_TYPE_PREFERRED
  then drm_mode_copy (with_type (u8 (Z.lor (type pmode) (type mode))) pmode)
  else with_type (u8 (Z.lor (type mode) (type pmode))) mode.

(** The inner loop, which stops at the first equal mode. *)
Fixpoint update_found (pmode : drm_display_mode) (modes : list drm_display_mode)
    : option (list drm_display_mode) :=
  match modes with
  | [] => None
  | mode :: l =>
    if negb (drm_mode_equal pmode mode) then l ← update_found pmode l; Some (mode :: l)
    else Some (merge_probed mode pmode :: l)
  end.

(** All probed modes are moved or freed. *)
Fixpoint drm_connector_list_update (probed_modes modes : list drm_display_mode)
    : list drm_display_mode :=
  match probed_modes with
  | [] => modes
  | pmode :: probed_modes =>
    drm_connector_list_update probed_modes
      (match update_found pmode modes with
       | Some modes => modes
       | None => (modes ++ [pmode])%list
       end)
  end.

(** ** The modes of user space *)

Record drm_mode_modeinfo := ModeInfo {
  u_clock : Z;                (* __u32 *)
  u_hdisplay : Z;             (* __u16, as all down to vscan *)
  u_hsync_start : Z;
  u_hsync_end : Z;
  u_htotal : Z;
  u_hskew : Z;
  u_vdisplay : Z;
  u_vsync_start : Z;
  u_vsync_end : Z;
  u_vtotal : Z;
  u_vscan : Z;
  u_vrefresh : Z;             (* __u32, as the next two *)
  u_flags : Z;
  u_type : Z;
  u_name : string             (* char[DRM_DISPLAY_MODE_LEN], up to its NUL *)
}.

Definition aspect_flag (a : Z) : Z :=
  if a =? HDMI_PICTURE_ASPECT_4_3 then DRM_MODE_FLAG_PIC_AR_4_3
  else if a =? HDMI_PICTURE_ASPECT_16_9 then DRM_MODE_FLAG_PIC_AR_16_9
  else if a =? HDMI_PICTURE_ASPECT_64_27 then DRM_MODE_FLAG_PIC_AR_64_27
  else if a =? HDMI_PICTURE_ASPECT_256_135 then DRM_MODE_FLAG_PIC_AR_256_135
  else DRM_MODE_FLAG_PIC_AR_NONE.

Definition drm_mode_convert_to_umode (m : drm_display_mode) : drm_mode_modeinfo :=
  ModeInfo (u32 (clock m)) (hdisplay m) (hsync_start m) (hsync_end m) (htotal m) (hskew m)
    (vdisplay m) (vsync_start m) (vsync_end m) (vtotal m) (vscan m)
    (u32 (drm_mode_vrefresh m)) (Z.lor (flags m) (aspect_flag (picture_aspect_ratio m)))
    (type m) (strscpy (name m)).

Definition flag_aspect (f : Z) : option Z :=
  let ar := Z.land f DRM_MODE_FLAG_PIC_AR_MASK in
  if ar =? DRM_MODE_FLAG_PIC_AR_4_3 then Some HDMI_PICTURE_ASPECT_4_3
  else if ar =? DRM_MODE_FLAG_PIC_AR_16_9 then Some HDMI_PICTURE_ASPECT_16_9
  else if ar =? DRM_MODE_FLAG_PIC_AR_64_27 then Some HDMI_PICTURE_ASPECT_64_27
  else if ar =? DRM_MODE_FLAG_PIC_AR_256_135 then Some HDMI_PICTURE_ASPECT_256_135
  else if ar =? DRM_MODE_FLAG_PIC_AR_NONE then Some HDMI_PICTURE_ASPECT_NONE
  else None.

Abbreviation INT_MAX := (2 ^ 31 - 1).

(** The result and the mode [out] after the call. *)
Definition drm_mode_convert_umode (mode_valid : option (drm_display_mode -> drm_mode_status))
    (out : drm_display_mode) (i : drm_mode_modeinfo) : Z * drm_display_mode :=
  if (INT_MAX <? u_clock i) || (INT_MAX <? u_vrefresh i) then (- ERANGE, out)
  else
    let out := Mode (u_clock i) (u_hdisplay i) (u_hsync_start i) (u_hsync_end i) (u_htotal i)
      (u_hskew i) (u_vdisplay i) (u_vsync_start i) (u_vsync_end i) (u_vtotal i) (u_vscan i)
      (Z.land (u_flags i) (u32 (Z.lnot DRM_MODE_FLAG_PIC_AR_MASK))) (crtc out) (width_mm out)
      (height_mm out) (u8 (Z.land (u_type i) DRM_MODE_TYPE_ALL)) (expose_to_userspace out)
      (strscpy (u_name i)) (status out) (picture_aspect_ratio out) in
    match flag_aspect (u_flags i) with
    | None => (- EINVAL, out)
    | Some a =>
      let out := with_aspect a out in
      let out := with_status (drm_mode_validate_driver mode_valid out) out in
      if decide (status out = MODE_OK)
      then (0, drm_mode_set_crtcinfo out CRTC_INTERLACE_HALVE_V)
      else (- EINVAL, out)
    end.
