(* ===== verification/ModeList.v ===== *)
(** * The modes of a connector after a probe

    drm_connector_list_update() of drm_modes.c merges what a connector reported into the
    list of its modes.  Its result is described without its loops: one mode for every
    class of equal modes, with the types of all of them and the timings of one. *)

From Stdlib Require Import ZArith Lia Bool String.
From stdpp Require Import base numbers list option strings sets.
From S2P Require Import Prelude Modes.
#[local] Open Scope Z_scope.

(** ** What drm_mode_equal() compares *)

Definition mode_key (m : drm_display_mode) : list Z * option Z :=
  ([hdisplay m; hsync_start m; hsync_end m; htotal m; hskew m; vdisplay m; vsync_start m;
    vsync_end m; vtotal m; vscan m; Z.land (flags m) (u32 (Z.lnot DRM_MODE_FLAG_3D_MASK));
    Z.land (flags m) DRM_MODE_FLAG_3D_MASK; picture_aspect_ratio m],
   if clock m =? 0 then None else Some (KHZ2PICOS (clock m))).

Lemma match_clock_key a b :
  drm_mode_match_clock a b = true
  <-> (if clock a =? 0 then None else Some (KHZ2PICOS (clock a)))
      = (if clock b =? 0 then None else Some (KHZ2PICOS (clock b))).
Proof.
  unfold drm_mode_match_clock.
  destruct (Z.eqb_spec (clock a) 0) as [Ea|Ea], (Z.eqb_spec (clock b) 0) as [Eb|Eb]; cbn [negb andb];
    rewrite Z.eqb_eq; split; intros; try congruence; try lia.
Qed.

Lemma drm_mode_equal_and a b :
  drm_mode_equal a b = drm_mode_match_timings a b && drm_mode_match_clock a b
    && drm_mode_match_flags a b && drm_mode_match_3d_flags a b && drm_mode_match_aspect_ratio a b.
Proof.
  unfold drm_mode_equal, drm_mode_match.
  repeat match goal with
  | |- context [tst ?x ?y] => replace (tst x y) with true by reflexivity
  end.
  cbn [andb]. destruct (drm_mode_match_timings a b), (drm_mode_match_clock a b),
    (drm_mode_match_flags a b), (drm_mode_match_3d_flags a b), (drm_mode_match_aspect_ratio a b); done.
Qed.

Lemma drm_mode_equal_key a b : drm_mode_equal a b = true <-> mode_key a = mode_key b.
Proof.
  rewrite drm_mode_equal_and, !andb_true_iff, match_clock_key.
  unfold drm_mode_match_timings, drm_mode_match_flags, drm_mode_match_3d_flags,
    drm_mode_match_aspect_ratio, mode_key.
  rewrite !andb_true_iff, !Z.eqb_eq. split.
  - intros (((((((((((((E1 & E2) & E3) & E4) & E5) & E6) & E7) & E8) & E9) & E10) & Ec) & Ef) & E3d) & Ea).
    by rewrite E1, E2, E3, E4, E5, E6, E7, E8, E9, E10, Ec, Ef, E3d, Ea.
  - intros E. apply pair_equal_spec in E as [E Ec]. injection E as E1 E2 E3 E4 E5 E6 E7 E8 E9 E10 Ef E3d Ea.
    repeat split; assumption.
Qed.

(** ** Merging *)

Definition preferred (m : drm_display_mode) : bool := tst (type m) DRM_MODE_TYPE_PREFERRED.

(** The timings of equal modes: those of the first preferred one, or of the first. *)
Definition pick (c : drm_display_mode) (cs : list drm_display_mode) : drm_display_mode :=
  if preferred c then c else match find preferred cs with Some p => p | None => c end.

Definition merged (c : drm_display_mode) (cs : list drm_display_mode) : drm_display_mode :=
  with_type (fold_left Z.lor (type <$> cs) (type c)) (pick c cs).

Lemma with_type_type m : with_type (type m) m = m.
Proof. by destruct m. Qed.

Lemma merged_nil c : merged c [] = c.
Proof. unfold merged, pick. cbn. destruct (preferred c); apply with_type_type. Qed.

Lemma find_snoc {A} (f : A -> bool) l x :
  find f (l ++ [x]) = match find f l with Some y => Some y | None => if f x then Some x else None end.
Proof. induction l as [|y l IH]; [done|]. cbn. by destruct (f y). Qed.

Lemma preferred_lor x y :
  tst (Z.lor x y) DRM_MODE_TYPE_PREFERRED
  = tst x DRM_MODE_TYPE_PREFERRED || tst y DRM_MODE_TYPE_PREFERRED.
Proof. unfold DRM_MODE_TYPE_PREFERRED. by rewrite !tst_BIT, Z.lor_spec. Qed.

Lemma merged_preferred c cs : preferred (merged c cs) = preferred c || existsb preferred cs.
Proof.
  unfold preferred, merged. cbn [with_type type]. generalize (type c). induction cs as [|d cs IH]; intros t; cbn.
  - by rewrite orb_false_r.
  - by rewrite IH, preferred_lor, orb_assoc.
Qed.

Definition u8_type (m : drm_display_mode) : Prop := is_u8 (type m).

Lemma fold_lor_u8 l : forall t, is_u8 t -> Forall is_u8 l -> is_u8 (fold_left Z.lor l t).
Proof.
  induction l as [|x l IH]; intros t Ht Hl; [done|]. apply Forall_cons_1 in Hl as [Hx Hl]. cbn.
  apply IH; [|done]. by apply lor_bound.
Qed.

Lemma merged_u8 c cs : u8_type c -> Forall u8_type cs -> u8_type (merged c cs).
Proof.
  intros Hc Hcs. unfold u8_type, merged. cbn [with_type type]. apply fold_lor_u8; [done|].
  by apply Forall_fmap.
Qed.

Lemma merged_status c cs : Forall (fun m => status m <> MODE_STALE) (c :: cs) -> status (merged c cs) <> MODE_STALE.
Proof.
  rewrite Forall_cons. intros [Hc Hcs]. unfold merged, pick. cbn [with_type status].
  destruct (preferred c); [done|]. destruct (find preferred cs) as [p|] eqn:E; [|done].
  apply find_some in E as [Hp%list_elem_of_In _]. rewrite Forall_forall in Hcs. by apply Hcs.
Qed.

(** One more equal mode. *)
Lemma merged_snoc c cs p :
  Forall (fun m => status m <> MODE_STALE) (c :: cs) -> u8_type c -> Forall u8_type cs -> u8_type p ->
  merge_probed (merged c cs) p = merged c (cs ++ [p]).
Proof.
  intros Hst Hc Hcs Hp. unfold merge_probed, drm_mode_copy.
  rewrite decide_False by (by apply merged_status).
  pose proof (merged_u8 c cs Hc Hcs) as Hm. unfold u8_type in *.
  assert (Hu : u8 (Z.lor (type (merged c cs)) (type p)) = Z.lor (type (merged c cs)) (type p)).
  { apply wrapU_small. by apply lor_bound. }
  rewrite (Z.lor_comm (type p)), Hu.
  fold (preferred (merged c cs)) (preferred p). rewrite merged_preferred.
  unfold merged. rewrite fmap_app, fold_left_app. cbn [fmap list_fmap fold_left with_type type].
  unfold pick. rewrite find_snoc.
  destruct (preferred c); cbn [orb negb andb]; [done|].
  destruct (find preferred cs) as [q|] eqn:E.
  - replace (existsb preferred cs) with true; [done|]. symmetry. apply existsb_exists.
    apply find_some in E. by exists q.
  - replace (existsb preferred cs) with false; [by destruct (preferred p)|]. symmetry.
    apply not_true_iff_false. intros (q & Hq & Eq)%existsb_exists.
    by rewrite (find_none _ _ E q Hq) in Eq.
Qed.

(** ** The merged list *)

(** The modes of a list that equal a mode. *)
Definition class (m : drm_display_mode) (l : list drm_display_mode) : list drm_display_mode :=
  filter (fun p => drm_mode_equal p m = true) l.

Lemma class_key m m' l : mode_key m = mode_key m' -> class m l = class m' l.
Proof. intros E. apply list_filter_iff. intros p. by rewrite !drm_mode_equal_key, E. Qed.

Lemma class_app m l k : class m (l ++ k) = class m l ++ class m k.
Proof. apply filter_app. Qed.

Lemma class_none m l : mode_key m ∉ mode_key <$> l -> class m l = [].
Proof.
  intros Hm. apply elem_of_nil_inv. intros p [Hp Hl]%list_elem_of_filter. apply Hm.
  rewrite drm_mode_equal_key in Hp. rewrite <- Hp. by apply list_elem_of_fmap_2.
Qed.

Lemma class_one p m : mode_key p = mode_key m -> class m [p] = [p].
Proof. intros E. unfold class. rewrite filter_cons_True; [done|]. by apply drm_mode_equal_key. Qed.

Lemma class_other p m : mode_key p <> mode_key m -> class m [p] = [].
Proof. intros E. unfold class. rewrite filter_cons_False; [done|]. by rewrite drm_mode_equal_key. Qed.

Definition fresh (m : drm_display_mode) : bool := negb (bool_decide (status m = MODE_STALE)).

Section update.
Context (modes : list drm_display_mode).

(** What the modes of a class contribute: the old one unless it is stale, then what was
    probed. *)
Definition contributors (ps : list drm_display_mode) (m : drm_display_mode) : list drm_display_mode :=
  class m (filter (fun o => fresh o = true) modes) ++ class m ps.

Definition entry_ok (ps : list drm_display_mode) (m : drm_display_mode) : Prop :=
  match contributors ps m with
  | [] => m ∈ modes
  | c :: cs => m = merged c cs
  end.

Record update_ok (ps cur : list drm_display_mode) : Prop := {
  up_nodup : NoDup (mode_key <$> cur);
  up_old : mode_key <$> modes `prefix_of` mode_key <$> cur;
  up_keys k : k ∈ mode_key <$> cur <-> k ∈ mode_key <$> (modes ++ ps);
  up_entry m : m ∈ cur -> entry_ok ps m
}.

Lemma contributors_snoc ps p m :
  contributors (ps ++ [p]) m = contributors ps m ++ class m [p].
Proof. unfold contributors. by rewrite class_app, app_assoc. Qed.

Lemma contributors_key ps m m' : mode_key m = mode_key m' -> contributors ps m = contributors ps m'.
Proof. intros E. unfold contributors. by rewrite !(class_key m m'). Qed.

Lemma merge_probed_key m p : mode_key p = mode_key m -> mode_key (merge_probed m p) = mode_key m.
Proof. intros E. unfold merge_probed, drm_mode_copy. by repeat case_match. Qed.

Lemma update_found_spec p cur :
  match update_found p cur with
  | Some l => exists l1 m l2, cur = l1 ++ m :: l2 /\ mode_key p = mode_key m /\ l = l1 ++ merge_probed m p :: l2
  | None => mode_key p ∉ mode_key <$> cur
  end.
Proof.
  induction cur as [|m cur IH]; cbn [update_found]; [apply not_elem_of_nil|].
  destruct (drm_mode_equal p m) eqn:E; cbn [negb].
  - apply drm_mode_equal_key in E. by exists [], m, cur.
  - assert (Hne : mode_key p <> mode_key m) by (rewrite <- drm_mode_equal_key; by rewrite E).
    destruct (update_found p cur) as [l|]; cbn [mbind option_bind].
    + destruct IH as (l1 & m' & l2 & -> & Hk & ->). by exists (m :: l1), m', l2.
    + rewrite fmap_cons, not_elem_of_cons. done.
Qed.

Lemma elem_of_snoc_key ps p k :
  k ∈ mode_key <$> (modes ++ ps ++ [p]) <-> k ∈ mode_key <$> (modes ++ ps) \/ k = mode_key p.
Proof. rewrite !fmap_app, !elem_of_app. cbn. rewrite list_elem_of_singleton. tauto. Qed.

Context (Hmodes : Forall u8_type modes).

Lemma contributors_facts ps m :
  Forall u8_type ps -> Forall (fun p => status p <> MODE_STALE) ps ->
  Forall (fun c => status c <> MODE_STALE) (contributors ps m) /\ Forall u8_type (contributors ps m).
Proof.
  rewrite !Forall_forall in *. intros Hu Hs. unfold contributors, class, fresh.
  split; intros c; rewrite elem_of_app, !list_elem_of_filter, negb_true_iff, bool_decide_eq_false; naive_solver.
Qed.

(** A mode of the list meets an equal probed mode. *)
Lemma entry_found ps m p :
  Forall u8_type (ps ++ [p]) -> Forall (fun p => status p <> MODE_STALE) (ps ++ [p]) ->
  mode_key p = mode_key m -> entry_ok ps m -> entry_ok (ps ++ [p]) (merge_probed m p).
Proof.
  intros [Hu Hup]%Forall_app [Hs Hsp]%Forall_app E Hm. rewrite Forall_singleton in Hup, Hsp.
  unfold entry_ok in *.
  rewrite (contributors_key _ (merge_probed m p) m) by (by apply merge_probed_key).
  rewrite contributors_snoc, class_one by done.
  destruct (contributors_facts ps m Hu Hs) as [Hcs Hcu].
  destruct (contributors ps m) as [|c cs] eqn:Ec; cbn [app].
  - rewrite merged_nil. unfold merge_probed. rewrite decide_True; [done|].
    destruct (decide (status m = MODE_STALE)) as [|Hst]; [done|]. exfalso.
    assert (m ∈ contributors ps m) as Hin.
    { unfold contributors, class, fresh. apply elem_of_app. left. rewrite !list_elem_of_filter.
      split; [by apply drm_mode_equal_key|]. split; [|done]. by rewrite negb_true_iff, bool_decide_eq_false. }
    rewrite Ec in Hin. by apply not_elem_of_nil in Hin.
  - subst m. apply Forall_cons_1 in Hcu as [Hcu Hcsu]. apply merged_snoc; [exact Hcs|exact Hcu|exact Hcsu|exact Hup].
Qed.

Lemma update_step ps cur p :
  Forall u8_type (ps ++ [p]) -> Forall (fun p => status p <> MODE_STALE) (ps ++ [p]) ->
  update_ok ps cur ->
  update_ok (ps ++ [p]) (match update_found p cur with Some l => l | None => cur ++ [p] end).
Proof.
  intros Hu Hs [U1 U2 U3 U4]. pose proof (update_found_spec p cur) as Hf.
  assert (Hother : forall m, m ∈ cur -> mode_key p <> mode_key m -> entry_ok (ps ++ [p]) m).
  { intros m Hm Hne. unfold entry_ok. rewrite contributors_snoc, class_other, app_nil_r by done. by apply U4. }
  destruct (update_found p cur) as [l|].
  - destruct Hf as (l1 & m & l2 & -> & E & ->).
    assert (Ek : mode_key <$> l1 ++ merge_probed m p :: l2 = mode_key <$> l1 ++ m :: l2).
    { rewrite !fmap_app, !fmap_cons. by rewrite (merge_probed_key m p E). }
    split; rewrite ?Ek; [done|done| |].
    + intros k. rewrite U3, elem_of_snoc_key. split; [tauto|]. intros [| ->]; [done|]. rewrite E. apply U3.
      apply list_elem_of_fmap_2. set_solver.
    + rewrite fmap_app, fmap_cons, NoDup_app, NoDup_cons in U1. destruct U1 as (_ & N1 & N2 & _).
      intros x. rewrite elem_of_app, elem_of_cons. intros [Hx|[->|Hx]].
      * apply Hother; [set_solver|]. rewrite E. intros Ex. apply (N1 (mode_key x)); [by apply list_elem_of_fmap_2|].
        rewrite <- Ex. by left.
      * apply entry_found; [done..|]. apply U4. set_solver.
      * apply Hother; [set_solver|]. rewrite E. intros Ex. apply N2. rewrite Ex. by apply list_elem_of_fmap_2.
  - split.
    + rewrite fmap_app. apply NoDup_app. split; [done|]. split; [|apply NoDup_singleton].
      intros k Hk ->%list_elem_of_singleton. done.
    + rewrite fmap_app. etransitivity; [exact U2|]. by eexists.
    + intros k. rewrite elem_of_snoc_key, <- U3, fmap_app, elem_of_app. cbn. by rewrite list_elem_of_singleton.
    + intros x. rewrite elem_of_app, list_elem_of_singleton. intros [Hx| ->].
      * apply Hother; [done|]. intros Ex. apply Hf. rewrite Ex. by apply list_elem_of_fmap_2.
      * unfold entry_ok, contributors. rewrite class_app, (class_one p p eq_refl).
        assert (Hn : mode_key p ∉ mode_key <$> (modes ++ ps)) by (by rewrite <- U3).
        rewrite fmap_app, elem_of_app in Hn. apply Decidable.not_or in Hn as [Hn1 Hn2].
        rewrite (class_none p ps Hn2), (class_none p (filter _ modes)); [cbn; by rewrite merged_nil|].
        intros Hin. apply Hn1. apply list_elem_of_fmap in Hin as (o & -> & [_ Ho]%list_elem_of_filter).
        by apply list_elem_of_fmap_2.
Qed.
End update.

Lemma same_entry l (x y : drm_display_mode) :
  NoDup (mode_key <$> l) -> x ∈ l -> y ∈ l -> mode_key x = mode_key y -> x = y.
Proof.
  intros Hn (i & Hi)%list_elem_of_lookup (j & Hj)%list_elem_of_lookup E.
  assert (i = j) as ->; [|congruence]. apply (NoDup_lookup _ i j (mode_key x) Hn).
  - by rewrite list_lookup_fmap, Hi.
  - by rewrite list_lookup_fmap, Hj, E.
Qed.

(** Before anything is probed. *)
Lemma update_nil modes : NoDup (mode_key <$> modes) -> update_ok modes [] modes.
Proof.
  intros Hn. split; [done|done|by rewrite app_nil_r|]. intros m Hin.
  unfold entry_ok, contributors. rewrite app_nil_r.
  assert (Hall : forall x, x ∈ class m (filter (fun o => fresh o = true) modes) -> x = m).
  { intros x [Hx%drm_mode_equal_key [_ Hx2]%list_elem_of_filter]%list_elem_of_filter.
    by apply (same_entry modes). }
  assert (Hnd : NoDup (class m (filter (fun o => fresh o = true) modes))).
  { apply NoDup_filter, NoDup_filter. by apply NoDup_fmap_1 in Hn. }
  destruct (class m _) as [|x [|y l]]; [done| |].
  - rewrite merged_nil. symmetry. apply Hall. by left.
  - exfalso. apply NoDup_cons in Hnd as [Hxy _]. apply Hxy.
    rewrite (Hall x), (Hall y) by (rewrite !elem_of_cons; tauto). by left.
Qed.

Lemma list_update_snoc ps p : forall modes,
  drm_connector_list_update (ps ++ [p]) modes
  = match update_found p (drm_connector_list_update ps modes) with
    | Some l => l
    | None => drm_connector_list_update ps modes ++ [p]
    end.
Proof. induction ps as [|q ps IH]; intros modes; cbn; [done|]. apply IH. Qed.

(** C32. drm_connector_list_update() leaves one mode for every class of equal modes, the
    old ones first and in their order: a mode that is stale and was not probed again is
    as it was; every other one has the types of the old mode (unless that is stale) and
    of all probed modes that equal it, and the timings of the first of them that is
    preferred, or of the first. *)
Theorem list_update_spec probed modes :
  Forall u8_type modes -> Forall u8_type probed ->
  Forall (fun p => status p <> MODE_STALE) probed ->
  NoDup (mode_key <$> modes) ->
  let modes' := drm_connector_list_update probed modes in
  NoDup (mode_key <$> modes')
  /\ mode_key <$> modes `prefix_of` mode_key <$> modes'
  /\ (forall m, m ∈ modes ++ probed -> exists m', m' ∈ modes' /\ drm_mode_equal m m' = true)
  /\ (forall m', m' ∈ modes' -> exists m, m ∈ modes ++ probed /\ drm_mode_equal m m' = true)
  /\ (forall m', m' ∈ modes' ->
       match contributors modes probed m' with
       | [] => m' ∈ modes
       | c :: cs => m' = merged c cs
       end).
Proof.
  intros Hm Hp Hs Hn. cbn zeta.
  assert (U : update_ok modes probed (drm_connector_list_update probed modes)).
  { induction probed as [|p probed IH] using rev_ind.
    - by apply update_nil.
    - rewrite list_update_snoc. apply update_step; try done. apply Forall_app in Hp as [Hp _], Hs as [Hs _].
      by apply IH. }
  destruct U as [U1 U2 U3 U4]. split; [done|]. split; [done|]. split; [|split; [|done]].
  - intros m Hin%(list_elem_of_fmap_2 mode_key)%U3. apply list_elem_of_fmap in Hin as (m' & E & Hin).
    exists m'. split; [done|]. by apply drm_mode_equal_key.
  - intros m' Hin%(list_elem_of_fmap_2 mode_key)%U3. apply list_elem_of_fmap in Hin as (m & E & Hin).
    exists m. split; [done|]. by apply drm_mode_equal_key.
Qed.

(** ** At a concrete probe *)

Module ListSample.
Definition mode (h v k t : Z) (s : drm_mode_status) : drm_display_mode :=
  Mode k h (h + 16) (h + 32) (h + 160) 0 v (v + 3) (v + 8) (v + 31) 0 0 no_crtc 0 0 t false "" s 0.

(** Two old modes, one of them stale; of the first a preferred variant is probed, whose
    clock differs by less than a picosecond of its period. *)
Definition modes : list drm_display_mode :=
  [mode 1920 1080 148500 DRM_MODE_TYPE_DRIVER MODE_OK;
   mode 800 600 40000 DRM_MODE_TYPE_DRIVER MODE_STALE].
Definition probed : list drm_display_mode :=
  [mode 1920 1080 148499 DRM_MODE_TYPE_PREFERRED MODE_OK;
   mode 1280 720 74250 DRM_MODE_TYPE_DRIVER MODE_OK].
End ListSample.

Lemma list_update_spec_witness :
  NoDup (mode_key <$> ListSample.modes)
  /\ drm_connector_list_update ListSample.probed ListSample.modes
     = [ListSample.mode 1920 1080 148499 (Z.lor DRM_MODE_TYPE_PREFERRED DRM_MODE_TYPE_DRIVER) MODE_OK;
        ListSample.mode 800 600 40000 DRM_MODE_TYPE_DRIVER MODE_STALE;
        ListSample.mode 1280 720 74250 DRM_MODE_TYPE_DRIVER MODE_OK]
  /\ NoDup (mode_key <$> drm_connector_list_update ListSample.probed ListSample.modes).
Proof.
  assert (N : NoDup (mode_key <$> ListSample.modes)).
  { refine (@bool_decide_unpack _ (NoDup_dec (mode_key <$> ListSample.modes)) _). vm_compute. exact I. }
  split; [exact N|]. split; [vm_compute; reflexivity|].
  apply (list_update_spec ListSample.probed ListSample.modes).
  - repeat apply Forall_cons_2; [by vm_compute..|apply Forall_nil_2].
  - repeat apply Forall_cons_2; [by vm_compute..|apply Forall_nil_2].
  - repeat apply Forall_cons_2; [discriminate..|apply Forall_nil_2].
  - exact N.
Defined.
