(* ===== verification/ModeUser.v ===== *)
(** * Modes and user space

    The conversions of drm_modes.c between struct drm_display_mode and struct
    drm_mode_modeinfo are inverse to each other on valid modes, and the timings the CRTC
    is given keep the order that validation asks for. *)

From Stdlib Require Import ZArith Lia Bool String.
From stdpp Require Import base numbers list option strings.
From S2P Require Import Prelude Modes.
#[local] Open Scope Z_scope.

(** The members in their C types. *)
Record mode_typed (m : drm_display_mode) : Prop := {
  mt_clock : is_s32 (clock m);
  mt_h : Forall is_u16 [hdisplay m; hsync_start m; hsync_end m; htotal m; hskew m];
  mt_v : Forall is_u16 [vdisplay m; vsync_start m; vsync_end m; vtotal m; vscan m];
  mt_flags : is_u32 (flags m);
  mt_type : is_u8 (type m);
  mt_name : (String.length (name m) < DRM_DISPLAY_MODE_LEN)%nat
}.

Record info_typed (i : drm_mode_modeinfo) : Prop := {
  it_clock : is_u32 (u_clock i);
  it_flags : is_u32 (u_flags i);
  it_type : is_u32 (u_type i);
  it_name : (String.length (u_name i) < DRM_DISPLAY_MODE_LEN)%nat
}.

Lemma substring_all s : forall n, (String.length s <= n)%nat -> substring 0 n s = s.
Proof.
  induction s as [|c s IH]; intros [|n] Hn; cbn in *; try done; [lia|]. f_equal. apply IH. lia.
Qed.

Lemma strscpy_short s : (String.length s < DRM_DISPLAY_MODE_LEN)%nat -> strscpy s = s.
Proof. intros. apply substring_all. unfold DRM_DISPLAY_MODE_LEN in *. lia. Qed.

(** ** The bits of flags and types *)

Lemma tst_false x m : tst x m = false -> Z.land x m = 0.
Proof. unfold tst. rewrite negb_false_iff. apply Z.eqb_eq. Qed.

(** A word without bits outside of a mask is unchanged by the mask. *)
Lemma land_within x m : is_u32 x -> 0 <= m < 2 ^ 32 -> Z.land x (u32 (Z.lnot m)) = 0 -> Z.land x m = x.
Proof.
  intros Hx Hm E. apply Z.bits_inj'. intros n Hn. rewrite Z.land_spec.
  destruct (Z.testbit x n) eqn:Ex; [|done]. cbn.
  assert (n < 32).
  { destruct (Z.lt_ge_cases n 32) as [|H32]; [done|].
    destruct (proj1 (bound_testbit x 32 ltac:(lia)) Hx) as [_ Hb]. by rewrite (Hb n H32) in Ex. }
  apply (f_equal (fun y => Z.testbit y n)) in E. rewrite Z.land_spec, Ex, Z.bits_0 in E. cbn in E.
  unfold wrapU in E. rewrite Z.mod_pow2_bits_low, Z.lnot_spec in E by lia. by destruct (Z.testbit m n).
Qed.

Lemma valid_basic m :
  drm_mode_validate_basic m = MODE_OK ->
  Z.land (type m) (Z.lnot DRM_MODE_TYPE_ALL) = 0
  /\ Z.land (flags m) (u32 (Z.lnot DRM_MODE_FLAG_ALL)) = 0
  /\ clock m <> 0
  /\ (hdisplay m <> 0 /\ hdisplay m <= hsync_start m <= hsync_end m /\ hsync_end m <= htotal m)
  /\ (vdisplay m <> 0 /\ vdisplay m <= vsync_start m <= vsync_end m /\ vsync_end m <= vtotal m).
Proof.
  unfold drm_mode_validate_basic.
  destruct (tst (type m) _) eqn:E1; [done|]. destruct (tst (flags m) _) eqn:E2; [done|].
  destruct (_ <? _); [done|]. destruct (Z.eqb_spec (clock m) 0); [done|].
  apply tst_false in E1, E2.
  destruct (Z.eqb_spec (hdisplay m) 0), (Z.ltb_spec (hsync_start m) (hdisplay m)),
    (Z.ltb_spec (hsync_end m) (hsync_start m)), (Z.ltb_spec (htotal m) (hsync_end m)); cbn [orb]; try done.
  destruct (Z.eqb_spec (vdisplay m) 0), (Z.ltb_spec (vsync_start m) (vdisplay m)),
    (Z.ltb_spec (vsync_end m) (vsync_start m)), (Z.ltb_spec (vtotal m) (vsync_end m)); cbn [orb]; done.
Qed.

(** The flags of the kernel and the aspect ratio share no bits. *)
Lemma pack_flags f a :
  is_u32 f -> Z.land f (u32 (Z.lnot DRM_MODE_FLAG_ALL)) = 0 -> 0 <= a <= 4 ->
  flag_aspect (Z.lor f (aspect_flag a)) = Some a
  /\ Z.land (Z.lor f (aspect_flag a)) (u32 (Z.lnot DRM_MODE_FLAG_PIC_AR_MASK)) = f.
Proof.
  intros Hf E Ha.
  assert (Ef : Z.land f DRM_MODE_FLAG_ALL = f) by (apply land_within; [done|by vm_compute|done]).
  assert (E0 : Z.land f DRM_MODE_FLAG_PIC_AR_MASK = 0).
  { rewrite <- Ef, <- Z.land_assoc. replace (Z.land DRM_MODE_FLAG_ALL _) with 0 by reflexivity. apply Z.land_0_r. }
  assert (E1 : Z.land f (u32 (Z.lnot DRM_MODE_FLAG_PIC_AR_MASK)) = f).
  { rewrite <- Ef at 1. rewrite <- Z.land_assoc.
    replace (Z.land DRM_MODE_FLAG_ALL _) with DRM_MODE_FLAG_ALL by reflexivity. done. }
  unfold flag_aspect. rewrite !Z.land_lor_distr_l, E0, E1, Z.lor_0_l.
  assert (a = 0 \/ a = 1 \/ a = 2 \/ a = 3 \/ a = 4) as [-> | [-> | [-> | [-> | ->]]]] by lia;
    (split; [reflexivity|exact (Z.lor_0_r f)]).
Qed.

Lemma unpack_flags f a :
  is_u32 f -> flag_aspect f = Some a ->
  Z.lor (Z.land f (u32 (Z.lnot DRM_MODE_FLAG_PIC_AR_MASK))) (aspect_flag a) = f.
Proof.
  intros Hf Ha. assert (E : aspect_flag a = Z.land f DRM_MODE_FLAG_PIC_AR_MASK).
  { unfold flag_aspect in Ha. symmetry.
    repeat match type of Ha with
    | (if ?x =? ?y then _ else _) = _ =>
      destruct (Z.eqb_spec x y) as [E|_]; [injection Ha as <-; rewrite E; reflexivity|]
    end. done. }
  rewrite E, <- Z.land_lor_distr_r.
  replace (Z.lor _ DRM_MODE_FLAG_PIC_AR_MASK) with (Z.ones 32) by reflexivity.
  rewrite Z.land_ones by lia. by apply Z.mod_small.
Qed.

(** ** Round trips *)

Lemma set_crtcinfo_idem p f :
  drm_mode_set_crtcinfo (drm_mode_set_crtcinfo p f) f = drm_mode_set_crtcinfo p f.
Proof.
  unfold drm_mode_set_crtcinfo. cbn [with_crtc flags vscan clock hdisplay hsync_start hsync_end
    htotal hskew vdisplay vsync_start vsync_end vtotal].
  repeat case_match; reflexivity.
Qed.


(** A mode as it arrives in [out]: the members that user space does not see are those of
    [out], except for the status. *)
Definition stored (m out : drm_display_mode) : drm_display_mode :=
  Mode (clock m) (hdisplay m) (hsync_start m) (hsync_end m) (htotal m) (hskew m) (vdisplay m)
    (vsync_start m) (vsync_end m) (vtotal m) (vscan m) (flags m) (crtc out) (width_mm out)
    (height_mm out) (type m) (expose_to_userspace out) (name m) (status out)
    (picture_aspect_ratio m).

Definition hook_accepts (mode_valid : option (drm_display_mode -> drm_mode_status))
    (m : drm_display_mode) : Prop :=
  match mode_valid with Some v => v m = MODE_OK | None => True end.

Lemma validate_driver_ok mode_valid m :
  drm_mode_validate_driver mode_valid m = MODE_OK
  <-> drm_mode_validate_basic m = MODE_OK /\ hook_accepts mode_valid m.
Proof.
  unfold drm_mode_validate_driver, hook_accepts. destruct (decide _) as [E|E]; [|tauto].
  destruct mode_valid; tauto.
Qed.

Lemma type_all_u8 t : u8 (Z.land t DRM_MODE_TYPE_ALL) = Z.land t DRM_MODE_TYPE_ALL.
Proof.
  apply Z.bits_inj'. intros n Hn. unfold wrapU. destruct (Z.lt_ge_cases n 8).
  - by rewrite Z.mod_pow2_bits_low.
  - rewrite Z.mod_pow2_bits_high, Z.land_spec by lia.
    destruct (proj1 (bound_testbit DRM_MODE_TYPE_ALL 8 ltac:(lia)) ltac:(by vm_compute)) as [_ Hb].
    by rewrite Hb, andb_false_r.
Qed.

Lemma type_within t : is_u8 t -> Z.land t (Z.lnot DRM_MODE_TYPE_ALL) = 0 -> u8 (Z.land t DRM_MODE_TYPE_ALL) = t.
Proof.
  intros Ht E. replace (Z.land t DRM_MODE_TYPE_ALL) with t; [by apply wrapU_small|].
  rewrite <- (Z.lor_0_l (Z.land t _)), <- E, <- Z.land_lor_distr_r, Z.lor_comm, Z.lor_lnot_diag.
  symmetry. apply Z.land_m1_r.
Qed.

(** C33. A valid mode comes back from user space as it went, and what user space sends and
    drm_mode_convert_umode() accepts is sent back the same, but for the refresh rate,
    which is computed, and type bits the kernel ignores; accepted modes have ordered
    timings, and their CRTC timings are set. *)
Theorem umode_roundtrip mode_valid out :
  (forall m, mode_typed m -> 0 < clock m -> 0 <= drm_mode_vrefresh m ->
     0 <= picture_aspect_ratio m <= HDMI_PICTURE_ASPECT_256_135 ->
     drm_mode_validate_basic m = MODE_OK -> hook_accepts mode_valid (stored m out) ->
     drm_mode_convert_umode mode_valid out (drm_mode_convert_to_umode m)
     = (0, drm_mode_set_crtcinfo (with_status MODE_OK (stored m out)) CRTC_INTERLACE_HALVE_V))
  /\ (forall i m, info_typed i -> drm_mode_convert_umode mode_valid out i = (0, m) ->
     drm_mode_convert_to_umode m
     = ModeInfo (u_clock i) (u_hdisplay i) (u_hsync_start i) (u_hsync_end i) (u_htotal i) (u_hskew i)
         (u_vdisplay i) (u_vsync_start i) (u_vsync_end i) (u_vtotal i) (u_vscan i)
         (u32 (drm_mode_vrefresh m)) (u_flags i) (Z.land (u_type i) DRM_MODE_TYPE_ALL) (u_name i)
     /\ u_hdisplay i <= u_hsync_start i <= u_hsync_end i /\ u_hsync_end i <= u_htotal i
     /\ u_vdisplay i <= u_vsync_start i <= u_vsync_end i /\ u_vsync_end i <= u_vtotal i
     /\ m = drm_mode_set_crtcinfo m CRTC_INTERLACE_HALVE_V).
Proof.
  split.
  - intros m [Tc Th Tv Tf Tt Tn] Hc Hv Ha Hb Hh. pose proof (valid_basic m Hb) as (Et & Ef & _).
    unfold drm_mode_convert_umode, drm_mode_convert_to_umode.
    cbn [u_clock u_vrefresh u_flags u_type u_name u_hdisplay u_hsync_start u_hsync_end u_htotal u_hskew
         u_vdisplay u_vsync_start u_vsync_end u_vtotal u_vscan].
    assert (Hvr : is_s32 (drm_mode_vrefresh m)).
    { unfold drm_mode_vrefresh. by repeat case_match; first [apply s32_range|apply is_s32_iff; lia]. }
    rewrite is_s32_iff in Tc, Hvr. rewrite (u32_small (clock m)), (u32_small (drm_mode_vrefresh m)) by (apply is_u32_iff; lia).
    destruct (Z.ltb_spec INT_MAX (clock m)); [lia|].
    destruct (Z.ltb_spec INT_MAX (drm_mode_vrefresh m)); [lia|]. cbn [orb].
    destruct (pack_flags (flags m) (picture_aspect_ratio m) Tf Ef Ha) as [-> ->].
    rewrite (type_within _ Tt Et), !strscpy_short by (rewrite ?strscpy_short; done).
    change (with_aspect _ _) with (stored m out).
    assert (E : drm_mode_validate_driver mode_valid (stored m out) = MODE_OK).
    { apply validate_driver_ok. by split. }
    rewrite E. done.
  - intros i m [Tc Tf Tt Tn]. unfold drm_mode_convert_umode.
    destruct (_ || _) eqn:Er; [intros [=]|].
    destruct (flag_aspect (u_flags i)) as [a|] eqn:Ea; [|intros [=]].
    set (o := with_aspect a _). destruct (decide _) as [E|]; [|intros [=]]. cbn [with_status status] in E.
    intros [= <-]. apply validate_driver_ok in E as [Hb _].
    pose proof (valid_basic o Hb) as (_ & _ & _ & (_ & Hh1 & Hh2) & (_ & Hv1 & Hv2)). cbn in Hh1, Hh2, Hv1, Hv2.
    split; [|repeat (split; [done|]); symmetry; apply set_crtcinfo_idem]. unfold drm_mode_convert_to_umode.
    apply orb_false_iff in Er as [Er%Z.ltb_ge _].
    f_equal.
    + cbn. apply u32_small. done.
    + cbn. by apply unpack_flags.
    + cbn. by apply type_all_u8.
    + cbn. by rewrite !strscpy_short by (rewrite ?strscpy_short; done).
Qed.

(** ** At a concrete mode *)

Module UserSample.
Open Scope string_scope.
Definition mode : drm_display_mode :=
  Mode 74250 1920 2008 2052 2200 0 1080 1084 1094 1125 0
    (Z.lor (Z.lor DRM_MODE_FLAG_PHSYNC DRM_MODE_FLAG_PVSYNC) DRM_MODE_FLAG_INTERLACE) no_crtc 0 0
    (Z.lor DRM_MODE_TYPE_DRIVER DRM_MODE_TYPE_PREFERRED) false "1920x1080i" MODE_OK
    HDMI_PICTURE_ASPECT_16_9.

Lemma mode_ok : mode_typed mode.
Proof.
  split; [by vm_compute| | |by vm_compute..|vm_compute; lia];
    (repeat apply Forall_cons_2; [by vm_compute..|apply Forall_nil_2]).
Qed.
End UserSample.

Lemma umode_roundtrip_witness :
  drm_mode_vrefresh UserSample.mode = 60
  /\ drm_mode_convert_umode None drm_mode_create (drm_mode_convert_to_umode UserSample.mode)
     = (0, drm_mode_set_crtcinfo (with_status MODE_OK (stored UserSample.mode drm_mode_create))
             CRTC_INTERLACE_HALVE_V)
  /\ crtc_vtotal (crtc (drm_mode_convert_umode None drm_mode_create
                          (drm_mode_convert_to_umode UserSample.mode)).2) = 562.
Proof.
  split; [vm_compute; reflexivity|]. split; [|vm_compute; reflexivity].
  apply (umode_roundtrip None drm_mode_create).
  - exact UserSample.mode_ok.
  - vm_compute. reflexivity.
  - vm_compute. discriminate.
  - vm_compute. split; discriminate.
  - vm_compute. reflexivity.
  - exact I.
Defined.
