(* ===== verification/ModeGen.v ===== *)
(** * Generated timings

    drm_cvt_mode() and drm_gtf_mode_complex() of drm_modes.c, in the integer arithmetic of
    their variables: int operands wrap as [s32], unsigned ones as [u32], the members of a
    mode as [u16].  There is no result when the code divides by zero, and [Some None] when
    it returns NULL.  [alloc] tells whether the mode could be allocated. *)

From Stdlib Require Import ZArith Lia Bool String.
From stdpp Require Import base numbers list option strings.
From S2P Require Import Prelude Modes ModeUser.
#[local] Open Scope Z_scope.

(** Unsigned division. *)
Definition udiv (a b : Z) : option Z := if b =? 0 then None else Some (a / b).

(** ** CVT *)

Definition HV_FACTOR := 1000.
Definition CVT_MARGIN_PERCENTAGE := 18.
Definition CVT_H_GRANULARITY := 8.
Definition CVT_MIN_V_PORCH := 3.
Definition CVT_MIN_V_BPORCH := 6.
Definition CVT_CLOCK_STEP := 250.
Definition CVT_MIN_VSYNC_BP := 550.
Definition CVT_HSYNC_PERCENTAGE := 8.
Definition CVT_M_FACTOR := 600.
Definition CVT_C_FACTOR := 40.
Definition CVT_K_FACTOR := 128.
Definition CVT_J_FACTOR := 20.
Definition CVT_M_PRIME := CVT_M_FACTOR * CVT_K_FACTOR / 256.
Definition CVT_C_PRIME := (CVT_C_FACTOR - CVT_J_FACTOR) * CVT_K_FACTOR / 256 + CVT_J_FACTOR.
Definition CVT_RB_MIN_VBLANK := 460.
Definition CVT_RB_H_SYNC := 32.
Definition CVT_RB_H_BLANK := 160.
Definition CVT_RB_VFPORCH := 3.

(** The width of the vertical sync from the aspect ratio. *)
Definition cvt_vsync (hdisplay vdisplay : Z) : Z :=
  let ratio n d := (Z.rem vdisplay d =? 0) && (Z.quot (s32 (vdisplay * n)) d =? hdisplay) in
  if ratio 4 3 then 4
  else if ratio 16 9 then 5
  else if ratio 16 10 then 6
  else if ratio 5 4 then 7
  else if ratio 15 9 then 7
  else 10.

(** The line period in nanoseconds and the members of the mode that depend on it. *)
Record cvt_timings := CvtTimings {
  t_hperiod : Z;
  t_htotal : Z; t_hsync_start : Z; t_hsync_end : Z;
  t_vtotal : Z; t_vsync_start : Z; t_vsync_end : Z
}.

(** [hd] and [vd] are the active sizes with their margins, [lines] the lines of a field
    with theirs. *)
Definition cvt_blanking (hd vd lines interlace vfieldrate vsync : Z) : option cvt_timings :=
  let tmp1 := s32 (HV_FACTOR * 1000000 - CVT_MIN_VSYNC_BP * HV_FACTOR * vfieldrate) in
  let tmp2 := s32 ((lines + CVT_MIN_V_PORCH) * 2 + interlace) in
  hperiod ← udiv (u32 (s32 (tmp1 * 2))) (u32 (tmp2 * vfieldrate));
  tmp1 ← udiv (CVT_MIN_VSYNC_BP * HV_FACTOR) hperiod;
  let tmp1 := s32 (u32 (tmp1 + 1)) in
  let vsyncandback_porch :=
    if tmp1 <? vsync + CVT_MIN_V_PORCH then vsync + CVT_MIN_V_PORCH else tmp1 in
  let vtotal := u16 (lines + vsyncandback_porch + CVT_MIN_V_PORCH) in
  let hblank_percentage := u32 (CVT_C_PRIME * HV_FACTOR - u32 (CVT_M_PRIME * hperiod) / 1000) in
  let hblank_percentage :=
    if hblank_percentage <? 20 * HV_FACTOR then 20 * HV_FACTOR else hblank_percentage in
  hblank ← udiv (u32 (hd * hblank_percentage)) (u32 (100 * HV_FACTOR - hblank_percentage));
  let hblank := s32 hblank in
  let hblank := s32 (hblank - Z.rem hblank (2 * CVT_H_GRANULARITY)) in
  let htotal := u16 (hd + hblank) in
  let hsync_end := u16 (hd + Z.quot hblank 2) in
  let hsync_start := u16 (hsync_end - htotal * CVT_HSYNC_PERCENTAGE / 100) in
  let hsync_start := u16 (hsync_start + (CVT_H_GRANULARITY - hsync_start mod CVT_H_GRANULARITY)) in
  let vsync_start := u16 (vd + CVT_MIN_V_PORCH) in
  Some (CvtTimings hperiod htotal hsync_start hsync_end vtotal vsync_start (u16 (vsync_start + vsync))).

Definition cvt_reduced (hd vd lines vfieldrate vsync : Z) : option cvt_timings :=
  let tmp1 := s32 (HV_FACTOR * 1000000 - CVT_RB_MIN_VBLANK * HV_FACTOR * vfieldrate) in
  let tmp2 := s32 lines in
  hperiod ← udiv (u32 tmp1) (u32 (tmp2 * vfieldrate));
  vbilines ← udiv (CVT_RB_MIN_VBLANK * HV_FACTOR) hperiod;
  let vbilines := s32 (u32 (vbilines + 1)) in
  let vbilines :=
    if vbilines <? CVT_RB_VFPORCH + vsync + CVT_MIN_V_BPORCH
    then CVT_RB_VFPORCH + vsync + CVT_MIN_V_BPORCH else vbilines in
  let vtotal := u16 (lines + vbilines) in
  let htotal := u16 (hd + CVT_RB_H_BLANK) in
  let hsync_end := u16 (hd + CVT_RB_H_BLANK / 2) in
  let hsync_start := u16 (hsync_end - CVT_RB_H_SYNC) in
  let vsync_start := u16 (vd + CVT_RB_VFPORCH) in
  Some (CvtTimings hperiod htotal hsync_start hsync_end vtotal vsync_start (u16 (vsync_start + vsync))).

(** The pixel clock; the mode's clock is still 0 when it is rounded. *)
Definition cvt_clock (htotal hperiod : Z) : option Z :=
  tmp ← udiv (u64 (htotal * (HV_FACTOR * 1000))) hperiod;
  Some (s32 (u64 (tmp - Z.rem (clock drm_mode_create) CVT_CLOCK_STEP))).

Definition cvt_hmargin (hdisplay_rnd : Z) : Z :=
  let m := Z.quot (s32 (hdisplay_rnd * CVT_MARGIN_PERCENTAGE)) 1000 in
  s32 (m - Z.rem m CVT_H_GRANULARITY).
Definition cvt_vmargin (vdisplay_rnd : Z) : Z :=
  Z.quot (s32 (vdisplay_rnd * CVT_MARGIN_PERCENTAGE)) 1000.

Definition drm_cvt_mode (alloc : bool) (hdisplay vdisplay vrefresh : Z)
    (reduced interlaced margins : bool) : option (option drm_display_mode) :=
  if (hdisplay =? 0) || (vdisplay =? 0) then Some None
  else if negb alloc then Some None
  else
    let vrefresh := if vrefresh =? 0 then 60 else vrefresh in
    let vfieldrate := u32 (if interlaced then s32 (vrefresh * 2) else vrefresh) in
    let hdisplay_rnd := s32 (hdisplay - Z.rem hdisplay CVT_H_GRANULARITY) in
    let hmargin := if margins then cvt_hmargin hdisplay_rnd else 0 in
    let hd := u16 (hdisplay_rnd + 2 * hmargin) in
    let vdisplay_rnd := if interlaced then Z.quot vdisplay 2 else vdisplay in
    let vmargin := if margins then cvt_vmargin vdisplay_rnd else 0 in
    let vd := u16 (vdisplay + 2 * vmargin) in
    let lines := s32 (vdisplay_rnd + 2 * vmargin) in
    let vsync := cvt_vsync hdisplay vdisplay in
    t ← (if reduced then cvt_reduced hd vd lines vfieldrate vsync
         else cvt_blanking hd vd lines (b2z interlaced) vfieldrate vsync);
    k ← cvt_clock (t_htotal t) (t_hperiod t);
    let vtotal := if interlaced then u16 (t_vtotal t * 2) else t_vtotal t in
    let flags := if interlaced then DRM_MODE_FLAG_INTERLACE else 0 in
    let m := drm_mode_set_name
      (Mode k hd (t_hsync_start t) (t_hsync_end t) (t_htotal t) 0 vd (t_vsync_start t)
         (t_vsync_end t) vtotal 0 flags no_crtc 0 0 0 false "" MODE_OK 0) in
    Some (Some (with_flags (Z.lor flags
      (if reduced then Z.lor DRM_MODE_FLAG_PHSYNC DRM_MODE_FLAG_NVSYNC
       else Z.lor DRM_MODE_FLAG_PVSYNC DRM_MODE_FLAG_NHSYNC)) m)).

(** ** GTF *)

Definition GTF_MARGIN_PERCENTAGE := 18.
Definition GTF_CELL_GRAN := 8.
Definition GTF_MIN_V_PORCH := 1.
Definition V_SYNC_RQD := 3.
Definition H_SYNC_PERCENT := 8.
Definition MIN_VSYNC_PLUS_BP := 550.
Definition GTF_C_PRIME (GTF_2C GTF_K GTF_2J : Z) : Z :=
  Z.quot (s32 (Z.quot (s32 ((GTF_2C - GTF_2J) * GTF_K)) 256 + GTF_2J)) 2.
Definition GTF_M_PRIME (GTF_M GTF_K : Z) : Z := Z.quot (s32 (GTF_K * GTF_M)) 256.

Definition drm_gtf_mode_complex (alloc : bool) (hdisplay vdisplay vrefresh : Z)
    (interlaced : bool) (margins GTF_M GTF_2C GTF_K GTF_2J : Z) : option (option drm_display_mode) :=
  if (hdisplay =? 0) || (vdisplay =? 0) then Some None
  else if negb alloc then Some None
  else
    let hdisplay_rnd := u32 (Z.quot (s32 (hdisplay + GTF_CELL_GRAN / 2)) GTF_CELL_GRAN) in
    let hdisplay_rnd := u32 (hdisplay_rnd * GTF_CELL_GRAN) in
    let vdisplay_rnd := u32 (if interlaced then Z.quot vdisplay 2 else vdisplay) in
    let vfieldrate_rqd := u32 (if interlaced then s32 (vrefresh * 2) else vrefresh) in
    let top_margin :=
      if margins =? 0 then 0
      else s32 (u32 (vdisplay_rnd * GTF_MARGIN_PERCENTAGE + 500) / 1000) in
    let bottom_margin := top_margin in
    let interlace := b2z interlaced in
    let tmp1 := u32 (1000000 - MIN_VSYNC_PLUS_BP * vfieldrate_rqd) / 500 in
    let tmp2 := u32 ((vdisplay_rnd + 2 * top_margin + GTF_MIN_V_PORCH) * 2 + interlace) in
    hfreq_est ← udiv (u32 (tmp2 * 1000 * vfieldrate_rqd)) tmp1;
    let vsync_plus_bp := s32 (u32 (MIN_VSYNC_PLUS_BP * hfreq_est) / 1000) in
    let vsync_plus_bp := Z.quot (s32 (vsync_plus_bp + 500)) 1000 in
    let vtotal_lines := u32 (vdisplay_rnd + top_margin + bottom_margin + vsync_plus_bp + GTF_MIN_V_PORCH) in
    _ ← udiv hfreq_est vtotal_lines;
    _ ← udiv 1000000 (u32 (vfieldrate_rqd * vtotal_lines));
    let left_margin :=
      if margins =? 0 then 0
      else s32 (u32 (hdisplay_rnd * GTF_MARGIN_PERCENTAGE + 500) / 1000) in
    let right_margin := left_margin in
    let total_active_pixels := u32 (hdisplay_rnd + left_margin + right_margin) in
    m ← udiv (u32 (s32 (GTF_M_PRIME GTF_M GTF_K * 1000000))) hfreq_est;
    let ideal_duty_cycle := u32 (s32 (GTF_C_PRIME GTF_2C GTF_K GTF_2J * 1000) - m) in
    hblank ← udiv (u32 (total_active_pixels * ideal_duty_cycle)) (u32 (100000 - ideal_duty_cycle));
    let hblank := u32 (hblank + GTF_CELL_GRAN) / (2 * GTF_CELL_GRAN) in
    let hblank := u32 (hblank * 2 * GTF_CELL_GRAN) in
    let total_pixels := u32 (total_active_pixels + hblank) in
    let pixel_freq := u32 (total_pixels * hfreq_est) / 1000 in
    let hsync := s32 (u32 (H_SYNC_PERCENT * total_pixels) / 100) in
    let hsync := Z.quot (s32 (hsync + GTF_CELL_GRAN / 2)) GTF_CELL_GRAN in
    let hsync := s32 (hsync * GTF_CELL_GRAN) in
    let hfront_porch := s32 (u32 (hblank / 2 - hsync)) in
    let vodd_front_porch_lines := GTF_MIN_V_PORCH in
    let hsync_start := u16 (hdisplay_rnd + hfront_porch) in
    let vsync_start := u16 (vdisplay_rnd + vodd_front_porch_lines) in
    let vtotal := u16 vtotal_lines in
    let vtotal := if interlaced then u16 (vtotal * 2) else vtotal in
    let flags := if interlaced then DRM_MODE_FLAG_INTERLACE else 0 in
    let mode := drm_mode_set_name
      (Mode (s32 pixel_freq) (u16 hdisplay_rnd) hsync_start (u16 (hsync_start + hsync))
         (u16 total_pixels) 0 (u16 vdisplay_rnd) vsync_start (u16 (vsync_start + V_SYNC_RQD)) vtotal
         0 flags no_crtc 0 0 0 false "" MODE_OK 0) in
    Some (Some (with_flags
      (if (GTF_M =? 600) && (GTF_2C =? 80) && (GTF_K =? 128) && (GTF_2J =? 40)
       then Z.lor DRM_MODE_FLAG_NHSYNC DRM_MODE_FLAG_PVSYNC
       else Z.lor DRM_MODE_FLAG_PHSYNC DRM_MODE_FLAG_NVSYNC) mode)).

Definition drm_gtf_mode (alloc : bool) (hdisplay vdisplay vrefresh : Z) (interlaced : bool)
    (margins : Z) : option (option drm_display_mode) :=
  drm_gtf_mode_complex alloc hdisplay vdisplay vrefresh interlaced margins 600 (40 * 2) 128 (20 * 2).

(** ** At concrete sizes *)

(** The 1920x1080 modes of the command "cvt" and "gtf", but for the clock of the former,
    which is not rounded to a multiple of 250 kHz. *)
Lemma cvt_1080p :
  exists m, drm_cvt_mode true 1920 1080 60 false false false = Some (Some m)
  /\ [clock m; hdisplay m; hsync_start m; hsync_end m; htotal m; vdisplay m; vsync_start m; vsync_end m;
      vtotal m] = [173106; 1920; 2048; 2248; 2576; 1080; 1083; 1088; 1120]
  /\ name m = "1920x1080"%string.
Proof. eexists. split; vm_compute; [reflexivity|split; reflexivity]. Qed.

(** ** CVT modes are valid *)

Lemma udiv_pos a b : 0 < b -> udiv a b = Some (a / b).
Proof. intros. unfold udiv. by destruct (Z.eqb_spec b 0); [lia|]. Qed.

Lemma div_between a b lo hi : 0 < b -> lo * b <= a -> a < (hi + 1) * b -> lo <= a / b <= hi.
Proof.
  intros Hb Hlo Hhi. split; [apply Z.div_le_lower_bound; lia|].
  assert (a / b < hi + 1); [|lia]. apply Z.div_lt_upper_bound; lia.
Qed.

Lemma u16_small x : is_u16 x -> u16 x = x.
Proof. apply wrapU_small. Qed.

(** Removes the conversions whose argument is in range by linear arithmetic. *)
Ltac small :=
  repeat match goal with
  | |- context [s32 ?x] => rewrite (s32_small x) by (apply is_s32_iff; lia)
  | |- context [u32 ?x] => rewrite (u32_small x) by (apply is_u32_iff; lia)
  | |- context [u64 ?x] => rewrite (u64_small x) by (apply is_u64_iff; lia)
  | |- context [u16 ?x] => rewrite (u16_small x) by (change (2 ^ 16) with 65536; unfold is_u; lia)
  end.

(** The blanking of a line: from a quarter to three sevenths of what is active. *)
Lemma hblank_bounds hd p :
  0 < hd -> 20000 <= p <= 30000 ->
  let hb := hd * p / (100000 - p) in hd <= 4 * hb + 3 /\ 7 * hb <= 3 * hd.
Proof.
  intros Hd Hp hb. assert (Hb : hb * (100000 - p) <= hd * p < (hb + 1) * (100000 - p)).
  { unfold hb. pose proof (Z.div_mod (hd * p) (100000 - p) ltac:(lia)).
    pose proof (Z.mod_pos_bound (hd * p) (100000 - p) ltac:(lia)). lia. }
  assert (0 <= hb) by (apply Z.div_pos; nia). clearbody hb. split; nia.
Qed.

Section blanking.
Context (hd vd lines vf vsync : Z).
Context (Hhd : 320 <= hd <= 17000) (Hvd : 0 < vd <= 8500) (Hlines : 200 <= lines <= 8500).
Context (Hvf : 50 <= vf <= 500) (Hvsync : 4 <= vsync <= 10).

(** What the timings of both variants satisfy. *)
Definition timings_ok (t : cvt_timings) : Prop :=
  (150 <= t_hperiod t <= 100000)
  /\ (hd <= t_hsync_start t <= t_hsync_end t /\ t_hsync_end t <= t_htotal t <= 24300)
  /\ t_vsync_start t = vd + 3 /\ t_vsync_end t = vd + 3 + vsync
  /\ lines + vsync + 6 <= t_vtotal t <= lines + 4000.

Lemma cvt_blanking_ok i :
  0 <= i <= 1 -> exists t, cvt_blanking hd vd lines i vf vsync = Some t /\ timings_ok t.
Proof.
  intros Hi. unfold cvt_blanking. cbv [HV_FACTOR CVT_MIN_VSYNC_BP CVT_MIN_V_PORCH CVT_HSYNC_PERCENTAGE
    CVT_H_GRANULARITY]. change CVT_C_PRIME with 30. change CVT_M_PRIME with 300.
  small. set (a := (1000 * 1000000 - 550 * 1000 * vf) * 2). set (b := ((lines + 3) * 2 + i) * vf).
  assert (Ha : 1450000000 <= a <= 1945000000) by (unfold a; lia).
  assert (Hb : 20300 <= b <= 8503500) by (unfold b; nia). clearbody a b. small.
  rewrite (udiv_pos _ b) by lia. cbn [mbind option_bind].
  assert (Hp : 150 <= a / b <= 95900) by (apply div_between; lia). set (hp := a / b) in *. clearbody hp.
  rewrite (udiv_pos _ hp) by lia. cbn [mbind option_bind].
  assert (Hbp : 0 <= 550 * 1000 / hp <= 3666) by (apply div_between; lia).
  set (bp := 550 * 1000 / hp) in *. clearbody bp. small.
  assert (Hm : 0 <= 300 * hp / 1000 <= 28770) by (apply div_between; lia).
  set (mp := 300 * hp / 1000) in *. clearbody mp. small.
  match goal with |- context [hd * ?x] => set (pct := x) end.
  assert (Hpct : 20000 <= pct <= 30000) by (unfold pct; destruct (Z.ltb_spec (30 * 1000 - mp) (20 * 1000)); lia).
  clearbody pct. rewrite (u32_small (hd * pct)) by (apply is_u32_iff; nia). small.
  rewrite (udiv_pos (hd * pct)) by lia. cbn [mbind option_bind].
  pose proof (hblank_bounds hd pct ltac:(lia) Hpct) as Hhb. cbv zeta in Hhb.
  change (100 * 1000) with 100000. set (hb0 := hd * pct / (100000 - pct)) in *. clearbody hb0. small.
  rewrite (Z.rem_mod_nonneg hb0) by lia.
  pose proof (Z.mod_pos_bound hb0 (2 * 8) ltac:(lia)). set (r := hb0 mod (2 * 8)) in *. clearbody r.
  small. set (hb := hb0 - r) in *. assert (Hhb' : hd <= 4 * hb + 63 /\ 7 * hb <= 3 * hd) by (unfold hb; lia).
  clearbody hb. rewrite (Z.quot_div_nonneg hb) by lia.
  pose proof (Z.div_mod hb 2 ltac:(lia)). pose proof (Z.mod_pos_bound hb 2 ltac:(lia)).
  set (h2 := hb / 2) in *. clearbody h2. small.
  pose proof (Z.div_mod ((hd + hb) * 8) 100 ltac:(lia)). pose proof (Z.mod_pos_bound ((hd + hb) * 8) 100 ltac:(lia)).
  set (sw := (hd + hb) * 8 / 100) in *. clearbody sw. small.
  set (s0 := hd + h2 - sw) in *. pose proof (Z.mod_pos_bound s0 8 ltac:(lia)).
  set (s8 := s0 mod 8) in *. clearbody s8. assert (Hs0 : hd - 1 <= s0 <= hd + h2 - 8) by (unfold s0; lia).
  clearbody s0. small. eexists. split; [reflexivity|]. unfold timings_ok.
  cbn [t_hperiod t_htotal t_hsync_start t_hsync_end t_vtotal t_vsync_start t_vsync_end].
  destruct (Z.ltb_spec (bp + 1) (vsync + 3)); small; lia.
Qed.

Lemma cvt_reduced_ok :
  exists t, cvt_reduced hd vd lines vf vsync = Some t /\ timings_ok t.
Proof.
  unfold cvt_reduced. cbv [HV_FACTOR CVT_RB_MIN_VBLANK CVT_RB_VFPORCH CVT_MIN_V_BPORCH CVT_RB_H_BLANK CVT_RB_H_SYNC].
  small. set (a := 1000 * 1000000 - 460 * 1000 * vf). set (b := lines * vf).
  assert (Ha : 770000000 <= a <= 977000000) by (unfold a; lia).
  assert (Hb : 10000 <= b <= 4250000) by (unfold b; nia). clearbody a b. small.
  rewrite (udiv_pos _ b) by lia. cbn [mbind option_bind].
  assert (Hp : 150 <= a / b <= 97800) by (apply div_between; lia). set (hp := a / b) in *. clearbody hp.
  rewrite (udiv_pos _ hp) by lia. cbn [mbind option_bind].
  assert (Hbp : 0 <= 460 * 1000 / hp <= 3066) by (apply div_between; lia).
  set (bp := 460 * 1000 / hp) in *. clearbody bp. change (160 / 2) with 80. small.
  eexists. split; [reflexivity|]. unfold timings_ok.
  cbn [t_hperiod t_htotal t_hsync_start t_hsync_end t_vtotal t_vsync_start t_vsync_end].
  destruct (Z.ltb_spec (bp + 1) (3 + vsync + 6)); small; lia.
Qed.
End blanking.

Lemma cvt_vsync_bounds h v : 4 <= cvt_vsync h v <= 10.
Proof. unfold cvt_vsync. repeat case_match; lia. Qed.

Lemma cvt_clock_ok htotal hperiod :
  320 <= htotal <= 24300 -> 150 <= hperiod <= 100000 ->
  cvt_clock htotal hperiod = Some (htotal * 1000000 / hperiod)
  /\ 0 < htotal * 1000000 / hperiod < 2 ^ 31.
Proof.
  intros Ht Hp. unfold cvt_clock. cbv [HV_FACTOR].
  rewrite (u64_small (htotal * (1000 * 1000))) by (apply is_u64_iff; lia). rewrite udiv_pos by lia.
  change (htotal * (1000 * 1000)) with (htotal * 1000000).
  assert (Hk : 3200 <= htotal * 1000000 / hperiod <= 162000000) by (apply div_between; lia).
  cbn [mbind option_bind]. change (Z.rem (clock drm_mode_create) CVT_CLOCK_STEP) with 0.
  set (k := htotal * 1000000 / hperiod) in *. clearbody k. change (2 ^ 31) with 2147483648.
  rewrite Z.sub_0_r. small. split; [done|lia].
Qed.

Lemma hmargin_ok w : 320 <= w <= 16384 -> 0 <= cvt_hmargin w <= 300 /\ cvt_hmargin w mod 8 = 0.
Proof.
  intros Hw. unfold cvt_hmargin. cbv [CVT_MARGIN_PERCENTAGE CVT_H_GRANULARITY]. small.
  rewrite Z.quot_div_nonneg by lia.
  assert (Hq : 0 <= w * 18 / 1000 <= 295) by (apply div_between; lia).
  set (q := w * 18 / 1000) in *. clearbody q. rewrite Z.rem_mod_nonneg by lia.
  pose proof (Z.mod_pos_bound q 8 ltac:(lia)). pose proof (Z.div_mod q 8 ltac:(lia)). small.
  replace (q - q mod 8) with (q / 8 * 8) by lia. rewrite Z.mod_mul by lia. lia.
Qed.

Lemma vmargin_ok v : 0 <= v <= 8192 -> 0 <= cvt_vmargin v <= 148.
Proof.
  intros Hv. unfold cvt_vmargin. cbv [CVT_MARGIN_PERCENTAGE]. small. rewrite Z.quot_div_nonneg by lia.
  apply div_between; lia.
Qed.

Lemma side_margin (margins : bool) w : 320 <= w <= 16384 ->
  let hm := if margins then cvt_hmargin w else 0 in
  0 <= hm <= 300 /\ hm mod 8 = 0 /\ (margins = false -> hm = 0).
Proof.
  intros Hw hm. unfold hm. destruct margins; [|split_and!; done || lia].
  destruct (hmargin_ok w ltac:(lia)). split_and!; done || lia.
Qed.

Lemma top_margin (margins : bool) v : 0 <= v <= 8192 ->
  let vm := if margins then cvt_vmargin v else 0 in 0 <= vm <= 148 /\ (margins = false -> vm = 0).
Proof.
  intros Hv vm. unfold vm. destruct margins; [|split; done || lia]. split; [by apply vmargin_ok|done].
Qed.

Lemma field_lines (interlaced : bool) height :
  200 <= (if interlaced then height / 2 else height) ->
  let field := if interlaced then Z.quot height 2 else height in
  200 <= field <= height /\ (interlaced = false -> field = height)
  /\ (interlaced = true -> height <= 2 * field + 1).
Proof.
  intros Hf field. unfold field. destruct interlaced; [|split_and!; done || lia].
  pose proof (Z.mul_div_le height 2 ltac:(lia)). rewrite Z.quot_div_nonneg by lia.
  pose proof (Z.div_mod height 2). pose proof (Z.mod_pos_bound height 2). split_and!; [lia..|done|lia].
Qed.

(** Timings in order are valid. *)
Lemma valid_of_order m :
  type m = 0 -> Z.land (flags m) (u32 (Z.lnot DRM_MODE_FLAG_ALL)) = 0 ->
  Z.land (flags m) DRM_MODE_FLAG_3D_MASK = 0 -> 0 < clock m ->
  0 < hdisplay m <= hsync_start m -> hsync_start m <= hsync_end m <= htotal m ->
  0 < vdisplay m <= vsync_start m -> vsync_start m <= vsync_end m <= vtotal m ->
  drm_mode_validate_basic m = MODE_OK.
Proof.
  intros Et Ef E3 Hk H1 H2 V1 V2. unfold drm_mode_validate_basic. rewrite Et, E3.
  change (tst 0 _) with false. cbn match. unfold tst. rewrite Ef. cbn [Z.eqb negb].
  change (DRM_MODE_FLAG_3D_MAX <? 0) with false. cbn match.
  destruct (Z.eqb_spec (clock m) 0); [lia|].
  destruct (Z.eqb_spec (hdisplay m) 0); [lia|]. destruct (Z.ltb_spec (hsync_start m) (hdisplay m)); [lia|].
  destruct (Z.ltb_spec (hsync_end m) (hsync_start m)); [lia|]. destruct (Z.ltb_spec (htotal m) (hsync_end m)); [lia|].
  destruct (Z.eqb_spec (vdisplay m) 0); [lia|]. destruct (Z.ltb_spec (vsync_start m) (vdisplay m)); [lia|].
  destruct (Z.ltb_spec (vsync_end m) (vsync_start m)); [lia|]. by destruct (Z.ltb_spec (vtotal m) (vsync_end m)); [lia|].
Qed.

(** C34. For displays of 320 to 16384 pixels and up to 8192 lines, of at least 200 lines
    for each field and 50 to 500 fields a second, drm_cvt_mode() divides by nothing that
    is zero and makes a mode that passes validation: no member wraps, the sync pulses lie
    in the blanking, the width is the requested one rounded down to whole cells, margins
    apart, and the flag says whether it is interlaced. *)
Theorem cvt_mode_valid (width height vrefresh : Z) (reduced interlaced margins : bool) :
  320 <= width <= 16384 -> height <= 8192 ->
  200 <= (if interlaced then height / 2 else height) ->
  50 <= (if interlaced then vrefresh * 2 else vrefresh) <= 500 ->
  exists m, drm_cvt_mode true width height vrefresh reduced interlaced margins = Some (Some m)
  /\ drm_mode_validate_basic m = MODE_OK
  /\ hdisplay m mod 8 = 0 /\ width - width mod 8 <= hdisplay m /\ height <= vdisplay m
  /\ (margins = false -> hdisplay m = width - width mod 8 /\ vdisplay m = height)
  /\ tst (flags m) DRM_MODE_FLAG_INTERLACE = interlaced.
Proof.
  intros Hw Hh Hf Hr. unfold drm_cvt_mode. cbv [CVT_H_GRANULARITY].
  assert (Hv200 : 200 <= height) by (destruct interlaced; [pose proof (Z.mul_div_le height 2 ltac:(lia))|]; lia).
  destruct (Z.eqb_spec width 0); [lia|]. destruct (Z.eqb_spec height 0); [lia|]. cbn [orb negb].
  destruct (Z.eqb_spec vrefresh 0); [destruct interlaced; lia|].
  rewrite Z.rem_mod_nonneg by lia. pose proof (Z.mod_pos_bound width 8 ltac:(lia)).
  assert (Hw8 : (width - width mod 8) mod 8 = 0).
  { replace (width - width mod 8) with (width / 8 * 8) by (pose proof (Z.div_mod width 8); lia). by apply Z.mod_mul. }
  assert (Hw320 : 320 <= width - width mod 8).
  { pose proof (Z.div_mod width 8 ltac:(lia)). assert (40 <= width / 8) by (apply Z.div_le_lower_bound; lia). lia. }
  rewrite (s32_small (width - width mod 8)) by (apply is_s32_iff; lia).
  set (w := width - width mod 8) in *. assert (w <= 16384) by lia. clearbody w.
  set (hm := if margins then cvt_hmargin w else 0).
  pose proof (side_margin margins w ltac:(lia)) as Hhm. cbv zeta in Hhm. fold hm in Hhm.
  clearbody hm. destruct Hhm as (Hhm & Hhm8 & Hhm0).
  set (field := if interlaced then Z.quot height 2 else height).
  pose proof (field_lines interlaced height Hf) as Hfield. cbv zeta in Hfield. fold field in Hfield.
  clearbody field. destruct Hfield as (Hfl & Hf0 & Hf1). clear Hf.
  set (vm := if margins then cvt_vmargin field else 0).
  pose proof (top_margin margins field ltac:(lia)) as Hvm. cbv zeta in Hvm. fold vm in Hvm.
  clearbody vm. destruct Hvm as [Hvm Hvm0].
  set (vf := u32 _). assert (Hvf : 50 <= vf <= 500) by (unfold vf; destruct interlaced; small; lia).
  clearbody vf. pose proof (cvt_vsync_bounds width height) as Hvs. set (vsync := cvt_vsync width height) in *.
  clearbody vsync. small.
  match goal with |- context [mbind _ ?x] => set (timings := x) end.
  assert (Ht : exists t, timings = Some t /\ timings_ok (w + 2 * hm) (height + 2 * vm) (field + 2 * vm) vsync t).
  { unfold timings. destruct reduced; [apply cvt_reduced_ok|apply cvt_blanking_ok]; try lia.
    destruct interlaced; cbn; lia. }
  clearbody timings. destruct Ht as (t & -> & Hp & Hh1 & Hv1 & Hv2 & Hvt). cbn [mbind option_bind].
  destruct (cvt_clock_ok (t_htotal t) (t_hperiod t) ltac:(lia) Hp) as [-> Hk]. cbn [mbind option_bind].
  eexists. split; [reflexivity|].
  unfold drm_mode_set_name, with_mode_name, with_flags. cbn [flags hdisplay vdisplay].
  split; [|split; [|split; [|split; [|split]]]].
  - apply valid_of_order; cbn [type flags clock hdisplay hsync_start hsync_end htotal vdisplay vsync_start vsync_end vtotal];
      try lia; [by destruct interlaced, reduced..|].
    destruct interlaced; small; lia.
  - replace (2 * hm) with (hm * 2) by lia. rewrite Z.add_mod, Z.mul_mod, Hw8, Hhm8 by lia. done.
  - lia.
  - lia.
  - intros Hm. rewrite (Hhm0 Hm), (Hvm0 Hm). lia.
  - by destruct interlaced, reduced.
Qed.

Lemma cvt_mode_valid_witness :
  exists m, drm_cvt_mode true 1920 1080 60 true true true = Some (Some m)
  /\ drm_mode_validate_basic m = MODE_OK /\ hdisplay m mod 8 = 0
  /\ tst (flags m) DRM_MODE_FLAG_INTERLACE = true.
Proof.
  destruct (cvt_mode_valid 1920 1080 60 true true true) as (m & E & Hv & H8 & _ & _ & _ & Hi).
  - lia.
  - lia.
  - vm_compute. discriminate.
  - lia.
  - exists m. split; [exact E|]. split; [exact Hv|]. split; [exact H8|exact Hi].
Defined.

(** Below about 160 lines at 60 Hz the line period exceeds 100 microseconds and the ideal
    duty cycle is negative: as an unsigned number it passes the test for 20 percent, and
    a line of 160 pixels gets a blanking of 39264. *)
Lemma cvt_small_display :
  option_map (option_map (fun m => (hdisplay m, htotal m, clock m)))
    (drm_cvt_mode true 160 120 60 false false false) = Some (Some (160, 39424, 300879)).
Proof. reflexivity. Qed.

(** The clock is not a multiple of CVT_CLOCK_STEP. *)
Lemma cvt_clock_step :
  option_map (option_map (fun m => clock m mod CVT_CLOCK_STEP))
    (drm_cvt_mode true 1920 1080 60 false false false) = Some (Some 106).
Proof. vm_compute. reflexivity. Qed.

(** An interlaced GTF mode has half the lines and no interlace flag. *)
Lemma gtf_interlaced :
  option_map (option_map (fun m => (vdisplay m, vtotal m, tst (flags m) DRM_MODE_FLAG_INTERLACE)))
    (drm_gtf_mode true 1920 1080 60 true 0) = Some (Some (540, 1158, false)).
Proof. vm_compute. reflexivity. Qed.
