(* ===== verification/CmdLine.v ===== *)
(** * Modes from the kernel command line

    The mode line parser of drm_modes.c.  The text of the line is the list of its
    characters before the NUL, a [const char *] into it the distance from its start;
    reading anywhere but at a character or the NUL has no result.  The functions of the C
    library are defined on the text that is left at a pointer.  simple_strtol() and
    strnchr() are in lib/, outside of the sources: the class [KernelText], with what the
    parser relies on as the laws of [KernelTextLaws]. *)

From stdpp Require Import base numbers list option.
From Stdlib Require Import ZArith Lia Bool Ascii.
From Stdlib Require String.
Import (notations) String.
From S2P Require Import Prelude Rect Modes.
#[local] Open Scope Z_scope.

(** ** Strings *)

Abbreviation text := (list ascii).
Definition lit (s : String.string) : text := String.list_ascii_of_string s.
Definition NUL : ascii := Ascii.zero.

(** The text at a pointer. *)
Definition text_at (s : text) (p : Z) : option text :=
  if (0 <=? p) && (p <=? Z.of_nat (length s)) then Some (drop (Z.to_nat p) s) else None.

Definition isdigit (c : ascii) : bool :=
  let n := Z.of_nat (nat_of_ascii c) in (48 <=? n) && (n <=? 57).

Fixpoint index_of (c : ascii) (t : text) : option Z :=
  match t with
  | [] => None
  | x :: t => if decide (x = c) then Some 0 else Z.succ <$> index_of c t
  end.

(** *p *)
Definition char_at (s : text) (p : Z) : option ascii := t ← text_at s p; Some (default NUL (head t)).
Definition strlen (s : text) (p : Z) : option Z := t ← text_at s p; Some (Z.of_nat (length t)).
Definition strchr (s : text) (p : Z) (c : ascii) : option (option Z) :=
  t ← text_at s p; Some ((fun i => p + i) <$> index_of c t).
(** !strncmp(p, w, n): no more than the characters and the NUL of either is read. *)
Definition strncmp_eq (s : text) (p : Z) (w : text) (n : Z) : option bool :=
  t ← text_at s p; Some (bool_decide (take (Z.to_nat n) t = take (Z.to_nat n) w)).
Definition str_has_prefix (s : text) (p : Z) (w : text) : option Z :=
  b ← strncmp_eq s p w (Z.of_nat (length w)); Some (if (b : bool) then Z.of_nat (length w) else 0).

(** simple_strtol(): the value, a long, and how many characters were read.  strnchr():
    where a character is among the first so many of a text. *)
Class KernelText := {
  strtol : text -> Z * nat;
  strnchr_of : text -> Z -> ascii -> option Z
}.
Definition strnchr `{KernelText} (s : text) (p n : Z) (c : ascii) : option (option Z) :=
  t ← text_at s p; Some ((fun i => p + i) <$> strnchr_of t n c).

(** The number that digits are. *)
Definition digits_val (ds : text) : Z :=
  fold_left (fun a c => 10 * a + (Z.of_nat (nat_of_ascii c) - 48)) ds 0.
Definition all_digits (ds : text) : Prop := ds <> [] /\ Forall (fun c => isdigit c = true) ds.
Definition no_digit (t : text) : Prop := match t with c :: _ => isdigit c = false | [] => True end.

Class KernelTextLaws `{KernelText} : Prop := {
  strnchr_law t n c : strnchr_of t n c = index_of c (take (Z.to_nat n) t);
  strtol_bound t : ((strtol t).2 <= length t)%nat;
  strtol_digits ds t :
    all_digits ds -> no_digit t -> digits_val ds < 2 ^ 63 -> strtol (ds ++ t) = (digits_val ds, length ds)
}.

(** ** The mode *)

Inductive drm_connector_force :=
  DRM_FORCE_UNSPECIFIED | DRM_FORCE_OFF | DRM_FORCE_ON | DRM_FORCE_ON_DIGITAL.
#[export] Instance drm_connector_force_eq_dec : EqDecision drm_connector_force.
Proof. solve_decision. Defined.

Record drm_connector_tv_margins := TvMargins { tv_bottom : Z; tv_left : Z; tv_right : Z; tv_top : Z }.

Definition DRM_MODE_PANEL_ORIENTATION_UNKNOWN := -1.
Definition DRM_MODE_PANEL_ORIENTATION_NORMAL := 0.
Definition DRM_MODE_PANEL_ORIENTATION_BOTTOM_UP := 1.
Definition DRM_MODE_PANEL_ORIENTATION_LEFT_UP := 2.
Definition DRM_MODE_PANEL_ORIENTATION_RIGHT_UP := 3.

Definition DRM_MODE_TV_MODE_NTSC := 0.
Definition DRM_MODE_TV_MODE_NTSC_443 := 1.
Definition DRM_MODE_TV_MODE_NTSC_J := 2.
Definition DRM_MODE_TV_MODE_PAL := 3.
Definition DRM_MODE_TV_MODE_PAL_M := 4.
Definition DRM_MODE_TV_MODE_PAL_N := 5.
Definition DRM_MODE_TV_MODE_SECAM := 6.
Definition DRM_MODE_TV_MODE_MONOCHROME := 7.

Definition DRM_MODE_CONNECTOR_DVII := 2.
Definition DRM_MODE_CONNECTOR_HDMIB := 12.

Record drm_cmdline_mode := CmdMode {
  cm_name : text;   (* char name[32], up to its NUL *)
  cm_specified : bool;
  cm_refresh_specified : bool;
  cm_bpp_specified : bool;
  cm_pixel_clock : Z;   (* unsigned int *)
  cm_xres : Z;   (* int *)
  cm_yres : Z;   (* int *)
  cm_bpp : Z;   (* int *)
  cm_refresh : Z;   (* int *)
  cm_rb : bool;
  cm_interlace : bool;
  cm_cvt : bool;
  cm_margins : bool;
  cm_force : drm_connector_force;
  cm_rotation_reflection : Z;   (* unsigned int *)
  cm_panel_orientation : Z;
  cm_tv_margins : drm_connector_tv_margins;
  cm_tv_mode : Z;
  cm_tv_mode_specified : bool
}.

Definition with_bpp (bpp : Z) (m : drm_cmdline_mode) : drm_cmdline_mode :=
  CmdMode
    (cm_name m) (cm_specified m) (cm_refresh_specified m) true (cm_pixel_clock m)
    (cm_xres m) (cm_yres m) bpp (cm_refresh m) (cm_rb m) (cm_interlace m) (cm_cvt m)
    (cm_margins m) (cm_force m) (cm_rotation_reflection m) (cm_panel_orientation m)
    (cm_tv_margins m) (cm_tv_mode m) (cm_tv_mode_specified m).
Definition with_refresh (refresh : Z) (m : drm_cmdline_mode) : drm_cmdline_mode :=
  CmdMode
    (cm_name m) (cm_specified m) true (cm_bpp_specified m) (cm_pixel_clock m)
    (cm_xres m) (cm_yres m) (cm_bpp m) refresh (cm_rb m) (cm_interlace m) (cm_cvt m)
    (cm_margins m) (cm_force m) (cm_rotation_reflection m) (cm_panel_orientation m)
    (cm_tv_margins m) (cm_tv_mode m) (cm_tv_mode_specified m).
Definition with_interlace  (m : drm_cmdline_mode) : drm_cmdline_mode :=
  CmdMode
    (cm_name m) (cm_specified m) (cm_refresh_specified m) (cm_bpp_specified m)
    (cm_pixel_clock m) (cm_xres m) (cm_yres m) (cm_bpp m) (cm_refresh m) (cm_rb m)
    true (cm_cvt m) (cm_margins m) (cm_force m) (cm_rotation_reflection m)
    (cm_panel_orientation m) (cm_tv_margins m) (cm_tv_mode m) (cm_tv_mode_specified
    m).
Definition with_margins  (m : drm_cmdline_mode) : drm_cmdline_mode :=
  CmdMode
    (cm_name m) (cm_specified m) (cm_refresh_specified m) (cm_bpp_specified m)
    (cm_pixel_clock m) (cm_xres m) (cm_yres m) (cm_bpp m) (cm_refresh m) (cm_rb m)
    (cm_interlace m) (cm_cvt m) true (cm_force m) (cm_rotation_reflection m)
    (cm_panel_orientation m) (cm_tv_margins m) (cm_tv_mode m) (cm_tv_mode_specified
    m).
Definition with_force (f : drm_connector_force) (m : drm_cmdline_mode) : drm_cmdline_mode :=
  CmdMode
    (cm_name m) (cm_specified m) (cm_refresh_specified m) (cm_bpp_specified m)
    (cm_pixel_clock m) (cm_xres m) (cm_yres m) (cm_bpp m) (cm_refresh m) (cm_rb m)
    (cm_interlace m) (cm_cvt m) (cm_margins m) f (cm_rotation_reflection m)
    (cm_panel_orientation m) (cm_tv_margins m) (cm_tv_mode m) (cm_tv_mode_specified
    m).
Definition with_resolution (xres yres : Z) (cvt rb : bool) (m : drm_cmdline_mode) : drm_cmdline_mode :=
  CmdMode
    (cm_name m) (cm_specified m) (cm_refresh_specified m) (cm_bpp_specified m)
    (cm_pixel_clock m) xres yres (cm_bpp m) (cm_refresh m) rb (cm_interlace m) cvt
    (cm_margins m) (cm_force m) (cm_rotation_reflection m) (cm_panel_orientation m)
    (cm_tv_margins m) (cm_tv_mode m) (cm_tv_mode_specified m).
Definition with_specified  (m : drm_cmdline_mode) : drm_cmdline_mode :=
  CmdMode
    (cm_name m) true (cm_refresh_specified m) (cm_bpp_specified m) (cm_pixel_clock
    m) (cm_xres m) (cm_yres m) (cm_bpp m) (cm_refresh m) (cm_rb m) (cm_interlace m)
    (cm_cvt m) (cm_margins m) (cm_force m) (cm_rotation_reflection m)
    (cm_panel_orientation m) (cm_tv_margins m) (cm_tv_mode m) (cm_tv_mode_specified
    m).
Definition with_rotation (r : Z) (m : drm_cmdline_mode) : drm_cmdline_mode :=
  CmdMode
    (cm_name m) (cm_specified m) (cm_refresh_specified m) (cm_bpp_specified m)
    (cm_pixel_clock m) (cm_xres m) (cm_yres m) (cm_bpp m) (cm_refresh m) (cm_rb m)
    (cm_interlace m) (cm_cvt m) (cm_margins m) (cm_force m) r (cm_panel_orientation
    m) (cm_tv_margins m) (cm_tv_mode m) (cm_tv_mode_specified m).
Definition with_orientation (o : Z) (m : drm_cmdline_mode) : drm_cmdline_mode :=
  CmdMode
    (cm_name m) (cm_specified m) (cm_refresh_specified m) (cm_bpp_specified m)
    (cm_pixel_clock m) (cm_xres m) (cm_yres m) (cm_bpp m) (cm_refresh m) (cm_rb m)
    (cm_interlace m) (cm_cvt m) (cm_margins m) (cm_force m) (cm_rotation_reflection
    m) o (cm_tv_margins m) (cm_tv_mode m) (cm_tv_mode_specified m).
Definition with_tv_margins (t : drm_connector_tv_margins) (m : drm_cmdline_mode) : drm_cmdline_mode :=
  CmdMode
    (cm_name m) (cm_specified m) (cm_refresh_specified m) (cm_bpp_specified m)
    (cm_pixel_clock m) (cm_xres m) (cm_yres m) (cm_bpp m) (cm_refresh m) (cm_rb m)
    (cm_interlace m) (cm_cvt m) (cm_margins m) (cm_force m) (cm_rotation_reflection
    m) (cm_panel_orientation m) t (cm_tv_mode m) (cm_tv_mode_specified m).
Definition with_tv_mode (t : Z) (m : drm_cmdline_mode) : drm_cmdline_mode :=
  CmdMode
    (cm_name m) (cm_specified m) (cm_refresh_specified m) (cm_bpp_specified m)
    (cm_pixel_clock m) (cm_xres m) (cm_yres m) (cm_bpp m) (cm_refresh m) (cm_rb m)
    (cm_interlace m) (cm_cvt m) (cm_margins m) (cm_force m) (cm_rotation_reflection
    m) (cm_panel_orientation m) (cm_tv_margins m) t true.
Definition with_named_mode (name : text) (clock xres yres : Z) (interlace : bool) (tv : Z) (m : drm_cmdline_mode) : drm_cmdline_mode :=
  CmdMode
    name true (cm_refresh_specified m) (cm_bpp_specified m) clock xres yres (cm_bpp
    m) (cm_refresh m) (cm_rb m) interlace (cm_cvt m) (cm_margins m) (cm_force m)
    (cm_rotation_reflection m) (cm_panel_orientation m) (cm_tv_margins m) tv true.

(** ** Named modes *)

Record drm_named_mode := NamedMode {
  nm_name : text; nm_pixel_clock_khz : Z; nm_xres : Z; nm_yres : Z; nm_flags : Z; nm_tv_mode : Z
}.

Definition drm_named_modes : list drm_named_mode :=
  [ NamedMode (lit "NTSC") 13500 720 480 DRM_MODE_FLAG_INTERLACE DRM_MODE_TV_MODE_NTSC;
    NamedMode (lit "NTSC-J") 13500 720 480 DRM_MODE_FLAG_INTERLACE DRM_MODE_TV_MODE_NTSC_J;
    NamedMode (lit "PAL") 13500 720 576 DRM_MODE_FLAG_INTERLACE DRM_MODE_TV_MODE_PAL;
    NamedMode (lit "PAL-M") 13500 720 480 DRM_MODE_FLAG_INTERLACE DRM_MODE_TV_MODE_PAL_M ].

Fixpoint try_named (modes : list drm_named_mode) (s : text) (name_end : Z) (mode : drm_cmdline_mode)
    : option (Z * drm_cmdline_mode) :=
  match modes with
  | [] => Some (- EINVAL, mode)
  | n :: modes =>
    ret ← str_has_prefix s 0 (nm_name n);
    if negb (ret =? name_end) then try_named modes s name_end mode
    else Some (1, with_named_mode (nm_name n) (nm_pixel_clock_khz n) (nm_xres n) (nm_yres n)
                    (tst (nm_flags n) DRM_MODE_FLAG_INTERLACE) (nm_tv_mode n) mode)
  end.

(** The name is the start of the line. *)
Definition drm_mode_parse_cmdline_named_mode `{KernelText} (s : text) (name_end : Z) (mode : drm_cmdline_mode)
    : option (Z * drm_cmdline_mode) :=
  if name_end =? 0 then Some (0, mode)
  else
    c ← char_at s 0;
    if isdigit c then Some (0, mode)
    else
      eq ← strnchr s 0 name_end "="%char;
      match eq with
      | Some _ => Some (0, mode)
      | None =>
        if (name_end =? 1) && (bool_decide (c = "d"%char) || bool_decide (c = "D"%char) || bool_decide (c = "e"%char))
        then Some (0, mode)
        else try_named drm_named_modes s name_end mode
      end.

Definition drm_tv_mode_enum_list : list (Z * text) :=
  [ (DRM_MODE_TV_MODE_NTSC, lit "NTSC"); (DRM_MODE_TV_MODE_NTSC_443, lit "NTSC-443");
    (DRM_MODE_TV_MODE_NTSC_J, lit "NTSC-J"); (DRM_MODE_TV_MODE_PAL, lit "PAL");
    (DRM_MODE_TV_MODE_PAL_M, lit "PAL-M"); (DRM_MODE_TV_MODE_PAL_N, lit "PAL-N");
    (DRM_MODE_TV_MODE_SECAM, lit "SECAM"); (DRM_MODE_TV_MODE_MONOCHROME, lit "Mono") ].

Fixpoint tv_mode_from (items : list (Z * text)) (s : text) (name len : Z) : option Z :=
  match items with
  | [] => Some (- EINVAL)
  | (ty, w) :: items =>
    eq ← strncmp_eq s name w len;
    if (Z.of_nat (length w) =? len) && eq then Some ty else tv_mode_from items s name len
  end.
Definition drm_get_tv_mode_from_name (s : text) (name len : Z) : option Z :=
  tv_mode_from drm_tv_mode_enum_list s name len.

Section parser.
Context `{KernelText} (connector_type : Z) (s : text).

(** The value and the end pointer. *)
Definition simple_strtol (p : Z) : option (Z * Z) :=
  t ← text_at s p; let '(v, n) := strtol t in Some (v, p + Z.of_nat n).

(** ** Numbers after a mark *)

Definition drm_mode_parse_cmdline_bpp (str : Z) (mode : drm_cmdline_mode)
    : option (Z * Z * drm_cmdline_mode) :=
  c ← char_at s str;
  if negb (bool_decide (c = "-"%char)) then Some (- EINVAL, 0, mode)
  else
    let str := str + 1 in
    '(bpp, end_ptr) ← simple_strtol str;
    if end_ptr =? str then Some (- EINVAL, end_ptr, mode)
    else Some (0, end_ptr, with_bpp (s32 (u32 bpp)) mode).

Definition drm_mode_parse_cmdline_refresh (str : Z) (mode : drm_cmdline_mode)
    : option (Z * Z * drm_cmdline_mode) :=
  c ← char_at s str;
  if negb (bool_decide (c = "@"%char)) then Some (- EINVAL, 0, mode)
  else
    let str := str + 1 in
    '(refresh, end_ptr) ← simple_strtol str;
    if end_ptr =? str then Some (- EINVAL, end_ptr, mode)
    else Some (0, end_ptr, with_refresh (s32 (u32 refresh)) mode).

(** ** Extras *)

Definition parse_extra_char (c : ascii) (freestanding : bool) (mode : drm_cmdline_mode)
    : Z * drm_cmdline_mode :=
  let unspecified := bool_decide (cm_force mode = DRM_FORCE_UNSPECIFIED) in
  if bool_decide (c = "i"%char) then
    if freestanding then (- EINVAL, mode) else (0, with_interlace mode)
  else if bool_decide (c = "m"%char) then
    if freestanding then (- EINVAL, mode) else (0, with_margins mode)
  else if bool_decide (c = "D"%char) then
    if negb unspecified then (- EINVAL, mode)
    else if negb (connector_type =? DRM_MODE_CONNECTOR_DVII)
            && negb (connector_type =? DRM_MODE_CONNECTOR_HDMIB)
    then (0, with_force DRM_FORCE_ON mode)
    else (0, with_force DRM_FORCE_ON_DIGITAL mode)
  else if bool_decide (c = "d"%char) then
    if negb unspecified then (- EINVAL, mode) else (0, with_force DRM_FORCE_OFF mode)
  else if bool_decide (c = "e"%char) then
    if negb unspecified then (- EINVAL, mode) else (0, with_force DRM_FORCE_ON mode)
  else (- EINVAL, mode).

(** [length] characters from [str]. *)
Fixpoint parse_extra (length : nat) (str : Z) (freestanding : bool) (mode : drm_cmdline_mode)
    : option (Z * drm_cmdline_mode) :=
  match length with
  | O => Some (0, mode)
  | S length =>
    c ← char_at s str;
    let '(ret, mode) := parse_extra_char c freestanding mode in
    if ret =? 0 then parse_extra length (str + 1) freestanding mode else Some (ret, mode)
  end.
Definition drm_mode_parse_cmdline_extra (str length : Z) (freestanding : bool) (mode : drm_cmdline_mode)
    : option (Z * drm_cmdline_mode) :=
  parse_extra (Z.to_nat length) str freestanding mode.

(** ** The resolution *)

(** The loop over what follows the numbers. *)
Fixpoint res_flags (remaining : nat) (p : Z) (extras cvt rb : bool) (mode : drm_cmdline_mode)
    : option (Z * bool * bool * drm_cmdline_mode) :=
  match remaining with
  | O => Some (0, cvt, rb, mode)
  | S remaining =>
    c ← char_at s p;
    if bool_decide (c = "M"%char) then res_flags remaining (p + 1) extras true rb mode
    else if bool_decide (c = "R"%char) then res_flags remaining (p + 1) extras cvt true mode
    else if extras then
      '(ret, mode) ← drm_mode_parse_cmdline_extra p 1 false mode;
      if ret =? 0 then res_flags remaining (p + 1) extras cvt rb mode else Some (ret, cvt, rb, mode)
    else Some (- EINVAL, cvt, rb, mode)
  end.

Definition drm_mode_parse_cmdline_res_mode (str length : Z) (extras : bool) (mode : drm_cmdline_mode)
    : option (Z * drm_cmdline_mode) :=
  let str_start := str in
  '(xres, end_ptr) ← simple_strtol str;
  if end_ptr =? str then Some (- EINVAL, mode)
  else
    c ← char_at s end_ptr;
    if negb (bool_decide (c = "x"%char)) then Some (- EINVAL, mode)
    else
      let str := end_ptr + 1 in
      '(yres, end_ptr) ← simple_strtol str;
      if end_ptr =? str then Some (- EINVAL, mode)
      else
        let remaining := s32 (length - (end_ptr - str_start)) in
        if remaining <? 0 then Some (- EINVAL, mode)
        else
          '(ret, cvt, rb, mode) ← res_flags (Z.to_nat remaining) end_ptr extras false false mode;
          if ret =? 0 then Some (0, with_resolution (s32 xres) (s32 yres) cvt rb mode)
          else Some (ret, mode).

(** ** Options *)

(** The code and the value. *)
Definition drm_mode_parse_cmdline_int (delim : Z) : option (Z * Z) :=
  c ← char_at s delim;
  if negb (bool_decide (c = "="%char)) then Some (- EINVAL, 0)
  else
    let value := delim + 1 in
    '(v, endp) ← simple_strtol value;
    Some (if endp =? value then - EINVAL else 0, u32 v).

(** Where an option or its value ends. *)
Definition comma_or_end (p : Z) : option Z :=
  c ← strchr s p ","%char;
  match c with Some q => Some q | None => n ← strlen s p; Some (p + n) end.

Definition drm_mode_parse_panel_orientation (delim : Z) (mode : drm_cmdline_mode)
    : option (Z * drm_cmdline_mode) :=
  c ← char_at s delim;
  if negb (bool_decide (c = "="%char)) then Some (- EINVAL, mode)
  else
    let value := delim + 1 in
    delim ← comma_or_end value;
    let value_is w := strncmp_eq s value (lit w) (delim - value) in
    b ← value_is "normal"%string;
    if (b : bool) then Some (0, with_orientation DRM_MODE_PANEL_ORIENTATION_NORMAL mode) else
    b ← value_is "upside_down"%string;
    if (b : bool) then Some (0, with_orientation DRM_MODE_PANEL_ORIENTATION_BOTTOM_UP mode) else
    b ← value_is "left_side_up"%string;
    if (b : bool) then Some (0, with_orientation DRM_MODE_PANEL_ORIENTATION_LEFT_UP mode) else
    b ← value_is "right_side_up"%string;
    if (b : bool) then Some (0, with_orientation DRM_MODE_PANEL_ORIENTATION_RIGHT_UP mode)
    else Some (- EINVAL, mode).

Definition drm_mode_parse_tv_mode (delim : Z) (mode : drm_cmdline_mode)
    : option (Z * drm_cmdline_mode) :=
  c ← char_at s delim;
  if negb (bool_decide (c = "="%char)) then Some (- EINVAL, mode)
  else
    let value := delim + 1 in
    delim ← comma_or_end value;
    ret ← drm_get_tv_mode_from_name s value (delim - value);
    if ret <? 0 then Some (ret, mode) else Some (0, with_tv_mode ret mode).

(** What an option is: the first name it is a prefix of. *)
Inductive option_name :=
  OptRotate | OptReflectX | OptReflectY | OptMarginRight | OptMarginLeft | OptMarginTop
  | OptMarginBottom | OptPanelOrientation | OptTvMode.
Definition option_names : list (option_name * text) :=
  [ (OptRotate, lit "rotate"); (OptReflectX, lit "reflect_x"); (OptReflectY, lit "reflect_y");
    (OptMarginRight, lit "margin_right"); (OptMarginLeft, lit "margin_left");
    (OptMarginTop, lit "margin_top"); (OptMarginBottom, lit "margin_bottom");
    (OptPanelOrientation, lit "panel_orientation"); (OptTvMode, lit "tv_mode") ].

Fixpoint which_option (names : list (option_name * text)) (opt n : Z) : option (option option_name) :=
  match names with
  | [] => Some None
  | (o, w) :: names =>
    b ← strncmp_eq s opt w n; if (b : bool) then Some (Some o) else which_option names opt n
  end.

Definition rotate_bit (deg : Z) : option Z :=
  if deg =? 0 then Some DRM_MODE_ROTATE_0
  else if deg =? 90 then Some DRM_MODE_ROTATE_90
  else if deg =? 180 then Some DRM_MODE_ROTATE_180
  else if deg =? 270 then Some DRM_MODE_ROTATE_270
  else None.

(** A margin is an unsigned int assigned to an unsigned int. *)
Definition with_margin (o : option_name) (v : Z) (mode : drm_cmdline_mode) : drm_cmdline_mode :=
  let t := cm_tv_margins mode in
  with_tv_margins
    match o with
    | OptMarginRight => TvMargins (tv_bottom t) (tv_left t) v (tv_top t)
    | OptMarginLeft => TvMargins (tv_bottom t) v (tv_right t) (tv_top t)
    | OptMarginTop => TvMargins (tv_bottom t) (tv_left t) (tv_right t) v
    | OptMarginBottom => TvMargins v (tv_left t) (tv_right t) (tv_top t)
    | _ => t
    end mode.

(** One option, whose name ends at [delim]. *)
Definition parse_option (opt delim rotation : Z) (mode : drm_cmdline_mode)
    : option (Z * Z * drm_cmdline_mode) :=
  o ← which_option option_names opt (delim - opt);
  match o with
  | None => Some (- EINVAL, rotation, mode)
  | Some OptRotate =>
    '(ret, deg) ← drm_mode_parse_cmdline_int delim;
    if negb (ret =? 0) then Some (- EINVAL, rotation, mode)
    else match rotate_bit deg with
         | None => Some (- EINVAL, rotation, mode)
         | Some b => Some (0, Z.lor rotation b, mode)
         end
  | Some OptReflectX => Some (0, Z.lor rotation DRM_MODE_REFLECT_X, mode)
  | Some OptReflectY => Some (0, Z.lor rotation DRM_MODE_REFLECT_Y, mode)
  | Some OptPanelOrientation =>
    '(ret, mode) ← drm_mode_parse_panel_orientation delim mode;
    Some (if ret =? 0 then 0 else - EINVAL, rotation, mode)
  | Some OptTvMode =>
    '(ret, mode) ← drm_mode_parse_tv_mode delim mode;
    Some (if ret =? 0 then 0 else - EINVAL, rotation, mode)
  | Some o =>
    '(ret, margin) ← drm_mode_parse_cmdline_int delim;
    if negb (ret =? 0) then Some (- EINVAL, rotation, mode)
    else Some (0, rotation, with_margin o margin mode)
  end.

(** The do-while loop; every round goes behind a comma. *)
Fixpoint parse_options (fuel : nat) (opt rotation : Z) (mode : drm_cmdline_mode)
    : option (Z * Z * drm_cmdline_mode) :=
  match fuel with
  | O => None
  | S fuel =>
    eq ← strchr s opt "="%char;
    delim ← match eq with Some d => Some d | None => comma_or_end opt end;
    '(ret, rotation, mode) ← parse_option opt delim rotation mode;
    if negb (ret =? 0) then Some (ret, rotation, mode)
    else
      sep ← strchr s delim ","%char;
      match sep with
      | Some sep => parse_options fuel (sep + 1) rotation mode
      | None => Some (0, rotation, mode)
      end
  end.

Definition drm_mode_parse_cmdline_options (str : Z) (freestanding : bool) (mode : drm_cmdline_mode)
    : option (Z * drm_cmdline_mode) :=
  '(ret, rotation, mode) ← parse_options (S (length s)) str 0 mode;
  if negb (ret =? 0) then Some (ret, mode)
  else if negb (rotation =? 0) && freestanding then Some (- EINVAL, mode)
  else
    let rotation := if tst rotation DRM_MODE_ROTATE_MASK then rotation else Z.lor rotation DRM_MODE_ROTATE_0 in
    if negb (is_power_of_2 (Z.land rotation DRM_MODE_ROTATE_MASK)) then Some (- EINVAL, mode)
    else Some (0, with_rotation rotation mode).

(** ** The mode line *)

(** The while loop that looks for a minus with a digit behind it. *)
Fixpoint find_bpp (fuel : nat) (options_off : Z) (bpp_ptr : option Z) : option (option Z) :=
  match fuel, bpp_ptr with
  | O, _ => None
  | _, None => Some None
  | S fuel, Some p =>
    c ← char_at s (p + 1);
    if isdigit c then Some (Some p)
    else q ← strnchr s (p + 1) options_off "-"%char; find_bpp fuel options_off q
  end.

Definition cmdline_init : drm_cmdline_mode :=
  CmdMode [] false false false 0 0 0 0 0 false false false false DRM_FORCE_UNSPECIFIED 0
    DRM_MODE_PANEL_ORIENTATION_UNKNOWN (TvMargins 0 0 0 0) 0 false.

(** What follows once the mode itself is known or missing. *)
Definition parse_rest (bpp_ptr refresh_ptr options_ptr extra_ptr : option Z) (freestanding : bool)
    (mode : drm_cmdline_mode) : option (bool * drm_cmdline_mode) :=
  '(ret, bpp_end_ptr, mode) ←
    match bpp_ptr with
    | Some p => drm_mode_parse_cmdline_bpp p mode
    | None => Some (0, 0, mode)
    end;
  if negb (ret =? 0) then Some (false, mode) else
  '(ret, refresh_end_ptr, mode) ←
    match refresh_ptr with
    | Some p => drm_mode_parse_cmdline_refresh p mode
    | None => Some (0, 0, mode)
    end;
  if negb (ret =? 0) then Some (false, mode) else
  let extra_ptr :=
    match bpp_ptr, refresh_ptr with
    | Some _, Some _ => Some (Z.max bpp_end_ptr refresh_end_ptr)
    | Some _, None => Some bpp_end_ptr
    | None, Some _ => Some refresh_end_ptr
    | None, None => extra_ptr
    end in
  '(ret, mode) ←
    match extra_ptr with
    | Some p =>
      len ← match options_ptr with Some o => Some (s32 (o - p)) | None => n ← strlen s p; Some (s32 n) end;
      drm_mode_parse_cmdline_extra p len freestanding mode
    | None => Some (0, mode)
    end;
  if negb (ret =? 0) then Some (false, mode) else
  '(ret, mode) ←
    match options_ptr with
    | Some o => drm_mode_parse_cmdline_options (o + 1) freestanding mode
    | None => Some (0, mode)
    end;
  Some (ret =? 0, mode).

(** The line is given; without one the parser returns false at once. *)
Definition drm_mode_parse_command_line_for_connector : option (bool * drm_cmdline_mode) :=
  let mode := cmdline_init in
  let name := 0 in
  options_ptr ← strchr s name ","%char;
  options_off ← match options_ptr with Some o => Some (u32 (o - name)) | None => n ← strlen s name; Some (u32 n) end;
  bpp_ptr ← strnchr s name options_off "-"%char;
  bpp_ptr ← find_bpp (S (length s)) options_off bpp_ptr;
  refresh_ptr ← strnchr s name options_off "@"%char;
  '(mode_end, parse_extras) ←
    match bpp_ptr, refresh_ptr, options_ptr with
    | Some p, _, _ => Some (u32 (p - name), false)
    | None, Some p, _ => Some (u32 (p - name), false)
    | None, None, Some _ => Some (options_off, true)
    | None, None, None => n ← strlen s name; Some (u32 n, true)
    end;
  if mode_end =? 0 then Some (false, mode) else
  '(ret, mode) ← drm_mode_parse_cmdline_named_mode s mode_end mode;
  if ret <? 0 then Some (false, mode)
  else if negb (ret =? 0) && bool_decide (is_Some refresh_ptr) then Some (false, mode)
  else
    c ← char_at s name;
    '(ret, mode) ←
      (if negb (cm_specified mode) && isdigit c then
         '(ret, mode) ← drm_mode_parse_cmdline_res_mode name mode_end parse_extras mode;
         Some (ret, if ret =? 0 then with_specified mode else mode)
       else Some (0, mode));
    if negb (ret =? 0) then Some (false, mode)
    else if cm_specified mode then parse_rest bpp_ptr refresh_ptr options_ptr None false mode
    else
      len ← strlen s 0;
      let len := u32 len in
      if bool_decide (is_Some bpp_ptr) || bool_decide (is_Some refresh_ptr) then Some (false, mode)
      else
        c1 ← (if 2 <=? len then char_at s 1 else Some NUL);
        if (len =? 1) || (2 <=? len) && bool_decide (c1 = ","%char)
        then parse_rest None None options_ptr (Some 0) true mode
        else parse_rest None None (Some (-1)) None true mode.
End parser.
