(* ===== verification/CmdLineTotal.v ===== *)
(** * Modes from the kernel command line: the parser reads inside the line

    What is at a pointer of the line, and that every function of the parser has a
    result: whatever the line, [parser_returns]. *)

From stdpp Require Import base numbers list option.
From Stdlib Require Import ZArith Lia Bool Ascii.
From Stdlib Require String.
Import (notations) String.
From S2P Require Import Prelude Rect Modes CmdLine.
#[local] Open Scope Z_scope.

(** ** The text at a pointer *)

Abbreviation len t := (Z.of_nat (length t)).

Lemma at_app s p a t : text_at s p = Some (a ++ t) -> text_at s (p + len a) = Some t.
Proof.
  unfold text_at. destruct (Z.leb_spec 0 p); cbn [andb]; [|done].
  destruct (Z.leb_spec p (len s)); [|done]. intros [= E].
  assert (El : (length (drop (Z.to_nat p) s) = length a + length t)%nat) by (rewrite E; apply length_app).
  rewrite length_drop in El.
  destruct (Z.leb_spec 0 (p + len a)); [|lia]. destruct (Z.leb_spec (p + len a) (len s)); [|lia].
  cbn [andb]. f_equal. rewrite Z2Nat.inj_add, Nat2Z.id by lia. rewrite <- drop_drop, E. apply drop_app_length.
Qed.

Lemma at_cons s p c t : text_at s p = Some (c :: t) -> text_at s (p + 1) = Some t.
Proof. intros E. by apply (at_app s p [c] t). Qed.

Lemma at_start s : text_at s 0 = Some s.
Proof. unfold text_at. cbn. destruct (Z.leb_spec 0 (len s)); [done|lia]. Qed.

Lemma at_in s p : 0 <= p <= len s -> exists t, text_at s p = Some t /\ len t = len s - p.
Proof.
  intros Hp. unfold text_at. destruct (Z.leb_spec 0 p); [|lia]. destruct (Z.leb_spec p (len s)); [|lia].
  eexists. split; [done|]. rewrite length_drop. lia.
Qed.

Lemma at_bound s p t : text_at s p = Some t -> 0 <= p <= len s /\ len t = len s - p.
Proof.
  unfold text_at. destruct (Z.leb_spec 0 p); [|done]. destruct (Z.leb_spec p (len s)); [|done].
  cbn [andb]. intros [= <-]. rewrite length_drop. lia.
Qed.

Lemma index_of_bound c t i : index_of c t = Some i -> 0 <= i < len t.
Proof.
  revert i. induction t as [|x t IH]; intros i; cbn [index_of length]; [done|]. case_decide.
  - intros [= <-]. lia.
  - destruct (index_of c t) as [j|]; [|done]. intros [= <-]. specialize (IH j eq_refl). lia.
Qed.

Lemma index_of_app c a t : c ∉ a -> index_of c (a ++ c :: t) = Some (len a).
Proof.
  induction a as [|x a IH]; intros Hc; cbn [app index_of]; [by rewrite decide_True|].
  apply not_elem_of_cons in Hc as [Hx Hc]. rewrite decide_False by congruence. rewrite IH by done.
  cbn. f_equal. lia.
Qed.

Lemma index_of_none c t : c ∉ t -> index_of c t = None.
Proof.
  induction t as [|x t IH]; intros Hc; [done|]. cbn [index_of].
  apply not_elem_of_cons in Hc as [Hx Hc]. rewrite decide_False by congruence. by rewrite IH.
Qed.

(** What the string functions return for a pointer into the line. *)
Definition inside (s : text) (p : Z) : Prop := 0 <= p <= len s.

Lemma char_at_in s p : inside s p -> exists c, char_at s p = Some c /\ (c <> NUL -> p < len s).
Proof.
  intros Hp. destruct (at_in s p Hp) as (t & E & El). unfold char_at. rewrite E. cbn [mbind option_bind].
  eexists. split; [done|]. destruct t as [|c t]; cbn [head default length] in *; [done|]. intros _. lia.
Qed.

Lemma char_at_head s p c t : text_at s p = Some (c :: t) -> char_at s p = Some c.
Proof. intros E. unfold char_at. by rewrite E. Qed.

Lemma char_at_end s p : text_at s p = Some [] -> char_at s p = Some NUL.
Proof. intros E. unfold char_at. by rewrite E. Qed.

Lemma strlen_in s p : inside s p -> strlen s p = Some (len s - p).
Proof.
  intros Hp. destruct (at_in s p Hp) as (t & E & El). unfold strlen. rewrite E. cbn. by rewrite El.
Qed.

Lemma strchr_in s p c : inside s p ->
  exists r, strchr s p c = Some r /\ forall q, r = Some q -> p <= q < len s.
Proof.
  intros Hp. destruct (at_in s p Hp) as (t & E & El). unfold strchr. rewrite E. cbn [mbind option_bind].
  eexists. split; [done|]. intros q. destruct (index_of c t) as [i|] eqn:Ei; [|done]. intros [= <-].
  apply index_of_bound in Ei. lia.
Qed.

Lemma strnchr_in `{KernelTextLaws} s p n c : inside s p ->
  exists r, strnchr s p n c = Some r /\ forall q, r = Some q -> p <= q < len s.
Proof.
  intros Hp. destruct (at_in s p Hp) as (t & E & El). unfold strnchr. rewrite E. cbn [mbind option_bind]. rewrite strnchr_law.
  eexists. split; [done|]. intros q. destruct (index_of c (take (Z.to_nat n) t)) as [i|] eqn:Ei; [|done].
  intros [= <-]. apply index_of_bound in Ei. rewrite length_take in Ei. lia.
Qed.

Lemma strncmp_in s p w n : inside s p -> exists b, strncmp_eq s p w n = Some b.
Proof.
  intros Hp. destruct (at_in s p Hp) as (t & E & El). unfold strncmp_eq. rewrite E. cbn [mbind option_bind].
  by eexists.
Qed.

Lemma comma_or_end_in s p : inside s p -> exists q, comma_or_end s p = Some q /\ p <= q <= len s.
Proof.
  intros Hp. unfold comma_or_end. destruct (strchr_in s p ","%char Hp) as (r & -> & Hr). cbn [mbind option_bind].
  destruct r as [q|]; [exists q; split; [done|]; specialize (Hr q eq_refl); lia|].
  rewrite (strlen_in s p Hp). cbn [mbind option_bind]. eexists. split; [done|]. unfold inside in Hp. lia.
Qed.

Section total.
Context `{KernelTextLaws} (connector_type : Z) (s : text).

Lemma strtol_in p : inside s p -> exists v e, simple_strtol s p = Some (v, e) /\ p <= e <= len s.
Proof.
  intros Hp. destruct (at_in s p Hp) as (t & E & El). unfold simple_strtol. rewrite E. cbn [mbind option_bind].
  pose proof (strtol_bound t) as Hb. destruct (strtol t) as [v n]. cbn [snd] in Hb.
  eexists _, _. split; [done|]. lia.
Qed.

(** Behind a character of the line there is one or the end. *)
Lemma next_in p c : inside s p -> char_at s p = Some c -> c <> NUL -> inside s (p + 1).
Proof.
  intros Hp Ec Hc. destruct (char_at_in s p Hp) as (c' & E & Hl). rewrite Ec in E. injection E as <-.
  specialize (Hl Hc). unfold inside in *. lia.
Qed.

Lemma bpp_returns p mode : inside s p ->
  exists ret e m, drm_mode_parse_cmdline_bpp s p mode = Some (ret, e, m) /\ (ret = 0 -> inside s e).
Proof.
  intros Hp. unfold drm_mode_parse_cmdline_bpp. destruct (char_at_in s p Hp) as (c & Ec & _). rewrite Ec.
  cbn [mbind option_bind]. case_bool_decide as Hc; cbn [negb]; [|by eexists _, _, _]. subst c.
  destruct (strtol_in (p + 1) (next_in p _ Hp Ec ltac:(done))) as (v & e & -> & He). cbn [mbind option_bind].
  unfold inside in *. destruct (e =? p + 1); eexists _, _, _; (split; [done|]); lia.
Qed.

Lemma refresh_returns p mode : inside s p ->
  exists ret e m, drm_mode_parse_cmdline_refresh s p mode = Some (ret, e, m) /\ (ret = 0 -> inside s e).
Proof.
  intros Hp. unfold drm_mode_parse_cmdline_refresh. destruct (char_at_in s p Hp) as (c & Ec & _). rewrite Ec.
  cbn [mbind option_bind]. case_bool_decide as Hc; cbn [negb]; [|by eexists _, _, _]. subst c.
  destruct (strtol_in (p + 1) (next_in p _ Hp Ec ltac:(done))) as (v & e & -> & He). cbn [mbind option_bind].
  unfold inside in *. destruct (e =? p + 1); eexists _, _, _; (split; [done|]); lia.
Qed.

Lemma extra_nul freestanding mode : (parse_extra_char connector_type NUL freestanding mode).1 <> 0.
Proof. unfold parse_extra_char. by repeat case_bool_decide. Qed.

Lemma extra_returns n : forall p freestanding mode, inside s p ->
  exists ret m, parse_extra connector_type s n p freestanding mode = Some (ret, m)
    /\ (ret = 0 -> inside s (p + Z.of_nat n)).
Proof.
  induction n as [|n IH]; intros p fr mode Hp; cbn [parse_extra].
  { eexists _, _. split; [done|]. intros _. by rewrite Z.add_0_r. }
  destruct (char_at_in s p Hp) as (c & Ec & _). rewrite Ec. cbn [mbind option_bind].
  destruct (parse_extra_char connector_type c fr mode) as [ret m] eqn:Ex.
  destruct (Z.eqb_spec ret 0) as [->|Hr]; [|by eexists _, _].
  assert (Hc : c <> NUL) by (intros ->; pose proof (extra_nul fr mode) as Hn; by rewrite Ex in Hn).
  destruct (IH (p + 1) fr m (next_in p c Hp Ec Hc)) as (r & m' & -> & Hr). eexists _, _. split; [done|].
  intros E. specialize (Hr E). unfold inside in *. lia.
Qed.

Lemma res_flags_returns n : forall p extras cvt rb mode, inside s p ->
  exists r, res_flags connector_type s n p extras cvt rb mode = Some r.
Proof.
  induction n as [|n IH]; intros p extras cvt rb mode Hp; cbn [res_flags]; [by eexists|].
  destruct (char_at_in s p Hp) as (c & Ec & _). rewrite Ec. cbn [mbind option_bind].
  case_bool_decide as HM; [apply IH, (next_in p c Hp Ec); by subst|].
  case_bool_decide as HR; [apply IH, (next_in p c Hp Ec); by subst|].
  destruct extras; [|by eexists].
  unfold drm_mode_parse_cmdline_extra. destruct (extra_returns 1 p false mode Hp) as (ret & m & E & Hr).
  change (Z.to_nat 1) with 1%nat. rewrite E. cbn [mbind option_bind].
  destruct (Z.eqb_spec ret 0) as [Hz|]; [|by eexists]. apply IH, Hr, Hz.
Qed.

Lemma res_mode_returns p n extras mode : inside s p ->
  exists ret m, drm_mode_parse_cmdline_res_mode connector_type s p n extras mode = Some (ret, m).
Proof.
  intros Hp. unfold drm_mode_parse_cmdline_res_mode.
  destruct (strtol_in p Hp) as (x & e & -> & He). cbn [mbind option_bind].
  destruct (e =? p); [by eexists _, _|]. assert (Hie : inside s e) by (unfold inside in *; lia).
  destruct (char_at_in s e Hie) as (c & Ec & _). rewrite Ec. cbn [mbind option_bind].
  case_bool_decide as Hc; cbn [negb]; [|by eexists _, _]. subst c.
  destruct (strtol_in (e + 1) (next_in e _ Hie Ec ltac:(done))) as (y & e2 & -> & He2). cbn [mbind option_bind].
  destruct (e2 =? e + 1); [by eexists _, _|]. destruct (_ <? 0); [by eexists _, _|].
  match goal with |- context [res_flags _ _ ?n ?p ?a ?b ?c ?d] =>
    destruct (res_flags_returns n p a b c d) as [[[[ret cvt] rb] m] ->] end.
  { unfold inside in *. lia. }
  cbn [mbind option_bind]. destruct (ret =? 0); by eexists _, _.
Qed.

Lemma int_returns p : inside s p -> exists ret v, drm_mode_parse_cmdline_int s p = Some (ret, v).
Proof.
  intros Hp. unfold drm_mode_parse_cmdline_int. destruct (char_at_in s p Hp) as (c & Ec & _). rewrite Ec.
  cbn [mbind option_bind]. case_bool_decide as Hc; cbn [negb]; [|by eexists _, _]. subst c.
  destruct (strtol_in (p + 1) (next_in p _ Hp Ec ltac:(done))) as (v & e & -> & He). cbn [mbind option_bind].
  by eexists _, _.
Qed.

Lemma orientation_returns p mode : inside s p ->
  exists ret m, drm_mode_parse_panel_orientation s p mode = Some (ret, m).
Proof.
  intros Hp. unfold drm_mode_parse_panel_orientation. destruct (char_at_in s p Hp) as (c & Ec & _). rewrite Ec.
  cbn [mbind option_bind]. case_bool_decide as Hc; cbn [negb]; [|by eexists _, _]. subst c.
  pose proof (next_in p _ Hp Ec ltac:(done)) as Hv.
  destruct (comma_or_end_in s (p + 1) Hv) as (q & -> & Hq). cbn [mbind option_bind]. cbv zeta.
  pose proof (fun w => strncmp_in s (p + 1) (lit w) (q - (p + 1)) Hv) as Hw.
  destruct (Hw "normal"%string) as [[] ->]; [by eexists _, _|]. cbn [mbind option_bind].
  destruct (Hw "upside_down"%string) as [[] ->]; [by eexists _, _|]. cbn [mbind option_bind].
  destruct (Hw "left_side_up"%string) as [[] ->]; [by eexists _, _|]. cbn [mbind option_bind].
  destruct (Hw "right_side_up"%string) as [[] ->]; [by eexists _, _|].
  by eexists _, _.
Qed.

Lemma tv_mode_from_returns items p n : inside s p -> exists r, tv_mode_from items s p n = Some r.
Proof.
  intros Hp. induction items as [|[ty w] items IH]; cbn [tv_mode_from]; [by eexists|].
  destruct (strncmp_in s p w n Hp) as [b ->]. cbn [mbind option_bind]. destruct (_ && b); [by eexists|done].
Qed.

Lemma tv_mode_returns p mode : inside s p -> exists ret m, drm_mode_parse_tv_mode s p mode = Some (ret, m).
Proof.
  intros Hp. unfold drm_mode_parse_tv_mode. destruct (char_at_in s p Hp) as (c & Ec & _). rewrite Ec.
  cbn [mbind option_bind]. case_bool_decide as Hc; cbn [negb]; [|by eexists _, _]. subst c.
  pose proof (next_in p _ Hp Ec ltac:(done)) as Hv.
  destruct (comma_or_end_in s (p + 1) Hv) as (q & -> & Hq). cbn [mbind option_bind].
  unfold drm_get_tv_mode_from_name. destruct (tv_mode_from_returns drm_tv_mode_enum_list (p + 1) (q - (p + 1)) Hv) as [r ->].
  cbn [mbind option_bind]. destruct (r <? 0); by eexists _, _.
Qed.

Lemma which_option_returns names p n : inside s p -> exists r, which_option s names p n = Some r.
Proof.
  intros Hp. induction names as [|[o w] names IH]; cbn [which_option]; [by eexists|].
  destruct (strncmp_in s p w n Hp) as [b ->]. cbn [mbind option_bind]. destruct b; [by eexists|done].
Qed.

Lemma option_returns p q rotation mode : inside s p -> inside s q ->
  exists ret r m, parse_option s p q rotation mode = Some (ret, r, m).
Proof.
  intros Hp Hq. unfold parse_option.
  destruct (which_option_returns option_names p (q - p) Hp) as [o ->]. cbn [mbind option_bind].
  destruct (int_returns q Hq) as (ri & v & Ei). destruct (orientation_returns q mode Hq) as (ro & mo & Eo).
  destruct (tv_mode_returns q mode Hq) as (rt & mt & Et).
  destruct o as [[]|]; rewrite ?Ei, ?Eo, ?Et; cbn [mbind option_bind]; try (by eexists _, _, _);
    destruct (negb (ri =? 0)); try (by eexists _, _, _). destruct (rotate_bit v); by eexists _, _, _.
Qed.

Lemma options_return fuel : forall p rotation mode, inside s p -> len s - p < Z.of_nat fuel ->
  exists ret r m, parse_options s fuel p rotation mode = Some (ret, r, m).
Proof.
  induction fuel as [|fuel IH]; intros p rotation mode Hp Hf; [unfold inside in *; lia|]. cbn [parse_options].
  destruct (strchr_in s p "="%char Hp) as (eq & -> & Heq). cbn [mbind option_bind].
  assert (Hd : exists d, match eq with Some d => Some d | None => comma_or_end s p end = Some d /\ p <= d <= len s).
  { destruct eq as [d|]; [|by apply comma_or_end_in]. exists d. split; [done|]. specialize (Heq d eq_refl). lia. }
  destruct Hd as (d & -> & Hd). cbn [mbind option_bind].
  assert (Hid : inside s d) by (unfold inside in *; lia).
  destruct (option_returns p d rotation mode Hp Hid) as (ret & r & m & ->). cbn [mbind option_bind].
  destruct (negb (ret =? 0)); [by eexists _, _, _|].
  destruct (strchr_in s d ","%char Hid) as (sep & -> & Hsep). cbn [mbind option_bind].
  destruct sep as [c|]; [|by eexists _, _, _]. specialize (Hsep c eq_refl).
  apply IH; unfold inside in *; lia.
Qed.

Lemma find_bpp_returns fuel : forall off p, len s - default (len s) p < Z.of_nat fuel ->
  (forall q, p = Some q -> 0 <= q < len s) ->
  exists r, find_bpp s fuel off p = Some r /\ forall q, r = Some q -> 0 <= q < len s.
Proof.
  induction fuel as [|fuel IH]; intros off p Hf Hp.
  { destruct p as [q|]; cbn in Hf; [specialize (Hp q eq_refl)|]; lia. }
  cbn [find_bpp]. destruct p as [q|]; [|by eexists]. specialize (Hp q eq_refl). cbn in Hf.
  assert (Hq : inside s (q + 1)) by (unfold inside; lia).
  destruct (char_at_in s (q + 1) Hq) as (c & -> & _). cbn [mbind option_bind].
  destruct (isdigit c); [eexists; split; [done|]; by intros ? [= <-]|].
  destruct (strnchr_in s (q + 1) off "-"%char Hq) as (r & -> & Hr). cbn [mbind option_bind].
  apply IH; [|intros x Hx; specialize (Hr x Hx); lia].
  destruct r as [x|]; cbn; [specialize (Hr x eq_refl)|]; lia.
Qed.

Lemma named_returns n mode : exists ret m, drm_mode_parse_cmdline_named_mode s n mode = Some (ret, m).
Proof.
  unfold drm_mode_parse_cmdline_named_mode. destruct (n =? 0); [by eexists _, _|].
  assert (Hz : inside s 0) by (unfold inside; lia).
  destruct (char_at_in s 0 Hz) as (c & -> & _). cbn [mbind option_bind].
  destruct (isdigit c); [by eexists _, _|].
  destruct (strnchr_in s 0 n "="%char Hz) as (r & -> & _). cbn [mbind option_bind].
  destruct r; [by eexists _, _|]. destruct (_ && _); [by eexists _, _|].
  induction drm_named_modes as [|nm modes IH]; cbn [try_named]; [by eexists _, _|].
  unfold str_has_prefix. destruct (strncmp_in s 0 (nm_name nm) (len (nm_name nm)) Hz) as [b ->].
  cbn [mbind option_bind]. destruct (negb _); [done|by eexists _, _].
Qed.

Lemma rest_returns bpp_ptr refresh_ptr options_ptr extra_ptr freestanding mode :
  (forall q, bpp_ptr = Some q -> inside s q) -> (forall q, refresh_ptr = Some q -> inside s q) ->
  (forall q, options_ptr = Some q -> inside s (q + 1)) -> (forall q, extra_ptr = Some q -> inside s q) ->
  exists r, parse_rest connector_type s bpp_ptr refresh_ptr options_ptr extra_ptr freestanding mode = Some r.
Proof.
  intros Hb Hr Ho He. unfold parse_rest.
  assert (Eb : exists ret e m, match bpp_ptr with
      | Some p => drm_mode_parse_cmdline_bpp s p mode | None => Some (0, 0, mode) end = Some (ret, e, m)
      /\ (ret = 0 -> inside s e)).
  { destruct bpp_ptr as [p|]; [apply bpp_returns, Hb; done|]. eexists _, _, _. split; [done|].
    unfold inside. lia. }
  destruct Eb as (ret & be & m & -> & Hbe). cbn [mbind option_bind].
  destruct (Z.eqb_spec ret 0) as [E0|]; cbn [negb]; [|by eexists]. specialize (Hbe E0).
  assert (Er : exists ret e m', match refresh_ptr with
      | Some p => drm_mode_parse_cmdline_refresh s p m | None => Some (0, 0, m) end = Some (ret, e, m')
      /\ (ret = 0 -> inside s e)).
  { destruct refresh_ptr as [p|]; [apply refresh_returns, Hr; done|]. eexists _, _, _. split; [done|].
    unfold inside. lia. }
  destruct Er as (ret2 & re & m2 & -> & Hre). cbn [mbind option_bind].
  destruct (Z.eqb_spec ret2 0) as [E2|]; cbn [negb]; [|by eexists]. specialize (Hre E2).
  match goal with |- context [match ?x with Some p => _ | None => Some (0, m2) end] => set (extra := x) end.
  assert (Hex : forall q, extra = Some q -> inside s q).
  { unfold extra. intros q. destruct bpp_ptr, refresh_ptr; try (intros [= <-]); [|done..|by apply He].
    unfold inside in *. lia. }
  assert (Ex : exists ret3 m3, match extra with
      | Some p =>
        len ← match options_ptr with Some o => Some (s32 (o - p)) | None => n ← strlen s p; Some (s32 n) end;
        drm_mode_parse_cmdline_extra connector_type s p len freestanding m2
      | None => Some (0, m2) end = Some (ret3, m3)).
  { destruct extra as [p|]; [|by eexists _, _]. specialize (Hex p eq_refl).
    assert (El : exists n, match options_ptr with
        | Some o => Some (s32 (o - p)) | None => n ← strlen s p; Some (s32 n) end = Some n).
    { destruct options_ptr as [o|]; [by eexists|]. rewrite (strlen_in s p Hex). by eexists. }
    destruct El as [n ->]. cbn [mbind option_bind]. unfold drm_mode_parse_cmdline_extra.
    destruct (extra_returns (Z.to_nat n) p freestanding m2 Hex) as (ret3 & m3 & -> & _). by eexists _, _. }
  destruct Ex as (ret3 & m3 & ->). cbn [mbind option_bind].
  destruct (negb (ret3 =? 0)); [by eexists|].
  destruct options_ptr as [o|]; cbn [mbind option_bind]; [|by eexists].
  specialize (Ho o eq_refl). unfold drm_mode_parse_cmdline_options.
  destruct (options_return (S (length s)) (o + 1) 0 m3 Ho) as (ret4 & rot & m4 & ->).
  { unfold inside in Ho. lia. }
  cbn [mbind option_bind]. destruct (negb (ret4 =? 0)); [by eexists|].
  destruct (_ && freestanding); [by eexists|].
  destruct (negb (is_power_of_2 _)); by eexists.
Qed.

(** Whatever the line, the parser reads only the line and its NUL and returns. *)
Lemma parser_returns : exists r, drm_mode_parse_command_line_for_connector connector_type s = Some r.
Proof.
  assert (Hz : inside s 0) by (unfold inside; lia).
  unfold drm_mode_parse_command_line_for_connector.
  destruct (strchr_in s 0 ","%char Hz) as (options_ptr & -> & Ho). cbn [mbind option_bind].
  assert (Eo : exists off, match options_ptr with
      | Some o => Some (u32 (o - 0)) | None => n ← strlen s 0; Some (u32 n) end = Some off).
  { destruct options_ptr; [by eexists|]. rewrite (strlen_in s 0 Hz). by eexists. }
  destruct Eo as [off ->]. cbn [mbind option_bind].
  destruct (strnchr_in s 0 off "-"%char Hz) as (b0 & -> & Hb0). cbn [mbind option_bind].
  destruct (find_bpp_returns (S (length s)) off b0) as (bpp_ptr & -> & Hb);
    [destruct b0 as [q|]; cbn; [specialize (Hb0 q eq_refl)|]; lia|done|]. cbn [mbind option_bind].
  destruct (strnchr_in s 0 off "@"%char Hz) as (refresh_ptr & -> & Hr). cbn [mbind option_bind].
  assert (Em : exists me pe, match bpp_ptr, refresh_ptr, options_ptr with
      | Some p, _, _ => Some (u32 (p - 0), false)
      | None, Some p, _ => Some (u32 (p - 0), false)
      | None, None, Some _ => Some (off, true)
      | None, None, None => n ← strlen s 0; Some (u32 n, true) end = Some (me, pe)).
  { destruct bpp_ptr, refresh_ptr, options_ptr; try by eexists _, _.
    rewrite (strlen_in s 0 Hz). by eexists _, _. }
  destruct Em as (me & pe & ->). cbn [mbind option_bind].
  destruct (Z.eqb_spec me 0); [by eexists|].
  assert (Hrest : forall fr m, exists r, parse_rest connector_type s bpp_ptr refresh_ptr options_ptr None fr m = Some r).
  { intros fr m. apply rest_returns; [..|done]; intros q Hq; unfold inside;
      [specialize (Hb q Hq)|specialize (Hr q Hq)|specialize (Ho q Hq)]; lia. }
  destruct (named_returns me cmdline_init) as (ret & m & ->). cbn [mbind option_bind].
  destruct (ret <? 0); [by eexists|]. destruct (_ && bool_decide (is_Some refresh_ptr)); [by eexists|].
  destruct (char_at_in s 0 Hz) as (c & -> & _). cbn [mbind option_bind].
  assert (Hm : exists ret' m', (if negb (cm_specified m) && isdigit c then
      '(ret, mode) ← drm_mode_parse_cmdline_res_mode connector_type s 0 me pe m;
      Some (ret, if ret =? 0 then with_specified mode else mode)
    else Some (0, m)) = Some (ret', m')).
  { destruct (negb (cm_specified m) && isdigit c); [|by eexists _, _].
    destruct (res_mode_returns 0 me pe m Hz) as (r' & m' & ->). by eexists _, _. }
  destruct Hm as (ret' & m' & ->). cbn [mbind option_bind].
  destruct (negb (ret' =? 0)); [by eexists|]. destruct (cm_specified m'); [apply Hrest|].
  rewrite (strlen_in s 0 Hz). cbn [mbind option_bind].
  destruct (_ || _); [by eexists|].
  assert (Hc : exists c1, (if 2 <=? u32 (len s - 0) then char_at s 1 else Some NUL) = Some c1).
  { destruct (Z.leb_spec 2 (u32 (len s - 0))) as [Hl|]; [|by eexists].
    destruct (char_at_in s 1) as (c1 & E & _); [|by exists c1].
    pose proof (Z.mod_le (len s - 0) (2 ^ 32) ltac:(lia) ltac:(lia)). unfold u32, inside in *. lia. }
  destruct Hc as (c1 & ->). cbn [mbind option_bind].
  destruct (_ || _); apply rest_returns; try done; intros q [= <-] || intros q Hq.
  - specialize (Ho q Hq). unfold inside. lia.
  - by unfold inside; lia.
  - unfold inside. lia.
Qed.
End total.
