(* ===== verification/CmdLineSpec.v ===== *)
(** * Modes from the kernel command line: the mode that a line describes

    Lines of the documented form as records ([mode_line]), the text of one and the mode
    it describes, and that the parser takes the text to the mode. *)

From stdpp Require Import base numbers list option.
From Stdlib Require Import ZArith Lia Bool Ascii.
From Stdlib Require String.
Import (notations) String.
From S2P Require Import Prelude Rect Modes CmdLine CmdLineTotal.
#[local] Open Scope Z_scope.

(** What concrete texts hold, by evaluation. *)
Ltac chars := first [by vm_compute | apply (bool_decide_unpack _); vm_compute; exact I].

(** ** What the functions give where the text is known *)

Lemma char_at_app s p a c t : text_at s p = Some (a ++ c :: t) -> char_at s (p + len a) = Some c.
Proof. intros E. eapply char_at_head, at_app, E. Qed.

Lemma strchr_at s p c a t : text_at s p = Some (a ++ c :: t) -> c ∉ a -> strchr s p c = Some (Some (p + len a)).
Proof. intros E Hc. unfold strchr. rewrite E. cbn [mbind option_bind]. by rewrite index_of_app. Qed.

Lemma strchr_at_none s p c t : text_at s p = Some t -> c ∉ t -> strchr s p c = Some None.
Proof. intros E Hc. unfold strchr. rewrite E. cbn [mbind option_bind]. by rewrite index_of_none. Qed.

Lemma strnchr_at `{KernelTextLaws} s p n c a t : text_at s p = Some (a ++ c :: t) -> c ∉ a -> len a < n ->
  strnchr s p n c = Some (Some (p + len a)).
Proof.
  intros E Hc Hn. unfold strnchr. rewrite E. cbn [mbind option_bind]. rewrite strnchr_law.
  rewrite take_app_ge by lia. destruct (Z.to_nat n - length a)%nat as [|k] eqn:Ek; [lia|].
  cbn [take]. by rewrite index_of_app.
Qed.

Lemma strnchr_at_none `{KernelTextLaws} s p c a t : text_at s p = Some (a ++ t) -> c ∉ a -> strnchr s p (len a) c = Some None.
Proof.
  intros E Hc. unfold strnchr. rewrite E. cbn [mbind option_bind]. rewrite strnchr_law.
  by rewrite Nat2Z.id, take_app_length, index_of_none.
Qed.

Lemma comma_or_end_at s p a t : text_at s p = Some (a ++ t) -> ","%char ∉ a ->
  t = [] \/ head t = Some ","%char -> comma_or_end s p = Some (p + len a).
Proof.
  intros E Ha Ht. unfold comma_or_end. destruct t as [|c t].
  - rewrite app_nil_r in E. rewrite (strchr_at_none s p _ a E Ha). cbn [mbind option_bind].
    unfold strlen. by rewrite E.
  - destruct Ht as [|[= ->]]; [done|]. by rewrite (strchr_at s p _ a t E Ha).
Qed.

Lemma strncmp_at s p w a t : text_at s p = Some (a ++ t) ->
  strncmp_eq s p w (len a) = Some (bool_decide (a = take (length a) w)).
Proof.
  intros E. unfold strncmp_eq. rewrite E. cbn [mbind option_bind]. by rewrite Nat2Z.id, take_app_length.
Qed.

(** What follows an option: the next one or the end. *)
Definition option_end (t : text) : Prop := t = [] \/ head t = Some ","%char.

Lemma option_end_no_digit t : option_end t -> no_digit t.
Proof. intros [->|Ht]; [done|]. destruct t as [|c t]; [done|]. by injection Ht as ->. Qed.

Lemma digit_not ds c : all_digits ds -> isdigit c = false -> c ∉ ds.
Proof. intros [_ Hd] Hc Hin. rewrite Forall_forall in Hd. apply list_elem_of_In in Hin. specialize (Hd c Hin). congruence. Qed.

(** ** Mode lines *)

(** A side of the picture by the option that sets its margin. *)
Definition margin_options : list option_name :=
  [OptMarginRight; OptMarginLeft; OptMarginTop; OptMarginBottom].
Definition orientation_names : list (Z * text) :=
  [ (DRM_MODE_PANEL_ORIENTATION_NORMAL, lit "normal"); (DRM_MODE_PANEL_ORIENTATION_BOTTOM_UP, lit "upside_down");
    (DRM_MODE_PANEL_ORIENTATION_LEFT_UP, lit "left_side_up");
    (DRM_MODE_PANEL_ORIENTATION_RIGHT_UP, lit "right_side_up") ].

(** An option with a value. *)
Inductive mode_option :=
| MRotate (degrees : text)
| MMargin (side : option_name) (pixels : text)
| MOrientation (o : Z) (name : text)
| MTvMode (ty : Z) (name : text).

Definition option_ok (o : mode_option) : Prop :=
  match o with
  | MRotate ds => all_digits ds /\ is_Some (rotate_bit (digits_val ds))
  | MMargin side ds => side ∈ margin_options /\ all_digits ds /\ digits_val ds < 2 ^ 32
  | MOrientation o w => (o, w) ∈ orientation_names
  | MTvMode ty w => (ty, w) ∈ drm_tv_mode_enum_list
  end.

Definition option_kind (o : mode_option) : option_name :=
  match o with
  | MRotate _ => OptRotate | MMargin side _ => side
  | MOrientation _ _ => OptPanelOrientation | MTvMode _ _ => OptTvMode
  end.
Definition option_value (o : mode_option) : text :=
  match o with MRotate v | MMargin _ v | MOrientation _ v | MTvMode _ v => v end.
#[export] Instance option_name_eq_dec : EqDecision option_name.
Proof. solve_decision. Defined.
Definition option_label (k : option_name) : text :=
  match k with
  | OptRotate => lit "rotate" | OptReflectX => lit "reflect_x" | OptReflectY => lit "reflect_y"
  | OptMarginRight => lit "margin_right" | OptMarginLeft => lit "margin_left"
  | OptMarginTop => lit "margin_top" | OptMarginBottom => lit "margin_bottom"
  | OptPanelOrientation => lit "panel_orientation" | OptTvMode => lit "tv_mode"
  end.

(** Options behind the mode: those with a value before those without. *)
Definition valued_text (o : mode_option) : text :=
  ","%char :: option_label (option_kind o) ++ "="%char :: option_value o.
Definition flag_text (y : bool) : text :=
  ","%char :: option_label (if y then OptReflectY else OptReflectX).

Lemma which_option_at s p k t : text_at s p = Some (option_label k ++ t) ->
  which_option s option_names p (len (option_label k)) = Some (Some k).
Proof.
  intros E. unfold option_names. destruct k; cbn [which_option];
    rewrite ?(strncmp_at s p _ _ t E); vm_compute; reflexivity.
Qed.

(** What an option does to the rotation and the mode. *)
Definition apply_valued (o : mode_option) (st : Z * drm_cmdline_mode) : Z * drm_cmdline_mode :=
  match o with
  | MRotate ds => (Z.lor st.1 (default 0 (rotate_bit (digits_val ds))), st.2)
  | MMargin side ds => (st.1, with_margin side (digits_val ds) st.2)
  | MOrientation o _ => (st.1, with_orientation o st.2)
  | MTvMode ty _ => (st.1, with_tv_mode ty st.2)
  end.
Definition apply_flag (y : bool) (st : Z * drm_cmdline_mode) : Z * drm_cmdline_mode :=
  (Z.lor st.1 (if y then DRM_MODE_REFLECT_Y else DRM_MODE_REFLECT_X), st.2).

Lemma digits_val_nonneg ds : 0 <= digits_val ds \/ ~ all_digits ds.
Proof.
  destruct (decide (Forall (fun c => isdigit c = true) ds)) as [Hd|Hd]; [left|right; intros [_ ?]; done].
  unfold digits_val. assert (Hg : forall a, 0 <= a ->
    0 <= fold_left (fun a c => 10 * a + (Z.of_nat (nat_of_ascii c) - 48)) ds a); [|by apply Hg].
  induction Hd as [|c ds Hc _ IH]; intros a Ha; cbn [fold_left]; [done|]. apply IH.
  unfold isdigit in Hc. apply andb_prop in Hc as [Hc _]. apply Z.leb_le in Hc. lia.
Qed.

Lemma digits_val_pos ds : all_digits ds -> 0 <= digits_val ds.
Proof. intros Hd. by destruct (digits_val_nonneg ds). Qed.

Lemma rotate_bit_val d b : rotate_bit d = Some b -> 0 <= d < 2 ^ 32.
Proof.
  unfold rotate_bit. destruct (Z.eqb_spec d 0); [lia|]. destruct (Z.eqb_spec d 90); [lia|].
  destruct (Z.eqb_spec d 180); [lia|]. destruct (Z.eqb_spec d 270); [lia|done].
Qed.

Lemma rotate_no_comma o : option_ok o -> ","%char ∉ option_value o.
Proof.
  destruct o as [ds|side ds|o w|ty w]; cbn [option_ok option_value].
  - intros [Hd _]. by apply digit_not.
  - intros (_ & Hd & _). by apply digit_not.
  - unfold orientation_names. rewrite !elem_of_cons, elem_of_nil. intros Hw.
    destruct_or! Hw; try done; injection Hw as -> ->; chars.
  - unfold drm_tv_mode_enum_list. rewrite !elem_of_cons, elem_of_nil. intros Hw.
    destruct_or! Hw; try done; injection Hw as -> ->; chars.
Qed.

Lemma label_no_mark k : "="%char ∉ option_label k /\ ","%char ∉ option_label k.
Proof. destruct k; split; chars. Qed.

Section options.
Context `{KernelTextLaws} (s : text).

Lemma strtol_at p ds t : text_at s p = Some (ds ++ t) -> all_digits ds -> no_digit t -> digits_val ds < 2 ^ 63 ->
  simple_strtol s p = Some (digits_val ds, p + len ds).
Proof.
  intros E Hd Ht Hb. unfold simple_strtol. rewrite E. cbn [mbind option_bind]. by rewrite strtol_digits.
Qed.

Lemma strtol_moves p ds : all_digits ds -> (p + len ds =? p) = false.
Proof. intros [Hd _]. apply Z.eqb_neq. destruct ds; [done|cbn [length]; lia]. Qed.

Lemma int_at p ds t : text_at s p = Some ("="%char :: ds ++ t) -> all_digits ds -> no_digit t ->
  digits_val ds < 2 ^ 32 -> drm_mode_parse_cmdline_int s p = Some (0, digits_val ds).
Proof.
  intros E Hd Ht Hb. unfold drm_mode_parse_cmdline_int. rewrite (char_at_head s p _ _ E). cbn [mbind option_bind].
  rewrite bool_decide_eq_true_2 by done. cbn [negb].
  rewrite (strtol_at (p + 1) ds t (at_cons _ _ _ _ E) Hd Ht) by lia. cbn [mbind option_bind].
  rewrite strtol_moves by done. do 2 f_equal. unfold u32. apply Z.mod_small. pose proof (digits_val_pos ds Hd). lia.
Qed.

Lemma orientation_at p o w t mode : text_at s p = Some ("="%char :: w ++ t) -> (o, w) ∈ orientation_names ->
  option_end t -> drm_mode_parse_panel_orientation s p mode = Some (0, with_orientation o mode).
Proof.
  intros E Hw Ht. unfold drm_mode_parse_panel_orientation. rewrite (char_at_head s p _ _ E). cbn [mbind option_bind].
  rewrite bool_decide_eq_true_2 by done. cbn [negb]. apply at_cons in E.
  rewrite (comma_or_end_at s (p + 1) w t E (rotate_no_comma (MOrientation o w) Hw) Ht). cbn [mbind option_bind].
  cbv zeta. rewrite (Z.add_simpl_l (p + 1) (len w)), !(strncmp_at s _ _ w t E).
  unfold orientation_names in Hw. rewrite !elem_of_cons, elem_of_nil in Hw.
  destruct_or! Hw; try done; injection Hw as -> ->; vm_compute; reflexivity.
Qed.

Lemma tv_mode_at p ty w t mode : text_at s p = Some ("="%char :: w ++ t) -> (ty, w) ∈ drm_tv_mode_enum_list ->
  option_end t -> drm_mode_parse_tv_mode s p mode = Some (0, with_tv_mode ty mode).
Proof.
  intros E Hw Ht. unfold drm_mode_parse_tv_mode. rewrite (char_at_head s p _ _ E). cbn [mbind option_bind].
  rewrite bool_decide_eq_true_2 by done. cbn [negb]. apply at_cons in E.
  rewrite (comma_or_end_at s (p + 1) w t E (rotate_no_comma (MTvMode ty w) Hw) Ht). cbn [mbind option_bind].
  rewrite (Z.add_simpl_l (p + 1) (len w)). unfold drm_get_tv_mode_from_name, drm_tv_mode_enum_list in *.
  cbn [tv_mode_from]. rewrite !(strncmp_at s _ _ w t E).
  rewrite !elem_of_cons, elem_of_nil in Hw.
  destruct_or! Hw; try done; injection Hw as -> ->; vm_compute; reflexivity.
Qed.

Lemma valued_at p o t rotation mode :
  text_at s p = Some (option_label (option_kind o) ++ "="%char :: option_value o ++ t) ->
  option_ok o -> option_end t ->
  parse_option s p (p + len (option_label (option_kind o))) rotation mode
  = (let st := apply_valued o (rotation, mode) in Some (0, st.1, st.2)).
Proof.
  intros E Ho Ht. unfold parse_option. rewrite Z.add_simpl_l, (which_option_at s p _ _ E). cbn [mbind option_bind].
  apply at_app in E. pose proof (option_end_no_digit t Ht) as Hn.
  destruct o as [ds|side ds|o w|ty w]; cbn [option_ok option_value option_kind apply_valued fst snd] in *.
  - destruct Ho as [Hd [b Hb]]. pose proof (rotate_bit_val _ _ Hb).
    rewrite (int_at _ ds t E Hd Hn) by lia. cbn [mbind option_bind]. by rewrite Hb.
  - destruct Ho as (Hs & Hd & Hb). pose proof (int_at _ ds t E Hd Hn Hb) as Ei.
    unfold margin_options in Hs. rewrite !elem_of_cons, elem_of_nil in Hs.
    destruct_or! Hs; try done; subst side; by rewrite Ei.
  - by rewrite (orientation_at _ o w t mode E Ho Ht).
  - by rewrite (tv_mode_at _ ty w t mode E Ho Ht).
Qed.

Lemma flag_option_at p (y : bool) t rotation mode : text_at s p = Some (option_label (if y then OptReflectY else OptReflectX) ++ t) ->
  parse_option s p (p + len (option_label (if y then OptReflectY else OptReflectX))) rotation mode
  = (let st := apply_flag y (rotation, mode) in Some (0, st.1, st.2)).
Proof.
  intros E. unfold parse_option. rewrite Z.add_simpl_l, (which_option_at s p _ _ E). by destruct y.
Qed.
End options.

(** ** The list of options *)

Definition options_text (vs : list mode_option) (fs : list bool) : text :=
  concat (valued_text <$> vs) ++ concat (flag_text <$> fs).
Definition apply_options (vs : list mode_option) (fs : list bool) (st : Z * drm_cmdline_mode) :=
  fold_left (fun st y => apply_flag y st) fs (fold_left (fun st o => apply_valued o st) vs st).

Lemma flags_end fs : option_end (concat (flag_text <$> fs)).
Proof. destruct fs as [|y fs]; [by left|by right]. Qed.

Lemma options_end vs fs : option_end (options_text vs fs).
Proof. destruct vs as [|o vs]; [apply flags_end|by right]. Qed.

Lemma flags_no_eq fs : "="%char ∉ concat (flag_text <$> fs).
Proof.
  induction fs as [|y fs IH]; cbn [fmap list_fmap concat]; [apply not_elem_of_nil|].
  apply not_elem_of_app. split; [|done]. destruct y; chars.
Qed.

Section loop.
Context `{KernelTextLaws} (s : text).

(** One round behind a comma, from where the option's name and its text end. *)
Lemma round p (d e : text) fuel rotation mode st : text_at s (p + len d) = Some e ->
  parse_option s p (p + len d) rotation mode = (Some (0, st.1, st.2) : option (Z * Z * drm_cmdline_mode)) ->
  strchr s p "="%char = Some (Some (p + len d)) \/
    (strchr s p "="%char = Some None /\ comma_or_end s p = Some (p + len d)) ->
  parse_options s (S fuel) p rotation mode
  = (sep ← strchr s (p + len d) ","%char;
     match sep with
     | Some sep => parse_options s fuel (sep + 1) st.1 st.2
     | None => Some (0, st.1, st.2)
     end).
Proof.
  intros E Ho Hd. cbn [parse_options].
  destruct Hd as [->|[-> Hd]]; cbn [mbind option_bind]; [|rewrite Hd; cbn [mbind option_bind]]; by rewrite Ho.
Qed.

Lemma flags_loop fs : forall fuel p rotation mode,
  text_at s p = Some (concat (flag_text <$> fs)) -> len s - p < Z.of_nat fuel -> fs <> [] ->
  parse_options s fuel (p + 1) rotation mode
  = (let st := fold_left (fun st y => apply_flag y st) fs (rotation, mode) in Some (0, st.1, st.2)).
Proof.
  induction fs as [|y fs IH]; intros fuel p rotation mode E Hf Hne.
  - done.
  - clear Hne. pose proof (at_bound _ _ _ E) as [Hb _]. destruct fuel as [|fuel]; [lia|].
    cbn [fmap list_fmap concat] in E. unfold flag_text at 1 in E. cbn [app] in E.
    set (d := option_label (if y then OptReflectY else OptReflectX)) in *.
    apply at_cons in E. pose proof (at_app s (p + 1) d _ E) as E2.
    destruct (label_no_mark (if y then OptReflectY else OptReflectX)) as [Hn Hnc].
    rewrite (round (p + 1) d _ fuel rotation mode (apply_flag y (rotation, mode)) E2).
    + cbn [fold_left]. destruct fs as [|y' fs].
      * rewrite (strchr_at_none s _ _ [] E2) by apply not_elem_of_nil. done.
      * rewrite (strchr_at s _ _ [] _ E2) by apply not_elem_of_nil. cbn [mbind option_bind length].
        rewrite Z.add_0_r. rewrite (IH fuel (p + 1 + len d) _ _ E2); [|lia|done].
        by rewrite <- surjective_pairing.
    + exact (flag_option_at s (p + 1) y _ rotation mode E).
    + right. split.
      * apply (strchr_at_none s _ _ _ E). apply not_elem_of_app. split; [done|apply flags_no_eq].
      * apply (comma_or_end_at s _ d _ E Hnc), flags_end.
Qed.

Lemma options_loop vs fs : forall fuel p rotation mode,
  text_at s p = Some (options_text vs fs) -> Forall option_ok vs -> len s - p < Z.of_nat fuel ->
  options_text vs fs <> [] ->
  parse_options s fuel (p + 1) rotation mode
  = (let st := apply_options vs fs (rotation, mode) in Some (0, st.1, st.2)).
Proof.
  induction vs as [|o vs IH]; intros fuel p rotation mode E Hok Hf Hne.
  { apply flags_loop; try done. intros ->. by apply Hne. }
  pose proof (at_bound _ _ _ E) as [Hb _]. destruct fuel as [|fuel]; [lia|].
  apply Forall_cons_1 in Hok as [Ho Hok].
  set (d := option_label (option_kind o)).
  change (options_text (o :: vs) fs) with
    ((","%char :: (d ++ "="%char :: option_value o) ++ concat (valued_text <$> vs)) ++ concat (flag_text <$> fs)) in E.
  cbn [app] in E. apply at_cons in E.
  assert (Et : text_at s (p + 1) = Some (d ++ "="%char :: option_value o ++ options_text vs fs)).
  { rewrite E. unfold options_text. by rewrite <- !app_assoc. }
  clear E. pose proof (at_app s (p + 1) d _ Et) as E2.
  pose proof (rotate_no_comma o Ho) as Hv.
  rewrite (round (p + 1) d _ fuel rotation mode (apply_valued o (rotation, mode)) E2).
  - assert (Hc : ","%char ∉ "="%char :: option_value o) by (apply not_elem_of_cons; done).
    pose proof (at_app s _ ("="%char :: option_value o) _ E2) as E3.
    unfold apply_options in *. cbn [fold_left]. destruct vs as [|o' vs].
    + unfold options_text in E2, E3. cbn [fmap list_fmap concat app fold_left] in *.
      destruct fs as [|y fs].
      * cbn [fmap list_fmap concat] in E2. rewrite app_nil_r in E2. rewrite (strchr_at_none s _ _ _ E2 Hc). done.
      * rewrite (strchr_at s _ _ ("="%char :: option_value o) _ E2 Hc). cbn [mbind option_bind].
        rewrite (flags_loop (y :: fs) fuel _ _ _ E3); [|lia|done]. by rewrite <- surjective_pairing.
    + rewrite (strchr_at s _ _ ("="%char :: option_value o) _ E2 Hc). cbn [mbind option_bind].
      rewrite (IH fuel _ _ _ E3 Hok); [|lia|done]. by rewrite <- surjective_pairing.
  - exact (valued_at s (p + 1) o _ rotation mode Et Ho (options_end vs fs)).
  - left. apply (strchr_at s _ _ d _ Et), label_no_mark.
Qed.
End loop.

(** ** What the options say

    The last one given for a side, the orientation or the standard counts. *)

Definition rotate_bits (vs : list mode_option) : list Z :=
  omap (fun o => match o with MRotate ds => rotate_bit (digits_val ds) | _ => None end) vs.
Definition margins_given (side : option_name) (vs : list mode_option) : list Z :=
  omap (fun o => match o with
                 | MMargin d ds => if decide (d = side) then Some (digits_val ds) else None
                 | _ => None end) vs.
Definition orientations_given (vs : list mode_option) : list Z :=
  omap (fun o => match o with MOrientation o _ => Some o | _ => None end) vs.
Definition standards_given (vs : list mode_option) : list Z :=
  omap (fun o => match o with MTvMode ty _ => Some ty | _ => None end) vs.

(** Not turned unless it is said. *)
Definition rotation_given (vs : list mode_option) (fs : list bool) : Z :=
  Z.lor (default DRM_MODE_ROTATE_0 (head (rotate_bits vs)))
    (Z.lor (if bool_decide (false ∈ fs) then DRM_MODE_REFLECT_X else 0)
           (if bool_decide (true ∈ fs) then DRM_MODE_REFLECT_Y else 0)).

Definition one_rotation (vs : list mode_option) : Prop :=
  forall a b, a ∈ rotate_bits vs -> b ∈ rotate_bits vs -> a = b.

Definition with_options (rotation : Z) (vs : list mode_option) (m : drm_cmdline_mode) : drm_cmdline_mode :=
  let margin side old := default old (list.last (margins_given side vs)) in
  let t := cm_tv_margins m in
  CmdMode (cm_name m) (cm_specified m) (cm_refresh_specified m) (cm_bpp_specified m) (cm_pixel_clock m)
    (cm_xres m) (cm_yres m) (cm_bpp m) (cm_refresh m) (cm_rb m) (cm_interlace m) (cm_cvt m)
    (cm_margins m) (cm_force m) rotation
    (default (cm_panel_orientation m) (list.last (orientations_given vs)))
    (TvMargins (margin OptMarginBottom (tv_bottom t)) (margin OptMarginLeft (tv_left t))
       (margin OptMarginRight (tv_right t)) (margin OptMarginTop (tv_top t)))
    (default (cm_tv_mode m) (list.last (standards_given vs)))
    (cm_tv_mode_specified m || bool_decide (standards_given vs <> [])).

Lemma one_rotation_cons o vs : one_rotation (o :: vs) -> one_rotation vs.
Proof.
  intros Ho a b Ha Hb. apply Ho; unfold rotate_bits in *; cbn [omap list_omap];
    destruct o; try done; destruct (rotate_bit _); rewrite ?elem_of_cons; auto.
Qed.

Lemma valued_rotation vs : forall st, one_rotation vs ->
  (fold_left (fun st o => apply_valued o st) vs st).1 = Z.lor st.1 (default 0 (head (rotate_bits vs))).
Proof.
  induction vs as [|o vs IH]; intros st H1; cbn [fold_left]; [by rewrite Z.lor_0_r|].
  rewrite (IH _ (one_rotation_cons _ _ H1)). unfold one_rotation, rotate_bits in *. cbn [omap list_omap] in *.
  destruct o as [ds|side ds|w o|ty w]; try done. cbn [apply_valued fst].
  destruct (rotate_bit (digits_val ds)) as [b|]; cbn [default head]; [|by rewrite Z.lor_0_r].
  rewrite <- Z.lor_assoc. f_equal. destruct (omap _ vs) as [|b' bs] eqn:Eb; cbn [default head]; [apply Z.lor_0_r|].
  rewrite (H1 b' b) by (rewrite !elem_of_cons; auto). apply Z.lor_diag.
Qed.

Lemma flags_rotation fs : forall st,
  fold_left (fun st y => apply_flag y st) fs st
  = (Z.lor st.1 (Z.lor (if bool_decide (false ∈ fs) then DRM_MODE_REFLECT_X else 0)
                       (if bool_decide (true ∈ fs) then DRM_MODE_REFLECT_Y else 0)), st.2).
Proof.
  induction fs as [|y fs IH]; intros [r m]; cbn [fold_left].
  { rewrite !bool_decide_eq_false_2 by apply not_elem_of_nil. cbn. by rewrite Z.lor_0_r. }
  rewrite IH. cbn [apply_flag fst snd]. f_equal. rewrite <- Z.lor_assoc. f_equal.
  rewrite (bool_decide_ext (false ∈ y :: fs) (y = false \/ false ∈ fs)) by (rewrite elem_of_cons; naive_solver).
  rewrite (bool_decide_ext (true ∈ y :: fs) (y = true \/ true ∈ fs)) by (rewrite elem_of_cons; naive_solver).
  destruct (decide (false ∈ fs)), (decide (true ∈ fs)), y; repeat case_bool_decide; try done; naive_solver.
Qed.

Lemma with_options_nil rotation m : with_options rotation [] m = with_rotation rotation m.
Proof. unfold with_options, with_rotation. cbn. rewrite orb_false_r. by destruct (cm_tv_margins m). Qed.

(** The last option counts. *)
Lemma with_options_snoc rotation vs o m r :
  with_options rotation (vs ++ [o]) m = (apply_valued o (r, with_options rotation vs m)).2.
Proof.
  unfold with_options, margins_given, orientations_given, standards_given. rewrite !omap_app.
  destruct o as [ds|side ds|w o|ty w]; cbn [omap list_omap apply_valued snd]; rewrite ?app_nil_r, ?last_snoc.
  - done.
  - destruct side; cbn [with_margin]; unfold with_tv_margins; cbn;
      rewrite ?decide_False, ?decide_True by done; cbn; rewrite ?app_nil_r, ?last_snoc; done.
  - done.
  - unfold with_tv_mode. cbn. rewrite (bool_decide_eq_true_2 (_ <> [])), orb_true_r; [done|]. by destruct (omap _ vs).
Qed.

Lemma valued_mode vs rotation m r :
  with_rotation rotation (fold_left (fun st o => apply_valued o st) vs (r, m)).2 = with_options rotation vs m.
Proof.
  induction vs as [|o vs IH] using rev_ind; [by rewrite with_options_nil|].
  rewrite fold_left_app, (with_options_snoc _ _ _ _ r). cbn [fold_left]. rewrite <- IH. by destruct o.
Qed.

(** One bit of a rotation is what the check at the end asks for. *)
Lemma rotation_valid vs fs :
  let r := Z.lor (Z.lor 0 (default 0 (head (rotate_bits vs))))
    (Z.lor (if bool_decide (false ∈ fs) then DRM_MODE_REFLECT_X else 0)
           (if bool_decide (true ∈ fs) then DRM_MODE_REFLECT_Y else 0)) in
  let r' := if tst r DRM_MODE_ROTATE_MASK then r else Z.lor r DRM_MODE_ROTATE_0 in
  r' = rotation_given vs fs /\ is_power_of_2 (Z.land r' DRM_MODE_ROTATE_MASK) = true.
Proof.
  unfold rotation_given. assert (Hh : head (rotate_bits vs) ∈ [None; Some 1; Some 2; Some 4; Some 8]).
  { assert (Hall : Forall (fun b => b ∈ [1; 2; 4; 8]) (rotate_bits vs)).
    { apply list.Forall_forall. intros b Hb. apply list_elem_of_omap in Hb as ([ds| | |] & _ & Hb); try done.
      unfold rotate_bit in Hb. rewrite !elem_of_cons.
      repeat (case_match; [injection Hb as <-; vm_compute; tauto|]). done. }
    destruct Hall as [|b bs Hb _]; cbn [head]; rewrite !elem_of_cons in *; [by left|].
    rewrite elem_of_nil in Hb. destruct_or! Hb; try done; subst; auto 10. }
  rewrite !elem_of_cons, elem_of_nil in Hh.
  destruct_or! Hh; try done; rewrite Hh; destruct (bool_decide (false ∈ fs)), (bool_decide (true ∈ fs));
    by vm_compute.
Qed.

Lemma options_at `{KernelTextLaws} s p vs fs mode :
  text_at s p = Some (options_text vs fs) -> options_text vs fs <> [] ->
  Forall option_ok vs -> one_rotation vs ->
  drm_mode_parse_cmdline_options s (p + 1) false mode = Some (0, with_options (rotation_given vs fs) vs mode).
Proof.
  intros E Hne Hok H1. unfold drm_mode_parse_cmdline_options. pose proof (at_bound _ _ _ E) as [Hb _].
  rewrite (options_loop s vs fs _ p 0 mode E Hok); [|lia|done]. unfold apply_options.
  rewrite flags_rotation. cbn [mbind option_bind fst snd]. rewrite valued_rotation by done.
  change (negb (0 =? 0)) with false. rewrite andb_false_r. cbv iota. cbn [fst].
  destruct (rotation_valid vs fs) as [Er Ep]. cbv zeta in *. rewrite Ep. cbn [negb]. rewrite Er. do 2 f_equal.
  apply valued_mode.
Qed.

(** *** The comma in front of the options *)

Definition comma_ptr (pre : text) (vs : list mode_option) (fs : list bool) : option Z :=
  if decide (options_text vs fs = []) then None else Some (len pre).
(** Without options there is no rotation. *)
Definition rotation_said (vs : list mode_option) (fs : list bool) : Z :=
  if decide (options_text vs fs = []) then 0 else rotation_given vs fs.

Lemma comma_found pre vs fs : ","%char ∉ pre -> strchr (pre ++ options_text vs fs) 0 ","%char = Some (comma_ptr pre vs fs).
Proof.
  intros Hc. pose proof (at_start (pre ++ options_text vs fs)) as E. unfold comma_ptr.
  pose proof (options_end vs fs) as Ho. case_decide as Hd.
  - rewrite Hd, app_nil_r in *. by apply (strchr_at_none _ _ _ _ E).
  - destruct Ho as [|Ho]; [done|]. destruct (options_text _ _) as [|c t]; [done|]. injection Ho as ->.
    by rewrite (strchr_at _ _ _ _ _ E Hc).
Qed.

Lemma comma_off pre vs fs : len pre < 2 ^ 31 ->
  match comma_ptr pre vs fs with Some o => Some (u32 (o - 0)) | None => n ← strlen (pre ++ options_text vs fs) 0; Some (u32 n) end
  = Some (len pre).
Proof.
  intros Hl. unfold comma_ptr. case_decide as Ho.
  - rewrite Ho, app_nil_r. unfold strlen. rewrite at_start. cbn [mbind option_bind].
    rewrite u32_small by (apply is_u32_iff; lia). done.
  - rewrite u32_small by (apply is_u32_iff; lia). f_equal. lia.
Qed.

Lemma comma_options `{KernelTextLaws} pre vs fs mode : Forall option_ok vs -> one_rotation vs ->
  cm_rotation_reflection mode = 0 ->
  match comma_ptr pre vs fs with
  | Some o => drm_mode_parse_cmdline_options (pre ++ options_text vs fs) (o + 1) false mode
  | None => Some (0, mode)
  end = Some (0, with_options (rotation_said vs fs) vs mode).
Proof.
  intros Hok H1 Hr. unfold comma_ptr, rotation_said. case_decide as Ho.
  - destruct vs as [|o vs]; [|done]. rewrite with_options_nil, <- Hr. by destruct mode.
  - apply options_at; try done. apply (at_app _ 0 pre), at_start.
Qed.

(** ** The mode line

    <xres>x<yres>[M][R][-<bpp>][@<refresh>][i][m][eDd], then the options. *)

Record mode_line := ModeLine {
  ml_xres : text; ml_yres : text; ml_cvt : bool; ml_rb : bool;
  ml_bpp : option text; ml_refresh : option text;
  ml_interlace : bool; ml_margins : bool; ml_force : option ascii;
  ml_valued : list mode_option; ml_flags : list bool
}.

Definition mark (c : ascii) (n : option text) : text := match n with Some ds => c :: ds | None => [] end.
Definition letter (c : ascii) (b : bool) : text := if b then [c] else [].
Definition force_text (f : option ascii) : text := match f with Some c => [c] | None => [] end.
Definition resolution_text (l : mode_line) : text := ml_xres l ++ "x"%char :: ml_yres l.
Definition cvt_text (l : mode_line) : text := letter "M"%char (ml_cvt l) ++ letter "R"%char (ml_rb l).
Definition extras_text (l : mode_line) : text :=
  letter "i"%char (ml_interlace l) ++ letter "m"%char (ml_margins l) ++ force_text (ml_force l).
Definition mode_text (l : mode_line) : text :=
  (resolution_text l ++ cvt_text l) ++ mark "-"%char (ml_bpp l) ++ mark "@"%char (ml_refresh l) ++ extras_text l.
Definition line_text (l : mode_line) : text := mode_text l ++ options_text (ml_valued l) (ml_flags l).

(** An int that is not negative. *)
Definition int_text (ds : text) : Prop := all_digits ds /\ digits_val ds < 2 ^ 31.
Definition force_chars : list ascii := ["e"%char; "D"%char; "d"%char].

Definition line_ok (l : mode_line) : Prop :=
  int_text (ml_xres l) /\ int_text (ml_yres l)
  /\ (forall ds, ml_bpp l = Some ds -> int_text ds) /\ (forall ds, ml_refresh l = Some ds -> int_text ds)
  /\ (forall c, ml_force l = Some c -> c ∈ force_chars)
  /\ Forall option_ok (ml_valued l) /\ one_rotation (ml_valued l)
  /\ len (line_text l) < 2 ^ 31.

(** Digital output can be forced on a connector that also has an analog one. *)
Definition force_given (connector_type : Z) (f : option ascii) : drm_connector_force :=
  match f with
  | None => DRM_FORCE_UNSPECIFIED
  | Some c =>
    if decide (c = "d"%char) then DRM_FORCE_OFF
    else if decide (c = "D"%char) then
      if (connector_type =? DRM_MODE_CONNECTOR_DVII) || (connector_type =? DRM_MODE_CONNECTOR_HDMIB)
      then DRM_FORCE_ON_DIGITAL else DRM_FORCE_ON
    else DRM_FORCE_ON
  end.

(** The mode without the options. *)
Definition mode_described (connector_type : Z) (l : mode_line) : drm_cmdline_mode :=
  let number n := default 0 (digits_val <$> n) in
  CmdMode [] true (bool_decide (is_Some (ml_refresh l))) (bool_decide (is_Some (ml_bpp l))) 0
    (digits_val (ml_xres l)) (digits_val (ml_yres l)) (number (ml_bpp l)) (number (ml_refresh l))
    (ml_rb l) (ml_interlace l) (ml_cvt l) (ml_margins l) (force_given connector_type (ml_force l)) 0
    DRM_MODE_PANEL_ORIENTATION_UNKNOWN (TvMargins 0 0 0 0) 0 false.

Definition described (connector_type : Z) (l : mode_line) : drm_cmdline_mode :=
  with_options
    (rotation_said (ml_valued l) (ml_flags l)) (ml_valued l) (mode_described connector_type l).

(** ** The parts of the mode *)

Section line.
Context `{KernelTextLaws} (connector_type : Z) (s : text).

(** The letters of the extras one after the other. *)
Fixpoint extra_fold (cs : text) (mode : drm_cmdline_mode) : Z * drm_cmdline_mode :=
  match cs with
  | [] => (0, mode)
  | c :: cs =>
    let '(ret, mode) := parse_extra_char connector_type c false mode in
    if ret =? 0 then extra_fold cs mode else (ret, mode)
  end.

Lemma extra_at cs : forall p t mode, text_at s p = Some (cs ++ t) ->
  drm_mode_parse_cmdline_extra connector_type s p (len cs) false mode = Some (extra_fold cs mode).
Proof.
  intros p t mode. unfold drm_mode_parse_cmdline_extra. rewrite Nat2Z.id. revert p mode.
  induction cs as [|c cs IH]; intros p mode E; cbn [length parse_extra extra_fold]; [done|].
  rewrite (char_at_head s p c _ E). cbn [mbind option_bind].
  destruct (parse_extra_char connector_type c false mode) as [ret m]. destruct (ret =? 0); [|done].
  apply IH, (at_cons _ _ _ _ E).
Qed.

(** The letters behind a resolution. *)
Fixpoint flags_fold (cs : text) (extras cvt rb : bool) (mode : drm_cmdline_mode) :=
  match cs with
  | [] => (0, cvt, rb, mode)
  | c :: cs =>
    if bool_decide (c = "M"%char) then flags_fold cs extras true rb mode
    else if bool_decide (c = "R"%char) then flags_fold cs extras cvt true mode
    else if extras then
      let '(ret, mode) := extra_fold [c] mode in
      if ret =? 0 then flags_fold cs extras cvt rb mode else (ret, cvt, rb, mode)
    else (- EINVAL, cvt, rb, mode)
  end.

Lemma res_flags_at cs : forall p t extras cvt rb mode, text_at s p = Some (cs ++ t) ->
  res_flags connector_type s (length cs) p extras cvt rb mode = Some (flags_fold cs extras cvt rb mode).
Proof.
  induction cs as [|c cs IH]; intros p t extras cvt rb mode E; cbn [length res_flags flags_fold]; [done|].
  pose proof (at_cons _ _ _ _ E) as E'. rewrite (char_at_head s p c _ E). cbn [mbind option_bind].
  case_bool_decide; [by eapply IH|]. case_bool_decide; [by eapply IH|]. destruct extras; [|done].
  rewrite (extra_at [c] p (cs ++ t) mode E : drm_mode_parse_cmdline_extra _ _ _ 1 _ _ = _).
  destruct (extra_fold [c] mode) as [ret m]. cbn [mbind option_bind]. destruct (ret =? 0); [|done]. by eapply IH.
Qed.

Definition with_extras (l : mode_line) (m : drm_cmdline_mode) : drm_cmdline_mode :=
  CmdMode (cm_name m) (cm_specified m) (cm_refresh_specified m) (cm_bpp_specified m) (cm_pixel_clock m)
    (cm_xres m) (cm_yres m) (cm_bpp m) (cm_refresh m) (cm_rb m)
    (cm_interlace m || ml_interlace l) (cm_cvt m) (cm_margins m || ml_margins l)
    (force_given connector_type (ml_force l)) (cm_rotation_reflection m)
    (cm_panel_orientation m) (cm_tv_margins m) (cm_tv_mode m) (cm_tv_mode_specified m).

Lemma extra_interlace m : parse_extra_char connector_type "i"%char false m = (0, with_interlace m).
Proof. done. Qed.
Lemma extra_margins m : parse_extra_char connector_type "m"%char false m = (0, with_margins m).
Proof. done. Qed.
Lemma extra_force c freestanding m : c ∈ force_chars -> cm_force m = DRM_FORCE_UNSPECIFIED ->
  parse_extra_char connector_type c freestanding m = (0, with_force (force_given connector_type (Some c)) m).
Proof.
  intros Hc Hm. unfold parse_extra_char. rewrite Hm. unfold force_chars in Hc. rewrite !elem_of_cons, elem_of_nil in Hc.
  destruct_or! Hc; try done; subst c; cbn; try done. by destruct (_ =? _), (_ =? _).
Qed.

Lemma force_fold l mode : line_ok l -> cm_force mode = DRM_FORCE_UNSPECIFIED ->
  extra_fold (force_text (ml_force l)) mode = (0, with_force (force_given connector_type (ml_force l)) mode).
Proof.
  intros (_ & _ & _ & _ & Hf & _) Hm. destruct (ml_force l) as [c|]; cbn [force_text extra_fold].
  - rewrite extra_force by auto. done.
  - cbn [force_given]. rewrite <- Hm. by destruct mode.
Qed.

Lemma extras_fold l mode : line_ok l -> cm_force mode = DRM_FORCE_UNSPECIFIED ->
  extra_fold (extras_text l) mode = (0, with_extras l mode).
Proof.
  intros Hl Hm. unfold extras_text, with_extras, letter.
  destruct (ml_interlace l), (ml_margins l); cbn [app extra_fold];
    rewrite ?extra_interlace; cbn [Z.eqb]; rewrite ?extra_margins; cbn [Z.eqb];
    rewrite force_fold by done; unfold with_force; cbn; by rewrite ?orb_false_r, ?orb_true_r.
Qed.

Lemma flags_fold_extras cs cvt rb mode : Forall (fun c => c <> "M"%char /\ c <> "R"%char) cs ->
  (extra_fold cs mode).1 = 0 -> flags_fold cs true cvt rb mode = (0, cvt, rb, (extra_fold cs mode).2).
Proof.
  intros Hcs. revert mode. induction Hcs as [|c cs [HM HR] _ IH]; intros mode; cbn [flags_fold extra_fold]; [done|].
  rewrite !bool_decide_eq_false_2 by done. destruct (parse_extra_char _ c false mode) as [ret m].
  destruct (Z.eqb_spec ret 0) as [->|]; [apply IH|done].
Qed.

Lemma extras_letters l : line_ok l -> Forall (fun c => c ∈ ["i"; "m"; "e"; "D"; "d"]%char) (extras_text l).
Proof.
  intros (_ & _ & _ & _ & Hf & _). unfold extras_text, letter.
  destruct (ml_interlace l), (ml_margins l), (ml_force l) as [c|]; cbn [app force_text];
    try specialize (Hf c eq_refl); unfold force_chars in Hf;
    repeat (apply Forall_cons_2; [rewrite ?elem_of_cons in *; naive_solver|]); done.
Qed.

Lemma cvt_fold l cs extras mode :
  flags_fold (cvt_text l ++ cs) extras false false mode = flags_fold cs extras (ml_cvt l) (ml_rb l) mode.
Proof. unfold cvt_text, letter. by destruct (ml_cvt l), (ml_rb l). Qed.

(** The extras belong to the resolution if nothing marks its end. *)
Lemma line_flags l (extras : bool) mode : line_ok l -> cm_force mode = DRM_FORCE_UNSPECIFIED ->
  flags_fold (cvt_text l ++ if extras then extras_text l else []) extras false false mode
  = (0, ml_cvt l, ml_rb l, if extras then with_extras l mode else mode).
Proof.
  intros Hl Hm. rewrite cvt_fold. destruct extras; [|done].
  rewrite flags_fold_extras; rewrite ?extras_fold by done; [done| |done].
  eapply Forall_impl; [|apply (extras_letters l Hl)]. intros c Hc. rewrite !elem_of_cons, elem_of_nil in Hc.
  by destruct_or! Hc; subst.
Qed.
End line.

Section whole.
Context `{KernelTextLaws} (connector_type : Z).

Lemma int_text_s32 ds : int_text ds -> s32 (u32 (digits_val ds)) = digits_val ds /\ s32 (digits_val ds) = digits_val ds.
Proof.
  intros [Hd Hb]. pose proof (digits_val_pos ds Hd).
  rewrite u32_small by (apply is_u32_iff; lia). by rewrite s32_small by (apply is_s32_iff; lia).
Qed.

Lemma bpp_at s p ds t mode : text_at s p = Some ("-"%char :: ds ++ t) -> int_text ds -> no_digit t ->
  drm_mode_parse_cmdline_bpp s p mode = Some (0, p + 1 + len ds, with_bpp (digits_val ds) mode).
Proof.
  intros E [Hd Hb] Ht. unfold drm_mode_parse_cmdline_bpp. rewrite (char_at_head s p _ _ E). cbn [mbind option_bind].
  rewrite bool_decide_eq_true_2 by done. cbn [negb].
  rewrite (strtol_at s (p + 1) ds t (at_cons _ _ _ _ E) Hd Ht) by lia. cbn [mbind option_bind].
  rewrite strtol_moves by done. by destruct (int_text_s32 ds (conj Hd Hb)) as [-> _].
Qed.

Lemma refresh_at s p ds t mode : text_at s p = Some ("@"%char :: ds ++ t) -> int_text ds -> no_digit t ->
  drm_mode_parse_cmdline_refresh s p mode = Some (0, p + 1 + len ds, with_refresh (digits_val ds) mode).
Proof.
  intros E [Hd Hb] Ht. unfold drm_mode_parse_cmdline_refresh. rewrite (char_at_head s p _ _ E). cbn [mbind option_bind].
  rewrite bool_decide_eq_true_2 by done. cbn [negb].
  rewrite (strtol_at s (p + 1) ds t (at_cons _ _ _ _ E) Hd Ht) by lia. cbn [mbind option_bind].
  rewrite strtol_moves by done. by destruct (int_text_s32 ds (conj Hd Hb)) as [-> _].
Qed.

(** The resolution with its letters, and the extras if [extras] says that they belong to it. *)
Lemma res_mode_at s l (extras : bool) t mode :
  text_at s 0 = Some (resolution_text l ++ (cvt_text l ++ if extras then extras_text l else []) ++ t) ->
  no_digit ((cvt_text l ++ if extras then extras_text l else []) ++ t) ->
  line_ok l -> cm_force mode = DRM_FORCE_UNSPECIFIED ->
  len (resolution_text l ++ cvt_text l ++ if extras then extras_text l else []) < 2 ^ 31 ->
  drm_mode_parse_cmdline_res_mode connector_type s 0
    (len (resolution_text l ++ cvt_text l ++ if extras then extras_text l else [])) extras mode
  = Some (0, with_resolution (digits_val (ml_xres l)) (digits_val (ml_yres l)) (ml_cvt l) (ml_rb l)
               (if extras then with_extras connector_type l mode else mode)).
Proof.
  intros E Hn Hl Hm Hs. pose proof (line_flags connector_type l extras mode Hl Hm) as Hf.
  set (cs := cvt_text l ++ if extras then extras_text l else []) in *. clearbody cs.
  destruct Hl as (Hx & Hy & _).
  unfold resolution_text in *. rewrite <- app_assoc in E. cbn [app] in E.
  unfold drm_mode_parse_cmdline_res_mode. destruct Hx as [Hxd Hxb], Hy as [Hyd Hyb].
  rewrite (strtol_at s 0 _ _ E Hxd) by (done || lia). cbn [mbind option_bind]. rewrite strtol_moves by done.
  apply at_app in E. rewrite (char_at_head _ _ _ _ E). cbn [mbind option_bind].
  rewrite bool_decide_eq_true_2 by done. cbn [negb]. apply at_cons in E.
  rewrite (strtol_at s _ _ _ E Hyd Hn) by lia. cbn [mbind option_bind]. rewrite strtol_moves by done.
  replace (len ((ml_xres l ++ "x"%char :: ml_yres l) ++ cs) - (0 + len (ml_xres l) + 1 + len (ml_yres l) - 0))
    with (len cs) by (rewrite !length_app; cbn [length]; lia).
  rewrite s32_small by (apply is_s32_iff; rewrite !length_app in Hs; lia).
  destruct (Z.ltb_spec (len cs) 0); [lia|]. rewrite Nat2Z.id. apply at_app in E.
  rewrite (res_flags_at connector_type s cs _ t extras false false mode E), Hf. cbn [mbind option_bind].
  change (0 =? 0) with true. cbv iota.
  by rewrite (proj2 (int_text_s32 _ (conj Hxd Hxb))), (proj2 (int_text_s32 _ (conj Hyd Hyb))).
Qed.

(** *** Behind the resolution *)

Definition marked (l : mode_line) : bool := bool_decide (is_Some (ml_bpp l)) || bool_decide (is_Some (ml_refresh l)).
Definition options_ptr_of (l : mode_line) : option Z := comma_ptr (mode_text l) (ml_valued l) (ml_flags l).

Lemma extra_length l p : text_at (line_text l) p = Some (extras_text l ++ options_text (ml_valued l) (ml_flags l)) ->
  len (line_text l) < 2 ^ 31 ->
  match options_ptr_of l with Some o => Some (s32 (o - p)) | None => n ← strlen (line_text l) p; Some (s32 n) end
  = Some (len (extras_text l)).
Proof.
  intros E Hl. pose proof (at_bound _ _ _ E) as [Hp Hlen]. unfold options_ptr_of, comma_ptr.
  assert (Ht : len (line_text l) = len (mode_text l) + len (options_text (ml_valued l) (ml_flags l)))
    by (unfold line_text; rewrite length_app; lia).
  rewrite length_app in Hlen. case_decide as Ho.
  - rewrite Ho in *. unfold strlen. rewrite E, app_nil_r. cbn [mbind option_bind length] in *.
    by rewrite s32_small by (apply is_s32_iff; lia).
  - rewrite s32_small by (apply is_s32_iff; lia). f_equal. lia.
Qed.

Lemma options_ptr_at l mode : line_ok l -> cm_rotation_reflection mode = 0 ->
  match options_ptr_of l with
  | Some o => drm_mode_parse_cmdline_options (line_text l) (o + 1) false mode
  | None => Some (0, mode)
  end = Some (0, with_options (rotation_said (ml_valued l) (ml_flags l)) (ml_valued l) mode).
Proof. intros (_ & _ & _ & _ & _ & Hok & H1 & _) Hr. by apply comma_options. Qed.

Lemma extras_no_digit l : line_ok l -> no_digit (extras_text l ++ options_text (ml_valued l) (ml_flags l)).
Proof.
  intros Hl. destruct (extras_letters l Hl) as [|c cs Hc _]; [apply option_end_no_digit, options_end|].
  rewrite !elem_of_cons, elem_of_nil in Hc. cbn. destruct_or! Hc; by subst.
Qed.

Lemma refresh_no_digit l : line_ok l ->
  no_digit (mark "@"%char (ml_refresh l) ++ extras_text l ++ options_text (ml_valued l) (ml_flags l)).
Proof. intros Hl. destruct (ml_refresh l); [done|by apply extras_no_digit]. Qed.

Definition with_marks (l : mode_line) (m : drm_cmdline_mode) : drm_cmdline_mode :=
  let m := match ml_bpp l with Some ds => with_bpp (digits_val ds) m | None => m end in
  match ml_refresh l with Some ds => with_refresh (digits_val ds) m | None => m end.

(** The extras at [p] and the options. *)
Lemma tail_at l p m : line_ok l -> cm_force m = DRM_FORCE_UNSPECIFIED -> cm_rotation_reflection m = 0 ->
  text_at (line_text l) p = Some (extras_text l ++ options_text (ml_valued l) (ml_flags l)) ->
  ('(ret, mode) ←
     (n ← match options_ptr_of l with Some o => Some (s32 (o - p)) | None => n ← strlen (line_text l) p; Some (s32 n) end;
      drm_mode_parse_cmdline_extra connector_type (line_text l) p n false m);
   if negb (ret =? 0) then Some (false, mode) else
   '(ret, mode) ←
     match options_ptr_of l with
     | Some o => drm_mode_parse_cmdline_options (line_text l) (o + 1) false mode
     | None => Some (0, mode)
     end;
   Some (ret =? 0, mode))
  = Some (true, with_options (rotation_said (ml_valued l) (ml_flags l)) (ml_valued l)
                  (with_extras connector_type l m)).
Proof.
  intros Hl Hf Hr E. rewrite (extra_length l p E) by apply Hl. cbn [mbind option_bind].
  rewrite (extra_at connector_type _ _ p _ m E), (extras_fold connector_type l m Hl Hf). cbn [mbind option_bind].
  change (negb (0 =? 0)) with false. cbv iota. by rewrite (options_ptr_at l _ Hl).
Qed.

Definition found {A} (n : option A) (p : Z) : option Z := match n with Some _ => Some p | None => None end.

Lemma rest_at l m : line_ok l -> cm_force m = DRM_FORCE_UNSPECIFIED \/ marked l = false ->
  cm_rotation_reflection m = 0 ->
  let h := len (resolution_text l ++ cvt_text l) in
  parse_rest connector_type (line_text l)
    (found (ml_bpp l) h) (found (ml_refresh l) (h + len (mark "-"%char (ml_bpp l))))
    (options_ptr_of l) None false m
  = Some (true, with_options (rotation_said (ml_valued l) (ml_flags l)) (ml_valued l)
                  (if marked l then with_extras connector_type l (with_marks l m) else m)).
Proof.
  intros Hl Hf Hr h. pose proof (at_start (line_text l)) as E. unfold line_text at 2, mode_text in E.
  rewrite <- !app_assoc, (app_assoc (resolution_text l)) in E. apply at_app in E.
  change (text_at (line_text l) h = Some (mark "-"%char (ml_bpp l) ++ mark "@"%char (ml_refresh l) ++ extras_text l ++
    options_text (ml_valued l) (ml_flags l))) in E.
  pose proof (refresh_no_digit l Hl) as Hn. pose proof (extras_no_digit l Hl) as Hnx.
  pose proof Hl as (_ & _ & Hbpp & Hrefresh & _).
  unfold parse_rest, marked, with_marks, found in *. pose proof (at_app _ _ _ _ E) as E2.
  destruct (ml_bpp l) as [b|] eqn:Eb, (ml_refresh l) as [r|] eqn:Er; cbn [mark app] in *;
    try (rewrite (bpp_at _ h b _ m E (Hbpp b eq_refl) Hn); cbn [mbind option_bind]);
    try (cbn [mbind option_bind]; change (negb (0 =? 0)) with false; cbv iota;
         rewrite (refresh_at _ _ r _ _ E2 (Hrefresh r eq_refl) Hnx));
    cbn [mbind option_bind]; change (negb (0 =? 0)) with false; cbv iota zeta; unfold marked in Hf;
    rewrite ?Eb, ?Er in Hf; cbn in Hf; cbn [bool_decide is_Some_dec orb decide].
  - assert (Hm : cm_force m = DRM_FORCE_UNSPECIFIED) by (by destruct Hf).
    rewrite Z.max_r by (cbn [length]; lia). apply (tail_at l _ (with_refresh _ (with_bpp _ m)) Hl Hm Hr).
    apply (at_app _ _ ("@"%char :: r)) in E2. rewrite <- E2. f_equal. cbn [length]. lia.
  - assert (Hm : cm_force m = DRM_FORCE_UNSPECIFIED) by (by destruct Hf).
    apply (tail_at l _ (with_bpp _ m) Hl Hm Hr). rewrite <- E2. f_equal. cbn [length]. lia.
  - assert (Hm : cm_force m = DRM_FORCE_UNSPECIFIED) by (by destruct Hf).
    apply (tail_at l _ (with_refresh _ m) Hl Hm Hr).
    apply (at_app _ _ ("@"%char :: r)) in E2. rewrite <- E2. f_equal. cbn [length]. lia.
  - by rewrite (options_ptr_at l m Hl Hr).
Qed.

(** *** Where the marks are *)

Lemma resolution_chars l c : line_ok l -> isdigit c = false -> c ∉ ["x"; "M"; "R"]%char ->
  c ∉ resolution_text l ++ cvt_text l.
Proof.
  intros (Hx & Hy & _) Hd Hc. rewrite !not_elem_of_cons in Hc. destruct Hc as (? & ? & ? & _).
  unfold resolution_text, cvt_text, letter. rewrite !not_elem_of_app, not_elem_of_cons.
  split_and!; try done; try (by apply digit_not; [apply Hx || apply Hy|]);
    case_match; rewrite ?not_elem_of_cons; auto using not_elem_of_nil.
Qed.

Lemma mark_chars l c : line_ok l -> isdigit c = false ->
  (c <> "-"%char -> c ∉ mark "-"%char (ml_bpp l)) /\ (c <> "@"%char -> c ∉ mark "@"%char (ml_refresh l)).
Proof.
  intros (_ & _ & Hb & Hr & _) Hd. unfold mark.
  destruct (ml_bpp l) as [b|], (ml_refresh l) as [r|]; split; intros Hc; rewrite ?not_elem_of_cons;
    auto using not_elem_of_nil; split; try done; apply digit_not; try done; [apply (Hb b)|apply (Hr r)|..]; try done.
  - by apply (Hb b).
  - by apply (Hr r).
Qed.

Lemma extras_chars l c : line_ok l -> c ∉ ["i"; "m"; "e"; "D"; "d"]%char -> c ∉ extras_text l.
Proof.
  intros Hl Hc Hin. pose proof (extras_letters l Hl) as Hx. rewrite list.Forall_forall in Hx. by apply Hc, Hx.
Qed.

Lemma mode_chars l c : c ∉ resolution_text l ++ cvt_text l -> c ∉ mark "-"%char (ml_bpp l) ->
  c ∉ mark "@"%char (ml_refresh l) -> c ∉ extras_text l -> c ∉ mode_text l.
Proof. intros. unfold mode_text. repeat (apply not_elem_of_app; split; [done|]). done. Qed.

Lemma no_comma l : line_ok l -> ","%char ∉ mode_text l.
Proof.
  intros Hl. destruct (mark_chars l ","%char Hl ltac:(chars)) as [Hb Hm].
  apply mode_chars; [by apply resolution_chars; [|chars..]|by apply Hb|by apply Hm|apply extras_chars; [done|chars]].
Qed.

Definition res_end (l : mode_line) : Z := len (resolution_text l ++ cvt_text l).
Definition behind (l : mode_line) : text :=
  mark "@"%char (ml_refresh l) ++ extras_text l ++ options_text (ml_valued l) (ml_flags l).

Lemma line_split l : line_text l = (resolution_text l ++ cvt_text l) ++ mark "-"%char (ml_bpp l) ++ behind l.
Proof. unfold line_text, mode_text, behind. by rewrite <- !app_assoc. Qed.

Lemma line_start l :
  text_at (line_text l) 0 = Some ((resolution_text l ++ cvt_text l) ++ mark "-"%char (ml_bpp l) ++ behind l).
Proof. rewrite <- line_split. apply at_start. Qed.

Lemma options_ptr_found l : line_ok l -> strchr (line_text l) 0 ","%char = Some (options_ptr_of l).
Proof. intros Hl. by apply comma_found, no_comma. Qed.

Lemma bpp_found l : line_ok l -> strnchr (line_text l) 0 (len (mode_text l)) "-"%char = Some (found (ml_bpp l) (res_end l)).
Proof.
  intros Hl. pose proof (at_start (line_text l)) as E.
  pose proof (resolution_chars l "-"%char Hl ltac:(chars) ltac:(chars)) as Hr.
  destruct (ml_bpp l) as [b|] eqn:Eb; cbn [found].
  - pose proof (line_start l) as Es. rewrite Eb in Es. apply (strnchr_at _ _ _ _ _ _ Es Hr).
    unfold mode_text. rewrite Eb, (length_app _ (mark _ _ ++ _)). cbn [mark app length]. lia.
  - apply (strnchr_at_none _ _ _ _ _ E),  mode_chars; [done|rewrite Eb; apply not_elem_of_nil| |apply extras_chars; [done|chars]].
    by apply (mark_chars l "-"%char Hl ltac:(chars)).
Qed.

Lemma bpp_kept l fuel : line_ok l ->
  find_bpp (line_text l) (S fuel) (len (mode_text l)) (found (ml_bpp l) (res_end l)) = Some (found (ml_bpp l) (res_end l)).
Proof.
  intros Hl. destruct (ml_bpp l) as [b|] eqn:Eb; cbn [found find_bpp]; [|done].
  destruct Hl as (_ & _ & Hb & _). destruct (Hb b Eb) as [[Hne Hd] _].
  pose proof (line_start l) as E. rewrite Eb in E. apply at_app in E. apply at_cons in E.
  destruct Hd as [|c b' Hc _]; [done|]. unfold res_end. rewrite Z.add_0_l in E.
  rewrite (char_at_head _ _ _ _ E). cbn [mbind option_bind]. by rewrite Hc.
Qed.

Lemma refresh_found l : line_ok l ->
  strnchr (line_text l) 0 (len (mode_text l)) "@"%char
  = Some (found (ml_refresh l) (res_end l + len (mark "-"%char (ml_bpp l)))).
Proof.
  intros Hl. pose proof (at_start (line_text l)) as E.
  pose proof (resolution_chars l "@"%char Hl ltac:(chars) ltac:(chars)) as Hr.
  destruct (mark_chars l "@"%char Hl ltac:(chars)) as [Hb _]. specialize (Hb ltac:(discriminate)).
  destruct (ml_refresh l) as [r|] eqn:Er; cbn [found].
  - pose proof (line_start l) as Es. unfold behind in Es. rewrite Er, app_assoc in Es.
    rewrite (strnchr_at _ 0 _ _ _ _ Es); [unfold res_end; rewrite length_app; do 2 f_equal; lia|by apply not_elem_of_app|].
    unfold mode_text. rewrite Er, !length_app. cbn [mark length]. lia.
  - apply (strnchr_at_none _ _ _ _ _ E),  mode_chars; [done|done|rewrite Er; apply not_elem_of_nil|].
    apply extras_chars; [done|chars].
Qed.

(** *** The whole line *)

Lemma marked_text l : marked l = false -> mode_text l = (resolution_text l ++ cvt_text l) ++ extras_text l.
Proof. unfold marked, mode_text. by destruct (ml_bpp l), (ml_refresh l). Qed.

Lemma line_size l : line_ok l ->
  res_end l <= len (mode_text l) /\ len (mode_text l) < 2 ^ 31 /\ 0 < res_end l
  /\ len (mode_text l) = len (line_text l) - len (options_text (ml_valued l) (ml_flags l)).
Proof.
  intros ([[Hx _] _] & _ & _ & _ & _ & _ & _ & Hl). unfold line_text, mode_text, res_end, resolution_text in *.
  rewrite !length_app in *. cbn [length] in *. destruct (ml_xres l); [done|]. cbn [length] in *. lia.
Qed.

Lemma options_off_at l : line_ok l ->
  match options_ptr_of l with Some o => Some (u32 (o - 0)) | None => n ← strlen (line_text l) 0; Some (u32 n) end
  = Some (len (mode_text l)).
Proof. intros Hl. apply comma_off, (line_size l Hl). Qed.

Lemma mode_end_at l : line_ok l ->
  match found (ml_bpp l) (res_end l), found (ml_refresh l) (res_end l + len (mark "-"%char (ml_bpp l))), options_ptr_of l with
  | Some p, _, _ => Some (u32 (p - 0), false)
  | None, Some p, _ => Some (u32 (p - 0), false)
  | None, None, Some _ => Some (len (mode_text l), true)
  | None, None, None => n ← strlen (line_text l) 0; Some (u32 n, true)
  end = Some (if marked l then (res_end l, false) else (len (mode_text l), true)).
Proof.
  intros Hl. destruct (line_size l Hl) as (H1 & H2 & H3 & _). pose proof (options_off_at l Hl) as Ho. unfold marked.
  destruct (ml_bpp l) as [b|], (ml_refresh l) as [r|]; cbn [found mark length bool_decide is_Some_dec orb decide];
    try (rewrite u32_small by (apply is_u32_iff; lia); do 2 f_equal; lia).
  destruct (options_ptr_of l); [done|]. destruct (strlen _ _) as [n|]; [|done]. cbn [mbind option_bind] in *.
  by injection Ho as ->.
Qed.

Lemma starts_digit l : line_ok l -> exists c t, line_text l = c :: t /\ isdigit c = true.
Proof.
  intros ([[Hne Hd] _] & _). rewrite line_split. unfold resolution_text.
  destruct Hd as [|c x Hc _]; [done|]. by eexists _, _.
Qed.

Lemma resolution_no_digit l (extras : bool) t : no_digit t -> line_ok l ->
  no_digit ((cvt_text l ++ if extras then extras_text l else []) ++ t).
Proof.
  intros Ht Hl. unfold cvt_text, letter. destruct (ml_cvt l), (ml_rb l); try done. cbn [app].
  destruct extras; [|done]. destruct (extras_letters l Hl) as [|c cs Hc _]; [done|].
  rewrite !elem_of_cons, elem_of_nil in Hc. cbn. destruct_or! Hc; by subst.
Qed.

Lemma line_resolution l : line_ok l ->
  drm_mode_parse_cmdline_res_mode connector_type (line_text l) 0
    (if marked l then res_end l else len (mode_text l)) (negb (marked l)) cmdline_init
  = Some (0, with_resolution (digits_val (ml_xres l)) (digits_val (ml_yres l)) (ml_cvt l) (ml_rb l)
               (if marked l then cmdline_init else with_extras connector_type l cmdline_init)).
Proof.
  intros Hl. destruct (line_size l Hl) as (H1 & H2 & _).
  pose proof (line_start l) as E. rewrite <- app_assoc in E. destruct (marked l) eqn:Em; cbn [negb].
  - rewrite <- (app_nil_r (cvt_text l)) in E. pose proof (res_mode_at _ l false _ cmdline_init E) as R.
    cbn [negb] in R. rewrite app_nil_r in R. apply R; try done; [|unfold res_end in *; lia].
    rewrite <- (app_nil_r (cvt_text l)). apply (resolution_no_digit l false); [|done].
    destruct (ml_bpp l); [done|]. by apply refresh_no_digit.
  - rewrite (marked_text l Em) in *. rewrite <- !app_assoc in *.
    assert (E' : text_at (line_text l) 0 = Some (resolution_text l ++ (cvt_text l ++ extras_text l) ++
      options_text (ml_valued l) (ml_flags l))).
    { rewrite at_start. unfold line_text. by rewrite (marked_text l Em), <- !app_assoc. }
    apply (res_mode_at _ l true _ cmdline_init E'); try done.
    apply (resolution_no_digit l true); [|done]. apply option_end_no_digit, options_end.
Qed.

Lemma line_parsed l : line_ok l ->
  drm_mode_parse_command_line_for_connector connector_type (line_text l) = Some (true, described connector_type l).
Proof.
  intros Hl. destruct (line_size l Hl) as (H1 & H2 & H3 & _).
  unfold drm_mode_parse_command_line_for_connector. cbv zeta.
  rewrite (options_ptr_found l Hl). cbn [mbind option_bind]. rewrite (options_off_at l Hl). cbn [mbind option_bind].
  rewrite (bpp_found l Hl). cbn [mbind option_bind]. rewrite (bpp_kept l _ Hl). cbn [mbind option_bind].
  rewrite (refresh_found l Hl). cbn [mbind option_bind]. rewrite (mode_end_at l Hl). cbn [mbind option_bind].
  set (me := if marked l then res_end l else len (mode_text l)).
  replace (if marked l then (res_end l, false) else (len (mode_text l), true)) with (me, negb (marked l))
    by (subst me; by destruct (marked l)).
  assert (Hme : (me =? 0) = false) by (apply Z.eqb_neq; subst me; destruct (marked l); lia). rewrite Hme.
  destruct (starts_digit l Hl) as (c & t & Et & Hc).
  assert (Ec : char_at (line_text l) 0 = Some c) by (apply (char_at_head _ _ _ t); rewrite at_start; by f_equal).
  unfold drm_mode_parse_cmdline_named_mode. rewrite Hme, Ec. cbn [mbind option_bind]. rewrite Hc.
  cbn [mbind option_bind]. change (0 <? 0) with false. change (negb (0 =? 0)) with false. cbn [andb].
  cbn [mbind option_bind cmdline_init cm_specified negb andb]. subst me. rewrite (line_resolution l Hl). cbn [mbind option_bind].
  change (0 =? 0) with true. cbn [negb].
  set (m := with_specified _). change (cm_specified m) with true. cbv iota.
  assert (Hf : cm_force m = DRM_FORCE_UNSPECIFIED \/ marked l = false) by (subst m; destruct (marked l); auto).
  assert (Hr : cm_rotation_reflection m = 0) by (subst m; by destruct (marked l)).
  pose proof (rest_at l m Hl Hf Hr) as R. cbv zeta in R. fold (res_end l) in R. rewrite R. do 2 f_equal. unfold described. f_equal. subst m.
  unfold mode_described, marked, with_marks, with_extras.
  destruct (ml_bpp l), (ml_refresh l); done.
Qed.
End whole.

(** ** Named modes and freestanding extras *)

Section named.
Context `{KernelTextLaws} (connector_type : Z).

(** The search for a minus goes on with the old length, into the options. *)
Lemma options_start vs fs : "-"%char ∉ take 5 (options_text vs fs).
Proof.
  destruct vs as [|o vs]; [destruct fs as [|y fs]; [apply not_elem_of_nil|]|];
    unfold options_text; cbn [fmap list_fmap concat app].
  - destruct y; chars.
  - unfold valued_text. destruct (option_kind o); chars.
Qed.

Lemma strnchr_start s p (n : nat) c a t : text_at s p = Some (a ++ t) -> c ∉ a -> c ∉ take (n - length a) t ->
  strnchr s p (Z.of_nat n) c = Some None.
Proof.
  intros E Ha Ht. unfold strnchr. rewrite E. cbn [mbind option_bind]. rewrite strnchr_law. rewrite Nat2Z.id, take_app, index_of_none; [done|].
  apply not_elem_of_app. split; [|done]. intros Hin. apply Ha. apply elem_of_take in Hin as (i & Hi & _).
  by eapply list_elem_of_lookup_2.
Qed.

(** A named mode with options. *)
Definition named_text (n : drm_named_mode) (vs : list mode_option) (fs : list bool) : text :=
  nm_name n ++ options_text vs fs.
Definition named_described (n : drm_named_mode) (vs : list mode_option) (fs : list bool) : drm_cmdline_mode :=
  with_options (rotation_said vs fs) vs
    (CmdMode (nm_name n) true false false (nm_pixel_clock_khz n) (nm_xres n) (nm_yres n) 0 0 false
       (tst (nm_flags n) DRM_MODE_FLAG_INTERLACE) false false DRM_FORCE_UNSPECIFIED 0
       DRM_MODE_PANEL_ORIENTATION_UNKNOWN (TvMargins 0 0 0 0) (nm_tv_mode n) true).

Ltac each_named Hn := unfold drm_named_modes in Hn; rewrite !elem_of_cons, elem_of_nil in Hn; destruct_or! Hn; try done; subst.

Lemma named_bpp n vs fs : n ∈ drm_named_modes ->
  exists b, strnchr (named_text n vs fs) 0 (len (nm_name n)) "-"%char = Some b
    /\ forall k, find_bpp (named_text n vs fs) (S (S k)) (len (nm_name n)) b = Some None.
Proof.
  intros Hn. pose proof (at_start (named_text n vs fs)) as E. pose proof (options_start vs fs) as Ho.
  assert (Hnone : "-"%char ∉ nm_name n -> exists b, strnchr (named_text n vs fs) 0 (len (nm_name n)) "-"%char = Some b
    /\ forall k, find_bpp (named_text n vs fs) (S (S k)) (len (nm_name n)) b = Some None).
  { intros Hc. exists None. split; [by apply (strnchr_at_none _ _ _ _ _ E)|done]. }
  assert (Hone : forall a c, nm_name n = a ++ ["-"%char; c] -> (length a <= 4)%nat -> "-"%char ∉ a -> isdigit c = false -> c <> "-"%char ->
    exists b, strnchr (named_text n vs fs) 0 (len (nm_name n)) "-"%char = Some b
    /\ forall k, find_bpp (named_text n vs fs) (S (S k)) (len (nm_name n)) b = Some None).
  { intros a c En Hl Ha Hd Hc. unfold named_text in E at 2. rewrite En, <- app_assoc in E. cbn [app] in E.
    exists (Some (0 + len a)). split.
    - apply (strnchr_at _ _ _ _ _ _ E Ha). rewrite En, length_app. cbn [length]. lia.
    - intros k. cbn [find_bpp]. apply at_app in E. apply at_cons in E.
      rewrite (char_at_head _ _ _ _ E). cbn [mbind option_bind]. rewrite Hd.
      rewrite (strnchr_start _ _ (length (nm_name n)) _ [c] (options_text vs fs) E); [done|..].
      + by apply not_elem_of_cons; split; [congruence|apply not_elem_of_nil].
      + intros Hin. apply Ho. rewrite En, length_app in Hin. cbn [length] in Hin.
        apply elem_of_take in Hin as (i & Hi & Hlt). apply elem_of_take. exists i. split; [done|lia]. }
  each_named Hn; [apply Hnone; chars| |apply Hnone; chars|].
  - apply (Hone (lit "NTSC") "J"%char); try done; first [chars|cbn; lia].
  - apply (Hone (lit "PAL") "M"%char); try done; first [chars|cbn; lia].
Qed.

(** Only the name that is there is found. *)
Lemma named_found n vs fs mode : n ∈ drm_named_modes ->
  drm_mode_parse_cmdline_named_mode (named_text n vs fs) (len (nm_name n)) mode
  = Some (1, with_named_mode (nm_name n) (nm_pixel_clock_khz n) (nm_xres n) (nm_yres n)
               (tst (nm_flags n) DRM_MODE_FLAG_INTERLACE) (nm_tv_mode n) mode).
Proof.
  intros Hn. pose proof (at_start (named_text n vs fs)) as E. unfold named_text in E at 2.
  unfold drm_mode_parse_cmdline_named_mode.
  assert (Ee : strnchr (named_text n vs fs) 0 (len (nm_name n)) "="%char = Some None).
  { apply (strnchr_at_none _ _ _ _ _ E). clear E. each_named Hn; chars. }
  rewrite Ee. cbn [mbind option_bind]. unfold char_at. rewrite E. cbn [mbind option_bind].
  unfold named_text in *. generalize dependent (options_text vs fs). intros o E _. unfold drm_named_modes at 1.
  cbn [try_named]. unfold str_has_prefix, strncmp_eq. rewrite !E. clear E.
  each_named Hn; vm_compute; reflexivity.
Qed.

(** A mode by its name, and the options behind it. *)
Lemma named_parsed n vs fs : n ∈ drm_named_modes -> Forall option_ok vs -> one_rotation vs ->
  drm_mode_parse_command_line_for_connector connector_type (named_text n vs fs) = Some (true, named_described n vs fs).
Proof.
  intros Hn Hok H1. pose proof (at_start (named_text n vs fs)) as E. unfold named_text in E at 2.
  assert (Hc : ","%char ∉ nm_name n /\ "@"%char ∉ nm_name n /\ 3 <= len (nm_name n) <= 6).
  { clear E. each_named Hn; (split; [chars|split; [chars|vm_compute; split; discriminate]]). }
  destruct Hc as (Hc & Hat & Hlen).
  unfold drm_mode_parse_command_line_for_connector. cbv zeta.
  rewrite (comma_found (nm_name n) vs fs Hc : strchr (named_text n vs fs) _ _ = _). cbn [mbind option_bind].
  rewrite (comma_off (nm_name n) vs fs ltac:(lia) : match _ with Some _ => _ | None => n ← strlen (named_text n vs fs) 0; Some (u32 n) end = _).
  cbn [mbind option_bind].
  destruct (named_bpp n vs fs Hn) as (b & -> & Hb). cbn [mbind option_bind].
  destruct (length (named_text n vs fs)) as [|k] eqn:Ek; [unfold named_text in Ek; rewrite length_app in Ek; lia|].
  rewrite Hb. cbn [mbind option_bind]. rewrite (strnchr_at_none _ _ _ _ _ E Hat). cbn [mbind option_bind].
  assert (Hme : match comma_ptr (nm_name n) vs fs with
    | Some _ => Some (len (nm_name n), true)
    | None => n ← strlen (named_text n vs fs) 0; Some (u32 n, true) end = Some (len (nm_name n), true)).
  { pose proof (comma_off (nm_name n) vs fs ltac:(lia)) as Ho. fold (named_text n vs fs) in Ho.
    destruct (comma_ptr _ _ _); [done|]. destruct (strlen _ _); [|done]. cbn [mbind option_bind] in *. by injection Ho as ->. }
  rewrite Hme. cbn [mbind option_bind]. destruct (Z.eqb_spec (len (nm_name n)) 0); [lia|].
  rewrite (named_found n vs fs _ Hn). cbn [mbind option_bind]. change (1 <? 0) with false.
  rewrite bool_decide_eq_false_2 by (by intros []). rewrite andb_false_r.
  destruct (char_at_in (named_text n vs fs) 0) as (c & -> & _); [unfold inside; lia|]. cbn [mbind option_bind].
  cbn [with_named_mode cm_specified negb andb mbind option_bind]. change (negb (0 =? 0)) with false. cbv iota.
  unfold parse_rest. cbn [mbind option_bind]. change (negb (0 =? 0)) with false. cbv iota. cbn [mbind option_bind].
  change (negb (0 =? 0)) with false. cbv iota.
  unfold named_text at 1. rewrite (comma_options (nm_name n) vs fs) by done. done.
Qed.

(** The connector alone is forced. *)
Lemma freestanding_parsed c : c ∈ force_chars ->
  drm_mode_parse_command_line_for_connector connector_type [c]
  = Some (true, with_force (force_given connector_type (Some c)) cmdline_init).
Proof.
  intros Hc. assert (Hx : parse_extra_char connector_type c true cmdline_init
    = (0, with_force (force_given connector_type (Some c)) cmdline_init)) by by apply extra_force.
  assert (Hn : forall x, x ∉ force_chars -> strnchr [c] 0 1 x = Some None).
  { intros x Hx'. apply (strnchr_at_none [c] 0 x [c] []); [done|]. intros ->%list_elem_of_singleton. done. }
  unfold drm_mode_parse_command_line_for_connector. cbv zeta.
  assert (Hcomma : strchr [c] 0 ","%char = Some None).
  { apply (strchr_at_none _ _ _ [c]); [done|]. intros <-%list_elem_of_singleton. revert Hc. chars. }
  rewrite Hcomma. cbn [mbind option_bind]. change (strlen [c] 0) with (Some 1). cbn [mbind option_bind].
  change (u32 1) with 1. rewrite (Hn "-"%char), (Hn "@"%char) by chars. cbn [mbind option_bind find_bpp length].
  change (1 =? 0) with false. cbv iota. unfold drm_mode_parse_cmdline_named_mode.
  change (1 =? 0) with false. cbv iota. rewrite (Hn "="%char) by chars.
  change (char_at [c] 0) with (Some c). cbn [mbind option_bind].
  assert (Hd : isdigit c = false /\ bool_decide (c = "d"%char) || bool_decide (c = "D"%char) || bool_decide (c = "e"%char) = true).
  { clear Hx Hn Hcomma. unfold force_chars in Hc. rewrite !elem_of_cons, elem_of_nil in Hc. by destruct_or! Hc; subst. }
  destruct Hd as [-> ->]. cbn -[parse_extra_char]. unfold parse_rest, drm_mode_parse_cmdline_extra. cbn -[parse_extra_char].
  change (strlen [c] 0) with (Some 1). cbn [mbind option_bind]. change (Z.to_nat (s32 1)) with 1%nat. cbn [parse_extra].
  change (char_at [c] 0) with (Some c). cbn [mbind option_bind]. by rewrite Hx.
Qed.
End named.

(** ** The promise *)

(** C37. The mode line parser reads nothing outside of the line and returns, whatever
    the line is.  A line of the documented form, with its options, is accepted and gives
    the mode it describes: resolution, CVT and reduced blanking, bits per pixel, refresh
    rate, extras, and rotation, margins, orientation and standard as the last option for
    each says.  So is the name of a mode with options, and a lone letter that forces the
    connector. *)
Theorem command_line_modes `{KernelTextLaws} (connector_type : Z) :
  (forall s, is_Some (drm_mode_parse_command_line_for_connector connector_type s))
  /\ (forall l, line_ok l ->
        drm_mode_parse_command_line_for_connector connector_type (line_text l)
        = Some (true, described connector_type l))
  /\ (forall n vs fs, n ∈ drm_named_modes -> Forall option_ok vs -> one_rotation vs ->
        drm_mode_parse_command_line_for_connector connector_type (named_text n vs fs)
        = Some (true, named_described n vs fs))
  /\ (forall c, c ∈ force_chars ->
        drm_mode_parse_command_line_for_connector connector_type [c]
        = Some (true, with_force (force_given connector_type (Some c)) cmdline_init)).
Proof.
  split_and!.
  - intros s. destruct (parser_returns connector_type s) as [r Er]. by exists r.
  - apply line_parsed.
  - apply named_parsed.
  - apply freestanding_parsed.
Qed.

(** ** A number reader

    The digits at the start of the text, after a minus if there is one: it shows that the
    laws can hold. *)

Module Digits.
Fixpoint span (t : text) : text :=
  match t with c :: t => if isdigit c then c :: span t else [] | [] => [] end.

Definition read (t : text) : Z * nat :=
  match t with
  | c :: t' =>
    if decide (c = "-"%char) then (- digits_val (span t'), S (length (span t')))
    else (digits_val (span t), length (span t))
  | [] => (0, O)
  end.

#[export] Instance digits_text : KernelText := {|
  strtol := read; strnchr_of t n c := index_of c (take (Z.to_nat n) t) |}.

Lemma span_length t : (length (span t) <= length t)%nat.
Proof. induction t as [|c t IH]; cbn; [done|]. destruct (isdigit c); cbn; lia. Qed.

Lemma span_app ds t : Forall (fun c => isdigit c = true) ds -> no_digit t -> span (ds ++ t) = ds.
Proof.
  induction 1 as [|c ds Hc _ IH]; cbn; intros Ht.
  - destruct t as [|c t]; [done|]. cbn in *. by rewrite Ht.
  - by rewrite Hc, IH.
Qed.

#[export] Instance digits_laws : KernelTextLaws.
Proof.
  split.
  - done.
  - intros [|c t]; cbn; [done|]. unfold read. case_decide; cbn [snd length].
    + pose proof (span_length t). lia.
    + pose proof (span_length (c :: t)). cbn in *. lia.
  - intros ds t [Hne Hd] Ht _. cbn [strtol digits_text]. unfold read. rewrite (span_app ds t Hd Ht).
    destruct ds as [|c ds]; [done|]. cbn [app]. rewrite decide_False; [done|]. intros ->.
    by apply Forall_cons_1 in Hd as [? _].
Qed.
End Digits.
Import Digits.

(** 1920x1080MR-32@60imD,rotate=90,margin_left=8,panel_orientation=upside_down,reflect_y *)
Definition line_1080 : mode_line :=
  ModeLine (lit "1920") (lit "1080") true true (Some (lit "32")) (Some (lit "60")) true true (Some "D"%char)
    [MRotate (lit "90"); MMargin OptMarginLeft (lit "8");
     MOrientation DRM_MODE_PANEL_ORIENTATION_BOTTOM_UP (lit "upside_down")] [true].

Lemma number_ok (ds : text) : bool_decide (ds <> []) && forallb isdigit ds && (digits_val ds <? 2 ^ 31) = true -> int_text ds.
Proof.
  rewrite !andb_true_iff, bool_decide_eq_true, Z.ltb_lt, forallb_forall. intros [[Hn Hd] Hb].
  split; [split; [done|]|done]. by apply Forall_forall.
Qed.

Lemma line_1080_ok : line_ok line_1080.
Proof.
  split; [by apply number_ok|]. split; [by apply number_ok|]. split; [intros ds [= <-]; by apply number_ok|].
  split; [intros ds [= <-]; by apply number_ok|].
  split; [intros c [= <-]; chars|]. split.
  - assert (Hn : forall ds, int_text ds -> all_digits ds) by by intros ds [].
    constructor; [split; [by apply Hn, number_ok|by eexists]|].
    constructor; [split_and!; [chars|by apply Hn, number_ok|done]|].
    constructor; [|done]. cbn [option_ok]. chars.
  - split; [|done]. intros a b Ha Hb. change (a ∈ [2]) in Ha. change (b ∈ [2]) in Hb.
    apply list_elem_of_singleton in Ha, Hb. congruence.
Qed.

Lemma command_line_modes_witness :
  line_text line_1080
    = lit "1920x1080MR-32@60imD,rotate=90,margin_left=8,panel_orientation=upside_down,reflect_y"
  /\ drm_mode_parse_command_line_for_connector DRM_MODE_CONNECTOR_HDMIB (line_text line_1080)
     = Some (true, CmdMode [] true true true 0 1920 1080 32 60 true true true true DRM_FORCE_ON_DIGITAL
         (Z.lor DRM_MODE_ROTATE_90 DRM_MODE_REFLECT_Y) DRM_MODE_PANEL_ORIENTATION_BOTTOM_UP
         (TvMargins 0 8 0 0) 0 false)
  /\ drm_mode_parse_command_line_for_connector DRM_MODE_CONNECTOR_HDMIB (lit "PAL,tv_mode=PAL-N")
     = Some (true, CmdMode (lit "PAL") true false false 13500 720 576 0 0 false true false false DRM_FORCE_UNSPECIFIED
         DRM_MODE_ROTATE_0 DRM_MODE_PANEL_ORIENTATION_UNKNOWN (TvMargins 0 0 0 0) DRM_MODE_TV_MODE_PAL_N true).
Proof.
  destruct (command_line_modes DRM_MODE_CONNECTOR_HDMIB) as (_ & Hl & Hn & _). split_and!.
  - reflexivity.
  - rewrite (Hl line_1080 line_1080_ok). reflexivity.
  - refine (eq_trans (Hn (NamedMode (lit "PAL") 13500 720 576 DRM_MODE_FLAG_INTERLACE DRM_MODE_TV_MODE_PAL)
      [MTvMode DRM_MODE_TV_MODE_PAL_N (lit "PAL-N")] [] _ _ _) _).
    + unfold drm_named_modes. do 2 apply list_elem_of_further. apply list_elem_of_here.
    + constructor; [|done]. cbn [option_ok]. chars.
    + intros a b Ha. by apply not_elem_of_nil in Ha.
    + reflexivity.
Defined.

(** ** What is rejected *)

(** The equals sign of an option is looked for beyond the comma behind it: the same
    options are taken in one order only. *)
Lemma flag_before_value :
  fst <$> drm_mode_parse_command_line_for_connector DRM_MODE_CONNECTOR_HDMIB (lit "720x480,rotate=90,reflect_x") = Some true
  /\ fst <$> drm_mode_parse_command_line_for_connector DRM_MODE_CONNECTOR_HDMIB (lit "720x480,reflect_x,rotate=90") = Some false.
Proof. by vm_compute. Qed.

(** A name is compared as far as the option goes: a first letter is enough. *)
Lemma option_prefix :
  (fun r => cm_rotation_reflection r.2) <$>
    drm_mode_parse_command_line_for_connector DRM_MODE_CONNECTOR_HDMIB (lit "720x480,r=90") = Some DRM_MODE_ROTATE_90.
Proof. by vm_compute. Qed.
