(* ===== verification/Edid.v ===== *)
(** * Reading the EDID of a display

    DRM/drm_edid.c, the part that fetches the 128 byte blocks and validates them.  An
    allocation is the list of its bytes, a pointer to a block in it the offset of its
    first byte; an access outside of the allocation has no result.  The function that
    reads a block and the success of allocations are parameters.  EdidDdc.v adds the reading over I2C. *)

From stdpp Require Import base numbers list option.
From Stdlib Require Import ZArith Lia Bool.
From S2P Require Import Prelude ByteBuf.
#[local] Open Scope Z_scope.

Definition EDID_LENGTH := 128.
(** Rounds of a loop over blocks: the count is a byte and one. *)
Definition MAX_BLOCKS : nat := 257.
Definition CEA_EXT := 0x02.

(** ** Counting blocks *)

Definition edid_extension_block_count (edid : list Z) : option Z := rd edid 126.
Definition edid_block_count (edid : list Z) : option Z := n ← edid_extension_block_count edid; Some (n + 1).
Definition edid_size_by_blocks (num_blocks : Z) : Z := num_blocks * EDID_LENGTH.
Definition edid_size (edid : list Z) : option Z := n ← edid_block_count edid; Some (edid_size_by_blocks n).
(** The offset of a block. *)
Definition edid_block_data (index : Z) : Z := index * EDID_LENGTH.
Definition edid_extension_block_data (index : Z) : Z := edid_block_data (index + 1).

(** ** Checking a block *)

Definition edid_header : list Z := [0x00; 0xff; 0xff; 0xff; 0xff; 0xff; 0xff; 0x00].

Definition edid_header_fix (m : list Z) (edid : Z) : option (list Z) := wr_range m edid edid_header.

(** The score of the bytes at [p] against what is left of the header. *)
Fixpoint header_score (header : list Z) (m : list Z) (p score : Z) : option Z :=
  match header with
  | [] => Some score
  | h :: header => x ← rd m p; header_score header m (p + 1) (if x =? h then score + 1 else score)
  end.
Definition drm_edid_header_is_valid (m : list Z) (edid : Z) : option Z := header_score edid_header m edid 0.

Fixpoint sum_bytes (n : nat) (m : list Z) (p csum : Z) : option Z :=
  match n with
  | O => Some csum
  | S n => x ← rd m p; sum_bytes n m (p + 1) (u8 (csum + x))
  end.
Definition edid_block_compute_checksum (m : list Z) (block : Z) : option Z :=
  csum ← sum_bytes (Z.to_nat (EDID_LENGTH - 1)) m block 0; Some (u8 (0x100 - csum)).
Definition edid_block_get_checksum (m : list Z) (block : Z) : option Z := rd m (block + 127).
Definition edid_block_tag (m : list Z) (block : Z) : option Z := rd m block.
Definition edid_block_is_zero (m : list Z) (edid : Z) : option bool :=
  b ← rd_range m edid EDID_LENGTH; Some (forallb (fun x => x =? 0) b).

Inductive edid_block_status :=
| EDID_BLOCK_OK | EDID_BLOCK_READ_FAIL | EDID_BLOCK_NULL | EDID_BLOCK_ZERO | EDID_BLOCK_HEADER_CORRUPT
| EDID_BLOCK_HEADER_REPAIR | EDID_BLOCK_HEADER_FIXED | EDID_BLOCK_CHECKSUM | EDID_BLOCK_VERSION.
#[export] Instance edid_block_status_eq_dec : EqDecision edid_block_status.
Proof. solve_decision. Defined.

Definition edid_block_status_valid (status : edid_block_status) (tag : Z) : bool :=
  bool_decide (status = EDID_BLOCK_OK) || bool_decide (status = EDID_BLOCK_HEADER_FIXED)
  || (bool_decide (status = EDID_BLOCK_CHECKSUM) && (tag =? CEA_EXT)).

Section check.
(** The module parameter: how many bytes of the header have to be right. *)
Context (edid_fixup : Z).

Definition edid_block_check (m : list Z) (block : option Z) (is_base_block : bool) : option edid_block_status :=
  match block with
  | None => Some EDID_BLOCK_NULL
  | Some block =>
    bad ← (if is_base_block then
             score ← drm_edid_header_is_valid m block;
             if score <? Z.min (Z.max edid_fixup 0) 8 then
               zero ← edid_block_is_zero m block;
               Some (Some (if (zero : bool) then EDID_BLOCK_ZERO else EDID_BLOCK_HEADER_CORRUPT))
             else Some (if score <? 8 then Some EDID_BLOCK_HEADER_REPAIR else None)
           else Some None);
    match bad with
    | Some status => Some status
    | None =>
      crc ← edid_block_compute_checksum m block;
      sum ← edid_block_get_checksum m block;
      if negb (crc =? sum) then
        zero ← edid_block_is_zero m block;
        Some (if (zero : bool) then EDID_BLOCK_ZERO else EDID_BLOCK_CHECKSUM)
      else if is_base_block then
        version ← rd m (block + 18);
        Some (if negb (version =? 1) then EDID_BLOCK_VERSION else EDID_BLOCK_OK)
      else Some EDID_BLOCK_OK
    end
  end.

Definition edid_block_valid (m : list Z) (block : Z) (base : bool) : option bool :=
  status ← edid_block_check m (Some block) base;
  tag ← edid_block_tag m block;
  Some (edid_block_status_valid status tag).

(** The check, and a second one once the header is repaired. *)
Definition check_and_fix (m : list Z) (block : Z) (is_base_block : bool) : option (edid_block_status * list Z) :=
  status ← edid_block_check m (Some block) is_base_block;
  if bool_decide (status = EDID_BLOCK_HEADER_REPAIR) then
    m ← edid_header_fix m block;
    status ← edid_block_check m (Some block) is_base_block;
    Some (if bool_decide (status = EDID_BLOCK_OK) then EDID_BLOCK_HEADER_FIXED else status, m)
  else Some (status, m).

(** The block and whether it is the corrupt flag that changes. *)
Definition drm_edid_block_valid (m : list Z) (block : option Z) (block_num : Z) (edid_corrupt : option bool)
    : option (bool * list Z * option bool) :=
  let is_base_block := block_num =? 0 in
  match block with
  | None => Some (false, m, edid_corrupt)
  | Some block =>
    '(status, m) ← check_and_fix m block is_base_block;
    let edid_corrupt :=
      (fun c => if is_base_block
                   && (bool_decide (status = EDID_BLOCK_OK) || bool_decide (status = EDID_BLOCK_VERSION))
                then false
                else if negb (bool_decide (status = EDID_BLOCK_OK)) then true else c) <$> edid_corrupt in
    tag ← edid_block_tag m block;
    Some (edid_block_status_valid status tag, m, edid_corrupt)
  end.

(** The blocks from [i]; the count is read again in every round. *)
Fixpoint is_valid_from (fuel : nat) (m : list Z) (i : Z) : option (bool * list Z) :=
  match fuel with
  | O => None
  | S fuel =>
    count ← edid_block_count m;
    if i <? count then
      '(valid, m, _) ← drm_edid_block_valid m (Some (edid_block_data i)) i None;
      if (valid : bool) then is_valid_from fuel m (i + 1) else Some (false, m)
    else Some (true, m)
  end.
Definition drm_edid_is_valid (edid : list Z) : option (bool * list Z) := is_valid_from MAX_BLOCKS edid 0.
End check.

(** ** The number of blocks that an extension gives *)

Definition CTA_DB_EXTENDED_TAG := 7.
Definition CTA_EXT_DB_HF_EEODB := 0x78.

Definition cea_db_tag (m : list Z) (db : Z) : option Z := x ← rd m db; Some (Z.shiftr x 5).
Definition cea_db_payload_len (m : list Z) (db : Z) : option Z := x ← rd m db; Some (Z.land x 0x1f).
Definition cea_db_is_extended_tag (m : list Z) (db tag : Z) : option bool :=
  t ← cea_db_tag m db;
  if negb (t =? CTA_DB_EXTENDED_TAG) then Some false
  else
    len ← cea_db_payload_len m db;
    if len <? 1 then Some false else x ← rd m (db + 1); Some (x =? tag).
Definition cea_db_is_hdmi_forum_eeodb (m : list Z) (db : Z) : option bool :=
  e ← cea_db_is_extended_tag m db CTA_EXT_DB_HF_EEODB;
  if (e : bool) then len ← cea_db_payload_len m db; Some (2 <=? len) else Some false.
Definition cea_revision (m : list Z) (cea : Z) : option Z := rd m (cea + 1).
Definition cea_db_collection_size (m : list Z) (cta : Z) : option Z :=
  d ← rd m (cta + 2); Some (if (d <? 4) || (127 <? d) then 0 else d - 4).

Definition edid_hfeeodb_extension_block_count (edid : list Z) : option Z :=
  n ← edid_extension_block_count edid;
  if n =? 0 then Some 0
  else
    let cta := edid_extension_block_data 0 in
    tag ← edid_block_tag edid cta;
    if negb (tag =? CEA_EXT) then Some 0
    else
      rev ← cea_revision edid cta;
      if rev <? 3 then Some 0
      else
        size ← cea_db_collection_size edid cta;
        if size <? 3 then Some 0
        else
          e ← cea_db_is_hdmi_forum_eeodb edid (cta + 4);
          if negb e then Some 0 else rd edid (cta + (4 + 2)).
Definition edid_hfeeodb_block_count (edid : list Z) : option Z :=
  eeodb ← edid_hfeeodb_extension_block_count edid; Some (if negb (eeodb =? 0) then eeodb + 1 else 0).

(** ** Reading *)

(** What the display answered, the code and what is in the buffer of [len] bytes then. *)
Definition read_block_fn (D : Type) : Type := D -> Z -> Z -> D * Z * list Z.

(** The contract of the function: it fills the buffer that it is given, no more. *)
Class BlockReader {D : Type} (read_block : read_block_fn D) : Prop := {
  read_fills s block len : 0 <= len -> blen (read_block s block len).2 = len;
  read_bytes s block len : Forall is_byte (read_block s block len).2
}.

(** The members of a drm_connector that reading changes. *)
Record edid_errors := EdidErrors {
  edid_corrupt : bool;
  null_edid_counter : Z;   (* int *)
  bad_edid_counter : Z;   (* unsigned *)
  real_edid_checksum : Z   (* u8 *)
}.
Definition set_corrupt (c : bool) (k : edid_errors) : edid_errors :=
  EdidErrors c (null_edid_counter k) (bad_edid_counter k) (real_edid_checksum k).
Definition count_null (k : edid_errors) : edid_errors :=
  EdidErrors (edid_corrupt k) (s32 (null_edid_counter k + 1)) (bad_edid_counter k) (real_edid_checksum k).

(** The dump of a bad EDID is left out. *)
Definition connector_bad_edid (k : edid_errors) (edid : list Z) (num_blocks : Z) : option edid_errors :=
  last_block ← edid_extension_block_count edid;
  checksum ← (if last_block <? num_blocks
              then edid_block_compute_checksum edid (edid_block_data last_block)
              else Some (real_edid_checksum k));
  Some (EdidErrors (edid_corrupt k) (null_edid_counter k) (u32 (bad_edid_counter k + 1)) checksum).

Section read.
Context (edid_fixup : Z) {D : Type} (read_block : read_block_fn D).

(** [n] tries are left, [first] says that none was made. *)
Fixpoint block_read (n : nat) (first : bool) (s : D) (m : list Z) (block block_num : Z) (status : edid_block_status)
    : option (D * list Z * edid_block_status) :=
  match n with
  | O => Some (s, m, status)
  | S n =>
    let is_base_block := block_num =? 0 in
    let '(s, ret, bytes) := read_block s block_num EDID_LENGTH in
    m ← wr_range m block bytes;
    if negb (ret =? 0) then Some (s, m, EDID_BLOCK_READ_FAIL)
    else
      '(status, m) ← check_and_fix edid_fixup m block is_base_block;
      tag ← edid_block_tag m block;
      if edid_block_status_valid status tag then Some (s, m, status)
      else if first && is_base_block && bool_decide (status = EDID_BLOCK_ZERO) then Some (s, m, status)
      else block_read n false s m block block_num status
  end.
Definition edid_block_read (s : D) (m : list Z) (block block_num : Z) : option (D * list Z * edid_block_status) :=
  block_read 4 true s m block block_num EDID_BLOCK_OK.

(** Which allocations succeed, by the order in which they are made, and what is in new
    memory. *)
Context (alloc_ok : nat -> bool) (uninit : Z).

Definition kmalloc (k : nat) (size : Z) : option (list Z) :=
  if alloc_ok k then Some (replicate (Z.to_nat size) uninit) else None.
Definition krealloc (k : nat) (edid : list Z) (size : Z) : option (list Z) :=
  if alloc_ok k
  then Some (take (Z.to_nat size) edid ++ replicate (Z.to_nat size - length edid) uninit) else None.

(** Moves the valid blocks together; the count is read again in every round. *)
Fixpoint filter_blocks (fuel : nat) (edid : list Z) (i valid_blocks : Z) : option (list Z * Z) :=
  match fuel with
  | O => None
  | S fuel =>
    count ← edid_block_count edid;
    if i <? count then
      let src_block := edid_block_data i in
      valid ← edid_block_valid edid_fixup edid src_block (i =? 0);
      if (valid : bool) then
        let dst_block := edid_block_data valid_blocks in
        bytes ← rd_range edid src_block EDID_LENGTH;
        edid ← wr_range edid dst_block bytes;
        filter_blocks fuel edid (i + 1) (valid_blocks + 1)
      else filter_blocks fuel edid (i + 1) valid_blocks
    else Some (edid, valid_blocks)
  end.

(** The EDID, if there is one, and the size. *)
Definition edid_filter_invalid_blocks (k : nat) (edid : list Z) (alloc_size : Z) : option (option (list Z) * Z) :=
  '(edid, valid_blocks) ← filter_blocks MAX_BLOCKS edid 0 0;
  if valid_blocks =? 0 then Some (None, alloc_size)
  else
    edid ← wr edid 126 (valid_blocks - 1);
    crc ← edid_block_compute_checksum edid 0;
    edid ← wr edid 127 crc;
    let alloc_size := edid_size_by_blocks valid_blocks in
    Some (krealloc k edid alloc_size, alloc_size).

(** The extension blocks from [i] on: the memory, its size, the number of blocks and of
    invalid ones, or no memory after a failure.  [n] is not less than what is left. *)
Fixpoint read_extensions (n : nat) (s : D) (edid : list Z) (i num_blocks invalid_blocks alloc_size : Z)
    : option (D * option (list Z * Z * Z * Z)) :=
  match n with
  | O => None
  | S n =>
    if negb (i <? num_blocks) then Some (s, Some (edid, alloc_size, num_blocks, invalid_blocks))
    else
      let block := edid_block_data i in
      '(s, edid, status) ← edid_block_read s edid block i;
      tag ← edid_block_tag edid block;
      if negb (edid_block_status_valid status tag) then
        if bool_decide (status = EDID_BLOCK_READ_FAIL) then Some (s, None)
        else read_extensions n s edid (i + 1) num_blocks (invalid_blocks + 1) alloc_size
      else if i =? 1 then
        eeodb ← edid_hfeeodb_block_count edid;
        if num_blocks <? eeodb then
          let num_blocks := eeodb in
          let alloc_size := edid_size_by_blocks num_blocks in
          match krealloc 2 edid alloc_size with
          | None => Some (s, None)
          | Some edid => read_extensions n s edid (i + 1) num_blocks invalid_blocks alloc_size
          end
        else read_extensions n s edid (i + 1) num_blocks invalid_blocks alloc_size
      else read_extensions n s edid (i + 1) num_blocks invalid_blocks alloc_size
  end.

(** Behind a valid base block: the extensions. *)
Definition get_extensions (k : edid_errors) (s : D) (edid : list Z)
    : option (edid_errors * D * option (list Z * Z)) :=
  extensions ← edid_extension_block_count edid;
  if extensions =? 0 then Some (k, s, Some (edid, EDID_LENGTH))
  else
    alloc_size ← edid_size edid;
    match krealloc 1 edid alloc_size return option (edid_errors * D * option (list Z * Z)) with
    | None => Some (k, s, None)
    | Some edid =>
      num_blocks ← edid_block_count edid;
      '(s, r) ← read_extensions MAX_BLOCKS s edid 1 num_blocks 0 alloc_size;
      match r return option (edid_errors * D * option (list Z * Z)) with
      | None => Some (k, s, None)
      | Some (edid, alloc_size, num_blocks, invalid_blocks) =>
        if negb (invalid_blocks =? 0) then
          k ← connector_bad_edid k edid num_blocks;
          '(edid, alloc_size) ← edid_filter_invalid_blocks 3 edid alloc_size;
          Some (k, s, match edid with Some e => Some (e, alloc_size) | None => None end)
        else Some (k, s, Some (edid, alloc_size))
      end
    end.

(** The override or firmware EDID is given, already a copy; the result is the EDID, if
    there is one, and its size. *)
Definition _drm_do_get_edid (k : edid_errors) (s : D) (override : option (list Z))
    : option (edid_errors * D * option (list Z * Z)) :=
  match override with
  | Some o => Some (k, s, if alloc_ok 0 then Some (o, blen o) else None)
  | None =>
    match kmalloc 0 EDID_LENGTH return option (edid_errors * D * option (list Z * Z)) with
    | None => Some (k, s, None)
    | Some edid =>
      '(s, edid, status) ← edid_block_read s edid 0 0;
      if bool_decide (status = EDID_BLOCK_READ_FAIL) then Some (k, s, None)
      else
        let k := set_corrupt (negb (bool_decide (status = EDID_BLOCK_OK) || bool_decide (status = EDID_BLOCK_VERSION))) k in
        tag ← edid_block_tag edid 0;
        if negb (edid_block_status_valid status tag) then
          let k := if bool_decide (status = EDID_BLOCK_ZERO) then count_null k else k in
          k ← connector_bad_edid k edid 1;
          Some (k, s, None)
        else get_extensions k s edid
    end
  end.
End read.

(** ** The container *)

(** A size and the bytes, which can be more. *)
Record drm_edid := DrmEdid { de_size : Z; de_edid : list Z }.

(** [de] is not NULL. *)
Definition __drm_edid_block_count (de : drm_edid) : option Z :=
  num_blocks ← edid_block_count (de_edid de);
  if edid_size_by_blocks 2 <=? de_size de then
    eeodb ← edid_hfeeodb_block_count (de_edid de);
    Some (if negb (eeodb =? 0) then eeodb else num_blocks)
  else Some num_blocks.
Definition drm_edid_block_count (de : drm_edid) : option Z :=
  n ← __drm_edid_block_count de; Some (Z.min n (Z.quot (s32 (de_size de)) EDID_LENGTH)).
Definition drm_edid_extension_block_count (de : drm_edid) : option Z :=
  n ← drm_edid_block_count de; Some (n - 1).

Fixpoint edid_valid_from (edid_fixup : Z) (fuel : nat) (de : drm_edid) (i : Z) : option bool :=
  match fuel with
  | O => None
  | S fuel =>
    count ← drm_edid_block_count de;
    if i <? count then
      valid ← edid_block_valid edid_fixup (de_edid de) (edid_block_data i) (i =? 0);
      if (valid : bool) then edid_valid_from edid_fixup fuel de (i + 1) else Some false
    else Some true
  end.
Definition drm_edid_valid (edid_fixup : Z) (de : option drm_edid) : option bool :=
  match de with
  | None => Some false
  | Some de =>
    count ← __drm_edid_block_count de;
    if negb (edid_size_by_blocks count =? de_size de) then Some false
    else edid_valid_from edid_fixup MAX_BLOCKS de 0
  end.

Definition drm_edid_raw (de : option drm_edid) : option (option (list Z)) :=
  match de with
  | None => Some None
  | Some de =>
    if de_size de =? 0 then Some None
    else
      size ← edid_size (de_edid de);
      Some (if de_size de <? size then None else Some (de_edid de))
  end.

(** Whether the container could be allocated is [alloc_ok]. *)
Definition _drm_edid_alloc (alloc_ok : bool) (edid : option (list Z)) (size : Z) : option drm_edid :=
  match edid with
  | None => None
  | Some edid => if (size =? 0) || (size <? EDID_LENGTH) then None
                 else if alloc_ok then Some (DrmEdid size edid) else None
  end.
(** The first of the two allocations copies [size] bytes. *)
Definition drm_edid_alloc (dup_ok alloc_ok : bool) (edid : option (list Z)) (size : Z) : option (option drm_edid) :=
  match edid with
  | None => Some None
  | Some m =>
    if (size =? 0) || (size <? EDID_LENGTH) then Some None
    else if dup_ok then edid ← rd_range m 0 size; Some (_drm_edid_alloc alloc_ok (Some edid) size)
    else Some None
  end.
Definition drm_edid_dup (dup_ok alloc_ok : bool) (de : option drm_edid) : option (option drm_edid) :=
  match de with
  | None => Some None
  | Some de => drm_edid_alloc dup_ok alloc_ok (Some (de_edid de)) (de_size de)
  end.

(** connector->edid_override *)
Definition drm_edid_override_set (edid_fixup : Z) (dup_ok alloc_ok : bool) (override : option drm_edid)
    (edid : option (list Z)) (size : Z) : option (Z * option drm_edid) :=
  de ← drm_edid_alloc dup_ok alloc_ok edid size;
  valid ← drm_edid_valid edid_fixup de;
  Some (if (valid : bool) then (0, de) else (- EINVAL, override)).
Definition drm_edid_override_reset (override : option drm_edid) : option drm_edid := None.
(** [firmware] is what drm_edid_load_firmware() found. *)
Definition drm_edid_override_get (dup_ok alloc_ok : bool) (override firmware : option drm_edid) : option (option drm_edid) :=
  o ← match override with Some o => drm_edid_dup dup_ok alloc_ok (Some o) | None => Some None end;
  Some match o with Some o => Some o | None => firmware end.

Definition drm_edid_read_custom {D : Type} (edid_fixup : Z) (read_block : read_block_fn D) (alloc_ok : nat -> bool)
    (uninit : Z) (k : edid_errors) (s : D) (override : option drm_edid) : option (edid_errors * D * option drm_edid) :=
  o ← match override with
      | Some o => b ← rd_range (de_edid o) 0 (de_size o); Some (Some b)
      | None => Some None
      end;
  '(k, s, r) ← _drm_do_get_edid edid_fixup read_block alloc_ok uninit k s o;
  Some (k, s, match r with
              | None => None
              | Some (edid, size) => _drm_edid_alloc (alloc_ok 4%nat) (Some edid) size
              end).
