(* ===== verification/EdidBlocks.v ===== *)
(** * EDID blocks in memory

    Memory that holds whole blocks, what the accesses of Edid.v are on it, and the checks
    of a block as functions of its 128 bytes. *)

From stdpp Require Import base numbers list option.
From Stdlib Require Import ZArith Lia Bool.
From S2P Require Import Prelude ByteBuf Edid.
#[local] Open Scope Z_scope.

Lemma sat_eq {A B} (m : option A) a (f : A -> option B) (P : B -> Prop) :
  m = Some a -> sat (f a) P -> sat (m ≫= f) P.
Proof. by intros ->. Qed.

(** ** Memory made of blocks *)

Definition whole (bs : list (list Z)) : Prop := Forall (fun b => length b = 128%nat) bs.

Lemma whole_length bs : whole bs -> length (concat bs) = (128 * length bs)%nat.
Proof. induction 1 as [|b bs Hb _ IH]; [done|]. cbn [concat length]. rewrite length_app, IH, Hb. lia. Qed.

Lemma whole_blen bs : whole bs -> blen (concat bs) = 128 * Z.of_nat (length bs).
Proof. intros H. unfold blen. rewrite whole_length by done. lia. Qed.

Lemma whole_lookup bs i b : whole bs -> bs !! i = Some b -> length b = 128%nat.
Proof. intros H Hi. exact (Forall_lookup_1 _ _ _ _ H Hi). Qed.

Lemma whole_split bs i b : whole bs -> bs !! i = Some b ->
  concat bs = concat (take i bs) ++ b ++ concat (drop (S i) bs) /\ length (concat (take i bs)) = (128 * i)%nat.
Proof.
  intros H Hi. split.
  - rewrite <- (take_drop_middle _ _ _ Hi) at 1. by rewrite concat_app.
  - rewrite whole_length by by apply Forall_take. rewrite length_take_le; [done|]. apply lookup_lt_Some in Hi. lia.
Qed.

Lemma rd_block bs i b p j : whole bs -> bs !! i = Some b -> p = 128 * Z.of_nat i -> 0 <= j < 128 ->
  rd (concat bs) (p + j) = rd b j.
Proof.
  intros H Hi -> Hj. destruct (whole_split bs i b H Hi) as [-> Hl]. pose proof (whole_lookup bs i b H Hi) as Hb.
  assert (Hp : blen (concat (take i bs)) = 128 * Z.of_nat i) by (unfold blen; lia).
  rewrite rd_app_r by lia. rewrite rd_app_l by (unfold blen; lia). f_equal. lia.
Qed.

Lemma rd_range_block bs i b p : whole bs -> bs !! i = Some b -> p = 128 * Z.of_nat i ->
  rd_range (concat bs) p 128 = Some b.
Proof.
  intros H Hi ->. destruct (whole_split bs i b H Hi) as [-> Hl]. pose proof (whole_lookup bs i b H Hi) as Hb.
  replace (128 * Z.of_nat i) with (blen (concat (take i bs))) by (unfold blen; lia).
  replace 128 with (blen b) by (unfold blen; lia). apply rd_range_app.
Qed.

(** A write inside of a block. *)
Lemma wr_range_in bs i b p j c : whole bs -> bs !! i = Some b -> p = 128 * Z.of_nat i ->
  (j + length c <= 128)%nat ->
  wr_range (concat bs) (p + Z.of_nat j) c = Some (concat (<[i := take j b ++ c ++ drop (j + length c) b]> bs)).
Proof.
  intros H Hi -> Hj. pose proof (whole_lookup bs i b H Hi) as Hb. destruct (whole_split bs i b H Hi) as [E Hl].
  pose proof (lookup_lt_Some _ _ _ Hi) as Hlt.
  rewrite wr_range_Some by (unfold blen; rewrite ?whole_length by done; lia). f_equal.
  rewrite insert_take_drop by done. rewrite concat_app. cbn [concat]. rewrite E.
  replace (Z.to_nat (128 * Z.of_nat i + Z.of_nat j)) with (length (concat (take i bs)) + j)%nat by lia.
  rewrite take_app_add. rewrite <- Nat.add_assoc, drop_app_add.
  rewrite take_app_le, drop_app_le by lia. by rewrite <- !app_assoc.
Qed.

Lemma wr_range_block bs i b b' p : whole bs -> bs !! i = Some b -> p = 128 * Z.of_nat i -> length b' = 128%nat ->
  wr_range (concat bs) p b' = Some (concat (<[i := b']> bs)).
Proof.
  intros H Hi Hp Hb'. pose proof (whole_lookup bs i b H Hi) as Hb. replace p with (p + Z.of_nat 0) by lia.
  rewrite (wr_range_in bs i b p 0 b' H Hi Hp) by lia. cbn [take app Nat.add].
  rewrite drop_ge, app_nil_r by lia. done.
Qed.

Lemma wr_block bs i b p j v : whole bs -> bs !! i = Some b -> p = 128 * Z.of_nat i -> (j < 128)%nat ->
  wr (concat bs) (p + Z.of_nat j) v = Some (concat (<[i := <[j := u8 v]> b]> bs)).
Proof.
  intros H Hi Hp Hj. pose proof (whole_lookup bs i b H Hi) as Hb. unfold wr.
  rewrite (wr_range_in bs i b p j [u8 v] H Hi Hp) by (cbn [length]; lia).
  rewrite (insert_take_drop b) by lia. cbn [length app]. by rewrite Nat.add_1_r.
Qed.

Lemma whole_insert bs i b : whole bs -> length b = 128%nat -> whole (<[i := b]> bs).
Proof. intros. by apply Forall_insert. Qed.

Lemma whole_take bs n : whole bs -> take (128 * n) (concat bs) = concat (take n bs).
Proof.
  intros H. revert n. induction H as [|b bs Hb H IH]; intros n; cbn [concat]; [by rewrite !firstn_nil|].
  destruct n as [|n]; [done|]. cbn [take concat].
  replace (128 * S n)%nat with (length b + 128 * n)%nat by lia. by rewrite take_app_add, IH.
Qed.

Lemma replicate_blocks (x : Z) n : concat (replicate n (replicate 128 x)) = replicate (128 * n) x.
Proof.
  induction n as [|n IH]; [done|]. rewrite replicate_S. cbn [concat]. rewrite IH, <- replicate_add. f_equal. lia.
Qed.

Lemma whole_replicate (x : Z) n : whole (replicate n (replicate 128 x)).
Proof. apply Forall_replicate. by rewrite length_replicate. Qed.

(** Growing and shrinking. *)
Lemma krealloc_whole alloc_ok uninit k bs size n : whole bs -> size = 128 * Z.of_nat n ->
  krealloc alloc_ok uninit k (concat bs) size
  = if alloc_ok k then Some (concat (take n bs ++ replicate (n - length bs) (replicate 128 uninit))) else None.
Proof.
  intros H ->. unfold krealloc. destruct (alloc_ok k); [|done]. f_equal.
  replace (Z.to_nat (128 * Z.of_nat n)) with (128 * n)%nat by lia.
  rewrite whole_take, concat_app, whole_length by done. f_equal. rewrite replicate_blocks. f_equal. lia.
Qed.

(** ** Checks as functions of the block *)

Lemma header_score_block bs i b p h : whole bs -> bs !! i = Some b -> p = 128 * Z.of_nat i ->
  forall j n, 0 <= j -> j + Z.of_nat (length h) <= 128 -> header_score h (concat bs) (p + j) n = header_score h b j n.
Proof.
  intros H Hi ->. induction h as [|x h IH]; intros j n Hj Hl; cbn [header_score length] in *; [done|].
  rewrite (rd_block bs i b _ j H Hi eq_refl) by lia. destruct (rd b j); [|done]. cbn [mbind option_bind].
  rewrite <- Z.add_assoc. apply IH; lia.
Qed.

Lemma sum_bytes_block bs i b p k : whole bs -> bs !! i = Some b -> p = 128 * Z.of_nat i ->
  forall j n, 0 <= j -> j + Z.of_nat k <= 128 -> sum_bytes k (concat bs) (p + j) n = sum_bytes k b j n.
Proof.
  intros H Hi ->. induction k as [|k IH]; intros j n Hj Hl; cbn [sum_bytes] in *; [done|].
  rewrite (rd_block bs i b _ j H Hi eq_refl) by lia. destruct (rd b j); [|done]. cbn [mbind option_bind].
  rewrite <- Z.add_assoc. apply IH; lia.
Qed.

Lemma rd_range_whole b : length b = 128%nat -> rd_range b 0 128 = Some b.
Proof.
  intros Hb. rewrite rd_range_Some by (unfold blen; lia). change (Z.to_nat 0) with 0%nat.
  rewrite drop_0, take_ge; [done|lia].
Qed.

Section check.
Context (edid_fixup : Z) (bs : list (list Z)) (i : nat) (b : list Z) (p : Z).
Context (Hw : whole bs) (Hi : bs !! i = Some b) (Hp : p = 128 * Z.of_nat i).

Lemma checksum_block : edid_block_compute_checksum (concat bs) p = edid_block_compute_checksum b 0.
Proof.
  unfold edid_block_compute_checksum. rewrite <- (Z.add_0_r p).
  by rewrite (sum_bytes_block bs i b p _ Hw Hi Hp) by (vm_compute; done).
Qed.

Lemma zero_block : edid_block_is_zero (concat bs) p = edid_block_is_zero b 0.
Proof.
  unfold edid_block_is_zero, EDID_LENGTH. rewrite (rd_range_block bs i b p Hw Hi Hp).
  by rewrite rd_range_whole by by eapply whole_lookup.
Qed.

Lemma tag_block : edid_block_tag (concat bs) p = edid_block_tag b 0.
Proof. unfold edid_block_tag. rewrite <- (Z.add_0_r p). by rewrite (rd_block bs i b p 0 Hw Hi Hp). Qed.

Lemma check_block base : edid_block_check edid_fixup (concat bs) (Some p) base = edid_block_check edid_fixup b (Some 0) base.
Proof.
  unfold edid_block_check, drm_edid_header_is_valid, edid_block_get_checksum.
  rewrite checksum_block, zero_block, !(rd_block bs i b p _ Hw Hi Hp) by done.
  rewrite <- (Z.add_0_r p). by rewrite (header_score_block bs i b p _ Hw Hi Hp) by (vm_compute; done).
Qed.

Lemma block_valid_block base : edid_block_valid edid_fixup (concat bs) p base = edid_block_valid edid_fixup b 0 base.
Proof. unfold edid_block_valid. by rewrite check_block, tag_block. Qed.
End check.

(** ** Sound blocks

    What the checks look for: the bytes add up to 0 modulo 256, which an extension of the
    CTA need not obey; a base block has the header and version 1. *)

Definition bsum (b : list Z) : Z := foldr Z.add 0 b.
Definition block_sound (base : bool) (b : list Z) : Prop :=
  if base then take 8 b = edid_header /\ b !! 18%nat = Some 1 /\ bsum b mod 256 = 0
  else bsum b mod 256 = 0 \/ head b = Some CEA_EXT.
#[export] Instance block_sound_dec base b : Decision (block_sound base b).
Proof. destruct base; cbn; apply _. Defined.

(** A block as it is read. *)
Definition block (b : list Z) : Prop := length b = 128%nat /\ Forall is_byte b.

Lemma drop_rd m p x : rd m p = Some x -> 0 <= p -> drop (Z.to_nat p) m = x :: drop (Z.to_nat (p + 1)) m.
Proof.
  intros E Hp. rewrite rd_lookup in E by done. rewrite (drop_S _ _ _ E). do 2 f_equal. lia.
Qed.

Lemma header_score_spec h : forall m p n, 0 <= p -> p + Z.of_nat (length h) <= blen m ->
  exists sc, header_score h m p n = Some sc /\ n <= sc <= n + Z.of_nat (length h)
    /\ (sc = n + Z.of_nat (length h) <-> take (length h) (drop (Z.to_nat p) m) = h).
Proof.
  induction h as [|y h IH]; intros m p n Hp Hl; cbn [header_score length] in *.
  { exists n. split; [done|]. split; [lia|]. split; [done|lia]. }
  destruct (proj2 (rd_Some m p) ltac:(lia)) as [x Ex]. rewrite Ex. cbn [mbind option_bind].
  destruct (IH m (p + 1) (if x =? y then n + 1 else n) ltac:(lia) ltac:(lia)) as (sc & Es & Hb & Hi).
  exists sc. split; [done|]. rewrite (drop_rd m p x Ex Hp). cbn [take].
  destruct (Z.eqb_spec x y) as [->|Hxy].
  - split; [lia|]. rewrite (inj_iff (cons y)), <- Hi. lia.
  - split; [lia|]. split; [lia|]. intros [= ->]. done.
Qed.

Lemma sum_bytes_spec k : forall m p c, 0 <= p -> p + Z.of_nat k <= blen m ->
  sum_bytes k m p (u8 c) = Some (u8 (c + bsum (take k (drop (Z.to_nat p) m)))).
Proof.
  induction k as [|k IH]; intros m p c Hp Hl; cbn [sum_bytes].
  { cbn [take bsum foldr]. by rewrite Z.add_0_r. }
  destruct (proj2 (rd_Some m p) ltac:(lia)) as [x Ex]. rewrite Ex. cbn [mbind option_bind].
  replace (u8 (u8 c + x)) with (u8 (c + x)) by (unfold wrapU; by rewrite Zplus_mod_idemp_l).
  rewrite IH by lia. rewrite (drop_rd m p x Ex Hp). cbn [take]. unfold bsum. cbn [foldr]. f_equal. f_equal. lia.
Qed.

Lemma bsum_app a b : bsum (a ++ b) = bsum a + bsum b.
Proof. induction a as [|x a IH]; cbn in *; [done|]. unfold bsum in *. lia. Qed.

Lemma checksum_spec b : length b = 128%nat ->
  edid_block_compute_checksum b 0 = Some (u8 (256 - bsum (take 127 b))).
Proof.
  intros Hb. unfold edid_block_compute_checksum. change (Z.to_nat (EDID_LENGTH - 1)) with 127%nat.
  change 0 with (u8 0) at 2. rewrite sum_bytes_spec by (unfold blen; lia). cbn [mbind option_bind].
  change (Z.to_nat 0) with 0%nat. rewrite drop_0, Z.add_0_l. f_equal. unfold wrapU. by rewrite Zminus_mod_idemp_r.
Qed.

Lemma checksum_sound b x : length b = 128%nat -> is_byte x -> b !! 127%nat = Some x ->
  (u8 (256 - bsum (take 127 b)) =? x) = bool_decide (bsum b mod 256 = 0).
Proof.
  intros Hb Hx Ex. assert (Hs : bsum b = bsum (take 127 b) + x).
  { rewrite <- (take_drop_middle _ _ _ Ex) at 1. rewrite bsum_app, (drop_ge b 128) by lia. cbn. lia. }
  rewrite Hs. unfold is_byte, wrapU in *. change (2 ^ 8) with 256.
  destruct (Z.eqb_spec ((256 - bsum (take 127 b)) mod 256) x) as [E|E]; symmetry.
  - apply bool_decide_eq_true_2. rewrite <- E, Zplus_mod_idemp_r. by replace (_ + _) with (1 * 256) by lia.
  - apply bool_decide_eq_false_2. intros E'. apply E. clear E Hs.
    set (s := bsum (take 127 b)) in *. clearbody s. pose proof (Z.div_mod (s + x) 256). pose proof (Z.div_mod (256 - s) 256).
    pose proof (Z.mod_pos_bound (256 - s) 256). lia.
Qed.

Lemma block_byte b i : block b -> 0 <= i < 128 -> exists x, rd b i = Some x /\ is_byte x /\ b !! Z.to_nat i = Some x.
Proof.
  intros [Hl Hb] Hi. destruct (proj2 (rd_Some b i) ltac:(unfold blen; lia)) as [x Ex]. exists x. split; [done|].
  rewrite rd_lookup in Ex by lia. split; [|done]. exact (Forall_lookup_1 _ _ _ _ Hb Ex).
Qed.

Lemma zero_total b : length b = 128%nat -> exists z, edid_block_is_zero b 0 = Some z.
Proof. intros Hl. unfold edid_block_is_zero, EDID_LENGTH. rewrite rd_range_whole by done. by eexists. Qed.

Lemma zero_sum b : length b = 128%nat -> edid_block_is_zero b 0 = Some true -> bsum b = 0.
Proof.
  intros Hl. unfold edid_block_is_zero, EDID_LENGTH. rewrite rd_range_whole by done. cbn [mbind option_bind].
  intros [= Hz]. clear Hl. induction b as [|x b IH]; [done|]. cbn in Hz. apply andb_prop in Hz as [Hx Hz].
  apply Z.eqb_eq in Hx as ->. unfold bsum in *. cbn. by rewrite IH.
Qed.

(** The status of a block: never a failure, and OK or a CTA extension with a wrong sum is
    what is sound. *)
Lemma check_sound fx base b : block b ->
  exists st t, edid_block_check fx b (Some 0) base = Some st /\ edid_block_tag b 0 = Some t
    /\ st <> EDID_BLOCK_READ_FAIL /\ st <> EDID_BLOCK_HEADER_FIXED
    /\ edid_block_status_valid st t = bool_decide (block_sound base b)
    /\ (base = true -> edid_block_status_valid st t = true -> st = EDID_BLOCK_OK).
Proof.
  intros Hb. pose proof Hb as [Hl _].
  destruct (block_byte b 0 Hb ltac:(lia)) as (t & Et & Ht & Et'). destruct (zero_total b Hl) as [z Ez].
  destruct (block_byte b 127 Hb ltac:(lia)) as (x & Ex & Hx & Ex').
  pose proof (checksum_sound b x Hl Hx Ex') as Hs.
  destruct (block_byte b 18 Hb ltac:(lia)) as (v & Ev & _ & Ev'). change (Z.to_nat 18) with 18%nat in Ev'.
  change (Z.to_nat 0) with 0%nat in Et'. assert (Hhead : head b = Some t) by (by destruct b).
  unfold edid_block_check, edid_block_tag, drm_edid_header_is_valid, edid_block_get_checksum.
  rewrite Et, Ez, checksum_spec by done. cbn [mbind option_bind]. change (0 + 127) with 127. rewrite Ex.
  change (0 + 18) with 18. rewrite Ev. cbn [mbind option_bind]. rewrite Hs. destruct base; cbn [block_sound].
  - destruct (header_score_spec edid_header b 0 0 ltac:(lia) ltac:(unfold blen; cbn [edid_header length]; lia))
      as (sc & -> & Hsc & Hi). cbn [edid_header length] in Hsc, Hi. change (Z.to_nat 0) with 0%nat in Hi. rewrite drop_0 in Hi.
    cbn [mbind option_bind].
    assert (Htag : sc = 8 -> t = 0).
    { intros Hsc8. assert (Hh : take 8 b = edid_header) by (apply Hi; lia). destruct b; [done|]. cbn in Hh, Hhead.
      injection Hh as -> _. by injection Hhead as <-. }
    destruct (Z.ltb_spec sc (Z.min (Z.max fx 0) 8)) as [Hlt|Hge]; [|destruct (Z.ltb_spec sc 8)]; cbn [mbind option_bind].
    + exists (if z then EDID_BLOCK_ZERO else EDID_BLOCK_HEADER_CORRUPT), t.
      rewrite bool_decide_eq_false_2 by (intros (Hh & _); apply Hi in Hh; lia). by destruct z.
    + exists EDID_BLOCK_HEADER_REPAIR, t.
      rewrite bool_decide_eq_false_2 by (intros (Hh & _); apply Hi in Hh; lia). done.
    + assert (sc = 8) by lia. rewrite (Htag ltac:(done)) in *.
      assert (Hh : take 8 b = edid_header) by (apply Hi; lia).
      case_bool_decide as Hm; cbn [negb].
      * destruct (Z.eqb_spec v 1) as [->|Hv]; cbn [negb]; eexists _, _; (do 4 (split; [done|])); split; try done.
        -- by rewrite bool_decide_eq_true_2.
        -- rewrite bool_decide_eq_false_2; [done|]. intros (_ & Hv' & _). congruence.
      * rewrite bool_decide_eq_false_2 by (by intros (_ & _ & ?)). exists (if z then EDID_BLOCK_ZERO else EDID_BLOCK_CHECKSUM), 0.
        by destruct z.
  - cbn [mbind option_bind]. case_bool_decide as Hm; cbn [negb].
    + exists EDID_BLOCK_OK, t. rewrite bool_decide_eq_true_2 by auto. done.
    + exists (if z then EDID_BLOCK_ZERO else EDID_BLOCK_CHECKSUM), t.
      destruct z; [by rewrite (zero_sum b Hl Ez) in Hm|]. do 4 (split; [done|]). split; [|done].
      change (edid_block_status_valid EDID_BLOCK_CHECKSUM t) with (t =? CEA_EXT).
      destruct (Z.eqb_spec t CEA_EXT) as [->|Ht2]; symmetry; [by apply bool_decide_eq_true_2; right|].
      apply bool_decide_eq_false_2. intros [?|E]; [done|]. rewrite Hhead in E. congruence.
Qed.

Lemma block_valid_sound fx base b : block b -> edid_block_valid fx b 0 base = Some (bool_decide (block_sound base b)).
Proof.
  intros Hb. unfold edid_block_valid. destruct (check_sound fx base b Hb) as (st & t & -> & -> & _ & _ & <- & _). done.
Qed.

(** ** The count of blocks of an extension *)

(** It is read from the first two blocks. *)
Lemma eeodb_ext m m' : (forall j, 0 <= j < 256 -> rd m j = rd m' j) ->
  edid_hfeeodb_block_count m = edid_hfeeodb_block_count m'.
Proof.
  intros H. unfold edid_hfeeodb_block_count, edid_hfeeodb_extension_block_count, edid_extension_block_count,
    edid_block_tag, cea_revision, cea_db_collection_size, cea_db_is_hdmi_forum_eeodb, cea_db_is_extended_tag,
    cea_db_tag, cea_db_payload_len, edid_extension_block_data, edid_block_data, EDID_LENGTH. cbv zeta.
  by rewrite !H by lia.
Qed.

Lemma eeodb_total m : (forall j, 0 <= j < 256 -> exists x, rd m j = Some x /\ is_byte x) ->
  exists e, edid_hfeeodb_block_count m = Some e /\ (e = 0 \/ 2 <= e <= 256).
Proof.
  intros H. unfold edid_hfeeodb_block_count.
  assert (Hx : sat (edid_hfeeodb_extension_block_count m) is_byte).
  { unfold edid_hfeeodb_extension_block_count, edid_extension_block_count,
    edid_block_tag, cea_revision, cea_db_collection_size, cea_db_is_hdmi_forum_eeodb, cea_db_is_extended_tag,
    cea_db_tag, cea_db_payload_len, edid_extension_block_data, edid_block_data, EDID_LENGTH. cbv zeta.
    repeat first [ progress cbn [mbind option_bind negb]
      | match goal with |- sat (Some 0) _ => cbn; unfold is_byte; lia end
      | match goal with |- context [mbind _ (rd m ?j)] =>
          destruct (H j ltac:(lia)) as (? & -> & _); cbn [mbind option_bind] end
      | match goal with |- context [if ?b then _ else _] => destruct b end ].
    all: destruct (H ((0 + 1) * 128 + (4 + 2)) ltac:(lia)) as (y & -> & Hy); exact Hy. }
  apply sat_exists in Hx as (x & -> & Hx). cbn [mbind option_bind]. unfold is_byte in Hx.
  destruct (Z.eqb_spec x 0); cbn [negb]; eexists; (split; [done|]); lia.
Qed.
