(* ===== verification/EdidSpec.v ===== *)
(** * What reading an EDID promises

    Whatever a display answers, the code stays in its buffers and what it returns is a
    sequence of sound blocks; a display with sound blocks is read exactly. *)

From stdpp Require Import base numbers list option.
From Stdlib Require Import ZArith Lia Bool.
From S2P Require Import Prelude ByteBuf Edid EdidBlocks.
#[local] Open Scope Z_scope.

(** ** A block is read *)

#[local] Opaque MAX_BLOCKS.
Lemma max_blocks : MAX_BLOCKS = S 256.
Proof. done. Qed.

Definition blocks (bs : list (list Z)) : Prop := Forall block bs.

Lemma block_header_fix b : block b -> block (edid_header ++ drop 8 b).
Proof.
  intros [Hl Hb]. split; [rewrite length_app, length_drop; cbn [edid_header length]; lia|].
  apply Forall_app. split; [|by apply Forall_drop]. repeat constructor; done.
Qed.

Section read.
Context {D : Type} (read_block : read_block_fn D) `{!BlockReader read_block} (fx : Z).

(** The check at the offset of a block replaces the block at most. *)
Lemma check_and_fix_at bs i b p base : whole bs -> bs !! i = Some b -> p = 128 * Z.of_nat i -> block b ->
  exists st t b', check_and_fix fx (concat bs) p base = Some (st, concat (<[i := b']> bs)) /\ block b'
    /\ edid_block_tag b' 0 = Some t /\ st <> EDID_BLOCK_READ_FAIL
    /\ edid_block_status_valid st t = bool_decide (block_sound base b')
    /\ (block_sound base b -> b' = b /\ (base = true -> st = EDID_BLOCK_OK)).
Proof.
  intros Hw Hi Hp Hb. unfold check_and_fix. rewrite (check_block fx bs i b p Hw Hi Hp).
  destruct (check_sound fx base b Hb) as (st & t & -> & Et & Hf & _ & Hv & Hok0). cbn [mbind option_bind].
  destruct (bool_decide_reflect (st = EDID_BLOCK_HEADER_REPAIR)) as [Hr|Hr].
  - subst st. unfold edid_header_fix.
    replace (wr_range (concat bs) p edid_header) with (wr_range (concat bs) (p + Z.of_nat 0) edid_header) by (f_equal; lia).
    rewrite (wr_range_in bs i b p 0 edid_header Hw Hi Hp) by (cbn; lia).
    cbn [take app]. change (0 + length edid_header)%nat with 8%nat. set (b' := edid_header ++ drop 8 b).
    pose proof (block_header_fix b Hb) as Hb'. fold b' in Hb'. cbn [mbind option_bind].
    assert (Hi' : <[i := b']> bs !! i = Some b') by (apply list_lookup_insert_eq; by eapply lookup_lt_Some).
    rewrite (check_block fx _ i b' p (whole_insert _ _ _ Hw (proj1 Hb')) Hi' Hp).
    destruct (check_sound fx base b' Hb') as (st' & t' & -> & Et' & Hf' & Hfix & Hv' & _). cbn [mbind option_bind].
    eexists _, t', b'. split; [done|]. split; [done|]. split; [done|].
    destruct (bool_decide_reflect (st' = EDID_BLOCK_OK)) as [->|Hok]; split; [done| |done|]; split; try exact Hv'.
    all: intros Hs; exfalso; by rewrite bool_decide_eq_true_2 in Hv by done.
  - exists st, t, b. split; [by rewrite list_insert_id|]. split_and!; try done. intros Hs. split; [done|].
    intros ->. apply Hok0; [done|]. by rewrite Hv, bool_decide_eq_true_2.
Qed.

(** What a try leaves at the place of the block. *)
Definition block_done (bs : list (list Z)) (i : nat) (num : Z) (m : list Z) (st : edid_block_status) : Prop :=
  exists t b', m = concat (<[i := b']> bs) /\ block b' /\ edid_block_tag m (128 * Z.of_nat i) = Some t
    /\ (st = EDID_BLOCK_READ_FAIL \/
        st <> EDID_BLOCK_READ_FAIL /\ edid_block_status_valid st t = bool_decide (block_sound (num =? 0) b')).

Lemma block_done_insert bs i num m st b : block_done (<[i := b]> bs) i num m st -> block_done bs i num m st.
Proof. intros (t & b' & Hm & H). rewrite list_insert_insert_eq in Hm. by exists t, b'. Qed.

Lemma block_read_at n : forall first s bs i p num st0, whole bs -> (i < length bs)%nat -> p = 128 * Z.of_nat i ->
  (n = 0%nat -> block_done bs i num (concat bs) st0) ->
  sat (block_read fx read_block n first s (concat bs) p num st0) (fun '(_, m, st) => block_done bs i num m st).
Proof.
  induction n as [|n IH]; intros first s bs i p num st0 Hw Hi Hp H0; cbn [block_read]; [by apply H0|].
  destruct (lookup_lt_is_Some_2 bs i Hi) as [b Eb].
  pose proof (read_fills s num EDID_LENGTH ltac:(done)) as Hl. pose proof (read_bytes s num EDID_LENGTH) as Hbytes.
  destruct (read_block s num EDID_LENGTH) as [[s1 ret] bytes]. cbn [snd] in Hl, Hbytes.
  assert (Hb : block bytes) by (split; [unfold blen, EDID_LENGTH in Hl; lia|done]).
  rewrite (wr_range_block bs i b bytes p Hw Eb Hp (proj1 Hb)). cbn [mbind option_bind].
  assert (Hw1 : whole (<[i := bytes]> bs)) by (apply whole_insert; [done|apply Hb]).
  assert (Hi1 : <[i := bytes]> bs !! i = Some bytes) by by apply list_lookup_insert_eq.
  destruct (negb (ret =? 0)).
  { destruct (block_byte bytes 0 Hb ltac:(lia)) as (t & Et & _). exists t, bytes.
    split_and!; [done|done|by rewrite (tag_block _ i bytes _ Hw1 Hi1)|by left]. }
  destruct (check_and_fix_at _ i bytes p (num =? 0) Hw1 Hi1 Hp Hb) as (st & t & b' & -> & Hb' & Et & Hf & Hv & _).
  rewrite list_insert_insert_eq. cbn [mbind option_bind].
  assert (Hw2 : whole (<[i := b']> bs)) by (apply whole_insert; [done|apply Hb']).
  assert (Hi2 : <[i := b']> bs !! i = Some b') by by apply list_lookup_insert_eq.
  pose proof (tag_block _ i b' p Hw2 Hi2 Hp) as Ht. rewrite Ht, Et. cbn [mbind option_bind].
  assert (Hdone : block_done bs i num (concat (<[i := b']> bs)) st).
  { exists t, b'. split_and!; [done|done|by rewrite <- Hp, Ht|right; by split]. }
  destruct (edid_block_status_valid st t) eqn:Ev; [done|]. destruct (_ && _); [done|].
  eapply sat_mono; [apply (IH false s1 (<[i := b']> bs) i p num st Hw2); [by rewrite length_insert|done|]|].
  - intros _. exists t, b'. rewrite list_insert_insert_eq. split_and!; [done|done|by rewrite <- Hp, Ht|right; split; [done|by rewrite Ev]].
  - intros [[? m] st'] H. by eapply block_done_insert.
Qed.

(** ** The extensions are read *)

Definition bad (bs : list (list Z)) : nat := length (filter (fun b => ~ block_sound false b) bs).

Lemma blocks_whole bs : blocks bs -> whole bs.
Proof. intros H. eapply Forall_impl; [|exact H]. by intros b []. Qed.

(** The bytes of the first two blocks. *)
Lemma two_blocks bs j : whole bs -> blocks (take 2 bs) -> (2 <= length bs)%nat -> 0 <= j < 256 ->
  rd (concat bs) j = rd (concat (take 2 bs)) j /\ exists x, rd (concat bs) j = Some x /\ is_byte x.
Proof.
  intros Hw Hb Hl Hj. destruct bs as [|b0 [|b1 bs]]; cbn [length] in Hl; [lia..|].
  change (take 2 (b0 :: b1 :: bs)) with [b0; b1] in *.
  apply Forall_cons_1 in Hb as [Hb0 Hb]. apply Forall_cons_1 in Hb as [Hb1 _].
  assert (Hw2 : whole [b0; b1]) by (repeat constructor; [apply Hb0|apply Hb1]).
  destruct (Z_lt_le_dec j 128).
  - rewrite <- (Z.add_0_l j). rewrite (rd_block _ 0 b0 0 j Hw eq_refl), (rd_block _ 0 b0 0 j Hw2 eq_refl) by lia.
    split; [done|]. destruct (block_byte b0 j Hb0) as (x & -> & Hx & _); [lia|]. by eauto.
  - replace j with (128 + (j - 128)) by lia.
    rewrite (rd_block _ 1 b1 128 (j - 128) Hw eq_refl), (rd_block _ 1 b1 128 (j - 128) Hw2 eq_refl) by lia.
    split; [done|]. destruct (block_byte b1 (j - 128) Hb1) as (x & -> & Hx & _); [lia|]. by eauto.
Qed.

Lemma eeodb_at bs : whole bs -> blocks (take 2 bs) -> (2 <= length bs)%nat ->
  exists e, edid_hfeeodb_block_count (concat bs) = Some e /\ (e = 0 \/ 2 <= e <= 256)
    /\ forall bs', whole bs' -> take 2 bs' = take 2 bs -> edid_hfeeodb_block_count (concat bs') = Some e.
Proof.
  intros Hw Hb Hl. destruct (eeodb_total (concat bs)) as (e & E & He).
  { intros j Hj. by apply two_blocks. }
  exists e. split_and!; [done|done|]. intros bs' Hw' Ht. rewrite <- E. apply eeodb_ext. intros j Hj.
  assert (Hl' : (2 <= length bs')%nat) by (apply (f_equal length) in Ht; rewrite !length_take in Ht; lia).
  destruct (two_blocks bs' j Hw' ltac:(by rewrite Ht) Hl' Hj) as [-> _]. rewrite Ht.
  by destruct (two_blocks bs j Hw Hb Hl Hj) as [-> _].
Qed.

Context (alloc_ok : nat -> bool) (uninit : Z).

(** What is there once the blocks from [i] on are read. *)
Definition extensions_done (bs : list (list Z)) (i : nat) (r : option (list Z * Z * Z * Z)) : Prop :=
  forall m alloc_size num inv, r = Some (m, alloc_size, num, inv) ->
  exists bs', m = concat bs' /\ blocks bs' /\ take i bs' = take i bs
    /\ num = Z.of_nat (length bs') /\ alloc_size = 128 * num /\ inv = Z.of_nat (bad (drop 1 bs'))
    /\ (length bs <= length bs' <= 256)%nat
    /\ (length bs' = length bs \/ i = 1%nat /\ edid_hfeeodb_block_count m = Some num).

Lemma bad_snoc bs b : bad (bs ++ [b]) = (bad bs + if decide (block_sound false b) then 0 else 1)%nat.
Proof.
  unfold bad. rewrite list.filter_app, length_app. f_equal. rewrite list.filter_cons, list.filter_nil.
  destruct (decide (block_sound false b)) as [H|H]; [rewrite decide_False by tauto|rewrite decide_True by done]; done.
Qed.

Lemma read_extensions_at n : forall s bs i inv, whole bs -> blocks (take i bs) -> (1 <= i <= length bs)%nat ->
  (length bs <= 256)%nat -> (257 <= n + i)%nat -> inv = Z.of_nat (bad (drop 1 (take i bs))) ->
  sat (read_extensions fx read_block alloc_ok uninit n s (concat bs) (Z.of_nat i) (Z.of_nat (length bs)) inv (128 * Z.of_nat (length bs)))
    (fun '(_, r) => extensions_done bs i r).
Proof.
  induction n as [|n IH]; intros s bs i inv Hw Hb Hi Hl Hn Hinv; [lia|]. cbn [read_extensions].
  destruct (Z.ltb_spec (Z.of_nat i) (Z.of_nat (length bs))) as [Hlt|Hge]; cbn [negb].
  2:{ cbn. intros m a num inv' [= <- <- <- <-]. assert (i = length bs) as -> by lia. rewrite firstn_all in *.
      exists bs. split_and!; try done; [apply firstn_all|by left]. }
  unfold edid_block_data, EDID_LENGTH. rewrite (Z.mul_comm _ 128).
  eapply sat_bind; [apply (block_read_at 4 true s bs i (128 * Z.of_nat i) (Z.of_nat i) EDID_BLOCK_OK Hw); [lia|done|done]|].
  intros [[s' m] st] (t & b' & -> & Hb' & Et & Hst). rewrite Et. cbn [mbind option_bind].
  set (bs1 := <[i := b']> bs).
  assert (Hl1 : length bs1 = length bs) by apply length_insert.
  assert (Hw1 : whole bs1) by (apply whole_insert; [done|apply Hb']).
  assert (Ht1 : take i bs1 = take i bs) by (apply take_insert_ge; lia).
  assert (Hs1 : take (S i) bs1 = take i bs ++ [b']).
  { rewrite <- Ht1. apply take_S_r, list_lookup_insert_eq. lia. }
  assert (Hb1 : blocks (take (S i) bs1)) by (rewrite Hs1; apply Forall_app; split; [done|by constructor]).
  assert (Hbad : bad (drop 1 (take (S i) bs1))
    = (bad (drop 1 (take i bs)) + if decide (block_sound false b') then 0 else 1)%nat).
  { rewrite Hs1, drop_app_le by (rewrite length_take; lia). apply bad_snoc. }
  (* what the rest of the loop leaves is what the whole leaves *)
  assert (Hrest : forall s inv' bs2, whole bs2 -> take (S i) bs2 = take (S i) bs1 -> (length bs <= length bs2 <= 256)%nat ->
    inv' = Z.of_nat (bad (drop 1 (take (S i) bs1))) ->
    (length bs2 = length bs \/ i = 1%nat /\ edid_hfeeodb_block_count (concat bs1) = Some (Z.of_nat (length bs2))) ->
    sat (read_extensions fx read_block alloc_ok uninit n s (concat bs2) (Z.of_nat i + 1) (Z.of_nat (length bs2)) inv'
           (128 * Z.of_nat (length bs2)))
      (fun '(_, r) => extensions_done bs i r)).
  { intros s2 inv' bs2 Hw2 Ht2 Hl2 Hinv' Hnum. replace (Z.of_nat i + 1) with (Z.of_nat (S i)) by lia.
    eapply sat_mono; [apply (IH s2 bs2 (S i)); try done; [by rewrite Ht2|lia|lia|lia|by rewrite Ht2]|].
    intros [? r] Hr m a num inv2 Hm. destruct (Hr m a num inv2 Hm) as (bs' & Hm' & Hb2 & Ht & -> & -> & -> & Hl' & Hn').
    assert (Ht' : take (S i) bs' = take (S i) bs1) by congruence.
    exists bs'. split_and!; try done; [|lia|lia|].
    - rewrite <- Ht1. apply (f_equal (take i)) in Ht'. by rewrite !take_take, !Nat.min_l in Ht' by lia.
    - assert (El : length bs' = length bs2) by (destruct Hn' as [|[? _]]; [done|lia]).
      destruct Hnum as [|[-> He]]; [left; lia|]. right. split; [done|].
      destruct (eeodb_at bs1 Hw1 Hb1 ltac:(lia)) as (e & Ee & _ & Hext). rewrite Hm', (Hext bs'); [|by apply blocks_whole|done].
      rewrite Ee in He. by rewrite He, El. }
  destruct Hst as [->|[Hnf Hv]]; [by cbn|]. rewrite Hv. replace (Z.of_nat i =? 0) with false in * by (symmetry; apply Z.eqb_neq; lia).
  case_bool_decide as Hs; cbn [negb].
  - assert (Hstay : forall s, sat (read_extensions fx read_block alloc_ok uninit n s (concat bs1) (Z.of_nat i + 1)
        (Z.of_nat (length bs)) inv (128 * Z.of_nat (length bs))) (fun '(_, r) => extensions_done bs i r)).
    { intros s2. rewrite <- Hl1. apply Hrest; try done; [lia|rewrite Hbad, decide_True by done; lia|by left]. }
    destruct (Z.eqb_spec (Z.of_nat i) 1) as [Hi1|]; [|apply Hstay]. assert (i = 1%nat) as -> by lia.
    destruct (eeodb_at bs1 Hw1 Hb1 ltac:(lia)) as (e & Ee & He & Hext). rewrite Ee. cbn [mbind option_bind].
    destruct (Z.ltb_spec (Z.of_nat (length bs)) e) as [Hgt|]; [|apply Hstay].
    unfold edid_size_by_blocks, EDID_LENGTH. rewrite (Z.mul_comm e).
    rewrite (krealloc_whole alloc_ok uninit 2 bs1 (128 * e) (Z.to_nat e) Hw1) by lia.
    destruct (alloc_ok 2); [|by cbn]. rewrite take_ge by lia.
    set (bs2 := bs1 ++ replicate (Z.to_nat e - length bs1) (replicate 128 uninit)).
    assert (Hl2 : length bs2 = Z.to_nat e) by (subst bs2; rewrite length_app, length_replicate; lia).
    replace e with (Z.of_nat (length bs2)) by lia.
    apply Hrest; [by apply Forall_app; split; [|apply whole_replicate]|by apply take_app_le; lia|lia| |].
    + rewrite Hbad, decide_True by done. lia.
    + right. split; [done|]. rewrite Ee. f_equal. lia.
  - rewrite bool_decide_eq_false_2 by done. rewrite <- Hl1. apply Hrest; try done; [lia| |by left].
    rewrite Hbad, decide_False by done. lia.
Qed.

(** ** Invalid blocks are left out *)

Definition good (bs : list (list Z)) : list (list Z) := filter (block_sound false) bs.

(** The base block and the sound ones of the extensions that it counts. *)
Definition kept (b0 : list Z) (n : nat) (bs : list (list Z)) : list (list Z) := b0 :: good (drop 1 (take n bs)).

Lemma kept_snoc b0 n bs b : (1 <= n)%nat -> bs !! n = Some b ->
  kept b0 (S n) bs = kept b0 n bs ++ if decide (block_sound false b) then [b] else [].
Proof.
  intros Hn Hb. pose proof (lookup_lt_Some _ _ _ Hb). unfold kept, good. cbn [app]. f_equal.
  rewrite (take_S_r _ _ _ Hb), drop_app_le by (rewrite length_take; lia).
  rewrite list.filter_app, list.filter_cons, list.filter_nil. by destruct (decide _).
Qed.

Lemma kept_length b0 n bs : (1 <= n <= length bs)%nat -> (1 <= length (kept b0 n bs) <= n)%nat.
Proof.
  intros Hn. unfold kept. cbn [length]. pose proof (length_filter (block_sound false) (drop 1 (take n bs))) as Hf.
  unfold good. rewrite length_drop, length_take in Hf. lia.
Qed.

Lemma filter_blocks_at n : forall bs b0 x bs' i, blocks bs -> bs !! 0%nat = Some b0 -> rd b0 126 = Some x ->
  0 <= x -> (Z.to_nat x < length bs)%nat -> (1 <= i <= S (Z.to_nat x))%nat -> (S (Z.to_nat x) < n + i)%nat ->
  blocks bs' -> length bs' = length bs -> drop i bs' = drop i bs ->
  take (length (kept b0 i bs)) bs' = kept b0 i bs ->
  sat (filter_blocks fx n (concat bs') (Z.of_nat i) (Z.of_nat (length (kept b0 i bs)))) (fun '(m, v) =>
    exists bs2, m = concat bs2 /\ blocks bs2 /\ v = Z.of_nat (length (kept b0 (S (Z.to_nat x)) bs))
      /\ length bs2 = length bs /\ take (Z.to_nat v) bs2 = kept b0 (S (Z.to_nat x)) bs).
Proof.
  induction n as [|n IH]; intros bs b0 x bs' i Hb H0 Hx Hx0 Hl Hi Hn Hb' Hl' Hd Ht; [lia|]. cbn [filter_blocks].
  pose proof (blocks_whole _ Hb') as Hw'. pose proof (kept_length b0 i bs ltac:(lia)) as Hk.
  assert (H0' : bs' !! 0%nat = Some b0).
  { rewrite <- (take_drop (length (kept b0 i bs)) bs'), Ht. done. }
  unfold edid_block_count, edid_extension_block_count. rewrite <- (Z.add_0_l 126).
  rewrite (rd_block bs' 0 b0 0 126 Hw' H0' eq_refl), Hx by lia. cbn [mbind option_bind].
  destruct (Z.ltb_spec (Z.of_nat i) (x + 1)) as [Hlt|Hge].
  2:{ assert (i = S (Z.to_nat x)) as -> by lia. cbn. exists bs'. split_and!; try done. by rewrite Nat2Z.id. }
  destruct (lookup_lt_is_Some_2 bs i ltac:(lia)) as [b Eb].
  assert (Eb' : bs' !! i = Some b) by (rewrite <- (Nat.add_0_r i), <- lookup_drop, Hd, lookup_drop, Nat.add_0_r; done).
  unfold edid_block_data, EDID_LENGTH. rewrite (Z.mul_comm (Z.of_nat i)), (Z.mul_comm (Z.of_nat (length _))).
  assert (Hbb : block b) by (exact (Forall_lookup_1 _ _ _ _ Hb Eb)).
  rewrite (block_valid_block fx bs' i b _ Hw' Eb' eq_refl), (block_valid_sound fx _ b Hbb). cbn [mbind option_bind].
  replace (Z.of_nat i =? 0) with false by (symmetry; apply Z.eqb_neq; lia).
  pose proof (kept_snoc b0 i bs b ltac:(lia) Eb) as Hsn. replace (Z.of_nat i + 1) with (Z.of_nat (S i)) by lia.
  assert (HdS : forall l, drop i l = drop i bs -> drop (S i) l = drop (S i) bs).
  { intros l E. apply (f_equal (drop 1)) in E. by rewrite !drop_drop, !Nat.add_1_r in E. }
  case_bool_decide as Hs.
  - rewrite decide_True in Hsn by done. rewrite (rd_range_block bs' i b _ Hw' Eb' eq_refl). cbn [mbind option_bind].
    set (v := length (kept b0 i bs)) in *.
    destruct (lookup_lt_is_Some_2 bs' v ltac:(lia)) as [c Ec].
    rewrite (wr_range_block bs' v c b _ Hw' Ec eq_refl (proj1 Hbb)). cbn [mbind option_bind].
    replace (Z.of_nat v + 1) with (Z.of_nat (length (kept b0 (S i) bs))) by (rewrite Hsn, length_app; cbn [length]; lia).
    apply (IH bs b0 x); try done; try lia.
    + by apply Forall_insert.
    + by rewrite length_insert.
    + rewrite drop_insert_lt by lia. by apply HdS.
    + rewrite Hsn, length_app. cbn [length]. fold v. rewrite Nat.add_1_r.
      rewrite (take_S_r _ _ b) by (apply list_lookup_insert_eq; lia). by rewrite take_insert_ge, Ht by lia.
  - rewrite decide_False, app_nil_r in Hsn by done. rewrite <- Hsn in *. apply (IH bs b0 x); try done; try lia. by apply HdS.
Qed.

Lemma is_byte_u8 x : is_byte (u8 x).
Proof. apply (wrapU_range 8). lia. Qed.

(** A base block with another count of extensions and its sum put right. *)
Definition recount (b : list Z) (n : Z) : list Z :=
  let b1 := <[126%nat := u8 n]> b in <[127%nat := u8 (256 - bsum (take 127 b1))]> b1.

Lemma recount_sound b n : block b -> block_sound true b ->
  block (recount b n) /\ block_sound true (recount b n) /\ rd (recount b n) 126 = Some (u8 n)
  /\ take 126 (recount b n) = take 126 b.
Proof.
  intros [Hl Hb] (Hh & Hv & _). unfold recount. set (b1 := <[126%nat := u8 n]> b).
  assert (Hl1 : length b1 = 128%nat) by (subst b1; by rewrite length_insert).
  set (crc := u8 (256 - bsum (take 127 b1))). assert (Hc : is_byte crc) by apply is_byte_u8.
  assert (Hb2 : block (<[127%nat := crc]> b1)).
  { split; [by rewrite length_insert|]. apply Forall_insert; [|done]. apply Forall_insert; [done|apply is_byte_u8]. }
  split; [done|]. split; [split; [|split]|split].
  - subst b1. by rewrite !take_insert_ge by lia.
  - subst b1. by rewrite !list_lookup_insert_ne by lia.
  - pose proof (checksum_sound (<[127%nat := crc]> b1) crc (proj1 Hb2) Hc) as Hs.
    rewrite list_lookup_insert_eq, take_insert_ge in Hs by lia. specialize (Hs eq_refl). fold crc in Hs.
    rewrite Z.eqb_refl in Hs. symmetry in Hs. by apply bool_decide_eq_true in Hs.
  - rewrite rd_lookup by lia. change (Z.to_nat 126) with 126%nat. rewrite list_lookup_insert_ne by lia.
    subst b1. by rewrite list_lookup_insert_eq by lia.
  - subst b1. by rewrite !take_insert_ge by lia.
Qed.

(** From the base block on. *)
Lemma filter_blocks_all n bs b0 x : blocks bs -> bs !! 0%nat = Some b0 -> block_sound true b0 ->
  rd b0 126 = Some x -> 0 <= x -> (Z.to_nat x < length bs)%nat -> (S (Z.to_nat x) < n + 1)%nat ->
  sat (filter_blocks fx (S n) (concat bs) 0 0) (fun '(m, v) =>
    exists bs2, m = concat bs2 /\ blocks bs2 /\ v = Z.of_nat (length (kept b0 (S (Z.to_nat x)) bs))
      /\ length bs2 = length bs /\ take (Z.to_nat v) bs2 = kept b0 (S (Z.to_nat x)) bs).
Proof.
  intros Hb H0 Hs Hx Hx0 Hl Hn. pose proof (blocks_whole bs Hb) as Hw. pose proof (Forall_lookup_1 _ _ _ _ Hb H0) as Hb0.
  cbn [filter_blocks]. unfold edid_block_count, edid_extension_block_count.
  rewrite <- (Z.add_0_l 126), (rd_block bs 0 b0 0 126 Hw H0 eq_refl), Hx by lia. cbn [mbind option_bind].
  destruct (Z.ltb_spec 0 (x + 1)); [|lia]. change (edid_block_data 0) with 0.
  rewrite (block_valid_block fx bs 0 b0 0 Hw H0 eq_refl), (block_valid_sound fx _ b0 Hb0). cbn [mbind option_bind].
  change (0 =? 0) with true. rewrite bool_decide_eq_true_2 by done.
  unfold EDID_LENGTH. rewrite (rd_range_block bs 0 b0 0 Hw H0 eq_refl). cbn [mbind option_bind].
  rewrite (wr_range_block bs 0 b0 b0 0 Hw H0 eq_refl (proj1 Hb0)), list_insert_id by done. cbn [mbind option_bind].
  assert (Hk1 : kept b0 1 bs = [b0]) by (unfold kept; destruct bs; [done|]; cbn in H0; by injection H0 as ->).
  pose proof (filter_blocks_at n bs b0 x bs 1 Hb H0 Hx Hx0 Hl ltac:(lia) Hn Hb eq_refl eq_refl) as HF.
  rewrite Hk1 in HF. apply HF. destruct bs; [done|]. cbn in H0. by injection H0 as ->.
Qed.

Lemma filter_invalid_at k bs b0 x size : blocks bs -> bs !! 0%nat = Some b0 -> block_sound true b0 ->
  rd b0 126 = Some x -> (Z.to_nat x < length bs)%nat ->
  sat (edid_filter_invalid_blocks fx alloc_ok uninit k (concat bs) size) (fun '(r, size') =>
    let g := good (drop 1 (take (S (Z.to_nat x)) bs)) in
    let bs' := recount b0 (Z.of_nat (length g)) :: g in
    (if alloc_ok k then r = Some (concat bs') else r = None) /\ size' = 128 * Z.of_nat (length bs')).
Proof.
  intros Hb H0 Hs Hx Hl. pose proof (blocks_whole bs Hb) as Hw. pose proof (Forall_lookup_1 _ _ _ _ Hb H0) as Hb0.
  destruct (block_byte b0 126 Hb0 ltac:(lia)) as (x' & Ex & Hxb & _). rewrite Hx in Ex. injection Ex as <-.
  unfold is_byte in Hxb. unfold edid_filter_invalid_blocks.
  rewrite max_blocks. eapply sat_bind; [apply (filter_blocks_all 256 bs b0 x); done || lia|].
  intros [m v] (bs2 & -> & Hb2 & -> & Hl2 & Ht). rewrite Nat2Z.id in Ht.
  pose proof (kept_length b0 (S (Z.to_nat x)) bs ltac:(lia)) as Hk.
  set (g := good (drop 1 (take (S (Z.to_nat x)) bs))) in *. change (kept b0 (S (Z.to_nat x)) bs) with (b0 :: g) in *.
  cbn [length] in Hk, Ht |- *. destruct (Z.eqb_spec (Z.of_nat (S (length g))) 0); [lia|].
  pose proof (blocks_whole _ Hb2) as Hw2.
  assert (H02 : bs2 !! 0%nat = Some b0) by (destruct bs2; [done|]; cbn in Ht; by injection Ht as -> _).
  replace (Z.of_nat (S (length g)) - 1) with (Z.of_nat (length g)) by lia.
  change 126 with (0 + Z.of_nat 126). rewrite (wr_block bs2 0 b0 0 126 _ Hw2 H02 eq_refl) by lia. cbn [mbind option_bind].
  set (b1 := <[126%nat := u8 (Z.of_nat (length g))]> b0).
  assert (Hl1 : length b1 = 128%nat) by (subst b1; rewrite length_insert; apply Hb0).
  pose proof (whole_insert _ 0 b1 Hw2 Hl1) as Hw3.
  assert (H03 : <[0%nat := b1]> bs2 !! 0%nat = Some b1) by (apply list_lookup_insert_eq; lia).
  rewrite (checksum_block _ 0 b1 0 Hw3 H03 eq_refl), checksum_spec by done. cbn [mbind option_bind].
  change 127 with (0 + Z.of_nat 127). rewrite (wr_block _ 0 b1 0 127 _ Hw3 H03 eq_refl) by lia. cbn [mbind option_bind].
  rewrite list_insert_insert_eq. unfold edid_size_by_blocks, EDID_LENGTH.
  assert (Eb : <[127%nat := u8 (u8 (256 - bsum (take 127 b1)))]> b1 = recount b0 (Z.of_nat (length g))).
  { unfold recount. fold b1. f_equal. apply (wrapU_small 8), is_byte_u8. }
  rewrite Eb. destruct (recount_sound b0 (Z.of_nat (length g)) Hb0 Hs) as (Hr & _).
  pose proof (whole_insert _ 0 _ Hw2 (proj1 Hr)) as Hw4. rewrite (Z.mul_comm _ 128).
  rewrite (krealloc_whole alloc_ok uninit k _ _ (S (length g)) Hw4 eq_refl). cbn. split; [|lia].
  destruct (alloc_ok k); [|done]. do 2 f_equal. rewrite length_insert.
  replace (S (length g) - length bs2)%nat with 0%nat by lia. rewrite app_nil_r.
  destruct bs2 as [|c bs2]; [done|]. cbn in Ht |- *. injection Ht as _ Ht. by rewrite Ht.
Qed.

(** ** The whole EDID *)

(** Sound blocks, as many as the base block says, or as the CTA extension says if these are
    more. *)
Definition sound_edid (e : list Z) (size : Z) : Prop :=
  exists bs x, e = concat bs /\ size = 128 * Z.of_nat (length bs) /\ blocks bs /\ (1 <= length bs <= 256)%nat
    /\ (forall i b, bs !! i = Some b -> block_sound (i =? 0)%nat b)
    /\ edid_extension_block_count e = Some x /\ 0 <= x /\ x + 1 <= Z.of_nat (length bs)
    /\ (x + 1 = Z.of_nat (length bs) \/ edid_hfeeodb_block_count e = Some (Z.of_nat (length bs))).

Lemma count_at bs b0 : blocks bs -> bs !! 0%nat = Some b0 ->
  exists x, edid_extension_block_count (concat bs) = Some x /\ rd b0 126 = Some x /\ is_byte x.
Proof.
  intros Hb H0. pose proof (Forall_lookup_1 _ _ _ _ Hb H0) as Hb0.
  destruct (block_byte b0 126 Hb0 ltac:(lia)) as (x & Ex & Hx & _). exists x. split; [|done].
  unfold edid_extension_block_count. rewrite <- (Z.add_0_l 126).
  by rewrite (rd_block bs 0 b0 0 126 (blocks_whole _ Hb) H0 eq_refl) by lia.
Qed.

Lemma count_whole bs b0 : whole bs -> bs !! 0%nat = Some b0 -> edid_extension_block_count (concat bs) = rd b0 126.
Proof.
  intros Hw H0. unfold edid_extension_block_count. rewrite <- (Z.add_0_l 126).
  by rewrite (rd_block bs 0 b0 0 126 Hw H0 eq_refl) by lia.
Qed.

Lemma bad_edid_total k bs b0 num : blocks bs -> bs !! 0%nat = Some b0 -> num <= Z.of_nat (length bs) ->
  is_Some (connector_bad_edid k (concat bs) num).
Proof.
  intros Hb H0 Hn. destruct (count_at bs b0 Hb H0) as (x & Ex & _ & Hx). unfold is_byte in Hx.
  unfold connector_bad_edid. rewrite Ex. cbn [mbind option_bind].
  destruct (Z.ltb_spec x num); [|by eexists]. destruct (lookup_lt_is_Some_2 bs (Z.to_nat x) ltac:(lia)) as [b Eb].
  rewrite (checksum_block bs (Z.to_nat x) b); [|by apply blocks_whole|done|unfold edid_block_data, EDID_LENGTH; lia].
  rewrite checksum_spec; [by eexists|]. exact (whole_lookup _ _ _ (blocks_whole _ Hb) Eb).
Qed.

Lemma all_good bs i b : bad bs = 0%nat -> bs !! i = Some b -> block_sound false b.
Proof.
  intros Hbad Hi. apply dec_stable. intros Hs. unfold bad in Hbad.
  assert (Hin : b ∈ filter (fun b => ~ block_sound false b) bs).
  { apply list_elem_of_filter. split; [done|]. by eapply list_elem_of_lookup_2. }
  destruct (filter _ bs); [by apply not_elem_of_nil in Hin|done].
Qed.

Lemma sound_tail b0 bs : block_sound true b0 -> (forall i b, bs !! i = Some b -> block_sound false b) ->
  forall i b, (b0 :: bs) !! i = Some b -> block_sound (i =? 0)%nat b.
Proof. intros H0 H [|i] b Hi; cbn in Hi |- *; [by injection Hi as <-|by eapply H]. Qed.

Lemma get_extensions_sound k s b0 : block b0 -> block_sound true b0 ->
  sat (get_extensions fx read_block alloc_ok uninit k s b0) (fun '(_, _, r) =>
    forall e size, r = Some (e, size) -> sound_edid e size).
Proof.
  intros Hb0 Hs0. assert (Hbs : blocks [b0]) by (by constructor).
  pose proof (app_nil_r b0) as Econ. change (b0 ++ []) with (concat [b0]) in Econ.
  destruct (count_at [b0] b0 Hbs eq_refl) as (x & Ex & Ex0 & Hx). rewrite Econ in Ex. unfold is_byte in Hx.
  unfold get_extensions, edid_size, edid_block_count. rewrite Ex. cbn [mbind option_bind].
  destruct (Z.eqb_spec x 0) as [->|Hx0].
  { cbn. intros e size [= <- <-]. exists [b0], 0. rewrite Econ. split_and!; first [done|cbn; lia|by left|idtac].
    by apply sound_tail. }
  unfold edid_size_by_blocks, EDID_LENGTH. rewrite (Z.mul_comm _ 128). rewrite <- Econ at 1.
  rewrite (krealloc_whole alloc_ok uninit 1 [b0] _ (Z.to_nat (x + 1)) (blocks_whole _ Hbs)) by lia.
  destruct (alloc_ok 1); [|by cbn]. rewrite take_ge by (cbn; lia).
  set (bs := [b0] ++ replicate (Z.to_nat (x + 1) - length [b0]) (replicate 128 uninit)).
  assert (Hw : whole bs) by (apply Forall_app; split; [apply (blocks_whole _ Hbs)|apply whole_replicate]).
  assert (Hl : length bs = Z.to_nat (x + 1)) by (subst bs; rewrite length_app, length_replicate; cbn [length]; lia).
  eapply sat_eq; [by rewrite (count_whole bs b0 Hw eq_refl), Ex0|].
  replace (x + 1) with (Z.of_nat (length bs)) by lia.
  eapply sat_bind; [apply (read_extensions_at MAX_BLOCKS s bs 1 0 Hw); [by constructor|lia|lia|rewrite max_blocks; lia|done]|].
  intros [s' [[[[m a] num] inv]|]] Hr; [|by cbn].
  destruct (Hr m a num inv eq_refl) as (bs' & Em & Hb' & Ht & -> & -> & -> & Hl' & Hn).
  assert (H0 : bs' !! 0%nat = Some b0) by (destruct bs'; [cbn in Hl'; lia|]; cbn in Ht |- *; by injection Ht as ->).
  destruct (count_at bs' b0 Hb' H0) as (x' & Ex' & Ex2 & _). rewrite Ex0 in Ex2. injection Ex2 as <-.
  destruct (Z.eqb_spec (Z.of_nat (bad (drop 1 bs'))) 0) as [Hz|Hz]; cbn [negb].
  - cbn. intros e size [= <- <-]. exists bs', x. split_and!; try first [done|lia].
    + destruct bs' as [|c bs']; [done|]. cbn in H0. injection H0 as ->. apply sound_tail; [done|].
      intros i b. apply all_good. change (drop 1 (b0 :: bs')) with bs' in Hz. lia.
    + by rewrite Em.
    + destruct Hn as [Hn|[_ Hn]]; [left; lia|right; done].
  - rewrite Em. destruct (bad_edid_total k bs' b0 (Z.of_nat (length bs')) Hb' H0 ltac:(lia)) as [k' Ek].
    eapply sat_eq; [exact Ek|].
    eapply sat_bind; [apply (filter_invalid_at 3 bs' b0 x _ Hb' H0 Hs0 Ex0); lia|].
    intros [r size'] [Hr' ->]. cbn zeta in Hr'. set (g := good _) in *. cbn. intros e size He.
    destruct (alloc_ok 3); subst r; [|done]. injection He as <- <-.
    destruct (recount_sound b0 (Z.of_nat (length g)) Hb0 Hs0) as (Hrb & Hrs & Hr1 & _).
    assert (Hg : blocks g).
    { apply list.Forall_forall. intros b Hin. apply list_elem_of_filter in Hin as [_ Hin].
      assert (Hd : blocks (drop 1 (take (S (Z.to_nat x)) bs'))) by by apply Forall_drop, Forall_take.
      by apply (proj1 (list.Forall_forall _ _) Hd). }
    assert (Hlg : (length g <= 255)%nat).
    { pose proof (kept_length b0 (S (Z.to_nat x)) bs' ltac:(lia)) as Hk. unfold kept in Hk. fold g in Hk. cbn [length] in Hk. lia. }
    exists (recount b0 (Z.of_nat (length g)) :: g), (Z.of_nat (length g)).
    assert (Hall : blocks (recount b0 (Z.of_nat (length g)) :: g)) by (by constructor).
    split_and!; try first [done|cbn [length]; lia].
    + apply sound_tail; [done|]. intros i b Hi. apply list_elem_of_lookup_2, list_elem_of_filter in Hi. apply Hi.
    + change (edid_extension_block_count (concat (recount b0 (Z.of_nat (length g)) :: g)) = Some (Z.of_nat (length g))).
      rewrite (count_whole _ (recount b0 (Z.of_nat (length g)))); [|by apply blocks_whole|done]. rewrite Hr1. f_equal.
      apply (wrapU_small 8). unfold is_u. lia.
Qed.

Lemma get_edid_sound k s :
  sat (_drm_do_get_edid fx read_block alloc_ok uninit k s None) (fun '(_, _, r) =>
    forall e size, r = Some (e, size) -> sound_edid e size).
Proof.
  unfold _drm_do_get_edid, kmalloc. destruct (alloc_ok 0); [|by cbn].
  set (bs := [replicate 128 uninit]).
  replace (replicate (Z.to_nat EDID_LENGTH) uninit) with (concat bs) by (unfold bs; by cbn [concat]; rewrite app_nil_r).
  assert (Hw : whole bs) by (repeat constructor).
  eapply sat_bind; [apply (block_read_at 4 true s bs 0 0 0 EDID_BLOCK_OK Hw); [cbn; lia|done|done]|].
  intros [[s' m] st] (t & b' & -> & Hb' & Et & Hst). change (128 * Z.of_nat 0) with 0 in Et.
  change (<[0%nat := b']> bs) with [b'] in *. pose proof (app_nil_r b') as Econ. change (b' ++ []) with (concat [b']) in Econ.
  destruct (bool_decide_reflect (st = EDID_BLOCK_READ_FAIL)) as [|Hnf]; [by cbn|].
  destruct Hst as [|[_ Hv]]; [done|]. rewrite Et. cbn [mbind option_bind]. rewrite Hv. change (0 =? 0) with true.
  destruct (bool_decide_reflect (block_sound true b')) as [Hs|Hs]; cbn [negb].
  { rewrite Econ. exact (get_extensions_sound _ _ b' Hb' Hs). }
  match goal with |- context [connector_bad_edid ?k _ _] =>
    destruct (bad_edid_total k [b'] b' 1) as [k' Ek]; [by constructor|done|done|] end.
  rewrite Ek. by cbn.
Qed.
End read.

(** ** What the container says of it *)

Lemma sound_count e size : sound_edid e size ->
  exists c, __drm_edid_block_count (DrmEdid size e) = Some c /\ 1 <= c
    /\ drm_edid_raw (Some (DrmEdid size e)) = Some (Some e).
Proof.
  intros (bs & x & -> & -> & Hb & Hl & _ & Ex & Hx0 & Hx & _).
  unfold __drm_edid_block_count, drm_edid_raw, edid_size, edid_block_count. cbn [de_edid de_size].
  rewrite Ex. cbn [mbind option_bind]. unfold edid_size_by_blocks, EDID_LENGTH.
  assert (Hraw : (if 128 * Z.of_nat (length bs) =? 0 then Some None
    else Some (if 128 * Z.of_nat (length bs) <? (x + 1) * 128 then None else Some (concat bs))) = Some (Some (concat bs))).
  { destruct (Z.eqb_spec (128 * Z.of_nat (length bs)) 0); [lia|].
    by destruct (Z.ltb_spec (128 * Z.of_nat (length bs)) ((x + 1) * 128)); [lia|]. }
  destruct (Z.leb_spec (2 * 128) (128 * Z.of_nat (length bs))) as [H2|].
  - destruct (eeodb_at bs (blocks_whole _ Hb)) as (v & -> & Hv & _); [by apply Forall_take|lia|]. cbn [mbind option_bind].
    destruct (Z.eqb_spec v 0); cbn [negb]; eexists; (split; [done|]); (split; [lia|done]).
  - eexists. split; [done|]. split; [lia|done].
Qed.

(** The checks pass, and the sizes agree unless the count of the CTA extension is another
    one. *)
Lemma edid_valid_from_sound fx bs size n : forall i, blocks bs -> (forall i b, bs !! i = Some b -> block_sound (i =? 0)%nat b) ->
  drm_edid_block_count (DrmEdid size (concat bs)) = Some (Z.of_nat (length bs)) ->
  (i <= length bs)%nat -> (length bs < n + i)%nat ->
  edid_valid_from fx n (DrmEdid size (concat bs)) (Z.of_nat i) = Some true.
Proof.
  induction n as [|n IH]; intros i Hb Hs Hc Hi Hn; [lia|]. cbn [edid_valid_from]. rewrite Hc. cbn [mbind option_bind].
  destruct (Z.ltb_spec (Z.of_nat i) (Z.of_nat (length bs))) as [Hlt|]; [|done].
  destruct (lookup_lt_is_Some_2 bs i ltac:(lia)) as [b Eb]. cbn [de_edid].
  rewrite (block_valid_block fx bs i b _ (blocks_whole _ Hb) Eb) by (unfold edid_block_data, EDID_LENGTH; lia).
  rewrite (block_valid_sound fx _ b (Forall_lookup_1 _ _ _ _ Hb Eb)). cbn [mbind option_bind].
  replace (Z.of_nat i =? 0) with (i =? 0)%nat by (destruct (Nat.eqb_spec i 0), (Z.eqb_spec (Z.of_nat i) 0); done || lia).
  rewrite bool_decide_eq_true_2 by by apply Hs. replace (Z.of_nat i + 1) with (Z.of_nat (S i)) by lia. apply IH; done || lia.
Qed.

Lemma sound_valid fx e size : sound_edid e size ->
  exists c, __drm_edid_block_count (DrmEdid size e) = Some c
    /\ drm_edid_valid fx (Some (DrmEdid size e)) = Some (bool_decide (128 * c = size))
    /\ drm_edid_block_count (DrmEdid size e) = Some (Z.min c (size / 128)).
Proof.
  intros Hse. destruct (sound_count e size Hse) as (c & Ec & Hc & _). destruct Hse as (bs & x & -> & -> & Hb & Hl & Hs & _).
  exists c. split; [done|].
  assert (Ecount : drm_edid_block_count (DrmEdid (128 * Z.of_nat (length bs)) (concat bs)) = Some (Z.min c (Z.of_nat (length bs)))).
  { unfold drm_edid_block_count. rewrite Ec. cbn [mbind option_bind de_size]. do 2 f_equal.
    rewrite s32_small by (unfold is_s; lia). unfold EDID_LENGTH. rewrite Z.mul_comm. by apply Z.quot_mul. }
  split; [|by rewrite Ecount, (Z.mul_comm 128), Z.div_mul].
  unfold drm_edid_valid. rewrite Ec. cbn [mbind option_bind de_size]. unfold edid_size_by_blocks, EDID_LENGTH.
  destruct (Z.eqb_spec (c * 128) (128 * Z.of_nat (length bs))) as [E|E]; cbn [negb].
  - rewrite bool_decide_eq_true_2 by lia. change 0 with (Z.of_nat 0).
    apply edid_valid_from_sound; [done|done| |lia|rewrite max_blocks; lia]. rewrite Ecount. f_equal. lia.
  - by rewrite bool_decide_eq_false_2 by lia.
Qed.

(** ** A display with sound blocks *)

Section display.
Context {D : Type} (read_block : read_block_fn D) (fx : Z) (alloc_ok : nat -> bool) (uninit : Z).
Context (ds : list (list Z)).

(** The display shows [ds], whenever it is asked, and memory is there. *)
Context (Hshows : forall s i b, ds !! i = Some b -> exists s', read_block s (Z.of_nat i) EDID_LENGTH = (s', 0, b)).
Context (Halloc : forall k, alloc_ok k = true).
Context (Hds : blocks ds) (Hsound : forall i b, ds !! i = Some b -> block_sound (i =? 0)%nat b).

Lemma block_read_good n s bs i b p st0 : whole bs -> (i < length bs)%nat -> p = 128 * Z.of_nat i -> ds !! i = Some b ->
  exists s' st t, block_read fx read_block (S n) true s (concat bs) p (Z.of_nat i) st0 = Some (s', concat (<[i := b]> bs), st)
    /\ edid_block_tag (concat (<[i := b]> bs)) p = Some t /\ edid_block_status_valid st t = true
    /\ st <> EDID_BLOCK_READ_FAIL /\ (i = 0%nat -> st = EDID_BLOCK_OK).
Proof.
  intros Hw Hi Hp Hb. destruct (lookup_lt_is_Some_2 bs i Hi) as [c Ec].
  pose proof (Forall_lookup_1 _ _ _ _ Hds Hb) as Hbb. cbn [block_read]. destruct (Hshows s i b Hb) as [s' ->].
  rewrite (wr_range_block bs i c b p Hw Ec Hp (proj1 Hbb)). cbn [mbind option_bind]. change (negb (0 =? 0)) with false. cbv iota.
  assert (Hw1 : whole (<[i := b]> bs)) by (apply whole_insert; [done|apply Hbb]).
  assert (Hi1 : <[i := b]> bs !! i = Some b) by by apply list_lookup_insert_eq.
  assert (Hbase : (Z.of_nat i =? 0) = (i =? 0)%nat) by (destruct (Nat.eqb_spec i 0), (Z.eqb_spec (Z.of_nat i) 0); done || lia).
  destruct (check_and_fix_at fx _ i b p (Z.of_nat i =? 0) Hw1 Hi1 Hp Hbb) as (st & t & b' & -> & _ & Et & Hf & Hv & Hsame).
  rewrite Hbase in Hsame, Hv. destruct (Hsame (Hsound i b Hb)) as [Hbb' Hbok]. rewrite Hbb' in *. rewrite list_insert_insert_eq. cbn [mbind option_bind].
  rewrite (tag_block _ i b p Hw1 Hi1 Hp), Et. cbn [mbind option_bind].
  assert (Hv' : edid_block_status_valid st t = true) by (rewrite Hv; apply bool_decide_eq_true_2; by apply Hsound).
  rewrite Hv'. exists s', st, t. split_and!; try done. intros ->. by apply Hbok.
Qed.

Lemma insert_next i (b : list Z) js : ds !! i = Some b -> js <> [] ->
  <[i := b]> (take i ds ++ js) = take (S i) ds ++ drop 1 js.
Proof.
  intros Hb Hj. destruct js as [|j js]; [done|]. pose proof (lookup_lt_Some _ _ _ Hb).
  rewrite insert_app_r_alt by (rewrite length_take; lia). rewrite length_take, Nat.min_l, Nat.sub_diag by lia.
  cbn [drop]. rewrite (take_S_r _ _ _ Hb), <- app_assoc. done.
Qed.

(** From a block on whose number the count of the extension no longer depends. *)
Lemma read_extensions_good n : forall s js i, whole js -> (1 <= i)%nat -> (i + length js = length ds)%nat ->
  (length js < n)%nat ->
  (i = 1%nat -> exists e, edid_hfeeodb_block_count (concat ds) = Some e /\ e <= Z.of_nat (length ds)) ->
  exists s', read_extensions fx read_block alloc_ok uninit n s (concat (take i ds ++ js)) (Z.of_nat i) (Z.of_nat (length ds)) 0
      (128 * Z.of_nat (length ds))
    = Some (s', Some (concat ds, 128 * Z.of_nat (length ds), Z.of_nat (length ds), 0)).
Proof.
  induction n as [|n IH]; intros s js i Hw Hi Hl Hn He; [lia|]. cbn [read_extensions].
  destruct js as [|j js].
  { cbn [length] in Hl. destruct (Z.ltb_spec (Z.of_nat i) (Z.of_nat (length ds))); [lia|].
    rewrite app_nil_r, take_ge by lia. cbn [negb]. by eexists. }
  cbn [length] in Hl, Hn. destruct (Z.ltb_spec (Z.of_nat i) (Z.of_nat (length ds))); [|lia]. cbn [negb].
  destruct (lookup_lt_is_Some_2 ds i ltac:(lia)) as [b Eb].
  assert (Hwt : whole (take i ds)) by (apply blocks_whole; by apply Forall_take).
  assert (Hw0 : whole (take i ds ++ j :: js)) by (by apply Forall_app).
  unfold edid_block_data, EDID_LENGTH. rewrite (Z.mul_comm _ 128). unfold edid_block_read.
  destruct (block_read_good 3 s (take i ds ++ j :: js) i b (128 * Z.of_nat i) EDID_BLOCK_OK Hw0) as (s' & st & t & -> & Et & Hv & _);
    [rewrite length_app, length_take; cbn [length]; lia|done|done|].
  rewrite (insert_next i b _ Eb) in * by done. change (drop 1 (j :: js)) with js in *. cbn [mbind option_bind]. rewrite Et.
  cbn [mbind option_bind]. rewrite Hv. cbn [negb]. apply Forall_cons_1 in Hw as [Hj Hw].
  assert (Hgo : exists s'', read_extensions fx read_block alloc_ok uninit n s' (concat (take (S i) ds ++ js)) (Z.of_nat i + 1)
      (Z.of_nat (length ds)) 0 (128 * Z.of_nat (length ds))
    = Some (s'', Some (concat ds, 128 * Z.of_nat (length ds), Z.of_nat (length ds), 0))).
  { replace (Z.of_nat i + 1) with (Z.of_nat (S i)) by lia. apply IH; try done; lia. }
  destruct (Z.eqb_spec (Z.of_nat i) 1) as [Hi1|]; [|exact Hgo]. assert (i = 1%nat) as -> by lia.
  destruct (He eq_refl) as (e & Ee & Hle).
  destruct (eeodb_at ds (blocks_whole _ Hds)) as (e' & Ee' & _ & Hext); [by apply Forall_take|lia|]. rewrite Ee in Ee'. injection Ee' as <-.
  rewrite Hext; [|apply Forall_app; split; [apply blocks_whole; by apply Forall_take|done]|rewrite take_app_le, take_take by (rewrite length_take; lia); done].
  cbn [mbind option_bind]. destruct (Z.ltb_spec (Z.of_nat (length ds)) e); [lia|exact Hgo].
Qed.

(** The number of blocks that the display announces. *)
Definition announced (ds : list (list Z)) : Prop :=
  exists x, edid_extension_block_count (concat ds) = Some x
    /\ (x = 0 /\ length ds = 1%nat
        \/ 0 < x /\ exists e, edid_hfeeodb_block_count (concat ds) = Some e /\ Z.of_nat (length ds) = Z.max (x + 1) e).

(** Both counts are read from bytes. *)
Lemma announced_le x e b0 : ds !! 0%nat = Some b0 -> rd b0 126 = Some x -> 0 < x -> edid_hfeeodb_block_count (concat ds) = Some e ->
  Z.of_nat (length ds) = Z.max (x + 1) e -> (length ds <= 256)%nat.
Proof.
  intros H0 Ex Hx He Hlen. pose proof (Forall_lookup_1 _ _ _ _ Hds H0) as Hb0.
  destruct (block_byte b0 126 Hb0 ltac:(lia)) as (x' & Ex' & Hb & _). rewrite Ex in Ex'. injection Ex' as <-. unfold is_byte in Hb.
  destruct (eeodb_at ds (blocks_whole _ Hds)) as (e' & Ee' & Hr & _); [by apply Forall_take|lia|].
  rewrite He in Ee'. injection Ee' as <-. lia.
Qed.

(** The first extension, with the count that it gives. *)
Lemma read_first n s b0 x e : ds !! 0%nat = Some b0 -> 0 < x -> edid_hfeeodb_block_count (concat ds) = Some e ->
  Z.of_nat (length ds) = Z.max (x + 1) e -> (length ds < n)%nat ->
  exists s', read_extensions fx read_block alloc_ok uninit n s (concat (b0 :: replicate (Z.to_nat x) (replicate 128 uninit))) 1 (x + 1) 0
      (128 * (x + 1))
    = Some (s', Some (concat ds, 128 * Z.of_nat (length ds), Z.of_nat (length ds), 0)).
Proof.
  intros H0 Hx He Hlen Hn. assert (Ht1 : take 1 ds = [b0]) by (destruct ds; [done|]; cbn in H0; by injection H0 as ->).
  destruct (Z.le_gt_cases e (x + 1)) as [Hle|Hgt].
  { assert (Ex : x + 1 = Z.of_nat (length ds)) by lia. rewrite Ex. change 1 with (Z.of_nat 1) at 1.
    change (b0 :: replicate (Z.to_nat x) (replicate 128 uninit)) with ([b0] ++ replicate (Z.to_nat x) (replicate 128 uninit)).
    rewrite <- Ht1. apply read_extensions_good; rewrite ?length_replicate; [apply whole_replicate|lia..|].
    intros _. exists e. split; [done|lia]. }
  assert (Ee : e = Z.of_nat (length ds)) by lia. destruct n as [|n]; [lia|]. cbn [read_extensions].
  destruct (Z.ltb_spec 1 (x + 1)); [|lia]. cbn [negb]. destruct (lookup_lt_is_Some_2 ds 1 ltac:(lia)) as [b1 Eb1].
  set (js := replicate (Z.to_nat x) (replicate 128 uninit)). assert (Hwj : whole js) by apply whole_replicate.
  assert (Hb0 : block b0) by (exact (Forall_lookup_1 _ _ _ _ Hds H0)).
  assert (Hw0 : whole (b0 :: js)) by (constructor; [apply Hb0|done]).
  assert (Hlj : length js = Z.to_nat x) by apply length_replicate.
  unfold edid_block_read. change (edid_block_data 1) with 128.
  destruct (block_read_good 3 s (b0 :: js) 1 b1 128 EDID_BLOCK_OK Hw0) as (s' & st & t & E & Et & Hv & _);
    [cbn [length]; lia|done|done|]. change (Z.of_nat 1) with 1 in E. rewrite E. clear E.
  change (b0 :: js) with ([b0] ++ js) in *. rewrite <- Ht1 in *.
  assert (Hjne : js <> []) by (intros E; rewrite E in Hlj; cbn in Hlj; lia).
  rewrite (insert_next 1 b1 js Eb1 Hjne) in *. cbn [mbind option_bind]. rewrite Et.
  cbn [mbind option_bind]. rewrite Hv. cbn [negb]. change (1 =? 1) with true. cbv iota.
  destruct (eeodb_at ds (blocks_whole _ Hds)) as (e' & Ee' & _ & Hext); [by apply Forall_take|lia|]. rewrite He in Ee'. injection Ee' as <-.
  assert (Hw1 : whole (take 2 ds ++ drop 1 js)).
  { apply Forall_app; split; [apply blocks_whole; by apply Forall_take|by apply Forall_drop]. }
  rewrite Hext; [|done|rewrite take_app_le, take_take by (rewrite length_take; lia); done].
  cbn [mbind option_bind]. destruct (Z.ltb_spec (x + 1) e); [|lia]. unfold edid_size_by_blocks, EDID_LENGTH.
  rewrite (Z.mul_comm e), (krealloc_whole alloc_ok uninit 2 _ (128 * e) (length ds) Hw1) by lia.
  rewrite Halloc. rewrite Ee. change (1 + 1) with (Z.of_nat 2).
  assert (Hl1 : length (take 2 ds ++ drop 1 js) = S (Z.to_nat x)) by (rewrite length_app, length_take, length_drop; lia).
  rewrite take_ge by lia. rewrite <- app_assoc. apply read_extensions_good; [..|lia].
  - apply Forall_app. split; [by apply Forall_drop|apply whole_replicate].
  - lia.
  - rewrite length_app, length_drop, length_replicate. lia.
  - rewrite length_app, length_drop, length_replicate. lia.
Qed.

Lemma get_extensions_good k s b0 : ds !! 0%nat = Some b0 -> announced ds ->
  sat (get_extensions fx read_block alloc_ok uninit k s b0) (fun '(k', _, r) => k' = k /\ r = Some (concat ds, 128 * Z.of_nat (length ds))).
Proof.
  intros H0 (x & Ex & Hann). pose proof (Forall_lookup_1 _ _ _ _ Hds H0) as Hb0.
  pose proof (app_nil_r b0) as Econ. change (b0 ++ []) with (concat [b0]) in Econ.
  rewrite (count_whole ds b0 (blocks_whole _ Hds) H0) in Ex.
  unfold get_extensions. apply (sat_eq _ x); [exact Ex|].
  destruct Hann as [[-> Hl1]|(Hx & e & He & Hlen)].
  { change (0 =? 0) with true. cbv iota. destruct ds as [|c [|c' ds']]; cbn in Hl1; try lia. cbn in H0. injection H0 as ->.
    split; [done|]. by rewrite Econ. }
  destruct (Z.eqb_spec x 0); [lia|].
  apply (sat_eq _ (128 * (x + 1))).
  { unfold edid_size, edid_block_count, edid_extension_block_count. rewrite Ex. cbn. unfold edid_size_by_blocks, EDID_LENGTH. f_equal. lia. }
  assert (Hw1 : whole [b0]) by (constructor; [apply Hb0|done]).
  set (bs1 := b0 :: replicate (Z.to_nat x) (replicate 128 uninit)).
  assert (Ek : krealloc alloc_ok uninit 1 b0 (128 * (x + 1)) = Some (concat bs1)).
  { rewrite <- Econ at 1. rewrite (krealloc_whole alloc_ok uninit 1 [b0] _ (Z.to_nat (x + 1)) Hw1) by lia.
    rewrite Halloc, take_ge by (cbn; lia). by replace (Z.to_nat (x + 1) - length [b0])%nat with (Z.to_nat x) by (cbn; lia). }
  rewrite Ek. assert (Hw2 : whole bs1) by (constructor; [apply Hb0|apply whole_replicate]).
  apply (sat_eq _ (x + 1)).
  { unfold edid_block_count. by rewrite (count_whole bs1 b0 Hw2 eq_refl), Ex. }
  destruct (read_first MAX_BLOCKS s b0 x e H0 Hx He Hlen) as [s'' Er].
  { rewrite max_blocks. pose proof (announced_le x e b0 H0 Ex Hx He Hlen). lia. }
  eapply sat_eq; [exact Er|]. done.
Qed.

Lemma display_read k s : announced ds ->
  sat (_drm_do_get_edid fx read_block alloc_ok uninit k s None) (fun '(k', _, r) => k' = set_corrupt false k /\ r = Some (concat ds, 128 * Z.of_nat (length ds))).
Proof.
  intros Hann. assert (Hl : (0 < length ds)%nat) by (destruct Hann as (x & _ & [[_ ->]|(Hx & e & _ & He)]); lia).
  destruct (lookup_lt_is_Some_2 ds 0 Hl) as [b0 H0].
  pose proof (Forall_lookup_1 _ _ _ _ Hds H0) as Hb0. unfold _drm_do_get_edid, kmalloc. rewrite Halloc.
  set (bs := [replicate 128 uninit]).
  replace (replicate (Z.to_nat EDID_LENGTH) uninit) with (concat bs) by (unfold bs; by cbn [concat]; rewrite app_nil_r).
  assert (Hw : whole bs) by (repeat constructor). unfold edid_block_read.
  destruct (block_read_good 3 s bs 0 b0 0 EDID_BLOCK_OK Hw) as (s' & st & t & E & Et & Hv & Hf & Hok); [cbn; lia|done|done|].
  change (<[0%nat := b0]> bs) with [b0] in *. pose proof (app_nil_r b0) as Econ. change (b0 ++ []) with (concat [b0]) in Econ.
  rewrite Econ in *. eapply sat_eq; [exact E|]. cbn beta iota. rewrite bool_decide_eq_false_2 by done.
  rewrite (Hok eq_refl) in *. eapply sat_eq; [exact Et|]. rewrite Hv. cbn [negb]. by apply get_extensions_good.
Qed.
End display.

(** ** Any display *)

(** A block function that shows [ds] and fails on other blocks. *)
Definition show (ds : list (list Z)) : read_block_fn unit := fun s block len =>
  let b := default [] (ds !! Z.to_nat block) in
  (s, if (Z.to_nat block <? length ds)%nat then 0 else -1,
   take (Z.to_nat len) b ++ replicate (Z.to_nat len - length b) 0).
#[export] Instance show_reader ds : TCEq (forallb (forallb (fun x => (0 <=? x) && (x <? 256))) ds) true -> BlockReader (show ds).
Proof.
  intros H%TCEq_eq. split; intros s block len; cbn [snd show].
  - intros Hlen. unfold blen. rewrite length_app, length_take, length_replicate. lia.
  - apply Forall_app. split; [|apply Forall_replicate; done]. apply Forall_take.
    destruct (ds !! Z.to_nat block) as [b|] eqn:Eb; [|constructor]. cbn [default].
    apply list_elem_of_lookup_2, list_elem_of_In in Eb. apply bytes_checked. exact (proj1 (forallb_forall _ _) H b Eb).
Qed.

(** Samples: a base block that counts [x] extensions, a CTA extension that counts [n], an
    empty one. *)
Definition seal (b : list Z) : list Z := b ++ [u8 (256 - bsum b)].
Definition sample_base (x : Z) : list Z := seal (edid_header ++ replicate 10 0 ++ [1] ++ replicate 107 0 ++ [x]).
Definition sample_cta (n : Z) : list Z := seal ([CEA_EXT; 3; 7; 0; 0xe2; CTA_EXT_DB_HF_EEODB; n] ++ replicate 120 0).
Definition sample_ext : list Z := seal (0x70 :: replicate 126 0).
Definition sample_edid : list (list Z) := [sample_base 1; sample_cta 2; sample_ext].

(** With a bad third block the extension is not among those counted any more, but the CTA
    extension still counts it: the container is not valid. *)
Lemma eeodb_not_reverted :
  let ds := [sample_base 1; sample_cta 2; 1 :: replicate 127 0] in
  exists k de, drm_edid_read_custom 6 (show ds) (fun _ => true) 0 (EdidErrors false 0 0 0) tt None = Some (k, tt, Some de)
    /\ de_size de = 256 /\ __drm_edid_block_count de = Some 3 /\ drm_edid_valid 6 (Some de) = Some false.
Proof. eexists _, _. split; [vm_compute; reflexivity|]. split_and!; vm_compute; reflexivity. Qed.

(** C38. Whatever a block read function answers, and whichever allocations fail, reading
    an EDID returns and never accesses memory outside of what it allocated.  An EDID that
    it returns has a sound base block, sound extensions and at least as many blocks as its
    base block counts; its raw form is handed out, and the checks of the container find it
    valid exactly if the count that the container uses is that of its blocks. *)
Theorem edid_read_sound {D} (read_block : read_block_fn D) `{!BlockReader read_block} fx alloc_ok uninit k s :
  exists k' s' r, drm_edid_read_custom fx read_block alloc_ok uninit k s None = Some (k', s', r)
    /\ forall de, r = Some de ->
       sound_edid (de_edid de) (de_size de)
       /\ drm_edid_raw (Some de) = Some (Some (de_edid de))
       /\ exists c, __drm_edid_block_count de = Some c
          /\ drm_edid_block_count de = Some (Z.min c (de_size de / 128))
          /\ drm_edid_valid fx (Some de) = Some (bool_decide (128 * c = de_size de)).
Proof.
  pose proof (get_edid_sound read_block fx alloc_ok uninit k s) as H.
  apply sat_exists in H as ([[k' s'] r] & E & Hr). unfold drm_edid_read_custom. cbn [mbind option_bind].
  rewrite E. cbn [mbind option_bind]. eexists _, _, _. split; [done|]. destruct r as [[e size]|]; [|done].
  specialize (Hr e size eq_refl). unfold _drm_edid_alloc. destruct (_ || _); [done|]. destruct (alloc_ok 4%nat); [|done].
  intros de [= <-]. split; [done|]. destruct (sound_count e size Hr) as (c0 & E0 & _ & Hraw). split; [done|].
  destruct (sound_valid fx e size Hr) as (c & Ec & Hv & Hn). by exists c.
Qed.

Lemma edid_read_sound_witness :
  let read := drm_edid_read_custom 6 (show sample_edid) (fun _ => true) 0 (EdidErrors false 0 0 0) tt None in
  (exists k' s' r, read = Some (k', s', r)
    /\ forall de, r = Some de ->
       sound_edid (de_edid de) (de_size de)
       /\ drm_edid_raw (Some de) = Some (Some (de_edid de))
       /\ exists c, __drm_edid_block_count de = Some c
          /\ drm_edid_block_count de = Some (Z.min c (de_size de / 128))
          /\ drm_edid_valid 6 (Some de) = Some (bool_decide (128 * c = de_size de)))
  /\ read = Some (EdidErrors false 0 0 0, tt, Some (DrmEdid 384 (concat sample_edid))).
Proof.
  split; [|vm_compute; reflexivity]. apply (edid_read_sound (show sample_edid)).
Defined.
