(* ===== verification/EdidDdc.v ===== *)
(** * Reading the EDID over I2C

    DRM/drm_edid.c: the display data channel.  i2c_transfer() is a parameter; [I2cBus] is
    its contract, [EddcDisplay] that of a display behind it, which can take a few attempts
    to answer. *)

From stdpp Require Import base numbers list option.
From Stdlib Require Import ZArith Lia Bool.
From S2P Require Import Prelude ByteBuf CmdLine Edid EdidBlocks EdidSpec.
#[local] Open Scope Z_scope.

Definition DDC_ADDR := 0x50.
Definition DDC_SEGMENT_ADDR := 0x30.
Definition ENXIO := 6.

(** A message writes the bytes given or reads so many. *)
Inductive i2c_msg := I2cWrite (addr : Z) (buf : list Z) | I2cRead (addr len : Z).

Section ddc.
(** i2c_transfer(): the code and the buffer of the last message. *)
Context {D : Type} (i2c_transfer : D -> list i2c_msg -> D * Z * list Z).

(** [retries] are left; after the last one the code counts as it is. *)
Fixpoint probe_loop (retries : nat) (s : D) (msgs : list i2c_msg) (xfers : Z) : D * Z * list Z :=
  let '(s, ret, buf) := i2c_transfer s msgs in
  match retries with
  | S (S _ as retries) =>
    if (ret =? - ENXIO) || (ret =? xfers) then (s, ret, buf)
    else probe_loop retries s msgs xfers
  | _ => (s, ret, buf)
  end.

Definition drm_do_probe_ddc_edid (s : D) (block len : Z) : D * Z * list Z :=
  let start := u8 (block * EDID_LENGTH) in
  let segment := u8 (Z.shiftr block 1) in
  let xfers := if negb (segment =? 0) then 3 else 2 in
  let msgs := [I2cWrite DDC_SEGMENT_ADDR [segment]; I2cWrite DDC_ADDR [start]; I2cRead DDC_ADDR len] in
  let '(s, ret, buf) := probe_loop 5 s (drop (Z.to_nat (3 - xfers)) msgs) xfers in
  (s, if ret =? xfers then 0 else -1, buf).

(** A single byte of the base block. *)
Definition drm_probe_ddc (s : D) : D * bool :=
  let '(s, ret, _) := drm_do_probe_ddc_edid s 0 1 in (s, ret =? 0).

Definition drm_edid_read_ddc (edid_fixup : Z) (alloc_ok : nat -> bool) (uninit : Z) (force : drm_connector_force)
    (k : edid_errors) (s : D) (override : option drm_edid) : option (edid_errors * D * option drm_edid) :=
  if bool_decide (force = DRM_FORCE_OFF) then Some (k, s, None)
  else
    let '(s, present) := if bool_decide (force = DRM_FORCE_UNSPECIFIED) then drm_probe_ddc s else (s, true) in
    if negb present then Some (k, s, None)
    else drm_edid_read_custom edid_fixup drm_do_probe_ddc_edid alloc_ok uninit k s override.
End ddc.

(** ** The bus and a display behind it *)

(** The contract of i2c_transfer(): the buffer keeps its size whatever happens. *)
Class I2cBus {D : Type} (i2c_transfer : D -> list i2c_msg -> D * Z * list Z) : Prop := {
  bus_fills s msgs addr len : 0 <= len -> list.last msgs = Some (I2cRead addr len) ->
    blen (i2c_transfer s msgs).2 = len;
  bus_bytes s msgs : Forall is_byte (i2c_transfer s msgs).2
}.

(** One of the next [n] transfers gets through and reads [b]; those before it fail, but
    the adapter is there. *)
Fixpoint answers {D : Type} (i2c_transfer : D -> list i2c_msg -> D * Z * list Z) (n : nat) (s : D)
    (msgs : list i2c_msg) (xfers : Z) (b : list Z) : Prop :=
  match n with
  | O => False
  | S n => let '(s, ret, buf) := i2c_transfer s msgs in
    ret = xfers /\ buf = b \/ ret <> xfers /\ ret <> - ENXIO /\ answers i2c_transfer n s msgs xfers b
  end.

(** A display with the bytes [eeprom], which is addressed by segments of 256 bytes, the
    first one if no segment is written. *)
Class EddcDisplay {D : Type} (i2c_transfer : D -> list i2c_msg -> D * Z * list Z) (eeprom : list Z) : Prop := {
  first_segment s off len b : 0 <= off < 256 -> rd_range eeprom off len = Some b ->
    answers i2c_transfer 5 s [I2cWrite DDC_ADDR [off]; I2cRead DDC_ADDR len] 2 b;
  other_segment s seg off len b : 0 < seg < 256 -> 0 <= off < 256 -> rd_range eeprom (256 * seg + off) len = Some b ->
    answers i2c_transfer 5 s [I2cWrite DDC_SEGMENT_ADDR [seg]; I2cWrite DDC_ADDR [off]; I2cRead DDC_ADDR len] 3 b
}.

Section bus.
Context {D : Type} (i2c_transfer : D -> list i2c_msg -> D * Z * list Z).

(** What holds of the buffer after every transfer holds after the attempts. *)
Lemma probe_post (P : list Z -> Prop) msgs xfers n : (forall s, P (i2c_transfer s msgs).2) ->
  forall s, P (probe_loop i2c_transfer n s msgs xfers).2.
Proof.
  intros HP. induction n as [|n IH]; intros s; cbn [probe_loop]; pose proof (HP s) as Hs;
    destruct (i2c_transfer s msgs) as [[s' ret] buf]; [done|].
  destruct n as [|n]; [done|]. destruct (_ || _); [done|]. apply IH.
Qed.

Lemma probe_ddc_post (P : list Z -> Prop) block len :
  (forall s msgs, list.last msgs = Some (I2cRead DDC_ADDR len) -> P (i2c_transfer s msgs).2) ->
  forall s, P (drm_do_probe_ddc_edid i2c_transfer s block len).2.
Proof.
  intros HP s. unfold drm_do_probe_ddc_edid. cbv zeta. set (xfers := if negb _ then 3 else 2). set (msgs := drop _ _).
  assert (Hlast : list.last msgs = Some (I2cRead DDC_ADDR len)) by (subst msgs xfers; by destruct (negb _)).
  pose proof (probe_post P msgs xfers 5 (fun s => HP s msgs Hlast) s) as H.
  by destruct (probe_loop _ _ _ _ _) as [[s' ret] buf].
Qed.

#[export] Instance ddc_reader `{!I2cBus i2c_transfer} : BlockReader (drm_do_probe_ddc_edid i2c_transfer).
Proof.
  split; intros s block len; [intros Hlen|].
  - apply (probe_ddc_post (fun b => blen b = len)). intros s' msgs Hlast. by eapply bus_fills.
  - apply (probe_ddc_post (Forall is_byte)). intros s' msgs _. apply bus_bytes.
Qed.

Lemma probe_answers msgs xfers b n : forall s, answers i2c_transfer n s msgs xfers b ->
  exists s', probe_loop i2c_transfer n s msgs xfers = (s', xfers, b).
Proof.
  induction n as [|n IH]; intros s; [done|]. cbn [answers probe_loop].
  destruct (i2c_transfer s msgs) as [[s' ret] buf]. intros [[-> ->]|(Hr & He & Ha)].
  - exists s'. destruct n; [done|]. by rewrite Z.eqb_refl, orb_true_r.
  - destruct n as [|n]; [done|]. apply IH in Ha as [s2 Ha]. exists s2.
    by rewrite (proj2 (Z.eqb_neq _ _) Hr), (proj2 (Z.eqb_neq _ _) He).
Qed.

Context (ds : list (list Z)) `{!EddcDisplay i2c_transfer (concat ds)}.
Context (Hds : blocks ds).

(** The segment and the offset in it lead to the block. *)
Lemma ddc_shows s i b : ds !! i = Some b -> (i < 512)%nat ->
  exists s', drm_do_probe_ddc_edid i2c_transfer s (Z.of_nat i) EDID_LENGTH = (s', 0, b).
Proof.
  intros Hb Hi. unfold drm_do_probe_ddc_edid, EDID_LENGTH.
  pose proof (Z.div_mod (Z.of_nat i) 2 ltac:(lia)) as Hd. pose proof (Z.mod_pos_bound (Z.of_nat i) 2 ltac:(lia)).
  rewrite Z.shiftr_div_pow2 by lia. change (2 ^ 1) with 2. set (seg := Z.of_nat i / 2) in *. set (r := Z.of_nat i mod 2) in *.
  assert (Hs : u8 seg = seg) by (apply (wrapU_small 8); unfold is_u; lia).
  assert (Ho : u8 (Z.of_nat i * 128) = 128 * r).
  { unfold wrapU. change (2 ^ 8) with (2 * 128). rewrite Z.mul_mod_distr_r by lia. fold r. lia. }
  rewrite Hs, Ho. pose proof (rd_range_block ds i b (128 * Z.of_nat i) (blocks_whole _ Hds) Hb eq_refl) as Hr.
  destruct (Z.eqb_spec seg 0) as [E|E]; cbn [negb].
  - destruct (probe_answers _ _ _ 5 s (first_segment s (128 * r) 128 b ltac:(lia)
      ltac:(by replace (128 * r) with (128 * Z.of_nat i) by lia))) as [s' Ep].
    change (drop (Z.to_nat (3 - 2)) ?l) with (drop 1 l). cbn [drop]. rewrite Ep. by exists s'.
  - destruct (probe_answers _ _ _ 5 s (other_segment s seg (128 * r) 128 b ltac:(lia) ltac:(lia)
      ltac:(by replace (256 * seg + 128 * r) with (128 * Z.of_nat i) by lia))) as [s' Ep].
    change (drop (Z.to_nat (3 - 3)) ?l) with l. rewrite Ep. by exists s'.
Qed.

Lemma probe_present s b0 : ds !! 0%nat = Some b0 -> exists s', drm_probe_ddc i2c_transfer s = (s', true).
Proof.
  intros H0. pose proof (Forall_lookup_1 _ _ _ _ Hds H0) as Hb0.
  destruct (block_byte b0 0 Hb0 ltac:(lia)) as (x & Ex & _).
  assert (Er : rd_range (concat ds) 0 1 = Some [x]).
  { destruct ds as [|c ds']; [done|]. cbn in H0. injection H0 as ->. destruct b0 as [|y b0]; [done|]. cbn in Ex.
    injection Ex as ->. change 1 with (blen [x]). apply (rd_range_app [] [x]). }
  unfold drm_probe_ddc, drm_do_probe_ddc_edid. change (u8 (0 * EDID_LENGTH)) with 0. change (u8 (Z.shiftr 0 1)) with 0.
  destruct (probe_answers _ _ _ 5 s (first_segment s 0 1 [x] ltac:(lia) Er)) as [s' Ep].
  change (negb (0 =? 0)) with false. cbv iota zeta. change (drop (Z.to_nat (3 - 2)) ?l) with (drop 1 l). cbn [drop].
  rewrite Ep. by exists s'.
Qed.
End bus.

(** A display that misses every other transfer. *)
Definition busy_eeprom (mem : list Z) : bool -> list i2c_msg -> bool * Z * list Z := fun busy msgs =>
  if busy then (false, - 11, [])
  else match msgs with
       | [I2cWrite _ [off]; I2cRead _ len] => (true, 2, default [] (rd_range mem off len))
       | [I2cWrite _ [seg]; I2cWrite _ [off]; I2cRead _ len] => (true, 3, default [] (rd_range mem (256 * seg + off) len))
       | _ => (true, - 11, [])
       end.
#[export] Instance busy_eeprom_display mem : EddcDisplay (busy_eeprom mem) mem.
Proof.
  split.
  - intros busy off len b _ E. destruct busy; cbn [answers busy_eeprom]; rewrite E; [right; split_and!; [done..|]|]; by left.
  - intros busy seg off len b _ _ E. destruct busy; cbn [answers busy_eeprom]; rewrite E; [right; split_and!; [done..|]|]; by left.
Qed.

Lemma announced_bound ds : blocks ds -> announced ds -> (0 < length ds <= 256)%nat.
Proof.
  intros Hds (x & Ex & [[_ Hl]|(Hx & e & He & Hl)]); [lia|].
  destruct (lookup_lt_is_Some_2 ds 0 ltac:(lia)) as [b0 H0]. rewrite (count_whole ds b0 (blocks_whole _ Hds) H0) in Ex.
  pose proof (announced_le ds Hds x e b0 H0 Ex Hx He Hl). lia.
Qed.

(** The container counts all blocks, unless the CTA extension counts fewer. *)
Lemma announced_valid fx ds : blocks ds -> (forall i b, ds !! i = Some b -> block_sound (i =? 0)%nat b) -> announced ds ->
  edid_hfeeodb_block_count (concat ds) = Some 0 \/ edid_hfeeodb_block_count (concat ds) = Some (Z.of_nat (length ds)) ->
  drm_edid_valid fx (Some (DrmEdid (128 * Z.of_nat (length ds)) (concat ds))) = Some true.
Proof.
  intros Hds Hs Hann He. pose proof (announced_bound ds Hds Hann) as Hl. destruct Hann as (x & Ex & Hann).
  assert (Hse : sound_edid (concat ds) (128 * Z.of_nat (length ds))).
  { exists ds, x. split_and!; try first [done|lia].
    - destruct Hann as [(-> & Hl1)|(? & e & _ & ?)]; lia.
    - destruct Hann as [(-> & Hl1)|(? & e & Ee & ?)]; [left; lia|]. rewrite Ee in He |- *.
      destruct He as [[= ->]|[= ->]]; [left; lia|by right]. }
  destruct (sound_valid fx _ _ Hse) as (c & Ec & -> & _). f_equal. apply bool_decide_eq_true_2.
  unfold __drm_edid_block_count, edid_block_count in Ec. cbn [de_edid de_size] in Ec. rewrite Ex in Ec. cbn [mbind option_bind] in Ec.
  unfold edid_size_by_blocks, EDID_LENGTH in Ec. destruct Hann as [[-> Hl1]|(Hx & e & Ee & Hmax)].
  { rewrite Hl1 in *. change (2 * 128 <=? 128 * Z.of_nat 1) with false in Ec. by injection Ec as <-. }
  destruct (Z.leb_spec (2 * 128) (128 * Z.of_nat (length ds))); [|lia]. rewrite Ee in Ec, He. cbn [mbind option_bind] in Ec.
  destruct He as [[= ->]|[= ->]]; [change (negb (0 =? 0)) with false in Ec|].
  - injection Ec as <-. lia.
  - destruct (Z.eqb_spec (Z.of_nat (length ds)) 0); [lia|]. by injection Ec as <-.
Qed.

(** C39. A display that answers at least every fifth attempt is read exactly: over an I2C
    bus, through segments and offsets, base block and extensions arrive as the display
    stores them, as many as it announces, also those which only the CTA extension
    announces.  The EDID is not marked as corrupt, and it is valid unless the CTA extension
    counts fewer blocks than the base block. *)
Theorem display_read_over_ddc {D} (i2c_transfer : D -> list i2c_msg -> D * Z * list Z) ds
    `{!EddcDisplay i2c_transfer (concat ds)} fx uninit force k s :
  blocks ds -> (forall i b, ds !! i = Some b -> block_sound (i =? 0)%nat b) -> announced ds -> force <> DRM_FORCE_OFF ->
  exists s', drm_edid_read_ddc i2c_transfer fx (fun _ => true) uninit force k s None
      = Some (set_corrupt false k, s', Some (DrmEdid (128 * Z.of_nat (length ds)) (concat ds)))
    /\ (edid_hfeeodb_block_count (concat ds) = Some 0 \/ edid_hfeeodb_block_count (concat ds) = Some (Z.of_nat (length ds)) ->
        drm_edid_valid fx (Some (DrmEdid (128 * Z.of_nat (length ds)) (concat ds))) = Some true).
Proof.
  intros Hds Hs Hann Hf. pose proof (announced_bound ds Hds Hann) as Hl.
  assert (Hshows : forall s i b, ds !! i = Some b ->
    exists s', drm_do_probe_ddc_edid i2c_transfer s (Z.of_nat i) EDID_LENGTH = (s', 0, b)).
  { intros s1 i b Hb. apply (ddc_shows i2c_transfer ds Hds s1 i b Hb). apply lookup_lt_Some in Hb. lia. }
  assert (Hread : forall s, exists s', drm_edid_read_custom fx (drm_do_probe_ddc_edid i2c_transfer) (fun _ => true) uninit k s None
    = Some (set_corrupt false k, s', Some (DrmEdid (128 * Z.of_nat (length ds)) (concat ds)))).
  { intros s1. pose proof (display_read _ fx (fun _ => true) uninit ds Hshows (fun _ => eq_refl) Hds Hs k s1 Hann) as H.
    apply sat_exists in H as ([[k' s'] r] & E & -> & ->). exists s'. unfold drm_edid_read_custom. cbn [mbind option_bind].
    rewrite E. cbn [mbind option_bind]. unfold _drm_edid_alloc, EDID_LENGTH.
    destruct (Z.eqb_spec (128 * Z.of_nat (length ds)) 0), (Z.ltb_spec (128 * Z.of_nat (length ds)) 128); done || lia. }
  assert (Hgo : exists s', drm_edid_read_ddc i2c_transfer fx (fun _ => true) uninit force k s None
      = Some (set_corrupt false k, s', Some (DrmEdid (128 * Z.of_nat (length ds)) (concat ds)))).
  { unfold drm_edid_read_ddc. rewrite bool_decide_eq_false_2 by done. destruct (bool_decide _); [|apply Hread].
    destruct (lookup_lt_is_Some_2 ds 0 ltac:(lia)) as [b0 H0].
    destruct (probe_present i2c_transfer ds Hds s b0 H0) as [s1 ->]. apply Hread. }
  destruct Hgo as [s' Hgo]. exists s'. split; [done|]. by apply announced_valid.
Qed.

Lemma display_read_over_ddc_witness :
  let ds := sample_edid in
  announced ds /\
  exists s', drm_edid_read_ddc (busy_eeprom (concat ds)) 6 (fun _ => true) 0 DRM_FORCE_UNSPECIFIED (EdidErrors true 0 0 0) false None
      = Some (set_corrupt false (EdidErrors true 0 0 0), s', Some (DrmEdid (128 * Z.of_nat (length ds)) (concat ds)))
    /\ (edid_hfeeodb_block_count (concat ds) = Some 0 \/ edid_hfeeodb_block_count (concat ds) = Some (Z.of_nat (length ds)) ->
        drm_edid_valid 6 (Some (DrmEdid (128 * Z.of_nat (length ds)) (concat ds))) = Some true).
Proof.
  assert (Hann : announced sample_edid).
  { exists 1. split; [reflexivity|]. right. split; [lia|]. exists 3. split; reflexivity. }
  split; [exact Hann|]. apply (display_read_over_ddc (busy_eeprom (concat sample_edid)) sample_edid); [| |exact Hann|discriminate].
  - unfold blocks, sample_edid. rewrite !list.Forall_cons.
    split_and!; [..|apply Forall_nil_2]; (split; [reflexivity|apply bytes_checked; vm_compute; reflexivity]).
  - intros [|[|[|i]]] b [= <-]; [split_and!| |]; try (left; vm_compute; reflexivity); vm_compute; reflexivity.
Defined.
