(* ===== verification/EdidTiming.v ===== *)
(** * Detailed timings of an EDID

    DRM/drm_edid.c: the walk over the 18 byte descriptors of an EDID and the modes that are
    made of them.  A descriptor is given by its offset in the EDID; the members of a timing
    are read at once. *)

From Stdlib Require Import ZArith Lia Bool String.
From stdpp Require Import base numbers list option strings.
From S2P Require Import Prelude ByteBuf Modes ModeUser ModeGen Edid EdidBlocks EdidSpec.
#[local] Open Scope Z_scope.

(** ** The blocks of an EDID *)

(** The offset of the block and the next index, or the end. *)
Definition __drm_edid_iter_next (de : drm_edid) (index : Z) : option (option (Z * Z)) :=
  count ← drm_edid_block_count de;
  Some (if index <? count then Some (edid_block_data index, index + 1) else None).

(** ** Descriptors *)

Definition EDID_DETAILED_TIMINGS := 4.
Definition VTB_EXT := 0x10.
Definition EDID_DETAIL_MONITOR_RANGE := 0xfd.
Definition DRM_EDID_DEFAULT_GTF_SUPPORT_FLAG := 0x00.
Definition DRM_EDID_SECONDARY_GTF_SUPPORT_FLAG := 0x02.
Definition DRM_EDID_CVT_SUPPORT_FLAG := 0x04.
Definition DRM_EDID_CVT_FLAGS_REDUCED_BLANKING := BIT 4.
Definition DRM_EDID_INPUT_DIGITAL := BIT 7.

Definition rd_le16 (m : list Z) (p : Z) : option Z :=
  lo ← rd m p; hi ← rd m (p + 1); Some (Z.lor lo (Z.shiftl hi 8)).

Definition is_display_descriptor (m : list Z) (p type : Z) : option bool :=
  clk ← rd_le16 m p;
  if negb (clk =? 0) then Some false
  else
    pad ← rd m (p + 2);
    if negb (pad =? 0) then Some false else t ← rd m (p + 3); Some (t =? type).
Definition is_detailed_timing_descriptor (m : list Z) (p : Z) : option bool :=
  clk ← rd_le16 m p; Some (negb (clk =? 0)).

(** The calls for the descriptors of a block; the callback changes its closure. *)
Section each.
Context {T : Type} (cb : T -> Z -> option T).

Fixpoint for_timings (n : nat) (det_base : Z) (closure : T) : option T :=
  match n with
  | O => Some closure
  | S n => closure ← cb closure det_base; for_timings n (det_base + 18) closure
  end.
Definition cea_for_each_detailed_block (m : list Z) (ext : Z) (closure : T) : option T :=
  d ← rd m (ext + 2);
  if (d <? 4) || (127 <? d) then Some closure
  else for_timings (Z.to_nat ((127 - d) / 18)) (ext + d) closure.
Definition vtb_for_each_detailed_block (m : list Z) (ext : Z) (closure : T) : option T :=
  x ← rd m (ext + 2);
  v ← rd m (ext + 1);
  if negb (v =? 1) then Some closure
  else for_timings (Z.to_nat (Z.min x 6)) (ext + 5) closure.

Fixpoint for_blocks (fuel : nat) (de : drm_edid) (index : Z) (closure : T) : option T :=
  match fuel with
  | O => None
  | S fuel =>
    next ← __drm_edid_iter_next de index;
    match next return option T with
    | None => Some closure
    | Some (ext, index) =>
      tag ← rd (de_edid de) ext;
      closure ← (if tag =? CEA_EXT then cea_for_each_detailed_block (de_edid de) ext closure
                 else if tag =? VTB_EXT then vtb_for_each_detailed_block (de_edid de) ext closure
                 else Some closure);
      for_blocks fuel de index closure
    end
  end.
Definition drm_for_each_detailed_block (de : option drm_edid) (closure : T) : option T :=
  match de with
  | None => Some closure
  | Some de =>
    closure ← for_timings (Z.to_nat EDID_DETAILED_TIMINGS) 54 closure;
    for_blocks MAX_BLOCKS de 0 closure
  end.
End each.

(** ** What monitor ranges say *)

Definition edid_revision (m : list Z) : option Z := rd m 19.
Definition drm_edid_is_digital (de : option drm_edid) : option bool :=
  match de with
  | None => Some false
  | Some de => x ← rd (de_edid de) 20; Some (tst x DRM_EDID_INPUT_DIGITAL)
  end.

Definition is_rb (m : list Z) (res : bool) (p : Z) : option bool :=
  r ← is_display_descriptor m p EDID_DETAIL_MONITOR_RANGE;
  if negb r then Some res
  else
    flags ← rd m (p + 10);
    if flags =? DRM_EDID_CVT_SUPPORT_FLAG then
      cvt ← rd m (p + 15); Some (if tst cvt DRM_EDID_CVT_FLAGS_REDUCED_BLANKING then true else res)
    else Some res.
Definition drm_monitor_supports_rb (de : drm_edid) : option bool :=
  rev ← edid_revision (de_edid de);
  if 4 <=? rev then drm_for_each_detailed_block (is_rb (de_edid de)) (Some de) false
  else drm_edid_is_digital (Some de).

Definition find_gtf2 (m : list Z) (res : option Z) (p : Z) : option (option Z) :=
  r ← is_display_descriptor m p EDID_DETAIL_MONITOR_RANGE;
  if negb r then Some res
  else
    flags ← rd m (p + 10);
    Some (if flags =? DRM_EDID_SECONDARY_GTF_SUPPORT_FLAG then Some p else res).
(** A member of the last descriptor found, or 0. *)
Definition gtf2_member (de : drm_edid) (member : Z -> option Z) : option Z :=
  d ← drm_for_each_detailed_block (find_gtf2 (de_edid de)) (Some de) None;
  match d with Some p => member p | None => Some 0 end.
Definition drm_gtf2_hbreak (de : drm_edid) : option Z :=
  gtf2_member de (fun p => x ← rd (de_edid de) (p + 12); Some (x * 2)).
Definition drm_gtf2_2c (de : drm_edid) : option Z := gtf2_member de (fun p => rd (de_edid de) (p + 13)).
Definition drm_gtf2_m (de : drm_edid) : option Z := gtf2_member de (fun p => rd_le16 (de_edid de) (p + 14)).
Definition drm_gtf2_k (de : drm_edid) : option Z := gtf2_member de (fun p => rd (de_edid de) (p + 16)).
Definition drm_gtf2_2j (de : drm_edid) : option Z := gtf2_member de (fun p => rd (de_edid de) (p + 17)).

Definition LEVEL_DMT := 0.
Definition LEVEL_GTF := 1.
Definition LEVEL_GTF2 := 2.
Definition LEVEL_CVT := 3.

Definition get_timing_level (m : list Z) (res p : Z) : option Z :=
  r ← is_display_descriptor m p EDID_DETAIL_MONITOR_RANGE;
  if negb r then Some res
  else
    flags ← rd m (p + 10);
    Some (if flags =? DRM_EDID_DEFAULT_GTF_SUPPORT_FLAG then LEVEL_GTF
          else if flags =? DRM_EDID_SECONDARY_GTF_SUPPORT_FLAG then LEVEL_GTF2
          else if flags =? DRM_EDID_CVT_SUPPORT_FLAG then LEVEL_CVT
          else res).
Definition standard_timing_level (de : drm_edid) : option Z :=
  rev ← edid_revision (de_edid de);
  if 4 <=? rev then drm_for_each_detailed_block (get_timing_level (de_edid de)) (Some de) LEVEL_CVT
  else
    hbreak ← (if 3 <=? rev then drm_gtf2_hbreak de else Some 0);
    Some (if negb (hbreak =? 0) then LEVEL_GTF2 else if 2 <=? rev then LEVEL_GTF else LEVEL_DMT).

(** ** Detailed timings *)

Record detailed_pixel_timing := PixelTiming {
  hactive_lo : Z;   (* u8, as all of them *)
  hblank_lo : Z;
  hactive_hblank_hi : Z;
  vactive_lo : Z;
  vblank_lo : Z;
  vactive_vblank_hi : Z;
  hsync_offset_lo : Z;
  hsync_pulse_width_lo : Z;
  vsync_offset_pulse_width_lo : Z;
  hsync_vsync_offset_pulse_width_hi : Z;
  width_mm_lo : Z;
  height_mm_lo : Z;
  width_height_mm_hi : Z;
  hborder : Z;
  vborder : Z;
  misc : Z
}.
(** The clock and the members behind it. *)
Definition read_timing (m : list Z) (p : Z) : option (Z * detailed_pixel_timing) :=
  clk ← rd_le16 m p;
  b ← rd_range m (p + 2) 16;
  match b with
  | [x0; x1; x2; x3; x4; x5; x6; x7; x8; x9; x10; x11; x12; x13; x14; x15] =>
    Some (clk, PixelTiming x0 x1 x2 x3 x4 x5 x6 x7 x8 x9 x10 x11 x12 x13 x14 x15)
  | _ => None
  end.

Definition DRM_EDID_PT_HSYNC_POSITIVE := BIT 1.
Definition DRM_EDID_PT_VSYNC_POSITIVE := BIT 2.
Definition DRM_EDID_PT_STEREO := BIT 5.
Definition DRM_EDID_PT_INTERLACED := BIT 7.

(** Bits of display_info.quirks; bit 0 is a quirk for drivers. *)
Definition EDID_QUIRK_135_CLOCK_TOO_HIGH := 2.
Definition EDID_QUIRK_DETAILED_IN_CM := 4.
Definition EDID_QUIRK_DETAILED_USE_MAXIMUM_SIZE := 5.
Definition EDID_QUIRK_DETAILED_SYNC_PP := 6.
Definition EDID_QUIRK_FORCE_REDUCED_BLANKING := 7.
Definition drm_edid_has_internal_quirk (quirks quirk : Z) : bool := tst quirks (BIT quirk).

Definition cea_interlaced : list (Z * Z) :=
  [(1920, 1080); (720, 480); (1440, 480); (2880, 480); (720, 576); (1440, 576); (2880, 576)].
Definition double_height (m : drm_display_mode) : drm_display_mode :=
  Mode (clock m) (hdisplay m) (hsync_start m) (hsync_end m) (htotal m) (hskew m) (u16 (vdisplay m * 2))
    (u16 (vsync_start m * 2)) (u16 (vsync_end m * 2)) (Z.lor (u16 (vtotal m * 2)) 1) (vscan m) (flags m)
    (crtc m) (width_mm m) (height_mm m) (type m) (expose_to_userspace m) (name m) (status m)
    (picture_aspect_ratio m).
Definition drm_mode_do_interlace_quirk (mode : drm_display_mode) (pt : detailed_pixel_timing) : drm_display_mode :=
  if negb (tst (misc pt) DRM_EDID_PT_INTERLACED) then mode
  else
    let mode := foldl (fun mode '(w, h) =>
        if (hdisplay mode =? w) && (vdisplay mode =? h / 2) then double_height mode else mode)
      mode cea_interlaced in
    with_flags (Z.lor (flags mode) DRM_MODE_FLAG_INTERLACE) mode.

Definition with_size (w h : Z) (m : drm_display_mode) : drm_display_mode :=
  Mode (clock m) (hdisplay m) (hsync_start m) (hsync_end m) (htotal m) (hskew m) (vdisplay m)
    (vsync_start m) (vsync_end m) (vtotal m) (vscan m) (flags m) (crtc m) w h
    (type m) (expose_to_userspace m) (name m) (status m) (picture_aspect_ratio m).

(** The size, the type and the name. *)
Definition set_size (quirks : Z) (de : drm_edid) (pt : detailed_pixel_timing) (mode : drm_display_mode)
    : option drm_display_mode :=
  let w := Z.lor (width_mm_lo pt) (Z.shiftl (Z.land (width_height_mm_hi pt) 0xf0) 4) in
  let h := Z.lor (height_mm_lo pt) (Z.shiftl (Z.land (width_height_mm_hi pt) 0xf) 8) in
  let '(w, h) := if drm_edid_has_internal_quirk quirks EDID_QUIRK_DETAILED_IN_CM
                 then (u16 (w * 10), u16 (h * 10)) else (w, h) in
  '(w, h) ← (if drm_edid_has_internal_quirk quirks EDID_QUIRK_DETAILED_USE_MAXIMUM_SIZE then
               width_cm ← rd (de_edid de) 21;
               height_cm ← rd (de_edid de) 22;
               Some (width_cm * 10, height_cm * 10)
             else Some (w, h));
  Some (drm_mode_set_name (with_type DRM_MODE_TYPE_DRIVER (with_size w h mode))).

(** The timing at [p], if the mode can be allocated. *)
Definition drm_mode_detailed (alloc : bool) (quirks : Z) (de : drm_edid) (p : Z) : option (option drm_display_mode) :=
  '(pixel_clock, pt) ← read_timing (de_edid de) p;
  let hactive := Z.lor (Z.shiftl (Z.land (hactive_hblank_hi pt) 0xf0) 4) (hactive_lo pt) in
  let vactive := Z.lor (Z.shiftl (Z.land (vactive_vblank_hi pt) 0xf0) 4) (vactive_lo pt) in
  let hblank := Z.lor (Z.shiftl (Z.land (hactive_hblank_hi pt) 0xf) 8) (hblank_lo pt) in
  let vblank := Z.lor (Z.shiftl (Z.land (vactive_vblank_hi pt) 0xf) 8) (vblank_lo pt) in
  let hi := hsync_vsync_offset_pulse_width_hi pt in
  let hsync_offset := Z.lor (Z.shiftl (Z.land hi 0xc0) 2) (hsync_offset_lo pt) in
  let hsync_pulse_width := Z.lor (Z.shiftl (Z.land hi 0x30) 4) (hsync_pulse_width_lo pt) in
  let vsync_offset := Z.lor (Z.shiftl (Z.land hi 0xc) 2) (Z.shiftr (vsync_offset_pulse_width_lo pt) 4) in
  let vsync_pulse_width := Z.lor (Z.shiftl (Z.land hi 0x3) 4) (Z.land (vsync_offset_pulse_width_lo pt) 0xf) in
  if (hactive <? 64) || (vactive <? 64) then Some None
  else if tst (misc pt) DRM_EDID_PT_STEREO then Some None
  else if (hsync_pulse_width =? 0) || (vsync_pulse_width =? 0) then Some None
  else if drm_edid_has_internal_quirk quirks EDID_QUIRK_FORCE_REDUCED_BLANKING then
    mode ← drm_cvt_mode alloc hactive vactive 60 true false false;
    match mode return option (option drm_display_mode) with
    | None => Some None
    | Some mode => mode ← set_size quirks de pt mode; Some (Some mode)
    end
  else if negb alloc then Some None
  else
    let k := if drm_edid_has_internal_quirk quirks EDID_QUIRK_135_CLOCK_TOO_HIGH then 1088 * 10 else pixel_clock * 10 in
    let hdisplay := u16 hactive in
    let hsync_start := u16 (hdisplay + hsync_offset) in
    let hsync_end := u16 (hsync_start + hsync_pulse_width) in
    let htotal := u16 (hdisplay + hblank) in
    let vdisplay := u16 vactive in
    let vsync_start := u16 (vdisplay + vsync_offset) in
    let vsync_end := u16 (vsync_start + vsync_pulse_width) in
    let vtotal := u16 (vdisplay + vblank) in
    let hsync_end := if htotal <? hsync_end then htotal else hsync_end in
    let vsync_end := if vtotal <? vsync_end then vtotal else vsync_end in
    let mode := drm_mode_do_interlace_quirk
      (Mode k hdisplay hsync_start hsync_end htotal 0 vdisplay vsync_start vsync_end vtotal 0 0 no_crtc 0 0 0
         false "" MODE_OK 0) pt in
    let fl := if drm_edid_has_internal_quirk quirks EDID_QUIRK_DETAILED_SYNC_PP
      then Z.lor DRM_MODE_FLAG_PHSYNC DRM_MODE_FLAG_PVSYNC
      else Z.lor (if tst (misc pt) DRM_EDID_PT_HSYNC_POSITIVE then DRM_MODE_FLAG_PHSYNC else DRM_MODE_FLAG_NHSYNC)
             (if tst (misc pt) DRM_EDID_PT_VSYNC_POSITIVE then DRM_MODE_FLAG_PVSYNC else DRM_MODE_FLAG_NVSYNC) in
    mode ← set_size quirks de pt (with_flags (Z.lor (flags mode) fl) mode);
    Some (Some mode).

(** ** Where the descriptors are *)

(** [n] descriptors from [p] on. *)
Definition row (n : nat) (p : Z) : list Z := (fun i => p + 18 * Z.of_nat i) <$> seq 0 n.

(** Those of the extension [b], whose offset is [ext]. *)
Definition block_descriptors (b : list Z) (ext : Z) : list Z :=
  match b with
  | tag :: x1 :: x2 :: _ =>
    if tag =? CEA_EXT then if (4 <=? x2) && (x2 <=? 127) then row (Z.to_nat ((127 - x2) / 18)) (ext + x2) else []
    else if tag =? VTB_EXT then if x1 =? 1 then row (Z.to_nat (Z.min x2 6)) (ext + 5) else []
    else []
  | _ => []
  end.
Definition extension_descriptors (i : nat) (bs : list (list Z)) : list Z :=
  concat (imap (fun j b => block_descriptors b (128 * Z.of_nat (i + j))) bs).
Definition descriptors (bs : list (list Z)) : list Z := row 4 54 ++ extension_descriptors 0 bs.

(** The callback at one after the other. *)
Fixpoint calls {T : Type} (cb : T -> Z -> option T) (ps : list Z) (closure : T) : option T :=
  match ps with
  | [] => Some closure
  | p :: ps => closure ← cb closure p; calls cb ps closure
  end.

Lemma calls_app {T} (cb : T -> Z -> option T) ps qs c : calls cb (ps ++ qs) c = (c ← calls cb ps c; calls cb qs c).
Proof. revert c. induction ps as [|p ps IH]; intros c; [done|]. cbn [app calls]. destruct (cb c p); cbn; [apply IH|done]. Qed.

Lemma row_cons n p : row (S n) p = p :: row n (p + 18).
Proof.
  unfold row. cbn [seq fmap list_fmap]. f_equal; [lia|]. rewrite <- seq_shift. change (map S ?l) with (S <$> l).
  rewrite <- list_fmap_compose. apply list_fmap_ext. intros i x _. cbn [compose]. lia.
Qed.

Lemma row_bounds n p : Forall (fun q => p <= q /\ q + 18 <= p + 18 * Z.of_nat n) (row n p).
Proof.
  revert p. induction n as [|n IH]; intros p; [constructor|]. rewrite row_cons. constructor; [lia|].
  eapply Forall_impl; [apply IH|]. cbn beta. lia.
Qed.

Lemma for_timings_calls {T} (cb : T -> Z -> option T) n : forall p c, for_timings cb n p c = calls cb (row n p) c.
Proof.
  induction n as [|n IH]; intros p c; [done|]. rewrite row_cons. cbn [for_timings calls].
  destruct (cb c p); cbn; [apply IH|done].
Qed.

Lemma block_descriptors_in b ext : block b -> Forall (fun q => ext + 4 <= q /\ q + 18 <= ext + 128) (block_descriptors b ext).
Proof.
  intros Hb. unfold block_descriptors. destruct b as [|tag [|x1 [|x2 b]]]; [constructor..|].
  destruct (tag =? CEA_EXT).
  { destruct (Z.leb_spec 4 x2), (Z.leb_spec x2 127); cbn [andb]; try constructor.
    eapply Forall_impl; [apply row_bounds|]. cbn beta. intros q.
    pose proof (Z.div_mod (127 - x2) 18 ltac:(lia)). pose proof (Z.mod_pos_bound (127 - x2) 18 ltac:(lia)).
    pose proof (Z.div_pos (127 - x2) 18 ltac:(lia) ltac:(lia)). lia. }
  destruct (tag =? VTB_EXT); [|constructor]. destruct (x1 =? 1); [|constructor].
  eapply Forall_impl; [apply row_bounds|]. cbn beta. lia.
Qed.

Lemma extension_descriptors_cons i b bs :
  extension_descriptors i (b :: bs) = block_descriptors b (128 * Z.of_nat i) ++ extension_descriptors (S i) bs.
Proof.
  unfold extension_descriptors. cbn [imap concat]. f_equal; [do 2 f_equal; lia|]. f_equal. apply imap_ext.
  intros j c _. cbn [compose]. do 2 f_equal. lia.
Qed.

Lemma extension_descriptors_in bs : blocks bs -> forall i,
  Forall (fun q => 128 * Z.of_nat i + 4 <= q /\ q + 18 <= 128 * Z.of_nat (i + length bs)) (extension_descriptors i bs).
Proof.
  induction 1 as [|b bs Hb Hbs IH]; intros i; [constructor|]. rewrite extension_descriptors_cons.
  apply Forall_app. split; (eapply Forall_impl; [first [by apply block_descriptors_in|apply IH]|]); cbn [length]; lia.
Qed.

Lemma descriptors_in bs n : blocks bs -> (1 <= n <= length bs)%nat ->
  Forall (fun q => 4 <= q /\ q + 18 <= 128 * Z.of_nat (length bs)) (descriptors (take n bs)).
Proof.
  intros Hb Hn. apply Forall_app. split; [eapply Forall_impl; [apply row_bounds|]; cbn beta; lia|].
  eapply Forall_impl; [apply extension_descriptors_in; by apply Forall_take|]. cbn beta. rewrite length_take. lia.
Qed.

Section walk.
Context {T : Type} (cb : T -> Z -> option T) (bs : list (list Z)) (size : Z).

Lemma block_walk i b c : whole bs -> bs !! i = Some b -> block b ->
  forall tag, rd (concat bs) (128 * Z.of_nat i) = Some tag ->
  (if tag =? CEA_EXT then cea_for_each_detailed_block cb (concat bs) (128 * Z.of_nat i) c
   else if tag =? VTB_EXT then vtb_for_each_detailed_block cb (concat bs) (128 * Z.of_nat i) c
   else Some c) = calls cb (block_descriptors b (128 * Z.of_nat i)) c.
Proof.
  intros Hw Hi [Hl _] tag Et. unfold cea_for_each_detailed_block, vtb_for_each_detailed_block.
  rewrite !(rd_block bs i b _ _ Hw Hi eq_refl) by lia.
  rewrite <- (Z.add_0_r (_ * _)), (rd_block bs i b _ 0 Hw Hi eq_refl) in Et by lia.
  destruct b as [|t0 [|x1 [|x2 b]]]; [done..|]. injection Et as ->. unfold block_descriptors.
  change (rd _ 1) with (Some x1). change (rd _ 2) with (Some x2). cbn [mbind option_bind].
  destruct (tag =? CEA_EXT).
  - destruct (Z.ltb_spec x2 4), (Z.ltb_spec 127 x2), (Z.leb_spec 4 x2), (Z.leb_spec x2 127); try lia; cbn [orb andb calls];
      [done..|]. apply for_timings_calls.
  - destruct (tag =? VTB_EXT); [|done]. destruct (x1 =? 1); cbn [negb]; [apply for_timings_calls|done].
Qed.

Lemma for_blocks_calls k n : blocks bs -> (k <= length bs)%nat ->
  drm_edid_block_count (DrmEdid size (concat bs)) = Some (Z.of_nat k) ->
  forall i c, (i <= k)%nat -> (k < n + i)%nat ->
  for_blocks cb n (DrmEdid size (concat bs)) (Z.of_nat i) c = calls cb (extension_descriptors i (drop i (take k bs))) c.
Proof.
  intros Hb Hk Hc. induction n as [|n IH]; intros i c Hi Hn; [lia|]. cbn [for_blocks]. unfold __drm_edid_iter_next.
  rewrite Hc. cbn [mbind option_bind]. destruct (Z.ltb_spec (Z.of_nat i) (Z.of_nat k)) as [Hlt|].
  2:{ by rewrite drop_ge by (rewrite length_take; lia). }
  destruct (lookup_lt_is_Some_2 bs i ltac:(lia)) as [b Eb]. pose proof (blocks_whole _ Hb) as Hw.
  pose proof (Forall_lookup_1 _ _ _ _ Hb Eb) as Hbb. destruct (block_byte b 0 Hbb ltac:(lia)) as (tag & Et & _).
  assert (Et' : rd (concat bs) (128 * Z.of_nat i) = Some tag).
  { rewrite <- (Z.add_0_r (_ * _)). by rewrite (rd_block bs i b _ 0 Hw Eb eq_refl) by lia. }
  unfold edid_block_data, EDID_LENGTH. rewrite (Z.mul_comm _ 128). cbn [de_edid]. rewrite Et'. cbn [mbind option_bind].
  rewrite (block_walk i b c Hw Eb Hbb tag Et').
  rewrite (drop_S (take k bs) b i) by (by rewrite lookup_take_lt by lia).
  rewrite extension_descriptors_cons, calls_app. destruct (calls cb _ c); [|done]. cbn [mbind option_bind].
  replace (Z.of_nat i + 1) with (Z.of_nat (S i)) by lia. apply IH; lia.
Qed.
End walk.

(** The walk over an EDID that was read. *)
Lemma walk_sound e size : sound_edid e size -> exists bs k, e = concat bs /\ size = 128 * Z.of_nat (length bs) /\ blocks bs
  /\ (1 <= k <= length bs)%nat /\ drm_edid_block_count (DrmEdid size e) = Some (Z.of_nat k)
  /\ forall T (cb : T -> Z -> option T) c,
       drm_for_each_detailed_block cb (Some (DrmEdid size e)) c = calls cb (descriptors (take k bs)) c.
Proof.
  intros Hse. destruct (sound_valid 0 e size Hse) as (c & Ec & _ & Hc). destruct (sound_count e size Hse) as (c' & Ec' & Hc1 & _).
  rewrite Ec in Ec'. injection Ec' as <-. destruct Hse as (bs & x & -> & -> & Hb & Hl & _).
  rewrite (Z.mul_comm 128), Z.div_mul in Hc by lia. rewrite (Z.mul_comm _ 128) in Hc.
  set (k := Z.to_nat (Z.min c (Z.of_nat (length bs)))).
  assert (Hk : Z.min c (Z.of_nat (length bs)) = Z.of_nat k) by lia. rewrite Hk in Hc.
  exists bs, k. split_and!; try done; [lia..|]. intros T cb cl.
  cbn [drm_for_each_detailed_block]. rewrite for_timings_calls. unfold descriptors. rewrite calls_app.
  change (Z.to_nat EDID_DETAILED_TIMINGS) with 4%nat. destruct (calls cb (row 4 54) cl); [|done]. cbn [mbind option_bind].
  change 0 with (Z.of_nat 0). rewrite (for_blocks_calls cb bs _ k); try done; try lia. rewrite max_blocks. lia.
Qed.

Lemma calls_inv {T} (cb : T -> Z -> option T) (P : T -> Prop) ps c :
  P c -> (forall c p, P c -> p ∈ ps -> sat (cb c p) P) -> sat (calls cb ps c) P.
Proof.
  revert c. induction ps as [|p ps IH]; intros c Hc Hcb; [done|]. cbn [calls].
  eapply sat_bind; [apply Hcb; [done|by left]|]. intros c' Hc'. apply IH; [done|].
  intros c2 q H2 Hq. apply Hcb; [done|by right].
Qed.

(** ** Timings as they are laid out *)

Record timing := Timing {
  t_clock : Z;      (* in 10 kHz *)
  t_hactive : Z; t_hblank : Z; t_hoffset : Z; t_hwidth : Z;
  t_vactive : Z; t_vblank : Z; t_voffset : Z; t_vwidth : Z;      (* of a field if interlaced *)
  t_width : Z; t_height : Z;      (* in mm *)
  t_interlaced : bool; t_hpositive : bool; t_vpositive : bool
}.

(** The fields fit into their bits, the sync pulses into the blanking; the display is not
    smaller than 64 by 64. *)
Record timing_ok (t : timing) : Prop := {
  ok_clock : 0 < t_clock t < 65536;
  ok_hactive : 64 <= t_hactive t < 4096;
  ok_vactive : 64 <= t_vactive t < 4096;
  ok_hblank : t_hoffset t + t_hwidth t <= t_hblank t < 4096;
  ok_vblank : t_voffset t + t_vwidth t <= t_vblank t < 4096;
  ok_hsync : 0 <= t_hoffset t < 1024 /\ 0 < t_hwidth t < 1024;
  ok_vsync : 0 <= t_voffset t < 64 /\ 0 < t_vwidth t < 64;
  ok_size : 0 <= t_width t < 4096 /\ 0 <= t_height t < 4096
}.

Definition encode (t : timing) : list Z :=
  [t_clock t mod 256; t_clock t / 256;
   t_hactive t mod 256; t_hblank t mod 256; t_hactive t / 256 * 16 + t_hblank t / 256;
   t_vactive t mod 256; t_vblank t mod 256; t_vactive t / 256 * 16 + t_vblank t / 256;
   t_hoffset t mod 256; t_hwidth t mod 256; t_voffset t mod 16 * 16 + t_vwidth t mod 16;
   t_hoffset t / 256 * 64 + t_hwidth t / 256 * 16 + t_voffset t / 16 * 4 + t_vwidth t / 16;
   t_width t mod 256; t_height t mod 256; t_width t / 256 * 16 + t_height t / 256; 0; 0;
   b2z (t_interlaced t) * 128 + 24 + b2z (t_vpositive t) * 4 + b2z (t_hpositive t) * 2].

(** The lines of a frame for every line that is given: two for the interlaced formats of
    the CTA. *)
Definition frame_lines (t : timing) : Z :=
  if t_interlaced t && existsb (fun '(w, h) => (t_hactive t =? w) && (t_vactive t * 2 =? h)) cea_interlaced then 2 else 1.

Definition mode_of (t : timing) : drm_display_mode :=
  let n := frame_lines t in
  let h := t_hactive t in
  let v := t_vactive t in
  drm_mode_set_name
    (Mode (t_clock t * 10) h (h + t_hoffset t) (h + t_hoffset t + t_hwidth t) (h + t_hblank t) 0
       (v * n) ((v + t_voffset t) * n) ((v + t_voffset t + t_vwidth t) * n) ((v + t_vblank t) * n + (n - 1)) 0
       (Z.lor (if t_interlaced t then DRM_MODE_FLAG_INTERLACE else 0)
          (Z.lor (if t_hpositive t then DRM_MODE_FLAG_PHSYNC else DRM_MODE_FLAG_NHSYNC)
             (if t_vpositive t then DRM_MODE_FLAG_PVSYNC else DRM_MODE_FLAG_NVSYNC)))
       no_crtc (t_width t) (t_height t) DRM_MODE_TYPE_DRIVER false "" MODE_OK 0).

(** ** What is read is what was laid out *)

(** Twelve bits, the upper four in the upper or the lower half of a byte. *)
Lemma high_nibble a b : 0 <= a < 4096 -> 0 <= b < 4096 ->
  Z.lor (Z.shiftl (Z.land (a / 256 * 16 + b / 256) 0xf0) 4) (a mod 256) = a.
Proof. intros. fields_lia. Qed.
Lemma low_nibble a b : 0 <= a < 4096 -> 0 <= b < 4096 ->
  Z.lor (Z.shiftl (Z.land (a / 256 * 16 + b / 256) 0xf) 8) (b mod 256) = b.
Proof. intros. fields_lia. Qed.

(** The fields of [hsync_vsync_offset_pulse_width_hi]. *)
Section sync.
Context (a b c d : Z) (Ha : 0 <= a < 1024) (Hb : 0 <= b < 1024) (Hc : 0 <= c < 64) (Hd : 0 <= d < 64).
Let hi := a / 256 * 64 + b / 256 * 16 + c / 16 * 4 + d / 16.

Lemma sync_a : Z.lor (Z.shiftl (Z.land hi 0xc0) 2) (a mod 256) = a.
Proof. unfold hi. fields_lia. Qed.
Lemma sync_b : Z.lor (Z.shiftl (Z.land hi 0x30) 4) (b mod 256) = b.
Proof. unfold hi. fields_lia. Qed.
Lemma sync_c : Z.lor (Z.shiftl (Z.land hi 0xc) 2) (Z.shiftr (c mod 16 * 16 + d mod 16) 4) = c.
Proof. unfold hi. fields_lia. Qed.
Lemma sync_d : Z.lor (Z.shiftl (Z.land hi 0x3) 4) (Z.land (c mod 16 * 16 + d mod 16) 0xf) = d.
Proof. unfold hi. fields_lia. Qed.
End sync.

Lemma rd_le16_bytes x : 0 <= x < 65536 -> Z.lor (x mod 256) (Z.shiftl (x / 256) 8) = x.
Proof. intros. rewrite Z.lor_comm. fields_lia. Qed.

(** The doubling of the fields happens for one format at most: no height is half of
    another. *)
Definition double_step (mode : drm_display_mode) (f : Z * Z) : drm_display_mode :=
  let '(w, h) := f in if (hdisplay mode =? w) && (vdisplay mode =? h / 2) then double_height mode else mode.

Lemma double_none l mode : (forall w h, (w, h) ∈ l -> vdisplay mode <> h / 2) -> foldl double_step mode l = mode.
Proof.
  induction l as [|[w h] l IH]; intros H; [done|]. cbn [foldl double_step].
  destruct (Z.eqb_spec (vdisplay mode) (h / 2)) as [E|_]; [by destruct (H w h ltac:(left) E)|].
  rewrite andb_false_r. apply IH. intros w' h' Hin. apply (H w' h'). by right.
Qed.

Lemma double_once l mode : (forall w h w' h', (w, h) ∈ l -> (w', h') ∈ l -> u16 (h / 2 * 2) <> h' / 2) ->
  foldl double_step mode l
  = if existsb (fun '(w, h) => (hdisplay mode =? w) && (vdisplay mode =? h / 2)) l then double_height mode else mode.
Proof.
  induction l as [|[w h] l IH]; intros H; [done|]. cbn [foldl double_step existsb].
  destruct (Z.eqb_spec (hdisplay mode) w), (Z.eqb_spec (vdisplay mode) (h / 2)) as [Ev|]; cbn [andb orb].
  2-4: apply IH; intros w1 h1 w2 h2 H1 H2; apply (H w1 h1 w2 h2); by right.
  apply double_none. intros w' h' Hin. cbn [double_height vdisplay]. rewrite Ev. apply (H w h w' h'); [by left|by right].
Qed.

Lemma heights_distinct w h w' h' : (w, h) ∈ cea_interlaced -> (w', h') ∈ cea_interlaced -> u16 (h / 2 * 2) <> h' / 2.
Proof.
  intros H1 H2. unfold cea_interlaced in H1, H2.
  repeat (apply elem_of_cons in H1 as [[= -> ->]|H1]); [..|by apply not_elem_of_nil in H1];
    repeat (apply elem_of_cons in H2 as [[= -> ->]|H2]); try (by apply not_elem_of_nil in H2); vm_compute; discriminate.
Qed.

Lemma odd_total x : 0 <= x < 8192 * 2 -> Z.lor (u16 (x * 2)) 1 = x * 2 + 1.
Proof.
  intros. rewrite u16_small by (unfold is_u; lia). apply (lor_disjoint _ 1 1); [lia| |lia]. change (2 ^ 1) with 2. by apply Z.mod_mul.
Qed.

Lemma interlace_spec t pt k hs he ht vs ve vt : tst (misc pt) DRM_EDID_PT_INTERLACED = t_interlaced t ->
  0 <= t_vactive t < 8192 -> 0 <= vs < 8192 -> 0 <= ve < 8192 -> 0 <= vt < 8192 ->
  drm_mode_do_interlace_quirk
    (Mode k (t_hactive t) hs he ht 0 (t_vactive t) vs ve vt 0 0 no_crtc 0 0 0 false "" MODE_OK 0) pt
  = let n := frame_lines t in
    Mode k (t_hactive t) hs he ht 0 (t_vactive t * n) (vs * n) (ve * n) (vt * n + (n - 1)) 0
      (if t_interlaced t then DRM_MODE_FLAG_INTERLACE else 0) no_crtc 0 0 0 false "" MODE_OK 0.
Proof.
  intros Hil Hv Hvs Hve Hvt. unfold drm_mode_do_interlace_quirk. rewrite Hil. unfold frame_lines.
  destruct (t_interlaced t); cbn [negb andb]; [|cbv zeta; f_equal; lia].
  pose proof (odd_total vt ltac:(lia)) as Hodd.
  assert (Hx2 : forall x, 0 <= x < 8192 -> u16 (x * 2) = x * 2) by (intros; apply u16_small; unfold is_u; lia).
  fold double_step. cbv zeta. rewrite !double_once.
  2:{ apply heights_distinct. }
  cbn [hdisplay vdisplay].
  assert (E : existsb (fun '(w, h) => (t_hactive t =? w) && (t_vactive t =? h / 2)) cea_interlaced
    = existsb (fun '(w, h) => (t_hactive t =? w) && (t_vactive t * 2 =? h)) cea_interlaced).
  { assert (Ec : forall c, (t_vactive t * 2 =? c * 2) = (t_vactive t =? c))
      by (intros c; destruct (Z.eqb_spec (t_vactive t * 2) (c * 2)), (Z.eqb_spec (t_vactive t) c); done || lia).
    unfold cea_interlaced. cbn [existsb]. change 1080 with (540 * 2). change 480 with (240 * 2). change 576 with (288 * 2).
    rewrite !Ec. by rewrite !Z.div_mul by done. }
  rewrite !E. clear E. set (b := existsb _ _). replace (existsb _ _) with b by done. destruct b; unfold with_flags, double_height;
    cbn [clock hdisplay hsync_start hsync_end htotal hskew vdisplay vsync_start vsync_end vtotal vscan flags crtc
      width_mm height_mm type expose_to_userspace name status picture_aspect_ratio];
    rewrite ?Hodd, ?Hx2 by done; f_equal; lia.
Qed.

Lemma misc_bits t x : x = b2z (t_interlaced t) * 128 + 24 + b2z (t_vpositive t) * 4 + b2z (t_hpositive t) * 2 ->
  tst x DRM_EDID_PT_INTERLACED = t_interlaced t /\ tst x DRM_EDID_PT_STEREO = false
  /\ tst x DRM_EDID_PT_HSYNC_POSITIVE = t_hpositive t /\ tst x DRM_EDID_PT_VSYNC_POSITIVE = t_vpositive t.
Proof. intros ->. by destruct (t_interlaced t), (t_vpositive t), (t_hpositive t). Qed.

Lemma rd_range_holds m p n l : rd_range m p n = Some l -> holds m p l.
Proof.
  unfold rd_range. intros H. destruct (Z.leb_spec 0 p), (Z.leb_spec 0 n), (Z.leb_spec (p + n) (blen m)); try done.
  cbn [andb] in H. injection H as <-. unfold blen in *.
  exists (take (Z.to_nat p) m), (drop (Z.to_nat n) (drop (Z.to_nat p) m)).
  rewrite !take_drop. split; [done|]. unfold blen. rewrite length_take. lia.
Qed.

Lemma read_timing_at m p x y x0 x1 x2 x3 x4 x5 x6 x7 x8 x9 x10 x11 x12 x13 x14 x15 :
  rd_range m p 18 = Some [x; y; x0; x1; x2; x3; x4; x5; x6; x7; x8; x9; x10; x11; x12; x13; x14; x15] ->
  read_timing m p = Some (Z.lor x (Z.shiftl y 8), PixelTiming x0 x1 x2 x3 x4 x5 x6 x7 x8 x9 x10 x11 x12 x13 x14 x15).
Proof.
  intros H%rd_range_holds. apply holds_rd in H as [Ex H]. apply holds_rd in H as [Ey H]. apply holds_range in H.
  unfold read_timing, rd_le16. rewrite Ex, Ey. cbn [mbind option_bind]. replace (p + 2) with (p + 1 + 1) by lia.
  change 16 with (blen [x0; x1; x2; x3; x4; x5; x6; x7; x8; x9; x10; x11; x12; x13; x14; x15]). by rewrite H.
Qed.

Lemma detailed_encoded de p t : timing_ok t -> rd_range (de_edid de) p 18 = Some (encode t) ->
  drm_mode_detailed true 0 de p = Some (Some (mode_of t)).
Proof.
  intros [Hk Hha Hva Hhb Hvb [Hho Hhw] [Hvo Hvw] [Hw Hh]] Hr. apply read_timing_at in Hr.
  unfold drm_mode_detailed. rewrite Hr. cbn [mbind option_bind]. clear Hr.
  cbn [hactive_lo hblank_lo hactive_hblank_hi vactive_lo vblank_lo vactive_vblank_hi hsync_offset_lo hsync_pulse_width_lo
    vsync_offset_pulse_width_lo hsync_vsync_offset_pulse_width_hi misc].
  rewrite !high_nibble, !low_nibble, rd_le16_bytes by lia.
  rewrite sync_a, sync_b, sync_c, sync_d by lia. cbv zeta.
  destruct (Z.ltb_spec (t_hactive t) 64); [lia|]. destruct (Z.ltb_spec (t_vactive t) 64); [lia|]. cbn [orb].
  destruct (misc_bits t _ eq_refl) as (Hil & Hst & Hhp & Hvp). rewrite Hst, Hhp, Hvp.
  destruct (Z.eqb_spec (t_hwidth t) 0); [lia|]. destruct (Z.eqb_spec (t_vwidth t) 0); [lia|]. cbn [orb negb].
  change (drm_edid_has_internal_quirk 0 _) with false. cbv iota. small.
  destruct (Z.ltb_spec (t_hactive t + t_hblank t) (t_hactive t + t_hoffset t + t_hwidth t)); [lia|].
  destruct (Z.ltb_spec (t_vactive t + t_vblank t) (t_vactive t + t_voffset t + t_vwidth t)); [lia|].
  rewrite (interlace_spec t) by (done || lia). cbv zeta. unfold set_size, with_flags.
  change (drm_edid_has_internal_quirk 0 _) with false. cbv iota. cbn [mbind option_bind].
  cbn [width_mm_lo height_mm_lo width_height_mm_hi flags].
  assert (Ew : Z.lor (t_width t mod 256) (Z.shiftl (Z.land (t_width t / 256 * 16 + t_height t / 256) 240) 4) = t_width t)
    by (rewrite Z.lor_comm; by apply high_nibble).
  assert (Eh : Z.lor (t_height t mod 256) (Z.shiftl (Z.land (t_width t / 256 * 16 + t_height t / 256) 15) 8) = t_height t)
    by (rewrite Z.lor_comm; by apply low_nibble).
  rewrite Ew, Eh. done.
Qed.

(** ** Any bytes make a mode or none *)

(** The sync pulses end inside of the totals. *)
Definition pulses_inside (m : drm_display_mode) : Prop := hsync_end m <= htotal m /\ vsync_end m <= vtotal m.

Lemma cvt_reduced_any alloc h v : 64 <= h < 4096 -> 64 <= v < 4096 ->
  sat (drm_cvt_mode alloc h v 60 true false false) (fun r => forall m, r = Some m -> pulses_inside m).
Proof.
  intros Hh Hv. unfold drm_cvt_mode. cbv [CVT_H_GRANULARITY].
  destruct (Z.eqb_spec h 0); [lia|]. destruct (Z.eqb_spec v 0); [lia|]. cbn [orb].
  destruct alloc; cbn [negb]; [|by cbn]. change (60 =? 0) with false. cbv iota zeta.
  rewrite Z.rem_mod_nonneg by lia. pose proof (Z.mod_pos_bound h 8 ltac:(lia)). rewrite (s32_small (h - _)) by (apply is_s32_iff; lia).
  set (w := h - h mod 8) in *. assert (56 < w < 4096) by lia. clearbody w. clear H.
  change (2 * 0) with 0. rewrite !Z.add_0_r. pose proof (cvt_vsync_bounds h v) as Hvs. set (vsync := cvt_vsync h v) in *. clearbody vsync.
  change (u32 60) with 60. small. unfold cvt_reduced.
  cbv [HV_FACTOR CVT_RB_MIN_VBLANK CVT_RB_VFPORCH CVT_MIN_V_BPORCH CVT_RB_H_BLANK CVT_RB_H_SYNC]. small.
  rewrite udiv_pos by lia. cbn [mbind option_bind].
  assert (Hp : 3000 <= (1000 * 1000000 - 460 * 1000 * 60) / (v * 60) <= 260000) by (apply div_between; lia).
  set (hp := _ / (v * 60)) in *. clearbody hp. rewrite udiv_pos by lia. cbn [mbind option_bind].
  assert (Hbp : 0 <= 460 * 1000 / hp <= 160) by (apply div_between; lia). set (bp := 460 * 1000 / hp) in *. clearbody bp.
  change (160 / 2) with 80. small. cbn [t_htotal t_hperiod t_vtotal t_hsync_start t_hsync_end t_vsync_start t_vsync_end].
  unfold cvt_clock. rewrite udiv_pos by lia. cbn [mbind option_bind sat]. intros m [= <-]. unfold pulses_inside, drm_mode_set_name.
  cbn. destruct (Z.ltb_spec (bp + 1) (3 + vsync + 6)); small; lia.
Qed.

Lemma twelve_bits a b : 0 <= a < 256 -> 0 <= b < 256 ->
  0 <= Z.lor (Z.shiftl (Z.land a 0xf0) 4) b < 4096 /\ 0 <= Z.lor (Z.shiftl (Z.land a 0xf) 8) b < 4096.
Proof. intros Ha Hb. split; fields; div_lia. Qed.

Lemma ten_bits a b : 0 <= a < 256 -> 0 <= b < 256 ->
  0 <= Z.lor (Z.shiftl (Z.land a 0xc0) 2) b < 1024 /\ 0 <= Z.lor (Z.shiftl (Z.land a 0x30) 4) b < 1024.
Proof. intros Ha Hb. split; fields; div_lia. Qed.

Lemma six_bits a b : 0 <= a < 256 -> 0 <= b < 256 ->
  0 <= Z.lor (Z.shiftl (Z.land a 0xc) 2) (Z.shiftr b 4) < 64 /\ 0 <= Z.lor (Z.shiftl (Z.land a 0x3) 4) (Z.land b 0xf) < 64.
Proof. intros Ha Hb. split; fields; div_lia. Qed.

Lemma interlace_inside m pt : is_u 14 (vsync_end m) -> is_u 14 (vtotal m) -> pulses_inside m ->
  pulses_inside (drm_mode_do_interlace_quirk m pt).
Proof.
  intros He Ht [Hh Hv]. unfold drm_mode_do_interlace_quirk. destruct (negb _); [done|]. fold double_step. rewrite double_once.
  2:{ apply heights_distinct. }
  destruct (existsb _ _); [|done]. unfold is_u in *. change (2 ^ 14) with 16384 in *.
  split; [done|]. unfold with_flags, double_height. cbn [vsync_end vtotal].
  rewrite odd_total, u16_small by (unfold is_u; lia). lia.
Qed.

Lemma set_size_inside quirks de pt m : 23 <= blen (de_edid de) -> pulses_inside m ->
  sat (set_size quirks de pt m) pulses_inside.
Proof.
  intros Hl Hm. unfold set_size. destruct (drm_edid_has_internal_quirk quirks EDID_QUIRK_DETAILED_IN_CM);
    (destruct (drm_edid_has_internal_quirk quirks EDID_QUIRK_DETAILED_USE_MAXIMUM_SIZE); [|exact Hm]);
    (destruct (proj2 (rd_Some (de_edid de) 21) ltac:(lia)) as [x ->]); 
    (destruct (proj2 (rd_Some (de_edid de) 22) ltac:(lia)) as [y ->]); exact Hm.
Qed.

Lemma bytes_of_range m p n l : Forall is_byte m -> rd_range m p n = Some l -> Forall is_byte l.
Proof.
  intros Hm (pre & post & -> & _)%rd_range_holds. by apply Forall_app in Hm as [_ [Hl _]%Forall_app].
Qed.

(** A field of a timing becomes a number of so many bits. *)
Ltac field t pf := let H := fresh "Hf" in let x := fresh "f" in pose proof pf as H; set (x := t) in *; clearbody x.
Ltac abstract_fields :=
  repeat match goal with
  | |- context [Z.lor (Z.shiftl (Z.land ?a 240) 4) ?b] => field (Z.lor (Z.shiftl (Z.land a 240) 4) b) (proj1 (twelve_bits a b ltac:(lia) ltac:(lia)))
  | |- context [Z.lor (Z.shiftl (Z.land ?a 15) 8) ?b] => field (Z.lor (Z.shiftl (Z.land a 15) 8) b) (proj2 (twelve_bits a b ltac:(lia) ltac:(lia)))
  | |- context [Z.lor (Z.shiftl (Z.land ?a 192) 2) ?b] => field (Z.lor (Z.shiftl (Z.land a 192) 2) b) (proj1 (ten_bits a b ltac:(lia) ltac:(lia)))
  | |- context [Z.lor (Z.shiftl (Z.land ?a 48) 4) ?b] => field (Z.lor (Z.shiftl (Z.land a 48) 4) b) (proj2 (ten_bits a b ltac:(lia) ltac:(lia)))
  | |- context [Z.lor (Z.shiftl (Z.land ?a 12) 2) (Z.shiftr ?b 4)] => field (Z.lor (Z.shiftl (Z.land a 12) 2) (Z.shiftr b 4)) (proj1 (six_bits a b ltac:(lia) ltac:(lia)))
  | |- context [Z.lor (Z.shiftl (Z.land ?a 3) 4) (Z.land ?b 15)] => field (Z.lor (Z.shiftl (Z.land a 3) 4) (Z.land b 15)) (proj2 (six_bits a b ltac:(lia) ltac:(lia)))
  end.

Lemma eighteen_bytes l : blen l = 18 -> Forall is_byte l ->
  exists x y x0 x1 x2 x3 x4 x5 x6 x7 x8 x9 x10 x11 x12 x13 x14 x15,
    l = [x; y; x0; x1; x2; x3; x4; x5; x6; x7; x8; x9; x10; x11; x12; x13; x14; x15]
    /\ is_byte x0 /\ is_byte x1 /\ is_byte x2 /\ is_byte x3 /\ is_byte x4 /\ is_byte x5 /\ is_byte x6 /\ is_byte x7
    /\ is_byte x8 /\ is_byte x9.
Proof.
  unfold blen. intros Hl Hb. do 18 (destruct l as [|? l]; [done|]). destruct l; [|cbn in Hl; lia].
  rewrite !Forall_cons in Hb. destruct_and! Hb. do 18 eexists. split; [reflexivity|].
  repeat (split; [assumption|]). assumption.
Qed.

Lemma detailed_any alloc quirks de p : Forall is_byte (de_edid de) -> 23 <= blen (de_edid de) ->
  0 <= p -> p + 18 <= blen (de_edid de) ->
  sat (drm_mode_detailed alloc quirks de p) (fun r => forall m, r = Some m -> pulses_inside m).
Proof.
  intros Hm Hl Hp0 Hp. pose proof (rd_range_Some (de_edid de) p 18 Hp0 ltac:(lia) Hp) as Hr.
  pose proof (rd_range_length _ _ _ _ Hr) as Hlen. pose proof (bytes_of_range _ _ _ _ Hm Hr) as Hb.
  destruct (eighteen_bytes _ Hlen Hb) as (x & y & x0 & x1 & x2 & x3 & x4 & x5 & x6 & x7 & x8 & x9 & x10 & x11 & x12 & x13 & x14 & x15
    & E & ?). clear Hb Hlen. rewrite E in Hr. clear E. destruct_and!. unfold is_byte in *.
  unfold drm_mode_detailed. rewrite (read_timing_at _ _ _ _ _ _ _ _ _ _ _ _ _ _ _ _ _ _ _ _ Hr). clear Hr. cbn [mbind option_bind].
  cbn [hactive_lo hblank_lo hactive_hblank_hi vactive_lo vblank_lo vactive_vblank_hi hsync_offset_lo hsync_pulse_width_lo
    vsync_offset_pulse_width_lo hsync_vsync_offset_pulse_width_hi misc].
  abstract_fields. cbv zeta.
  destruct (Z.ltb_spec f 64); [done|]. destruct (Z.ltb_spec f0 64); [done|]. cbn [orb].
  destruct (tst x15 DRM_EDID_PT_STEREO); [done|]. destruct (_ || _); [done|].
  destruct (drm_edid_has_internal_quirk quirks EDID_QUIRK_FORCE_REDUCED_BLANKING).
  { eapply sat_bind; [apply cvt_reduced_any; lia|]. intros [m|] Hin; [|done].
    eapply sat_bind; [apply (set_size_inside _ _ _ m Hl); by apply Hin|]. intros m' Hm'. cbn. by intros ? [= <-]. }
  destruct alloc; cbn [negb]; [|done]. small.
  eapply sat_bind; [apply (set_size_inside _ _ _ _ Hl)|intros m' Hm'; cbn; by intros ? [= <-]].
  change (pulses_inside (with_flags ?a ?m)) with (pulses_inside m). apply interlace_inside; cbn [vsync_end vtotal].
  - unfold is_u. change (2 ^ 14) with 16384. repeat case_match; lia.
  - unfold is_u. change (2 ^ 14) with 16384. lia.
  - unfold pulses_inside. cbn [hsync_end htotal vsync_end vtotal]. split; case_match; lia.
Qed.

(** ** Descriptors are read inside of the EDID *)

Section inside.
Context (m : list Z) (p : Z) (Hp0 : 0 <= p) (Hp : p + 18 <= blen m).

Lemma rd_inside i : 0 <= i < 18 -> exists x, rd m (p + i) = Some x.
Proof. intros Hi. apply (proj2 (rd_Some m (p + i))). lia. Qed.

Lemma rd_le16_inside i : 0 <= i < 17 -> exists x, rd_le16 m (p + i) = Some x.
Proof.
  intros Hi. unfold rd_le16. destruct (rd_inside i ltac:(lia)) as [x ->]. cbn [mbind option_bind].
  rewrite <- Z.add_assoc. destruct (rd_inside (i + 1) ltac:(lia)) as [y ->]. by eexists.
Qed.

Lemma descriptor_inside type : exists r, is_display_descriptor m p type = Some r.
Proof.
  destruct (rd_le16_inside 0 ltac:(lia)) as [x Ex]. rewrite Z.add_0_r in Ex. unfold is_display_descriptor. rewrite Ex. cbn [mbind option_bind].
  destruct (negb (x =? 0)); [by eexists|]. destruct (rd_inside 2 ltac:(lia)) as [y ->]. cbn [mbind option_bind].
  destruct (negb (y =? 0)); [by eexists|]. destruct (rd_inside 3 ltac:(lia)) as [z ->]. by eexists.
Qed.

Lemma level_inside res : is_Some (get_timing_level m res p).
Proof.
  unfold get_timing_level. destruct (descriptor_inside EDID_DETAIL_MONITOR_RANGE) as [[] ->]; cbn; [|done].
  by destruct (rd_inside 10 ltac:(lia)) as [x ->].
Qed.

Lemma rb_inside res : is_Some (is_rb m res p).
Proof.
  unfold is_rb. destruct (descriptor_inside EDID_DETAIL_MONITOR_RANGE) as [[] ->]; cbn; [|done].
  destruct (rd_inside 10 ltac:(lia)) as [x ->]. cbn [mbind option_bind]. destruct (x =? _); [|done].
  by destruct (rd_inside 15 ltac:(lia)) as [y ->].
Qed.

Lemma gtf2_inside res : sat (find_gtf2 m res p) (fun r => r = res \/ r = Some p).
Proof.
  unfold find_gtf2. destruct (descriptor_inside EDID_DETAIL_MONITOR_RANGE) as [[] ->]; cbn; [|by left].
  destruct (rd_inside 10 ltac:(lia)) as [x ->]. cbn. destruct (x =? _); [by right|by left].
Qed.
End inside.

(** Every question to the monitor range has an answer. *)
Definition ranges_answered (de : drm_edid) : Prop :=
  is_Some (drm_monitor_supports_rb de) /\ is_Some (standard_timing_level de) /\ is_Some (drm_gtf2_hbreak de)
  /\ is_Some (drm_gtf2_2c de) /\ is_Some (drm_gtf2_m de) /\ is_Some (drm_gtf2_k de) /\ is_Some (drm_gtf2_2j de).

Lemma sat_is_Some {A} (m : option A) (P : A -> Prop) : sat m P -> is_Some m.
Proof. intros (a & -> & _)%sat_exists. by eexists. Qed.

Lemma ranges_inside de ps : 128 <= blen (de_edid de) -> Forall (fun p => 4 <= p /\ p + 18 <= blen (de_edid de)) ps ->
  (forall T (cb : T -> Z -> option T) c, drm_for_each_detailed_block cb (Some de) c = calls cb ps c) -> ranges_answered de.
Proof.
  intros Hl Hps Hw. assert (Hin : forall p, p ∈ ps -> 0 <= p /\ p + 18 <= blen (de_edid de)).
  { intros p Hp. rewrite list.Forall_forall in Hps. specialize (Hps p Hp). lia. }
  assert (Hrev : is_Some (edid_revision (de_edid de))) by (apply rd_Some; lia). destruct Hrev as [rev Erev].
  assert (Hg : forall member, (forall p, p ∈ ps -> is_Some (member p)) -> is_Some (gtf2_member de member)).
  { intros member Hm. unfold gtf2_member. rewrite Hw. eapply sat_is_Some.
    eapply (sat_bind _ _ (fun r => forall p, r = Some p -> p ∈ ps) (fun _ => True)).
    - apply (calls_inv _ (fun r => forall p, r = Some p -> p ∈ ps)); [done|]. intros c p Hc Hp. destruct (Hin p Hp).
      eapply sat_mono; [by apply gtf2_inside|]. intros r [->| ->]; [done|]. by intros ? [= <-].
    - intros [p|] Hr; [|done]. by destruct (Hm p (Hr p eq_refl)) as [x ->]. }
  assert (Hrd : forall p i, p ∈ ps -> 0 <= i < 18 -> exists x, rd (de_edid de) (p + i) = Some x).
  { intros p i Hp Hi. destruct (Hin p Hp). by apply rd_inside. }
  assert (Hb : is_Some (drm_gtf2_hbreak de)).
  { apply Hg. intros p Hp. destruct (Hrd p 12 Hp ltac:(lia)) as [x ->]. by eexists. }
  unfold ranges_answered, drm_monitor_supports_rb, standard_timing_level. rewrite Erev. cbn [mbind option_bind].
  split_and!; try done; [| | |apply Hg; intros p Hp; destruct (Hin p Hp); by apply rd_le16_inside|..].
  - destruct (4 <=? rev).
    + rewrite Hw. eapply sat_is_Some. apply (calls_inv _ (fun _ => True)); [done|]. intros c p _ Hp. destruct (Hin p Hp).
      by destruct (rb_inside (de_edid de) p ltac:(lia) ltac:(lia) c) as [r ->].
    + unfold drm_edid_is_digital. destruct (proj2 (rd_Some (de_edid de) 20) ltac:(lia)) as [x ->]. by eexists.
  - destruct (4 <=? rev).
    + rewrite Hw. eapply sat_is_Some. apply (calls_inv _ (fun _ => True)); [done|]. intros c p _ Hp. destruct (Hin p Hp).
      by destruct (level_inside (de_edid de) p ltac:(lia) ltac:(lia) c) as [r ->].
    + destruct (3 <=? rev); [|by eexists]. destruct Hb as [h ->]. by eexists.
  - apply Hg. intros p Hp. destruct (Hrd p 13 Hp ltac:(lia)) as [x ->]. by eexists.
  - apply Hg. intros p Hp. destruct (Hrd p 16 Hp ltac:(lia)) as [x ->]. by eexists.
  - apply Hg. intros p Hp. destruct (Hrd p 17 Hp ltac:(lia)) as [x ->]. by eexists.
Qed.

(** ** The timings of a display *)

(** C40. The detailed timings of an EDID that was read are those of its base block and of
    the CTA and VTB extensions that the container counts, in this order, and none reaches
    out of the EDID.  Whatever its bytes are, a descriptor makes no mode or one whose sync
    pulses end in the totals; a timing laid out as in the standard makes the mode that it
    describes, with the frames of interlaced CTA formats put together.  The monitor range
    is found without leaving the EDID either. *)
Theorem detailed_timings_read e size : sound_edid e size ->
  let de := DrmEdid size e in
  exists bs k, e = concat bs /\ drm_edid_block_count de = Some (Z.of_nat k) /\
    let ps := descriptors (take k bs) in
    (forall T (cb : T -> Z -> option T) c, drm_for_each_detailed_block cb (Some de) c = calls cb ps c)
    /\ Forall (fun p => 4 <= p /\ p + 18 <= size) ps
    /\ (forall p alloc quirks, p ∈ ps ->
        sat (drm_mode_detailed alloc quirks de p) (fun r => forall m, r = Some m -> pulses_inside m))
    /\ (forall p t, timing_ok t -> rd_range e p 18 = Some (encode t) ->
        drm_mode_detailed true 0 de p = Some (Some (mode_of t)))
    /\ ranges_answered de.
Proof.
  intros Hse de. destruct (walk_sound e size Hse) as (bs & k & -> & -> & Hb & Hk & Hc & Hw).
  pose proof (whole_blen _ (blocks_whole _ Hb)) as Hl. pose proof (descriptors_in bs k Hb Hk) as Hin.
  assert (Hbytes : Forall is_byte (concat bs)) by (clear -Hb; induction Hb as [|b bs [_ Hbb] _ IH]; [constructor|by apply Forall_app]).
  exists bs, k. split; [done|]. split; [done|]. cbv zeta. split_and!; [exact Hw|exact Hin| | |].
  - intros p alloc quirks Hp. rewrite list.Forall_forall in Hin. specialize (Hin p Hp).
    apply detailed_any; cbn [de_edid de]; [done|lia..].
  - intros p t Ht Hr. by apply detailed_encoded.
  - apply (ranges_inside de (descriptors (take k bs))); [cbn [de_edid de]; lia| |done]. cbn [de_edid de]. by rewrite Hl.
Qed.

(** A sample with a progressive timing in the base block and an interlaced one in the CTA
    extension. *)
Definition sample_progressive : timing := Timing 14850 1920 280 88 44 1080 45 4 5 510 290 false true true.
Definition sample_interlaced : timing := Timing 7425 1920 280 88 44 540 22 2 5 510 290 true true true.
Definition sample_display : list (list Z) :=
  [seal (edid_header ++ replicate 10 0 ++ [1; 4] ++ replicate 34 0 ++ encode sample_progressive ++ replicate 54 0 ++ [1]);
   seal ([CEA_EXT; 3; 7; 0; 0xe2; CTA_EXT_DB_HF_EEODB; 1] ++ encode sample_interlaced ++ replicate 102 0)].

Lemma sample_sound : sound_edid (concat sample_display) 256.
Proof.
  exists sample_display, 1. split; [done|]. split; [done|]. split.
  { unfold blocks, sample_display. rewrite !Forall_cons.
    split_and!; [..|apply Forall_nil_2]; (split; [reflexivity|apply bytes_checked; vm_compute; reflexivity]). }
  split; [cbn; lia|]. split.
  { intros [|[|i]] b [= <-]; [split_and!; vm_compute; reflexivity|left; vm_compute; reflexivity]. }
  split; [reflexivity|]. cbn [length sample_display]. split; [lia|]. split; [lia|]. left. lia.
Qed.

Lemma detailed_timings_read_witness :
  let de := DrmEdid 256 (concat sample_display) in
  sound_edid (de_edid de) 256
  /\ drm_mode_detailed true 0 de 54 = Some (Some (mode_of sample_progressive))
  /\ drm_mode_detailed true 0 de 135 = Some (Some (mode_of sample_interlaced))
  /\ (exists ps, Forall (fun p => 4 <= p /\ p + 18 <= 256) ps
      /\ forall T (cb : T -> Z -> option T) c, drm_for_each_detailed_block cb (Some de) c = calls cb ps c)
  /\ vtotal (mode_of sample_interlaced) = 1125.
Proof.
  intros de. split; [exact sample_sound|].
  destruct (detailed_timings_read (concat sample_display) 256 sample_sound) as (bs & k & _ & _ & Hw & Hin & _ & Ht & _).
  split; [apply Ht; [constructor; cbn; lia|vm_compute; reflexivity]|].
  split; [apply Ht; [constructor; cbn; lia|vm_compute; reflexivity]|].
  split; [exists (descriptors (take k bs)); exact (conj Hin Hw)|vm_compute; reflexivity].
Defined.
