(* ===== verification/VmaManager.v ===== *)
(** * The fake offsets of mappings

    drm_vma_manager.c and include/drm/drm_vma_manager.h: a range allocator hands each
    object a range of page offsets for mmap, its interval tree finds the object at an
    offset, and each object keeps a tree of the open files that may map it, with a count
    per file.  A drm_vma_offset_node is an identifier: its vm_node is the node of the
    allocator with that identifier, the rest is in [vma_nodes].  An open file is the
    number of its address, which orders the trees.  kmalloc_obj() is the argument [new] of
    the operation that calls it, the identifier of the structure or none.  Locks are left
    out. *)

From stdpp Require Import base numbers list option gmap sorting.
From Stdlib Require Import ZArith Lia Bool.
From S2P Require Import Prelude RbTree DrmMm DrmMmInv DrmMmOps DrmMmSearch DrmMmSpec.
#[local] Open Scope Z_scope.

(** ** The structures *)

Record drm_vma_offset_file := VmaFile {
  vm_tag : Z;          (* struct drm_file * *)
  vm_count : Z         (* unsigned long *)
}.

#[export] Instance drm_vma_offset_file_inhabited : Inhabited drm_vma_offset_file :=
  populate (VmaFile 0 0).

(** The tree and the structures that are linked in it. *)
Record drm_vma_offset_node := VmaNode {
  vm_files : tree;
  entries : gmap Z drm_vma_offset_file
}.

#[export] Instance drm_vma_offset_node_inhabited : Inhabited drm_vma_offset_node :=
  populate (VmaNode Leaf ∅).

Record drm_vma_offset_manager := Manager {
  vm_addr_space_mm : drm_mm;
  vma_nodes : gmap Z drm_vma_offset_node
}.

Definition set_mm (m : drm_mm) (v : drm_vma_offset_manager) : drm_vma_offset_manager :=
  Manager m (vma_nodes v).
Definition set_node (i : Z) (n : drm_vma_offset_node) (v : drm_vma_offset_manager)
    : drm_vma_offset_manager :=
  Manager (vm_addr_space_mm v) (<[i := n]> (vma_nodes v)).
Definition vma_node (v : drm_vma_offset_manager) (i : Z) : drm_vma_offset_node :=
  vma_nodes v !!! i.
Definition vm_node (v : drm_vma_offset_manager) (i : Z) : drm_mm_node :=
  node (vm_addr_space_mm v) i.

(** memset() of a vm_node, the augmented members with the others. *)
Definition clear_vm_node (i : Z) (m : drm_mm) : drm_mm :=
  let m := upd (fun _ => inhabitant) i m in
  let m := set_interval (<[i := 0]> (subtree_last m), interval_tree m) m in
  set_by_addr (<[i := 0]> (subtree_max_hole m), holes_addr m) m.

Definition PAGE_SHIFT := 12.
Definition PAGE_SIZE := 4096.
Definition DRM_FILE_PAGE_OFFSET_START := Z.shiftr 0xFFFFFFFF PAGE_SHIFT + 1.
Definition DRM_FILE_PAGE_OFFSET_SIZE := Z.shiftr 0xFFFFFFFF PAGE_SHIFT * 256.

(** ** The open files of a node *)

(** The walk of drm_vma_node_revoke() and drm_vma_node_is_allowed(): the link it ends at. *)
Fixpoint find_file (e : gmap Z drm_vma_offset_file) (tag : Z) (iter : tree) : option Z :=
  match iter with
  | Leaf => None
  | Node l x r =>
    if tag =? vm_tag (e !!! x) then Some x
    else if vm_tag (e !!! x) <? tag then find_file e tag r
    else find_file e tag l
  end.

Section nodes.
Context `{RbTree}.

(** The walk notes the parent and the link for a new entry, [link] repeats it. *)
Definition vma_node_allow (tag : Z) (ref_counted : bool) (new : option Z) (n : drm_vma_offset_node)
    : Z * drm_vma_offset_node :=
  match find_file (entries n) tag (vm_files n) with
  | Some x =>
    let entry := entries n !!! x in
    (0, if ref_counted
        then VmaNode (vm_files n) (<[x := VmaFile (vm_tag entry) (u64 (vm_count entry + 1))]> (entries n))
        else n)
  | None =>
    match new with
    | None => (- ENOMEM, n)
    | Some x =>
      let goes_left y := negb (vm_tag (entries n !!! y) <? tag) in
      (0, VmaNode (rb_insert_color x (link goes_left x (vm_files n)))
            (<[x := VmaFile tag 1]> (entries n)))
    end
  end.

Definition drm_vma_node_allow (i tag : Z) (new : option Z) (v : drm_vma_offset_manager)
    : Z * drm_vma_offset_manager :=
  let '(ret, n) := vma_node_allow tag true new (vma_node v i) in (ret, set_node i n v).
Definition drm_vma_node_allow_once (i tag : Z) (new : option Z) (v : drm_vma_offset_manager)
    : Z * drm_vma_offset_manager :=
  let '(ret, n) := vma_node_allow tag false new (vma_node v i) in (ret, set_node i n v).

Definition vma_node_revoke (tag : Z) (n : drm_vma_offset_node) : drm_vma_offset_node :=
  match find_file (entries n) tag (vm_files n) with
  | None => n
  | Some x =>
    let entry := entries n !!! x in
    let count := u64 (vm_count entry - 1) in
    if count =? 0 then VmaNode (rb_erase x (vm_files n)) (delete x (entries n))
    else VmaNode (vm_files n) (<[x := VmaFile (vm_tag entry) count]> (entries n))
  end.

Definition drm_vma_node_revoke (i tag : Z) (v : drm_vma_offset_manager) : drm_vma_offset_manager :=
  set_node i (vma_node_revoke tag (vma_node v i)) v.

Definition drm_vma_node_is_allowed (v : drm_vma_offset_manager) (i tag : Z) : bool :=
  match find_file (entries (vma_node v i)) tag (vm_files (vma_node v i)) with
  | Some _ => true | None => false
  end.

Definition drm_vma_node_verify_access (v : drm_vma_offset_manager) (i tag : Z) : Z :=
  if drm_vma_node_is_allowed v i tag then 0 else - EACCES.

(** ** The offsets *)

Definition drm_vma_offset_manager_init (page_offset size : Z) : drm_vma_offset_manager :=
  Manager (drm_mm_init page_offset size) ∅.

(** The structure is cleared and its tree emptied. *)
Definition drm_vma_node_reset (i : Z) (v : drm_vma_offset_manager) : drm_vma_offset_manager :=
  set_node i (VmaNode Leaf ∅) (set_mm (clear_vm_node i (vm_addr_space_mm v)) v).

Fixpoint lookup_walk (m : drm_mm) (start_ : Z) (iter : tree) (best : option Z) : option Z :=
  match iter with
  | Leaf => best
  | Node l x r =>
    let offset := start (node m x) in
    if offset <=? start_ then
      if start_ =? offset then Some x else lookup_walk m start_ r (Some x)
    else lookup_walk m start_ l best
  end.

Definition drm_vma_offset_lookup_locked (v : drm_vma_offset_manager) (start_ pages : Z) : option Z :=
  let m := vm_addr_space_mm v in
  best ← lookup_walk m start_ (rb_root (interval_tree m)) None;
  let offset := u64 (start (node m best) + size (node m best)) in
  if offset <? u64 (start_ + pages) then None else Some best.

Definition drm_vma_offset_exact_lookup_locked (v : drm_vma_offset_manager) (start_ pages : Z)
    : option Z :=
  i ← drm_vma_offset_lookup_locked v start_ pages;
  if start (vm_node v i) =? start_ then Some i else None.

(** The manager sets no color callback. *)
Definition drm_vma_offset_add (i pages : Z) (v : drm_vma_offset_manager)
    : option (Z * drm_vma_offset_manager) :=
  if drm_mm_node_allocated (vm_addr_space_mm v) i then Some (0, v)
  else '(ret, m) ← drm_mm_insert_node None i pages (vm_addr_space_mm v); Some (ret, set_mm m v).

Definition drm_vma_offset_remove (i : Z) (v : drm_vma_offset_manager) : drm_vma_offset_manager :=
  if drm_mm_node_allocated (vm_addr_space_mm v) i
  then set_mm (clear_vm_node i (drm_mm_remove_node i (vm_addr_space_mm v))) v
  else v.

Definition drm_vma_node_start (v : drm_vma_offset_manager) (i : Z) : Z := start (vm_node v i).
Definition drm_vma_node_size (v : drm_vma_offset_manager) (i : Z) : Z := size (vm_node v i).
Definition drm_vma_node_offset_addr (v : drm_vma_offset_manager) (i : Z) : Z :=
  u64 (Z.shiftl (start (vm_node v i)) PAGE_SHIFT).

(** The part of the file that unmap_mapping_range() is called with, if it is called. *)
Definition drm_vma_node_unmap (v : drm_vma_offset_manager) (i : Z) : option (Z * Z) :=
  if drm_mm_node_allocated (vm_addr_space_mm v) i
  then Some (drm_vma_node_offset_addr v i, u64 (Z.shiftl (drm_vma_node_size v i) PAGE_SHIFT))
  else None.

(** Whether drm_mm_takedown() finds the allocator clean; otherwise it warns. *)
Definition drm_vma_offset_manager_destroy (v : drm_vma_offset_manager) : bool :=
  drm_mm_clean (vm_addr_space_mm v).
End nodes.

(** ** The files a node grants access to *)

(** The abstract value: a count per file. *)
Definition grants (n : drm_vma_offset_node) : gmap Z Z :=
  list_to_map ((fun x => (vm_tag (entries n !!! x), vm_count (entries n !!! x))) <$> inorder (vm_files n)).

(** The tree is sorted by strictly increasing tags, and it links every entry there is. *)
Record files_ok (n : drm_vma_offset_node) : Prop := {
  fo_sorted : StronglySorted (fun x y => vm_tag (entries n !!! x) < vm_tag (entries n !!! y))
                (inorder (vm_files n));
  fo_dom : forall x, is_Some (entries n !! x) <-> x ∈ inorder (vm_files n)
}.

Lemma StronglySorted_lt_NoDup (f : Z -> Z) l :
  StronglySorted (fun x y => f x < f y) l -> NoDup (f <$> l).
Proof.
  induction 1 as [|x l Hs IH Hx]; cbn; constructor; [|done].
  intros (y & Ey & Hy)%list_elem_of_fmap. rewrite Forall_forall in Hx. specialize (Hx y Hy). lia.
Qed.

Lemma NoDup_fmap_inv {A B} (f : A -> B) l : NoDup (f <$> l) -> NoDup l.
Proof. apply NoDup_fmap_1. Qed.

Lemma files_nodup n : files_ok n -> NoDup (inorder (vm_files n)).
Proof. intros [Hs _]. eapply NoDup_fmap_inv, StronglySorted_lt_NoDup, Hs. Qed.

Lemma files_inj n x y : files_ok n -> x ∈ inorder (vm_files n) -> y ∈ inorder (vm_files n) ->
  vm_tag (entries n !!! x) = vm_tag (entries n !!! y) -> x = y.
Proof.
  intros [Hs _] Hx Hy E. apply list_elem_of_split in Hx as (a & b & Ex). rewrite Ex in Hs, Hy.
  apply StronglySorted_app in Hs as (Ha & _ & Hb). apply StronglySorted_cons in Hb as [Hb _].
  rewrite Forall_forall in Hb. apply elem_of_app in Hy as [Hy|[->|Hy]%elem_of_cons]; [|done|].
  - specialize (Ha y x Hy ltac:(by left)). lia.
  - specialize (Hb y Hy). lia.
Qed.

(** The walk finds the entry of the file. *)
Lemma find_file_spec e tag t :
  StronglySorted (fun x y => vm_tag (e !!! x) < vm_tag (e !!! y)) (inorder t) ->
  match find_file e tag t with
  | Some x => x ∈ inorder t /\ vm_tag (e !!! x) = tag
  | None => forall x, x ∈ inorder t -> vm_tag (e !!! x) <> tag
  end.
Proof.
  induction t as [|l IHl x r IHr]; cbn; intros Hs; [intros ? []%not_elem_of_nil|].
  apply StronglySorted_app in Hs as (Hlx & Hl & Hr). apply StronglySorted_cons in Hr as [Hx Hr].
  rewrite Forall_forall in Hx. specialize (IHl Hl). specialize (IHr Hr).
  destruct (Z.eqb_spec tag (vm_tag (e !!! x))) as [E|E]; [split; [set_solver|done]|].
  destruct (Z.ltb_spec (vm_tag (e !!! x)) tag).
  - destruct (find_file e tag r); [destruct IHr; split; [set_solver|done]|].
    intros y [Hy|[->|Hy]%elem_of_cons]%elem_of_app; [|lia|by apply IHr].
    specialize (Hlx y x Hy ltac:(by left)). lia.
  - destruct (find_file e tag l); [destruct IHl; split; [set_solver|done]|].
    intros y [Hy|[->|Hy]%elem_of_cons]%elem_of_app; [by apply IHl|lia|].
    specialize (Hx y Hy). lia.
Qed.

Lemma grants_lookup n tag c : files_ok n ->
  grants n !! tag = Some c <->
  exists x, x ∈ inorder (vm_files n) /\ vm_tag (entries n !!! x) = tag /\ vm_count (entries n !!! x) = c.
Proof.
  intros Ho. unfold grants. rewrite <- elem_of_list_to_map.
  - rewrite list_elem_of_fmap. split; [intros (x & [= -> ->] & Hx)|intros (x & Hx & <- & <-)]; eauto.
  - rewrite <- list_fmap_compose. eapply StronglySorted_lt_NoDup, fo_sorted, Ho.
Qed.

Lemma find_file_grants n tag : files_ok n ->
  match find_file (entries n) tag (vm_files n) with
  | Some x => x ∈ inorder (vm_files n) /\ vm_tag (entries n !!! x) = tag
              /\ grants n !! tag = Some (vm_count (entries n !!! x))
  | None => (forall x, x ∈ inorder (vm_files n) -> vm_tag (entries n !!! x) <> tag)
            /\ grants n !! tag = None
  end.
Proof.
  intros Ho. pose proof (find_file_spec (entries n) tag (vm_files n) (fo_sorted n Ho)) as Hf.
  destruct (find_file _ _ _) as [x|].
  - destruct Hf as [Hx Et]. split; [done|]. split; [done|]. apply (grants_lookup n tag _ Ho). eauto.
  - split; [done|]. destruct (grants n !! tag) as [c|] eqn:E; [|done]. exfalso.
    apply (grants_lookup n tag c Ho) in E as (x & Hx & Et & _). by apply (Hf x).
Qed.

(** Two nodes with the same entries in other trees, or other counts. *)
Lemma grants_ext n n' tag : files_ok n -> files_ok n' ->
  (forall c, (exists x, x ∈ inorder (vm_files n) /\ vm_tag (entries n !!! x) = tag
                        /\ vm_count (entries n !!! x) = c) <->
             (exists x, x ∈ inorder (vm_files n') /\ vm_tag (entries n' !!! x) = tag
                        /\ vm_count (entries n' !!! x) = c)) ->
  grants n' !! tag = grants n !! tag.
Proof.
  intros Ho Ho' Hx. apply option_eq. intros c. rewrite !grants_lookup by done. symmetry. apply Hx.
Qed.

Section files.
Context `{RbTree} `{!RbTreeLaws}.

(** A new count for an entry. *)
Lemma set_count_ok n x c tag : files_ok n -> x ∈ inorder (vm_files n) -> vm_tag (entries n !!! x) = tag ->
  let n' := VmaNode (vm_files n) (<[x := VmaFile (vm_tag (entries n !!! x)) c]> (entries n)) in
  files_ok n' /\ grants n' = <[tag := c]> (grants n).
Proof.
  intros Ho Hx Et n'.
  assert (Etag : forall y, vm_tag (entries n' !!! y) = vm_tag (entries n !!! y)).
  { intros y. cbn. destruct (decide (y = x)) as [->|Hy];
      [by rewrite lookup_total_insert_eq|by rewrite lookup_total_insert_ne]. }
  assert (Ho' : files_ok n').
  { split.
    - eapply StronglySorted_ext; [|exact (fo_sorted n Ho)]. intros y z _ _. by rewrite !Etag.
    - intros y. cbn. destruct (decide (y = x)) as [->|Hy].
      + rewrite lookup_insert_eq. split; [done|]. by eexists.
      + rewrite lookup_insert_ne by done. apply (fo_dom n Ho). }
  split; [done|]. apply map_eq. intros t. destruct (decide (t = tag)) as [->|Ht].
  - rewrite lookup_insert_eq. apply (grants_lookup n' tag c Ho'). exists x.
    split; [done|]. rewrite Etag. split; [done|]. cbn. by rewrite lookup_total_insert_eq.
  - rewrite lookup_insert_ne by done. apply grants_ext; [done..|]. intros k.
    split; intros (y & Hy & Ey & Ek); (assert (y <> x) by (intros ->; rewrite ?Etag in Ey; congruence)).
    + exists y. split; [done|]. rewrite Etag. split; [done|]. cbn. by rewrite lookup_total_insert_ne.
    + exists y. split; [done|]. rewrite Etag in Ey. split; [done|]. cbn in Ek.
      by rewrite lookup_total_insert_ne in Ek.
Qed.

(** A new entry. *)
Lemma link_file_ok n x tag : files_ok n -> entries n !! x = None ->
  (forall y, y ∈ inorder (vm_files n) -> vm_tag (entries n !!! y) <> tag) ->
  let n' := VmaNode (rb_insert_color x
                       (link (fun y => negb (vm_tag (entries n !!! y) <? tag)) x (vm_files n)))
              (<[x := VmaFile tag 1]> (entries n)) in
  files_ok n' /\ grants n' = <[tag := 1]> (grants n).
Proof.
  intros Ho Hn Hno n'. set (gl := fun y => negb (vm_tag (entries n !!! y) <? tag)) in *.
  assert (Hgl : forall y, gl y = true <-> tag <= vm_tag (entries n !!! y)).
  { intros y. unfold gl. by rewrite negb_true_iff, Z.ltb_ge. }
  destruct (monotone_split gl (inorder (vm_files n))) as (a & b & Ei & Ha & Hb).
  { eapply StronglySorted_ext; [|exact (fo_sorted n Ho)]. intros i j _ _. rewrite !Hgl. lia. }
  assert (Ei' : inorder (vm_files n') = a ++ x :: b).
  { cbn. rewrite insert_color_inorder. by apply link_inorder. }
  assert (Hx : x ∉ inorder (vm_files n)).
  { rewrite <- (fo_dom n Ho), Hn. by intros []. }
  assert (Ee : forall y, y <> x -> entries n' !!! y = entries n !!! y).
  { intros y Hy. cbn. by rewrite lookup_total_insert_ne. }
  assert (Ex : entries n' !!! x = VmaFile tag 1) by (cbn; by rewrite lookup_total_insert_eq).
  assert (Hne : forall y, y ∈ a ++ b -> y <> x).
  { intros y Hy ->. apply Hx. by rewrite Ei. }
  assert (Ho' : files_ok n').
  { split.
    - rewrite Ei'. apply StronglySorted_insert.
      + rewrite <- Ei. eapply StronglySorted_ext; [|exact (fo_sorted n Ho)].
        intros y z Hy Hz. rewrite !Ee; [done|intros ->; by apply Hx..].
      + rewrite Forall_forall in Ha |- *. intros y Hy. specialize (Ha y Hy).
        apply negb_false_iff, Z.ltb_lt in Ha.
        rewrite Ex, Ee by (apply Hne; set_solver). exact Ha.
      + rewrite Forall_forall in Hb |- *. intros y Hy. specialize (Hb y Hy).
        apply Hgl in Hb.
        rewrite Ex, Ee by (apply Hne; set_solver). cbn [vm_tag].
        specialize (Hno y ltac:(rewrite Ei; set_solver)). lia.
    - intros y. rewrite Ei'. cbn. destruct (decide (y = x)) as [->|Hy].
      + rewrite lookup_insert_eq. split; [set_solver|done].
      + rewrite lookup_insert_ne, (fo_dom n Ho), Ei by done. set_solver. }
  split; [done|]. apply map_eq. intros t. destruct (decide (t = tag)) as [->|Ht].
  - rewrite lookup_insert_eq. apply (grants_lookup n' tag 1 Ho'). exists x. rewrite Ei', Ex.
    split; [set_solver|done].
  - rewrite lookup_insert_ne by done. apply grants_ext; [done..|]. intros k. rewrite Ei', Ei.
    split; intros (y & Hy & Ey & Ek).
    + exists y. rewrite Ee by (by apply Hne). split; [set_solver|done].
    + assert (y <> x) by (intros ->; rewrite Ex in Ey; by cbn in Ey). rewrite Ee in Ey, Ek by done.
      exists y. split; [set_solver|done].
Qed.

(** Taking an entry out. *)
Lemma erase_file_ok n x tag : files_ok n -> x ∈ inorder (vm_files n) -> vm_tag (entries n !!! x) = tag ->
  let n' := VmaNode (rb_erase x (vm_files n)) (delete x (entries n)) in
  files_ok n' /\ grants n' = delete tag (grants n).
Proof.
  intros Ho Hx Et n'. destruct (list_elem_of_split _ _ Hx) as (a & b & Ei).
  pose proof (files_nodup n Ho) as Hn.
  assert (Ei' : inorder (vm_files n') = a ++ b) by (by apply erase_inorder).
  rewrite Ei in Hn. apply NoDup_delete in Hn as [_ Hxn].
  assert (Ee : forall y, y ∈ a ++ b -> entries n' !!! y = entries n !!! y).
  { intros y Hy. cbn. apply lookup_total_delete_ne. by intros ->. }
  assert (Ho' : files_ok n').
  { split.
    - rewrite Ei'. eapply StronglySorted_ext; [|eapply StronglySorted_delete; rewrite <- Ei; exact (fo_sorted n Ho)].
      intros y z Hy Hz. by rewrite !Ee.
    - intros y. rewrite Ei'. cbn. destruct (decide (y = x)) as [->|Hy].
      + rewrite lookup_delete_eq. split; [by intros []|done].
      + rewrite lookup_delete_ne, (fo_dom n Ho), Ei by done. set_solver. }
  split; [done|]. apply map_eq. intros t. destruct (decide (t = tag)) as [->|Ht].
  - rewrite lookup_delete_eq. apply eq_None_not_Some. intros [c Hc].
    apply (grants_lookup n' tag c Ho') in Hc as (y & Hy & Ey & _). rewrite Ei' in Hy.
    rewrite Ee in Ey by done. assert (y = x); [|by subst].
    apply (files_inj n y x Ho); [rewrite Ei; set_solver|done|congruence].
  - rewrite lookup_delete_ne by done. apply grants_ext; [done..|]. intros k. rewrite Ei', Ei.
    split; intros (y & Hy & Ey & Ek).
    + assert (y <> x) by congruence. exists y. assert (y ∈ a ++ b) by set_solver.
      rewrite Ee by done. done.
    + rewrite Ee in Ey, Ek by done. exists y. split; [set_solver|done].
Qed.
End files.

(** ** The specification *)

(** The counts of files and the ranges of nodes. *)
Abbreviation counts := (gmap Z (gmap Z Z)).

Definition spec_allow (tag : Z) (ref_counted : bool) (new : option Z) (g : gmap Z Z) : Z * gmap Z Z :=
  match g !! tag, new with
  | Some c, _ => (0, if ref_counted then <[tag := u64 (c + 1)]> g else g)
  | None, Some _ => (0, <[tag := 1]> g)
  | None, None => (- ENOMEM, g)
  end.

Definition spec_revoke (tag : Z) (g : gmap Z Z) : gmap Z Z :=
  match g !! tag with
  | Some c => if u64 (c - 1) =? 0 then delete tag g else <[tag := u64 (c - 1)]> g
  | None => g
  end.

(** The range of [i] spans [pages] pages from [st]. *)
Definition spans (A : ranges) (st pages i : Z) : Prop :=
  exists s z, A !! i = Some (s, z) /\ s <= st /\ st + pages <= s + z.

Inductive vma_command :=
  | VReset (i : Z)
  | VAdd (i pages : Z)
  | VRemove (i : Z)
  | VAllow (i tag : Z) (new : option Z)
  | VAllowOnce (i tag : Z) (new : option Z)
  | VRevoke (i tag : Z)
  | VVerify (i tag : Z)
  | VLookup (start pages : Z)
  | VExact (start pages : Z).

Inductive vma_result := Code (ret : Z) | Found (i : option Z).

Inductive vma_spec (S E : Z) (A : ranges) (G : counts) :
    vma_command -> vma_result -> ranges -> counts -> Prop :=
  | vs_reset i : vma_spec S E A G (VReset i) (Code 0) A (<[i := ∅]> G)
  | vs_added i pages p : A !! i = Some p -> vma_spec S E A G (VAdd i pages) (Code 0) A G
  | vs_add i pages s : A !! i = None -> available S E A s pages ->
    vma_spec S E A G (VAdd i pages) (Code 0) (<[i := (s, pages)]> A) G
  | vs_full i pages : A !! i = None -> (forall s, ~ available S E A s pages) ->
    vma_spec S E A G (VAdd i pages) (Code (- ENOSPC)) A G
  | vs_remove i : vma_spec S E A G (VRemove i) (Code 0) (delete i A) G
  | vs_allow i tag new ret g : spec_allow tag true new (G !!! i) = (ret, g) ->
    vma_spec S E A G (VAllow i tag new) (Code ret) A (<[i := g]> G)
  | vs_allow_once i tag new ret g : spec_allow tag false new (G !!! i) = (ret, g) ->
    vma_spec S E A G (VAllowOnce i tag new) (Code ret) A (<[i := g]> G)
  | vs_revoke i tag : vma_spec S E A G (VRevoke i tag) (Code 0) A (<[i := spec_revoke tag (G !!! i)]> G)
  | vs_verify i tag :
    vma_spec S E A G (VVerify i tag)
      (Code (if bool_decide (is_Some ((G !!! i : gmap Z Z) !! tag)) then 0 else - EACCES)) A G
  | vs_lookup st pages i : spans A st pages i -> vma_spec S E A G (VLookup st pages) (Found (Some i)) A G
  | vs_lookup_none st pages : (forall i, ~ spans A st pages i) ->
    vma_spec S E A G (VLookup st pages) (Found None) A G
  | vs_exact st pages i z : A !! i = Some (st, z) -> pages <= z ->
    vma_spec S E A G (VExact st pages) (Found (Some i)) A G
  | vs_exact_none st pages : (forall i z, A !! i = Some (st, z) -> ~ pages <= z) ->
    vma_spec S E A G (VExact st pages) (Found None) A G.

(** ** The implementation *)

Section exec.
Context `{RbTree}.

Definition vma_exec (c : vma_command) (v : drm_vma_offset_manager)
    : option (vma_result * drm_vma_offset_manager) :=
  match c with
  | VReset i => Some (Code 0, drm_vma_node_reset i v)
  | VAdd i pages => '(ret, v) ← drm_vma_offset_add i pages v; Some (Code ret, v)
  | VRemove i => Some (Code 0, drm_vma_offset_remove i v)
  | VAllow i tag new => let '(ret, v) := drm_vma_node_allow i tag new v in Some (Code ret, v)
  | VAllowOnce i tag new => let '(ret, v) := drm_vma_node_allow_once i tag new v in Some (Code ret, v)
  | VRevoke i tag => Some (Code 0, drm_vma_node_revoke i tag v)
  | VVerify i tag => Some (Code (drm_vma_node_verify_access v i tag), v)
  | VLookup st pages => Some (Found (drm_vma_offset_lookup_locked v st pages), v)
  | VExact st pages => Some (Found (drm_vma_offset_exact_lookup_locked v st pages), v)
  end.
End exec.

(** What a caller must respect: a node is reset while it has no range and grants nothing,
    a new structure is not in use, and a lookup is for pages that exist. *)
Definition vma_legal (v : drm_vma_offset_manager) (c : vma_command) : Prop :=
  match c with
  | VReset i => i ∉ ring (vm_addr_space_mm v) /\ vm_files (vma_node v i) = Leaf
  | VAdd i pages => i <> 0 /\ is_u64 pages
  | VRemove i => i <> 0
  | VAllow i _ new | VAllowOnce i _ new =>
    match new with Some x => entries (vma_node v i) !! x = None | None => True end
  | VRevoke _ _ | VVerify _ _ => True
  | VLookup st pages | VExact st pages => 0 <= st /\ 0 < pages /\ st + pages < 2 ^ 64
  end.

Definition ranges_of (v : drm_vma_offset_manager) : ranges := abs (vm_addr_space_mm v).
Definition counts_of (v : drm_vma_offset_manager) : counts := grants <$> vma_nodes v.

(** A node without a range is cleared. *)
Definition cleared (n : drm_mm_node) : Prop := start n = 0 /\ size n = 0 /\ allocated n = false.

Record vma_inv (S E : Z) (v : drm_vma_offset_manager) : Prop := {
  vi_mm : mm_inv S E (vm_addr_space_mm v);
  vi_out : forall i, i ∉ ring (vm_addr_space_mm v) -> cleared (vm_node v i);
  vi_files : map_Forall (fun _ n => files_ok n) (vma_nodes v)
}.

Lemma files_ok_empty : files_ok (VmaNode Leaf ∅).
Proof.
  split; [constructor|]. intros x. cbn. rewrite lookup_empty. split; [by intros []|].
  by intros ?%not_elem_of_nil.
Qed.

Lemma vma_node_ok S E v i : vma_inv S E v -> files_ok (vma_node v i).
Proof.
  intros [_ _ Hf]. unfold vma_node. rewrite lookup_total_alt.
  destruct (vma_nodes v !! i) as [n|] eqn:En; [by apply (Hf i)|exact files_ok_empty].
Qed.

Lemma counts_total v i : counts_of v !!! i = grants (vma_node v i).
Proof.
  unfold counts_of, vma_node. rewrite !lookup_total_alt, lookup_fmap.
  by destruct (vma_nodes v !! i).
Qed.

Lemma set_node_inv S E v i n : vma_inv S E v -> files_ok n -> vma_inv S E (set_node i n v).
Proof. intros [Hm Ho Hf] Hn. split; [done|done|]. by apply map_Forall_insert_2. Qed.

Lemma counts_set_node v i n : counts_of (set_node i n v) = <[i := grants n]> (counts_of v).
Proof. apply fmap_insert. Qed.

Section manager.
Context `{RbTree} `{!RbTreeLaws}.

Lemma allow_ok n tag ref_counted new : files_ok n ->
  match new with Some x => entries n !! x = None | None => True end ->
  let '(ret, n') := vma_node_allow tag ref_counted new n in
  files_ok n' /\ spec_allow tag ref_counted new (grants n) = (ret, grants n').
Proof.
  intros Ho Hnew. unfold vma_node_allow, spec_allow.
  pose proof (find_file_grants n tag Ho) as Hf.
  destruct (find_file _ _ _) as [x|].
  - destruct Hf as (Hx & Et & ->). destruct ref_counted; [|done].
    by destruct (set_count_ok n x (u64 (vm_count (entries n !!! x) + 1)) tag Ho Hx Et) as [Ho' ->].
  - destruct Hf as [Hno ->]. destruct new as [x|]; [|done].
    by destruct (link_file_ok n x tag Ho Hnew Hno) as [Ho' ->].
Qed.

Lemma revoke_ok n tag : files_ok n ->
  files_ok (vma_node_revoke tag n) /\ grants (vma_node_revoke tag n) = spec_revoke tag (grants n).
Proof.
  intros Ho. unfold vma_node_revoke, spec_revoke. pose proof (find_file_grants n tag Ho) as Hf.
  destruct (find_file _ _ _) as [x|]; [|by destruct Hf as [_ ->]].
  destruct Hf as (Hx & Et & ->). destruct (_ =? 0).
  - by apply erase_file_ok.
  - by apply set_count_ok.
Qed.

Lemma is_allowed_grants S E v i tag : vma_inv S E v ->
  drm_vma_node_is_allowed v i tag = bool_decide (is_Some (grants (vma_node v i) !! tag)).
Proof.
  intros I. unfold drm_vma_node_is_allowed.
  pose proof (find_file_grants _ tag (vma_node_ok S E v i I)) as Hf.
  destruct (find_file _ _ _); [destruct Hf as (_ & _ & ->)|destruct Hf as [_ ->]]; symmetry.
  - by apply bool_decide_eq_true.
  - apply bool_decide_eq_false. by intros [].
Qed.

Lemma abs_is_Some m i : i ∈ node_list m <-> is_Some (abs m !! i).
Proof. rewrite abs_lookup. case_decide; split; [by eexists|done|done|by intros []]. Qed.

(** *** Clearing a node *)

Lemma inv_set_last S E m i x : mm_inv S E m -> i ∉ node_list m ->
  mm_inv S E (set_interval (<[i := x]> (subtree_last m), interval_tree m) m).
Proof.
  intros [Ib Ihd Iz In_ It Ih Inn] Hi. split; try done.
  - by apply (tiles_ext m).
  - eapply (holes_ok_ext m); [..|exact Ih]; done.
  - destruct Inn as [N1 I1 A1 L1 S1]. split; try done.
    eapply aug_ok_ext; [|exact A1]. intros j Hj%list_elem_of_In. split; [done|].
    change (j ∈ inorder (rb_root (interval_tree m))) in Hj. rewrite I1 in Hj.
    cbn. symmetry. apply lookup_total_insert_ne. by intros <-.
Qed.

Lemma inv_set_max_hole S E m i x : mm_inv S E m -> i ∉ ring m ->
  mm_inv S E (set_by_addr (<[i := x]> (subtree_max_hole m), holes_addr m) m).
Proof.
  intros [Ib Ihd Iz In_ It Ih Inn] Hi. split; try done.
  - by apply (tiles_ext m).
  - destruct Ih as [N1 P1 A1 G1 P2 S1 L1 O1 S2]. split; try done.
    eapply aug_ok_ext; [|exact G1]. intros j Hj%list_elem_of_In. split; [done|].
    change (j ∈ inorder (holes_addr m)) in Hj. rewrite A1 in Hj. apply holes_ring in Hj.
    cbn. symmetry. apply lookup_total_insert_ne. by intros <-.
  - eapply (nodes_ok_ext m); [..|exact Inn]; done.
Qed.

Lemma clear_node i m j :
  node (clear_vm_node i m) j = if decide (j = i) then inhabitant else node m j.
Proof.
  change (node (clear_vm_node i m) j) with (node (upd (fun _ => inhabitant) i m) j).
  apply node_upd.
Qed.

Lemma ring_clear i m : ring (clear_vm_node i m) = ring m.
Proof. done. Qed.

Lemma clear_ok S E m i : mm_inv S E m -> i ∉ ring m ->
  mm_inv S E (clear_vm_node i m) /\ abs (clear_vm_node i m) = abs m.
Proof.
  intros I Hi. assert (Hl : i ∉ node_list m) by (intros ?; apply Hi; by right). split.
  - apply inv_set_max_hole; [|done]. apply inv_set_last; [|done]. by apply inv_upd_other.
  - apply map_eq. intros j. rewrite !abs_lookup.
    change (node_list (clear_vm_node i m)) with (node_list m). case_decide; [|done].
    rewrite clear_node, decide_False; [done|]. by intros ->.
Qed.

(** *** Adding and removing *)

Lemma allocated_in S E v i : vma_inv S E v -> i <> 0 ->
  drm_mm_node_allocated (vm_addr_space_mm v) i = bool_decide (i ∈ node_list (vm_addr_space_mm v)).
Proof.
  intros [I Ho _] Hi. case_bool_decide as Hn.
  - pose proof (iv_node _ _ _ I) as Hf. rewrite Forall_forall in Hf. by destruct (Hf i Hn).
  - apply Ho. by intros [?|?]%elem_of_cons.
Qed.

Lemma ranges_None S E v i : vma_inv S E v ->
  ranges_of v !! i = None <-> i ∉ node_list (vm_addr_space_mm v).
Proof. intros I. unfold ranges_of. rewrite abs_lookup. by case_decide. Qed.

(** Any place is one for an insertion anywhere. *)
Lemma add_ok S E v i pages : vma_inv S E v -> i <> 0 -> is_u64 pages ->
  exists ret v', drm_vma_offset_add i pages v = Some (ret, v') /\ vma_inv S E v'
    /\ vma_spec S E (ranges_of v) (counts_of v) (VAdd i pages) (Code ret) (ranges_of v') (counts_of v').
Proof.
  intros VI Hi Hp. destruct VI as [I Ho Hf] eqn:EVI. clear EVI. unfold drm_vma_offset_add.
  rewrite (allocated_in S E v i VI Hi). case_bool_decide as Hn.
  { exists 0, v. split; [done|]. split; [done|]. eapply vs_added. unfold ranges_of.
    rewrite abs_lookup. by rewrite decide_True. }
  assert (Hr : i ∉ ring (vm_addr_space_mm v)) by (by intros [?|?]%elem_of_cons).
  assert (EN : ranges_of v !! i = None) by (by apply (ranges_None S E v i VI)).
  unfold drm_mm_insert_node, drm_mm_insert_node_generic.
  destruct (iv_bounds _ _ _ I) as [[HS HSE] HE].
  destruct (insert_code None none_shrinks S E (vm_addr_space_mm v) i pages 0 0 0 U64_MAX 0 I Hr Hp)
    as (ret & m' & -> & I' & Hres); [unfold is_u; lia|unfold U64_MAX; lia|unfold U64_MAX; lia|].
  cbn [mbind option_bind]. exists ret, (set_mm m' v). split; [done|].
  destruct Hres as [(-> & Hz & (h & a & (Hh & Ef & _) & Ea & Es) & Hsame)|(-> & -> & Hfull)].
  - set (q := mk_request pages 0 0 0 U64_MAX 0) in *.
    assert (Hq : request_ok q) by (apply mk_request_ok; unfold is_u, U64_MAX; lia).
    pose proof (fit_spec None S E _ q I Hq none_shrinks h (holes_ring _ h Hh)) as Hfit.
    rewrite Ef in Hfit. destruct Hfit as [[Ha1 Ha2 _] _].
    cbn [bounds adjust fst snd rq_start rq_end rq_size mk_request q] in Ha1, Ha2.
    split.
    + split; [done| |done]. intros j Hj. cbn [set_mm vm_addr_space_mm] in Hj.
      assert (Hji : j <> i).
      { intros ->. apply Hj. right. destruct (decide (i ∈ node_list m')) as [|Hc]; [done|].
        assert (En : abs m' !! i = None) by (rewrite abs_lookup; by rewrite decide_False).
        rewrite Ea, lookup_insert_eq in En. done. }
      destruct (Hsame j Hji) as (_ & E1 & E2 & E3 & _). unfold cleared, vm_node.
      cbn [set_mm vm_addr_space_mm]. rewrite E1, E2, E3. apply Ho. intros Hjr. apply Hj.
      apply elem_of_cons in Hjr as [->|Hjr]; [by left|]. right.
      by rewrite abs_is_Some, Ea, lookup_insert_ne, <- abs_is_Some.
    + unfold ranges_of. cbn [set_mm vm_addr_space_mm]. rewrite Ea.
      apply vs_add; [done|]. apply available_hole; [done|]. split; [done|]. exists h. split; [done|lia].
  - split; [by destruct v|]. apply vs_full; [done|]. intros s Ha.
    destruct Hfull as [Hm|[->|Hfull]]; [done|destruct Ha as (_ & ? & _); lia|].
    assert (Hpl : placed pages 0 0 U64_MAX s).
    { destruct Ha as (? & ? & ? & _). split; [lia|unfold U64_MAX; lia|by left]. }
    destruct (available_place S E _ pages 0 0 0 U64_MAX 0 s I Hpl Ha) as (h & Hh & _ & _ & Hp').
    by apply (Hfull h s).
Qed.

Lemma remove_vma_ok S E v i : vma_inv S E v -> i <> 0 ->
  vma_inv S E (drm_vma_offset_remove i v)
  /\ ranges_of (drm_vma_offset_remove i v) = delete i (ranges_of v)
  /\ counts_of (drm_vma_offset_remove i v) = counts_of v.
Proof.
  intros VI Hi. assert (Ha := allocated_in S E v i VI Hi). unfold drm_vma_offset_remove. rewrite Ha.
  case_bool_decide as Hn.
  - destruct VI as [I Ho Hf]. destruct (remove_code None none_shrinks S E _ i I Hn) as (I1 & E1 & Hs).
    set (m1 := drm_mm_remove_node i (vm_addr_space_mm v)) in *. clearbody m1.
    assert (Hin : forall j, j ∈ ring m1 <-> j = 0 \/ (j <> i /\ j ∈ node_list (vm_addr_space_mm v))).
    { intros j. unfold ring. rewrite elem_of_cons.
      assert (j ∈ node_list m1 <-> j <> i /\ j ∈ node_list (vm_addr_space_mm v)); [|tauto].
      rewrite !abs_is_Some, E1, lookup_delete_is_Some. split; intros []; auto. }
    assert (Hir : i ∉ ring m1) by (rewrite Hin; tauto).
    destruct (clear_ok S E m1 i I1 Hir) as [I2 E2]. split; [|split; [|done]].
    + split; [done| |done]. intros j Hj. cbn [set_mm vm_addr_space_mm] in Hj.
      rewrite ring_clear in Hj. unfold cleared, vm_node. cbn [set_mm vm_addr_space_mm].
      rewrite clear_node. case_decide as Hji; [done|].
      destruct (Hs j Hji) as (_ & -> & -> & -> & _). apply Ho.
      intros Hjr. apply Hj, Hin. apply elem_of_cons in Hjr as [|]; [by left|by right].
    + unfold ranges_of. cbn [set_mm vm_addr_space_mm]. by rewrite E2, E1.
  - split; [done|]. split; [|done]. symmetry. apply delete_id. by apply (ranges_None S E v i VI).
Qed.

(** *** Looking up *)

Lemma filter_none {A} (P : A -> Prop) `{!forall x, Decision (P x)} l :
  Forall (fun y => ~ P y) l -> filter P l = [].
Proof. induction 1 as [|x l Hx _ IH]; [done|]. by rewrite filter_cons, decide_False. Qed.

(** The walk ends at the last node that starts at or before the place. *)
Lemma lookup_walk_spec m st t : forall best,
  StronglySorted (fun i j => start (node m i) < start (node m j)) (inorder t) ->
  lookup_walk m st t best
  = match last (filter (fun x => start (node m x) <= st) (inorder t)) with Some x => Some x | None => best end.
Proof.
  induction t as [|l IHl x r IHr]; cbn [lookup_walk inorder]; intros best Hs; [done|].
  apply StronglySorted_app in Hs as (Hlx & Hl & Hr). apply StronglySorted_cons in Hr as [Hx Hr].
  rewrite Forall_forall in Hx. rewrite filter_app, filter_cons.
  assert (Hnil : st <= start (node m x) -> filter (fun y => start (node m y) <= st) (inorder r) = []).
  { intros Hst. apply filter_none, Forall_forall. intros y Hy.
    specialize (Hx y Hy). lia. }
  case_decide as Hd; destruct (Z.leb_spec (start (node m x)) st); try lia.
  - rewrite last_app, last_cons. destruct (Z.eqb_spec st (start (node m x))) as [->|Hne].
    + by rewrite Hnil.
    + rewrite IHr by done. by destruct (last (filter _ (inorder r))).
  - rewrite IHl by done. by rewrite Hnil, app_nil_r by lia.
Qed.

Lemma nodes_disjoint S E m i j : mm_inv S E m -> i ∈ node_list m -> j ∈ node_list m ->
  start (node m i) < start (node m j) -> start (node m i) + size (node m i) <= start (node m j).
Proof.
  intros I Hi Hj Hlt. destruct (iv_bounds _ _ _ I) as [_ HE].
  pose proof (iv_node _ _ _ I) as Hn. assert (Hn' := Hn). rewrite Forall_forall in Hn'.
  rewrite <- (hns_node E m i (Hn' i Hi) HE).
  destruct (list_elem_of_split _ _ Hi) as (a & b & El).
  assert (Er : ring m = (0 :: a) ++ i :: b) by (unfold ring; by rewrite El).
  destruct (inv_at S E m _ i b I Er) as (_ & Hz & _ & _ & _ & Ht).
  rewrite El in Hn, Hj. apply Forall_app in Hn as [_ Hn]. apply Forall_cons_1 in Hn as [_ Hn].
  pose proof (iv_tiles _ _ _ I) as Htl. rewrite Er, tiles_app in Htl. destruct Htl as [_ Htl].
  assert (Hjb : j ∈ b).
  { pose proof (no_sorted _ _ (iv_nodes _ _ _ I)) as Hs. rewrite El in Hs.
    apply StronglySorted_app in Hs as (Hs & _ & _).
    apply elem_of_app in Hj as [Hj|[->|Hj]%elem_of_cons]; [|lia|done].
    specialize (Hs j i Hj ltac:(by left)). cbn in Hs. lia. }
  pose proof (tiles_between m E i b j HE Hn Htl Hjb). lia.
Qed.

Lemma start_inj S E m i j : mm_inv S E m -> i ∈ node_list m -> j ∈ node_list m ->
  start (node m i) = start (node m j) -> i = j.
Proof.
  intros I Hi Hj E'. pose proof (iv_node _ _ _ I) as Hn. rewrite Forall_forall in Hn.
  pose proof (no_sorted _ _ (iv_nodes _ _ _ I)) as Hs.
  destruct (list_elem_of_split _ _ Hi) as (a & b & El). rewrite El in Hs, Hj.
  apply StronglySorted_app in Hs as (Hab & _ & Hs). apply StronglySorted_cons in Hs as [Hs _].
  rewrite Forall_forall in Hs.
  apply elem_of_app in Hj as [Hj|[->|Hj]%elem_of_cons]; [|done|].
  - specialize (Hab j i Hj ltac:(by left)). cbn in Hab. lia.
  - specialize (Hs j Hj). cbn in Hs. lia.
Qed.

Lemma last_filter {A} (P : A -> Prop) `{!forall x, Decision (P x)} l :
  match last (filter P l) with
  | Some x => exists a b, l = a ++ x :: b /\ P x /\ Forall (fun y => ~ P y) b
  | None => Forall (fun y => ~ P y) l
  end.
Proof.
  induction l as [|y l IH] using rev_ind; [constructor|].
  rewrite filter_app, filter_cons, filter_nil. case_decide as Hy.
  - rewrite last_snoc. exists l, []. by split.
  - rewrite app_nil_r. destruct (last (filter P l)) as [x|].
    + destruct IH as (a & b & -> & Hx & Hb). exists a, (b ++ [y]). rewrite <- app_assoc.
      split; [done|]. split; [done|]. apply Forall_app. split; [done|by constructor].
    + apply Forall_app. split; [done|by constructor].
Qed.

Lemma vma_lookup_ok S E v st pages : vma_inv S E v -> 0 <= st -> 0 < pages -> st + pages < 2 ^ 64 ->
  match drm_vma_offset_lookup_locked v st pages with
  | Some i => i ∈ node_list (vm_addr_space_mm v) /\ spans (ranges_of v) st pages i
  | None => forall i, ~ spans (ranges_of v) st pages i
  end.
Proof.
  intros [I _ _] Hst Hp Hsp. set (m := vm_addr_space_mm v) in *.
  unfold drm_vma_offset_lookup_locked. fold m.
  pose proof (iv_nodes _ _ _ I) as [_ Ei _ _ Hs]. rewrite lookup_walk_spec by (by rewrite Ei).
  rewrite Ei. destruct (iv_bounds _ _ _ I) as [[HS HSE] HE].
  pose proof (iv_node _ _ _ I) as Hn. rewrite Forall_forall in Hn.
  assert (Hsp' : forall i, spans (ranges_of v) st pages i -> i ∈ node_list m
    /\ start (node m i) <= st /\ st + pages <= start (node m i) + size (node m i)).
  { intros i (s & z & Ea & Hi). unfold ranges_of in Ea. rewrite abs_lookup in Ea. fold m in Ea.
    case_decide; [|done]. by injection Ea as <- <-. }
  pose proof (last_filter (fun x => start (node m x) <= st) (node_list m)) as Hl.
  destruct (last _) as [i|]; cbn [mbind option_bind].
  - destruct Hl as (a & b & El & Hi & Hb).
    assert (Hin : i ∈ node_list m) by (rewrite El; set_solver).
    destruct (Hn i Hin) as [N1 N2 N3 _].
    rewrite !u64_small by (unfold is_u; lia).
    destruct (Z.ltb_spec (start (node m i) + size (node m i)) (st + pages)) as [Hlt|Hge].
    + intros j (Hj & J1 & J2)%Hsp'. destruct (Hn j Hj) as [M1 M2 M3 _].
      destruct (Z.lt_trichotomy (start (node m i)) (start (node m j))) as [Hij|[Hij|Hij]].
      * rewrite El in Hj, Hs. apply StronglySorted_app in Hs as (Hs & _ & _).
        rewrite Forall_forall in Hb.
        apply elem_of_app in Hj as [Hj|[->|Hj]%elem_of_cons]; [|lia|by apply (Hb j)].
        specialize (Hs j i Hj ltac:(by left)). cbn in Hs. lia.
      * assert (i = j) by (by apply (start_inj S E m)). subst. lia.
      * pose proof (nodes_disjoint S E m j i I Hj Hin Hij). lia.
    + split; [done|]. exists (start (node m i)), (size (node m i)). unfold ranges_of. fold m.
      rewrite abs_lookup, decide_True by done. split; [done|]. lia.
  - intros j (Hj & J1 & _)%Hsp'. rewrite Forall_forall in Hl. by apply (Hl j).
Qed.

(** A part of the offset space belongs to one node. *)
Lemma spans_unique S E v st pages i j : vma_inv S E v -> 0 < pages ->
  spans (ranges_of v) st pages i -> spans (ranges_of v) st pages j -> i = j.
Proof.
  intros [I _ _] Hp (s & z & Ei & ? & ?) (s' & z' & Ej & ? & ?). unfold ranges_of in *.
  rewrite abs_lookup in Ei, Ej. repeat case_decide; try done. injection Ei as <- <-. injection Ej as <- <-.
  destruct (Z.lt_trichotomy (start (node (vm_addr_space_mm v) i)) (start (node (vm_addr_space_mm v) j)))
    as [Hl|[He|Hl]].
  - pose proof (nodes_disjoint S E _ i j I ltac:(done) ltac:(done) Hl). lia.
  - by apply (start_inj S E (vm_addr_space_mm v)).
  - pose proof (nodes_disjoint S E _ j i I ltac:(done) ltac:(done) Hl). lia.
Qed.

Lemma exact_lookup_ok S E v st pages : vma_inv S E v -> 0 <= st -> 0 < pages -> st + pages < 2 ^ 64 ->
  match drm_vma_offset_exact_lookup_locked v st pages with
  | Some i => exists z, ranges_of v !! i = Some (st, z) /\ pages <= z
  | None => forall i z, ranges_of v !! i = Some (st, z) -> ~ pages <= z
  end.
Proof.
  intros I Hst Hp Hsp. unfold drm_vma_offset_exact_lookup_locked.
  assert (Hx : forall i z, ranges_of v !! i = Some (st, z) -> pages <= z -> spans (ranges_of v) st pages i).
  { intros i z Ei Hz. exists st, z. split; [done|lia]. }
  pose proof (vma_lookup_ok S E v st pages I Hst Hp Hsp) as Hl.
  destruct (drm_vma_offset_lookup_locked v st pages) as [i|]; cbn [mbind option_bind].
  - destruct Hl as [Hin Hi]. destruct (Z.eqb_spec (start (vm_node v i)) st) as [Es|Es].
    + destruct Hi as (s & z & Ei & ? & ?). exists z. assert (s = st); [|subst; split; [done|lia]].
      unfold ranges_of in Ei. rewrite abs_lookup, decide_True in Ei by done. injection Ei as <- <-. done.
    + intros j z Ej Hz. assert (i = j) by (eapply (spans_unique S E v st pages); eauto). subst j.
      unfold ranges_of in Ej. rewrite abs_lookup, decide_True in Ej by done. by injection Ej.
  - intros j z Ej Hz. by apply (Hl j), (Hx j z).
Qed.

Lemma reset_ok S E v i : vma_inv S E v -> i ∉ ring (vm_addr_space_mm v) ->
  vma_inv S E (drm_vma_node_reset i v)
  /\ ranges_of (drm_vma_node_reset i v) = ranges_of v
  /\ counts_of (drm_vma_node_reset i v) = <[i := ∅]> (counts_of v).
Proof.
  intros [I Ho Hf] Hi. destruct (clear_ok S E _ i I Hi) as [I' E'].
  split; [|split; [exact E'|etransitivity; [apply fmap_insert|done]]].
  split; [done| |apply map_Forall_insert_2; [exact files_ok_empty|exact Hf]].
  intros j Hj. unfold cleared, vm_node.
  cbn [drm_vma_node_reset set_node set_mm vm_addr_space_mm] in Hj |- *.
  rewrite clear_node. case_decide; [done|]. by apply Ho.
Qed.

Lemma vma_init_ok page_offset size : 0 <= page_offset -> 0 < size -> page_offset + size < 2 ^ 64 ->
  vma_inv page_offset (page_offset + size) (drm_vma_offset_manager_init page_offset size).
Proof.
  intros H1 H2 H3. split; [by apply init_ok| |apply map_Forall_empty].
  intros j Hj. assert (Hj0 : j <> 0) by (intros ->; apply Hj; by left).
  unfold cleared, vm_node, drm_vma_offset_manager_init, drm_mm_init. cbn [vm_addr_space_mm].
  rewrite add_hole_node. rewrite decide_False by done.
  unfold node. cbn [nodes]. rewrite lookup_total_alt, lookup_singleton_ne by done. done.
Qed.

(** One command. *)
Lemma vma_exec_ok S E v c : vma_inv S E v -> vma_legal v c ->
  exists r v', vma_exec c v = Some (r, v') /\ vma_inv S E v'
    /\ vma_spec S E (ranges_of v) (counts_of v) c r (ranges_of v') (counts_of v').
Proof.
  intros I Hc. destruct c as [i|i pages|i|i tag new|i tag new|i tag|i tag|st pages|st pages];
    cbn [vma_exec vma_legal] in *.
  - destruct (reset_ok S E v i I (proj1 Hc)) as (I' & E1 & E2). eexists _, _. split; [done|].
    split; [done|]. rewrite E1, E2. constructor.
  - destruct Hc as [Hi Hp]. destruct (add_ok S E v i pages I Hi Hp) as (ret & v' & -> & I' & Hs).
    by eexists _, _.
  - destruct (remove_vma_ok S E v i I Hc) as (I' & E1 & E2). eexists _, _. split; [done|].
    split; [done|]. rewrite E1, E2. constructor.
  - unfold drm_vma_node_allow. pose proof (allow_ok (vma_node v i) tag true new (vma_node_ok S E v i I) Hc) as Ha.
    destruct (vma_node_allow tag true new (vma_node v i)) as [ret n]. destruct Ha as [Hn Ha].
    eexists _, _. split; [done|]. split; [by apply set_node_inv|].
    rewrite counts_set_node. constructor. by rewrite counts_total.
  - unfold drm_vma_node_allow_once. pose proof (allow_ok (vma_node v i) tag false new (vma_node_ok S E v i I) Hc) as Ha.
    destruct (vma_node_allow tag false new (vma_node v i)) as [ret n]. destruct Ha as [Hn Ha].
    eexists _, _. split; [done|]. split; [by apply set_node_inv|].
    rewrite counts_set_node. constructor. by rewrite counts_total.
  - destruct (revoke_ok (vma_node v i) tag (vma_node_ok S E v i I)) as [Hn Hr].
    eexists _, _. split; [done|]. split; [by apply set_node_inv|].
    unfold drm_vma_node_revoke. rewrite counts_set_node, Hr, <- counts_total. constructor.
  - eexists _, _. split; [done|]. split; [done|].
    unfold drm_vma_node_verify_access. rewrite (is_allowed_grants S E v i tag I), <- counts_total.
    apply vs_verify.
  - destruct Hc as (H1 & H2 & H3). eexists _, _. split; [done|]. split; [done|].
    pose proof (vma_lookup_ok S E v st pages I H1 H2 H3) as Hl.
    destruct (drm_vma_offset_lookup_locked v st pages); constructor; [by destruct Hl|done].
  - destruct Hc as (H1 & H2 & H3). eexists _, _. split; [done|]. split; [done|].
    pose proof (exact_lookup_ok S E v st pages I H1 H2 H3) as Hl.
    destruct (drm_vma_offset_exact_lookup_locked v st pages) as [i|].
    + destruct Hl as (z & Ez & Hz). by apply (vs_exact _ _ _ _ _ _ _ z).
    + by constructor.
Qed.

(** C35. The offset manager is a map from nodes to disjoint ranges of the offset space and
    a count of grants per node and file.  Every operation, on any state that satisfies the
    invariant, returns, keeps the invariant and takes the step of the specification: adding
    a node gives it a free range of its size and fails only when there is none, adding it
    again changes nothing, removing it clears its range and keeps its grants; a lookup
    finds the one node whose range spans the pages asked for, if there is one; allowing a
    file creates or counts its entry and changes nothing when memory runs out, revoking it
    takes one count back and frees the entry with the last; access is verified exactly for
    the files that have an entry, and every entry in memory is linked in the tree. *)
Theorem vma_exec_refines S E v c : vma_inv S E v -> vma_legal v c ->
  exists r v', vma_exec c v = Some (r, v') /\ vma_inv S E v'
    /\ vma_spec S E (ranges_of v) (counts_of v) c r (ranges_of v') (counts_of v').
Proof. exact (vma_exec_ok S E v c). Qed.
End manager.

(** ** At a concrete state *)

Module VmaSample.
Import Plain.

Definition file_space_end : Z := DRM_FILE_PAGE_OFFSET_START + DRM_FILE_PAGE_OFFSET_SIZE.

Fixpoint run (l : list vma_command) (v : drm_vma_offset_manager) : drm_vma_offset_manager :=
  match l with
  | [] => v
  | c :: l => run l (match vma_exec c v with Some (_, v') => v' | None => v end)
  end.

Fixpoint run_legal (l : list vma_command) (v : drm_vma_offset_manager) : Prop :=
  match l with
  | [] => True
  | c :: l => vma_legal v c /\ run_legal l (match vma_exec c v with Some (_, v') => v' | None => v end)
  end.

Lemma run_inv S E l : forall v, vma_inv S E v -> run_legal l v -> vma_inv S E (run l v).
Proof.
  induction l as [|c l IH]; intros v I; cbn; [done|]. intros [Hc Hl].
  destruct (vma_exec_ok S E v c I Hc) as (r & v' & E' & I' & _). rewrite E' in Hl |- *. by apply IH.
Qed.

Definition steps : list vma_command :=
  [VReset 1; VAdd 1 16; VAllow 1 70 (Some 900); VAllow 1 50 (Some 901); VAllow 1 70 (Some 902);
   VAllow 1 90 (Some 903); VRevoke 1 50].
Definition fresh : drm_vma_offset_manager :=
  drm_vma_offset_manager_init DRM_FILE_PAGE_OFFSET_START DRM_FILE_PAGE_OFFSET_SIZE.

(** A node of 16 pages that two files may map, one of them with two grants. *)
Definition shared : drm_vma_offset_manager := run steps fresh.

Lemma shared_inv : vma_inv DRM_FILE_PAGE_OFFSET_START file_space_end shared.
Proof.
  apply run_inv; [apply vma_init_ok; vm_compute; done|]. unfold steps. cbn [run_legal].
  split; [split; [apply (bool_decide_unpack _); vm_compute; done|done]|].
  repeat split; vm_compute; done.
Qed.
End VmaSample.

Import Plain.

Lemma vma_exec_refines_witness :
  vma_legal VmaSample.shared (VLookup (DRM_FILE_PAGE_OFFSET_START + 4) 3) /\
  exists r v', vma_exec (VLookup (DRM_FILE_PAGE_OFFSET_START + 4) 3) VmaSample.shared = Some (r, v')
    /\ vma_inv DRM_FILE_PAGE_OFFSET_START VmaSample.file_space_end v'
    /\ vma_spec DRM_FILE_PAGE_OFFSET_START VmaSample.file_space_end (ranges_of VmaSample.shared)
         (counts_of VmaSample.shared) (VLookup (DRM_FILE_PAGE_OFFSET_START + 4) 3) r
         (ranges_of v') (counts_of v').
Proof.
  assert (Hl : vma_legal VmaSample.shared (VLookup (DRM_FILE_PAGE_OFFSET_START + 4) 3))
    by (vm_compute; repeat split; discriminate).
  split; [exact Hl|].
  exact (vma_exec_refines DRM_FILE_PAGE_OFFSET_START VmaSample.file_space_end VmaSample.shared
    (VLookup (DRM_FILE_PAGE_OFFSET_START + 4) 3) VmaSample.shared_inv Hl).
Defined.

Example shared_lookups :
  drm_vma_offset_lookup_locked VmaSample.shared (DRM_FILE_PAGE_OFFSET_START + 4) 12 = Some 1
  /\ drm_vma_offset_lookup_locked VmaSample.shared (DRM_FILE_PAGE_OFFSET_START + 4) 13 = None
  /\ drm_vma_offset_exact_lookup_locked VmaSample.shared (DRM_FILE_PAGE_OFFSET_START + 4) 12 = None
  /\ drm_vma_node_offset_addr VmaSample.shared 1 = 0x100000000
  /\ map (drm_vma_node_is_allowed VmaSample.shared 1) [50; 70; 90] = [false; true; true]
  /\ counts_of VmaSample.shared !! 1 = Some (<[70 := 2]> (<[90 := 1]> ∅)).
Proof. vm_compute. repeat split. Qed.
