(* ===== verification/GemMmap.v ===== *)
(** * Mapping GEM objects

    The fake mmap offsets of drm_gem.c: the object store of Gem.v and the offset manager
    of VmaManager.v in one device.  An object's vma_node is the node of its identifier.
    Creating a handle grants its file access to the object, taking the handle away takes
    the grant back; an offset is made when user space asks for one and goes away with the
    object; mmap() of a device file finds the object at the offset, checks the grant and
    takes a reference for the mapping.  The functions of Gem.v whose effect reaches the
    offset manager are written again over the device, with the prefix [dev_]. *)

From Stdlib Require Import ZArith Lia Bool.
From stdpp Require Import base numbers list option gmap sorting.
From S2P Require Import Prelude Gem GemInv GemSystem RbTree DrmMm DrmMmOps DrmMmSpec VmaManager.
#[local] Open Scope Z_scope.

Record dev := Dev { d_gem : gem; d_vma : drm_vma_offset_manager }.

(** The driver's funcs of an object as mmap uses them: the result of its mmap function if
    it has one, and whether it has vm_ops. *)
Record mmap_funcs := Funcs { f_mmap : option Z; f_vm_ops : bool }.

(** struct vm_area_struct *)
Record vm_area := Area { vm_start : Z; vm_end : Z; vm_pgoff : Z }.

Definition vma_pages (a : vm_area) : Z := Z.shiftr (u64 (vm_end a - vm_start a)) PAGE_SHIFT.

Section dev.
Context `{RbTree} (idr_alloc : (Z -> bool) -> Z -> Z -> Z).

Definition drm_gem_init : dev :=
  Dev (Gem ∅ ∅ ∅) (drm_vma_offset_manager_init DRM_FILE_PAGE_OFFSET_START DRM_FILE_PAGE_OFFSET_SIZE).

Definition dev_private_object_init (o size : Z) (w : dev) : dev :=
  Dev (drm_gem_private_object_init o size (d_gem w)) (drm_vma_node_reset o (d_vma w)).

Definition drm_gem_free_mmap_offset (o : Z) (v : drm_vma_offset_manager) : drm_vma_offset_manager :=
  drm_vma_offset_remove o v.

(** After a function that ends with a put of [o]: the last reference runs
    drm_gem_object_free() and in it drm_gem_object_release(). *)
Definition settle (o : Z) (g : gem) (v : drm_vma_offset_manager) : dev :=
  Dev g (match objs g !! o with None => drm_gem_free_mmap_offset o v | Some _ => v end).

Definition dev_object_put (o : Z) (w : dev) : option dev :=
  g ← drm_gem_object_put o (d_gem w); Some (settle o g (d_vma w)).

Definition dev_object_handle_put_unlocked (o : Z) (w : dev) : option dev :=
  g ← drm_gem_object_handle_put_unlocked o (d_gem w); Some (settle o g (d_vma w)).

(** ** Handles *)

Definition dev_object_release_handle (file o : Z) (w : dev) : option dev :=
  dev_object_handle_put_unlocked o (Dev (d_gem w) (drm_vma_node_revoke o file (d_vma w))).

Definition dev_handle_delete (file handle : Z) (w : dev) : option (Z * dev) :=
  let g := d_gem w in
  match object_idr g !! (file, handle) with
  | None | Some None => Some (- EINVAL, w)
  | Some (Some o) =>
    let g := set_idr (<[(file, handle) := None]> (object_idr g)) g in
    w ← dev_object_release_handle file o (Dev g (d_vma w));
    let g := d_gem w in
    Some (0, Dev (set_idr (delete (file, handle) (object_idr g)) g) (d_vma w))
  end.

(** [new] is what drm_vma_node_allow() gets from kmalloc_obj(), [open] the result of the
    driver's open function, 0 without one. *)
Definition dev_handle_create_tail (file o : Z) (new : option Z) (open : Z) (w : dev)
    : option (Z * Z * dev) :=
  g ← drm_gem_object_handle_get o (d_gem w);
  let ret := idr_alloc (used file g) 1 0 in
  if ret <? 0 then
    w ← dev_object_handle_put_unlocked o (Dev g (d_vma w)); Some (ret, 0, w)
  else
    let handle := ret in
    let g := set_idr (<[(file, handle) := None]> (object_idr g)) g in
    let '(ret, v) := drm_vma_node_allow o file new (d_vma w) in
    if negb (ret =? 0) then
      let g := set_idr (delete (file, handle) (object_idr g)) g in
      w ← dev_object_handle_put_unlocked o (Dev g v); Some (ret, 0, w)
    else if negb (open =? 0) then
      let v := drm_vma_node_revoke o file v in
      let g := set_idr (delete (file, handle) (object_idr g)) g in
      w ← dev_object_handle_put_unlocked o (Dev g v); Some (open, 0, w)
    else Some (0, handle, Dev (set_idr (<[(file, handle) := Some o]> (object_idr g)) g) v).

Definition dev_open_ioctl (file name : Z) (new : option Z) (open : Z) (w : dev)
    : option (Z * Z * dev) :=
  match object_name_idr (d_gem w) !! name with
  | None => Some (- ENOENT, 0, w)
  | Some o =>
    g ← drm_gem_object_get o (d_gem w);
    '(ret, handle, w) ← dev_handle_create_tail file o new open (Dev g (d_vma w));
    w ← dev_object_put o w;
    Some (ret, if ret =? 0 then handle else 0, w)
  end.

Fixpoint dev_release_handles (file : Z) (l : list ((Z * Z) * option Z)) (w : dev) : option dev :=
  match l with
  | [] => Some w
  | (_, None) :: _ => None
  | (_, Some o) :: l => w ← dev_object_release_handle file o w; dev_release_handles file l w
  end.

Definition dev_release (file : Z) (w : dev) : option dev :=
  w ← dev_release_handles file (handles_of file (d_gem w)) w;
  let g := d_gem w in
  Some (Dev (set_idr (filter (fun p => p.1.1 <> file) (object_idr g)) g) (d_vma w)).

(** ** Offsets *)

(** The size is a size_t. *)
Definition drm_gem_create_mmap_offset_size (o size : Z) (w : dev) : option (Z * dev) :=
  '(ret, v) ← drm_vma_offset_add o (u64 size / PAGE_SIZE) (d_vma w); Some (ret, Dev (d_gem w) v).

Definition drm_gem_create_mmap_offset (o : Z) (w : dev) : option (Z * dev) :=
  b ← objs (d_gem w) !! o; drm_gem_create_mmap_offset_size o (obj_size b) w.

(** The code, the offset and the device.  The objects are not imported. *)
Definition drm_gem_dumb_map_offset (file handle : Z) (w : dev) : option (Z * Z * dev) :=
  '(obj, g) ← drm_gem_object_lookup file handle (d_gem w);
  match obj with
  | None => Some (- ENOENT, 0, w)
  | Some o =>
    '(ret, w) ← drm_gem_create_mmap_offset o (Dev g (d_vma w));
    let offset := if ret =? 0 then drm_vma_node_offset_addr (d_vma w) o else 0 in
    w ← dev_object_put o w;
    Some (ret, offset, w)
  end.

(** ** Mappings *)

(** kref_get_unless_zero(): a freed object has no reference to take. *)
Definition kref_get_unless_zero (o : Z) (g : gem) : option gem :=
  match objs g !! o with None => None | Some b => Some (set_obj o (with_refcount (refcount b + 1) b) g) end.

(** The object, or an error and the device. *)
Definition drm_gem_object_lookup_at_offset (unplugged : bool) (file start pages : Z) (w : dev)
    : option ((Z + Z) * dev) :=
  if unplugged then Some (inl (- ENODEV), w)
  else
    match (o ← drm_vma_offset_exact_lookup_locked (d_vma w) start pages;
           g ← kref_get_unless_zero o (d_gem w); Some (o, g)) with
    | None => Some (inl (- EINVAL), w)
    | Some (o, g) =>
      let w := Dev g (d_vma w) in
      if negb (drm_vma_node_is_allowed (d_vma w) o file) then
        w ← dev_object_put o w; Some (inl (- EACCES), w)
      else Some (inr o, w)
    end.

Definition drm_gem_mmap_obj (funcs : mmap_funcs) (o obj_size : Z) (a : vm_area) (w : dev)
    : option (Z * dev) :=
  if obj_size <? u64 (vm_end a - vm_start a) then Some (- EINVAL, w)
  else
    g ← drm_gem_object_get o (d_gem w);
    let w := Dev g (d_vma w) in
    let ret := match f_mmap funcs with
               | Some ret => ret
               | None => if f_vm_ops funcs then 0 else - EINVAL
               end in
    if ret =? 0 then Some (0, w) else w ← dev_object_put o w; Some (ret, w).

(** The code, the object mapped and the device. *)
Definition drm_gem_mmap (unplugged : bool) (funcs : Z -> mmap_funcs) (file : Z) (a : vm_area)
    (w : dev) : option (Z * option Z * dev) :=
  '(obj, w) ← drm_gem_object_lookup_at_offset unplugged file (vm_pgoff a) (vma_pages a) w;
  match obj with
  | inl err => Some (err, None, w)
  | inr o =>
    let size := u64 (Z.shiftl (drm_vma_node_size (d_vma w) o) PAGE_SHIFT) in
    '(ret, w) ← drm_gem_mmap_obj (funcs o) o size a w;
    w ← dev_object_put o w;
    Some (ret, if ret =? 0 then Some o else None, w)
  end.

Definition drm_gem_vm_open (o : Z) (w : dev) : option dev :=
  g ← drm_gem_object_get o (d_gem w); Some (Dev g (d_vma w)).
Definition drm_gem_vm_close (o : Z) (w : dev) : option dev := dev_object_put o w.
End dev.

(** ** The device in use *)

Record msys := MSys {
  m_dev : dev;
  m_held : list Z;      (* references the callers hold *)
  m_maps : list Z       (* the objects of the memory mappings *)
}.

Inductive mevent :=
| MNew (o size : Z)
| MLookup (file handle : Z)
| MPut (n : nat)
| MCreate (file : Z) (n : nat) (new : option Z) (open : Z)
| MDelete (file handle : Z)
| MFlink (file handle : Z)
| MOpen (file name : Z) (new : option Z) (open : Z)
| MChange (file handle new : Z)
| MRelease (file : Z)
| MOffset (file handle : Z)
| MMmap (unplugged : bool) (file : Z) (a : vm_area)
| MVmOpen (n : nat)
| MVmClose (n : nat).

(** An area of whole pages whose last page has an offset, as mmap() makes them. *)
Definition area_ok (a : vm_area) : Prop :=
  0 <= vm_start a < vm_end a /\ vm_end a < 2 ^ 64 /\ 0 <= vm_pgoff a
  /\ (PAGE_SIZE | vm_end a - vm_start a) /\ vm_pgoff a + vma_pages a < 2 ^ 64.

(** A structure that kmalloc_obj() returns is in no node. *)
Definition fresh_entry (new : option Z) (v : drm_vma_offset_manager) : Prop :=
  match new with Some x => forall i, entries (vma_node v i) !! x = None | None => True end.

Definition menabled (e : mevent) (s : msys) : Prop :=
  match e with
  | MNew o size => o <> 0 /\ objs (d_gem (m_dev s)) !! o = None /\ is_u64 size
  | MPut n => is_Some (m_held s !! n)
  | MCreate _ n new _ => is_Some (m_held s !! n) /\ fresh_entry new (d_vma (m_dev s))
  | MOpen _ _ new _ => fresh_entry new (d_vma (m_dev s))
  | MMmap _ _ a => area_ok a
  | MVmOpen n | MVmClose n => is_Some (m_maps s !! n)
  | _ => True
  end.

Definition set_dev (w : dev) (s : msys) : msys := MSys w (m_held s) (m_maps s).
(** A call that leaves the offset manager alone: what it puts it has looked up, and the
    handle keeps the object. *)
Definition set_dev_gem (g : gem) (s : msys) : msys := set_dev (Dev g (d_vma (m_dev s))) s.

Section msystem.
Context `{RbTree} (idr_alloc : (Z -> bool) -> Z -> Z -> Z) (funcs : Z -> mmap_funcs).

Definition mexec (e : mevent) (s : msys) : option (Z * msys) :=
  let w := m_dev s in
  match e with
  | MNew o size => Some (0, MSys (dev_private_object_init o size w) (o :: m_held s) (m_maps s))
  | MLookup file h =>
    '(o, g) ← drm_gem_object_lookup file h (d_gem w);
    Some (match o with
          | Some o => (0, MSys (Dev g (d_vma w)) (o :: m_held s) (m_maps s))
          | None => (- ENOENT, s)
          end)
  | MPut n =>
    o ← m_held s !! n; w ← dev_object_put o w; Some (0, MSys w (delete n (m_held s)) (m_maps s))
  | MCreate file n new open =>
    o ← m_held s !! n;
    '(ret, _, w) ← dev_handle_create_tail idr_alloc file o new open w; Some (ret, set_dev w s)
  | MDelete file h => '(ret, w) ← dev_handle_delete file h w; Some (ret, set_dev w s)
  | MFlink file h =>
    '(ret, _, g) ← drm_gem_flink_ioctl idr_alloc file h (d_gem w); Some (ret, set_dev_gem g s)
  | MOpen file name new open =>
    '(ret, _, w) ← dev_open_ioctl idr_alloc file name new open w; Some (ret, set_dev w s)
  | MChange file h new =>
    '(ret, g) ← drm_gem_change_handle_ioctl idr_alloc file h new (d_gem w); Some (ret, set_dev_gem g s)
  | MRelease file => w ← dev_release file w; Some (0, set_dev w s)
  | MOffset file h => '(ret, _, w) ← drm_gem_dumb_map_offset file h w; Some (ret, set_dev w s)
  | MMmap unplugged file a =>
    '(ret, o, w) ← drm_gem_mmap unplugged funcs file a w;
    Some (ret, MSys w (m_held s) (match o with Some o => o :: m_maps s | None => m_maps s end))
  | MVmOpen n =>
    o ← m_maps s !! n; w ← drm_gem_vm_open o w; Some (0, MSys w (m_held s) (o :: m_maps s))
  | MVmClose n =>
    o ← m_maps s !! n; w ← drm_gem_vm_close o w; Some (0, MSys w (m_held s) (delete n (m_maps s)))
  end.

Definition minit : msys := MSys drm_gem_init [] [].

Inductive mreachable : msys -> Prop :=
| mreach_init : mreachable minit
| mreach_step s e ret s' :
    mreachable s -> menabled e s -> mexec e s = Some (ret, s') -> mreachable s'.
End msystem.
