(* ===== verification/GemMmapInv.v ===== *)
(** * Mapping GEM objects: access is exactly what handles grant

    The invariant of the device of GemMmap.v: the references are exact, the grants of an
    object are the handles files have to it, only live objects have offsets, and the
    offset manager is well formed; and what follows for mmap(). *)

From Stdlib Require Import ZArith Lia Bool.
From stdpp Require Import base numbers list option gmap sorting.
From S2P Require Import Prelude Gem GemInv GemSystem RbTree DrmMm DrmMmOps DrmMmSpec VmaManager GemMmap.
#[local] Open Scope Z_scope.

(** ** What an operation on one object leaves of the others *)

Definition others (o : Z) (g g' : gem) : Prop := forall j, j <> o -> objs g' !! j = objs g !! j.

Lemma others_refl o g : others o g g.
Proof. by intros j. Qed.

Lemma others_set o b g : others o g (set_obj o b g).
Proof. intros j Hj. by apply lookup_insert_ne. Qed.

Lemma others_trans o g g1 g2 : others o g g1 -> others o g1 g2 -> others o g g2.
Proof. intros H1 H2 j Hj. by rewrite H2, H1. Qed.

Lemma get_others o g g' : drm_gem_object_get o g = Some g' -> others o g g'.
Proof.
  unfold drm_gem_object_get. destruct (objs g !! o); [|done]. intros [= <-]. apply others_set.
Qed.

Lemma put_others o g g' : drm_gem_object_put o g = Some g' -> others o g g'.
Proof.
  unfold drm_gem_object_put. destruct (objs g !! o) as [b|]; [|done]. cbn [mbind option_bind].
  destruct (_ =? 1); intros [= <-]; [|apply others_set]. intros j Hj. by apply lookup_delete_ne.
Qed.

Lemma handle_get_others o g g' : drm_gem_object_handle_get o g = Some g' -> others o g g'.
Proof.
  unfold drm_gem_object_handle_get. destruct (objs g !! o) as [b|]; [|done]. cbn [mbind option_bind].
  destruct (_ =? 0); [intros Eg; eapply others_trans; [|by apply get_others]|intros [= <-]];
    apply others_set.
Qed.

Lemma handle_put_others o g g' : drm_gem_object_handle_put_unlocked o g = Some g' -> others o g g'.
Proof.
  unfold drm_gem_object_handle_put_unlocked. destruct (objs g !! o) as [b|]; [|done]. cbn [mbind option_bind].
  destruct (_ =? 0); [intros [= <-]; apply others_refl|].
  destruct (_ =? 0); [|intros [= <-]; apply others_set].
  unfold drm_gem_object_handle_free. rewrite objs_set_obj. cbn [mbind option_bind].
  intros Ep%put_others. eapply others_trans; [|exact Ep].
  destruct (_ =? 0); [apply others_set|]. intros j Hj. cbn [set_obj set_names objs].
  by rewrite !lookup_insert_ne.
Qed.

(** ** Handles and grants *)

(** The file and the object of every handle. *)
Definition pairs (l : list ((Z * Z) * option Z)) : list (Z * Z) :=
  omap (fun p => (fun o => (p.1.1, o)) <$> p.2) l.
Definition gpairs (t : idr) : list (Z * Z) := pairs (map_to_list t).

Lemma gpairs_insert t k v :
  t !! k = None -> gpairs (<[k := v]> t) ≡ₚ (match v with Some o => [(k.1, o)] | None => [] end) ++ gpairs t.
Proof. intros Hk. unfold gpairs, pairs. rewrite map_to_list_insert by done. cbn. by destruct v. Qed.

Lemma gpairs_take t k v :
  t !! k = Some v -> gpairs t ≡ₚ (match v with Some o => [(k.1, o)] | None => [] end) ++ gpairs (delete k t).
Proof. intros Hk. rewrite <- (insert_delete_id t k v Hk) at 1. apply gpairs_insert, lookup_delete_eq. Qed.

Lemma gpairs_in t file o : (file, o) ∈ gpairs t <-> exists h, t !! (file, h) = Some (Some o).
Proof.
  unfold gpairs, pairs. rewrite list_elem_of_omap. split.
  - intros ([[f h] v] & Hk%elem_of_map_to_list & Ev). cbn in Ev. destruct v; [|done].
    injection Ev as -> ->. by exists h.
  - intros [h Hh]. exists ((file, h), Some o). split; [by apply elem_of_map_to_list|done].
Qed.

Lemma gpairs_objs t : (gpairs t).*2 = hlist t.
Proof.
  unfold gpairs, hlist, named, pairs. induction (map_to_list t) as [|[k [o|]] l IH]; cbn; congruence.
Qed.

(** The ids of handles are ints that are not negative. *)
Definition keys_ok (t : idr) : Prop := map_Forall (fun k (_ : option Z) => 0 <= k.2 < 2 ^ 31) t.

(** A file has no more handles than ids. *)
Lemma gpairs_bound t file o : keys_ok t -> cnt (file, o) (gpairs t) <= 2 ^ 31.
Proof.
  intros Hk. set (l := filter (fun p : (Z * Z) * option Z => p.1.1 = file) (map_to_list t)).
  assert (Hl : cnt (file, o) (gpairs t) <= Z.of_nat (length l)).
  { unfold l, gpairs, pairs. generalize (map_to_list t). intros k.
    induction k as [|[[f h] v] k IH]; [done|]. cbn [omap list_omap]. rewrite filter_cons.
    cbn [fst snd]. destruct v as [o'|]; cbn [fmap option_fmap option_map].
    - rewrite cnt_cons. do 2 case_decide; cbn [length]; try lia. congruence.
    - case_decide; cbn [length]; lia. }
  assert (Hn : NoDup (l.*1.*2)).
  { assert (Hn : NoDup (l.*1)).
    { apply (sublist_NoDup _ (map_to_list t).*1); [apply NoDup_fst_map_to_list|].
      apply fmap_sublist, sublist_filter. }
    assert (Hf : Forall (fun k => k.1 = file) l.*1).
    { apply Forall_forall. intros k (p & -> & [Hp _]%list_elem_of_filter)%list_elem_of_fmap. done. }
    induction (l.*1) as [|[f h] k IH]; [constructor|]. apply NoDup_cons in Hn as [Hh Hn].
    apply Forall_cons_1 in Hf as [Ef Hf]. cbn in Ef. subst f. constructor; [|by apply IH].
    intros ([f h'] & Eh & Hin)%list_elem_of_fmap. cbn in Eh. subst h'. rewrite Forall_forall in Hf.
    by rewrite (Hf _ Hin : f = file) in Hin. }
  assert (Hi : incl (l.*1.*2) (seqZ 0 (2 ^ 31))).
  { intros h Hh%list_elem_of_In. apply list_elem_of_In, elem_of_seqZ.
    apply list_elem_of_fmap in Hh as (k & -> & Hh). apply list_elem_of_fmap in Hh as (p & -> & Hh).
    apply list_elem_of_filter in Hh as [_ Hh]. destruct p as [k v]. apply elem_of_map_to_list in Hh.
    specialize (Hk k v Hh). cbn in *. lia. }
  apply NoDup_ListNoDup in Hn. pose proof (List.NoDup_incl_length Hn Hi) as Hle. rewrite !length_fmap, length_seqZ in Hle. lia.
Qed.

(** A count of no grant is no entry. *)
Definition tally (k : Z) : option Z := if k =? 0 then None else Some k.

Lemma spec_allow_tally g file k new :
  g !! file = tally k -> 0 <= k < 2 ^ 64 - 1 ->
  let '(ret, g') := spec_allow file true new g in
  (ret = 0 /\ g' = <[file := k + 1]> g) \/ (ret = - ENOMEM /\ new = None /\ g' = g).
Proof.
  intros Eg Hk. unfold spec_allow. rewrite Eg. unfold tally. destruct (Z.eqb_spec k 0) as [->|Hne].
  - destruct new; [by left|by right].
  - left. rewrite u64_small by (unfold is_u; lia). by split.
Qed.

Lemma spec_revoke_tally g file k :
  g !! file = tally (1 + k) -> 0 <= k < 2 ^ 64 - 1 ->
  forall f, spec_revoke file g !! f = if decide (f = file) then tally k else g !! f.
Proof.
  intros Eg Hk f. unfold spec_revoke. rewrite Eg. unfold tally at 1. destruct (Z.eqb_spec (1 + k) 0); [lia|].
  replace (1 + k - 1) with k by lia. rewrite u64_small by (unfold is_u; lia). unfold tally.
  destruct (Z.eqb_spec k 0) as [->|].
  - case_decide as Hd; [subst; by rewrite lookup_delete_eq|by rewrite lookup_delete_ne].
  - case_decide as Hd; [subst; by rewrite lookup_insert_eq|by rewrite lookup_insert_ne].
Qed.

(** ** The invariant *)

Abbreviation space_start := DRM_FILE_PAGE_OFFSET_START.
Abbreviation space_end := VmaSample.file_space_end.

(** What holds of a device while the handle references are [hs], the other references
    [rs] and the grants [ps]. *)
Record dev_mid (w : dev) (hs rs : list Z) (ps : list (Z * Z)) : Prop := {
  dm_balanced : balanced (d_gem w) hs rs;
  dm_vma : vma_inv space_start space_end (d_vma w);
  dm_grants o file : grants (vma_node (d_vma w) o) !! file = tally (cnt (file, o) ps);
  dm_ranges o p : ranges_of (d_vma w) !! o = Some p -> alive o (d_gem w);
  dm_nonzero o : alive o (d_gem w) -> o <> 0
}.

Lemma dev_mid_perm w hs hs' rs rs' ps ps' :
  hs ≡ₚ hs' -> rs ≡ₚ rs' -> ps ≡ₚ ps' -> dev_mid w hs rs ps -> dev_mid w hs' rs' ps'.
Proof.
  intros Hh Hr Hp [B V G R N]. split; [by rewrite <- Hh, <- Hr|done| |done|done].
  intros o file. by rewrite G, Hp.
Qed.

#[export] Instance dev_mid_proper w : Proper ((≡ₚ) ==> (≡ₚ) ==> (≡ₚ) ==> iff) (dev_mid w).
Proof. intros a a' Ha b b' Hb c c' Hc. split; apply dev_mid_perm; by symmetry || done. Qed.

(** The handle table does not matter. *)
Lemma mid_set_idr w t hs rs ps :
  dev_mid w hs rs ps -> dev_mid (Dev (set_idr t (d_gem w)) (d_vma w)) hs rs ps.
Proof. intros [B V G R N]. split; [by apply balanced_set_idr|done..]. Qed.

Lemma mid_alive w hs rs ps o : dev_mid w hs rs ps -> o ∈ hs ++ rs -> alive o (d_gem w).
Proof. intros M. apply (ba_held _ _ _ (dm_balanced _ _ _ _ M)). Qed.

(** Between two calls. *)
Record dev_ok (w : dev) (rs : list Z) : Prop := {
  dk_mid : dev_mid w (hlist (object_idr (d_gem w))) rs (gpairs (object_idr (d_gem w)));
  dk_no_null : no_null (object_idr (d_gem w));
  dk_keys : keys_ok (object_idr (d_gem w))
}.

Lemma dev_ok_perm w rs rs' : rs ≡ₚ rs' -> dev_ok w rs -> dev_ok w rs'.
Proof. intros Hr [M N K]. split; [by rewrite <- Hr|done|done]. Qed.

#[export] Instance dev_ok_proper w : Proper ((≡ₚ) ==> iff) (dev_ok w).
Proof. intros a a' Ha. split; apply dev_ok_perm; by symmetry || done. Qed.

Lemma dev_ok_store w rs : dev_ok w rs -> store_ok (d_gem w) [] rs.
Proof. intros [M N K]. split; [|done]. rewrite app_nil_r. apply M. Qed.

Section ops.
Context `{RbTree} `{!RbTreeLaws}.

(** Changing the objects. *)
Lemma mid_objects w hs rs ps hs' rs' g o :
  dev_mid w hs rs ps -> balanced g hs' rs' -> others o (d_gem w) g ->
  (alive o g <-> alive o (d_gem w)) -> dev_mid (Dev g (d_vma w)) hs' rs' ps.
Proof.
  intros [B V G R N] B' Ho Ha.
  assert (Hj : forall j, alive j g <-> alive j (d_gem w)).
  { intros j. destruct (decide (j = o)) as [->|Hj]; [done|]. unfold alive. by rewrite Ho. }
  split; [done|done|done| |]; cbn [d_gem d_vma].
  - intros j p Hp. by apply Hj, (R j p).
  - intros j. rewrite Hj. apply N.
Qed.

(** Freeing takes the offset with it. *)
Lemma mid_settle w hs rs ps hs' rs' g o :
  dev_mid w hs rs ps -> balanced g hs' rs' -> others o (d_gem w) g -> alive o (d_gem w) ->
  dev_mid (settle o g (d_vma w)) hs' rs' ps.
Proof.
  intros M B' Ho Ha. unfold settle. destruct (objs g !! o) as [b|] eqn:E.
  - apply (mid_objects w hs rs _ _ _ g o M B' Ho). unfold alive in *. rewrite E. split; [done|by eexists].
  - destruct M as [B V G R N].
    assert (Hj : forall j, alive j g -> j <> o /\ alive j (d_gem w)).
    { intros j [b Hj]. assert (j <> o) by (intros ->; congruence). split; [done|].
      exists b. by rewrite <- Ho. }
    destruct (remove_vma_ok _ _ (d_vma w) o V (N o Ha)) as (V' & ER & EC).
    split; cbn [d_gem d_vma]; [done|exact V'| | |].
    + intros j file. rewrite <- counts_total. unfold drm_gem_free_mmap_offset. rewrite EC, counts_total. apply G.
    + intros j p. unfold drm_gem_free_mmap_offset. rewrite ER.
      intros [Hne Hp]%lookup_delete_Some. unfold alive. rewrite Ho by done. by apply (R j p).
    + intros j Hja. by apply N, Hj.
Qed.

Lemma mid_put w hs rs ps o : dev_mid w hs (o :: rs) ps ->
  exists w', dev_object_put o w = Some w' /\ dev_mid w' hs rs ps /\ same_idr (d_gem w) (d_gem w').
Proof.
  intros M. destruct (put_ok _ _ _ _ (dm_balanced _ _ _ _ M)) as (g' & E & B' & S').
  unfold dev_object_put. rewrite E. cbn [mbind option_bind]. eexists. split; [done|].
  split; [|exact S']. apply (mid_settle w hs (o :: rs)); [done|done|by apply put_others|].
  apply (mid_alive _ _ _ _ _ M), elem_of_app. right. by left.
Qed.

Lemma mid_handle_put w hs rs ps o : dev_mid w (o :: hs) rs ps ->
  exists w', dev_object_handle_put_unlocked o w = Some w' /\ dev_mid w' hs rs ps
    /\ same_idr (d_gem w) (d_gem w').
Proof.
  intros M. destruct (handle_put_ok _ _ _ _ (dm_balanced _ _ _ _ M)) as (g' & E & B' & S').
  unfold dev_object_handle_put_unlocked. rewrite E. cbn [mbind option_bind]. eexists. split; [done|].
  split; [|exact S']. apply (mid_settle w (o :: hs) rs); [done|done|by apply handle_put_others|].
  apply (mid_alive _ _ _ _ _ M), elem_of_app. left. by left.
Qed.

Lemma mid_get w hs rs ps o : dev_mid w hs rs ps -> alive o (d_gem w) ->
  exists g', drm_gem_object_get o (d_gem w) = Some g'
    /\ dev_mid (Dev g' (d_vma w)) hs (o :: rs) ps /\ same_idr (d_gem w) g'.
Proof.
  intros M Ha. destruct (get_ok _ _ _ o (dm_balanced _ _ _ _ M) Ha) as (g' & E & B' & S').
  exists g'. split; [done|]. split; [|done].
  apply (mid_objects w hs rs _ _ _ g' o M B'); [by apply get_others|]. split; [done|]. intros _.
  apply (ba_held _ _ _ B'), elem_of_app. right. by left.
Qed.

Lemma mid_handle_get w hs rs ps o : dev_mid w hs rs ps -> alive o (d_gem w) ->
  exists g', drm_gem_object_handle_get o (d_gem w) = Some g'
    /\ dev_mid (Dev g' (d_vma w)) (o :: hs) rs ps /\ same_idr (d_gem w) g'.
Proof.
  intros M Ha. destruct (handle_get_ok _ _ _ o (dm_balanced _ _ _ _ M) Ha) as (g' & E & B' & S').
  exists g'. split; [done|]. split; [|done].
  apply (mid_objects w hs rs _ _ _ g' o M B'); [by apply handle_get_others|]. split; [done|]. intros _.
  apply (ba_held _ _ _ B'), elem_of_app. left. by left.
Qed.

(** Granting. *)
Lemma mid_set_node w hs rs ps ps' o n :
  dev_mid w hs rs ps -> files_ok n ->
  (forall file, grants n !! file = tally (cnt (file, o) ps')) ->
  (forall file j, j <> o -> cnt (file, j) ps' = cnt (file, j) ps) ->
  dev_mid (Dev (d_gem w) (set_node o n (d_vma w))) hs rs ps'.
Proof.
  intros [B V G R N] Hn Hg Hps. split; cbn [d_gem d_vma]; [done|by apply set_node_inv| |done|done].
  intros j file. unfold vma_node. cbn [set_node vma_nodes].
  destruct (decide (j = o)) as [->|Hj]; [by rewrite lookup_total_insert_eq|].
  rewrite lookup_total_insert_ne by done. rewrite Hps by done. apply G.
Qed.

Lemma mid_allow w hs rs ps o file new :
  dev_mid w hs rs ps -> fresh_entry new (d_vma w) -> cnt (file, o) ps < 2 ^ 64 - 1 ->
  exists ret v, drm_vma_node_allow o file new (d_vma w) = (ret, v)
    /\ (ret = 0 /\ dev_mid (Dev (d_gem w) v) hs rs ((file, o) :: ps)
        \/ ret = - ENOMEM /\ new = None /\ dev_mid (Dev (d_gem w) v) hs rs ps).
Proof.
  intros M Hnew Hk. unfold drm_vma_node_allow.
  pose proof (allow_ok (vma_node (d_vma w) o) file true new (vma_node_ok _ _ _ o (dm_vma _ _ _ _ M))
    ltac:(by destruct new)) as Ha.
  destruct (vma_node_allow file true new (vma_node (d_vma w) o)) as [ret n]. destruct Ha as [Hn Ha].
  pose proof (spec_allow_tally _ file _ new (dm_grants _ _ _ _ M o file)
    (conj (cnt_nonneg (file, o) ps) Hk)) as Hs. rewrite Ha in Hs.
  eexists _, _. split; [done|].
  destruct Hs as [[-> Eg]|(-> & -> & Eg)]; [left|right].
  - split; [done|]. apply (mid_set_node w hs rs ps); [done|done| |].
    + intros f. rewrite Eg, cnt_cons. pose proof (cnt_nonneg (file, o) ps).
      destruct (decide (f = file)) as [->|Hf].
      * rewrite lookup_insert_eq, decide_True by done. unfold tally.
        destruct (Z.eqb_spec (1 + cnt (file, o) ps) 0); [lia|]. by rewrite Z.add_comm.
      * rewrite lookup_insert_ne, decide_False by congruence. apply (dm_grants _ _ _ _ M).
    + intros f j Hj. apply cnt_cons_ne. congruence.
  - split; [done|]. split; [done|]. apply (mid_set_node w hs rs ps); [done|done| |done].
    intros f. rewrite Eg. apply (dm_grants _ _ _ _ M).
Qed.

Lemma mid_revoke w hs rs ps o file :
  dev_mid w hs rs ((file, o) :: ps) -> cnt (file, o) ps < 2 ^ 64 - 1 ->
  dev_mid (Dev (d_gem w) (drm_vma_node_revoke o file (d_vma w))) hs rs ps.
Proof.
  intros M Hk. destruct (revoke_ok (vma_node (d_vma w) o) file (vma_node_ok _ _ _ o (dm_vma _ _ _ _ M)))
    as [Hn Hr].
  pose proof (dm_grants _ _ _ _ M o file) as Hg. rewrite cnt_cons_eq in Hg.
  pose proof (spec_revoke_tally _ file _ Hg (conj (cnt_nonneg (file, o) ps) Hk)) as Hs.
  apply (mid_set_node w hs rs ((file, o) :: ps)); [done|done| |].
  - intros f. rewrite Hr, Hs. case_decide as Hf; [by subst|].
    rewrite (dm_grants _ _ _ _ M o f), cnt_cons_ne by congruence. done.
  - intros f j Hj. rewrite cnt_cons_ne by congruence. done.
Qed.

(** ** The calls *)

Lemma dev_ok_of w t rs :
  object_idr (d_gem w) = t -> dev_mid w (hlist t) rs (gpairs t) -> no_null t -> keys_ok t -> dev_ok w rs.
Proof. intros <- M N K. by split. Qed.

Lemma keys_insert t k v : keys_ok t -> 0 <= k.2 < 2 ^ 31 -> keys_ok (<[k := v]> t).
Proof. intros Ht Hk. by apply map_Forall_insert_2. Qed.

Lemma keys_delete t k : keys_ok t -> keys_ok (delete k t).
Proof. intros Ht. by apply map_Forall_delete. Qed.

Lemma grant_bound w rs file o : dev_ok w rs -> cnt (file, o) (gpairs (object_idr (d_gem w))) < 2 ^ 64 - 1.
Proof. intros [_ _ K]. pose proof (gpairs_bound _ file o K). lia. Qed.

Lemma new_dev_ok w rs o size : dev_ok w rs -> o <> 0 -> objs (d_gem w) !! o = None ->
  dev_ok (dev_private_object_init o size w) (o :: rs).
Proof.
  intros Hw Ho Hn. pose proof (new_ok _ _ _ o size (dev_ok_store w rs Hw) Hn) as [B' N'].
  rewrite app_nil_r in B'. destruct Hw as [[B V G R N] Nn K].
  assert (Hd : ~ alive o (d_gem w)) by (unfold alive; rewrite Hn; by intros []).
  assert (Hr : o ∉ ring (vm_addr_space_mm (d_vma w))).
  { intros [?|Hin]%elem_of_cons; [done|]. apply abs_is_Some in Hin as [p Hp]. by apply Hd, (R o p). }
  destruct (reset_ok _ _ (d_vma w) o V Hr) as (V' & ER & EC).
  assert (Hp : forall file, cnt (file, o) (gpairs (object_idr (d_gem w))) = 0).
  { intros file. destruct (decide (0 < cnt (file, o) (gpairs (object_idr (d_gem w))))) as [Hc|Hc].
    - apply cnt_pos in Hc. exfalso. apply Hd, (ba_held _ _ _ B), elem_of_app. left.
      rewrite <- gpairs_objs. apply list_elem_of_fmap. by exists (file, o).
    - pose proof (cnt_nonneg (file, o) (gpairs (object_idr (d_gem w)))). lia. }
  apply (dev_ok_of _ (object_idr (d_gem w))); [done| |done|done].
  split; cbn [d_gem d_vma dev_private_object_init]; [exact B'|exact V'| | |].
  - intros j file. rewrite <- counts_total, EC. destruct (decide (j = o)) as [->|Hj].
    + rewrite lookup_total_insert_eq, Hp. apply lookup_empty.
    + rewrite lookup_total_insert_ne, counts_total by done. apply G.
  - intros j p. rewrite ER. intros Hj. unfold alive. cbn [drm_gem_private_object_init set_obj objs].
    destruct (decide (j = o)) as [->|Hne]; [rewrite lookup_insert_eq; by eexists|].
    rewrite lookup_insert_ne by done. by apply (R j p).
  - intros j. unfold alive. cbn [drm_gem_private_object_init set_obj objs].
    destruct (decide (j = o)) as [->|Hne]; [done|]. rewrite lookup_insert_ne by done. apply N.
Qed.

Lemma put_dev_ok w rs o : dev_ok w (o :: rs) ->
  exists w', dev_object_put o w = Some w' /\ dev_ok w' rs /\ same_idr (d_gem w) (d_gem w').
Proof.
  intros [M N K]. destruct (mid_put w _ rs _ o M) as (w' & E & M' & S'). exists w'.
  split; [done|]. split; [|done]. by apply (dev_ok_of _ _ _ S').
Qed.

Lemma get_dev_ok w rs o : dev_ok w rs -> alive o (d_gem w) ->
  exists g', drm_gem_object_get o (d_gem w) = Some g' /\ dev_ok (Dev g' (d_vma w)) (o :: rs)
    /\ same_idr (d_gem w) g'.
Proof.
  intros [M N K] Ha. destruct (mid_get w _ rs _ o M Ha) as (g' & E & M' & S'). exists g'.
  split; [done|]. split; [|done]. by apply (dev_ok_of (Dev g' (d_vma w)) _ _ S').
Qed.

(** Putting the handle reference of an entry that is gone, with its grant or without. *)
Lemma drop_handle_ok g v t rs o :
  dev_mid (Dev g v) (o :: hlist t) rs (gpairs t) -> no_null t -> keys_ok t -> object_idr g = t ->
  exists w', dev_object_handle_put_unlocked o (Dev g v) = Some w' /\ dev_ok w' rs.
Proof.
  intros M N K E. destruct (mid_handle_put _ _ rs _ o M) as (w' & Ep & M' & S'). exists w'.
  split; [done|]. apply (dev_ok_of _ t); [|done..]. rewrite S'. exact E.
Qed.

Section alloc.
Context (idr_alloc : (Z -> bool) -> Z -> Z -> Z).
Hypothesis idr_alloc_fresh : forall used s e,
  0 <= idr_alloc used s e -> s <= idr_alloc used s e /\ used (idr_alloc used s e) = false.
Hypothesis idr_alloc_int : forall used s e, idr_alloc used s e < 2 ^ 31.

Lemma dev_create_tail_ok w rs file o new open :
  dev_ok w rs -> alive o (d_gem w) -> fresh_entry new (d_vma w) ->
  exists ret h w', dev_handle_create_tail idr_alloc file o new open w = Some (ret, h, w') /\ dev_ok w' rs.
Proof.
  intros Hw Ha Hnew. pose proof (grant_bound w rs file o Hw) as Hb. destruct Hw as [M N K].
  unfold dev_handle_create_tail.
  destruct (mid_handle_get w _ rs _ o M Ha) as (g & -> & M1 & S1). cbn [mbind option_bind].
  unfold same_idr in S1. set (t := object_idr (d_gem w)) in *.
  set (r := idr_alloc (used file g) 1 0).
  destruct (Z.ltb_spec r 0) as [Hr|Hr].
  { destruct (drop_handle_ok g (d_vma w) t rs o M1 N K S1) as (w' & -> & Hw'). by exists r, 0, w'. }
  destruct (idr_alloc_fresh (used file g) 1 0 Hr) as [_ Hk%used_false]. fold r in Hk. rewrite S1 in Hk.
  destruct (mid_allow _ _ _ _ o file new M1 Hnew Hb) as (ret & v & Ev & Hv).
  cbn [d_gem d_vma] in Ev, Hv. rewrite Ev.
  cbn [set_idr object_idr]. rewrite S1, insert_insert_eq, (delete_insert_id t (file, r)) by done.
  assert (Hdrop : forall v, dev_mid (Dev g v) (o :: hlist t) rs (gpairs t) ->
    exists w', dev_object_handle_put_unlocked o (Dev (set_idr t (set_idr (<[(file, r) := None]> t) g)) v) = Some w'
      /\ dev_ok w' rs).
  { intros u Mu. apply (drop_handle_ok _ u t rs o); [|done..]. apply (mid_set_idr (Dev _ u)).
    by apply (mid_set_idr (Dev g u)). }
  destruct Hv as [[-> Mv]|(-> & -> & Mv)]; cbn [negb Z.eqb].
  - destruct (Z.eqb_spec open 0) as [Ho|Ho]; cbn [negb].
    + eexists _, _, _. split; [done|].
      apply (dev_ok_of _ (<[(file, r) := Some o]> t)); [done| |by apply no_null_insert|].
      * rewrite (hlist_insert t (file, r) (Some o) Hk), (gpairs_insert t (file, r) (Some o) Hk).
        apply (mid_set_idr (Dev _ v)). by apply (mid_set_idr (Dev g v)).
      * apply keys_insert; [done|]. cbn. pose proof (idr_alloc_int (used file g) 1 0). lia.
    + destruct (Hdrop (drm_vma_node_revoke o file v)) as (w' & -> & Hw');
        [by apply (mid_revoke (Dev g v))|]. by exists open, 0, w'.
  - destruct (Hdrop v Mv) as (w' & -> & Hw'). by exists (- ENOMEM), 0, w'.
Qed.

Lemma dev_delete_ok w rs file h : dev_ok w rs ->
  exists ret w', dev_handle_delete file h w = Some (ret, w') /\ dev_ok w' rs.
Proof.
  intros Hw. pose proof Hw as [M N K]. unfold dev_handle_delete. set (t := object_idr (d_gem w)) in *.
  destruct (t !! (file, h)) as [[o|]|] eqn:E; [|by eexists _, w..].
  rewrite (hlist_take _ _ _ E), (gpairs_take _ _ _ E) in M. cbn [app fst] in M.
  unfold dev_object_release_handle.
  set (g1 := set_idr (<[(file, h) := None]> t) (d_gem w)).
  assert (M1 : dev_mid (Dev g1 (drm_vma_node_revoke o file (d_vma w))) (o :: hlist (delete (file, h) t)) rs
                 (gpairs (delete (file, h) t))).
  { apply (mid_revoke (Dev g1 (d_vma w))); [by apply mid_set_idr|].
    pose proof (gpairs_bound _ file o (keys_delete t (file, h) K)). lia. }
  destruct (mid_handle_put _ _ rs _ o M1) as (w' & Ep & M2 & S2). cbn [d_gem d_vma] in Ep |- *.
  rewrite Ep. cbn [mbind option_bind].
  assert (Et : delete (file, h) (object_idr (d_gem w')) = delete (file, h) t).
  { rewrite S2. cbn [g1 d_gem set_idr object_idr]. apply delete_insert_eq. }
  eexists _, _. split; [done|]. rewrite Et.
  apply (dev_ok_of _ (delete (file, h) t)); [done|by apply mid_set_idr|by apply no_null_delete|by apply keys_delete].
Qed.

Lemma dev_open_ok w rs file name new open : dev_ok w rs -> fresh_entry new (d_vma w) ->
  exists ret h w', dev_open_ioctl idr_alloc file name new open w = Some (ret, h, w') /\ dev_ok w' rs.
Proof.
  intros Hw Hnew. unfold dev_open_ioctl.
  destruct (object_name_idr (d_gem w) !! name) as [o|] eqn:E; [|by eexists _, _, w].
  assert (Ha : alive o (d_gem w)).
  { destruct (ba_names _ _ _ (dm_balanced _ _ _ _ (dk_mid _ _ Hw)) name o E) as [_ (b & Eb & _)]. by exists b. }
  destruct (get_dev_ok w rs o Hw Ha) as (g & -> & Hg & _). cbn [mbind option_bind].
  assert (Ha1 : alive o g).
  { apply (mid_alive _ _ _ _ o (dk_mid _ _ Hg)), elem_of_app. right. by left. }
  destruct (dev_create_tail_ok _ (o :: rs) file o new open Hg Ha1 Hnew) as (ret & h & w1 & -> & Hw1).
  cbn [mbind option_bind]. destruct (put_dev_ok w1 rs o Hw1) as (w' & -> & Hw' & _). by eexists _, _, w'.
Qed.

(** A call that stays in the store and frees nothing. *)
Lemma dev_gem_ok w rs rs' g t :
  dev_ok w rs -> balanced g (hlist t) rs' -> object_idr g = t ->
  no_null t -> keys_ok t -> gpairs t ≡ₚ gpairs (object_idr (d_gem w)) ->
  (forall j, alive j g <-> alive j (d_gem w)) -> dev_ok (Dev g (d_vma w)) rs'.
Proof.
  intros [[B V G R Nz] N K] B' Et N' K' Hp Ha. apply (dev_ok_of _ t); [done| |done..].
  split; cbn [d_gem d_vma]; [done|done| | |].
  - intros o file. by rewrite G, Hp.
  - intros o p Hr. by apply Ha, (R o p).
  - intros o Ho. by apply Nz, Ha.
Qed.

(** The object of a handle is alive before and after, the others are not touched. *)
Lemma same_alive w rs g rs' file h o h' :
  dev_ok w rs -> balanced g (hlist (object_idr g)) rs' -> others o (d_gem w) g ->
  object_idr (d_gem w) !! (file, h) = Some (Some o) -> object_idr g !! (file, h') = Some (Some o) ->
  forall j, alive j g <-> alive j (d_gem w).
Proof.
  intros Hw B Ho E E' j. destruct (decide (j = o)) as [->|Hj]; [|unfold alive; by rewrite Ho].
  split; intros _; [|].
  - apply (mid_alive _ _ _ _ o (dk_mid _ _ Hw)), elem_of_app. left. rewrite (hlist_take _ _ _ E). by left.
  - apply (ba_held _ _ _ B), elem_of_app. left. rewrite (hlist_take _ _ _ E'). by left.
Qed.

Lemma lookup_frame file h g o g' : drm_gem_object_lookup file h g = Some (Some o, g') ->
  object_idr g !! (file, h) = Some (Some o) /\ drm_gem_object_get o g = Some g'
  /\ others o g g' /\ same_idr g g'.
Proof.
  unfold drm_gem_object_lookup, idr_find.
  destruct (object_idr g !! (file, h)) as [[j|]|]; cbn [mjoin option_join]; try done.
  destruct (drm_gem_object_get j g) as [g1|] eqn:E; [|done]. intros [= -> ->].
  split; [done|]. split; [done|]. split; [by apply get_others|].
  unfold drm_gem_object_get in E. destruct (objs g !! o); [|done]. by injection E as <-.
Qed.

Lemma put_same_idr o g g' : drm_gem_object_put o g = Some g' -> same_idr g g'.
Proof.
  unfold drm_gem_object_put. destruct (objs g !! o) as [b|]; [|done]. cbn [mbind option_bind].
  by destruct (_ =? 1); intros [= <-].
Qed.

Lemma dev_lookup_ok w rs file h : dev_ok w rs ->
  exists o g', drm_gem_object_lookup file h (d_gem w) = Some (o, g')
    /\ match o with
       | Some o => object_idr (d_gem w) !! (file, h) = Some (Some o)
                   /\ dev_ok (Dev g' (d_vma w)) (o :: rs) /\ same_idr (d_gem w) g'
       | None => object_idr (d_gem w) !! (file, h) = None /\ g' = d_gem w
       end.
Proof.
  intros Hw. destruct (lookup_ok _ [] rs file h (dev_ok_store w rs Hw)) as (o & g' & E & S & Ho).
  exists o, g'. split; [done|]. destruct o as [o|]; [|done]. destruct Ho as [Ho _].
  split; [done|]. destruct (lookup_frame file h _ o g' E) as (_ & Eg & _).
  assert (Ha : alive o (d_gem w)) by (apply (entry_alive _ [] rs file h); [by apply dev_ok_store|done]).
  destruct (get_dev_ok w rs o Hw Ha) as (g1 & E1 & Hg & S1). rewrite Eg in E1. by injection E1 as <-.
Qed.

Lemma flink_frame file h g ret n g' : drm_gem_flink_ioctl idr_alloc file h g = Some (ret, n, g') ->
  same_idr g g' /\ ((exists o, object_idr g !! (file, h) = Some (Some o) /\ others o g g') \/ g' = g).
Proof.
  unfold drm_gem_flink_ioctl. destruct (drm_gem_object_lookup file h g) as [[[o|] g1]|] eqn:El; [|..|done].
  2: { unfold drm_gem_object_lookup in El. destruct (idr_find file h g) as [j|].
       - by destruct (drm_gem_object_get j g).
       - injection El as <-. intros [= _ _ <-]. split; [done|by right]. }
  destruct (lookup_frame file h g o g1 El) as (Eh & _ & O1 & S1). cbn [mbind option_bind].
  destruct (objs g1 !! o) as [b|]; [|done]. cbn [mbind option_bind].
  match goal with |- context [let '(_, _) := ?x in _] => set (named_g := x) end.
  assert (Hn : others o g1 named_g.2 /\ same_idr g1 named_g.2).
  { unfold named_g. destruct (_ =? 0); [split; [apply others_refl|done]|].
    destruct (_ =? 0); [|split; [apply others_refl|done]]. destruct (_ <? 0); [split; [apply others_refl|done]|].
    split; [|done]. intros j Hj. cbn [snd set_obj set_names objs]. by apply lookup_insert_ne. }
  destruct named_g as [r g2]. cbn [snd] in Hn. destruct Hn as [O2 S2].
  destruct (objs g2 !! o); [|done]. cbn [mbind option_bind].
  destruct (drm_gem_object_put o g2) as [g3|] eqn:Ep; [|done]. intros [= _ _ <-].
  pose proof (put_same_idr _ _ _ Ep) as S3. unfold same_idr in *. split; [congruence|]. left. exists o. split; [done|].
  eapply others_trans; [exact O1|]. eapply others_trans; [exact O2|]. by apply put_others.
Qed.

Lemma flink_dev_ok w rs file h : dev_ok w rs ->
  exists ret n g', drm_gem_flink_ioctl idr_alloc file h (d_gem w) = Some (ret, n, g')
    /\ dev_ok (Dev g' (d_vma w)) rs.
Proof.
  intros Hw. destruct (flink_ok idr_alloc idr_alloc_fresh _ [] rs file h (dev_ok_store w rs Hw))
    as (ret & n & g' & E & [B' N']).
  exists ret, n, g'. split; [done|]. rewrite app_nil_r in B'.
  destruct (flink_frame _ _ _ _ _ _ E) as [S Hf]. destruct Hf as [(o & Eo & Ho)| ->]; [|by destruct w].
  unfold same_idr in S. apply (dev_gem_ok w rs rs g' (object_idr g')); try done.
  - rewrite S. apply Hw.
  - by rewrite S.
  - apply (same_alive w rs g' rs file h o h); try done. by rewrite S.
Qed.

Lemma change_frame file h new g ret g' : drm_gem_change_handle_ioctl idr_alloc file h new g = Some (ret, g') ->
  g' = g \/ exists o, object_idr g !! (file, h) = Some (Some o) /\ others o g g'
    /\ (same_idr g g' \/ exists r, 0 <= r < 2 ^ 31 /\ object_idr g !! (file, r) = None
          /\ object_idr g' = delete (file, h) (<[(file, r) := Some o]> (object_idr g))).
Proof.
  unfold drm_gem_change_handle_ioctl. destruct (_ <? new); [intros [= _ <-]; by left|].
  destruct (drm_gem_object_lookup file h g) as [[[o|] g1]|] eqn:El; [|..|done].
  2: { unfold drm_gem_object_lookup in El. destruct (idr_find file h g) as [j|].
       - by destruct (drm_gem_object_get j g).
       - injection El as <-. intros [= _ <-]. by left. }
  destruct (lookup_frame file h g o g1 El) as (Eh & _ & O1 & S1). cbn [mbind option_bind].
  match goal with |- context [let '(_, _) := ?x in _] => set (changed := x) end.
  assert (Hc : others o g1 changed.2 /\ (same_idr g1 changed.2
    \/ exists r, 0 <= r < 2 ^ 31 /\ object_idr g1 !! (file, r) = None
        /\ object_idr changed.2 = delete (file, h) (<[(file, r) := Some o]> (object_idr g1)))).
  { unfold changed. destruct (h =? new); [split; [apply others_refl|by left]|].
    unfold change_handle_alloc, change_handle_remove. set (r := idr_alloc _ _ _).
    destruct (Z.ltb_spec r 0) as [Hr|Hr].
    - apply Z.ltb_lt in Hr. rewrite Hr. split; [apply others_refl|by left].
    - change (0 <? 0) with false. split; [by intros j|]. right. exists r.
      destruct (idr_alloc_fresh (used file g1) new (s32 (new + 1)) Hr) as [_ Hk%used_false].
      pose proof (idr_alloc_int (used file g1) new (s32 (new + 1))). split; [unfold r in *; lia|done]. }
  destruct changed as [r g2]. cbn [snd] in Hc. destruct Hc as [O2 Hc].
  destruct (drm_gem_object_put o g2) as [g3|] eqn:Ep; [|done]. intros [= _ <-].
  pose proof (put_same_idr _ _ _ Ep) as S3. unfold same_idr in *. right. exists o. split; [done|]. split.
  - eapply others_trans; [exact O1|]. eapply others_trans; [exact O2|]. by apply put_others.
  - destruct Hc as [|(k & Hk & Ek & Ei)]; [left; congruence|]. right. exists k.
    rewrite <- S1. split; [done|]. split; [done|]. congruence.
Qed.

Lemma change_dev_ok w rs file h new : dev_ok w rs ->
  exists ret g', drm_gem_change_handle_ioctl idr_alloc file h new (d_gem w) = Some (ret, g')
    /\ dev_ok (Dev g' (d_vma w)) rs.
Proof.
  intros Hw. destruct (change_handle_ok idr_alloc idr_alloc_fresh _ [] rs file h new (dev_ok_store w rs Hw))
    as (ret & g' & E & [B' N']).
  exists ret, g'. split; [done|]. rewrite app_nil_r in B'.
  destruct (change_frame _ _ _ _ _ _ E) as [->|(o & Eo & Ho & Hi)]; [by destruct w|].
  destruct Hi as [S|(r & Hr & Er & S)].
  - unfold same_idr in S. apply (dev_gem_ok w rs rs g' (object_idr g')); try done.
    + rewrite S. apply Hw.
    + by rewrite S.
    + apply (same_alive w rs g' rs file h o h); try done. by rewrite S.
  - assert (Hne : (file, r) <> (file, h)) by (intros Heq; rewrite Heq in Er; congruence).
    apply (dev_gem_ok w rs rs g' (object_idr g')); try done.
    + rewrite S. apply keys_delete, keys_insert; [apply Hw|done].
    + rewrite S. apply (Permutation_cons_inv (a := (file, o))).
      pose proof (gpairs_take (<[(file, r) := Some o]> (object_idr (d_gem w))) (file, h) (Some o)) as Ht.
      rewrite lookup_insert_ne in Ht by done. cbn [app fst] in Ht. rewrite <- (Ht Eo).
      apply (gpairs_insert _ (file, r) (Some o) Er).
    + apply (same_alive w rs g' rs file h o r); try done. rewrite S, lookup_delete_ne by congruence.
      apply lookup_insert_eq.
Qed.

(** *** Closing a file *)

Lemma gpairs_file t file :
  gpairs t ≡ₚ pairs (filter (fun p => p.1.1 = file) (map_to_list t))
              ++ gpairs (filter (fun p => p.1.1 <> file) t).
Proof.
  unfold gpairs, pairs. rewrite map_filter_alt, map_to_list_to_map.
  - rewrite <- omap_app. apply omap_Permutation. symmetry.
    apply (filter_app_complement (fun p : (Z * Z) * option Z => p.1.1 = file)).
  - apply (sublist_NoDup _ (map_to_list t).*1); [apply NoDup_fst_map_to_list|].
    apply fmap_sublist, sublist_filter.
Qed.

Lemma dev_release_handles_ok file l : forall w hs rs ps,
  Forall (fun p : (Z * Z) * option Z => p.2 <> None /\ p.1.1 = file) l ->
  dev_mid w (named l ++ hs) rs (pairs l ++ ps) ->
  (forall o, cnt (file, o) (pairs l ++ ps) < 2 ^ 64 - 1) ->
  exists w', dev_release_handles file l w = Some w' /\ dev_mid w' hs rs ps /\ same_idr (d_gem w) (d_gem w').
Proof.
  induction l as [|[[f h] [o|]] l IH]; intros w hs rs ps Hl M Hb;
    cbn [dev_release_handles named pairs omap list_omap snd fst fmap option_fmap option_map] in *.
  - by exists w.
  - apply Forall_cons_1 in Hl as [[_ Hf] Hl]. cbn in Hf. subst f. fold (pairs l) in *. fold (named l) in *.
    assert (Hb' : forall j, cnt (file, j) (pairs l ++ ps) < 2 ^ 64 - 1).
    { intros j. specialize (Hb j). cbn [app] in Hb. rewrite cnt_cons in Hb. case_decide; lia. }
    unfold dev_object_release_handle.
    pose proof (mid_revoke w _ rs _ o file M (Hb' o)) as M1.
    destruct (mid_handle_put _ _ rs _ o M1) as (w1 & -> & M2 & S2). cbn [mbind option_bind].
    destruct (IH w1 hs rs ps Hl M2 Hb') as (w2 & -> & M3 & S3). exists w2.
    split; [done|]. split; [done|]. unfold same_idr in *. cbn [d_gem] in S2. congruence.
  - by apply Forall_cons_1 in Hl as [[? _] _].
Qed.

Lemma dev_release_ok w rs file : dev_ok w rs ->
  exists w', dev_release file w = Some w' /\ dev_ok w' rs.
Proof.
  intros Hw. pose proof Hw as [M N K]. unfold dev_release, handles_of.
  set (l := filter (fun p => p.1.1 = file) (map_to_list (object_idr (d_gem w)))).
  assert (Hl : Forall (fun p : (Z * Z) * option Z => p.2 <> None /\ p.1.1 = file) l).
  { apply Forall_forall. intros [k v] [Hp Hk%elem_of_map_to_list]%list_elem_of_filter. cbn in *.
    split; [|done]. intros ->. by apply (N k). }
  pose proof (gpairs_file (object_idr (d_gem w)) file) as Ep. fold l in Ep.
  rewrite (hlist_file (object_idr (d_gem w)) file), Ep in M. fold l in M.
  destruct (dev_release_handles_ok file l w _ rs _ Hl M) as (w1 & -> & M1 & S1).
  { intros o. rewrite <- Ep. by apply (grant_bound w rs). }
  cbn [mbind option_bind]. unfold same_idr in S1. rewrite S1. eexists. split; [done|].
  apply (dev_ok_of _ (filter (fun p => p.1.1 <> file) (object_idr (d_gem w)))); [done|by apply mid_set_idr|by apply no_null_filter|].
  intros k v [Hk _]%map_lookup_filter_Some. by apply (K k v).
Qed.

(** *** Offsets *)

Lemma mid_offset_add w hs rs ps o pages : dev_mid w hs rs ps -> alive o (d_gem w) -> is_u64 pages ->
  exists ret v, drm_vma_offset_add o pages (d_vma w) = Some (ret, v) /\ dev_mid (Dev (d_gem w) v) hs rs ps.
Proof.
  intros [B V G R N] Ha Hp. destruct (add_ok _ _ (d_vma w) o pages V (N o Ha) Hp) as (ret & v & E & V' & Hs).
  exists ret, v. split; [done|].
  assert (HC : counts_of v = counts_of (d_vma w)
    /\ forall j p, ranges_of v !! j = Some p -> j = o \/ ranges_of (d_vma w) !! j = Some p).
  { inversion Hs as [|i pg q|i pg s|i pg| | | | | | | | |]; subst; (split; [congruence|]); intros j q' Hj;
      try (right; congruence).
    destruct (decide (j = o)) as [|Hne]; [by left|]. right.
    by rewrite lookup_insert_ne in Hj. }
  destruct HC as [EC HR]. split; cbn [d_gem d_vma]; [done|done| | |done].
  - intros j file. rewrite <- counts_total, EC, counts_total. apply G.
  - intros j p Hj. destruct (HR j p Hj) as [->|Hj']; [done|by apply (R j p)].
Qed.

Lemma map_offset_ok w rs file h : dev_ok w rs ->
  exists ret off w', drm_gem_dumb_map_offset file h w = Some (ret, off, w') /\ dev_ok w' rs.
Proof.
  intros Hw. unfold drm_gem_dumb_map_offset.
  destruct (dev_lookup_ok w rs file h Hw) as (o & g & -> & Ho). cbn [mbind option_bind].
  destruct o as [o|]; [|by eexists _, _, w]. destruct Ho as (Eh & Hg & S).
  assert (Ha : alive o g) by (apply (mid_alive _ _ _ _ o (dk_mid _ _ Hg)), elem_of_app; right; by left).
  unfold drm_gem_create_mmap_offset. cbn [d_gem]. destruct Ha as [b Eb] eqn:Ea. clear Ea.
  rewrite Eb. cbn [mbind option_bind]. unfold drm_gem_create_mmap_offset_size.
  destruct (mid_offset_add _ _ _ _ o (u64 (obj_size b) / PAGE_SIZE) (dk_mid _ _ Hg) Ha) as (ret & v & -> & M).
  { pose proof (wrapU_range 64 (obj_size b)) as Hu. unfold is_u in *. unfold PAGE_SIZE.
    split; [apply Z.div_pos; lia|]. apply Z.div_lt_upper_bound; lia. }
  cbn [mbind option_bind d_gem d_vma].
  assert (Hw1 : dev_ok (Dev g v) (o :: rs)) by (by destruct Hg as [_ N K]).
  destruct (put_dev_ok _ rs o Hw1) as (w' & -> & Hw' & _). cbn [mbind option_bind]. by eexists _, _, w'.
Qed.
End alloc.

(** *** Mapping *)

Lemma area_pages a : area_ok a ->
  0 < vma_pages a /\ u64 (vm_end a - vm_start a) = vma_pages a * PAGE_SIZE
  /\ 0 <= vm_pgoff a /\ vm_pgoff a + vma_pages a < 2 ^ 64.
Proof.
  intros (H1 & H2 & H3 & [k Hk] & H5). unfold PAGE_SIZE in Hk.
  assert (E : vma_pages a = k).
  { unfold vma_pages. rewrite u64_small by (unfold is_u; lia).
    rewrite Z.shiftr_div_pow2, Hk by (unfold PAGE_SHIFT; lia). apply Z.div_mul. done. }
  rewrite E in *. unfold PAGE_SIZE. split; [lia|]. split; [|done]. rewrite u64_small by (unfold is_u; lia). lia.
Qed.

(** A range is a part of the offset space. *)
Lemma range_bound S E v o s z : vma_inv S E v -> ranges_of v !! o = Some (s, z) ->
  0 <= s /\ 0 < z /\ s + z <= E /\ drm_vma_node_start v o = s /\ drm_vma_node_size v o = z.
Proof.
  intros [I _ _] Er. unfold ranges_of in Er. rewrite abs_lookup in Er. case_decide as Ho; [|done].
  injection Er as <- <-. pose proof (iv_node _ _ _ I) as Hn. rewrite Forall_forall in Hn.
  by destruct (Hn o Ho).
Qed.

(** Taking a reference and putting it back changes nothing. *)
Lemma get_put w rs o g : dev_ok w rs -> drm_gem_object_get o (d_gem w) = Some g ->
  dev_object_put o (Dev g (d_vma w)) = Some w.
Proof.
  intros Hw Eg. unfold dev_object_put. cbn [d_gem d_vma].
  assert (Hl : forall b, objs (d_gem w) !! o = Some b -> refcount b <> 0).
  { intros b E. by apply (ok_live _ [] rs o b (dev_ok_store w rs Hw)). }
  rewrite (put_get (d_gem w) g o Hl Eg). cbn [mbind option_bind]. unfold settle.
  unfold drm_gem_object_get in Eg. destruct (objs (d_gem w) !! o); [by destruct w|done].
Qed.

Lemma kref_get_alive o g : alive o g -> kref_get_unless_zero o g = drm_gem_object_get o g.
Proof. intros [b E]. unfold kref_get_unless_zero, drm_gem_object_get. by rewrite E. Qed.

(** What the driver's functions say to a mapping. *)
Definition accepts (f : mmap_funcs) : Prop :=
  match f_mmap f with Some ret => ret = 0 | None => f_vm_ops f = true end.

(** When a file may map the area: its first page is where an object's range starts, the
    range has all its pages, and the file has a handle to the object. *)
Definition mappable (w : dev) (file : Z) (a : vm_area) (o : Z) : Prop :=
  (exists z, ranges_of (d_vma w) !! o = Some (vm_pgoff a, z) /\ vma_pages a <= z)
  /\ exists h, object_idr (d_gem w) !! (file, h) = Some (Some o).

Lemma allowed_handle w rs o file : dev_ok w rs ->
  drm_vma_node_is_allowed (d_vma w) o file = true
  <-> exists h, object_idr (d_gem w) !! (file, h) = Some (Some o).
Proof.
  intros [[B V G R N] _ _]. rewrite (is_allowed_grants _ _ _ o file V), bool_decide_eq_true.
  rewrite G, <- gpairs_in, <- cnt_pos. unfold tally.
  pose proof (cnt_nonneg (file, o) (gpairs (object_idr (d_gem w)))).
  destruct (Z.eqb_spec (cnt (file, o) (gpairs (object_idr (d_gem w)))) 0); split; try lia.
  - by intros [].
  - by eexists.
Qed.

Lemma mmap_obj_ok w rs f o sz a : dev_ok w rs -> alive o (d_gem w) ->
  u64 (vm_end a - vm_start a) <= sz ->
  exists ret w', drm_gem_mmap_obj f o sz a w = Some (ret, w')
    /\ (ret = 0 /\ accepts f /\ (exists g, drm_gem_object_get o (d_gem w) = Some g /\ w' = Dev g (d_vma w))
           /\ dev_ok w' (o :: rs)
        \/ ret <> 0 /\ ~ accepts f /\ w' = w).
Proof.
  intros Hw Ha Hsz. unfold drm_gem_mmap_obj. destruct (Z.ltb_spec sz (u64 (vm_end a - vm_start a))); [lia|].
  destruct (get_dev_ok w rs o Hw Ha) as (g & Eg & Hg & _). rewrite Eg. cbn [mbind option_bind].
  set (ret := match f_mmap f with Some ret => ret | None => if f_vm_ops f then 0 else - EINVAL end).
  assert (Hr : ret = 0 <-> accepts f).
  { unfold ret, accepts. destruct (f_mmap f); [done|]. by destruct (f_vm_ops f). }
  destruct (Z.eqb_spec ret 0) as [E|E].
  - eexists _, _. split; [done|]. left. split; [done|]. split; [tauto|]. split; [by exists g|done].
  - rewrite (get_put w rs o g Hw Eg). cbn [mbind option_bind]. eexists _, _. split; [done|]. right. tauto.
Qed.

(** The one object a file may map at the area. *)
Lemma lookup_at_offset_ok w rs file a : dev_ok w rs -> area_ok a ->
  exists r w', drm_gem_object_lookup_at_offset false file (vm_pgoff a) (vma_pages a) w = Some (r, w')
    /\ match r with
       | inl err => err <> 0 /\ w' = w /\ forall o, ~ mappable w file a o
       | inr o => mappable w file a o /\ (exists g, drm_gem_object_get o (d_gem w) = Some g
                    /\ w' = Dev g (d_vma w)) /\ dev_ok w' (o :: rs)
       end.
Proof.
  intros Hw Hok. destruct (area_pages a Hok) as (P1 & P2 & P3 & P4).
  unfold drm_gem_object_lookup_at_offset.
  pose proof (exact_lookup_ok _ _ (d_vma w) (vm_pgoff a) (vma_pages a) (dm_vma _ _ _ _ (dk_mid _ _ Hw)) P3 P1 P4) as Hx.
  destruct (drm_vma_offset_exact_lookup_locked (d_vma w) (vm_pgoff a) (vma_pages a)) as [o|] eqn:Ex;
    cbn [mbind option_bind].
  2: { exists (inl (- EINVAL)), w. split; [done|]. split; [done|]. split; [done|].
       intros o [(z & Ez & Hz) _]. by apply (Hx o z). }
  destruct Hx as (z & Ez & Hz).
  assert (Ha : alive o (d_gem w)) by (by apply (dm_ranges _ _ _ _ (dk_mid _ _ Hw) o (vm_pgoff a, z))).
  destruct (get_dev_ok w rs o Hw Ha) as (g & Eg & Hg & _).
  rewrite (kref_get_alive o _ Ha), Eg. cbn [mbind option_bind d_vma].
  pose proof (allowed_handle w rs o file Hw) as Hal.
  destruct (drm_vma_node_is_allowed (d_vma w) o file); cbn [negb].
  - exists (inr o), (Dev g (d_vma w)). split; [done|]. split; [|split; [by exists g|done]].
    split; [by exists z|by apply Hal].
  - rewrite (get_put w rs o g Hw Eg). cbn [mbind option_bind].
    exists (inl (- EACCES)), w. split; [done|]. split; [done|]. split; [done|].
    intros j [(z' & Ez' & Hz') Hh]. assert (j = o) as ->; [|by apply Hal in Hh].
    assert (Hsp : forall i y, ranges_of (d_vma w) !! i = Some (vm_pgoff a, y) -> vma_pages a <= y ->
      spans (ranges_of (d_vma w)) (vm_pgoff a) (vma_pages a) i).
    { intros i y Ei Hy. exists (vm_pgoff a), y. split; [done|lia]. }
    eapply (spans_unique _ _ (d_vma w)); [apply (dm_vma _ _ _ _ (dk_mid _ _ Hw))|exact P1|..]; eauto.
Qed.

Lemma mmap_ok w rs unplugged funcs file a : dev_ok w rs -> area_ok a ->
  exists ret r w', drm_gem_mmap unplugged funcs file a w = Some (ret, r, w')
    /\ match r with
       | Some o => ret = 0 /\ unplugged = false /\ mappable w file a o /\ accepts (funcs o)
                   /\ (exists g, drm_gem_object_get o (d_gem w) = Some g /\ w' = Dev g (d_vma w))
                   /\ dev_ok w' (o :: rs)
       | None => ret <> 0 /\ w' = w
                 /\ forall o, unplugged = false -> mappable w file a o -> ~ accepts (funcs o)
       end.
Proof.
  intros Hw Hok. unfold drm_gem_mmap. destruct unplugged.
  { exists (- ENODEV), None, w. split; [done|]. split; [done|]. by split. }
  destruct (lookup_at_offset_ok w rs file a Hw Hok) as (r & w1 & -> & Hr). cbn [mbind option_bind].
  destruct r as [err|o].
  { destruct Hr as (He & -> & Hn). exists err, None, w. split; [done|]. split; [done|]. split; [done|].
    intros o _ Ho. by destruct (Hn o). }
  destruct Hr as (Hm & (g & Eg & ->) & Hg). cbn [d_vma].
  destruct (area_pages a Hok) as (P1 & P2 & P3 & P4). pose proof Hm as [(z & Ez & Hz) _].
  destruct (range_bound _ _ _ o _ z (dm_vma _ _ _ _ (dk_mid _ _ Hw)) Ez) as (B1 & B2 & B3 & _ & ->).
  assert (Hz' : u64 (Z.shiftl z PAGE_SHIFT) = z * PAGE_SIZE).
  { rewrite Z.shiftl_mul_pow2 by done. change (2 ^ PAGE_SHIFT) with PAGE_SIZE. apply u64_small.
    change space_end with 269483776 in B3. unfold is_u, PAGE_SIZE. lia. }
  assert (Hag : alive o g) by (apply (mid_alive _ _ _ _ o (dk_mid _ _ Hg)), elem_of_app; right; by left).
  destruct (mmap_obj_ok (Dev g (d_vma w)) (o :: rs) (funcs o) o (u64 (Z.shiftl z PAGE_SHIFT)) a Hg Hag)
    as (ret & w2 & -> & Hw2).
  { rewrite P2, Hz'. unfold PAGE_SIZE. lia. }
  cbn [mbind option_bind]. destruct Hw2 as [(-> & Hacc & (g2 & Eg2 & ->) & Hg2)|(Hret & Hacc & ->)].
  - cbn [d_gem d_vma] in *. pose proof (get_put (Dev g (d_vma w)) (o :: rs) o g2 Hg Eg2) as Ep.
    cbn [d_vma] in Ep. rewrite Ep. cbn [mbind option_bind Z.eqb].
    exists 0, (Some o), (Dev g (d_vma w)). split; [done|].
    split; [done|]. split; [done|]. split; [done|]. split; [done|]. split; [by exists g|done].
  - rewrite (get_put w rs o g Hw Eg). cbn [mbind option_bind].
    exists ret, None, w. destruct (Z.eqb_spec ret 0); [done|]. split; [done|]. split; [done|]. split; [done|].
    intros j _ [(z' & Ez' & Hz'') _]. assert (j = o) as ->; [|done].
    eapply (spans_unique _ _ (d_vma w) (vm_pgoff a) (vma_pages a));
      [apply (dm_vma _ _ _ _ (dk_mid _ _ Hw))|exact P1|eexists _, _; split; [eassumption|lia]..].
Qed.

(** ** Reachable states *)

Lemma init_dev_ok : dev_ok drm_gem_init [].
Proof.
  apply (dev_ok_of _ ∅); [done| |by intros k|by intros k].
  split; cbn [drm_gem_init d_gem d_vma].
  - repeat split; try done. by intros o ?%not_elem_of_nil.
  - by apply vma_init_ok.
  - intros o file. rewrite <- counts_total. done.
  - intros o p. done.
  - intros o [b Hb]. done.
Qed.

Section system.
Context (idr_alloc : (Z -> bool) -> Z -> Z -> Z) (funcs : Z -> mmap_funcs).
Hypothesis idr_alloc_fresh : forall used s e,
  0 <= idr_alloc used s e -> s <= idr_alloc used s e /\ used (idr_alloc used s e) = false.
Hypothesis idr_alloc_int : forall used s e, idr_alloc used s e < 2 ^ 31.

Definition msys_ok (s : msys) : Prop := dev_ok (m_dev s) (m_held s ++ m_maps s).

Lemma mexec_ok e s : msys_ok s -> menabled e s ->
  exists ret s', mexec idr_alloc funcs e s = Some (ret, s') /\ msys_ok s'.
Proof.
  destruct s as [w held maps]. unfold msys_ok. cbn [m_dev m_held m_maps]. intros Hw En.
  destruct e as [o size|file h|n|file n new op|file h|file h|file name new op|file h new|file|file h
    |unplugged file a|n|n]; cbn [mexec menabled m_dev m_held m_maps] in *.
  - destruct En as (Ho & Hn & _). eexists _, _. split; [done|]. cbn. by apply new_dev_ok.
  - destruct (dev_lookup_ok w _ file h Hw) as (o & g' & -> & Ho). cbn [mbind option_bind].
    eexists _, _. split; [apply f_equal, surjective_pairing|].
    destruct o as [o|]; [by destruct Ho as (_ & ? & _)|done].
  - destruct En as [o Eo]. rewrite Eo. cbn [mbind option_bind].
    rewrite (delete_Permutation held n o Eo : held ≡ₚ _) in Hw.
    destruct (put_dev_ok w _ o Hw) as (w' & -> & Hw' & _). by eexists _, _.
  - destruct En as [[o Eo] Hnew]. rewrite Eo. cbn [mbind option_bind].
    assert (Ha : alive o (d_gem w)).
    { apply (mid_alive _ _ _ _ o (dk_mid _ _ Hw)). rewrite !elem_of_app. right. left.
      by apply list_elem_of_lookup_2 in Eo. }
    destruct (dev_create_tail_ok idr_alloc idr_alloc_fresh idr_alloc_int w _ file o new op Hw Ha Hnew)
      as (ret & h & w' & -> & Hw'). by eexists _, _.
  - destruct (dev_delete_ok w _ file h Hw) as (ret & w' & -> & Hw'). by eexists _, _.
  - destruct (flink_dev_ok idr_alloc idr_alloc_fresh w _ file h Hw) as (ret & nm & g' & -> & Hw').
    by eexists _, _.
  - destruct (dev_open_ok idr_alloc idr_alloc_fresh idr_alloc_int w _ file name new op Hw En)
      as (ret & h & w' & -> & Hw'). by eexists _, _.
  - destruct (change_dev_ok idr_alloc idr_alloc_fresh idr_alloc_int w _ file h new Hw) as (ret & g' & -> & Hw').
    by eexists _, _.
  - destruct (dev_release_ok w _ file Hw) as (w' & -> & Hw'). by eexists _, _.
  - destruct (map_offset_ok w _ file h Hw) as (ret & off & w' & -> & Hw'). by eexists _, _.
  - destruct (mmap_ok w _ unplugged funcs file a Hw En) as (ret & r & w' & -> & Hr).
    cbn [mbind option_bind]. eexists _, _. split; [done|]. cbn [m_dev m_held m_maps].
    destruct r as [o|]; [|by destruct Hr as (_ & -> & _)].
    destruct Hr as (_ & _ & _ & _ & _ & Hw'). by rewrite <- Permutation_middle.
  - destruct En as [o Eo]. rewrite Eo. cbn [mbind option_bind].
    assert (Ha : alive o (d_gem w)).
    { apply (mid_alive _ _ _ _ o (dk_mid _ _ Hw)). rewrite !elem_of_app. right. right.
      by apply list_elem_of_lookup_2 in Eo. }
    unfold drm_gem_vm_open. destruct (get_dev_ok w _ o Hw Ha) as (g' & -> & Hw' & _).
    cbn [mbind option_bind]. eexists _, _. split; [done|]. cbn [m_dev m_held m_maps].
    by rewrite <- Permutation_middle.
  - destruct En as [o Eo]. rewrite Eo. cbn [mbind option_bind].
    rewrite (delete_Permutation maps n o Eo : maps ≡ₚ _), <- Permutation_middle in Hw.
    unfold drm_gem_vm_close. destruct (put_dev_ok w _ o Hw) as (w' & -> & Hw' & _). by eexists _, _.
Qed.

Lemma mreachable_ok s : mreachable idr_alloc funcs s -> msys_ok s.
Proof.
  induction 1 as [|s e ret s' Hr IH Hen Hex]; [exact init_dev_ok|].
  destruct (mexec_ok e s IH Hen) as (ret1 & s1 & E1 & Hok). rewrite Hex in E1. by injection E1 as _ <-.
Qed.

(** C36. In every state of a device that calls in any order lead to, with handles made,
    taken away, opened by name and closed, offsets made and mappings copied and unmapped:
    no call gets stuck; a file is granted access to an object exactly when it has a handle
    to it; only live objects have offsets and every mapped object is alive; and mmap() of
    a file succeeds exactly when the device is there, the area starts at the offset of an
    object that is large enough, the file has a handle to that object and the driver's
    functions accept it.  It then maps that object and only takes a reference to it; when
    it fails it changes nothing. *)
Theorem mmap_access s unplugged file a :
  mreachable idr_alloc funcs s -> area_ok a ->
  (forall e, menabled e s -> is_Some (mexec idr_alloc funcs e s))
  /\ (forall o f, drm_vma_node_is_allowed (d_vma (m_dev s)) o f = true
        <-> exists h, object_idr (d_gem (m_dev s)) !! (f, h) = Some (Some o))
  /\ (forall o, is_Some (ranges_of (d_vma (m_dev s)) !! o) \/ o ∈ m_maps s -> alive o (d_gem (m_dev s)))
  /\ exists ret s', mexec idr_alloc funcs (MMmap unplugged file a) s = Some (ret, s')
      /\ (ret = 0 <-> unplugged = false /\ exists o, mappable (m_dev s) file a o /\ accepts (funcs o))
      /\ (ret <> 0 -> s' = s)
      /\ (ret = 0 -> exists o g, mappable (m_dev s) file a o
            /\ drm_gem_object_get o (d_gem (m_dev s)) = Some g
            /\ s' = MSys (Dev g (d_vma (m_dev s))) (m_held s) (o :: m_maps s)).
Proof.
  intros Hs%mreachable_ok Ha. split; [|split; [|split]].
  - intros e He. destruct (mexec_ok e s Hs He) as (ret & s' & -> & _). by eexists.
  - intros o f. apply (allowed_handle _ _ o f Hs).
  - intros o [[p Hp]|Ho]; [by apply (dm_ranges _ _ _ _ (dk_mid _ _ Hs) o p)|].
    apply (mid_alive _ _ _ _ o (dk_mid _ _ Hs)). rewrite !elem_of_app. tauto.
  - destruct s as [w held maps]. cbn [mexec m_dev m_held m_maps] in *.
    destruct (mmap_ok w _ unplugged funcs file a Hs Ha) as (ret & r & w' & -> & Hr).
    cbn [mbind option_bind]. eexists _, _. split; [done|]. destruct r as [o|].
    + destruct Hr as (-> & Hu & Hm & Hacc & (g & Eg & ->) & _). split; [|split; [done|]].
      * split; [|done]. intros _. split; [done|]. by exists o.
      * intros _. by exists o, g.
    + destruct Hr as (Hret & -> & Hno). split; [|split; [done|done]].
      split; [done|]. intros (Hu & o & Hm & Hacc). by destruct (Hno o Hu Hm).
Qed.
End system.
End ops.

(** ** At concrete calls *)

Module MmapSample.
Import Plain.

(** Ids that are ints. *)
Definition lowest_int (used : Z -> bool) (s e : Z) : Z :=
  let r := GemSample.lowest used s e in if r <? 2 ^ 31 then r else - ENOSPC.

Lemma lowest_int_fresh used s e :
  0 <= lowest_int used s e -> s <= lowest_int used s e /\ used (lowest_int used s e) = false.
Proof. unfold lowest_int. destruct (_ <? _); [apply GemSample.lowest_fresh|lia]. Qed.

Lemma lowest_int_int used s e : lowest_int used s e < 2 ^ 31.
Proof. unfold lowest_int. destruct (Z.ltb_spec (GemSample.lowest used s e) (2 ^ 31)); lia. Qed.

(** A driver with vm_ops for its objects and no mmap function. *)
Definition driver (o : Z) : mmap_funcs := Funcs None true.

Fixpoint run (l : list mevent) (s : msys) : option msys :=
  match l with [] => Some s | e :: l => '(_, s) ← mexec lowest_int driver e s; run l s end.

Fixpoint all_enabled (l : list mevent) (s : msys) : Prop :=
  match l with
  | [] => True
  | e :: l => menabled e s
              /\ match mexec lowest_int driver e s with Some (_, s) => all_enabled l s | None => False end
  end.

Lemma run_mreachable l : forall s s', mreachable lowest_int driver s -> all_enabled l s ->
  run l s = Some s' -> mreachable lowest_int driver s'.
Proof.
  induction l as [|e l IH]; intros s s' Hr; cbn [all_enabled run]; [by intros _ [= <-]|]. intros [He Hl].
  destruct (mexec lowest_int driver e s) as [[ret s1]|] eqn:E; [|done]. cbn [mbind option_bind]. apply IH; [|done].
  by apply (mreach_step lowest_int driver s e ret).
Qed.

(** Freshness by looking at every node. *)
Lemma fresh_entry_check x v :
  bool_decide (map_Forall (fun _ n => entries n !! x = None) (vma_nodes v)) = true -> fresh_entry (Some x) v.
Proof.
  intros Hx%bool_decide_eq_true i. unfold vma_node. rewrite lookup_total_alt.
  destruct (vma_nodes v !! i) as [n|] eqn:En; [by apply (Hx i)|]. apply lookup_empty.
Qed.

(** An object of four pages with a handle of file 30 and an offset. *)
Definition history : list mevent := [MNew 7 16384; MCreate 30 0 None 0; MCreate 30 0 (Some 500) 0; MPut 0; MOffset 30 1].
Definition in_use : msys := match run history minit with Some s => s | None => minit end.

Lemma calls_run : run history minit = Some in_use.
Proof. vm_compute. reflexivity. Qed.

Lemma in_use_reachable : mreachable lowest_int driver in_use.
Proof.
  refine (run_mreachable history minit in_use (mreach_init _ _) _ calls_run).
  split; [vm_compute; repeat split; discriminate|].
  split; [split; [by eexists|done]|].
  split; [split; [by eexists|apply fresh_entry_check; vm_compute; reflexivity]|].
  split; [by eexists|]. vm_compute. done.
Qed.

(** Two of its pages. *)
Definition area : vm_area := Area 0x7f0000000000 0x7f0000002000 DRM_FILE_PAGE_OFFSET_START.
End MmapSample.

Import Plain.

Lemma sample_area_ok : area_ok MmapSample.area.
Proof.
  split; [vm_compute; split; [discriminate|reflexivity]|]. split; [vm_compute; reflexivity|].
  split; [vm_compute; discriminate|]. split; [exists 2; reflexivity|vm_compute; reflexivity].
Qed.

Lemma mmap_access_witness :
  mreachable MmapSample.lowest_int MmapSample.driver MmapSample.in_use
  /\ area_ok MmapSample.area
  /\ exists ret s', mexec MmapSample.lowest_int MmapSample.driver (MMmap false 30 MmapSample.area) MmapSample.in_use
                    = Some (ret, s')
     /\ (ret = 0 <-> false = false /\ exists o, mappable (m_dev MmapSample.in_use) 30 MmapSample.area o
                                          /\ accepts (MmapSample.driver o)).
Proof.
  split; [exact MmapSample.in_use_reachable|]. split; [exact sample_area_ok|].
  destruct (mmap_access MmapSample.lowest_int MmapSample.driver MmapSample.lowest_int_fresh
    MmapSample.lowest_int_int MmapSample.in_use false 30 MmapSample.area MmapSample.in_use_reachable sample_area_ok)
    as (_ & _ & _ & ret & s' & E & Hr & _).
  exists ret, s'. exact (conj E Hr).
Defined.

(** The file with the handle maps the object, another file is refused, and so is a longer
    area. *)
Example mmap_sample :
  let call file a := (fun r => r.1) <$> mexec MmapSample.lowest_int MmapSample.driver (MMmap false file a) MmapSample.in_use in
  call 30 MmapSample.area = Some 0 /\ call 31 MmapSample.area = Some (- EACCES)
  /\ call 30 (Area 0x7f0000000000 0x7f0000005000 DRM_FILE_PAGE_OFFSET_START) = Some (- EINVAL)
  /\ call 30 (Area 0x7f0000000000 0x7f0000001000 (DRM_FILE_PAGE_OFFSET_START + 1)) = Some (- EINVAL).
Proof. vm_compute. repeat split. Qed.
